(* ===== verification/_CoqProject ===== *)
-Q . S2P
Prelude.v
Crc32.v
Packet.v
Uthash.v
Lru.v
PortMap.v
AppNames.v
PcapDump.v
Blacklist.v
NdpiProtos.v
Conn.v
Examples.v
ConnInv.v
JavaDump.v
Dpi.v
DnsReply.v
Housekeeping.v
JavaRequests.v
CaptureLibpcap.v
PdRun.v
ConnStatus.v
Policy.v
Accounting.v
Payload.v
FileTrailer.v
Checksum.v
Kernel.v
Zdtun.v
ZdtunFwd.v
ZdtunInv.v
ZdtunSafe.v
ZdtunTcpSafe.v
ZdtunRun.v
ZdtunEngine.v
ZdtunReply.v
ZdtunFrame.v
ZdtunStream.v
CText.v
UidResolver.v
CaptureVpn.v
VpnInv.v
VpnSafe.v
VpnPolicy.v
DnsSpoof.v
Framing.v
PcapdArgs.v
RootRun.v
NlUtils.v
IfaceAddr.v
Pcapd.v
PcapdInv.v
PcapdRun.v
RootSystem.v
LogWriter.v
JavaStart.v
