(* ===== verification/Prelude.v ===== *)
(** * PCAPdroid: a model of the native capture core

    PCAPdroid captures the traffic of an Android device. Its native part (C,
    under app/src/main/jni) receives the packets, keeps a record of every
    connection, inspects it, decides whether it is blocked, writes the packets
    to a PCAP or PCAPNG stream and reports to the Java side. Two capture modes
    feed it: the root mode (a daemon, pcapd, that reads the interfaces and sends
    the packets over a socket to the loop of core/capture_libpcap.c) and the VPN
    mode (core/capture_vpn.c over the user-space connection engine zdtun of
    submodules/zdtun). This library models the core, both modes, the engine and
    the daemon as pure functions and state-passing computations, and proves what
    they promise.

    ** Conventions

    - Integers are [Z]; wherever the source stores into an object of fixed
      width the model applies [u8] ... [u64], [s32]. Buffers are lists of
      bytes; a load outside of the buffer is [None].
    - A stateful operation is a computation of the monad [M] over a state:
      [Conn.pcapdroid] for the core (pcapdroid_t of core/pcapdroid.h with the
      variables of the modules), [Zdtun.tun_state] for the engine with its user
      and its kernel, [Pcapd.pcapd_runtime] for the daemon, [LogWriter.log_state]
      for the log. [None] is undefined behaviour (a null or freed pointer, an
      access out of bounds, an undefined shift), error codes are ordinary
      results. [wp m Q s] says that [m] ends without undefined behaviour and
      with [Q]; [wlp] is its partial version; [maintains] and [preserves] are an
      invariant and a projection that [m] keeps.
    - The records of the connections live in explicit stores ([heap], [zt_heap])
      under pointers that tables, arrays and callbacks share; freeing deletes
      from the store, so a use after free is [None].
    - The outcomes of malloc, realloc, strdup and of the JNI calls are lists of
      booleans in the state, consumed one by one; the answers of the sockets,
      of clocks, of libpcap, of netlink and of the Java side are lists or
      environments too. A theorem quantifies over them, that is over which ones
      fail.
    - nDPI (submodules/nDPI) is the class [NdpiProtos.NdpiFlow] for the
      detection and [Blacklist.Ndpi] (with laws where a theorem needs them) for
      its address trees. The user of the engine is the class [Zdtun.Callbacks];
      [ZdtunInv.SafeCallbacks] is its contract, against which the theorems of the
      engine are proved and which VpnInv discharges for the core.
      [ConnInv.CaptureMode] is what the invariant of the core has of the mode: the
      root mode has its table of connections in the core, the VPN mode has it in
      the engine. Examples has instances that the witnesses use.

    ** Files

    - Prelude: integers, bytes, record update, the monad with its rules,
      addressable buffers. Uthash: the hash tables of uthash.h as association
      lists in insertion order. Examples: instances of the classes. CText: fgets,
      sscanf, printf and atoi of the C library. Kernel: sockets and descriptors.
    - Components: Crc32 (core/crc32.c); Packet (zdtun_parse_pkt); Checksum
      (zdtun/utils.c and the IP headers of zdtun.c); Lru (common/uid_lru.c,
      core/ip_lru.c); PortMap (core/port_map.c); AppNames (get_appname_by_uid);
      PcapDump (core/pcap_dump.c) and FileTrailer (its trailers read back by
      core/capture_libpcap.c); Blacklist (core/blacklist.c); NdpiProtos
      (core/ndpi_config.c); UidResolver (common/uid_resolver.c); LogWriter
      (core/log_writer.c and the functions of common/utils.c and jni_impl.c that
      log).
    - The core (core/pcapdroid.c): Conn (state, life of a record), ConnInv (its
      invariant), JavaDump (core/jni_impl.c, what is sent to the service), Dpi
      (pd_process_packet, the DNS parser, the statistics), DnsReply (what the
      parser learns), Accounting, Payload, Policy (sums of the counters, payloads
      kept, what is blocked), Housekeeping (the periodic tasks, the reload of the
      lists), JavaRequests (the native methods), PdRun (pd_run).
    - The root mode: CaptureLibpcap (the loop and its table), ConnStatus (TCP
      states, expiration), RootRun (run_libpcap around its loop: the daemon, the
      redirections), PcapdArgs (connectPcapd and the parsing of the options by
      the daemon), Framing (the stream between both, xread and xwrite), Pcapd,
      PcapdInv, PcapdRun (pcapd/pcapd.c, its invariant, its run), NlUtils and
      IfaceAddr (pcapd/nl_utils.c and the addresses of the interfaces),
      RootSystem (daemon and capture together).
    - The VPN mode: Zdtun, ZdtunFwd (zdtun/zdtun.c and socks5.c), ZdtunInv,
      ZdtunSafe, ZdtunTcpSafe, ZdtunRun, ZdtunEngine (its invariant and the
      operations that keep it), ZdtunReply (the packets for the client),
      ZdtunFrame, ZdtunStream (what a step leaves alone; the upload of a
      connection), CaptureVpn (core/capture_vpn.c), VpnInv, VpnSafe, VpnPolicy,
      DnsSpoof (the core as the user of the engine, the run, the blocked
      connections, the made-up DNS replies).
    - JavaStart: core/jni_impl.c, what runPacketLoop reads from Java and starts;
      any sequence of captures in either mode.

    ** Theorems

    - Safety and cleanup of whole runs: of the root capture and its store
      (PdRun), of the VPN capture (VpnSafe), of the engine for any user that
      keeps the contract (ZdtunEngine), of the daemon (PcapdRun), of the root
      capture with the daemon (RootSystem) and with the processes and the
      firewall around it (RootRun); by invariants that every operation keeps.
    - What goes through is what was meant: the upload of the engine
      (ZdtunStream), the packets that it builds (ZdtunReply, Checksum), the
      spoofed replies (DnsSpoof), the frames of the daemon (Framing, PcapdRun),
      its command line (PcapdArgs), the dump and the files read back (PcapDump,
      FileTrailer).
    - Behaviour against specifications that do not mention how the code
      computes it: what is blocked (Policy, VpnPolicy), statuses and expiration
      (ConnStatus), what Java receives (JavaDump), what is learned from DNS
      (DnsReply), counters and payloads (Accounting, Payload), the owner of a
      connection (UidResolver, NlUtils), the lists (Blacklist), the caches (Lru),
      the CRC (Crc32), the parser (Packet).

    ** What is assumed

    The code has undefined behaviours outside of these conditions, which the
    theorems that need them state:
    - every realloc and strndup of the core succeeds, as do the allocations of
      the LRU cache and of the records of the blacklists of the start
      ([PdRun.allocs_ok]); for the VPN, the UID resolver and the list of the DNS
      servers ([VpnSafe.env_ok]); for the daemon, zdtun_init and fork, and it has
      no UID filter;
    - packets are in their buffer with the slack that the parsers read
      ([CaptureLibpcap.event_ok]: at most 65519 bytes in the root mode);
    - for the engine: well-formed SYN options with MSS and scale in range
      ([ZdtunTcpSafe.syn_ok]), an MTU between 60 and 65515, replies of at most
      [vpn_reply_limit] bytes at a time;
    - sockets are positive and distinct, clocks and timestamps fit 64 bits, the
      shell has its documented quoting, netlink its documented replies.

    ** Fuel

    The loops over buffers take fuel equal to the length of what they scan
    (each turn consumes a byte at least) and running out of it is [None]; the
    safety theorems, whose conclusion is that the result is not [None], show
    that it is enough. The nested close of the engine has fuel 1, since a close
    is entered at most once more; the attributes of a route are at most 128, in
    a buffer of 512 bytes. The packet loops are recursions over the events.

    ** Not modelled

    nDPI, libpcap, libmaxminddb and the generated files (third-party code, a
    parameter or not reached by what is modelled); the Java application;
    memtrack.h and jni_utils.c (debugging and wrappers); the tables of the JNI
    identifiers and the native methods that only report; the client, gateway and
    pivot programs of zdtun; the mutexes (each operation under one is a step);
    tests and fuzzing. *)
From Stdlib Require Import ZArith Lia.
From stdpp Require Import base option gmap numbers strings list.

Open Scope Z_scope.

(** * Integers at their width

    C integers are mathematical integers; every place where the source
    stores into a fixed-width object applies the wrap-around below. *)

Definition u8 (z : Z) : Z := z mod 2 ^ 8.
Definition u16 (z : Z) : Z := z mod 2 ^ 16.
Definition u32 (z : Z) : Z := z mod 2 ^ 32.
Definition u64 (z : Z) : Z := z mod 2 ^ 64.
Definition s32 (z : Z) : Z := (z + 2 ^ 31) mod 2 ^ 32 - 2 ^ 31.
Definition s64 (z : Z) : Z := (z + 2 ^ 63) mod 2 ^ 64 - 2 ^ 63.

Create HintDb width.
Create Rewrite HintDb width.
Create Rewrite HintDb blen.

Lemma u8_range z : 0 <= u8 z < 2 ^ 8.
Proof. apply Z.mod_pos_bound. lia. Qed.
Lemma u16_range z : 0 <= u16 z < 2 ^ 16.
Proof. apply Z.mod_pos_bound. lia. Qed.
Lemma u32_range z : 0 <= u32 z < 2 ^ 32.
Proof. apply Z.mod_pos_bound. lia. Qed.
Lemma u64_range z : 0 <= u64 z < 2 ^ 64.
Proof. apply Z.mod_pos_bound. lia. Qed.
Lemma u8_small z : 0 <= z < 2 ^ 8 -> u8 z = z.
Proof. apply Z.mod_small. Qed.
Lemma u16_small z : 0 <= z < 2 ^ 16 -> u16 z = z.
Proof. apply Z.mod_small. Qed.
Lemma u32_small z : 0 <= z < 2 ^ 32 -> u32 z = z.
Proof. apply Z.mod_small. Qed.
Lemma u64_small z : 0 <= z < 2 ^ 64 -> u64 z = z.
Proof. apply Z.mod_small. Qed.
Lemma s32_small z : - 2 ^ 31 <= z < 2 ^ 31 -> s32 z = z.
Proof. intros H. unfold s32. rewrite Z.mod_small; lia. Qed.
Lemma s32_range z : - 2 ^ 31 <= s32 z < 2 ^ 31.
Proof. unfold s32. pose proof (Z.mod_pos_bound (z + 2 ^ 31) (2 ^ 32) eq_refl). lia. Qed.

#[export] Hint Resolve u8_range u16_range u32_range u64_range s32_range : width.
#[export] Hint Rewrite u8_small u16_small u32_small u64_small s32_small using lia : width.

(** C booleans stored in integers. *)
Definition b2z (b : bool) : Z := if b then 1 else 0.

(** [(~n + 1) & 0x3]: the number of bytes that pad [n] to a multiple of 4. *)
Definition pad4 (n : Z) : Z := Z.land (Z.lnot n + 1) 3.

Lemma pad4_mod n : pad4 n = (- n) mod 4.
Proof.
  unfold pad4. replace (Z.lnot n + 1) with (- n) by (unfold Z.lnot; lia).
  change 3 with (Z.ones 2). rewrite Z.land_ones by lia. reflexivity.
Qed.

Lemma pad4_range n : 0 <= pad4 n < 4.
Proof. rewrite pad4_mod. apply Z.mod_pos_bound. lia. Qed.

Lemma pad4_aligns n : (n + pad4 n) mod 4 = 0.
Proof.
  rewrite pad4_mod. rewrite Zplus_mod_idemp_r.
  replace (n + - n) with 0 by lia. reflexivity.
Qed.

Lemma pad4_add_mult n k : pad4 (n + 4 * k) = pad4 n.
Proof.
  rewrite !pad4_mod. replace (- (n + 4 * k)) with (- n + (- k) * 4) by lia.
  apply Z.mod_add. lia.
Qed.

#[export] Hint Resolve pad4_range : width.

(** * Bytes and memory

    A byte is a [Z] in [0, 256); the hosts of the program (Android on ARM and
    x86) are little endian, so a multi-byte load takes the first byte as the
    least significant one. *)

Abbreviation bytes := (list Z).

Definition is_byte (b : Z) : Prop := 0 <= b < 256.
Definition wf_bytes (bs : bytes) : Prop := Forall is_byte bs.

Definition blen (bs : bytes) : Z := Z.of_nat (length bs).

(** Load from a buffer: [None] is an access outside of the object. *)
Definition rd8 (b : bytes) (off : Z) : option Z :=
  if off <? 0 then None else b !! Z.to_nat off.

Definition rd16 (b : bytes) (off : Z) : option Z :=
  lo ← rd8 b off; hi ← rd8 b (off + 1); Some (lo + 256 * hi).

Definition rd32 (b : bytes) (off : Z) : option Z :=
  lo ← rd16 b off; hi ← rd16 b (off + 2); Some (lo + 65536 * hi).

(** [n] consecutive bytes as one little-endian number ([memcpy] into an
    integer-like object such as [struct in6_addr]). *)
Fixpoint le_combine (bs : bytes) : Z :=
  match bs with
  | [] => 0
  | b :: bs' => b + 256 * le_combine bs'
  end.

Fixpoint le_split (n : nat) (z : Z) : bytes :=
  match n with
  | O => []
  | S n' => z mod 256 :: le_split n' (z / 256)
  end.

Definition slice (b : bytes) (off len : Z) : bytes :=
  take (Z.to_nat len) (drop (Z.to_nat off) b).

Definition rdn (b : bytes) (off len : Z) : option bytes :=
  if (off <? 0) || (len <? 0) || (blen b <? off + len) then None
  else Some (slice b off len).

Definition rd128 (b : bytes) (off : Z) : option Z := le_combine <$> rdn b off 16.

Lemma blen_nonneg b : 0 <= blen b.
Proof. unfold blen. lia. Qed.

Lemma blen_app a b : blen (a ++ b) = blen a + blen b.
Proof. unfold blen. rewrite length_app. lia. Qed.

Lemma blen_cons x b : blen (x :: b) = 1 + blen b.
Proof. unfold blen. rewrite length_cons. lia. Qed.

Lemma blen_nil : blen [] = 0.
Proof. reflexivity. Qed.

Lemma blen_replicate n x : blen (replicate n x) = Z.of_nat n.
Proof. unfold blen. by rewrite length_replicate. Qed.

Lemma blen_slice b off len :
  0 <= off -> 0 <= len -> off + len <= blen b -> blen (slice b off len) = len.
Proof.
  intros. unfold slice, blen in *. rewrite length_take, length_drop. lia.
Qed.

Lemma length_le_split n z : length (le_split n z) = n.
Proof. revert z. induction n as [|n IH]; intros z; simpl; [done|]. by rewrite IH. Qed.

Lemma blen_le_split n z : blen (le_split n z) = Z.of_nat n.
Proof. unfold blen. by rewrite length_le_split. Qed.

Lemma wf_le_split n z : wf_bytes (le_split n z).
Proof.
  unfold wf_bytes. revert z. induction n as [|n IH]; intros z; simpl; constructor; [|done].
  unfold is_byte. apply Z.mod_pos_bound. lia.
Qed.

Lemma le_combine_split n z : le_combine (le_split n z) = z mod 256 ^ Z.of_nat n.
Proof.
  revert z. induction n as [|n IH]; intros z.
  - simpl. by rewrite Z.mod_1_r.
  - cbn [le_split le_combine]. rewrite IH.
    rewrite Nat2Z.inj_succ, Z.pow_succ_r by lia.
    rewrite Z.rem_mul_r by (try lia; apply Z.pow_pos_nonneg; lia). lia.
Qed.

Lemma le_combine_range bs : wf_bytes bs -> 0 <= le_combine bs < 256 ^ blen bs.
Proof.
  intros H. induction H as [|b bs Hb _ IH]; [change (256 ^ blen []) with 1; simpl; lia|].
  pose proof (blen_nonneg bs). rewrite blen_cons, Z.pow_add_r by lia.
  cbn [le_combine]. unfold is_byte in Hb. change (256 ^ 1) with 256. nia.
Qed.

Lemma le_split_combine bs : wf_bytes bs -> le_split (length bs) (le_combine bs) = bs.
Proof.
  intros H. induction H as [|b bs Hb _ IH]; [done|].
  cbn [length le_split le_combine]. unfold is_byte in Hb.
  rewrite (Z.mul_comm 256 (le_combine bs)), Z.mod_add, Z.mod_small, Z.div_add, Z.div_small by lia.
  by rewrite Z.add_0_l, IH.
Qed.

Lemma rd8_Some b off : 0 <= off < blen b -> exists v, rd8 b off = Some v.
Proof.
  intros Hr. unfold rd8. destruct (Z.ltb_spec off 0); [lia|].
  apply lookup_lt_is_Some. unfold blen in Hr. lia.
Qed.

Lemma rd8_inv b off v : rd8 b off = Some v -> 0 <= off < blen b.
Proof.
  unfold rd8. destruct (Z.ltb_spec off 0); [done|]. intros Hl%lookup_lt_Some.
  unfold blen. lia.
Qed.

Lemma rd8_byte b off v : wf_bytes b -> rd8 b off = Some v -> is_byte v.
Proof.
  intros Hb. unfold rd8. destruct (_ <? _); [done|]. intros H.
  by eapply Forall_lookup_1 in H; [|exact Hb].
Qed.

Lemma rd16_Some b off : 0 <= off -> off + 2 <= blen b -> exists v, rd16 b off = Some v.
Proof.
  intros. unfold rd16.
  destruct (rd8_Some b off) as [lo ->]; [lia|]. simpl.
  destruct (rd8_Some b (off + 1)) as [hi ->]; [lia|]. simpl. eauto.
Qed.

Lemma rd16_range b off v : wf_bytes b -> rd16 b off = Some v -> 0 <= v < 2 ^ 16.
Proof.
  intros Hb. unfold rd16. destruct (rd8 b off) as [lo|] eqn:E1; simpl; [|done].
  destruct (rd8 b (off + 1)) as [hi|] eqn:E2; simpl; [|done].
  apply rd8_byte in E1, E2; try done. unfold is_byte in *. intros [= <-]. lia.
Qed.

Lemma rd32_Some b off : 0 <= off -> off + 4 <= blen b -> exists v, rd32 b off = Some v.
Proof.
  intros. unfold rd32.
  destruct (rd16_Some b off) as [lo ->]; [lia..|]. simpl.
  destruct (rd16_Some b (off + 2)) as [hi ->]; [lia..|]. simpl. eauto.
Qed.

Lemma rd32_range b off v : wf_bytes b -> rd32 b off = Some v -> 0 <= v < 2 ^ 32.
Proof.
  intros Hb. unfold rd32. destruct (rd16 b off) as [lo|] eqn:E1; simpl; [|done].
  destruct (rd16 b (off + 2)) as [hi|] eqn:E2; simpl; [|done].
  apply rd16_range in E1, E2; try done. intros [= <-]. lia.
Qed.

Lemma rdn_Some b off len :
  0 <= off -> 0 <= len -> off + len <= blen b -> rdn b off len = Some (slice b off len).
Proof.
  intros. unfold rdn.
  destruct (Z.ltb_spec off 0), (Z.ltb_spec len 0), (Z.ltb_spec (blen b) (off + len));
    simpl; try lia; done.
Qed.

Lemma rd128_Some b off : 0 <= off -> off + 16 <= blen b -> exists v, rd128 b off = Some v.
Proof. intros. unfold rd128. rewrite rdn_Some by lia. simpl. eauto. Qed.

Lemma filter_all {A} (P : A -> Prop) `{!forall x, Decision (P x)} (l : list A) :
  (forall x, x ∈ l -> P x) -> filter P l = l.
Proof.
  induction l as [|x l IH]; intros Hl; [done|].
  rewrite filter_cons, decide_True by (apply Hl; left). f_equal. apply IH.
  intros y Hy. apply Hl. by right.
Qed.

(** The unfolding of a loop over a buffer, as a rewrite rule. *)
Lemma fold_left_cons {A B} (f : A -> B -> A) x l a :
  fold_left f (x :: l) a = fold_left f l (f a x).
Proof. done. Qed.

#[export] Hint Resolve wf_le_split : width.
#[export] Hint Rewrite blen_app blen_cons blen_nil blen_replicate blen_le_split : blen.

(** Loads that hit the left or the right part of a concatenation. *)
Lemma rd8_app_l a b off : off < blen a -> rd8 (a ++ b) off = rd8 a off.
Proof.
  intros Hr. unfold rd8. destruct (Z.ltb_spec off 0); [done|].
  apply lookup_app_l. unfold blen in Hr. lia.
Qed.

Lemma rd8_app_r a b off : blen a <= off -> rd8 (a ++ b) off = rd8 b (off - blen a).
Proof.
  intros Hr. unfold rd8. pose proof (blen_nonneg a).
  destruct (Z.ltb_spec off 0), (Z.ltb_spec (off - blen a) 0); try lia.
  rewrite lookup_app_r by (unfold blen in *; lia). f_equal. unfold blen in *. lia.
Qed.

(** Host/network byte order on a little-endian host. *)
Definition swap16 (v : Z) : Z := (v mod 256) * 256 + v / 256 mod 256.
Definition ntohs (v : Z) : Z := swap16 v.
Definition htons (v : Z) : Z := swap16 v.
Definition swap32 (v : Z) : Z :=
  (v mod 256) * 16777216 + (v / 256 mod 256) * 65536 +
  (v / 65536 mod 256) * 256 + v / 16777216 mod 256.
Definition ntohl (v : Z) : Z := swap32 v.
Definition htonl (v : Z) : Z := swap32 v.

Lemma swap16_range v : 0 <= swap16 v < 2 ^ 16.
Proof.
  unfold swap16. pose proof (Z.mod_pos_bound v 256 eq_refl).
  pose proof (Z.mod_pos_bound (v / 256) 256 eq_refl). lia.
Qed.

(** A number below [256 * m] as its low byte and the rest. *)
Lemma low_byte a r : 0 <= a < 256 -> (a + 256 * r) mod 256 = a /\ (a + 256 * r) / 256 = r.
Proof.
  intros Ha. rewrite (Z.mul_comm 256), Z.mod_add, Z.div_add by lia.
  rewrite Z.mod_small, Z.div_small by lia. lia.
Qed.

Lemma split_byte v : v = v mod 256 + 256 * (v / 256) /\ 0 <= v mod 256 < 256.
Proof.
  pose proof (Z.mod_pos_bound v 256 eq_refl). rewrite (Z.div_mod v 256) at 1 by lia. lia.
Qed.

Lemma swap16_parts a b :
  0 <= a < 256 -> 0 <= b < 256 -> swap16 (a + 256 * b) = b + 256 * a.
Proof.
  intros Ha Hb. unfold swap16. destruct (low_byte a b Ha) as [-> ->].
  rewrite (Z.mod_small b) by lia. lia.
Qed.

Lemma swap16_involutive v : 0 <= v < 2 ^ 16 -> swap16 (swap16 v) = v.
Proof.
  intros Hv. destruct (split_byte v) as [E Hr].
  assert (0 <= v / 256 < 256) by (split; [apply Z.div_pos|apply Z.div_lt_upper_bound]; lia).
  rewrite E, !swap16_parts by lia. done.
Qed.

Lemma swap32_range v : 0 <= swap32 v < 2 ^ 32.
Proof.
  unfold swap32. pose proof (Z.mod_pos_bound v 256 eq_refl). pose proof (Z.mod_pos_bound (v / 256) 256 eq_refl).
  pose proof (Z.mod_pos_bound (v / 65536) 256 eq_refl). pose proof (Z.mod_pos_bound (v / 16777216) 256 eq_refl). lia.
Qed.

Lemma swap32_parts a b c d :
  0 <= a < 256 -> 0 <= b < 256 -> 0 <= c < 256 -> 0 <= d < 256 ->
  swap32 (a + 256 * (b + 256 * (c + 256 * d))) = d + 256 * (c + 256 * (b + 256 * a)).
Proof.
  intros Ha Hb Hc Hd. unfold swap32.
  change 65536 with (256 * 256). change 16777216 with (256 * 256 * 256).
  rewrite <- !Z.div_div by lia.
  destruct (low_byte a (b + 256 * (c + 256 * d)) Ha) as [-> ->].
  destruct (low_byte b (c + 256 * d) Hb) as [-> ->].
  destruct (low_byte c d Hc) as [-> ->]. rewrite (Z.mod_small d) by lia. lia.
Qed.

Lemma swap32_involutive v : 0 <= v < 2 ^ 32 -> swap32 (swap32 v) = v.
Proof.
  intros Hv. destruct (split_byte v) as [E Hr].
  destruct (split_byte (v / 256)) as [E1 Hr1].
  destruct (split_byte (v / 256 / 256)) as [E2 Hr2].
  assert (0 <= v / 256 / 256 / 256 < 256).
  { rewrite !Z.div_div by lia.
    split; [apply Z.div_pos|apply Z.div_lt_upper_bound]; lia. }
  rewrite E, E1, E2, !swap32_parts by lia. done.
Qed.

#[export] Hint Resolve swap16_range swap32_range : width.

(** * Functional record update

    A record type declares its eta-expansion once; [r <|f := v|>] is then the
    record [r] with field [f] replaced by [v], as a C assignment [r->f = v]. *)
Class Eta (R : Type) := eta : R -> R.
Class Setter {R E : Type} (get : R -> E) := upd : (E -> E) -> R -> R.
#[global] Arguments upd {R E} get {_} _ _.

Ltac solve_setter :=
  match goal with
  | |- @Setter ?R ?E ?get =>
      let e := eval hnf in (@eta R _) in
      let p := eval pattern get in e in
      lazymatch p with
      | ?build _ =>
          let t := eval cbv beta in
            (fun (f : E -> E) (r : R) => build (fun x : R => f (get x)) r) in
          exact t
      end
  end.

#[export] Hint Extern 0 (Setter _) => solve_setter : typeclass_instances.

Notation "r <| f := v |>" := (upd f (fun _ => v) r)
  (at level 1, left associativity, format "r  <| f  :=  v |>").
Notation "r <| f ::= g |>" := (upd f g r)
  (at level 1, left associativity, format "r  <| f  ::=  g |>").

(** * Stateful code that may have undefined behaviour

    [M S A] is a computation over the state [S]; [None] is undefined
    behaviour: an access through a null or dangling pointer, or outside of an
    object. Error returns of the source are ordinary values. *)
Definition M (S A : Type) : Type := S -> option (A * S).

#[export] Instance M_ret S : MRet (M S) := fun A a s => Some (a, s).
#[export] Instance M_bind S : MBind (M S) := fun A B k m s =>
  match m s with Some (a, s') => k a s' | None => None end.

Definition ub {S A} : M S A := fun _ => None.
Definition gets {S A} (f : S -> A) : M S A := fun s => Some (f s, s).
Definition modify {S} (f : S -> S) : M S unit := fun s => Some (tt, f s).
Definition of_option {S A} (o : option A) : M S A := fun s =>
  match o with Some a => Some (a, s) | None => None end.

(** [if(c) m] *)
Definition when {S} (c : bool) (m : M S unit) : M S unit :=
  if c then m else mret tt.

(** A loop over the items of an array, in order. *)
Fixpoint for_each {S X} (f : X -> M S unit) (xs : list X) : M S unit :=
  match xs with
  | [] => mret tt
  | x :: xs' => f x ;; for_each f xs'
  end.

(** The result of a run that has no undefined behaviour. *)
Definition exec {S A} (m : M S A) (s : S) : option S := snd <$> m s.

(** [wp m Q s]: from [s], [m] runs to its end without undefined behaviour and
    its result and final state satisfy [Q]. *)
Definition wp {S A} (m : M S A) (Q : A -> S -> Prop) (s : S) : Prop :=
  match m s with Some (a, s') => Q a s' | None => False end.

Section wp_rules.
Context {S : Type}.

Lemma wp_ret {A} (a : A) (Q : A -> S -> Prop) s : Q a s -> wp (mret a) Q s.
Proof. done. Qed.

Lemma wp_bind {A B} (m : M S A) (k : A -> M S B) Q s :
  wp m (fun a s' => wp (k a) Q s') s -> wp (m ≫= k) Q s.
Proof. unfold wp, mbind, M_bind. by destruct (m s) as [[a s']|]. Qed.

Lemma wp_mono {A} (m : M S A) (Q Q' : A -> S -> Prop) s :
  wp m Q s -> (forall a s', Q a s' -> Q' a s') -> wp m Q' s.
Proof. unfold wp. destruct (m s) as [[a s']|]; eauto. Qed.

Lemma wp_gets {A} (f : S -> A) (Q : A -> S -> Prop) s : Q (f s) s -> wp (gets f) Q s.
Proof. done. Qed.

Lemma wp_modify (f : S -> S) (Q : unit -> S -> Prop) s : Q tt (f s) -> wp (modify f) Q s.
Proof. done. Qed.

Lemma wp_of_option {A} (o : option A) a (Q : A -> S -> Prop) s :
  o = Some a -> Q a s -> wp (of_option o) Q s.
Proof. by intros ->. Qed.

Lemma wp_when (c : bool) (m : M S unit) Q s :
  (c = true -> wp m Q s) -> (c = false -> Q tt s) -> wp (when c m) Q s.
Proof. intros Ht Hf. destruct c; [by apply Ht|by apply Hf]. Qed.

Lemma wp_for_each {X} (f : X -> M S unit) (I : S -> Prop) xs s :
  I s -> (forall x s', x ∈ xs -> I s' -> wp (f x) (fun _ => I) s') ->
  wp (for_each f xs) (fun _ => I) s.
Proof.
  revert s. induction xs as [|x xs IH]; intros s Hs Hf; [done|].
  simpl. apply wp_bind. eapply wp_mono; [apply Hf; [left|done]|].
  intros [] s' Hs'. cbv beta in Hs'. apply IH; [done|]. intros y s'' Hy. apply Hf. by right.
Qed.

Lemma wp_exec {A} (m : M S A) (Q : A -> S -> Prop) s :
  wp m Q s -> exists a s', m s = Some (a, s') /\ Q a s'.
Proof. unfold wp. destruct (m s) as [[a s']|]; [by eauto|done]. Qed.

Lemma wp_of_eq {A} (m : M S A) (Q : A -> S -> Prop) s a s' :
  m s = Some (a, s') -> Q a s' -> wp m Q s.
Proof. unfold wp. by intros ->. Qed.
End wp_rules.

(** One symbolic-execution step of a [wp] goal. *)
Ltac wp_step :=
  lazymatch goal with
  | |- wp (mret _) _ _ => apply wp_ret
  | |- wp (_ ≫= _) _ _ => apply wp_bind
  | |- wp (gets _) _ _ => apply wp_gets
  | |- wp (modify _) _ _ => apply wp_modify
  | |- wp (when _ _) _ _ => apply wp_when; intros ?
  end; cbv beta.
Ltac wp_steps := repeat wp_step.

(** ** What a computation maintains *)
Section maintains.
Context {S : Type} (I : S -> Prop).

Definition maintains {A} (m : M S A) : Prop := forall s, I s -> wp m (fun _ => I) s.

Lemma maintains_ret {A} (a : A) : maintains (mret a).
Proof. by intros s Hs. Qed.

Lemma maintains_bind {A B} (m : M S A) (k : A -> M S B) :
  maintains m -> (forall a, maintains (k a)) -> maintains (m ≫= k).
Proof. intros Hm Hk s Hs. wp_step. eapply wp_mono; [by apply Hm|]. intros a s'. apply Hk. Qed.

Lemma maintains_gets {A} (f : S -> A) : maintains (gets f).
Proof. by intros s Hs. Qed.

Lemma maintains_modify (f : S -> S) : (forall s, I s -> I (f s)) -> maintains (modify f).
Proof. intros Hf s Hs. by apply wp_modify, Hf. Qed.

Lemma maintains_when (b : bool) (m : M S unit) : (b = true -> maintains m) -> maintains (when b m).
Proof. intros Hm. destruct b; [by apply Hm|apply maintains_ret]. Qed.

Lemma maintains_option {A B} (o : option A) a (k : A -> M S B) :
  o = Some a -> maintains (k a) -> maintains (of_option o ≫= k).
Proof. by intros ->. Qed.

(** The first part of a run maintains the invariant. *)
Lemma wp_maintains {A B} (m : M S A) (k : A -> M S B) (Q : B -> S -> Prop) s :
  I s -> maintains m -> (forall a s', I s' -> wp (k a) Q s') -> wp (m ≫= k) Q s.
Proof. intros Hs Hm Hk. wp_step. eapply wp_mono; [by apply Hm|]. intros a s' Hs'. by apply Hk. Qed.
End maintains.

Create HintDb maintains.

(** Goes through a computation; the calls are left to the hints or the caller. *)
Ltac maintains_step :=
  lazymatch goal with
  | |- maintains _ (mret _) => apply maintains_ret
  | |- maintains _ (of_option _ ≫= _) => fail
  | |- maintains _ (_ ≫= _) => apply maintains_bind; [|intros ?]
  | |- maintains _ (gets _) => apply maintains_gets
  | |- maintains _ (when _ _) => apply maintains_when; intros ?
  | |- maintains _ (match ?x with _ => _ end) => let E := fresh "E" in destruct x eqn:E
  | |- maintains _ (let _ := _ in _) => cbv zeta
  end.
Ltac maintains_steps := repeat (maintains_step || solve [auto with maintains]).

(** ** What a computation does not touch *)
Section preserves.
Context {S X : Type} (f : S -> X).

(** [f] has the same value after the run, if the run has no undefined behaviour. *)
Definition preserves {A} (m : M S A) : Prop := forall s a s', m s = Some (a, s') -> f s' = f s.

Lemma preserves_ret {A} (a : A) : preserves (mret a).
Proof. by intros s b s' [= _ ->]. Qed.

Lemma preserves_bind {A B} (m : M S A) (k : A -> M S B) :
  preserves m -> (forall a, preserves (k a)) -> preserves (m ≫= k).
Proof.
  intros Hm Hk s b s'. unfold mbind, M_bind. destruct (m s) as [[a s1]|] eqn:E; [|done].
  intros Hb. rewrite (Hk a s1 b s' Hb). by eapply Hm.
Qed.

Lemma preserves_gets {A} (g : S -> A) : preserves (gets g).
Proof. by intros s b s' [= _ ->]. Qed.

Lemma preserves_modify g : (forall s, f (g s) = f s) -> preserves (modify g).
Proof. by intros Hg s b s' [= _ <-]. Qed.

Lemma preserves_of_option {A} (o : option A) : preserves (of_option o).
Proof. unfold of_option. destruct o; [by intros s b s' [= _ ->]|done]. Qed.

Lemma preserves_when (b : bool) (m : M S unit) : preserves m -> preserves (when b m).
Proof. intros Hm. destruct b; [done|apply preserves_ret]. Qed.

Lemma preserves_for_each {Y} (g : Y -> M S unit) l :
  (forall y, preserves (g y)) -> preserves (for_each g l).
Proof.
  intros Hg. induction l as [|y l IH]; [apply preserves_ret|].
  apply preserves_bind; [apply Hg|done].
Qed.

Lemma wp_preserves {A} (m : M S A) (Q : A -> S -> Prop) s :
  preserves m -> wp m Q s -> wp m (fun a s' => Q a s' /\ f s' = f s) s.
Proof.
  intros Hm. unfold wp. destruct (m s) as [[a s']|] eqn:E; [|done]. intros HQ.
  split; [done|]. by eapply Hm.
Qed.
End preserves.

(** [Q] holds after a run, if the run has no undefined behaviour. *)
Definition wlp {S A} (m : M S A) (Q : A -> S -> Prop) (s : S) : Prop :=
  forall a s', m s = Some (a, s') -> Q a s'.

Section wlp_rules.
Context {S : Type}.

Lemma wlp_ret {A} (a : A) (Q : A -> S -> Prop) s : Q a s -> wlp (mret a) Q s.
Proof. by intros HQ b s' [= <- <-]. Qed.

Lemma wlp_bind {A B} (m : M S A) (k : A -> M S B) (Q : B -> S -> Prop) s :
  wlp m (fun a s' => wlp (k a) Q s') s -> wlp (m ≫= k) Q s.
Proof.
  intros Hm b s'. unfold mbind, M_bind. destruct (m s) as [[a s1]|] eqn:E; [|done].
  by apply Hm.
Qed.

Lemma wlp_mono {A} (m : M S A) (Q R : A -> S -> Prop) s :
  wlp m Q s -> (forall a s', Q a s' -> R a s') -> wlp m R s.
Proof. intros Hm HQ a s' E. by apply HQ, Hm. Qed.

Lemma wlp_gets {A} (g : S -> A) (Q : A -> S -> Prop) s : Q (g s) s -> wlp (gets g) Q s.
Proof. by intros HQ b s' [= <- <-]. Qed.

Lemma wlp_modify g (Q : unit -> S -> Prop) s : Q tt (g s) -> wlp (modify g) Q s.
Proof. by intros HQ b s' [= <- <-]. Qed.

Lemma wlp_of_option {A} (o : option A) (Q : A -> S -> Prop) s :
  (forall a, o = Some a -> Q a s) -> wlp (of_option o) Q s.
Proof. intros HQ b s'. unfold of_option. destruct o as [a|]; [|done]. intros [= <- <-]. auto. Qed.

Lemma wlp_when (b : bool) (m : M S unit) (Q : unit -> S -> Prop) s :
  (b = true -> wlp m Q s) -> (b = false -> Q tt s) -> wlp (when b m) Q s.
Proof. destruct b; simpl; [auto|]. intros _ HQ. apply wlp_ret. auto. Qed.

Lemma wlp_for_each {X} (f : X -> M S unit) (I : S -> Prop) xs s :
  I s -> (forall x s', x ∈ xs -> I s' -> wlp (f x) (fun _ => I) s') ->
  wlp (for_each f xs) (fun _ => I) s.
Proof.
  revert s. induction xs as [|x xs IH]; intros s Hs Hf; simpl; [by apply wlp_ret|].
  apply wlp_bind. eapply wlp_mono; [apply Hf; [left|done]|]. intros [] s' Hs'. cbv beta in Hs'.
  apply IH; [done|]. intros y s'' Hy. apply Hf. by right.
Qed.

Lemma wlp_preserves {A X} (f : S -> X) (m : M S A) s :
  preserves f m -> wlp m (fun _ s' => f s' = f s) s.
Proof. intros Hp a s' E. by eapply Hp. Qed.

Lemma wlp_true {A} (m : M S A) s : wlp m (fun _ _ => True) s.
Proof. done. Qed.

Lemma wp_wlp {A} (m : M S A) (Q R : A -> S -> Prop) s :
  wp m Q s -> wlp m R s -> wp m (fun a s' => Q a s' /\ R a s') s.
Proof. unfold wp, wlp. destruct (m s) as [[a s']|]; [|done]. auto. Qed.
End wlp_rules.

Ltac wlp_step :=
  lazymatch goal with
  | |- wlp (mret _) _ _ => apply wlp_ret
  | |- wlp (_ ≫= _) _ _ => apply wlp_bind
  | |- wlp (gets _) _ _ => apply wlp_gets
  | |- wlp (modify _) _ _ => apply wlp_modify
  | |- wlp (when _ _) _ _ => apply wlp_when; intros ?
  end; cbv beta.
Ltac wlp_steps := repeat wlp_step.

Create HintDb preserves.
#[export] Hint Resolve preserves_ret preserves_gets preserves_of_option : preserves.

(** *** What a run keeps, if it has no undefined behaviour *)
Section steady.
Context {S : Type} (I : S -> Prop).

Definition steady {A} (m : M S A) : Prop := forall s, I s -> wlp m (fun _ => I) s.

Lemma steady_ret {A} (a : A) : steady (mret a).
Proof. intros s Hs. by apply wlp_ret. Qed.

Lemma steady_bind {A B} (m : M S A) (k : A -> M S B) : steady m -> (forall a, steady (k a)) -> steady (m ≫= k).
Proof. intros Hm Hk s Hs. apply wlp_bind. eapply wlp_mono; [by apply Hm|]. intros a s'. apply Hk. Qed.

Lemma steady_gets {A} (g : S -> A) : steady (gets g).
Proof. intros s Hs. by apply wlp_gets. Qed.

Lemma steady_modify (g : S -> S) : (forall s, I s -> I (g s)) -> steady (modify g).
Proof. intros Hg s Hs. by apply wlp_modify, Hg. Qed.

Lemma steady_of_option {A} (o : option A) : steady (of_option o).
Proof. intros s Hs. by apply wlp_of_option. Qed.

Lemma steady_when (b : bool) (m : M S unit) : steady m -> steady (when b m).
Proof. intros Hm s Hs. apply wlp_when; [intros _; by apply Hm|done]. Qed.

Lemma steady_preserves {A X} (f : S -> X) (m : M S A) :
  (forall s s', f s' = f s -> I s -> I s') -> preserves f m -> steady m.
Proof. intros Hf Hm s Hs a s' E. eapply Hf; [by eapply Hm|done]. Qed.

(** The first part of a run keeps [I]. *)
Lemma wlp_steady {A B} (m : M S A) (k : A -> M S B) (Q : B -> S -> Prop) s :
  I s -> steady m -> (forall a s', I s' -> wlp (k a) Q s') -> wlp (m ≫= k) Q s.
Proof. intros Hs Hm Hk. apply wlp_bind. eapply wlp_mono; [by apply Hm|]. intros a s'. apply Hk. Qed.
End steady.

Create HintDb steady.
Ltac steady_step :=
  lazymatch goal with
  | |- steady _ (mret _) => apply steady_ret
  | |- steady _ (_ ≫= _) => apply steady_bind; [|intros ?]
  | |- steady _ (gets _) => apply steady_gets
  | |- steady _ (of_option _) => apply steady_of_option
  | |- steady _ (when _ _) => apply steady_when
  | |- steady _ (match ?x with _ => _ end) => destruct x
  | |- steady _ (let _ := _ in _) => cbv zeta
  end.
Ltac steady_steps := repeat (steady_step || solve [auto with steady]).

(** Goes through a computation; the steps that change the state are left to
    the caller unless conversion shows that they do not touch [f]. *)
Ltac preserves_step :=
  lazymatch goal with
  | |- preserves _ (mret _) => apply preserves_ret
  | |- preserves _ (_ ≫= _) => apply preserves_bind; [|intros ?]
  | |- preserves _ (gets _) => apply preserves_gets
  | |- preserves _ (of_option _) => apply preserves_of_option
  | |- preserves _ (modify _) => apply preserves_modify; done
  | |- preserves _ (when _ _) => apply preserves_when
  | |- preserves _ (for_each _ _) => apply preserves_for_each; intros ?
  | |- preserves _ (match ?x with _ => _ end) => destruct x
  | |- preserves _ (let _ := _ in _) => cbv zeta
  end.
Ltac preserves_steps := repeat (preserves_step || solve [auto with preserves]).

(** * Addressable memory of a buffer

    The contents of a [malloc]ed block before it is written are arbitrary; a
    block is a total function from offsets to bytes plus its size, which the
    operations check. *)
Definition memory : Type := Z -> Z.

Definition mem_write (m : memory) (off : Z) (bs : bytes) : memory := fun a =>
  if (off <=? a) && (a <? off + blen bs) then nth (Z.to_nat (a - off)) bs 0 else m a.

Definition mem_read (m : memory) (off len : Z) : bytes :=
  map (fun i => m (off + Z.of_nat i)) (seq 0 (Z.to_nat len)).

(** A store into a block of [size] bytes; [None] is a write outside of it. *)
Definition store (size : Z) (m : memory) (off : Z) (bs : bytes) : option memory :=
  if (off <? 0) || (size <? off + blen bs) then None else Some (mem_write m off bs).

Definition le16 (z : Z) : bytes := le_split 2 z.
Definition le32 (z : Z) : bytes := le_split 4 z.

Lemma blen_le16 z : blen (le16 z) = 2.
Proof. apply blen_le_split. Qed.
Lemma blen_le32 z : blen (le32 z) = 4.
Proof. apply blen_le_split. Qed.
#[export] Hint Rewrite blen_le16 blen_le32 : blen.

Lemma wf_le32 z : wf_bytes (le32 z).
Proof. apply wf_le_split. Qed.
#[export] Hint Resolve wf_le32 : width.

Lemma length_mem_read m off len : length (mem_read m off len) = Z.to_nat len.
Proof. unfold mem_read. by rewrite length_map, length_seq. Qed.

Lemma blen_mem_read m off len : 0 <= len -> blen (mem_read m off len) = len.
Proof. intros. unfold blen. rewrite length_mem_read. lia. Qed.

Lemma lookup_mem_read m off len i :
  (i < Z.to_nat len)%nat -> mem_read m off len !! i = Some (m (off + Z.of_nat i)).
Proof.
  intros Hi. unfold mem_read. change (map ?f ?l) with (f <$> l).
  rewrite list_lookup_fmap, lookup_seq_lt by done. done.
Qed.

(** [holds m l]: the block starts with the bytes [l]. *)
Definition holds (m : memory) (l : bytes) : Prop := mem_read m 0 (blen l) = l.

Lemma holds_lookup m l :
  holds m l <-> forall i x, l !! i = Some x -> m (Z.of_nat i) = x.
Proof.
  unfold holds. split.
  - intros E i x Hi. pose proof (lookup_lt_Some _ _ _ Hi).
    rewrite <- E, lookup_mem_read in Hi by (unfold blen; lia). by simplify_eq.
  - intros Hl. apply list_eq_same_length with (length l); [done|..].
    { rewrite length_mem_read. unfold blen. lia. }
    intros i x y Hi Hx Hy. rewrite lookup_mem_read in Hx by (unfold blen; lia).
    apply Hl in Hy. simplify_eq. by rewrite Z.add_0_l.
Qed.

Lemma holds_read m l : holds m l -> mem_read m 0 (blen l) = l.
Proof. done. Qed.

Lemma holds_mem_read m n : 0 <= n -> holds m (mem_read m 0 n).
Proof. intros Hn. unfold holds. by rewrite blen_mem_read. Qed.

Lemma holds_app_l m l l' : holds m (l ++ l') -> holds m l.
Proof.
  rewrite !holds_lookup. intros Hl i x Hi. apply Hl. by apply lookup_app_l_Some.
Qed.

Lemma mem_write_in m off bs i x :
  0 <= off -> bs !! i = Some x -> mem_write m off bs (off + Z.of_nat i) = x.
Proof.
  intros Hoff Hi. pose proof (lookup_lt_Some _ _ _ Hi). unfold mem_write, blen.
  destruct (Z.leb_spec off (off + Z.of_nat i)); [|lia].
  destruct (Z.ltb_spec (off + Z.of_nat i) (off + Z.of_nat (length bs))); [|lia]. simpl.
  replace (Z.to_nat (off + Z.of_nat i - off)) with i by lia. by apply nth_lookup_Some.
Qed.

Lemma mem_write_out m off bs a : a < off \/ off + blen bs <= a -> mem_write m off bs a = m a.
Proof.
  intros Ha. unfold mem_write.
  destruct (Z.leb_spec off a), (Z.ltb_spec a (off + blen bs)); simpl; try done. lia.
Qed.

(** A write right after the known prefix extends it. *)
Lemma holds_append m l off bs :
  holds m l -> off = blen l -> holds (mem_write m off bs) (l ++ bs).
Proof.
  intros Hl ->. rewrite holds_lookup in *. intros i x. rewrite lookup_app_Some.
  intros [Hi|[Hlen Hi]].
  - rewrite mem_write_out; [by apply Hl|].
    apply lookup_lt_Some in Hi. unfold blen. lia.
  - replace (Z.of_nat i) with (blen l + Z.of_nat (i - length l)) by (unfold blen; lia).
    apply mem_write_in; [apply blen_nonneg|done].
Qed.

(** A write over a part of the known prefix replaces that part. *)
Lemma holds_update m p old s off bs :
  holds m (p ++ old ++ s) -> off = blen p -> blen old = blen bs ->
  holds (mem_write m off bs) (p ++ bs ++ s).
Proof.
  intros Hl -> Hlen. rewrite holds_lookup in *. intros i x Hi.
  assert (length old = length bs) as Hlen' by (unfold blen in Hlen; lia).
  apply lookup_app_Some in Hi as [Hi|[Hp Hi]].
  - rewrite mem_write_out by (apply lookup_lt_Some in Hi; unfold blen; lia).
    apply Hl. by apply lookup_app_l_Some.
  - apply lookup_app_Some in Hi as [Hi|[Ho Hi]].
    + replace (Z.of_nat i) with (blen p + Z.of_nat (i - length p)) by (unfold blen; lia).
      apply mem_write_in; [apply blen_nonneg|done].
    + rewrite mem_write_out by (unfold blen; lia). apply Hl.
      rewrite !lookup_app_r by lia. by rewrite Hlen'.
Qed.

Lemma mem_read_holds m p l s off len :
  holds m (p ++ l ++ s) -> off = blen p -> len = blen l -> mem_read m off len = l.
Proof.
  intros Hl -> ->. rewrite holds_lookup in Hl.
  apply list_eq_same_length with (length l); [done|..].
  { rewrite length_mem_read. unfold blen. lia. }
  intros i x y Hi Hx Hy. rewrite lookup_mem_read in Hx by (unfold blen; lia). simplify_eq.
  rewrite <- (Hl (length p + i)%nat y); [f_equal; unfold blen; lia|].
  rewrite lookup_app_r by lia. replace (length p + i - length p)%nat with i by lia.
  by apply lookup_app_l_Some.
Qed.

Lemma store_Some size m off bs :
  0 <= off -> off + blen bs <= size -> store size m off bs = Some (mem_write m off bs).
Proof.
  intros. unfold store.
  destruct (Z.ltb_spec off 0), (Z.ltb_spec size (off + blen bs)); simpl; try lia; done.
Qed.

Lemma mem_read_nil m off : mem_read m off 0 = [].
Proof. done. Qed.

Lemma mem_read_write_out m off bs a n :
  a + n <= off \/ off + blen bs <= a -> mem_read (mem_write m off bs) a n = mem_read m a n.
Proof.
  intros Ha. apply list_eq_same_length with (Z.to_nat n); rewrite ?length_mem_read; [done..|].
  intros i x y Hi. rewrite !lookup_mem_read by done. intros [= <-] [= <-].
  apply mem_write_out. lia.
Qed.

Lemma holds_app m l l' :
  holds m l -> mem_read m (blen l) (blen l') = l' -> holds m (l ++ l').
Proof.
  intros Hl Hl'. rewrite holds_lookup in *. intros i x.
  rewrite lookup_app_Some. intros [Hi|[Hlen Hi]]; [by apply Hl|].
  pose proof (lookup_lt_Some _ _ _ Hi). rewrite <- Hl', lookup_mem_read in Hi by (unfold blen; lia).
  simplify_eq. f_equal. unfold blen. lia.
Qed.

Lemma holds_nil m : holds m [].
Proof. done. Qed.

Lemma blen_0_nil (l : bytes) : blen l = 0 -> l = [].
Proof. destruct l; [done|]. rewrite blen_cons. pose proof (blen_nonneg l). lia. Qed.

(** Appending through a window that does not start at 0. *)
Lemma mem_read_append m off l bs n :
  0 <= off -> mem_read m off (blen l) = l -> n = blen l + blen bs ->
  mem_read (mem_write m (off + blen l) bs) off n = l ++ bs.
Proof.
  intros Hoff Hl ->. pose proof (blen_nonneg l). pose proof (blen_nonneg bs).
  apply list_eq_same_length with (length l + length bs)%nat.
  { by rewrite length_app. }
  { rewrite length_mem_read. unfold blen. lia. }
  intros i x y Hi. rewrite lookup_mem_read by (unfold blen; lia). intros [= <-].
  rewrite lookup_app_Some. intros [Hy|[Hlen Hy]].
  - pose proof (lookup_lt_Some _ _ _ Hy). rewrite mem_write_out by (unfold blen; lia).
    rewrite <- Hl, lookup_mem_read in Hy by (unfold blen; lia). by simplify_eq.
  - replace (off + Z.of_nat i) with (off + blen l + Z.of_nat (i - length l)) by (unfold blen; lia).
    apply mem_write_in; [lia|done].
Qed.

Lemma rd8_at p l k : rd8 (p ++ l) (blen p + Z.of_nat k) = l !! k.
Proof.
  rewrite rd8_app_r by lia. replace (blen p + Z.of_nat k - blen p) with (Z.of_nat k) by lia.
  unfold rd8. destruct (Z.ltb_spec (Z.of_nat k) 0); [lia|]. by rewrite Nat2Z.id.
Qed.

(** A little-endian field read back. *)
Lemma rd32_le32 p z s off : off = blen p -> rd32 (p ++ le32 z ++ s) off = Some (u32 z).
Proof.
  intros ->. pose proof (le_combine_split 4 z) as Hc. change (256 ^ Z.of_nat 4) with (2 ^ 32) in Hc.
  unfold u32, le32. rewrite <- Hc. clear Hc.
  destruct (le_split 4 z) as [|a [|b [|c [|e [|? ?]]]]] eqn:E;
    try (apply (f_equal length) in E; rewrite length_le_split in E; discriminate E).
  unfold rd32, rd16.
  replace (blen p + 2 + 1) with (blen p + Z.of_nat 3) by lia.
  replace (blen p + 2) with (blen p + Z.of_nat 2) by lia.
  replace (blen p + 1) with (blen p + Z.of_nat 1) by lia.
  replace (rd8 (p ++ [a; b; c; e] ++ s) (blen p)) with (rd8 (p ++ [a; b; c; e] ++ s) (blen p + Z.of_nat 0))
    by (f_equal; lia).
  rewrite !rd8_at. cbn [app lookup list_lookup mbind option_bind le_combine]. f_equal. lia.
Qed.

Lemma rd32_field p z s off :
  0 <= z < 2 ^ 32 -> off = blen p -> rd32 (p ++ le32 z ++ s) off = Some z.
Proof. intros Hz Hoff. rewrite rd32_le32 by done. by rewrite u32_small. Qed.

Lemma rd16_le16 p z s off : off = blen p -> 0 <= z < 2 ^ 16 -> rd16 (p ++ le16 z ++ s) off = Some z.
Proof.
  intros -> Hz. unfold rd16, le16.
  replace (blen p) with (blen p + Z.of_nat 0) at 1 by lia. replace (blen p + 1) with (blen p + Z.of_nat 1) by lia.
  rewrite !rd8_at. cbn [app lookup list_lookup mbind option_bind le_split]. f_equal.
  rewrite (Z.mod_small (z / 256)) by (split; [apply Z.div_pos|apply Z.div_lt_upper_bound]; lia).
  pose proof (Z.div_mod z 256). lia.
Qed.

Lemma slice_app_mid p l s off n : off = blen p -> n = blen l -> slice (p ++ l ++ s) off n = l.
Proof.
  intros -> ->. unfold slice, blen. rewrite !Nat2Z.id, drop_app_length. apply take_app_length.
Qed.

Lemma drop_app_blen p s n : n = blen p -> drop (Z.to_nat n) (p ++ s) = s.
Proof. intros ->. unfold blen. rewrite Nat2Z.id. apply drop_app_length. Qed.
