(* ===== verification/Packet.v ===== *)
(** The packet view shared by the whole core: the 5-tuple and packet records of
    zdtun.h, [zdtun_parse_pkt] (zdtun.c) with its table of fragment ports, and
    [tupleSwapPeers] (common/utils.c). *)
From Stdlib Require Import ZArith Lia.
From stdpp Require Import base option gmap list numbers.
From S2P Require Import Prelude.

Open Scope Z_scope.

(** ** Data *)

(** An address is the value of the 16 bytes of the [zdtun_ip_t] union, least
    significant byte first; [ip4] is its low half-word. Ports are kept as the
    source keeps them: the raw 16 bits of the packet (network byte order). *)
Record zdtun_5tuple := mk_5tuple {
  src_ip : Z;
  dst_ip : Z;
  src_port : Z;
  dst_port : Z;
  ipver : Z;
  ipproto : Z
}.
#[export] Instance eta_5tuple : Eta zdtun_5tuple := fun t =>
  mk_5tuple (src_ip t) (dst_ip t) (src_port t) (dst_port t) (ipver t) (ipproto t).
#[export] Instance zdtun_5tuple_eq_dec : EqDecision zdtun_5tuple.
Proof. solve_decision. Defined.

Definition ip4 (ip : Z) : Z := ip mod 2 ^ 32.

Definition IPPROTO_ICMP : Z := 1.
Definition IPPROTO_TCP : Z := 6.
Definition IPPROTO_UDP : Z := 17.
Definition IPPROTO_ICMPV6 : Z := 58.

Definition TH_FIN : Z := 0x01.
Definition TH_SYN : Z := 0x02.
Definition TH_RST : Z := 0x04.
Definition TH_PUSH : Z := 0x08.
Definition TH_ACK : Z := 0x10.
Definition TH_URG : Z := 0x20.

Definition ZDTUN_PKT_IS_FRAGMENT : Z := 1.
Definition ZDTUN_PKT_IS_FIRST_FRAGMENT : Z := 2.

(** The pointers of [zdtun_pkt_t] all point into [buf]: [l3] at 0, [l4] at
    [ip_hdr_len] and [l7] at [ip_hdr_len + l4_hdr_len]. *)
Record zdtun_pkt := mk_pkt {
  pkt_tuple : zdtun_5tuple;
  pkt_flags : Z;
  pkt_len : Z;
  ip_hdr_len : Z;
  l4_hdr_len : Z;
  l7_len : Z;
  pkt_buf : bytes
}.
#[export] Instance eta_pkt : Eta zdtun_pkt := fun p =>
  mk_pkt (pkt_tuple p) (pkt_flags p) (pkt_len p) (ip_hdr_len p) (l4_hdr_len p)
         (l7_len p) (pkt_buf p).

Definition l7_off (p : zdtun_pkt) : Z := ip_hdr_len p + l4_hdr_len p.

(** [flags & mask] as a C condition *)
Definition has_flag (flags mask : Z) : bool := negb (Z.land flags mask =? 0).

(** [pkt->tcp->th_flags] *)
Definition th_flags (p : zdtun_pkt) : option Z := rd8 (pkt_buf p) (ip_hdr_len p + 13).

(** [tun->id2ports]: zero-initialised, indexed by the raw IP identification. *)
Abbreviation idports := (gmap Z (Z * Z)).

Definition id_lookup (ids : idports) (id : Z) : Z * Z := default (0, 0) (ids !! id).

(** ** [zdtun_parse_pkt] *)
Definition IPV4_HEADER_LEN : Z := 20.
Definition IPV6_HEADER_LEN : Z := 40.
Definition TCP_HEADER_LEN : Z := 20.
Definition UDP_HEADER_LEN : Z := 8.
Definition ICMP_HEADER_LEN : Z := 8.
Definition ICMP_ECHOREPLY : Z := 0.
Definition ICMP_ECHO : Z := 8.
Definition ICMPv6_ECHO : Z := 128.
Definition ICMPv6_ECHOREPLY : Z := 129.

Definition is_upper_layer (proto : Z) : bool :=
  (proto =? IPPROTO_TCP) || (proto =? IPPROTO_UDP) ||
  (proto =? IPPROTO_ICMP) || (proto =? IPPROTO_ICMPV6).

(** What the IP layer leaves for the rest: the ports are still zero. *)
Record ip_layer := mk_ip_layer {
  il_hdr_len : Z;
  il_len : Z;       (** [pkt_len] without trailing non-IP data *)
  il_src : Z;
  il_dst : Z;
  il_proto : Z;
  il_flags : Z
}.

Definition parse_ip4 (buf : bytes) (pkt_len : Z) : option (Z + ip_layer) :=
  b0 ← rd8 buf 0;
  let iphdr_len := Z.land b0 15 * 4 in
  if pkt_len <? iphdr_len then Some (inl (-1)) else
  tot ← rd16 buf 2;
  let tot_len := ntohs tot in
  if tot_len <? iphdr_len then Some (inl (-1)) else
  saddr ← rd32 buf 12;
  daddr ← rd32 buf 16;
  proto ← rd8 buf 9;
  frag_off ← rd16 buf 6;
  let flags :=
    if has_flag frag_off (htons 0x1FFF) then ZDTUN_PKT_IS_FRAGMENT
    else if has_flag frag_off (htons 0x2000)
    then Z.lor ZDTUN_PKT_IS_FRAGMENT ZDTUN_PKT_IS_FIRST_FRAGMENT
    else 0 in
  Some (inr (mk_ip_layer iphdr_len (Z.min pkt_len tot_len) saddr daddr proto flags)).

Definition parse_ip6 (buf : bytes) (pkt_len : Z) : option (Z + ip_layer) :=
  if pkt_len <? IPV6_HEADER_LEN then Some (inl (-1)) else
  nexthdr ← rd8 buf 6;
  if negb (is_upper_layer nexthdr) then Some (inl (-1)) else
  plen ← rd16 buf 4;
  saddr ← rd128 buf 8;
  daddr ← rd128 buf 24;
  let proto := if nexthdr =? IPPROTO_ICMPV6 then IPPROTO_ICMP else nexthdr in
  Some (inr (mk_ip_layer IPV6_HEADER_LEN
               (Z.min pkt_len (ntohs plen + IPV6_HEADER_LEN)) saddr daddr proto 0)).

(** The header length and the two ports of the transport layer, for a packet
    which is not a later fragment. *)
Definition parse_l4 (buf : bytes) (il : ip_layer) : option (Z + Z * Z * Z) :=
  let off := il_hdr_len il in
  let len := il_len il in
  if il_proto il =? IPPROTO_TCP then
    if len <? off + TCP_HEADER_LEN then Some (inl (-1)) else
    b12 ← rd8 buf (off + 12);
    let tcp_header_len := Z.shiftr b12 4 * 4 in
    if len <? off + tcp_header_len then Some (inl (-1)) else
    sport ← rd16 buf off; dport ← rd16 buf (off + 2);
    Some (inr (tcp_header_len, sport, dport))
  else if il_proto il =? IPPROTO_UDP then
    if len <? off + UDP_HEADER_LEN then Some (inl (-1)) else
    sport ← rd16 buf off; dport ← rd16 buf (off + 2);
    Some (inr (8, sport, dport))
  else if il_proto il =? IPPROTO_ICMP then
    if len <? off + ICMP_HEADER_LEN then Some (inl (-1)) else
    type ← rd8 buf off;
    if negb ((type =? ICMP_ECHO) || (type =? ICMP_ECHOREPLY) ||
             (type =? ICMPv6_ECHO) || (type =? ICMPv6_ECHOREPLY))
    then Some (inl (-2)) else
    echo_id ← rd16 buf (off + 4);
    if (type =? ICMP_ECHO) || (type =? ICMPv6_ECHO)
    then Some (inr (ICMP_HEADER_LEN, echo_id, 0))
    else Some (inr (ICMP_HEADER_LEN, 0, echo_id))
  else Some (inl (-3)).

Definition is_later_fragment (flags : Z) : bool :=
  has_flag flags ZDTUN_PKT_IS_FRAGMENT && negb (has_flag flags ZDTUN_PKT_IS_FIRST_FRAGMENT).

Definition build_pkt (buf : bytes) (ver : Z) (il : ip_layer) (l4 sport dport : Z) : zdtun_pkt :=
  mk_pkt (mk_5tuple (il_src il) (il_dst il) sport dport ver (il_proto il))
         (il_flags il) (il_len il) (il_hdr_len il) l4
         (u16 (il_len il - il_hdr_len il - l4)) buf.

(** [None] is a read outside of the packet buffer; [inl rv] is the error
    return [rv]. *)
Definition zdtun_parse_pkt (ids : idports) (buf : bytes) (pkt_len : Z)
  : option ((Z + zdtun_pkt) * idports) :=
  if pkt_len <? IPV4_HEADER_LEN then Some (inl (-1), ids) else
  b0 ← rd8 buf 0;
  let ver := Z.shiftr b0 4 in
  if negb (ver =? 4) && negb (ver =? 6) then Some (inl (-1), ids) else
  ip ← (if ver =? 4 then parse_ip4 buf pkt_len else parse_ip6 buf pkt_len);
  match ip with
  | inl rv => Some (inl rv, ids)
  | inr il =>
      if is_later_fragment (il_flags il) then
        id ← rd16 buf 4;
        frag_off ← rd16 buf 6;
        let ports := id_lookup ids id in
        let ids' := if has_flag frag_off (htons 0x2000) then ids
                    else <[id := (0, 0)]> ids in
        Some (inr (build_pkt buf ver il 0 ports.1 ports.2), ids')
      else
        l4 ← parse_l4 buf il;
        match l4 with
        | inl rv => Some (inl rv, ids)
        | inr (l4_hdr_len, sport, dport) =>
            let p := build_pkt buf ver il l4_hdr_len sport dport in
            if has_flag (il_flags il) ZDTUN_PKT_IS_FIRST_FRAGMENT then
              id ← rd16 buf 4; Some (inr p, <[id := (sport, dport)]> ids)
            else Some (inr p, ids)
        end
  end.

(** ** [tupleSwapPeers] *)
Definition tupleSwapPeers (t : zdtun_5tuple) : zdtun_5tuple :=
  mk_5tuple (dst_ip t) (src_ip t) (dst_port t) (src_port t) (ipver t) (ipproto t).

(** ** Lemmas *)
Lemma tupleSwapPeers_involutive t : tupleSwapPeers (tupleSwapPeers t) = t.
Proof. by destruct t. Qed.

(** Executes the load that the computation under the existentials of the goal
    does next, with a value that its bounds provide. *)
Ltac load_value l :=
  let v := fresh "v" in
  let E := fresh "E" in
  lazymatch l with
  | rd8 ?b ?o ≫= _ => destruct (rd8_Some b o) as [v E]; [lia|]
  | rd16 ?b ?o ≫= _ => destruct (rd16_Some b o) as [v E]; [lia..|]
  | rd32 ?b ?o ≫= _ => destruct (rd32_Some b o) as [v E]; [lia..|]
  | rd128 ?b ?o ≫= _ => destruct (rd128_Some b o) as [v E]; [lia..|]
  end; rewrite E; simpl.

Ltac load_step :=
  lazymatch goal with
  | |- ex (fun _ => ?l = _ /\ _) => load_value l
  | |- ex (fun _ => ex (fun _ => ?l = _ /\ _)) => load_value l
  end.

Definition is_u16 (v : Z) : Prop := 0 <= v < 2 ^ 16.

(** The table of fragment ports holds 16-bit ports. *)
Definition ids_wf (ids : idports) : Prop :=
  forall id p, ids !! id = Some p -> is_u16 p.1 /\ is_u16 p.2.

Definition ip_layer_ok (n : Z) (il : ip_layer) : Prop :=
  0 <= il_hdr_len il <= il_len il /\ il_len il <= n.

Lemma ids_wf_insert ids id s d :
  ids_wf ids -> is_u16 s -> is_u16 d -> ids_wf (<[id := (s, d)]> ids).
Proof.
  intros Hw Hs Hd id' p. rewrite lookup_insert_Some. intros [[_ <-]|[_ Hp]]; [done|].
  by apply Hw in Hp.
Qed.

Lemma id_lookup_wf ids id : ids_wf ids -> is_u16 (id_lookup ids id).1 /\ is_u16 (id_lookup ids id).2.
Proof.
  intros Hw. unfold id_lookup. destruct (ids !! id) as [p|] eqn:E; simpl; [by apply Hw in E|].
  unfold is_u16. lia.
Qed.

Section parse_bounds.
Context (buf : bytes) (n : Z).
Hypothesis Hbuf : wf_bytes buf.
Hypothesis Hn : n <= blen buf.

Lemma parse_ip4_ok :
  20 <= n -> exists r, parse_ip4 buf n = Some r /\
    match r with inl rv => rv < 0 | inr il => ip_layer_ok n il end.
Proof.
  intros H20. unfold parse_ip4. load_step.
  assert (0 <= Z.land v 15) by (apply Z.land_nonneg; lia).
  destruct (Z.ltb_spec n (Z.land v 15 * 4)); [eexists; split; [done|simpl; lia]|].
  load_step. destruct (Z.ltb_spec (ntohs v0) (Z.land v 15 * 4)).
  { eexists; split; [done|simpl; lia]. }
  do 4 load_step. eexists; split; [done|]. unfold ip_layer_ok. simpl. lia.
Qed.

Lemma parse_ip6_ok :
  20 <= n -> exists r, parse_ip6 buf n = Some r /\
    match r with inl rv => rv < 0 | inr il => ip_layer_ok n il end.
Proof.
  intros H20. unfold parse_ip6, IPV6_HEADER_LEN.
  destruct (Z.ltb_spec n 40); [eexists; split; [done|simpl; lia]|].
  load_step. destruct (negb _); [eexists; split; [done|simpl; lia]|].
  do 3 load_step. eexists; split; [done|]. unfold ip_layer_ok. simpl.
  pose proof (swap16_range v0). unfold ntohs. lia.
Qed.

Lemma parse_l4_ok il :
  ip_layer_ok n il -> exists r, parse_l4 buf il = Some r /\
    match r with
    | inl rv => rv < 0
    | inr (h, s, d) => 0 <= h /\ il_hdr_len il + h <= il_len il /\ is_u16 s /\ is_u16 d
    end.
Proof.
  intros [Hh Hl]. unfold parse_l4, TCP_HEADER_LEN, UDP_HEADER_LEN, ICMP_HEADER_LEN.
  assert (is_u16 0) by (unfold is_u16; lia).
  destruct (_ =? _).
  { destruct (Z.ltb_spec (il_len il) (il_hdr_len il + 20)).
    { eexists; split; [done|simpl; lia]. }
    load_step. apply rd8_byte in E; [|done]. unfold is_byte in E.
    assert (0 <= Z.shiftr v 4) by (apply Z.shiftr_nonneg; lia).
    destruct (Z.ltb_spec (il_len il) (il_hdr_len il + Z.shiftr v 4 * 4)).
    { eexists; split; [done|simpl; lia]. }
    do 2 load_step. eexists; split; [done|]. unfold is_u16. simpl.
    apply rd16_range in E0, E1; [lia|done..]. }
  destruct (_ =? _).
  { destruct (Z.ltb_spec (il_len il) (il_hdr_len il + 8)).
    { eexists; split; [done|simpl; lia]. }
    do 2 load_step. eexists; split; [done|]. unfold is_u16. simpl.
    apply rd16_range in E0, E; [lia|done..]. }
  destruct (_ =? _); [|eexists; split; [done|simpl; lia]].
  destruct (Z.ltb_spec (il_len il) (il_hdr_len il + 8)).
  { eexists; split; [done|simpl; lia]. }
  load_step. destruct (negb _); [eexists; split; [done|simpl; lia]|].
  load_step. apply rd16_range in E0; [|done].
  destruct (_ || _); (eexists; split; [done|]); unfold is_u16; simpl; lia.
Qed.
End parse_bounds.

Lemma build_pkt_l7 buf ver il h s d n :
  ip_layer_ok n il -> n < 2 ^ 16 -> 0 <= h -> il_hdr_len il + h <= il_len il ->
  l7_len (build_pkt buf ver il h s d) = il_len il - il_hdr_len il - h.
Proof. intros [Hh Hl] Hn Hh0 Hle. simpl. rewrite u16_small; lia. Qed.

(** The state change of a first and of a later fragment. *)
Lemma id_lookup_insert ids id p : id_lookup (<[id := p]> ids) id = p.
Proof. unfold id_lookup. by rewrite lookup_insert_eq. Qed.

Lemma parse_first_fragment ids buf n p ids' :
  zdtun_parse_pkt ids buf n = Some (inr p, ids') ->
  has_flag (pkt_flags p) ZDTUN_PKT_IS_FIRST_FRAGMENT = true ->
  exists id, rd16 buf 4 = Some id /\
    ids' = <[id := (src_port (pkt_tuple p), dst_port (pkt_tuple p))]> ids.
Proof.
  intros Hp Hf. unfold zdtun_parse_pkt in Hp.
  repeat (case_match; simplify_option_eq; try done); eauto.
  all: unfold is_later_fragment in *; simpl in *; rewrite Hf, andb_false_r in *; done.
Qed.

Lemma parse_later_fragment ids buf n p ids' :
  zdtun_parse_pkt ids buf n = Some (inr p, ids') ->
  is_later_fragment (pkt_flags p) = true ->
  exists id frag_off, rd16 buf 4 = Some id /\ rd16 buf 6 = Some frag_off /\
    src_port (pkt_tuple p) = (id_lookup ids id).1 /\
    dst_port (pkt_tuple p) = (id_lookup ids id).2 /\
    ids' = if has_flag frag_off (htons 0x2000) then ids else <[id := (0, 0)]> ids.
Proof.
  intros Hp Hf. unfold zdtun_parse_pkt in Hp.
  repeat (case_match; simplify_option_eq; try done).
  all: try congruence.
  all: do 2 eexists; do 4 (split; [done|]).
  all: match goal with E : has_flag _ (htons _) = _ |- _ => by rewrite E end.
Qed.

(** ** Properties *)

(** What a successful parse guarantees to the rest of the core. *)
Definition pkt_wf (buf : bytes) (n : Z) (p : zdtun_pkt) : Prop :=
  pkt_buf p = buf /\
  0 <= ip_hdr_len p /\ 0 <= l4_hdr_len p /\ 0 <= l7_len p /\
  ip_hdr_len p + l4_hdr_len p + l7_len p = pkt_len p /\ pkt_len p <= n /\
  (ipver (pkt_tuple p) = 4 \/ ipver (pkt_tuple p) = 6) /\
  is_u16 (src_port (pkt_tuple p)) /\ is_u16 (dst_port (pkt_tuple p)).

(** The same without the ports, which the fragment table decides, and with the
    room of a TCP header. *)
Definition pkt_lens (buf : bytes) (n : Z) (p : zdtun_pkt) : Prop :=
  pkt_buf p = buf /\
  0 <= ip_hdr_len p /\ 0 <= l4_hdr_len p /\ 0 <= l7_len p /\
  ip_hdr_len p + l4_hdr_len p + l7_len p = pkt_len p /\ pkt_len p <= n /\
  (ipver (pkt_tuple p) = 4 \/ ipver (pkt_tuple p) = 6) /\
  (is_later_fragment (pkt_flags p) = false -> ipproto (pkt_tuple p) = IPPROTO_TCP ->
   ip_hdr_len p + TCP_HEADER_LEN <= pkt_len p).

Lemma parse_l4_tcp buf il x :
  parse_l4 buf il = Some (inr x) -> il_proto il = IPPROTO_TCP ->
  il_hdr_len il + TCP_HEADER_LEN <= il_len il.
Proof.
  intros Hp Ht. unfold parse_l4 in Hp. rewrite Ht in Hp. cbn in Hp.
  destruct (Z.ltb_spec (il_len il) (il_hdr_len il + TCP_HEADER_LEN)); [done|lia].
Qed.

Lemma zdtun_parse_pkt_total ids buf n :
  wf_bytes buf -> n <= blen buf -> 0 <= n < 2 ^ 16 ->
  exists r ids', zdtun_parse_pkt ids buf n = Some (r, ids') /\
    match r with
    | inl rv => rv < 0 /\ ids' = ids
    | inr p => pkt_lens buf n p /\
        (ids_wf ids -> ids_wf ids' /\ is_u16 (src_port (pkt_tuple p)) /\
                       is_u16 (dst_port (pkt_tuple p)))
    end.
Proof.
  intros Hb Hn Hn16. unfold zdtun_parse_pkt, IPV4_HEADER_LEN.
  destruct (Z.ltb_spec n 20); [by do 2 eexists; split; [done|]|].
  load_step. destruct (negb _ && _) eqn:Ev; [by do 2 eexists; split; [done|]|].
  assert (exists r, (if Z.shiftr v 4 =? 4 then parse_ip4 buf n else parse_ip6 buf n) = Some r /\
    match r with inl rv => rv < 0 | inr il => ip_layer_ok n il end) as (ip & -> & Hip).
  { destruct (_ =? 4); [by apply parse_ip4_ok|by apply parse_ip6_ok]. }
  simpl. destruct ip as [rv|il]; [by do 2 eexists; split; [done|]|].
  assert (Z.shiftr v 4 = 4 \/ Z.shiftr v 4 = 6) as Hver.
  { destruct (Z.eqb_spec (Z.shiftr v 4) 4), (Z.eqb_spec (Z.shiftr v 4) 6); try done; lia. }
  pose proof Hip as [Hh Hl].
  destruct (is_later_fragment (il_flags il)) eqn:Elf.
  - do 2 load_step. do 2 eexists; split; [done|]. split.
    + unfold pkt_lens. rewrite (build_pkt_l7 _ _ _ _ _ _ n) by (done || lia).
      simpl. rewrite Elf. split; [done|]. repeat split; try lia.
    + intros Hi. pose proof (id_lookup_wf ids v0 Hi) as [Hp1 Hp2]. simpl. split; [|done].
      destruct (has_flag _ _); [done|]. apply ids_wf_insert; [done|unfold is_u16; simpl; lia..].
  - destruct (parse_l4_ok buf n Hb Hn il Hip) as ([rv|[[h s] d]] & El4 & Hl4); rewrite El4; simpl;
      [by do 2 eexists; split; [done|]|]. destruct Hl4 as (Hh0 & Hle & Hs & Hd).
    pose proof (parse_l4_tcp buf il _ El4) as Htcp.
    assert (pkt_lens buf n (build_pkt buf (Z.shiftr v 4) il h s d)) as Hlens.
    { unfold pkt_lens. rewrite (build_pkt_l7 _ _ _ _ _ _ n) by (done || lia).
      simpl. split; [done|]. repeat split; try lia. }
    destruct (has_flag _ _).
    + load_step. do 2 eexists; split; [done|]. split; [done|]. intros Hi.
      split; [by apply ids_wf_insert|done].
    + do 2 eexists; split; [done|]. split; [done|]. by intros Hi.
Qed.

(** C24: [zdtun_parse_pkt] never reads outside of the packet, whatever its
    bytes; it either fails with a negative code and leaves the fragment table
    alone, or returns a packet whose header lengths and payload length add up
    to a length within the captured one (so [l4], [l7] and the payload point
    into the buffer), with 16-bit ports and version 4 or 6. *)
Theorem zdtun_parse_pkt_safe ids buf n :
  wf_bytes buf -> ids_wf ids -> n <= blen buf -> 0 <= n < 2 ^ 16 ->
  exists r ids', zdtun_parse_pkt ids buf n = Some (r, ids') /\ ids_wf ids' /\
    match r with
    | inl rv => rv < 0 /\ ids' = ids
    | inr p => pkt_wf buf n p
    end.
Proof.
  intros Hb Hi Hn Hn16.
  destruct (zdtun_parse_pkt_total ids buf n Hb Hn Hn16) as (r & ids' & E & Hr).
  exists r, ids'. split; [done|]. destruct r as [rv|p]; [destruct Hr as [? ->]; done|].
  destruct Hr as [(? & ? & ? & ? & ? & ? & ? & _) Hports]. destruct (Hports Hi) as (? & ? & ?).
  done.
Qed.

(** A UDP datagram 10.0.0.1:1000 -> 8.8.8.8:53 with two bytes of payload. *)
Definition ex_udp : bytes :=
  [0x45; 0; 0; 30; 0x12; 0x34; 0x40; 0; 64; 17; 0; 0; 10; 0; 0; 1; 8; 8; 8; 8;
   0x03; 0xe8; 0; 53; 0; 10; 0; 0; 0xaa; 0xbb].

Lemma zdtun_parse_pkt_safe_witness :
  exists r ids', zdtun_parse_pkt ∅ ex_udp 30 = Some (r, ids') /\ ids_wf ids' /\
    match r with inl rv => rv < 0 /\ ids' = ∅ | inr p => pkt_wf ex_udp 30 p end.
Proof.
  apply zdtun_parse_pkt_safe;
    [repeat constructor; discriminate|intros ? ? ?; discriminate|discriminate|lia].
Defined.

(** The ports of a later IPv4 fragment are those of the first fragment with
    the same IP identification, and the last fragment forgets them, so that an
    unrelated later datagram with the same identification gets no ports. *)
Theorem zdtun_parse_pkt_fragments ids buf1 n1 p1 ids1 buf2 n2 p2 ids2 id :
  zdtun_parse_pkt ids buf1 n1 = Some (inr p1, ids1) ->
  has_flag (pkt_flags p1) ZDTUN_PKT_IS_FIRST_FRAGMENT = true ->
  zdtun_parse_pkt ids1 buf2 n2 = Some (inr p2, ids2) ->
  is_later_fragment (pkt_flags p2) = true ->
  rd16 buf1 4 = Some id -> rd16 buf2 4 = Some id ->
  src_port (pkt_tuple p2) = src_port (pkt_tuple p1) /\
  dst_port (pkt_tuple p2) = dst_port (pkt_tuple p1) /\
  (forall frag_off, rd16 buf2 6 = Some frag_off ->
     has_flag frag_off (htons 0x2000) = false -> id_lookup ids2 id = (0, 0)).
Proof.
  intros H1 Hf1 H2 Hf2 Hid1 Hid2.
  apply parse_first_fragment in H1; [|done]. destruct H1 as (id1 & Hid1' & E1).
  apply parse_later_fragment in H2; [|done]. destruct H2 as (id2 & fo & Hid2' & Hfo & E2).
  simplify_eq. rewrite id_lookup_insert in E2. destruct E2 as (-> & -> & ->).
  split; [done|]. split; [done|]. intros fo' Hfo' Hmf.
  rewrite Hfo in Hfo'. injection Hfo' as ->. rewrite Hmf. apply id_lookup_insert.
Qed.

(** The two halves of a fragmented UDP datagram. *)
Definition ex_frag1 : bytes :=
  [0x45; 0; 0; 28; 0x12; 0x34; 0x20; 0; 64; 17; 0; 0; 10; 0; 0; 1; 8; 8; 8; 8;
   0x03; 0xe8; 0; 53; 0; 16; 0; 0].
Definition ex_frag2 : bytes :=
  [0x45; 0; 0; 28; 0x12; 0x34; 0; 1; 64; 17; 0; 0; 10; 0; 0; 1; 8; 8; 8; 8;
   1; 2; 3; 4; 5; 6; 7; 8].

Lemma zdtun_parse_pkt_fragments_witness :
  exists p1 ids1 p2 ids2,
    zdtun_parse_pkt ∅ ex_frag1 28 = Some (inr p1, ids1) /\
    zdtun_parse_pkt ids1 ex_frag2 28 = Some (inr p2, ids2) /\
    src_port (pkt_tuple p2) = src_port (pkt_tuple p1).
Proof.
  do 4 eexists. split; [vm_compute; reflexivity|]. split; [vm_compute; reflexivity|].
  eapply (zdtun_parse_pkt_fragments ∅ ex_frag1 28 _ _ ex_frag2 28); vm_compute; reflexivity.
Defined.
