(* ===== verification/Uthash.v ===== *)
(** Hash tables as the program uses them (third_party/uthash.h): a table is the
    list of its entries in insertion order, which is the order in which
    [HASH_ITER] visits them. The bucket array is not modelled: it decides the
    cost of a lookup, not its result, as long as keys are unique. *)
From Stdlib Require Import ZArith Lia.
From stdpp Require Import base option gmap numbers list.
From S2P Require Import Prelude.

Section uthash.
Context {K V : Type} `{EqDecision K}.
Implicit Types (t : list (K * V)) (k : K) (v : V).

(** The entry found is the most recently added one with that key. *)
Fixpoint HASH_FIND t k : option V :=
  match t with
  | [] => None
  | (k', v) :: t' =>
      match HASH_FIND t' k with
      | Some v' => Some v'
      | None => if decide (k = k') then Some v else None
      end
  end.

Definition HASH_ADD t k v : list (K * V) := t ++ [(k, v)].

(** Unlinks the entry that [HASH_FIND] returns. *)
Fixpoint HASH_DELETE t k : list (K * V) :=
  match t with
  | [] => []
  | (k', v) :: t' =>
      match HASH_FIND t' k with
      | Some _ => (k', v) :: HASH_DELETE t' k
      | None => if decide (k = k') then t' else (k', v) :: t'
      end
  end.

Definition HASH_COUNT t : Z := Z.of_nat (length t).

(** Keys are unique: the condition under which the source uses a table. *)
Definition table_wf t : Prop := NoDup (t.*1).

Lemma HASH_FIND_Some_elem t k v : HASH_FIND t k = Some v -> (k, v) ∈ t.
Proof.
  induction t as [|[k' v'] t IH]; csimpl; [done|].
  destruct (HASH_FIND t k); intros Hf; [right; auto|].
  case_decide; simplify_eq. left.
Qed.

Lemma HASH_FIND_None t k : HASH_FIND t k = None <-> k ∉ t.*1.
Proof.
  induction t as [|[k' v'] t IH]; csimpl; [split; [intros _; apply not_elem_of_nil|done]|].
  rewrite not_elem_of_cons. destruct (HASH_FIND t k) as [v|] eqn:E.
  - split; [done|]. intros [_ Hn]. by apply IH in Hn.
  - destruct IH as [IH _]. specialize (IH eq_refl).
    case_decide; split; [done| |by intros _|done]. by intros [Hne _].
Qed.

Lemma HASH_FIND_elem t k v : table_wf t -> (k, v) ∈ t -> HASH_FIND t k = Some v.
Proof.
  unfold table_wf. induction t as [|[k' v'] t IH]; csimpl.
  - by intros _ ?%elem_of_nil.
  - intros [Hn Hw]%NoDup_cons. rewrite elem_of_cons. intros [Heq|Hin].
    + simplify_eq. apply HASH_FIND_None in Hn. rewrite Hn. by rewrite decide_True.
    + by rewrite IH.
Qed.

Lemma HASH_FIND_add_eq t k v : HASH_FIND (HASH_ADD t k v) k = Some v.
Proof.
  unfold HASH_ADD. induction t as [|[k' v'] t IH]; csimpl; [by rewrite decide_True|].
  by rewrite IH.
Qed.

Lemma HASH_FIND_add_ne t k k' v : k <> k' -> HASH_FIND (HASH_ADD t k v) k' = HASH_FIND t k'.
Proof.
  intros Hne. unfold HASH_ADD. induction t as [|[k2 v2] t IH]; csimpl.
  - by rewrite decide_False by congruence.
  - by rewrite IH.
Qed.

Lemma HASH_DELETE_not_found t k : HASH_FIND t k = None -> HASH_DELETE t k = t.
Proof.
  destruct t as [|[k' v'] t]; csimpl; [done|].
  destruct (HASH_FIND t k); [done|]. by case_decide.
Qed.

Lemma HASH_DELETE_keys t k : table_wf t -> (HASH_DELETE t k).*1 = filter (.≠ k) (t.*1).
Proof.
  unfold table_wf. induction t as [|[k' v'] t IH]; csimpl; [done|].
  intros [Hn Hw]%NoDup_cons. rewrite filter_cons.
  destruct (HASH_FIND t k) as [v|] eqn:E; csimpl.
  - apply HASH_FIND_Some_elem, (list_elem_of_fmap_2 fst) in E. csimpl in E.
    rewrite decide_True by (by intros ->). by rewrite IH.
  - apply HASH_FIND_None in E.
    assert (filter (.≠ k) (t.*1) = t.*1) as Ef.
    { apply filter_all. intros x Hx ->. done. }
    case_decide as Hd; subst.
    + rewrite decide_False by (intros Hc; by apply Hc). by rewrite Ef.
    + rewrite decide_True by congruence. by rewrite Ef.
Qed.

Lemma HASH_DELETE_elem t k kv :
  table_wf t -> kv ∈ HASH_DELETE t k <-> kv ∈ t /\ kv.1 <> k.
Proof.
  unfold table_wf. induction t as [|[k' v'] t IH]; csimpl.
  - intros _. rewrite elem_of_nil. naive_solver.
  - intros [Hn Hw]%NoDup_cons.
    destruct (HASH_FIND t k) as [v|] eqn:E.
    + apply HASH_FIND_Some_elem, (list_elem_of_fmap_2 fst) in E. csimpl in E.
      rewrite !elem_of_cons, IH by done. split; [|naive_solver].
      intros [->|?]; [|naive_solver]. split; [by left|]. csimpl. by intros ->.
    + apply HASH_FIND_None in E.
      assert (forall x, x ∈ t -> x.1 <> k) as Hx.
      { intros x Hx <-. by apply E, (list_elem_of_fmap_2 fst). }
      case_decide as Hd; subst; rewrite ?elem_of_cons; [|naive_solver].
      split; [naive_solver|]. intros [[->|?] ?]; [done|done].
Qed.

Lemma HASH_DELETE_wf t k : table_wf t -> table_wf (HASH_DELETE t k).
Proof. intros Hw. unfold table_wf. rewrite HASH_DELETE_keys by done. by apply NoDup_filter. Qed.

Lemma HASH_ADD_wf t k v : table_wf t -> HASH_FIND t k = None -> table_wf (HASH_ADD t k v).
Proof.
  unfold table_wf, HASH_ADD. rewrite HASH_FIND_None, fmap_app. intros Hw Hn.
  apply NoDup_app. split; [done|]. split; [|apply NoDup_singleton].
  csimpl. intros x Hx. rewrite list_elem_of_singleton. by intros ->.
Qed.

Lemma HASH_FIND_delete_eq t k : table_wf t -> HASH_FIND (HASH_DELETE t k) k = None.
Proof.
  intros Hw. apply HASH_FIND_None. rewrite HASH_DELETE_keys by done.
  rewrite list_elem_of_filter. naive_solver.
Qed.

Lemma HASH_DELETE_length t k v :
  table_wf t -> HASH_FIND t k = Some v -> length t = S (length (HASH_DELETE t k)).
Proof.
  unfold table_wf. induction t as [|[k' v'] t IH]; csimpl; [done|].
  intros [Hn Hw]%NoDup_cons. destruct (HASH_FIND t k) as [v2|] eqn:E.
  - intros Hf. csimpl. f_equal. eauto.
  - case_decide; [done|]. done.
Qed.

Lemma HASH_FIND_delete_ne t k k' :
  table_wf t -> k <> k' -> HASH_FIND (HASH_DELETE t k) k' = HASH_FIND t k'.
Proof.
  intros Hw Hne. pose proof (HASH_DELETE_wf t k Hw) as Hw'.
  destruct (HASH_FIND t k') as [v|] eqn:E.
  - apply HASH_FIND_elem; [done|]. apply HASH_DELETE_elem; [done|].
    split; [by apply HASH_FIND_Some_elem|]. csimpl. congruence.
  - rewrite HASH_FIND_None in *. rewrite HASH_DELETE_keys by done.
    rewrite list_elem_of_filter. naive_solver.
Qed.

Lemma table_wf_tail t : table_wf t -> table_wf (tail t).
Proof. unfold table_wf. destruct t as [|e t]; csimpl; [done|]. by intros [_ ?]%NoDup_cons. Qed.
End uthash.

Create HintDb uthash.
#[export] Hint Resolve HASH_DELETE_wf table_wf_tail : uthash.
