(* ===== verification/Lru.v ===== *)
(** The two LRU caches: 5-tuple -> UID of pcapd (common/uid_lru.c) and
    IP -> host name of the core (core/ip_lru.c), with the specification both
    refine: the cache holds the last [max_size] distinct keys used. *)
From Stdlib Require Import ZArith Lia.
From stdpp Require Import base option gmap numbers list.
From S2P Require Import Prelude Uthash Packet.

Open Scope Z_scope.

(** ** Specification: the most recently used keys of a history of uses *)
Section lru_spec.
Context {K V : Type} `{EqDecision K}.

(** The history with only the last use of each key, oldest first. *)
Fixpoint last_uses (h : list (K * V)) : list (K * V) :=
  match h with
  | [] => []
  | e :: h' => if decide (e.1 ∈ h'.*1) then last_uses h' else e :: last_uses h'
  end.

Definition lru_view (n : nat) (h : list (K * V)) : list (K * V) :=
  drop (length (last_uses h) - n) (last_uses h).
End lru_spec.

(** ** common/uid_lru.c *)
Module UidLru.
Record uid_lru := mk_uid_lru {
  max_size : Z;
  cache : list (zdtun_5tuple * Z)
}.
#[export] Instance eta_uid_lru : Eta uid_lru := fun l => mk_uid_lru (max_size l) (cache l).

(** [alloc]: the outcome of the [malloc] *)
Definition uid_lru_init (max_size : Z) (alloc : bool) : option uid_lru :=
  if negb alloc then None else Some (mk_uid_lru max_size []).

Definition uid_lru_find_entry (lru : uid_lru) (tuple : zdtun_5tuple) : option Z * uid_lru :=
  match HASH_FIND (cache lru) tuple with
  | Some uid =>
      (Some uid, lru <| cache := HASH_ADD (HASH_DELETE (cache lru) tuple) tuple uid |>)
  | None => (None, lru)
  end.

Definition uid_lru_add (lru : uid_lru) (tuple : zdtun_5tuple) (uid : Z) (alloc : bool)
  : uid_lru :=
  if negb alloc then lru else
  let c := HASH_ADD (cache lru) tuple uid in
  if HASH_COUNT c >? u32 (max_size lru)
  then lru <| cache := tail c |>      (* the loop deletes the first entry only *)
  else lru <| cache := c |>.

Definition uid_lru_find (lru : uid_lru) (tuple : zdtun_5tuple) : Z * uid_lru :=
  let '(entry, lru') := uid_lru_find_entry lru tuple in
  (match entry with Some uid => uid | None => -2 end, lru').

Definition uid_lru_size (lru : uid_lru) : Z := HASH_COUNT (cache lru).
End UidLru.

(** ** core/ip_lru.c *)
Module IpLru.
Record ip_lru := mk_ip_lru {
  max_size : Z;
  cache : list (Z * bytes)
}.
#[export] Instance eta_ip_lru : Eta ip_lru := fun l => mk_ip_lru (max_size l) (cache l).

Definition ip_lru_init (max_size : Z) (alloc : bool) : option ip_lru :=
  if negb alloc then None else Some (mk_ip_lru max_size []).

Definition ip_lru_find_entry (lru : ip_lru) (ip : Z) : option bytes * ip_lru :=
  match HASH_FIND (cache lru) ip with
  | Some host =>
      (Some host, lru <| cache := HASH_ADD (HASH_DELETE (cache lru) ip) ip host |>)
  | None => (None, lru)
  end.

(** Replaces the host of the entry that [ip_lru_find_entry] returned, which
    it has moved to the end of the table. *)
Definition set_last_host (c : list (Z * bytes)) (host : bytes) : list (Z * bytes) :=
  match last c with
  | Some (ip, _) => removelast c ++ [(ip, host)]
  | None => c
  end.

(** [dup] and [alloc]: the outcomes of [strdup(hostname)] and of [malloc] *)
Definition ip_lru_add (lru : ip_lru) (ip : Z) (hostname : bytes) (dup alloc : bool)
  : ip_lru :=
  if negb dup then lru else
  let '(entry, lru) := ip_lru_find_entry lru ip in
  match entry with
  | Some _ => lru <| cache := set_last_host (cache lru) hostname |>
  | None =>
      if negb alloc then lru else
      let c := HASH_ADD (cache lru) ip hostname in
      if HASH_COUNT c >? u32 (max_size lru)
      then lru <| cache := tail c |>
      else lru <| cache := c |>
  end.

(** The caller gets its own copy of the host. *)
Definition ip_lru_find (lru : ip_lru) (ip : Z) (dup : bool) : option bytes * ip_lru :=
  let '(entry, lru') := ip_lru_find_entry lru ip in
  (if dup then entry else None, lru').

Definition ip_lru_size (lru : ip_lru) : Z := HASH_COUNT (cache lru).
End IpLru.

(** ** The step shared by the two caches *)
Section lru_step.
Context {K V : Type} `{EqDecision K}.
Implicit Types (c h : list (K * V)) (k : K) (v : V).

Definition rm (k : K) (c : list (K * V)) : list (K * V) := filter (fun e => e.1 ≠ k) c.

(** Use of [k] in a cache of at most [n] entries. *)
Definition lru_use (n : nat) (c : list (K * V)) (k : K) (v : V) : list (K * V) :=
  let c' := rm k c ++ [(k, v)] in
  if decide (n < length c')%nat then tail c' else c'.

Lemma HASH_DELETE_rm c k : table_wf c -> HASH_DELETE c k = rm k c.
Proof.
  unfold table_wf, rm. induction c as [|[k' v'] c IH]; csimpl; [done|].
  intros [Hn Hw]%NoDup_cons. rewrite filter_cons. csimpl.
  destruct (HASH_FIND c k) as [v|] eqn:E.
  - apply HASH_FIND_Some_elem, (list_elem_of_fmap_2 fst) in E. csimpl in E.
    rewrite decide_True by (by intros ->). by rewrite IH.
  - apply HASH_FIND_None in E.
    assert (filter (fun e : K * V => e.1 ≠ k) c = c) as ->.
    { apply filter_all. intros e He <-. by apply E, (list_elem_of_fmap_2 fst). }
    case_decide as Hd; subst.
    + by rewrite decide_False by (intros Hc; by apply Hc).
    + by rewrite decide_True by congruence.
Qed.

Lemma HASH_DELETE_absent c k : HASH_FIND c k = None -> rm k c = c.
Proof.
  rewrite HASH_FIND_None. intros Hn. apply filter_all.
  intros e He <-. by apply Hn, (list_elem_of_fmap_2 fst).
Qed.

Lemma rm_length c k :
  table_wf c -> (length (rm k c) <= length c <= S (length (rm k c)))%nat.
Proof.
  intros Hw. rewrite <- HASH_DELETE_rm by done.
  destruct (HASH_FIND c k) as [v|] eqn:E.
  - pose proof (HASH_DELETE_length c k v Hw E). lia.
  - rewrite HASH_DELETE_not_found by done. lia.
Qed.

Lemma last_uses_elem h k : k ∈ (last_uses h).*1 <-> k ∈ h.*1.
Proof.
  induction h as [|e h IH]; csimpl; [done|].
  case_decide as Hd; csimpl; rewrite elem_of_cons, ?elem_of_cons, IH; [|done].
  split; [by right|]. by intros [->|?].
Qed.

Lemma last_uses_wf h : table_wf (last_uses h).
Proof.
  unfold table_wf. induction h as [|e h IH]; csimpl; [constructor|].
  case_decide as Hd; [done|]. csimpl. apply NoDup_cons. by rewrite last_uses_elem.
Qed.

Lemma last_uses_snoc h k v : last_uses (h ++ [(k, v)]) = rm k (last_uses h) ++ [(k, v)].
Proof.
  induction h as [|e h IH]; csimpl; [done|].
  rewrite IH. unfold rm. rewrite fmap_app. csimpl.
  destruct (decide (e.1 = k)) as [<-|Hne].
  - rewrite decide_True by (apply elem_of_app; right; by left).
    case_decide; [done|]. rewrite filter_cons, decide_False by (intros Hc; by apply Hc). done.
  - destruct (decide (e.1 ∈ h.*1)) as [Hin|Hnin].
    + by rewrite decide_True by (apply elem_of_app; by left).
    + rewrite decide_False, filter_cons, decide_True; [done|done|].
      rewrite elem_of_app, list_elem_of_singleton. naive_solver.
Qed.

Lemma lru_view_wf n h : table_wf (lru_view n h).
Proof.
  unfold table_wf, lru_view. rewrite fmap_drop.
  eapply sublist_NoDup; [apply last_uses_wf|apply sublist_drop].
Qed.

Lemma lru_view_length n h : (length (lru_view n h) <= n)%nat.
Proof. unfold lru_view. rewrite length_drop. lia. Qed.

Lemma lru_use_view n h k v :
  (0 < n)%nat -> lru_use n (lru_view n h) k v = lru_view n (h ++ [(k, v)]).
Proof.
  intros Hn. unfold lru_use, lru_view. rewrite last_uses_snoc.
  pose proof (lru_view_wf n h) as Hw. unfold lru_view in *.
  set (D := last_uses h) in *. set (m := (length D - n)%nat) in *.
  pose proof (rm_length (drop m D) k Hw) as Hl. rewrite length_drop in Hl.
  assert (rm k D = rm k (take m D) ++ rm k (drop m D)) as Happ.
  { unfold rm. by rewrite <- filter_app, take_drop. }
  rewrite Happ, <- app_assoc.
  set (A := rm k (take m D)) in *. set (B := rm k (drop m D) ++ [(k, v)]) in *.
  assert (length B = S (length (rm k (drop m D)))) as HB.
  { unfold B. rewrite length_app. simpl. lia. }
  assert (m = 0%nat -> A = []) as HA by (by intros Hm; unfold A; rewrite Hm).
  case_decide as Hd; rewrite length_app.
  - replace (length A + length B - n)%nat with (length A + 1)%nat.
    + rewrite <- drop_drop, drop_app_length. by destruct B.
    + destruct (decide (m = 0%nat)); [rewrite HA by done; simpl|]; lia.
  - destruct (decide (m = 0%nat)) as [Hm|Hm].
    + rewrite HA by done. simpl. replace (length B - n)%nat with 0%nat by lia. done.
    + replace (length A + length B - n)%nat with (length A) by lia.
      by rewrite drop_app_length.
Qed.

Lemma lru_use_wf n c k v : table_wf c -> table_wf (lru_use n c k v).
Proof.
  intros Hw. unfold lru_use. rewrite <- HASH_DELETE_rm by done.
  assert (table_wf (HASH_ADD (HASH_DELETE c k) k v)).
  { apply HASH_ADD_wf; [by apply HASH_DELETE_wf|by apply HASH_FIND_delete_eq]. }
  unfold HASH_ADD in *. case_decide; [by apply table_wf_tail|done].
Qed.
End lru_step.

Section lru_facts.
Context {K V : Type} `{EqDecision K}.

(** An entry moved to the end: the use of a key that the cache holds. *)
Lemma lru_use_present n (c : list (K * V)) k v v' :
  table_wf c -> HASH_FIND c k = Some v -> (length c <= n)%nat ->
  HASH_ADD (HASH_DELETE c k) k v' = lru_use n c k v'.
Proof.
  intros Hw Hf Hl. pose proof (HASH_DELETE_length c k v Hw Hf) as Hlen.
  unfold HASH_ADD, lru_use. rewrite HASH_DELETE_rm in * by done.
  rewrite decide_False; [done|]. rewrite length_app. simpl. lia.
Qed.

(** An entry added, with the eviction the C code does. *)
Lemma lru_use_absent n (c : list (K * V)) k v :
  HASH_FIND c k = None -> 0 <= n < 2 ^ 31 ->
  (if HASH_COUNT (HASH_ADD c k v) >? u32 n then tail (HASH_ADD c k v) else HASH_ADD c k v)
  = lru_use (Z.to_nat n) c k v.
Proof.
  intros Hf Hn. unfold lru_use. rewrite (HASH_DELETE_absent c k) by done.
  rewrite u32_small by lia. unfold HASH_COUNT, HASH_ADD.
  rewrite Z.gtb_ltb. case_decide; destruct (Z.ltb_spec n (Z.of_nat (length (c ++ [(k, v)]))));
    try done; lia.
Qed.

Lemma set_last_snoc (c : list (Z * bytes)) ip h h' :
  IpLru.set_last_host (c ++ [(ip, h)]) h' = c ++ [(ip, h')].
Proof. unfold IpLru.set_last_host. by rewrite last_snoc, removelast_last. Qed.
End lru_facts.

(** ** Refinement: the caches implement the most-recently-used view *)
Section refinement.
Import UidLru.

(** [lru] is what the history [h] of uses (oldest first) leaves. *)
Definition uid_view (lru : uid_lru) (h : list (zdtun_5tuple * Z)) : Prop :=
  0 < UidLru.max_size lru < 2 ^ 31 /\
  UidLru.cache lru = lru_view (Z.to_nat (UidLru.max_size lru)) h.

Definition ip_view (lru : IpLru.ip_lru) (h : list (Z * bytes)) : Prop :=
  0 < IpLru.max_size lru < 2 ^ 31 /\
  IpLru.cache lru = lru_view (Z.to_nat (IpLru.max_size lru)) h.

(** C36: The UID cache of pcapd implements a least-recently-used cache: from a
    state that is the view of a history of uses, a lookup returns the UID of
    the tuple's last use when the tuple is among the [max_size] most recently
    used ones (and this lookup becomes its last use) and the "not found"
    value -2 otherwise, and adding a tuple that was not found makes it the
    last use, evicting only the least recently used tuple. A failed
    allocation changes nothing, and a fresh cache is the empty view. *)
Theorem uid_lru_refines lru h tuple uid :
  uid_view lru h ->
  (match HASH_FIND (lru_view (Z.to_nat (UidLru.max_size lru)) h) tuple with
   | Some v => exists lru', uid_lru_find lru tuple = (v, lru') /\
                            uid_view lru' (h ++ [(tuple, v)])
   | None => uid_lru_find lru tuple = (-2, lru) /\
             uid_view (uid_lru_add lru tuple uid true) (h ++ [(tuple, uid)])
   end) /\
  uid_lru_add lru tuple uid false = lru /\
  (forall n, 0 < n < 2 ^ 31 -> exists l, uid_lru_init n true = Some l /\ uid_view l []) /\
  table_wf (UidLru.cache lru) /\ uid_lru_size lru <= UidLru.max_size lru.
Proof.
  destruct lru as [n c]. unfold uid_view, uid_lru_size. csimpl. intros [Hn ->].
  pose proof (lru_view_wf (Z.to_nat n) h) as Hw.
  pose proof (lru_view_length (Z.to_nat n) h) as Hl.
  split; [|split; [done|split; [|split; [done|unfold HASH_COUNT; lia]]]].
  2: { intros m Hm. eexists. split; [done|]. csimpl. by destruct (Z.to_nat m). }
  unfold uid_lru_find, uid_lru_find_entry. csimpl.
  destruct (HASH_FIND _ tuple) as [v|] eqn:E.
  - eexists. split; [done|]. csimpl. split; [done|].
    rewrite (lru_use_present (Z.to_nat n) _ _ v) by done. apply lru_use_view. lia.
  - split; [done|]. unfold uid_lru_add. csimpl.
    pose proof (lru_use_absent n _ tuple uid E ltac:(lia)) as Hu.
    rewrite lru_use_view in Hu by lia. revert Hu.
    case_match; csimpl; intros <-; done.
Qed.

(** The host cache of the core implements a least-recently-used map:
    after [ip_lru_add ip host] the last use of [ip] is [host], whether the
    address was there (its host is replaced and its place renewed) or not
    (the least recently used address is evicted when the cache is full); a
    lookup returns the host of the address's last use when it is among the
    [max_size] most recently used addresses, and renews it. Allocation
    failures lose at most the new name: with no copy of it the cache does
    not change. *)
Theorem ip_lru_refines lru h ip host :
  ip_view lru h ->
  ip_view (IpLru.ip_lru_add lru ip host true true) (h ++ [(ip, host)]) /\
  (match HASH_FIND (lru_view (Z.to_nat (IpLru.max_size lru)) h) ip with
   | Some v => exists lru', IpLru.ip_lru_find lru ip true = (Some v, lru') /\
                            ip_view lru' (h ++ [(ip, v)])
   | None => IpLru.ip_lru_find lru ip true = (None, lru) /\
             IpLru.ip_lru_add lru ip host true false = lru
   end) /\
  (forall alloc, IpLru.ip_lru_add lru ip host false alloc = lru) /\
  (forall n, 0 < n < 2 ^ 31 -> exists l, IpLru.ip_lru_init n true = Some l /\ ip_view l []) /\
  table_wf (IpLru.cache lru) /\ IpLru.ip_lru_size lru <= IpLru.max_size lru.
Proof.
  destruct lru as [n c]. unfold ip_view, IpLru.ip_lru_size. csimpl. intros [Hn ->].
  pose proof (lru_view_wf (Z.to_nat n) h) as Hw.
  pose proof (lru_view_length (Z.to_nat n) h) as Hl.
  assert (forall m, 0 < m < 2 ^ 31 -> exists l, IpLru.ip_lru_init m true = Some l /\
            0 < IpLru.max_size l < 2 ^ 31 /\
            IpLru.cache l = lru_view (Z.to_nat (IpLru.max_size l)) []) as Hinit.
  { intros m Hm. eexists. split; [done|]. csimpl. by destruct (Z.to_nat m). }
  unfold IpLru.ip_lru_find, IpLru.ip_lru_add, IpLru.ip_lru_find_entry. csimpl.
  destruct (HASH_FIND _ ip) as [v|] eqn:E; csimpl.
  - split; [split; [done|]|].
    { unfold HASH_ADD. rewrite set_last_snoc.
      rewrite <- lru_use_view by lia. by apply (lru_use_present _ _ _ v). }
    split; [|split; [done|split; [done|split; [done|unfold HASH_COUNT; lia]]]].
    eexists. split; [done|]. csimpl. split; [done|].
    rewrite (lru_use_present (Z.to_nat n) _ _ v) by done. apply lru_use_view. lia.
  - split; [|split; [done|split; [done|split; [done|split; [done|unfold HASH_COUNT; lia]]]]].
    pose proof (lru_use_absent n _ ip host E ltac:(lia)) as Hu.
    rewrite lru_use_view in Hu by lia. revert Hu.
    case_match; csimpl; intros <-; done.
Qed.
End refinement.

Definition lru_tuple (port : Z) : zdtun_5tuple := mk_5tuple 1 2 port 443 4 6.

Lemma uid_lru_refines_witness :
  let h := [(lru_tuple 1, 10001); (lru_tuple 2, 10002); (lru_tuple 3, 10003)] in
  let lru := UidLru.mk_uid_lru 2 [(lru_tuple 2, 10002); (lru_tuple 3, 10003)] in
  UidLru.uid_lru_find lru (lru_tuple 1) = (-2, lru) /\
  uid_view (UidLru.uid_lru_add lru (lru_tuple 1) 7 true) (h ++ [(lru_tuple 1, 7)]).
Proof.
  assert (uid_view (UidLru.mk_uid_lru 2 [(lru_tuple 2, 10002); (lru_tuple 3, 10003)])
            [(lru_tuple 1, 10001); (lru_tuple 2, 10002); (lru_tuple 3, 10003)]) as Hv
    by (split; [simpl; lia|vm_compute; reflexivity]).
  pose proof (uid_lru_refines _ _ (lru_tuple 1) 7 Hv) as (Hf & _). exact Hf.
Defined.

Lemma ip_lru_refines_witness :
  ip_view (IpLru.ip_lru_add (IpLru.mk_ip_lru 2 [(5, [97; 46; 99]); (6, [98; 46; 111])])
             5 [99; 46; 110] true true)
    [(5, [97; 46; 99]); (6, [98; 46; 111]); (5, [99; 46; 110])].
Proof.
  assert (ip_view (IpLru.mk_ip_lru 2 [(5, [97; 46; 99]); (6, [98; 46; 111])])
            [(5, [97; 46; 99]); (6, [98; 46; 111])]) as Hv
    by (split; [simpl; lia|vm_compute; reflexivity]).
  exact (proj1 (ip_lru_refines _ _ 5 [99; 46; 110] Hv)).
Defined.
