(* ===== verification/PortMap.v ===== *)
(** Port redirections of the VPN capture (core/port_map.c): the two lists of
    mappings, and the specification of the lookup over the rules added. *)
From Stdlib Require Import ZArith Lia.
From stdpp Require Import base option gmap numbers list.
From S2P Require Import Prelude Packet.

Open Scope Z_scope.

(** ** Data *)
Record port_map := mk_port_map {
  redirect_ip : Z;
  map_ipver : Z;
  orig_port : Z;       (** network byte order *)
  redirect_port : Z    (** network byte order *)
}.

(** The [items] array of each list; [num_items] is its length. *)
Record port_mappings := mk_mappings {
  map_tcp : list port_map;
  map_udp : list port_map
}.
#[export] Instance eta_port_mappings : Eta port_mappings := fun m =>
  mk_mappings (map_tcp m) (map_udp m).

(** ** Operations *)
Definition get_map_list (m : port_mappings) (proto : Z) : option (list port_map) :=
  if proto =? IPPROTO_TCP then Some (map_tcp m)
  else if proto =? IPPROTO_UDP then Some (map_udp m)
  else None.

Definition set_map_list (m : port_mappings) (proto : Z) (l : list port_map) : port_mappings :=
  if proto =? IPPROTO_TCP then m <| map_tcp := l |> else m <| map_udp := l |>.

(** [alloc]: the outcome of the [realloc]; when it fails the list is lost. *)
Definition pd_add_port_map (m : port_mappings) (ver proto orig redirect ip : Z) (alloc : bool)
  : bool * port_mappings :=
  match get_map_list m proto with
  | None => (false, m)
  | Some mlist =>
      if negb alloc then (false, set_map_list m proto [])
      else (true, set_map_list m proto
              (mlist ++ [mk_port_map ip ver (htons (u16 orig)) (htons (u16 redirect))]))
  end.

(** The loop over the items: the first one with the destination port. *)
Fixpoint find_port (items : list port_map) (dport : Z) : option port_map :=
  match items with
  | [] => None
  | mapping :: items' =>
      if orig_port mapping =? dport then Some mapping else find_port items' dport
  end.

(** [Some (ip, port, ipver)]: the call returns [true] after
    [zdtun_conn_dnat(conn, ip, port, ipver)]; [None]: it returns [false]. *)
Definition pd_check_port_map (m : port_mappings) (tuple : zdtun_5tuple)
  : option (Z * Z * Z) :=
  mlist ← get_map_list m (ipproto tuple);
  mapping ← find_port mlist (dst_port tuple);
  Some (redirect_ip mapping, redirect_port mapping, map_ipver mapping).

Definition pd_reset_port_map : port_mappings := mk_mappings [] [].

(** ** Specification: the first rule that matches, in the order of addition *)
Record port_rule := mk_rule {
  r_ipver : Z; r_proto : Z; r_orig : Z; r_redirect : Z; r_ip : Z
}.

Definition add_rule (m : port_mappings) (r : port_rule) : port_mappings :=
  (pd_add_port_map m (r_ipver r) (r_proto r) (r_orig r) (r_redirect r) (r_ip r) true).2.

Definition rule_matches (t : zdtun_5tuple) (r : port_rule) : bool :=
  ((r_proto r =? IPPROTO_TCP) || (r_proto r =? IPPROTO_UDP)) &&
  (r_proto r =? ipproto t) && (u16 (r_orig r) =? ntohs (dst_port t)).

Fixpoint first_match (rules : list port_rule) (t : zdtun_5tuple) : option (Z * Z * Z) :=
  match rules with
  | [] => None
  | r :: rules' =>
      if rule_matches t r then Some (r_ip r, htons (u16 (r_redirect r)), r_ipver r)
      else first_match rules' t
  end.

(** ** Lemmas *)
Lemma find_port_app l l' p :
  find_port (l ++ l') p = match find_port l p with Some m => Some m | None => find_port l' p end.
Proof. induction l as [|m l IH]; simpl; [done|]. by destruct (orig_port m =? p). Qed.

Lemma first_match_app l l' t :
  first_match (l ++ l') t =
  match first_match l t with Some m => Some m | None => first_match l' t end.
Proof.
  induction l as [|r l IH]; cbn [first_match app]; [done|]. by destruct (rule_matches t r).
Qed.

Lemma htons_eqb a b :
  0 <= a < 2 ^ 16 -> 0 <= b < 2 ^ 16 -> (htons a =? b) = (a =? ntohs b).
Proof.
  intros Ha Hb. unfold htons, ntohs.
  destruct (Z.eqb_spec (swap16 a) b) as [E1|N1], (Z.eqb_spec a (swap16 b)) as [E2|N2];
    try done; exfalso.
  - apply N2. rewrite <- E1. symmetry. by apply swap16_involutive.
  - apply N1. rewrite E2. by apply swap16_involutive.
Qed.

Lemma get_set_map_list m proto l proto' :
  get_map_list m proto <> None ->
  get_map_list (set_map_list m proto l) proto' =
  if proto =? proto' then Some l else get_map_list m proto'.
Proof.
  unfold get_map_list, set_map_list, IPPROTO_TCP, IPPROTO_UDP. intros Hsome.
  destruct (Z.eqb_spec proto 6) as [->|]; [destruct (Z.eqb_spec 6 proto') as [<-|]|].
  - done.
  - destruct (Z.eqb_spec proto' 6); [lia|]. done.
  - destruct (Z.eqb_spec proto 17) as [->|]; [|done].
    destruct (Z.eqb_spec 17 proto') as [<-|]; [done|].
    destruct (Z.eqb_spec proto' 6); [done|]. by destruct (Z.eqb_spec proto' 17); [lia|].
Qed.

(** One more rule only matters when nothing matched before it. *)
Lemma check_add_rule m r t :
  is_u16 (dst_port t) ->
  pd_check_port_map (add_rule m r) t =
  match pd_check_port_map m t with Some d => Some d | None => first_match [r] t end.
Proof.
  intros Hp. unfold add_rule, pd_add_port_map, pd_check_port_map. cbn [first_match].
  unfold rule_matches.
  destruct (get_map_list m (r_proto r)) as [l|] eqn:El; simpl.
  - rewrite get_set_map_list by congruence.
    assert ((r_proto r =? IPPROTO_TCP) || (r_proto r =? IPPROTO_UDP) = true) as ->.
    { unfold get_map_list in El. destruct (r_proto r =? IPPROTO_TCP); [done|].
      by destruct (r_proto r =? IPPROTO_UDP). }
    destruct (Z.eqb_spec (r_proto r) (ipproto t)) as [E|]; simpl.
    + rewrite <- E, El. simpl. rewrite find_port_app.
      destruct (find_port l (dst_port t)); simpl; [done|].
      rewrite htons_eqb by (try apply u16_range; apply Hp). by case_match.
    + by destruct (get_map_list m (ipproto t) ≫= _).
  - assert ((r_proto r =? IPPROTO_TCP) || (r_proto r =? IPPROTO_UDP) = false) as ->.
    { unfold get_map_list in El. destruct (r_proto r =? IPPROTO_TCP); [done|].
      by destruct (r_proto r =? IPPROTO_UDP). }
    simpl. by destruct (get_map_list m (ipproto t) ≫= _).
Qed.

(** ** The property *)

(** The connection that [pd_check_port_map] redirects and where it sends it
    are those of the first rule, in the order of the [pd_add_port_map] calls,
    whose protocol is the connection's (TCP or UDP; rules of other protocols
    are refused) and whose port is the connection's destination port in host
    order; no matching rule, no redirection. *)
Theorem pd_check_port_map_first rules t :
  is_u16 (dst_port t) ->
  pd_check_port_map (fold_left add_rule rules pd_reset_port_map) t = first_match rules t.
Proof.
  intros Hp. induction rules as [|r rules IH] using rev_ind.
  - unfold pd_check_port_map, get_map_list. simpl. by repeat case_match.
  - rewrite fold_left_app, first_match_app. cbn [fold_left].
    by rewrite check_add_rule, IH.
Qed.

Lemma pd_check_port_map_first_witness :
  pd_check_port_map
    (fold_left add_rule [mk_rule 4 6 80 8080 1; mk_rule 4 17 53 5353 2; mk_rule 4 17 53 54 3]
       pd_reset_port_map)
    (mk_5tuple 7 8 1000 (htons 53) 4 17) = Some (2, htons 5353, 4).
Proof.
  rewrite pd_check_port_map_first; [reflexivity|].
  split; [discriminate|reflexivity].
Defined.
