(* ===== verification/AppNames.v ===== *)
(** UID to application name: the memo table [uid2app] of [get_appname_by_uid]
    (core/pcapdroid.c) over the Java side's [getApplicationByUid], as
    core/jni_impl.c copies it. *)
From Stdlib Require Import ZArith Lia.
From stdpp Require Import base option gmap numbers list.
From S2P Require Import Prelude Uthash.

Open Scope Z_scope.

(** The contents of a C string: the bytes before its terminator. *)
Definition cstr (bs : bytes) : Prop := Forall (fun b => 0 < b < 256) bs.

(** [strncpy(buf, s, n); buf[n-1] = 0]: the [n] bytes of [buf]. *)
Definition strncpy_nul (s : bytes) (n : Z) : bytes :=
  let k := take (Z.to_nat (n - 1)) s in
  k ++ replicate (Z.to_nat n - length k) 0.

(** [appname[64]] of [uid_to_app_t], as the string it holds *)
Abbreviation uid_to_app := (list (Z * bytes)).

Section app_names.
(** What the Java method returns: [None] is a null string. *)
Context (java_app_name : Z -> option bytes).

(** jni_impl.c: "???" when Java has no answer. *)
Definition getApplicationByUid (uid bufsize : Z) : bytes :=
  match java_app_name uid with
  | None => take (Z.to_nat (bufsize - 1)) [63; 63; 63]
  | Some value => take (Z.to_nat (bufsize - 1)) value
  end.

(** The bytes written at the start of [buf], and the table after the call;
    [alloc] is the outcome of the [malloc] of a new entry. *)
Definition get_appname_by_uid (uid2app : uid_to_app) (uid bufsize : Z) (alloc : bool)
  : bytes * uid_to_app :=
  let '(app_entry, uid2app) :=
    match HASH_FIND uid2app uid with
    | Some appname => (Some appname, uid2app)
    | None =>
        if alloc then
          let appname := getApplicationByUid uid 64 in
          (Some appname, HASH_ADD uid2app uid appname)
        else (None, uid2app)
    end in
  (match app_entry with
   | Some appname => strncpy_nul appname bufsize
   | None => [0]
   end, uid2app).

(** The table only holds what Java answers. *)
Definition uid2app_ok (c : uid_to_app) : Prop :=
  table_wf c /\ forall uid a, HASH_FIND c uid = Some a -> a = getApplicationByUid uid 64.

Lemma blen_strncpy_nul s n : 0 < n -> blen (strncpy_nul s n) = n.
Proof.
  intros Hn. unfold strncpy_nul, blen. rewrite length_app, length_replicate, length_take. lia.
Qed.

Lemma uid2app_ok_nil : uid2app_ok [].
Proof. split; [constructor|done]. Qed.

Lemma get_appname_spec c uid n alloc :
  uid2app_ok c -> 0 < n ->
  let '(buf, c') := get_appname_by_uid c uid n alloc in
  uid2app_ok c' /\
  (buf = strncpy_nul (getApplicationByUid uid 64) n \/
   (alloc = false /\ HASH_FIND c uid = None /\ buf = [0])).
Proof.
  intros [Hw Ho] Hn. unfold get_appname_by_uid.
  destruct (HASH_FIND c uid) as [a|] eqn:E.
  - split; [done|]. left. by rewrite (Ho _ _ E).
  - destruct alloc; [|split; [done|by right]].
    split; [|by left]. split; [by apply HASH_ADD_wf|].
    intros uid' a'. destruct (decide (uid = uid')) as [<-|Hne].
    + rewrite HASH_FIND_add_eq. by intros [= <-].
    + rewrite HASH_FIND_add_ne by done. apply Ho.
Qed.

Lemma get_appname_blen c uid n alloc :
  0 < n -> blen (get_appname_by_uid c uid n alloc).1 <= n.
Proof.
  intros Hn. unfold get_appname_by_uid.
  repeat case_match; simplify_eq; simpl; rewrite ?blen_strncpy_nul by done; try lia;
    change (blen [0]) with 1; lia.
Qed.
End app_names.
