(* ===== verification/PcapDump.v ===== *)
(** The packet dump (core/pcap_dump.c): records are written into a fixed buffer
    with explicit, bounds-checked stores, and exported to a callback. The
    abstract dumper [dump_log] is a pure log of encoded records; the theorems
    show that the buffer code implements it. *)
From Stdlib Require Import ZArith Lia.
From stdpp Require Import base option gmap numbers list.
From S2P Require Import Prelude Crc32 Uthash AppNames.

Open Scope Z_scope.

(** ** Data *)
Inductive pcap_dump_mode := PCAP_DUMP | PCAP_DUMP_WITH_TRAILER | PCAPNG_DUMP.
#[export] Instance pcap_dump_mode_eq_dec : EqDecision pcap_dump_mode.
Proof. solve_decision. Defined.

Definition LINKTYPE_ETHERNET : Z := 1.
Definition LINKTYPE_RAW : Z := 101.
Definition MAX_PCAP_DUMP_DELAY_MS : Z := 1000.
Definition PCAP_BUFFER_SIZE : Z := 524288.
Definition PCAP_BUFFER_ALMOST_FULL_SIZE : Z := 460800.
Definition KEYLOG_BUFFER_HEADROOM : Z := 16.
Definition KEYLOG_BUFFER_TAILROOM : Z := 8.
Definition KEYLOG_ALLOC_SIZE : Z :=
  KEYLOG_BUFFER_HEADROOM + PCAP_BUFFER_SIZE + KEYLOG_BUFFER_TAILROOM.
Definition PCAPDROID_TRAILER_MAGIC : Z := 0x01072021.

(** sizeof of the packed structs of pcap_dump.h and of [struct ethhdr] *)
Definition sizeof_pcap_hdr : Z := 24.
Definition sizeof_pcap_rec : Z := 16.
Definition sizeof_shb : Z := 24.
Definition sizeof_idb : Z := 16.
Definition sizeof_dsb : Z := 16.
Definition sizeof_epb : Z := 28.
Definition sizeof_trailer : Z := 32.
Definition sizeof_ethhdr : Z := 14.

(** [exported]: the chunks given to [dump_cb], oldest first. The dumper reads
    the clock [now_ms] and the name table [uid2app] through its [pd] pointer. *)
Record pcap_dumper := mk_dumper {
  mode : pcap_dump_mode;
  dump_cb : bool;              (** a callback is set *)
  snaplen : Z;
  max_dump_size : Z;
  dump_size : Z;
  last_dump_ms : Z;
  buffer : memory;
  buffer_idx : Z;
  keylog_buf : option memory;
  keylog_idx : Z;
  now_ms : Z;
  uid2app : uid_to_app;
  exported : list bytes
}.
#[export] Instance eta_pcap_dumper : Eta pcap_dumper := fun d =>
  mk_dumper (mode d) (dump_cb d) (snaplen d) (max_dump_size d) (dump_size d)
    (last_dump_ms d) (buffer d) (buffer_idx d) (keylog_buf d) (keylog_idx d)
    (now_ms d) (uid2app d) (exported d).

Record timeval := mk_tv { tv_sec : Z; tv_usec : Z }.

(** ** Operations *)

(** [None]: an allocation ([calloc] of the dumper, [malloc] of the buffer) or
    the initialisation of the mutex failed. [mem] is what the allocator left
    in the buffer. *)
Definition pcap_new_dumper (md : pcap_dump_mode) (slen max_size : Z) (cb : bool)
    (now : Z) (names : uid_to_app) (mem : memory) (calloc_ok malloc_ok mutex_ok : bool)
  : option pcap_dumper :=
  if negb calloc_ok then None else
  if negb malloc_ok then None else
  if negb mutex_ok then None else
  Some (mk_dumper md cb slen max_size 0 0 mem 0 None 0 now names []).

Definition call_dump_cb (d : pcap_dumper) (chunk : bytes) : pcap_dumper :=
  if dump_cb d then d <| exported ::= fun l => l ++ [chunk] |> else d.

(** [None] is a store outside of the key log buffer, or a null one. *)
Definition export_keylog_buffer (d : pcap_dumper) : option pcap_dumper :=
  if keylog_idx d =? 0 then Some d else
  let sec_len := keylog_idx d in
  let padding := pad4 sec_len in
  let block_size := sizeof_dsb + sec_len + padding + 4 in
  if (max_dump_size d >? 0) && (u64 (dump_size d + block_size) >=? max_dump_size d)
  then Some (d <| keylog_idx := 0 |>)
  else
    m ← keylog_buf d;
    let wr := store KEYLOG_ALLOC_SIZE in
    m ← wr m 0 (le32 0x0000000A);
    m ← wr m 4 (le32 block_size);
    m ← wr m 8 (le32 0x544c534b);
    m ← wr m 12 (le32 sec_len);
    let ptr := KEYLOG_BUFFER_HEADROOM + sec_len in
    m ← wr m ptr (replicate (Z.to_nat padding) 0);
    m ← wr m (ptr + padding) (mem_read m 4 4);
    let d := d <| keylog_buf := Some m |> in
    let d := call_dump_cb d (mem_read m 0 block_size) in
    Some (d <| dump_size ::= fun n => u64 (n + block_size) |> <| keylog_idx := 0 |>).

Definition export_buffer (d : pcap_dumper) : option pcap_dumper :=
  d ← export_keylog_buffer d;
  if buffer_idx d =? 0 then Some d else
  let d := call_dump_cb d (mem_read (buffer d) 0 (buffer_idx d)) in
  Some (d <| buffer_idx := 0 |> <| last_dump_ms := now_ms d |>).

(** Exports what is left; the memory is then freed. *)
Definition pcap_destroy_dumper (d : pcap_dumper) : option (list bytes) :=
  exported <$> export_buffer d.

(** *** The PCAP header and the PCAPNG preamble *)
Record pcapng_opt := mk_opt {
  opt_type : Z; opt_length : Z; opt_padding : Z; opt_tot_length : Z; opt_data : bytes
}.

Definition pcapng_option (type : Z) (data : bytes) (length : Z) : pcapng_opt :=
  let length := u16 length in
  let padding := pad4 length in
  mk_opt type length padding (u16 (4 + length + padding)) data.

(** Writes at [off] of a block of [size] bytes, returns the advance. *)
Definition write_pcapng_opt (size : Z) (m : memory) (off : Z) (opt : pcapng_opt)
  : option (Z * memory) :=
  let wr := store size in
  m ← wr m off (le16 (opt_type opt));
  m ← wr m (off + 2) (le16 (opt_length opt));
  data ← rdn (opt_data opt) 0 (opt_length opt);
  m ← wr m (off + 4) data;
  m ← wr m (off + 4 + opt_length opt) (replicate (Z.to_nat (opt_padding opt)) 0);
  Some (opt_tot_length opt, m).

(** The outer [option] is the memory safety; [None] inside is the return -1. *)
Definition get_pcap_file_header (d : pcap_dumper) (mem : memory) (alloc : bool)
  : option (option bytes) :=
  if negb alloc then Some None else
  let wr := store sizeof_pcap_hdr in
  m ← wr mem 0 (le32 0xa1b2c3d4);
  m ← wr m 4 (le16 2);
  m ← wr m 6 (le16 4);
  m ← wr m 8 (le32 0);
  m ← wr m 12 (le32 0);
  m ← wr m 16 (le32 (snaplen d));
  m ← wr m 20 (le32 (if decide (mode d = PCAP_DUMP_WITH_TRAILER)
                     then LINKTYPE_ETHERNET else LINKTYPE_RAW));
  Some (Some (mem_read m 0 sizeof_pcap_hdr)).

Definition get_pcapng_preamble (d : pcap_dumper) (pd_device pd_os pd_appver : bytes)
    (mem : memory) (alloc : bool) : option (option bytes) :=
  let shb_hw := pcapng_option 2 pd_device (blen pd_device) in
  let shb_os := pcapng_option 3 pd_os (blen pd_os) in
  let shb_app := pcapng_option 4 pd_appver (blen pd_appver) in
  let shb_length := sizeof_shb + opt_tot_length shb_hw + opt_tot_length shb_os +
                    opt_tot_length shb_app + 4 in
  let idb_length := sizeof_idb + 4 in
  let preamble_sz := shb_length + idb_length in
  if negb alloc then Some None else
  let wr := store preamble_sz in
  m ← wr mem 0 (le32 0x0A0D0D0A);
  m ← wr m 4 (le32 shb_length);
  m ← wr m 8 (le32 0x1a2b3c4d);
  m ← wr m 12 (le16 1);
  m ← wr m 14 (le16 0);
  m ← wr m 16 (le_split 8 (-1));
  let ptr := sizeof_shb in
  '(n, m) ← write_pcapng_opt preamble_sz m ptr shb_hw;
  let ptr := ptr + n in
  '(n, m) ← write_pcapng_opt preamble_sz m ptr shb_os;
  let ptr := ptr + n in
  '(n, m) ← write_pcapng_opt preamble_sz m ptr shb_app;
  let ptr := ptr + n in
  m ← wr m ptr (mem_read m 4 4);
  let ptr := ptr + 4 in
  m ← wr m ptr (le32 1);
  m ← wr m (ptr + 4) (le32 (sizeof_idb + 4));
  m ← wr m (ptr + 10) (le16 0);
  m ← wr m (ptr + 8) (le16 LINKTYPE_RAW);
  m ← wr m (ptr + 12) (le32 (snaplen d));
  m ← wr m (ptr + 16) (mem_read m (ptr + 4) 4);
  Some (Some (mem_read m 0 preamble_sz)).

Definition pcap_get_preamble (d : pcap_dumper) (pd_device pd_os pd_appver : bytes)
    (mem : memory) (alloc : bool) : option (option bytes) :=
  if decide (mode d = PCAPNG_DUMP)
  then get_pcapng_preamble d pd_device pd_os pd_appver mem alloc
  else get_pcap_file_header d mem alloc.

(** *** Records *)
Definition pcap_rec_size (d : pcap_dumper) (pkt_len : Z) : Z :=
  let pkt_len := Z.min pkt_len (snaplen d) in
  if decide (mode d = PCAPNG_DUMP) then
    let epb_size := sizeof_epb + 4 in
    epb_size + pkt_len + pad4 pkt_len
  else
    let pkt_len :=
      if decide (mode d = PCAP_DUMP_WITH_TRAILER) then
        let pkt_len := pkt_len + (sizeof_trailer + sizeof_ethhdr) in
        pkt_len + pad4 pkt_len
      else pkt_len in
    pkt_len + sizeof_pcap_rec.

Definition pcap_check_export (d : pcap_dumper) : option (bool * pcap_dumper) :=
  if ((buffer_idx d >? 0) && (u64 (now_ms d - last_dump_ms d) >=? MAX_PCAP_DUMP_DELAY_MS))
     || (keylog_idx d >? PCAP_BUFFER_ALMOST_FULL_SIZE)
  then d ← export_buffer d; Some (true, d)
  else Some (false, d).

Definition pcap_get_dump_size (d : pcap_dumper) : Z := dump_size d.

Section dump.
(** The Java side of [get_appname_by_uid]. *)
Context (java_app_name : Z -> option bytes).

Definition ETH_P_IP : Z := 0x0800.
Definition ETH_P_IPV6 : Z := 0x86DD.

(** [min] of an int and an unsigned int *)
Definition umin (a b : Z) : Z := if u32 a <? b then a else b.

(** The bogus ethernet header of the trailer mode. *)
Definition dump_eth_header (m : memory) (buf : Z) (pkt : bytes) : option memory :=
  m ← store PCAP_BUFFER_SIZE m buf (replicate 14 0);
  c ← rd8 pkt 0;
  store PCAP_BUFFER_SIZE m (buf + 12)
    (le16 (htons (if Z.shiftr c 4 =? 4 then ETH_P_IP else ETH_P_IPV6))).

(** The padding and the trailer at [offset] of the frame: the new memory, the
    name table and the bytes added. *)
Definition dump_trailer (m : memory) (names : uid_to_app) (buf offset incl_len uid : Z)
    (alloc : bool) : option (memory * uid_to_app * Z) :=
  let wr := store PCAP_BUFFER_SIZE in
  let padding := pad4 offset in
  m ← wr m (buf + offset) (replicate (Z.to_nat padding) 0);
  let trailer := buf + offset + padding in
  m ← wr m trailer (replicate 32 0);
  m ← wr m trailer (le32 (htonl PCAPDROID_TRAILER_MAGIC));
  m ← wr m (trailer + 4) (le32 (htonl (u32 uid)));
  let '(appname, names) := get_appname_by_uid java_app_name names uid 20 alloc in
  m ← wr m (trailer + 8) appname;
  m ← wr m (trailer + 28) (le32 (crc32 (mem_read m buf (incl_len - 4)) 0));
  Some (m, names, padding + sizeof_trailer).

Definition dump_packet_pcap (d : pcap_dumper) (pkt : bytes) (pktlen : Z) (tv : timeval)
    (uid tot_rec_size : Z) (alloc : bool) : option pcap_dumper :=
  let wr := store PCAP_BUFFER_SIZE in
  let rec := buffer_idx d in
  m ← wr (buffer d) rec (le32 (tv_sec tv));
  m ← wr m (rec + 4) (le32 (tv_usec tv));
  let incl_len := u32 (tot_rec_size - sizeof_pcap_rec) in
  m ← wr m (rec + 8) (le32 incl_len);
  m ← wr m (rec + 12) (le32 pktlen);
  let buf := rec + sizeof_pcap_rec in
  '(m, offset, orig_len) ←
    (if decide (mode d = PCAP_DUMP_WITH_TRAILER) then
       m ← dump_eth_header m buf pkt;
       m ← wr m (rec + 12) (le32 (pktlen + sizeof_ethhdr));
       Some (m, sizeof_ethhdr, pktlen + sizeof_ethhdr)
     else Some (m, 0, pktlen));
  let payload_to_copy := umin pktlen (u32 (incl_len - offset)) in
  payload ← rdn pkt 0 payload_to_copy;
  m ← wr m (buf + offset) payload;
  let offset := offset + payload_to_copy in
  if decide (mode d = PCAP_DUMP_WITH_TRAILER) then
    if u32 (incl_len - offset) >=? sizeof_trailer then
      '(m, names, added) ← dump_trailer m (uid2app d) buf offset incl_len uid alloc;
      m ← wr m (rec + 12) (le32 (orig_len + added));
      Some (d <| buffer := m |> <| uid2app := names |>)
    else Some (d <| buffer := m |>)
  else Some (d <| buffer := m |>).

Definition dump_packet_pcapng (d : pcap_dumper) (pkt : bytes) (pktlen : Z) (tv : timeval)
    (tot_rec_size : Z) : option pcap_dumper :=
  let wr := store PCAP_BUFFER_SIZE in
  let epb := buffer_idx d in
  let now_usec := u64 (tv_sec tv * 1000000 + tv_usec tv) in
  m ← wr (buffer d) epb (le32 6);
  m ← wr m (epb + 4) (le32 tot_rec_size);
  m ← wr m (epb + 8) (le32 0);
  m ← wr m (epb + 12) (le32 (Z.shiftr now_usec 32));
  m ← wr m (epb + 16) (le32 now_usec);
  let captured_len := u32 (Z.min pktlen (snaplen d)) in
  m ← wr m (epb + 20) (le32 captured_len);
  m ← wr m (epb + 24) (le32 pktlen);
  payload ← rdn pkt 0 captured_len;
  m ← wr m (epb + sizeof_epb) payload;
  let buf := epb + sizeof_epb + captured_len in
  let padding := pad4 captured_len in
  m ← wr m buf (replicate (Z.to_nat padding) 0);
  m ← wr m (buf + padding) (mem_read m (epb + 4) 4);
  Some (d <| buffer := m |>).

(** Returns [false] if the dump must be stopped. *)
Definition pcap_dump_packet (d : pcap_dumper) (pkt : bytes) (pktlen : Z) (tv : timeval)
    (uid : Z) (alloc : bool) : option (bool * pcap_dumper) :=
  let tot_rec_size := pcap_rec_size d pktlen in
  d ← (if PCAP_BUFFER_SIZE - buffer_idx d <=? tot_rec_size then export_buffer d else Some d);
  if PCAP_BUFFER_SIZE - buffer_idx d <=? tot_rec_size then Some (false, d)
  else if (max_dump_size d >? 0) && (u64 (dump_size d + tot_rec_size) >=? max_dump_size d)
  then Some (false, d)
  else
    d ← (if decide (mode d = PCAPNG_DUMP)
         then dump_packet_pcapng d pkt pktlen tv tot_rec_size
         else dump_packet_pcap d pkt pktlen tv uid tot_rec_size alloc);
    let d := d <| buffer_idx ::= fun n => n + tot_rec_size |>
               <| dump_size ::= fun n => u64 (n + tot_rec_size) |> in
    '(_, d) ← pcap_check_export d;
    Some (true, d).
End dump.

(** Called by the thread that receives the TLS secrets; [mem] is what the
    allocator left in a new key log buffer. *)
Definition pcap_dump_secret (d : pcap_dumper) (sec_data : bytes) (sec_len : Z)
    (mem : memory) (alloc : bool) : option (bool * pcap_dumper) :=
  let kb := match keylog_buf d with
            | Some m => Some m
            | None => if alloc then Some mem else None
            end in
  match kb with
  | None => Some (false, d)
  | Some m =>
      let d := d <| keylog_buf := Some m |> in
      if keylog_idx d + (sec_len + 1) >=? PCAP_BUFFER_SIZE then Some (false, d)
      else
        data ← rdn sec_data 0 sec_len;
        m ← store KEYLOG_ALLOC_SIZE m (KEYLOG_BUFFER_HEADROOM + keylog_idx d) data;
        let idx := keylog_idx d + sec_len in
        m ← store KEYLOG_ALLOC_SIZE m (KEYLOG_BUFFER_HEADROOM + idx) [10];
        Some (true, d <| keylog_buf := Some m |> <| keylog_idx := idx + 1 |>)
  end.

(** ** Specification: encoded records and the log of a dump *)

(** A PCAPNG block: type, total length, body, total length again. *)
Definition pcapng_block (type : Z) (body : bytes) : bytes :=
  le32 type ++ le32 (12 + blen body) ++ body ++ le32 (12 + blen body).

Definition zeros (n : Z) : bytes := replicate (Z.to_nat n) 0.
Definition pad_to4 (bs : bytes) : bytes := bs ++ zeros (pad4 (blen bs)).

Definition enc_epb (slen : Z) (pkt : bytes) (pktlen : Z) (tv : timeval) : bytes :=
  let usec := u64 (tv_sec tv * 1000000 + tv_usec tv) in
  let clen := Z.min pktlen slen in
  pcapng_block 6
    (le32 0 ++ le32 (Z.shiftr usec 32) ++ le32 usec ++ le32 clen ++ le32 pktlen ++
     pad_to4 (slice pkt 0 clen)).

Definition enc_dsb (secrets : bytes) : bytes :=
  pcapng_block 10 (le32 0x544c534b ++ le32 (blen secrets) ++ pad_to4 secrets).

(** A PCAP record: timestamp, captured and original length, data. *)
Definition pcap_record (tv : timeval) (orig_len : Z) (data : bytes) : bytes :=
  le32 (tv_sec tv) ++ le32 (tv_usec tv) ++ le32 (blen data) ++ le32 orig_len ++ data.

Definition eth_header (first_byte : Z) : bytes :=
  replicate 12 0 ++ le16 (htons (if Z.shiftr first_byte 4 =? 4 then ETH_P_IP else ETH_P_IPV6)).

(** The frame of the trailer mode, with the checksum of all that precedes it. *)
Definition trailer_frame (frame : bytes) (uid : Z) (name : bytes) : bytes :=
  let body := pad_to4 frame ++ le32 (htonl PCAPDROID_TRAILER_MAGIC) ++
              le32 (htonl (u32 uid)) ++ name in
  body ++ le32 (crc32 body 0).

Section spec.
Context (java_app_name : Z -> option bytes).

(** The 20 bytes of the name field. *)
Definition trailer_name (names : uid_to_app) (uid : Z) (alloc : bool) : bytes :=
  let b := (get_appname_by_uid java_app_name names uid 20 alloc).1 in
  b ++ zeros (20 - blen b).

Definition enc_record (md : pcap_dump_mode) (slen : Z) (names : uid_to_app) (pkt : bytes)
    (pktlen : Z) (tv : timeval) (uid : Z) (alloc : bool) : bytes :=
  match md with
  | PCAPNG_DUMP => enc_epb slen pkt pktlen tv
  | PCAP_DUMP => pcap_record tv pktlen (slice pkt 0 (Z.min pktlen slen))
  | PCAP_DUMP_WITH_TRAILER =>
      let data := trailer_frame (eth_header (default 0 (rd8 pkt 0)) ++ slice pkt 0 pktlen)
                    uid (trailer_name names uid alloc) in
      pcap_record tv (blen data) data
  end.

(** What the dump looks like from the outside. *)
Record dump_log := mk_log {
  lg_out : list bytes;        (** the chunks exported *)
  lg_pending : bytes;         (** the records waiting in the buffer *)
  lg_secrets : bytes;         (** the secrets waiting *)
  lg_size : Z;                (** the size accounted *)
  lg_last : Z;                (** the time of the last export *)
  lg_names : uid_to_app
}.
#[export] Instance eta_dump_log : Eta dump_log := fun l =>
  mk_log (lg_out l) (lg_pending l) (lg_secrets l) (lg_size l) (lg_last l) (lg_names l).

Definition dump_log_of (d : pcap_dumper) : dump_log :=
  mk_log (exported d) (mem_read (buffer d) 0 (buffer_idx d))
    (match keylog_buf d with Some m => mem_read m 16 (keylog_idx d) | None => [] end)
    (dump_size d) (last_dump_ms d) (uid2app d).

(** The operations on the log; [d] gives the configuration and the clock. *)
Definition out_chunk (d : pcap_dumper) (chunk : bytes) (l : dump_log) : dump_log :=
  if dump_cb d then l <| lg_out ::= fun o => o ++ [chunk] |> else l.

Definition over_max (d : pcap_dumper) (size : Z) : bool :=
  (max_dump_size d >? 0) && (u64 size >=? max_dump_size d).

Definition log_export_secrets (d : pcap_dumper) (l : dump_log) : dump_log :=
  let block := enc_dsb (lg_secrets l) in
  if decide (lg_secrets l = []) then l
  else if over_max d (lg_size l + blen block) then l <| lg_secrets := [] |>
  else out_chunk d block l <| lg_size ::= fun n => u64 (n + blen block) |>
                           <| lg_secrets := [] |>.

Definition log_export (d : pcap_dumper) (l : dump_log) : dump_log :=
  let l := log_export_secrets d l in
  if decide (lg_pending l = []) then l
  else out_chunk d (lg_pending l) l <| lg_pending := [] |> <| lg_last := now_ms d |>.

Definition log_check_export (d : pcap_dumper) (l : dump_log) : dump_log :=
  if ((blen (lg_pending l) >? 0) && (u64 (now_ms d - lg_last l) >=? MAX_PCAP_DUMP_DELAY_MS))
     || (blen (lg_secrets l) >? PCAP_BUFFER_ALMOST_FULL_SIZE)
  then log_export d l else l.

(** A packet: the pending records are exported first when the record does not
    fit, the record is refused when it is too large or over the maximum dump
    size, else it is appended. *)
Definition log_packet (d : pcap_dumper) (pkt : bytes) (pktlen : Z) (tv : timeval) (uid : Z)
    (alloc : bool) (l : dump_log) : bool * dump_log :=
  let rec := enc_record (mode d) (snaplen d) (lg_names l) pkt pktlen tv uid alloc in
  let full l := PCAP_BUFFER_SIZE - blen (lg_pending l) <=? blen rec in
  let l := if full l then log_export d l else l in
  if full l then (false, l)
  else if over_max d (lg_size l + blen rec) then (false, l)
  else
    let names := if decide (mode d = PCAP_DUMP_WITH_TRAILER)
                 then (get_appname_by_uid java_app_name (lg_names l) uid 20 alloc).2
                 else lg_names l in
    (true, log_check_export d
             (l <| lg_pending ::= fun p => p ++ rec |>
                <| lg_size ::= fun n => u64 (n + blen rec) |> <| lg_names := names |>)).

(** A secret is stored as a line. *)
Definition log_secret (sec : bytes) (l : dump_log) : bool * dump_log :=
  if blen (lg_secrets l) + (blen sec + 1) >=? PCAP_BUFFER_SIZE then (false, l)
  else (true, l <| lg_secrets ::= fun s => s ++ sec ++ [10] |>).
End spec.

(** ** The dumper's invariant *)
Record dumper_wf (d : pcap_dumper) : Prop := {
  wf_idx : 0 <= buffer_idx d < PCAP_BUFFER_SIZE;
  wf_keylog : 0 <= keylog_idx d < PCAP_BUFFER_SIZE;
  wf_keylog_buf : keylog_buf d = None -> keylog_idx d = 0;
  wf_snaplen : 0 <= snaplen d < 2 ^ 31
}.

(** The configuration and the clock do not change. *)
Definition same_config (d d' : pcap_dumper) : Prop :=
  mode d' = mode d /\ dump_cb d' = dump_cb d /\ snaplen d' = snaplen d /\
  max_dump_size d' = max_dump_size d /\ now_ms d' = now_ms d.

(** ** Stores that build a prefix of a block *)

(** Solves lengths: [blen] of concatenations against integers. *)
Ltac len :=
  unfold pad_to4, eth_header, zeros in *;
  autorewrite with blen in *; rewrite ?Z2Nat.id in * by (first [apply pad4_range|lia]);
  repeat match goal with |- context [pad4 ?n] =>
    lazymatch goal with H : 0 <= pad4 n < 4 |- _ => fail | _ => pose proof (pad4_range n) end end;
  unfold KEYLOG_ALLOC_SIZE, PCAP_BUFFER_SIZE, KEYLOG_BUFFER_HEADROOM, KEYLOG_BUFFER_TAILROOM,
    sizeof_trailer, sizeof_ethhdr, sizeof_pcap_rec, sizeof_epb, sizeof_dsb, sizeof_shb,
    sizeof_idb, sizeof_pcap_hdr in *;
  lia.

(** The next store of the goal appends to the prefix that [H] knows. *)
Ltac append_step H :=
  lazymatch goal with
  | |- context [store ?S ?m ?off ?bs] =>
      lazymatch type of H with
      | holds m ?L =>
          rewrite (store_Some S m off bs) by len;
          let m' := fresh "m" in
          let H' := fresh "Hm" in
          assert (holds (mem_write m off bs) (L ++ bs)) as H'
            by (apply holds_append; [exact H|len]);
          clear H; rename H' into H;
          generalize dependent (mem_write m off bs); intros m' H;
          cbn [mbind option_bind]
      end
  end.

(** The next store of the goal replaces [old], between [p] and [s]. *)
Ltac update_step H p old s :=
  lazymatch goal with
  | |- context [store ?S ?m ?off ?bs] =>
      rewrite (store_Some S m off bs) by len;
      let m' := fresh "m" in
      let H' := fresh "Hm" in
      assert (holds (mem_write m off bs) (p ++ bs ++ s)) as H'
        by (apply (holds_update m p old s off bs); [exact H|len|len]);
      clear H; rename H' into H;
      generalize dependent (mem_write m off bs); intros m' H;
      cbn [mbind option_bind]
  end.

Lemma dump_eth_header_holds m l pkt c :
  holds m l -> rd8 pkt 0 = Some c -> blen l + 14 <= PCAP_BUFFER_SIZE ->
  exists m', dump_eth_header m (blen l) pkt = Some m' /\ holds m' (l ++ eth_header c).
Proof.
  intros H Hc Hlen. unfold dump_eth_header. pose proof (blen_nonneg l).
  append_step H. rewrite Hc. cbn [mbind option_bind].
  change (replicate 14 0) with (replicate 12 0 ++ [0; 0]) in H.
  rewrite store_Some by len. eexists. split; [done|].
  pose proof (holds_update m0 (l ++ replicate 12 0) [0; 0] [] (blen l + 12)
    (le16 (htons (if Z.shiftr c 4 =? 4 then ETH_P_IP else ETH_P_IPV6)))) as Hu.
  rewrite !app_nil_r, <- !app_assoc in Hu. apply Hu; [done|len|done].
Qed.

Lemma blen_trailer_name f names uid alloc : blen (trailer_name f names uid alloc) = 20.
Proof.
  unfold trailer_name, zeros. pose proof (get_appname_blen f names uid 20 alloc ltac:(lia)).
  rewrite blen_app, blen_replicate. pose proof (blen_nonneg (get_appname_by_uid f names uid 20 alloc).1).
  lia.
Qed.

Lemma blen_pad_to4 bs : blen (pad_to4 bs) = blen bs + pad4 (blen bs).
Proof. len. Qed.

Lemma blen_pcapng_block t body : blen (pcapng_block t body) = 12 + blen body.
Proof. unfold pcapng_block. len. Qed.

Lemma blen_pcap_record tv o data : blen (pcap_record tv o data) = 16 + blen data.
Proof. unfold pcap_record. len. Qed.

Lemma blen_trailer_frame frame uid name :
  blen (trailer_frame frame uid name) = blen frame + pad4 (blen frame) + 12 + blen name.
Proof. unfold trailer_frame. len. Qed.

Lemma zeros_split a b : 0 <= a -> 0 <= b -> zeros (a + b) = zeros a ++ zeros b.
Proof. intros. unfold zeros. rewrite Z2Nat.inj_add by lia. apply replicate_add. Qed.

Lemma dump_trailer_holds f m hd frame names uid alloc incl :
  holds m (hd ++ frame) ->
  incl = blen frame + pad4 (blen frame) + 32 ->
  blen hd + incl <= PCAP_BUFFER_SIZE ->
  exists m', dump_trailer f m names (blen hd) (blen frame) incl uid alloc =
               Some (m', (get_appname_by_uid f names uid 20 alloc).2,
                     pad4 (blen frame) + sizeof_trailer) /\
             holds m' (hd ++ trailer_frame frame uid (trailer_name f names uid alloc)).
Proof.
  intros H -> Hlen. unfold dump_trailer.
  pose proof (blen_nonneg hd). pose proof (blen_nonneg frame).
  pose proof (blen_trailer_name f names uid alloc) as Hname. unfold trailer_name in *.
  destruct (get_appname_by_uid f names uid 20 alloc) as [name names'] eqn:En. cbn [fst snd] in *.
  rewrite blen_app in Hname. pose proof (blen_nonneg name).
  assert (blen name <= 20) as Hn20.
  { pose proof (get_appname_blen f names uid 20 alloc ltac:(lia)) as Hb. by rewrite En in Hb. }
  pose proof (pad4_range (blen frame)).
  assert (blen (replicate (Z.to_nat (pad4 (blen frame))) 0) = pad4 (blen frame)) as Hpad by len.
  set (pad := replicate (Z.to_nat (pad4 (blen frame))) 0) in *.
  append_step H. append_step H.
  set (P := hd ++ frame ++ pad).
  assert (blen P = blen hd + blen frame + pad4 (blen frame)) as HP by (unfold P; len).
  set (mg := le32 (htonl PCAPDROID_TRAILER_MAGIC)). set (ui := le32 (htonl (u32 uid))).
  assert (blen mg = 4 /\ blen ui = 4) as [Hmg Hui] by done.
  assert (holds m1 (P ++ replicate 4 0 ++ zeros 28)) as H'.
  { unfold P. rewrite <- !app_assoc in *. exact H. }
  clear H; rename H' into H.
  update_step H P (replicate 4 0) (zeros 28).
  change (zeros 28) with (replicate 4 0 ++ zeros 24) in H. rewrite app_assoc in H.
  update_step H (P ++ mg) (replicate 4 0) (zeros 24).
  replace 24 with (blen name + ((20 - blen name) + 4)) in H by lia.
  rewrite !zeros_split in H by lia. rewrite (app_assoc (P ++ mg)) in H.
  update_step H ((P ++ mg) ++ ui) (zeros (blen name)) (zeros (20 - blen name) ++ zeros 4).
  set (body := pad_to4 frame ++ mg ++ ui ++ name ++ zeros (20 - blen name)).
  assert (blen body = blen frame + pad4 (blen frame) + 28) as Hb by (unfold body; len).
  assert (holds m4 (hd ++ body ++ zeros 4)) as H'.
  { unfold body, pad_to4, zeros. unfold P in H. rewrite <- !app_assoc in *. exact H. }
  clear H; rename H' into H.
  rewrite (mem_read_holds m4 hd body (zeros 4)) by (try exact H; lia).
  rewrite app_assoc in H. rewrite store_Some by len. cbn [mbind option_bind].
  eexists. split; [done|].
  pose proof (holds_update m4 (hd ++ body) (zeros 4) [] (blen hd + blen frame + pad4 (blen frame) + 28)
    (le32 (crc32 body 0))) as Hu.
  rewrite !app_nil_r in Hu. unfold trailer_frame. fold mg ui body. rewrite app_assoc.
  apply Hu; [exact H|len|done].
Qed.

Lemma rdn_slice b n : 0 <= n <= blen b -> rdn b 0 n = Some (slice b 0 n).
Proof. intros. apply rdn_Some; lia. Qed.

Lemma blen_slice0 b n : 0 <= n <= blen b -> blen (slice b 0 n) = n.
Proof. intros. apply blen_slice; lia. Qed.

Lemma u32_id z : 0 <= z <= PCAP_BUFFER_SIZE -> u32 z = z.
Proof. intros. apply u32_small. unfold PCAP_BUFFER_SIZE in *. lia. Qed.

(** Evaluates the tests of the mode. *)
Ltac decide_mode :=
  repeat first [rewrite decide_True by done|rewrite decide_False by done].

(** The size computed for a record is the size of its encoding. *)
Lemma pcap_rec_size_enc f d names pkt pktlen tv uid alloc :
  dumper_wf d -> 0 <= pktlen <= blen pkt ->
  (mode d = PCAP_DUMP_WITH_TRAILER -> pktlen <= snaplen d) ->
  blen (enc_record f (mode d) (snaplen d) names pkt pktlen tv uid alloc) =
  pcap_rec_size d pktlen.
Proof.
  intros [_ _ _ Hs] Hp Ht. unfold enc_record, pcap_rec_size.
  assert (0 <= Z.min pktlen (snaplen d) <= blen pkt) as Hc by lia.
  destruct (mode d) eqn:Em; decide_mode; cbv zeta.
  - rewrite blen_pcap_record, blen_slice0 by done. unfold sizeof_pcap_rec. lia.
  - specialize (Ht eq_refl). rewrite blen_pcap_record, blen_trailer_frame, blen_trailer_name.
    rewrite Z.min_l by done. rewrite blen_app, blen_slice0 by lia.
    assert (blen (eth_header (default 0 (rd8 pkt 0))) = 14) as -> by len.
    unfold sizeof_trailer, sizeof_ethhdr, sizeof_pcap_rec.
    replace (pktlen + (32 + 14)) with ((14 + pktlen) + 4 * 8) by lia.
    rewrite pad4_add_mult. lia.
  - unfold enc_epb. rewrite blen_pcapng_block, !blen_app, !blen_le32, blen_pad_to4, blen_slice0
      by done. unfold sizeof_epb. lia.
Qed.

Section records.
Context (f : Z -> option bytes) (d : pcap_dumper) (pkt : bytes) (pktlen : Z) (tv : timeval)
  (uid : Z) (alloc : bool).
Hypothesis Hwf : dumper_wf d.
Hypothesis Hpkt : 0 < pktlen <= blen pkt.
Hypothesis Hint32 : pktlen < 2 ^ 31.
Hypothesis Htrailer : mode d = PCAP_DUMP_WITH_TRAILER -> pktlen <= snaplen d.
Hypothesis Hfit : buffer_idx d + pcap_rec_size d pktlen <= PCAP_BUFFER_SIZE.

Local Abbreviation pending := (mem_read (buffer d) 0 (buffer_idx d)).

Lemma pending_holds : holds (buffer d) pending /\ blen pending = buffer_idx d.
Proof.
  destruct Hwf as [Hi _ _ _]. split; [apply holds_mem_read; lia|apply blen_mem_read; lia].
Qed.

Lemma dump_packet_pcapng_spec :
  mode d = PCAPNG_DUMP ->
  exists m, dump_packet_pcapng d pkt pktlen tv (pcap_rec_size d pktlen) =
              Some (d <| buffer := m |>) /\
            holds m (pending ++ enc_record f (mode d) (snaplen d) (uid2app d) pkt pktlen tv uid alloc).
Proof.
  intros Em. pose proof Hwf as [Hi _ _ Hs]. destruct pending_holds as [H Hl].
  pose proof (pcap_rec_size_enc f d (uid2app d) pkt pktlen tv uid alloc Hwf ltac:(lia) Htrailer)
    as Hsz.
  unfold dump_packet_pcapng. set (tot := pcap_rec_size d pktlen) in *.
  rewrite Em in *. cbn [enc_record] in *. unfold enc_epb in *.
  set (clen := Z.min pktlen (snaplen d)) in *. assert (0 <= clen <= blen pkt) as Hc by lia.
  pose proof (blen_slice0 pkt clen Hc) as Hsl. pose proof (pad4_range clen) as Hpad.
  set (usec := u64 _) in *. unfold pcapng_block in *.
  set (body := _ ++ _ ++ _ ++ _ ++ _ ++ pad_to4 _) in *.
  assert (tot = 12 + blen body) as Ht by (rewrite <- Hsz; len).
  assert (blen body = 20 + clen + pad4 clen) as Hb.
  { unfold body. rewrite !blen_app, !blen_le32, blen_pad_to4, Hsl. lia. }
  rewrite (u32_id clen) by (unfold PCAP_BUFFER_SIZE in *; lia).
  rewrite <- Ht in *. clear Hsz. revert H Hl. generalize pending. intros p H Hl.
  append_step H. append_step H. append_step H. append_step H. append_step H.
  append_step H. append_step H.
  rewrite rdn_slice by done. cbn [mbind option_bind].
  append_step H. append_step H.
  rewrite <- !app_assoc in H.
  rewrite (mem_read_holds m7 (p ++ le32 6) (le32 tot)
             (le32 0 ++ le32 (Z.shiftr usec 32) ++ le32 usec ++ le32 clen ++ le32 pktlen ++
              slice pkt 0 clen ++ replicate (Z.to_nat (pad4 clen)) 0))
    by (first [rewrite <- !app_assoc; exact H|len]).
  rewrite store_Some by len. cbn [mbind option_bind]. eexists. split; [done|].
  assert (p ++ le32 6 ++ le32 tot ++ body ++ le32 tot =
          (p ++ le32 6 ++ le32 tot ++ body) ++ le32 tot) as -> by (by rewrite <- !app_assoc).
  apply holds_append; [|len].
  unfold body, pad_to4, zeros. rewrite Hsl, <- ?app_assoc. exact H.
Qed.

Lemma umin_min b : 0 <= b <= PCAP_BUFFER_SIZE -> umin pktlen (u32 b) = Z.min pktlen b.
Proof.
  intros. unfold umin. rewrite (u32_id b), u32_small by (try done; lia).
  destruct (Z.ltb_spec pktlen b); lia.
Qed.

(** The two cases of [dump_packet_pcap]. *)
Lemma dump_packet_plain_spec :
  mode d = PCAP_DUMP ->
  exists m, dump_packet_pcap f d pkt pktlen tv uid (pcap_rec_size d pktlen) alloc =
              Some (d <| buffer := m |>) /\
            holds m (pending ++ enc_record f (mode d) (snaplen d) (uid2app d) pkt pktlen tv uid alloc).
Proof.
  intros Em. pose proof Hwf as [Hi _ _ Hs]. destruct pending_holds as [H Hl].
  assert (pcap_rec_size d pktlen = Z.min pktlen (snaplen d) + 16) as Hsz
    by (unfold pcap_rec_size; rewrite Em; decide_mode; done).
  unfold dump_packet_pcap. rewrite Hsz in *. rewrite Em. decide_mode. cbn [enc_record].
  set (clen := Z.min pktlen (snaplen d)) in *. assert (0 <= clen <= blen pkt) as Hc by lia.
  pose proof (blen_slice0 pkt clen Hc) as Hsl.
  replace (clen + 16 - sizeof_pcap_rec) with clen by (unfold sizeof_pcap_rec; lia).
  rewrite (u32_id clen) by lia. revert H Hl. generalize pending. intros p H Hl.
  append_step H. append_step H. append_step H. append_step H.
  decide_mode. cbn [mbind option_bind]. rewrite Z.sub_0_r, umin_min, Z.add_0_r by lia.
  replace (Z.min pktlen clen) with clen by lia.
  rewrite rdn_slice by done. cbn [mbind option_bind].
  append_step H. decide_mode. eexists. split; [done|].
  unfold pcap_record. rewrite Hsl. rewrite <- !app_assoc in H. exact H.
Qed.

Lemma dump_packet_trailer_spec :
  mode d = PCAP_DUMP_WITH_TRAILER ->
  exists m, dump_packet_pcap f d pkt pktlen tv uid (pcap_rec_size d pktlen) alloc =
              Some (d <| buffer := m |> <| uid2app :=
                      (get_appname_by_uid f (uid2app d) uid 20 alloc).2 |>) /\
            holds m (pending ++ enc_record f (mode d) (snaplen d) (uid2app d) pkt pktlen tv uid alloc).
Proof.
  intros Em. pose proof Hwf as [Hi _ _ Hs]. destruct pending_holds as [H Hl].
  specialize (Htrailer Em). destruct (rd8_Some pkt 0 ltac:(lia)) as [c Hc].
  pose proof (blen_slice0 pkt pktlen ltac:(lia)) as Hsl.
  assert (blen (eth_header c) = 14) as Heth by len.
  set (name := trailer_name f (uid2app d) uid alloc).
  set (frame := eth_header c ++ slice pkt 0 pktlen).
  assert (blen frame = 14 + pktlen) as Hfr by (unfold frame; rewrite blen_app; lia).
  pose proof (pad4_range (blen frame)) as Hpad.
  set (incl := blen frame + pad4 (blen frame) + 32).
  assert (blen (trailer_frame frame uid name) = incl) as Hfl
    by (rewrite blen_trailer_frame; unfold name; rewrite blen_trailer_name; unfold incl; lia).
  assert (pcap_rec_size d pktlen = incl + 16) as Hsz.
  { rewrite <- (pcap_rec_size_enc f d (uid2app d) pkt pktlen tv uid alloc) by (try done; lia).
    rewrite Em. cbn [enc_record]. rewrite Hc. cbn [default from_option id]. unfold id. fold frame name.
    rewrite blen_pcap_record. lia. }
  unfold dump_packet_pcap. rewrite Hsz in *. rewrite Em. decide_mode. cbn [enc_record].
  rewrite Hc. cbn [default from_option id]. unfold id. fold frame name.
  replace (incl + 16 - sizeof_pcap_rec) with incl by (unfold sizeof_pcap_rec; lia).
  rewrite (u32_id incl) by lia. revert H Hl. generalize pending. intros p H Hl.
  append_step H. append_step H. append_step H. append_step H.
  decide_mode. set (hd := le32 (tv_sec tv) ++ le32 (tv_usec tv) ++ le32 incl).
  assert (blen hd = 12) as Hhd by done.
  assert (blen ((p ++ hd) ++ le32 pktlen) = buffer_idx d + sizeof_pcap_rec) as Hb
    by (unfold sizeof_pcap_rec; len).
  rewrite <- Hb.
  assert (holds m2 ((p ++ hd) ++ le32 pktlen)) as H' by (unfold hd; rewrite <- !app_assoc in *; exact H).
  clear H; rename H' into H.
  destruct (dump_eth_header_holds _ _ _ _ H Hc) as (m3 & -> & H3); [unfold sizeof_pcap_rec in *; lia|].
  cbn [mbind option_bind]. clear H. rewrite <- app_assoc in H3. rename H3 into H.
  replace (buffer_idx d + 12) with (blen (p ++ hd)) by len.
  update_step H (p ++ hd) (le32 pktlen) (eth_header c).
  rewrite umin_min, Z.min_l by (unfold sizeof_ethhdr; lia).
  rewrite rdn_slice by lia. cbn [mbind option_bind].
  replace (blen ((p ++ hd) ++ le32 pktlen)) with (blen ((p ++ hd) ++ le32 (pktlen + sizeof_ethhdr))) by len.
  rewrite app_assoc in H. append_step H. decide_mode.
  replace (sizeof_ethhdr + pktlen) with (blen frame) by (unfold sizeof_ethhdr; lia).
  rewrite <- app_assoc in H. fold frame in H.
  rewrite u32_id by lia. destruct (Z.geb_spec (incl - blen frame) sizeof_trailer) as [_|Hlt];
    [|unfold sizeof_trailer in *; lia].
  assert (blen ((p ++ hd) ++ le32 (pktlen + sizeof_ethhdr)) = buffer_idx d + 16) as Hb2 by len.
  destruct (dump_trailer_holds f _ _ _ (uid2app d) uid alloc incl H) as (m6 & -> & H6);
    [done|lia|]. cbn [mbind option_bind]. clear H. rename H6 into H. rewrite <- app_assoc in H.
  update_step H (p ++ hd) (le32 (pktlen + sizeof_ethhdr))
    (trailer_frame frame uid (trailer_name f (uid2app d) uid alloc)).
  eexists. split; [done|]. unfold pcap_record. fold name. rewrite Hfl.
  replace (pktlen + sizeof_ethhdr + (pad4 (blen frame) + sizeof_trailer)) with incl in H
    by (unfold sizeof_ethhdr, sizeof_trailer, incl; lia).
  unfold hd in H. rewrite <- !app_assoc in H. exact H.
Qed.

End records.

(** ** The buffer code implements the log *)
Local Abbreviation refines d d' l :=
  (dumper_wf d' /\ same_config d d' /\ dump_log_of d' = l).

Lemma same_config_refl d : same_config d d.
Proof. done. Qed.

Lemma secrets_nil d : dumper_wf d -> keylog_idx d = 0 <-> lg_secrets (dump_log_of d) = [].
Proof.
  intros [_ Hk Hb _]. unfold dump_log_of. cbn [lg_secrets]. split.
  - intros ->. by destruct (keylog_buf d).
  - destruct (keylog_buf d) as [m|]; [|by intros _; apply Hb].
    intros E. apply (f_equal blen) in E. by rewrite blen_mem_read in E by lia.
Qed.

Lemma blen_secrets d : dumper_wf d -> blen (lg_secrets (dump_log_of d)) = keylog_idx d.
Proof.
  intros [_ Hk Hb _]. unfold dump_log_of. cbn [lg_secrets].
  destruct (keylog_buf d) as [m|]; [by rewrite blen_mem_read by lia|]. by rewrite Hb.
Qed.

Lemma blen_pending d : dumper_wf d -> blen (lg_pending (dump_log_of d)) = buffer_idx d.
Proof. intros [Hi _ _ _]. cbn. apply blen_mem_read. lia. Qed.

Lemma blen_enc_dsb s : blen (enc_dsb s) = 20 + blen s + pad4 (blen s).
Proof. unfold enc_dsb. rewrite blen_pcapng_block, !blen_app, blen_pad_to4, !blen_le32. lia. Qed.

(** Replays in the goal the binds that [H] knows to succeed. *)
Ltac run_binds H :=
  repeat (let Hb := fresh "Hb" in
          apply bind_Some in H as (? & Hb & H); rewrite Hb; cbn [mbind option_bind]);
  rewrite H; cbn [mbind option_bind].

(** The block built around the secrets that the buffer holds. *)
Lemma keylog_block m sec :
  mem_read m 16 (blen sec) = sec -> blen sec < PCAP_BUFFER_SIZE ->
  let pad := pad4 (blen sec) in
  let size := blen (enc_dsb sec) in
  let wr := store KEYLOG_ALLOC_SIZE in
  exists m', (m ← wr m 0 (le32 0x0000000A);
              m ← wr m 4 (le32 size);
              m ← wr m 8 (le32 0x544c534b);
              m ← wr m 12 (le32 (blen sec));
              m ← wr m (16 + blen sec) (replicate (Z.to_nat pad) 0);
              wr m (16 + blen sec + pad) (mem_read m 4 4)) = Some m' /\
             mem_read m' 0 size = enc_dsb sec.
Proof.
  intros Hs Hlen. cbv zeta. pose proof (pad4_range (blen sec)) as Hpad.
  pose proof (blen_nonneg sec) as Hnn. pose proof (blen_enc_dsb sec) as Hsz.
  set (size := blen (enc_dsb sec)) in *.
  rewrite !store_Some by len. cbn [mbind option_bind].
  rewrite !store_Some by len. cbn [mbind option_bind].
  rewrite !store_Some by len. cbn [mbind option_bind].
  rewrite !store_Some by len. cbn [mbind option_bind].
  set (m4 := mem_write _ 12 _).
  assert (holds m4 (((le32 10 ++ le32 size) ++ le32 0x544c534b) ++ le32 (blen sec))) as H.
  { repeat (apply holds_append; [|done]). apply (holds_append _ []); [done|done]. }
  apply (holds_app _ _ sec) in H; [|unfold m4; rewrite !mem_read_write_out by len; exact Hs].
  clearbody m4. append_step H.
  rewrite (mem_read_holds m0 (le32 10) (le32 size)
             (le32 0x544c534b ++ le32 (blen sec) ++ sec ++ replicate (Z.to_nat (pad4 (blen sec))) 0))
    by (first [rewrite <- ?app_assoc in *; exact H|done]).
  rewrite store_Some by len. eexists. split; [done|].
  assert (enc_dsb sec = (((((le32 10 ++ le32 size) ++ le32 0x544c534b) ++ le32 (blen sec)) ++ sec) ++
            replicate (Z.to_nat (pad4 (blen sec))) 0) ++ le32 size) as Henc.
  { unfold enc_dsb, pcapng_block, pad_to4, zeros.
    replace (12 + blen _) with size; [by rewrite <- !app_assoc|].
    unfold size, enc_dsb, pcapng_block, pad_to4, zeros. len. }
  match goal with |- mem_read ?mm 0 size = _ => enough (holds mm (enc_dsb sec)) as Hh by exact Hh end.
  rewrite Henc. apply holds_append; [exact H|len].
Qed.

Lemma export_keylog_refines d :
  dumper_wf d ->
  exists d', export_keylog_buffer d = Some d' /\
    refines d d' (log_export_secrets d (dump_log_of d)) /\
    buffer_idx d' = buffer_idx d /\ keylog_idx d' = 0.
Proof.
  intros Hwf. pose proof (secrets_nil d Hwf) as Hnil. pose proof (blen_secrets d Hwf) as Hbs.
  unfold export_keylog_buffer, log_export_secrets.
  destruct (Z.eqb_spec (keylog_idx d) 0) as [E|Hne].
  { exists d. by rewrite decide_True by (by apply Hnil). }
  rewrite decide_False by (by rewrite <- Hnil).
  pose proof Hwf as [Hi Hk Hkb Hsn].
  destruct (keylog_buf d) as [m|] eqn:Em; [|by rewrite Hkb in Hne].
  set (sec := lg_secrets (dump_log_of d)) in *.
  assert (mem_read m 16 (blen sec) = sec) as Hm.
  { rewrite Hbs. unfold sec, dump_log_of. cbn [lg_secrets]. by rewrite Em. }
  unfold over_max. rewrite blen_enc_dsb, Hbs. unfold sizeof_dsb. cbn [lg_size dump_log_of].
  replace (16 + keylog_idx d + pad4 (keylog_idx d) + 4)
    with (20 + keylog_idx d + pad4 (keylog_idx d)) by lia.
  destruct ((max_dump_size d >? 0) && _).
  { eexists. split; [done|]. split; [|done]. split; [|split; [done|]].
    - by split.
    - unfold dump_log_of. csimpl. by rewrite Em. }
  destruct (keylog_block m sec Hm ltac:(lia)) as (m' & Hw & Hr).
  rewrite blen_enc_dsb, Hbs in *. unfold KEYLOG_BUFFER_HEADROOM.
  cbn [mbind option_bind]. run_binds Hw. eexists. split; [done|].
  rewrite Hr. unfold call_dump_cb, out_chunk, dump_log_of.
  assert (dumper_wf (d <| keylog_buf := Some m' |> <| keylog_idx := 0 |>)) as [??? Hsn'] by by split.
  csimpl. destruct (dump_cb d) eqn:Ecb; csimpl; (split; [split; [by split|split; [done|done]]|done]).
Qed.

Lemma call_dump_cb_log d chunk :
  dump_log_of (call_dump_cb d chunk) = out_chunk d chunk (dump_log_of d).
Proof. unfold call_dump_cb, out_chunk. by destruct (dump_cb d). Qed.

Lemma export_buffer_refines d :
  dumper_wf d ->
  exists d', export_buffer d = Some d' /\ refines d d' (log_export d (dump_log_of d)) /\
             buffer_idx d' = 0 /\ keylog_idx d' = 0.
Proof.
  intros Hwf. unfold export_buffer.
  destruct (export_keylog_refines d Hwf) as (d1 & -> & (Hwf1 & Hc & Hlog) & Hidx & Hk).
  cbn [mbind option_bind]. unfold log_export. cbv zeta. rewrite <- Hlog.
  pose proof (blen_pending d1 Hwf1) as Hp. pose proof Hc as (Hcm & Hcb & Hcs & Hcx & Hcn).
  destruct (Z.eqb_spec (buffer_idx d1) 0) as [E|Hne].
  { rewrite decide_True by (apply blen_0_nil; lia). by exists d1. }
  rewrite decide_False by (intros Hn; rewrite Hn in Hp; by apply Hne).
  eexists. split; [done|]. destruct Hwf1 as [Hi Hk1 Hkb Hs].
  unfold call_dump_cb, out_chunk. rewrite <- Hcb, <- Hcn.
  destruct (dump_cb d1) eqn:E; csimpl;
    (split; [split; [by split|split; [repeat split; csimpl; congruence|]]|done]); unfold dump_log_of; csimpl; done.
Qed.

Lemma check_export_refines d :
  dumper_wf d ->
  exists b d', pcap_check_export d = Some (b, d') /\
               refines d d' (log_check_export d (dump_log_of d)).
Proof.
  intros Hwf. unfold pcap_check_export, log_check_export.
  rewrite blen_pending, blen_secrets by done. cbn [lg_last dump_log_of].
  destruct (_ || _); [|by exists false, d].
  destruct (export_buffer_refines d Hwf) as (d' & -> & Hr & _). by exists true, d'.
Qed.


(** The record of an accepted packet, in the buffer. *)
Lemma dump_packet_buffered f d pkt pktlen tv uid alloc :
  dumper_wf d -> 0 < pktlen <= blen pkt -> pktlen < 2 ^ 31 ->
  (mode d = PCAP_DUMP_WITH_TRAILER -> pktlen <= snaplen d) ->
  buffer_idx d + pcap_rec_size d pktlen < PCAP_BUFFER_SIZE ->
  let rec := enc_record f (mode d) (snaplen d) (uid2app d) pkt pktlen tv uid alloc in
  exists d', (if decide (mode d = PCAPNG_DUMP)
              then dump_packet_pcapng d pkt pktlen tv (pcap_rec_size d pktlen)
              else dump_packet_pcap f d pkt pktlen tv uid (pcap_rec_size d pktlen) alloc) = Some d' /\
    let d2 := d' <| buffer_idx ::= fun n => n + pcap_rec_size d pktlen |>
                 <| dump_size ::= fun n => u64 (n + pcap_rec_size d pktlen) |> in
    let names := if decide (mode d = PCAP_DUMP_WITH_TRAILER)
                 then (get_appname_by_uid f (uid2app d) uid 20 alloc).2 else uid2app d in
    refines d d2 ((dump_log_of d) <| lg_pending ::= fun p => p ++ rec |>
                    <| lg_size ::= fun n => u64 (n + blen rec) |> <| lg_names := names |>).
Proof.
  intros Hwf Hpkt H32 Ht Hfit. cbv zeta.
  pose proof (pcap_rec_size_enc f d (uid2app d) pkt pktlen tv uid alloc Hwf ltac:(lia) Ht) as Hsz.
  set (rec := enc_record _ _ _ _ _ _ _ _ _) in *. set (tot := pcap_rec_size d pktlen) in *.
  pose proof (blen_pending d Hwf) as Hp. cbn [lg_pending dump_log_of] in Hp.
  pose proof (blen_nonneg rec) as Hr. pose proof Hwf as [Hi Hk Hkb Hs].
  assert (forall m names, holds m (mem_read (buffer d) 0 (buffer_idx d) ++ rec) ->
    refines d (d <| buffer := m |> <| uid2app := names |> <| buffer_idx ::= fun n => n + tot |>
                 <| dump_size ::= fun n => u64 (n + tot) |>)
      ((dump_log_of d) <| lg_pending ::= fun p => p ++ rec |>
         <| lg_size ::= fun n => u64 (n + blen rec) |> <| lg_names := names |>)) as Hrefine.
  { intros m names Hm. split; [|split; [done|]].
    - split; csimpl; try done. lia.
    - apply holds_read in Hm. rewrite blen_app, Hp in Hm. unfold dump_log_of. csimpl.
      rewrite <- Hsz, Hm. done. }
  destruct (mode d) eqn:Em; decide_mode.
  - destruct (dump_packet_plain_spec f d pkt pktlen tv uid alloc Hwf Hpkt H32 ltac:(lia) Em)
      as (m & E & Hm). fold tot in E. rewrite E. eexists. split; [done|]. rewrite Em in Hm. by apply (Hrefine m (uid2app d)).
  - destruct (dump_packet_trailer_spec f d pkt pktlen tv uid alloc Hwf Hpkt H32
      ltac:(intros _; by apply Ht) ltac:(lia) Em) as (m & E & Hm).
    fold tot in E. rewrite E. eexists. split; [done|]. rewrite Em in Hm. by apply Hrefine.
  - destruct (dump_packet_pcapng_spec f d pkt pktlen tv uid alloc Hwf Hpkt
      ltac:(by rewrite Em) ltac:(lia) Em) as (m & E & Hm).
    fold tot in E. rewrite E. eexists. split; [done|]. rewrite Em in Hm. by apply (Hrefine m (uid2app d)).
Qed.

(** The invariant of a run's stream: what was exported is an interleaving of
    the first accepted records, in order, with blocks of secrets; the pending
    bytes are the other records. *)
Inductive weave : list bytes -> bytes -> Prop :=
  | weave_nil : weave [] []
  | weave_record rs s r : weave rs s -> weave (rs ++ [r]) (s ++ r)
  | weave_secrets rs s sec :
      blen sec < PCAP_BUFFER_SIZE -> weave rs s -> weave rs (s ++ enc_dsb sec).

Definition log_bytes (l : dump_log) : Z := blen (concat (lg_out l)) + blen (lg_pending l).

Record log_inv (d : pcap_dumper) (recs : list bytes) (l : dump_log) : Prop := {
  li_stream : exists outr pendr, recs = outr ++ pendr /\
                weave outr (concat (lg_out l)) /\ lg_pending l = concat pendr;
  li_size : lg_size l = u64 (log_bytes l);
  li_max : 0 < max_dump_size d <= 2 ^ 63 -> log_bytes l < max_dump_size d
}.

Lemma weave_records rs s pend : weave rs s -> weave (rs ++ pend) (s ++ concat pend).
Proof.
  induction pend as [|r pend IH] using rev_ind; intros H; [by rewrite !app_nil_r|].
  rewrite concat_app. cbn [concat]. rewrite app_nil_r, !app_assoc.
  constructor. by apply IH.
Qed.

Lemma concat_snoc (l : list bytes) c : concat (l ++ [c]) = concat l ++ c.
Proof. rewrite concat_app. cbn [concat]. by rewrite app_nil_r. Qed.

Lemma u64_add_l a b : u64 (u64 a + b) = u64 (a + b).
Proof. unfold u64. apply Zplus_mod_idemp_l. Qed.

Lemma over_max_false d a n :
  over_max d (u64 a + n) = false -> 0 <= a -> 0 <= n < 2 ^ 32 ->
  0 < max_dump_size d <= 2 ^ 63 -> a < max_dump_size d -> a + n < max_dump_size d.
Proof.
  unfold over_max. rewrite u64_add_l. intros Ho Ha Hn Hm Hlt.
  destruct (Z.gtb_spec (max_dump_size d) 0); [|lia]. simpl in Ho.
  destruct (Z.geb_spec (u64 (a + n)) (max_dump_size d)) as [|Hlt']; [done|].
  rewrite u64_small in Hlt' by lia. lia.
Qed.

Lemma log_bytes_nonneg l : 0 <= log_bytes l.
Proof.
  unfold log_bytes. pose proof (blen_nonneg (concat (lg_out l))).
  pose proof (blen_nonneg (lg_pending l)). lia.
Qed.

Lemma log_export_secrets_inv d recs l :
  dump_cb d = true -> blen (lg_secrets l) < PCAP_BUFFER_SIZE ->
  log_inv d recs l -> log_inv d recs (log_export_secrets d l).
Proof.
  intros Hcb Hs [(outr & pendr & -> & Hw & Hp) Hsz Hmax]. unfold log_export_secrets.
  case_decide; [by split; eauto|].
  destruct (over_max d _) eqn:Ho; [split; csimpl; eauto|].
  unfold out_chunk. rewrite Hcb. pose proof (log_bytes_nonneg l) as Hnn.
  pose proof (blen_enc_dsb (lg_secrets l)). pose proof (pad4_range (blen (lg_secrets l))).
  pose proof (blen_nonneg (lg_secrets l)).
  rewrite Hsz in Ho.
  split; csimpl; unfold log_bytes in *; csimpl.
  - exists outr, pendr. split; [done|]. split; [|done]. rewrite concat_snoc. by constructor.
  - rewrite Hsz, u64_add_l, concat_snoc, blen_app. f_equal. lia.
  - intros Hm. specialize (Hmax Hm). rewrite concat_snoc, blen_app.
    assert (blen (concat (lg_out l)) + blen (lg_pending l) + blen (enc_dsb (lg_secrets l)) <
            max_dump_size d); [|lia].
    apply over_max_false; unfold PCAP_BUFFER_SIZE in *; try done; lia.
Qed.

Lemma log_export_inv d recs l :
  dump_cb d = true -> blen (lg_secrets l) < PCAP_BUFFER_SIZE ->
  log_inv d recs l -> log_inv d recs (log_export d l).
Proof.
  intros Hcb Hs Hi. apply log_export_secrets_inv in Hi; [|done..].
  unfold log_export. cbv zeta. set (l1 := log_export_secrets d l) in *. clearbody l1.
  destruct Hi as [(outr & pendr & -> & Hw & Hp) Hsz Hmax].
  case_decide; [by split; eauto|]. unfold out_chunk. rewrite Hcb.
  assert (log_bytes (l1 <| lg_out ::= fun o => o ++ [lg_pending l1] |> <| lg_pending := [] |>
            <| lg_last := now_ms d |>) = log_bytes l1) as Hlb.
  { unfold log_bytes. csimpl. rewrite concat_snoc, blen_app. change (blen []) with 0. lia. }
  split; csimpl.
  - exists (outr ++ pendr), []. rewrite app_nil_r. split; [done|]. split; [|done].
    rewrite concat_snoc, Hp. by apply weave_records.
  - rewrite Hsz. by rewrite <- Hlb.
  - by rewrite <- Hlb in Hmax.
Qed.

Lemma log_check_export_inv d recs l :
  dump_cb d = true -> blen (lg_secrets l) < PCAP_BUFFER_SIZE ->
  log_inv d recs l -> log_inv d recs (log_check_export d l).
Proof. intros. unfold log_check_export. case_match; [by apply log_export_inv|done]. Qed.

Lemma log_inv_secrets d recs l s : log_inv d recs l -> log_inv d recs (l <| lg_secrets := s |>).
Proof. intros [Hs Hz Hm]. by split. Qed.

Lemma lg_secrets_out_chunk d c l : lg_secrets (out_chunk d c l) = lg_secrets l.
Proof. unfold out_chunk. by case_match. Qed.

Lemma log_export_secrets_bound d l n :
  blen (lg_secrets l) < n -> blen (lg_secrets (log_export d l)) < n.
Proof.
  intros Hn. pose proof (blen_nonneg (lg_secrets l)).
  unfold log_export, log_export_secrets. cbv zeta.
  repeat case_match; repeat (csimpl; rewrite ?lg_secrets_out_chunk); csimpl; try lia;
    rewrite blen_nil; lia.
Qed.

Lemma log_packet_inv f d pkt pktlen tv uid alloc recs l b l' :
  dump_cb d = true -> blen (lg_secrets l) < PCAP_BUFFER_SIZE ->
  log_packet f d pkt pktlen tv uid alloc l = (b, l') ->
  log_inv d recs l ->
  let rec := enc_record f (mode d) (snaplen d) (lg_names l) pkt pktlen tv uid alloc in
  log_inv d (if b then recs ++ [rec] else recs) l'.
Proof.
  intros Hcb Hs Hpk Hi. unfold log_packet in Hpk. cbv zeta in *.
  set (rec := enc_record _ _ _ _ _ _ _ _ _) in *. pose proof (blen_nonneg rec) as Hr.
  set (l1 := if PCAP_BUFFER_SIZE - blen (lg_pending l) <=? blen rec then log_export d l else l) in Hpk.
  assert (log_inv d recs l1 /\ blen (lg_secrets l1) < PCAP_BUFFER_SIZE) as [Hi1 Hs1].
  { unfold l1. destruct (_ <=? _); [|by split]. split; [by apply log_export_inv|by apply log_export_secrets_bound]. }
  clearbody l1. clear Hi Hs.
  destruct (Z.leb_spec (PCAP_BUFFER_SIZE - blen (lg_pending l1)) (blen rec)); [by simplify_eq|].
  destruct (over_max d (lg_size l1 + blen rec)) eqn:Ho; [by simplify_eq|]. simplify_eq.
  destruct Hi1 as [(outr & pendr & -> & Hw & Hp) Hsz Hmax].
  pose proof (log_bytes_nonneg l1). pose proof (blen_nonneg (lg_pending l1)).
  apply log_check_export_inv; [done|done|]. rewrite Hsz in Ho.
  split; csimpl; unfold log_bytes in *; csimpl; rewrite ?blen_app.
  - exists outr, (pendr ++ [rec]). by rewrite app_assoc, concat_snoc, Hp.
  - rewrite Hsz, u64_add_l. f_equal. lia.
  - intros Hm. specialize (Hmax Hm). rewrite Z.add_assoc.
    apply over_max_false; unfold PCAP_BUFFER_SIZE in *; try done; lia.
Qed.

Lemma same_config_trans d1 d2 d3 : same_config d1 d2 -> same_config d2 d3 -> same_config d1 d3.
Proof.
  intros (E1 & E2 & E3 & E4 & E5) (F1 & F2 & F3 & F4 & F5). repeat split; congruence.
Qed.

(** The log operations only read the configuration. *)
Lemma log_check_export_config d d' l :
  same_config d d' -> log_check_export d' l = log_check_export d l.
Proof.
  intros (_ & Hcb & _ & Hmax & Hnow).
  unfold log_check_export, log_export, log_export_secrets, out_chunk, over_max.
  by rewrite Hcb, Hmax, Hnow.
Qed.

Lemma log_inv_config d d' recs l : same_config d d' -> log_inv d recs l -> log_inv d' recs l.
Proof. intros (_ & _ & _ & Hm & _) [Hs Hz Hx]. split; [done..|]. by rewrite Hm. Qed.

(** Whether the buffer is exported first does not change the record. *)
Lemma lg_names_export d l : lg_names (log_export d l) = lg_names l.
Proof.
  unfold log_export, log_export_secrets, out_chunk. cbv zeta.
  repeat case_match; by csimpl.
Qed.

Lemma pcap_dump_packet_log f d pkt pktlen tv uid alloc :
  dumper_wf d -> 0 < pktlen <= blen pkt -> pktlen < 2 ^ 31 ->
  (mode d = PCAP_DUMP_WITH_TRAILER -> pktlen <= snaplen d) ->
  exists b d', pcap_dump_packet f d pkt pktlen tv uid alloc = Some (b, d') /\
    dumper_wf d' /\ same_config d d' /\
    (b, dump_log_of d') = log_packet f d pkt pktlen tv uid alloc (dump_log_of d).
Proof.
  intros Hwf Hpkt H32 Ht. unfold pcap_dump_packet, log_packet. cbv zeta.
  rewrite (pcap_rec_size_enc f d _ pkt pktlen tv uid alloc Hwf ltac:(lia) Ht).
  rewrite (blen_pending d Hwf). cbn [lg_names dump_log_of].
  set (tot := pcap_rec_size d pktlen).
  assert (exists d1, (if PCAP_BUFFER_SIZE - buffer_idx d <=? tot then export_buffer d else Some d)
                       = Some d1 /\
          refines d d1 (if PCAP_BUFFER_SIZE - buffer_idx d <=? tot
                        then log_export d (dump_log_of d) else dump_log_of d) /\
          uid2app d1 = uid2app d) as (d1 & -> & (Hwf1 & Hc & Hlog) & Hn).
  { destruct (_ <=? _); [|by exists d].
    destruct (export_buffer_refines d Hwf) as (d1 & -> & Hr & _). exists d1. do 2 (split; [done|]).
    destruct Hr as (_ & _ & Hr). apply (f_equal lg_names) in Hr. by rewrite lg_names_export in Hr. }
  cbn [mbind option_bind]. rewrite <- Hlog, blen_pending by done.
  pose proof Hc as (Hm & Hcb & Hsl & Hmx & Hnow). cbn [lg_size dump_log_of].
  destruct (Z.leb_spec (PCAP_BUFFER_SIZE - buffer_idx d1) tot); [by exists false, d1|].
  unfold over_max. rewrite <- Hmx.
  destruct ((max_dump_size d1 >? 0) && _); [by exists false, d1|].
  assert (tot = pcap_rec_size d1 pktlen) as Etot by (unfold tot, pcap_rec_size; by rewrite Hm, Hsl).
  rewrite <- Hm in Ht. rewrite <- Hsl in Ht. rewrite Etot in *.
  destruct (dump_packet_buffered f d1 pkt pktlen tv uid alloc Hwf1 Hpkt H32 Ht ltac:(lia))
    as (d2 & -> & (Hwf2 & Hc2 & Hlog2)). cbn [mbind option_bind].
  destruct (check_export_refines _ Hwf2) as (b & d3 & -> & (Hwf3 & Hc3 & Hlog3)).
  cbn [mbind option_bind]. exists true, d3. split; [done|]. split; [done|].
  pose proof (same_config_trans _ _ _ Hc Hc2) as Hc'.
  split; [by apply (same_config_trans _ _ _ Hc' Hc3)|]. f_equal. rewrite Hlog3, Hlog2.
  rewrite (log_check_export_config d) by exact Hc'.
  rewrite <- (pcap_rec_size_enc f d1 (uid2app d1) pkt pktlen tv uid alloc) by (try done; lia).
  change (lg_names (dump_log_of d1)) with (uid2app d1). by rewrite Hm, Hsl, Hn.
Qed.

(** C15: [pcap_dump_packet] is memory safe and implements the log. For every
    packet - in the format with a trailer, one that the snap length does not
    cut: of a cut packet the code would export stale bytes of the buffer, see
    the findings - each store of the record stays inside of the 512K buffer, and
    the effect on the dump is exactly that of the pure specification
    [log_packet]: the record of the PCAP, PCAP with trailer (with its CRC) or
    PCAPNG format is appended to the pending bytes, after an export when it does
    not fit, or it is refused when it is too large or the maximum dump size
    would be reached. *)
Theorem pcap_dump_packet_refines f d pkt pktlen tv uid alloc :
  dumper_wf d -> 0 < pktlen <= blen pkt -> pktlen < 2 ^ 31 ->
  (mode d = PCAP_DUMP_WITH_TRAILER -> pktlen <= snaplen d) ->
  exists b d', pcap_dump_packet f d pkt pktlen tv uid alloc = Some (b, d') /\
    dumper_wf d' /\ same_config d d' /\
    (b, dump_log_of d') = log_packet f d pkt pktlen tv uid alloc (dump_log_of d).
Proof. apply pcap_dump_packet_log. Qed.

Lemma pcap_dump_secret_refines d sec mem :
  dumper_wf d ->
  (exists b d', pcap_dump_secret d sec (blen sec) mem true = Some (b, d') /\
    dumper_wf d' /\ same_config d d' /\
    (b, dump_log_of d') = log_secret sec (dump_log_of d)) /\
  (keylog_buf d = None -> pcap_dump_secret d sec (blen sec) mem false = Some (false, d)).
Proof.
  intros Hwf. split; [|unfold pcap_dump_secret; by intros ->].
  unfold pcap_dump_secret, log_secret. rewrite (blen_secrets d Hwf).
  pose proof (blen_secrets d Hwf) as Hbs. pose proof Hwf as [Hi Hk Hkb Hs].
  set (m := match keylog_buf d with Some m => m | None => mem end).
  assert (match keylog_buf d with Some m => Some m | None => if true then Some mem else None end
          = Some m) as -> by (unfold m; by destruct (keylog_buf d)).
  set (old := lg_secrets (dump_log_of d)) in *.
  assert (mem_read m 16 (blen old) = old) as Hold.
  { rewrite Hbs. unfold old, m, dump_log_of. cbn [lg_secrets].
    destruct (keylog_buf d); [done|]. by rewrite Hkb. }
  change (keylog_idx (d <| keylog_buf := Some m |>)) with (keylog_idx d).
  destruct (Z.geb_spec (keylog_idx d + (blen sec + 1)) PCAP_BUFFER_SIZE).
  { exists false. eexists. split; [done|]. split; [by split|]. split; [done|]. f_equal.
    unfold dump_log_of. csimpl. f_equal. change (mem_read m 16 (keylog_idx d) = old).
    by rewrite <- Hbs. }
  pose proof (blen_nonneg sec). rewrite rdn_slice by lia. cbn [mbind option_bind].
  assert (slice sec 0 (blen sec) = sec) as ->.
  { unfold slice, blen. rewrite Nat2Z.id, drop_0. by rewrite firstn_all. }
  rewrite <- Hbs. unfold KEYLOG_BUFFER_HEADROOM. rewrite !store_Some by len. cbn [mbind option_bind].
  rewrite store_Some by len. cbn [mbind option_bind].
  exists true. eexists. split; [done|]. split; [split; csimpl; try done; lia|]. split; [done|].
  f_equal. unfold dump_log_of. csimpl. f_equal.
  replace (16 + (blen old + blen sec)) with (16 + blen (old ++ sec)) by len.
  rewrite (mem_read_append _ 16 (old ++ sec) [10]); [by rewrite <- app_assoc|lia| |len].
  rewrite blen_app. by apply mem_read_append.
Qed.

(** *** Runs of the dumper *)
Inductive dump_op :=
  | DPacket (pkt : bytes) (tv : timeval) (uid : Z) (alloc : bool)
  | DSecret (sec : bytes) (mem : memory)
  | DTick (now : Z).        (** the clock moves, then [pcap_check_export] *)

(** The second result is the list of the records accepted by this step. *)
Definition dump_step (f : Z -> option bytes) (d : pcap_dumper) (op : dump_op)
  : option (pcap_dumper * list bytes) :=
  match op with
  | DPacket pkt tv uid alloc =>
      '(ok, d') ← pcap_dump_packet f d pkt (blen pkt) tv uid alloc;
      Some (d', if ok : bool
                then [enc_record f (mode d) (snaplen d) (uid2app d) pkt (blen pkt) tv uid alloc]
                else [])
  | DSecret sec mem =>
      '(_, d') ← pcap_dump_secret d sec (blen sec) mem true; Some (d', [])
  | DTick now => '(_, d') ← pcap_check_export (d <| now_ms := now |>); Some (d', [])
  end.

Fixpoint dump_run (f : Z -> option bytes) (d : pcap_dumper) (ops : list dump_op)
  : option (pcap_dumper * list bytes) :=
  match ops with
  | [] => Some (d, [])
  | op :: ops' =>
      '(d', recs) ← dump_step f d op;
      '(d'', recs') ← dump_run f d' ops';
      Some (d'', recs ++ recs')
  end.

(** The packets that the capture dumps. *)
Definition dump_op_ok (md : pcap_dump_mode) (slen : Z) (op : dump_op) : Prop :=
  match op with
  | DPacket pkt _ _ _ =>
      0 < blen pkt < 2 ^ 31 /\ (md = PCAP_DUMP_WITH_TRAILER -> blen pkt <= slen)
  | _ => True
  end.

Definition dumper_inv (d : pcap_dumper) (recs : list bytes) : Prop :=
  dumper_wf d /\ dump_cb d = true /\ log_inv d recs (dump_log_of d).

Lemma log_secret_inv d recs sec l : log_inv d recs l -> log_inv d recs (log_secret sec l).2.
Proof. intros Hi. unfold log_secret. case_match; [done|]. by apply log_inv_secrets. Qed.

Lemma dump_step_inv f d recs op :
  dump_op_ok (mode d) (snaplen d) op -> dumper_inv d recs ->
  exists d' recs', dump_step f d op = Some (d', recs') /\ dumper_inv d' (recs ++ recs') /\
                   mode d' = mode d /\ snaplen d' = snaplen d /\
                   max_dump_size d' = max_dump_size d.
Proof.
  intros Hok (Hwf & Hcb & Hi). pose proof (blen_secrets d Hwf) as Hbs.
  assert (blen (lg_secrets (dump_log_of d)) < PCAP_BUFFER_SIZE) as Hsec
    by (destruct Hwf; lia).
  destruct op as [pkt tv uid alloc|sec mem|now]; cbn [dump_step dump_op_ok] in *.
  - destruct Hok as [Hlen Ht].
    destruct (pcap_dump_packet_log f d pkt (blen pkt) tv uid alloc Hwf ltac:(lia) ltac:(lia) Ht)
      as (b & d' & -> & Hwf' & Hc & Hlog). cbn [mbind option_bind].
    eexists _, _. split; [done|]. pose proof Hc as (Hm & Hcb' & Hs & Hx & _).
    split; [|done]. split; [done|]. split; [congruence|].
    apply (log_inv_config d); [done|]. symmetry in Hlog.
    pose proof (log_packet_inv f d pkt (blen pkt) tv uid alloc recs _ b _ Hcb Hsec Hlog Hi) as Hpi.
    destruct b; [exact Hpi|by rewrite app_nil_r].
  - destruct (pcap_dump_secret_refines d sec mem Hwf) as [(b & d' & -> & Hwf' & Hc & Hlog) _].
    cbn [mbind option_bind]. eexists _, _. split; [done|].
    pose proof Hc as (Hm & Hcb' & Hs & Hx & _). split; [|done]. rewrite app_nil_r.
    split; [done|]. split; [congruence|]. apply (log_inv_config d); [done|].
    apply (f_equal snd) in Hlog. cbn [snd] in Hlog. rewrite Hlog. by apply log_secret_inv.
  - assert (dumper_wf (d <| now_ms := now |>)) as Hwf0 by (destruct Hwf; by split).
    destruct (check_export_refines _ Hwf0) as (b & d' & -> & (Hwf' & Hc & Hlog)).
    cbn [mbind option_bind]. eexists _, _. split; [done|].
    pose proof Hc as (Hm & Hcb' & Hs & Hx & _). split; [|done]. rewrite app_nil_r.
    split; [done|]. split; [by rewrite Hcb'|]. apply (log_inv_config (d <| now_ms := now |>)); [done|].
    rewrite Hlog. apply log_check_export_inv; [done|done|].
    destruct Hi as [Hi1 Hi2 Hi3]. by split.
Qed.

(** A record encodes one of the packets of the run. *)
Definition record_of (f : Z -> option bytes) (md : pcap_dump_mode) (slen : Z)
    (ops : list dump_op) (r : bytes) : Prop :=
  exists names pkt tv uid alloc, DPacket pkt tv uid alloc ∈ ops /\
    r = enc_record f md slen names pkt (blen pkt) tv uid alloc.

Lemma dump_step_record f d op d' recs :
  dump_step f d op = Some (d', recs) -> Forall (record_of f (mode d) (snaplen d) [op]) recs.
Proof.
  destruct op as [pkt tv uid alloc|sec mem|now]; cbn [dump_step]; intros E;
    apply bind_Some in E as ([b d1] & _ & E); simplify_eq; [|by constructor..].
  destruct b; constructor; [|constructor].
  exists (uid2app d), pkt, tv, uid, alloc. split; [by left|done].
Qed.

Lemma record_of_mono f md slen ops ops' r :
  (forall op, op ∈ ops -> op ∈ ops') -> record_of f md slen ops r -> record_of f md slen ops' r.
Proof.
  intros Hsub (names & pkt & tv & uid & alloc & Hin & ->). exists names, pkt, tv, uid, alloc. auto.
Qed.

Lemma dump_run_inv f ops : forall d recs,
  Forall (dump_op_ok (mode d) (snaplen d)) ops -> dumper_inv d recs ->
  exists d' recs', dump_run f d ops = Some (d', recs') /\ dumper_inv d' (recs ++ recs') /\
                   max_dump_size d' = max_dump_size d /\
                   Forall (record_of f (mode d) (snaplen d) ops) recs'.
Proof.
  induction ops as [|op ops IH]; intros d recs Hok Hi; cbn [dump_run].
  - exists d, []. by rewrite app_nil_r.
  - apply Forall_cons in Hok as [Hop Hok].
    destruct (dump_step_inv f d recs op Hop Hi) as (d1 & r1 & E1 & Hi1 & Hm & Hs & Hx).
    pose proof (dump_step_record _ _ _ _ _ E1) as Hr1. rewrite E1. cbn [mbind option_bind]. rewrite <- Hm, <- Hs in Hok.
    destruct (IH d1 _ Hok Hi1) as (d2 & r2 & -> & Hi2 & Hx2 & Hr2). cbn [mbind option_bind].
    exists d2, (r1 ++ r2). rewrite app_assoc. split; [done|]. split; [done|]. split; [congruence|].
    rewrite Hm, Hs in Hr2. apply Forall_app. split; eapply Forall_impl; try eassumption;
      intros r; apply record_of_mono; intros o.
    + intros ->%list_elem_of_singleton. by left.
    + intros Ho. by right.
Qed.

Lemma dump_run_stream_aux f md slen max_size now names mem ops d :
  0 <= slen < 2 ^ 31 ->
  Forall (dump_op_ok md slen) ops ->
  pcap_new_dumper md slen max_size true now names mem true true true = Some d ->
  exists d' recs chunks,
    dump_run f d ops = Some (d', recs) /\ pcap_destroy_dumper d' = Some chunks /\
    weave recs (concat chunks) /\ Forall (record_of f md slen ops) recs /\
    (0 < max_size <= 2 ^ 63 -> blen (concat chunks) < max_size).
Proof.
  intros Hs Hok Hnew. injection Hnew as <-.
  set (d := mk_dumper md true slen max_size 0 0 mem 0 None 0 now names []).
  assert (dumper_inv d []) as Hinit.
  { split; [|split; [done|]].
    - split; unfold d; csimpl; unfold PCAP_BUFFER_SIZE; try lia; done.
    - split; [exists [], []; split; [done|]; split; [constructor|done]|done|].
      intros Hm. change (0 < max_size <= 2 ^ 63) in Hm. change (0 < max_size). lia. }
  destruct (dump_run_inv f ops d [] Hok Hinit) as (d' & recs & Hrun & (Hwf & Hcb & Hi) & Hx & Hrecs).
  destruct (export_buffer_refines d' Hwf) as (d2 & E2 & (Hwf2 & Hc2 & Hlog2) & Hidx2 & _).
  exists d', recs, (exported d2). split; [done|].
  unfold pcap_destroy_dumper. rewrite E2. split; [done|].
  apply (log_export_inv d') in Hi; [|done|rewrite blen_secrets by done; destruct Hwf; lia].
  rewrite <- Hlog2 in Hi. destruct Hi as [(outr & pendr & Hr & Hw & Hp) _ Hmax].
  pose proof (blen_pending d2 Hwf2) as Hbp. rewrite Hidx2 in Hbp.
  apply blen_0_nil in Hbp. split.
  - cbn [app] in Hr. rewrite Hr. apply weave_records with (pend := pendr) in Hw.
    rewrite <- Hp, Hbp, app_nil_r in Hw. exact Hw.
  - split; [exact Hrecs|]. intros Hm. rewrite Hx in Hmax. specialize (Hmax Hm). unfold log_bytes in Hmax.
    rewrite Hbp, blen_nil in Hmax. change (lg_out (dump_log_of d2)) with (exported d2) in Hmax.
    change (max_dump_size d) with max_size in Hmax. lia.
Qed.

(** C16: whatever the packets (in the format with a trailer, those that the
    snap length does not cut: see the findings for the others), the secrets, the
    clock and the order in which they come, a run of a dumper from its creation
    has no undefined behaviour, and once it is destroyed the chunks given to the
    callback are, concatenated, exactly the records of the packets for which
    [pcap_dump_packet] returned [true], each once, complete and in order,
    interleaved with blocks of secrets only. With a maximum dump size, the
    exported bytes stay below it. *)
Theorem dump_run_stream f md slen max_size now names mem ops d :
  0 <= slen < 2 ^ 31 ->
  Forall (dump_op_ok md slen) ops ->
  pcap_new_dumper md slen max_size true now names mem true true true = Some d ->
  exists d' recs chunks,
    dump_run f d ops = Some (d', recs) /\ pcap_destroy_dumper d' = Some chunks /\
    weave recs (concat chunks) /\ Forall (record_of f md slen ops) recs /\
    (0 < max_size <= 2 ^ 63 -> blen (concat chunks) < max_size).
Proof. apply dump_run_stream_aux. Qed.

(** *** A reader of PCAPNG blocks, and the file read back *)
Fixpoint read_blocks (fuel : nat) (bs : bytes) : option (list (Z * bytes)) :=
  match fuel with
  | O => None
  | S fuel' =>
      if blen bs =? 0 then Some [] else
      type ← rd32 bs 0;
      len ← rd32 bs 4;
      if (len <? 12) || negb (len mod 4 =? 0) then None else
      len2 ← rd32 bs (len - 4);
      if negb (len2 =? len) then None else
      body ← rdn bs 8 (len - 12);
      rest ← read_blocks fuel' (drop (Z.to_nat len) bs);
      Some ((type, body) :: rest)
  end.

Lemma read_blocks_S fuel bs :
  read_blocks (S fuel) bs =
  if blen bs =? 0 then Some [] else
  type ← rd32 bs 0;
  len ← rd32 bs 4;
  if (len <? 12) || negb (len mod 4 =? 0) then None else
  len2 ← rd32 bs (len - 4);
  if negb (len2 =? len) then None else
  body ← rdn bs 8 (len - 12);
  rest ← read_blocks fuel (drop (Z.to_nat len) bs);
  Some ((type, body) :: rest).
Proof. done. Qed.

Definition block_ok (b : Z * bytes) : Prop :=
  0 <= b.1 < 2 ^ 32 /\ 12 + blen b.2 < 2 ^ 32 /\ blen b.2 mod 4 = 0.

Definition enc_block (b : Z * bytes) : bytes := pcapng_block b.1 b.2.

Lemma read_blocks_enc blocks fuel :
  Forall block_ok blocks -> (length blocks < fuel)%nat ->
  read_blocks fuel (concat (enc_block <$> blocks)) = Some blocks.
Proof.
  intros Hok. revert fuel. induction Hok as [|[t body] blocks (Ht & Hlen & Hmod) Hok IH];
    intros fuel Hfuel; (destruct fuel as [|fuel]; [simpl in *; lia|]); [done|].
  cbn [fst snd length] in *. rewrite fmap_cons. cbn [concat].
  pose proof (blen_nonneg body) as Hnn.
  set (s := concat _). pose proof (blen_nonneg s). unfold enc_block, pcapng_block. cbn [fst snd].
  rewrite <- !app_assoc. set (n := 12 + blen body).
  assert (forall a b c : bytes, a ++ b ++ c = (a ++ b) ++ c) as Has by apply app_assoc.
  set (bs := le32 t ++ le32 n ++ body ++ le32 n ++ s). rewrite read_blocks_S.
  assert (blen bs = n + blen s) as Hbs by (unfold bs, n; rewrite !blen_app, !blen_le32; lia).
  destruct (Z.eqb_spec (blen bs) 0); [lia|].
  assert (0 <= n < 2 ^ 32) as Hn by lia.
  assert (rd32 bs 0 = Some t) as -> by (by apply (rd32_field [])).
  assert (rd32 bs 4 = Some n) as -> by (by apply (rd32_field (le32 t))).
  cbn [mbind option_bind].
  assert (n mod 4 = 0) as ->.
  { unfold n. rewrite Z.add_mod, Hmod by lia. done. }
  destruct (Z.ltb_spec n 12); [lia|]. cbn [orb negb Z.eqb].
  assert (rd32 bs (n - 4) = Some n) as ->.
  { unfold bs. rewrite (Has (le32 t)), (Has (le32 t ++ le32 n)).
    apply rd32_field; [done|]. unfold n. rewrite !blen_app, !blen_le32. lia. }
  cbn [mbind option_bind]. rewrite Z.eqb_refl. cbn [negb].
  rewrite rdn_Some by lia. cbn [mbind option_bind].
  assert (slice bs 8 (n - 12) = body) as ->.
  { unfold bs. rewrite (Has (le32 t)). apply slice_app_mid; [done|lia]. }
  assert (drop (Z.to_nat n) bs = s) as ->.
  { unfold bs. rewrite (Has (le32 t)), (Has (le32 t ++ le32 n)), (Has _ (le32 n) s).
    apply drop_app_blen. rewrite !blen_app, !blen_le32. lia. }
  rewrite IH by lia. done.
Qed.

(** *** The PCAPNG preamble *)
Definition enc_opt (type : Z) (data : bytes) : bytes :=
  le16 type ++ le16 (blen data) ++ pad_to4 data.

Definition shb_body (device os appver : bytes) : bytes :=
  le32 0x1a2b3c4d ++ le16 1 ++ le16 0 ++ le_split 8 (-1) ++
  enc_opt 2 device ++ enc_opt 3 os ++ enc_opt 4 appver.

Definition idb_body (slen : Z) : bytes := le16 LINKTYPE_RAW ++ le16 0 ++ le32 slen.

(** The strings that name the device, the system and the application. *)
Definition short (data : bytes) : Prop := blen data < 65000.

Lemma blen_enc_opt type data : blen (enc_opt type data) = 4 + blen data + pad4 (blen data).
Proof. unfold enc_opt. rewrite !blen_app, blen_pad_to4, !blen_le16. lia. Qed.

Lemma opt_lengths type data : short data ->
  opt_length (pcapng_option type data (blen data)) = blen data /\
  opt_tot_length (pcapng_option type data (blen data)) = blen (enc_opt type data).
Proof.
  unfold short. intros Hs. unfold pcapng_option. cbn [opt_length opt_tot_length].
  pose proof (blen_nonneg data). pose proof (pad4_range (blen data)).
  rewrite (u16_small (blen data)) by lia. rewrite blen_enc_opt, u16_small by lia. done.
Qed.

Lemma slice_all data : slice data 0 (blen data) = data.
Proof. unfold slice, blen. rewrite Nat2Z.id, drop_0. by rewrite firstn_all. Qed.

Lemma write_pcapng_opt_holds size m l type data :
  holds m l -> short data -> blen l + blen (enc_opt type data) <= size ->
  exists m', write_pcapng_opt size m (blen l) (pcapng_option type data (blen data)) =
               Some (blen (enc_opt type data), m') /\ holds m' (l ++ enc_opt type data).
Proof.
  intros H Hs Hfit. pose proof (opt_lengths type data Hs) as [Hl Ht].
  pose proof (blen_nonneg l). pose proof (blen_nonneg data). pose proof (pad4_range (blen data)).
  unfold write_pcapng_opt. rewrite Hl, Ht. rewrite blen_enc_opt in *.
  assert (opt_padding (pcapng_option type data (blen data)) = pad4 (blen data)) as ->.
  { unfold pcapng_option. cbn [opt_padding]. unfold short in Hs. by rewrite u16_small by lia. }
  cbn [opt_type opt_data pcapng_option].
  append_step H. append_step H. rewrite rdn_slice by lia. cbn [mbind option_bind].
  rewrite slice_all. append_step H. append_step H.
  eexists. split; [done|]. unfold enc_opt, pad_to4, zeros. rewrite <- !app_assoc in *. exact H.
Qed.

(** A store that leaves a gap of [k] bytes after the known prefix. *)
Lemma holds_gap m l k : holds m l -> 0 <= k -> holds m (l ++ mem_read m (blen l) k).
Proof. intros H Hk. apply holds_app; [done|]. by rewrite blen_mem_read. Qed.

Lemma get_pcapng_preamble_blocks d device os appver mem :
  short device -> short os -> short appver -> 
  get_pcapng_preamble d device os appver mem true =
  Some (Some (pcapng_block 0x0A0D0D0A (shb_body device os appver) ++
              pcapng_block 1 (idb_body (snaplen d)))).
Proof.
  intros H1 H2 H3. unfold get_pcapng_preamble.
  destruct (opt_lengths 2 device H1) as [_ ->], (opt_lengths 3 os H2) as [_ ->],
    (opt_lengths 4 appver H3) as [_ ->].
  set (o1 := enc_opt 2 device) in *. set (o2 := enc_opt 3 os) in *. set (o3 := enc_opt 4 appver) in *.
  pose proof (blen_nonneg o1) as N1. pose proof (blen_nonneg o2) as N2.
  pose proof (blen_nonneg o3) as N3.
  set (shb_len := sizeof_shb + blen o1 + blen o2 + blen o3 + 4).
  cbn [negb]. pose proof (holds_nil mem) as H. unfold sizeof_idb in *.
  assert (shb_len = 28 + blen o1 + blen o2 + blen o3) as Hlen by (unfold shb_len, sizeof_shb; lia).
  assert (blen (le_split 8 (-1)) = 8) as H8 by done.
  append_step H. append_step H. append_step H. append_step H. append_step H. append_step H.
  set (hd := _ ++ le_split 8 (-1)) in H. assert (blen hd = sizeof_shb) as Hhd by (unfold hd; len). rewrite <- Hhd.
  unfold sizeof_shb in Hhd.
  destruct (write_pcapng_opt_holds (shb_len + (16 + 4)) _ _ 2 device H H1) as (ma & -> & Ha);
    [fold o1; lia|]. cbn [mbind option_bind]. fold o1 in Ha |- *.
  rewrite <- blen_app.
  destruct (write_pcapng_opt_holds (shb_len + (16 + 4)) _ _ 3 os Ha H2) as (mb & -> & Hb);
    [fold o2; rewrite blen_app; lia|]. cbn [mbind option_bind]. fold o2 in Hb |- *. rewrite <- blen_app.
  destruct (write_pcapng_opt_holds (shb_len + (16 + 4)) _ _ 4 appver Hb H3) as (mc & -> & Hc);
    [fold o3; rewrite !blen_app; lia|]. cbn [mbind option_bind]. fold o3 in Hc |- *. rewrite <- blen_app.
  clear H Ha Hb. rename Hc into H.
  set (L := ((hd ++ o1) ++ o2) ++ o3) in *.
  assert (blen L = 24 + blen o1 + blen o2 + blen o3) as HL by (unfold L; rewrite !blen_app; lia).
  assert (L = le32 0x0A0D0D0A ++ le32 shb_len ++
            (le32 0x1a2b3c4d ++ le16 1 ++ le16 0 ++ le_split 8 (-1) ++ o1 ++ o2 ++ o3)) as EL
    by (unfold L, hd; by rewrite <- !app_assoc).
  rewrite (mem_read_holds mc (le32 0x0A0D0D0A) (le32 shb_len)
             (le32 0x1a2b3c4d ++ le16 1 ++ le16 0 ++ le_split 8 (-1) ++ o1 ++ o2 ++ o3))
    by (first [rewrite <- EL; exact H|done]).
  append_step H. append_step H. append_step H.
  set (P := ((L ++ le32 shb_len) ++ le32 1) ++ le32 (16 + 4)) in *.
  assert (blen P = blen L + 12) as HP by (unfold P; rewrite !blen_app, !blen_le32; lia).
  apply (holds_gap _ _ 2) in H; [|lia]. set (gap := mem_read _ _ 2) in H.
  assert (blen gap = 2) as Hgap by done.
  replace (blen L + 4 + 10) with (blen (P ++ gap)) by (rewrite blen_app; lia).
  append_step H. rewrite <- !app_assoc in H.
  replace (blen L + 4 + 8) with (blen P) by lia.
  update_step H P gap (le16 0). rewrite app_assoc in H. append_step H.
  lazymatch type of H with holds ?mm _ =>
    rewrite (mem_read_holds mm ((L ++ le32 shb_len) ++ le32 1) (le32 (16 + 4))
               (le16 LINKTYPE_RAW ++ le16 0 ++ le32 (snaplen d)))
      by (first [unfold P in H; rewrite <- !app_assoc in *; exact H|rewrite ?blen_app, ?blen_le32; lia|done])
  end.
  append_step H. do 2 f_equal. apply holds_read in H.
  replace (shb_len + (16 + 4)) with
    (blen ((((P ++ le16 LINKTYPE_RAW) ++ le16 0) ++ le32 (snaplen d)) ++ le32 (16 + 4)))
    by (rewrite !blen_app, ?blen_le16, ?blen_le32; lia).
  rewrite H. unfold pcapng_block, shb_body, idb_body. fold o1 o2 o3.
  assert (12 + blen (le32 0x1a2b3c4d ++ le16 1 ++ le16 0 ++ le_split 8 (-1) ++ o1 ++ o2 ++ o3) = shb_len)
    as -> by (rewrite !blen_app, ?blen_le16, ?blen_le32, H8; lia).
  unfold P. rewrite EL. by rewrite <- !app_assoc.
Qed.

Lemma pad_to4_aligned bs : blen (pad_to4 bs) mod 4 = 0.
Proof. rewrite blen_pad_to4. apply pad4_aligns. Qed.

Lemma mod4_add a b : a mod 4 = 0 -> b mod 4 = 0 -> (a + b) mod 4 = 0.
Proof. intros Ha Hb. by rewrite Z.add_mod, Ha, Hb. Qed.

Lemma enc_opt_aligned t data : blen (enc_opt t data) mod 4 = 0.
Proof.
  unfold enc_opt. rewrite !blen_app, !blen_le16, Z.add_assoc.
  apply mod4_add; [done|apply pad_to4_aligned].
Qed.

Lemma shb_block_ok device os appver :
  short device -> short os -> short appver ->
  block_ok (0x0A0D0D0A, shb_body device os appver).
Proof.
  unfold short. intros H1 H2 H3. unfold block_ok, shb_body. cbn [fst snd].
  rewrite !blen_app, blen_le32, !blen_le16.
  change (blen (le_split 8 (-1))) with 8.
  pose proof (pad4_range (blen device)). pose proof (pad4_range (blen os)).
  pose proof (pad4_range (blen appver)).
  split; [lia|]. split; [rewrite !blen_enc_opt; lia|].
  apply mod4_add; [done|]. rewrite Z.add_assoc. do 2 (apply mod4_add; [done|]).
  apply mod4_add; [apply enc_opt_aligned|]. apply mod4_add; apply enc_opt_aligned.
Qed.

Lemma dsb_block_ok sec :
  blen sec < PCAP_BUFFER_SIZE ->
  exists body, enc_dsb sec = enc_block (10, body) /\ block_ok (10, body).
Proof.
  intros Hs. exists (le32 0x544c534b ++ le32 (blen sec) ++ pad_to4 sec).
  split; [reflexivity|]. unfold block_ok. cbn [fst snd].
  rewrite !blen_app, !blen_le32. pose proof (pad4_range (blen sec)).
  split; [lia|]. split; [rewrite blen_pad_to4; unfold PCAP_BUFFER_SIZE in *; lia|].
  do 2 (apply mod4_add; [done|]). apply pad_to4_aligned.
Qed.

Lemma epb_block_ok slen pkt tv :
  0 <= slen -> blen pkt < 2 ^ 31 ->
  exists body, enc_epb slen pkt (blen pkt) tv = enc_block (6, body) /\ block_ok (6, body).
Proof.
  intros Hs Hp.
  eexists (_ ++ _ ++ _ ++ _ ++ _ ++ pad_to4 _). split; [reflexivity|]. unfold block_ok. cbn [fst snd].
  rewrite !blen_app, !blen_le32. pose proof (blen_nonneg pkt).
  pose proof (pad4_range (Z.min (blen pkt) slen)).
  split; [lia|]. split; [rewrite blen_pad_to4, blen_slice0 by lia; lia|].
  do 5 (apply mod4_add; [done|]). apply pad_to4_aligned.
Qed.

(** The blocks of a stream. *)
Lemma weave_blocks bodies s :
  Forall (fun b => block_ok (6, b)) bodies -> weave (pcapng_block 6 <$> bodies) s ->
  exists blocks, s = concat (enc_block <$> blocks) /\ Forall block_ok blocks /\
    (filter (fun b => b.1 = 6) blocks).*2 = bodies /\
    Forall (fun b => b.1 = 6 \/ b.1 = 10) blocks.
Proof.
  intros Hb Hw. remember (pcapng_block 6 <$> bodies) as rs eqn:Er. revert bodies Hb Er.
  induction Hw as [|rs s r Hw IH|rs s sec Hs Hw IH]; intros bodies Hb Er.
  - symmetry in Er. apply fmap_nil_inv in Er as ->. by exists [].
  - destruct bodies as [|b bodies _] using rev_ind; [by destruct rs|].
    rewrite fmap_app in Er. apply app_inj_tail in Er as [Er ->].
    apply Forall_app in Hb as [Hb [Hb1 _]%Forall_cons].
    destruct (IH bodies Hb Er) as (blocks & -> & Hok & Hf & Ht).
    exists (blocks ++ [(6, b)]). rewrite fmap_app, concat_app, filter_app, fmap_app, Hf.
    split; [csimpl; by rewrite app_nil_r|]. split; [by apply Forall_app; split; [|constructor]|].
    split; [done|]. apply Forall_app. split; [done|]. constructor; [by left|constructor].
  - destruct (IH bodies Hb Er) as (blocks & -> & Hok & Hf & Ht).
    destruct (dsb_block_ok sec Hs) as (body & -> & Hd).
    exists (blocks ++ [(10, body)]). rewrite fmap_app, concat_app, filter_app, fmap_app, Hf.
    split; [cbn [fmap list_fmap concat]; by rewrite app_nil_r|].
    split; [by apply Forall_app; split; [|constructor]|].
    split; [apply app_nil_r|]. apply Forall_app. split; [done|].
    constructor; [by right|constructor].
Qed.

Lemma records_bodies f slen ops recs :
  0 <= slen < 2 ^ 31 -> Forall (dump_op_ok PCAPNG_DUMP slen) ops ->
  Forall (record_of f PCAPNG_DUMP slen ops) recs ->
  exists bodies, recs = pcapng_block 6 <$> bodies /\ Forall (fun b => block_ok (6, b)) bodies.
Proof.
  intros Hs Hok. induction 1 as [|r recs (names & pkt & tv & uid & alloc & Hin & ->) _
    (bodies & -> & Hb)]; [by exists []|].
  rewrite Forall_forall in Hok. apply Hok in Hin as [Hlen _].
  destruct (epb_block_ok slen pkt tv) as (body & E & Hbody); [lia..|].
  exists (body :: bodies). cbn [enc_record]. rewrite E. by split; [|constructor].
Qed.

(** C17: a PCAPNG file is read back. For every run of a dumper in PCAPNG mode,
    the preamble is built inside of its allocation, and a reader of blocks
    (type, total length, body, the total length again, all aligned to four
    bytes) applied to the preamble followed by the exported chunks succeeds: it
    finds the section header, the interface description, and then a list of
    blocks whose packet blocks are, in order, exactly the accepted packets, the
    other ones being decryption secrets. *)
Theorem pcapng_file_roundtrip f slen max_size now names mem ops d device os appver pmem :
  0 <= slen < 2 ^ 31 ->
  short device -> short os -> short appver ->
  Forall (dump_op_ok PCAPNG_DUMP slen) ops ->
  pcap_new_dumper PCAPNG_DUMP slen max_size true now names mem true true true = Some d ->
  exists d' recs chunks preamble bodies blocks,
    dump_run f d ops = Some (d', recs) /\ pcap_destroy_dumper d' = Some chunks /\
    pcap_get_preamble d device os appver pmem true = Some (Some preamble) /\
    read_blocks (3 + length blocks) (preamble ++ concat chunks) =
      Some ((0x0A0D0D0A, shb_body device os appver) :: (1, idb_body slen) :: blocks) /\
    recs = pcapng_block 6 <$> bodies /\ (filter (fun b => b.1 = 6) blocks).*2 = bodies /\
    Forall (fun b => b.1 = 6 \/ b.1 = 10) blocks.
Proof.
  intros Hs H1 H2 H3 Hok Hnew.
  destruct (dump_run_stream_aux f PCAPNG_DUMP slen max_size now names mem ops d Hs Hok Hnew)
    as (d' & recs & chunks & Hrun & Hd & Hw & Hr & _).
  destruct (records_bodies f slen ops recs Hs Hok Hr) as (bodies & -> & Hb).
  destruct (weave_blocks bodies _ Hb Hw) as (blocks & Hcat & Hbok & Hf & Ht).
  exists d', (pcapng_block 6 <$> bodies), chunks,
    (pcapng_block 0x0A0D0D0A (shb_body device os appver) ++ pcapng_block 1 (idb_body slen)),
    bodies, blocks.
  split; [done|]. split; [done|]. injection Hnew as <-.
  split; [by apply get_pcapng_preamble_blocks|]. split; [|done].
  rewrite Hcat. rewrite <- app_assoc.
  apply (read_blocks_enc ((0x0A0D0D0A, shb_body device os appver) :: (1, idb_body slen) :: blocks));
    [|cbn [length]; lia].
  constructor; [by apply shb_block_ok|]. constructor; [|done].
  unfold block_ok, idb_body. split; [done|]. by split.
Qed.

(** ** Witnesses *)
Definition ex_names (uid : Z) : option bytes := if uid =? 10001 then Some [97; 112; 112] else None.
Definition ex_pkt : bytes := [0x45; 1; 2; 3; 4; 5; 6; 7; 8; 9].
Definition ex_dumper (md : pcap_dump_mode) (mem : memory) : pcap_dumper :=
  mk_dumper md true 64 0 0 0 mem 0 None 0 5 [] [].

Lemma ex_dumper_wf md mem : dumper_wf (ex_dumper md mem).
Proof. split; cbn; unfold PCAP_BUFFER_SIZE; try lia; done. Qed.

Lemma pcap_dump_packet_refines_witness :
  exists b d', pcap_dump_packet ex_names (ex_dumper PCAP_DUMP_WITH_TRAILER (fun _ => 170))
                 ex_pkt 10 (mk_tv 1 2) 10001 true = Some (b, d') /\
    (b, dump_log_of d') =
      log_packet ex_names (ex_dumper PCAP_DUMP_WITH_TRAILER (fun _ => 170)) ex_pkt 10 (mk_tv 1 2)
        10001 true (dump_log_of (ex_dumper PCAP_DUMP_WITH_TRAILER (fun _ => 170))).
Proof.
  destruct (pcap_dump_packet_refines ex_names (ex_dumper PCAP_DUMP_WITH_TRAILER (fun _ => 170))
    ex_pkt 10 (mk_tv 1 2) 10001 true (ex_dumper_wf _ _)) as (b & d' & E & _ & _ & H).
  - split; [reflexivity|discriminate].
  - reflexivity.
  - intros _. discriminate.
  - exists b, d'. exact (conj E H).
Defined.

Definition ex_ops : list dump_op :=
  [DPacket ex_pkt (mk_tv 1 2) 10001 true; DSecret [83; 75] (fun _ => 0); DTick 2000;
   DPacket ex_pkt (mk_tv 3 4) 0 true].

Lemma ex_ops_ok md : Forall (dump_op_ok md 64) ex_ops.
Proof.
  repeat constructor; cbn [dump_op_ok]; try done; split; reflexivity || discriminate.
Qed.

Lemma dump_run_stream_witness :
  exists d' recs chunks,
    dump_run ex_names (mk_dumper PCAP_DUMP_WITH_TRAILER true 64 500 0 0 (fun _ => 170) 0 None 0 5 [] [])
      ex_ops = Some (d', recs) /\ pcap_destroy_dumper d' = Some chunks /\
    weave recs (concat chunks) /\ blen (concat chunks) < 500.
Proof.
  destruct (dump_run_stream ex_names PCAP_DUMP_WITH_TRAILER 64 500 5 [] (fun _ => 170) ex_ops
    (mk_dumper PCAP_DUMP_WITH_TRAILER true 64 500 0 0 (fun _ => 170) 0 None 0 5 [] []))
    as (d' & recs & chunks & Hr & Hd & Hw & _ & Hm).
  - split; [discriminate|reflexivity].
  - exact (ex_ops_ok _).
  - reflexivity.
  - exists d', recs, chunks.
    split; [exact Hr|]. split; [exact Hd|]. split; [exact Hw|].
    apply Hm. split; [reflexivity|]. vm_compute. discriminate.
Defined.

Lemma pcapng_file_roundtrip_witness :
  exists d' recs chunks preamble bodies blocks,
    dump_run ex_names (mk_dumper PCAPNG_DUMP true 64 0 0 0 (fun _ => 170) 0 None 0 5 [] [])
      ex_ops = Some (d', recs) /\ pcap_destroy_dumper d' = Some chunks /\
    pcap_get_preamble (mk_dumper PCAPNG_DUMP true 64 0 0 0 (fun _ => 170) 0 None 0 5 [] [])
      [80] [65; 66] [49; 46; 54] (fun _ => 3) true = Some (Some preamble) /\
    read_blocks (3 + length blocks) (preamble ++ concat chunks) =
      Some ((0x0A0D0D0A, shb_body [80] [65; 66] [49; 46; 54]) :: (1, idb_body 64) :: blocks) /\
    recs = pcapng_block 6 <$> bodies /\ (filter (fun b => b.1 = 6) blocks).*2 = bodies /\
    Forall (fun b => b.1 = 6 \/ b.1 = 10) blocks.
Proof.
  apply (pcapng_file_roundtrip ex_names 64 0 5 [] (fun _ => 170) ex_ops).
  - split; [discriminate|reflexivity].
  - reflexivity.
  - reflexivity.
  - reflexivity.
  - exact (ex_ops_ok _).
  - reflexivity.
Defined.

(** In the trailer mode, a packet that the snap length cuts by less than the
    size of the trailer leaves no room for it, and the record ends with bytes of
    the buffer that were never written. *)
Lemma trailer_clip_leaks :
  let pkt := 0x45 :: replicate 69 1 in
  let chunks mem := '(_, d) ← pcap_dump_packet ex_names (ex_dumper PCAP_DUMP_WITH_TRAILER mem)
                                pkt 70 (mk_tv 1 2) 10001 true;
                    pcap_destroy_dumper d in
  exists c1 c2, chunks (fun _ => 170) = Some [c1] /\ chunks (fun _ => 187) = Some [c2] /\
    drop 100 c1 = replicate 28 170 /\ drop 100 c2 = replicate 28 187.
Proof. cbv zeta. eexists _, _. repeat split; vm_compute; reflexivity. Qed.

(** ** Memory safety for every packet

    The theorems above ask that a trailer fits; the stores stay inside the
    buffer without that, for an empty packet too. *)
Ltac safe_step :=
  rewrite store_Some by len; cbn [mbind option_bind].

Lemma blen_mem4 m a : blen (mem_read m a 4) = 4.
Proof. by apply blen_mem_read. Qed.

Section pcap_safe.
Context (f : Z -> option bytes) (d : pcap_dumper) (pkt : bytes) (pktlen : Z) (tv : timeval)
  (uid : Z) (alloc : bool).
Hypothesis Hwf : dumper_wf d.
Hypothesis Hpkt : 0 <= pktlen <= blen pkt.
Hypothesis Hne : 0 < blen pkt.
Hypothesis Hint32 : pktlen < 2 ^ 31.
Hypothesis Hfit : buffer_idx d + pcap_rec_size d pktlen < PCAP_BUFFER_SIZE.

Lemma dump_packet_pcapng_safe :
  mode d = PCAPNG_DUMP ->
  exists m, dump_packet_pcapng d pkt pktlen tv (pcap_rec_size d pktlen) = Some (d <| buffer := m |>).
Proof.
  intros Em. pose proof Hwf as [Hi _ _ Hs]. unfold dump_packet_pcapng. revert Hfit.
  unfold pcap_rec_size. rewrite Em. decide_mode. cbv zeta.
  set (clen := Z.min pktlen (snaplen d)). intros Hf.
  pose proof (pad4_range clen) as Hp. unfold sizeof_epb, PCAP_BUFFER_SIZE in Hf.
  assert (0 <= clen <= blen pkt) as Hc by lia.
  rewrite (u32_id clen) by (unfold PCAP_BUFFER_SIZE; lia). do 7 safe_step.
  rewrite rdn_slice by done. cbn [mbind option_bind]. pose proof (blen_slice0 pkt clen Hc) as Hsl.
  safe_step. safe_step. rewrite store_Some by (rewrite ?blen_mem4; len). cbn [mbind option_bind].
  by eexists.
Qed.

Lemma dump_trailer_safe m names buf offset incl_len :
  0 <= buf -> 0 <= offset -> buf + offset + pad4 offset + 32 <= PCAP_BUFFER_SIZE ->
  exists m' names' n, dump_trailer f m names buf offset incl_len uid alloc = Some (m', names', n).
Proof.
  intros Hb Ho Hfit'. pose proof (pad4_range offset) as Hp. unfold dump_trailer. cbv zeta.
  unfold PCAP_BUFFER_SIZE in Hfit'. do 4 safe_step.
  destruct (get_appname_by_uid f names uid 20 alloc) as [appname names'] eqn:En.
  pose proof (get_appname_blen f names uid 20 alloc eq_refl) as Hn. rewrite En in Hn. simpl in Hn.
  pose proof (blen_nonneg appname). do 2 safe_step. by eexists _, _, _.
Qed.

Lemma dump_packet_pcap_safe :
  mode d <> PCAPNG_DUMP ->
  exists m names, dump_packet_pcap f d pkt pktlen tv uid (pcap_rec_size d pktlen) alloc =
                    Some (d <| buffer := m |> <| uid2app := names |>).
Proof.
  intros Em. pose proof Hwf as [Hi _ _ Hs]. revert Hfit. unfold dump_packet_pcap, pcap_rec_size.
  rewrite (decide_False _ _ Em). cbv zeta. set (clen := Z.min pktlen (snaplen d)).
  assert (0 <= clen <= blen pkt) as Hc by lia. intros Hf.
  assert (forall m, d <| buffer := m |> = d <| buffer := m |> <| uid2app := uid2app d |>) as Hsame
    by (intros m; by destruct d).
  destruct (decide (mode d = PCAP_DUMP_WITH_TRAILER)) as [Et|Et].
  - revert Hf. unfold sizeof_trailer, sizeof_ethhdr, sizeof_pcap_rec, PCAP_BUFFER_SIZE. intros Hf.
    pose proof (pad4_range (clen + (32 + 14))) as Hp.
    pose proof (pad4_aligns (clen + (32 + 14))) as Ha. set (pad := pad4 (clen + (32 + 14))) in *.
    replace (clen + (32 + 14) + pad + 16 - 16) with (clen + 46 + pad) by lia.
    set (incl := clen + 46 + pad). assert (incl mod 4 = 0) as Hincl by (rewrite <- Ha; f_equal; lia).
    rewrite (u32_id incl) by (unfold PCAP_BUFFER_SIZE; lia). do 4 safe_step.
    unfold dump_eth_header at 1. safe_step.
    destruct (rd8_Some pkt 0) as [c Hc8]; [lia|]. rewrite Hc8. cbn [mbind option_bind].
    do 2 safe_step. unfold umin.
    rewrite (u32_id (incl - 14)), (u32_small pktlen) by (unfold PCAP_BUFFER_SIZE; lia).
    set (n := if pktlen <? incl - 14 then pktlen else incl - 14).
    assert (0 <= n <= incl - 14 /\ n <= pktlen) as Hn
      by (unfold n; destruct (Z.ltb_spec pktlen (incl - 14)); lia).
    rewrite rdn_slice by lia. cbn [mbind option_bind].
    pose proof (blen_slice0 pkt n ltac:(lia)) as Hsl. safe_step.
    rewrite (u32_id (incl - (14 + n))) by (unfold PCAP_BUFFER_SIZE; lia).
    destruct (Z.geb_spec (incl - (14 + n)) 32).
    + assert (pad4 (14 + n) <= incl - 32 - (14 + n)) as Hpn.
      { rewrite pad4_mod. pose proof (Z.mod_le (incl - 32 - (14 + n)) 4 ltac:(lia) ltac:(lia)) as Hm.
        replace ((incl - 32 - (14 + n)) mod 4) with ((- (14 + n)) mod 4) in Hm; [lia|].
        replace (incl - 32 - (14 + n)) with (- (14 + n) + (incl + (- 8) * 4)) by lia.
        rewrite <- Zplus_mod_idemp_r, Z.mod_add, Hincl by lia. by rewrite Z.add_0_r. }
      match goal with |- context [dump_trailer f ?m ?nm ?b ?o ?i uid alloc] =>
        destruct (dump_trailer_safe m nm b o i) as (m' & names' & k & ->);
          [lia|lia|unfold PCAP_BUFFER_SIZE; lia|] end.
      cbn [mbind option_bind]. safe_step. by eexists _, _.
    + rewrite Hsame. by eexists _, _.
  - revert Hf. unfold sizeof_pcap_rec, PCAP_BUFFER_SIZE. intros Hf.
    replace (clen + 16 - 16) with clen by lia.
    rewrite (u32_id clen) by (unfold PCAP_BUFFER_SIZE; lia). do 4 safe_step.
    rewrite Z.sub_0_r, (u32_id clen) by (unfold PCAP_BUFFER_SIZE; lia). unfold umin.
    rewrite u32_small by lia. set (n := if pktlen <? clen then pktlen else clen).
    assert (0 <= n <= clen) as Hn by (unfold n; destruct (Z.ltb_spec pktlen clen); lia).
    rewrite rdn_slice by lia. cbn [mbind option_bind].
    pose proof (blen_slice0 pkt n ltac:(lia)) as Hsl. safe_step.
    rewrite Hsame. by eexists _, _.
Qed.
End pcap_safe.

Lemma pcap_rec_size_nonneg d n : 0 <= snaplen d -> 0 <= n -> 0 <= pcap_rec_size d n.
Proof.
  intros Hs Hn. unfold pcap_rec_size. cbv zeta.
  pose proof (pad4_range (Z.min n (snaplen d))).
  pose proof (pad4_range (Z.min n (snaplen d) + (sizeof_trailer + sizeof_ethhdr))).
  unfold sizeof_epb, sizeof_pcap_rec, sizeof_trailer, sizeof_ethhdr in *.
  repeat case_decide; lia.
Qed.

Lemma pcap_dump_packet_safe f d pkt pktlen tv uid alloc :
  dumper_wf d -> 0 <= pktlen <= blen pkt -> 0 < blen pkt -> pktlen < 2 ^ 31 ->
  exists b d', pcap_dump_packet f d pkt pktlen tv uid alloc = Some (b, d') /\ dumper_wf d'.
Proof.
  intros Hwf Hpkt Hne H32. unfold pcap_dump_packet. cbv zeta. set (tot := pcap_rec_size d pktlen).
  assert (exists d1, (if PCAP_BUFFER_SIZE - buffer_idx d <=? tot then export_buffer d else Some d)
                       = Some d1 /\ dumper_wf d1 /\ same_config d d1)
    as (d1 & -> & Hwf1 & Hc).
  { destruct (_ <=? _); [|by exists d]. destruct (export_buffer_refines d Hwf) as (d1 & -> & Hr & _).
    exists d1. by destruct Hr as (? & ? & _). }
  cbn [mbind option_bind]. destruct (Z.leb_spec (PCAP_BUFFER_SIZE - buffer_idx d1) tot); [by eexists _, _|].
  destruct (_ && _); [by eexists _, _|].
  assert (tot = pcap_rec_size d1 pktlen) as Ht.
  { unfold tot, pcap_rec_size. by destruct Hc as (-> & _ & -> & _). }
  pose proof Hwf1 as [Hi Hk Hkb Hs].
  assert (0 <= tot) by (rewrite Ht; apply pcap_rec_size_nonneg; lia).
  assert (exists d2, (if decide (mode d1 = PCAPNG_DUMP) then dump_packet_pcapng d1 pkt pktlen tv tot
                      else dump_packet_pcap f d1 pkt pktlen tv uid tot alloc) = Some d2 /\
            buffer_idx d2 = buffer_idx d1 /\ keylog_idx d2 = keylog_idx d1 /\
            keylog_buf d2 = keylog_buf d1 /\ snaplen d2 = snaplen d1) as (d2 & -> & E1 & E2 & E3 & E4).
  { rewrite Ht in *. case_decide as Em.
    - destruct (dump_packet_pcapng_safe d1 pkt pktlen tv) as (m & ->); try done; [lia|].
      by eexists.
    - destruct (dump_packet_pcap_safe f d1 pkt pktlen tv uid alloc) as (m & names & ->); try done; [lia|].
      by eexists. }
  cbn [mbind option_bind]. set (d3 := d2 <| buffer_idx ::= _ |> <| dump_size ::= _ |>).
  assert (dumper_wf d3) as Hwf3.
  { split; unfold d3; cbv [upd eta eta_pcap_dumper]; cbn [buffer_idx keylog_idx keylog_buf snaplen]; try lia.
    rewrite E2, E3. done. }
  destruct (check_export_refines d3 Hwf3) as (b & d4 & -> & Hwf4 & _). cbn [mbind option_bind].
  by eexists _, _.
Qed.
