(* ===== verification/Blacklist.v ===== *)
(** Match lists (core/blacklist.c): domains, UIDs and IP networks, with the
    loader of list files. The Patricia tree and the parser of addresses are
    nDPI's, and enter through the class [Ndpi]. *)
From Stdlib Require Import ZArith Lia.
From stdpp Require Import base option gmap numbers list.
From S2P Require Import Prelude Uthash Packet.

Open Scope Z_scope.

(** ** nDPI's address tree *)

(** An address is the value of its 16 bytes, IPv4 in the low four ones. *)
Class Ndpi (P : Type) := {
  ndpi_ptree_create : P;
  ndpi_ptree_insert : P -> Z -> Z -> Z * P;    (** address, bits: return value, tree *)
  ndpi_ptree_match : P -> Z -> bool;           (** the result is our category *)
  ndpi_parse_ip_string : bytes -> Z * Z;       (** version (or -1), address *)
  inet_pton4 : bytes -> option Z;
  inet_pton6 : bytes -> option Z
}.

(** What the code relies on: an insertion that succeeds adds the network to
    the set of the addresses matched, one that fails changes nothing. *)
Class NdpiLaws (P : Type) `{Ndpi P} := {
  in_net : Z -> Z -> Z -> bool;   (** network address, bits, address *)
  ptree_create_match a : ndpi_ptree_match ndpi_ptree_create a = false;
  ptree_insert_match p net bits a :
    ndpi_ptree_match (ndpi_ptree_insert p net bits).2 a =
    ndpi_ptree_match p a || ((ndpi_ptree_insert p net bits).1 =? 0) && in_net net bits a;
  (** -2: the network is in the tree already *)
  ptree_insert_dup p net bits :
    (ndpi_ptree_insert p net bits).1 = -2 -> ndpi_ptree_match p net = true;
  in_net_refl net bits : in_net net bits net = true
}.

Definition EINVAL : Z := 22.
Definition ENOMEM : Z := 12.
Definition EADDRINUSE : Z := 98.

(** ** Data *)
Inductive blacklist_type := DOMAIN_BLACKLIST | IP_BLACKLIST | UID_BLACKLIST.
#[export] Instance blacklist_type_eq_dec : EqDecision blacklist_type.
Proof. solve_decision. Defined.

Record blacklist_stats := mk_bstats { num_rules : Z; bs_num_failed : Z }.

Record blacklists_stats := mk_stats {
  num_lists : Z; num_domains : Z; num_ips : Z; num_apps : Z; num_failed : Z
}.
#[export] Instance eta_blacklists_stats : Eta blacklists_stats := fun s =>
  mk_stats (num_lists s) (num_domains s) (num_ips s) (num_apps s) (num_failed s).

(** The entries of the two tables only have a key. *)
Record blacklist (P : Type) := mk_blacklist {
  domains : list (bytes * unit);
  uids : list (Z * unit);
  ptree : P;
  stats : blacklists_stats
}.
#[global] Arguments mk_blacklist {P}.
#[global] Arguments domains {P}.
#[global] Arguments uids {P}.
#[global] Arguments ptree {P}.
#[global] Arguments stats {P}.
#[export] Instance eta_blacklist P : Eta (blacklist P) := fun b =>
  mk_blacklist (domains b) (uids b) (ptree b) (stats b).

(** ** C strings *)
Definition DOT : Z := 46.
Definition WWW : bytes := [119; 119; 119; 46].   (* "www." *)

(** [if(strncmp(domain, "www.", 4) == 0) domain += 4] *)
Definition skip_www (domain : bytes) : bytes :=
  if decide (take 4 domain = WWW) then drop 4 domain else domain.

(** [memrchr(s, c, n)]: the index of the last [c] among the first [n] bytes. *)
Fixpoint memrchr (s : bytes) (c : Z) (n : nat) : option nat :=
  match n with
  | O => None
  | S n' => if decide (s !! n' = Some c) then Some n' else memrchr s c n'
  end.

Definition get_second_level_domain (domain : bytes) : bytes :=
  match memrchr domain DOT (length domain) with
  | None => domain
  | Some O => domain
  | Some dot =>
      match memrchr domain DOT dot with
      | None => domain
      | Some dot2 => drop (S dot2) domain
      end
  end.

(** The bytes before the first one that satisfies [p]. *)
Fixpoint until (p : Z -> bool) (s : bytes) : bytes :=
  match s with
  | [] => []
  | c :: s' => if p c then [] else c :: until p s'
  end.

(** What follows the first [c], if there is one. *)
Fixpoint after (c : Z) (s : bytes) : option bytes :=
  match s with
  | [] => None
  | c' :: s' => if c' =? c then Some s' else after c s'
  end.

Definition is_digit (c : Z) : bool := (48 <=? c) && (c <=? 57).
Definition is_space (c : Z) : bool := (c =? 32) || ((9 <=? c) && (c <=? 13)).

Fixpoint digits (acc : Z) (s : bytes) : Z :=
  match s with
  | [] => acc
  | c :: s' => if is_digit c then digits (10 * acc + (c - 48)) s' else acc
  end.

Fixpoint skip_spaces (s : bytes) : bytes :=
  match s with
  | [] => []
  | c :: s' => if is_space c then skip_spaces s' else s
  end.

Definition atoi (s : bytes) : Z :=
  match skip_spaces s with
  | [] => 0
  | c :: s' => if c =? 45 then - digits 0 s'
               else if c =? 43 then digits 0 s'
               else digits 0 (c :: s')
  end.

(** ** Operations *)
Section blacklist.
Context {P : Type} `{Ndpi P}.
Implicit Types bl : blacklist P.

(** [alloc]: the allocations succeed (the list and its tree). *)
Definition blacklist_init (alloc : bool) : option (blacklist P) :=
  if alloc then Some (mk_blacklist [] [] ndpi_ptree_create (mk_stats 0 0 0 0 0)) else None.

Definition blacklist_match_domain (bl : blacklist P) (domain : bytes) : bool :=
  let domain := skip_www domain in
  match HASH_FIND (domains bl) domain with
  | Some _ => true
  | None =>
      let domain2 := get_second_level_domain domain in
      if decide (domain2 = domain) then false   (* [domain2 == domain]: no other key *)
      else match HASH_FIND (domains bl) domain2 with Some _ => true | None => false end
  end.

Definition blacklist_match_uid (bl : blacklist P) (uid : Z) : bool :=
  match HASH_FIND (uids bl) uid with Some _ => true | None => false end.

Definition blacklist_match_ip (bl : blacklist P) (ip ipver : Z) : bool :=
  ndpi_ptree_match (ptree bl) (if ipver =? 4 then ip4 ip else ip).

(** zdtun.c; the version, or -1, and the address *)
Definition zdtun_parse_ip (ip_str : bytes) : Z * Z :=
  match after DOT ip_str with
  | Some _ => match inet_pton4 ip_str with Some ip => (4, ip) | None => (-1, 0) end
  | None => match inet_pton6 ip_str with Some ip => (6, ip) | None => (-1, 0) end
  end.

Definition blacklist_match_ipstr (bl : blacklist P) (ip_str : bytes) : bool :=
  let '(ipver, parsed) := zdtun_parse_ip ip_str in
  if ipver <? 0 then false else blacklist_match_ip bl parsed ipver.

Definition blacklist_add_domain (bl : blacklist P) (domain : bytes) (alloc : bool)
  : Z * blacklist P :=
  let domain := skip_www domain in
  if blacklist_match_domain bl domain then (- EADDRINUSE, bl)
  else if negb alloc then (- ENOMEM, bl)
  else (0, bl <| domains := HASH_ADD (domains bl) domain tt |>
              <| stats ::= fun s => s <| num_domains ::= fun n => n + 1 |> |>).

Definition blacklist_add_ip (bl : blacklist P) (addr bits : Z) : Z * blacklist P :=
  let '(rv, tree) := ndpi_ptree_insert (ptree bl) addr (u8 bits) in
  let bl := bl <| ptree := tree |> in
  if negb (rv =? 0) then ((if rv =? -2 then - EADDRINUSE else - EINVAL), bl)
  else (0, bl <| stats ::= fun s => s <| num_ips ::= fun n => n + 1 |> |>).

Definition blacklist_add_ipstr (bl : blacklist P) (ip : bytes) : Z * blacklist P :=
  let '(ipver, addr) := ndpi_parse_ip_string ip in
  if negb (ipver =? 4) && negb (ipver =? 6) then (- EINVAL, bl)
  else
    let bits := if ipver =? 4 then 32 else 128 in
    blacklist_add_ip bl addr bits.

Definition blacklist_add_uid (bl : blacklist P) (uid : Z) (alloc : bool) : Z * blacklist P :=
  if blacklist_match_uid bl uid then (- EADDRINUSE, bl)
  else if negb alloc then (- ENOMEM, bl)
  else (0, bl <| uids := HASH_ADD (uids bl) uid tt |>
              <| stats ::= fun s => s <| num_apps ::= fun n => n + 1 |> |>).

(** *** The loader of list files *)

(** [fgets(buffer, 256, f)]: at most 255 bytes, up to a newline included. *)
Fixpoint fgets (n : nat) (f : bytes) : bytes * bytes :=
  match n, f with
  | O, _ => ([], f)
  | _, [] => ([], [])
  | S n', c :: f' =>
      if c =? 10 then ([c], f')
      else let '(line, rest) := fgets n' f' in (c :: line, rest)
  end.

(** The successive results of [fgets] until the end of the file. *)
Fixpoint read_lines (fuel : nat) (f : bytes) : list bytes :=
  match fuel with
  | O => []
  | S fuel' =>
      match fgets 255 f with
      | ([], _) => []
      | (line, rest) => line :: read_lines fuel' rest
      end
  end.

Definition file_lines (f : bytes) : list bytes := read_lines (S (length f)) f.

Record load_state := mk_load {
  ld_bl : blacklist P; num_ok : Z; num_fail : Z; num_dup : Z
}.

Definition max_file_rules : Z := 500000.

Definition count_rv (st : load_state) (r : Z * blacklist P) : load_state :=
  let '(rv, bl) := r in
  if rv =? 0 then mk_load bl (num_ok st + 1) (num_fail st) (num_dup st)
  else if rv =? - EADDRINUSE then mk_load bl (num_ok st) (num_fail st) (num_dup st + 1)
  else mk_load bl (num_ok st) (num_fail st + 1) (num_dup st).

Definition count_fail (st : load_state) : load_state :=
  mk_load (ld_bl st) (num_ok st) (num_fail st + 1) (num_dup st).

(** The item of a line, and what follows its slash. *)
Definition line_item (line : bytes) : bytes * option bytes :=
  let item := until (fun c => (c =? 13) || (c =? 10)) (until (fun c => c =? 0) line) in
  (until (fun c => c =? 47) item, after 47 item).

(** One turn of the loop; [alloc] is the outcome of its allocations. *)
Definition load_line (btype : blacklist_type) (st : load_state) (line : bytes) (alloc : bool)
  : load_state :=
  let c0 := default 0 (line !! 0%nat) in
  if (c0 =? 0) || (c0 =? 35) || (c0 =? 10) then st else
  let '(item, slash) := line_item line in
  let '(ipver, ip_addr) := ndpi_parse_ip_string item in
  let is_ip_addr := (ipver =? 4) || (ipver =? 6) in
  if num_ok st >=? max_file_rules then count_fail st
  else if decide (btype = IP_BLACKLIST) then
    if negb is_ip_addr then count_fail st else
    let bits := match slash with
                | Some s => atoi s
                | None => if ipver =? 4 then 32 else 128
                end in
    if ((ipver =? 4) && (bits =? 32)) &&
       ((ip4 ip_addr =? 0) || (ip4 ip_addr =? 0xFFFFFFFF) || (ip4 ip_addr =? 0x7F000001))
    then st
    else count_rv st (blacklist_add_ip (ld_bl st) ip_addr bits)
  else
    if is_ip_addr then count_fail st
    else count_rv st (blacklist_add_domain (ld_bl st) item alloc).

Fixpoint load_lines (btype : blacklist_type) (st : load_state) (lines : list bytes)
    (allocs : nat -> bool) : load_state :=
  match lines with
  | [] => st
  | line :: lines' =>
      load_lines btype (load_line btype st line (allocs 0%nat)) lines' (fun n => allocs (S n))
  end.

(** [file]: the contents of the file, [None] when it cannot be opened. *)
Definition blacklist_load_file (bl : blacklist P) (file : option bytes) (btype : blacklist_type)
    (allocs : nat -> bool) : Z * blacklist P * option blacklist_stats :=
  match file with
  | None => (-1, bl, None)
  | Some f =>
      let st := load_lines btype (mk_load bl 0 0 0) (file_lines f) allocs in
      (0, (ld_bl st) <| stats ::= fun s => s <| num_lists ::= fun n => n + 1 |>
                                           <| num_failed ::= fun n => n + num_fail st |> |>,
       Some (mk_bstats (num_ok st) (num_fail st)))
  end.

Definition blacklist_get_stats (bl : blacklist P) : blacklists_stats := stats bl.

(** The lists of a Java descriptor: the result is the number of the items
    loaded, or -1 at the first failure. A null item is skipped. *)
Fixpoint bl_load_list_of_type (bl : blacklist P) (items : list (option bytes))
    (tp : blacklist_type) (num_loaded : Z) (allocs : nat -> bool) : Z * blacklist P :=
  match items with
  | [] => (num_loaded, bl)
  | None :: items' => bl_load_list_of_type bl items' tp num_loaded (fun n => allocs (S n))
  | Some val :: items' =>
      let '(rv, bl) :=
        match tp with
        | IP_BLACKLIST => blacklist_add_ipstr bl val
        | DOMAIN_BLACKLIST => blacklist_add_domain bl val (allocs 0%nat)
        | UID_BLACKLIST => blacklist_add_uid bl (atoi val) (allocs 0%nat)
        end in
      if rv =? 0 then bl_load_list_of_type bl items' tp (num_loaded + 1) (fun n => allocs (S n))
      else if negb (rv =? - EADDRINUSE) then (-1, bl)
      else bl_load_list_of_type bl items' tp num_loaded (fun n => allocs (S n))
  end.

Definition blacklist_load_list_descriptor (bl : blacklist P)
    (apps hosts ips : list (option bytes)) (allocs : nat -> nat -> bool) : Z * blacklist P :=
  let '(num_apps, bl) := bl_load_list_of_type bl apps UID_BLACKLIST 0 (allocs 0%nat) in
  let '(num_domains, bl) := bl_load_list_of_type bl hosts DOMAIN_BLACKLIST 0 (allocs 1%nat) in
  let '(num_ips, bl) := bl_load_list_of_type bl ips IP_BLACKLIST 0 (allocs 2%nat) in
  if (num_apps =? -1) || (num_ips =? -1) || (num_domains =? -1) then (-1, bl) else (0, bl).
End blacklist.

(** ** Lemmas *)

(** [memrchr] finds the last occurrence. *)
Lemma memrchr_spec s c n :
  match memrchr s c n with
  | Some i => (i < n)%nat /\ s !! i = Some c /\ forall k, (i < k < n)%nat -> s !! k <> Some c
  | None => forall k, (k < n)%nat -> s !! k <> Some c
  end.
Proof.
  induction n as [|n IH]; simpl; [lia|]. case_decide as Hd.
  - split; [lia|]. split; [done|]. lia.
  - destruct (memrchr s c n) as [i|].
    + destruct IH as (Hi & Hs & Hk). split; [lia|]. split; [done|].
      intros k Hr. destruct (decide (k = n)) as [->|]; [done|]. apply Hk. lia.
    + intros k Hr. destruct (decide (k = n)) as [->|]; [done|]. apply IH. lia.
Qed.

Lemma memrchr_eq s c n i :
  (i < n)%nat -> s !! i = Some c -> (forall k, (i < k < n)%nat -> s !! k <> Some c) ->
  memrchr s c n = Some i.
Proof.
  intros Hi Hs Hk. pose proof (memrchr_spec s c n) as H. destruct (memrchr s c n) as [j|].
  - destruct H as (Hj & Hsj & Hkj). f_equal.
    destruct (decide (i < j)%nat); [by exfalso; apply (Hk j)|].
    destruct (decide (j < i)%nat); [by exfalso; apply (Hkj i)|]. lia.
  - by exfalso; apply (H i).
Qed.

Lemma memrchr_none s c n : (forall k, (k < n)%nat -> s !! k <> Some c) -> memrchr s c n = None.
Proof.
  intros Hk. pose proof (memrchr_spec s c n) as H. destruct (memrchr s c n) as [j|]; [|done].
  destruct H as (Hj & Hs & _). by exfalso; apply (Hk j).
Qed.

(** A second-level domain is its own second-level domain. *)
Lemma second_level_idem s :
  get_second_level_domain (get_second_level_domain s) = get_second_level_domain s.
Proof.
  unfold get_second_level_domain at 2 3.
  pose proof (memrchr_spec s DOT (length s)) as Hl.
  destruct (memrchr s DOT (length s)) as [[|i]|] eqn:Ei;
    try (unfold get_second_level_domain; by rewrite Ei).
  pose proof (memrchr_spec s DOT (S i)) as Hl2.
  destruct (memrchr s DOT (S i)) as [j|] eqn:Ej;
    [|unfold get_second_level_domain; by rewrite Ei, Ej].
  destruct Hl as (Hi & Hsi & Hki), Hl2 as (Hj & Hsj & Hkj).
  set (t := drop (S j) s).
  assert (forall k, t !! k = s !! (S j + k)%nat) as Ht by (intros k; apply lookup_drop).
  assert (length t = length s - S j)%nat as Hlen by apply length_drop.
  unfold get_second_level_domain.
  rewrite (memrchr_eq t DOT (length t) (S i - S j)).
  - destruct (S i - S j)%nat as [|m] eqn:Em; [done|].
    rewrite memrchr_none; [done|]. intros k Hk. rewrite Ht. apply Hkj. lia.
  - lia.
  - rewrite Ht. by replace (S j + (S i - S j))%nat with (S i) by lia.
  - intros k Hk. rewrite Ht. apply Hki. lia.
Qed.

Section blacklist_props.
Context {P : Type} `{NdpiLaws P}.
Implicit Types bl : blacklist P.

(** The statistics count the entries, and UIDs are unique. *)
Record blacklist_wf (bl : blacklist P) : Prop := {
  bl_uids_wf : table_wf (uids bl);
  bl_num_domains : num_domains (stats bl) = HASH_COUNT (domains bl);
  bl_num_apps : num_apps (stats bl) = HASH_COUNT (uids bl)
}.

(** A name with at most one "www." in front. *)
Definition single_www (d : bytes) : Prop := skip_www (skip_www d) = skip_www d.

(** What a list with the name [d] should match. *)
Definition domain_covers (d x : bytes) : Prop :=
  skip_www d = skip_www x \/ skip_www d = get_second_level_domain (skip_www x).

Lemma HASH_FIND_unit {K} `{EqDecision K} (t : list (K * unit)) k :
  match HASH_FIND t k with Some _ => true | None => false end = bool_decide (k ∈ t.*1).
Proof.
  destruct (HASH_FIND t k) as [[]|] eqn:E.
  - symmetry. apply bool_decide_eq_true. apply HASH_FIND_Some_elem in E.
    by apply (list_elem_of_fmap_2 fst) in E.
  - symmetry. apply bool_decide_eq_false. by apply HASH_FIND_None.
Qed.

Lemma match_domain_keys bl d :
  blacklist_match_domain bl d = true <->
  skip_www d ∈ (domains bl).*1 \/ get_second_level_domain (skip_www d) ∈ (domains bl).*1.
Proof.
  unfold blacklist_match_domain. cbv zeta.
  pose proof (HASH_FIND_unit (domains bl) (skip_www d)) as H1.
  destruct (HASH_FIND (domains bl) (skip_www d)).
  - symmetry in H1. apply bool_decide_eq_true in H1. tauto.
  - symmetry in H1. apply bool_decide_eq_false in H1. case_decide as Hd.
    + rewrite Hd. intuition discriminate.
    + rewrite HASH_FIND_unit, bool_decide_eq_true. tauto.
Qed.

Lemma match_uid_keys bl u : blacklist_match_uid bl u = true <-> u ∈ (uids bl).*1.
Proof. unfold blacklist_match_uid. by rewrite HASH_FIND_unit, bool_decide_eq_true. Qed.

Lemma blacklist_init_wf bl : blacklist_init true = Some bl -> blacklist_wf bl.
Proof. intros [= <-]. by split; try constructor. Qed.

Lemma HASH_COUNT_add {K V} `{EqDecision K} (t : list (K * V)) k v :
  HASH_COUNT (HASH_ADD t k v) = HASH_COUNT t + 1.
Proof. unfold HASH_COUNT, HASH_ADD. rewrite length_app. simpl. lia. Qed.

Lemma keys_add {K V} `{EqDecision K} (t : list (K * V)) k v : (HASH_ADD t k v).*1 = t.*1 ++ [k].
Proof. unfold HASH_ADD. by rewrite fmap_app. Qed.

Lemma add_domain_wf bl d alloc : blacklist_wf bl -> blacklist_wf (blacklist_add_domain bl d alloc).2.
Proof.
  intros [Hu Hn Ha]. unfold blacklist_add_domain. cbv zeta.
  destruct (blacklist_match_domain bl (skip_www d)); [by split|].
  destruct alloc; [|by split]. split; csimpl; try done. by rewrite HASH_COUNT_add, Hn.
Qed.

Lemma add_ip_wf bl a bits : blacklist_wf bl -> blacklist_wf (blacklist_add_ip bl a bits).2.
Proof.
  intros [Hu Hn Ha]. unfold blacklist_add_ip. destruct (ndpi_ptree_insert _ _ _) as [rv t].
  cbv zeta. destruct (negb _); by split.
Qed.

Lemma add_uid_wf bl u alloc : blacklist_wf bl -> blacklist_wf (blacklist_add_uid bl u alloc).2.
Proof.
  intros [Hu Hn Ha]. unfold blacklist_add_uid.
  destruct (blacklist_match_uid bl u) eqn:E; [by split|].
  destruct alloc; [|by split]. split; csimpl; try done; [|by rewrite HASH_COUNT_add, Ha].
  apply HASH_ADD_wf; [done|]. unfold blacklist_match_uid in E. by destruct (HASH_FIND _ _).
Qed.

(** One name added: a refused duplicate was matched already. *)
Lemma add_domain_match bl d x :
  single_www d ->
  blacklist_match_domain (blacklist_add_domain bl d true).2 x = true <->
  blacklist_match_domain bl x = true \/ domain_covers d x.
Proof.
  intros Hw. unfold blacklist_add_domain. cbv zeta. cbn [negb].
  destruct (blacklist_match_domain bl (skip_www d)) eqn:E.
  - cbn [snd]. split; [by left|]. intros [?|Hc]; [done|].
    apply match_domain_keys in E. unfold single_www in Hw. rewrite Hw in E.
    apply match_domain_keys. unfold domain_covers in Hc. destruct Hc as [Hc|Hc].
    + by rewrite <- Hc.
    + rewrite <- Hc. destruct E as [E|E]; [by right|]. right.
      rewrite Hc, second_level_idem in E. by rewrite Hc.
  - rewrite !match_domain_keys. csimpl. rewrite keys_add, !elem_of_app, !list_elem_of_singleton.
    unfold domain_covers. intuition congruence.
Qed.

(** C37: the match lists match what was added. After any sequence of
    [blacklist_add_domain] calls whose allocations succeed, with names that have
    at most one "www." in front (a name with two can be refused without being
    matched, see the findings), a host name is matched exactly when the list
    matched it before, or one of the names added is the host or its second-level
    domain, the "www." prefix aside on both sides - although the code stores
    neither duplicates nor the names that a second-level domain of the list
    covers already. *)
Theorem blacklist_match_domain_added bl ds x :
  Forall single_www ds ->
  blacklist_match_domain (fold_left (fun bl d => (blacklist_add_domain bl d true).2) ds bl) x = true
  <-> blacklist_match_domain bl x = true \/ exists d, d ∈ ds /\ domain_covers d x.
Proof.
  intros Hw. revert bl. induction Hw as [|d ds Hd Hw IH]; intros bl; cbn [fold_left].
  - split; [by left|]. intros [?|(d & Hd & _)]; [done|by apply elem_of_nil in Hd].
  - rewrite IH, add_domain_match by done. split.
    + intros [[?|?]|(d' & ? & ?)]; [by left| |];
        right; [exists d|exists d']; (split; [|done]); [by left|by right].
    + intros [?|(d' & [->|?]%elem_of_cons & ?)]; eauto.
Qed.

(** *** The loader *)
Lemma fgets_app n f : let '(line, rest) := fgets n f in line ++ rest = f.
Proof.
  revert f. induction n as [|n IH]; intros f; simpl; [done|]. destruct f as [|c f]; [done|].
  destruct (c =? 10); [done|]. specialize (IH f). destruct (fgets n f) as [line rest].
  simpl. by rewrite IH.
Qed.

Lemma fgets_length n f : (length (fgets n f).1 <= n)%nat.
Proof.
  revert f. induction n as [|n IH]; intros [|c f]; simpl; try lia.
  destruct (c =? 10); simpl; [lia|]. specialize (IH f). destruct (fgets n f). simpl in *. lia.
Qed.

Lemma fgets_nil n f : (fgets (S n) f).1 = [] -> f = [].
Proof.
  destruct f as [|c f]; [done|]. cbn [fgets].
  destruct (c =? 10); [done|]. by destruct (fgets n f).
Qed.

(** Every line is read: the fuel is the length of the file. *)
Lemma read_lines_concat fuel f : (length f < fuel)%nat -> concat (read_lines fuel f) = f.
Proof.
  revert f. induction fuel as [|fuel IH]; intros f Hf; [lia|].
  change (read_lines (S fuel) f) with
    (match fgets 255 f with ([], _) => [] | (line, rest) => line :: read_lines fuel rest end).
  pose proof (fgets_app 255 f) as Ha. pose proof (fgets_nil 254 f) as Hn.
  destruct (fgets 255 f) as [[|c line] rest] eqn:E.
  - cbn [fst] in Hn. by rewrite Hn.
  - cbn [concat]. rewrite IH; [done|]. rewrite <- Ha in Hf. simpl in Hf. rewrite length_app in Hf. lia.
Qed.

Lemma read_lines_bound fuel f : Forall (fun l => (0 < length l <= 255)%nat) (read_lines fuel f).
Proof.
  revert f. induction fuel as [|fuel IH]; intros f; [constructor|].
  change (read_lines (S fuel) f) with
    (match fgets 255 f with ([], _) => [] | (line, rest) => line :: read_lines fuel rest end).
  pose proof (fgets_length 255 f) as Hl. destruct (fgets 255 f) as [[|c line] rest]; [constructor|].
  constructor; [|apply IH]. cbn [fst length] in *. lia.
Qed.

(** The lines that the loop does not skip at once. *)
Definition is_rule (line : bytes) : bool :=
  let c0 := default 0 (line !! 0%nat) in negb ((c0 =? 0) || (c0 =? 35) || (c0 =? 10)).

(** What a turn of the loop does to the counters and to the statistics. *)
Record load_progress (btype : blacklist_type) (st st' : load_state) (n : Z) : Prop := {
  lp_count : num_ok st' + num_fail st' + num_dup st' <= num_ok st + num_fail st + num_dup st + n;
  lp_count_eq : btype <> IP_BLACKLIST ->
    num_ok st' + num_fail st' + num_dup st' = num_ok st + num_fail st + num_dup st + n;
  lp_mono : num_ok st <= num_ok st' /\ num_fail st <= num_fail st' /\ num_dup st <= num_dup st';
  lp_max : num_ok st <= max_file_rules -> num_ok st' <= max_file_rules;
  lp_wf : blacklist_wf (ld_bl st) -> blacklist_wf (ld_bl st');
  lp_stats : stats (ld_bl st') =
    (stats (ld_bl st)) <| num_domains ::= fun k => k + (if decide (btype = IP_BLACKLIST) then 0
                                                        else num_ok st' - num_ok st) |>
                       <| num_ips ::= fun k => k + (if decide (btype = IP_BLACKLIST)
                                                    then num_ok st' - num_ok st else 0) |>
}.

(** Updates of a known record of statistics. *)
Ltac stats_simpl :=
  cbv [upd num_lists num_domains num_ips num_apps num_failed stats eta_blacklist].

Lemma stats_eta0 (s : blacklists_stats) a b :
  a = 0 -> b = 0 ->
  s = s <| num_domains ::= fun k => k + a |> <| num_ips ::= fun k => k + b |>.
Proof. intros -> ->. destruct s. stats_simpl. by rewrite !Z.add_0_r. Qed.

Lemma load_progress_fail btype st : load_progress btype st (count_fail st) 1.
Proof.
  split; cbn; try lia; try done. apply stats_eta0; case_decide; lia.
Qed.

Lemma load_progress_count btype st r :
  num_ok st < max_file_rules ->
  (blacklist_wf (ld_bl st) -> blacklist_wf r.2) ->
  stats r.2 = (stats (ld_bl st)) <| num_domains ::= fun k => k +
                  (if decide (btype = IP_BLACKLIST) then 0 else if r.1 =? 0 then 1 else 0) |>
                <| num_ips ::= fun k => k +
                  (if decide (btype = IP_BLACKLIST) then if r.1 =? 0 then 1 else 0 else 0) |> ->
  load_progress btype st (count_rv st r) 1.
Proof.
  intros Hmax Hwf. destruct r as [rv bl]. cbn [fst snd] in *. unfold count_rv.
  destruct (Z.eqb_spec rv 0); [|destruct (rv =? - EADDRINUSE)]; intros Hst; split; cbn; try lia; try done;
    rewrite Hst; destruct (stats (ld_bl st)); stats_simpl; f_equal; case_decide; lia.
Qed.

Lemma add_domain_stats bl d alloc :
  stats (blacklist_add_domain bl d alloc).2 = (stats bl) <| num_domains ::= fun k => k +
    (if (blacklist_add_domain bl d alloc).1 =? 0 then 1 else 0) |>.
Proof.
  unfold blacklist_add_domain. cbv zeta. destruct (blacklist_match_domain _ _);
    [|destruct alloc]; destruct bl as [? ? ? []]; stats_simpl; cbn; rewrite ?Z.add_0_r; done.
Qed.

Lemma add_ip_stats bl a bits :
  stats (blacklist_add_ip bl a bits).2 = (stats bl) <| num_ips ::= fun k => k +
    (if (blacklist_add_ip bl a bits).1 =? 0 then 1 else 0) |>.
Proof.
  unfold blacklist_add_ip. destruct (ndpi_ptree_insert _ _ _) as [rv t]. cbv zeta.
  destruct (Z.eqb_spec rv 0); cbn; [|destruct (rv =? -2)]; cbn;
    destruct bl as [? ? ? []]; stats_simpl; cbn; rewrite ?Z.add_0_r; done.
Qed.

Lemma load_line_progress btype st line alloc :
  load_progress btype st (load_line btype st line alloc) (if is_rule line then 1 else 0).
Proof.
  unfold load_line, is_rule. cbv zeta.
  assert (forall n, 0 <= n -> (btype <> IP_BLACKLIST -> n = 0) -> load_progress btype st st n) as Hskip.
  { intros n Hn He. split; try lia; try done; [intros Hb; rewrite (He Hb); lia|].
    apply stats_eta0; case_decide; lia. }
  destruct (_ || _ || _); cbn [negb]; [by apply Hskip|].
  destruct (line_item line) as [item slash]. destruct (ndpi_parse_ip_string item) as [ipver addr].
  destruct (Z.geb_spec (num_ok st) max_file_rules) as [|Hlt]; [apply load_progress_fail|].
  case_decide as Hb.
  - destruct (negb _); [apply load_progress_fail|]. cbv zeta.
    destruct (_ && _); [by apply Hskip|].
    apply load_progress_count; [done|apply add_ip_wf|]. rewrite !decide_True, add_ip_stats by done.
    destruct (stats (ld_bl st)). stats_simpl. by rewrite Z.add_0_r.
  - destruct (_ || _); [apply load_progress_fail|].
    apply load_progress_count; [done|apply add_domain_wf|].
    rewrite !decide_False, add_domain_stats by done.
    destruct (stats (ld_bl st)). stats_simpl. by rewrite Z.add_0_r.
Qed.

Definition rule_count (lines : list bytes) : Z := Z.of_nat (length (filter is_rule lines)).

Lemma rule_count_cons line lines :
  rule_count (line :: lines) = (if is_rule line then 1 else 0) + rule_count lines.
Proof.
  unfold rule_count. rewrite filter_cons.
  destruct (is_rule line); [rewrite decide_True by done|rewrite decide_False by tauto];
    rewrite ?length_cons; lia.
Qed.

Lemma load_lines_progress btype lines : forall st allocs,
  load_progress btype st (load_lines btype st lines allocs) (rule_count lines).
Proof.
  induction lines as [|line lines IH]; intros st allocs; cbn [load_lines].
  - change (rule_count []) with 0. split; try lia; try done. apply stats_eta0; case_decide; lia.
  - pose proof (load_line_progress btype st line (allocs 0%nat)) as [C1 E1 M1 X1 W1 S1].
    set (st1 := load_line btype st line (allocs 0%nat)) in *.
    pose proof (IH st1 (fun n => allocs (S n))) as [C2 E2 M2 X2 W2 S2].
    rewrite rule_count_cons. split; try lia; auto.
    + intros Hb. specialize (E1 Hb). specialize (E2 Hb). lia.
    + rewrite S2, S1. destruct (stats (ld_bl st)). stats_simpl. f_equal; case_decide; lia.
Qed.

(** Loading a list file. [blacklist_load_file] reads the whole file, in
    pieces of at most 255 bytes, whatever its contents. Every rule (a line that
    is neither empty nor a comment) is counted exactly once, as loaded, as a
    duplicate or as failed - in an IP list some are ignored -, at most 500000
    rules are loaded, whatever the allocations; the statistics of the file are
    those counters, and those of the list grow by them: the number of domains
    (or of networks) by the rules loaded, and they keep counting the entries of
    the tables. *)
Theorem blacklist_load_file_counts bl f btype allocs :
  blacklist_wf bl ->
  concat (file_lines f) = f /\ Forall (fun l => (0 < length l <= 255)%nat) (file_lines f) /\
  exists bl' ok fail dup,
    blacklist_load_file bl (Some f) btype allocs = (0, bl', Some (mk_bstats ok fail)) /\
    blacklist_wf bl' /\ 0 <= ok <= max_file_rules /\ 0 <= fail /\ 0 <= dup /\
    ok + dup + fail <= rule_count (file_lines f) /\
    (btype <> IP_BLACKLIST -> ok + dup + fail = rule_count (file_lines f)) /\
    num_lists (stats bl') = num_lists (stats bl) + 1 /\
    num_failed (stats bl') = num_failed (stats bl) + fail /\
    num_apps (stats bl') = num_apps (stats bl) /\
    num_domains (stats bl') = num_domains (stats bl) +
      (if decide (btype = IP_BLACKLIST) then 0 else ok) /\
    num_ips (stats bl') = num_ips (stats bl) + (if decide (btype = IP_BLACKLIST) then ok else 0).
Proof.
  intros Hwf. split; [apply read_lines_concat; lia|]. split; [apply read_lines_bound|].
  unfold blacklist_load_file. cbv zeta.
  pose proof (load_lines_progress btype (file_lines f) (mk_load bl 0 0 0) allocs) as [C E M X W S].
  set (st := load_lines btype (mk_load bl 0 0 0) (file_lines f) allocs) in *. cbn in C, E, M, X, W, S.
  eexists _, (num_ok st), (num_fail st), (num_dup st). split; [done|].
  destruct (W Hwf) as [Hu Hd Ha]. unfold max_file_rules in *. rewrite S in *.
  destruct (stats bl) as [nl nd ni na nf] eqn:Es. cbn in *.
  split; [split; cbn; rewrite ?S; cbn; assumption|].
  split; [lia|]. split; [lia|]. split; [lia|]. split; [lia|]. split; [intros Hb; specialize (E Hb); lia|].
  rewrite ?S. cbn. repeat split; try lia; case_decide; lia.
Qed.

(** *** Lists of the Java side *)
Definition parsed_ip_matched (bl : blacklist P) (val : bytes) : Prop :=
  ((ndpi_parse_ip_string val).1 = 4 \/ (ndpi_parse_ip_string val).1 = 6) /\
  ndpi_ptree_match (ptree bl) (ndpi_parse_ip_string val).2 = true.

(** A host with "www." twice can be refused for the sake of the name with one. *)
Definition host_matched (bl : blacklist P) (val : bytes) : Prop :=
  (blacklist_match_domain bl val = true \/ blacklist_match_domain bl (skip_www val) = true) /\
  (single_www val -> blacklist_match_domain bl val = true).

(** The item [val] of a list of type [tp] is in effect. *)
Definition item_matched (tp : blacklist_type) (bl : blacklist P) (val : bytes) : Prop :=
  match tp with
  | UID_BLACKLIST => blacklist_match_uid bl (atoi val) = true
  | DOMAIN_BLACKLIST => host_matched bl val
  | IP_BLACKLIST => parsed_ip_matched bl val
  end.

(** [bl'] matches at least what [bl] does. *)
Definition extends (bl bl' : blacklist P) : Prop :=
  (domains bl).*1 ⊆ (domains bl').*1 /\ (uids bl).*1 ⊆ (uids bl').*1 /\
  (forall a, ndpi_ptree_match (ptree bl) a = true -> ndpi_ptree_match (ptree bl') a = true).

#[local] Instance extends_preorder : PreOrder extends.
Proof.
  split; [intros bl; split; [done|split; [done|auto]]|].
  intros b1 b2 b3 (A1 & B1 & C1) (A2 & B2 & C2).
  split; [by transitivity (domains b2).*1|]. split; [by transitivity (uids b2).*1|auto].
Qed.

Lemma item_matched_extends tp bl bl' val :
  extends bl bl' -> item_matched tp bl val -> item_matched tp bl' val.
Proof.
  intros (Hd & Hu & Hp). destruct tp; cbn.
  - intros [Hm Hw]. split; [|intros Hs; specialize (Hw Hs)]; rewrite !match_domain_keys in *; set_solver.
  - intros [Hv Hm]. split; auto.
  - rewrite !match_uid_keys. set_solver.
Qed.

Lemma add_domain_item bl d alloc :
  let r := blacklist_add_domain bl d alloc in
  extends bl r.2 /\ (r.1 = 0 \/ r.1 = - EADDRINUSE -> item_matched DOMAIN_BLACKLIST r.2 d).
Proof.
  unfold blacklist_add_domain. cbv zeta.
  destruct (blacklist_match_domain bl (skip_www d)) eqn:E; [|destruct alloc]; cbn [fst snd negb].
  - split; [done|]. intros _. split; [by right|]. intros Hw. apply match_domain_keys in E. unfold single_www in Hw.
    rewrite Hw in E. by apply match_domain_keys.
  - split.
    + split; [|split; [done|done]]. csimpl. rewrite keys_add. set_solver.
    + intros _. assert (blacklist_match_domain (bl <| domains := HASH_ADD (domains bl) (skip_www d) tt |>) d = true) as Hm;
      [|by split; [left|]]. apply match_domain_keys. csimpl. rewrite keys_add. set_solver.
  - split; [done|]. by intros [?|?].
Qed.

Lemma add_uid_item bl val alloc :
  let r := blacklist_add_uid bl (atoi val) alloc in
  extends bl r.2 /\ (r.1 = 0 \/ r.1 = - EADDRINUSE -> item_matched UID_BLACKLIST r.2 val).
Proof.
  unfold blacklist_add_uid. cbv zeta.
  destruct (blacklist_match_uid bl (atoi val)) eqn:E; [|destruct alloc]; cbn [fst snd negb].
  - done.
  - split.
    + split; [done|]. split; [|done]. csimpl. rewrite keys_add. set_solver.
    + intros _. apply match_uid_keys. csimpl. rewrite keys_add. set_solver.
  - split; [done|]. by intros [?|?].
Qed.

Lemma add_ipstr_item bl val :
  let r := blacklist_add_ipstr bl val in
  extends bl r.2 /\ (r.1 = 0 \/ r.1 = - EADDRINUSE -> item_matched IP_BLACKLIST r.2 val).
Proof.
  unfold blacklist_add_ipstr, item_matched, parsed_ip_matched.
  destruct (ndpi_parse_ip_string val) as [ver addr] eqn:Ep. cbv zeta. cbn [fst snd].
  destruct (negb (ver =? 4) && negb (ver =? 6)) eqn:Ev; cbn [fst snd];
    [split; [done|by intros [?|?]]|].
  assert (ver = 4 \/ ver = 6) as Hver.
  { apply andb_false_iff in Ev as [Ev|Ev]; apply negb_false_iff, Z.eqb_eq in Ev; lia. }
  set (bits := if ver =? 4 then 32 else 128). unfold blacklist_add_ip.
  pose proof (ptree_insert_match (ptree bl) addr (u8 bits)) as Hm.
  pose proof (ptree_insert_dup (ptree bl) addr (u8 bits)) as Hdup.
  destruct (ndpi_ptree_insert (ptree bl) addr (u8 bits)) as [rv t]. cbn [fst snd] in *. cbv zeta.
  assert (forall a, ndpi_ptree_match (ptree bl) a = true -> ndpi_ptree_match t a = true) as Hmono
    by (intros a Ha; by rewrite Hm, Ha).
  destruct (Z.eqb_spec rv 0) as [->|Hne]; cbn [negb fst snd].
  - split; [split; [done|split; [done|done]]|]. intros _. split; [done|]. csimpl.
    rewrite Hm, in_net_refl. apply orb_true_r.
  - split; [split; [done|split; [done|done]]|]. intros Hrv. split; [done|]. csimpl.
    apply Hmono. destruct (Z.eqb_spec rv (-2)); [by apply Hdup|].
    destruct Hrv as [Hrv|Hrv]; discriminate Hrv.
Qed.

Lemma load_list_items tp items : forall bl n allocs n' bl',
  0 <= n -> bl_load_list_of_type bl items tp n allocs = (n', bl') -> n' <> -1 ->
  extends bl bl' /\ forall val, Some val ∈ items -> item_matched tp bl' val.
Proof.
  induction items as [|[val|] items IH]; intros bl n allocs n' bl' Hn Hl Hne;
    cbn [bl_load_list_of_type] in Hl.
  - simplify_eq. split; [done|]. by intros val ?%elem_of_nil.
  - set (r := match tp with IP_BLACKLIST => _ | _ => _ end) in Hl.
    assert (extends bl r.2 /\ (r.1 = 0 \/ r.1 = - EADDRINUSE -> item_matched tp r.2 val)) as [He Hi].
    { unfold r. destruct tp;
        [apply add_domain_item|apply add_ipstr_item|apply add_uid_item]. }
    destruct r as [rv bl1]. cbn [fst snd] in *.
    assert (exists m al, 0 <= m /\ bl_load_list_of_type bl1 items tp m al = (n', bl') /\
              (rv = 0 \/ rv = - EADDRINUSE)) as (m & al & Hm & Hl1 & Hrv).
    { destruct (Z.eqb_spec rv 0); [eexists _, _; split; [|split; [exact Hl|by left]]; lia|].
      destruct (Z.eqb_spec rv (- EADDRINUSE)); cbn [negb] in Hl; [|by simplify_eq].
      eexists _, _; split; [|split; [exact Hl|by right]]; lia. }
    destruct (IH _ _ _ _ _ Hm Hl1 Hne) as [He2 Hv]. split; [by transitivity bl1|].
    intros v [[= ->]|Hin]%elem_of_cons; [|by apply Hv].
    by apply (item_matched_extends tp bl1); [|apply Hi].
  - destruct (IH _ _ _ _ _ Hn Hl Hne) as [He Hv]. split; [done|].
    intros v [?|Hin]%elem_of_cons; [done|by apply Hv].
Qed.

(** C38: a list sent by the application is in effect as a whole or refused.
    When [blacklist_load_list_descriptor] returns 0, every UID and every
    address of the descriptor is matched (an address that does not parse makes
    it fail); every host with at most one "www." in front is matched, and of any
    host, it is matched or it is when its first "www." is taken off; and what
    the list matched before is still matched - under the documented behaviour
    of nDPI's tree. *)
Theorem blacklist_load_list_descriptor_matches bl apps hosts ips allocs bl' :
  blacklist_load_list_descriptor bl apps hosts ips allocs = (0, bl') ->
  extends bl bl' /\
  (forall v, Some v ∈ apps -> blacklist_match_uid bl' (atoi v) = true) /\
  (forall v, Some v ∈ hosts -> host_matched bl' v) /\
  (forall v, Some v ∈ ips -> parsed_ip_matched bl' v).
Proof.
  unfold blacklist_load_list_descriptor.
  destruct (bl_load_list_of_type bl apps _ _ _) as [na b1] eqn:E1.
  destruct (bl_load_list_of_type b1 hosts _ _ _) as [nd b2] eqn:E2.
  destruct (bl_load_list_of_type b2 ips _ _ _) as [ni b3] eqn:E3.
  destruct (Z.eqb_spec na (-1)); [done|]. destruct (Z.eqb_spec ni (-1)); [done|].
  destruct (Z.eqb_spec nd (-1)); [done|]. intros [= <-].
  apply load_list_items in E1 as [X1 I1], E2 as [X2 I2], E3 as [X3 I3]; try done.
  split; [by transitivity b1; [|transitivity b2]|]. split; [|split; [|done]].
  - intros v Hv. apply (item_matched_extends UID_BLACKLIST b1); [by transitivity b2|by apply I1].
  - intros v Hv. apply (item_matched_extends DOMAIN_BLACKLIST b2); [done|by apply I2].
Qed.
End blacklist_props.

(** ** Witnesses: a tree that only holds single addresses *)
#[local] Instance ex_ndpi : Ndpi (list Z) := {|
  ndpi_ptree_create := [];
  ndpi_ptree_insert p net bits := if decide (net ∈ p) then (-2, p) else (0, net :: p);
  ndpi_ptree_match p a := bool_decide (a ∈ p);
  ndpi_parse_ip_string s := match s with [49; d] => (4, d) | _ => (-1, 0) end;
  inet_pton4 s := None;
  inet_pton6 s := None
|}.

#[local] Instance ex_ndpi_laws : NdpiLaws (list Z).
Proof.
  refine {| in_net net bits a := net =? a |}.
  - done.
  - intros p net bits a. cbn. destruct (decide (net ∈ p)); cbn; [by rewrite orb_false_r|].
    destruct (Z.eqb_spec net a) as [<-|Hne].
    + rewrite orb_true_r. apply bool_decide_eq_true. by left.
    + rewrite orb_false_r. apply bool_decide_ext. rewrite elem_of_cons.
      split; [by intros [->|?]|by right].
  - intros p net bits. cbn. destruct (decide (net ∈ p)); [|done]. intros _. by apply bool_decide_eq_true.
  - intros net bits. apply Z.eqb_refl.
Defined.

(** "www.a.b", "x.a.b", "c.d", "y.a.b" *)
Definition ex_www_ab : bytes := [119; 119; 119; 46; 97; 46; 98].
Definition ex_xab : bytes := [120; 46; 97; 46; 98].
Definition ex_cd : bytes := [99; 46; 100].
Definition ex_yab : bytes := [121; 46; 97; 46; 98].

Lemma blacklist_match_domain_added_witness :
  blacklist_match_domain
    (fold_left (fun bl d => (blacklist_add_domain bl d true).2) [ex_www_ab; ex_xab; ex_cd]
       (mk_blacklist [] [] ([] : list Z) (mk_stats 0 0 0 0 0))) ex_yab = true.
Proof.
  apply blacklist_match_domain_added; [repeat constructor|].
  right. exists ex_www_ab. split; [left|]. right. reflexivity.
Defined.

(** "#x\na.b/c\r\nwww.a.b\n1\n" and an address *)
Definition ex_file : bytes :=
  [35; 120; 10; 97; 46; 98; 47; 99; 13; 10; 119; 119; 119; 46; 97; 46; 98; 10; 49; 50; 10].

Lemma blacklist_load_file_counts_witness :
  exists bl' ok fail dup,
    blacklist_load_file (mk_blacklist [] [] ([] : list Z) (mk_stats 0 0 0 0 0)) (Some ex_file)
      DOMAIN_BLACKLIST (fun _ => true) = (0, bl', Some (mk_bstats ok fail)) /\
    ok + dup + fail = 3 /\ num_domains (stats bl') = ok.
Proof.
  destruct (blacklist_load_file_counts (P := list Z) (mk_blacklist [] [] ([] : list Z) (mk_stats 0 0 0 0 0)) ex_file
    DOMAIN_BLACKLIST (fun _ => true)) as (_ & _ & bl' & ok & fail & dup & E & _ & _ & _ & _ & _ & Hc & _ & _ & _ & Hd & _).
  { split; [constructor|reflexivity|reflexivity]. }
  exists bl', ok, fail, dup. split; [exact E|]. split; [apply Hc; discriminate|exact Hd].
Defined.

Lemma blacklist_load_list_descriptor_matches_witness :
  exists bl', blacklist_load_list_descriptor (mk_blacklist [] [] ([] : list Z) (mk_stats 0 0 0 0 0))
      [Some [49; 48]] [Some ex_www_ab; None] [Some [49; 7]] (fun _ _ => true) = (0, bl') /\
    blacklist_match_uid bl' 10 = true /\ parsed_ip_matched bl' [49; 7].
Proof.
  destruct (blacklist_load_list_descriptor (P := list Z) (mk_blacklist [] [] ([] : list Z) (mk_stats 0 0 0 0 0))
      [Some [49; 48]] [Some ex_www_ab; None] [Some [49; 7]] (fun _ _ => true)) as [rv bl'] eqn:E.
  assert (rv = 0) as -> by (vm_compute in E; congruence).
  destruct (blacklist_load_list_descriptor_matches _ _ _ _ _ _ E) as (_ & Hu & _ & Hi).
  exists bl'. split; [reflexivity|]. split; [apply (Hu [49; 48]); left|apply Hi; left].
Defined.

(** A name with two "www." prefixes is refused as a duplicate of the name with
    none, but is not matched. *)
Lemma double_www_refused :
  let com := [99; 111; 109] in
  let bl := (blacklist_add_domain (mk_blacklist [] [] ([] : list Z) (mk_stats 0 0 0 0 0)) com true).2 in
  (blacklist_add_domain bl (WWW ++ WWW ++ com) true).1 = - EADDRINUSE /\
  blacklist_match_domain bl (WWW ++ WWW ++ com) = false.
Proof. split; reflexivity. Qed.
