(* ===== verification/NdpiProtos.v ===== *)
(** The protocols that nDPI may report to the core: the identifiers of
    nDPI's ndpi_protocol_ids.h that the source uses and the set that
    core/ndpi_config.c builds, with [pd_ndpi2proto] (core/pcapdroid.c). nDPI
    itself is not modelled: what it answers is a parameter of the core. *)
From Stdlib Require Import ZArith Lia.
From stdpp Require Import base option gmap numbers list.
From S2P Require Import Prelude.

Open Scope Z_scope.

(** ** Identifiers *)
Definition NDPI_PROTOCOL_UNKNOWN : Z := 0.
Definition NDPI_PROTOCOL_FTP_CONTROL : Z := 1.
Definition NDPI_PROTOCOL_MAIL_POP : Z := 2.
Definition NDPI_PROTOCOL_MAIL_SMTP : Z := 3.
Definition NDPI_PROTOCOL_MAIL_IMAP : Z := 4.
Definition NDPI_PROTOCOL_DNS : Z := 5.
Definition NDPI_PROTOCOL_IPP : Z := 6.
Definition NDPI_PROTOCOL_HTTP : Z := 7.
Definition NDPI_PROTOCOL_MDNS : Z := 8.
Definition NDPI_PROTOCOL_NTP : Z := 9.
Definition NDPI_PROTOCOL_NETBIOS : Z := 10.
Definition NDPI_PROTOCOL_NFS : Z := 11.
Definition NDPI_PROTOCOL_SSDP : Z := 12.
Definition NDPI_PROTOCOL_SNMP : Z := 14.
Definition NDPI_PROTOCOL_SMBV1 : Z := 16.
Definition NDPI_PROTOCOL_SYSLOG : Z := 17.
Definition NDPI_PROTOCOL_DHCP : Z := 18.
Definition NDPI_PROTOCOL_POSTGRES : Z := 19.
Definition NDPI_PROTOCOL_MYSQL : Z := 20.
Definition NDPI_PROTOCOL_MAIL_POPS : Z := 23.
Definition NDPI_PROTOCOL_MAIL_SMTPS : Z := 29.
Definition NDPI_PROTOCOL_DTLS : Z := 30.
Definition NDPI_PROTOCOL_BITTORRENT : Z := 37.
Definition NDPI_PROTOCOL_SMBV23 : Z := 41.
Definition NDPI_PROTOCOL_RTSP : Z := 50.
Definition NDPI_PROTOCOL_MAIL_IMAPS : Z := 51.
Definition NDPI_PROTOCOL_IRC : Z := 65.
Definition NDPI_PROTOCOL_NATS : Z := 68.
Definition NDPI_PROTOCOL_TELNET : Z := 77.
Definition NDPI_PROTOCOL_STUN : Z := 78.
Definition NDPI_PROTOCOL_IP_IPSEC : Z := 79.
Definition NDPI_PROTOCOL_IP_GRE : Z := 80.
Definition NDPI_PROTOCOL_RTP : Z := 87.
Definition NDPI_PROTOCOL_RDP : Z := 88.
Definition NDPI_PROTOCOL_VNC : Z := 89.
Definition NDPI_PROTOCOL_TLS : Z := 91.
Definition NDPI_PROTOCOL_SSH : Z := 92.
Definition NDPI_PROTOCOL_TFTP : Z := 96.
Definition NDPI_PROTOCOL_STEALTHNET : Z := 98.
Definition NDPI_PROTOCOL_SIP : Z := 100.
Definition NDPI_PROTOCOL_DHCPV6 : Z := 103.
Definition NDPI_PROTOCOL_KERBEROS : Z := 111.
Definition NDPI_PROTOCOL_PPTP : Z := 115.
Definition NDPI_PROTOCOL_NETFLOW : Z := 128.
Definition NDPI_PROTOCOL_SFLOW : Z := 129.
Definition NDPI_PROTOCOL_HTTP_CONNECT : Z := 130.
Definition NDPI_PROTOCOL_HTTP_PROXY : Z := 131.
Definition NDPI_PROTOCOL_RADIUS : Z := 146.
Definition NDPI_PROTOCOL_TEAMVIEWER : Z := 148.
Definition NDPI_PROTOCOL_OPENVPN : Z := 159.
Definition NDPI_PROTOCOL_CISCOVPN : Z := 161.
Definition NDPI_PROTOCOL_TOR : Z := 163.
Definition NDPI_PROTOCOL_RTCP : Z := 165.
Definition NDPI_PROTOCOL_SOCKS : Z := 172.
Definition NDPI_PROTOCOL_RTMP : Z := 174.
Definition NDPI_PROTOCOL_FTP_DATA : Z := 175.
Definition NDPI_PROTOCOL_ZMQ : Z := 177.
Definition NDPI_PROTOCOL_REDIS : Z := 182.
Definition NDPI_PROTOCOL_QUIC : Z := 188.
Definition NDPI_PROTOCOL_WIREGUARD : Z := 206.
Definition NDPI_PROTOCOL_DNSCRYPT : Z := 208.
Definition NDPI_PROTOCOL_TINC : Z := 209.
Definition NDPI_PROTOCOL_MQTT : Z := 222.
Definition NDPI_PROTOCOL_RX : Z := 223.
Definition NDPI_PROTOCOL_GIT : Z := 226.
Definition NDPI_PROTOCOL_WEBSOCKET : Z := 251.
Definition NDPI_PROTOCOL_Z3950 : Z := 260.

(** ** The bitmask *)

(** [ndpi_protocol_bitmask_struct_t]: the set of the bits that are one, among
    [NDPI_NUM_BITS] ones; nDPI's identifiers are below that number. *)
Abbreviation ndpi_bitmask := (gset Z).

Definition NDPI_ISSET (b : ndpi_bitmask) (proto : Z) : bool := bool_decide (proto ∈ b).

Definition init_ndpi_protocols_bitmask : ndpi_bitmask :=
  let set (b : ndpi_bitmask) (proto : Z) : ndpi_bitmask := {[proto]} ∪ b in
  fold_left set
    [
     NDPI_PROTOCOL_FTP_CONTROL;
     NDPI_PROTOCOL_MAIL_POP;
     NDPI_PROTOCOL_MAIL_SMTP;
     NDPI_PROTOCOL_MAIL_IMAP;
     NDPI_PROTOCOL_DNS;
     NDPI_PROTOCOL_IPP;
     NDPI_PROTOCOL_HTTP;
     NDPI_PROTOCOL_MDNS;
     NDPI_PROTOCOL_NTP;
     NDPI_PROTOCOL_NETBIOS;
     NDPI_PROTOCOL_NFS;
     NDPI_PROTOCOL_SSDP;
     NDPI_PROTOCOL_SNMP;
     NDPI_PROTOCOL_SMBV1;
     NDPI_PROTOCOL_SYSLOG;
     NDPI_PROTOCOL_DHCP;
     NDPI_PROTOCOL_POSTGRES;
     NDPI_PROTOCOL_MYSQL;
     NDPI_PROTOCOL_MAIL_POPS;
     NDPI_PROTOCOL_MAIL_SMTPS;
     NDPI_PROTOCOL_DTLS;
     NDPI_PROTOCOL_BITTORRENT;
     NDPI_PROTOCOL_SMBV23;
     NDPI_PROTOCOL_RTSP;
     NDPI_PROTOCOL_MAIL_IMAPS;
     NDPI_PROTOCOL_IRC;
     NDPI_PROTOCOL_NATS;
     NDPI_PROTOCOL_TELNET;
     NDPI_PROTOCOL_STUN;
     NDPI_PROTOCOL_IP_IPSEC;
     NDPI_PROTOCOL_IP_GRE;
     NDPI_PROTOCOL_RTP;
     NDPI_PROTOCOL_RDP;
     NDPI_PROTOCOL_VNC;
     NDPI_PROTOCOL_TLS;
     NDPI_PROTOCOL_SSH;
     NDPI_PROTOCOL_TFTP;
     NDPI_PROTOCOL_STEALTHNET;
     NDPI_PROTOCOL_SIP;
     NDPI_PROTOCOL_DHCPV6;
     NDPI_PROTOCOL_KERBEROS;
     NDPI_PROTOCOL_PPTP;
     NDPI_PROTOCOL_NETFLOW;
     NDPI_PROTOCOL_SFLOW;
     NDPI_PROTOCOL_HTTP_CONNECT;
     NDPI_PROTOCOL_HTTP_PROXY;
     NDPI_PROTOCOL_RADIUS;
     NDPI_PROTOCOL_TEAMVIEWER;
     NDPI_PROTOCOL_OPENVPN;
     NDPI_PROTOCOL_CISCOVPN;
     NDPI_PROTOCOL_TOR;
     NDPI_PROTOCOL_RTCP;
     NDPI_PROTOCOL_SOCKS;
     NDPI_PROTOCOL_RTMP;
     NDPI_PROTOCOL_FTP_DATA;
     NDPI_PROTOCOL_ZMQ;
     NDPI_PROTOCOL_REDIS;
     NDPI_PROTOCOL_QUIC;
     NDPI_PROTOCOL_WIREGUARD;
     NDPI_PROTOCOL_DNSCRYPT;
     NDPI_PROTOCOL_TINC;
     NDPI_PROTOCOL_DNSCRYPT;
     NDPI_PROTOCOL_MQTT;
     NDPI_PROTOCOL_RX;
     NDPI_PROTOCOL_GIT;
     NDPI_PROTOCOL_WEBSOCKET;
     NDPI_PROTOCOL_Z3950] ∅.

(** Filled once, at the first use. *)
Definition masterProtos : ndpi_bitmask := init_ndpi_protocols_bitmask.

(** ** [pd_ndpi2proto] *)

(** [struct ndpi_proto]: the category is not used. *)
Record ndpi_proto := mk_ndpi_proto { master_protocol : Z; app_protocol : Z }.

Definition pd_ndpi2proto (proto : ndpi_proto) : Z :=
  let l7proto := if negb (master_protocol proto =? NDPI_PROTOCOL_UNKNOWN)
                 then master_protocol proto else app_protocol proto in
  let l7proto := if (l7proto =? NDPI_PROTOCOL_HTTP_CONNECT) || (l7proto =? NDPI_PROTOCOL_HTTP_PROXY)
                 then NDPI_PROTOCOL_HTTP else l7proto in
  if negb (NDPI_ISSET masterProtos l7proto) then NDPI_PROTOCOL_UNKNOWN else l7proto.

(** ** Lemmas *)
Lemma ndpi_isset_http : NDPI_ISSET masterProtos NDPI_PROTOCOL_HTTP = true.
Proof. vm_compute. reflexivity. Qed.

Lemma ndpi_isset_unknown : NDPI_ISSET masterProtos NDPI_PROTOCOL_UNKNOWN = false.
Proof. vm_compute. reflexivity. Qed.

(** The result is unknown or one of the listed protocols, and never one of the
    two proxy flavours of HTTP, which count as HTTP although they are listed. *)
Lemma pd_ndpi2proto_listed p :
  pd_ndpi2proto p = NDPI_PROTOCOL_UNKNOWN \/ NDPI_ISSET masterProtos (pd_ndpi2proto p) = true.
Proof.
  unfold pd_ndpi2proto. destruct (NDPI_ISSET masterProtos _) eqn:E; simpl; [by right|by left].
Qed.

Lemma pd_ndpi2proto_not_proxy p :
  pd_ndpi2proto p <> NDPI_PROTOCOL_HTTP_CONNECT /\ pd_ndpi2proto p <> NDPI_PROTOCOL_HTTP_PROXY.
Proof.
  unfold pd_ndpi2proto. cbv zeta.
  generalize (if negb (master_protocol p =? NDPI_PROTOCOL_UNKNOWN)
              then master_protocol p else app_protocol p). intros q.
  set (r := if (q =? NDPI_PROTOCOL_HTTP_CONNECT) || (q =? NDPI_PROTOCOL_HTTP_PROXY)
            then NDPI_PROTOCOL_HTTP else q).
  assert (r <> NDPI_PROTOCOL_HTTP_CONNECT /\ r <> NDPI_PROTOCOL_HTTP_PROXY) as Hr.
  { unfold r. destruct (Z.eqb_spec q NDPI_PROTOCOL_HTTP_CONNECT) as [|N1];
      [split; discriminate|].
    destruct (Z.eqb_spec q NDPI_PROTOCOL_HTTP_PROXY) as [|N2]; [split; discriminate|done]. }
  destruct (NDPI_ISSET masterProtos r); [exact Hr|split; discriminate].
Qed.
