(* ===== verification/Conn.v ===== *)
(** The connections of the core: the data of core/pcapdroid.h, the store of
    connection records, the arrays of pending notifications and the decision
    to block (core/pcapdroid.c), with the parts of core/capture_vpn.c that they
    call. *)
From Stdlib Require Import ZArith Lia.
From stdpp Require Import base option gmap numbers list.
From S2P Require Import Prelude Packet Uthash Lru AppNames PcapDump Blacklist NdpiProtos.

Open Scope Z_scope.

(** ** nDPI's flows *)

(** What the core uses of a flow: the detection, and the fields it reads. *)
Class NdpiFlow (F : Type) := {
  ndpi_new_flow : F;
  (** packet, length, time *)
  ndpi_detection_process_packet : F -> bytes -> Z -> Z -> ndpi_proto * F;
  ndpi_detection_giveup : F -> ndpi_proto * F;
  ndpi_extra_dissection_possible : F -> bool;
  host_server_name : F -> bytes;
  tls_quic_alpn : F -> option bytes;
  http_url : F -> option bytes;
  NDPI_NUM_BITS : Z;                (** the length of [proto_defaults] *)
  isClearTextProto : Z -> Z;
  ndpi_get_proto_name : Z -> bytes
}.

(** ** Constants *)
Definition UID_UNKNOWN : Z := -1.
Definition UID_PHONE : Z := 1001.
Definition UID_NETD : Z := 1051.

Definition CONN_STATUS_NEW : Z := 0.
Definition CONN_STATUS_CONNECTING : Z := 1.
Definition CONN_STATUS_CONNECTED : Z := 2.
Definition CONN_STATUS_CLOSED : Z := 3.
Definition CONN_STATUS_RESET : Z := 7.

Definition CONN_UPDATE_STATS : Z := 1.
Definition CONN_UPDATE_INFO : Z := 2.
Definition CONN_UPDATE_PAYLOAD : Z := 4.

Definition CAPTURE_STATS_UPDATE_FREQUENCY_MS : Z := 300.
Definition CONNECTION_DUMP_UPDATE_FREQUENCY_MS : Z := 1000.
Definition NETD_RESOLVE_DELAY_MS : Z := 1000.
Definition MAX_DPI_PACKETS : Z := 12.
Definition MAX_HOST_LRU_SIZE : Z := 256.
Definition MINIMAL_PAYLOAD_MAX_DIRECTION_SIZE : Z := 512.
Definition sizeof_dns_packet : Z := 12.

(** ** Data *)
Inductive payload_mode_t := PAYLOAD_MODE_NONE | PAYLOAD_MODE_MINIMAL | PAYLOAD_MODE_FULL.
#[export] Instance payload_mode_eq_dec : EqDecision payload_mode_t.
Proof. solve_decision. Defined.

Inductive block_quic_mode_t :=
  BLOCK_QUIC_MODE_NEVER | BLOCK_QUIC_MODE_ALWAYS | BLOCK_QUIC_MODE_TO_DECRYPT.
#[export] Instance block_quic_mode_eq_dec : EqDecision block_quic_mode_t.
Proof. solve_decision. Defined.

(** An element of the Java list of payload chunks. *)
Record payload_chunk := mk_chunk {
  ch_http : bool; ch_is_tx : bool; ch_ms : Z; ch_data : bytes
}.

(** The address of a connection record. *)
Abbreviation conn_ptr := Z (only parsing).

Record pkt_context := mk_pctx {
  pctx_pkt : zdtun_pkt;
  pctx_tv : timeval;
  pctx_ms : Z;
  pctx_is_tx : bool;
  pctx_tuple : zdtun_5tuple;
  pctx_data : conn_ptr
}.

(** [pd_conn_t]. The strings and the flow belong to the record: [None] is the
    null pointer. The members of the anonymous union of the two capture modes
    are separate fields; a capture only uses its own ones. [last_ack] shares its
    byte with [pending_dns_queries]. *)
Record pd_conn (F : Type) := mk_conn {
  incr_id : Z;
  ndpi_flow : option F;
  l7proto : Z;
  alpn : Z;
  pcap_last_update_ms : Z;
  pcap_ifidx : Z;
  vpn_fw_pctx : option pkt_context;
  vpn_local_port : Z;
  payload_chunks : option (list payload_chunk);
  first_seen : Z;
  last_seen : Z;
  payload_length : Z;
  sent_bytes : Z;
  rcvd_bytes : Z;
  sent_pkts : Z;
  rcvd_pkts : Z;
  blocked_pkts : Z;
  status : Z;
  info : option bytes;
  conn_uid : Z;
  tcp_flags0 : Z;
  tcp_flags1 : Z;
  last_ack : Z;
  pending_notification : bool;
  to_purge : bool;
  info_from_lru : bool;
  blacklisted_internal : bool;
  blacklisted_ip : bool;
  blacklisted_domain : bool;
  whitelisted_app : bool;
  to_block : bool;
  netd_block_missed : bool;
  proxied : bool;
  decryption_ignored : bool;
  port_mapping_applied : bool;
  encrypted_l7 : bool;
  payload_truncated : bool;
  has_payload_rx : bool;
  has_payload_tx : bool;
  url : option bytes;
  update_type : Z
}.
#[global] Arguments mk_conn {F}.
#[global] Arguments incr_id {F}.
#[global] Arguments ndpi_flow {F}.
#[global] Arguments l7proto {F}.
#[global] Arguments alpn {F}.
#[global] Arguments pcap_last_update_ms {F}.
#[global] Arguments pcap_ifidx {F}.
#[global] Arguments vpn_fw_pctx {F}.
#[global] Arguments vpn_local_port {F}.
#[global] Arguments payload_chunks {F}.
#[global] Arguments first_seen {F}.
#[global] Arguments last_seen {F}.
#[global] Arguments payload_length {F}.
#[global] Arguments sent_bytes {F}.
#[global] Arguments rcvd_bytes {F}.
#[global] Arguments sent_pkts {F}.
#[global] Arguments rcvd_pkts {F}.
#[global] Arguments blocked_pkts {F}.
#[global] Arguments status {F}.
#[global] Arguments info {F}.
#[global] Arguments conn_uid {F}.
#[global] Arguments tcp_flags0 {F}.
#[global] Arguments tcp_flags1 {F}.
#[global] Arguments last_ack {F}.
#[global] Arguments pending_notification {F}.
#[global] Arguments to_purge {F}.
#[global] Arguments info_from_lru {F}.
#[global] Arguments blacklisted_internal {F}.
#[global] Arguments blacklisted_ip {F}.
#[global] Arguments blacklisted_domain {F}.
#[global] Arguments whitelisted_app {F}.
#[global] Arguments to_block {F}.
#[global] Arguments netd_block_missed {F}.
#[global] Arguments proxied {F}.
#[global] Arguments decryption_ignored {F}.
#[global] Arguments port_mapping_applied {F}.
#[global] Arguments encrypted_l7 {F}.
#[global] Arguments payload_truncated {F}.
#[global] Arguments has_payload_rx {F}.
#[global] Arguments has_payload_tx {F}.
#[global] Arguments url {F}.
#[global] Arguments update_type {F}.
#[export] Instance eta_pd_conn F : Eta (pd_conn F) := fun c =>
  mk_conn (incr_id c) (ndpi_flow c) (l7proto c) (alpn c) (pcap_last_update_ms c)
    (pcap_ifidx c) (vpn_fw_pctx c) (vpn_local_port c) (payload_chunks c) (first_seen c)
    (last_seen c) (payload_length c) (sent_bytes c) (rcvd_bytes c) (sent_pkts c)
    (rcvd_pkts c) (blocked_pkts c) (status c) (info c) (conn_uid c) (tcp_flags0 c)
    (tcp_flags1 c) (last_ack c) (pending_notification c) (to_purge c) (info_from_lru c)
    (blacklisted_internal c) (blacklisted_ip c) (blacklisted_domain c)
    (whitelisted_app c) (to_block c) (netd_block_missed c) (proxied c)
    (decryption_ignored c) (port_mapping_applied c) (encrypted_l7 c)
    (payload_truncated c) (has_payload_rx c) (has_payload_tx c) (url c) (update_type c).

(** *** The Java side, as the calls it receives *)
Record conn_stats_upd := mk_stats_upd {
  su_last_seen : Z;
  su_payload_length : Z;
  su_sent_bytes : Z;
  su_rcvd_bytes : Z;
  su_sent_pkts : Z;
  su_rcvd_pkts : Z;
  su_blocked_pkts : Z;
  su_tcp_flags : Z;
  su_flags : Z   (** the booleans and the status *)
}.

Record conn_info_upd := mk_info_upd {
  iu_info : bytes; iu_url : bytes; iu_l7proto : bytes; iu_encrypted : bool
}.

(** [ConnectionUpdate] *)
Record conn_update := mk_update {
  cu_incr_id : Z;
  cu_stats : option conn_stats_upd;
  cu_info : option conn_info_upd;
  cu_payload : option (option (list payload_chunk) * bool)
}.

(** [ConnectionDescriptor], with the update processed at its creation *)
Record conn_descr := mk_descr {
  cd_incr_id : Z; cd_tuple : zdtun_5tuple; cd_local_port : Z; cd_uid : Z; cd_ifidx : Z;
  cd_mitm_decrypt : bool; cd_first_seen : Z; cd_update : conn_update
}.

(** [CaptureStats] *)
Record java_stats := mk_java_stats {
  js_sent_bytes : Z; js_rcvd_bytes : Z; js_ipv6_sent_bytes : Z; js_ipv6_rcvd_bytes : Z;
  js_dump_size : Z; js_sent_pkts : Z; js_rcvd_pkts : Z; js_dropped_pkts : Z;
  js_dropped_conns : Z; js_open_sockets : Z; js_max_fd : Z; js_active_conns : Z;
  js_tot_conns : Z; js_dns_requests : Z
}.

Inductive java_call :=
  | JSendStatsDump (st : java_stats)
  | JUpdateConnections (new_conns : list conn_descr) (conns_updates : list conn_update)
  | JStopPcapDump
  | JSendServiceStatus (started : bytes)
  | JNotifyBlacklistsLoaded (status : list (bytes * Z)).

(** *** The state *)
Record conn_and_tuple := mk_slot { slot_tuple : zdtun_5tuple; slot_data : conn_ptr }.

(** [items]: null, or the slots written so far of an allocation of [arr_size]. *)
Record conn_array := mk_array {
  items : option (list conn_and_tuple);
  arr_size : Z;
  cur_items : Z
}.
#[export] Instance eta_conn_array : Eta conn_array := fun s =>
  mk_array (items s) (arr_size s) (cur_items s).

Definition empty_array : conn_array := mk_array None 0 0.

Record capture_stats_t := mk_cstats {
  cs_sent_bytes : Z;
  cs_rcvd_bytes : Z;
  cs_ipv6_sent_bytes : Z;
  cs_ipv6_rcvd_bytes : Z;
  cs_sent_pkts : Z;
  cs_rcvd_pkts : Z;
  new_stats : bool;
  last_update_ms : Z
}.
#[export] Instance eta_capture_stats_t : Eta capture_stats_t := fun s =>
  mk_cstats (cs_sent_bytes s) (cs_rcvd_bytes s) (cs_ipv6_sent_bytes s)
    (cs_ipv6_rcvd_bytes s) (cs_sent_pkts s) (cs_rcvd_pkts s) (new_stats s)
    (last_update_ms s).

(** [zdtun_statistics_t] *)
Record zdtun_statistics := mk_zstats {
  num_icmp_conn : Z;
  num_tcp_conn : Z;
  num_udp_conn : Z;
  num_icmp_opened : Z;
  num_tcp_opened : Z;
  num_udp_opened : Z;
  num_open_sockets : Z;
  all_max_fd : Z
}.
#[export] Instance eta_zdtun_statistics : Eta zdtun_statistics := fun s =>
  mk_zstats (num_icmp_conn s) (num_tcp_conn s) (num_udp_conn s) (num_icmp_opened s)
    (num_tcp_opened s) (num_udp_opened s) (num_open_sockets s) (all_max_fd s).

Definition zero_zstats : zdtun_statistics := mk_zstats 0 0 0 0 0 0 0 0.

Record pcap_dump_conf := mk_pcap_dump {
  pd_dump_enabled : bool;
  trailer_enabled : bool;
  pcapng_format : bool;
  conf_snaplen : Z;
  max_pkts_per_flow : Z;
  conf_max_dump_size : Z;
  dumper : option pcap_dumper
}.
#[export] Instance eta_pcap_dump_conf : Eta pcap_dump_conf := fun s =>
  mk_pcap_dump (pd_dump_enabled s) (trailer_enabled s) (pcapng_format s) (conf_snaplen s)
    (max_pkts_per_flow s) (conf_max_dump_size s) (dumper s).

(** [bl_status_arr_t]: the file names and their numbers of rules. *)
Record bl_status_arr := mk_status_arr {
  sa_items : option (list (bytes * Z)); sa_size : Z; sa_cur_items : Z
}.

Record malware_detection (P : Type) := mk_malware {
  mal_enabled : bool;
  mal_bl : option (blacklist P);
  mal_whitelist : option (blacklist P);
  reload_in_progress : bool;
  reload_done : bool;
  mal_new_bl : option (blacklist P);
  mal_new_wl : option (blacklist P);
  status_arr : option bl_status_arr;
  bls_info : list (bytes * blacklist_type)
}.
#[global] Arguments mk_malware {P}.
#[global] Arguments mal_enabled {P}.
#[global] Arguments mal_bl {P}.
#[global] Arguments mal_whitelist {P}.
#[global] Arguments reload_in_progress {P}.
#[global] Arguments reload_done {P}.
#[global] Arguments mal_new_bl {P}.
#[global] Arguments mal_new_wl {P}.
#[global] Arguments status_arr {P}.
#[global] Arguments bls_info {P}.
#[export] Instance eta_malware_detection P : Eta (malware_detection P) := fun s =>
  mk_malware (mal_enabled s) (mal_bl s) (mal_whitelist s) (reload_in_progress s)
    (reload_done s) (mal_new_bl s) (mal_new_wl s) (status_arr s) (bls_info s).

Record firewall (P : Type) := mk_firewall {
  fw_enabled : bool;
  fw_bl : option (blacklist P);
  fw_new_bl : option (blacklist P);
  wl_enabled : bool;
  fw_wl : option (blacklist P);
  fw_new_wl : option (blacklist P)
}.
#[global] Arguments mk_firewall {P}.
#[global] Arguments fw_enabled {P}.
#[global] Arguments fw_bl {P}.
#[global] Arguments fw_new_bl {P}.
#[global] Arguments wl_enabled {P}.
#[global] Arguments fw_wl {P}.
#[global] Arguments fw_new_wl {P}.
#[export] Instance eta_firewall P : Eta (firewall P) := fun s =>
  mk_firewall (fw_enabled s) (fw_bl s) (fw_new_bl s) (wl_enabled s) (fw_wl s) (fw_new_wl s).

Record tls_decryption (P : Type) := mk_tls {
  tls_enabled : bool;
  tls_list : option (blacklist P);
  tls_new_list : option (blacklist P)
}.
#[global] Arguments mk_tls {P}.
#[global] Arguments tls_enabled {P}.
#[global] Arguments tls_list {P}.
#[global] Arguments tls_new_list {P}.
#[export] Instance eta_tls_decryption P : Eta (tls_decryption P) := fun s =>
  mk_tls (tls_enabled s) (tls_list s) (tls_new_list s).

Record vpn_conf (P : Type) := mk_vpn {
  block_quic_mode : block_quic_mode_t;
  known_dns_servers : blacklist P;
  ipv4_enabled : bool;
  ipv4_dns_server : Z;
  ipv4_internal_dns : Z;
  ipv6_enabled : bool;
  ipv6_dns_server : Z;
  socks5_enabled : bool   (** of [pd->socks5] *)
}.
#[global] Arguments mk_vpn {P}.
#[global] Arguments block_quic_mode {P}.
#[global] Arguments known_dns_servers {P}.
#[global] Arguments ipv4_enabled {P}.
#[global] Arguments ipv4_dns_server {P}.
#[global] Arguments ipv4_internal_dns {P}.
#[global] Arguments ipv6_enabled {P}.
#[global] Arguments ipv6_dns_server {P}.
#[global] Arguments socks5_enabled {P}.
#[export] Instance eta_vpn_conf P : Eta (vpn_conf P) := fun s =>
  mk_vpn (block_quic_mode s) (known_dns_servers s) (ipv4_enabled s) (ipv4_dns_server s)
    (ipv4_internal_dns s) (ipv6_enabled s) (ipv6_dns_server s) (socks5_enabled s).

(** [pcapdroid_t], the globals of the core, and what stands for the process:
    the store of the connection records, the outcomes of the next allocations
    and JNI calls, and the calls made to Java. *)
Record pcapdroid (P : Type) (F : Type) := mk_pd {
  new_conn_id : Z;
  pd_now_ms : Z;
  ip_to_host : IpLru.ip_lru;
  new_conns : conn_array;
  conns_updates : conn_array;
  pd_uid2app : uid_to_app;
  vpn_capture : bool;
  pcap_file_capture : bool;
  payload_mode : payload_mode_t;
  num_dropped_pkts : Z;
  num_discarded_fragments : Z;
  num_dropped_connections : Z;
  num_dns_requests : Z;
  zstats : zdtun_statistics;
  capture_stats : capture_stats_t;
  connections : list (zdtun_5tuple * conn_ptr);   (** [pd->pcap.connections] *)
  vpn : vpn_conf P;
  pcap_dump : pcap_dump_conf;
  malware : malware_detection P;
  fw : firewall P;
  tls : tls_decryption P;
  fragment_ports : idports;   (** of [pd->zdt] *)
  zdt_stats : zdtun_statistics;   (** of [pd->zdt] *)
  zdt_connections : list (zdtun_5tuple * conn_ptr);   (** of [pd->zdt], with the user data *)
  running : bool;
  new_dns_server : Z;
  block_private_dns : bool;
  has_seen_pcapdroid_trailer : bool;
  dump_capture_stats_now : bool;
  reload_blacklists_now : bool;
  bl_num_checked_connections : Z;
  fw_num_checked_connections : Z;
  netd_resolve_waiting : Z;
  last_connections_dump : Z;
  next_connections_dump : Z;
  heap : gmap conn_ptr (pd_conn F);
  next_ptr : conn_ptr;   (** above every record *)
  mallocs : list bool;
  reallocs : list bool;
  strndups : list bool;
  jni_calls : list bool;   (** [false] is an exception *)
  java_out : list java_call;   (** oldest first *)
  pcap_out : list (list bytes)   (** the chunks of the dumpers destroyed *)
}.
#[global] Arguments mk_pd {P} {F}.
#[global] Arguments new_conn_id {P} {F}.
#[global] Arguments pd_now_ms {P} {F}.
#[global] Arguments ip_to_host {P} {F}.
#[global] Arguments new_conns {P} {F}.
#[global] Arguments conns_updates {P} {F}.
#[global] Arguments pd_uid2app {P} {F}.
#[global] Arguments vpn_capture {P} {F}.
#[global] Arguments pcap_file_capture {P} {F}.
#[global] Arguments payload_mode {P} {F}.
#[global] Arguments num_dropped_pkts {P} {F}.
#[global] Arguments num_discarded_fragments {P} {F}.
#[global] Arguments num_dropped_connections {P} {F}.
#[global] Arguments num_dns_requests {P} {F}.
#[global] Arguments zstats {P} {F}.
#[global] Arguments capture_stats {P} {F}.
#[global] Arguments connections {P} {F}.
#[global] Arguments vpn {P} {F}.
#[global] Arguments pcap_dump {P} {F}.
#[global] Arguments malware {P} {F}.
#[global] Arguments fw {P} {F}.
#[global] Arguments tls {P} {F}.
#[global] Arguments fragment_ports {P} {F}.
#[global] Arguments zdt_stats {P} {F}.
#[global] Arguments zdt_connections {P} {F}.
#[global] Arguments running {P} {F}.
#[global] Arguments new_dns_server {P} {F}.
#[global] Arguments block_private_dns {P} {F}.
#[global] Arguments has_seen_pcapdroid_trailer {P} {F}.
#[global] Arguments dump_capture_stats_now {P} {F}.
#[global] Arguments reload_blacklists_now {P} {F}.
#[global] Arguments bl_num_checked_connections {P} {F}.
#[global] Arguments fw_num_checked_connections {P} {F}.
#[global] Arguments netd_resolve_waiting {P} {F}.
#[global] Arguments last_connections_dump {P} {F}.
#[global] Arguments next_connections_dump {P} {F}.
#[global] Arguments heap {P} {F}.
#[global] Arguments next_ptr {P} {F}.
#[global] Arguments mallocs {P} {F}.
#[global] Arguments reallocs {P} {F}.
#[global] Arguments strndups {P} {F}.
#[global] Arguments jni_calls {P} {F}.
#[global] Arguments java_out {P} {F}.
#[global] Arguments pcap_out {P} {F}.
#[export] Instance eta_pcapdroid P F : Eta (pcapdroid P F) := fun s =>
  mk_pd (new_conn_id s) (pd_now_ms s) (ip_to_host s) (new_conns s) (conns_updates s)
    (pd_uid2app s) (vpn_capture s) (pcap_file_capture s) (payload_mode s)
    (num_dropped_pkts s) (num_discarded_fragments s) (num_dropped_connections s)
    (num_dns_requests s) (zstats s) (capture_stats s) (connections s) (vpn s) (pcap_dump s)
    (malware s) (fw s) (tls s) (fragment_ports s) (zdt_stats s) (zdt_connections s)
    (running s) (new_dns_server s) (block_private_dns s) (has_seen_pcapdroid_trailer s)
    (dump_capture_stats_now s) (reload_blacklists_now s) (bl_num_checked_connections s)
    (fw_num_checked_connections s) (netd_resolve_waiting s) (last_connections_dump s)
    (next_connections_dump s) (heap s) (next_ptr s) (mallocs s) (reallocs s) (strndups s)
    (jni_calls s) (java_out s) (pcap_out s).

(** The items [0 .. cur_items - 1]; [None]: a read outside of the array. *)
Definition status_items (arr : bl_status_arr) : option (list (bytes * Z)) :=
  if sa_cur_items arr =? 0 then Some []
  else l ← sa_items arr;
       if Z.of_nat (length l) <? sa_cur_items arr then None
       else Some (take (Z.to_nat (sa_cur_items arr)) l).

(** ** Operations *)
Section conn_ops.
Context {P F : Type} `{Ndpi P} `{NdpiFlow F} (java_app_name : Z -> option bytes).
Abbreviation state := (pcapdroid P F).
Implicit Types (p : conn_ptr) (tuple : zdtun_5tuple).

(** *** The store, and the outcomes of the environment *)

(** The whole state. *)
Abbreviation get_state := (gets (fun s : state => s)).

(** [*p]; [None] if the record was freed or the pointer is null. *)
Definition deref p : M state (pd_conn F) := s ← gets heap; of_option (s !! p).

(** [p->f = v] *)
Definition modify_conn p (f : pd_conn F -> pd_conn F) : M state unit :=
  c ← deref p; modify (fun s => s <| heap ::= <[p := f c]> |>).

Definition next_outcome (l : list bool) : bool := default true (head l).

Definition malloc_ok : M state bool :=
  l ← gets mallocs; modify (fun s => s <| mallocs := tail l |>);; mret (next_outcome l).
Definition realloc_ok : M state bool :=
  l ← gets reallocs; modify (fun s => s <| reallocs := tail l |>);; mret (next_outcome l).
Definition strndup_ok : M state bool :=
  l ← gets strndups; modify (fun s => s <| strndups := tail l |>);; mret (next_outcome l).
(** No Java exception is pending after the call. *)
Definition jni_ok : M state bool :=
  l ← gets jni_calls; modify (fun s => s <| jni_calls := tail l |>);; mret (next_outcome l).

Definition call_java (c : java_call) : M state unit :=
  modify (fun s => s <| java_out ::= fun l => l ++ [c] |>).

(** [pd_strndup(s, n)] *)
Definition pd_strndup (str : bytes) (n : Z) : M state (option bytes) :=
  ok ← strndup_ok; mret (if (ok : bool) then Some (take (Z.to_nat n) str) else None).

(** [calloc(1, sizeof(pd_conn_t))], with a null flow *)
Definition zero_conn : pd_conn F :=
  mk_conn 0 None 0 0 0 0 None 0 None 0 0 0 0 0 0 0 0 0 None 0 0 0 0
    false false false false false false false false false false false false false false
    false false None 0.

Definition calloc_conn : M state (option conn_ptr) :=
  ok ← malloc_ok;
  if (ok : bool) then
    p ← gets next_ptr;
    modify (fun s => s <| heap ::= <[p := zero_conn]> |> <| next_ptr := p + 1 |>);;
    mret (Some p)
  else mret None.

(** [pd_free(p)] of a record; freeing it twice is undefined. *)
Definition free_conn p : M state unit :=
  deref p;; modify (fun s => s <| heap ::= delete p |>).

(** The name is only used in log lines; the call fills the table. *)
Definition log_appname (uid : Z) : M state unit :=
  ok ← malloc_ok;
  modify (fun s => s <| pd_uid2app :=
    (get_appname_by_uid java_app_name (pd_uid2app s) uid 64 ok).2 |>).

(** *** DPI *)
Definition conn_free_ndpi p : M state unit :=
  modify_conn p (fun c => c <| ndpi_flow := None |>).

Definition is_encrypted_l7 (l7proto : Z) : bool :=
  if l7proto >=? NDPI_NUM_BITS then false else isClearTextProto l7proto =? 0.

(** [s && s[0]] *)
Definition nonempty (s : option bytes) : option bytes :=
  match s with Some [] => None | _ => s end.

Definition opt_match {A} (bl : option A) (m : A -> bool) : bool :=
  match bl with Some bl => m bl | None => false end.

Definition check_blacklisted_domain p : M state unit :=
  data ← deref p;
  match nonempty (info data) with
  | None => mret tt
  | Some host =>
      s ← get_state;
      when (opt_match (mal_bl (malware s)) (fun bl =>
              negb (blacklisted_domain data) && negb (whitelisted_app data) &&
              blacklist_match_domain bl host))
        (log_appname (conn_uid data);;
         when (negb (opt_match (mal_whitelist (malware s)) (fun wl => blacklist_match_domain wl host)))
           (modify_conn p (fun c => c <| blacklisted_domain := true |> <| to_block := true |>)));;
      data ← deref p;
      when (fw_enabled (fw s) && negb (to_block data))
        (match fw_bl (fw s) with
         | None => mret tt
         | Some bl =>
             let blocked := blacklist_match_domain bl host in
             modify_conn p (fun c => c <| to_block := to_block c || blocked |>);;
             when blocked (log_appname (conn_uid data))
         end)
  end.

(** capture_vpn.c *)
Definition matches_decryption_whitelist (s : state) tuple (data : pd_conn F) : bool :=
  match tls_list (tls s) with
  | None => false
  | Some list =>
      blacklist_match_ip list (dst_ip tuple) (ipver tuple) ||
      blacklist_match_uid list (conn_uid data) ||
      opt_match (info data) (blacklist_match_domain list)
  end.

(** capture_vpn.c *)
Definition vpn_process_ndpi tuple p : M state unit :=
  s ← get_state;
  data ← deref p;
  when ((l7proto data =? NDPI_PROTOCOL_QUIC) &&
        match block_quic_mode (vpn s) with
        | BLOCK_QUIC_MODE_ALWAYS => true
        | BLOCK_QUIC_MODE_TO_DECRYPT => matches_decryption_whitelist s tuple data
        | BLOCK_QUIC_MODE_NEVER => false
        end)
    (modify_conn p (fun c => c <| blacklisted_internal := true |> <| to_block := true |>));;
  data ← deref p;
  when (block_private_dns s && negb (to_block data) && (l7proto data =? NDPI_PROTOCOL_TLS) &&
        opt_match (info data) (blacklist_match_domain (known_dns_servers (vpn s))))
    (modify_conn p (fun c => c <| blacklisted_internal := true |> <| to_block := true |>)).

Fixpoint is_numeric_host_loop (host : bytes) : bool :=
  match host with
  | [] => false
  | ch :: host' =>
      if ch =? 58 then true             (* ':' *)
      else if ch =? DOT then false
      else is_numeric_host_loop host'
  end.

Definition is_numeric_host (host : bytes) : bool :=
  match host with
  | [] => false
  | ch :: _ => if is_digit ch then true else is_numeric_host_loop host
  end.

(** [strstr(s, sub)] *)
Fixpoint strstr (s sub : bytes) : bool :=
  bool_decide (take (length sub) s = sub) ||
  match s with [] => false | _ :: s' => strstr s' sub end.

Definition STR_http : bytes := [104; 116; 116; 112; 47].   (* "http/" *)
Definition STR_imap : bytes := [105; 109; 97; 112].        (* "imap" *)
Definition STR_stmp : bytes := [115; 116; 109; 112].       (* "stmp" *)
Definition STR_imap_dot : bytes := STR_imap ++ [DOT].
Definition STR_smtp_dot : bytes := [115; 109; 116; 112; DOT].

Definition set_update (c : pd_conn F) (flag : Z) : pd_conn F :=
  c <| update_type ::= fun u => Z.lor u flag |>.

Definition process_alpn (c : pd_conn F) (flow : F) : pd_conn F :=
  if negb (alpn c =? 0) then c else
  match tls_quic_alpn flow with
  | None => c
  | Some a =>
      if strstr a STR_http then set_update (c <| alpn := NDPI_PROTOCOL_HTTP |>) CONN_UPDATE_INFO
      else if strstr a STR_imap
      then set_update (c <| alpn := NDPI_PROTOCOL_MAIL_IMAP |>) CONN_UPDATE_INFO
      else if strstr a STR_stmp
      then set_update (c <| alpn := NDPI_PROTOCOL_MAIL_SMTP |>) CONN_UPDATE_INFO
      else c <| alpn := NDPI_PROTOCOL_TLS |>
  end.

Definition process_ndpi_data tuple p : M state unit :=
  data ← deref p;
  flow ← of_option (ndpi_flow data);
  let host := nonempty (Some (host_server_name flow)) in
  found_info ←
    (if l7proto data =? NDPI_PROTOCOL_TLS then
       modify_conn p (fun c => process_alpn c flow);; mret host
     else if l7proto data =? NDPI_PROTOCOL_DNS then mret host
     else if l7proto data =? NDPI_PROTOCOL_HTTP then
       match url data, http_url flow with
       | None, Some u =>
           u ← pd_strndup u 256;
           modify_conn p (fun c => set_update (c <| url := u |>) CONN_UPDATE_INFO)
       | _, _ => mret tt
       end;;
       mret (if is_numeric_host (host_server_name flow) then None else host)
     else mret None);
  match found_info with
  | None => mret tt
  | Some host =>
      when (match info data with None => true | Some _ => info_from_lru data end)
        (dup ← pd_strndup host 256;
         modify_conn p (fun c => c <| info := dup |> <| info_from_lru := false |>);;
         check_blacklisted_domain p;;
         modify_conn p (fun c => set_update c CONN_UPDATE_INFO))
  end;;
  vpn ← gets vpn_capture;
  when vpn (vpn_process_ndpi tuple p).

Definition pd_giveup_dpi p tuple : M state unit :=
  data ← deref p;
  match ndpi_flow data with
  | None => mret tt
  | Some flow =>
      when (l7proto data =? NDPI_PROTOCOL_UNKNOWN)
        (let '(n_proto, flow) := ndpi_detection_giveup flow in
         let proto := pd_ndpi2proto n_proto in
         modify_conn p (fun c => c <| ndpi_flow := Some flow |> <| l7proto := proto |>
                                   <| encrypted_l7 := is_encrypted_l7 proto |>));;
      process_ndpi_data tuple p;;
      conn_free_ndpi p
  end.

Definition pd_purge_connection p : M state unit :=
  conn_free_ndpi p;;
  free_conn p.    (* the strings and the payload chunks go with the record *)

(** *** Notifications *)
Inductive conns_arr := NEW_CONNS | CONNS_UPDATES.

Definition get_arr (a : conns_arr) (s : state) : conn_array :=
  match a with NEW_CONNS => new_conns s | CONNS_UPDATES => conns_updates s end.

Definition set_arr (a : conns_arr) (arr : conn_array) : M state unit :=
  modify (fun s => match a with
                   | NEW_CONNS => s <| new_conns := arr |>
                   | CONNS_UPDATES => s <| conns_updates := arr |>
                   end).

(** The slots [0 .. cur_items - 1]; [None]: a read outside of the array. *)
Definition arr_slots (arr : conn_array) : option (list conn_and_tuple) :=
  if cur_items arr =? 0 then Some []
  else l ← items arr;
       if Z.of_nat (length l) <? cur_items arr then None
       else Some (take (Z.to_nat (cur_items arr)) l).

(** [arr->items[arr->cur_items++] = slot] *)
Definition arr_push (arr : conn_array) (slot : conn_and_tuple) : option conn_array :=
  l ← items arr;
  if (cur_items arr =? Z.of_nat (length l)) && (cur_items arr <? arr_size arr)
  then Some (arr <| items := Some (l ++ [slot]) |> <| cur_items := cur_items arr + 1 |>)
  else None.

Definition extend_array (a : conns_arr) : M state Z :=
  arr ← gets (get_arr a);
  if cur_items arr >=? arr_size arr then
    let new_size := if arr_size arr =? 0 then 8 else arr_size arr * 2 in
    ok ← realloc_ok;
    if (ok : bool) then
      set_arr a (arr <| arr_size := new_size |>
                     <| items := Some (default [] (items arr)) |>);; mret 0
    else set_arr a (arr <| arr_size := new_size |> <| items := None |>);; mret (-1)
  else mret 0.

(** The part of [notif_connection] after the end of the detection. *)
Definition enqueue (a : conns_arr) tuple p : M state Z :=
  data ← deref p;
  if pending_notification data then mret 0 else
  rv ← extend_array a;
  if rv <? 0 then mret rv else
  arr ← gets (get_arr a);
  arr ← of_option (arr_push arr (mk_slot tuple p));
  set_arr a arr;;
  modify_conn p (fun c => c <| pending_notification := true |>);;
  mret 0.

Definition notif_connection (a : conns_arr) tuple p : M state Z :=
  data ← deref p;
  when (status data >=? CONN_STATUS_CLOSED) (pd_giveup_dpi p tuple);;
  enqueue a tuple p.

Definition pd_notify_connection_update tuple p : M state Z :=
  notif_connection CONNS_UPDATES tuple p.

Definition conns_clear (a : conns_arr) (free_all : bool) : M state unit :=
  arr ← gets (get_arr a);
  match items arr with
  | None => mret tt
  | Some _ =>
      slots ← of_option (arr_slots arr);
      for_each (fun slot =>
        data ← deref (slot_data slot);
        when (to_purge data || free_all) (pd_purge_connection (slot_data slot))) slots
  end;;
  set_arr a empty_array.

(** *** Names *)
Definition STR_TCP : bytes := [84; 67; 80].
Definition STR_UDP : bytes := [85; 68; 80].
Definition STR_ICMP : bytes := [73; 67; 77; 80].
Definition STR_Unknown : bytes := [85; 110; 107; 110; 111; 119; 110].
Definition STR_HTTPS : bytes := [72; 84; 84; 80; 83].
Definition STR_IMAPS : bytes := [73; 77; 65; 80; 83].
Definition STR_SMTPS : bytes := [83; 77; 84; 80; 83].

Definition zdtun_proto2str (ipproto : Z) : bytes :=
  if ipproto =? IPPROTO_TCP then STR_TCP
  else if ipproto =? IPPROTO_UDP then STR_UDP
  else if ipproto =? IPPROTO_ICMP then STR_ICMP
  else STR_Unknown.

Definition pd_get_proto_name (proto alpn ipproto : Z) : bytes :=
  if proto =? NDPI_PROTOCOL_UNKNOWN then zdtun_proto2str ipproto
  else if (proto =? NDPI_PROTOCOL_TLS) && (alpn =? NDPI_PROTOCOL_HTTP) then STR_HTTPS
  else if (proto =? NDPI_PROTOCOL_TLS) && (alpn =? NDPI_PROTOCOL_MAIL_IMAP) then STR_IMAPS
  else if (proto =? NDPI_PROTOCOL_TLS) && (alpn =? NDPI_PROTOCOL_MAIL_SMTP) then STR_SMTPS
  else ndpi_get_proto_name proto.

(** *** New connections *)
Definition is_dns_tuple tuple : bool :=
  (ipproto tuple =? IPPROTO_UDP) && (ntohs (dst_port tuple) =? 53).

Definition check_whitelist_mode_block tuple p : M state unit :=
  s ← get_state;
  data ← deref p;
  match fw_wl (fw s) with
  | None => mret tt
  | Some wl =>
      when (fw_enabled (fw s) && wl_enabled (fw s) && negb (to_block data) &&
            (negb (is_dns_tuple tuple) ||
             (negb (conn_uid data =? UID_NETD) && negb (conn_uid data =? UID_PHONE) &&
              negb (conn_uid data =? UID_UNKNOWN))))
        (modify_conn p (fun c => c <| to_block := negb (blacklist_match_uid wl (conn_uid c)) |>))
  end.

(** One turn of the loop over [pd->new_conns] that gives the netd requests of
    the host [host] the uid of the application. *)
Definition resolve_netd_conn (host : bytes) (uid : Z) (slot : conn_and_tuple) : M state unit :=
  let p := slot_data slot in
  data ← deref p;
  when ((conn_uid data =? UID_NETD) && bool_decide (info data = Some host))
    (modify_conn p (fun c => c <| conn_uid := uid |>);;
     s ← get_state;
     when (negb (to_block data) && fw_enabled (fw s) &&
           opt_match (fw_bl (fw s)) (fun bl =>
             blacklist_match_uid bl uid ||
             (wl_enabled (fw s) &&
              opt_match (fw_wl (fw s)) (fun wl => negb (blacklist_match_uid wl uid)))))
       (modify_conn p (fun c => c <| netd_block_missed := true |>));;
     when (netd_resolve_waiting s >? 0)
       (modify (fun s => s <| netd_resolve_waiting ::= fun n => n - 1 |>);;
        when (netd_resolve_waiting s - 1 =? 0)
          (modify (fun s => s <| next_connections_dump ::=
                                   fun n => u64 (n - NETD_RESOLVE_DELAY_MS) |>)))).

(** The host of the connection from the cache of the DNS replies. *)
Definition resolve_from_lru tuple p : M state unit :=
  s ← get_state;
  ok ← malloc_ok;
  let '(host, lru) := IpLru.ip_lru_find (ip_to_host s) (dst_ip tuple) ok in
  modify (fun s => s <| ip_to_host := lru |>);;
  modify_conn p (fun c => c <| info := host |>);;
  match host with
  | None => mret tt
  | Some host =>
      modify_conn p (fun c => c <| info_from_lru := true |>);;
      data ← deref p;
      when (negb (conn_uid data =? UID_UNKNOWN))
        (slots ← gets new_conns;
         slots ← of_option (arr_slots slots);
         for_each (resolve_netd_conn host (conn_uid data)) slots);;
      check_blacklisted_domain p
  end.

Definition check_blacklisted_ip tuple p : M state unit :=
  s ← get_state;
  match mal_bl (malware s) with
  | None => mret tt
  | Some bl =>
      data ← deref p;
      when (negb (whitelisted_app data) && blacklist_match_ip bl (dst_ip tuple) (ipver tuple))
        (log_appname (conn_uid data);;
         when (negb (opt_match (mal_whitelist (malware s))
                       (fun wl => blacklist_match_ip wl (dst_ip tuple) (ipver tuple))))
           (modify_conn p (fun c => c <| blacklisted_ip := true |> <| to_block := true |>)));;
      modify (fun s => s <| bl_num_checked_connections ::= fun n => s32 (n + 1) |>)
  end.

Definition check_firewall tuple p : M state unit :=
  s ← get_state;
  data ← deref p;
  match fw_bl (fw s) with
  | None => mret tt
  | Some bl =>
      when (fw_enabled (fw s) && negb (to_block data))
        (modify_conn p (fun c => c <| to_block := blacklist_match_ip bl (dst_ip tuple) (ipver tuple) |>);;
         data ← deref p;
         (if to_block data then log_appname (conn_uid data)
          else
            modify_conn p (fun c => c <| to_block := blacklist_match_uid bl (conn_uid c) |>);;
            data ← deref p;
            when (to_block data) (log_appname (conn_uid data)));;
         modify (fun s => s <| fw_num_checked_connections ::= fun n => s32 (n + 1) |>))
  end.

Definition check_whitelisted_app (uid : Z) p : M state unit :=
  s ← get_state;
  match mal_whitelist (malware s) with
  | None => mret tt
  | Some wl =>
      modify_conn p (fun c => c <| whitelisted_app := blacklist_match_uid wl uid |>);;
      when (blacklist_match_uid wl uid) (log_appname uid)
  end.

(** The part of [pd_new_connection] after the allocations. *)
Definition setup_connection tuple (uid : Z) p : M state unit :=
  n ← gets new_conn_id;
  modify_conn p (fun c => c <| conn_uid := uid |> <| incr_id := n |>);;
  modify (fun s => s <| new_conn_id := s32 (n + 1) |>);;
  check_whitelisted_app uid p;;
  resolve_from_lru tuple p;;
  check_blacklisted_ip tuple p;;
  check_firewall tuple p;;
  check_whitelist_mode_block tuple p.

Definition pd_new_connection tuple (uid : Z) : M state (option conn_ptr) :=
  data ← calloc_conn;
  match data with
  | None => mret None
  | Some p =>
      ok ← malloc_ok;
      if negb ok then pd_purge_connection p;; mret None else
      modify_conn p (fun c => c <| ndpi_flow := Some ndpi_new_flow |>);;
      rv ← notif_connection NEW_CONNS tuple p;
      if rv <? 0 then pd_purge_connection p;; mret None else
      setup_connection tuple uid p;;
      mret (Some p)
  end.
End conn_ops.
