(* ===== verification/Examples.v ===== *)
(** A concrete environment for the witnesses: a tree of single addresses and a
    detection engine that takes every flow for DNS about the host "a.b", a
    state with everything disabled, and packets. *)
From Stdlib Require Import ZArith Lia.
From stdpp Require Import base option gmap numbers list.
From S2P Require Import Prelude Packet Lru PcapDump Blacklist NdpiProtos Conn.

Open Scope Z_scope.

#[export] Instance ex_tree : Ndpi (list Z) := {|
  ndpi_ptree_create := [];
  ndpi_ptree_insert p net bits := if decide (net ∈ p) then (-2, p) else (0, net :: p);
  ndpi_ptree_match p a := bool_decide (a ∈ p);
  ndpi_parse_ip_string s := match s with [49; d] => (4, d) | _ => (-1, 0) end;
  inet_pton4 s := None;
  inet_pton6 s := None
|}.

(** The flow is the number of packets seen. *)
#[export] Instance ex_flow : NdpiFlow Z := {|
  ndpi_new_flow := 0;
  ndpi_detection_process_packet f buf len time := (mk_ndpi_proto 0 NDPI_PROTOCOL_DNS, f + 1);
  ndpi_detection_giveup f := (mk_ndpi_proto 0 NDPI_PROTOCOL_UNKNOWN, f);
  ndpi_extra_dissection_possible f := true;
  host_server_name f := if f =? 0 then [] else [97; 46; 98];
  tls_quic_alpn f := None;
  http_url f := None;
  NDPI_NUM_BITS := 512;
  isClearTextProto p := 0;
  ndpi_get_proto_name p := [68]
|}.

(** No application has a name. *)
Definition ex_app_name (uid : Z) : option bytes := None.

Definition ex_blacklist : blacklist (list Z) := mk_blacklist [] [] [] (mk_stats 0 0 0 0 0).

Definition ex_state : pcapdroid (list Z) Z :=
  mk_pd 0 1000 (IpLru.mk_ip_lru 256 []) empty_array empty_array [] false false PAYLOAD_MODE_NONE
    0 0 0 0 zero_zstats (mk_cstats 0 0 0 0 0 0 false 0) []
    (mk_vpn BLOCK_QUIC_MODE_NEVER ex_blacklist false 0 0 false 0 false)
    (mk_pcap_dump false false false 0 0 0 None)
    (mk_malware false None None false false None None None [])
    (mk_firewall false None None false None None) (mk_tls false None None)
    ∅ zero_zstats [] true 0 false false false false 0 0 0 0 0 ∅ 1 [] [] [] [] [] [].

(** A UDP datagram 10.0.0.1:1000 -> 8.8.8.8:53 with a DNS header, and the same
    from the server, then zeroes for the rest of the buffer. *)
Definition ex_dns_query : bytes :=
  [0x45; 0; 0; 40; 0x12; 0x34; 0x40; 0; 64; 17; 0; 0; 10; 0; 0; 1; 8; 8; 8; 8;
   0x03; 0xe8; 0; 53; 0; 20; 0; 0;
   0xaa; 0xbb; 1; 0; 0; 1; 0; 0; 0; 0; 0; 0] ++ replicate 24 0.
Definition ex_dns_answer : bytes :=
  [0x45; 0; 0; 40; 0x12; 0x34; 0x40; 0; 64; 17; 0; 0; 8; 8; 8; 8; 10; 0; 0; 1;
   0; 53; 0x03; 0xe8; 0; 20; 0; 0;
   0xaa; 0xbb; 0x81; 0x80; 0; 1; 0; 0; 0; 0; 0; 0] ++ replicate 24 0.

(** 10.0.0.1:4096 -> 1.1.1.1:443, a SYN and a RST. *)
Definition ex_tcp (flags : Z) : bytes :=
  [0x45; 0; 0; 40; 0x12; 0x34; 0x40; 0; 64; 6; 0; 0; 10; 0; 0; 1; 1; 1; 1; 1;
   0x10; 0; 0x01; 0xbb; 0; 0; 0; 1; 0; 0; 0; 0; 0x50; flags; 0; 0; 0; 0; 0; 0] ++ replicate 24 0.
