(* ===== verification/ConnInv.v ===== *)
(** The ownership invariant of the connection records, and that the operations
    of Conn keep it: who may point to a record, when a record may be freed. *)
From Stdlib Require Import ZArith Lia.
From stdpp Require Import base option gmap numbers list.
From S2P Require Import Prelude Packet Uthash Lru AppNames PcapDump Blacklist NdpiProtos Conn.

Open Scope Z_scope.

(** None of the outcomes is a failure. *)
Definition all_ok (l : list bool) : Prop := Forall (eq true) l.

Lemma all_ok_tail l : all_ok l -> all_ok (tail l).
Proof. unfold all_ok. destruct l; [done|]. by intros [_ ?]%Forall_cons. Qed.

Lemma all_ok_next l : all_ok l -> next_outcome l = true.
Proof. unfold all_ok, next_outcome. destruct l; [done|]. by intros [<- _]%Forall_cons. Qed.

#[export] Hint Resolve all_ok_tail all_ok_next : core.

(** In a VPN capture the connections are those of the engine of zdtun: the
    records of the open ones are given. *)
Class CaptureMode := vpn_table : option (list conn_ptr).
Definition libpcap_mode : CaptureMode := None.
Definition vpn_capture_mode (l : list conn_ptr) : CaptureMode := Some l.
Definition vpn_mode `{CaptureMode} : bool := if vpn_table then true else false.

Section inv.
Context {P F : Type} `{Ndpi P} `{NdpiFlow F} {cmode : CaptureMode}.
Abbreviation state := (pcapdroid P F).
Implicit Types (s : state) (c : pd_conn F) (p : conn_ptr).

(** ** The invariant *)

(** The number of slots agrees with the counter and fits the allocation. *)
Record arr_wf (arr : conn_array) : Prop := {
  aw_cur : cur_items arr = Z.of_nat (length (default [] (items arr)));
  aw_size : cur_items arr <= arr_size arr;
  aw_null : items arr = None -> arr_size arr = 0
}.

Definition slots s : list conn_and_tuple :=
  default [] (items (new_conns s)) ++ default [] (items (conns_updates s)).

Definition slot_ptrs s : list conn_ptr := slot_data <$> slots s.

(** The records of the connections that are not closed. *)
Definition table_ptrs s : list conn_ptr := match vpn_table with Some l => l | None => (connections s).*2 end.

Lemma table_ptrs_same s s' :
  connections s' = connections s -> table_ptrs s' = table_ptrs s.
Proof. intros Hc. unfold table_ptrs. by rewrite Hc. Qed.

(** A malicious domain is a known one. *)
Definition bl_ok c : Prop := blacklisted_domain c = true -> info c <> None.

Definition count_proto (t : list (zdtun_5tuple * conn_ptr)) (proto : Z) : Z :=
  HASH_COUNT (filter (fun e => ipproto e.1 = proto) t).

Definition counts_ok s : Prop :=
  num_tcp_conn (zstats s) = u16 (count_proto (connections s) IPPROTO_TCP) /\
  num_udp_conn (zstats s) = u16 (count_proto (connections s) IPPROTO_UDP) /\
  num_icmp_conn (zstats s) = u16 (count_proto (connections s) IPPROTO_ICMP).

(** A new list waiting to be used comes with the readable status of its files. *)
Definition malware_ok (m : malware_detection P) : Prop :=
  forall bl, mal_new_bl m = Some bl ->
    exists arr l, status_arr m = Some arr /\ status_items arr = Some l.

(** [cur]: the connection that an operation is working on, which may not be
    reachable yet or any more. [strict]: no JNI call fails, and then every
    record is reachable. *)
Record inv (cur : option conn_ptr) (strict : bool) s : Prop := {
  inv_new : arr_wf (new_conns s);
  inv_updates : arr_wf (conns_updates s);
  inv_slots_nodup : NoDup (slot_ptrs s);
  inv_slots : forall p, p ∈ slot_ptrs s ->
    exists c, heap s !! p = Some c /\ pending_notification c = true /\
              (vpn_mode = false -> cur <> Some p -> update_type c <> 0);
  inv_table : vpn_mode = false -> table_wf (connections s);
  inv_table_nodup : NoDup (table_ptrs s);
  inv_table_live : forall p, p ∈ table_ptrs s ->
    exists c, heap s !! p = Some c /\ (cur <> Some p -> to_purge c = false);
  inv_heap : forall p c, heap s !! p = Some c -> p < next_ptr s /\ bl_ok c;
  inv_reallocs : all_ok (reallocs s);
  inv_strndups : all_ok (strndups s);
  inv_dumper : forall d, dumper (pcap_dump s) = Some d -> dumper_wf d;
  inv_counts : vpn_mode = false -> counts_ok s;
  inv_mode : vpn_capture s = vpn_mode;
  inv_malware : malware_ok (malware s);
  inv_strict : strict = true -> all_ok (jni_calls s);
  inv_pending : strict = true -> forall p c,
    heap s !! p = Some c -> pending_notification c = true -> p ∈ slot_ptrs s;
  inv_owned : strict = true -> forall p c,
    heap s !! p = Some c -> cur <> Some p -> p ∈ table_ptrs s \/ (p ∈ slot_ptrs s /\ to_purge c = true)
}.

(** ** Steps that only touch the contents of the records *)
Record quiet_conn c c' : Prop := {
  qc_pending : pending_notification c' = pending_notification c;
  qc_purge : to_purge c' = to_purge c;
  qc_update : update_type c <> 0 -> update_type c' <> 0;
  qc_bl : bl_ok c -> bl_ok c'
}.

Record quiet s s' : Prop := {
  qt_new : new_conns s' = new_conns s;
  qt_updates : conns_updates s' = conns_updates s;
  qt_connections : connections s' = connections s;
  qt_zdt : zdt_connections s' = zdt_connections s;
  qt_next : next_ptr s' = next_ptr s;
  qt_zstats : zstats s' = zstats s;
  qt_dump : pcap_dump s' = pcap_dump s;
  qt_mode : vpn_capture s' = vpn_capture s;
  qt_malware : malware s' = malware s;
  qt_fw : fw s' = fw s;
  qt_tls : tls s' = tls s;
  qt_vpn : vpn s' = vpn s;
  qt_reallocs : reallocs s' = reallocs s;
  qt_strndups : all_ok (strndups s) -> all_ok (strndups s');
  qt_jni : all_ok (jni_calls s) -> all_ok (jni_calls s');
  qt_heap : forall p, option_Forall2 quiet_conn (heap s !! p) (heap s' !! p)
}.

#[export] Instance quiet_conn_preorder : PreOrder quiet_conn.
Proof.
  split; [by split|]. intros c1 c2 c3 [] []. split; [congruence|congruence|tauto|tauto].
Qed.

Lemma option_Forall2_refl {A} (R : A -> A -> Prop) `{!Reflexive R} (o : option A) :
  option_Forall2 R o o.
Proof. destruct o; by constructor. Qed.

Lemma option_Forall2_trans {A} (R : A -> A -> Prop) `{!Transitive R} (a b c : option A) :
  option_Forall2 R a b -> option_Forall2 R b c -> option_Forall2 R a c.
Proof. intros [x y Hxy|] Hbc; inversion Hbc; subst; constructor. by etrans. Qed.

#[export] Instance quiet_preorder : PreOrder quiet.
Proof.
  split.
  - intros s. by split.
  - intros s1 s2 s3 [] []. split; try congruence; try tauto.
    intros p. exact (option_Forall2_trans _ _ _ _ (qt_heap0 p) (qt_heap1 p)).
Qed.

Lemma option_Forall2_Some_l {A} (R : A -> A -> Prop) a o :
  option_Forall2 R (Some a) o -> exists b, o = Some b /\ R a b.
Proof. intros Hr. inversion Hr; subst. eauto. Qed.

Lemma option_Forall2_Some_r {A} (R : A -> A -> Prop) o b :
  option_Forall2 R o (Some b) -> exists a, o = Some a /\ R a b.
Proof. intros Hr. inversion Hr; subst. eauto. Qed.

Lemma quiet_live s s' p c :
  quiet s s' -> heap s !! p = Some c -> exists c', heap s' !! p = Some c' /\ quiet_conn c c'.
Proof. intros Hq Hp. pose proof (qt_heap _ _ Hq p) as Hr. rewrite Hp in Hr. by apply option_Forall2_Some_l. Qed.

Lemma quiet_live_inv s s' p c' :
  quiet s s' -> heap s' !! p = Some c' -> exists c, heap s !! p = Some c /\ quiet_conn c c'.
Proof. intros Hq Hp. pose proof (qt_heap _ _ Hq p) as Hr. rewrite Hp in Hr. by apply option_Forall2_Some_r. Qed.

Lemma quiet_slots s s' : quiet s s' -> slots s' = slots s.
Proof. intros []. unfold slots. congruence. Qed.

Lemma quiet_slot_ptrs s s' : quiet s s' -> slot_ptrs s' = slot_ptrs s.
Proof. intros Hq. unfold slot_ptrs. by rewrite (quiet_slots s s'). Qed.

Lemma quiet_table_ptrs s s' : quiet s s' -> table_ptrs s' = table_ptrs s.
Proof. intros []. by apply table_ptrs_same. Qed.

Lemma quiet_inv cur strict s s' : quiet s s' -> inv cur strict s -> inv cur strict s'.
Proof.
  intros Hq Hi. pose proof (quiet_slot_ptrs _ _ Hq) as Hs. pose proof (quiet_table_ptrs _ _ Hq) as Ht.
  pose proof Hq as Hq0. destruct Hq0. destruct Hi.
  split; rewrite ?Hs, ?Ht, ?qt_new0, ?qt_updates0, ?qt_connections0, ?qt_next0, ?qt_dump0,
    ?qt_reallocs0, ?qt_mode0, ?qt_malware0; auto.
  - intros p Hp. destruct (inv_slots0 p Hp) as (c & Hc & Hpn & Hu).
    destruct (quiet_live s s' p c Hq Hc) as (c' & Hc' & []). exists c'. split; [done|].
    split; [congruence|auto].
  - intros p Hp. destruct (inv_table_live0 p Hp) as (c & Hc & Htp).
    destruct (quiet_live s s' p c Hq Hc) as (c' & Hc' & []). exists c'. split; [done|].
    intros Hne. rewrite qc_purge0. auto.
  - intros p c' Hc'. destruct (quiet_live_inv s s' p c' Hq Hc') as (c & Hc & []).
    destruct (inv_heap0 p c Hc). split; [lia|auto].
  - unfold counts_ok. rewrite qt_zstats0, qt_connections0. done.
  - intros Hst p c' Hc'. destruct (quiet_live_inv s s' p c' Hq Hc') as (c & Hc & []).
    intros Hpn. apply (inv_pending0 Hst p c Hc). congruence.
  - intros Hst p c' Hc' Hcur. destruct (quiet_live_inv s s' p c' Hq Hc') as (c & Hc & []).
    destruct (inv_owned0 Hst p c Hc Hcur) as [|[]]; [by left|right; split; [done|congruence]].
Qed.

(** ** Rules *)
Definition quietly {A} (m : M state A) s : Prop := wp m (fun _ s' => quiet s s') s.

Lemma wp_quietly {A B} (m : M state A) (k : A -> M state B) Q s :
  quietly m s -> (forall a s', quiet s s' -> wp (k a) Q s') -> wp (m ≫= k) Q s.
Proof. intros Hm Hk. apply wp_bind. by eapply wp_mono. Qed.

Lemma quietly_bind {A B} (m : M state A) (k : A -> M state B) s :
  quietly m s -> (forall a s', quiet s s' -> quietly (k a) s') -> quietly (m ≫= k) s.
Proof.
  intros Hm Hk. apply wp_quietly; [done|]. intros a s' Hq.
  eapply wp_mono; [by apply Hk|]. intros b s'' Hq'. by etrans.
Qed.

Lemma quietly_ret {A} (a : A) s : quietly (mret a) s.
Proof. by apply wp_ret. Qed.

Lemma quietly_gets {A} (f : state -> A) s : quietly (gets f) s.
Proof. by apply wp_gets. Qed.

Lemma quietly_when (b : bool) (m : M state unit) s :
  (b = true -> quietly m s) -> quietly (when b m) s.
Proof. intros Hm. apply wp_when; [done|]. by intros _. Qed.

Lemma quietly_modify f s : quiet s (f s) -> quietly (modify f) s.
Proof. intros Hq. by apply wp_modify. Qed.

Lemma wp_deref p c (Q : pd_conn F -> state -> Prop) s :
  heap s !! p = Some c -> Q c s -> wp (deref p) Q s.
Proof. intros Hp HQ. unfold wp, deref, mbind, M_bind, gets, of_option. by rewrite Hp. Qed.

Lemma quietly_deref p c s : heap s !! p = Some c -> quietly (deref p) s.
Proof. intros Hp. by eapply wp_deref. Qed.

Lemma wp_modify_conn p (f : pd_conn F -> pd_conn F) c (Q : unit -> state -> Prop) s :
  heap s !! p = Some c -> Q tt (s <| heap ::= <[p := f c]> |>) -> wp (modify_conn p f) Q s.
Proof.
  intros Hp HQ. unfold modify_conn. apply wp_bind. eapply wp_deref; [done|]. by apply wp_modify.
Qed.

Lemma quiet_insert s p c c' :
  heap s !! p = Some c -> quiet_conn c c' -> quiet s (s <| heap ::= <[p := c']> |>).
Proof.
  intros Hp Hc. split; try done. intros p'. change (heap (upd _ _ s)) with (<[p := c']> (heap s)).
  destruct (decide (p = p')) as [<-|].
  - rewrite Hp, lookup_insert_eq. by constructor.
  - rewrite lookup_insert_ne by done. reflexivity.
Qed.

Lemma quietly_modify_conn p f c s :
  heap s !! p = Some c -> quiet_conn c (f c) -> quietly (modify_conn p f) s.
Proof. intros Hp Hc. eapply wp_modify_conn; [done|]. by eapply quiet_insert. Qed.

(** The outcomes of the environment. *)
Lemma quiet_mallocs s l : quiet s (s <| mallocs := l |>).
Proof. by split. Qed.

Lemma quietly_malloc_ok s : quietly malloc_ok s.
Proof. unfold malloc_ok. wp_steps. apply quiet_mallocs. Qed.

Lemma wp_malloc_ok (Q : bool -> state -> Prop) s :
  (forall b, Q b (s <| mallocs := tail (mallocs s) |>)) -> wp malloc_ok Q s.
Proof. intros HQ. unfold malloc_ok. wp_steps. apply HQ. Qed.

Lemma quiet_strndups s : quiet s (s <| strndups := tail (strndups s) |>).
Proof. split; try done. intros Hs. by apply all_ok_tail. Qed.

Lemma wp_pd_strndup str n (Q : option bytes -> state -> Prop) s :
  all_ok (strndups s) ->
  Q (Some (take (Z.to_nat n) str)) (s <| strndups := tail (strndups s) |>) ->
  wp (pd_strndup str n) Q s.
Proof.
  intros Hok HQ. unfold pd_strndup, strndup_ok. wp_steps. by rewrite all_ok_next.
Qed.

Lemma wp_log_appname f uid (Q : unit -> state -> Prop) s :
  (forall ms names, Q tt (s <| mallocs := ms |> <| pd_uid2app := names |>)) ->
  wp (log_appname f uid) Q s.
Proof. intros HQ. unfold log_appname. apply wp_bind, wp_malloc_ok. intros b. apply wp_modify, HQ. Qed.

Lemma quietly_log_appname f uid s : quietly (log_appname f uid) s.
Proof. apply wp_log_appname. intros ms names. by split. Qed.

Lemma quietly_deref_bind {A} p c (k : pd_conn F -> M state A) s :
  heap s !! p = Some c -> quietly (k c) s -> quietly (deref p ≫= k) s.
Proof. intros Hp Hk. apply wp_bind. by eapply wp_deref. Qed.

Lemma quietly_gets_bind {A B} (f : state -> A) (k : A -> M state B) s :
  quietly (k (f s)) s -> quietly (gets f ≫= k) s.
Proof. intros Hk. by apply wp_bind, wp_gets. Qed.

Lemma quietly_trans {A} (m : M state A) s0 s :
  quiet s0 s -> quietly m s -> wp m (fun _ s' => quiet s0 s') s.
Proof. intros Hq Hm. eapply wp_mono; [done|]. intros a s' Hq'. by etrans. Qed.

Lemma quietly_strndup_bind {A} str n (k : option bytes -> M state A) s :
  all_ok (strndups s) ->
  (forall s', quiet s s' -> quietly (k (Some (take (Z.to_nat n) str))) s') ->
  quietly (pd_strndup str n ≫= k) s.
Proof.
  intros Hok Hk. apply wp_bind, wp_pd_strndup; [done|].
  apply quietly_trans; [apply quiet_strndups|]. apply Hk, quiet_strndups.
Qed.

(** An update that does not touch the fields of the invariant. *)
Lemma quiet_conn_same c c' :
  pending_notification c' = pending_notification c -> to_purge c' = to_purge c ->
  update_type c' = update_type c -> blacklisted_domain c' = blacklisted_domain c ->
  info c' = info c -> quiet_conn c c'.
Proof. intros ? ? ? Hb Hi. split; try congruence. unfold bl_ok. by rewrite Hb, Hi. Qed.

Lemma lor_nonzero u flag : flag <> 0 -> Z.lor u flag <> 0.
Proof. intros Hf [_ ?]%Z.lor_eq_0_iff. done. Qed.

Lemma quiet_set_update c flag : flag <> 0 -> quiet_conn c (set_update c flag).
Proof. intros Hf. split; try done. intros _. by apply lor_nonzero. Qed.
End inv.

(** Moves the liveness of a record through a quiet step. *)
Ltac relive :=
  repeat match goal with
  | Hq : quiet ?s ?s', Hc : heap ?s !! ?p = Some _ |- _ =>
      lazymatch goal with
      | _ : heap s' !! p = Some _ |- _ => fail
      | _ => let c := fresh "c" in let Hl := fresh "Hlive" in let Hk := fresh "Hquiet" in
             destruct (quiet_live s s' p _ Hq Hc) as (c & Hl & Hk)
      end
  | Hq : quiet ?s ?s', Ho : all_ok (strndups ?s) |- _ =>
      lazymatch goal with
      | _ : all_ok (strndups s') |- _ => fail
      | _ => pose proof (qt_strndups s s' Hq Ho)
      end
  end.

(** One step of a [quietly] goal. *)
Ltac quiet_step :=
  lazymatch goal with
  | |- quietly (mret _) _ => apply quietly_ret
  | |- quietly (gets _ ≫= _) _ => apply quietly_gets_bind
  | |- quietly (gets _) _ => apply quietly_gets
  | |- quietly (deref ?p ≫= _) ?s =>
      match goal with Hc : heap s !! p = Some ?c |- _ => eapply (quietly_deref_bind p c); [exact Hc|] end
  | |- quietly (log_appname _ _) _ => apply quietly_log_appname
  | |- quietly malloc_ok _ => apply quietly_malloc_ok
  | |- quietly (when _ _) _ => apply quietly_when; intros ?
  | |- quietly (pd_strndup _ _ ≫= _) _ =>
      apply quietly_strndup_bind;
        [assumption|let Hq := fresh "Hq" in intros ? Hq; relive]
  | |- quietly (modify_conn ?p _) ?s =>
      match goal with Hc : heap s !! p = Some ?c |- _ => apply (quietly_modify_conn p _ c s Hc) end
  | |- quietly (modify _) _ => apply quietly_modify; by split
  | |- quietly (of_option _ ≫= _) _ => fail
  | |- quietly (_ ≫= _) _ =>
      apply quietly_bind; [|let Hq := fresh "Hq" in intros ? ? Hq; relive]
  end; cbv beta.
Ltac quiet_steps := repeat quiet_step.

Section ops.
Context {P F : Type} `{Ndpi P} `{NdpiFlow F} {cmode : CaptureMode} (java_app_name : Z -> option bytes).
Abbreviation state := (pcapdroid P F).
Implicit Types (s : state) (c : pd_conn F) (p : conn_ptr).

Lemma check_blacklisted_domain_quiet p c s :
  heap s !! p = Some c -> quietly (check_blacklisted_domain java_app_name p) s.
Proof.
  intros Hc. unfold check_blacklisted_domain. quiet_step.
  destruct (nonempty (info c)) as [host|] eqn:Eh; [|by quiet_step].
  assert (info c <> None) as Hinfo by (intros E; by rewrite E in Eh).
  quiet_step. quiet_step.
  - quiet_step. apply wp_bind, wp_log_appname. intros ms names. cbv beta.
    apply quietly_trans; [by split|]. quiet_step.
    apply (quietly_modify_conn p _ c); [exact Hc|]. split; try done.
    intros _ _. exact Hinfo.
  - quiet_steps. destruct (fw_bl _); [|by quiet_step]. quiet_steps. by apply quiet_conn_same.
Qed.

Lemma vpn_process_ndpi_quiet tuple p c s :
  heap s !! p = Some c -> quietly (vpn_process_ndpi tuple p) s.
Proof.
  intros Hc. unfold vpn_process_ndpi. by quiet_steps; apply quiet_conn_same.
Qed.

Lemma process_alpn_quiet c (flow : F) : quiet_conn c (process_alpn c flow).
Proof.
  unfold process_alpn. repeat case_match; try reflexivity; try by apply quiet_conn_same.
  all: etrans; [|by apply quiet_set_update]; by apply quiet_conn_same.
Qed.

Lemma process_ndpi_data_quiet tuple p c s :
  heap s !! p = Some c -> ndpi_flow c <> None -> all_ok (strndups s) ->
  quietly (process_ndpi_data java_app_name tuple p) s.
Proof.
  intros Hc Hf Hok. unfold process_ndpi_data. quiet_step.
  destruct (ndpi_flow c) as [flow|]; [|done]. apply wp_bind, (wp_of_option _ flow); [done|].
  cbv zeta. apply quietly_bind.
  - destruct (_ =? _); [quiet_steps; apply process_alpn_quiet|].
    destruct (_ =? _); [quiet_steps|]. destruct (_ =? _); [|quiet_steps].
    destruct (url c), (http_url flow) as [u|]; quiet_steps.
    etrans; [|by apply quiet_set_update]. by apply quiet_conn_same.
  - intros found s' Hq. relive. apply quietly_bind.
    + destruct found as [host|]; quiet_steps.
      all: try by apply quiet_set_update.
      * by split.
      * by eapply check_blacklisted_domain_quiet.
    + intros _ s'' Hq'. relive. quiet_steps. by eapply vpn_process_ndpi_quiet.
Qed.

Lemma conn_free_ndpi_quiet p c s :
  heap s !! p = Some c -> quietly (conn_free_ndpi p) s.
Proof. intros Hc. unfold conn_free_ndpi. quiet_step. by apply quiet_conn_same. Qed.

Lemma pd_giveup_dpi_quiet tuple p c s :
  heap s !! p = Some c -> all_ok (strndups s) ->
  quietly (pd_giveup_dpi java_app_name p tuple) s.
Proof.
  intros Hc Hok. unfold pd_giveup_dpi. quiet_step.
  destruct (ndpi_flow c) as [flow|] eqn:Ef; [|by quiet_step].
  apply wp_bind. destruct (l7proto c =? _).
  - simpl. destruct (ndpi_detection_giveup flow) as [n_proto flow'].
    eapply wp_modify_conn; [done|]. cbv beta.
    set (c1 := c <| ndpi_flow := Some flow' |> <| l7proto := _ |> <| encrypted_l7 := _ |>).
    set (s1 := s <| heap ::= _ |>).
    assert (heap s1 !! p = Some c1) as Hc1 by apply lookup_insert_eq.
    apply quietly_trans; [apply (quiet_insert s p c); [done|by apply quiet_conn_same]|].
    quiet_step; [by eapply process_ndpi_data_quiet|by eapply conn_free_ndpi_quiet].
  - apply wp_ret. apply quietly_bind.
    + eapply process_ndpi_data_quiet; [done|by rewrite Ef|done].
    + intros _ s' Hq. relive. by eapply conn_free_ndpi_quiet.
Qed.
End ops.

(** ** Notifications *)
Section notify.
Context {P F : Type} `{Ndpi P} `{NdpiFlow F} {cmode : CaptureMode} (java_app_name : Z -> option bytes).
Abbreviation state := (pcapdroid P F).
Implicit Types (s : state) (c : pd_conn F) (p : conn_ptr).

(** Steps that may also enqueue records. *)
Definition calm_conn c c' : Prop :=
  to_purge c' = to_purge c /\ (update_type c <> 0 -> update_type c' <> 0).

Record calm s s' : Prop := {
  cm_connections : connections s' = connections s;
  cm_zdt : zdt_connections s' = zdt_connections s;
  cm_zstats : zstats s' = zstats s;
  cm_malware : malware s' = malware s;
  cm_slots : forall p, p ∈ slot_ptrs s -> p ∈ slot_ptrs s';
  cm_heap : forall p c, heap s !! p = Some c ->
    exists c', heap s' !! p = Some c' /\ calm_conn c c'
}.

#[export] Instance calm_conn_preorder : PreOrder calm_conn.
Proof. split; [by intros c|]. intros c1 c2 c3 [] []. split; [congruence|tauto]. Qed.

#[export] Instance calm_preorder : PreOrder calm.
Proof.
  split.
  { intros s. split; try done. intros p c Hc. by exists c. }
  intros s1 s2 s3 [C1 D1 Z1 M1 S1 P1] [C2 D2 Z2 M2 S2 P2].
  split; [congruence|congruence|congruence|congruence|auto|].
  intros p c Hc. destruct (P1 p c Hc) as (c' & Hc' & ?).
  destruct (P2 p c' Hc') as (c'' & Hc'' & ?). exists c''. split; [done|]. by etrans.
Qed.

Lemma quiet_calm s s' : quiet s s' -> calm s s'.
Proof.
  intros Hq. pose proof Hq as []. split; try done.
  - intros p. by rewrite (quiet_slot_ptrs s s').
  - intros p c Hc. destruct (quiet_live s s' p c Hq Hc) as (c' & Hc' & []). by exists c'.
Qed.

Definition set_arr_state (a : conns_arr) (arr : conn_array) s : state :=
  match a with
  | NEW_CONNS => s <| new_conns := arr |>
  | CONNS_UPDATES => s <| conns_updates := arr |>
  end.

Lemma wp_set_arr a arr (Q : unit -> state -> Prop) s :
  Q tt (set_arr_state a arr s) -> wp (set_arr a arr) Q s.
Proof. intros HQ. by apply wp_modify. Qed.

Lemma inv_arr_wf cur strict s a : inv cur strict s -> arr_wf (get_arr a s).
Proof. intros []. by destruct a. Qed.

(** A larger allocation with the same slots. *)
Lemma inv_grow cur strict s a arr l :
  inv cur strict s -> arr_wf arr ->
  default [] (items arr) = default [] (items (get_arr a s)) -> all_ok l ->
  inv cur strict (set_arr_state a arr (s <| reallocs := l |>)) /\
  calm s (set_arr_state a arr (s <| reallocs := l |>)).
Proof.
  intros Hi Hw Hd Hl. set (s' := set_arr_state a arr (s <| reallocs := l |>)).
  assert (slots s' = slots s) as Hs.
  { unfold slots, s'. destruct a; cbn in Hd |- *; cbv [set_arr_state upd eta]; simpl; by rewrite Hd. }
  assert (slot_ptrs s' = slot_ptrs s) as Hp by (unfold slot_ptrs; by rewrite Hs).
  split.
  - destruct Hi. destruct a; split; rewrite ?Hp; try done.
  - split; [by destruct a|by destruct a|by destruct a|by destruct a| |].
    + intros p. by rewrite Hp.
    + intros p c Hc. exists c. by destruct a.
Qed.

Lemma wp_extend_array cur strict s a (Q : Z -> state -> Prop) :
  inv cur strict s ->
  (forall arr s', inv cur strict s' -> calm s s' -> get_arr a s' = arr ->
     heap s' = heap s -> slots s' = slots s ->
     items arr <> None -> cur_items arr < arr_size arr -> Q 0 s') ->
  wp (extend_array a) Q s.
Proof.
  intros Hi HQ. pose proof (inv_arr_wf cur strict s a Hi) as Hw. destruct Hw as [Hc Hs Hn].
  unfold extend_array. wp_steps. destruct (Z.geb_spec (cur_items (get_arr a s)) (arr_size (get_arr a s))).
  - pose proof (inv_reallocs _ _ _ Hi) as Hr. unfold realloc_ok. wp_steps.
    rewrite all_ok_next by done. apply wp_bind, wp_set_arr, wp_ret.
    set (arr := upd _ _ (upd _ _ _)).
    destruct (inv_grow cur strict s a arr (tail (reallocs s)) Hi) as [Hi' Hcm].
    + unfold arr. split; cbn; cbv [upd eta]; simpl; [done| |done].
      destruct (Z.eqb_spec (arr_size (get_arr a s)) 0); lia.
    + done.
    + by apply all_ok_tail.
    + apply (HQ arr); try done.
      * by destruct a.
      * by destruct a.
      * unfold slots. destruct a; unfold arr; cbv [set_arr_state upd eta get_arr]; simpl; done.
      * unfold arr; cbv [upd eta]; simpl. destruct (Z.eqb_spec (arr_size (get_arr a s)) 0); lia.
  - apply wp_ret. apply (HQ (get_arr a s)); try done.
    + intros E. rewrite E in *. rewrite Hn in * by done. simpl in Hc. lia.
Qed.

Lemma inv_pending_iff cur strict s p c :
  inv cur strict s -> heap s !! p = Some c -> pending_notification c = false ->
  p ∉ slot_ptrs s.
Proof. intros Hi Hc Hpn Hp. destruct (inv_slots _ _ _ Hi p Hp) as (c' & Hc' & ? & _). congruence. Qed.

(** The store with the notification of [p] pending. *)
Definition set_pending p c s : state :=
  s <| heap ::= <[p := c <| pending_notification := true |>]> |>.

Lemma inv_push cur strict s a arr tuple p c :
  inv cur strict s -> heap s !! p = Some c -> pending_notification c = false ->
  (cur = Some p \/ update_type c <> 0) ->
  arr_push (get_arr a s) (mk_slot tuple p) = Some arr ->
  let s' := set_pending p c (set_arr_state a arr s) in
  inv cur strict s' /\ calm s s' /\ p ∈ slot_ptrs s'.
Proof.
  intros Hi Hc Hpn Hcu Hpush s'. pose proof (inv_pending_iff _ _ _ _ _ Hi Hc Hpn) as Hnp.
  pose proof (inv_arr_wf cur strict s a Hi) as Hw.
  unfold arr_push in Hpush. destruct (items (get_arr a s)) as [l|] eqn:El; [|done]. simpl in Hpush.
  destruct (Z.eqb_spec (cur_items (get_arr a s)) (Z.of_nat (length l))) as [Hlen|]; [|done].
  destruct (Z.ltb_spec (cur_items (get_arr a s)) (arr_size (get_arr a s))); [|done].
  simpl in Hpush. injection Hpush as Harr.
  assert (slot_ptrs s' ≡ₚ p :: slot_ptrs s) as Hs.
  { unfold slot_ptrs, slots, s'. rewrite <- Harr.
    destruct a; cbv [set_pending set_arr_state upd eta get_arr] in El |- *; simpl; rewrite El; simpl;
      rewrite ?fmap_app, <- ?app_assoc; simpl; rewrite ?fmap_app; solve_Permutation. }
  assert (connections s' = connections s /\ zdt_connections s' = zdt_connections s) as [Hcn Hzn] by (by destruct a).
  assert (table_ptrs s' = table_ptrs s) as Htp by (by apply table_ptrs_same).
  assert (heap s' = <[p := c <| pending_notification := true |>]> (heap s)) as Hh by (by destruct a).
  assert (arr_wf arr) as Hw'.
  { rewrite <- Harr. split; cbv [upd eta]; simpl; [|lia|done]. rewrite length_app. simpl. lia. }
  split; [|split; [split|]].
  - pose proof Hi as Hi0. destruct Hi0.
    split; rewrite ?Hh, ?Hcn, ?Htp; try done; try (destruct a; done).
    + rewrite Hs. by constructor.
    + intros q. rewrite Hs, elem_of_cons. intros [->|Hq].
      * exists (c <| pending_notification := true |>). rewrite lookup_insert_eq.
        split; [done|]. split; [done|]. intros _ Hne. destruct Hcu; [done|assumption].
      * destruct (inv_slots0 q Hq) as (c' & Hc' & Hr). exists c'.
        rewrite lookup_insert_ne by (by intros ->). done.
    + intros q Hq.
      destruct (inv_table_live0 q Hq) as (c' & Hc' & Hr).
      destruct (decide (p = q)) as [<-|].
      * rewrite lookup_insert_eq. eexists; split; [done|].
        rewrite Hc in Hc'. injection Hc' as <-. exact Hr.
      * rewrite lookup_insert_ne by done. eauto.
    + intros q c'. rewrite lookup_insert_Some. intros [[<- <-]|[_ Hq]].
      * destruct (inv_heap0 p c Hc). destruct a; done.
      * destruct (inv_heap0 q c' Hq). destruct a; done.
    + intros Hst q c'. rewrite lookup_insert_Some, Hs, elem_of_cons. intros [[<- <-]|[_ Hq]]; [by left|].
      right. eauto.
    + intros Hst q c'. rewrite lookup_insert_Some, Hs, elem_of_cons. intros [[<- <-]|[_ Hq]] Hne.
      { destruct (inv_owned0 Hst p c Hc Hne) as [|[? _]]; [by left|done]. }
      destruct (inv_owned0 Hst q c' Hq Hne) as [|[? ?]]; [by left|right; by split; [right|]].
  - by destruct a.
  - by destruct a.
  - by destruct a.
  - by destruct a.
  - intros q. rewrite Hs. by right.
  - intros q c' Hq. rewrite Hh. destruct (decide (p = q)) as [<-|].
    + rewrite lookup_insert_eq. eexists. split; [done|]. rewrite Hc in Hq. by injection Hq as <-.
    + rewrite lookup_insert_ne by done. by exists c'.
  - rewrite Hs. by left.
Qed.

(** After the call the record has a pending notification, in the arrays unless
    an earlier JNI failure lost it. *)
Lemma enqueue_inv cur strict a tuple p c s :
  inv cur strict s -> heap s !! p = Some c -> (cur = Some p \/ update_type c <> 0) ->
  wp (enqueue a tuple p)
     (fun rv s' => rv = 0 /\ inv cur strict s' /\ calm s s' /\
        (strict = true -> p ∈ slot_ptrs s') /\
        (pending_notification c = false -> p ∈ slot_ptrs s') /\
        heap s' = <[p := c <| pending_notification := true |>]> (heap s)) s.
Proof.
  intros Hi Hc Hcu. unfold enqueue. apply wp_bind. eapply wp_deref; [done|].
  destruct (pending_notification c) eqn:Epn.
  - apply wp_ret. split; [done|]. split; [done|]. split; [done|].
    split; [intros Hst; by eapply inv_pending|]. split; [done|].
    rewrite insert_id; [done|]. rewrite Hc. f_equal.
    destruct c. simpl in Epn. by rewrite Epn.
  - apply wp_bind. eapply wp_extend_array; [done|].
    intros arr s2 Hi2 Hcm Harr Hh Hsl Hitems Hlt. cbv beta.
    change (0 <? 0) with false. cbv iota.
    apply wp_bind, wp_gets. rewrite Harr.
    pose proof (inv_arr_wf cur strict s2 a Hi2) as [Hcur _ _]. rewrite Harr in Hcur.
    destruct (items arr) as [l|] eqn:El; [|done]. simpl in Hcur.
    set (arr' := arr <| items := Some (l ++ [mk_slot tuple p]) |> <| cur_items := cur_items arr + 1 |>).
    assert (arr_push arr (mk_slot tuple p) = Some arr') as Hpush.
    { unfold arr_push. rewrite El. simpl. rewrite (proj2 (Z.eqb_eq _ _) Hcur).
      by destruct (Z.ltb_spec (cur_items arr) (arr_size arr)); [|lia]. }
    apply wp_bind, (wp_of_option _ arr'); [done|]. apply wp_bind, wp_set_arr, wp_bind.
    rewrite <- Harr in Hpush. rewrite <- Hh in Hc.
    destruct (inv_push cur strict s2 a arr' tuple p c Hi2 Hc Epn Hcu Hpush) as (Hi3 & Hcm3 & Hin).
    eapply wp_modify_conn; [destruct a; exact Hc|]. apply wp_ret.
    split; [done|]. split; [exact Hi3|]. split; [by etrans|]. split; [done|]. split; [done|].
    rewrite <- Hh. by destruct a.
Qed.

Lemma notif_connection_inv cur strict a tuple p c s :
  inv cur strict s -> heap s !! p = Some c -> (cur = Some p \/ update_type c <> 0) ->
  wp (notif_connection java_app_name a tuple p)
     (fun rv s' => rv = 0 /\ inv cur strict s' /\ calm s s' /\
                   (strict = true -> p ∈ slot_ptrs s')) s.
Proof.
  intros Hi Hc Hcu. unfold notif_connection. apply wp_bind. eapply wp_deref; [done|].
  apply wp_quietly.
  { apply quietly_when. intros _. eapply pd_giveup_dpi_quiet; [done|]. by eapply inv_strndups. }
  intros _ s1 Hq. relive. pose proof (quiet_inv _ _ _ _ Hq Hi) as Hi1.
  eapply wp_mono; [apply (enqueue_inv cur strict a tuple p c0 s1 Hi1 Hlive)|].
  - destruct Hcu as [|Hu]; [by left|right]. by apply (qc_update _ _ Hquiet).
  - intros rv s2 (-> & Hi2 & Hcm & Hst & _). split; [done|]. split; [done|].
    split; [|done]. etrans; [by apply quiet_calm|done].
Qed.
End notify.

(** ** Allocation and release *)
Section alloc.
Context {P F : Type} `{Ndpi P} `{NdpiFlow F} {cmode : CaptureMode} (java_app_name : Z -> option bytes).
Abbreviation state := (pcapdroid P F).
Implicit Types (s : state) (c : pd_conn F) (p : conn_ptr).

Lemma inv_fresh cur strict s : inv cur strict s -> heap s !! next_ptr s = None.
Proof.
  intros Hi. destruct (heap s !! next_ptr s) as [c|] eqn:E; [|done].
  destruct (inv_heap _ _ _ Hi _ _ E). lia.
Qed.

Lemma inv_slot_live cur strict s p :
  inv cur strict s -> p ∈ slot_ptrs s -> exists c, heap s !! p = Some c.
Proof. intros Hi Hp. destruct (inv_slots _ _ _ Hi p Hp) as (c & Hc & _). by exists c. Qed.

Lemma inv_table_not_cur cur strict s p :
  inv cur strict s -> heap s !! p = None -> p ∉ table_ptrs s.
Proof. intros Hi Hn Hp. destruct (inv_table_live _ _ _ Hi p Hp) as (c & Hc & _). congruence. Qed.

(** A new record: nothing points to it yet. *)
Lemma inv_alloc strict s :
  inv None strict s ->
  let p := next_ptr s in
  let s' := s <| heap ::= <[p := zero_conn]> |> <| next_ptr := p + 1 |> in
  inv (Some p) strict s' /\ calm s s'.
Proof.
  intros Hi p s'. assert (heap s !! p = None) as Hf by apply (inv_fresh _ _ _ Hi).
  assert (heap s' = <[p := zero_conn]> (heap s)) as Hh by done.
  split.
  - pose proof Hi as Hi0. destruct Hi0. split; rewrite ?Hh; try done.
    + intros q Hq. destruct (inv_slots0 q Hq) as (c & Hc & Hp & Hu). exists c.
      rewrite lookup_insert_ne by congruence. auto.
    + intros q Hq. destruct (inv_table_live0 q Hq) as (c & Hc & Hp). exists c.
      rewrite lookup_insert_ne by congruence. split; [done|]. intros _. by apply Hp.
    + intros q c. change (next_ptr s') with (p + 1). rewrite lookup_insert_Some.
      intros [[<- <-]|[_ Hq]]; [split; [lia|done]|].
      destruct (inv_heap0 q c Hq). split; [unfold p; lia|done].
    + intros Hst q c. rewrite lookup_insert_Some. intros [[_ <-]|[_ Hq]]; [done|eauto].
    + intros Hst q c. rewrite lookup_insert_Some. intros [[<- _]|[Hne Hq]] Hcur; [done|].
      by apply (inv_owned0 Hst q c Hq).
  - split; try done. intros q c Hq. exists c. rewrite Hh.
    rewrite lookup_insert_ne by congruence. done.
Qed.

(** Releasing a record that nothing points to. *)
Lemma inv_free strict s p :
  inv (Some p) strict s -> p ∉ slot_ptrs s -> p ∉ table_ptrs s ->
  inv None strict (s <| heap ::= delete p |>).
Proof.
  intros Hi Hs Ht. pose proof Hi as Hi0. destruct Hi0.
  split; try done; change (heap (upd _ _ s)) with (delete p (heap s)).
  - intros q Hq. destruct (inv_slots0 q Hq) as (c & Hc & Hp & Hu). exists c.
    assert (p <> q) by (by intros ->). rewrite lookup_delete_ne by done.
    split; [done|]. split; [done|]. intros Hm _. apply Hu; [done|congruence].
  - intros q Hq. destruct (inv_table_live0 q Hq) as (c & Hc & Hp). exists c.
    assert (p <> q) by (by intros ->). rewrite lookup_delete_ne by done.
    split; [done|]. intros _. apply Hp. congruence.
  - intros q c. rewrite lookup_delete_Some. intros [_ Hq]. eauto.
  - intros Hst q c. rewrite lookup_delete_Some. intros [_ Hq]. eauto.
  - intros Hst q c. rewrite lookup_delete_Some. intros [Hne Hq] _.
    apply (inv_owned0 Hst q c Hq). congruence.
Qed.

(** The handled connection is reachable again. *)
Lemma inv_settle strict s p c :
  inv (Some p) strict s -> heap s !! p = Some c ->
  (vpn_mode = false -> p ∈ slot_ptrs s -> update_type c <> 0) -> (p ∈ table_ptrs s -> to_purge c = false) ->
  (strict = true -> p ∈ table_ptrs s \/ (p ∈ slot_ptrs s /\ to_purge c = true)) ->
  inv None strict s.
Proof.
  intros Hi Hc Hu Ht Ho. pose proof Hi as Hi0. destruct Hi0. split; try done.
  - intros q Hq. destruct (inv_slots0 q Hq) as (c' & Hc' & Hp & Hu'). exists c'.
    split; [done|]. split; [done|]. intros Hm _. destruct (decide (p = q)) as [<-|].
    { rewrite Hc in Hc'. injection Hc' as <-. auto. }
    apply Hu'; [done|congruence].
  - intros q Hq. destruct (inv_table_live0 q Hq) as (c' & Hc' & Hp). exists c'.
    split; [done|]. intros _. destruct (decide (p = q)) as [<-|].
    { rewrite Hc in Hc'. injection Hc' as <-. auto. }
    apply Hp. congruence.
  - intros Hst q c' Hq _. destruct (decide (p = q)) as [<-|].
    + rewrite Hc in Hq. injection Hq as <-. auto.
    + apply (inv_owned0 Hst q c' Hq). congruence.
Qed.

(** The other way round: any connection may be worked on. *)
Lemma inv_unsettle strict s p : inv None strict s -> inv (Some p) strict s.
Proof.
  intros Hi. destruct Hi. split; try done.
  - intros q Hq. destruct (inv_slots0 q Hq) as (c & Hc & Hp & Hu). exists c. split; [done|].
    split; [done|]. intros Hm _. by apply Hu.
  - intros q Hq. destruct (inv_table_live0 q Hq) as (c & Hc & Hp). exists c. split; [done|].
    intros _. by apply Hp.
  - intros Hst q c Hq _. by apply (inv_owned0 Hst q c Hq).
Qed.

Lemma wp_purge p c (Q : unit -> state -> Prop) s :
  heap s !! p = Some c -> Q tt (s <| heap ::= delete p |>) -> wp (pd_purge_connection p) Q s.
Proof.
  intros Hc HQ. unfold pd_purge_connection, conn_free_ndpi, free_conn. apply wp_bind.
  eapply wp_modify_conn; [done|]. apply wp_bind. eapply wp_deref; [apply lookup_insert_eq|].
  apply wp_modify.
  assert (forall h, h = delete p (heap s) -> Q tt (s <| heap := h |>)) as HQ' by (intros h ->; exact HQ).
  apply HQ'. apply delete_insert_eq.
Qed.

Lemma quietly_for_each {X} (f : X -> M state unit) l s :
  (forall x s', x ∈ l -> quiet s s' -> quietly (f x) s') -> quietly (for_each f l) s.
Proof.
  intros Hf. assert (quiet s s) as Hq by done. revert Hq. generalize s at 2 3. intros s1 Hq.
  change (wp (for_each f l) (fun _ s' => quiet s1 s') s1).
  revert s1 Hq Hf. induction l as [|x l IH]; intros s1 Hq Hf; [by apply wp_ret|].
  simpl. apply quietly_bind; [apply Hf; [left|done]|]. intros [] s2 Hq2. apply IH; [by etrans|].
  intros y s' Hy. apply Hf. by right.
Qed.

Lemma arr_slots_wf arr : arr_wf arr -> arr_slots arr = Some (default [] (items arr)).
Proof.
  intros [Hc Hs Hn]. unfold arr_slots. destruct (items arr) as [l|] eqn:El; simpl in *.
  - rewrite Hc. destruct (Z.eqb_spec (Z.of_nat (length l)) 0); [by destruct l|].
    destruct (Z.ltb_spec (Z.of_nat (length l)) (Z.of_nat (length l))); [lia|].
    by rewrite Nat2Z.id, firstn_all.
  - by rewrite Hc.
Qed.

Lemma elem_of_slot_ptrs a s sl :
  sl ∈ default [] (items (get_arr a s)) -> slot_data sl ∈ slot_ptrs s.
Proof.
  intros Hsl. unfold slot_ptrs. apply list_elem_of_fmap. exists sl. split; [done|].
  unfold slots. rewrite elem_of_app. destruct a; [by left|by right].
Qed.

Lemma resolve_netd_conn_quiet host uid sl c s :
  heap s !! slot_data sl = Some c -> quietly (resolve_netd_conn host uid sl) s.
Proof.
  intros Hc. unfold resolve_netd_conn. cbv zeta. quiet_steps; by apply quiet_conn_same.
Qed.

Lemma resolve_from_lru_quiet cur strict tuple p c s :
  inv cur strict s -> heap s !! p = Some c -> blacklisted_domain c = false ->
  quietly (resolve_from_lru java_app_name tuple p) s.
Proof.
  intros Hi Hc Hbd. unfold resolve_from_lru. quiet_step. apply wp_bind, wp_malloc_ok. intros ok.
  cbv beta. destruct (IpLru.ip_lru_find (ip_to_host s) (dst_ip tuple) ok) as [host lru].
  apply wp_bind, wp_modify. cbv beta.
  set (s1 := upd _ _ (upd _ _ s)). assert (quiet s s1) as Hq by (by split).
  assert (heap s1 !! p = Some c) as Hc1 by done. pose proof (quiet_inv _ _ _ _ Hq Hi) as Hi1.
  clearbody s1. apply quietly_trans; [done|]. quiet_step.
  - apply (quietly_modify_conn p _ c); [done|]. split; try done.
    intros _. unfold bl_ok. cbv [upd eta]. simpl. congruence.
  - destruct host as [host|]; [|quiet_step]. quiet_step; [quiet_step; by apply quiet_conn_same|].
    quiet_step. quiet_step; [|by eapply check_blacklisted_domain_quiet].
    quiet_steps. pose proof (quiet_inv _ _ _ _ Hq0 Hi1) as Hi2.
    pose proof (quiet_inv _ _ _ _ Hq1 Hi2) as Hi3.
    apply wp_bind. eapply wp_of_option.
    { apply (arr_slots_wf (new_conns s'0)). apply (inv_new _ _ _ Hi3). }
    apply quietly_for_each. intros sl s3 Hsl Hq3.
    destruct (inv_slot_live _ _ _ (slot_data sl) (quiet_inv _ _ _ _ Hq3 Hi3)) as (c4 & Hc4).
    { rewrite (quiet_slot_ptrs _ _ Hq3). by apply (elem_of_slot_ptrs NEW_CONNS). }
    by eapply resolve_netd_conn_quiet.
Qed.

Lemma check_blacklisted_ip_quiet tuple p c s :
  heap s !! p = Some c -> quietly (check_blacklisted_ip java_app_name tuple p) s.
Proof.
  intros Hc. unfold check_blacklisted_ip. quiet_step.
  destruct (mal_bl (malware s)); quiet_steps. by apply quiet_conn_same.
Qed.

Lemma check_firewall_quiet tuple p c s :
  heap s !! p = Some c -> quietly (check_firewall java_app_name tuple p) s.
Proof.
  intros Hc. unfold check_firewall. quiet_steps.
  destruct (fw_bl (fw s)); quiet_steps; try by apply quiet_conn_same.
  case_match; quiet_steps. by apply quiet_conn_same.
Qed.

Lemma check_whitelist_mode_block_quiet tuple p c s :
  heap s !! p = Some c -> quietly (check_whitelist_mode_block tuple p) s.
Proof.
  intros Hc. unfold check_whitelist_mode_block. quiet_steps.
  destruct (fw_wl (fw s)); quiet_steps. by apply quiet_conn_same.
Qed.

Lemma wp_conj {A} (m : M state A) (Q R : A -> state -> Prop) s :
  wp m Q s -> wp m R s -> wp m (fun a s' => Q a s' /\ R a s') s.
Proof. unfold wp. by destruct (m s) as [[a s']|]. Qed.

Lemma check_whitelisted_app_quiet uid p c s :
  heap s !! p = Some c -> quietly (check_whitelisted_app java_app_name uid p) s.
Proof.
  intros Hc. unfold check_whitelisted_app. quiet_step.
  destruct (mal_whitelist (malware s)); quiet_steps. by apply quiet_conn_same.
Qed.

Lemma setup_connection_quiet cur strict tuple uid p c s :
  inv cur strict s -> heap s !! p = Some c -> blacklisted_domain c = false ->
  quietly (setup_connection java_app_name tuple uid p) s.
Proof.
  intros Hi Hc Hbd. unfold setup_connection. quiet_step.
  apply wp_bind. eapply wp_modify_conn; [done|]. apply wp_bind, wp_modify. cbv beta.
  set (c1 := c <| conn_uid := uid |> <| incr_id := new_conn_id s |>).
  set (s1 := upd _ _ (upd _ _ s)).
  assert (heap s1 !! p = Some c1) as Hc1 by apply lookup_insert_eq.
  assert (quiet s s1) as Hq.
  { etrans; [apply (quiet_insert s p c c1); [done|by apply quiet_conn_same]|]. by split. }
  apply quietly_trans; [done|].
  pose proof (quiet_inv _ _ _ _ Hq Hi) as Hi1. assert (blacklisted_domain c1 = false) by done.
  clearbody c1 s1. apply wp_bind.
  assert (wp (check_whitelisted_app java_app_name uid p)
    (fun _ s' => quiet s1 s' /\ exists c', heap s' !! p = Some c' /\ blacklisted_domain c' = false) s1)
    as Hw.
  { apply wp_conj; [by eapply check_whitelisted_app_quiet|]. unfold check_whitelisted_app. wp_steps.
    destruct (mal_whitelist (malware s1)); [|wp_step; by exists c1].
    apply wp_bind. eapply wp_modify_conn; [done|]. apply wp_when.
    - intros _. apply wp_log_appname. intros ms names. eexists. split; [apply lookup_insert_eq|done].
    - intros _. eexists. split; [apply lookup_insert_eq|done]. }
  eapply wp_mono; [exact Hw|]. intros [] s2 (Hq2 & c2 & Hc2 & Hb2). cbv beta.
  apply quietly_trans; [done|]. pose proof (quiet_inv _ _ _ _ Hq2 Hi1) as Hi2.
  quiet_step; [by eapply resolve_from_lru_quiet|].
  quiet_step; [by eapply check_blacklisted_ip_quiet|].
  quiet_step; [by eapply check_firewall_quiet|].
  by eapply check_whitelist_mode_block_quiet.
Qed.

Lemma calm_free s s' p :
  calm s s' -> heap s !! p = None -> calm s (s' <| heap ::= delete p |>).
Proof.
  intros [] Hf. split; try done. intros q c Hq. destruct (cm_heap0 q c Hq) as (c' & Hc' & ?).
  exists c'. split; [|done]. change (heap (upd _ _ s')) with (delete p (heap s')).
  by rewrite lookup_delete_ne by congruence.
Qed.

(** A new connection has a live record, of its own, waiting to be sent. *)
Lemma pd_new_connection_inv strict tuple uid s :
  inv None strict s ->
  wp (pd_new_connection java_app_name tuple uid)
     (fun r s' => calm s s' /\
        match r with
        | None => inv None strict s'
        | Some p => inv (Some p) strict s' /\ (p ∉ table_ptrs s) /\ p ∈ slot_ptrs s' /\
                    exists c, heap s' !! p = Some c /\ to_purge c = false
        end) s.
Proof.
  intros Hi. unfold pd_new_connection, calloc_conn. wp_steps. apply wp_malloc_ok. intros ok.
  set (s0 := upd _ _ s). assert (quiet s s0) as Hq0 by (by split).
  pose proof (quiet_inv _ _ _ _ Hq0 Hi) as Hi0. pose proof (quiet_calm _ _ Hq0) as Hcm0.
  assert (table_ptrs s = table_ptrs s0) as -> by done.
  assert (heap s = heap s0) as Hh by done. clearbody s0.
  destruct ok; [|by apply wp_ret]. wp_steps.
  destruct (inv_alloc _ _ Hi0) as [Hi1 Hcm1]. pose proof (inv_fresh _ _ _ Hi0) as Hf.
  set (p := next_ptr s0) in *. set (s1 := upd _ _ (upd _ _ s0)) in *.
  assert (heap s1 !! p = Some zero_conn) as Hp by apply lookup_insert_eq.
  pose proof (inv_table_not_cur _ _ _ _ Hi0 Hf) as Hnt.
  assert (p ∉ slot_ptrs s1) as Hns by (by eapply inv_pending_iff).
  clearbody s1 p. apply wp_malloc_ok. intros ok. set (s2 := upd _ _ s1).
  assert (quiet s1 s2) as Hq2 by (by split). pose proof (quiet_inv _ _ _ _ Hq2 Hi1) as Hi2.
  assert (heap s2 !! p = Some zero_conn) as Hp2 by done.
  assert (calm s0 s2) as Hcm2 by (etrans; [done|by apply quiet_calm]).
  assert (p ∉ slot_ptrs s2) as Hns2 by done. clearbody s2.
  destruct ok; simpl.
  2:{ apply wp_bind. eapply wp_purge; [done|]. apply wp_ret. split.
      - etrans; [done|]. by apply calm_free.
      - apply inv_free; [done|done|]. by rewrite (table_ptrs_same s0 s2) by apply Hcm2. }
  apply wp_bind. eapply wp_modify_conn; [done|]. cbv beta.
  set (c3 := zero_conn <| ndpi_flow := Some ndpi_new_flow |>). set (s3 := upd _ _ s2).
  assert (quiet s2 s3) as Hq3 by (apply (quiet_insert s2 p zero_conn); [done|by apply quiet_conn_same]).
  pose proof (quiet_inv _ _ _ _ Hq3 Hi2) as Hi3.
  assert (heap s3 !! p = Some c3) as Hp3 by apply lookup_insert_eq.
  assert (calm s0 s3) as Hcm3 by (etrans; [done|by apply quiet_calm]). clearbody s3.
  unfold notif_connection. apply wp_bind, wp_bind. eapply wp_deref; [done|].
  change (status c3 >=? CONN_STATUS_CLOSED) with false. cbn [when].
  apply wp_bind, wp_ret.
  eapply wp_mono; [apply (enqueue_inv (Some p) strict _ tuple p c3 s3 Hi3 Hp3); by left|].
  intros rv s4 (-> & Hi4 & Hcm4 & _ & Hin & Hh4). cbv beta. change (0 <? 0) with false. cbv iota.
  apply wp_quietly.
  { eapply setup_connection_quiet; [done|rewrite Hh4; apply lookup_insert_eq|done]. }
  intros [] s5 Hq5. apply wp_ret.
  destruct (quiet_live s4 s5 p (c3 <| pending_notification := true |>) Hq5) as (c5 & Hc5 & Hqc5).
  { rewrite Hh4. apply lookup_insert_eq. }
  split; [etrans; [done|]; etrans; [done|]; etrans; [done|]; by apply quiet_calm|].
  split; [by eapply quiet_inv|]. split; [done|]. split.
  - rewrite (quiet_slot_ptrs _ _ Hq5). by apply Hin.
  - exists c5. split; [done|]. by rewrite (qc_purge _ _ Hqc5).
Qed.
End alloc.

(** ** Clearing an array *)
Section clear.
Context {P F : Type} `{Ndpi P} `{NdpiFlow F} {cmode : CaptureMode}.
Abbreviation state := (pcapdroid P F).
Implicit Types (s : state) (c : pd_conn F) (p : conn_ptr).

(** The store without the records of [ps] to free. *)
Definition purged (ps : list conn_ptr) (free_all : bool) (h h' : gmap conn_ptr (pd_conn F)) : Prop :=
  forall p, h' !! p = (c ← h !! p;
                       if bool_decide (p ∈ ps) && (to_purge c || free_all) then None else Some c).

Definition clear_slot (free_all : bool) (slot : conn_and_tuple) : M state unit :=
  data ← deref (slot_data slot);
  when (to_purge data || free_all) (pd_purge_connection (slot_data slot)).

Lemma purged_nil free_all h : purged [] free_all h h.
Proof. intros p. by destruct (h !! p). Qed.

Lemma purged_cons p ps free_all h h1 h2 :
  p ∉ ps -> purged [p] free_all h h1 -> purged ps free_all h1 h2 -> purged (p :: ps) free_all h h2.
Proof.
  intros Hn H1 H2 q. rewrite (H2 q), (H1 q). destruct (h !! q) as [c|]; simpl; [|done].
  destruct (decide (q = p)) as [->|Hne].
  - rewrite (bool_decide_eq_true_2 (p ∈ [p])) by (by apply list_elem_of_singleton).
    rewrite (bool_decide_eq_true_2 (p ∈ p :: ps)) by left.
    rewrite (bool_decide_eq_false_2 (p ∈ ps)) by done.
    simpl. by destruct (to_purge c || free_all).
  - rewrite (bool_decide_eq_false_2 (q ∈ [p])) by (by rewrite list_elem_of_singleton).
    assert (bool_decide (q ∈ p :: ps) = bool_decide (q ∈ ps)) as ->; [|done].
    apply bool_decide_ext. rewrite elem_of_cons. tauto.
Qed.

Lemma wp_clear_slot free_all sl c (Q : unit -> state -> Prop) s :
  heap s !! slot_data sl = Some c ->
  (forall h', purged [slot_data sl] free_all (heap s) h' -> Q tt (s <| heap := h' |>)) ->
  wp (clear_slot free_all sl) Q s.
Proof.
  intros Hc HQ. unfold clear_slot. apply wp_bind. eapply wp_deref; [done|]. apply wp_when; intros E.
  - eapply wp_purge; [done|]. apply (HQ (delete (slot_data sl) (heap s))). intros q.
    destruct (decide (q = slot_data sl)) as [->|Hne].
    + rewrite lookup_delete_eq, Hc. simpl. rewrite E.
      by rewrite bool_decide_eq_true_2 by (by apply list_elem_of_singleton).
    + rewrite lookup_delete_ne by done. rewrite bool_decide_eq_false_2 by (by rewrite list_elem_of_singleton).
      by destruct (heap s !! q).
  - assert (Q tt (s <| heap := heap s |>)) as HQ'.
    { apply HQ. intros q. destruct (decide (q = slot_data sl)) as [->|Hne].
      - rewrite Hc. simpl. rewrite E. by rewrite andb_false_r.
      - rewrite bool_decide_eq_false_2 by (by rewrite list_elem_of_singleton).
        by destruct (heap s !! q). }
    by destruct s.
Qed.

Lemma wp_clear_slots free_all l (Q : unit -> state -> Prop) s :
  NoDup (slot_data <$> l) -> (forall p, p ∈ slot_data <$> l -> exists c, heap s !! p = Some c) ->
  (forall h', purged (slot_data <$> l) free_all (heap s) h' -> Q tt (s <| heap := h' |>)) ->
  wp (for_each (clear_slot free_all) l) Q s.
Proof.
  revert s Q. induction l as [|sl l IH]; intros s Q; csimpl; intros Hnd Hl HQ.
  - apply wp_ret. assert (Q tt (s <| heap := heap s |>)) as HQ' by (apply HQ, purged_nil).
    by destruct s.
  - apply NoDup_cons in Hnd as [Hn Hnd]. destruct (Hl (slot_data sl)) as [c Hc]; [left|].
    apply wp_bind. eapply wp_clear_slot; [done|]. intros h1 H1. cbv beta. apply IH; [done|..].
    + intros p Hp. destruct (Hl p) as [c' Hc']; [by right|]. exists c'.
      change (heap (upd _ _ s)) with h1. rewrite (H1 p), Hc'. simpl.
      by rewrite bool_decide_eq_false_2 by (rewrite list_elem_of_singleton; by intros ->).
    + intros h2 H2. apply (HQ h2). by eapply purged_cons.
Qed.

Lemma wp_conns_clear a free_all (Q : unit -> state -> Prop) s :
  arr_wf (get_arr a s) -> NoDup (slot_data <$> default [] (items (get_arr a s))) ->
  (forall p, p ∈ slot_data <$> default [] (items (get_arr a s)) -> exists c, heap s !! p = Some c) ->
  (forall h', purged (slot_data <$> default [] (items (get_arr a s))) free_all (heap s) h' ->
     Q tt (set_arr_state a empty_array (s <| heap := h' |>))) ->
  wp (conns_clear a free_all) Q s.
Proof.
  intros Hw Hnd Hl HQ. unfold conns_clear. wp_steps. destruct (items (get_arr a s)) as [l|] eqn:El.
  - apply wp_bind. eapply wp_of_option; [by apply arr_slots_wf|]. rewrite El.
    apply wp_clear_slots; [done|done|]. intros h' Hh. apply wp_set_arr. by apply HQ.
  - apply wp_ret, wp_set_arr.
    assert (Q tt (set_arr_state a empty_array (s <| heap := heap s |>))) as HQ' by (apply HQ, purged_nil).
    by destruct s.
Qed.
End clear.
