(* ===== verification/JavaDump.v ===== *)
(** What the core sends to Java (core/jni_impl.c): statistics, the dump of the
    pending notifications, payload chunks, the state of the lists. A JNI call
    may fail; the objects it creates are local references, released by the
    same function, and are not modelled. *)
From Stdlib Require Import ZArith Lia.
From stdpp Require Import base option gmap numbers list.
From S2P Require Import Prelude Packet Uthash Lru AppNames PcapDump Blacklist NdpiProtos Conn ConnInv Examples.

Open Scope Z_scope.

Definition INT_MAX : Z := 2147483647.

(** ** Operations *)
Section java_ops.
Context {P F : Type} `{Ndpi P} `{NdpiFlow F}.
Abbreviation state := (pcapdroid P F).
Abbreviation get_state := (gets (fun s : state => s)).

Definition sendStatsDump : M state unit :=
  s ← get_state;
  let st := zstats s in
  let cs := capture_stats s in
  let active_conns := s32 (num_icmp_conn st + num_tcp_conn st + num_udp_conn st) in
  let tot_conns := s32 (num_icmp_opened st + num_tcp_opened st + num_udp_opened st) in
  ok ← jni_ok;     (* NewObject(CaptureStats) *)
  when ok
    (ok ← jni_ok;  (* statsSetData *)
     when ok
       (call_java (JSendStatsDump
          (mk_java_stats (cs_sent_bytes cs) (cs_rcvd_bytes cs)
             (cs_ipv6_sent_bytes cs) (cs_ipv6_rcvd_bytes cs)
             (match dumper (pcap_dump s) with Some d => pcap_get_dump_size d | None => 0 end)
             (cs_sent_pkts cs) (cs_rcvd_pkts cs)
             (Z.min (num_dropped_pkts s) INT_MAX) (num_dropped_connections s)
             (num_open_sockets st) (all_max_fd st) active_conns tot_conns
             (num_dns_requests s))))).

Definition stopPcapDump : M state unit := call_java JStopPcapDump.

Definition notifyServiceStatus (status : bytes) : M state unit :=
  call_java (JSendServiceStatus status).

(** The eight low bits of the status and one bit per boolean. *)
Definition status_flags (data : pd_conn F) (blocked : bool) : Z :=
  Z.lor (Z.shiftl (b2z (port_mapping_applied data)) 13)
  (Z.lor (Z.shiftl (b2z (decryption_ignored data)) 12)
  (Z.lor (Z.shiftl (b2z (netd_block_missed data)) 11)
  (Z.lor (Z.shiftl (b2z blocked) 10)
  (Z.lor (Z.shiftl (b2z (blacklisted_domain data)) 9)
  (Z.lor (Z.shiftl (b2z (blacklisted_ip data)) 8)
         (Z.land (status data) 255)))))).

Definition update_stats (s : state) (data : pd_conn F) : conn_stats_upd :=
  mk_stats_upd (last_seen data) (payload_length data) (sent_bytes data) (rcvd_bytes data)
    (sent_pkts data) (rcvd_pkts data) (blocked_pkts data)
    (Z.lor (Z.shiftl (tcp_flags0 data) 8) (tcp_flags1 data))
    (status_flags data (to_block data && vpn_capture s)).

Definition update_info (data : pd_conn F) (ipproto : Z) : conn_info_upd :=
  mk_info_upd (default [] (info data)) (default [] (url data))
    (pd_get_proto_name (l7proto data) (alpn data) ipproto) (encrypted_l7 data).

Definition getConnUpdate (conn : conn_and_tuple) : M state (option conn_update) :=
  let p := slot_data conn in
  ok ← jni_ok;     (* NewObject *)
  if negb ok then mret None else
  s ← get_state;
  data ← deref p;
  let has flag := has_flag (update_type data) flag in
  let update := mk_update (incr_id data)
    (if has CONN_UPDATE_STATS then Some (update_stats s data) else None)
    (if has CONN_UPDATE_INFO then Some (update_info data (ipproto (slot_tuple conn))) else None)
    (if has CONN_UPDATE_PAYLOAD then Some (payload_chunks data, payload_truncated data) else None) in
  when (has CONN_UPDATE_PAYLOAD) (modify_conn p (fun c => c <| payload_chunks := None |>));;
  modify_conn p (fun c => c <| update_type := 0 |>);;
  ok ← jni_ok;     (* jniCheckException *)
  mret (if (ok : bool) then Some update else None).

(** [None] is the return value -1. *)
Definition dumpNewConnection (conn : conn_and_tuple) : M state (option conn_descr) :=
  let p := slot_data conn in
  let tuple := slot_tuple conn in
  s ← get_state;
  data ← deref p;
  let ifidx := if vpn_capture s then 0 else pcap_ifidx data in
  let local_port := if vpn_capture s then vpn_local_port data else src_port tuple in
  let mitm_decrypt := tls_enabled (tls s) && proxied data in
  ok ← jni_ok;     (* NewObject *)
  if negb ok then mret None else
  modify_conn p (fun c => c <| update_type ::= fun u =>
                   Z.lor u (Z.lor CONN_UPDATE_STATS CONN_UPDATE_INFO) |>);;
  update ← getConnUpdate conn;
  ok ← jni_ok;     (* SetObjectArrayElement *)
  mret (match update with
        | Some update =>
            if (ok : bool) then
              Some (mk_descr (incr_id data) tuple (ntohs local_port) (conn_uid data) ifidx
                      mitm_decrypt (first_seen data) update)
            else None
        | None => None
        end).

Definition dumpConnectionUpdate (conn : conn_and_tuple) : M state (option conn_update) :=
  getConnUpdate conn.

(** The loop over an array; [None]: it stopped at an element that failed. *)
Fixpoint dump_slots {X} (dump : conn_and_tuple -> M state (option X)) (conns : list conn_and_tuple)
    : M state (option (list X)) :=
  match conns with
  | [] => mret (Some [])
  | conn :: conns' =>
      modify_conn (slot_data conn) (fun c => c <| pending_notification := false |>);;
      r ← dump conn;
      match r with
      | None => mret None
      | Some x =>
          r ← dump_slots dump conns';
          mret (match r with Some xs => Some (x :: xs) | None => None end)
      end
  end.

Definition sendConnectionsDump : M state unit :=
  ok ← jni_ok;     (* NewObjectArray *)
  when ok
    (s ← get_state;
     new_slots ← of_option (arr_slots (new_conns s));
     descrs ← dump_slots dumpNewConnection new_slots;
     match descrs with
     | None => mret tt
     | Some descrs =>
         update_slots ← of_option (arr_slots (conns_updates s));
         updates ← dump_slots dumpConnectionUpdate update_slots;
         match updates with
         | None => mret tt
         | Some updates => call_java (JUpdateConnections descrs updates)
         end
     end).

(** [items]: the loop stops at the first exception; the array is sent with
    what it has. *)
Fixpoint blacklist_status_items (items : list (bytes * Z)) : M state (list (bytes * Z)) :=
  match items with
  | [] => mret []
  | st :: items' =>
      ok ← jni_ok;
      if negb ok then mret [] else
      rest ← blacklist_status_items items';
      mret (st :: rest)
  end.

Definition notifyBlacklistsLoaded (items : list (bytes * Z)) : M state unit :=
  ok ← jni_ok;     (* NewObjectArray *)
  when ok (items ← blacklist_status_items items; call_java (JNotifyBlacklistsLoaded items)).

(** The chunk is added to the list of the connection, created by the first one. *)
Definition dumpPayloadChunk (pctx : pkt_context) (dump_size : Z) : M state bool :=
  let p := pctx_data pctx in
  let pkt := pctx_pkt pctx in
  data ← deref p;
  ok ← match payload_chunks data with
       | Some _ => mret true
       | None =>
           ok ← jni_ok;   (* NewObject(ArrayList) *)
           when ok (modify_conn p (fun c => c <| payload_chunks := Some [] |>));;
           mret ok
       end;
  if negb ok then mret false else
  ok ← jni_ok;            (* NewByteArray *)
  if negb ok then mret false else
  ok ← jni_ok;            (* NewObject(PayloadChunk), ArrayList.add *)
  if negb ok then mret false else
  payload ← of_option (rdn (pkt_buf pkt) (l7_off pkt) dump_size);
  let chunk := mk_chunk (l7proto data =? NDPI_PROTOCOL_HTTP) (pctx_is_tx pctx) (pctx_ms pctx) payload in
  modify_conn p (fun c => c <| payload_chunks ::= fun l => Some (default [] l ++ [chunk]) |>);;
  mret true.
End java_ops.

(** ** The dump and the invariant *)
Section java_props.
Context {P F : Type} `{Ndpi P} `{NdpiFlow F} {cmode : CaptureMode}.
Abbreviation state := (pcapdroid P F).
Implicit Types (s : state) (c : pd_conn F) (p : conn_ptr) (R : conn_ptr -> Prop).

(** Statistics, service status and lists only append to the calls. *)
Lemma quietly_jni_ok s : quietly jni_ok s.
Proof.
  unfold jni_ok. wp_steps. split; try done. intros Hs. by apply all_ok_tail.
Qed.

Lemma quietly_call_java (c : java_call) s : quietly (call_java c) s.
Proof. apply quietly_modify. by split. Qed.

Lemma sendStatsDump_quiet s : quietly sendStatsDump s.
Proof.
  unfold sendStatsDump. quiet_step. apply quietly_bind; [apply quietly_jni_ok|]. intros ok s1 _.
  quiet_step. apply quietly_bind; [apply quietly_jni_ok|]. intros ok2 s2 _. quiet_step.
  apply quietly_call_java.
Qed.

Lemma blacklist_status_items_quiet l s : quietly (blacklist_status_items l) s.
Proof.
  revert s. induction l as [|st l IH]; intros s; simpl; [quiet_step|].
  apply quietly_bind; [apply quietly_jni_ok|]. intros ok s1 _. destruct ok; simpl; [|quiet_step].
  apply quietly_bind; [apply IH|]. intros rest s2 _. quiet_step.
Qed.

Lemma notifyBlacklistsLoaded_quiet l s : quietly (notifyBlacklistsLoaded l) s.
Proof.
  unfold notifyBlacklistsLoaded. apply quietly_bind; [apply quietly_jni_ok|]. intros ok s1 _.
  quiet_step. apply quietly_bind; [apply blacklist_status_items_quiet|]. intros items s2 _.
  apply quietly_call_java.
Qed.

(** [R]: the records that are sent. *)
Definition sent_conn c c' : Prop :=
  to_purge c' = to_purge c /\ (bl_ok c -> bl_ok c') /\
  (pending_notification c' = true -> pending_notification c = true).

Record sent R s s' : Prop := {
  st_new : new_conns s' = new_conns s;
  st_updates : conns_updates s' = conns_updates s;
  st_connections : connections s' = connections s;
  st_zdt : zdt_connections s' = zdt_connections s;
  st_next : next_ptr s' = next_ptr s;
  st_zstats : zstats s' = zstats s;
  st_dump : pcap_dump s' = pcap_dump s;
  st_mode : vpn_capture s' = vpn_capture s;
  st_malware : malware s' = malware s;
  st_reallocs : reallocs s' = reallocs s;
  st_strndups : strndups s' = strndups s;
  st_jni : all_ok (jni_calls s) -> all_ok (jni_calls s');
  st_heap : forall p, option_Forall2 sent_conn (heap s !! p) (heap s' !! p);
  st_other : forall p, ~ R p -> heap s' !! p = heap s !! p
}.

#[export] Instance sent_conn_preorder : PreOrder sent_conn.
Proof.
  split; [by intros c|]. intros c1 c2 c3 (? & ? & ?) (? & ? & ?).
  split; [congruence|]. split; tauto.
Qed.

#[export] Instance sent_preorder R : PreOrder (sent R).
Proof.
  split.
  - intros s. by split.
  - intros s1 s2 s3 [] []. split; try congruence; try tauto.
    + intros p. exact (option_Forall2_trans _ _ _ _ (st_heap0 p) (st_heap1 p)).
    + intros p Hp. rewrite st_other1, st_other0 by done. done.
Qed.

Lemma sent_live R s s' p c :
  sent R s s' -> heap s !! p = Some c -> exists c', heap s' !! p = Some c' /\ sent_conn c c'.
Proof. intros Hq Hp. pose proof (st_heap _ _ _ Hq p) as Hr. rewrite Hp in Hr. by apply option_Forall2_Some_l. Qed.

Lemma sent_modify R p f c (Q : unit -> state -> Prop) s :
  R p -> heap s !! p = Some c -> sent_conn c (f c) ->
  (forall s', sent R s s' -> heap s' !! p = Some (f c) -> jni_calls s' = jni_calls s -> Q tt s') ->
  wp (modify_conn p f) Q s.
Proof.
  intros HR Hc Hf HQ. eapply wp_modify_conn; [done|].
  apply HQ; [|by apply lookup_insert_eq|done]. split; try done.
  - intros q. change (heap (upd _ _ s)) with (<[p := f c]> (heap s)).
    destruct (decide (p = q)) as [<-|].
    + rewrite Hc, lookup_insert_eq. by constructor.
    + rewrite lookup_insert_ne by done. apply option_Forall2_refl, _.
  - intros q Hq. change (heap (upd _ _ s)) with (<[p := f c]> (heap s)).
    apply lookup_insert_ne. by intros ->.
Qed.

Lemma wp_jni_ok R (Q : bool -> state -> Prop) s :
  (forall ok s', sent R s s' -> heap s' = heap s ->
     (all_ok (jni_calls s) -> ok = true) -> Q ok s') ->
  wp jni_ok Q s.
Proof.
  intros HQ. unfold jni_ok. wp_steps. apply HQ; [|done|by apply all_ok_next].
  split; try done. intros Hs. by apply all_ok_tail.
Qed.

Lemma getConnUpdate_sent R sl c s :
  R (slot_data sl) -> heap s !! slot_data sl = Some c ->
  wp (getConnUpdate sl)
     (fun r s' => sent R s s' /\ (all_ok (jni_calls s) -> r <> None)) s.
Proof.
  intros HR Hc. unfold getConnUpdate. cbv zeta. apply wp_bind, (wp_jni_ok R).
  intros ok s1 Hs1 Hh1 Hok. destruct ok; simpl.
  2:{ apply wp_ret. split; [done|]. intros Hj. by specialize (Hok Hj). }
  rewrite <- Hh1 in Hc. apply wp_bind, wp_gets, wp_bind. eapply wp_deref; [done|]. apply wp_bind.
  assert (wp (when (has_flag (update_type c) CONN_UPDATE_PAYLOAD)
    (modify_conn (slot_data sl) (fun c => c <| payload_chunks := None |>)))
    (fun _ s' => sent R s1 s' /\ exists c', heap s' !! slot_data sl = Some c') s1) as Hw.
  { apply wp_when; intros _; [|by split; [|exists c]].
    eapply (sent_modify R); [done|done|by split|]. intros s2 Hs2 Hc2 _. by split; [|eexists]. }
  eapply wp_mono; [exact Hw|]. intros [] s2 (Hs2 & c2 & Hc2). cbv beta.
  apply wp_bind. eapply (sent_modify R); [done|done|by split|]. intros s3 Hs3 Hc3 _.
  apply wp_bind, (wp_jni_ok R). intros ok s4 Hs4 _ Hok4. apply wp_ret.
  split; [by etrans; [|etrans; [|etrans]]|]. intros Hj.
  rewrite Hok4; [done|]. apply (st_jni _ _ _ Hs3), (st_jni _ _ _ Hs2), (st_jni _ _ _ Hs1), Hj.
Qed.

Lemma dumpNewConnection_sent R sl c s :
  R (slot_data sl) -> heap s !! slot_data sl = Some c ->
  wp (dumpNewConnection sl)
     (fun r s' => sent R s s' /\ (all_ok (jni_calls s) -> r <> None)) s.
Proof.
  intros HR Hc. unfold dumpNewConnection. cbv zeta. wp_steps. eapply wp_deref; [done|].
  apply wp_bind, (wp_jni_ok R). intros ok s1 Hs1 Hh1 Hok. destruct ok; simpl.
  2:{ apply wp_ret. split; [done|]. intros Hj. by specialize (Hok Hj). }
  rewrite <- Hh1 in Hc. apply wp_bind.
  eapply (sent_modify R); [done|done|by split|]. intros s2 Hs2 Hc2 _.
  apply wp_bind. eapply wp_mono; [by eapply getConnUpdate_sent|].
  intros upd s3 (Hs3 & Hu). apply wp_bind, (wp_jni_ok R). intros ok s4 Hs4 _ Hok4. apply wp_ret.
  split; [by etrans; [|etrans; [|etrans]]|]. intros Hj.
  pose proof (st_jni _ _ _ Hs2 (st_jni _ _ _ Hs1 Hj)) as Hj2.
  rewrite Hok4 by (by apply (st_jni _ _ _ Hs3)). specialize (Hu Hj2). by destruct upd.
Qed.

Lemma dump_slots_sent R {X} (dump : conn_and_tuple -> M state (option X)) l s :
  (forall sl c s, sl ∈ l -> heap s !! slot_data sl = Some c ->
     wp (dump sl) (fun r s' => sent R s s' /\ (all_ok (jni_calls s) -> r <> None)) s) ->
  (forall sl, sl ∈ l -> R (slot_data sl) /\ exists c, heap s !! slot_data sl = Some c) ->
  wp (dump_slots dump l)
     (fun r s' => sent R s s' /\
        (all_ok (jni_calls s) -> r <> None /\ forall sl c, sl ∈ l ->
           heap s' !! slot_data sl = Some c -> pending_notification c = false)) s.
Proof.
  revert s. induction l as [|sl l IH]; intros s Hd Hl; cbn [dump_slots].
  - apply wp_ret. split; [done|]. intros _. split; [done|]. by intros sl c ?%elem_of_nil.
  - destruct (Hl sl) as (HR & c & Hc); [left|]. apply wp_bind.
    eapply (sent_modify R); [done|done|by split|]. intros s1 Hs1 Hc1 Hj1.
    apply wp_bind. eapply wp_mono; [eapply Hd; [left|exact Hc1]|]. intros r s2 (Hs2 & Hr).
    destruct (sent_live _ _ _ _ _ Hs2 Hc1) as (c2 & Hc2 & _ & _ & Hp2).
    destruct r as [x|].
    2:{ apply wp_ret. split; [by etrans|]. intros Hj. rewrite <- Hj1 in Hj. by specialize (Hr Hj). }
    apply wp_bind. assert (sent R s s2) as Hs by (by etrans).
    eapply wp_mono; [apply IH|].
    + intros sl' c' s' Hsl. apply Hd. by right.
    + intros sl' Hsl. destruct (Hl sl') as (HR' & c' & Hc'); [by right|]. split; [done|].
      destruct (sent_live _ _ _ _ _ Hs Hc') as (c'' & Hc'' & _). by exists c''.
    + intros rs s3 (Hs3 & Hrs). apply wp_ret. split; [by etrans|]. intros Hj.
      rewrite <- Hj1 in Hj. destruct (Hrs (st_jni _ _ _ Hs2 Hj)) as [Hne Hpn].
      split; [by destruct rs|]. intros sl' c' [->|Hsl]%elem_of_cons Hc'; [|by eapply Hpn].
      destruct (sent_live _ _ _ _ _ Hs3 Hc2) as (c3 & Hc3 & _ & _ & Hp3).
      rewrite Hc' in Hc3. injection Hc3 as <-.
      destruct (pending_notification c'); [|done]. by specialize (Hp2 (Hp3 eq_refl)).
Qed.

Definition in_slots s p : Prop := p ∈ slot_ptrs s.

Lemma elem_of_arr cur strict s a l sl :
  inv cur strict s -> arr_slots (get_arr a s) = Some l -> sl ∈ l ->
  in_slots s (slot_data sl) /\ exists c, heap s !! slot_data sl = Some c.
Proof.
  intros Hi Hl Hsl. rewrite arr_slots_wf in Hl by (by eapply inv_arr_wf). injection Hl as <-.
  assert (slot_data sl ∈ slot_ptrs s) as Hp by (by eapply elem_of_slot_ptrs).
  split; [done|]. by eapply inv_slot_live.
Qed.

Lemma sendConnectionsDump_sent cur strict s :
  inv cur strict s ->
  wp sendConnectionsDump
     (fun _ s' => sent (in_slots s) s s' /\
        (all_ok (jni_calls s) -> forall p c, p ∈ slot_ptrs s -> heap s' !! p = Some c ->
           pending_notification c = false)) s.
Proof.
  intros Hi. unfold sendConnectionsDump. apply wp_bind, (wp_jni_ok (in_slots s)).
  intros ok s1 Hs1 Hh1 Hok. apply wp_when.
  2:{ intros ->. split; [done|]. intros Hj. by specialize (Hok Hj). }
  intros _. apply wp_bind, wp_gets, wp_bind. rewrite (st_new _ _ _ Hs1), (st_updates _ _ _ Hs1).
  pose proof (inv_arr_wf _ _ _ NEW_CONNS Hi) as Hwn. pose proof (inv_arr_wf _ _ _ CONNS_UPDATES Hi) as Hwu.
  pose proof (arr_slots_wf _ Hwn) as Hln. pose proof (arr_slots_wf _ Hwu) as Hlu.
  set (ln := default [] _) in Hln. set (lu := default [] _) in Hlu.
  eapply wp_of_option; [exact Hln|]. apply wp_bind.
  eapply wp_mono; [apply (dump_slots_sent (in_slots s)) with (l := ln)|].
  { intros sl c s' Hsl. apply dumpNewConnection_sent. by eapply (elem_of_arr _ _ _ NEW_CONNS). }
  { intros sl Hsl. rewrite Hh1. by eapply (elem_of_arr _ _ _ NEW_CONNS). }
  intros descrs s2 (Hs2 & Hd). assert (sent (in_slots s) s s2) as Hs by (by etrans).
  destruct descrs as [descrs|].
  2:{ apply wp_ret. split; [done|]. intros Hj. by destruct (Hd (st_jni _ _ _ Hs1 Hj)). }
  apply wp_bind. eapply wp_of_option; [exact Hlu|]. apply wp_bind.
  eapply wp_mono; [apply (dump_slots_sent (in_slots s)) with (l := lu)|].
  { intros sl c s' Hsl. apply getConnUpdate_sent. by eapply (elem_of_arr _ _ _ CONNS_UPDATES). }
  { intros sl Hsl. destruct (elem_of_arr _ _ _ CONNS_UPDATES _ _ Hi Hlu Hsl) as (HR & c & Hc).
    split; [done|]. destruct (sent_live _ _ _ _ _ Hs Hc) as (c' & Hc' & _). by exists c'. }
  intros updates s3 (Hs3 & Hu). assert (sent (in_slots s) s s3) as Hs' by (by etrans).
  assert (all_ok (jni_calls s) -> updates <> None /\ forall p c, p ∈ slot_ptrs s ->
    heap s3 !! p = Some c -> pending_notification c = false) as Hall.
  { intros Hj. pose proof (st_jni _ _ _ Hs1 Hj) as Hj1. destruct (Hd Hj1) as [_ Hpn].
    destruct (Hu (st_jni _ _ _ Hs2 Hj1)) as [Hne Hpu]. split; [done|].
    intros p c Hp Hc. unfold slot_ptrs in Hp. apply list_elem_of_fmap in Hp as (sl & -> & Hsl).
    unfold slots in Hsl. apply elem_of_app in Hsl as [Hsl|Hsl]; [|by eapply Hpu].
    destruct (elem_of_arr _ _ _ NEW_CONNS _ _ Hi Hln Hsl) as (_ & c0 & Hc0).
    destruct (sent_live _ _ _ _ _ Hs Hc0) as (c2 & Hc2 & _).
    destruct (sent_live _ _ _ _ _ Hs3 Hc2) as (c3 & Hc3 & _ & _ & Hp3).
    rewrite Hc in Hc3. injection Hc3 as <-. destruct (pending_notification c); [|done].
    by rewrite (Hpn sl c2 Hsl Hc2) in Hp3; specialize (Hp3 eq_refl). }
  destruct updates as [updates|].
  - apply wp_modify. split; [|apply Hall]. etrans; [done|]. by split.
  - apply wp_ret. split; [done|]. intros Hj. by destruct (Hall Hj).
Qed.

(** Sending the notifications and clearing the arrays: the closed connections
    are freed, and the others are no longer waiting. *)
Definition flush_connections : M state unit :=
  sendConnectionsDump;;
  conns_clear NEW_CONNS false;;
  conns_clear CONNS_UPDATES false.

Lemma purged_app ps qs free_all (h h1 h2 : gmap conn_ptr (pd_conn F)) :
  NoDup (ps ++ qs) -> purged ps free_all h h1 -> purged qs free_all h1 h2 ->
  purged (ps ++ qs) free_all h h2.
Proof.
  intros Hnd H1 H2 p. rewrite (H2 p), (H1 p). destruct (h !! p) as [c|]; simpl; [|done].
  apply NoDup_app in Hnd as (_ & Hd & _). specialize (Hd p).
  destruct (decide (p ∈ ps)) as [Hp|Hp].
  - rewrite (bool_decide_eq_true_2 (p ∈ ps)) by done.
    rewrite (bool_decide_eq_true_2 (p ∈ ps ++ qs)) by (apply elem_of_app; by left). simpl.
    destruct (to_purge c || free_all) eqn:E; simpl; [done|].
    by rewrite (bool_decide_eq_false_2 (p ∈ qs)) by auto.
  - rewrite (bool_decide_eq_false_2 (p ∈ ps)) by done. simpl.
    assert (bool_decide (p ∈ ps ++ qs) = bool_decide (p ∈ qs)) as ->; [|done].
    apply bool_decide_ext. rewrite elem_of_app. tauto.
Qed.

(** Clearing both arrays leaves the store without the purged records. *)
Lemma wp_clear_both free_all (Q : unit -> state -> Prop) s :
  arr_wf (new_conns s) -> arr_wf (conns_updates s) -> NoDup (slot_ptrs s) ->
  (forall p, p ∈ slot_ptrs s -> exists c, heap s !! p = Some c) ->
  (forall h, purged (slot_ptrs s) free_all (heap s) h ->
     Q tt (s <| heap := h |> <| new_conns := empty_array |> <| conns_updates := empty_array |>)) ->
  wp (conns_clear NEW_CONNS free_all;; conns_clear CONNS_UPDATES free_all) Q s.
Proof.
  intros Hwn Hwu Hnd Hl HQ. unfold slot_ptrs, slots in Hnd, Hl, HQ.
  rewrite fmap_app in Hnd, Hl, HQ. pose proof Hnd as Hnd0.
  apply NoDup_app in Hnd as (Hn & Hd & Hu).
  apply wp_bind, wp_conns_clear; [exact Hwn|exact Hn|..].
  { intros p Hp. apply Hl, elem_of_app. by left. }
  intros h1 H1. cbv beta.
  apply wp_conns_clear; [exact Hwu|exact Hu|..].
  { intros p Hp. destruct (Hl p) as [c Hc]; [apply elem_of_app; by right|]. exists c.
    change (heap (set_arr_state _ _ _)) with h1. rewrite (H1 p), Hc. simpl.
    rewrite bool_decide_eq_false_2; [done|]. intros Hp'. by apply (Hd p Hp'). }
  intros h2 H2. apply (HQ h2). eapply purged_app; [done|exact H1|exact H2].
Qed.

Lemma flush_inv strict s :
  inv None strict s ->
  wp flush_connections
     (fun _ s' => inv None strict s' /\ slots s' = [] /\ connections s' = connections s /\
        zdt_connections s' = zdt_connections s) s.
Proof.
  intros Hi. unfold flush_connections. apply wp_bind.
  eapply wp_mono; [by apply (sendConnectionsDump_sent None strict)|].
  intros [] s1 (Hs1 & Hpn). cbv beta. pose proof Hi as Hi0.
  destruct Hi0 as [inv_new0 inv_updates0 inv_slots_nodup0 inv_slots0 inv_table0 inv_table_nodup0
    inv_table_live0 inv_heap0 inv_reallocs0 inv_strndups0 inv_dumper0 inv_counts0 inv_mode0 inv_malware0
    inv_strict0 inv_pending0 inv_owned0].
  assert (slot_ptrs s1 = slot_ptrs s) as Hsp.
  { unfold slot_ptrs, slots. by rewrite (st_new _ _ _ Hs1), (st_updates _ _ _ Hs1). }
  apply wp_clear_both.
  { by rewrite (st_new _ _ _ Hs1). } { by rewrite (st_updates _ _ _ Hs1). }
  { by rewrite Hsp. }
  { rewrite Hsp. intros p Hp. destruct (inv_slots0 p Hp) as (c & Hc & _).
    destruct (sent_live _ _ _ _ _ Hs1 Hc) as (c' & Hc' & _). by exists c'. }
  rewrite Hsp. intros h Hh. split; [|split_and!; [done|exact (st_connections _ _ _ Hs1)|exact (st_zdt _ _ _ Hs1)]].
  match goal with |- inv _ _ ?s' => set (s2 := s') end.
  assert (connections s2 = connections s) as Ecn by exact (st_connections _ _ _ Hs1).
  assert (table_ptrs s2 = table_ptrs s) as Etp by by apply table_ptrs_same.
  assert (forall p c', h !! p = Some c' -> exists c, heap s !! p = Some c /\ sent_conn c c' /\
            heap s1 !! p = Some c' /\ (p ∈ slot_ptrs s -> to_purge c = false)) as Hback.
  { intros p c' Hp. rewrite (Hh p) in Hp. destruct (heap s1 !! p) as [c1|] eqn:E1; [|done].
    simpl in Hp. destruct (bool_decide (p ∈ slot_ptrs s) && (to_purge c1 || false)) eqn:Eb; [done|].
    injection Hp as ->. pose proof (st_heap _ _ _ Hs1 p) as Hr. rewrite E1 in Hr.
    apply option_Forall2_Some_r in Hr as (c & Hc & Hsc). exists c. split; [done|]. split; [done|].
    split; [done|]. intros Hin. rewrite bool_decide_eq_true_2 in Eb by done.
    rewrite orb_false_r in Eb. simpl in Eb. by destruct Hsc as [<- _]. }
  split; try done.
  - unfold slot_ptrs, slots. simpl. constructor.
  - intros p Hp. unfold slot_ptrs, slots in Hp. by apply elem_of_nil in Hp.
  - by rewrite Ecn.
  - by rewrite Etp.
  - intros p Hp. rewrite Etp in Hp.
    destruct (inv_table_live0 p Hp) as (c & Hc & Htp).
    destruct (sent_live _ _ _ _ _ Hs1 Hc) as (c' & Hc' & Htp' & _). exists c'.
    change (heap s2) with h. rewrite (Hh p), Hc'. simpl.
    assert (to_purge c = false) as Hfalse by by apply Htp.
    rewrite Htp', Hfalse. rewrite andb_false_r. split; [done|]. intros _. congruence.
  - intros p c' Hp. destruct (Hback p c' Hp) as (c & Hc & (_ & Hb & _) & _).
    destruct (inv_heap0 p c Hc). change (next_ptr s2) with (next_ptr s1).
    rewrite (st_next _ _ _ Hs1). split; [done|auto].
  - change (all_ok (reallocs s1)). by rewrite (st_reallocs _ _ _ Hs1).
  - change (all_ok (strndups s1)). by rewrite (st_strndups _ _ _ Hs1).
  - change (forall d, dumper (pcap_dump s1) = Some d -> dumper_wf d). by rewrite (st_dump _ _ _ Hs1).
  - intros Hm. change (counts_ok s1). unfold counts_ok. rewrite (st_zstats _ _ _ Hs1), (st_connections _ _ _ Hs1). by apply inv_counts0.
  - change (vpn_capture s1 = vpn_mode). by rewrite (st_mode _ _ _ Hs1).
  - change (malware_ok (malware s1)). by rewrite (st_malware _ _ _ Hs1).
  - intros Hst. exact (st_jni _ _ _ Hs1 (inv_strict0 Hst)).
  - intros Hst p c' Hp Hpc. destruct (Hback p c' Hp) as (c & Hc & (_ & _ & Hpp) & Hc1 & _).
    pose proof (inv_pending0 Hst p c Hc (Hpp Hpc)) as Hin.
    rewrite (Hpn (inv_strict0 Hst) p c' Hin Hc1) in Hpc. done.
  - intros Hst p c' Hp _. destruct (Hback p c' Hp) as (c & Hc & _ & _ & Htp). left. rewrite Etp.
    destruct (inv_owned0 Hst p c Hc) as [Hin|[Hin Htp']]; [done|done|].
    rewrite (Htp Hin) in Htp'. done.
Qed.
End java_props.

(** ** What Java gets *)
Section java_sends.
Context {P F : Type} `{Ndpi P} `{NdpiFlow F} {cmode : CaptureMode}.
Abbreviation state := (pcapdroid P F).
Implicit Types (s : state) (c : pd_conn F).

(** The update of a connection, with the parts that its flags ask for. *)
Definition update_of s (sl : conn_and_tuple) c : conn_update :=
  let has := has_flag (update_type c) in
  mk_update (incr_id c)
    (if has CONN_UPDATE_STATS then Some (update_stats s c) else None)
    (if has CONN_UPDATE_INFO then Some (update_info c (ipproto (slot_tuple sl))) else None)
    (if has CONN_UPDATE_PAYLOAD then Some (payload_chunks c, payload_truncated c) else None).

(** The description of a new connection, whose statistics and info are always sent. *)
Definition descr_of s (sl : conn_and_tuple) c : conn_descr :=
  mk_descr (incr_id c) (slot_tuple sl)
    (ntohs (if vpn_capture s then vpn_local_port c else src_port (slot_tuple sl)))
    (conn_uid c) (if vpn_capture s then 0 else pcap_ifidx c)
    (tls_enabled (tls s) && proxied c) (first_seen c)
    (update_of s sl (set_update c (Z.lor CONN_UPDATE_STATS CONN_UPDATE_INFO))).

(** Nothing but the records and the outcomes of the JNI calls changes. *)
Definition with_heap s (h : gmap conn_ptr (pd_conn F)) (j : list bool) : state :=
  s <| heap := h |> <| jni_calls := j |>.

Definition delivered c : Prop := pending_notification c = false /\ update_type c = 0.

Lemma with_heap_twice s h j h' j' : with_heap (with_heap s h j) h' j' = with_heap s h' j'.
Proof. reflexivity. Qed.

Lemma with_heap_same s : with_heap s (heap s) (jni_calls s) = s.
Proof. by destruct s. Qed.

Lemma heap_with_heap s h j : heap (with_heap s h j) = h.
Proof. reflexivity. Qed.

Lemma jni_with_heap s h j : jni_calls (with_heap s h j) = j.
Proof. reflexivity. Qed.

Lemma wp_next_jni (Q : bool -> state -> Prop) s h j :
  all_ok j -> (forall j', all_ok j' -> Q true (with_heap s h j')) -> wp jni_ok Q (with_heap s h j).
Proof.
  intros Hj HQ. unfold jni_ok. wp_steps. rewrite jni_with_heap, all_ok_next by done.
  apply (HQ (tail j)). by apply all_ok_tail.
Qed.

Lemma wp_modify_heap p f c (Q : unit -> state -> Prop) s h j :
  h !! p = Some c -> Q tt (with_heap s (<[p := f c]> h) j) -> wp (modify_conn p f) Q (with_heap s h j).
Proof. intros Hp HQ. eapply wp_modify_conn; [exact Hp|]. exact HQ. Qed.

(** [dump] sends [spec] of the record, for the configuration of [s]. *)
Definition sends {X} (spec : conn_and_tuple -> pd_conn F -> X)
    (dump : conn_and_tuple -> M state (option X)) s : Prop :=
  forall sl c (Q : option X -> state -> Prop) h j,
    h !! slot_data sl = Some c -> all_ok j ->
    (forall c' j', pending_notification c' = pending_notification c -> update_type c' = 0 ->
       all_ok j' -> Q (Some (spec sl c)) (with_heap s (<[slot_data sl := c']> h) j')) ->
    wp (dump sl) Q (with_heap s h j).

Lemma getConnUpdate_sends s : sends (update_of s) getConnUpdate s.
Proof.
  intros sl c Q h j Hc Hj HQ. unfold getConnUpdate. cbv zeta. apply wp_bind, wp_next_jni; [done|].
  intros j1 Hj1. cbn [negb]. apply wp_bind, wp_gets, wp_bind. eapply wp_deref; [exact Hc|]. cbv beta.
  apply wp_bind.
  set (r := mk_update _ _ _ _). assert (r = update_of s sl c) as -> by reflexivity.
  eapply (wp_mono _ (fun _ s' => exists c', s' = with_heap s (<[slot_data sl := c']> h) j1 /\
            pending_notification c' = pending_notification c)).
  - apply wp_when; intros _; [eapply wp_modify_heap; [exact Hc|]; by eexists|].
    exists c. by rewrite insert_id.
  - intros [] s' (c' & -> & Hp). cbv beta. apply wp_bind. eapply wp_modify_heap; [apply lookup_insert_eq|].
    rewrite insert_insert_eq. apply wp_bind, wp_next_jni; [done|]. intros j2 Hj2. apply wp_ret.
    by apply HQ.
Qed.

Lemma dumpNewConnection_sends s : sends (descr_of s) dumpNewConnection s.
Proof.
  intros sl c Q h j Hc Hj HQ. unfold dumpNewConnection. cbv zeta. apply wp_bind, wp_gets, wp_bind.
  eapply wp_deref; [exact Hc|]. apply wp_bind, wp_next_jni; [done|]. intros j1 Hj1. cbn [negb].
  apply wp_bind. eapply wp_modify_heap; [exact Hc|]. apply wp_bind.
  eapply getConnUpdate_sends; [apply lookup_insert_eq|done|].
  intros c' j2 Hp Hu Hj2. apply wp_bind, wp_next_jni; [done|]. intros j3 Hj3. apply wp_ret.
  rewrite insert_insert_eq. by apply (HQ c' j3).
Qed.

(** What the loop over the slots [l] sends from the store [h]. *)
Definition sent_list {X} (spec : conn_and_tuple -> pd_conn F -> X)
    (h : gmap conn_ptr (pd_conn F)) (l : list conn_and_tuple) : list X :=
  omap (fun sl => spec sl <$> h !! slot_data sl) l.

Lemma sent_list_ext {X} (spec : conn_and_tuple -> pd_conn F -> X) h h' l :
  (forall p, p ∈ slot_data <$> l -> h' !! p = h !! p) -> sent_list spec h' l = sent_list spec h l.
Proof.
  unfold sent_list. induction l as [|sl l IH]; intros Hh; csimpl; [done|]. rewrite Hh by left.
  rewrite IH; [done|]. intros p Hp. apply Hh. by right.
Qed.

Lemma wp_dump_slots {X} (spec : conn_and_tuple -> pd_conn F -> X) dump l
    (Q : option (list X) -> state -> Prop) s h j :
  sends spec dump s ->
  (forall sl c, spec sl (c <| pending_notification := false |>) = spec sl c) ->
  all_ok j -> NoDup (slot_data <$> l) ->
  (forall p, p ∈ slot_data <$> l -> exists c, h !! p = Some c) ->
  (forall h' j', all_ok j' -> (forall p, p ∉ slot_data <$> l -> h' !! p = h !! p) ->
     (forall p, p ∈ slot_data <$> l -> exists c, h' !! p = Some c /\ delivered c) ->
     Q (Some (sent_list spec h l)) (with_heap s h' j')) ->
  wp (dump_slots dump l) Q (with_heap s h j).
Proof.
  intros Hsend Hpn. revert Q h j. induction l as [|sl l IH]; intros Q h j Hj Hnd Hl HQ; csimpl in *.
  { apply wp_ret, HQ; [done|done|]. by intros p ?%elem_of_nil. }
  apply NoDup_cons in Hnd as [Hn Hnd]. destruct (Hl (slot_data sl)) as [c Hc]; [left|].
  apply wp_bind. eapply wp_modify_heap; [exact Hc|]. apply wp_bind.
  eapply Hsend; [apply lookup_insert_eq|done|]. intros c' j1 Hp Hu Hj1. rewrite Hpn, insert_insert_eq.
  set (h1 := <[slot_data sl := c']> h). assert (h1 !! slot_data sl = Some c') as Hc1 by apply lookup_insert_eq.
  assert (forall p, slot_data sl <> p -> h1 !! p = h !! p) as Hne.
  { intros p Hne. unfold h1. by rewrite lookup_insert_ne. }
  clearbody h1. apply wp_bind, IH; [done|done|..].
  { intros p Hin. rewrite Hne by (intros <-; done). apply Hl. by right. }
  intros h2 j2 Hj2 Hout Hin. apply wp_ret.
  assert (sent_list spec h (sl :: l) = spec sl c :: sent_list spec h1 l) as E.
  { rewrite (sent_list_ext spec h h1); [unfold sent_list; csimpl; by rewrite Hc|].
    intros p Hpl. apply Hne. intros <-. done. }
  rewrite <- E. apply HQ; [done|..].
  - intros p [Hnp Hnl]%not_elem_of_cons. rewrite Hout by done. by apply Hne.
  - intros p [->|Hpl]%elem_of_cons; [|by apply Hin]. exists c'. rewrite Hout by done.
    split; [done|]. split; [|done]. exact Hp.
Qed.

(** C31: when no JNI call throws, [sendConnectionsDump] makes one call to the
    service, with one description per new connection and one update per changed
    connection, in the order they were queued, built from the records as they
    were before the dump; every queued record is then marked as delivered, and
    nothing else changes. *)
Theorem sendConnectionsDump_sends s :
  arr_wf (new_conns s) -> arr_wf (conns_updates s) -> NoDup (slot_ptrs s) ->
  (forall p, p ∈ slot_ptrs s -> exists c, heap s !! p = Some c) -> all_ok (jni_calls s) ->
  exists h j,
    sendConnectionsDump s =
      Some (tt, (with_heap s h j)
        <| java_out ::= fun out => out ++
             [JUpdateConnections (sent_list (descr_of s) (heap s) (default [] (items (new_conns s))))
                (sent_list (update_of s) (heap s) (default [] (items (conns_updates s))))] |>) /\
    (forall p, p ∉ slot_ptrs s -> h !! p = heap s !! p) /\
    (forall p, p ∈ slot_ptrs s -> exists c, h !! p = Some c /\ delivered c).
Proof.
  intros Hwn Hwu Hnd Hl Hj. unfold slot_ptrs, slots in Hnd, Hl |- *. rewrite fmap_app in Hnd, Hl |- *.
  apply NoDup_app in Hnd as (Hndn & Hd & Hndu). apply arr_slots_wf in Hwn, Hwu.
  set (ln := default [] (items (new_conns s))) in *. set (lu := default [] (items (conns_updates s))) in *.
  cut (wp sendConnectionsDump (fun _ s' => exists h j, s' = (with_heap s h j)
        <| java_out ::= fun out => out ++
             [JUpdateConnections (sent_list (descr_of s) (heap s) ln) (sent_list (update_of s) (heap s) lu)] |> /\
     (forall p, p ∉ (slot_data <$> ln) ++ (slot_data <$> lu) -> h !! p = heap s !! p) /\
     (forall p, p ∈ (slot_data <$> ln) ++ (slot_data <$> lu) -> exists c, h !! p = Some c /\ delivered c)) s).
  { unfold wp. destruct (sendConnectionsDump s) as [[[] s']|]; [|done].
    intros (h & j & -> & Ho & Hi). by exists h, j. }
  assert (forall Q, wp sendConnectionsDump Q (with_heap s (heap s) (jni_calls s)) ->
    wp sendConnectionsDump Q s) as Hwh by (intros Q; by rewrite with_heap_same).
  apply Hwh. unfold sendConnectionsDump.
  apply wp_bind, wp_next_jni; [done|]. intros j0 Hj0. cbn [when].
  apply wp_bind, wp_gets, wp_bind. eapply wp_of_option; [exact Hwn|]. apply wp_bind.
  apply (wp_dump_slots (descr_of s)); [apply dumpNewConnection_sends|reflexivity|done|done|..].
  { intros p Hp. apply Hl, elem_of_app. by left. }
  intros h1 j1 Hj1 Ho1 Hi1. cbv beta iota. apply wp_bind. eapply wp_of_option; [exact Hwu|].
  assert (forall p, p ∈ slot_data <$> lu -> h1 !! p = heap s !! p) as Hsame.
  { intros p Hp. apply Ho1. intros Hp'. by apply (Hd p). }
  apply wp_bind, (wp_dump_slots (update_of s)); [apply getConnUpdate_sends|reflexivity|done|done|..].
  { intros p Hp. rewrite Hsame by done. apply Hl, elem_of_app. by right. }
  intros h2 j2 Hj2 Ho2 Hi2. unfold call_java. apply wp_modify. exists h2, j2.
  rewrite (sent_list_ext (update_of s) (heap s) h1 lu Hsame). split; [done|]. split.
  - intros p [Hp1 Hp2]%not_elem_of_app. rewrite Ho2 by done. by apply Ho1.
  - intros p [Hp|Hp]%elem_of_app; [|by apply Hi2].
    destruct (Hi1 p Hp) as (c & Hc & Hdel). exists c. rewrite Ho2; [done|]. intros Hp'. by apply (Hd p).
Qed.
End java_sends.

(** Two records: the first one is new, the second one has new statistics. *)
Definition ex_queued : pcapdroid (list Z) Z :=
  ex_state <| heap := {[1 := zero_conn <| pending_notification := true |>;
                        2 := (set_update zero_conn CONN_UPDATE_STATS) <| pending_notification := true |>]} |>
           <| new_conns := mk_array (Some [mk_slot (mk_5tuple 1 2 3 4 4 6) 1]) 8 1 |>
           <| conns_updates := mk_array (Some [mk_slot (mk_5tuple 5 6 7 8 4 17) 2]) 8 1 |>.

Lemma sendConnectionsDump_sends_witness :
  exists h j d u,
    sendConnectionsDump ex_queued =
      Some (tt, (with_heap ex_queued h j) <| java_out ::= fun out => out ++ [JUpdateConnections [d] [u]] |>) /\
    cd_incr_id d = 0 /\ cu_info u = None.
Proof.
  destruct (sendConnectionsDump_sends ex_queued) as (h & j & E & _).
  - split; cbn; [done|lia|done].
  - split; cbn; [done|lia|done].
  - apply (bool_decide_unpack _). vm_compute. exact I.
  - intros p [->|[->|[]%elem_of_nil]%elem_of_cons]%elem_of_cons; eexists; reflexivity.
  - constructor.
  - exists h, j. do 2 eexists. split; [exact E|]. split; reflexivity.
Defined.
