(* ===== verification/Dpi.v ===== *)
(** The packet path of core/pcapdroid.c: DPI, DNS replies, payload chunks,
    statistics and the PCAP dump of a packet of a connection. *)
From Stdlib Require Import ZArith Lia.
From stdpp Require Import base option gmap numbers list.
From S2P Require Import Prelude Packet Uthash Lru AppNames PcapDump Blacklist.
From S2P Require Import NdpiProtos Conn ConnInv JavaDump.

Open Scope Z_scope.

(** ** DNS replies: the loops over the bytes *)

(** [while((len > 0) && (reply[0] != 0)) { reply++; len--; }] *)
Fixpoint skip_to_zero (fuel : nat) (buf : bytes) (reply len : Z) : option (Z * Z) :=
  if len <=? 0 then Some (reply, len) else
  c ← rd8 buf reply;
  if c =? 0 then Some (reply, len) else
  match fuel with
  | O => None
  | S fuel' => skip_to_zero fuel' buf (reply + 1) (len - 1)
  end.

Fixpoint skip_queries (num_queries : nat) (buf : bytes) (reply len : Z) : option (Z * Z) :=
  match num_queries with
  | O => Some (reply, len)
  | S n =>
      if len <=? 0 then Some (reply, len) else
      '(reply, len) ← skip_to_zero (Z.to_nat len) buf reply len;
      skip_queries n buf (reply + 5) (len - 5)
  end.

(** A name: labels up to a zero byte or a compression pointer. *)
Fixpoint skip_name (fuel : nat) (buf : bytes) (reply len : Z) : option (Z * Z) :=
  if len <=? 0 then Some (reply, len) else
  c ← rd8 buf reply;
  if c =? 0 then Some (reply + 1, len - 1)
  else if c =? 0xc0 then Some (reply + 2, len - 2)
  else match fuel with
       | O => None
       | S fuel' => skip_name fuel' buf (reply + 1) (len - 1)
       end.

(** The address of an answer whose data start at [reply]; [Some None]: the
    record is of another type. *)
Definition answer_addr (buf : bytes) (rec_type addr_len reply : Z) : option (option Z) :=
  if (rec_type =? 0x1) && (addr_len =? 4) then ip ← rd32 buf reply; Some (Some ip)
  else if (rec_type =? 0x1c) && (addr_len =? 16) then ip ← rd128 buf reply; Some (Some ip)
  else Some None.

(** ** Operations *)
Section dpi_ops.
Context {P F : Type} `{Ndpi P} `{NdpiFlow F} (java_app_name : Z -> option bytes).
Abbreviation state := (pcapdroid P F).
Abbreviation get_state := (gets (fun s : state => s)).

Definition lru_add (ip : Z) (query : bytes) : M state unit :=
  dup ← malloc_ok;
  alloc ← malloc_ok;
  modify (fun s => s <| ip_to_host := IpLru.ip_lru_add (ip_to_host s) ip query dup alloc |>).

Fixpoint dns_answers (num_replies : nat) (buf query : bytes) (reply len : Z) : M state unit :=
  match num_replies with
  | O => mret tt
  | S n =>
      if len <=? 0 then mret tt else
      '(reply, len) ← of_option (skip_name (Z.to_nat len) buf reply len);
      if len <? 10 then mret tt else
      rec_type ← of_option (rd16 buf reply);
      addr_len ← of_option (rd16 buf (reply + 8));
      let reply := reply + 10 in
      let len := len - 10 in
      addr ← of_option (answer_addr buf (ntohs rec_type) (ntohs addr_len) reply);
      match addr with Some ip => lru_add ip query | None => mret tt end;;
      dns_answers n buf query (reply + ntohs addr_len) (len - ntohs addr_len)
  end.

Definition process_dns_reply (p : conn_ptr) (pkt : zdtun_pkt) : M state unit :=
  data ← deref p;
  flow ← of_option (ndpi_flow data);
  let query := host_server_name flow in
  let buf := pkt_buf pkt in
  if bool_decide (query = []) || negb (bool_decide (DOT ∈ query)) ||
     (l7_len pkt <? sizeof_dns_packet)
  then mret tt else
  let dns := l7_off pkt in
  flags ← of_option (rd16 buf (dns + 2));
  questions ← of_option (rd16 buf (dns + 4));
  answ_rrs ← of_option (rd16 buf (dns + 6));
  if (Z.land (ntohs flags) 0x8000 =? 0x8000) && negb (questions =? 0) && negb (answ_rrs =? 0) then
    let reply := dns + sizeof_dns_packet in
    let len := l7_len pkt - sizeof_dns_packet in
    let num_replies := Z.min (ntohs answ_rrs) 32 in
    '(reply, len) ← of_option (skip_queries (Z.to_nat (ntohs questions)) buf reply len);
    dns_answers (Z.to_nat num_replies) buf query reply len
  else mret tt.

Definition process_payload (pctx : pkt_context) : M state unit :=
  let p := pctx_data pctx in
  let pkt := pctx_pkt pctx in
  s ← get_state;
  data ← deref p;
  let has_payload := if pctx_is_tx pctx then has_payload_tx data else has_payload_rx data in
  if decide (payload_mode s = PAYLOAD_MODE_NONE) then mret tt else
  if l7_len pkt <=? 0 then mret tt else
  if tls_enabled (tls s) && proxied data then mret tt else
  let minimal := bool_decide (payload_mode s = PAYLOAD_MODE_MINIMAL) in
  '(updated, truncated) ←
    (if negb minimal || negb has_payload then
       let clip := minimal && (l7_len pkt >? MINIMAL_PAYLOAD_MAX_DIRECTION_SIZE) in
       let to_dump := if clip then MINIMAL_PAYLOAD_MAX_DIRECTION_SIZE else l7_len pkt in
       dumped ← dumpPayloadChunk pctx to_dump;
       if (dumped : bool) then
         modify_conn p (fun c => if pctx_is_tx pctx then c <| has_payload_tx := true |>
                                 else c <| has_payload_rx := true |>);;
         mret (true, payload_truncated data || clip)
       else mret (false, true)
     else mret (false, true));
  data' ← deref p;
  when ((updated && match payload_chunks data' with Some _ => true | None => false end) ||
        negb (Bool.eqb truncated (payload_truncated data')))
    (modify_conn p (fun c => set_update (c <| payload_truncated ::= fun t => t || truncated |>)
                                        CONN_UPDATE_PAYLOAD);;
     pd_notify_connection_update java_app_name (pctx_tuple pctx) p;;
     mret tt).

(** The guess of the ALPN protocol at the end of the detection. *)
Definition guess_alpn (data : pd_conn F) (tuple : zdtun_5tuple) : Z :=
  let starts prefix := match info data with
                       | Some host => bool_decide (take (length prefix) host = prefix)
                       | None => false
                       end in
  if ntohs (dst_port tuple) =? 443 then NDPI_PROTOCOL_HTTP
  else if starts STR_imap_dot then NDPI_PROTOCOL_MAIL_IMAP
  else if starts STR_smtp_dot then NDPI_PROTOCOL_MAIL_SMTP
  else 0.

Definition delay_netd_dump (p : conn_ptr) : M state unit :=
  s ← get_state;
  data ← deref p;
  when ((l7proto data =? NDPI_PROTOCOL_DNS) && (conn_uid data =? UID_NETD) &&
        (sent_pkts data + rcvd_pkts data =? 0) &&
        ((netd_resolve_waiting s >? 0) ||
         (u64 (next_connections_dump s - NETD_RESOLVE_DELAY_MS) <? pd_now_ms s)))
    (when (netd_resolve_waiting s =? 0)
       (modify (fun s => s <| next_connections_dump ::= fun n => u64 (n + NETD_RESOLVE_DELAY_MS) |>));;
     modify (fun s => s <| netd_resolve_waiting ::= fun n => s32 (n + 1) |>)).

Definition finish_alpn (tuple : zdtun_5tuple) (p : conn_ptr) : M state unit :=
  data ← deref p;
  match ndpi_flow data with
  | Some _ => mret tt
  | None =>
      when ((l7proto data =? NDPI_PROTOCOL_TLS) && (alpn data =? 0))
        (let a := guess_alpn data tuple in
         when (negb (a =? 0))
           (modify_conn p (fun c => set_update (c <| alpn := a |>) CONN_UPDATE_INFO);;
            pd_notify_connection_update java_app_name tuple p;;
            mret tt))
  end.

Definition perform_dpi (pctx : pkt_context) : M state unit :=
  let p := pctx_data pctx in
  let pkt := pctx_pkt pctx in
  data ← deref p;
  let giveup := sent_pkts data + rcvd_pkts data + 1 >=? MAX_DPI_PACKETS in
  flow ← of_option (ndpi_flow data);
  let '(n_proto, flow) :=
    ndpi_detection_process_packet flow (pkt_buf pkt) (pkt_len pkt) (last_seen data) in
  let proto := pd_ndpi2proto n_proto in
  modify_conn p (fun c => c <| ndpi_flow := Some flow |> <| l7proto := proto |>);;
  when (negb (l7proto data =? proto))
    (modify_conn p (fun c => (set_update c CONN_UPDATE_INFO) <| encrypted_l7 := is_encrypted_l7 proto |>));;
  when (negb (pctx_is_tx pctx) && (proto =? NDPI_PROTOCOL_DNS)) (process_dns_reply p pkt);;
  (if giveup || (negb (proto =? NDPI_PROTOCOL_UNKNOWN) && negb (ndpi_extra_dissection_possible flow))
   then pd_giveup_dpi java_app_name p (pkt_tuple pkt)
   else process_ndpi_data java_app_name (pkt_tuple pkt) p);;
  delay_netd_dump p;;
  finish_alpn (pctx_tuple pctx) p.

Definition make_pctx (pkt : zdtun_pkt) (is_tx : bool) (tuple : zdtun_5tuple) (p : conn_ptr)
    (tv : timeval) : pkt_context :=
  mk_pctx pkt tv (u64 (tv_sec tv * 1000 + tv_usec tv / 1000)) is_tx tuple p.

(** Returns the packet context. *)
Definition pd_process_packet (pkt : zdtun_pkt) (is_tx : bool) (tuple : zdtun_5tuple) (p : conn_ptr)
    (tv : timeval) : M state pkt_context :=
  let pctx := make_pctx pkt is_tx tuple p tv in
  modify_conn p (fun c => c <| last_seen := s64 (pctx_ms pctx) |>
                            <| first_seen ::= fun f => if f =? 0 then s64 (pctx_ms pctx) else f |>);;
  data ← deref p;
  when (match ndpi_flow data with Some _ => true | None => false end &&
        (negb (has_flag (pkt_flags pkt) ZDTUN_PKT_IS_FRAGMENT) ||
         has_flag (pkt_flags pkt) ZDTUN_PKT_IS_FIRST_FRAGMENT))
    (perform_dpi pctx);;
  process_payload pctx;;
  mret pctx.

(** *** The PCAP dump *)

(** The dumper sees the clock and the name table through its [pd] pointer. *)
Definition sync_dumper (s : state) (d : pcap_dumper) : pcap_dumper :=
  d <| PcapDump.now_ms := pd_now_ms s |> <| PcapDump.uid2app := pd_uid2app s |>.

Definition set_dumper (d : option pcap_dumper) : M state unit :=
  modify (fun s => s <| pcap_dump ::= fun c => c <| dumper := d |> |>).

(** The chunks exported last are kept with the dumper's ones. *)
Definition stop_pcap_dump : M state unit :=
  s ← get_state;
  d ← of_option (dumper (pcap_dump s));
  chunks ← of_option (pcap_destroy_dumper (sync_dumper s d));
  modify (fun s => s <| pcap_out ::= fun l => l ++ [chunks] |>);;
  set_dumper None;;
  stopPcapDump.

Definition pd_dump_packet (pktbuf : bytes) (pktlen : Z) (tv : timeval) (uid : Z) : M state unit :=
  s ← get_state;
  match dumper (pcap_dump s) with
  | None => mret tt
  | Some d =>
      alloc ← malloc_ok;
      '(ok, d) ← of_option (pcap_dump_packet java_app_name (sync_dumper s d) pktbuf pktlen tv uid alloc);
      set_dumper (Some d);;
      modify (fun s => s <| pd_uid2app := PcapDump.uid2app d |>);;
      when (negb ok) stop_pcap_dump
  end.

(** *** Statistics *)
Definition account_conn (pkt : zdtun_pkt) (is_tx : bool) (c : pd_conn F) : pd_conn F :=
  let c := c <| payload_length ::= fun n => s64 (n + l7_len pkt) |> in
  if is_tx then c <| sent_pkts ::= fun n => s32 (n + 1) |>
                  <| sent_bytes ::= fun n => s64 (n + pkt_len pkt) |>
  else c <| rcvd_pkts ::= fun n => s32 (n + 1) |>
         <| rcvd_bytes ::= fun n => s64 (n + pkt_len pkt) |>.

Definition account_capture (pkt : zdtun_pkt) (is_tx : bool) (cs : capture_stats_t) : capture_stats_t :=
  let v6 := ipver (pkt_tuple pkt) =? 6 in
  if is_tx then
    cs <| cs_sent_pkts ::= fun n => s32 (n + 1) |>
       <| cs_sent_bytes ::= fun n => s64 (n + pkt_len pkt) |>
       <| cs_ipv6_sent_bytes ::= fun n => if v6 then s64 (n + pkt_len pkt) else n |>
  else
    cs <| cs_rcvd_pkts ::= fun n => s32 (n + 1) |>
       <| cs_rcvd_bytes ::= fun n => s64 (n + pkt_len pkt) |>
       <| cs_ipv6_rcvd_bytes ::= fun n => if v6 then s64 (n + pkt_len pkt) else n |>.

Definition pd_account_stats (pctx : pkt_context) : M state unit :=
  let p := pctx_data pctx in
  let pkt := pctx_pkt pctx in
  modify_conn p (account_conn pkt (pctx_is_tx pctx));;
  modify (fun s => s <| capture_stats ::= fun cs =>
            (account_capture pkt (pctx_is_tx pctx) cs) <| new_stats := true |> |>);;
  modify_conn p (fun c => set_update c CONN_UPDATE_STATS);;
  pd_notify_connection_update java_app_name (pctx_tuple pctx) p;;
  s ← get_state;
  data ← deref p;
  when (match dumper (pcap_dump s) with Some _ => true | None => false end &&
        ((max_pkts_per_flow (pcap_dump s) <=? 0) ||
         (s32 (sent_pkts data + rcvd_pkts data) <=? max_pkts_per_flow (pcap_dump s))))
    (pd_dump_packet (pkt_buf pkt) (pkt_len pkt) (pctx_tv pctx) (conn_uid data)).
End dpi_ops.

(** ** The loops stay close to the packet *)
Section dns_bounds.
Context (buf : bytes) (stop : Z).
Hypothesis Hbuf : stop + 16 <= blen buf.

Lemma skip_to_zero_ok fuel reply len :
  0 <= reply -> reply + len = stop -> (Z.to_nat len <= fuel)%nat ->
  exists r l, skip_to_zero fuel buf reply len = Some (r, l) /\ r + l = stop /\ reply <= r.
Proof.
  revert reply len. induction fuel as [|fuel IH]; intros reply len Hr Hs Hf; cbn [skip_to_zero];
    (destruct (Z.leb_spec len 0); [exists reply, len; split; [done|lia]|]); [lia|].
  destruct (rd8_Some buf reply) as [c ->]; [lia|]. cbn [mbind option_bind].
  destruct (c =? 0); [exists reply, len; split; [done|lia]|].
  destruct (IH (reply + 1) (len - 1)) as (r & l & -> & ?); [lia..|]. exists r, l. split; [done|lia].
Qed.

Lemma skip_queries_ok n reply len :
  0 <= reply -> reply + len = stop ->
  exists r l, skip_queries n buf reply len = Some (r, l) /\ r + l = stop /\ reply <= r.
Proof.
  revert reply len. induction n as [|n IH]; intros reply len Hr Hs; cbn [skip_queries].
  { exists reply, len. split; [done|lia]. }
  destruct (Z.leb_spec len 0); [exists reply, len; split; [done|lia]|].
  destruct (skip_to_zero_ok (Z.to_nat len) reply len) as (r & l & -> & Hrl & Hge); [lia..|].
  cbn [mbind option_bind]. destruct (IH (r + 5) (l - 5)) as (r' & l' & -> & ?); [lia..|].
  exists r', l'. split; [done|lia].
Qed.

Lemma skip_name_ok fuel reply len :
  0 <= reply -> reply + len = stop -> (Z.to_nat len <= fuel)%nat ->
  exists r l, skip_name fuel buf reply len = Some (r, l) /\ r + l = stop /\ reply <= r.
Proof.
  revert reply len. induction fuel as [|fuel IH]; intros reply len Hr Hs Hf; cbn [skip_name];
    (destruct (Z.leb_spec len 0); [exists reply, len; split; [done|lia]|]); [lia|].
  destruct (rd8_Some buf reply) as [c ->]; [lia|]. cbn [mbind option_bind].
  destruct (c =? 0); [exists (reply + 1), (len - 1); split; [done|lia]|].
  destruct (c =? 0xc0); [exists (reply + 2), (len - 2); split; [done|lia]|].
  destruct (IH (reply + 1) (len - 1)) as (r & l & -> & ?); [lia..|]. exists r, l. split; [done|lia].
Qed.

Lemma answer_addr_ok rec_type addr_len reply :
  0 <= reply <= stop -> exists a, answer_addr buf rec_type addr_len reply = Some a.
Proof.
  intros Hr. unfold answer_addr. destruct (_ && _).
  - destruct (rd32_Some buf reply) as [ip ->]; [lia..|]. by eexists.
  - destruct (_ && _); [|by eexists]. destruct (rd128_Some buf reply) as [ip ->]; [lia..|]. by eexists.
Qed.
End dns_bounds.

(** ** The invariant *)
Section dpi_props.
Context {P F : Type} `{Ndpi P} `{NdpiFlow F} {cmode : CaptureMode} (java_app_name : Z -> option bytes).
Abbreviation state := (pcapdroid P F).
Implicit Types (s : state) (c : pd_conn F) (p : conn_ptr).

(** A packet in its buffer, with the slack that the DNS parser needs. *)
Record pkt_ok (pkt : zdtun_pkt) : Prop := {
  po_wf : wf_bytes (pkt_buf pkt);
  po_l7 : 0 <= l7_off pkt /\ 0 <= l7_len pkt;
  po_slack : l7_off pkt + l7_len pkt + 16 <= blen (pkt_buf pkt);
  po_len : 0 <= pkt_len pkt <= blen (pkt_buf pkt) /\ pkt_len pkt < 2 ^ 31
}.

(** Steps that do not touch the records at all. *)
Definition still s s' : Prop := quiet s s' /\ heap s' = heap s.

#[export] Instance still_preorder : PreOrder still.
Proof.
  split; [by split|]. intros s1 s2 s3 [Q1 E1] [Q2 E2]. split; [by etrans|congruence].
Qed.

Lemma lru_add_still ip query s : wp (lru_add ip query) (fun _ s' => still s s') s.
Proof.
  unfold lru_add. apply wp_bind, wp_malloc_ok. intros dup. apply wp_bind, wp_malloc_ok.
  intros alloc. apply wp_modify. split; [by split|done].
Qed.

Lemma dns_answers_still n buf query reply len stop s :
  wf_bytes buf -> stop + 16 <= blen buf -> 0 <= reply -> reply + len = stop ->
  wp (dns_answers n buf query reply len) (fun _ s' => still s s') s.
Proof.
  intros Hwf Hstop. revert reply len s. induction n as [|n IH]; intros reply len s Hr Hs;
    cbn [dns_answers]; [by apply wp_ret|].
  destruct (Z.leb_spec len 0); [by apply wp_ret|].
  destruct (skip_name_ok buf stop Hstop (Z.to_nat len) reply len) as (r & l & E & Hrl & Hge); [lia..|].
  apply wp_bind. eapply wp_of_option; [exact E|]. cbv beta iota.
  destruct (Z.ltb_spec l 10); [by apply wp_ret|].
  destruct (rd16_Some buf r) as [rt Ert]; [lia..|]. destruct (rd16_Some buf (r + 8)) as [al Eal]; [lia..|].
  apply wp_bind. eapply wp_of_option; [exact Ert|].
  apply wp_bind. eapply wp_of_option; [exact Eal|]. cbv zeta.
  destruct (answer_addr_ok buf stop Hstop (ntohs rt) (ntohs al) (r + 10)) as [a Ea]; [lia|].
  apply wp_bind. eapply wp_of_option; [exact Ea|]. apply wp_bind.
  eapply wp_mono with (Q := fun _ s' => still s s').
  { destruct a; [apply lru_add_still|by apply wp_ret]. }
  intros [] s' Hst. cbv beta in Hst. pose proof (swap16_range al). unfold ntohs in *.
  eapply wp_mono; [apply IH; lia|]. intros [] s'' Hst'. cbv beta in Hst'. by etrans.
Qed.

Lemma process_dns_reply_still p c pkt s :
  heap s !! p = Some c -> ndpi_flow c <> None -> pkt_ok pkt ->
  wp (process_dns_reply p pkt) (fun _ s' => still s s') s.
Proof.
  intros Hc Hf [Hwf Hl7 Hsl _]. unfold process_dns_reply.
  apply wp_bind. eapply wp_deref; [done|].
  destruct (ndpi_flow c) as [flow|]; [|done].
  apply wp_bind. eapply wp_of_option; [done|]. cbv zeta.
  destruct (_ || _) eqn:Eg; [by apply wp_ret|]. apply orb_false_iff in Eg as [_ Eg].
  unfold sizeof_dns_packet in *. apply Z.ltb_ge in Eg.
  destruct (rd16_Some (pkt_buf pkt) (l7_off pkt + 2)) as [fl Efl]; [lia..|].
  destruct (rd16_Some (pkt_buf pkt) (l7_off pkt + 4)) as [qs Eqs]; [lia..|].
  destruct (rd16_Some (pkt_buf pkt) (l7_off pkt + 6)) as [an Ean]; [lia..|].
  apply wp_bind. eapply wp_of_option; [exact Efl|].
  apply wp_bind. eapply wp_of_option; [exact Eqs|].
  apply wp_bind. eapply wp_of_option; [exact Ean|].
  destruct (_ && _); [|by apply wp_ret].
  destruct (skip_queries_ok (pkt_buf pkt) _ Hsl (Z.to_nat (ntohs qs)) (l7_off pkt + 12) (l7_len pkt - 12))
    as (r & l & E & Hrl & Hge); [lia..|].
  apply wp_bind. eapply wp_of_option; [exact E|]. cbv beta iota.
  eapply dns_answers_still; [done|exact Hsl|lia|lia].
Qed.

(** *** Steps on one connection, settled or not *)
Definition keeps cur strict p {A} (m : M state A) s : Prop :=
  inv cur strict s -> (exists c, heap s !! p = Some c) ->
  wp m (fun _ s' => inv cur strict s' /\ calm s s') s.

Lemma keeps_quiet cur strict p {A} (m : M state A) s :
  (forall c, inv cur strict s -> heap s !! p = Some c -> quietly m s) -> keeps cur strict p m s.
Proof.
  intros Hm Hi [c Hc]. eapply wp_mono; [by eapply Hm|]. intros a s' Hq. cbv beta in Hq.
  split; [exact (quiet_inv _ _ _ _ Hq Hi)|exact (quiet_calm _ _ Hq)].
Qed.

Lemma keeps_bind cur strict p {A B} (m : M state A) (k : A -> M state B) s :
  keeps cur strict p m s -> (forall a s', calm s s' -> keeps cur strict p (k a) s') ->
  keeps cur strict p (m ≫= k) s.
Proof.
  intros Hm Hk Hi Hl. apply wp_bind. eapply wp_mono; [by apply Hm|]. intros a s' [Hi' Hc].
  eapply wp_mono; [apply Hk; [done|done|]|].
  - destruct Hl as [c Hl]. destruct (cm_heap _ _ Hc p c Hl) as (c' & Hc' & _). by exists c'.
  - intros b s'' [Hi'' Hc']. split; [done|by etrans].
Qed.

Lemma keeps_ret cur strict p {A} (a : A) s : keeps cur strict p (mret a) s.
Proof. intros Hi _. by apply wp_ret. Qed.

Lemma keeps_gets cur strict p {A} (f : state -> A) s : keeps cur strict p (gets f) s.
Proof. intros Hi _. by apply wp_gets. Qed.

Lemma keeps_gets_bind cur strict p {A B} (f : state -> A) (k : A -> M state B) s :
  keeps cur strict p (k (f s)) s -> keeps cur strict p (gets f ≫= k) s.
Proof. intros Hk Hi Hl. by apply wp_bind, wp_gets, Hk. Qed.

Lemma keeps_deref cur strict p {A} (k : pd_conn F -> M state A) s :
  (forall c, heap s !! p = Some c -> keeps cur strict p (k c) s) -> keeps cur strict p (deref p ≫= k) s.
Proof.
  intros Hk Hi Hl. pose proof Hl as [c Hc]. apply wp_bind. eapply wp_deref; [done|]. by eapply Hk.
Qed.

Lemma keeps_when cur strict p (b : bool) (m : M state unit) s :
  (b = true -> keeps cur strict p m s) -> keeps cur strict p (when b m) s.
Proof. intros Hm Hi Hl. apply wp_when; [intros Hb; by apply Hm|done]. Qed.

Lemma keeps_modify_conn cur strict p f s :
  (forall c, quiet_conn c (f c)) -> keeps cur strict p (modify_conn p f) s.
Proof. intros Hf. apply keeps_quiet. intros c _ Hc. by eapply quietly_modify_conn. Qed.

(** An update of the record that is flagged, and its notification. *)
Lemma keeps_flag_notify cur strict p f tuple s :
  (forall c, quiet_conn c (f c)) -> (forall c, update_type (f c) <> 0) ->
  keeps cur strict p (modify_conn p f;; pd_notify_connection_update java_app_name tuple p;; mret tt) s.
Proof.
  intros Hf Hu Hi [c Hc]. apply wp_bind. eapply wp_modify_conn; [done|]. cbv beta.
  set (s1 := upd _ _ s). assert (heap s1 !! p = Some (f c)) as Hc1 by apply lookup_insert_eq.
  assert (quiet s s1) as Hq by (by apply (quiet_insert s p c)). clearbody s1.
  apply wp_bind. eapply wp_mono; [eapply notif_connection_inv; [exact (quiet_inv _ _ _ _ Hq Hi)|done|by right]|].
  intros rv s' (_ & Hi' & Hcm & _). apply wp_ret. split; [done|]. etrans; [exact (quiet_calm _ _ Hq)|done].
Qed.

Lemma wp_jni_quiet (Q : bool -> state -> Prop) s :
  (forall ok s', still s s' -> Q ok s') -> wp jni_ok Q s.
Proof.
  intros HQ. unfold jni_ok. wp_steps. apply HQ. split; [|done]. split; try done.
  intros Hs. by apply all_ok_tail.
Qed.

Lemma dumpPayloadChunk_quiet pctx n c s :
  heap s !! pctx_data pctx = Some c -> 0 <= n <= l7_len (pctx_pkt pctx) -> pkt_ok (pctx_pkt pctx) ->
  quietly (dumpPayloadChunk pctx n) s.
Proof.
  intros Hc Hn [_ Hl7 Hsl _]. unfold dumpPayloadChunk. cbv zeta. quiet_step. apply quietly_bind.
  { destruct (payload_chunks c); [quiet_step|]. apply quietly_bind; [apply quietly_jni_ok|].
    intros ok s1 Hq. relive. quiet_steps. by apply quiet_conn_same. }
  intros ok s1 Hq. relive. destruct ok; simpl; [|quiet_step].
  apply quietly_bind; [apply quietly_jni_ok|]. intros ok s2 Hq2. relive. destruct ok; simpl; [|quiet_step].
  apply quietly_bind; [apply quietly_jni_ok|]. intros ok s3 Hq3. relive. destruct ok; simpl; [|quiet_step].
  apply wp_bind. eapply wp_of_option; [apply rdn_Some; lia|].
  apply quietly_bind; [|intros; quiet_step]. quiet_step. by apply quiet_conn_same.
Qed.

Lemma process_payload_keeps cur strict pctx s :
  pkt_ok (pctx_pkt pctx) ->
  keeps cur strict (pctx_data pctx) (process_payload java_app_name pctx) s.
Proof.
  intros Hpkt. unfold process_payload. cbv zeta. apply keeps_gets_bind, keeps_deref. intros c Hc.
  case_decide; [apply keeps_ret|]. destruct (Z.leb_spec (l7_len (pctx_pkt pctx)) 0) as [|Hl7]; [apply keeps_ret|].
  destruct (_ && _); [apply keeps_ret|]. apply keeps_bind.
  - apply keeps_quiet. intros c' _ Hc'. destruct (_ || _); [|quiet_step]. apply quietly_bind.
    + eapply dumpPayloadChunk_quiet; [done| |done]. unfold MINIMAL_PAYLOAD_MAX_DIRECTION_SIZE.
      destruct (_ && _) eqn:E; [|lia]. apply andb_true_iff in E as [_ E]. lia.
    + intros [] s1 Hq; relive; quiet_steps. case_match; by apply quiet_conn_same.
  - intros [updated truncated] s1 Hcm. apply keeps_deref. intros c1 Hc1. apply keeps_when. intros _.
    apply keeps_flag_notify; intros c2; [|by apply lor_nonzero].
    etrans; [|by apply quiet_set_update]. by apply quiet_conn_same.
Qed.

Lemma delay_netd_dump_quiet p c s : heap s !! p = Some c -> quietly (delay_netd_dump p) s.
Proof. intros Hc. unfold delay_netd_dump. quiet_steps. Qed.

Lemma finish_alpn_keeps cur strict tuple p s :
  keeps cur strict p (finish_alpn java_app_name tuple p) s.
Proof.
  unfold finish_alpn. apply keeps_deref. intros c Hc. destruct (ndpi_flow c); [apply keeps_ret|].
  apply keeps_when. intros _. apply keeps_when. intros _.
  apply keeps_flag_notify; intros c2; [|by apply lor_nonzero].
  etrans; [|by apply quiet_set_update]. by apply quiet_conn_same.
Qed.

Lemma perform_dpi_keeps cur strict pctx s :
  pkt_ok (pctx_pkt pctx) ->
  (forall c, heap s !! pctx_data pctx = Some c -> ndpi_flow c <> None) ->
  keeps cur strict (pctx_data pctx) (perform_dpi java_app_name pctx) s.
Proof.
  intros Hpkt Hf Hi [c Hc]. specialize (Hf c Hc). unfold perform_dpi. cbv zeta.
  set (p := pctx_data pctx) in *. set (pkt := pctx_pkt pctx) in *.
  apply wp_bind. eapply wp_deref; [done|]. destruct (ndpi_flow c) as [flow|]; [|done].
  apply wp_bind. eapply wp_of_option; [done|].
  destruct (ndpi_detection_process_packet flow (pkt_buf pkt) (pkt_len pkt) (last_seen c)) as [np flow'].
  set (proto := pd_ndpi2proto np). apply wp_bind. eapply wp_modify_conn; [done|]. cbv beta.
  set (c1 := c <| ndpi_flow := Some flow' |> <| l7proto := proto |>). set (s1 := upd _ _ s).
  assert (heap s1 !! p = Some c1) as Hc1 by apply lookup_insert_eq.
  assert (quiet s s1) as Hq1 by (apply (quiet_insert s p c c1); [done|by apply quiet_conn_same]).
  assert (ndpi_flow c1 <> None) as Hf1 by done.
  clearbody c1 s1. apply wp_bind.
  set (m2 := when _ _).
  assert (wp m2 (fun _ s' => quiet s1 s' /\ exists c', heap s' !! p = Some c' /\ ndpi_flow c' <> None) s1)
    as Hw2.
  { unfold m2. apply wp_when; intros _; [|split; [done|by exists c1]].
    eapply wp_modify_conn; [done|]. split.
    - apply (quiet_insert s1 p c1); [done|].
      etrans; [by apply (quiet_set_update c1 CONN_UPDATE_INFO)|by apply quiet_conn_same].
    - eexists. split; [apply lookup_insert_eq|done]. }
  eapply wp_mono; [exact Hw2|]. clear m2 Hw2. intros [] s2 (Hq2 & c2 & Hc2 & Hf2). apply wp_bind.
  set (m3 := when _ _).
  assert (wp m3 (fun _ s' => still s2 s') s2) as Hw3.
  { unfold m3. apply wp_when; intros _; [|done]. by eapply process_dns_reply_still. }
  eapply wp_mono; [exact Hw3|]. clear m3 Hw3. intros [] s3 (Hq3 & Hh3). rewrite <- Hh3 in Hc2.
  assert (quiet s s3) as Hq by (by etrans; [|etrans]).
  assert (keeps cur strict p ((if (sent_pkts c + rcvd_pkts c + 1 >=? MAX_DPI_PACKETS)
      || negb (proto =? NDPI_PROTOCOL_UNKNOWN) && negb (ndpi_extra_dissection_possible flow')
    then pd_giveup_dpi java_app_name p (pkt_tuple pkt)
    else process_ndpi_data java_app_name (pkt_tuple pkt) p);;
    delay_netd_dump p;; finish_alpn java_app_name (pctx_tuple pctx) p) s3) as Hk.
  { apply keeps_bind.
    - apply keeps_quiet. intros c3 Hi3 Hc3. rewrite Hc2 in Hc3. injection Hc3 as <-.
      pose proof (inv_strndups _ _ _ Hi3). case_match; [by eapply pd_giveup_dpi_quiet|].
      by eapply process_ndpi_data_quiet.
    - intros _ s4 _. apply keeps_bind.
      + apply keeps_quiet. intros c4 _ Hc4. by eapply delay_netd_dump_quiet.
      + intros _ s5 _. apply finish_alpn_keeps. }
  eapply wp_mono; [apply Hk; [exact (quiet_inv _ _ _ _ Hq Hi)|by eexists]|].
  intros _ s4 [Hi4 Hc4]. split; [done|]. etrans; [exact (quiet_calm _ _ Hq)|done].
Qed.

Lemma pd_process_packet_inv cur strict pkt is_tx tuple p tv s :
  pkt_ok pkt -> inv cur strict s -> (exists c, heap s !! p = Some c) ->
  wp (pd_process_packet java_app_name pkt is_tx tuple p tv)
     (fun r s' => r = make_pctx pkt is_tx tuple p tv /\ inv cur strict s' /\ calm s s') s.
Proof.
  intros Hpkt Hi Hl. set (pctx := make_pctx pkt is_tx tuple p tv).
  assert (keeps cur strict p (modify_conn p (fun c => c <| last_seen := s64 (pctx_ms pctx) |>
      <| first_seen ::= fun f => if f =? 0 then s64 (pctx_ms pctx) else f |>);;
    data ← deref p;
    when (match ndpi_flow data with Some _ => true | None => false end &&
        (negb (has_flag (pkt_flags pkt) ZDTUN_PKT_IS_FRAGMENT) ||
         has_flag (pkt_flags pkt) ZDTUN_PKT_IS_FIRST_FRAGMENT))
      (perform_dpi java_app_name pctx);;
    process_payload java_app_name pctx) s) as Hk.
  { apply keeps_bind; [apply keeps_modify_conn; intros c; by apply quiet_conn_same|].
    intros _ s1 _. apply keeps_deref. intros c1 Hc1. apply keeps_bind.
    - apply keeps_when. intros Hb. apply (perform_dpi_keeps cur strict pctx); [done|].
      intros c Hc. change (pctx_data pctx) with p in Hc. rewrite Hc1 in Hc. injection Hc as <-.
      by destruct (ndpi_flow c1).
    - intros _ s2 _. by apply (process_payload_keeps cur strict pctx). }
  specialize (Hk Hi Hl). revert Hk. unfold pd_process_packet, wp. cbv zeta.
  change (make_pctx pkt is_tx tuple p tv) with pctx.
  unfold mbind, M_bind. destruct (modify_conn p _ s) as [[[] s1]|]; [|done].
  destruct (deref p s1) as [[c s2]|]; [|done]. destruct (when _ _ s2) as [[[] s3]|]; [|done].
  destruct (process_payload java_app_name pctx s3) as [[[] s4]|]; [|done]. by intros [].
Qed.

(** *** The dumper *)
Lemma inv_set_dumper cur strict s d :
  inv cur strict s -> (forall d', d = Some d' -> dumper_wf d') ->
  let s' := s <| pcap_dump ::= fun dc => dc <| dumper := d |> |> in
  inv cur strict s' /\ calm s s'.
Proof.
  intros Hi Hd s'. destruct Hi. split; [by split|]. split; try done. intros p c Hc. by exists c.
Qed.

(** The dump does not touch the records. *)
Definition dumps s s' : Prop :=
  heap s' = heap s /\ slots s' = slots s /\
  forall cur strict, inv cur strict s -> inv cur strict s' /\ calm s s'.

#[export] Instance dumps_preorder : PreOrder dumps.
Proof.
  split; [by split|]. intros s1 s2 s3 (H1 & S1 & I1) (H2 & S2 & I2). split; [congruence|].
  split; [congruence|]. intros cur strict Hi. destruct (I1 cur strict Hi) as [Hi2 C1].
  destruct (I2 cur strict Hi2) as [Hi3 C2]. split; [done|by etrans].
Qed.

Lemma still_dumps s s' : still s s' -> slots s' = slots s -> dumps s s'.
Proof.
  intros [Hq Hh] Hs. split; [done|]. split; [done|]. intros cur strict Hi.
  split; [exact (quiet_inv _ _ _ _ Hq Hi)|exact (quiet_calm _ _ Hq)].
Qed.

Lemma stop_pcap_dump_dumps d s :
  dumper (pcap_dump s) = Some d -> dumper_wf d ->
  wp stop_pcap_dump (fun _ s' => dumps s s') s.
Proof.
  intros Ed Hwf. unfold stop_pcap_dump. wp_steps. eapply wp_of_option; [done|]. wp_steps.
  destruct (export_buffer_refines (sync_dumper s d)) as (d' & E & _); [by destruct Hwf|].
  eapply wp_of_option; [unfold pcap_destroy_dumper; by rewrite E|]. wp_steps.
  unfold set_dumper. wp_steps. unfold stopPcapDump, call_java. wp_steps.
  split; [done|]. split; [done|]. intros cur strict Hi. split; [|split; try done; intros p c Hc; by exists c].
  destruct Hi. by split.
Qed.

Lemma pd_dump_packet_dumps pktbuf pktlen tv uid s :
  (forall d, dumper (pcap_dump s) = Some d -> dumper_wf d) ->
  0 <= pktlen <= blen pktbuf -> 0 < blen pktbuf -> pktlen < 2 ^ 31 ->
  wp (pd_dump_packet java_app_name pktbuf pktlen tv uid) (fun _ s' => dumps s s') s.
Proof.
  intros Hd Hlen Hne H32. unfold pd_dump_packet. wp_steps.
  destruct (dumper (pcap_dump s)) as [d|] eqn:Ed; [|by apply wp_ret].
  specialize (Hd d eq_refl). apply wp_bind, wp_malloc_ok. intros alloc. wp_steps.
  destruct (pcap_dump_packet_safe java_app_name (sync_dumper s d) pktbuf pktlen tv uid alloc)
    as (b & d' & E & Hwf'); [by destruct Hd|done..|].
  eapply wp_of_option; [exact E|]. cbv beta iota. unfold set_dumper. wp_steps.
  - set (s1 := upd _ _ (upd _ _ (upd _ _ s))).
    assert (dumps s s1) as Hs1.
    { split; [done|]. split; [done|]. intros cur strict Hi.
      split; [|split; try done; intros p c Hc; by exists c]. destruct Hi. split; try done.
      intros d0. unfold s1. cbv [upd eta]. simpl. by intros [= <-]. }
    eapply wp_mono; [apply (stop_pcap_dump_dumps d'); [done|done]|].
    intros [] s2 Hs2. cbv beta in Hs2. by etrans.
  - split; [done|]. split; [done|]. intros cur strict Hi.
    split; [|split; try done; intros p c Hc; by exists c]. destruct Hi. split; try done.
    intros d0. cbv [upd eta]. simpl. by intros [= <-].
Qed.

(** After the statistics the connection is waiting to be sent. *)
Lemma pd_account_stats_inv cur strict pctx s :
  pkt_ok (pctx_pkt pctx) -> inv cur strict s ->
  (exists c, heap s !! pctx_data pctx = Some c) ->
  wp (pd_account_stats java_app_name pctx)
     (fun _ s' => inv cur strict s' /\ calm s s' /\
        (strict = true -> pctx_data pctx ∈ slot_ptrs s') /\
        exists c, heap s' !! pctx_data pctx = Some c /\ update_type c <> 0) s.
Proof.
  intros Hpkt Hi [c Hc]. unfold pd_account_stats. cbv zeta. set (p := pctx_data pctx) in *.
  apply wp_bind. eapply wp_modify_conn; [done|]. cbv beta. set (c1 := account_conn _ _ c).
  set (s1 := upd _ _ s). assert (heap s1 !! p = Some c1) as Hc1 by apply lookup_insert_eq.
  assert (quiet s s1) as Hq1.
  { apply (quiet_insert s p c c1); [done|]. unfold c1, account_conn. cbv zeta.
    destruct (pctx_is_tx pctx); by apply quiet_conn_same. }
  clearbody c1 s1. wp_steps. set (s2 := upd _ _ s1).
  assert (quiet s1 s2) as Hq2 by (by split). assert (heap s2 !! p = Some c1) as Hc2 by done.
  clearbody s2. eapply wp_modify_conn; [done|]. cbv beta. set (c3 := set_update c1 CONN_UPDATE_STATS).
  set (s3 := upd _ _ s2). assert (heap s3 !! p = Some c3) as Hc3 by apply lookup_insert_eq.
  assert (quiet s2 s3) as Hq3 by (apply (quiet_insert s2 p c1 c3); [done|by apply quiet_set_update]).
  assert (update_type c3 <> 0) as Hu by (by apply lor_nonzero). clearbody c3 s3.
  assert (quiet s s3) as Hq by (by etrans; [|etrans]).
  pose proof (quiet_inv _ _ _ _ Hq Hi) as Hi3. pose proof (quiet_calm _ _ Hq) as Hcm.
  apply wp_bind. eapply wp_mono; [eapply notif_connection_inv; [done|done|by right]|].
  intros rv s4 (_ & Hi4 & Hcm4 & Hst4). apply wp_bind, wp_gets, wp_bind.
  destruct (cm_heap _ _ Hcm4 p c3 Hc3) as (c4 & Hc4 & _ & Hu4).
  eapply wp_deref; [done|]. apply wp_when; intros _.
  - destruct Hpkt. eapply wp_mono; [apply pd_dump_packet_dumps; [apply (inv_dumper _ _ _ Hi4)|lia..]|].
    intros [] s5 (Hh5 & Hs5 & Hd5). destruct (Hd5 _ _ Hi4) as [Hi5 Hcm5].
    split; [done|]. split; [by etrans; [|etrans]|]. split.
    + intros Hst. unfold slot_ptrs. rewrite Hs5. by apply Hst4.
    + rewrite Hh5. exists c4. split; [done|auto].
  - split; [done|]. split; [by etrans|]. split; [done|]. exists c4. split; [done|auto].
Qed.
End dpi_props.
