(* ===== verification/DnsReply.v ===== *)
(** What the core learns from a DNS reply (core/pcapdroid.c,
    [process_dns_reply]): an encoder of replies, of which the parser is an
    inverse, and the compression pointers it does not know. *)
From Stdlib Require Import ZArith Lia.
From stdpp Require Import base option gmap numbers list.
From S2P Require Import Prelude Packet Uthash Lru AppNames PcapDump Blacklist NdpiProtos Conn ConnInv Examples.
From S2P Require Import JavaDump Dpi.

Open Scope Z_scope.

(** ** Reading at an offset *)

(** The bytes [bs] are in [buf] from [off] on. *)
Definition at_off (buf : bytes) (off : Z) (bs : bytes) : Prop :=
  exists pre post, buf = pre ++ bs ++ post /\ blen pre = off.

Lemma at_off_app buf off a b : at_off buf off (a ++ b) -> at_off buf off a /\ at_off buf (off + blen a) b.
Proof.
  intros (pre & post & -> & <-). split.
  - exists pre, (b ++ post). by rewrite <- app_assoc.
  - exists (pre ++ a), post. rewrite blen_app. by rewrite <- !app_assoc.
Qed.

Lemma at_off_nonneg buf off bs : at_off buf off bs -> 0 <= off.
Proof. intros (pre & _ & _ & <-). apply blen_nonneg. Qed.

Lemma at_off_rd8 buf off b bs : at_off buf off (b :: bs) -> rd8 buf off = Some b.
Proof.
  intros (pre & post & -> & <-). rewrite rd8_app_r by lia. by rewrite Z.sub_diag.
Qed.

Lemma at_off_cons buf off b bs : at_off buf off (b :: bs) -> at_off buf (off + 1) bs.
Proof. intros Ha. by apply (at_off_app buf off [b] bs) in Ha as [_ Ha]. Qed.

Lemma at_off_rd16 buf off a b bs : at_off buf off (a :: b :: bs) -> rd16 buf off = Some (a + 256 * b).
Proof.
  intros Ha. unfold rd16. rewrite (at_off_rd8 _ _ _ _ Ha). simpl.
  by rewrite (at_off_rd8 _ _ _ _ (at_off_cons _ _ _ _ Ha)).
Qed.

Lemma at_off_rdn buf off bs : at_off buf off bs -> rdn buf off (blen bs) = Some bs.
Proof.
  intros (pre & post & -> & <-). unfold rdn, slice. rewrite !blen_app.
  pose proof (blen_nonneg pre). pose proof (blen_nonneg bs). pose proof (blen_nonneg post).
  destruct (Z.ltb_spec (blen pre) 0); [lia|]. destruct (Z.ltb_spec (blen bs) 0); [lia|].
  destruct (Z.ltb_spec (blen pre + (blen bs + blen post)) (blen pre + blen bs)); [lia|]. simpl.
  unfold blen. rewrite !Nat2Z.id, drop_app_length, take_app_length. done.
Qed.

(** ** Big-endian fields *)
Definition be16 (v : Z) : bytes := [v / 256; v mod 256].

Lemma at_off_be16 buf off v bs :
  at_off buf off (be16 v ++ bs) -> 0 <= v < 2 ^ 16 -> exists w, rd16 buf off = Some w /\ ntohs w = v.
Proof.
  intros Ha Hv. eexists. split; [exact (at_off_rd16 _ _ _ _ _ Ha)|]. unfold ntohs.
  pose proof (Z.mod_pos_bound v 256 eq_refl). pose proof (Z.div_mod v 256 ltac:(done)).
  assert (0 <= v / 256 < 256) by nia.
  rewrite swap16_parts by lia. lia.
Qed.

(** ** The format of a reply *)
Inductive dns_name :=
  | Pointer (off : Z)        (** a compression pointer to one of the first 256 bytes *)
  | Labels (bs : bytes).     (** labels with their lengths *)

Definition encode_name (n : dns_name) : bytes :=
  match n with Pointer off => [0xc0; off] | Labels bs => bs ++ [0] end.

Definition name_ok (n : dns_name) : Prop :=
  match n with Pointer _ => True | Labels bs => Forall (fun b => b <> 0 /\ b <> 0xc0) bs end.

Record dns_rr := mk_rr { rr_name : dns_name; rr_type : Z; rr_class_ttl : bytes; rr_data : bytes }.

Definition encode_rr (r : dns_rr) : bytes :=
  encode_name (rr_name r) ++ be16 (rr_type r) ++ rr_class_ttl r ++ be16 (blen (rr_data r)) ++ rr_data r.

Record rr_ok (r : dns_rr) : Prop := {
  ro_name : name_ok (rr_name r);
  ro_type : 0 <= rr_type r < 2 ^ 16;
  ro_class_ttl : blen (rr_class_ttl r) = 6;
  ro_data : wf_bytes (rr_data r) /\ blen (rr_data r) < 2 ^ 16
}.

(** A question: the name without its final zero; type and class. *)
Definition encode_question (q : bytes * bytes) : bytes := q.1 ++ [0] ++ q.2.
Definition question_ok (q : bytes * bytes) : Prop := Forall (fun b => b <> 0) q.1 /\ blen q.2 = 4.

(** [rest]: the authority and additional records. *)
Definition encode_reply (id flags : Z) (qs : list (bytes * bytes)) (rrs : list dns_rr)
    (counts rest : bytes) : bytes :=
  be16 id ++ be16 flags ++ be16 (Z.of_nat (length qs)) ++ be16 (Z.of_nat (length rrs)) ++ counts ++
  concat (encode_question <$> qs) ++ concat (encode_rr <$> rrs) ++ rest.

(** The address that a record resolves the name to, as the bytes of a [zdtun_ip_t]. *)
Definition rr_addr (r : dns_rr) : option Z :=
  if (rr_type r =? 1) && (blen (rr_data r) =? 4) then Some (le_combine (rr_data r))
  else if (rr_type r =? 28) && (blen (rr_data r) =? 16) then Some (le_combine (rr_data r))
  else None.

(** ** The parser is an inverse *)
Section parser.
Context (buf : bytes).

Lemma skip_to_zero_labels fuel bs rest off len :
  at_off buf off (bs ++ 0 :: rest) -> Forall (fun b => b <> 0) bs -> blen bs < len ->
  (length bs <= fuel)%nat ->
  skip_to_zero fuel buf off len = Some (off + blen bs, len - blen bs).
Proof.
  revert off len fuel. induction bs as [|b bs IH]; intros off len fuel Ha Hz Hlen Hf.
  - rewrite blen_nil in *. rewrite Z.add_0_r, Z.sub_0_r. simpl in Ha. apply at_off_rd8 in Ha.
    destruct fuel; cbn [skip_to_zero]; (destruct (Z.leb_spec len 0); [lia|]); by rewrite Ha.
  - apply Forall_cons in Hz as [Hb Hz]. rewrite blen_cons in *. pose proof (blen_nonneg bs).
    destruct fuel as [|fuel]; [simpl in Hf; lia|]. cbn [skip_to_zero]. simpl in Ha.
    destruct (Z.leb_spec len 0); [lia|]. rewrite (at_off_rd8 _ _ _ _ Ha). simpl.
    destruct (Z.eqb_spec b 0); [done|]. rewrite IH; [f_equal; f_equal; lia| |done|lia|simpl in Hf; lia].
    by apply at_off_cons in Ha.
Qed.

Lemma skip_queries_encoded qs rest off len :
  at_off buf off (concat (encode_question <$> qs) ++ rest) -> Forall question_ok qs ->
  blen (concat (encode_question <$> qs)) <= len ->
  skip_queries (length qs) buf off len =
    Some (off + blen (concat (encode_question <$> qs)), len - blen (concat (encode_question <$> qs))).
Proof.
  revert off len. induction qs as [|[n t] qs IH]; intros off len Ha Hq Hlen.
  - cbn in *. rewrite blen_nil. by rewrite Z.add_0_r, Z.sub_0_r.
  - apply Forall_cons in Hq as [[Hn Ht] Hq]. cbn [length skip_queries].
    csimpl in *. set (tl := concat (encode_question <$> qs)) in *.
    change (encode_question (n, t)) with (n ++ 0 :: t) in *. simpl in Hn, Ht.
    rewrite !blen_app, blen_cons in Hlen |- *. pose proof (blen_nonneg n). pose proof (blen_nonneg tl).
    destruct (Z.leb_spec len 0); [lia|]. rewrite <- !app_assoc in Ha. simpl in Ha.
    rewrite (skip_to_zero_labels _ n (t ++ tl ++ rest)); [|done|done|lia|unfold blen in *; lia].
    cbn [mbind option_bind].
    assert (at_off buf (off + blen n + 5) (tl ++ rest)) as Ha'.
    { apply at_off_app in Ha as [_ Ha]. change (0 :: t ++ tl ++ rest) with ((0 :: t) ++ tl ++ rest) in Ha.
      apply at_off_app in Ha as [_ Ha]. rewrite blen_cons, Ht in Ha. exact Ha. }
    rewrite IH; [|exact Ha'|done|lia]. f_equal. f_equal; lia.
Qed.

Lemma skip_name_encoded fuel n rest off len :
  at_off buf off (encode_name n ++ rest) -> name_ok n -> blen (encode_name n) <= len ->
  (Z.to_nat len <= fuel)%nat ->
  skip_name fuel buf off len = Some (off + blen (encode_name n), len - blen (encode_name n)).
Proof.
  destruct n as [ptr|bs]; simpl.
  - intros Ha _ Hlen Hf. change (blen [192; ptr]) with 2 in *.
    destruct fuel; cbn [skip_name]; (destruct (Z.leb_spec len 0); [lia|]);
      rewrite (at_off_rd8 _ _ _ _ Ha); done.
  - revert off len fuel. induction bs as [|b bs IH]; intros off len fuel Ha Hz Hlen Hf.
    + simpl in *. change (blen [0]) with 1 in *.
      destruct fuel; cbn [skip_name]; (destruct (Z.leb_spec len 0); [lia|]);
        rewrite (at_off_rd8 _ _ _ _ Ha); done.
    + apply Forall_cons in Hz as [[Hb0 Hb1] Hz]. simpl in Ha, Hlen |- *. rewrite blen_cons in *.
      pose proof (blen_nonneg (bs ++ [0])). destruct fuel as [|fuel]; [lia|]. cbn [skip_name].
      destruct (Z.leb_spec len 0); [lia|]. rewrite (at_off_rd8 _ _ _ _ Ha). simpl.
      destruct (Z.eqb_spec b 0); [done|]. destruct (Z.eqb_spec b 192); [done|].
      rewrite IH; [f_equal; f_equal; lia| |done|lia|lia]. by apply at_off_cons in Ha.
Qed.

Lemma answer_addr_encoded r rest off :
  at_off buf off (rr_data r ++ rest) ->
  answer_addr buf (rr_type r) (blen (rr_data r)) off = Some (rr_addr r).
Proof.
  intros Ha. apply at_off_app in Ha as [Ha _]. unfold answer_addr, rr_addr.
  destruct ((rr_type r =? 1) && _) eqn:E4.
  - apply andb_true_iff in E4 as [_ E4]. apply Z.eqb_eq in E4.
    destruct (rr_data r) as [|a [|b [|c [|d [|]]]]]; unfold blen in E4; simpl in E4; try lia.
    unfold rd32. rewrite (at_off_rd16 _ _ _ _ _ Ha). simpl.
    do 2 apply at_off_cons in Ha. replace (off + 1 + 1) with (off + 2) in Ha by lia.
    rewrite (at_off_rd16 _ _ _ _ _ Ha). simpl. do 2 f_equal. lia.
  - destruct ((rr_type r =? 28) && _) eqn:E6; [|done].
    apply andb_true_iff in E6 as [_ E6]. apply Z.eqb_eq in E6.
    unfold rd128. rewrite <- E6, (at_off_rdn _ _ _ Ha). done.
Qed.
End parser.

Lemma at_off_be16_rr buf off r rest :
  at_off buf off (encode_rr r ++ rest) -> rr_ok r ->
  let data := off + blen (encode_name (rr_name r)) + 10 in
  blen (encode_rr r) = blen (encode_name (rr_name r)) + 10 + blen (rr_data r) /\
  at_off buf off (encode_name (rr_name r) ++ be16 (rr_type r) ++ rr_class_ttl r ++
                  be16 (blen (rr_data r)) ++ rr_data r ++ rest) /\
  (exists w, rd16 buf (data - 10) = Some w /\ ntohs w = rr_type r) /\
  (exists w, rd16 buf (data - 2) = Some w /\ ntohs w = blen (rr_data r)) /\
  at_off buf data (rr_data r ++ rest) /\ at_off buf (data + blen (rr_data r)) rest.
Proof.
  intros Ha [_ Ht Hct [Hwf Hd]] data. unfold encode_rr in *. rewrite !blen_app. rewrite <- !app_assoc in Ha.
  change (blen (be16 ?v)) with 2 in *. split; [change (blen (be16 (rr_type r))) with 2;
    change (blen (be16 (blen (rr_data r)))) with 2; lia|]. split; [done|].
  apply at_off_app in Ha as [_ Ha]. split.
  { unfold data. replace (_ - 10) with (off + blen (encode_name (rr_name r))) by lia. by eapply at_off_be16. }
  apply at_off_app in Ha as [_ Ha]. apply at_off_app in Ha as [_ Ha].
  change (blen (be16 (rr_type r))) with 2 in Ha. rewrite Hct in Ha. split.
  { unfold data. replace (_ - 2) with (off + blen (encode_name (rr_name r)) + 2 + 6) by lia.
    eapply at_off_be16; [exact Ha|]. pose proof (blen_nonneg (rr_data r)). lia. }
  apply at_off_app in Ha as [_ Ha]. change (blen (be16 (blen (rr_data r)))) with 2 in Ha.
  unfold data. replace (off + blen (encode_name (rr_name r)) + 10)
    with (off + blen (encode_name (rr_name r)) + 2 + 6 + 2) by lia.
  split; [done|]. by apply at_off_app in Ha as [_ Ha].
Qed.

Section dns_reply.
Context {P F : Type} `{Ndpi P} `{NdpiFlow F} {cmode : CaptureMode}.
Abbreviation state := (pcapdroid P F).
Implicit Types (s : state).

Definition learn (query : bytes) (ips : list Z) : M state unit :=
  for_each (fun ip => lru_add ip query) ips.

#[local] Opaque lru_add.

Lemma dns_answers_encoded buf query n rrs rest off len s :
  at_off buf off (concat (encode_rr <$> rrs) ++ rest) -> Forall rr_ok rrs ->
  blen (concat (encode_rr <$> rrs)) <= len -> (n <= length rrs)%nat ->
  dns_answers n buf query off len s = learn query (omap rr_addr (take n rrs)) s.
Proof.
  revert rrs off len s. induction n as [|n IH]; intros rrs off len s Ha Hr Hlen Hn; [done|].
  destruct rrs as [|r rrs]; [simpl in Hn; lia|]. apply Forall_cons in Hr as [Hr Hrs].
  csimpl in *. rewrite <- app_assoc in Ha.
  destruct (at_off_be16_rr _ _ _ _ Ha Hr) as (Hbl & Hname & (wt & Ewt & Hwt) & (wl & Ewl & Hwl) & Hdata & Hnext).
  rewrite blen_app in Hlen. pose proof (blen_nonneg (encode_name (rr_name r))).
  pose proof (blen_nonneg (rr_data r)). pose proof (blen_nonneg (concat (encode_rr <$> rrs))).
  destruct (Z.leb_spec len 0); [lia|]. unfold mbind, M_bind, of_option.
  rewrite (skip_name_encoded buf (Z.to_nat len) (rr_name r) _ off len Hname); [|apply Hr|lia|lia].
  set (n1 := blen (encode_name (rr_name r))) in *.
  destruct (Z.ltb_spec (len - n1) 10); [lia|].
  replace (off + n1 + 10 - 10) with (off + n1) in Ewt by lia.
  replace (off + n1 + 10 - 2) with (off + n1 + 8) in Ewl by lia.
  rewrite Ewt, Ewl. rewrite Hwt, Hwl. rewrite (answer_addr_encoded buf r _ _ Hdata).
  unfold learn in *. destruct (rr_addr r) as [ip|]; csimpl.
  - unfold mbind, M_bind. destruct (lru_add ip query s) as [[[] s1]|]; [|reflexivity].
    apply IH; [done|done|lia|lia].
  - apply IH; [done|done|lia|lia].
Qed.

(** C25: a DNS reply with any questions and answers (each a name that is a
    compression pointer to the first 256 bytes or labels, a type, a class and a
    TTL, and data), followed by any authority and additional records, makes the
    core remember the name of the flow for exactly the A and AAAA addresses of
    its first 32 answers, in their order; no other record is taken for an
    address and the parser does not lose track of the records. *)
Theorem process_dns_reply_learns p c flow pkt id flags qs rrs counts rest s :
  heap s !! p = Some c -> ndpi_flow c = Some flow ->
  host_server_name flow <> [] -> DOT ∈ host_server_name flow ->
  at_off (pkt_buf pkt) (l7_off pkt) (encode_reply id flags qs rrs counts rest) ->
  l7_len pkt = blen (encode_reply id flags qs rrs counts rest) -> blen counts = 4 ->
  0 <= flags < 2 ^ 16 -> Z.land flags 0x8000 = 0x8000 ->
  Forall question_ok qs -> 0 < Z.of_nat (length qs) < 2 ^ 16 ->
  Forall rr_ok rrs -> 0 < Z.of_nat (length rrs) < 2 ^ 16 ->
  process_dns_reply p pkt s = learn (host_server_name flow) (omap rr_addr (take 32 rrs)) s.
Proof.
  intros Hc Hfl Hne Hdot Ha Hlen Hcnt Hfr Hfb Hqs Hnq Hrs Hnr. unfold process_dns_reply.
  unfold mbind at 1, M_bind at 1.
  assert (deref p s = Some (c, s)) as -> by (unfold deref, mbind, M_bind, gets, of_option; by rewrite Hc).
  rewrite Hfl. unfold mbind at 1, M_bind at 1, of_option at 1. cbv zeta.
  unfold encode_reply in Ha, Hlen. rewrite !blen_app, Hcnt in Hlen.
  change (blen (be16 id)) with 2 in Hlen. change (blen (be16 flags)) with 2 in Hlen.
  change (blen (be16 (Z.of_nat (length qs)))) with 2 in Hlen.
  change (blen (be16 (Z.of_nat (length rrs)))) with 2 in Hlen.
  set (q := concat (encode_question <$> qs)) in *. set (a := concat (encode_rr <$> rrs)) in *.
  pose proof (blen_nonneg q). pose proof (blen_nonneg a). pose proof (blen_nonneg rest).
  rewrite bool_decide_eq_false_2 by done. rewrite bool_decide_eq_true_2 by done.
  destruct (Z.ltb_spec (l7_len pkt) sizeof_dns_packet) as [Hl|_]; [unfold sizeof_dns_packet in Hl; lia|].
  cbn [negb orb]. apply at_off_app in Ha as [_ Ha]. change (blen (be16 id)) with 2 in Ha.
  destruct (at_off_be16 _ _ _ _ Ha Hfr) as (wf & Ef & Hwf).
  apply at_off_app in Ha as [_ Ha]. change (blen (be16 flags)) with 2 in Ha.
  destruct (at_off_be16 _ _ _ _ Ha ltac:(lia)) as (wq & Eq & Hwq).
  apply at_off_app in Ha as [_ Ha]. change (blen (be16 (Z.of_nat (length qs)))) with 2 in Ha.
  destruct (at_off_be16 _ _ _ _ Ha ltac:(lia)) as (wa & Ea & Hwa).
  apply at_off_app in Ha as [_ Ha]. change (blen (be16 (Z.of_nat (length rrs)))) with 2 in Ha.
  apply at_off_app in Ha as [_ Ha]. rewrite Hcnt in Ha.
  replace (l7_off pkt + 2 + 2 + 2 + 2 + 4) with (l7_off pkt + sizeof_dns_packet) in Ha
    by (unfold sizeof_dns_packet; lia).
  replace (l7_off pkt + 2 + 2) with (l7_off pkt + 4) in Eq by lia.
  replace (l7_off pkt + 2 + 2 + 2) with (l7_off pkt + 6) in Ea by lia.
  unfold mbind, M_bind, of_option. rewrite Ef, Eq, Ea, Hwf, Hwq, Hwa, Hfb, Z.eqb_refl.
  assert (forall w k, ntohs w = k -> 0 < k -> (w =? 0) = false) as Hnz.
  { intros w k <- Hk. destruct (Z.eqb_spec w 0) as [->|]; [exfalso; vm_compute in Hk; discriminate|reflexivity]. }
  rewrite (Hnz wq _ Hwq ltac:(lia)), (Hnz wa _ Hwa ltac:(lia)). cbn [negb andb].
  rewrite Nat2Z.id. rewrite (skip_queries_encoded (pkt_buf pkt) qs _ _ _ Ha Hqs)
    by (fold q; unfold sizeof_dns_packet in *; lia).
  fold q. apply at_off_app in Ha as [_ Ha]. cbv beta iota.
  rewrite (dns_answers_encoded _ _ _ rrs rest); [|exact Ha|done|fold a; unfold sizeof_dns_packet; lia|lia].
  f_equal. f_equal. destruct (decide (length rrs <= 32)%nat).
  - rewrite Z.min_l by lia. rewrite Nat2Z.id. by rewrite !firstn_all2 by lia.
  - rewrite Z.min_r by lia. done.
Qed.
End dns_reply.

(** *** Witness: "a.b" is 1.2.3.4 and an IPv6 address, with an alias between *)
Definition ex_questions : list (bytes * bytes) := [([1; 97; 1; 98], [0; 1; 0; 1])].
Definition ex_rrs : list dns_rr :=
  [mk_rr (Pointer 12) 1 [0; 1; 0; 0; 0; 60] [1; 2; 3; 4];
   mk_rr (Labels [1; 97; 1; 98]) 5 [0; 1; 0; 0; 0; 60] [1; 99; 0];
   mk_rr (Pointer 12) 28 [0; 1; 0; 0; 0; 60] [32; 1; 0; 0; 0; 0; 0; 0; 0; 0; 0; 0; 0; 0; 0; 1]].
Definition ex_reply : bytes := encode_reply 7 0x8180 ex_questions ex_rrs [0; 0; 0; 0] [].
Definition ex_reply_pkt : zdtun_pkt :=
  mk_pkt (mk_5tuple 1 2 3 4 4 17) 0 (28 + blen ex_reply) 20 8 (blen ex_reply) (replicate 28 0 ++ ex_reply).
Definition ex_dns_state : pcapdroid (list Z) Z :=
  ex_state <| heap := {[1 := zero_conn <| ndpi_flow := Some 1 |>]} |>.

Lemma process_dns_reply_learns_witness :
  process_dns_reply 1 ex_reply_pkt ex_dns_state =
    learn (host_server_name (1 : Z)) (omap rr_addr (take 32 ex_rrs)) ex_dns_state /\
  omap rr_addr (take 32 ex_rrs) = [0x04030201; 0x01000000000000000000000000000120].
Proof.
  split; [|reflexivity]. apply (process_dns_reply_learns 1 (zero_conn <| ndpi_flow := Some 1 |>) 1 ex_reply_pkt 7 0x8180
    ex_questions ex_rrs [0; 0; 0; 0] []).
  - reflexivity.
  - reflexivity.
  - discriminate.
  - right. left.
  - exists (replicate 28 0), []. split; [|reflexivity]. by rewrite app_nil_r.
  - reflexivity.
  - reflexivity.
  - split; [discriminate|reflexivity].
  - reflexivity.
  - repeat constructor; discriminate.
  - split; reflexivity.
  - repeat constructor; discriminate.
  - split; reflexivity.
Defined.

(** A compression pointer beyond the first 256 bytes starts with another byte
    than 0xc0: the parser takes it for labels, loses its place and learns
    nothing from a record that resolves the name. *)
Lemma far_pointer_not_learned :
  let far := mk_rr (Labels []) 1 [0; 1; 0; 0; 0; 60] [1; 2; 3; 4] in
  let reply := be16 7 ++ be16 0x8180 ++ be16 1 ++ be16 1 ++ [0; 0; 0; 0] ++
    encode_question ([1; 97; 1; 98], [0; 1; 0; 1]) ++
    [0xc1; 5] ++ tail (encode_rr far) in
  let pkt := mk_pkt (mk_5tuple 1 2 3 4 4 17) 0 (28 + blen reply) 20 8 (blen reply) (replicate 28 0 ++ reply) in
  process_dns_reply 1 pkt ex_dns_state = Some (tt, ex_dns_state).
Proof. vm_compute. reflexivity. Qed.
