(* ===== verification/Housekeeping.v ===== *)
(** The periodic tasks of core/pcapdroid.c: sending statistics and connections,
    exporting the PCAP buffer, reloading the lists and checking the active
    connections against them. *)
From Stdlib Require Import ZArith Lia.
From stdpp Require Import base option gmap numbers list.
From S2P Require Import Prelude Packet Uthash Lru AppNames PcapDump Blacklist NdpiProtos.
From S2P Require Import Conn ConnInv JavaDump Dpi.

Open Scope Z_scope.

(** ** Operations *)
Section hk_ops.
Context {P F : Type} `{Ndpi P} `{NdpiFlow F} (java_app_name : Z -> option bytes).
Abbreviation state := (pcapdroid P F).
Abbreviation get_state := (gets (fun s : state => s)).
Implicit Types (p : conn_ptr) (tuple : zdtun_5tuple).

(** *** The lists of the malware detection *)
Definition set_malware (f : malware_detection P -> malware_detection P) : M state unit :=
  modify (fun s => s <| malware ::= f |>).

(** A null [status_arr] is replaced by an object of zero bytes, whose fields
    are then read. *)
Definition use_new_blacklists : M state unit :=
  s ← get_state;
  match mal_new_bl (malware s) with
  | None => mret tt
  | Some bl =>
      set_malware (fun m => m <| mal_bl := Some bl |> <| mal_new_bl := None |>
                              <| status_arr := None |>);;
      arr ← of_option (status_arr (malware s));
      items ← of_option (status_items arr);
      notifyBlacklistsLoaded items
  end.

(** [status_arr->items[status_arr->cur_items++] = ...] *)
Definition status_push (arr : bl_status_arr) (st : bytes * Z) : option bl_status_arr :=
  l ← sa_items arr;
  if (sa_cur_items arr =? Z.of_nat (length l)) && (sa_cur_items arr <? sa_size arr)
  then Some (mk_status_arr (Some (l ++ [st])) (sa_size arr) (sa_cur_items arr + 1))
  else None.

(** One file of the list; [files] maps a name of malware_bl/ to the contents
    and [allocs] gives the outcomes of the allocations of its items. *)
Definition load_one_blacklist (files : bytes -> option bytes) (allocs : nat -> bool)
    (blinfo : bytes * blacklist_type) (st : blacklist P * bl_status_arr)
  : M state (blacklist P * bl_status_arr) :=
  let '(bl, arr) := st in
  let '(fname, tp) := blinfo in
  let '(rv, bl, stats) := blacklist_load_file bl (files fname) tp allocs in
  match stats with
  | None => mret (bl, arr)
  | Some stats =>
      grown ←
        (if sa_size arr >=? sa_cur_items arr then
           let new_size := if sa_size arr =? 0 then 8 else sa_size arr * 2 in
           ok ← realloc_ok;
           mret (if (ok : bool)
                 then inr (mk_status_arr (Some (default [] (sa_items arr))) new_size (sa_cur_items arr))
                 else inl (mk_status_arr None 0 (sa_cur_items arr)))
         else mret (inr arr));
      match grown with
      | inl arr => mret (bl, arr)
      | inr arr =>
          dup ← malloc_ok;
          if negb dup then mret (bl, arr) else
          arr ← of_option (status_push arr (fname, num_rules stats));
          mret (bl, arr)
      end
  end.

Fixpoint load_all_blacklists (files : bytes -> option bytes) (allocs : nat -> nat -> bool)
    (infos : list (bytes * blacklist_type)) (st : blacklist P * bl_status_arr)
  : M state (blacklist P * bl_status_arr) :=
  match infos with
  | [] => mret st
  | info :: infos' =>
      st ← load_one_blacklist files (allocs 0%nat) info st;
      load_all_blacklists files (fun n => allocs (S n)) infos' st
  end.

Definition STR_test_domain : bytes :=   (* "internetbadguys.com" *)
  [105; 110; 116; 101; 114; 110; 101; 116; 98; 97; 100; 103; 117; 121; 115; 46; 99; 111; 109].
Definition STR_test_ip : bytes := [48; 46; 48; 46; 48; 46; 49].   (* "0.0.0.1" *)

(** Runs in the reload worker, or before the capture starts. *)
Definition load_new_blacklists (files : bytes -> option bytes) (allocs : nat -> nat -> bool)
  : M state unit :=
  ok ← malloc_ok;
  if negb ok then set_malware (fun m => m <| reload_done := true |>) else
  ok ← malloc_ok;
  match blacklist_init ok with
  | None => set_malware (fun m => m <| reload_done := true |>)
  | Some bl =>
      s ← get_state;
      '(bl, arr) ← load_all_blacklists files allocs (bls_info (malware s))
                     (bl, mk_status_arr None 0 0);
      ok ← malloc_ok;
      let '(_, bl) := blacklist_add_domain bl STR_test_domain ok in
      let '(_, bl) := blacklist_add_ipstr bl STR_test_ip in
      set_malware (fun m => m <| mal_new_bl := Some bl |> <| status_arr := Some arr |>
                              <| reload_done := true |>)
  end.

(** *** Checking the active connections *)

(** capture_libpcap.c; the callbacks always continue. *)
Definition libpcap_iter_connections (cb : zdtun_5tuple -> conn_ptr -> M state unit) : M state unit :=
  conns ← gets connections; for_each (fun e => cb e.1 e.2) conns.

Definition iter_active_connections (cb : zdtun_5tuple -> conn_ptr -> M state unit) : M state unit :=
  s ← get_state;
  if negb (vpn_capture s) then libpcap_iter_connections cb
  else for_each (fun e => cb e.1 e.2) (zdt_connections s).

Definition check_blocked_conn_cb tuple p : M state unit :=
  s ← get_state;
  data ← deref p;
  let old_block := to_block data in
  let malicious := blacklisted_internal data || blacklisted_ip data || blacklisted_domain data in
  let blocked :=
    match fw_bl (fw s) with
    | Some bl =>
        if negb malicious && fw_enabled (fw s) then
          blacklist_match_uid bl (conn_uid data) ||
          blacklist_match_ip bl (dst_ip tuple) (ipver tuple) ||
          opt_match (nonempty (info data)) (blacklist_match_domain bl)
        else malicious
    | None => malicious
    end in
  modify_conn p (fun c => c <| to_block := blocked |>);;
  check_whitelist_mode_block tuple p;;
  data ← deref p;
  when (negb (Bool.eqb old_block (to_block data)))
    (modify_conn p (fun c => set_update c CONN_UPDATE_STATS);;
     pd_notify_connection_update java_app_name tuple p;;
     mret tt).

(** [None] for the host of a connection marked as malicious is a null pointer
    given to [blacklist_match_domain]. *)
Definition check_blacklisted_conn_cb tuple p : M state unit :=
  s ← get_state;
  whitelist ← of_option (mal_whitelist (malware s));
  data ← deref p;
  let app := blacklist_match_uid whitelist (conn_uid data) in
  modify_conn p (fun c => c <| whitelisted_app := app |>);;
  let ip_changed := blacklisted_ip data &&
                    (app || blacklist_match_ip whitelist (dst_ip tuple) (ipver tuple)) in
  when ip_changed (modify_conn p (fun c => c <| blacklisted_ip := false |>));;
  domain_changed ←
    (if negb (blacklisted_domain data) then mret false
     else if app then mret true
     else host ← of_option (info data); mret (blacklist_match_domain whitelist host));
  when domain_changed (modify_conn p (fun c => c <| blacklisted_domain := false |>));;
  when (ip_changed || domain_changed)
    (when (match fw_bl (fw s) with Some _ => true | None => false end)
       (check_blocked_conn_cb tuple p);;
     modify_conn p (fun c => set_update c CONN_UPDATE_STATS);;
     pd_notify_connection_update java_app_name tuple p;;
     mret tt).

(** *** [pd_housekeeping] *)
Definition pcap_export : M state bool :=
  s ← get_state;
  match dumper (pcap_dump s) with
  | None => mret false
  | Some d =>
      '(exported, d) ← of_option (pcap_check_export (sync_dumper s d));
      set_dumper (Some d);;
      mret exported
  end.

Definition malware_housekeeping : M state unit :=
  s ← get_state;
  if reload_in_progress (malware s) then
    when (reload_done (malware s))
      (set_malware (fun m => m <| reload_in_progress := false |>);; use_new_blacklists)
  else
    when (reload_blacklists_now s)
      (modify (fun s => s <| reload_blacklists_now := false |>);;
       set_malware (fun m => m <| reload_done := false |> <| mal_new_bl := None |>
                               <| status_arr := None |> <| reload_in_progress := true |>)).

(** The notifications are sent and the arrays are emptied. *)
Definition flush_pending : M state unit :=
  s ← get_state;
  when (negb (cur_items (new_conns s) =? 0) || negb (cur_items (conns_updates s) =? 0))
    flush_connections.

Definition housekeeping_dumps : M state unit :=
  s ← get_state;
  let now := pd_now_ms s in
  let cs := capture_stats s in
  if dump_capture_stats_now s ||
     (new_stats cs && (u64 (now - last_update_ms cs) >=? CAPTURE_STATS_UPDATE_FREQUENCY_MS))
  then
    modify (fun s => s <| dump_capture_stats_now := false |>);;
    when (vpn_capture s) (modify (fun s => s <| zstats := zdt_stats s |>));;
    sendStatsDump;;
    modify (fun s => s <| capture_stats ::= fun cs => cs <| new_stats := false |>
                                                         <| last_update_ms := now |> |>)
  else if now >=? next_connections_dump s then
    flush_pending;;
    modify (fun s => s <| last_connections_dump := now |>
                       <| next_connections_dump := u64 (now + CONNECTION_DUMP_UPDATE_FREQUENCY_MS) |>
                       <| netd_resolve_waiting := 0 |>)
  else
    exported ← pcap_export;
    if (exported : bool) then mret tt
    else when (mal_enabled (malware s)) malware_housekeeping.

Definition load_new_lists : M state unit :=
  s ← get_state;
  match mal_new_wl (malware s) with
  | None => mret tt
  | Some wl =>
      set_malware (fun m => m <| mal_whitelist := Some wl |> <| mal_new_wl := None |>);;
      iter_active_connections check_blacklisted_conn_cb
  end;;
  s ← get_state;
  match fw_new_bl (fw s), fw_new_wl (fw s) with
  | Some bl, _ =>
      modify (fun s => s <| fw ::= fun f => f <| fw_bl := Some bl |> <| fw_new_bl := None |> |>);;
      iter_active_connections check_blocked_conn_cb
  | None, Some wl =>
      modify (fun s => s <| fw ::= fun f => f <| fw_wl := Some wl |> <| fw_new_wl := None |> |>);;
      iter_active_connections check_blocked_conn_cb
  | None, None => mret tt
  end;;
  s ← get_state;
  match tls_new_list (tls s) with
  | None => mret tt
  | Some l => modify (fun s => s <| tls ::= fun t => t <| tls_list := Some l |> <| tls_new_list := None |> |>)
  end.

Definition pd_housekeeping : M state unit :=
  housekeeping_dumps;;
  load_new_lists.

(** [clock]: the time that [clock_gettime] gives, in ms, if it succeeds. *)
Definition pd_refresh_time (clock : option Z) : M state unit :=
  match clock with
  | None => mret tt
  | Some ms => modify (fun s => s <| pd_now_ms := u64 ms |>)
  end.
End hk_ops.

(** ** The invariant *)
Section hk_props.
Context {P F : Type} `{Ndpi P} `{NdpiFlow F} {cmode : CaptureMode} (java_app_name : Z -> option bytes).
Abbreviation state := (pcapdroid P F).
Implicit Types (s : state) (c : pd_conn F) (p : conn_ptr) (tuple : zdtun_5tuple).

(** A step between two settled states. *)
Definition settled strict {A} (m : M state A) s : Prop :=
  inv None strict s -> wp m (fun _ s' => inv None strict s' /\ calm s s') s.

Lemma settled_quiet strict {A} (m : M state A) s : quietly m s -> settled strict m s.
Proof.
  intros Hm Hi. eapply wp_mono; [exact Hm|]. intros a s' Hq. cbv beta in Hq.
  split; [exact (quiet_inv _ _ _ _ Hq Hi)|exact (quiet_calm _ _ Hq)].
Qed.

Lemma settled_bind strict {A B} (m : M state A) (k : A -> M state B) s :
  settled strict m s -> (forall a s', calm s s' -> settled strict (k a) s') ->
  settled strict (m ≫= k) s.
Proof.
  intros Hm Hk Hi. apply wp_bind. eapply wp_mono; [by apply Hm|]. intros a s' [Hi' Hc].
  eapply wp_mono; [by apply Hk|]. intros b s'' [Hi'' Hc']. split; [done|by etrans].
Qed.

(** The end of a callback: flag the statistics and notify. *)
Lemma flag_and_notify strict tuple p c s :
  inv None strict s -> heap s !! p = Some c ->
  wp (modify_conn p (fun c => set_update c CONN_UPDATE_STATS);;
      pd_notify_connection_update java_app_name tuple p;; mret tt)
     (fun _ s' => inv None strict s' /\ calm s s') s.
Proof.
  intros Hi Hc. apply wp_bind. eapply wp_modify_conn; [done|]. cbv beta.
  set (c1 := set_update c CONN_UPDATE_STATS). set (s1 := upd _ _ s).
  assert (quiet s s1) as Hq by (apply (quiet_insert s p c c1); [done|by apply quiet_set_update]).
  assert (heap s1 !! p = Some c1) as Hc1 by apply lookup_insert_eq.
  assert (update_type c1 <> 0) as Hu by (by apply lor_nonzero).
  pose proof (quiet_inv _ _ _ _ Hq Hi) as Hi1. apply wp_bind.
  eapply wp_mono; [eapply notif_connection_inv; [exact Hi1|exact Hc1|by right]|].
  intros rv s2 (_ & Hi2 & Hcm & _). apply wp_ret. split; [done|].
  etrans; [exact (quiet_calm _ _ Hq)|done].
Qed.

Lemma check_blocked_conn_cb_settled strict tuple p c s :
  heap s !! p = Some c -> settled strict (check_blocked_conn_cb java_app_name tuple p) s.
Proof.
  intros Hc Hi. unfold check_blocked_conn_cb. cbv zeta. wp_steps. eapply wp_deref; [done|].
  apply wp_bind. eapply wp_mono.
  { eapply (quietly_modify_conn p _ c); [done|by apply quiet_conn_same]. }
  intros [] s1 Hq1. cbv beta in Hq1. relive. apply wp_bind.
  eapply wp_mono; [by eapply check_whitelist_mode_block_quiet|].
  intros [] s2 Hq2. cbv beta in Hq2. relive. assert (quiet s s2) as Hq by (by etrans).
  pose proof (quiet_inv _ _ _ _ Hq Hi) as Hi2. pose proof (quiet_calm _ _ Hq) as Hcm.
  apply wp_bind. eapply wp_deref; [done|]. apply wp_when; [|done]. intros _.
  eapply wp_mono; [by eapply flag_and_notify|]. intros [] s3 [Hi3 Hcm3]. split; [done|by etrans].
Qed.

Lemma check_blacklisted_conn_cb_settled strict tuple p c wl s :
  mal_whitelist (malware s) = Some wl -> heap s !! p = Some c ->
  settled strict (check_blacklisted_conn_cb java_app_name tuple p) s.
Proof.
  intros Hwl Hc Hi. unfold check_blacklisted_conn_cb. cbv zeta. wp_steps.
  eapply wp_of_option; [done|]. wp_steps. eapply wp_deref; [done|].
  set (app := blacklist_match_uid wl (conn_uid c)).
  set (ipc := blacklisted_ip c && _).
  apply wp_bind. eapply wp_mono.
  { eapply (quietly_modify_conn p _ c); [done|by apply quiet_conn_same]. }
  intros [] s1 Hq1. cbv beta in Hq1. relive. apply wp_bind.
  eapply wp_mono.
  { apply quietly_when. intros _. eapply (quietly_modify_conn p _ c0); [done|by apply quiet_conn_same]. }
  intros [] s2 Hq2. cbv beta in Hq2. relive. apply wp_bind.
  eapply (wp_mono _ (fun _ s' => s' = s2)).
  { destruct (blacklisted_domain c) eqn:Eb; simpl; [|by apply wp_ret].
    destruct app; [by apply wp_ret|]. destruct (inv_heap _ _ _ Hi p c Hc) as [_ Hbl].
    destruct (info c) as [host|] eqn:Einf; [|by destruct (Hbl Eb)].
    apply wp_bind. eapply wp_of_option; [done|]. by apply wp_ret. }
  intros dc s2' ->. apply wp_bind. eapply wp_mono.
  { apply quietly_when. intros _. eapply (quietly_modify_conn p _ c1); [done|]. by split. }
  intros [] s3 Hq3. cbv beta in Hq3. relive. assert (quiet s s3) as Hq by (by etrans; [|etrans]).
  pose proof (quiet_inv _ _ _ _ Hq Hi) as Hi3. pose proof (quiet_calm _ _ Hq) as Hcm.
  apply wp_when; [|done]. intros _. apply wp_bind.
  eapply (wp_mono _ (fun _ s' => inv None strict s' /\ calm s3 s')).
  { apply wp_when; [|done]. intros _. by eapply check_blocked_conn_cb_settled. }
  intros [] s4 [Hi4 Hcm4]. destruct (cm_heap _ _ Hcm4 p c2 Hlive1) as (c4 & Hc4 & _).
  eapply wp_mono; [by eapply flag_and_notify|]. intros [] s5 [Hi5 Hcm5].
  split; [done|]. etrans; [done|]. by etrans.
Qed.

(** What the core sees of the engine are open connections. *)
Definition zdt_shown s : Prop :=
  vpn_mode = true -> forall e, e ∈ zdt_connections s -> e.2 ∈ table_ptrs s.

Lemma zdt_shown_same s s' :
  connections s' = connections s -> zdt_connections s' = zdt_connections s -> zdt_shown s -> zdt_shown s'.
Proof. intros Hc Hz Hs Hm e. rewrite Hz, (table_ptrs_same s s' Hc). by apply Hs. Qed.

Lemma iter_active_settled strict (ok : state -> Prop) cb s :
  zdt_shown s -> ok s -> (forall s1 s2, ok s1 -> calm s1 s2 -> inv None strict s1 -> ok s2) ->
  (forall tuple p c s', ok s' -> heap s' !! p = Some c -> settled strict (cb tuple p) s') ->
  settled strict (iter_active_connections cb) s.
Proof.
  intros Hz Hok Hpres Hcb Hi. set (l := if vpn_mode then zdt_connections s else connections s).
  assert (forall e, e ∈ l -> exists c, heap s !! e.2 = Some c) as Hl.
  { intros e He. destruct (inv_table_live _ _ _ Hi e.2) as (c & Hc & _); [|by exists c].
    unfold zdt_shown, table_ptrs, vpn_mode in *. destruct vpn_table; [by apply Hz|].
    apply list_elem_of_fmap. by exists e. }
  assert (forall s1, calm s s1 -> ok s1 -> inv None strict s1 ->
    wp (for_each (fun e => cb e.1 e.2) l) (fun _ s' => inv None strict s' /\ calm s s') s1) as Hgen.
  { clear Hok. induction l as [|e l IH]; intros s1 Hc1 Hok1 Hi1; simpl; [by apply wp_ret|].
    destruct (Hl e) as [c Hc]; [left|]. destruct (cm_heap _ _ Hc1 _ _ Hc) as (c1 & Hlive & _).
    apply wp_bind. eapply wp_mono; [by eapply Hcb|]. intros [] s2 [Hi2 Hc2]. cbv beta.
    apply IH; [|by etrans|by eapply Hpres|done]. intros e' He'. apply Hl. by right. }
  unfold iter_active_connections, libpcap_iter_connections. wp_steps. rewrite (inv_mode _ _ _ Hi).
  subst l. destruct vpn_mode; simpl; wp_steps; by apply Hgen.
Qed.

(** *** Loading the lists *)
Definition status_wf (arr : bl_status_arr) : Prop :=
  sa_cur_items arr = Z.of_nat (length (default [] (sa_items arr))) /\
  sa_cur_items arr <= sa_size arr.

Lemma status_wf_items arr : status_wf arr -> exists l, status_items arr = Some l.
Proof.
  intros [Hc _]. unfold status_items. destruct (Z.eqb_spec (sa_cur_items arr) 0); [by eexists|].
  destruct (sa_items arr) as [l|]; simpl in *; [|by rewrite Hc in *].
  destruct (Z.ltb_spec (Z.of_nat (length l)) (sa_cur_items arr)); [lia|]. by eexists.
Qed.

Lemma wp_realloc_ok cur strict (Q : bool -> state -> Prop) s :
  inv cur strict s ->
  (forall s', inv cur strict s' -> bls_info (malware s') = bls_info (malware s) -> Q true s') ->
  wp realloc_ok Q s.
Proof.
  intros Hi HQ. pose proof (inv_reallocs _ _ _ Hi) as Hr. unfold realloc_ok. wp_steps.
  rewrite all_ok_next by done. apply HQ; [|done]. destruct Hi. split; try done. by apply all_ok_tail.
Qed.

Lemma load_one_blacklist_inv cur strict files allocs info bl arr s :
  inv cur strict s -> status_wf arr ->
  wp (load_one_blacklist files allocs info (bl, arr))
     (fun r s' => inv cur strict s' /\ status_wf r.2) s.
Proof.
  intros Hi [Hc Hs]. unfold load_one_blacklist. destruct info as [fname tp].
  destruct (blacklist_load_file bl (files fname) tp allocs) as [[rv bl'] [st|]]; [|by apply wp_ret].
  destruct (Z.geb_spec (sa_size arr) (sa_cur_items arr)); [|lia].
  apply wp_bind, wp_bind. eapply wp_realloc_ok; [done|]. intros s1 Hi1 _. apply wp_ret. cbv beta iota.
  apply wp_bind, wp_malloc_ok. intros dup. set (s2 := upd _ _ s1).
  assert (inv cur strict s2) as Hi2 by (apply (quiet_inv _ _ s1); [by split|done]).
  clearbody s2. set (n := if sa_size arr =? 0 then 8 else sa_size arr * 2).
  assert (sa_cur_items arr < n /\ sa_size arr <= n) as Hn.
  { unfold n. destruct (Z.eqb_spec (sa_size arr) 0); lia. }
  destruct dup; simpl; [|apply wp_ret; split; [done|by split; simpl; [|lia]]].
  apply wp_bind. eapply wp_of_option.
  { unfold status_push. cbn [sa_items sa_cur_items sa_size mbind option_bind].
    rewrite <- Hc, Z.eqb_refl. destruct (Z.ltb_spec (sa_cur_items arr) n); [done|lia]. }
  apply wp_ret. split; [done|]. split; simpl; [|lia]. rewrite length_app. simpl. lia.
Qed.

Lemma load_all_blacklists_inv cur strict files allocs infos bl arr s :
  inv cur strict s -> status_wf arr ->
  wp (load_all_blacklists files allocs infos (bl, arr))
     (fun r s' => inv cur strict s' /\ status_wf r.2) s.
Proof.
  revert allocs bl arr s. induction infos as [|info infos IH]; intros allocs bl arr s Hi Hw; simpl.
  - by apply wp_ret.
  - apply wp_bind. eapply wp_mono; [by apply load_one_blacklist_inv|].
    intros [bl' arr'] s' [Hi' Hw']. by apply IH.
Qed.

Lemma inv_set_malware cur strict f s :
  inv cur strict s -> malware_ok (f (malware s)) -> inv cur strict (s <| malware ::= f |>).
Proof. intros Hi Hm. destruct Hi. by split. Qed.

Lemma load_new_blacklists_inv cur strict files allocs s :
  inv cur strict s -> wp (load_new_blacklists files allocs) (fun _ s' => inv cur strict s') s.
Proof.
  intros Hi. unfold load_new_blacklists, set_malware. apply wp_bind, wp_malloc_ok. intros ok.
  set (s1 := upd _ _ s). assert (inv cur strict s1) as Hi1 by (apply (quiet_inv _ _ s); [by split|done]).
  clearbody s1. destruct ok; simpl; [|apply wp_modify, inv_set_malware; [done|apply (inv_malware _ _ _ Hi1)]].
  apply wp_bind, wp_malloc_ok. intros ok.
  set (s2 := upd _ _ s1). assert (inv cur strict s2) as Hi2 by (apply (quiet_inv _ _ s1); [by split|done]).
  clearbody s2. destruct ok; simpl; [|apply wp_modify, inv_set_malware; [done|apply (inv_malware _ _ _ Hi2)]].
  wp_steps. eapply wp_mono; [by apply load_all_blacklists_inv|].
  intros [bl arr] s3 [Hi3 Hw]. apply wp_bind, wp_malloc_ok. intros ok.
  set (s4 := upd _ _ s3). assert (inv cur strict s4) as Hi4 by (apply (quiet_inv _ _ s3); [by split|done]).
  clearbody s4. destruct (blacklist_add_domain bl STR_test_domain ok) as [rv1 bl1].
  destruct (blacklist_add_ipstr bl1 STR_test_ip) as [rv2 bl2]. apply wp_modify, inv_set_malware; [done|].
  intros bl' [= <-]. destruct (status_wf_items arr Hw) as (l & Hl). by exists arr, l.
Qed.

Lemma use_new_blacklists_inv cur strict s :
  inv cur strict s -> wp use_new_blacklists (fun _ s' => inv cur strict s') s.
Proof.
  intros Hi. unfold use_new_blacklists, set_malware. wp_steps.
  destruct (mal_new_bl (malware s)) as [bl|] eqn:Eb; [|by apply wp_ret].
  destruct (inv_malware _ _ _ Hi bl Eb) as (arr & l & Ha & Hl). wp_steps.
  eapply wp_of_option; [exact Ha|]. wp_steps. eapply wp_of_option; [exact Hl|].
  eapply wp_mono; [apply notifyBlacklistsLoaded_quiet|]. intros [] s' Hq. cbv beta in Hq.
  eapply quiet_inv; [exact Hq|]. by apply inv_set_malware.
Qed.

(** *** [pd_housekeeping] *)
Lemma malware_housekeeping_inv cur strict s :
  inv cur strict s -> wp malware_housekeeping (fun _ s' => inv cur strict s') s.
Proof.
  intros Hi. unfold malware_housekeeping, set_malware. wp_steps.
  destruct (reload_in_progress (malware s)); apply wp_when; try done; intros _; wp_steps.
  - apply use_new_blacklists_inv, inv_set_malware; [done|]. apply (inv_malware _ _ _ Hi).
  - by apply inv_set_malware; [apply (quiet_inv _ _ s); [by split|]|].
Qed.

Lemma flush_pending_inv strict s :
  inv None strict s -> wp flush_pending (fun _ s' => inv None strict s') s.
Proof.
  intros Hi. unfold flush_pending. wp_steps; [|done].
  eapply wp_mono; [by apply flush_inv|]. by intros [] s' (Hi' & _).
Qed.

Lemma pcap_export_dumps s :
  (forall d, dumper (pcap_dump s) = Some d -> dumper_wf d) ->
  wp pcap_export (fun _ s' => dumps s s') s.
Proof.
  intros Hd. unfold pcap_export. wp_steps. destruct (dumper (pcap_dump s)) as [d|] eqn:Ed; [|by apply wp_ret].
  specialize (Hd d eq_refl). destruct (check_export_refines (sync_dumper s d)) as (b & d' & E & Hwf & _).
  { by destruct Hd. }
  wp_steps. eapply wp_of_option; [exact E|]. cbv beta iota. unfold set_dumper. wp_steps.
  split; [done|]. split; [done|]. intros cur strict Hi.
  apply (inv_set_dumper cur strict s (Some d')); [done|]. by intros d0 [= <-].
Qed.

Lemma inv_zstats cur strict s z :
  inv cur strict s -> vpn_capture s = true -> inv cur strict (s <| zstats := z |>).
Proof. intros Hi Hv. rewrite (inv_mode _ _ _ Hi) in Hv. destruct Hi. split; try done. by rewrite Hv. Qed.

Lemma housekeeping_dumps_inv strict s :
  inv None strict s -> wp housekeeping_dumps (fun _ s' => inv None strict s') s.
Proof.
  intros Hi. unfold housekeeping_dumps. cbv zeta. wp_steps. destruct (_ || _).
  - assert (inv None strict (s <| dump_capture_stats_now := false |>)) as Hi1 by (apply (quiet_inv _ _ s); [by split|done]).
    wp_steps; (eapply wp_mono; [apply sendStatsDump_quiet|]); intros [] s1 Hq; cbv beta in Hq;
      apply wp_modify, (quiet_inv _ _ s1); try (by split); apply (quiet_inv _ _ _ _ Hq); [|done].
    by apply inv_zstats.
  - destruct (_ >=? _).
    + apply wp_bind. eapply wp_mono; [by apply flush_pending_inv|]. intros [] s1 Hi1. cbv beta in Hi1.
      apply wp_modify. apply (quiet_inv _ _ s1); [by split|done].
    + apply wp_bind. eapply wp_mono; [apply pcap_export_dumps, (inv_dumper _ _ _ Hi)|].
      intros b s1 (_ & _ & Hd). destruct (Hd _ _ Hi) as [Hi1 _]. destruct b; [by apply wp_ret|].
      apply wp_when; [|done]. intros _. by apply malware_housekeeping_inv.
Qed.

Definition shown_part s := (connections s, zdt_connections s).
Lemma zdt_shown_part s s' : shown_part s' = shown_part s -> zdt_shown s -> zdt_shown s'.
Proof. intros [=]. by apply zdt_shown_same. Qed.

Lemma items_shown l : preserves shown_part (blacklist_status_items l).
Proof. induction l as [|st l IH]; simpl; unfold jni_ok; preserves_steps. Qed.

Lemma slots_shown {X} (dump : conn_and_tuple -> M state (option X)) sls :
  (forall sl, preserves shown_part (dump sl)) -> preserves shown_part (dump_slots dump sls).
Proof. intros Hd. induction sls as [|sl sls IH]; simpl; unfold modify_conn, deref; preserves_steps; done. Qed.

Lemma update_shown sl : preserves shown_part (getConnUpdate sl).
Proof. unfold getConnUpdate, modify_conn, deref, jni_ok. preserves_steps. Qed.

Lemma descr_shown sl : preserves shown_part (dumpNewConnection sl).
Proof. unfold dumpNewConnection, modify_conn, deref, jni_ok. preserves_steps. all: apply update_shown. Qed.

Lemma dumps_shown : preserves shown_part housekeeping_dumps.
Proof.
  unfold housekeeping_dumps, sendStatsDump, call_java, jni_ok, pcap_export, malware_housekeeping, use_new_blacklists,
    set_malware, notifyBlacklistsLoaded, set_dumper, flush_pending, flush_connections, sendConnectionsDump, conns_clear, set_arr, pd_purge_connection,
    conn_free_ndpi, free_conn, modify_conn, deref, jni_ok.
  preserves_steps.
  all: first [apply items_shown | apply slots_shown; intros; first [apply update_shown | apply descr_shown]
             | by apply preserves_modify; intros s; destruct a ].
Qed.

(** The lists come at once, and the connections are checked against them. *)
Lemma load_new_lists_inv strict s :
  inv None strict s -> zdt_shown s -> wp (load_new_lists java_app_name) (fun _ s' => inv None strict s') s.
Proof.
  intros Hi Hz. unfold load_new_lists, set_malware. wp_steps.
  eapply (wp_mono _ (fun _ s' => inv None strict s' /\ zdt_shown s')).
  { destruct (mal_new_wl (malware s)) as [wl|]; [|by apply wp_ret]. wp_steps. set (s1 := upd _ _ s).
    assert (inv None strict s1) as Hi1 by (apply inv_set_malware; [done|]; apply (inv_malware _ _ _ Hi)).
    eapply wp_mono; [apply (iter_active_settled strict (fun s => mal_whitelist (malware s) = Some wl)); [exact Hz|done|..|exact Hi1]|].
    - intros s2 s3 Hw Hcm _. by rewrite (cm_malware _ _ Hcm).
    - intros tuple p c s' Hw Hc. by eapply check_blacklisted_conn_cb_settled.
    - intros [] s2 [Hi2 Hcm]. split; [done|]. apply (zdt_shown_same s1); [by apply Hcm..|exact Hz]. }
  clear Hi Hz. intros [] s1 [Hi Hz]. cbv beta in Hi. wp_steps.
  assert (forall s2, inv None strict s2 -> zdt_shown s2 ->
    wp (iter_active_connections (check_blocked_conn_cb java_app_name)) (fun _ s' => inv None strict s') s2)
    as Hit.
  { intros s2 Hi2 Hz2. eapply wp_mono; [apply (iter_active_settled strict (fun _ => True)); [exact Hz2|done|done| |exact Hi2]|].
    - intros tuple p c s' _ Hc. by eapply check_blocked_conn_cb_settled.
    - by intros [] s3 [Hi3 _]. }
  eapply (wp_mono _ (fun _ s' => inv None strict s')).
  { destruct (fw_new_bl (fw s1)); [|destruct (fw_new_wl (fw s1)); [|by apply wp_ret]]; wp_steps;
      (apply Hit; [destruct Hi; by split|exact Hz]). }
  clear Hi Hz. intros [] s2 Hi. cbv beta in Hi. wp_steps.
  destruct (tls_new_list (tls s2)); [|by apply wp_ret]. wp_steps. destruct Hi. by split.
Qed.

Lemma pd_housekeeping_inv strict s :
  inv None strict s -> zdt_shown s -> wp (pd_housekeeping java_app_name) (fun _ s' => inv None strict s') s.
Proof.
  intros Hi Hz. unfold pd_housekeeping. apply wp_bind.
  eapply wp_mono; [apply (wp_preserves shown_part); [apply dumps_shown|by apply housekeeping_dumps_inv]|].
  intros [] s1 [Hi1 Hp]. apply load_new_lists_inv; [done|]. by eapply zdt_shown_part.
Qed.
End hk_props.
