(* ===== verification/JavaRequests.v ===== *)
(** The requests of the Java side (the exported functions of core/jni_impl.c)
    that change the state of a running capture. They come from other threads;
    a request is one step, between two turns of the packet loop. *)
From Stdlib Require Import ZArith Lia.
From stdpp Require Import base option gmap numbers list.
From S2P Require Import Prelude Packet Uthash Lru AppNames PcapDump Blacklist NdpiProtos.
From S2P Require Import Conn ConnInv JavaDump Dpi.

Open Scope Z_scope.

(** ** Operations *)

(** [MatchList.ListDescriptor]: UIDs, hosts and addresses, as strings. *)
Record list_descriptor := mk_ld {
  ld_apps : list (option bytes);
  ld_hosts : list (option bytes);
  ld_ips : list (option bytes);
  ld_allocs : nat -> nat -> bool    (** the outcomes of the allocations of the items *)
}.

Inductive java_request :=
  | StopPacketLoop
  | AskStatsDump
  | ReloadBlacklists
  | SetDnsServer (addr : option Z)              (** what [inet_aton] gives *)
  | SetPrivateDnsBlocked (to_block : bool)
  | ReloadBlocklist (ld : list_descriptor)
  | ReloadFirewallWhitelist (ld : option list_descriptor)
  | ReloadMalwareWhitelist (ld : list_descriptor)
  | ReloadDecryptionList (ld : list_descriptor)
  | NativeSetFirewallEnabled (enabled : bool)
  | SetPayloadMode (mode : payload_mode_t)
  | DumpMasterSecret (secret : bytes) (mem : memory).

Section requests.
Context {P F : Type} `{Ndpi P} `{NdpiFlow F}.
Abbreviation state := (pcapdroid P F).
Abbreviation get_state := (gets (fun s : state => s)).

(** A new list from its description; [None]: it could not be made. *)
Definition load_list (ld : list_descriptor) : M state (option (blacklist P)) :=
  ok ← malloc_ok;
  mret (match blacklist_init ok with
        | None => None
        | Some bl =>
            let '(rv, bl) := blacklist_load_list_descriptor bl (ld_apps ld) (ld_hosts ld) (ld_ips ld)
                               (ld_allocs ld) in
            if rv <? 0 then None else Some bl
        end).

Definition is_set {A} (o : option A) : bool := match o with Some _ => true | None => false end.

Definition stopPacketLoop : M state unit := modify (fun s => s <| running := false |>).

Definition askStatsDump : M state unit :=
  s ← get_state;
  when (running s) (modify (fun s => s <| dump_capture_stats_now := true |>)).

Definition reloadBlacklists : M state unit :=
  modify (fun s => s <| reload_blacklists_now := true |>).

Definition setDnsServer (addr : option Z) : M state unit :=
  match addr with
  | Some a => modify (fun s => s <| new_dns_server := a |>)
  | None => mret tt
  end.

Definition setPrivateDnsBlocked (to_block : bool) : M state unit :=
  modify (fun s => s <| block_private_dns := to_block |>).

Definition reloadBlocklist (ld : list_descriptor) : M state bool :=
  s ← get_state;
  if negb (vpn_capture s) then mret false else
  if is_set (fw_new_bl (fw s)) then mret false else
  bl ← load_list ld;
  match bl with
  | None => mret false
  | Some bl => modify (fun s => s <| fw ::= fun f => f <| fw_new_bl := Some bl |> |>);; mret true
  end.

Definition reloadFirewallWhitelist (ld : option list_descriptor) : M state bool :=
  s ← get_state;
  if negb (vpn_capture s) then mret false else
  if is_set (fw_new_wl (fw s)) then mret false else
  match ld with
  | None => modify (fun s => s <| fw ::= fun f => f <| wl_enabled := false |> |>);; mret true
  | Some ld =>
      wl ← load_list ld;
      match wl with
      | None => mret false
      | Some wl =>
          modify (fun s => s <| fw ::= fun f => f <| fw_new_wl := Some wl |> <| wl_enabled := true |> |>);;
          mret true
      end
  end.

Definition reloadMalwareWhitelist (ld : list_descriptor) : M state bool :=
  s ← get_state;
  if negb (mal_enabled (malware s)) then mret false else
  if is_set (mal_new_wl (malware s)) then mret false else
  wl ← load_list ld;
  match wl with
  | None => mret false
  | Some wl => modify (fun s => s <| malware ::= fun m => m <| mal_new_wl := Some wl |> |>);; mret true
  end.

Definition reloadDecryptionList (ld : list_descriptor) : M state bool :=
  s ← get_state;
  if negb (tls_enabled (tls s)) then mret false else
  if is_set (tls_new_list (tls s)) then mret false else
  l ← load_list ld;
  match l with
  | None => mret false
  | Some l => modify (fun s => s <| tls ::= fun t => t <| tls_new_list := Some l |> |>);; mret true
  end.

Definition nativeSetFirewallEnabled (enabled : bool) : M state unit :=
  modify (fun s => s <| fw ::= fun f => f <| fw_enabled := enabled |> |>).

Definition setPayloadMode (mode : payload_mode_t) : M state unit :=
  modify (fun s => s <| payload_mode := mode |>).

Definition dumpMasterSecret (secret : bytes) (mem : memory) : M state unit :=
  s ← get_state;
  match dumper (pcap_dump s) with
  | None => mret tt
  | Some d =>
      alloc ← malloc_ok;
      '(_, d) ← of_option (pcap_dump_secret (sync_dumper s d) secret (blen secret) mem alloc);
      set_dumper (Some d)
  end.

Definition java_request_step (r : java_request) : M state unit :=
  match r with
  | StopPacketLoop => stopPacketLoop
  | AskStatsDump => askStatsDump
  | ReloadBlacklists => reloadBlacklists
  | SetDnsServer addr => setDnsServer addr
  | SetPrivateDnsBlocked b => setPrivateDnsBlocked b
  | ReloadBlocklist ld => reloadBlocklist ld;; mret tt
  | ReloadFirewallWhitelist ld => reloadFirewallWhitelist ld;; mret tt
  | ReloadMalwareWhitelist ld => reloadMalwareWhitelist ld;; mret tt
  | ReloadDecryptionList ld => reloadDecryptionList ld;; mret tt
  | NativeSetFirewallEnabled b => nativeSetFirewallEnabled b
  | SetPayloadMode m => setPayloadMode m
  | DumpMasterSecret secret mem => dumpMasterSecret secret mem
  end.

(** ** The invariant *)
Section keeps_inv.
Context {cmode : CaptureMode}.
Implicit Types s : state.

Lemma inv_same cur strict s s' :
  inv cur strict s ->
  new_conns s' = new_conns s -> conns_updates s' = conns_updates s ->
  connections s' = connections s -> next_ptr s' = next_ptr s -> zstats s' = zstats s ->
  pcap_dump s' = pcap_dump s -> vpn_capture s' = vpn_capture s -> heap s' = heap s ->
  reallocs s' = reallocs s -> strndups s' = strndups s -> jni_calls s' = jni_calls s ->
  malware_ok (malware s') -> inv cur strict s'.
Proof.
  intros Hi En Eu Ec Ep Ez Ed Ev Eh Er Es Ej Hm. destruct Hi.
  split; unfold slot_ptrs, slots, table_ptrs, counts_ok in *;
    rewrite ?En, ?Eu, ?Ec, ?Ep, ?Ez, ?Ed, ?Ev, ?Eh, ?Er, ?Es, ?Ej; done.
Qed.

Lemma inv_load_list {A} cur strict ld (k : option (blacklist P) -> M state A) s :
  inv cur strict s ->
  (forall bl s', inv cur strict s' -> wp (k bl) (fun _ s' => inv cur strict s') s') ->
  wp (load_list ld ≫= k) (fun _ s' => inv cur strict s') s.
Proof.
  intros Hi Hk. unfold load_list. apply wp_bind, wp_bind, wp_malloc_ok. intros ok. apply wp_ret, Hk.
  apply (quiet_inv _ _ s); [by split|done].
Qed.

Lemma pcap_dump_secret_wf d sec mem alloc :
  dumper_wf d ->
  exists b d', pcap_dump_secret d sec (blen sec) mem alloc = Some (b, d') /\ dumper_wf d'.
Proof.
  intros Hwf. destruct (pcap_dump_secret_refines d sec mem Hwf) as [(b & d' & E & Hwf' & _) Hno].
  destruct alloc; [by exists b, d'|]. destruct (keylog_buf d) as [m|] eqn:Ek.
  - exists b, d'. split; [|done]. rewrite <- E. unfold pcap_dump_secret. by rewrite Ek.
  - exists false, d. split; [by apply Hno|done].
Qed.

Lemma java_request_step_inv cur strict r s :
  inv cur strict s -> wp (java_request_step r) (fun _ s' => inv cur strict s') s.
Proof.
  intros Hi. pose proof (inv_malware _ _ _ Hi) as Hm.
  destruct r; cbn [java_request_step];
    try (apply wp_modify; by eapply inv_same).
  - unfold askStatsDump. wp_steps; [by eapply inv_same|done].
  - unfold setDnsServer. destruct addr; [apply wp_modify; by eapply inv_same|by apply wp_ret].
  - unfold reloadBlocklist. wp_steps. destruct (negb _); [by wp_steps|].
    destruct (is_set _); [by wp_steps|]. apply inv_load_list; [done|]. intros [l|] s' Hi'; wp_steps; [|done].
    eapply inv_same; try done. apply (inv_malware _ _ _ Hi').
  - unfold reloadFirewallWhitelist. wp_steps. destruct (negb _); [by wp_steps|].
    destruct (is_set _); [by wp_steps|]. destruct ld as [ld|]; [|wp_steps; by eapply inv_same].
    apply inv_load_list; [done|]. intros [l|] s' Hi'; wp_steps; [|done].
    eapply inv_same; try done. apply (inv_malware _ _ _ Hi').
  - unfold reloadMalwareWhitelist. wp_steps. destruct (negb _); [by wp_steps|].
    destruct (is_set _); [by wp_steps|]. apply inv_load_list; [done|]. intros [wl|] s' Hi'; wp_steps; [|done].
    eapply inv_same; try done. apply (inv_malware _ _ _ Hi').
  - unfold reloadDecryptionList. wp_steps. destruct (negb _); [by wp_steps|].
    destruct (is_set _); [by wp_steps|]. apply inv_load_list; [done|]. intros [l|] s' Hi'; wp_steps; [|done].
    eapply inv_same; try done. apply (inv_malware _ _ _ Hi').
  - unfold dumpMasterSecret. wp_steps. destruct (dumper (pcap_dump s)) as [d|] eqn:Ed; [|by apply wp_ret].
    pose proof (inv_dumper _ _ _ Hi d Ed) as Hwf. apply wp_bind, wp_malloc_ok. intros alloc.
    destruct (pcap_dump_secret_wf (sync_dumper s d) secret mem alloc) as (b & d2 & E2 & Hwf2);
      [by destruct Hwf|]. wp_steps.
    eapply wp_of_option; [exact E2|]. cbv beta iota. unfold set_dumper. wp_steps.
    apply (inv_set_dumper cur strict _ (Some d2)); [apply (quiet_inv _ _ s); [by split|done]|].
    by intros d0 [= <-].
Qed.
End keeps_inv.
End requests.
