(* ===== verification/CaptureLibpcap.v ===== *)
(** The root capture (core/capture_libpcap.c): the table of the connections,
    their status, the handling of the packets that the daemon sends, and the
    packet loop. *)
From Stdlib Require Import ZArith Lia.
From stdpp Require Import base option gmap numbers list.
From S2P Require Import Prelude Packet Uthash Lru AppNames PcapDump Blacklist NdpiProtos Conn.
From S2P Require Import ConnInv JavaDump Dpi Housekeeping JavaRequests.

Open Scope Z_scope.

(** ** Data *)
Definition ICMP_TIMEOUT_SEC : Z := 5.
Definition UDP_TIMEOUT_SEC : Z := 30.
Definition TCP_CLOSED_TIMEOUT_SEC : Z := 60.
Definition TCP_TIMEOUT_SEC : Z := 300.
Definition PERIODIC_PURGE_TIMEOUT_MS : Z := 5000.

Definition PCAPD_SNAPLEN : Z := 65535.
Definition PCAPD_DLT_ETHERNET : Z := 1.
Definition PCAPD_DLT_RAW : Z := 12.
Definition PCAPD_DLT_LINUX_SLL : Z := 113.
Definition PCAPD_DLT_LINUX_SLL2 : Z := 276.
Definition PCAPD_FLAG_TX : Z := 1.

Definition DNS_FLAGS_MASK : Z := 0x8000.
Definition DNS_TYPE_REQUEST : Z := 0x0000.
Definition DNS_TYPE_RESPONSE : Z := 0x8000.

(** [pcapd_hdr_t] (pcapd/pcapd.h) *)
Record pcapd_hdr := mk_hdr {
  hdr_ts : timeval;
  hdr_pkt_drops : Z;
  hdr_uid : Z;          (** [uid_t]: unsigned *)
  hdr_len : Z;
  hdr_linktype : Z;
  hdr_flags : Z;
  hdr_ifid : Z
}.

(** ** Operations *)
Definition get_ip_offset (linktype : Z) : Z :=
  if linktype =? PCAPD_DLT_RAW then 0
  else if linktype =? PCAPD_DLT_ETHERNET then 14
  else if linktype =? PCAPD_DLT_LINUX_SLL then 16
  else if linktype =? PCAPD_DLT_LINUX_SLL2 then 20
  else -1.

Section libpcap_ops.
Context {P F : Type} `{Ndpi P} `{NdpiFlow F} (java_app_name : Z -> option bytes).
Abbreviation state := (pcapdroid P F).
Abbreviation get_state := (gets (fun s : state => s)).
Implicit Types (p : conn_ptr) (tuple : zdtun_5tuple).

Definition count_removed (ipproto : Z) (st : zdtun_statistics) : zdtun_statistics :=
  if ipproto =? IPPROTO_TCP then st <| num_tcp_conn ::= fun n => u16 (n - 1) |>
  else if ipproto =? IPPROTO_UDP then st <| num_udp_conn ::= fun n => u16 (n - 1) |>
  else if ipproto =? IPPROTO_ICMP then st <| num_icmp_conn ::= fun n => u16 (n - 1) |>
  else st.

Definition count_added (ipproto : Z) (st : zdtun_statistics) : zdtun_statistics :=
  if ipproto =? IPPROTO_TCP then st <| num_tcp_conn ::= fun n => u16 (n + 1) |>
                                    <| num_tcp_opened ::= fun n => u32 (n + 1) |>
  else if ipproto =? IPPROTO_UDP then st <| num_udp_conn ::= fun n => u16 (n + 1) |>
                                         <| num_udp_opened ::= fun n => u32 (n + 1) |>
  else if ipproto =? IPPROTO_ICMP then st <| num_icmp_conn ::= fun n => u16 (n + 1) |>
                                          <| num_icmp_opened ::= fun n => u32 (n + 1) |>
  else st.

(** The entry of the table is named by its key; removing an entry that is not
    in the table is undefined. *)
Definition remove_connection tuple : M state unit :=
  s ← get_state;
  of_option (HASH_FIND (connections s) tuple);;
  modify (fun s => s <| zstats ::= count_removed (ipproto tuple) |>
                     <| connections := HASH_DELETE (connections s) tuple |>).

(** The part of [update_connection_status] on the record of a TCP connection;
    [dir] is 0 from the client to the server. *)
Definition update_tcp_status (data : pd_conn F) (flags l7len dir : Z) : pd_conn F :=
  let data := if dir =? 0 then data <| tcp_flags0 ::= fun f => Z.lor f flags |>
              else data <| tcp_flags1 ::= fun f => Z.lor f flags |> in
  let seen_flags := Z.land (tcp_flags0 data) (tcp_flags1 data) in
  if has_flag flags TH_RST then data <| status := CONN_STATUS_RESET |>
  else if has_flag seen_flags TH_FIN then
    if last_ack data =? 0 then data <| last_ack := 1 |>
    else if has_flag flags TH_ACK then data <| status := CONN_STATUS_CLOSED |>
    else data
  else if status data <? CONN_STATUS_CONNECTED then
    let syn_ack_flags := Z.lor TH_SYN TH_ACK in
    if (l7len >? 0) || (Z.land seen_flags syn_ack_flags =? syn_ack_flags)
    then data <| status := CONN_STATUS_CONNECTED |>
    else data <| status := CONN_STATUS_CONNECTING |>
  else data.

Definition update_connection_status tuple (pkt : zdtun_pkt) (dir : Z) : M state unit :=
  s ← get_state;
  p ← of_option (HASH_FIND (connections s) tuple);
  data ← deref p;
  if (status data >=? CONN_STATUS_CLOSED) || has_flag (pkt_flags pkt) ZDTUN_PKT_IS_FRAGMENT
  then mret tt else
  if ipproto tuple =? IPPROTO_TCP then
    flags ← of_option (th_flags pkt);
    modify_conn p (fun c => update_tcp_status c flags (l7_len pkt) dir)
  else
    modify_conn p (fun c => if status c <? CONN_STATUS_CONNECTED
                            then c <| status := CONN_STATUS_CONNECTED |> else c);;
    if (ipproto tuple =? IPPROTO_UDP) && (l7_len pkt >=? sizeof_dns_packet) &&
       (dst_port tuple =? ntohs 53)
    then
      flags ← of_option (rd16 (pkt_buf pkt) (l7_off pkt + 2));
      (* [last_ack] is also [pending_dns_queries] *)
      if Z.land flags DNS_FLAGS_MASK =? DNS_TYPE_REQUEST then
        modify_conn p (fun c => c <| last_ack ::= fun n => u8 (n + 1) |>)
      else if Z.land flags DNS_FLAGS_MASK =? DNS_TYPE_RESPONSE then
        modify_conn p (fun c => c <| last_ack ::= fun n => u8 (n - 1) |>);;
        data ← deref p;
        when (last_ack data =? 0)
          (modify_conn p (fun c => c <| status := CONN_STATUS_CLOSED |> <| to_purge := true |>);;
           remove_connection tuple)
      else mret tt
    else mret tt.

(** The UID of the trailer of a PCAP file made by the program itself. *)
Definition trailer_uid (hdr : pcapd_hdr) (buffer : bytes) (pktlen : Z) : M state Z :=
  s ← get_state;
  if pcap_file_capture s && (hdr_uid hdr =? u32 UID_UNKNOWN) then
    let non_ip_overhead := hdr_len hdr - pktlen in
    if u64 non_ip_overhead >=? sizeof_trailer then
      let trailer := hdr_len hdr - sizeof_trailer in
      magic ← of_option (rd32 buffer trailer);
      if ntohl magic =? PCAPDROID_TRAILER_MAGIC then
        uid ← of_option (rd32 buffer (trailer + 4));
        modify (fun s => s <| has_seen_pcapdroid_trailer := true |>);;
        mret (ntohl uid)
      else mret (hdr_uid hdr)
    else mret (hdr_uid hdr)
  else mret (hdr_uid hdr).

Definition discard_fragment : M state unit :=
  modify (fun s => s <| num_discarded_fragments ::= fun n => n + 1 |>).

(** A new entry of the table for the packet; [None]: an allocation failed. *)
Definition add_connection tuple (hdr : pcapd_hdr) (uid : Z) (buffer : bytes)
  : M state (option conn_ptr) :=
  ok ← malloc_ok;
  if negb ok then mret None else
  data ← pd_new_connection java_app_name tuple (s32 uid);
  match data with
  | None => mret None
  | Some p =>
      (if hdr_linktype hdr =? PCAPD_DLT_LINUX_SLL2 then
         ifindex ← of_option (rd32 buffer 4);
         modify_conn p (fun c => c <| pcap_ifidx := ntohl ifindex |>)
       else mret tt);;
      modify (fun s => s <| connections := HASH_ADD (connections s) tuple p |>
                         <| zstats ::= count_added (ipproto tuple) |>);;
      s ← get_state;
      let is_proxied := tls_enabled (tls s) && (ipproto tuple =? IPPROTO_TCP) in
      modify_conn p (fun c => c <| proxied := is_proxied |>);;
      mret (Some p)
  end.

(** The connection of a packet: its tuple (oriented from the client), its
    record and the direction; [None]: the packet is rejected. *)
Definition find_connection (pkt : zdtun_pkt) (is_tx : bool) (hdr : pcapd_hdr) (uid : Z)
    (buffer : bytes) : M state (option (zdtun_5tuple * conn_ptr * bool)) :=
  let tuple := if is_tx then pkt_tuple pkt else tupleSwapPeers (pkt_tuple pkt) in
  s ← get_state;
  match HASH_FIND (connections s) tuple with
  | Some p => mret (Some (tuple, p, is_tx))
  | None =>
      let swapped := tupleSwapPeers tuple in
      match HASH_FIND (connections s) swapped with
      | Some p => mret (Some (swapped, p, negb is_tx))
      | None =>
          if is_later_fragment (pkt_flags pkt) then discard_fragment;; mret None
          else
            conn ← add_connection tuple hdr uid buffer;
            mret (match conn with Some p => Some (tuple, p, is_tx) | None => None end)
      end
  end.

(** The result is [true] if the packet is valid, and the UID of the header,
    which the trailer of the packet may have replaced. *)
Definition handle_packet (hdr : pcapd_hdr) (buffer : bytes) (ipoffset : Z) : M state (bool * Z) :=
  s ← get_state;
  '(r, ids) ← of_option (zdtun_parse_pkt (fragment_ports s)
                           (drop (Z.to_nat ipoffset) buffer) (hdr_len hdr - ipoffset));
  modify (fun s => s <| fragment_ports := ids |>);;
  match r with
  | inl _ => mret (false, hdr_uid hdr)
  | inr pkt =>
      uid ← trailer_uid hdr buffer (pkt_len pkt);
      if has_flag (pkt_flags pkt) ZDTUN_PKT_IS_FRAGMENT &&
         (src_port (pkt_tuple pkt) =? 0) && (dst_port (pkt_tuple pkt) =? 0)
      then discard_fragment;; mret (false, uid)
      else
        conn ← find_connection pkt (has_flag (hdr_flags hdr) PCAPD_FLAG_TX) hdr uid buffer;
        match conn with
        | None => mret (false, uid)
        | Some conn =>
            let '(tuple, p, is_tx) := conn : zdtun_5tuple * conn_ptr * bool in
            let pkt := pkt <| pkt_tuple := tuple |> in   (* swapped as the key was *)
            modify_conn p (fun c => c <| pcap_last_update_ms := pd_now_ms s |>);;
            pinfo ← pd_process_packet java_app_name pkt is_tx tuple p (hdr_ts hdr);
            update_connection_status tuple pkt (if is_tx then 0 else 1);;
            pd_account_stats java_app_name pinfo;;
            mret (true, uid)
        end
  end.

(** *** Expired connections *)
Definition conn_timeout (ipproto status : Z) : Z :=
  if ipproto =? IPPROTO_TCP then
    if status >=? CONN_STATUS_CLOSED then TCP_CLOSED_TIMEOUT_SEC * 1000 else TCP_TIMEOUT_SEC * 1000
  else if ipproto =? IPPROTO_UDP then UDP_TIMEOUT_SEC * 1000
  else if ipproto =? IPPROTO_ICMP then ICMP_TIMEOUT_SEC + 1000
  else 0.

(** One turn of the loop. *)
Definition purge_connection_if (purge_all : bool) (conn : zdtun_5tuple * conn_ptr) : M state unit :=
  let '(tuple, p) := conn in
  s ← get_state;
  data ← deref p;
  let timeout := conn_timeout (ipproto tuple) (status data) in
  when (purge_all || (pd_now_ms s >=? u64 (pcap_last_update_ms data + timeout)))
    (modify_conn p (fun c => c <| to_purge := true |>);;
     when (status data <? CONN_STATUS_CLOSED)
       (modify_conn p (fun c => set_update (c <| status := CONN_STATUS_CLOSED |>) CONN_UPDATE_STATS));;
     data ← deref p;
     (if update_type data =? 0 then pd_purge_connection p
      else
        rv ← pd_notify_connection_update java_app_name tuple p;
        when (rv <? 0) (pd_purge_connection p));;
     remove_connection tuple).

Definition purge_expired_connections (purge_all : bool) : M state unit :=
  conns ← gets connections;
  for_each (purge_connection_if purge_all) conns.

(** *** The packet loop *)

(** What a turn of the loop of [run_libpcap] gets from the system: the result
    of [select], the clock, and the header and packet read. [EvReadFailed]: the
    daemon closed the socket or sent too much. [EvReload] is the reload worker;
    [EvJava] is a request of the Java side. *)
Inductive loop_event :=
  | EvSelectFailed
  | EvTimeout (clock : option Z)
  | EvReadFailed (clock : option Z)
  | EvPacket (clock : option Z) (hdr : pcapd_hdr) (buffer : bytes)
  | EvReload (files : bytes -> option bytes) (allocs : nat -> nat -> bool)
  | EvJava (r : java_request).

Definition housekeeping_and_purge (next_purge_ms : Z) : M state Z :=
  pd_housekeeping java_app_name;;
  s ← get_state;
  if pd_now_ms s >=? next_purge_ms then
    purge_expired_connections false;;
    s ← get_state;
    mret (u64 (pd_now_ms s + PERIODIC_PURGE_TIMEOUT_MS))
  else mret next_purge_ms.

(** The packet of a turn; a packet with a wrong data link or length skips the
    periodic tasks. *)
Definition loop_packet (hdr : pcapd_hdr) (buffer : bytes) (next_purge_ms : Z) : M state Z :=
  modify (fun s => s <| num_dropped_pkts := hdr_pkt_drops hdr |>);;
  let ipoffset := get_ip_offset (hdr_linktype hdr) in
  if ipoffset <? 0 then mret next_purge_ms
  else if hdr_len hdr <? ipoffset then mret next_purge_ms
  else
    '(valid, uid) ← handle_packet hdr buffer ipoffset;
    when (negb valid)
      (pd_dump_packet java_app_name (drop (Z.to_nat ipoffset) buffer) (hdr_len hdr - ipoffset)
         (hdr_ts hdr) (s32 uid));;
    housekeeping_and_purge next_purge_ms.

(** The loop ends with [running] cleared or with an error; the result is the
    return value of [run_libpcap]. *)
Fixpoint packet_loop (events : list loop_event) (next_purge_ms : Z) : M state Z :=
  s ← get_state;
  if negb (running s) then mret 0 else
  match events with
  | [] => mret 0
  | EvSelectFailed :: _ => mret (-1)
  | EvReadFailed clock :: _ => pd_refresh_time clock;; mret (-1)
  | EvTimeout clock :: events' =>
      pd_refresh_time clock;;
      next ← housekeeping_and_purge next_purge_ms;
      packet_loop events' next
  | EvPacket clock hdr buffer :: events' =>
      pd_refresh_time clock;;
      next ← loop_packet hdr buffer next_purge_ms;
      packet_loop events' next
  | EvReload files allocs :: events' =>
      when (reload_in_progress (malware s) && negb (reload_done (malware s)))
        (load_new_blacklists files allocs);;
      packet_loop events' next_purge_ms
  | EvJava r :: events' =>
      java_request_step r;;
      packet_loop events' next_purge_ms
  end.

Definition STR_started : bytes := [115; 116; 97; 114; 116; 101; 100].

(** [zdt_ok], [sock_ok], [iptables_ok]: whether [zdtun_init], [connectPcapd] and
    the redirections of the decryption succeed. *)
Definition run_libpcap (zdt_ok sock_ok iptables_ok : bool) (clock : option Z)
    (events : list loop_event) : M state Z :=
  if negb zdt_ok then mret (-1) else
  modify (fun s => s <| fragment_ports := ∅ |>);;
  s ← get_state;
  rv ← (if negb sock_ok || (tls_enabled (tls s) && negb iptables_ok) then mret (-1) else
        pd_refresh_time clock;;
        s ← get_state;
        when (running s) (notifyServiceStatus STR_started);;
        packet_loop events (u64 (pd_now_ms s + PERIODIC_PURGE_TIMEOUT_MS)));
  purge_expired_connections true;;
  mret rv.
End libpcap_ops.

(** ** The table and the invariant *)
Section libpcap_inv.
Context {P F : Type} `{Ndpi P} `{NdpiFlow F}.
#[local] Existing Instance libpcap_mode.
Abbreviation state := (pcapdroid P F).
Implicit Types (s : state) (c : pd_conn F) (p : conn_ptr) (tuple : zdtun_5tuple).

Lemma HASH_DELETE_sublist {K V} `{EqDecision K} (t : list (K * V)) k : HASH_DELETE t k `sublist_of` t.
Proof.
  induction t as [|[k' v'] t IH]; simpl; [done|]. destruct (HASH_FIND t k).
  - by constructor.
  - case_decide; [by constructor|done].
Qed.

(** The removed pointer is gone and the other ones stay. *)
Lemma HASH_DELETE_values (t : list (zdtun_5tuple * conn_ptr)) tuple p :
  table_wf t -> NoDup t.*2 -> HASH_FIND t tuple = Some p ->
  forall q, q ∈ (HASH_DELETE t tuple).*2 <-> q ∈ t.*2 /\ q <> p.
Proof.
  intros Hw Hnd Hf q. apply HASH_FIND_Some_elem in Hf. rewrite !list_elem_of_fmap. split.
  - intros ([k q'] & -> & Hin). apply HASH_DELETE_elem in Hin as [Hin Hne]; [|done]. simpl in *.
    split; [by exists (k, q')|]. intros ->. apply Hne.
    destruct (proj1 (list_elem_of_lookup _ _) Hin) as [i Hi].
    destruct (proj1 (list_elem_of_lookup _ _) Hf) as [j Hj].
    assert (i = j) as <-; [|by rewrite Hi in Hj; injection Hj].
    apply (NoDup_lookup t.*2 i j p Hnd); rewrite list_lookup_fmap; [by rewrite Hi|by rewrite Hj].
  - intros [([k q'] & -> & Hin) Hne]. exists (k, q'). split; [done|].
    apply HASH_DELETE_elem; [done|]. split; [done|]. simpl in *. intros ->.
    apply HASH_FIND_elem in Hin, Hf; [|done..]. congruence.
Qed.

Lemma count_proto_add t tuple p proto :
  count_proto (HASH_ADD t tuple p) proto =
    count_proto t proto + (if decide (ipproto tuple = proto) then 1 else 0).
Proof.
  unfold count_proto, HASH_COUNT, HASH_ADD. rewrite filter_app, length_app, filter_cons, filter_nil.
  simpl. destruct (decide _); simpl; lia.
Qed.

Lemma count_proto_delete t tuple p proto :
  table_wf t -> HASH_FIND t tuple = Some p ->
  count_proto (HASH_DELETE t tuple) proto =
    count_proto t proto - (if decide (ipproto tuple = proto) then 1 else 0).
Proof.
  unfold count_proto, HASH_COUNT, table_wf. induction t as [|[k q] t IH]; csimpl; [done|].
  intros [Hn Hw]%NoDup_cons. rewrite (filter_cons _ (k, q) t). destruct (HASH_FIND t tuple) eqn:E.
  - intros [= ->]. rewrite (filter_cons _ (k, q) (HASH_DELETE t tuple)). specialize (IH Hw eq_refl).
    csimpl. destruct (decide (ipproto k = proto)); csimpl; lia.
  - destruct (decide (tuple = k)) as [->|]; [|done]. intros _. csimpl.
    destruct (decide (ipproto k = proto)); csimpl; lia.
Qed.

Lemma u16_idem_add n k : u16 (u16 n + k) = u16 (n + k).
Proof. unfold u16. by rewrite Zplus_mod_idemp_l. Qed.

Lemma counts_ok_add s tuple p :
  counts_ok s ->
  counts_ok (s <| connections := HASH_ADD (connections s) tuple p |>
               <| zstats ::= count_added (ipproto tuple) |>).
Proof.
  intros (Ht & Hu & Hi). unfold counts_ok. cbv [upd eta]. simpl. rewrite !count_proto_add.
  unfold count_added. unfold IPPROTO_TCP, IPPROTO_UDP, IPPROTO_ICMP in *.
  destruct (Z.eqb_spec (ipproto tuple) 6) as [->|]; [|destruct (Z.eqb_spec (ipproto tuple) 17) as [->|];
    [|destruct (Z.eqb_spec (ipproto tuple) 1) as [->|]]];
    cbv [upd eta]; simpl; rewrite ?decide_True, ?decide_False by done; rewrite ?Ht, ?Hu, ?Hi;
    rewrite ?u16_idem_add, ?Z.add_0_r; done.
Qed.

Lemma counts_ok_remove s tuple p :
  table_wf (connections s) -> HASH_FIND (connections s) tuple = Some p -> counts_ok s ->
  counts_ok (s <| zstats ::= count_removed (ipproto tuple) |>
               <| connections := HASH_DELETE (connections s) tuple |>).
Proof.
  intros Hw Hf (Ht & Hu & Hi). unfold counts_ok. cbv [upd eta]. simpl.
  rewrite !(count_proto_delete _ _ p) by done.
  unfold count_removed. unfold IPPROTO_TCP, IPPROTO_UDP, IPPROTO_ICMP in *.
  destruct (Z.eqb_spec (ipproto tuple) 6) as [->|]; [|destruct (Z.eqb_spec (ipproto tuple) 17) as [->|];
    [|destruct (Z.eqb_spec (ipproto tuple) 1) as [->|]]];
    cbv [upd eta]; simpl; rewrite ?decide_True, ?decide_False by done; rewrite ?Ht, ?Hu, ?Hi;
    unfold Z.sub; rewrite ?u16_idem_add, ?Z.add_0_r; done.
Qed.

(** A new entry for the connection that is worked on. *)
Lemma inv_add strict s tuple p c :
  inv (Some p) strict s -> heap s !! p = Some c -> p ∉ table_ptrs s ->
  HASH_FIND (connections s) tuple = None ->
  inv (Some p) strict (s <| connections := HASH_ADD (connections s) tuple p |>
                         <| zstats ::= count_added (ipproto tuple) |>).
Proof.
  intros Hi Hc Hp Hf. pose proof (counts_ok_add s tuple p (inv_counts _ _ _ Hi eq_refl)) as Hco.
  assert (forall q, q ∈ (HASH_ADD (connections s) tuple p).*2 <-> q ∈ table_ptrs s \/ q = p) as Hptrs.
  { intros q. unfold HASH_ADD, table_ptrs. rewrite fmap_app, elem_of_app. csimpl.
    by rewrite list_elem_of_singleton. }
  pose proof Hi as Hi0. destruct Hi0. split; try done.
  - intros Hm. apply HASH_ADD_wf; auto.
  - unfold table_ptrs, HASH_ADD. simpl. rewrite fmap_app. apply NoDup_app. split; [done|]. csimpl.
    split; [|apply NoDup_singleton]. intros q Hq. rewrite list_elem_of_singleton. by intros ->.
  - intros q Hq. apply Hptrs in Hq as [Hq| ->]; [by apply ConnInv.inv_table_live with (1 := Hi)|]. by exists c.
  - intros Hst q c' Hq Hne. destruct (ConnInv.inv_owned _ _ _ Hi Hst q c' Hq Hne) as [|]; [left|by right].
    apply Hptrs. by left.
Qed.

Lemma inv_remove strict s tuple p :
  inv (Some p) strict s -> HASH_FIND (connections s) tuple = Some p ->
  let s' := s <| zstats ::= count_removed (ipproto tuple) |>
              <| connections := HASH_DELETE (connections s) tuple |> in
  inv (Some p) strict s' /\ p ∉ table_ptrs s'.
Proof.
  intros Hi Hf s'. pose proof (inv_table _ _ _ Hi eq_refl) as Hw. pose proof (inv_table_nodup _ _ _ Hi) as Hnd.
  pose proof (HASH_DELETE_values _ _ _ Hw Hnd Hf) as Hptrs.
  split; [|intros Hp; apply Hptrs in Hp as [_ Hp]; done].
  pose proof (counts_ok_remove s tuple p Hw Hf (inv_counts _ _ _ Hi eq_refl)) as Hco.
  pose proof Hi as Hi0. destruct Hi0. split; try done.
  - intros Hm. apply HASH_DELETE_wf; auto.
  - eapply sublist_NoDup; [exact Hnd|]. apply fmap_sublist, HASH_DELETE_sublist.
  - intros q Hq. apply Hptrs in Hq as [Hq _]. by apply ConnInv.inv_table_live with (1 := Hi).
  - intros Hst q c' Hq Hne. destruct (ConnInv.inv_owned _ _ _ Hi Hst q c' Hq Hne) as [Ht|]; [left|by right].
    apply Hptrs. split; [done|]. congruence.
Qed.

(** Any change of the connection that is worked on, but for its queueing. *)
Lemma inv_cur_update strict s p c c' :
  inv (Some p) strict s -> heap s !! p = Some c ->
  pending_notification c' = pending_notification c -> (bl_ok c -> bl_ok c') ->
  inv (Some p) strict (s <| heap ::= <[p := c']> |>).
Proof.
  intros Hi Hc Hpn Hbl. pose proof Hi as Hi0.
  destruct Hi0 as [I1 I2 I3 I4 I5 I6 I7 I8 I9 I10 I11 I12 I13 I14 I15 I16 I17].
  assert (forall q, q <> p -> <[p := c']> (heap s) !! q = heap s !! q) as Hne.
  { intros q Hq. by rewrite lookup_insert_ne. }
  split; try done; change (heap (upd _ _ s)) with (<[p := c']> (heap s)).
  - intros q Hq. destruct (I4 q Hq) as (d & Hd & Hpd & Hud). destruct (decide (q = p)) as [->|Hqp].
    + rewrite Hc in Hd. injection Hd as <-. exists c'. rewrite lookup_insert_eq.
      split; [done|]. split; [congruence|done].
    + rewrite Hne by done. by exists d.
  - intros q Hq. destruct (I7 q Hq) as (d & Hd & Hpd). destruct (decide (q = p)) as [->|Hqp].
    + exists c'. by rewrite lookup_insert_eq.
    + rewrite Hne by done. by exists d.
  - intros q d. destruct (decide (q = p)) as [->|Hqp].
    + rewrite lookup_insert_eq. intros [= <-]. destruct (I8 p c Hc). split; [done|auto].
    + rewrite Hne by done. by apply I8.
  - intros Hst q d. destruct (decide (q = p)) as [->|Hqp].
    + rewrite lookup_insert_eq. intros [= <-]. rewrite Hpn. by apply I16.
    + rewrite Hne by done. by apply I16.
  - intros Hst q d Hq Hcur. rewrite Hne in Hq by congruence. by apply (I17 Hst q d Hq).
Qed.

(** The connection is in the table exactly when it is not to be purged. *)
Definition placed p s : Prop :=
  exists c, heap s !! p = Some c /\
            (if to_purge c then p ∉ table_ptrs s else p ∈ table_ptrs s).

Lemma calm_placed p s s' : calm s s' -> placed p s -> placed p s'.
Proof.
  intros [Hcn _ _ _ _ Hh] (c & Hc & Hp). destruct (Hh p c Hc) as (c' & Hc' & Htp & _).
  exists c'. split; [done|]. by rewrite Htp, (table_ptrs_same s s' Hcn).
Qed.

Lemma inv_settle_placed strict s p :
  inv (Some p) strict s -> placed p s -> (strict = true -> p ∈ slot_ptrs s) ->
  (exists c, heap s !! p = Some c /\ update_type c <> 0) -> inv None strict s.
Proof.
  intros Hi (c & Hc & Hp) Hsl (c' & Hc' & Hu). rewrite Hc in Hc'. injection Hc' as <-.
  apply (inv_settle strict s p c); try done.
  - intros Ht. by destruct (to_purge c).
  - intros Hst. destruct (to_purge c); [right|by left]. auto.
Qed.

(** *** [update_connection_status] *)
Lemma update_tcp_status_same c flags l7len dir :
  let c' := update_tcp_status c flags l7len dir in
  pending_notification c' = pending_notification c /\ to_purge c' = to_purge c /\ (bl_ok c -> bl_ok c').
Proof.
  unfold update_tcp_status. cbv zeta. repeat case_match; done.
Qed.

Lemma placed_modify p s c c' :
  placed p s -> heap s !! p = Some c -> to_purge c' = to_purge c ->
  placed p (s <| heap ::= <[p := c']> |>).
Proof.
  intros (d & Hd & Hp) Hc Htp. rewrite Hc in Hd. injection Hd as <-. exists c'.
  split; [apply lookup_insert_eq|]. by rewrite Htp.
Qed.

Lemma HASH_FIND_table_ptrs s tuple p :
  HASH_FIND (connections s) tuple = Some p -> p ∈ table_ptrs s.
Proof. intros Hf. apply HASH_FIND_Some_elem in Hf. apply list_elem_of_fmap. by exists (tuple, p). Qed.

Lemma table_ptrs_not_purged strict s p c :
  inv None strict s -> p ∈ table_ptrs s -> heap s !! p = Some c -> to_purge c = false.
Proof.
  intros Hi Hp Hc. destruct (inv_table_live _ _ _ Hi p Hp) as (d & Hd & Hf).
  rewrite Hc in Hd. injection Hd as <-. by apply Hf.
Qed.

(** The room for the header of the transport that the source assumes. *)
Definition tcp_room (tuple : zdtun_5tuple) (pkt : zdtun_pkt) : Prop :=
  has_flag (pkt_flags pkt) ZDTUN_PKT_IS_FRAGMENT = false -> ipproto tuple = IPPROTO_TCP ->
  0 <= ip_hdr_len pkt /\ ip_hdr_len pkt + TCP_HEADER_LEN <= blen (pkt_buf pkt).

(** A change that keeps the place of the connection. *)
Lemma wp_cur_modify strict p (f : pd_conn F -> pd_conn F) c (Q : unit -> state -> Prop) s :
  inv (Some p) strict s -> placed p s -> heap s !! p = Some c ->
  pending_notification (f c) = pending_notification c -> to_purge (f c) = to_purge c ->
  (bl_ok c -> bl_ok (f c)) ->
  (forall s', inv (Some p) strict s' -> placed p s' -> heap s' !! p = Some (f c) ->
     connections s' = connections s -> Q tt s') ->
  wp (modify_conn p f) Q s.
Proof.
  intros Hi Hp Hc Hpn Htp Hbl HQ. eapply wp_modify_conn; [done|]. apply HQ; [..|apply lookup_insert_eq|done].
  - by eapply inv_cur_update.
  - by eapply placed_modify.
Qed.

Lemma update_connection_status_inv strict tuple pkt dir p s :
  inv (Some p) strict s -> HASH_FIND (connections s) tuple = Some p -> placed p s ->
  pkt_ok pkt -> tcp_room tuple pkt ->
  wp (update_connection_status tuple pkt dir)
     (fun _ s' => inv (Some p) strict s' /\ placed p s') s.
Proof.
  intros Hi Hf Hp [Hwf Hl7 Hsl Hlen] Hroom. unfold update_connection_status. wp_steps.
  eapply wp_of_option; [done|]. pose proof Hp as (c & Hc & _). wp_steps. eapply wp_deref; [done|].
  destruct ((status c >=? CONN_STATUS_CLOSED) || _) eqn:Es; [by apply wp_ret|].
  apply orb_false_iff in Es as [_ Hfrag]. specialize (Hroom Hfrag).
  destruct (Z.eqb_spec (ipproto tuple) IPPROTO_TCP) as [Et|_].
  - destruct (Hroom Et) as [Hr1 Hr2]. unfold TCP_HEADER_LEN in Hr2.
    destruct (rd8_Some (pkt_buf pkt) (ip_hdr_len pkt + 13)) as [flags Ef]; [lia|].
    apply wp_bind. eapply wp_of_option; [exact Ef|].
    destruct (update_tcp_status_same c flags (l7_len pkt) dir) as (Hu1 & Hu2 & Hu3).
    by eapply wp_cur_modify.
  - clear Hroom. apply wp_bind. eapply wp_cur_modify; [done|done|done|by case_match..|].
    set (c1 := if _ : bool then _ else c). intros s1 Hi1 Hp1 Hc1 Hcn1. cbv beta.
    rewrite <- Hcn1 in Hf.
    assert (to_purge c1 = to_purge c) as Htp1 by (by unfold c1; case_match).
    destruct (_ && _) eqn:Eg; [|by apply wp_ret].
    apply andb_true_iff in Eg as [Eg _]. apply andb_true_iff in Eg as [_ Eg].
    unfold sizeof_dns_packet in Eg. apply Z.geb_le in Eg.
    destruct (rd16_Some (pkt_buf pkt) (l7_off pkt + 2)) as [fl Ef]; [lia..|].
    apply wp_bind. eapply wp_of_option; [exact Ef|].
    destruct (_ =? DNS_TYPE_REQUEST); [by eapply wp_cur_modify|].
    destruct (_ =? DNS_TYPE_RESPONSE); [|by apply wp_ret].
    apply wp_bind. eapply wp_cur_modify; [done..|]. intros s2 Hi2 Hp2 Hc2 Hcn2. cbv beta.
    rewrite <- Hcn2 in Hf. apply wp_bind. eapply wp_deref; [done|].
    apply wp_when; intros _; [|done]. apply wp_bind. eapply wp_modify_conn; [done|]. cbv beta.
    set (c3 := upd _ _ (upd _ _ _)). set (s3 := upd _ _ s2).
    assert (inv (Some p) strict s3) as Hi3 by (by eapply inv_cur_update).
    assert (heap s3 !! p = Some c3) as Hc3 by apply lookup_insert_eq.
    assert (HASH_FIND (connections s3) tuple = Some p) as Hf3 by done.
    assert (to_purge c3 = true) as Htp3 by done. clearbody c3 s3.
    unfold remove_connection. wp_steps. eapply wp_of_option; [done|]. wp_steps.
    destruct (inv_remove strict s3 tuple p Hi3 Hf3) as [Hi4 Hn4]. split; [done|].
    exists c3. split; [done|]. by rewrite Htp3.
Qed.
End libpcap_inv.

(** ** The packet loop keeps the invariant *)
Section loop_inv.
Context {P F : Type} `{Ndpi P} `{NdpiFlow F} (java_app_name : Z -> option bytes).
#[local] Existing Instance libpcap_mode.
Abbreviation state := (pcapdroid P F).
Implicit Types (s : state) (c : pd_conn F) (p : conn_ptr) (tuple : zdtun_5tuple).

(** What the loop checked of a header before it handles the packet, and the
    room that the parser of the DNS replies needs. *)
Record packet_in (hdr : pcapd_hdr) (buffer : bytes) (ipoffset : Z) : Prop := {
  pi_wf : wf_bytes buffer;
  pi_offset : get_ip_offset (hdr_linktype hdr) = ipoffset /\ 0 <= ipoffset <= hdr_len hdr;
  pi_slack : hdr_len hdr + 16 <= blen buffer;
  pi_snaplen : blen buffer <= PCAPD_SNAPLEN
}.

(** The connection of the packet is in the table, and is worked on. *)
Definition handling strict tuple p s : Prop :=
  inv (Some p) strict s /\ HASH_FIND (connections s) tuple = Some p /\ placed p s.

Lemma table_handling strict tuple p s :
  inv None strict s -> HASH_FIND (connections s) tuple = Some p -> handling strict tuple p s.
Proof.
  intros Hi Hf. split; [by apply inv_unsettle|]. split; [done|].
  pose proof (HASH_FIND_table_ptrs s tuple p Hf) as Hp.
  destruct (inv_table_live _ _ _ Hi p Hp) as (c & Hc & Htp). exists c. split; [done|].
  by rewrite Htp.
Qed.

Lemma handling_live strict tuple p s : handling strict tuple p s -> exists c, heap s !! p = Some c.
Proof. intros (_ & _ & c & Hc & _). by exists c. Qed.

Lemma add_connection_inv strict tuple hdr uid buffer ipoffset s :
  inv None strict s -> HASH_FIND (connections s) tuple = None -> packet_in hdr buffer ipoffset ->
  wp (add_connection java_app_name tuple hdr uid buffer)
     (fun r s' => match r with
                  | None => inv None strict s'
                  | Some p => handling strict tuple p s'
                  end) s.
Proof.
  intros Hi Hf [Hwf [Hoff Hle] Hsl Hsnap]. unfold add_connection. apply wp_bind, wp_malloc_ok.
  intros ok. set (s0 := upd _ _ s). assert (quiet s s0) as Hq0 by (by split).
  pose proof (quiet_inv _ _ _ _ Hq0 Hi) as Hi0. assert (connections s0 = connections s) as Hcn0 by done.
  rewrite <- Hcn0 in Hf. clearbody s0. destruct ok; [|by apply wp_ret]. cbv beta. simpl.
  apply wp_bind. eapply wp_mono; [by apply pd_new_connection_inv|].
  intros [p|] s1 [Hcm1 Hr]; [|by apply wp_ret].
  destruct Hr as (Hi1 & Hnt & Hsp & c & Hc & Htp). rewrite <- (cm_connections _ _ Hcm1) in Hf.
  assert (p ∉ table_ptrs s1) as Hnt1 by (unfold table_ptrs; by rewrite (cm_connections _ _ Hcm1)).
  clear Hcm1 Hsp Hnt. apply wp_bind.
  eapply wp_mono with (Q := fun _ s' => inv (Some p) strict s' /\ connections s' = connections s1 /\
    exists c', heap s' !! p = Some c' /\ to_purge c' = false).
  { destruct (Z.eqb_spec (hdr_linktype hdr) PCAPD_DLT_LINUX_SLL2) as [El|_].
    - rewrite El in Hoff. change (get_ip_offset _) with 20 in Hoff.
      destruct (rd32_Some buffer 4) as [v Ev]; [lia..|]. apply wp_bind. eapply wp_of_option; [exact Ev|].
      eapply wp_modify_conn; [done|]. split; [by eapply inv_cur_update|]. split; [done|].
      eexists. split; [apply lookup_insert_eq|]. exact Htp.
    - apply wp_ret. split; [done|]. split; [done|]. by exists c. }
  intros [] s2 (Hi2 & Hcn2 & c2 & Hc2 & Htp2). rewrite <- Hcn2 in Hf.
  assert (p ∉ table_ptrs s2) as Hnt2 by (unfold table_ptrs; by rewrite Hcn2).
  apply wp_bind, wp_modify. cbv beta. set (s3 := upd _ _ (upd _ _ s2)).
  pose proof (inv_add strict s2 tuple p c2 Hi2 Hc2 Hnt2 Hf) as Hi3.
  assert (HASH_FIND (connections s3) tuple = Some p) as Hf3 by apply HASH_FIND_add_eq.
  assert (heap s3 !! p = Some c2) as Hc3 by done. change (inv (Some p) strict s3) in Hi3. clearbody s3.
  apply wp_bind, wp_gets. cbv zeta. apply wp_bind. eapply wp_modify_conn; [done|].
  apply wp_ret. split; [by eapply inv_cur_update|]. split; [done|].
  eexists. split; [apply lookup_insert_eq|].
  match goal with |- if to_purge ?d then _ else _ => change (to_purge d) with (to_purge c2) end.
  rewrite Htp2. by apply (HASH_FIND_table_ptrs s3 tuple).
Qed.

Lemma discard_fragment_quiet s : quietly discard_fragment s.
Proof. unfold discard_fragment. apply wp_modify. by split. Qed.

Lemma find_connection_inv strict pkt is_tx hdr uid buffer ipoffset s :
  inv None strict s -> packet_in hdr buffer ipoffset ->
  wp (find_connection java_app_name pkt is_tx hdr uid buffer)
     (fun r s' => match r with
                  | None => inv None strict s'
                  | Some (tuple, p, _) =>
                      (tuple = pkt_tuple pkt \/ tuple = tupleSwapPeers (pkt_tuple pkt)) /\
                      handling strict tuple p s'
                  end) s.
Proof.
  intros Hi Hin. unfold find_connection. cbv zeta.
  set (tuple := if is_tx then _ else _).
  assert (tuple = pkt_tuple pkt \/ tuple = tupleSwapPeers (pkt_tuple pkt)) as Ht.
  { unfold tuple. destruct is_tx; auto. }
  assert (tupleSwapPeers tuple = pkt_tuple pkt \/ tupleSwapPeers tuple = tupleSwapPeers (pkt_tuple pkt)) as Ht'.
  { unfold tuple. destruct is_tx; [auto|]. rewrite tupleSwapPeers_involutive. auto. }
  apply wp_bind, wp_gets. destruct (HASH_FIND (connections s) tuple) as [p|] eqn:Ef.
  { apply wp_ret. split; [done|]. by apply table_handling. }
  destruct (HASH_FIND (connections s) (tupleSwapPeers tuple)) as [p|] eqn:Ef'.
  { apply wp_ret. split; [done|]. by apply table_handling. }
  destruct (is_later_fragment _).
  - apply wp_quietly; [apply discard_fragment_quiet|]. intros _ s' Hq. apply wp_ret.
    exact (quiet_inv _ _ _ _ Hq Hi).
  - apply wp_bind. eapply wp_mono; [by eapply add_connection_inv|].
    intros [p|] s' Hr; apply wp_ret; done.
Qed.

Lemma trailer_uid_quiet hdr buffer ipoffset pktlen s :
  packet_in hdr buffer ipoffset -> 0 <= pktlen <= hdr_len hdr ->
  quietly (trailer_uid hdr buffer pktlen) s.
Proof.
  intros [Hwf [_ Hoff] Hsl Hsnap] Hp. unfold trailer_uid. quiet_step.
  destruct (_ && _); [|quiet_step]. cbv zeta.
  assert (u64 (hdr_len hdr - pktlen) = hdr_len hdr - pktlen) as ->.
  { unfold u64. apply Z.mod_small. unfold PCAPD_SNAPLEN in *. lia. }
  destruct (Z.geb_spec (hdr_len hdr - pktlen) sizeof_trailer) as [Hge|]; [|quiet_step].
  assert (sizeof_trailer = 32) as Esz by reflexivity. rewrite Esz in Hge |- *.
  destruct (rd32_Some buffer (hdr_len hdr - 32)) as [m Em]; [lia..|].
  apply wp_bind. eapply wp_of_option; [exact Em|].
  destruct (_ =? PCAPDROID_TRAILER_MAGIC); [|by apply wp_ret].
  destruct (rd32_Some buffer (hdr_len hdr - 32 + 4)) as [u Eu]; [lia..|].
  apply wp_bind. eapply wp_of_option; [exact Eu|].
  apply quietly_bind; [apply quietly_modify; by split|]. intros. quiet_step.
Qed.

Lemma handling_quiet strict tuple p s s' :
  quiet s s' -> handling strict tuple p s -> handling strict tuple p s'.
Proof.
  intros Hq (Hi & Hf & Hp). split; [exact (quiet_inv _ _ _ _ Hq Hi)|]. split.
  - by rewrite (qt_connections _ _ Hq).
  - exact (calm_placed _ _ _ (quiet_calm _ _ Hq) Hp).
Qed.

(** The packet of a connection, from its data link to the statistics. *)
Lemma connection_packet_inv strict tuple p (pkt : zdtun_pkt) (is_tx : bool) tv now s :
  handling strict tuple p s -> pkt_ok pkt -> tcp_room tuple pkt ->
  wp (modify_conn p (fun c => c <| pcap_last_update_ms := now |>);;
      pinfo ← pd_process_packet java_app_name pkt is_tx tuple p tv;
      update_connection_status tuple pkt (if is_tx then 0 else 1);;
      pd_account_stats java_app_name pinfo) (fun _ s' => inv None strict s') s.
Proof.
  intros Hh Hpkt Hroom. destruct (handling_live _ _ _ _ Hh) as [c Hc].
  apply wp_quietly; [apply (quietly_modify_conn p _ c); [done|by apply quiet_conn_same]|].
  intros _ s1 Hq. apply (handling_quiet _ _ _ _ _ Hq) in Hh. clear c Hc Hq.
  destruct Hh as (Hi & Hf & Hp). pose proof Hp as (c & Hc & _).
  apply wp_bind. eapply wp_mono; [eapply pd_process_packet_inv; [done|done|by exists c]|].
  intros pinfo s2 (-> & Hi2 & Hcm2). apply wp_bind.
  eapply wp_mono; [eapply update_connection_status_inv; try done|].
  { by rewrite (cm_connections _ _ Hcm2). } { exact (calm_placed _ _ _ Hcm2 Hp). }
  intros [] s3 (Hi3 & Hp3). cbv beta. pose proof Hp3 as (c3 & Hc3 & _).
  eapply wp_mono; [eapply pd_account_stats_inv; [done|done|by exists c3]|].
  intros [] s4 (Hi4 & Hcm4 & Hst & Hu). eapply inv_settle_placed; try done.
  exact (calm_placed _ _ _ Hcm4 Hp3).
Qed.

(** What [zdtun_parse_pkt] returned for the packet of the header. *)
Lemma parsed_ok buffer hdr ipoffset pkt :
  packet_in hdr buffer ipoffset ->
  pkt_lens (drop (Z.to_nat ipoffset) buffer) (hdr_len hdr - ipoffset) pkt ->
  0 <= pkt_len pkt <= hdr_len hdr /\
  forall tuple, ipproto tuple = ipproto (pkt_tuple pkt) ->
    pkt_ok (pkt <| pkt_tuple := tuple |>) /\ tcp_room tuple (pkt <| pkt_tuple := tuple |>).
Proof.
  intros [Hwf [_ Hoff] Hsl Hsnap] (Hb & H1 & H2 & H3 & Hsum & Hle & _ & Htcp).
  assert (blen (drop (Z.to_nat ipoffset) buffer) = blen buffer - ipoffset) as Hbl.
  { unfold blen in *. rewrite length_drop. lia. }
  unfold PCAPD_SNAPLEN in Hsnap. split; [lia|]. intros tuple Et. split.
  - split; cbv [upd eta]; simpl; unfold l7_off; simpl; rewrite ?Hb.
    + by apply Forall_drop.
    + lia.
    + lia.
    + lia.
  - intros Hfr Hpr. cbv [upd eta] in Hfr |- *. simpl in *. rewrite Hb. split; [done|].
    assert (is_later_fragment (pkt_flags pkt) = false) as Hlf.
    { unfold is_later_fragment. by rewrite Hfr. }
    specialize (Htcp Hlf). rewrite <- Et in Htcp. specialize (Htcp Hpr). lia.
Qed.

Lemma handle_packet_inv strict hdr buffer ipoffset s :
  inv None strict s -> packet_in hdr buffer ipoffset ->
  wp (handle_packet java_app_name hdr buffer ipoffset) (fun _ s' => inv None strict s') s.
Proof.
  intros Hi Hin. pose proof Hin as [Hwf [_ Hoff] Hsl Hsnap]. unfold handle_packet.
  apply wp_bind, wp_gets. set (buf := drop (Z.to_nat ipoffset) buffer).
  assert (blen buf = blen buffer - ipoffset) as Hbl by (unfold buf, blen in *; rewrite length_drop; lia).
  destruct (zdtun_parse_pkt_total (fragment_ports s) buf (hdr_len hdr - ipoffset)) as (r & ids & E & Hr).
  { by apply Forall_drop. } { lia. } { unfold PCAPD_SNAPLEN in *. lia. }
  apply wp_bind. eapply wp_of_option; [exact E|]. cbv beta iota.
  apply wp_bind, wp_modify. cbv beta. set (s1 := upd _ _ s).
  assert (quiet s s1) as Hq1 by (by split). pose proof (quiet_inv _ _ _ _ Hq1 Hi) as Hi1. clearbody s1.
  destruct r as [rv|pkt]; [by apply wp_ret|]. destruct Hr as [Hlens _].
  destruct (parsed_ok _ _ _ _ Hin Hlens) as [Hpl Hok].
  apply wp_quietly; [by eapply trailer_uid_quiet|]. intros uid s2 Hq2.
  pose proof (quiet_inv _ _ _ _ Hq2 Hi1) as Hi2. destruct (_ && _).
  { apply wp_quietly; [apply discard_fragment_quiet|]. intros _ s3 Hq3. apply wp_ret.
    exact (quiet_inv _ _ _ _ Hq3 Hi2). }
  apply wp_bind. eapply wp_mono; [by eapply find_connection_inv|].
  intros [[[tuple p] is_tx]|] s3 Hr3; [|by apply wp_ret]. destruct Hr3 as [Ht Hh]. cbv beta iota.
  destruct (Hok tuple) as [Hpkt Hroom]; [by destruct Ht as [-> | ->]|].
  pose proof (connection_packet_inv strict tuple p _ is_tx (hdr_ts hdr) (pd_now_ms s) s3 Hh Hpkt Hroom) as Hw.
  cbv zeta. revert Hw. unfold wp, mbind, M_bind.
  destruct (modify_conn p _ s3) as [[[] s4]|]; [|done].
  destruct (pd_process_packet java_app_name _ is_tx tuple p _ s4) as [[pinfo s5]|]; [|done].
  destruct (update_connection_status tuple _ _ s5) as [[[] s6]|]; [|done].
  destruct (pd_account_stats java_app_name pinfo s6) as [[[] s7]|]; [|done]. done.
Qed.

(** *** Expired connections *)

(** The time of the connection is up. *)
Definition expired (now : Z) tuple c : bool :=
  now >=? u64 (pcap_last_update_ms c + conn_timeout (ipproto tuple) (status c)).

(** A table entry is dropped: its record is freed, or left to the queue. *)
Lemma purge_connection_if_inv strict purge_all tuple p c s :
  inv None strict s -> HASH_FIND (connections s) tuple = Some p -> heap s !! p = Some c ->
  wp (purge_connection_if java_app_name purge_all (tuple, p))
     (fun _ s' => inv None strict s' /\
        connections s' = (if purge_all || expired (pd_now_ms s) tuple c
                          then HASH_DELETE (connections s) tuple else connections s)) s.
Proof.
  intros Hi Hf Hc. pose proof (HASH_FIND_table_ptrs s tuple p Hf) as Hp. unfold purge_connection_if.
  apply wp_bind, wp_gets, wp_bind. eapply wp_deref; [done|]. cbv zeta.
  change (pd_now_ms s >=? _) with (expired (pd_now_ms s) tuple c). apply wp_when.
  2:{ intros ->. by split. }
  intros ->. pose proof (inv_unsettle strict s p Hi) as Hiu.
  assert (update_type c = 0 -> p ∉ slot_ptrs s) as Hnq.
  { intros Hu Hin. destruct (inv_slots _ _ _ Hi p Hin) as (d & Hd & _ & Hud).
    rewrite Hc in Hd. injection Hd as <-. by apply Hud. }
  clear Hi. apply wp_bind. eapply wp_modify_conn; [done|]. cbv beta.
  set (c1 := upd _ _ c). set (s1 := upd _ _ s).
  assert (inv (Some p) strict s1) as Hi1 by (by eapply inv_cur_update).
  assert (heap s1 !! p = Some c1) as Hc1 by apply lookup_insert_eq. apply wp_bind.
  eapply wp_mono with (Q := fun _ s' => inv (Some p) strict s' /\ connections s' = connections s /\
    exists c', heap s' !! p = Some c' /\ to_purge c' = true /\ (update_type c' = 0 -> p ∉ slot_ptrs s')).
  { apply wp_when; intros _.
    - eapply wp_modify_conn; [done|]. cbv beta. set (c2 := set_update _ _).
      split; [by eapply inv_cur_update|]. split; [done|]. exists c2.
      split; [apply lookup_insert_eq|]. split; [done|]. intros Hz. exfalso. revert Hz.
      by apply lor_nonzero.
    - split; [done|]. split; [done|]. by exists c1. }
  clear c Hc Hnq Hiu c1 s1 Hi1 Hc1. intros [] s2 (Hi2 & Hcn & c & Hc & Htp & Hnq). rewrite <- Hcn in Hf |- *.
  clear s Hcn Hp. apply wp_bind. eapply wp_deref; [done|].
  destruct (Z.eqb_spec (update_type c) 0) as [Hu|Hu].
  - apply wp_bind. eapply wp_purge; [done|]. unfold remove_connection. wp_steps.
    eapply wp_of_option; [exact Hf|]. wp_steps. destruct (inv_remove strict s2 tuple p Hi2 Hf) as [Hi3 Hn3].
    split; [|done]. apply (inv_free strict _ p Hi3); [by apply Hnq|done].
  - apply wp_bind, wp_bind.
    eapply wp_mono; [eapply notif_connection_inv; [done|done|by left]|].
    intros rv s3 (-> & Hi3 & Hcm3 & Hst3). cbv beta. apply wp_ret.
    rewrite <- (cm_connections _ _ Hcm3) in Hf |- *.
    destruct (cm_heap _ _ Hcm3 p c Hc) as (c3 & Hc3 & Htp3 & Hu3). rewrite Htp in Htp3.
    unfold remove_connection. wp_steps. eapply wp_of_option; [exact Hf|]. wp_steps.
    destruct (inv_remove strict s3 tuple p Hi3 Hf) as [Hi4 Hn4].
    split; [|done]. apply (inv_settle strict _ p c3); [done|done|by intros _ _; apply Hu3|done|].
    intros Hst. right. split; [by apply Hst3|done].
Qed.

(** Purging a connection does not touch the other records or the clock. *)
Definition clock_and (q : conn_ptr) s : Z * option (pd_conn F) := (pd_now_ms s, heap s !! q).

Lemma preserves_modify_conn (q p : conn_ptr) f : q <> p -> preserves (clock_and q) (modify_conn p f).
Proof.
  intros Hne. unfold modify_conn, deref. preserves_steps. apply preserves_modify. intros s.
  unfold clock_and. change (heap (upd _ _ s)) with (<[p := f a]> (heap s)). by rewrite lookup_insert_ne.
Qed.

Ltac other_record Hne :=
  repeat first [preserves_step | apply (preserves_modify_conn _ _ _ Hne) | solve [auto with preserves]].

Lemma notify_other_record (q p : conn_ptr) tuple :
  q <> p -> preserves (clock_and q) (pd_notify_connection_update java_app_name tuple p).
Proof.
  intros Hne. unfold pd_notify_connection_update, notif_connection, enqueue, extend_array, set_arr,
    pd_giveup_dpi, process_ndpi_data, check_blacklisted_domain, log_appname, vpn_process_ndpi,
    conn_free_ndpi, pd_strndup, strndup_ok, malloc_ok, realloc_ok, deref.
  other_record Hne. all: apply preserves_modify; intros s; by case_match.
Qed.

Lemma purge_other_record (q p : conn_ptr) purge_all tuple :
  q <> p -> preserves (clock_and q) (purge_connection_if java_app_name purge_all (tuple, p)).
Proof.
  intros Hne.
  assert (preserves (clock_and q) (pd_purge_connection p)) as Hpurge.
  { unfold pd_purge_connection, conn_free_ndpi, free_conn, deref. other_record Hne.
    apply preserves_modify. intros s. unfold clock_and.
    change (heap (upd _ _ s)) with (delete p (heap s)). by rewrite lookup_delete_ne. }
  unfold purge_connection_if, remove_connection, deref.
  repeat first [preserves_step | apply (preserves_modify_conn _ _ _ Hne) | exact Hpurge
    | apply (notify_other_record _ _ _ Hne) | solve [auto with preserves]].
Qed.

(** An entry of the table that the walk removes. *)
Definition gone (purge_all : bool) s (e : zdtun_5tuple * conn_ptr) : Prop :=
  purge_all = true \/ exists c, heap s !! e.2 = Some c /\ expired (pd_now_ms s) e.1 c = true.

(** The walk over the entries [l] of the table. *)
Lemma purge_walk_inv strict purge_all l s :
  inv None strict s -> NoDup l.*1 -> (forall e, e ∈ l -> e ∈ connections s) ->
  wp (for_each (purge_connection_if java_app_name purge_all) l)
     (fun _ s' => inv None strict s' /\
        (forall e, e ∈ connections s' <-> e ∈ connections s /\ ~ (e ∈ l /\ gone purge_all s e))) s.
Proof.
  revert s. induction l as [|[tuple p] l IH]; intros s Hi Hnd Hin; simpl.
  { apply wp_ret. split; [done|]. intros e. split; [|by intros []].
    intros He. split; [done|]. by intros [?%elem_of_nil _]. }
  apply NoDup_cons in Hnd as [Hn Hnd]. simpl in Hn. pose proof (inv_table _ _ _ Hi eq_refl) as Hw.
  assert (HASH_FIND (connections s) tuple = Some p) as Hf by (apply HASH_FIND_elem, Hin; [done|left]).
  destruct (inv_table_live _ _ _ Hi p (HASH_FIND_table_ptrs _ _ _ Hf)) as (c & Hc & _).
  assert (forall e, e ∈ connections s -> e.2 = p -> e = (tuple, p)) as Huniq.
  { intros [k p'] He E. simpl in E. subst p'. apply HASH_FIND_elem in He; [|done].
    destruct (decide (k = tuple)) as [->|Hk]; [done|].
    exfalso. pose proof (HASH_DELETE_values _ _ _ Hw (inv_table_nodup _ _ _ Hi) Hf p) as Hv.
    destruct Hv as [Hv _]. destruct Hv as [_ Hv]; [|done].
    rewrite <- (HASH_FIND_delete_ne _ tuple k) in He by congruence.
    apply HASH_FIND_Some_elem in He. apply list_elem_of_fmap. by exists (k, p). }
  assert (forall e, e ∈ l -> e ∈ connections s /\ e.2 <> p) as Hrest.
  { intros e He. assert (e ∈ connections s) as Hes by (apply Hin; by right). split; [done|].
    intros Ep. apply Hn. rewrite (Huniq e Hes Ep) in He. apply list_elem_of_fmap. by exists (tuple, p). }
  apply wp_bind.
  set (one := purge_connection_if java_app_name purge_all (tuple, p)).
  assert (wp one (fun _ s' => (inv None strict s' /\
        connections s' = (if purge_all || expired (pd_now_ms s) tuple c
                          then HASH_DELETE (connections s) tuple else connections s)) /\
        forall q, q <> p -> clock_and q s' = clock_and q s) s) as Hone.
  { pose proof (purge_connection_if_inv strict purge_all tuple p c s Hi Hf Hc) as Hwp. fold one in Hwp.
    unfold wp in *. destruct (one s) as [[[] s']|] eqn:E; [|done]. split; [done|].
    intros q Hq. by apply (purge_other_record q p purge_all tuple Hq) in E. }
  eapply wp_mono; [exact Hone|]. intros [] s1 [[Hi1 Hcn1] Hfr]. cbv beta.
  assert (forall e, e ∈ connections s1 <-> e ∈ connections s /\ ~ (e = (tuple, p) /\ gone purge_all s e)) as Hsub.
  { intros e. rewrite Hcn1. unfold gone. destruct (purge_all || _) eqn:Eb.
    - rewrite HASH_DELETE_elem by done. split.
      + intros [He Hne]. split; [done|]. by intros [-> _].
      + intros [He Hne]. split; [done|]. intros Hk. apply Hne.
        assert (e = (tuple, p)) as ->.
        { destruct e as [k q]. simpl in Hk. subst k. apply HASH_FIND_elem in He; [|done]. congruence. }
        split; [done|]. apply orb_true_iff in Eb as [|]; [by left|right]. by exists c.
    - apply orb_false_iff in Eb as [Ea Ee]. split; [|by intros []]. intros He. split; [done|].
      intros [-> [?|(c' & Hc' & Hx)]]; [congruence|]. simpl in *. congruence. }
  eapply wp_mono; [apply IH; [done|done|]|].
  - intros e He. destruct (Hrest e He) as [Hes Hne]. apply Hsub. split; [done|]. by intros [-> _].
  - intros [] s2 [Hi2 Hsub2]. split; [done|]. intros e. rewrite Hsub2, Hsub, elem_of_cons.
    assert (e.2 <> p -> gone purge_all s1 e <-> gone purge_all s e) as Hg.
    { intros Hne. specialize (Hfr e.2 Hne). unfold clock_and in Hfr. injection Hfr as En Eh.
      unfold gone. by rewrite En, Eh. }
    split.
    + intros [[He Hne] Hl]. split; [done|]. intros [[->|Hin'] Hgo]; [by apply Hne|].
      apply Hl. split; [done|]. apply Hg; [|done]. by apply Hrest.
    + intros [He Hl]. split; [split; [done|]|].
      * intros [-> Hgo]. apply Hl. split; [by left|done].
      * intros [Hin' Hgo]. apply Hl. split; [by right|]. apply Hg; [|done]. by apply Hrest.
Qed.

Lemma purge_expired_connections_exact strict purge_all s :
  inv None strict s ->
  wp (purge_expired_connections java_app_name purge_all)
     (fun _ s' => inv None strict s' /\
        forall e, e ∈ connections s' <-> e ∈ connections s /\ ~ gone purge_all s e) s.
Proof.
  intros Hi. unfold purge_expired_connections. wp_steps. pose proof (inv_table _ _ _ Hi eq_refl) as Hw.
  eapply wp_mono; [by apply purge_walk_inv|]. intros [] s' [Hi' Hsub]. split; [done|].
  intros e. rewrite Hsub. tauto.
Qed.

Lemma purge_expired_connections_inv strict purge_all s :
  inv None strict s ->
  wp (purge_expired_connections java_app_name purge_all)
     (fun _ s' => inv None strict s' /\ (purge_all = true -> connections s' = [])) s.
Proof.
  intros Hi. eapply wp_mono; [by apply purge_expired_connections_exact|].
  intros [] s' [Hi' Hsub]. split; [done|]. intros ->.
  destruct (connections s') as [|e l]; [done|]. destruct (proj1 (Hsub e)) as [_ Hg]; [left|].
  destruct Hg. by left.
Qed.

(** *** The loop *)
Definition event_ok (e : loop_event) : Prop :=
  match e with
  | EvPacket _ hdr buffer =>
      wf_bytes buffer /\ 0 <= hdr_len hdr /\ hdr_len hdr + 16 <= blen buffer <= PCAPD_SNAPLEN
  | _ => True
  end.

Lemma pd_refresh_time_quiet clock s : quietly (pd_refresh_time clock) s.
Proof. unfold pd_refresh_time. destruct clock; [apply quietly_modify; by split|quiet_step]. Qed.

Lemma housekeeping_and_purge_inv strict next s :
  inv None strict s ->
  wp (housekeeping_and_purge java_app_name next) (fun _ s' => inv None strict s') s.
Proof.
  intros Hi. unfold housekeeping_and_purge. apply wp_bind.
  eapply wp_mono; [by apply pd_housekeeping_inv|]. intros [] s1 Hi1. cbv beta. apply wp_bind, wp_gets.
  destruct (_ >=? _); [|by apply wp_ret]. apply wp_bind.
  eapply wp_mono; [by apply purge_expired_connections_inv|]. intros [] s2 [Hi2 _]. by wp_steps.
Qed.

Lemma loop_packet_inv strict hdr buffer next s :
  inv None strict s -> event_ok (EvPacket None hdr buffer) ->
  wp (loop_packet java_app_name hdr buffer next) (fun _ s' => inv None strict s') s.
Proof.
  intros Hi (Hwf & Hl0 & Hsl & Hsnap). unfold loop_packet. apply wp_bind, wp_modify. cbv beta zeta.
  set (s1 := upd _ _ s). assert (inv None strict s1) as Hi1 by (apply (quiet_inv _ _ s); [by split|done]).
  clearbody s1. destruct (Z.ltb_spec (get_ip_offset (hdr_linktype hdr)) 0); [by apply wp_ret|].
  destruct (Z.ltb_spec (hdr_len hdr) (get_ip_offset (hdr_linktype hdr))); [by apply wp_ret|].
  set (ipoffset := get_ip_offset _) in *.
  assert (packet_in hdr buffer ipoffset) as Hin by (split; [done|split; [done|lia]|lia|lia]).
  apply wp_bind. eapply wp_mono; [by apply handle_packet_inv|]. intros [valid uid] s2 Hi2. cbv beta iota.
  apply wp_bind. assert (blen (drop (Z.to_nat ipoffset) buffer) = blen buffer - ipoffset) as Hbl.
  { unfold blen in *. rewrite length_drop. lia. }
  eapply wp_mono with (Q := fun _ s' => inv None strict s').
  { apply wp_when; intros _; [|done]. unfold PCAPD_SNAPLEN in Hsnap.
    eapply wp_mono; [apply pd_dump_packet_dumps; [apply (inv_dumper _ _ _ Hi2)|lia..]|].
    intros [] s3 (_ & _ & Hd). by destruct (Hd _ _ Hi2). }
  intros [] s3 Hi3. by apply housekeeping_and_purge_inv.
Qed.

Lemma packet_loop_inv strict events next s :
  inv None strict s -> Forall event_ok events ->
  wp (packet_loop java_app_name events next) (fun _ s' => inv None strict s') s.
Proof.
  intros Hi Hev. revert next s Hi. induction Hev as [|e events He Hev IH]; intros next s Hi; simpl;
    (apply wp_bind, wp_gets; destruct (negb _); [by apply wp_ret|]); [by apply wp_ret|].
  destruct e as [|clock|clock|clock hdr buffer|files allocs|r].
  - by apply wp_ret.
  - apply wp_quietly; [apply pd_refresh_time_quiet|]. intros _ s1 Hq. apply wp_bind.
    eapply wp_mono; [apply (housekeeping_and_purge_inv strict)|]; [exact (quiet_inv _ _ _ _ Hq Hi)|].
    intros n s2 Hi2. by apply IH.
  - apply wp_quietly; [apply pd_refresh_time_quiet|]. intros _ s1 Hq. apply wp_ret.
    exact (quiet_inv _ _ _ _ Hq Hi).
  - apply wp_quietly; [apply pd_refresh_time_quiet|]. intros _ s1 Hq. apply wp_bind.
    eapply wp_mono; [apply (loop_packet_inv strict); [exact (quiet_inv _ _ _ _ Hq Hi)|done]|].
    intros n s2 Hi2. by apply IH.
  - apply wp_bind. eapply wp_mono with (Q := fun _ s' => inv None strict s').
    { apply wp_when; intros _; [|done]. by apply load_new_blacklists_inv. }
    intros [] s1 Hi1. by apply IH.
  - apply wp_bind. eapply wp_mono; [by apply java_request_step_inv|]. intros [] s1 Hi1. by apply IH.
Qed.

Lemma run_libpcap_inv strict zdt_ok sock_ok iptables_ok clock events s :
  inv None strict s -> connections s = [] -> Forall event_ok events ->
  wp (run_libpcap java_app_name zdt_ok sock_ok iptables_ok clock events)
     (fun _ s' => inv None strict s' /\ connections s' = []) s.
Proof.
  intros Hi Hcn Hev. unfold run_libpcap. destruct zdt_ok; simpl; [|by apply wp_ret].
  apply wp_bind, wp_modify. cbv beta. set (s0 := upd _ _ s).
  assert (inv None strict s0) as Hi0 by (apply (quiet_inv _ _ s); [by split|done]). clearbody s0.
  apply wp_bind, wp_gets, wp_bind. eapply wp_mono with (Q := fun _ s' => inv None strict s').
  - destruct (_ || _); [by apply wp_ret|]. apply wp_quietly; [apply pd_refresh_time_quiet|].
    intros _ s1 Hq1. pose proof (quiet_inv _ _ _ _ Hq1 Hi0) as Hi1. apply wp_bind, wp_gets.
    apply wp_quietly; [apply quietly_when; intros _; apply quietly_call_java|].
    intros _ s2 Hq2. pose proof (quiet_inv _ _ _ _ Hq2 Hi1) as Hi2. by apply (packet_loop_inv strict).
  - intros rv s3 Hi3. apply wp_bind.
    eapply wp_mono; [by apply (purge_expired_connections_inv strict true)|].
    intros [] s4 [Hi4 Hcn4]. apply wp_ret. split; [done|auto].
Qed.
End loop_inv.
