(* ===== verification/PdRun.v ===== *)
(** A run of the capture with root privileges (core/pcapdroid.c, [pd_run]): its
    initialisation, the packet loop and the cleanup; and what a whole run
    guarantees, whatever the packets, the requests and the failures of the
    environment. *)
From Stdlib Require Import ZArith Lia.
From stdpp Require Import base option gmap numbers list.
From S2P Require Import Prelude Packet Uthash Lru AppNames PcapDump Blacklist NdpiProtos Conn.
From S2P Require Import ConnInv JavaDump Dpi Housekeeping JavaRequests CaptureLibpcap Examples.

Open Scope Z_scope.

Definition VPN_BUFFER_SIZE : Z := 32768.

Section run.
Context {P F : Type} `{Ndpi P} `{NdpiFlow F} (java_app_name : Z -> option bytes).
Abbreviation state := (pcapdroid P F).
Abbreviation get_state := (gets (fun s : state => s)).

(** What a run gets from the system, apart from the outcomes of the calls. *)
Record run_env := mk_env {
  env_ndpi : bool;              (** [init_ndpi] succeeds *)
  env_lru : bool;               (** the malloc of [ip_lru_init] *)
  env_bls : option (list (option (bytes * bool)));
    (** [getBlacklistsInfo] of the Java side: an exception or null; or the lists,
        each with its file and whether it is of addresses. [None] for one whose
        file is NULL: no object, or a strdup that failed *)
  env_bls_alloc : bool;
  env_files : bytes -> option bytes;
  env_file_allocs : nat -> nat -> bool;
  env_dump_memory : memory;     (** the uninitialised buffer of the dumper *)
  env_dump_allocs : bool * bool * bool;
  env_clock : option Z;
  env_zdt : bool;
  env_sock : bool;
  env_iptables : bool;
  env_loop_clock : option Z;
  env_events : list loop_event
}.

(** core/jni_impl.c: its result is not looked at. A file that is NULL is
    formatted as a string by every load of the lists: it is undefined here. *)
Definition loadBlacklistsInfo (env : run_env) : M state unit :=
  set_malware (fun m => m <| bls_info := [] |>);;
  match env_bls env with
  | None => mret tt
  | Some arr =>
      when (env_bls_alloc env)
        (infos ← of_option (mapM id arr);
         set_malware (fun m => m <| bls_info :=
           (fun '(fname, is_ip) => (fname, if is_ip : bool then IP_BLACKLIST else DOMAIN_BLACKLIST)) <$> infos |>))
  end.

(** The lists, before the capture. *)
Definition init_malware_detection (env : run_env) : M state unit :=
  s ← get_state;
  when (mal_enabled (malware s)) (loadBlacklistsInfo env);;
  when (mal_enabled (malware s) && reload_blacklists_now s)
    (modify (fun s => s <| reload_blacklists_now := false |>);;
     load_new_blacklists (env_files env) (env_file_allocs env);;
     use_new_blacklists).

Definition dump_mode (conf : pcap_dump_conf) : pcap_dump_mode :=
  if pcapng_format conf then PCAPNG_DUMP
  else if trailer_enabled conf then PCAP_DUMP_WITH_TRAILER
  else PCAP_DUMP.

Definition clamp_snaplen (max_snaplen slen : Z) : Z :=
  if (slen <=? 0) || (slen >? max_snaplen) then max_snaplen else slen.

Definition init_pcap_dump (env : run_env) : M state unit :=
  s ← get_state;
  when (pd_dump_enabled (pcap_dump s))
    (let conf := pcap_dump s in
     let slen := clamp_snaplen (if vpn_capture s then VPN_BUFFER_SIZE else PCAPD_SNAPLEN)
                   (conf_snaplen conf) in
     let '(a1, a2, a3) := env_dump_allocs env in
     let d := pcap_new_dumper (dump_mode conf) slen (conf_max_dump_size conf) true (pd_now_ms s)
                (pd_uid2app s) (env_dump_memory env) a1 a2 a3 in
     modify (fun s => s <| pcap_dump := conf <| conf_snaplen := slen |> <| dumper := d |> |>);;
     when (match d with None => true | Some _ => false end)
       (modify (fun s => s <| running := false |>))).

Definition zero_cstats : capture_stats_t := mk_cstats 0 0 0 0 0 0 false 0.

Definition init_counters (env : run_env) : M state unit :=
  modify (fun s => s <| capture_stats := zero_cstats |>);;
  pd_refresh_time (env_clock env);;
  modify (fun s => s <| last_connections_dump := pd_now_ms s |>
                     <| next_connections_dump := u64 (pd_now_ms s + 500) |>
                     <| bl_num_checked_connections := 0 |>
                     <| fw_num_checked_connections := 0 |>).

(** The lists are destroyed. *)
Definition destroy_lists : M state unit :=
  modify (fun s => s
    <| fw ::= fun f => f <| fw_bl := None |> <| fw_new_bl := None |>
                         <| fw_wl := None |> <| fw_new_wl := None |> |>
    <| tls ::= fun t => t <| tls_list := None |> <| tls_new_list := None |> |>);;
  s ← get_state;
  when (mal_enabled (malware s))
    (set_malware (fun m => m <| mal_bl := None |> <| mal_whitelist := None |>
                             <| mal_new_wl := None |> <| bls_info := [] |>)).

(** From the end of the loop to the end of the run. *)
Definition finish_run : M state unit :=
  sendStatsDump;;
  sendConnectionsDump;;
  conns_clear NEW_CONNS true;;
  conns_clear CONNS_UPDATES true;;
  destroy_lists;;
  s ← get_state;
  when (match dumper (pcap_dump s) with Some _ => true | None => false end) stop_pcap_dump;;
  modify (fun s => s <| pd_uid2app := [] |>).

(** [run_vpn]: the loop of the other capture mode (core/capture_vpn.c). *)
Definition pd_run (run_vpn : M state Z) (env : run_env) : M state Z :=
  modify (fun s => s <| running := true |> <| has_seen_pcapdroid_trailer := false |>
                     <| netd_resolve_waiting := 0 |>);;
  if negb (env_ndpi env) then mret (-1) else
  (* a NULL cache is not checked and is read at the end of the run at the latest *)
  lru ← of_option (IpLru.ip_lru_init MAX_HOST_LRU_SIZE (env_lru env));
  modify (fun s => s <| ip_to_host := lru |>);;
  init_malware_detection env;;
  init_pcap_dump env;;
  init_counters env;;
  s ← get_state;
  rv ← (if vpn_capture s then run_vpn
        else run_libpcap java_app_name (env_zdt env) (env_sock env) (env_iptables env)
               (env_loop_clock env) (env_events env));
  finish_run;;
  mret rv.

(** ** The invariant over a run *)
Context {cmode : CaptureMode}.
Implicit Types (s : state) (p : conn_ptr).

(** The records that are left by the runs before are not reached by this one. *)
Definition heap_ok s : Prop := forall p c, heap s !! p = Some c -> p < next_ptr s /\ bl_ok c.

(** The state that the Java side starts a run with (core/jni_impl.c): zeroed
    but for the configuration. *)
Record initial s : Prop := {
  ini_new : new_conns s = empty_array;
  ini_updates : conns_updates s = empty_array;
  ini_connections : connections s = [];
  ini_heap : heap_ok s;
  ini_zstats : zstats s = zero_zstats;
  ini_dumper : dumper (pcap_dump s) = None;
  ini_mode : vpn_capture s = vpn_mode;
  ini_new_bl : mal_new_bl (malware s) = None
}.

(** No connection is given. *)
Definition no_table : Prop := default [] vpn_table = [].

Lemma table_ptrs_nil s : no_table -> connections s = [] -> table_ptrs s = [].
Proof. unfold no_table, table_ptrs. intros Hn ->. by destruct vpn_table. Qed.

Lemma inv_initial strict s :
  no_table -> initial s -> all_ok (reallocs s) -> all_ok (strndups s) ->
  (strict = true -> all_ok (jni_calls s) /\ heap s = ∅) ->
  inv None strict s.
Proof.
  intros Hn [In Iu Ic Ih Iz Id Im Ib] Hr Hs Hj. pose proof (table_ptrs_nil s Hn Ic) as Ht.
  split; rewrite ?Ht; unfold slot_ptrs, slots, counts_ok; rewrite ?In, ?Iu, ?Ic, ?Iz, ?Id, ?Im; try done.
  - constructor.
  - by intros p ?%elem_of_nil.
  - unfold table_wf. constructor.
  - constructor.
  - by intros p ?%elem_of_nil.
  - intros bl. by rewrite Ib.
  - by intros [??]%Hj.
  - intros [_ ->]%Hj. done.
  - intros [_ ->]%Hj. done.
Qed.

(** The initialisation of the lists does not touch the table. *)
Abbreviation table_kept := (preserves (connections (P:=P) (F:=F))).

Lemma load_all_blacklists_table files allocs infos st :
  table_kept (load_all_blacklists files allocs infos st).
Proof.
  revert allocs st. induction infos as [|info infos IH]; intros allocs st; simpl; [preserves_step|].
  unfold load_one_blacklist, malloc_ok, realloc_ok. preserves_steps.
Qed.

Lemma load_new_blacklists_table files allocs : table_kept (load_new_blacklists files allocs).
Proof.
  unfold load_new_blacklists, set_malware, malloc_ok. preserves_steps.
  apply load_all_blacklists_table.
Qed.

Lemma blacklist_status_items_table l : table_kept (blacklist_status_items l).
Proof. induction l as [|st l IH]; simpl; unfold jni_ok; preserves_steps. Qed.

Lemma use_new_blacklists_table : table_kept use_new_blacklists.
Proof.
  unfold use_new_blacklists, set_malware, notifyBlacklistsLoaded, jni_ok, call_java.
  preserves_steps. apply blacklist_status_items_table.
Qed.

(** The allocations at the start that the code does not check. *)
Record allocs_ok (env : run_env) : Prop := {
  ao_lru : env_lru env = true;
  ao_bls : forall arr, env_bls env = Some arr -> Forall is_Some arr
}.

Lemma start_infos env arr : allocs_ok env -> env_bls env = Some arr -> is_Some (mapM id arr).
Proof. intros [_ Hb] E. apply mapM_is_Some_2. by apply (Hb arr). Qed.

Lemma init_malware_detection_inv cur strict env s :
  allocs_ok env -> inv cur strict s ->
  wp (init_malware_detection env) (fun _ s' => inv cur strict s' /\ connections s' = connections s) s.
Proof.
  intros Hst Hi. apply (wp_preserves connections).
  { unfold init_malware_detection, loadBlacklistsInfo, set_malware. preserves_steps.
    - apply load_new_blacklists_table.
    - apply use_new_blacklists_table. }
  unfold init_malware_detection, set_malware. apply wp_bind, wp_gets, wp_bind.
  eapply wp_mono with (Q := fun _ s' => inv cur strict s').
  { apply wp_when; intros _; [|done]. unfold loadBlacklistsInfo, set_malware.
    assert (forall l (x : state), inv cur strict x -> inv cur strict (x <| malware ::= fun m => m <| bls_info := l |> |>)) as Hset.
    { intros l x Hx. apply inv_set_malware; [done|]. apply (inv_malware _ _ _ Hx). }
    apply wp_bind, wp_modify. destruct (env_bls env) as [arr|] eqn:Eb; [|apply wp_ret; by apply Hset].
    destruct (start_infos env arr Hst Eb) as [infos Ei]. rewrite Ei. apply wp_when; intros _; [|by apply Hset].
    apply wp_bind. eapply wp_of_option; [done|]. apply wp_modify. by apply Hset, Hset. }
  intros [] s1 Hi1. apply wp_when; intros _; [|done]. apply wp_bind, wp_modify. cbv beta.
  apply wp_bind. eapply wp_mono; [apply (load_new_blacklists_inv cur strict)|].
  { by apply (quiet_inv _ _ s1); [split|]. }
  intros [] s2 Hi2. by apply use_new_blacklists_inv.
Qed.

Lemma clamp_snaplen_range max_snaplen slen :
  0 < max_snaplen -> 0 < clamp_snaplen max_snaplen slen <= max_snaplen.
Proof.
  intros Hm. unfold clamp_snaplen. destruct (Z.leb_spec slen 0); simpl; [lia|].
  destruct (Z.gtb_spec slen max_snaplen); lia.
Qed.

Lemma pcap_new_dumper_wf md slen max_size cb now names mem a1 a2 a3 d :
  0 <= slen < 2 ^ 31 ->
  pcap_new_dumper md slen max_size cb now names mem a1 a2 a3 = Some d -> dumper_wf d.
Proof.
  intros Hs. unfold pcap_new_dumper. destruct a1, a2, a3; simpl; try done. intros [= <-].
  by split.
Qed.

Lemma init_pcap_dump_inv strict env s :
  inv None strict s ->
  wp (init_pcap_dump env) (fun _ s' => inv None strict s' /\ connections s' = connections s) s.
Proof.
  intros Hi. unfold init_pcap_dump. apply wp_bind, wp_gets, wp_when; intros _; [|done].
  cbv zeta. set (slen := clamp_snaplen _ _).
  assert (0 < slen <= PCAPD_SNAPLEN) as Hs.
  { unfold slen. destruct (vpn_capture s); [|by apply clamp_snaplen_range].
    pose proof (clamp_snaplen_range VPN_BUFFER_SIZE (conf_snaplen (pcap_dump s)) ltac:(done)).
    unfold VPN_BUFFER_SIZE, PCAPD_SNAPLEN in *. lia. }
  destruct (env_dump_allocs env) as [[a1 a2] a3]. set (d := pcap_new_dumper _ _ _ _ _ _ _ _ _ _).
  assert (forall d', d = Some d' -> dumper_wf d') as Hd.
  { intros d' E. eapply pcap_new_dumper_wf; [|exact E]. unfold PCAPD_SNAPLEN in Hs. lia. }
  clearbody d slen. wp_steps.
  - split; [|done]. destruct Hi. by split.
  - split; [|done]. destruct Hi. by split.
Qed.

Lemma init_counters_inv strict env s :
  inv None strict s ->
  wp (init_counters env) (fun _ s' => inv None strict s' /\ connections s' = connections s) s.
Proof.
  intros Hi. unfold init_counters. apply wp_bind, wp_modify. cbv beta.
  apply wp_quietly; [apply pd_refresh_time_quiet|]. intros _ s1 Hq. apply wp_modify.
  split; [|exact (qt_connections _ _ Hq)].
  apply (quiet_inv _ _ s1); [by split|]. apply (quiet_inv _ _ _ _ Hq).
  by apply (quiet_inv _ _ s); [split|].
Qed.

(** *** The cleanup *)
Lemma stop_pcap_dump_stopped d s :
  dumper (pcap_dump s) = Some d -> dumper_wf d ->
  wp stop_pcap_dump (fun _ s' => dumper (pcap_dump s') = None) s.
Proof.
  intros Ed Hwf. unfold stop_pcap_dump. wp_steps. eapply wp_of_option; [done|]. wp_steps.
  destruct (export_buffer_refines (sync_dumper s d)) as (d' & E & _); [by destruct Hwf|].
  eapply wp_of_option; [unfold pcap_destroy_dumper; by rewrite E|]. wp_steps.
  unfold set_dumper. wp_steps. unfold stopPcapDump, call_java. by wp_steps.
Qed.

Definition records s := (heap s, next_ptr s, connections s, new_conns s, conns_updates s).

(** The part of the cleanup that does not touch the records. *)
Definition destroy_run : M state unit :=
  destroy_lists;;
  s ← get_state;
  when (match dumper (pcap_dump s) with Some _ => true | None => false end) stop_pcap_dump;;
  modify (fun s => s <| pd_uid2app := [] |>).

Lemma destroy_run_records s :
  (forall d, dumper (pcap_dump s) = Some d -> dumper_wf d) ->
  wp destroy_run (fun _ s' => dumper (pcap_dump s') = None /\ records s' = records s) s.
Proof.
  intros Hd. apply (wp_preserves records).
  { unfold destroy_run, destroy_lists, set_malware, stop_pcap_dump, set_dumper, stopPcapDump, call_java.
    preserves_steps. }
  unfold destroy_run. apply wp_bind.
  eapply wp_mono with (Q := fun _ s' => pcap_dump s' = pcap_dump s).
  { unfold destroy_lists, set_malware. by wp_steps. }
  intros [] s1 E1. apply wp_bind, wp_gets. rewrite E1. apply wp_bind, wp_when.
  - destruct (dumper (pcap_dump s)) as [d|] eqn:Ed; [|done]. intros _.
    eapply wp_mono; [apply (stop_pcap_dump_stopped d); [by rewrite E1|by apply Hd]|].
    intros [] s2 E2. by apply wp_modify.
  - destruct (dumper (pcap_dump s)) as [d|] eqn:Ed; [done|]. intros _. apply wp_modify.
    change (dumper (pcap_dump s1) = None). by rewrite E1.
Qed.

(** What is left of the records when the run ends. *)
Definition finished strict s : Prop :=
  new_conns s = empty_array /\ conns_updates s = empty_array /\ (vpn_mode = false -> connections s = []) /\
  dumper (pcap_dump s) = None /\ heap_ok s /\ (strict = true -> heap s = ∅).

Lemma finish_run_finished strict s :
  no_table -> inv None strict s -> (vpn_mode = false \/ strict = true -> connections s = []) ->
  wp finish_run (fun _ s' => finished strict s') s.
Proof.
  intros Hn Hi Hcn. unfold finish_run. apply wp_quietly; [apply sendStatsDump_quiet|].
  intros _ s0 Hq0. pose proof (quiet_inv _ _ _ _ Hq0 Hi) as Hi0.
  rewrite <- (qt_connections _ _ Hq0) in Hcn. clear s Hi Hq0. apply wp_bind.
  eapply wp_mono; [by apply (sendConnectionsDump_sent None strict)|]. intros [] s1 (Hs1 & _). cbv beta.
  assert (slot_ptrs s1 = slot_ptrs s0) as Hsp.
  { unfold slot_ptrs, slots. by rewrite (st_new _ _ _ Hs1), (st_updates _ _ _ Hs1). }
  assert (forall Q (m : M state unit), wp (conns_clear NEW_CONNS true;; conns_clear CONNS_UPDATES true) (fun _ s' => wp m Q s') s1 ->
    wp (conns_clear NEW_CONNS true;; conns_clear CONNS_UPDATES true;; m) Q s1) as Hassoc.
  { intros Q m. unfold wp, mbind, M_bind. destruct (conns_clear NEW_CONNS true s1) as [[[] s2]|]; [|done].
    by destruct (conns_clear CONNS_UPDATES true s2) as [[[] s3]|]. }
  apply Hassoc. clear Hassoc. apply wp_clear_both.
  { rewrite (st_new _ _ _ Hs1). apply (inv_new _ _ _ Hi0). }
  { rewrite (st_updates _ _ _ Hs1). apply (inv_updates _ _ _ Hi0). }
  { rewrite Hsp. apply (inv_slots_nodup _ _ _ Hi0). }
  { rewrite Hsp. intros p Hp. destruct (inv_slots _ _ _ Hi0 p Hp) as (c & Hc & _).
    destruct (sent_live _ _ _ _ _ Hs1 Hc) as (c' & Hc' & _). by exists c'. }
  rewrite Hsp. intros h Hh. set (s2 := upd _ _ (upd _ _ (upd _ _ s1))).
  assert (strict = true -> h = ∅) as Hempty.
  { intros Hst. apply map_empty. intros p. rewrite (Hh p). destruct (heap s1 !! p) as [c1|] eqn:E1; [|done].
    pose proof (st_heap _ _ _ Hs1 p) as Hr. rewrite E1 in Hr. apply option_Forall2_Some_r in Hr as (c & Hc & _).
    simpl. destruct (inv_owned _ _ _ Hi0 Hst p c Hc) as [Ht|[Hin _]]; [done| |].
    - exfalso. rewrite (table_ptrs_nil s0 Hn) in Ht by auto. by apply elem_of_nil in Ht.
    - rewrite bool_decide_eq_true_2 by done. by rewrite orb_true_r. }
  eapply wp_mono; [apply destroy_run_records|].
  - change (forall d, dumper (pcap_dump s1) = Some d -> dumper_wf d). rewrite (st_dump _ _ _ Hs1).
    apply (inv_dumper _ _ _ Hi0).
  - intros [] s3 [Hd3 [= Hh3 Hx3 Hc3 Hn3 Hu3]]. split; [done|]. split; [done|]. split; [|split; [done|split]].
    + intros Hm. rewrite Hc3, <- Hcn by auto. exact (st_connections _ _ _ Hs1).
    + intros p c'. rewrite Hh3, Hx3. change (next_ptr s2) with (next_ptr s1). intros Hc'.
      rewrite (Hh p) in Hc'. destruct (heap s1 !! p) as [c1|] eqn:E1; [|done]. simpl in Hc'.
      pose proof (st_heap _ _ _ Hs1 p) as Hr. rewrite E1 in Hr. apply option_Forall2_Some_r in Hr as (c & Hc & Hsc).
      destruct (inv_heap _ _ _ Hi0 p c Hc) as [Hlt Hbl]. rewrite (st_next _ _ _ Hs1). split; [done|].
      rewrite orb_true_r, andb_true_r in Hc'. destruct (bool_decide _); [done|]. injection Hc' as <-. by apply Hsc.
    + intros Hst. rewrite Hh3. by apply Hempty.
Qed.

(** The loop of the capture mode. *)
Definition loop_safe strict (run_vpn : M state Z) (env : run_env) : Prop :=
  forall s, inv None strict s -> connections s = [] ->
  wp (if vpn_capture s then run_vpn
      else run_libpcap java_app_name (env_zdt env) (env_sock env) (env_iptables env) (env_loop_clock env) (env_events env))
     (fun _ s' => inv None strict s' /\ (vpn_mode = false \/ strict = true -> connections s' = [])) s.

Lemma pd_run_finished strict run_vpn env s :
  allocs_ok env -> no_table -> loop_safe strict run_vpn env ->
  initial s -> all_ok (reallocs s) -> all_ok (strndups s) ->
  (strict = true -> all_ok (jni_calls s) /\ heap s = ∅) -> env_ndpi env = true ->
  wp (pd_run run_vpn env) (fun _ s' => finished strict s') s.
Proof.
  intros Hst Hn Hloop Hini Hr Hs Hj Hnd. pose proof (inv_initial strict s Hn Hini Hr Hs Hj) as Hi.
  pose proof (ini_connections _ Hini) as Hcn. unfold pd_run. rewrite Hnd. simpl negb. cbv iota.
  apply wp_bind, wp_modify. cbv beta. set (s0 := upd _ _ (upd _ _ (upd _ _ s))).
  assert (inv None strict s0) as Hi0 by (apply (quiet_inv _ _ s); [by split|done]).
  assert (connections s0 = []) as Hcn0 by done. clearbody s0.
  apply wp_bind. eapply wp_of_option; [by rewrite (ao_lru _ Hst)|]. apply wp_bind, wp_modify. cbv beta. set (s1 := upd _ _ s0).
  assert (inv None strict s1) as Hi1 by (apply (quiet_inv _ _ s0); [by split|done]).
  assert (connections s1 = []) as Hcn1 by done. clearbody s1.
  apply wp_bind. eapply wp_mono; [by apply (init_malware_detection_inv None strict)|].
  intros [] s2 [Hi2 Hcn2]. rewrite Hcn1 in Hcn2. cbv beta.
  apply wp_bind. eapply wp_mono; [by apply (init_pcap_dump_inv strict)|].
  intros [] s3 [Hi3 Hcn3]. rewrite Hcn2 in Hcn3. cbv beta.
  apply wp_bind. eapply wp_mono; [by apply (init_counters_inv strict)|].
  intros [] s4 [Hi4 Hcn4]. rewrite Hcn3 in Hcn4. cbv beta. apply wp_bind, wp_gets.
  apply wp_bind. eapply wp_mono; [apply Hloop; congruence|].
  intros rv s5 [Hi5 Hcn5]. apply wp_bind.
  eapply wp_mono; [by apply (finish_run_finished strict)|]. intros [] s6 Hf. by apply wp_ret.
Qed.

(** The same when the protocol library cannot start. *)
Lemma pd_run_ends strict run_vpn env s :
  allocs_ok env -> no_table -> loop_safe strict run_vpn env ->
  initial s -> all_ok (reallocs s) -> all_ok (strndups s) -> (strict = true -> all_ok (jni_calls s) /\ heap s = ∅) ->
  exists rv s', pd_run run_vpn env s = Some (rv, s') /\ finished strict s'.
Proof.
  intros Hst Hn Hloop Hini Hr Hs Hj. destruct (env_ndpi env) eqn:En.
  - pose proof (pd_run_finished strict run_vpn env s Hst Hn Hloop Hini Hr Hs Hj En) as Hw. by apply wp_exec in Hw.
  - unfold pd_run. rewrite En. do 2 eexists. split; [reflexivity|]. destruct Hini. split_and!; try done. by intros [_ ?]%Hj.
Qed.
End run.

(** ** Properties *)
Section run_properties.
Context {P F : Type} `{Ndpi P} `{NdpiFlow F} (java_app_name : Z -> option bytes).
Abbreviation state := (pcapdroid P F).
Implicit Types (s : state).
#[local] Existing Instance libpcap_mode.

Lemma libpcap_no_table : no_table.
Proof. done. Qed.

Lemma loop_safe_libpcap strict run_vpn env : Forall event_ok (env_events env) -> loop_safe java_app_name strict run_vpn env.
Proof.
  intros Hev s Hi Hcn. rewrite (inv_mode _ _ _ Hi). eapply wp_mono; [by apply (run_libpcap_inv java_app_name strict)|].
  intros rv s' [Hi' Hcn']. split; [done|]. intros _. exact Hcn'.
Qed.


(** C1: a run with root privileges has no undefined behaviour, for the packets
    that fit in the buffer of the capture (of at most 65519 bytes): whatever the
    configuration, their contents, the requests of the Java side and their
    interleaving with the turns of the loop, and whichever allocations and JNI
    calls fail, but for those that the code does not check: the [realloc] of the
    arrays, [strndup], the cache of the names and the copies of the file names of
    the lists. No record is used or freed after it has been freed and no buffer,
    array or table is accessed out of bounds; the run ends with no connection, no
    pending notification and the dumper destroyed. *)
Theorem pd_run_safe run_vpn env s :
  allocs_ok env -> initial s -> all_ok (reallocs s) -> all_ok (strndups s) -> Forall event_ok (env_events env) ->
  exists rv s', pd_run java_app_name run_vpn env s = Some (rv, s') /\
    new_conns s' = empty_array /\ conns_updates s' = empty_array /\ connections s' = [] /\
    dumper (pcap_dump s') = None.
Proof.
  intros Hst Hini Hr Hs Hev.
  destruct (pd_run_ends java_app_name false run_vpn env s Hst libpcap_no_table (loop_safe_libpcap false run_vpn env Hev) Hini Hr Hs ltac:(done))
    as (rv & s' & E & ? & ? & Hc & ? & _ & _). exists rv, s'. split_and!; auto.
Qed.

(** C5: when no JNI call throws, a run that starts with no record, under the
    conditions of the run above (packets of at most 65519 bytes, the allocations
    that the code does not check succeed), also frees every connection record it
    allocated: none is left in the store at the end, whatever the packets, the
    expirations and the other failed allocations. *)
Theorem pd_run_no_leak run_vpn env s :
  allocs_ok env -> initial s -> heap s = ∅ -> all_ok (reallocs s) -> all_ok (strndups s) -> all_ok (jni_calls s) ->
  Forall event_ok (env_events env) ->
  exists rv s', pd_run java_app_name run_vpn env s = Some (rv, s') /\ heap s' = ∅.
Proof.
  intros Hst Hini Hh0 Hr Hs Hj Hev.
  destruct (pd_run_ends java_app_name true run_vpn env s Hst libpcap_no_table (loop_safe_libpcap true run_vpn env Hev) Hini Hr Hs (fun _ => conj Hj Hh0))
    as (rv & s' & E & _ & _ & _ & _ & _ & Hh). exists rv, s'. auto.
Qed.

(** C6: at any point of the packet loop the table of the connections has one
    entry per 5-tuple, no two entries share a record, every record of it is
    live and not on its way to be purged, and the active connection counters
    sent to Java are the numbers of the entries per protocol (modulo 2^16,
    their width). *)
Theorem packet_loop_table events next s :
  initial s -> all_ok (reallocs s) -> all_ok (strndups s) -> Forall event_ok events ->
  exists rv s', packet_loop java_app_name events next s = Some (rv, s') /\
    table_wf (connections s') /\ NoDup ((connections s').*2) /\
    (forall tuple p, HASH_FIND (connections s') tuple = Some p ->
       exists c, heap s' !! p = Some c /\ to_purge c = false) /\
    counts_ok s'.
Proof.
  intros Hini Hr Hs Hev.
  pose proof (inv_initial false s libpcap_no_table Hini Hr Hs ltac:(done)) as Hi.
  pose proof (packet_loop_inv java_app_name false events next s Hi Hev) as Hw. unfold wp in Hw.
  destruct (packet_loop java_app_name events next s) as [[rv s']|]; [|done]. exists rv, s'.
  split; [done|]. split; [apply (inv_table _ _ _ Hw eq_refl)|]. split; [apply (inv_table_nodup _ _ _ Hw)|].
  split; [|apply (inv_counts _ _ _ Hw eq_refl)]. intros tuple p Hf.
  destruct (inv_table_live _ _ _ Hw p) as (c & Hc & Hp); [by eapply HASH_FIND_table_ptrs|].
  exists c. split; [done|]. by apply Hp.
Qed.
End run_properties.

(** *** A run of three packets and a late turn *)
Definition ex_hdr (buf : bytes) (flags : Z) : pcapd_hdr :=
  mk_hdr (mk_tv 1 0) 0 10000 (blen buf - 16) PCAPD_DLT_RAW flags 0.

Definition ex_packet (clock : Z) (buf : bytes) (flags : Z) : loop_event :=
  EvPacket (Some clock) (ex_hdr buf flags) buf.

Definition ex_events : list loop_event :=
  [ex_packet 1100 ex_dns_query 1; ex_packet 1200 (ex_tcp TH_SYN) 1;
   ex_packet 1250 ex_dns_answer 0; EvTimeout (Some 2000); ex_packet 2100 (ex_tcp TH_RST) 0;
   EvTimeout (Some 70000); EvJava StopPacketLoop].

Definition ex_env (events : list loop_event) : run_env :=
  mk_env true true (Some []) true (fun _ => None) (fun _ _ => true) (fun _ => 0) (true, true, true) (Some 1000)
    true true true (Some 1000) events.

Lemma ex_initial l : initial (cmode := libpcap_mode) (ex_state <| jni_calls := l |>).
Proof. split; try reflexivity. by intros p c. Qed.

Lemma ex_allocs_ok events : allocs_ok (ex_env events).
Proof. split; [done|]. intros arr [= <-]. constructor. Qed.

Lemma ex_events_ok : Forall event_ok ex_events.
Proof. repeat constructor; cbn; try discriminate; done. Qed.

Lemma pd_run_safe_witness :
  exists rv s', pd_run ex_app_name (mret 0) (ex_env ex_events) (ex_state <| jni_calls := [false] |>) = Some (rv, s') /\
    new_conns s' = empty_array /\ conns_updates s' = empty_array /\ connections s' = [] /\
    dumper (pcap_dump s') = None.
Proof.
  apply pd_run_safe; [apply ex_allocs_ok|apply ex_initial|constructor|constructor|exact ex_events_ok].
Defined.

Lemma pd_run_no_leak_witness :
  exists rv s', pd_run ex_app_name (mret 0) (ex_env ex_events) (ex_state <| jni_calls := [] |>) = Some (rv, s') /\
    heap s' = ∅.
Proof.
  apply pd_run_no_leak; [apply ex_allocs_ok|apply ex_initial|reflexivity|constructor|constructor|constructor|exact ex_events_ok].
Defined.

Lemma packet_loop_table_witness :
  exists rv s', packet_loop ex_app_name (take 5 ex_events) 6000 (ex_state <| jni_calls := [] |>) = Some (rv, s') /\
    table_wf (connections s') /\ NoDup ((connections s').*2) /\
    (forall tuple p, HASH_FIND (connections s') tuple = Some p ->
       exists c, heap s' !! p = Some c /\ to_purge c = false) /\
    counts_ok s'.
Proof.
  apply packet_loop_table; [apply ex_initial|constructor|constructor|].
  apply Forall_take, ex_events_ok.
Defined.

(** A JNI exception while the first connection is sent: the others keep their
    pending notification, are not queued again and are never freed. *)
Lemma sendConnectionsDump_failure_leaks :
  (fun '(_, s') => (map_to_list (heap s')).*1) <$>
    pd_run ex_app_name (mret 0) (ex_env ex_events)
      (ex_state <| jni_calls := [true; true; true; true; false] |>) = Some [2].
Proof. vm_compute. reflexivity. Qed.
