(* ===== verification/ConnStatus.v ===== *)
(** What the status of a connection of the root capture means
    (core/capture_libpcap.c): the end of a TCP connection as a property of the
    packets seen, and the expiration of the connections. *)
From Stdlib Require Import ZArith Lia.
From stdpp Require Import base option gmap numbers list.
From S2P Require Import Prelude Packet Uthash Lru AppNames PcapDump Blacklist NdpiProtos Conn ConnInv Examples.
From S2P Require Import JavaDump Dpi Housekeeping JavaRequests CaptureLibpcap PdRun.

Open Scope Z_scope.

(** ** Flags *)
Lemma has_flag_lor_f a b f : has_flag (Z.lor a b) f = has_flag a f || has_flag b f.
Proof.
  unfold has_flag. rewrite Z.land_lor_distr_l.
  destruct (Z.eqb_spec (Z.land a f) 0) as [Ha|Ha]; simpl.
  - by rewrite Ha, Z.lor_0_l.
  - destruct (Z.eqb_spec (Z.lor (Z.land a f) (Z.land b f)) 0) as [E|]; [|done].
    by apply Z.lor_eq_0_iff in E as [? _].
Qed.

Lemma has_flag_fin x : has_flag x TH_FIN = Z.odd x.
Proof.
  unfold has_flag, TH_FIN. change 1 with (Z.ones 1). rewrite Z.land_ones by done. change (2 ^ 1) with 2.
  rewrite Zmod_odd. by destruct (Z.odd x).
Qed.

Lemma has_flag_land_fin a b : has_flag (Z.land a b) TH_FIN = has_flag a TH_FIN && has_flag b TH_FIN.
Proof.
  rewrite !has_flag_fin. rewrite <- !Z.bit0_odd. apply Z.land_spec.
Qed.

(** ** The end of a TCP connection *)

(** A segment: flags, payload length, direction (0 from the client). *)
Record tcp_seg := mk_seg { seg_flags : Z; seg_len : Z; seg_dir : Z }.

Definition seg_has (f : Z) (x : tcp_seg) : bool := has_flag (seg_flags x) f.

(** Both sides have sent a FIN. *)
Definition fin_both (l : list tcp_seg) : bool :=
  existsb (fun x => (seg_dir x =? 0) && seg_has TH_FIN x) l &&
  existsb (fun x => negb (seg_dir x =? 0) && seg_has TH_FIN x) l.

Definition no_rst (l : list tcp_seg) : Prop := Forall (fun x => seg_has TH_RST x = false) l.

(** An ACK comes after the FINs of both sides. *)
Definition closing (l : list tcp_seg) : Prop :=
  exists l1 x l2, l = l1 ++ x :: l2 /\ fin_both l1 = true /\ seg_has TH_ACK x = true.

Definition closed_by_fin (l : list tcp_seg) : Prop :=
  exists l1 x l2, l = l1 ++ x :: l2 /\ fin_both l1 = true /\ seg_has TH_ACK x = true /\ no_rst (l1 ++ [x]).

Definition closed_by_rst (l : list tcp_seg) : Prop :=
  exists l1 x l2, l = l1 ++ x :: l2 /\ seg_has TH_RST x = true /\ no_rst l1 /\ ~ closing l1.

Lemma existsb_snoc {A} (f : A -> bool) l x : existsb f (l ++ [x]) = existsb f l || f x.
Proof. rewrite existsb_app. simpl. by rewrite orb_false_r. Qed.

Lemma fin_both_app l l' : fin_both l = true -> fin_both (l ++ l') = true.
Proof.
  unfold fin_both. rewrite !existsb_app. intros [H1 H2]%andb_true_iff. by rewrite H1, H2.
Qed.

Lemma closing_app l l' : closing l -> closing (l ++ l').
Proof. intros (l1 & x & l2 & -> & H). exists l1, x, (l2 ++ l'). by rewrite <- app_assoc. Qed.

Lemma closing_snoc l x : closing (l ++ [x]) <-> closing l \/ (fin_both l = true /\ seg_has TH_ACK x = true).
Proof.
  split; [|intros [Hc|[Hf Ha]]; [by apply closing_app|by exists l, x, []]].
  intros (l1 & y & l2 & E & Hf & Ha). destruct l2 as [|z l2] using rev_ind.
  - apply app_inj_tail in E as [-> ->]. by right.
  - rewrite app_comm_cons, app_assoc in E. apply app_inj_tail in E as [-> _]. left.
    by exists l1, y, l2.
Qed.

Lemma no_rst_snoc l x : no_rst (l ++ [x]) <-> no_rst l /\ seg_has TH_RST x = false.
Proof. unfold no_rst. rewrite Forall_app, Forall_singleton. done. Qed.

Lemma closed_by_fin_app l l' : closed_by_fin l -> closed_by_fin (l ++ l').
Proof. intros (l1 & x & l2 & -> & H). exists l1, x, (l2 ++ l'). by rewrite <- app_assoc. Qed.

Lemma closed_by_rst_app l l' : closed_by_rst l -> closed_by_rst (l ++ l').
Proof. intros (l1 & x & l2 & -> & H). exists l1, x, (l2 ++ l'). by rewrite <- app_assoc. Qed.

(** The two ends exclude each other. *)
Lemma closed_by_excl l : closed_by_fin l -> closed_by_rst l -> False.
Proof.
  intros (l1 & x & l2 & E1 & Hf & Ha & Hn) (k1 & y & k2 & E2 & Hr & Hnk & Hc). rewrite E1 in E2.
  destruct (decide (length l1 < length k1)%nat) as [Hlt|Hge].
  - apply Hc. exists l1, x, (drop (S (length l1)) k1). split; [|done].
    assert (take (length k1) (l1 ++ x :: l2) = k1) as <- by (rewrite E2; apply take_app_length).
    rewrite take_app_ge by lia. rewrite drop_app_ge by lia.
    destruct (length k1 - length l1)%nat as [|n] eqn:En; [lia|]. simpl.
    replace (S (length l1) - length l1)%nat with 1%nat by lia. simpl. by rewrite drop_0.
  - assert (y ∈ l1 ++ [x]) as Hy.
    { apply (list_elem_of_lookup_2 _ (length k1)).
      assert ((l1 ++ x :: l2) !! length k1 = Some y) as Hl.
      { rewrite E2. by apply list_lookup_middle. }
      rewrite (cons_middle x l1 l2), app_assoc in Hl. rewrite lookup_app_l in Hl; [done|].
      rewrite length_app. simpl. lia. }
    unfold no_rst in Hn. rewrite Forall_forall in Hn. specialize (Hn y Hy). congruence.
Qed.

Section tcp_status.
Context {P F : Type} `{Ndpi P} `{NdpiFlow F}.
Abbreviation state := (pcapdroid P F).
Implicit Types (s : state) (c : pd_conn F) (l : list tcp_seg).

(** [update_connection_status] on the record of a TCP connection. *)
Definition tcp_step c (x : tcp_seg) : pd_conn F :=
  if status c >=? CONN_STATUS_CLOSED then c
  else update_tcp_status c (seg_flags x) (seg_len x) (seg_dir x).

(** What the record remembers of the segments [l]. *)
Definition remembers c l : Prop :=
  has_flag (tcp_flags0 c) TH_FIN = existsb (fun x => (seg_dir x =? 0) && seg_has TH_FIN x) l /\
  has_flag (tcp_flags1 c) TH_FIN = existsb (fun x => negb (seg_dir x =? 0) && seg_has TH_FIN x) l.

Definition status_inv c l : Prop :=
  (status c < CONN_STATUS_CLOSED /\ no_rst l /\ ~ closing l /\ remembers c l /\
     last_ack c = (if fin_both l then 1 else 0)) \/
  (status c = CONN_STATUS_CLOSED /\ closed_by_fin l) \/
  (status c = CONN_STATUS_RESET /\ closed_by_rst l).

Lemma remembers_step c c' l x :
  remembers c l ->
  tcp_flags0 c' = (if seg_dir x =? 0 then Z.lor (tcp_flags0 c) (seg_flags x) else tcp_flags0 c) ->
  tcp_flags1 c' = (if seg_dir x =? 0 then tcp_flags1 c else Z.lor (tcp_flags1 c) (seg_flags x)) ->
  remembers c' (l ++ [x]).
Proof.
  intros [Hr0 Hr1] E0 E1. unfold remembers. rewrite E0, E1, !existsb_snoc. unfold seg_has.
  destruct (seg_dir x =? 0); rewrite ?has_flag_lor_f, ?Hr0, ?Hr1; simpl; rewrite ?orb_false_r; done.
Qed.

Lemma tcp_step_inv c l x : status_inv c l -> status_inv (tcp_step c x) (l ++ [x]).
Proof.
  intros [(Hs & Hn & Hc & Hm & Hla)|[[Hs Hcl]|[Hs Hcl]]]; unfold tcp_step.
  2:{ rewrite Hs. right. left. split; [done|by apply closed_by_fin_app]. }
  2:{ rewrite Hs. right. right. split; [done|by apply closed_by_rst_app]. }
  destruct (Z.geb_spec (status c) CONN_STATUS_CLOSED) as [|_]; [lia|].
  unfold update_tcp_status. cbv zeta.
  set (c1 := if seg_dir x =? 0 then _ else _).
  assert (remembers c1 (l ++ [x])) as Hm1.
  { apply (remembers_step c c1 l x Hm); unfold c1; by destruct (seg_dir x =? 0). }
  assert (last_ack c1 = last_ack c) as Hla1 by (unfold c1; by destruct (seg_dir x =? 0)).
  assert (status c1 = status c) as Hs1 by (unfold c1; by destruct (seg_dir x =? 0)).
  assert (fin_both (l ++ [x]) = has_flag (Z.land (tcp_flags0 c1) (tcp_flags1 c1)) TH_FIN) as Hfb.
  { rewrite has_flag_land_fin. destruct Hm1 as [-> ->]. done. }
  clearbody c1. change (has_flag (seg_flags x) TH_RST) with (seg_has TH_RST x).
  change (has_flag (seg_flags x) TH_ACK) with (seg_has TH_ACK x).
  destruct (seg_has TH_RST x) eqn:Er.
  { right. right. split; [done|]. by exists l, x, []. }
  assert (no_rst (l ++ [x])) as Hn1 by (by apply no_rst_snoc).
  rewrite <- Hfb, Hla1, Hla. destruct (fin_both (l ++ [x])) eqn:Ef.
  - destruct (fin_both l) eqn:Efl; simpl.
    + destruct (seg_has TH_ACK x) eqn:Ea.
      * right. left. split; [done|]. by exists l, x, [].
      * left. rewrite Hs1. split; [done|]. split; [done|]. split; [|split; [done|]].
        -- intros [?|[_ ?]]%closing_snoc; [done|congruence].
        -- by rewrite Ef, Hla1, Hla.
    + left. split; [by rewrite <- Hs1 in Hs|]. split; [done|]. split; [|split; [done|]].
      * intros [?|[? _]]%closing_snoc; [done|congruence].
      * by rewrite Ef.
  - assert (fin_both l = false) as Efl.
    { destruct (fin_both l) eqn:E; [|done]. by rewrite (fin_both_app l [x] E) in Ef. }
    assert (~ closing (l ++ [x])) as Hc1 by (intros [?|[? _]]%closing_snoc; [done|congruence]).
    left. assert (forall c', status c' < CONN_STATUS_CLOSED -> tcp_flags0 c' = tcp_flags0 c1 ->
      tcp_flags1 c' = tcp_flags1 c1 -> last_ack c' = last_ack c1 ->
      status c' < CONN_STATUS_CLOSED /\ no_rst (l ++ [x]) /\ ~ closing (l ++ [x]) /\
      remembers c' (l ++ [x]) /\ last_ack c' = (if fin_both (l ++ [x]) then 1 else 0)) as Hgo.
    { intros c' Hs' E0 E1 E2. split; [done|]. split; [done|]. split; [done|].
      unfold remembers. rewrite E0, E1, E2, Ef, Hla1, Hla, Efl. done. }
    repeat case_match; apply Hgo; try done; congruence.
Qed.

Lemma tcp_run_inv c l0 l : status_inv c l0 -> status_inv (fold_left tcp_step l c) (l0 ++ l).
Proof.
  revert c l0. induction l as [|x l IH]; intros c l0 Hi; simpl; [by rewrite app_nil_r|].
  rewrite (cons_middle x l0 l), app_assoc. by apply IH, tcp_step_inv.
Qed.

(** *** The code *)
Lemma update_connection_status_tcp tuple pkt dir p c x s :
  HASH_FIND (connections s) tuple = Some p -> heap s !! p = Some c ->
  ipproto tuple = IPPROTO_TCP -> has_flag (pkt_flags pkt) ZDTUN_PKT_IS_FRAGMENT = false ->
  th_flags pkt = Some (seg_flags x) -> l7_len pkt = seg_len x -> dir = seg_dir x ->
  update_connection_status tuple pkt dir s = Some (tt, s <| heap ::= <[p := tcp_step c x]> |>).
Proof.
  intros Hf Hc Ht Hfr Hfl Hl ->. unfold update_connection_status.
  unfold mbind, M_bind, gets, of_option. rewrite Hf.
  assert (deref p s = Some (c, s)) as Ed by (unfold deref, mbind, M_bind, gets, of_option; by rewrite Hc).
  rewrite Ed, Hfr, orb_false_r, Ht. cbn [Z.eqb]. unfold tcp_step.
  destruct (status c >=? CONN_STATUS_CLOSED).
  - unfold mret, M_ret. do 2 f_equal. cbv [upd eta]. destruct s. simpl in *. by rewrite insert_id.
  - rewrite Z.eqb_refl, Hfl. unfold modify_conn, mbind, M_bind. rewrite Ed, Hl. done.
Qed.

(** The packets of one connection, one after the other. *)
Definition update_statuses tuple (pkts : list (zdtun_pkt * Z)) : M state unit :=
  for_each (fun e => update_connection_status tuple e.1 e.2) pkts.

Definition seg_of (tuple : zdtun_5tuple) (e : zdtun_pkt * Z) (x : tcp_seg) : Prop :=
  has_flag (pkt_flags e.1) ZDTUN_PKT_IS_FRAGMENT = false /\
  th_flags e.1 = Some (seg_flags x) /\ l7_len e.1 = seg_len x /\ e.2 = seg_dir x.

Lemma update_statuses_tcp tuple pkts l p c s :
  Forall2 (seg_of tuple) pkts l -> HASH_FIND (connections s) tuple = Some p ->
  heap s !! p = Some c -> ipproto tuple = IPPROTO_TCP ->
  update_statuses tuple pkts s = Some (tt, s <| heap ::= <[p := fold_left tcp_step l c]> |>).
Proof.
  unfold update_statuses. intros Hp Hf Hc Ht. revert c s Hf Hc.
  induction Hp as [|e x pkts l (H1 & H2 & H3 & H4) _ IH]; intros c s Hf Hc; simpl.
  - unfold mret, M_ret. do 2 f_equal. cbv [upd eta]. destruct s. simpl in *. by rewrite insert_id.
  - unfold mbind, M_bind. rewrite (update_connection_status_tcp tuple e.1 e.2 p c x) by done.
    rewrite (IH (tcp_step c x)); [|done|apply lookup_insert_eq]. do 2 f_equal.
    cbv [upd eta]. simpl. by rewrite insert_insert_eq.
Qed.

(** C29: for a TCP connection of the table, whatever the segments and their
    interleaving, the status after them is RESET exactly when a RST came before
    the connection was closed, and CLOSED exactly when an ACK came after the
    FINs of both sides, with no RST up to it; both are final. *)
Theorem tcp_close_detected tuple pkts l p c s :
  Forall2 (seg_of tuple) pkts l -> HASH_FIND (connections s) tuple = Some p ->
  ipproto tuple = IPPROTO_TCP -> heap s !! p = Some c ->
  status c = CONN_STATUS_NEW -> tcp_flags0 c = 0 -> tcp_flags1 c = 0 -> last_ack c = 0 ->
  exists s' c', update_statuses tuple pkts s = Some (tt, s') /\ heap s' !! p = Some c' /\
    (status c' = CONN_STATUS_RESET <-> closed_by_rst l) /\
    (status c' = CONN_STATUS_CLOSED <-> closed_by_fin l) /\
    (closed_by_rst l -> ~ closed_by_fin l).
Proof.
  intros Hp Hf Ht Hc Hs Hf0 Hf1 Hla. do 2 eexists. split; [by eapply update_statuses_tcp|].
  split; [apply lookup_insert_eq|]. set (c' := fold_left tcp_step l c).
  assert (status_inv c' l) as Hi.
  { apply (tcp_run_inv c [] l). left. rewrite Hs, Hla. split; [done|]. split; [constructor|].
    split; [by intros ([|??] & x & l2 & ? & _)|]. split; [|done]. unfold remembers. by rewrite Hf0, Hf1. }
  assert (closed_by_fin l -> closing l) as Hfc.
  { intros (l1 & x & l2 & ? & ? & ? & _). by exists l1, x, l2. }
  assert (closed_by_rst l -> no_rst l -> False) as Hrn.
  { intros (l1 & x & l2 & -> & Hr & _) Hn. unfold no_rst in Hn. rewrite Forall_app, Forall_cons in Hn.
    destruct Hn as (_ & Hn & _). congruence. }
  pose proof (closed_by_excl l) as Hex.
  split; [|split; [|by intros ? ?; apply Hex]];
    destruct Hi as [(Hst & Hn & Hcl & _)|[[Hst Hcl]|[Hst Hcl]]]; rewrite ?Hst; split; intros Hx; try done; try tauto.
  - rewrite Hx in Hst. done.
  - rewrite Hx in Hst. done.
Qed.
End tcp_status.

(** *** Witness: a close with the FIN of both sides, then a late RST *)
Definition ex_tcp_pkt (flags : Z) : zdtun_pkt :=
  mk_pkt (mk_5tuple 16777226 16843009 16 47873 4 IPPROTO_TCP) 0 40 20 20 0 (ex_tcp flags).

Definition ex_tuple : zdtun_5tuple := pkt_tuple (ex_tcp_pkt 0).

Definition ex_tcp_state : pcapdroid (list Z) Z :=
  ex_state <| heap := {[1 := zero_conn]} |> <| connections := [(ex_tuple, 1)] |>.

Definition ex_segs : list tcp_seg :=
  [mk_seg TH_SYN 0 0; mk_seg (Z.lor TH_FIN TH_ACK) 0 0; mk_seg (Z.lor TH_FIN TH_ACK) 0 1;
   mk_seg TH_ACK 0 0; mk_seg TH_RST 0 1].

Lemma tcp_close_detected_witness :
  exists s' c',
    update_statuses ex_tuple ((fun x => (ex_tcp_pkt (seg_flags x), seg_dir x)) <$> ex_segs) ex_tcp_state =
      Some (tt, s') /\
    heap s' !! 1 = Some c' /\ status c' = CONN_STATUS_CLOSED.
Proof.
  destruct (tcp_close_detected ex_tuple ((fun x => (ex_tcp_pkt (seg_flags x), seg_dir x)) <$> ex_segs)
    ex_segs 1 zero_conn ex_tcp_state) as (s' & c' & E & Hc & _ & [_ Hcl] & _).
  - repeat constructor.
  - reflexivity.
  - reflexivity.
  - reflexivity.
  - reflexivity.
  - reflexivity.
  - reflexivity.
  - reflexivity.
  - exists s', c'. split; [exact E|]. split; [exact Hc|]. apply Hcl.
    exists (take 3 ex_segs), (mk_seg TH_ACK 0 0), [mk_seg TH_RST 0 1].
    split; [reflexivity|]. split; [reflexivity|]. split; [reflexivity|]. repeat constructor.
Defined.

(** ** Expiration *)
Section expiration.
Context {P F : Type} `{Ndpi P} `{NdpiFlow F} (java_app_name : Z -> option bytes).
#[local] Existing Instance libpcap_mode.
Implicit Types s : pcapdroid P F.

(** How long a connection may be idle, in milliseconds: five minutes for an open
    TCP connection and one for a closed one, thirty seconds for UDP - and for
    ICMP 1005 milliseconds, where the constant of the source says 5 seconds. *)
Definition idle_limit_ms (proto status : Z) : Z :=
  if proto =? 6 then (if status <? CONN_STATUS_CLOSED then 300000 else 60000)
  else if proto =? 17 then 30000
  else if proto =? 1 then 1005
  else 0.

Lemma conn_timeout_limit proto status : conn_timeout proto status = idle_limit_ms proto status.
Proof.
  unfold conn_timeout, idle_limit_ms, IPPROTO_TCP, IPPROTO_UDP, IPPROTO_ICMP. rewrite Z.geb_leb.
  destruct (proto =? 6); [|done]. by destruct (Z.leb_spec CONN_STATUS_CLOSED status), (Z.ltb_spec status CONN_STATUS_CLOSED); try lia.
Qed.

(** C30: [purge_expired_connections] removes from the table exactly the
    connections whose last packet is at least as old as the limit of their
    protocol and status: 300 seconds for an open TCP connection, 60 for a closed
    one, 30 for UDP, and 1005 milliseconds for ICMP, which the code purges
    earlier than its constant of 5 seconds says (see the findings). Its walk is
    not disturbed by the entries and records it frees on the way. *)
Theorem purge_expired_exact strict s :
  inv None strict s ->
  exists s', purge_expired_connections java_app_name false s = Some (tt, s') /\ inv None strict s' /\
    forall tuple p c, heap s !! p = Some c ->
      (HASH_FIND (connections s') tuple = Some p <->
       HASH_FIND (connections s) tuple = Some p /\
       pd_now_ms s < u64 (pcap_last_update_ms c + idle_limit_ms (ipproto tuple) (status c))).
Proof.
  intros Hi. pose proof (purge_expired_connections_exact java_app_name strict false s Hi) as Hw.
  unfold wp in Hw. destruct (purge_expired_connections java_app_name false s) as [[[] s']|]; [|done].
  destruct Hw as [Hi' He]. exists s'. split; [done|]. split; [done|]. intros tuple p c Hc.
  assert (forall s0, inv None strict s0 ->
    HASH_FIND (connections s0) tuple = Some p <-> (tuple, p) ∈ connections s0) as Hf.
  { intros s0 Hi0. split; [apply HASH_FIND_Some_elem|apply HASH_FIND_elem, (inv_table _ _ _ Hi0 eq_refl)]. }
  rewrite (Hf s' Hi'), (Hf s Hi), (He (tuple, p)). unfold gone, expired. simpl. setoid_rewrite conn_timeout_limit. split.
  - intros [Hin Hg]. split; [done|]. apply Z.nle_gt. intros Hle. apply Hg. right. exists c.
    split; [done|]. by apply Z.geb_le.
  - intros [Hin Hlt]. split; [done|]. intros [?|(c' & Hc' & Hge)]; [done|].
    apply Z.geb_le in Hge. assert (c' = c) as -> by congruence. lia.
Qed.
End expiration.
#[local] Existing Instance libpcap_mode.

(** After the query, the SYN and the answer of the example, a minute later. *)
Definition ex_start : pcapdroid (list Z) Z := ex_state <| jni_calls := [] |>.
Definition ex_prefix : list loop_event := take 3 ex_events ++ [EvTimeout (Some 1300)].

Lemma ex_start_inv : inv None true ex_start.
Proof. apply inv_initial; [done|apply ex_initial|apply List.Forall_nil|apply List.Forall_nil|intros _; split; [apply List.Forall_nil|reflexivity]]. Qed.

Lemma ex_prefix_ok : Forall event_ok ex_prefix.
Proof. apply Forall_app. split; [apply Forall_take, ex_events_ok|]. repeat constructor. Qed.

Lemma ex_running_inv :
  exists rv s, packet_loop ex_app_name ex_prefix 6000 ex_start = Some (rv, s) /\ inv None true s.
Proof.
  pose proof (packet_loop_inv ex_app_name true ex_prefix 6000 ex_start ex_start_inv ex_prefix_ok) as Hw.
  revert Hw. generalize (packet_loop ex_app_name ex_prefix 6000). intros m. unfold wp.
  destruct (m ex_start) as [[rv s]|]; [|done]. intros Hw. by exists rv, s.
Qed.

Lemma inv_now cur strict (s : pcapdroid (list Z) Z) now :
  inv cur strict s -> inv cur strict (s <| pd_now_ms := now |>).
Proof. intros Hi. destruct Hi. by split. Qed.

Lemma purge_expired_exact_witness :
  exists rv s s', packet_loop ex_app_name ex_prefix 6000 ex_start = Some (rv, s) /\
    purge_expired_connections ex_app_name false (s <| pd_now_ms := 70000 |>) = Some (tt, s') /\
    inv None true s'.
Proof.
  destruct ex_running_inv as (rv & s & E & Hi).
  destruct (purge_expired_exact ex_app_name true (s <| pd_now_ms := 70000 |>) (inv_now _ _ _ _ Hi))
    as (s' & E' & Hi' & _).
  exists rv, s, s'. split; [exact E|]. split; [exact E'|exact Hi'].
Defined.
