(* ===== verification/Policy.v ===== *)
(** Which connections are blocked (core/pcapdroid.c): the checks that a new
    connection goes through, one after the other, and the check of the active
    connections after the lists change, against one policy. *)
From Stdlib Require Import ZArith Lia.
From stdpp Require Import base option gmap numbers list.
From S2P Require Import Prelude Packet Uthash Lru AppNames PcapDump Blacklist NdpiProtos Conn ConnInv Examples.
From S2P Require Import JavaDump Dpi Housekeeping CaptureLibpcap PdRun ConnStatus.

Open Scope Z_scope.

Section policy.
Context {P F : Type} `{Ndpi P} `{NdpiFlow F} {cmode : CaptureMode} (java_app_name : Z -> option bytes).
Abbreviation state := (pcapdroid P F).
Abbreviation get_state := (gets (fun s : state => s)).
Implicit Types (s : state) (c : pd_conn F) (p : conn_ptr) (tuple : zdtun_5tuple)
  (f : firewall P) (m : malware_detection P).

(** ** The policy *)

(** Some malware list marked the connection. *)
Definition malicious c : bool := blacklisted_internal c || blacklisted_ip c || blacklisted_domain c.

(** The application, the server or the host is in the blocklist. *)
Definition fw_blocks f tuple c : bool :=
  fw_enabled f && opt_match (fw_bl f) (fun bl =>
    blacklist_match_uid bl (conn_uid c) || blacklist_match_ip bl (dst_ip tuple) (ipver tuple) ||
    opt_match (nonempty (info c)) (blacklist_match_domain bl)).

(** The application is not in the whitelist; DNS requests of unspecified
    applications are not concerned. *)
Definition wl_blocks f tuple c : bool :=
  fw_enabled f && wl_enabled f && opt_match (fw_wl f) (fun wl =>
    negb (is_dns_tuple tuple && ((conn_uid c =? UID_NETD) || (conn_uid c =? UID_PHONE) ||
                                 (conn_uid c =? UID_UNKNOWN))) &&
    negb (blacklist_match_uid wl (conn_uid c))).

Definition block_policy f tuple c : bool := malicious c || fw_blocks f tuple c || wl_blocks f tuple c.

(** A malware list has the address or the host, and the malware whitelist has
    neither it nor the application. *)
Definition bad_app m (uid : Z) : bool :=
  negb (opt_match (mal_whitelist m) (fun wl => blacklist_match_uid wl uid)).
Definition bad_ip m tuple (uid : Z) : bool :=
  bad_app m uid && opt_match (mal_bl m) (fun bl => blacklist_match_ip bl (dst_ip tuple) (ipver tuple)) &&
  negb (opt_match (mal_whitelist m) (fun wl => blacklist_match_ip wl (dst_ip tuple) (ipver tuple))).
Definition bad_domain m (host : bytes) (uid : Z) : bool :=
  bad_app m uid && opt_match (mal_bl m) (fun bl => blacklist_match_domain bl host) &&
  negb (opt_match (mal_whitelist m) (fun wl => blacklist_match_domain wl host)).

(** ** What each check does to the record *)
Definition domain_step f m c : pd_conn F :=
  match nonempty (info c) with
  | None => c
  | Some host =>
      let bad := opt_match (mal_bl m) (fun bl =>
                   negb (blacklisted_domain c) && negb (whitelisted_app c) && blacklist_match_domain bl host) &&
                 negb (opt_match (mal_whitelist m) (fun wl => blacklist_match_domain wl host)) in
      let c := if bad then c <| blacklisted_domain := true |> <| to_block := true |> else c in
      if fw_enabled f && negb (to_block c) then
        match fw_bl f with
        | None => c
        | Some bl => c <| to_block := to_block c || blacklist_match_domain bl host |>
        end
      else c
  end.

Definition ip_step m tuple c : pd_conn F :=
  if opt_match (mal_bl m) (fun bl => negb (whitelisted_app c) && blacklist_match_ip bl (dst_ip tuple) (ipver tuple)) &&
     negb (opt_match (mal_whitelist m) (fun wl => blacklist_match_ip wl (dst_ip tuple) (ipver tuple)))
  then c <| blacklisted_ip := true |> <| to_block := true |> else c.

Definition firewall_step f tuple c : pd_conn F :=
  match fw_bl f with
  | None => c
  | Some bl =>
      if fw_enabled f && negb (to_block c)
      then c <| to_block := blacklist_match_ip bl (dst_ip tuple) (ipver tuple) ||
                            blacklist_match_uid bl (conn_uid c) |>
      else c
  end.

Definition whitelist_step f tuple c : pd_conn F :=
  if negb (to_block c) then c <| to_block := wl_blocks f tuple c |> else c.

(** *** The checks compute them *)
Definition tracks p c f m s : Prop := heap s !! p = Some c /\ fw s = f /\ malware s = m.

Lemma wlp_deref p c (Q : pd_conn F -> state -> Prop) s :
  heap s !! p = Some c -> Q c s -> wlp (deref p) Q s.
Proof.
  intros Hc HQ. unfold deref. wlp_steps. apply wlp_of_option. rewrite Hc. by intros d [= <-].
Qed.

Lemma wlp_get f m p c (Q : state -> state -> Prop) s :
  tracks p c f m s -> (forall a, fw a = f -> malware a = m -> Q a s) -> wlp get_state Q s.
Proof. intros (_ & Hf & Hm) HQ. apply wlp_gets. auto. Qed.

Lemma wlp_modify_conn p g c (Q : unit -> state -> Prop) f m s :
  tracks p c f m s -> (forall s', tracks p (g c) f m s' -> Q tt s') -> wlp (modify_conn p g) Q s.
Proof.
  intros (Hc & Hf & Hm) HQ. unfold modify_conn. wlp_step. eapply wlp_deref; [done|]. wlp_step.
  apply HQ. split; [apply lookup_insert_eq|done].
Qed.

Lemma wlp_modify_tracks p g c (Q : unit -> state -> Prop) f m s :
  tracks p c f m s -> heap (g s) = heap s -> fw (g s) = fw s -> malware (g s) = malware s ->
  (forall s', tracks p c f m s' -> Q tt s') -> wlp (modify g) Q s.
Proof. intros (Hc & Hf & Hm) E1 E2 E3 HQ. apply wlp_modify, HQ. unfold tracks. rewrite E1, E2, E3. done. Qed.

Lemma wlp_log_appname p c uid (Q : unit -> state -> Prop) f m s :
  tracks p c f m s -> (forall s', tracks p c f m s' -> Q tt s') -> wlp (log_appname java_app_name uid) Q s.
Proof. intros Ht HQ. unfold log_appname, malloc_ok. wlp_steps. by apply HQ. Qed.

Ltac the_track s k := match goal with Ht : tracks _ _ _ _ s |- _ => k Ht end.
Ltac track_call :=
  lazymatch goal with
  | |- wlp (gets (fun x => x)) _ ?s => the_track s ltac:(fun Ht =>
      apply (wlp_get _ _ _ _ _ _ Ht); intros ? Hfw Hmal; rewrite ?Hfw, ?Hmal; clear Hfw Hmal)
  | |- wlp (deref _) _ ?s => the_track s ltac:(fun Ht => eapply wlp_deref; [exact (proj1 Ht)|])
  | |- wlp (modify_conn _ _) _ ?s => the_track s ltac:(fun Ht =>
      apply (wlp_modify_conn _ _ _ _ _ _ _ Ht); clear Ht; intros ? Ht)
  | |- wlp (log_appname _ _) _ ?s => the_track s ltac:(fun Ht =>
      apply (wlp_log_appname _ _ _ _ _ _ _ Ht); clear Ht; intros ? Ht)
  | |- wlp (modify _) _ ?s => the_track s ltac:(fun Ht =>
      apply (wlp_modify_tracks _ _ _ _ _ _ _ Ht); [done..|]; clear Ht; intros ? Ht)
  | |- wlp (gets _) _ _ => apply wlp_gets
  | |- wlp (mret _) _ _ => apply wlp_ret
  | |- wlp (_ ≫= _) _ _ => apply wlp_bind
  | |- wlp (when _ _) _ _ => apply wlp_when; let E := fresh "Ew" in intros E
  end; cbv beta.
Ltac tracking := repeat track_call.

Lemma to_block_same c b : to_block c = b -> c <| to_block := b |> = c.
Proof. destruct c; simpl. by intros ->. Qed.

Lemma check_whitelist_mode_block_step tuple p c f m s :
  tracks p c f m s ->
  wlp (check_whitelist_mode_block tuple p) (fun _ s' => tracks p (whitelist_step f tuple c) f m s') s.
Proof.
  intros Ht. unfold check_whitelist_mode_block, whitelist_step, wl_blocks.
  do 4 track_call. destruct (fw_wl f) as [wl|]; simpl.
  2:{ track_call. rewrite andb_false_r. destruct (to_block c) eqn:Eb; simpl; [done|].
      by rewrite to_block_same. }
  tracking; destruct (to_block c) eqn:Eb; simpl in *; try done;
    destruct (fw_enabled f), (wl_enabled f), (is_dns_tuple tuple), (conn_uid c =? UID_NETD),
        (conn_uid c =? UID_PHONE), (conn_uid c =? UID_UNKNOWN); simpl in *; try done; by rewrite to_block_same.
Qed.

Lemma check_firewall_step tuple p c f m s :
  tracks p c f m s ->
  wlp (check_firewall java_app_name tuple p) (fun _ s' => tracks p (firewall_step f tuple c) f m s') s.
Proof.
  intros Ht. unfold check_firewall, firewall_step.
  do 4 track_call. destruct (fw_bl f) as [bl|]; [|by track_call].
  track_call; rewrite Ew; [|done]. do 5 track_call. simpl.
  destruct (blacklist_match_ip bl (dst_ip tuple) (ipver tuple)); tracking; done.
Qed.

Lemma check_blacklisted_ip_step tuple p c f m s :
  tracks p c f m s ->
  wlp (check_blacklisted_ip java_app_name tuple p) (fun _ s' => tracks p (ip_step m tuple c) f m s') s.
Proof.
  intros Ht. unfold check_blacklisted_ip, ip_step.
  do 2 track_call. destruct (mal_bl m) as [bl|]; [|by track_call]. cbn [opt_match].
  tracking; rewrite Ew; try rewrite Ew0; done.
Qed.

Lemma check_blacklisted_domain_step p c f m s :
  tracks p c f m s ->
  wlp (check_blacklisted_domain java_app_name p) (fun _ s' => tracks p (domain_step f m c) f m s') s.
Proof.
  intros Ht. unfold check_blacklisted_domain, domain_step.
  do 2 track_call. destruct (nonempty (info c)) as [host|]; [|by track_call].
  do 2 track_call.
  set (bad := opt_match (mal_bl m) _). set (good := negb (opt_match (mal_whitelist m) _)).
  set (c1 := if bad && good then _ else c).
  track_call. apply wlp_mono with (fun _ s' => tracks p c1 f m s').
  { unfold c1. tracking; rewrite Ew; try rewrite Ew0; done. }
  clear s Ht. intros [] s Ht. cbv beta in Ht. cbv zeta.
  do 3 track_call; rewrite Ew; [|done]. destruct (fw_bl f) as [bl|]; tracking; done.
Qed.

Lemma check_whitelisted_app_step uid p c f m s :
  tracks p c f m s -> whitelisted_app c = false ->
  wlp (check_whitelisted_app java_app_name uid p)
    (fun _ s' => tracks p (c <| whitelisted_app := negb (bad_app m uid) |>) f m s') s.
Proof.
  intros Ht Hw. unfold check_whitelisted_app, bad_app. rewrite negb_involutive.
  do 2 track_call. destruct (mal_whitelist m) as [wl|]; simpl.
  - tracking; done.
  - track_call. by assert (c <| whitelisted_app := false |> = c) as -> by (destruct c; simpl in Hw; by subst).
Qed.

Lemma wlp_malloc_ok p c f m (Q : bool -> state -> Prop) s :
  tracks p c f m s -> (forall ok s', tracks p c f m s' -> Q ok s') -> wlp malloc_ok Q s.
Proof. intros Ht HQ. unfold malloc_ok. wlp_steps. by apply HQ. Qed.

(** *** The requests of netd in the loop
    The record of [p] is in the array of the loop too: only its
    [netd_block_missed] can change. *)
Definition same_policy c d : Prop := exists b, d = c <| netd_block_missed := b |>.
Lemma same_policy_refl c : same_policy c c.
Proof. exists (netd_block_missed c). by destruct c. Qed.
Lemma same_policy_trans c d e : same_policy c d -> same_policy d e -> same_policy c e.
Proof. intros [b ->] [b' ->]. by exists b'. Qed.
Definition tracks_netd p c f m s : Prop := exists d, same_policy c d /\ tracks p d f m s.

Lemma tracks_modify_other p q g c d f m s :
  q <> p -> tracks p c f m s -> heap s !! q = Some d ->
  tracks p c f m (s <| heap ::= <[q := g]> |>).
Proof. intros Hq (Hc & Hf & Hm) _. split; [|done]. simpl. by rewrite lookup_insert_ne. Qed.

Lemma wlp_deref_any q (Q : pd_conn F -> state -> Prop) s :
  (forall d, heap s !! q = Some d -> Q d s) -> wlp (deref q) Q s.
Proof. intros HQ. unfold deref. wlp_steps. apply wlp_of_option. auto. Qed.

Lemma wlp_modify_any q g p c f m (Q : unit -> state -> Prop) s :
  tracks p c f m s ->
  (forall s', tracks p (if decide (q = p) then g c else c) f m s' -> Q tt s') -> wlp (modify_conn q g) Q s.
Proof.
  intros Ht HQ. destruct (decide (q = p)) as [->|Hq]; [by apply (wlp_modify_conn p g c _ f m)|].
  unfold modify_conn. wlp_step. apply wlp_deref_any. intros d Hd. wlp_step.
  by apply HQ, (tracks_modify_other _ _ _ _ d).
Qed.

Lemma resolve_netd_conn_step p c host slot f m s :
  tracks_netd p c f m s ->
  wlp (resolve_netd_conn host (conn_uid c) slot) (fun _ s' => tracks_netd p c f m s') s.
Proof.
  intros (d & Hd & Ht). unfold resolve_netd_conn. track_call. apply wlp_deref_any. intros e He.
  track_call; [|by exists d]. apply andb_true_iff in Ew as [Hu _]. apply Z.eqb_eq in Hu.
  track_call. apply (wlp_modify_any _ _ _ _ _ _ _ _ Ht).
  assert (same_policy c (if decide (slot_data slot = p) then d <| conn_uid := conn_uid c |> else d)) as Hd'.
  { destruct (decide _); [|done]. destruct Hd as [b ->]. exists b. by destruct c. }
  clear Ht Hd. revert Hd'. set (d' := if decide _ then _ else _). clearbody d'. intros Hd s1 Ht.
  do 2 track_call.
  track_call. apply wlp_mono with (fun _ s' => tracks_netd p c f m s').
  { track_call; [|by exists d']. apply (wlp_modify_any _ _ _ _ _ _ _ _ Ht). intros s' Ht'.
    destruct (decide _); [|by exists d']. eexists. split; [|exact Ht'].
    eapply same_policy_trans; [exact Hd|]. by eexists. }
  clear Hd Ht d'. intros [] s2 (d' & Hd & Ht). cbv beta.
  tracking; by exists d'.
Qed.

Lemma resolve_from_lru_step tuple p c f m s :
  tracks p c f m s ->
  wlp (resolve_from_lru java_app_name tuple p)
    (fun _ s' => exists c1, conn_uid c1 = conn_uid c /\ whitelisted_app c1 = whitelisted_app c /\
       to_block c1 = to_block c /\ blacklisted_internal c1 = blacklisted_internal c /\
       blacklisted_ip c1 = blacklisted_ip c /\ blacklisted_domain c1 = blacklisted_domain c /\
       tracks p (domain_step f m c1) f m s') s.
Proof.
  intros Ht. unfold resolve_from_lru. track_call. wlp_step. track_call.
  apply (wlp_malloc_ok p c f m); [done|]. clear Ht. intros ok s1 Ht.
  destruct (IpLru.ip_lru_find _ _ ok) as [host lru]. do 4 track_call.
  destruct host as [host|].
  2:{ track_call. exists (c <| info := None |>). do 6 (split; [done|]). exact Ht. }
  do 5 track_call. revert Ht. set (c1 := _ <| info_from_lru := true |>). intros Ht.
  apply wlp_mono with (fun _ s' => tracks_netd p c1 f m s').
  { match goal with |- wlp _ _ ?s' => assert (tracks_netd p c1 f m s') as Hn
      by (exists c1; split; [apply same_policy_refl|done]) end.
    apply wlp_when; [|done]. intros _. wlp_steps. apply wlp_of_option. intros slots _.
    apply wlp_for_each; [done|]. intros slot s2 _ Hs2. change (conn_uid c) with (conn_uid c1).
    by apply resolve_netd_conn_step. }
  clear Ht. intros [] s2 (d & [b ->] & Ht). cbv beta.
  eapply wlp_mono; [by apply check_blacklisted_domain_step|]. intros [] s3 Hs3. cbv beta in Hs3.
  exists (c1 <| netd_block_missed := b |>). do 6 (split; [done|]). exact Hs3.
Qed.

(** *** The checks of a new connection, one after the other *)
Definition new_conn_checked f m tuple uid c : Prop :=
  conn_uid c = uid /\ blacklisted_ip c = bad_ip m tuple uid /\
  blacklisted_domain c = opt_match (nonempty (info c)) (fun host => bad_domain m host uid) /\
  to_block c = block_policy f tuple c.

(** What no check touches. *)
Definition same_conn c (d : pd_conn F) : Prop :=
  conn_uid d = conn_uid c /\ info d = info c /\ blacklisted_internal d = blacklisted_internal c.

Lemma domain_step_fields f m c :
  to_block c = false -> blacklisted_domain c = false -> whitelisted_app c = negb (bad_app m (conn_uid c)) ->
  let d := domain_step f m c in
  let bad := opt_match (nonempty (info c)) (fun host => bad_domain m host (conn_uid c)) in
  same_conn c d /\ whitelisted_app d = whitelisted_app c /\ blacklisted_ip d = blacklisted_ip c /\
  blacklisted_domain d = bad /\
  to_block d = bad || fw_enabled f && opt_match (fw_bl f) (fun bl => opt_match (nonempty (info c)) (blacklist_match_domain bl)).
Proof.
  intros E1 E2 E3. unfold domain_step, bad_domain, same_conn. destruct (nonempty (info c)) as [host|]; simpl.
  2:{ rewrite E1, E2. destruct (fw_bl f); simpl; rewrite andb_false_r; done. }
  assert (opt_match (mal_bl m) (fun bl => negb (blacklisted_domain c) && negb (whitelisted_app c) &&
    blacklist_match_domain bl host) = bad_app m (conn_uid c) && opt_match (mal_bl m) (fun bl => blacklist_match_domain bl host)) as ->.
  { rewrite E2, E3, negb_involutive. destruct (mal_bl m); simpl; [done|]. by rewrite andb_false_r. }
  set (bad := _ && negb (opt_match (mal_whitelist m) _)). destruct bad; cbv beta iota zeta.
  - set (d := upd to_block _ _). assert (to_block d = true) as -> by done. rewrite andb_false_r. done.
  - rewrite E1, andb_true_r. destruct (fw_enabled f); [|done]. destruct (fw_bl f) as [bl|]; [|done].
    simpl. rewrite <- E2. done.
Qed.

Lemma ip_step_fields f m tuple c :
  whitelisted_app c = negb (bad_app m (conn_uid c)) -> blacklisted_ip c = false ->
  let d := ip_step m tuple c in
  same_conn c d /\ blacklisted_domain d = blacklisted_domain c /\
  blacklisted_ip d = bad_ip m tuple (conn_uid c) /\ to_block d = bad_ip m tuple (conn_uid c) || to_block c.
Proof.
  intros E1 E2. unfold ip_step, bad_ip, same_conn. rewrite E1, negb_involutive.
  assert (opt_match (mal_bl m) (fun bl => bad_app m (conn_uid c) && blacklist_match_ip bl (dst_ip tuple) (ipver tuple)) =
    bad_app m (conn_uid c) && opt_match (mal_bl m) (fun bl => blacklist_match_ip bl (dst_ip tuple) (ipver tuple))) as ->.
  { destruct (mal_bl m); simpl; [done|]. by rewrite andb_false_r. }
  set (bad := _ && negb (opt_match (mal_whitelist m) _)). by destruct bad.
Qed.

Lemma firewall_step_fields f tuple c :
  let d := firewall_step f tuple c in
  same_conn c d /\ blacklisted_domain d = blacklisted_domain c /\ blacklisted_ip d = blacklisted_ip c /\
  to_block d = to_block c || fw_enabled f && opt_match (fw_bl f) (fun bl =>
    blacklist_match_ip bl (dst_ip tuple) (ipver tuple) || blacklist_match_uid bl (conn_uid c)).
Proof.
  unfold firewall_step, same_conn. destruct (fw_bl f) as [bl|]; simpl; [|by rewrite andb_false_r, orb_false_r].
  destruct (fw_enabled f); simpl; [|by rewrite orb_false_r].
  by destruct (to_block c) eqn:E.
Qed.

Lemma whitelist_step_fields f tuple c :
  let d := whitelist_step f tuple c in
  same_conn c d /\ blacklisted_domain d = blacklisted_domain c /\ blacklisted_ip d = blacklisted_ip c /\
  to_block d = to_block c || wl_blocks f tuple c.
Proof. unfold whitelist_step, same_conn. by destruct (to_block c) eqn:E. Qed.

Lemma checks_policy f m tuple c :
  to_block c = false -> blacklisted_internal c = false -> blacklisted_ip c = false ->
  blacklisted_domain c = false -> whitelisted_app c = negb (bad_app m (conn_uid c)) ->
  new_conn_checked f m tuple (conn_uid c)
    (whitelist_step f tuple (firewall_step f tuple (ip_step m tuple (domain_step f m c)))).
Proof.
  intros E1 E2 E3 E4 E5.
  destruct (domain_step_fields f m c E1 E4 E5) as ((Ua & Ia & Na) & Wa & Pa & Da & Ba).
  set (d1 := domain_step f m c) in *.
  destruct (ip_step_fields f m tuple d1) as ((Ub & Ib & Nb) & Db & Pb & Bb); [by rewrite Wa, Ua|by rewrite Pa|].
  set (d2 := ip_step m tuple d1) in *.
  destruct (firewall_step_fields f tuple d2) as ((Uc & Ic & Nc) & Dc & Pc & Bc).
  set (d3 := firewall_step f tuple d2) in *.
  destruct (whitelist_step_fields f tuple d3) as ((Ud & Id & Nd) & Dd & Pd & Bd).
  set (d4 := whitelist_step f tuple d3) in *. clearbody d1 d2 d3 d4.
  unfold new_conn_checked, block_policy, malicious, fw_blocks.
  assert (wl_blocks f tuple d4 = wl_blocks f tuple d3) as Hwl by (unfold wl_blocks; by rewrite Ud).
  rewrite Hwl, Bd, Bc, Bb, Ba, Nd, Nc, Nb, Na, E2, Pd, Pc, Pb, Dd, Dc, Db, Da, Id, Ic, Ib, Ia, Ud, Uc, Ub, Ua.
  split_and!; try done. clear.
  destruct (wl_blocks f tuple d3); [by rewrite !orb_true_r|]. rewrite !orb_false_r.
  destruct (bad_ip m tuple (conn_uid c)); [done|]. simpl.
  destruct (opt_match _ (fun host => bad_domain m host (conn_uid c))); [done|]. simpl.
  destruct (fw_enabled f); [|done]. simpl. destruct (fw_bl f) as [bl|]; [|done]. simpl.
  destruct (opt_match _ (blacklist_match_domain bl)), (blacklist_match_ip bl _ _), (blacklist_match_uid bl _); done.
Qed.

Lemma setup_connection_step tuple uid p c f m s :
  tracks p c f m s -> to_block c = false -> blacklisted_internal c = false -> blacklisted_ip c = false ->
  blacklisted_domain c = false -> whitelisted_app c = false ->
  wlp (setup_connection java_app_name tuple uid p)
    (fun _ s' => exists d, tracks p d f m s' /\ new_conn_checked f m tuple uid d) s.
Proof.
  intros Ht E1 E2 E3 E4 E5. unfold setup_connection. do 7 track_call.
  revert Ht. set (c1 := upd _ _ _). intros Ht. assert (whitelisted_app c1 = false) as Hw by done.
  eapply wlp_mono; [by apply (check_whitelisted_app_step uid p c1 f m)|]. intros [] s1 Ht1. cbv beta in Ht1.
  apply wlp_bind. eapply wlp_mono; [by apply resolve_from_lru_step|].
  intros [] s2 (c2 & Eu & Ew & Eb & Ei & Ep & Ed & Ht2). apply wlp_bind.
  eapply wlp_mono; [by apply check_blacklisted_ip_step|]. intros [] s3 Ht3. apply wlp_bind.
  eapply wlp_mono; [by apply check_firewall_step|]. intros [] s4 Ht4.
  eapply wlp_mono; [by apply check_whitelist_mode_block_step|]. intros [] s5 Ht5. cbv beta in Ht5.
  eexists. split; [exact Ht5|]. change uid with (conn_uid (c1 <| whitelisted_app := negb (bad_app m uid) |>)).
  rewrite <- Eu. apply checks_policy; [by rewrite Eb|by rewrite Ei|by rewrite Ep|by rewrite Ed|by rewrite Ew, Eu].
Qed.

Lemma notif_connection_step a tuple p c f m s :
  tracks p c f m s -> status c < CONN_STATUS_CLOSED ->
  wlp (notif_connection java_app_name a tuple p)
    (fun _ s' => exists b, tracks p (c <| pending_notification := b |>) f m s') s.
Proof.
  intros Ht Es. assert (c = c <| pending_notification := pending_notification c |>) as Hc by by destruct c.
  assert (forall s', tracks p c f m s' -> exists b, tracks p (c <| pending_notification := b |>) f m s') as Hid.
  { intros s' Hs'. exists (pending_notification c). by rewrite <- Hc. }
  unfold notif_connection. do 4 track_call; [lia|].
  unfold enqueue. do 2 track_call. destruct (pending_notification c); [track_call; auto|].
  apply wlp_bind, wlp_mono with (fun _ s' => tracks p c f m s').
  { unfold extend_array, set_arr. do 2 track_call. destruct (cur_items _ >=? arr_size _); [|by tracking].
    unfold realloc_ok. do 6 track_call. destruct a, (next_outcome _); tracking; done. }
  clear s Ht. intros rv s Ht. cbv beta in Ht. destruct (rv <? 0); [track_call; auto|].
  do 2 track_call. track_call. apply wlp_of_option. intros arr _. unfold set_arr. destruct a; do 5 track_call; by exists true.
Qed.

(** C12: a connection that [pd_new_connection] creates is blocked exactly when
    the policy says so: some list of malicious hosts or addresses marked it
    and no malware whitelist excuses it, the block list of the firewall has
    its application, its address or its host, or the firewall works with a
    whitelist that its application is not in. The two malware flags are what
    the lists say of the address and of the host taken from the DNS cache. *)
Theorem new_connection_policy strict tuple uid s :
  inv None strict s ->
  wp (pd_new_connection java_app_name tuple uid)
     (fun r s' => forall p, r = Some p ->
        exists c, heap s' !! p = Some c /\ new_conn_checked (fw s) (malware s) tuple uid c) s.
Proof.
  intros Hi. eapply wp_mono.
  { apply wp_wlp; [exact (pd_new_connection_inv java_app_name strict tuple uid s Hi)|].
    instantiate (1 := fun r s' => forall p, r = Some p ->
        exists c, heap s' !! p = Some c /\ new_conn_checked (fw s) (malware s) tuple uid c). clear Hi.
    unfold pd_new_connection, calloc_conn, malloc_ok. wlp_steps. destruct (next_outcome _).
    2:{ wlp_steps. by intros p [=]. }
    wlp_steps. set (p := next_ptr _). match goal with |- wlp _ _ ?a =>
      assert (tracks p zero_conn (fw s) (malware s) a) as Ht by (split; [apply lookup_insert_eq|done]) end.
    revert Ht. match goal with |- tracks _ _ _ _ ?a -> _ => generalize a end. clearbody p. intros s1 Ht.
    destruct (negb _).
    { apply wlp_bind. eapply wlp_mono; [by apply wlp_true|]. intros. apply wlp_ret. by intros ? [=]. }
    do 3 track_call.
    eapply wlp_mono; [by eapply notif_connection_step|]. intros rv s2 [b Ht2]. cbv beta.
    destruct (rv <? 0).
    { apply wlp_bind. eapply wlp_mono; [by apply wlp_true|]. intros. apply wlp_ret. by intros ? [=]. }
    apply wlp_bind. eapply wlp_mono; [by eapply setup_connection_step|].
    intros [] s3 (d & [Hd _] & Hc). apply wlp_ret. intros ? [= <-]. eauto. }
  intros r s' [_ HQ]. exact HQ.
Qed.

(** C32: when the lists change, the check that goes over the active connections
    leaves each of them that is not closed blocked exactly when the policy says
    so with the lists of now, the malware flags of the record taken as they
    are. *)
Theorem check_blocked_conn_policy strict p c tuple s :
  inv None strict s -> heap s !! p = Some c -> status c < CONN_STATUS_CLOSED ->
  wp (check_blocked_conn_cb java_app_name tuple p)
     (fun _ s' => exists d, heap s' !! p = Some d /\ to_block d = block_policy (fw s) tuple c) s.
Proof.
  intros Hi Hc Hs. eapply wp_mono.
  { apply wp_wlp; [exact (check_blocked_conn_cb_settled java_app_name strict tuple p c s Hc Hi)|].
    instantiate (1 := fun _ s' => exists d, heap s' !! p = Some d /\ to_block d = block_policy (fw s) tuple c).
    clear Hi. assert (tracks p c (fw s) (malware s) s) as Ht by done.
    revert Ht. generalize (fw s), (malware s). intros f m Ht.
    unfold check_blocked_conn_cb. do 4 track_call. cbv zeta. do 3 track_call. revert Ht.
    set (c1 := upd _ _ c). intros Ht.
    eapply wlp_mono; [by apply check_whitelist_mode_block_step|]. clear Ht. intros [] s1 Ht.
    destruct (whitelist_step_fields f tuple c1) as (_ & _ & _ & Hb).
    assert (to_block (whitelist_step f tuple c1) = block_policy f tuple c) as Hp.
    { rewrite Hb. unfold block_policy, malicious, fw_blocks.
      change (wl_blocks f tuple c1) with (wl_blocks f tuple c). f_equal.
      change (to_block c1) with (match fw_bl f with
        | Some bl => if negb (malicious c) && fw_enabled f then
            blacklist_match_uid bl (conn_uid c) || blacklist_match_ip bl (dst_ip tuple) (ipver tuple) ||
            opt_match (nonempty (info c)) (blacklist_match_domain bl) else malicious c
        | None => malicious c end).
      change (blacklisted_internal c || blacklisted_ip c || blacklisted_domain c) with (malicious c).
      destruct (fw_bl f) as [bl|]; simpl; [|by rewrite andb_false_r, orb_false_r].
      destruct (malicious c); [done|]. by destruct (fw_enabled f). }
    assert (status (whitelist_step f tuple c1) < CONN_STATUS_CLOSED) as Hst.
    { unfold whitelist_step. by destruct (to_block c1). }
    revert Ht Hp Hst. generalize (whitelist_step f tuple c1). clear c1 Hb. intros c2 Ht Hp Hst.
    assert (forall c' s', tracks p c' f m s' -> to_block c' = to_block c2 ->
      exists d, heap s' !! p = Some d /\ to_block d = block_policy f tuple c) as Hend.
    { intros c' s2 [Hc' _] Hb. exists c'. split; [done|]. by rewrite Hb. }
    do 3 track_call; [|by eapply Hend]. do 3 track_call.
    eapply wlp_mono; [by eapply notif_connection_step|]. intros rv s2 [b Ht2]. apply wlp_ret. by eapply Hend. }
  intros [] s' [_ HQ]. exact HQ.
Qed.
End policy.
#[local] Existing Instance libpcap_mode.

(** *** A connection of a blocked application to a host of the malware list *)
Definition ex_list : blacklist (list Z) := mk_blacklist [] [(10010, tt)] [] (mk_stats 1 0 0 1 0).
Definition ex_fw : firewall (list Z) := mk_firewall true (Some ex_list) None false None None.
Definition ex_blocking : pcapdroid (list Z) Z := ex_start <| fw := ex_fw |>.

Lemma ex_blocking_inv : inv None true ex_blocking.
Proof. pose proof ex_start_inv as Hi. destruct Hi. by split. Qed.

Lemma ex_blocking_new :
  fst <$> pd_new_connection ex_app_name ex_tuple 10010 ex_blocking = Some (Some 1).
Proof. reflexivity. Qed.

Lemma new_connection_policy_witness :
  exists c s', pd_new_connection ex_app_name ex_tuple 10010 ex_blocking = Some (Some 1, s') /\
    heap s' !! 1 = Some c /\ to_block c = true.
Proof.
  pose proof ex_blocking_new as E.
  pose proof (new_connection_policy ex_app_name true ex_tuple 10010 ex_blocking ex_blocking_inv) as Hw.
  unfold wp in Hw. destruct (pd_new_connection _ _ _ ex_blocking) as [[r s']|]; [|discriminate E].
  injection E as ->. destruct (Hw 1 eq_refl) as (c & Hc & Hu & _ & _ & Hb). exists c, s'.
  split; [done|]. split; [exact Hc|]. rewrite Hb. unfold block_policy, fw_blocks. rewrite Hu.
  apply orb_true_iff. left. apply orb_true_iff. right. reflexivity.
Defined.

(** A connection of the application that was open before the list came. *)
Definition ex_conn : pd_conn Z := zero_conn <| conn_uid := 10010 |> <| status := CONN_STATUS_CONNECTED |>.
Definition ex_open : pcapdroid (list Z) Z :=
  ex_blocking <| heap := {[1 := ex_conn]} |> <| next_ptr := 2 |> <| connections := [(ex_tuple, 1)] |>
              <| zstats := zero_zstats <| num_tcp_conn := 1 |> |>.

Lemma ex_open_inv : inv None false ex_open.
Proof.
  destruct ex_blocking_inv as [? ? ? ? ? ? ? ? ? ? ? ? ? ? ? _ _]. split; try done.
  - by intros p ?%elem_of_nil.
  - intros _. apply NoDup_singleton.
  - apply NoDup_singleton.
  - intros p ->%list_elem_of_singleton. exists ex_conn. done.
  - intros p c Hp. apply (lookup_singleton_Some (M := gmap Z) 1 p ex_conn c) in Hp as [<- <-]. done.
Qed.

Lemma check_blocked_conn_policy_witness :
  exists s' d, check_blocked_conn_cb ex_app_name ex_tuple 1 ex_open = Some (tt, s') /\
    heap s' !! 1 = Some d /\ to_block d = true.
Proof.
  pose proof (check_blocked_conn_policy ex_app_name false 1 ex_conn ex_tuple ex_open ex_open_inv
    eq_refl ltac:(reflexivity)) as Hw.
  unfold wp in Hw. destruct (check_blocked_conn_cb _ _ _ _) as [[[] s']|]; [|done].
  destruct Hw as (d & Hd & Hb). exists s', d. split; [done|]. split; [exact Hd|]. rewrite Hb. reflexivity.
Defined.
