(* ===== verification/Accounting.v ===== *)
(** The statistics (core/pcapdroid.c, pd_account_stats): over any sequence of
    packets the counters of the connections and of the capture are the sums of
    the packets, as long as they fit their width. *)
From Stdlib Require Import ZArith Lia.
From stdpp Require Import base option gmap numbers list.
From S2P Require Import Prelude Packet Uthash PcapDump Blacklist NdpiProtos Conn ConnInv Examples JavaDump Dpi.
From S2P Require Import Housekeeping CaptureLibpcap PdRun ConnStatus Policy.

Open Scope Z_scope.

(** ** Counters *)
Record counters := mk_counters {
  ct_sent_bytes : Z; ct_rcvd_bytes : Z; ct_sent_pkts : Z; ct_rcvd_pkts : Z; ct_payload : Z
}.

(** What a packet adds, and the sum of a sequence of packets. *)
Definition pkt_counters (pctx : pkt_context) : counters :=
  let n := pkt_len (pctx_pkt pctx) in
  let l7 := l7_len (pctx_pkt pctx) in
  if pctx_is_tx pctx then mk_counters n 0 1 0 l7 else mk_counters 0 n 0 1 l7.

Definition add_counters (a b : counters) : counters :=
  mk_counters (ct_sent_bytes a + ct_sent_bytes b) (ct_rcvd_bytes a + ct_rcvd_bytes b)
    (ct_sent_pkts a + ct_sent_pkts b) (ct_rcvd_pkts a + ct_rcvd_pkts b) (ct_payload a + ct_payload b).

Definition sum_counters (l : list pkt_context) (a : counters) : counters :=
  fold_left (fun a pctx => add_counters a (pkt_counters pctx)) l a.

Definition zero_counters : counters := mk_counters 0 0 0 0 0.
Definition nonneg (a : counters) : Prop :=
  0 <= ct_sent_bytes a /\ 0 <= ct_rcvd_bytes a /\ 0 <= ct_sent_pkts a /\ 0 <= ct_rcvd_pkts a /\ 0 <= ct_payload a.

(** The counters fit: 63 bits for the bytes and 31 for the packets. *)
Definition fits (a : counters) : Prop :=
  nonneg a /\ ct_sent_bytes a < 2 ^ 63 /\ ct_rcvd_bytes a < 2 ^ 63 /\ ct_payload a < 2 ^ 63 /\
  ct_sent_pkts a < 2 ^ 31 /\ ct_rcvd_pkts a < 2 ^ 31.

Definition pctx_nonneg (pctx : pkt_context) : Prop :=
  0 <= pkt_len (pctx_pkt pctx) /\ 0 <= l7_len (pctx_pkt pctx).

Lemma add_counters_0 a : add_counters a zero_counters = a.
Proof. destruct a. unfold add_counters, zero_counters. simpl. f_equal; lia. Qed.
Lemma add_counters_assoc a b c : add_counters (add_counters a b) c = add_counters a (add_counters b c).
Proof. destruct a, b, c. unfold add_counters. simpl. f_equal; lia. Qed.

Lemma sum_counters_add l a : sum_counters l a = add_counters a (sum_counters l zero_counters).
Proof.
  revert a. induction l as [|x l IH]; intros a; [by rewrite add_counters_0|].
  change (sum_counters (x :: l) ?a) with (sum_counters l (add_counters a (pkt_counters x))).
  rewrite IH, (IH (add_counters zero_counters _)), add_counters_assoc. by destruct (pkt_counters x).
Qed.

Lemma pkt_counters_nonneg pctx : pctx_nonneg pctx -> nonneg (pkt_counters pctx).
Proof. intros []. unfold pkt_counters, nonneg. destruct (pctx_is_tx pctx); simpl; lia. Qed.

Lemma sum_counters_nonneg l a : Forall pctx_nonneg l -> nonneg a -> nonneg (sum_counters l a).
Proof.
  intros Hl. revert a. induction Hl as [|x l Hx _ IH]; intros a Ha; [done|]. apply IH.
  pose proof (pkt_counters_nonneg x Hx) as Hn. unfold nonneg in *. simpl. lia.
Qed.

(** Fewer packets fit as well. *)
Lemma fits_le a b : nonneg a -> nonneg b -> fits (add_counters a b) -> fits a.
Proof. unfold fits, nonneg. simpl. lia. Qed.

Lemma fits_head x l a :
  pctx_nonneg x -> Forall pctx_nonneg l -> nonneg a -> fits (sum_counters (x :: l) a) ->
  fits (add_counters a (pkt_counters x)) /\ fits (sum_counters l a) /\ fits a.
Proof.
  intros Hx Hl Ha. pose proof (pkt_counters_nonneg x Hx) as Hp.
  pose proof (sum_counters_nonneg l zero_counters Hl ltac:(unfold nonneg; simpl; lia)) as Hn.
  change (sum_counters (x :: l) a) with (sum_counters l (add_counters a (pkt_counters x))).
  rewrite sum_counters_add, (sum_counters_add l a). unfold fits, nonneg in *. simpl. lia.
Qed.

Lemma s64_small z : 0 <= z < 2 ^ 63 -> s64 z = z.
Proof. intros Hz. unfold s64. rewrite Z.mod_small; lia. Qed.

(** ** Fields of the records that a computation leaves alone *)
Section fields.
Context {P F : Type}.
Abbreviation state := (pcapdroid P F).

Definition fields {X} (g : pd_conn F -> X) (s : state) : gmap conn_ptr X := g <$> heap s.

Lemma fields_modify_conn {X} (g : pd_conn F -> X) p (f : pd_conn F -> pd_conn F) :
  (forall c, g (f c) = g c) -> preserves (fields g) (modify_conn p f).
Proof.
  intros Hf. unfold modify_conn, deref. intros s a s' E. unfold mbind, M_bind, gets, of_option, modify in E.
  destruct (heap s !! p) as [c|] eqn:Hc; [|done]. injection E as <- <-.
  unfold fields. change (heap (upd _ _ s)) with (<[p := f c]> (heap s)).
  rewrite fmap_insert, Hf, insert_id; [done|]. by rewrite lookup_fmap, Hc.
Qed.

Lemma preserves_pair {X Y A} (f : state -> X) (g : state -> Y) (m : M state A) :
  preserves f m -> preserves g m -> preserves (fun s => (f s, g s)) m.
Proof. intros Hf Hg s a s' E. f_equal; [by eapply Hf|by eapply Hg]. Qed.
End fields.

Ltac same_fields :=
  repeat first [preserves_step
    | apply fields_modify_conn; intros ?; unfold process_alpn, set_update; repeat (case_match || done)
    | solve [auto with preserves]].
Ltac same_state :=
  repeat first [preserves_step | apply preserves_modify; intros ?; repeat (case_match || done) | solve [auto with preserves]].
(** The steps of a notification. *)
Ltac notify_steps :=
  unfold pd_notify_connection_update, notif_connection, enqueue, extend_array, set_arr,
    pd_giveup_dpi, process_ndpi_data, check_blacklisted_domain, log_appname, vpn_process_ndpi,
    conn_free_ndpi, pd_strndup, strndup_ok, malloc_ok, realloc_ok, deref.

Section accounting.
Context {P F : Type} `{Ndpi P} `{NdpiFlow F} {cmode : CaptureMode} (java_app_name : Z -> option bytes).
Abbreviation state := (pcapdroid P F).
Implicit Types (s : state) (c : pd_conn F) (p : conn_ptr) (cs : capture_stats_t).

Definition conn_counters c : counters :=
  mk_counters (sent_bytes c) (rcvd_bytes c) (sent_pkts c) (rcvd_pkts c) (payload_length c).

(** The capture does not count the payload. *)
Definition without_payload (a : counters) : counters :=
  mk_counters (ct_sent_bytes a) (ct_rcvd_bytes a) (ct_sent_pkts a) (ct_rcvd_pkts a) 0.
Definition capture_counters cs : counters :=
  mk_counters (cs_sent_bytes cs) (cs_rcvd_bytes cs) (cs_sent_pkts cs) (cs_rcvd_pkts cs) 0.

Definition view s : gmap conn_ptr counters * counters :=
  (fields conn_counters s, capture_counters (capture_stats s)).

(** *** Nothing but the accounting changes the counters *)
Lemma notify_view tuple p : preserves view (pd_notify_connection_update java_app_name tuple p).
Proof. apply preserves_pair; notify_steps; [same_fields|unfold modify_conn, deref; same_state]. Qed.

Lemma dump_packet_view buf len tv uid : preserves view (pd_dump_packet java_app_name buf len tv uid).
Proof.
  unfold pd_dump_packet, stop_pcap_dump, set_dumper, stopPcapDump, call_java, malloc_ok.
  apply preserves_pair; [same_fields|same_state].
Qed.

(** *** One packet *)
Lemma account_conn_counters pctx c :
  fits (add_counters (conn_counters c) (pkt_counters pctx)) ->
  conn_counters (account_conn (pctx_pkt pctx) (pctx_is_tx pctx) c) =
    add_counters (conn_counters c) (pkt_counters pctx).
Proof.
  unfold fits, nonneg, pkt_counters, account_conn, conn_counters, add_counters. cbv zeta.
  destruct (pctx_is_tx pctx); simpl; intros Hf;
    rewrite !s64_small, s32_small by lia; f_equal; lia.
Qed.

Lemma account_capture_counters pctx cs :
  fits (add_counters (capture_counters cs) (pkt_counters pctx)) ->
  capture_counters (account_capture (pctx_pkt pctx) (pctx_is_tx pctx) cs) =
    without_payload (add_counters (capture_counters cs) (pkt_counters pctx)).
Proof.
  unfold fits, nonneg, pkt_counters, account_capture, capture_counters, without_payload, add_counters. cbv zeta.
  destruct (pctx_is_tx pctx); simpl; intros Hf;
    rewrite s64_small, s32_small by lia; f_equal; lia.
Qed.

Lemma pd_account_stats_view pctx c s :
  heap s !! pctx_data pctx = Some c ->
  fits (add_counters (conn_counters c) (pkt_counters pctx)) ->
  fits (add_counters (capture_counters (capture_stats s)) (pkt_counters pctx)) ->
  wlp (pd_account_stats java_app_name pctx) (fun _ s' =>
    view s' = (<[pctx_data pctx := add_counters (conn_counters c) (pkt_counters pctx)]> (view s).1,
               without_payload (add_counters (view s).2 (pkt_counters pctx)))) s.
Proof.
  intros Hc Hf1 Hf2. unfold pd_account_stats. cbv zeta. apply wlp_bind.
  unfold modify_conn at 1, deref. do 3 wlp_step. apply wlp_of_option. rewrite Hc. intros c0 [= <-].
  do 3 wlp_step. match goal with |- wlp _ _ ?s' => set (s1 := s') end.
  assert (view s1 = (<[pctx_data pctx := add_counters (conn_counters c) (pkt_counters pctx)]> (view s).1,
               without_payload (add_counters (view s).2 (pkt_counters pctx)))) as <-.
  { unfold view, fields, s1. cbn [fst snd]. rewrite <- (account_capture_counters pctx (capture_stats s) Hf2).
    f_equal. rewrite <- account_conn_counters by done. apply fmap_insert. }
  clearbody s1. apply wlp_preserves. apply preserves_bind.
  { apply preserves_pair; [same_fields|unfold modify_conn, deref; same_state]. }
  intros _. preserves_steps.
  - apply notify_view.
  - apply dump_packet_view.
Qed.

Lemma account_step strict pctx c s :
  inv None strict s -> pkt_ok (pctx_pkt pctx) -> pctx_data pctx ∈ table_ptrs s ->
  heap s !! pctx_data pctx = Some c ->
  fits (add_counters (conn_counters c) (pkt_counters pctx)) ->
  fits (add_counters (capture_counters (capture_stats s)) (pkt_counters pctx)) ->
  wp (pd_account_stats java_app_name pctx) (fun _ s' =>
    inv None strict s' /\ table_ptrs s' = table_ptrs s /\
    view s' = (<[pctx_data pctx := add_counters (conn_counters c) (pkt_counters pctx)]> (view s).1,
               without_payload (add_counters (view s).2 (pkt_counters pctx)))) s.
Proof.
  intros Hi Hpkt Ht Hc Hf1 Hf2.
  destruct (inv_table_live _ _ _ Hi _ Ht) as (c0 & Hc0 & Hp0). rewrite Hc in Hc0. injection Hc0 as <-.
  specialize (Hp0 ltac:(done)).
  eapply wp_mono; [apply wp_wlp; [apply (pd_account_stats_inv java_app_name (Some (pctx_data pctx)) strict); [done|apply (inv_unsettle strict); exact Hi|by eexists]|
    by apply (pd_account_stats_view pctx c)]|].
  intros [] s' [(Hi' & Hcm & _ & c' & Hc' & Hu') Hv]. split; [|split; [|done]].
  - assert (table_ptrs s' = table_ptrs s) as Ht' by (unfold table_ptrs; by rewrite (cm_connections _ _ Hcm)).
    destruct (cm_heap _ _ Hcm _ c Hc) as (c2 & Hc2 & Hp2 & _). rewrite Hc' in Hc2. injection Hc2 as <-.
    apply (inv_settle strict s' (pctx_data pctx) c'); try done.
    + intros _. by rewrite Hp2.
    + intros _. left. by rewrite Ht'.
  - unfold table_ptrs. by rewrite (cm_connections _ _ Hcm).
Qed.

(** *** Any sequence *)
Lemma without_payload_sum l a : without_payload (sum_counters l (without_payload a)) = without_payload (sum_counters l a).
Proof. by rewrite (sum_counters_add l a), (sum_counters_add l (without_payload a)). Qed.

Lemma fits_without_payload l a :
  Forall pctx_nonneg l -> nonneg a -> fits (sum_counters l a) -> fits (sum_counters l (without_payload a)).
Proof.
  intros Hl Ha. rewrite (sum_counters_add l a), (sum_counters_add l (without_payload a)).
  pose proof (sum_counters_nonneg l zero_counters Hl ltac:(unfold nonneg; simpl; lia)) as Hn.
  unfold fits, nonneg in *. simpl. lia.
Qed.

Lemma add_counters_nonneg a b : nonneg a -> nonneg b -> nonneg (add_counters a b).
Proof. unfold nonneg. simpl. lia. Qed.

Lemma without_payload_nonneg a : nonneg a -> nonneg (without_payload a).
Proof. unfold nonneg. simpl. lia. Qed.

(** The counters of a record before and after a step that changes one of them. *)
Lemma counters_inserted s s1 q k p c1 :
  conn_counters <$> heap s1 = <[q := k]> (conn_counters <$> heap s) -> heap s1 !! p = Some c1 ->
  (p = q /\ conn_counters c1 = k) \/
  (p <> q /\ exists c, heap s !! p = Some c /\ conn_counters c1 = conn_counters c).
Proof.
  intros Hh Hc1. assert ((conn_counters <$> heap s1) !! p = Some (conn_counters c1)) as Hl
    by by rewrite lookup_fmap, Hc1.
  rewrite Hh in Hl. destruct (decide (p = q)) as [->|Hne].
  - rewrite lookup_insert_eq in Hl. apply (inj Some) in Hl. by left.
  - rewrite lookup_insert_ne, lookup_fmap in Hl by done. right. split; [done|].
    destruct (heap s !! p) as [c|]; [|done]. apply (inj Some) in Hl. by exists c.
Qed.

Lemma counters_inserted_live s s1 q k p c :
  conn_counters <$> heap s1 = <[q := k]> (conn_counters <$> heap s) -> heap s !! p = Some c ->
  exists c1, heap s1 !! p = Some c1.
Proof.
  intros Hh Hc. assert (is_Some ((conn_counters <$> heap s1) !! p)) as Hl.
  { rewrite Hh. destruct (decide (p = q)) as [->|]; [by rewrite lookup_insert_eq; eexists|].
    rewrite lookup_insert_ne, lookup_fmap, Hc by done. by eexists. }
  rewrite lookup_fmap in Hl. destruct (heap s1 !! p) as [c1|]; [by exists c1|by destruct Hl].
Qed.

Definition of_conn p (l : list pkt_context) : list pkt_context := filter (fun x => pctx_data x = p) l.

(** C27: over any sequence of packets of connections of the table - each one
    accounted with its notification and its dump to the file, that may end the
    dump -, the counters of every connection grow by exactly the sum of its
    own packets, and those of the capture by the sum of all of them, as long
    as the sums fit in 63 bits for bytes and 31 for packets. *)
Theorem account_stats_sums strict l s :
  inv None strict s ->
  Forall (fun x => pkt_ok (pctx_pkt x) /\ pctx_nonneg x /\ pctx_data x ∈ table_ptrs s) l ->
  (forall p c, heap s !! p = Some c -> nonneg (conn_counters c) /\ fits (sum_counters l (conn_counters c))) ->
  nonneg (capture_counters (capture_stats s)) -> fits (sum_counters l (capture_counters (capture_stats s))) ->
  exists s', for_each (pd_account_stats java_app_name) l s = Some (tt, s') /\ inv None strict s' /\
    (forall p c, heap s !! p = Some c -> exists c', heap s' !! p = Some c' /\
       conn_counters c' = sum_counters (of_conn p l) (conn_counters c)) /\
    capture_counters (capture_stats s') =
      without_payload (sum_counters l (capture_counters (capture_stats s))).
Proof.
  revert s. induction l as [|x l IH]; intros s Hi Hl Hfit Hn Hcap.
  { exists s. split; [done|]. split; [done|]. split; [|done]. intros p c Hc. by exists c. }
  apply Forall_cons in Hl as [(Hpkt & Hx & Ht) Hl].
  assert (Forall pctx_nonneg l) as Hnl by (eapply Forall_impl; [exact Hl|]; by intros ? (_ & ? & _)).
  destruct (inv_table_live _ _ _ Hi _ Ht) as (c & Hc & _).
  destruct (Hfit _ c Hc) as [Hcn Hcf]. destruct (fits_head x l _ Hx Hnl Hcn Hcf) as (Hf1 & _).
  destruct (fits_head x l _ Hx Hnl Hn Hcap) as (Hf2 & _).
  pose proof (account_step strict x c s Hi Hpkt Ht Hc Hf1 Hf2) as Hw. unfold wp in Hw.
  simpl for_each. unfold mbind, M_bind. destruct (pd_account_stats java_app_name x s) as [[[] s1]|]; [|done].
  destruct Hw as (Hi1 & Ht1 & Hv). apply pair_equal_spec in Hv as [Hh Hs]. cbn [fst snd view] in Hh, Hs. unfold fields in Hh.
  destruct (IH s1 Hi1) as (s' & E & Hi' & Hcs & Hcap').
  - eapply Forall_impl; [exact Hl|]. by rewrite Ht1.
  - intros p c1 Hc1. destruct (counters_inserted _ _ _ _ _ _ Hh Hc1) as [[-> ->]|(_ & c0 & Hc0 & ->)].
    + split; [|exact Hcf]. by apply add_counters_nonneg, pkt_counters_nonneg.
    + destruct (Hfit p c0 Hc0) as [Hn0 Hf0]. split; [done|]. by destruct (fits_head x l _ Hx Hnl Hn0 Hf0) as (_ & ? & _).
  - rewrite Hs. by apply without_payload_nonneg, add_counters_nonneg, pkt_counters_nonneg.
  - rewrite Hs. apply fits_without_payload; [done| |exact Hcap]. by apply add_counters_nonneg, pkt_counters_nonneg.
  - exists s'. split; [exact E|]. split; [done|]. split.
    + intros p c0 Hc0. destruct (counters_inserted_live _ _ _ _ _ _ Hh Hc0) as [c1 Hc1].
      destruct (Hcs p c1 Hc1) as (c' & Hc' & Ec). exists c'. split; [done|]. rewrite Ec.
      unfold of_conn. rewrite filter_cons.
      destruct (counters_inserted _ _ _ _ _ _ Hh Hc1) as [[-> ->]|(Hne & c2 & Hc2 & ->)].
      * rewrite decide_True by done. rewrite Hc in Hc0. by injection Hc0 as ->.
      * rewrite decide_False by done. rewrite Hc2 in Hc0. by injection Hc0 as ->.
    + rewrite Hcap', Hs. change (sum_counters (x :: l) ?a) with (sum_counters l (add_counters a (pkt_counters x))).
      apply without_payload_sum.
Qed.
End accounting.
#[local] Existing Instance libpcap_mode.

(** *** Two packets of the open connection of the example *)
Definition ex_acct (is_tx : bool) : pkt_context := mk_pctx (ex_tcp_pkt TH_ACK) (mk_tv 1 0) 1000 is_tx ex_tuple 1.

Lemma account_stats_sums_witness :
  exists s' c', for_each (pd_account_stats ex_app_name) [ex_acct true; ex_acct false] ex_open = Some (tt, s') /\
    heap s' !! 1 = Some c' /\ conn_counters c' = mk_counters 40 40 1 1 0.
Proof.
  destruct (account_stats_sums ex_app_name false [ex_acct true; ex_acct false] ex_open ex_open_inv)
    as (s' & E & _ & Hc & _).
  - assert (forall b, pkt_ok (pctx_pkt (ex_acct b)) /\ pctx_nonneg (ex_acct b) /\ pctx_data (ex_acct b) ∈ table_ptrs ex_open) as Hx.
    { intros b. split; [|split; [done|apply list_elem_of_here]]. split; [repeat constructor; done|..];
        vm_compute; repeat split; discriminate. }
    do 2 (apply Forall_cons; split; [apply Hx|]). constructor.
  - intros p c Hp. apply (lookup_singleton_Some (M := gmap Z) 1 p ex_conn c) in Hp as [<- <-].
    split; repeat split; cbn; lia.
  - repeat split; cbn; lia.
  - repeat split; cbn; lia.
  - destruct (Hc 1 ex_conn eq_refl) as (c' & Hc' & Ec). exists s', c'. split; [exact E|]. split; [exact Hc'|]. exact Ec.
Defined.
