(* ===== verification/Payload.v ===== *)
(** The payload of the connections (core/pcapdroid.c, process_payload and
    core/jni_impl.c, dumpPayloadChunk): what is kept for the Java side of a
    sequence of packets, and what the flag of the truncated payload means. *)
From Stdlib Require Import ZArith Lia.
From stdpp Require Import base option gmap numbers list.
From S2P Require Import Prelude Packet Uthash PcapDump Blacklist NdpiProtos Conn ConnInv Examples JavaDump Dpi.
From S2P Require Import Housekeeping CaptureLibpcap PdRun ConnStatus Policy Accounting.

Open Scope Z_scope.

(** ** What a sequence of packets leaves *)
Definition payload_of (n : Z) (x : pkt_context) : bytes :=
  slice (pkt_buf (pctx_pkt x)) (l7_off (pctx_pkt x)) n.

(** A chunk without the type given by the detection. *)
Definition chunk_key (ch : payload_chunk) : bool * Z * bytes := (ch_is_tx ch, ch_ms ch, ch_data ch).

(** The bytes kept of a packet, and the whole payload. *)
Definition clipped (minimal : bool) (x : pkt_context) : Z :=
  let n := l7_len (pctx_pkt x) in
  if minimal && (n >? MINIMAL_PAYLOAD_MAX_DIRECTION_SIZE) then MINIMAL_PAYLOAD_MAX_DIRECTION_SIZE else n.
Definition kept_key (minimal : bool) (x : pkt_context) : bool * Z * bytes :=
  (pctx_is_tx x, pctx_ms x, payload_of (clipped minimal x) x).
Definition whole_key (x : pkt_context) : bool * Z * bytes :=
  (pctx_is_tx x, pctx_ms x, payload_of (l7_len (pctx_pkt x)) x).

(** The chunks, the flag and the two directions seen of a record. *)
Definition pview := (list payload_chunk * bool * (bool * bool))%type.
Definition has_dir (is_tx : bool) (v : pview) : bool := if is_tx then v.2.1 else v.2.2.

(** One packet; [ok]: the Java objects could be created. *)
Definition payload_step (minimal ok http : bool) (x : pkt_context) (v : pview) : pview :=
  let '(chunks, trunc, (tx, rx)) := v in
  if l7_len (pctx_pkt x) <=? 0 then v
  else if minimal && has_dir (pctx_is_tx x) v then (chunks, true, (tx, rx))
  else if ok then
    (chunks ++ [mk_chunk http (pctx_is_tx x) (pctx_ms x) (payload_of (clipped minimal x) x)],
     trunc || (minimal && (l7_len (pctx_pkt x) >? MINIMAL_PAYLOAD_MAX_DIRECTION_SIZE)),
     if pctx_is_tx x then (true, rx) else (tx, true))
  else (chunks, true, (tx, rx)).

(** ** What the steps keep *)
Definition with_payload (l : list pkt_context) : list pkt_context :=
  filter (fun x => 0 < l7_len (pctx_pkt x)) l.

Definition one_per_direction (chunks : list payload_chunk) : Prop :=
  forall d, (length (filter (fun ch => ch_is_tx ch = d) chunks) <= 1)%nat.
Definition short_chunk (ch : payload_chunk) : Prop := blen (ch_data ch) <= MINIMAL_PAYLOAD_MAX_DIRECTION_SIZE.

Record payload_inv (minimal all_kept : bool) (l : list pkt_context) (v : pview) : Prop := {
  pi_sublist : sublist (chunk_key <$> v.1.1) (kept_key minimal <$> with_payload l);
  pi_whole : v.1.2 = false -> chunk_key <$> v.1.1 = whole_key <$> with_payload l;
  pi_once : minimal = true -> one_per_direction v.1.1 /\ Forall short_chunk v.1.1;
  pi_seen : minimal = true -> forall ch, ch ∈ v.1.1 -> has_dir (ch_is_tx ch) v = true;
  pi_full : minimal = false -> all_kept = true -> v.1.2 = false
}.

Lemma filter_none {A} (P : A -> Prop) `{!forall x, Decision (P x)} (l : list A) :
  (forall x, x ∈ l -> ~ P x) -> filter P l = [].
Proof.
  induction l as [|x l IH]; intros Hl; [done|].
  rewrite filter_cons, decide_False by (apply Hl; left). apply IH. intros y Hy. apply Hl. by right.
Qed.

Lemma with_payload_snoc l x :
  with_payload (l ++ [x]) = with_payload l ++ (if l7_len (pctx_pkt x) <=? 0 then [] else [x]).
Proof.
  unfold with_payload. rewrite filter_app, filter_cons, filter_nil. f_equal.
  destruct (Z.leb_spec (l7_len (pctx_pkt x)) 0); [by rewrite decide_False by lia|by rewrite decide_True by lia].
Qed.

Lemma payload_of_short n x : 0 <= n <= MINIMAL_PAYLOAD_MAX_DIRECTION_SIZE -> blen (payload_of n x) <= MINIMAL_PAYLOAD_MAX_DIRECTION_SIZE.
Proof. intros Hn. unfold payload_of, slice, blen. rewrite length_take. lia. Qed.

Lemma payload_inv_step minimal j ok http l x v :
  payload_inv minimal j l v -> (j = true -> ok = true) -> payload_inv minimal j (l ++ [x]) (payload_step minimal ok http x v).
Proof.
  intros [Hs Hw Ho Hd Hf] Hok. destruct v as [[ch tr] [tx rx]]. unfold payload_step.
  pose proof (with_payload_snoc l x) as Hwp.
  destruct (Z.leb_spec (l7_len (pctx_pkt x)) 0) as [Hle|Hgt]; [rewrite app_nil_r in Hwp; by split; rewrite ?Hwp|].
  assert (sublist (chunk_key <$> ch) (kept_key minimal <$> with_payload (l ++ [x]))) as Hskip.
  { rewrite Hwp, fmap_app. by apply sublist_inserts_r. }
  destruct (minimal && has_dir (pctx_is_tx x) _) eqn:Eh.
  { apply andb_true_iff in Eh as [-> Eh]. by split. }
  destruct ok.
  2:{ split; try done. intros _ Hj. by specialize (Hok Hj). }
  set (chunk := mk_chunk _ _ _ _). assert (chunk_key chunk = kept_key minimal x) as Hk by done.
  cbn [fst snd] in *. split; cbn [fst snd].
  - rewrite Hwp, !fmap_app. apply sublist_app; [done|]. cbn. by rewrite Hk.
  - intros [Htr Hcl]%orb_false_iff. rewrite Hwp, !fmap_app, (Hw Htr). cbn. rewrite Hk.
    unfold kept_key, whole_key, clipped. by rewrite Hcl.
  - intros ->. cbn [andb] in Eh. destruct (Ho eq_refl) as [Ho1 Ho2]. split.
    + intros d. rewrite filter_app, filter_cons, filter_nil, length_app. change (ch_is_tx chunk) with (pctx_is_tx x).
      case_decide as Ed; [|cbn; pose proof (Ho1 d); lia]. cbn.
      enough (filter (fun c => ch_is_tx c = d) ch = []) as -> by done.
      apply filter_none. intros c Hc Ec. specialize (Hd eq_refl c Hc). rewrite Ec, <- Ed in Hd. congruence.
    + apply Forall_app. split; [done|]. constructor; [|done]. apply payload_of_short. unfold clipped.
      cbn [andb]. destruct (Z.gtb_spec (l7_len (pctx_pkt x)) MINIMAL_PAYLOAD_MAX_DIRECTION_SIZE); [by unfold MINIMAL_PAYLOAD_MAX_DIRECTION_SIZE|lia].
  - intros -> c Hc. apply elem_of_app in Hc as [Hc|Hc].
    + specialize (Hd eq_refl c Hc). unfold has_dir in *. by destruct (ch_is_tx c), (pctx_is_tx x); cbn in *.
    + apply list_elem_of_singleton in Hc as ->. unfold has_dir. cbn. by destruct (pctx_is_tx x).
  - intros -> Hj. by rewrite (Hf eq_refl Hj).
Qed.

Section payload.
Context {P F : Type} `{Ndpi P} `{NdpiFlow F} {cmode : CaptureMode} (java_app_name : Z -> option bytes).
Abbreviation state := (pcapdroid P F).
Abbreviation get_state := (gets (fun s : state => s)).
Implicit Types (s : state) (c : pd_conn F) (p : conn_ptr).

Definition pv c : pview :=
  (default [] (payload_chunks c), payload_truncated c, (has_payload_tx c, has_payload_rx c)).
(** The options that [process_payload] reads. *)
Definition payload_conf s : payload_mode_t * bool := (payload_mode s, tls_enabled (tls s)).
Definition shows p mode v s : Prop := pv <$> heap s !! p = Some v /\ payload_conf s = (mode, false).

Lemma notify_shows p mode v tuple q s :
  shows p mode v s ->
  wlp (pd_notify_connection_update java_app_name tuple q) (fun _ s' => shows p mode v s') s.
Proof.
  intros [Hv Hm] a s' E.
  assert (preserves (fun s => (fields pv s, payload_conf s)) (pd_notify_connection_update java_app_name tuple q)) as Hp.
  { apply preserves_pair; notify_steps; [same_fields|unfold modify_conn, deref; same_state]. }
  apply Hp in E. injection E as Ef Em1 Em2. split; [|unfold payload_conf in *; congruence].
  apply (f_equal (fun m => m !! p)) in Ef. unfold fields in Ef. rewrite !lookup_fmap in Ef. by rewrite Ef.
Qed.

(** *** The steps of one packet *)
Definition at_conn p c mode (j : bool) s : Prop :=
  heap s !! p = Some c /\ payload_conf s = (mode, false) /\ (j = true -> all_ok (jni_calls s)).

Lemma wlp_deref_at p c mode j (Q : pd_conn F -> state -> Prop) s :
  at_conn p c mode j s -> Q c s -> wlp (deref p) Q s.
Proof. intros (Hc & _) HQ. unfold deref. wlp_steps. apply wlp_of_option. rewrite Hc. by intros d [= <-]. Qed.

Lemma wlp_modify_at p g c mode j (Q : unit -> state -> Prop) s :
  at_conn p c mode j s -> (forall s', at_conn p (g c) mode j s' -> Q tt s') -> wlp (modify_conn p g) Q s.
Proof.
  intros (Hc & Hm & Hj) HQ. unfold modify_conn. wlp_step. eapply wlp_deref_at; [done|]. wlp_step.
  apply HQ. split; [apply lookup_insert_eq|done].
Qed.

Lemma wlp_jni_at p c mode j (Q : bool -> state -> Prop) s :
  at_conn p c mode j s ->
  (forall ok s', at_conn p c mode j s' -> (j = true -> ok = true) -> Q ok s') -> wlp jni_ok Q s.
Proof.
  intros (Hc & Hm & Hj) HQ. unfold jni_ok. wlp_steps. apply HQ.
  - split; [done|]. split; [done|]. intros Ej. by apply all_ok_tail, Hj.
  - intros Ej. by apply all_ok_next, Hj.
Qed.

Lemma dumpPayloadChunk_step pctx n c mode j s :
  at_conn (pctx_data pctx) c mode j s ->
  wlp (dumpPayloadChunk pctx n) (fun b s' => (j = true -> b = true) /\ exists c' http,
    at_conn (pctx_data pctx) c' mode j s' /\
    pv c' = ((pv c).1.1 ++ (if b then [mk_chunk http (pctx_is_tx pctx) (pctx_ms pctx) (payload_of n pctx)] else []),
             (pv c).1.2, (pv c).2) /\ (b = true -> payload_chunks c' <> None)) s.
Proof.
  intros Hc. unfold dumpPayloadChunk. cbv zeta. apply wlp_bind. eapply wlp_deref_at; [exact Hc|]. apply wlp_bind.
  apply wlp_mono with (fun ok s' => (j = true -> ok = true) /\ exists c', at_conn (pctx_data pctx) c' mode j s' /\
    pv c' = pv c).
  { destruct (payload_chunks c) as [l|] eqn:El.
    - apply wlp_ret. split; [done|]. by exists c.
    - apply wlp_bind. eapply wlp_jni_at; [exact Hc|]. clear s Hc. intros ok s Hc Hok. apply wlp_bind, wlp_when; intros ->.
      + eapply wlp_modify_at; [exact Hc|]. intros s' Hc'. apply wlp_ret. split; [done|]. eexists. split; [exact Hc'|].
        unfold pv. simpl. by rewrite El.
      + apply wlp_ret. split; [done|]. by exists c. }
  clear s Hc. intros ok s (Hok & c1 & Hc & Ev). rewrite <- Ev. 
  destruct ok; simpl.
  2:{ apply wlp_ret. split; [done|]. exists c1, false. split; [done|]. split; [|done]. by rewrite app_nil_r. }
  apply wlp_bind. eapply wlp_jni_at; [exact Hc|]. clear s Hc Hok. intros ok s Hc Hok. destruct ok; simpl.
  2:{ apply wlp_ret. split; [done|]. exists c1, false. split; [done|]. split; [|done]. by rewrite app_nil_r. }
  apply wlp_bind. eapply wlp_jni_at; [exact Hc|]. clear s Hc Hok. intros ok s Hc Hok. destruct ok; simpl.
  2:{ apply wlp_ret. split; [done|]. exists c1, false. split; [done|]. split; [|done]. by rewrite app_nil_r. }
  apply wlp_bind, wlp_of_option. intros payload Hp.
  assert (payload = payload_of n pctx) as -> by (unfold rdn in Hp; destruct (_ || _); [done|]; by injection Hp).
  apply wlp_bind. eapply wlp_modify_at; [exact Hc|]. intros s' Hc'. apply wlp_ret. split; [done|].
  eexists _, _. split; [exact Hc'|]. split; [|done]. done.
Qed.

Lemma process_payload_step pctx c mode j s :
  at_conn (pctx_data pctx) c mode j s -> mode <> PAYLOAD_MODE_NONE ->
  wlp (process_payload java_app_name pctx) (fun _ s' => exists ok http, (j = true -> ok = true) /\
    shows (pctx_data pctx) mode
      (payload_step (bool_decide (mode = PAYLOAD_MODE_MINIMAL)) ok http pctx (pv c)) s') s.
Proof.
  intros Hc Hne. pose proof Hc as (_ & Hm & _). unfold payload_conf in Hm. injection Hm as Em Et.
  assert (forall c' s', at_conn (pctx_data pctx) c' mode j s' -> shows (pctx_data pctx) mode (pv c') s') as Hshow.
  { intros c' s' (Hc' & Hm' & _). split; [by rewrite Hc'|done]. }
  unfold process_payload. cbv zeta. apply wlp_bind, wlp_gets, wlp_bind. eapply wlp_deref_at; [exact Hc|].
  rewrite Em, Et. rewrite decide_False by done. cbn [andb].
  destruct (l7_len (pctx_pkt pctx) <=? 0) eqn:E7.
  { apply wlp_ret. exists true, true. split; [done|]. unfold payload_step, pv. rewrite E7. by apply Hshow. }
  set (minimal := bool_decide (mode = PAYLOAD_MODE_MINIMAL)).
  set (has := if pctx_is_tx pctx then _ else _). assert (has = has_dir (pctx_is_tx pctx) (pv c)) as Hhas by done.
  apply wlp_bind. apply wlp_mono with (fun (r : bool * bool) s' => exists ok http c', (j = true -> ok = true) /\
    at_conn (pctx_data pctx) c' mode j s' /\
    payload_step minimal ok http pctx (pv c) = ((pv c').1.1, (pv c').1.2 || r.2, (pv c').2) /\
    (r.1 = true -> payload_chunks c' <> None) /\ (r.1 = false -> r.2 = true)).
  { clearbody has. clear Em Et. destruct (negb minimal || negb has) eqn:Ed.
    - apply wlp_bind. eapply wlp_mono; [by apply dumpPayloadChunk_step|]. clear s Hc.
      intros dumped s (Hok & c1 & http & Hc & Ev & Hch). cbv beta. destruct dumped.
      + apply wlp_bind. eapply wlp_modify_at; [exact Hc|]. intros s' Hc'. apply wlp_ret.
        exists true, http. eexists. split; [done|]. split; [exact Hc'|]. cbn [fst snd]. split; [|split; [|done]].
        * assert (minimal && has_dir (pctx_is_tx pctx) (pv c) = false) as Eh.
          { rewrite <- Hhas. by destruct minimal, has. }
          unfold payload_step, pv in Eh, Ev |- *. rewrite E7, Eh. cbn [fst snd] in Ev. injection Ev as E1 E2 E3 E4.
          change (clipped minimal pctx) with (if minimal && (l7_len (pctx_pkt pctx) >? MINIMAL_PAYLOAD_MAX_DIRECTION_SIZE)
            then MINIMAL_PAYLOAD_MAX_DIRECTION_SIZE else l7_len (pctx_pkt pctx)).
          rewrite <- E1, <- E2, <- E3, <- E4. destruct (pctx_is_tx pctx); cbn; f_equal; f_equal;
            by destruct (payload_truncated c1), (minimal && _).
        * intros _. by destruct (pctx_is_tx pctx); apply Hch.
      + apply wlp_ret. exists false, http, c1. split; [exact Hok|]. split; [done|]. split; [|split; [|done]]; [|done].
        assert (minimal && has_dir (pctx_is_tx pctx) (pv c) = false) as Eh.
        { rewrite <- Hhas. by destruct minimal, has. }
        rewrite Ev. unfold payload_step, pv in Eh |- *. rewrite E7, Eh. cbn. by rewrite app_nil_r, orb_true_r.
    - apply wlp_ret. exists true, true, c. split; [done|]. split; [done|]. split; [|split; done].
      assert (minimal && has_dir (pctx_is_tx pctx) (pv c) = true) as Eh.
      { rewrite <- Hhas. by destruct minimal, has. }
      unfold payload_step, pv in Eh |- *. rewrite E7, Eh. cbn. by rewrite orb_true_r. }
  clear has Hhas s Hc Em Et. intros [updated truncated] s (ok & http & c1 & Hok & Hc & Ev & Hu & Ht). cbv beta.
  cbn [fst snd] in *. apply wlp_bind. eapply wlp_deref_at; [exact Hc|].
  assert (forall c' s', at_conn (pctx_data pctx) c' mode j s' -> pv c' = ((pv c1).1.1, (pv c1).1.2 || truncated, (pv c1).2) ->
    exists ok http, (j = true -> ok = true) /\
      shows (pctx_data pctx) mode (payload_step minimal ok http pctx (pv c)) s') as Hend.
  { intros c' s' Hc' Ev'. exists ok, http. split; [done|]. rewrite Ev, <- Ev'. by apply Hshow. }
  apply wlp_when; intros Ew.
  - apply wlp_bind. eapply wlp_modify_at; [exact Hc|]. intros s' Hc'. apply wlp_bind.
    destruct (Hend _ s' Hc' eq_refl) as (ok' & http' & Hok' & Hs').
    eapply wlp_mono; [by apply notify_shows|]. intros rv s2 Hs2. apply wlp_ret. by exists ok', http'.
  - apply orb_false_iff in Ew as [Ew1 Ew2]. apply negb_false_iff, eqb_prop in Ew2.
    apply (Hend c1 s Hc). unfold pv. cbn. by rewrite Ew2, orb_diag.
Qed.

(** *** Any sequence of packets of a connection *)
Lemma payloads_run strict mode p done l v s :
  inv (Some p) strict s -> (exists c, heap s !! p = Some c) -> shows p mode v s -> mode <> PAYLOAD_MODE_NONE ->
  payload_inv (bool_decide (mode = PAYLOAD_MODE_MINIMAL)) strict done v ->
  Forall (fun x => pkt_ok (pctx_pkt x) /\ pctx_data x = p) l ->
  wp (for_each (process_payload java_app_name) l) (fun _ s' => inv (Some p) strict s' /\
    exists v', shows p mode v' s' /\
      payload_inv (bool_decide (mode = PAYLOAD_MODE_MINIMAL)) strict (done ++ l) v') s.
Proof.
  intros Hi Hl Hv Hm Hp Hok. revert done v s Hi Hl Hv Hp.
  induction Hok as [|x l [Hpkt <-] _ IH]; intros done v s Hi [c Hc] Hv Hp.
  { rewrite app_nil_r. simpl. apply wp_ret. split; [exact Hi|]. by exists v. }
  simpl. apply wp_bind. eapply wp_mono.
  { apply wp_wlp; [apply (process_payload_keeps java_app_name (Some (pctx_data x)) strict); [done|done|by exists c]|].
    apply (process_payload_step x c mode strict); [|done]. split; [done|]. split; [apply Hv|].
    apply (inv_strict _ _ _ Hi). }
  intros [] s' [[Hi' Hcm] (ok & http & Hok & Hv')]. cbv beta in *.
  destruct (cm_heap _ _ Hcm _ c Hc) as (c' & Hc' & _).
  change (done ++ x :: l) with (done ++ [x] ++ l). rewrite (app_assoc done [x] l). eapply IH; [done|by exists c'|exact Hv'|].
  destruct Hv as [Hv _]. rewrite Hc in Hv. injection Hv as ->. by apply payload_inv_step.
Qed.

(** C28: in the minimal and in the full mode, when there is no TLS decryption
    (with it the payloads of the proxied connections are left out, as all of
    them are in the mode without payloads): whatever the packets of a connection
    and the failures of the Java objects, the chunks kept for the Java side are,
    in order, some of their payloads, cut at 512 bytes in the minimal mode where
    each direction has at most one; while the record is not marked as truncated
    they are all of the payloads, whole. In the full mode nothing is missing
    unless a JNI call throws. *)
Theorem process_payload_keeps_chunks strict mode p c l s :
  inv (Some p) strict s -> heap s !! p = Some c ->
  payload_mode s = mode -> mode <> PAYLOAD_MODE_NONE -> tls_enabled (tls s) = false ->
  payload_chunks c = None -> payload_truncated c = false ->
  Forall (fun x => pkt_ok (pctx_pkt x) /\ pctx_data x = p) l ->
  let minimal := bool_decide (mode = PAYLOAD_MODE_MINIMAL) in
  exists s' c', for_each (process_payload java_app_name) l s = Some (tt, s') /\ heap s' !! p = Some c' /\
    let chunks := default [] (payload_chunks c') in
    sublist (chunk_key <$> chunks) (kept_key minimal <$> with_payload l) /\
    (payload_truncated c' = false -> chunk_key <$> chunks = whole_key <$> with_payload l) /\
    (minimal = true -> one_per_direction chunks /\ Forall short_chunk chunks) /\
    (minimal = false -> strict = true -> payload_truncated c' = false).
Proof.
  intros Hi Hc Em Hne Et Ech Etr Hl. cbv zeta.
  assert (shows p mode (pv c) s) as Hsh.
  { split; [by rewrite Hc|]. unfold payload_conf. by rewrite Em, Et. }
  assert (payload_inv (bool_decide (mode = PAYLOAD_MODE_MINIMAL)) strict [] (pv c)) as Hp0.
  { unfold pv. rewrite Ech, Etr. split; try done.
    - intros _. split; [|done]. intros d. simpl. lia.
    - by intros _ ch ?%elem_of_nil. }
  pose proof (payloads_run strict mode p [] l (pv c) s Hi (ex_intro _ c Hc) Hsh Hne Hp0 Hl) as Hw.
  unfold wp in Hw. destruct (for_each _ l s) as [[[] s']|]; [|done].
  destruct Hw as (_ & v & [Hv _] & [Hp1 Hp2 Hp3 _ Hp5]). destruct (heap s' !! p) as [c'|] eqn:Hc'; [|done].
  injection Hv as <-. exists s', c'. split; [done|]. split; [done|].
  split; [exact Hp1|]. split; [exact Hp2|]. split; [exact Hp3|exact Hp5].
Qed.
End payload.
#[local] Existing Instance libpcap_mode.

(** *** Two requests of a client in the minimal mode, of which the first is kept *)
Definition ex_payload_pkt : zdtun_pkt :=
  mk_pkt ex_tuple 0 44 20 20 4 (ex_tcp TH_ACK).
Definition ex_request (ms : Z) : pkt_context := mk_pctx ex_payload_pkt (mk_tv 1 0) ms true ex_tuple 1.

Lemma process_payload_keeps_chunks_witness :
  let s := ex_open <| payload_mode := PAYLOAD_MODE_MINIMAL |> in
  exists s' c', for_each (process_payload ex_app_name) [ex_request 10; ex_request 20] s = Some (tt, s') /\
    heap s' !! 1 = Some c' /\ one_per_direction (default [] (payload_chunks c')).
Proof.
  intros s. assert (inv (Some 1) false s) as Hi.
  { apply inv_unsettle. pose proof ex_open_inv as Hi. destruct Hi. by split. }
  destruct (process_payload_keeps_chunks ex_app_name false PAYLOAD_MODE_MINIMAL 1 ex_conn
    [ex_request 10; ex_request 20] s Hi) as (s' & c' & E & Hc & _ & _ & Hone & _); try reflexivity; try discriminate.
  - do 2 (apply Forall_cons; split; [split; [|reflexivity]; split; [repeat constructor; done|..];
      vm_compute; repeat split; discriminate|]). constructor.
  - exists s', c'. split; [exact E|]. split; [exact Hc|]. by apply Hone.
Defined.
