(* ===== verification/FileTrailer.v ===== *)
(** The trailer of the packets of a PCAP file: what core/pcap_dump.c writes
    after a packet, core/capture_libpcap.c (handle_packet) reads back when the
    file is the source of a capture. *)
From Stdlib Require Import ZArith Lia.
From stdpp Require Import base option gmap numbers list.
From S2P Require Import Prelude Packet Uthash PcapDump Blacklist NdpiProtos Conn ConnInv Examples JavaDump Dpi.
From S2P Require Import Housekeeping CaptureLibpcap PdRun ConnStatus Policy.

Open Scope Z_scope.

(** ** Bytes after the end of the IP packet do not change how it is parsed *)
Lemma rd8_app b x off v : rd8 b off = Some v -> rd8 (b ++ x) off = Some v.
Proof. intros E. rewrite rd8_app_l; [done|]. apply rd8_inv in E. lia. Qed.
Lemma rd16_app b x off v : rd16 b off = Some v -> rd16 (b ++ x) off = Some v.
Proof.
  unfold rd16. intros (lo & E1 & (hi & E2 & E3)%bind_Some)%bind_Some.
  rewrite (rd8_app _ _ _ _ E1). cbn. by rewrite (rd8_app _ _ _ _ E2).
Qed.
Lemma rd32_app b x off v : rd32 b off = Some v -> rd32 (b ++ x) off = Some v.
Proof.
  unfold rd32. intros (lo & E1 & (hi & E2 & E3)%bind_Some)%bind_Some.
  rewrite (rd16_app _ _ _ _ E1). cbn. by rewrite (rd16_app _ _ _ _ E2).
Qed.
Lemma rd128_app b x off v : rd128 b off = Some v -> rd128 (b ++ x) off = Some v.
Proof.
  unfold rd128, rdn. destruct (_ || _) eqn:E; [done|]. apply orb_false_iff in E as [E E3].
  apply orb_false_iff in E as [E1 E2]. rewrite blen_app. pose proof (blen_nonneg x).
  assert (blen b + blen x <? off + 16 = false) as -> by lia. rewrite E1, E2. cbn. intros [= <-]. do 2 f_equal.
  unfold slice. rewrite drop_app_le by (unfold blen in *; lia).
  rewrite take_app_le; [done|]. rewrite length_drop. unfold blen in *. lia.
Qed.

(** The length that the IP header gives. *)
Definition ip_total_len (buf : bytes) : option Z :=
  b0 ← rd8 buf 0;
  if Z.shiftr b0 4 =? 4 then (ntohs <$> rd16 buf 2)
  else ((fun n => ntohs n + IPV6_HEADER_LEN) <$> rd16 buf 4).

Ltac load_with lem E x :=
  let v := fresh "v" in let El := fresh "El" in
  apply bind_Some in E as (v & El & E); rewrite (lem _ x _ _ El); cbn [mbind option_bind].
(** Goes through the loads and the checks of a parse that succeeded. *)
Ltac load_app E x :=
  repeat lazymatch type of E with
  | (rd8 _ _ ≫= _) = _ => load_with rd8_app E x
  | (rd16 _ _ ≫= _) = _ => load_with rd16_app E x
  | (rd32 _ _ ≫= _) = _ => load_with rd32_app E x
  | (rd128 _ _ ≫= _) = _ => load_with rd128_app E x
  | (if ?c then Some (inl _) else _) = Some (inr _) => destruct c eqn:?; [discriminate E|]
  end.

Lemma parse_ip4_app b x n n' il :
  parse_ip4 b n = Some (inr il) -> (ntohs <$> rd16 b 2) = Some n -> n <= n' ->
  parse_ip4 (b ++ x) n' = Some (inr il).
Proof.
  unfold parse_ip4. intros E Et Hn. load_app E x.
  assert (n' <? Z.land v 15 * 4 = false) as -> by lia. load_app E x.
  rewrite El0 in Et. injection Et as Et. load_app E x.
  injection E as <-. rewrite Et. do 3 f_equal. lia.
Qed.

Lemma parse_ip6_app b x n n' il :
  parse_ip6 b n = Some (inr il) -> ((fun m => ntohs m + IPV6_HEADER_LEN) <$> rd16 b 4) = Some n -> n <= n' ->
  parse_ip6 (b ++ x) n' = Some (inr il).
Proof.
  unfold parse_ip6. intros E Et Hn. load_app E x.
  assert (n' <? IPV6_HEADER_LEN = false) as -> by lia. load_app E x.
  load_app E x. rewrite El0 in Et. injection Et as Et. injection E as <-. do 3 f_equal. lia.
Qed.

Lemma parse_l4_app b x il r : parse_l4 b il = Some (inr r) -> parse_l4 (b ++ x) il = Some (inr r).
Proof.
  unfold parse_l4. intros E. destruct (il_proto il =? IPPROTO_TCP).
  { load_app E x. load_app E x. done. }
  destruct (il_proto il =? IPPROTO_UDP); [by load_app E x|].
  destruct (il_proto il =? IPPROTO_ICMP); [|done]. load_app E x. load_app E x. done.
Qed.

Lemma zdtun_parse_pkt_app ids b x n n' p ids' :
  zdtun_parse_pkt ids b n = Some (inr p, ids') -> ip_total_len b = Some n -> n <= n' ->
  zdtun_parse_pkt ids (b ++ x) n' = Some (inr (p <| pkt_buf := b ++ x |>), ids').
Proof.
  unfold zdtun_parse_pkt, ip_total_len. intros E Et Hn.
  destruct (n <? IPV4_HEADER_LEN) eqn:En; [done|]. assert (n' <? IPV4_HEADER_LEN = false) as -> by lia.
  load_app E x. rewrite El in Et. cbn [mbind option_bind] in Et.
  destruct (negb (Z.shiftr v 4 =? 4) && negb (Z.shiftr v 4 =? 6)); [done|].
  apply bind_Some in E as ([rv|il] & Eil & E); [done|].
  assert ((if Z.shiftr v 4 =? 4 then parse_ip4 (b ++ x) n' else parse_ip6 (b ++ x) n') = Some (inr il)) as ->.
  { destruct (Z.shiftr v 4 =? 4); [by apply parse_ip4_app with n|by apply parse_ip6_app with n]. }
  cbn [mbind option_bind]. destruct (is_later_fragment (il_flags il)).
  { load_app E x. by injection E as <- <-. }
  apply bind_Some in E as ([rv|[[l4 sp] dp]] & El4 & E); [done|]. rewrite (parse_l4_app _ _ _ _ El4).
  cbn [mbind option_bind]. destruct (has_flag _ _); [load_app E x|]; by injection E as <- <-.
Qed.

(** ** The trailer *)
Section trailer.
Context {P F : Type} `{Ndpi P} `{NdpiFlow F} {cmode : CaptureMode} (java_app_name : Z -> option bytes).
Implicit Types (s : pcapdroid P F).

Lemma trailer_frame_shape frame uid name :
  blen name = 20 ->
  exists crc, trailer_frame frame uid name =
    pad_to4 frame ++ le32 (htonl PCAPDROID_TRAILER_MAGIC) ++ le32 (htonl (u32 uid)) ++ name ++ le32 crc /\
    blen (trailer_frame frame uid name) = blen (pad_to4 frame) + sizeof_trailer.
Proof.
  intros Hn. eexists. split.
  - unfold trailer_frame. cbv zeta. by rewrite <- !app_assoc.
  - unfold trailer_frame. cbv zeta. autorewrite with blen. rewrite Hn. unfold sizeof_trailer. lia.
Qed.

Lemma trailer_uid_frame frame uid name slack hdr pktlen s :
  blen name = 20 -> 0 <= pktlen <= blen frame -> blen frame < 2 ^ 31 ->
  pcap_file_capture s = true -> hdr_uid hdr = u32 UID_UNKNOWN ->
  hdr_len hdr = blen (trailer_frame frame uid name) ->
  trailer_uid hdr (trailer_frame frame uid name ++ slack) pktlen s =
    Some (u32 uid, s <| has_seen_pcapdroid_trailer := true |>).
Proof.
  intros Hn Hlen Hsz Hfile Hu Hl. destruct (trailer_frame_shape frame uid name Hn) as (crc & E & Eb).
  rewrite Eb in Hl. rewrite E. unfold trailer_uid, mbind, M_bind, gets, of_option, modify, mret, M_ret.
  rewrite Hfile, Hu, Z.eqb_refl. cbn [andb].
  assert (blen frame <= blen (pad_to4 frame) < blen frame + 4) as Hpad.
  { rewrite blen_pad_to4. pose proof (pad4_range (blen frame)). lia. }
  assert (u64 (hdr_len hdr - pktlen) >=? sizeof_trailer = true) as ->.
  { rewrite Hl. unfold sizeof_trailer. rewrite u64_small by (unfold sizeof_trailer; lia). lia. }
  replace (hdr_len hdr - sizeof_trailer) with (blen (pad_to4 frame)) by lia.
  rewrite <- !app_assoc. rewrite rd32_le32 by done.
  assert (ntohl (u32 (htonl PCAPDROID_TRAILER_MAGIC)) =? PCAPDROID_TRAILER_MAGIC = true) as -> by reflexivity.
  rewrite (app_assoc (pad_to4 frame)). rewrite rd32_le32 by (rewrite blen_app, blen_le32; done).
  do 2 f_equal. unfold ntohl, htonl. rewrite u32_small; [apply swap32_involutive, u32_range|apply swap32_range].
Qed.

(** A record of the trailer format, read as a packet of a file. *)
Lemma trailer_record_read slen names pkt tv uid alloc ids p ids' hdr slack s :
  wf_bytes pkt -> blen pkt < 2 ^ 16 -> - 2 ^ 31 <= uid < 2 ^ 31 ->
  zdtun_parse_pkt ids pkt (blen pkt) = Some (inr p, ids') -> ip_total_len pkt = Some (blen pkt) ->
  pcap_file_capture s = true -> hdr_uid hdr = u32 UID_UNKNOWN -> hdr_linktype hdr = PCAPD_DLT_ETHERNET ->
  let record := drop 16 (enc_record java_app_name PCAP_DUMP_WITH_TRAILER slen names pkt (blen pkt) tv uid alloc) in
  let buffer := record ++ slack in
  let off := get_ip_offset (hdr_linktype hdr) in
  hdr_len hdr = blen record ->
  exists p', zdtun_parse_pkt ids (drop (Z.to_nat off) buffer) (hdr_len hdr - off) = Some (inr p', ids') /\
    pkt_tuple p' = pkt_tuple p /\ l7_off p' = l7_off p /\ l7_len p' = l7_len p /\ pkt_len p' = pkt_len p /\
    trailer_uid hdr buffer (pkt_len p') s = Some (u32 uid, s <| has_seen_pcapdroid_trailer := true |>) /\
    s32 (u32 uid) = uid.
Proof.
  intros Hwf H16 Huid Ep Et Hfile Hu Hlt record buffer off Hl.
  set (frame := eth_header (default 0 (rd8 pkt 0)) ++ pkt).
  set (name := trailer_name java_app_name names uid alloc).
  assert (blen name = 20) as Hname by apply blen_trailer_name.
  assert (record = trailer_frame frame uid name) as Er.
  { unfold record, enc_record. cbv zeta. rewrite slice_all. fold frame name. reflexivity. }
  assert (blen (eth_header (default 0 (rd8 pkt 0))) = 14) as Heth by done.
  assert (blen frame = 14 + blen pkt) as Hbf by (unfold frame; by rewrite blen_app, Heth).
  assert (off = 14) as Hoff by (unfold off; by rewrite Hlt).
  destruct (trailer_frame_shape frame uid name Hname) as (crc & Esh & Eb).
  rewrite blen_pad_to4 in Eb. pose proof (pad4_range (blen frame)).
  destruct (zdtun_parse_pkt_total ids pkt (blen pkt) Hwf ltac:(lia) ltac:(pose proof (blen_nonneg pkt); lia))
    as (r & ids2 & Ep2 & Hr). rewrite Ep in Ep2. injection Ep2 as <- <-. destruct Hr as [Hlens _].
  destruct Hlens as (_ & ? & ? & ? & ? & ? & _). rewrite Hoff in *. clear off Hoff.
  assert (exists x, drop 14 buffer = pkt ++ x) as [x Ex].
  { unfold buffer. rewrite Er, Esh. unfold pad_to4, frame. rewrite <- !app_assoc. by eexists. }
  exists (p <| pkt_buf := pkt ++ x |>). split.
  { change (Z.to_nat 14) with 14%nat. rewrite Ex. apply zdtun_parse_pkt_app with (blen pkt); [done..|].
    rewrite Hl, Er, Eb. unfold sizeof_trailer. lia. }
  do 4 (split; [done|]). split.
  - unfold buffer. rewrite Er in *. apply trailer_uid_frame; try done; [|lia].
    change (pkt_len (p <| pkt_buf := pkt ++ x |>)) with (pkt_len p). lia.
  - unfold s32, u32. rewrite Zplus_mod_idemp_l, Z.mod_small; lia.
Qed.

(** What the consumer of the dump has got, with what waits in the buffer. *)
Definition dump_bytes (d : pcap_dumper) : bytes := concat (exported d) ++ mem_read (buffer d) 0 (buffer_idx d).

(** An export moves what waits, after the secrets. *)
Lemma log_check_export_bytes d l : dump_cb d = true ->
  exists x, concat (lg_out (log_check_export d l)) ++ lg_pending (log_check_export d l) = x ++ lg_pending l.
Proof.
  intros Hcb. unfold log_check_export. destruct (_ || _); [|by exists (concat (lg_out l))].
  unfold log_export. set (l1 := log_export_secrets d l). cbv zeta.
  assert (lg_pending l1 = lg_pending l) as E1.
  { unfold l1, log_export_secrets, out_chunk. cbv zeta. rewrite Hcb. by repeat case_match. }
  rewrite E1. destruct (decide (lg_pending l = [])) as [En|_]; [rewrite E1; by eexists|].
  unfold out_chunk. rewrite Hcb. csimpl. rewrite concat_app. cbn [concat]. rewrite !app_nil_r. by eexists.
Qed.

(** A packet that was dumped is the last record. *)
Lemma dumped_record d d' pkt tv uid alloc :
  dumper_wf d -> dump_cb d = true -> 0 < blen pkt < 2 ^ 31 -> (mode d = PCAP_DUMP_WITH_TRAILER -> blen pkt <= snaplen d) ->
  pcap_dump_packet java_app_name d pkt (blen pkt) tv uid alloc = Some (true, d') ->
  exists before names, dump_bytes d' = before ++ enc_record java_app_name (mode d) (snaplen d) names pkt (blen pkt) tv uid alloc.
Proof.
  intros Hwf Hcb Hl Ht E.
  destruct (pcap_dump_packet_log java_app_name d pkt (blen pkt) tv uid alloc Hwf ltac:(lia) ltac:(lia) Ht) as (b & d1 & E1 & _ & _ & Hlog).
  rewrite E in E1. injection E1 as <- <-. change (dump_bytes d') with (concat (lg_out (dump_log_of d')) ++ lg_pending (dump_log_of d')).
  revert Hlog. unfold log_packet. cbv zeta. set (l1 := if _ <=? _ then log_export d _ else _). clearbody l1.
  destruct (_ <=? _); [intros [=]|]. destruct (over_max _ _); [intros [=]|]. intros Heq. apply (f_equal snd) in Heq. cbn [snd] in Heq. rewrite Heq.
  match goal with |- context [log_check_export d ?l] => destruct (log_check_export_bytes d l Hcb) as [x Ex] end.
  rewrite Ex. csimpl. eexists _, _. by rewrite app_assoc.
Qed.

(** C26: a packet that [pcap_dump_packet] accepted in a PCAP file with trailers
    - a whole one: it is not longer than the snap length, its IP header gives its
    length - and read back from the file as the source of a capture: the bytes
    of the dump end with a record whose header of 16 bytes gives the length of
    the rest, which is what the capture gets. Whatever follows the packet in the
    record and in the buffer, it is parsed as when it was captured, its UID is
    the one it was dumped with, and the presence of trailers is noted. *)
Theorem trailer_read_back d d' pkt tv uid alloc ids p ids' :
  dumper_wf d -> dump_cb d = true -> mode d = PCAP_DUMP_WITH_TRAILER ->
  wf_bytes pkt -> blen pkt < 2 ^ 16 -> blen pkt <= snaplen d -> - 2 ^ 31 <= uid < 2 ^ 31 ->
  zdtun_parse_pkt ids pkt (blen pkt) = Some (inr p, ids') -> ip_total_len pkt = Some (blen pkt) ->
  pcap_dump_packet java_app_name d pkt (blen pkt) tv uid alloc = Some (true, d') ->
  exists before header record, dump_bytes d' = before ++ header ++ record /\
    blen header = 16 /\ rd32 header 8 = Some (blen record) /\
    forall hdr slack s,
      hdr_len hdr = blen record -> hdr_uid hdr = u32 UID_UNKNOWN -> hdr_linktype hdr = PCAPD_DLT_ETHERNET -> pcap_file_capture s = true ->
      let off := get_ip_offset (hdr_linktype hdr) in
      exists p', zdtun_parse_pkt ids (drop (Z.to_nat off) (record ++ slack)) (hdr_len hdr - off) = Some (inr p', ids') /\
        pkt_tuple p' = pkt_tuple p /\ l7_off p' = l7_off p /\ l7_len p' = l7_len p /\ pkt_len p' = pkt_len p /\
        trailer_uid hdr (record ++ slack) (pkt_len p') s = Some (u32 uid, s <| has_seen_pcapdroid_trailer := true |>) /\
        s32 (u32 uid) = uid.
Proof.
  intros Hd Hcb Hm Hwf H16 Hsn Huid Ep Et E.
  assert (20 <= blen pkt) as Hpos.
  { revert Ep. unfold zdtun_parse_pkt, IPV4_HEADER_LEN. by destruct (Z.ltb_spec (blen pkt) 20). }
  destruct (dumped_record d d' pkt tv uid alloc Hd Hcb ltac:(lia) ltac:(done) E) as (before & names & Eb). rewrite Hm in Eb.
  set (rec := enc_record _ _ _ _ _ _ _ _ _) in Eb. exists before, (take 16 rec), (drop 16 rec).
  rewrite take_drop. split; [done|].
  assert (exists data, rec = pcap_record tv (blen data) data /\ 0 <= blen data < 2 ^ 32) as (data & Er & Hdata).
  { eexists. split; [reflexivity|]. destruct (trailer_frame_shape (eth_header (default 0 (rd8 pkt 0)) ++ slice pkt 0 (blen pkt)) uid
      (trailer_name java_app_name names uid alloc)) as (crc & _ & ->); [apply blen_trailer_name|].
    rewrite slice_all, blen_pad_to4. pose proof (pad4_range (blen (eth_header (default 0 (rd8 pkt 0)) ++ pkt))).
    rewrite blen_app in *. change (blen (eth_header _)) with 14 in *. unfold sizeof_trailer. lia. }
  rewrite Er. change (take 16 (pcap_record tv (blen data) data)) with (le32 (tv_sec tv) ++ le32 (tv_usec tv) ++ le32 (blen data) ++ le32 (blen data)).
  change (drop 16 (pcap_record tv (blen data) data)) with data. split; [done|split].
  - rewrite app_assoc, rd32_le32 by done. by rewrite u32_small.
  - intros hdr slack s Hl Hu Hlt Hf. 
    pose proof (trailer_record_read (snaplen d) names pkt tv uid alloc ids p ids' hdr slack s Hwf H16 Huid Ep Et Hf Hu Hlt) as Hread.
    fold rec in Hread. rewrite Er in Hread. exact (Hread Hl).
Qed.
End trailer.
#[local] Existing Instance libpcap_mode.

(** *** A UDP datagram of the application 10010 *)
Definition ex_file_state : pcapdroid (list Z) Z := ex_start <| pcap_file_capture := true |>.
Definition ex_file_hdr (record : bytes) : pcapd_hdr := mk_hdr (mk_tv 1 0) 0 (u32 UID_UNKNOWN) (blen record) PCAPD_DLT_ETHERNET 0 0.
Definition ex_file_dumper : pcap_dumper := ex_dumper PCAP_DUMP_WITH_TRAILER (fun _ => 170).

Lemma trailer_read_back_witness :
  exists d' p before header record,
    pcap_dump_packet ex_app_name ex_file_dumper ex_udp (blen ex_udp) (mk_tv 1 0) 10010 true = Some (true, d') /\
    zdtun_parse_pkt ∅ ex_udp 30 = Some (inr p, ∅) /\
    dump_bytes d' = before ++ header ++ record /\ rd32 header 8 = Some (blen record) /\
    fst <$> trailer_uid (ex_file_hdr record) (record ++ []) (pkt_len p) ex_file_state = Some 10010.
Proof.
  assert (exists p, zdtun_parse_pkt ∅ ex_udp 30 = Some (inr p, ∅)) as [p Ep] by (eexists; reflexivity).
  assert (exists d', pcap_dump_packet ex_app_name ex_file_dumper ex_udp (blen ex_udp) (mk_tv 1 0) 10010 true = Some (true, d')) as [d' Ed].
  { eexists. vm_compute. reflexivity. }
  destruct (trailer_read_back (P := list Z) (F := Z) ex_app_name ex_file_dumper d' ex_udp (mk_tv 1 0) 10010 true ∅ p ∅) as (before & header & record & Eb & _ & Eh & Hread);
    try reflexivity; try done.
  - repeat constructor; done.
  - destruct (Hread (ex_file_hdr record) [] ex_file_state) as (p' & _ & _ & _ & _ & El & E & _); [done..|].
    exists d', p, before, header, record. rewrite El in E.
    refine (conj Ed (conj Ep (conj Eb (conj Eh _)))). rewrite E. reflexivity.
Defined.
