(* ===== verification/Checksum.v ===== *)
(** Checksums and IP headers of the packets that zdtun makes
    (zdtun/utils.c calc_checksum; zdtun/zdtun.c zdtun_make_iphdr,
    zdtun_l3_checksum), against the internet checksum of RFC 1071. *)
From Stdlib Require Import ZArith Lia.
From stdpp Require Import base option numbers list.
From S2P Require Import Prelude Packet.

Open Scope Z_scope.

(** ** [calc_checksum] *)

(** The loop over the 16-bit words in the order of the host, with the last
    byte of an odd buffer. *)
Fixpoint sum_words (buf : bytes) (sum : Z) : Z :=
  match buf with
  | a :: b :: buf' => sum_words buf' (u32 (sum + (a + 256 * b)))
  | [a] => u32 (sum + a)
  | [] => sum
  end.

(** [while(sum >> 16)] *)
Fixpoint carry_loop (fuel : nat) (sum : Z) : Z :=
  if Z.shiftr sum 16 =? 0 then sum
  else match fuel with
       | O => sum
       | S fuel' => carry_loop fuel' (u32 (Z.land sum 0xFFFF + Z.shiftr sum 16))
       end.

Definition calc_checksum (start : Z) (buffer : bytes) : Z :=
  u16 (carry_loop 2 (sum_words buffer start)).

(** [~x] stored in 16 bits *)
Definition not16 (x : Z) : Z := u16 (Z.lnot x).

(** ** IP headers *)
Definition sizeof_in6 : nat := 16.
Definition iphdr4 (tuple : zdtun_5tuple) (l3_len check : Z) : bytes :=
  [0x45; 0] ++ le16 (htons (u16 (l3_len + IPV4_HEADER_LEN))) ++ le16 0 ++ le16 (htons 0x4000) ++
  [64; ipproto tuple] ++ le16 check ++ le32 (dst_ip tuple) ++ le32 (src_ip tuple).

(** The header of a packet to the client: from the server of the tuple. *)
Definition zdtun_make_iphdr (ver : Z) (tuple : zdtun_5tuple) (l3_len : Z) : bytes :=
  if ver =? 4 then
    iphdr4 tuple l3_len (not16 (calc_checksum 0 (iphdr4 tuple l3_len 0)))
  else
    [0x60; 0; 0; 0] ++ le16 (htons (u16 l3_len)) ++
    [if ipproto tuple =? IPPROTO_ICMP then IPPROTO_ICMPV6 else ipproto tuple; 64] ++
    le_split sizeof_in6 (dst_ip tuple) ++ le_split sizeof_in6 (src_ip tuple).

(** The pseudo headers take the addresses from the IP header. *)
Definition ippseudo (iphdr : bytes) (proto l3_len : Z) : bytes :=
  slice iphdr 12 8 ++ [0; proto] ++ le16 (htons (u16 l3_len)).
Definition ip6_hdr_pseudo (iphdr : bytes) (proto : Z) : bytes :=
  slice iphdr 8 32 ++ slice iphdr 4 2 ++ [0; 0] ++
  [0; 0; 0; if proto =? IPPROTO_ICMP then IPPROTO_ICMPV6 else proto].

Definition zdtun_l3_checksum (ver proto : Z) (iphdr l3 : bytes) : Z :=
  let rv := calc_checksum 0 l3 in
  if ver =? 4 then not16 (calc_checksum rv (ippseudo iphdr proto (blen l3)))
  else not16 (calc_checksum rv (ip6_hdr_pseudo iphdr proto)).

(** ** The internet checksum *)

(** The sum of the words, unbounded. *)
Fixpoint word_sum (buf : bytes) : Z :=
  match buf with
  | a :: b :: buf' => a + 256 * b + word_sum buf'
  | [a] => a
  | [] => 0
  end.

(** One's complement addition of 16-bit words, with the end-around carry
    (RFC 1071), and the sum of a buffer. *)
Definition onec_add16 (x y : Z) : Z := (x + y) mod 2 ^ 16 + (x + y) / 2 ^ 16.
Fixpoint internet_sum (buf : bytes) (acc : Z) : Z :=
  match buf with
  | a :: b :: buf' => internet_sum buf' (onec_add16 acc (a + 256 * b))
  | [a] => onec_add16 acc a
  | [] => acc
  end.

(** The closed form of both. *)
Definition ones_sum (z : Z) : Z := if z =? 0 then 0 else (z - 1) mod 65535 + 1.

Lemma ones_sum_range z : 0 <= z -> 0 <= ones_sum z < 2 ^ 16.
Proof. unfold ones_sum. destruct (Z.eqb_spec z 0); [lia|]. pose proof (Z.mod_pos_bound (z - 1) 65535 eq_refl). lia. Qed.

Lemma ones_sum_small z : 0 <= z < 2 ^ 16 -> ones_sum z = z.
Proof. unfold ones_sum. intros Hz. destruct (Z.eqb_spec z 0); [lia|]. rewrite Z.mod_small; lia. Qed.

(** Removing a carry at the bottom and adding it at the top. *)
Lemma ones_sum_fold z q : 0 <= q -> 0 <= z - 65535 * q -> (z = 0 <-> z - 65535 * q = 0) ->
  ones_sum (z - 65535 * q) = ones_sum z.
Proof.
  intros Hq Hr Hz. unfold ones_sum. destruct (Z.eqb_spec z 0), (Z.eqb_spec (z - 65535 * q) 0); try tauto.
  f_equal. replace (z - 65535 * q - 1) with (z - 1 + (- q) * 65535) by lia. apply Z.mod_add. lia.
Qed.

Lemma ones_sum_carry z : 0 <= z -> ones_sum (z mod 2 ^ 16 + z / 2 ^ 16) = ones_sum z.
Proof.
  intros Hz. pose proof (Z.div_mod z (2 ^ 16) ltac:(lia)) as E. pose proof (Z.mod_pos_bound z (2 ^ 16) eq_refl).
  assert (0 <= z / 2 ^ 16) by (apply Z.div_pos; lia).
  replace (z mod 2 ^ 16 + z / 2 ^ 16) with (z - 65535 * (z / 2 ^ 16)) by lia.
  apply ones_sum_fold; lia.
Qed.

Lemma ones_sum_add_l a b : 0 <= a -> 0 <= b -> ones_sum (ones_sum a + b) = ones_sum (a + b).
Proof.
  intros Ha Hb. unfold ones_sum at 2. destruct (Z.eqb_spec a 0) as [->|Hne]; [done|].
  pose proof (Z.div_mod (a - 1) 65535 ltac:(lia)) as E. pose proof (Z.mod_pos_bound (a - 1) 65535 eq_refl).
  assert (0 <= (a - 1) / 65535) by (apply Z.div_pos; lia).
  replace ((a - 1) mod 65535 + 1 + b) with (a + b - 65535 * ((a - 1) / 65535)) by lia.
  apply ones_sum_fold; lia.
Qed.

Lemma ones_sum_complement z : 0 <= z -> ones_sum (z + (65535 - ones_sum z)) = 65535.
Proof.
  intros Hz. unfold ones_sum at 2. destruct (Z.eqb_spec z 0) as [->|Hne]; [done|].
  pose proof (Z.div_mod (z - 1) 65535 ltac:(lia)) as E. pose proof (Z.mod_pos_bound (z - 1) 65535 eq_refl).
  assert (0 <= (z - 1) / 65535) by (apply Z.div_pos; lia).
  replace (z + (65535 - ((z - 1) mod 65535 + 1))) with (65535 + 65535 * ((z - 1) / 65535)) by lia.
  rewrite <- (ones_sum_fold _ ((z - 1) / 65535)) by lia.
  replace (65535 + _ - _) with 65535 by lia. done.
Qed.

(** *** Sums over buffers, two bytes at a time *)
Lemma bytes_ind2 (P : bytes -> Prop) :
  P [] -> (forall a, P [a]) -> (forall a b l, P l -> P (a :: b :: l)) -> forall l, P l.
Proof.
  intros H0 H1 H2. enough (forall l, P l /\ forall a, P (a :: l)) as Hl by (intros l; apply Hl).
  induction l as [|b l [IH1 IH2]]; [by split|]. split; [apply IH2|]. intros a. by apply H2.
Qed.

Lemma wf_bytes_cons2 a b l : wf_bytes (a :: b :: l) -> is_byte a /\ is_byte b /\ wf_bytes l.
Proof. intros [Ha [Hb Hl]%Forall_cons]%Forall_cons. done. Qed.

Lemma word_sum_bounds buf : wf_bytes buf -> 0 <= word_sum buf /\ 2 * word_sum buf <= 65535 * (blen buf + 1).
Proof.
  induction buf as [|a|a b l IH] using bytes_ind2; intros Hw.
  - simpl. unfold blen. simpl. lia.
  - apply Forall_cons in Hw as [Ha _]. unfold is_byte in Ha. autorewrite with blen. simpl. lia.
  - apply wf_bytes_cons2 in Hw as (Ha & Hb & Hl). specialize (IH Hl). unfold is_byte in *.
    autorewrite with blen. simpl. lia.
Qed.

Lemma word_sum_app x y : blen x mod 2 = 0 -> word_sum (x ++ y) = word_sum x + word_sum y.
Proof.
  induction x as [|a|a b l IH] using bytes_ind2; intros Hx; [done|done|].
  simpl. rewrite IH; [lia|]. revert Hx. rewrite !blen_cons.
  replace (1 + (1 + blen l)) with (blen l + 1 * 2) by lia. by rewrite Z.mod_add.
Qed.

Lemma word_sum_le16 z : 0 <= z < 2 ^ 16 -> word_sum (le16 z) = z.
Proof.
  intros Hz. simpl. rewrite (Z.mod_small (z / 256)) by (split; [apply Z.div_pos|apply Z.div_lt_upper_bound]; lia).
  pose proof (Z.div_mod z 256 ltac:(lia)). lia.
Qed.

Lemma sum_words_exact buf s :
  wf_bytes buf -> 0 <= s -> s + word_sum buf < 2 ^ 32 -> sum_words buf s = s + word_sum buf.
Proof.
  revert s. induction buf as [|a|a b l IH] using bytes_ind2; intros s Hw Hs Hlt.
  - simpl. lia.
  - apply Forall_cons in Hw as [Ha _]. unfold is_byte in Ha. simpl in *. rewrite u32_small; lia.
  - apply wf_bytes_cons2 in Hw as (Ha & Hb & Hl). pose proof (proj1 (word_sum_bounds l Hl)).
    unfold is_byte in *. simpl in *. rewrite u32_small by lia. rewrite IH; [lia|done|lia|lia].
Qed.

(** The loop on the carry ends after two turns. *)
Lemma carry_loop_ends fuel sum :
  (2 <= fuel)%nat -> 0 <= sum < 2 ^ 32 ->
  carry_loop fuel sum = ones_sum sum /\ Z.shiftr (carry_loop fuel sum) 16 = 0.
Proof.
  assert (forall fuel z, 0 <= z < 2 ^ 16 -> carry_loop fuel z = ones_sum z /\ Z.shiftr (carry_loop fuel z) 16 = 0) as H0.
  { intros n z Hz. rewrite ones_sum_small by done.
    assert (Z.shiftr z 16 = 0) as E by (rewrite Z.shiftr_div_pow2 by lia; by apply Z.div_small).
    destruct n; simpl; rewrite E; done. }
  assert (forall fuel z m, 2 ^ 16 <= z < m -> m <= 2 ^ 32 -> carry_loop (S fuel) z = carry_loop fuel (z mod 2 ^ 16 + z / 2 ^ 16)) as H1.
  { intros n z m Hz Hm. cbn [carry_loop]. rewrite Z.shiftr_div_pow2 by lia. change 0xFFFF with (Z.ones 16).
    rewrite Z.land_ones by lia. pose proof (Z.mod_pos_bound z (2 ^ 16) eq_refl).
    assert (1 <= z / 2 ^ 16) by (apply Z.div_le_lower_bound; lia).
    assert (z / 2 ^ 16 < 2 ^ 16) by (apply Z.div_lt_upper_bound; lia).
    destruct (Z.eqb_spec (z / 2 ^ 16) 0); [lia|]. rewrite u32_small by lia. done. }
  intros Hf Hs. destruct (decide (sum < 2 ^ 16)) as [|Hge]; [apply H0; lia|].
  destruct fuel as [|[|fuel]]; [lia..|]. rewrite (H1 _ sum (2 ^ 32)), <- (ones_sum_carry sum) by lia.
  set (z := sum mod 2 ^ 16 + sum / 2 ^ 16).
  assert (0 <= z < 2 ^ 17 - 1) as Hz.
  { pose proof (Z.mod_pos_bound sum (2 ^ 16) eq_refl).
    assert (0 <= sum / 2 ^ 16 < 2 ^ 16) by (split; [apply Z.div_pos|apply Z.div_lt_upper_bound]; lia). lia. }
  clearbody z. destruct (decide (z < 2 ^ 16)) as [|Hge']; [apply H0; lia|].
  rewrite (H1 _ z (2 ^ 17 - 1)), <- (ones_sum_carry z) by lia. apply H0.
  assert (z / 2 ^ 16 = 1) as -> by (symmetry; apply Z.div_unique with (z - 2 ^ 16); lia).
  rewrite <- (Z.mod_unique z (2 ^ 16) 1 (z - 2 ^ 16)) by lia; lia.
Qed.

Lemma onec_add16_ones x y : 0 <= x < 2 ^ 16 -> 0 <= y < 2 ^ 16 -> onec_add16 x y = ones_sum (x + y).
Proof.
  intros Hx Hy. unfold onec_add16. rewrite <- ones_sum_carry by lia. symmetry. apply ones_sum_small.
  pose proof (Z.div_mod (x + y) (2 ^ 16) ltac:(lia)). pose proof (Z.mod_pos_bound (x + y) (2 ^ 16) eq_refl).
  assert (0 <= (x + y) / 2 ^ 16 < 2) by (split; [apply Z.div_pos|apply Z.div_lt_upper_bound]; lia). lia.
Qed.

Lemma internet_sum_ones buf acc :
  wf_bytes buf -> 0 <= acc < 2 ^ 16 -> internet_sum buf acc = ones_sum (acc + word_sum buf).
Proof.
  revert acc. induction buf as [|a|a b l IH] using bytes_ind2; intros acc Hw Ha.
  - simpl. rewrite Z.add_0_r. by rewrite ones_sum_small.
  - apply Forall_cons in Hw as [Hb _]. unfold is_byte in Hb. simpl. apply onec_add16_ones; lia.
  - apply wf_bytes_cons2 in Hw as (Hx & Hy & Hl). unfold is_byte in *. simpl.
    pose proof (proj1 (word_sum_bounds l Hl)).
    rewrite onec_add16_ones, IH by (try done; try lia; apply ones_sum_range; lia).
    rewrite ones_sum_add_l by lia. f_equal. lia.
Qed.

Lemma calc_checksum_ones start buf :
  wf_bytes buf -> blen buf < 2 ^ 16 -> 0 <= start < 2 ^ 16 ->
  calc_checksum start buf = ones_sum (start + word_sum buf).
Proof.
  intros Hw Hl Hs. pose proof (word_sum_bounds buf Hw). unfold calc_checksum.
  rewrite sum_words_exact by (done || lia).
  destruct (carry_loop_ends 2 (start + word_sum buf)) as [-> _]; [lia|lia|].
  apply u16_small, ones_sum_range. lia.
Qed.

(** C39: [calc_checksum] - a sum of 16-bit words in 32 bits, then folded until
    no carry is left - is the one's complement sum of RFC 1071, which adds the
    carry back at every word, for every buffer whose length fits its 16-bit
    argument; its loop on the carry ends. *)
Theorem calc_checksum_rfc1071 start buf :
  wf_bytes buf -> blen buf < 2 ^ 16 -> 0 <= start < 2 ^ 16 ->
  calc_checksum start buf = internet_sum buf start /\
  Z.shiftr (carry_loop 2 (sum_words buf start)) 16 = 0.
Proof.
  intros Hw Hl Hs. pose proof (word_sum_bounds buf Hw). split.
  - by rewrite calc_checksum_ones, internet_sum_ones.
  - rewrite sum_words_exact by (done || lia). apply carry_loop_ends; lia.
Qed.

Lemma calc_checksum_rfc1071_witness :
  calc_checksum 0 [0x45; 0; 0; 60; 0x1c] = internet_sum [0x45; 0; 0; 60; 0x1c] 0.
Proof. apply (calc_checksum_rfc1071 0 [0x45; 0; 0; 60; 0x1c]); [repeat constructor; done|reflexivity|done]. Defined.

(** ** The headers of the packets to the client *)

(** The pseudo headers of the RFCs (793, 8200). *)
Definition rfc_pseudo (ver : Z) (src dst proto len : Z) : bytes :=
  if ver =? 4 then le32 src ++ le32 dst ++ [0; proto] ++ le16 (htons len)
  else le_split sizeof_in6 src ++ le_split sizeof_in6 dst ++ [0; 0] ++ le16 (htons len) ++
       [0; 0; 0; if proto =? IPPROTO_ICMP then IPPROTO_ICMPV6 else proto].

Lemma not16_complement x : 0 <= x < 2 ^ 16 -> not16 x = 65535 - x.
Proof. intros Hx. unfold not16, Z.lnot. rewrite <- Z.sub_1_r. unfold u16. symmetry. apply Z.mod_unique with (-1); lia. Qed.

Lemma not16_range x : 0 <= not16 x < 2 ^ 16.
Proof. apply u16_range. Qed.

Lemma wf_le16 z : wf_bytes (le16 z).
Proof. apply wf_le_split. Qed.
#[export] Hint Resolve wf_le16 not16_range : width.

Lemma wf_bytes_app x y : wf_bytes x -> wf_bytes y -> wf_bytes (x ++ y).
Proof. intros. by apply Forall_app. Qed.

Lemma wf_bytes_cons a l : is_byte a -> wf_bytes l -> wf_bytes (a :: l).
Proof. by constructor. Qed.

Ltac wf :=
  repeat lazymatch goal with
  | |- wf_bytes (_ ++ _) => apply wf_bytes_app
  | |- wf_bytes (_ :: _) => apply wf_bytes_cons
  | |- wf_bytes [] => apply Forall_nil_2
  | |- wf_bytes (le_split _ _) => apply wf_le_split
  | |- wf_bytes (le16 _) => apply wf_le16
  | |- wf_bytes (le32 _) => apply wf_le32
  end; try assumption; try (unfold is_byte; lia).

(** A buffer with a zero field, and the same with the complement of its sum. *)
Lemma sum_filled x y z :
  wf_bytes (x ++ le16 0 ++ y) -> blen x mod 2 = 0 -> 0 <= z ->
  ones_sum (z + word_sum (x ++ le16 (65535 - ones_sum (z + word_sum (x ++ le16 0 ++ y))) ++ y)) = 65535.
Proof.
  intros Hw Hx Hz. apply Forall_app in Hw as [Hwx Hw]. apply Forall_app in Hw as [_ Hwy].
  pose proof (proj1 (word_sum_bounds x Hwx)). pose proof (proj1 (word_sum_bounds y Hwy)).
  rewrite !word_sum_app by done. change (word_sum (le16 0)) with 0.
  pose proof (ones_sum_range (z + (word_sum x + (0 + word_sum y))) ltac:(lia)).
  rewrite word_sum_le16 by lia.
  set (s := z + (word_sum x + (0 + word_sum y))) in *.
  replace (z + (word_sum x + (65535 - ones_sum s + word_sum y))) with (s + (65535 - ones_sum s)) by (unfold s; lia).
  apply ones_sum_complement. unfold s. lia.
Qed.

Lemma iphdr4_valid tuple l3_len :
  is_byte (ipproto tuple) -> internet_sum (zdtun_make_iphdr 4 tuple l3_len) 0 = 0xFFFF.
Proof.
  intros Hp. unfold zdtun_make_iphdr. cbn [Z.eqb Pos.eqb].
  assert (forall check, iphdr4 tuple l3_len check =
    ([0x45; 0] ++ le16 (htons (u16 (l3_len + IPV4_HEADER_LEN))) ++ le16 0 ++ le16 (htons 0x4000) ++ [64; ipproto tuple]) ++
    le16 check ++ (le32 (dst_ip tuple) ++ le32 (src_ip tuple))) as E by (intros check; unfold iphdr4; by rewrite <- !app_assoc).
  set (x := [0x45; 0] ++ _) in E. set (y := le32 (dst_ip tuple) ++ _) in E.
  assert (wf_bytes x) as Hx by (unfold x; wf). assert (wf_bytes y) as Hy by (unfold y; wf).
  assert (blen x = 10) as Hlx by done. assert (blen y = 8) as Hly by done.
  rewrite (E 0), (calc_checksum_ones 0) by (try done; autorewrite with blen; try lia; wf). rewrite E.
  rewrite not16_complement by (apply ones_sum_range, Z.add_nonneg_nonneg; [lia|apply word_sum_bounds; wf]).
  rewrite internet_sum_ones by (try done; wf). apply sum_filled; [wf|by rewrite Hlx|lia].
Qed.

Lemma pseudo_sum ver tuple l3_len :
  is_byte (ipproto tuple) -> 0 <= l3_len < 2 ^ 16 ->
  let hdr := zdtun_make_iphdr ver tuple l3_len in
  let pseudo := if ver =? 4 then ippseudo hdr (ipproto tuple) l3_len else ip6_hdr_pseudo hdr (ipproto tuple) in
  word_sum pseudo = word_sum (rfc_pseudo ver (dst_ip tuple) (src_ip tuple) (ipproto tuple) l3_len) /\
  wf_bytes pseudo /\ wf_bytes (rfc_pseudo ver (dst_ip tuple) (src_ip tuple) (ipproto tuple) l3_len) /\
  blen pseudo < 2 ^ 15 /\ blen (rfc_pseudo ver (dst_ip tuple) (src_ip tuple) (ipproto tuple) l3_len) mod 2 = 0.
Proof.
  intros Hp Hl. cbv zeta. unfold zdtun_make_iphdr, rfc_pseudo. destruct (ver =? 4).
  - set (check := not16 _). clearbody check. unfold ippseudo.
    assert (slice (iphdr4 tuple l3_len check) 12 8 = le32 (dst_ip tuple) ++ le32 (src_ip tuple)) as -> by reflexivity.
    rewrite u16_small, <- !app_assoc by done. split_and!; try done; wf.
  - set (proto := if ipproto tuple =? IPPROTO_ICMP then _ else _).
    assert (is_byte proto) as Hpr by (unfold proto; by destruct (_ =? _)). unfold ip6_hdr_pseudo. fold proto.
    rewrite u16_small by done. set (hdr := [0x60; 0; 0; 0] ++ _).
    assert (slice hdr 8 32 = le_split sizeof_in6 (dst_ip tuple) ++ le_split sizeof_in6 (src_ip tuple)) as -> by reflexivity.
    assert (slice hdr 4 2 = le16 (htons l3_len)) as -> by reflexivity. clear hdr.
    rewrite <- !app_assoc. split_and!; try done; wf.
Qed.

(** The checksum of a segment whose checksum field is zero. *)
Lemma l3_checksum_valid ver tuple before after :
  let l3 c := before ++ le16 c ++ after in
  let hdr := zdtun_make_iphdr ver tuple (blen (l3 0)) in
  is_byte (ipproto tuple) -> wf_bytes (l3 0) -> blen before mod 2 = 0 -> blen (l3 0) < 2 ^ 16 ->
  internet_sum (rfc_pseudo ver (dst_ip tuple) (src_ip tuple) (ipproto tuple) (blen (l3 0)) ++
                l3 (zdtun_l3_checksum ver (ipproto tuple) hdr (l3 0))) 0 = 0xFFFF.
Proof.
  intros l3 hdr Hp Hw He Hl.
  destruct (pseudo_sum ver tuple (blen (l3 0)) Hp ltac:(pose proof (blen_nonneg (l3 0)); lia))
    as (Es & Hwp & Hwr & Hlp & Hev). fold hdr in Es, Hwp, Hlp.
  set (n := word_sum (l3 0)). pose proof (proj1 (word_sum_bounds _ Hw)) as Hn. fold n in Hn.
  set (ps := rfc_pseudo _ _ _ _ _) in *. pose proof (proj1 (word_sum_bounds _ Hwr)) as Hps.
  assert (zdtun_l3_checksum ver (ipproto tuple) hdr (l3 0) = 65535 - ones_sum (word_sum ps + n)) as ->.
  { unfold zdtun_l3_checksum. rewrite (calc_checksum_ones 0 (l3 0)) by (done || lia). fold n.
    rewrite Z.add_0_l. pose proof (ones_sum_range n ltac:(lia)).
    rewrite (Z.add_comm (word_sum ps)), <- (ones_sum_add_l n) by lia.
    destruct (ver =? 4); rewrite calc_checksum_ones, Es by (done || lia); apply not16_complement, ones_sum_range; lia. }
  assert (wf_bytes (ps ++ l3 (65535 - ones_sum (word_sum ps + n)))) as Hwl.
  { apply Forall_app in Hw as [? Hw]. apply Forall_app in Hw as [_ ?]. unfold l3. wf. }
  rewrite internet_sum_ones by done. rewrite word_sum_app by done. rewrite Z.add_0_l.
  by apply sum_filled.
Qed.

(** C40: the headers that zdtun makes are valid for any tuple and length: the
    checksum of the IPv4 header, and the one of the segment [l3] (with its
    checksum field, at an even offset, zero when it is computed) put in its
    place, make the sums that RFC 1071 asks for, over the header and over the
    pseudo header of the RFCs and the segment, although the code folds the
    segment first and writes the length of the IPv6 pseudo header at another
    place. *)
Theorem zdtun_checksums_valid ver tuple before after :
  let l3 c := before ++ le16 c ++ after in
  let hdr := zdtun_make_iphdr ver tuple (blen (l3 0)) in
  is_byte (ipproto tuple) -> wf_bytes (l3 0) -> blen before mod 2 = 0 -> blen (l3 0) < 2 ^ 16 ->
  (ver = 4 -> internet_sum hdr 0 = 0xFFFF) /\
  internet_sum (rfc_pseudo ver (dst_ip tuple) (src_ip tuple) (ipproto tuple) (blen (l3 0)) ++
                l3 (zdtun_l3_checksum ver (ipproto tuple) hdr (l3 0))) 0 = 0xFFFF.
Proof.
  intros l3 hdr Hp Hw He Hl. split; [intros ->; by apply iphdr4_valid|by apply l3_checksum_valid].
Qed.

(** *** A TCP reset of 1.1.1.1:443 to 10.0.0.1:4096 *)
Definition ex_rst_before : bytes := le16 47873 ++ le16 16 ++ le32 1 ++ le32 2 ++ [0x50; 0x14] ++ le16 0.

Lemma zdtun_checksums_valid_witness :
  let tuple := mk_5tuple 16777226 16843009 16 47873 4 IPPROTO_TCP in
  internet_sum (zdtun_make_iphdr 4 tuple 20) 0 = 0xFFFF /\ blen (ex_rst_before ++ le16 0 ++ [0; 0]) = 20.
Proof.
  intros tuple. split; [|reflexivity].
  apply (zdtun_checksums_valid 4 tuple ex_rst_before [0; 0]); try reflexivity; [by split|].
  repeat constructor; done.
Defined.
