(* ===== verification/Kernel.v ===== *)
(** The socket calls of zdtun (zdtun/zdtun.h: socket, connect, send, recv ...)
    as the documentation of the kernel describes them: what each call answers
    is the next outcome of a list, and what happened is logged. *)
From Stdlib Require Import ZArith Lia.
From stdpp Require Import base option gmap numbers list.
From S2P Require Import Prelude.

Open Scope Z_scope.

(** [socket_errno] *)
Definition EAGAIN : Z := 11.
Definition EPIPE : Z := 32.
Definition ENETUNREACH : Z := 101.
Definition ECONNABORTED : Z := 103.
Definition ECONNRESET : Z := 104.
Definition ECONNREFUSED : Z := 111.
Definition EHOSTUNREACH : Z := 113.
Definition EINPROGRESS : Z := 115.
Definition INVALID_SOCKET : Z := -1.
Definition FD_SETSIZE : Z := 1024.

(** The next outcome: an error, or a value and the data received. *)
Record outcome := mk_outcome { oc_err : Z; oc_value : Z; oc_data : bytes }.
Definition success : outcome := mk_outcome 0 0 [].

(** What the calls did. *)
Inductive sys_event :=
  | SysSocket (fd : Z)
  | SysClose (fd : Z)
  | SysBind (fd port : Z)
  | SysConnect (fd ver ip port : Z)
  | SysSend (fd : Z) (data : bytes)    (** the bytes that the kernel took *)
  | SysRecv (fd : Z) (data : bytes)
  | SysShutdown (fd : Z).

Record kernel := mk_kernel {
  outcomes : list outcome;
  open_fds : gset Z;
  sys_log : list sys_event
}.
#[export] Instance eta_kernel : Eta kernel := fun k => mk_kernel (outcomes k) (open_fds k) (sys_log k).

Definition next_sys (k : kernel) : outcome * kernel :=
  (default success (head (outcomes k)), k <| outcomes ::= tail |>).
Definition log_sys (e : sys_event) (k : kernel) : kernel := k <| sys_log ::= fun l => l ++ [e] |>.

(** The lowest-numbered descriptor that is not open. *)
Fixpoint lowest_unused (fuel : nat) (fds : gset Z) (fd : Z) : Z :=
  match fuel with
  | O => fd
  | S fuel' => if decide (fd ∈ fds) then lowest_unused fuel' fds (fd + 1) else fd
  end.

(** *** The calls: an error number or the result *)
Definition sys_socket (k : kernel) : (Z + Z) * kernel :=
  let '(o, k) := next_sys k in
  if oc_err o =? 0 then
    let fd := lowest_unused (S (size (open_fds k))) (open_fds k) 0 in
    (inr fd, log_sys (SysSocket fd) (k <| open_fds ::= fun s => {[fd]} ∪ s |>))
  else (inl (oc_err o), k).

(** The descriptor is released even if the call fails. *)
Definition sys_close (fd : Z) (k : kernel) : (Z + unit) * kernel :=
  let '(o, k) := next_sys k in
  let k := log_sys (SysClose fd) (k <| open_fds ::= fun s => s ∖ {[fd]} |>) in
  (if oc_err o =? 0 then inr tt else inl (oc_err o), k).

Definition sys_connect (fd : Z) (addr : Z * Z * Z) (k : kernel) : (Z + unit) * kernel :=
  let '(o, k) := next_sys k in
  let '(ver, ip, port) := addr in
  let k := log_sys (SysConnect fd ver ip port) k in
  (if oc_err o =? 0 then inr tt else inl (oc_err o), k).

Definition sys_bind (fd port : Z) (k : kernel) : (Z + unit) * kernel :=
  let '(o, k) := next_sys k in
  let k := log_sys (SysBind fd port) k in
  (if oc_err o =? 0 then inr tt else inl (oc_err o), k).

(** The value of the outcome is the number of bytes that are not taken. *)
Definition sys_send (fd : Z) (data : bytes) (k : kernel) : (Z + Z) * kernel :=
  let '(o, k) := next_sys k in
  if oc_err o =? 0 then
    let n := blen data - Z.max 0 (Z.min (oc_value o) (blen data)) in
    (inr n, log_sys (SysSend fd (take (Z.to_nat n) data)) k)
  else (inl (oc_err o), k).

(** At most [n] bytes; none is the end of the stream. *)
Definition sys_recv (fd n : Z) (k : kernel) : (Z + bytes) * kernel :=
  let '(o, k) := next_sys k in
  if oc_err o =? 0 then
    let data := (u8 <$> take (Z.to_nat n) (oc_data o)) in
    (inr data, log_sys (SysRecv fd data) k)
  else (inl (oc_err o), k).

Definition sys_shutdown (fd : Z) (k : kernel) : kernel :=
  let '(_, k) := next_sys k in log_sys (SysShutdown fd) k.

(** A call with a value: getsockopt, ioctl, clock_gettime, getsockname, and
    calloc, whose value is not used. *)
Definition sys_get (k : kernel) : (Z + Z) * kernel :=
  let '(o, k) := next_sys k in
  (if oc_err o =? 0 then inr (oc_value o) else inl (oc_err o), k).

(** ** Facts *)
Lemma lowest_unused_ge fuel fds fd : fd <= lowest_unused fuel fds fd.
Proof.
  revert fd. induction fuel as [|fuel IH]; intros fd; simpl; [lia|].
  destruct (decide _); [|lia]. specialize (IH (fd + 1)). lia.
Qed.

Lemma lowest_unused_taken fuel fds fd :
  lowest_unused fuel fds fd ∈ fds -> forall x, fd <= x <= fd + Z.of_nat fuel -> x ∈ fds.
Proof.
  revert fd. induction fuel as [|fuel IH]; intros fd; simpl.
  - intros Hin x Hx. assert (x = fd) as -> by lia. done.
  - destruct (decide (fd ∈ fds)) as [Hfd|Hfd]; [|done]. intros Hin x Hx.
    destruct (decide (x = fd)) as [->|]; [done|]. apply (IH _ Hin). lia.
Qed.

(** The search finds a free descriptor. *)
Lemma lowest_unused_free fds : lowest_unused (S (size fds)) fds 0 ∉ fds.
Proof.
  intros Hin. pose proof (lowest_unused_taken _ _ _ Hin) as Hall.
  assert (list_to_set (seqZ 0 (Z.of_nat (S (size fds)))) ⊆ fds) as Hsub.
  { intros x Hx. rewrite elem_of_list_to_set, elem_of_seqZ in Hx. apply Hall. lia. }
  apply subseteq_size in Hsub. rewrite size_list_to_set in Hsub by apply NoDup_seqZ.
  rewrite length_seqZ in Hsub. lia.
Qed.

Lemma sys_socket_fresh k fd k' :
  sys_socket k = (inr fd, k') -> 0 <= fd /\ fd ∉ open_fds k /\ open_fds k' = {[fd]} ∪ open_fds k.
Proof.
  unfold sys_socket, next_sys. destruct (oc_err _ =? 0); [|done]. intros [= <- <-].
  split; [exact (lowest_unused_ge (S (size (open_fds k))) (open_fds k) 0)|].
  split; [exact (lowest_unused_free (open_fds k))|done].
Qed.

Lemma sys_send_bounds fd data k n k' : sys_send fd data k = (inr n, k') -> 0 <= n <= blen data.
Proof.
  unfold sys_send, next_sys. destruct (oc_err _ =? 0); [|done]. intros [= <- _].
  pose proof (blen_nonneg data). lia.
Qed.

Lemma sys_recv_bounds fd n data k k' :
  0 <= n -> sys_recv fd n k = (inr data, k') -> blen data <= n /\ wf_bytes data.
Proof.
  intros Hn. unfold sys_recv, next_sys. destruct (oc_err _ =? 0); [|done]. intros [= <- _]. split.
  - unfold blen. rewrite length_fmap, length_take. lia.
  - apply Forall_fmap, Forall_true. intros x. apply u8_range.
Qed.
