(* ===== verification/Zdtun.v ===== *)
(** The connection engine of zdtun (zdtun/zdtun.c, zdtun/socks5.c): the table of
    the connections of the client, each one with a socket to its server, and
    the packets and segments that go between the two sides. *)
From Stdlib Require Import ZArith Lia.
From stdpp Require Import base option gmap numbers list.
From S2P Require Import Prelude Packet Uthash PcapDump Blacklist NdpiProtos Conn Checksum Kernel.

Open Scope Z_scope.

Definition REPLY_BUF_SIZE : Z := 65535.
Definition DEFAULT_TCP_WINDOW : Z := 65535.
Definition Z_ICMP_TIMEOUT_SEC : Z := 5.
Definition Z_UDP_TIMEOUT_SEC : Z := 30.
Definition Z_TCP_TIMEOUT_SEC : Z := 60.
Definition MAX_NUM_SOCKETS : Z := 128.
Definition NUM_SOCKETS_AFTER_PURGE : Z := 96.
Definition CONN_STATUS_ERROR : Z := 4.
Definition CONN_STATUS_SOCKET_ERROR : Z := 5.
Definition CONN_STATUS_CLIENT_ERROR : Z := 6.
Definition CONN_STATUS_UNREACHABLE : Z := 8.
Definition CONN_STATUS_SOCKS5_ERROR : Z := 9.
(** ** Data *)
Record tcp_data := mk_tcp_data { td_flags : Z; td_sofar : Z; td_data : bytes }.
#[export] Instance eta_tcp_data : Eta tcp_data := fun d => mk_tcp_data (td_flags d) (td_sofar d) (td_data d).
(** [item->len] is 16 bits wide. *)
Definition td_len (d : tcp_data) : Z := u16 (blen (td_data d)).

Inductive proxy_mode_t := PROXY_NONE | PROXY_DNAT | PROXY_SOCKS5.
#[export] Instance proxy_mode_eq : EqDecision proxy_mode_t.
Proof. solve_decision. Defined.
Record proxy_t := mk_proxy { px_ip : Z; px_port : Z; px_ipver : Z }.

Inductive socks5_status_t :=
  | SOCKS5_HELLO | SOCKS5_AUTH | SOCKS5_CONNECTING | SOCKS5_SKIP_BND | SOCKS5_ESTABLISHED.
#[export] Instance socks5_status_eq : EqDecision socks5_status_t.
Proof. solve_decision. Defined.

Record udp_mapping_t := mk_mapping { um_port : Z; um_num_uses : Z }.

(** [zdtun_conn_t]; the members of its structures [tcp] and [dns] are fields of
    their own. [D]: what [user_data] points to. *)
Record zdtun_conn (D : Type) := mk_zconn {
  zc_tuple : zdtun_5tuple;
  zc_tstamp : Z;
  zc_sock : Z;
  zc_status : Z;
  zc_dnat : option proxy_t;
  zc_proxy_mode : proxy_mode_t;
  zc_socks5_status : socks5_status_t;
  zc_socks5_skip : Z;
  tx_queue : list tcp_data;
  tx_queue_size : Z;
  client_seq : Z;
  zdtun_seq : Z;
  window_size : Z;
  zc_mss : Z;
  window_scale : Z;
  fin_ack_sent : bool;
  client_closed : bool;
  pending_queries : Z;
  zc_user_data : option D
}.
#[global] Arguments mk_zconn {D}.
#[global] Arguments zc_tuple {D}.
#[global] Arguments zc_tstamp {D}.
#[global] Arguments zc_sock {D}.
#[global] Arguments zc_status {D}.
#[global] Arguments zc_dnat {D}.
#[global] Arguments zc_proxy_mode {D}.
#[global] Arguments zc_socks5_status {D}.
#[global] Arguments zc_socks5_skip {D}.
#[global] Arguments tx_queue {D}.
#[global] Arguments tx_queue_size {D}.
#[global] Arguments client_seq {D}.
#[global] Arguments zdtun_seq {D}.
#[global] Arguments window_size {D}.
#[global] Arguments zc_mss {D}.
#[global] Arguments window_scale {D}.
#[global] Arguments fin_ack_sent {D}.
#[global] Arguments client_closed {D}.
#[global] Arguments pending_queries {D}.
#[global] Arguments zc_user_data {D}.
#[export] Instance eta_zconn D : Eta (zdtun_conn D) := fun c =>
  mk_zconn (zc_tuple c) (zc_tstamp c) (zc_sock c) (zc_status c) (zc_dnat c) (zc_proxy_mode c)
    (zc_socks5_status c) (zc_socks5_skip c) (tx_queue c) (tx_queue_size c) (client_seq c) (zdtun_seq c)
    (window_size c) (zc_mss c) (window_scale c) (fin_ack_sent c) (client_closed c) (pending_queries c)
    (zc_user_data c).

Abbreviation zconn_ptr := Z (only parsing).

(** [zdtun_t]. [reply_buf] is given by its bytes up to the last one written;
    the others are zero, as [calloc] left them. *)
Record zdtun (D : Type) := mk_zdtun {
  zt_heap : gmap zconn_ptr (zdtun_conn D);
  zt_next_ptr : zconn_ptr;
  conn_table : list (zdtun_5tuple * zconn_ptr);
  udp_mappings : list (Z * udp_mapping_t);
  all_fds : gset Z;
  write_fds : gset Z;
  mtu : Z;
  zt_stats : zdtun_statistics;
  zt_now : Z;
  id2ports : idports;
  reply_buf : bytes;
  socks5 : proxy_t;
  socks5_user : option bytes;
  socks5_pass : option bytes
}.
#[global] Arguments mk_zdtun {D}.
#[global] Arguments zt_heap {D}.
#[global] Arguments zt_next_ptr {D}.
#[global] Arguments conn_table {D}.
#[global] Arguments udp_mappings {D}.
#[global] Arguments all_fds {D}.
#[global] Arguments write_fds {D}.
#[global] Arguments mtu {D}.
#[global] Arguments zt_stats {D}.
#[global] Arguments zt_now {D}.
#[global] Arguments id2ports {D}.
#[global] Arguments reply_buf {D}.
#[global] Arguments socks5 {D}.
#[global] Arguments socks5_user {D}.
#[global] Arguments socks5_pass {D}.
#[export] Instance eta_zdtun D : Eta (zdtun D) := fun t =>
  mk_zdtun (zt_heap t) (zt_next_ptr t) (conn_table t) (udp_mappings t) (all_fds t) (write_fds t) (mtu t)
    (zt_stats t) (zt_now t) (id2ports t) (reply_buf t) (socks5 t) (socks5_user t) (socks5_pass t).

(** [zdtun_callbacks_t] of a user with state [U]. *)
Class Callbacks (U D : Type) := {
  send_client : zdtun_pkt -> zdtun_conn D -> M U Z;
  account_packet : zdtun_pkt -> bool -> zdtun_conn D -> M U unit;
  on_socket_open : Z -> M U unit;
  on_socket_close : Z -> M U unit;
  on_connection_open : zdtun_conn D -> M U (Z * option D);
  on_connection_close : zdtun_conn D -> M U unit
}.

(** The engine, its user and the kernel. *)
Record tun_state (U D : Type) := mk_tun_state { ts_tun : zdtun D; ts_user : U; ts_sys : kernel }.
#[global] Arguments mk_tun_state {U D}.
#[global] Arguments ts_tun {U D}.
#[global] Arguments ts_user {U D}.
#[global] Arguments ts_sys {U D}.
#[export] Instance eta_tun_state U D : Eta (tun_state U D) := fun s => mk_tun_state (ts_tun s) (ts_user s) (ts_sys s).

(** *** The buffer of the replies *)
Definition buf_get (off n : Z) (buf : bytes) : bytes :=
  let b := drop (Z.to_nat off) buf in
  take (Z.to_nat n) (b ++ replicate (Z.to_nat n) 0).

(** [None]: a store past the end of the buffer. *)
Definition buf_put (off : Z) (bs : bytes) (buf : bytes) : option bytes :=
  if (off <? 0) || (REPLY_BUF_SIZE <? off + blen bs) then None
  else Some (buf_get 0 off buf ++ bs ++ drop (Z.to_nat (off + blen bs)) buf).

(** The packet of [size] bytes at the start of the buffer, with the bytes after
    it that its readers may look at; a read past them counts as undefined,
    although the buffer goes on. *)
Definition reply_margin : Z := 64.
Definition sent_size (size : Z) : Z := Z.min (size + reply_margin) REPLY_BUF_SIZE.
Definition sent_buf (size : Z) (buf : bytes) : bytes := buf_get 0 (sent_size size) buf.

(** [x << n] of an unsigned and of a signed 32-bit operand; a shift count of 32
    or more, and a signed result out of range, are undefined. *)
Definition shl_u32 (x n : Z) : option Z := if n <? 32 then Some (u32 (Z.shiftl x n)) else None.
Definition shl_s32 (x n : Z) : option Z :=
  if (n <? 32) && (Z.shiftl x n <? 2 ^ 31) then Some (Z.shiftl x n) else None.

Definition udp_mapping_key (tuple : zdtun_5tuple) : Z :=
  Z.lor (u32 (Z.shiftl (ipver tuple) 16)) (src_port tuple).

(** ** Operations *)
Section engine.
Context {U D : Type} `{Callbacks U D}.
Abbreviation state := (tun_state U D).
Abbreviation zconn := (zdtun_conn D).
Implicit Types (p : zconn_ptr) (c : zconn) (tuple : zdtun_5tuple).

Definition on_tun (f : zdtun D -> zdtun D) : M state unit := modify (fun s => s <| ts_tun ::= f |>).
Definition tun_get {A} (f : zdtun D -> A) : M state A := gets (fun s => f (ts_tun s)).
(** A system call; a call of the user's code. *)
Definition sys {A} (f : kernel -> A * kernel) : M state A := fun s =>
  let '(a, k) := f (ts_sys s) in Some (a, s <| ts_sys := k |>).
Definition callback {A} (m : M U A) : M state A := fun s =>
  match m (ts_user s) with Some (a, u) => Some (a, s <| ts_user := u |>) | None => None end.

Definition zderef p : M state zconn := h ← tun_get zt_heap; of_option (h !! p).
Definition modify_zconn p (f : zconn -> zconn) : M state unit :=
  c ← zderef p; on_tun (fun t => t <| zt_heap ::= <[p := f c]> |>).

Definition sock_ipver p : M state Z :=
  c ← zderef p;
  match zc_proxy_mode c with
  | PROXY_DNAT => px ← of_option (zc_dnat c); mret (px_ipver px)
  | PROXY_SOCKS5 => px ← tun_get socks5; mret (px_ipver px)
  | PROXY_NONE => mret (ipver (zc_tuple c))
  end.

Definition zdtun_iphdr_len p : M state Z :=
  ver ← sock_ipver p; mret (if ver =? 4 then IPV4_HEADER_LEN else IPV6_HEADER_LEN).

(** The clock may fail; the time then stays. *)
Definition zdtun_now : M state Z :=
  r ← sys sys_get;
  match r with inr sec => on_tun (fun t => t <| zt_now := sec |>) | inl _ => mret tt end;;
  tun_get zt_now.

(** *** Sockets *)
Definition count_opened (protocol : Z) (st : zdtun_statistics) : zdtun_statistics :=
  if protocol =? IPPROTO_UDP then st <| num_udp_opened ::= fun n => u32 (n + 1) |>
  else if protocol =? IPPROTO_TCP then st <| num_tcp_opened ::= fun n => u32 (n + 1) |>
  else if (protocol =? IPPROTO_ICMP) || (protocol =? IPPROTO_ICMPV6)
  then st <| num_icmp_opened ::= fun n => u32 (n + 1) |>
  else st.

Definition open_socket (protocol : Z) : M state Z :=
  n ← tun_get (fun t => num_open_sockets (zt_stats t));
  if n >=? MAX_NUM_SOCKETS then mret INVALID_SOCKET else
  r ← sys sys_socket;
  match r with
  | inl _ => mret INVALID_SOCKET
  | inr sock =>
      if sock >=? FD_SETSIZE then sys (sys_close sock);; mret INVALID_SOCKET
      else
        callback (on_socket_open sock);;
        on_tun (fun t => t <| all_fds ::= fun s => {[sock]} ∪ s |>
                           <| zt_stats ::= fun st => st <| num_open_sockets ::= fun n => u32 (n + 1) |>
                                                       <| all_max_fd ::= fun m => Z.max m sock |> |>
                           <| zt_stats ::= count_opened protocol |>);;
        mret sock
  end.

Definition close_socket (sock : Z) : M state unit :=
  if sock =? INVALID_SOCKET then mret tt else
  r ← sys (sys_close sock);
  match r with inr _ => callback (on_socket_close sock) | inl _ => mret tt end;;
  on_tun (fun t => t <| all_fds ::= fun s => s ∖ {[sock]} |>
                     <| write_fds ::= fun s => s ∖ {[sock]} |>
                     <| zt_stats ::= fun st => st <| num_open_sockets ::= fun n => Z.max (u32 (n - 1)) 0 |> |>).

(** *** Packets to the client *)
Definition put (off : Z) (bs : bytes) : M state unit :=
  b ← tun_get reply_buf;
  b ← of_option (buf_put off bs b);
  on_tun (fun t => t <| reply_buf := b |>).

(** An approximation of the free space of the send buffer. The unsigned
    subtraction comes back to an [int]. *)
Definition get_available_sndbuf p : M state Z :=
  c ← zderef p;
  r ← sys sys_get;     (* SO_SNDBUF *)
  let bufsize := match r with inr n => if n =? 0 then DEFAULT_TCP_WINDOW else n | inl _ => DEFAULT_TCP_WINDOW end in
  r ← sys sys_get;     (* SIOCOUTQ *)
  let queued := match r with inr n => n | inl _ => 0 end in
  mret (Z.max (s32 (u32 (bufsize - queued - tx_queue_size c))) 0).

Definition tcp_header (c : zconn) (flags optsoff window check : Z) : bytes :=
  le16 (dst_port (zc_tuple c)) ++ le16 (src_port (zc_tuple c)) ++ le32 (htonl (zdtun_seq c)) ++
  le32 (if has_flag flags TH_ACK then htonl (client_seq c) else 0) ++
  [u8 (16 * (5 + optsoff)); u8 flags] ++ le16 window ++ le16 check ++ le16 0.

(** The headers around the options and the payload that are in the buffer. *)
Definition build_reply_tcpip p (flags l4_len optsoff : Z) : M state unit :=
  ver ← sock_ipver p;
  iphdr_len ← zdtun_iphdr_len p;
  c ← zderef p;
  let l3_len := u16 (l4_len + TCP_HEADER_LEN + optsoff * 4) in
  max_win ← of_option (shl_u32 0xFFFF (window_scale c));
  avail ← get_available_sndbuf p;
  (* the macro [min] evaluates its argument a second time *)
  tcpwin ← (if avail <? max_win then get_available_sndbuf p else mret max_win);
  let window := htons (u16 (Z.shiftr tcpwin (window_scale c))) in
  put iphdr_len (tcp_header c flags optsoff window 0);;
  let iphdr := zdtun_make_iphdr ver (zc_tuple c) l3_len in
  put 0 iphdr;;
  buf ← tun_get reply_buf;
  let check := zdtun_l3_checksum ver (ipproto (zc_tuple c)) iphdr (buf_get iphdr_len l3_len buf) in
  put iphdr_len (tcp_header c flags optsoff window check).

(** [close]: [zdtun_conn_close], which calls this function. *)
Definition send_to_client_with (close : zconn_ptr -> Z -> M state unit) p (l3_len : Z) : M state Z :=
  iphdr_len ← zdtun_iphdr_len p;
  s ← gets ts_tun;
  let size := u16 (l3_len + iphdr_len) in
  '(r, ids) ← of_option (zdtun_parse_pkt (id2ports s) (sent_buf size (reply_buf s)) size);
  on_tun (fun t => t <| id2ports := ids |>);;
  match r with
  | inl _ => mret (-1)
  | inr pkt =>
      c ← zderef p;
      rv ← callback (send_client pkt c);
      (if rv =? 0 then
         c ← zderef p; callback (account_packet pkt false c)
       else
         when (ipproto (zc_tuple c) =? IPPROTO_TCP) (modify_zconn p (fun c => c <| fin_ack_sent := true |>));;
         close p CONN_STATUS_CLIENT_ERROR);;
      mret rv
  end.

(** The mapping of the client port of a UDP connection loses a use. *)
Definition release_mapping tuple : M state unit :=
  on_tun (fun t =>
    let key := udp_mapping_key tuple in
    match HASH_FIND (udp_mappings t) key with
    | None => t
    | Some m =>
        let n := u16 (um_num_uses m - 1) in
        if n =? 0 then t <| udp_mappings ::= fun l => HASH_DELETE l key |>
        else t <| udp_mappings ::= (fun l => (fun e => if decide (e.1 = key) then (key, mk_mapping (um_port m) n) else e) <$> l) |>
    end).

(** The reset of a TCP connection can fail to be sent, which closes the
    connection from inside of its own closing. *)
Fixpoint zdtun_conn_close_rec (fuel : nat) p (status : Z) : M state unit :=
  c ← zderef p;
  if zc_status c >=? CONN_STATUS_CLOSED then mret tt else
  let tcp := ipproto (zc_tuple c) =? IPPROTO_TCP in
  when (ipproto (zc_tuple c) =? IPPROTO_UDP) (release_mapping (zc_tuple c));;
  close_socket (zc_sock c);;
  modify_zconn p (fun c => c <| zc_sock := INVALID_SOCKET |>);;
  when (tcp && negb (fin_ack_sent c))
    (build_reply_tcpip p (Z.lor TH_RST TH_ACK) 0 0;;
     send_to_client_with (fun p status => match fuel with
                                          | O => ub
                                          | S fuel' => zdtun_conn_close_rec fuel' p status
                                          end) p TCP_HEADER_LEN;;
     mret tt);;
  when tcp (modify_zconn p (fun c => c <| tx_queue := [] |>));;
  modify_zconn p (fun c => c <| zc_status := if status >=? CONN_STATUS_CLOSED then status else CONN_STATUS_CLOSED |>);;
  c ← zderef p;
  callback (on_connection_close c).

Definition zdtun_conn_close := zdtun_conn_close_rec 1.
Definition send_to_client := send_to_client_with zdtun_conn_close.

(** Returns [-1] for the errors that are not of the client or the server. *)
Definition socket_error_status (err : Z) : Z * Z :=
  if err =? ECONNRESET then (CONN_STATUS_RESET, 0)
  else if (err =? EPIPE) || (err =? ECONNREFUSED) || (err =? ECONNABORTED) then (CONN_STATUS_SOCKET_ERROR, 0)
  else if (err =? ENETUNREACH) || (err =? EHOSTUNREACH) then (CONN_STATUS_UNREACHABLE, -1)
  else (CONN_STATUS_SOCKET_ERROR, -1).

Definition close_with_socket_error p (err : Z) : M state Z :=
  let '(status, rv) := socket_error_status err in
  zdtun_conn_close p status;; mret rv.

(** *** The table *)
Definition count_conn (ipproto d : Z) (st : zdtun_statistics) : zdtun_statistics :=
  if ipproto =? IPPROTO_TCP then st <| num_tcp_conn ::= fun n => u16 (n + d) |>
  else if ipproto =? IPPROTO_UDP then st <| num_udp_conn ::= fun n => u16 (n + d) |>
  else if ipproto =? IPPROTO_ICMP then st <| num_icmp_conn ::= fun n => u16 (n + d) |>
  else st.

(** The element is unlinked through its own handle. *)
Definition destroy_conn p : M state unit :=
  zdtun_conn_close p CONN_STATUS_CLOSED;;
  c ← zderef p;
  on_tun (fun t => t <| zt_stats ::= count_conn (ipproto (zc_tuple c)) (-1) |>
                     <| conn_table ::= (fun l => filter (fun e => e.2 ≠ p) l) |>
                     <| zt_heap ::= delete p |>).

(** A turn of the two loops of [zdtun_purge_expired]. *)
Definition zt_conn_timeout (ipproto : Z) : Z :=
  if ipproto =? IPPROTO_TCP then Z_TCP_TIMEOUT_SEC
  else if ipproto =? IPPROTO_UDP then Z_UDP_TIMEOUT_SEC
  else if ipproto =? IPPROTO_ICMP then Z_ICMP_TIMEOUT_SEC
  else 0.

Definition purge_idle (now : Z) (e : zdtun_5tuple * zconn_ptr) : M state unit :=
  c ← zderef e.2;
  when ((zc_status c >=? CONN_STATUS_CLOSED) ||
        (now >=? zt_conn_timeout (ipproto (zc_tuple c)) + zc_tstamp c))
    (destroy_conn e.2).

(** [HASH_SORT] is a stable merge sort; the comparison of the time stamps is a
    difference in an [int]. *)
Definition tstamp_before (h : gmap zconn_ptr zconn) (a b : zdtun_5tuple * zconn_ptr) : bool :=
  match h !! a.2, h !! b.2 with
  | Some ca, Some cb => s32 (zc_tstamp ca - zc_tstamp cb) <=? 0
  | _, _ => true
  end.

Fixpoint sort_insert (h : gmap zconn_ptr zconn) e (l : list (zdtun_5tuple * zconn_ptr)) :=
  match l with
  | [] => [e]
  | e' :: l' => if tstamp_before h e e' then e :: l else e' :: sort_insert h e l'
  end.
Definition sort_by_tstamp (h : gmap zconn_ptr zconn) (l : list (zdtun_5tuple * zconn_ptr)) :=
  foldr (sort_insert h) [] l.

Definition zdtun_purge_expired : M state unit :=
  now ← zdtun_now;
  table ← tun_get conn_table;
  for_each (purge_idle now) table;;
  n ← tun_get (fun t => num_open_sockets (zt_stats t));
  when (n >=? MAX_NUM_SOCKETS)
    (let to_purge := s32 (n - NUM_SOCKETS_AFTER_PURGE) in
     on_tun (fun t => t <| conn_table ::= sort_by_tstamp (zt_heap t) |>);;
     table ← tun_get conn_table;
     for_each (fun e => destroy_conn e.2) (take (Z.to_nat to_purge) table)).

(** An entry is found if its tuple, which an ICMP reply of the client changes,
    still is its key. *)
Definition find_conn tuple : M state (option zconn_ptr) :=
  table ← tun_get conn_table;
  match HASH_FIND table tuple with
  | None => mret None
  | Some p => c ← zderef p; mret (if decide (zc_tuple c = tuple) then Some p else None)
  end.

Definition zero_zconn tuple (now : Z) : zconn :=
  mk_zconn tuple now INVALID_SOCKET CONN_STATUS_NEW None PROXY_NONE SOCKS5_HELLO 0 [] 0 0 0 0 0 0 false false 0 None.

Definition create_conn tuple : M state (option zconn_ptr) :=
  n ← tun_get (fun t => num_open_sockets (zt_stats t));
  when (n >=? MAX_NUM_SOCKETS) zdtun_purge_expired;;
  now ← zdtun_now;
  let c := zero_zconn tuple now in
  '(rv, data) ← callback (on_connection_open c);
  if negb (rv =? 0) then mret None else
  p ← tun_get zt_next_ptr;
  on_tun (fun t => t <| zt_heap ::= <[p := c <| zc_user_data := data |>]> |> <| zt_next_ptr := p + 1 |>
                     <| conn_table ::= (fun l => HASH_ADD l tuple p) |>
                     <| zt_stats ::= count_conn (ipproto tuple) 1 |>);;
  mret (Some p).

Definition zdtun_lookup tuple (create : bool) : M state (option zconn_ptr) :=
  conn ← find_conn tuple;
  conn ← match conn with
         | None => mret None
         | Some p =>
             c ← zderef p;
             if zc_status c >=? CONN_STATUS_CLOSED then destroy_conn p;; mret None else mret (Some p)
         end;
  match conn with
  | Some p => mret (Some p)
  | None => if create then create_conn tuple else mret None
  end.

(** *** TCP *)
Definition default_mss p : M state Z :=
  m ← tun_get mtu;
  ver ← sock_ipver p;
  mret (u16 (m - TCP_HEADER_LEN - (if ver =? 4 then IPV4_HEADER_LEN else IPV6_HEADER_LEN))).

Definition send_syn_ack p : M state Z :=
  iphdr_len ← zdtun_iphdr_len p;
  mss ← default_mss p;
  c ← zderef p;
  put (iphdr_len + TCP_HEADER_LEN) ([2; 4] ++ le16 (htons mss) ++ [3; 3; window_scale c; 0]);;
  build_reply_tcpip p (Z.lor TH_SYN TH_ACK) 0 2;;
  rv ← send_to_client p (TCP_HEADER_LEN + 8);
  when (rv =? 0) (modify_zconn p (fun c => c <| zdtun_seq ::= fun n => u32 (n + 1) |>));;
  mret rv.

(** *** SOCKS5 *)
Definition socks5_in_progress (c : zconn) : bool :=
  bool_decide (zc_proxy_mode c = PROXY_SOCKS5) && negb (bool_decide (zc_socks5_status c = SOCKS5_ESTABLISHED)).

Definition socks5_send p (msg : bytes) (next : socks5_status_t) : M state Z :=
  c ← zderef p;
  r ← sys (sys_send (zc_sock c) msg);
  match r with
  | inl err => close_with_socket_error p err
  | inr _ => modify_zconn p (fun c => c <| zc_socks5_status := next |>);; mret 0
  end.

Definition socks5_connect p : M state Z :=
  user ← tun_get socks5_user;
  socks5_send p [5; 1; match user with Some _ => 2 | None => 0 end] SOCKS5_HELLO.

(** [None]: [strlen] of a null password. *)
Definition socks5_auth p : M state Z :=
  user ← tun_get socks5_user; user ← of_option user;
  pass ← tun_get socks5_pass; pass ← of_option pass;
  socks5_send p ([1; u8 (blen user)] ++ user ++ [u8 (blen pass)] ++ pass) SOCKS5_AUTH.

Definition socks5_req p : M state Z :=
  c ← zderef p;
  let t := zc_tuple c in
  socks5_send p ([5; 1; 0] ++ (if ipver t =? 4 then 1 :: le32 (dst_ip t) else 4 :: le_split 16 (dst_ip t)) ++
                 le16 (dst_port t)) SOCKS5_CONNECTING.

Definition socks5_fail p : M state Z := zdtun_conn_close p CONN_STATUS_SOCKS5_ERROR;; mret (-1).

Definition socks5_skip_bnd p (len : Z) : M state Z :=
  c ← zderef p;
  if len <=? zc_socks5_skip c then
    modify_zconn p (fun c => c <| zc_socks5_skip ::= fun n => n - len |>);;
    when (zc_socks5_skip c - len =? 0) (modify_zconn p (fun c => c <| zc_socks5_status := SOCKS5_ESTABLISHED |>));;
    mret 0
  else socks5_fail p.

Definition socks5_connect_reply p (data : bytes) : M state Z :=
  let len := blen data in
  if len <? 4 then socks5_fail p else
  ver ← of_option (rd8 data 0);
  if negb (ver =? 5) then socks5_fail p else
  status ← of_option (rd8 data 1);
  if negb (status =? 0) then
    let '(st, rv) := if (status =? 3) || (status =? 4) then (CONN_STATUS_UNREACHABLE, 0)
                     else if status =? 5 then (CONN_STATUS_SOCKET_ERROR, 0)
                     else (CONN_STATUS_SOCKS5_ERROR, -1) in
    zdtun_conn_close p st;; mret rv
  else
    addrtype ← of_option (rd8 data 3);
    if negb ((addrtype =? 1) || (addrtype =? 4)) then socks5_fail p else
    let to_skip := (if addrtype =? 1 then 4 else 16) + 2 in
    modify_zconn p (fun c => c <| zc_socks5_skip := to_skip |> <| zc_socks5_status := SOCKS5_SKIP_BND |>);;
    if len >? 4 then socks5_skip_bnd p (len - 4) else mret 0.

Definition handle_socks5_reply p (data : bytes) : M state Z :=
  c ← zderef p;
  match zc_socks5_status c with
  | SOCKS5_HELLO =>
      if negb (blen data =? 2) then socks5_fail p else
      ver ← of_option (rd8 data 0);
      if negb (ver =? 5) then socks5_fail p else
      cauth ← of_option (rd8 data 1);
      user ← tun_get socks5_user;
      if cauth =? 0 then socks5_req p
      else if (cauth =? 2) && match user with Some _ => true | None => false end then socks5_auth p
      else socks5_fail p
  | SOCKS5_AUTH =>
      if blen data <? 2 then socks5_fail p else
      ver ← of_option (rd8 data 0);
      status ← of_option (rd8 data 1);
      if negb (ver =? 1) || negb (status =? 0) then socks5_fail p else socks5_req p
  | SOCKS5_CONNECTING => socks5_connect_reply p data
  | SOCKS5_SKIP_BND => socks5_skip_bnd p (blen data)
  | SOCKS5_ESTABLISHED => socks5_fail p
  end.

(** The server accepted the connection. *)
Definition tcp_socket_syn p : M state Z :=
  c ← zderef p;
  on_tun (fun t => t <| write_fds ::= fun s => s ∖ {[zc_sock c]} |>);;
  modify_zconn p (fun c => c <| zc_status := CONN_STATUS_CONNECTED |>);;
  if decide (zc_proxy_mode c = PROXY_SOCKS5) then socks5_connect p else send_syn_ack p.

Definition tcp_socket_fin_ack p : M state unit :=
  build_reply_tcpip p (Z.lor TH_FIN TH_ACK) 0 0;;
  rv ← send_to_client p TCP_HEADER_LEN;
  when (rv =? 0) (modify_zconn p (fun c => c <| zdtun_seq ::= fun n => u32 (n + 1) |>)).

Definition fill_conn_sockaddr p : M state (Z * Z * Z) :=
  ver ← sock_ipver p;
  c ← zderef p;
  px ← match zc_proxy_mode c with
       | PROXY_DNAT => px ← of_option (zc_dnat c); mret (px_ip px, px_port px)
       | PROXY_SOCKS5 => px ← tun_get socks5; mret (px_ip px, px_port px)
       | PROXY_NONE => mret (dst_ip (zc_tuple c), dst_port (zc_tuple c))
       end;
  mret (ver, px.1, px.2).

Definition enqueue_tcp_data p (buf : bytes) (flags : Z) : M state Z :=
  r ← sys sys_get;     (* calloc *)
  match r with
  | inl _ => zdtun_conn_close p CONN_STATUS_ERROR;; mret (-1)
  | inr _ =>
      c ← zderef p;
      modify_zconn p (fun c => c <| tx_queue ::= fun l => l ++ [mk_tcp_data flags 0 buf] |>
                                 <| tx_queue_size ::= fun n => u32 (n + blen buf) |>);;
      on_tun (fun t => t <| write_fds ::= fun s => {[zc_sock c]} ∪ s |>);;
      mret 0
  end.

(** The options of a SYN from [off]: the MSS and the window scale. [optslen] is
    8 bits wide, and a NOP adds to it; [None] is a read outside of the packet.
    The fuel is the size of the buffer, as every turn advances. *)
Fixpoint parse_tcp_opts (fuel : nat) (buf : bytes) (off optslen mss scale : Z) : option (Z * Z) :=
  if negb (optslen >? 1) then Some (mss, scale) else
  match fuel with
  | O => None
  | S fuel' =>
      kind ← rd8 buf off;
      if kind =? 1 then parse_tcp_opts fuel' buf (off + 1) (u8 (optslen + 1)) mss scale else
      len ← rd8 buf (off + 1);
      if (kind =? 0) || (len <? 2) || (optslen <? len) then Some (mss, scale) else
      mss ← (if (kind =? 2) && (len =? 4) then ntohs <$> rd16 buf (off + 2) else Some mss);
      scale ← (if (kind =? 3) && (len =? 3) then rd8 buf (off + 2) else Some scale);
      parse_tcp_opts fuel' buf (off + len) (optslen - len) mss scale
  end.

Definition tcp_rd8 (pkt : zdtun_pkt) (off : Z) : M state Z := of_option (rd8 (pkt_buf pkt) (ip_hdr_len pkt + off)).
Definition tcp_rd16 (pkt : zdtun_pkt) (off : Z) : M state Z := of_option (rd16 (pkt_buf pkt) (ip_hdr_len pkt + off)).
Definition tcp_rd32 (pkt : zdtun_pkt) (off : Z) : M state Z := of_option (rd32 (pkt_buf pkt) (ip_hdr_len pkt + off)).
Definition pkt_payload (pkt : zdtun_pkt) : M state bytes :=
  of_option (rdn (pkt_buf pkt) (l7_off pkt) (l7_len pkt)).

(** A SYN: the socket, the options, the connection to the server. *)
Definition tcp_fwd_new (pkt : zdtun_pkt) p : M state Z :=
  tcp_sock ← open_socket IPPROTO_TCP;
  if tcp_sock =? INVALID_SOCKET then
    modify_zconn p (fun c => c <| zc_status := CONN_STATUS_SOCKET_ERROR |>);; mret (-1)
  else
  modify_zconn p (fun c => c <| zc_sock := tcp_sock |>);;
  addr ← fill_conn_sockaddr p;
  c ← zderef p;
  callback (account_packet pkt true c);;
  off ← tcp_rd8 pkt 12;
  mss ← default_mss p;
  '(mss, scale) ← of_option (parse_tcp_opts (length (pkt_buf pkt)) (pkt_buf pkt) (ip_hdr_len pkt + TCP_HEADER_LEN)
                               (u8 (Z.shiftr off 4 * 4 - TCP_HEADER_LEN)) mss 0);
  win ← tcp_rd16 pkt 14;
  win ← of_option (shl_s32 (ntohs win) scale);
  modify_zconn p (fun c => c <| window_size := win |> <| window_scale := scale |> <| zc_mss := mss |>);;
  r ← sys (sys_connect tcp_sock addr);
  match r with
  | inl err =>
      if err =? EINPROGRESS then
        seq ← tcp_rd32 pkt 4;
        modify_zconn p (fun c => c <| client_seq := u32 (ntohl seq + 1) |> <| zdtun_seq := 0x77EB77EB |>);;
        modify_zconn p (fun c => c <| zc_status := CONN_STATUS_CONNECTING |>);;
        on_tun (fun t => t <| write_fds ::= fun s => {[tcp_sock]} ∪ s |>);;
        mret 0
      else close_with_socket_error p err;; mret 0
  | inr _ =>
      seq ← tcp_rd32 pkt 4;
      modify_zconn p (fun c => c <| client_seq := u32 (ntohl seq + 1) |> <| zdtun_seq := 0x77EB77EB |>);;
      tcp_socket_syn p
  end.

(** The ACK of the client gives the window, less what it has not seen yet. *)
Definition update_window (pkt : zdtun_pkt) p : M state unit :=
  ack ← tcp_rd32 pkt 8;
  c ← zderef p;
  let ack_num := ntohl ack in
  let in_flight := if zdtun_seq c >=? ack_num then zdtun_seq c - ack_num
                   else u32 (0xFFFFFFFF - ack_num + zdtun_seq c + 1) in
  win ← tcp_rd16 pkt 14;
  window ← of_option (shl_s32 (ntohs win) (window_scale c));
  let wsize := u32 (window - in_flight) in
  modify_zconn p (fun c => c <| window_size := wsize |>);;
  fds ← tun_get all_fds;
  when (negb (bool_decide (zc_sock c ∈ fds)) && (wsize >? 0))
    (on_tun (fun t => t <| all_fds ::= fun s => {[zc_sock c]} ∪ s |>)).

Definition send_ack p : M state Z :=
  build_reply_tcpip p TH_ACK 0 0;;
  send_to_client p TCP_HEADER_LEN.

Definition tcp_fwd_fin (pkt : zdtun_pkt) p : M state Z :=
  c ← zderef p;
  when (negb (zc_sock c =? INVALID_SOCKET)) (sys (fun k => (tt, sys_shutdown (zc_sock c) k)));;
  modify_zconn p (fun c => c <| client_seq ::= fun n => u32 (n + l7_len pkt + 1) |> <| client_closed := true |>);;
  rv ← send_ack p;
  c ← zderef p;
  when (zc_sock c =? INVALID_SOCKET) (zdtun_conn_close p CONN_STATUS_CLOSED);;
  mret rv.

(** The part of [handle_tcp_fwd] on an active connection. *)
Definition tcp_fwd_active (pkt : zdtun_pkt) p : M state Z :=
  c ← zderef p;
  callback (account_packet pkt true c);;
  flags ← tcp_rd8 pkt 13;
  seq ← tcp_rd32 pkt 4;
  let seq := ntohl seq in
  let is_keep_alive := has_flag flags TH_ACK && (u32 (seq + 1) =? client_seq c) in
  if negb is_keep_alive && negb (seq =? u32 (client_seq c + tx_queue_size c)) then mret 0 else
  if socks5_in_progress c then zdtun_conn_close p CONN_STATUS_SOCKS5_ERROR;; mret (-1) else
  if has_flag flags TH_RST then zdtun_conn_close p CONN_STATUS_CLOSED;; mret 0 else
  if Z.land flags (Z.lor TH_FIN TH_ACK) =? Z.lor TH_FIN TH_ACK then tcp_fwd_fin pkt p else
  rv ← (if has_flag flags TH_ACK && negb (zc_sock c =? INVALID_SOCKET) then
          if is_keep_alive then rv ← send_ack p; mret (if rv =? 0 then 0 else -1)
          else update_window pkt p;; mret 0
        else mret 0);
  if negb (rv =? 0) then mret (-1) else
  if l7_len pkt >? 0 then
    c ← zderef p;
    if zc_sock c =? INVALID_SOCKET then
      modify_zconn p (fun c => c <| client_seq ::= fun n => u32 (n + l7_len pkt) |>);;
      send_ack p
    else payload ← pkt_payload pkt; enqueue_tcp_data p payload flags
  else mret 0.

Definition handle_tcp_fwd (pkt : zdtun_pkt) p : M state Z :=
  flags ← tcp_rd8 pkt 13;
  if has_flag flags TH_URG then zdtun_conn_close p CONN_STATUS_ERROR;; mret (-1) else
  c ← zderef p;
  if zc_status c =? CONN_STATUS_CONNECTING then mret 0
  else if zc_status c =? CONN_STATUS_NEW then tcp_fwd_new pkt p
  else tcp_fwd_active pkt p.

(** The end of the stream of the server. *)
Definition tcp_server_closed p : M state Z :=
  c ← zderef p;
  when (negb (fin_ack_sent c))
    (tcp_socket_fin_ack p;; modify_zconn p (fun c => c <| fin_ack_sent := true |>));;
  c ← zderef p;
  close_socket (zc_sock c);;
  modify_zconn p (fun c => c <| zc_sock := INVALID_SOCKET |>);;
  when (client_closed c) (zdtun_conn_close p CONN_STATUS_CLOSED);;
  mret 0.

(** Data of the server, already in the buffer. *)
Definition tcp_server_data p (l4_len : Z) : M state Z :=
  c ← zderef p;
  if window_size c <? l4_len then zdtun_conn_close p CONN_STATUS_ERROR;; mret (-1) else
  r ← sys sys_get;     (* FIONREAD *)
  let count := match r with inr n => n | inl _ => 0 end in
  build_reply_tcpip p (if count =? 0 then Z.lor TH_ACK TH_PUSH else TH_ACK) l4_len 0;;
  rv ← send_to_client p (l4_len + TCP_HEADER_LEN);
  if rv =? 0 then
    modify_zconn p (fun c => c <| zdtun_seq ::= fun n => u32 (n + l4_len) |>
                               <| window_size ::= fun n => u32 (n - l4_len) |>);;
    c ← zderef p;
    when (window_size c =? 0) (on_tun (fun t => t <| all_fds ::= fun s => s ∖ {[zc_sock c]} |>));;
    mret 0
  else mret (-1).

Definition handle_tcp_reply p : M state Z :=
  iphdr_len ← zdtun_iphdr_len p;
  c ← zderef p;
  let to_recv := Z.min (window_size c) (zc_mss c) in
  r ← sys (sys_recv (zc_sock c) to_recv);
  now ← zdtun_now;
  modify_zconn p (fun c => c <| zc_tstamp := now |>);;
  match r with
  | inl err => close_with_socket_error p err
  | inr [] => tcp_server_closed p
  | inr data =>
      put (iphdr_len + TCP_HEADER_LEN) data;;
      if socks5_in_progress c then
        rv ← handle_socks5_reply p data;
        if negb (rv =? 0) then mret rv else
        c ← zderef p;
        if decide (zc_socks5_status c = SOCKS5_ESTABLISHED) then send_syn_ack p else mret 0
      else tcp_server_data p (blen data)
  end.

Definition handle_tcp_connect_async p : M state Z :=
  r ← sys sys_get;     (* SO_ERROR *)
  match r with
  | inl _ => zdtun_conn_close p CONN_STATUS_SOCKET_ERROR;; mret (-1)
  | inr optval =>
      if optval =? 0 then
        rv ← tcp_socket_syn p;
        now ← zdtun_now;
        modify_zconn p (fun c => c <| zc_tstamp := now |>);; mret rv
      else close_with_socket_error p optval;; mret (-1)
  end.

(** The loop over the queue: the bytes taken by the kernel, or the error. *)
Fixpoint send_queued (fuel : nat) p (sent : Z) : M state (Z + Z) :=
  c ← zderef p;
  match tx_queue c, fuel with
  | [], _ => mret (inr sent)
  | _, O => ub
  | item :: queue, S fuel' =>
      let to_send := td_len item - td_sofar item in
      data ← of_option (rdn (td_data item) (td_sofar item) to_send);
      r ← sys (sys_send (zc_sock c) data);
      match r with
      | inl err => if err =? EAGAIN then mret (inr sent) else mret (inl err)
      | inr n =>
          if n =? to_send then
            modify_zconn p (fun c => c <| tx_queue := queue |>);; send_queued fuel' p (sent + to_send)
          else
            modify_zconn p (fun c => c <| tx_queue := item <| td_sofar ::= fun k => u16 (k + n) |> :: queue |>);;
            mret (inr (sent + n))
      end
  end.

Definition handle_queued_tcp_data p : M state Z :=
  c ← zderef p;
  r ← send_queued (length (tx_queue c)) p 0;
  match r with
  | inl err => close_with_socket_error p err
  | inr sent =>
      c ← zderef p;
      when (match tx_queue c with [] => true | _ => false end)
        (on_tun (fun t => t <| write_fds ::= fun s => s ∖ {[zc_sock c]} |>));;
      if sent >? 0 then
        modify_zconn p (fun c => c <| client_seq ::= fun n => u32 (n + sent) |>
                                   <| tx_queue_size ::= fun n => u32 (n - sent) |>);;
        rv ← send_ack p;
        mret (if rv <? 0 then -1 else 0)
      else mret 0
  end.
End engine.
