(* ===== verification/ZdtunFwd.v ===== *)
(** The rest of the engine of zdtun (zdtun/zdtun.c): the UDP and ICMP handlers,
    the entry points of the packets of the client and of the sockets that are
    ready, and the API on the instance and on its connections. *)
From Stdlib Require Import ZArith Lia.
From stdpp Require Import base option gmap numbers list.
From S2P Require Import Prelude Packet Uthash PcapDump Blacklist NdpiProtos Conn Checksum Kernel Zdtun.

Open Scope Z_scope.

Definition INADDR_BROADCAST : Z := 0xFFFFFFFF.
Definition AF_INET6 : Z := 10.
Definition UDP_HEADER_SIZE : Z := 8.
Definition ICMP_HEADER_SIZE : Z := 8.
(** [struct dns_packet] of zdtun.c has the first byte of the queries too. *)
Definition sizeof_zdtun_dns_packet : Z := 13.
Definition Z_DNS_FLAGS_MASK : Z := 0x8000.
Definition Z_DNS_TYPE_REQUEST : Z := 0.
Definition Z_DNS_TYPE_RESPONSE : Z := 0x8000.

(** [flags] of the [dns_packet], as the host loads it; [None] is a message that
    is not looked at. *)
Definition zdtun_dns_type (tuple : zdtun_5tuple) (l4_payload : bytes) : option Z :=
  if (blen l4_payload <? sizeof_zdtun_dns_packet) || negb (dst_port tuple =? ntohs 53) then None
  else flags ← rd16 l4_payload 2; Some (Z.land flags Z_DNS_FLAGS_MASK).

(** ** Handlers *)
Section handlers.
Context {U D : Type} `{Callbacks U D}.
Abbreviation state := (tun_state U D).
Abbreviation zconn := (zdtun_conn D).
Implicit Types (p : zconn_ptr) (c : zconn) (tuple : zdtun_5tuple).

(** *** DNS over UDP *)
Definition check_dns_request p (l4_payload : bytes) : M state unit :=
  c ← zderef p;
  when (bool_decide (zdtun_dns_type (zc_tuple c) l4_payload = Some Z_DNS_TYPE_REQUEST))
    (modify_zconn p (fun c => c <| pending_queries ::= fun n => u8 (n + 1) |>)).

(** 0 if the connection is closed. *)
Definition check_dns_purge p (l4_payload : bytes) : M state Z :=
  c ← zderef p;
  if bool_decide (zdtun_dns_type (zc_tuple c) l4_payload = Some Z_DNS_TYPE_RESPONSE)
     && (pending_queries c >? 0) then
    modify_zconn p (fun c => c <| pending_queries ::= fun n => n - 1 |>);;
    if pending_queries c - 1 =? 0 then zdtun_conn_close p CONN_STATUS_CLOSED;; mret 0 else mret 1
  else mret 1.

(** *** UDP *)
(** The answer of the resolver is a family. *)
Definition fill_ipv6_bind_addr : M state bool :=
  r ← sys sys_get;
  mret match r with inr family => family =? AF_INET6 | inl _ => false end.

Definition close_udp p (err : Z) : M state Z := close_with_socket_error p err;; mret (-1).

(** A call whose failure closes the connection. *)
Definition try_udp {A} p (call : kernel -> (Z + A) * kernel) (k : A -> M state Z) : M state Z :=
  r ← sys call;
  match r with inl err => close_udp p err | inr a => k a end.

Definition use_mapping (key : Z) (e : Z * udp_mapping_t) : Z * udp_mapping_t :=
  if decide (e.1 = key) then (key, mk_mapping (um_port e.2) (um_num_uses e.2 + 1)) else e.

Definition bind_and_connect_udp p : M state Z :=
  ver ← sock_ipver p;
  ok ← (if ver =? 6 then fill_ipv6_bind_addr else mret true);
  if negb ok then zdtun_conn_close p CONN_STATUS_ERROR;; mret (-1) else
  c ← zderef p;
  let key := udp_mapping_key (zc_tuple c) in
  mappings ← tun_get udp_mappings;
  let mapping := HASH_FIND mappings key in
  let port := match mapping with Some m => um_port m | None => 0 end in
  try_udp p sys_get (fun _ =>      (* SO_REUSEADDR *)
  try_udp p (sys_bind (zc_sock c) port) (fun _ =>
  addr ← fill_conn_sockaddr p;
  try_udp p (sys_connect (zc_sock c) addr) (fun _ =>
  match mapping with
  | None =>
      try_udp p sys_get (fun port =>      (* getsockname *)
      on_tun (fun t => t <| udp_mappings ::= fun l => HASH_ADD l key (mk_mapping (u16 port) 1) |>);;
      mret 0)
  | Some m =>
      when (um_num_uses m <? 0xFFFF)
        (on_tun (fun t => t <| udp_mappings ::= fun l => use_mapping key <$> l |>));;
      mret 0
  end))).

(** The options of the sockets to broadcast and multicast addresses: their
    errors are only logged. *)
Definition sys_ignored : M state unit := sys sys_get;; mret tt.
Definition set_broadcast p : M state unit :=
  ver ← sock_ipver p;
  c ← zderef p;
  if ver =? 4 then when (u32 (dst_ip (zc_tuple c)) =? INADDR_BROADCAST) sys_ignored
  else when (u8 (dst_ip (zc_tuple c)) =? 0xFF) (sys_ignored;; sys_ignored;; sys_ignored).

Definition udp_fwd_new p : M state Z :=
  udp_sock ← open_socket IPPROTO_UDP;
  if udp_sock =? INVALID_SOCKET then mret (-1) else
  modify_zconn p (fun c => c <| zc_sock := udp_sock |>);;
  set_broadcast p;;
  rv ← bind_and_connect_udp p;
  if rv <? 0 then mret (-1) else
  modify_zconn p (fun c => c <| zc_status := CONN_STATUS_CONNECTED |>);; mret 0.

Definition handle_udp_fwd (pkt : zdtun_pkt) p : M state Z :=
  c ← zderef p;
  rv ← (if zc_status c =? CONN_STATUS_NEW then udp_fwd_new p else mret 0);
  if negb (rv =? 0) then mret rv else
  c ← zderef p;
  callback (account_packet pkt true c);;
  payload ← pkt_payload pkt;
  r ← sys (sys_send (zc_sock c) payload);
  match r with
  | inl err => close_with_socket_error p err;; mret 0
  | inr _ => check_dns_request p payload;; mret 0
  end.

Definition udp_header (c : zconn) (l3_len check : Z) : bytes :=
  le16 (dst_port (zc_tuple c)) ++ le16 (src_port (zc_tuple c)) ++ le16 (htons (u16 l3_len)) ++ le16 check.

Definition build_reply_udpip p (l3_len : Z) : M state unit :=
  ver ← sock_ipver p;
  iphdr_len ← zdtun_iphdr_len p;
  c ← zderef p;
  let iphdr := zdtun_make_iphdr ver (zc_tuple c) (u16 l3_len) in
  put 0 iphdr;;
  put iphdr_len (udp_header c l3_len 0);;
  buf ← tun_get reply_buf;
  when (negb (ver =? 4))
    (put iphdr_len
       (udp_header c l3_len
          (zdtun_l3_checksum ver (ipproto (zc_tuple c)) iphdr (buf_get iphdr_len (u16 l3_len) buf)))).

Definition handle_udp_reply p : M state Z :=
  iphdr_len ← zdtun_iphdr_len p;
  c ← zderef p;
  let payload_off := iphdr_len + UDP_HEADER_SIZE in
  r ← sys (sys_recv (zc_sock c) (REPLY_BUF_SIZE - iphdr_len - UDP_HEADER_SIZE));
  match r with
  | inl err => close_with_socket_error p err;; mret (-1)
  | inr data =>
      put payload_off data;;
      let l3_len := blen data + UDP_HEADER_SIZE in
      build_reply_udpip p l3_len;;
      rv ← send_to_client p l3_len;
      when (rv =? 0)
        (now ← zdtun_now;
         modify_zconn p (fun c => c <| zc_tstamp := now |>);;
         buf ← tun_get reply_buf;
         check_dns_purge p (buf_get payload_off (blen data) buf);; mret tt);;
      mret rv
  end.

(** *** ICMP *)
Definition icmp_fwd_new (pkt : zdtun_pkt) p : M state Z :=
  ver ← sock_ipver p;
  icmp_sock ← open_socket (if ver =? 4 then IPPROTO_ICMP else IPPROTO_ICMPV6);
  if icmp_sock =? INVALID_SOCKET then
    modify_zconn p (fun c => c <| zc_status := CONN_STATUS_SOCKET_ERROR |>);; mret (-1)
  else
    modify_zconn p (fun c => c <| zc_sock := icmp_sock |> <| zc_status := CONN_STATUS_CONNECTED |>);;
    id ← of_option (rd16 (pkt_buf pkt) (ip_hdr_len pkt + 4));
    modify_zconn p (fun c => c <| zc_tuple ::= fun t => t <| src_port := id |> |>);;
    mret 0.

Definition handle_icmp_fwd (pkt : zdtun_pkt) p : M state Z :=
  let icmp_len := u16 (l4_hdr_len pkt + l7_len pkt) in
  c ← zderef p;
  rv ← (if zc_status c =? CONN_STATUS_NEW then icmp_fwd_new pkt p else mret 0);
  if negb (rv =? 0) then mret rv else
  c ← zderef p;
  callback (account_packet pkt true c);;
  fill_conn_sockaddr p;;
  data ← of_option (rdn (pkt_buf pkt) (ip_hdr_len pkt) icmp_len);
  r ← sys (sys_send (zc_sock c) data);
  match r with
  | inl err => close_with_socket_error p err;; mret (-1)
  | inr _ => mret 0
  end.

(** The header and the rest of an ICMP message with a checksum and the
    identifier of the client. *)
Definition icmp_message (c : zconn) (check : Z) (data : bytes) : bytes :=
  slice data 0 2 ++ le16 check ++ le16 (src_port (zc_tuple c)) ++ drop 6 data.

Definition handle_icmp_reply p : M state Z :=
  iphdr_len ← zdtun_iphdr_len p;
  c ← zderef p;
  r ← sys (sys_recv (zc_sock c) (REPLY_BUF_SIZE - iphdr_len));
  match r with
  | inl err => close_with_socket_error p err;; mret (-1)
  | inr data =>
      put iphdr_len data;;
      if blen data <? ICMP_HEADER_SIZE then zdtun_conn_close p CONN_STATUS_ERROR;; mret (-1) else
      type ← of_option (rd8 data 0);
      if negb (type =? ICMP_ECHO) && negb (type =? ICMP_ECHOREPLY) &&
         negb (type =? ICMPv6_ECHO) && negb (type =? ICMPv6_ECHOREPLY)
      then zdtun_conn_close p CONN_STATUS_ERROR;; mret 0
      else
        now ← zdtun_now;
        modify_zconn p (fun c => c <| zc_tstamp := now |>);;
        ver ← sock_ipver p;
        let msg := icmp_message c 0 data in
        let iphdr := zdtun_make_iphdr ver (zc_tuple c) (blen data) in
        put 0 iphdr;;
        put iphdr_len
          (icmp_message c (if ver =? 4 then not16 (calc_checksum 0 msg)
                           else if ver =? 6 then zdtun_l3_checksum ver (ipproto (zc_tuple c)) iphdr msg
                           else 0) data);;
        send_to_client p (blen data)
  end.

(** ** Entry points *)
Definition zdtun_forward (pkt : zdtun_pkt) p : M state Z :=
  c ← zderef p;
  if zc_status c >=? CONN_STATUS_CLOSED then mret 0 else
  let proto := ipproto (pkt_tuple pkt) in
  if negb ((proto =? IPPROTO_TCP) || (proto =? IPPROTO_UDP) || (proto =? IPPROTO_ICMP)) then mret (-2) else
  rv ← (if proto =? IPPROTO_TCP then handle_tcp_fwd pkt p
        else if proto =? IPPROTO_UDP then handle_udp_fwd pkt p
        else handle_icmp_fwd pkt p);
  when (rv =? 0) (now ← zdtun_now; modify_zconn p (fun c => c <| zc_tstamp := now |>));;
  mret rv.

(** A TCP packet that is not the first of a connection. *)
Definition is_tcp_established (pkt : zdtun_pkt) : option bool :=
  if ipproto (pkt_tuple pkt) =? IPPROTO_TCP then
    flags ← th_flags pkt; Some (negb (has_flag flags TH_SYN) || has_flag flags TH_ACK)
  else Some false.

Definition zdtun_easy_forward (buf : bytes) (len : Z) : M state (option zconn_ptr) :=
  ids ← tun_get id2ports;
  '(r, ids) ← of_option (zdtun_parse_pkt ids buf (u16 len));
  on_tun (fun t => t <| id2ports := ids |>);;
  match r with
  | inl _ => mret None
  | inr pkt =>
      if has_flag (pkt_flags pkt) ZDTUN_PKT_IS_FRAGMENT then mret None else
      established ← of_option (is_tcp_established pkt);
      conn ← zdtun_lookup (pkt_tuple pkt) (negb established);
      match conn with
      | None => mret None
      | Some p =>
          rv ← zdtun_forward pkt p;
          if negb (rv =? 0) then zdtun_conn_close p CONN_STATUS_ERROR;; mret None
          else mret (Some p)
      end
  end.

(** A turn of the loop of [zdtun_handle_fd]. *)
Definition handle_conn_fd (rd_fds wr_fds : gset Z) p : M state Z :=
  c ← zderef p;
  let proto := ipproto (zc_tuple c) in
  if zc_sock c =? INVALID_SOCKET then mret 0
  else if bool_decide (zc_sock c ∈ rd_fds) then
    if proto =? IPPROTO_TCP then handle_tcp_reply p
    else if proto =? IPPROTO_UDP then handle_udp_reply p
    else if proto =? IPPROTO_ICMP then handle_icmp_reply p
    else mret 0
  else if bool_decide (zc_sock c ∈ wr_fds) && (proto =? IPPROTO_TCP) then
    match tx_queue c with
    | [] => handle_tcp_connect_async p
    | _ => handle_queued_tcp_data p
    end
  else mret 0.

(** [HASH_ITER] until an answer that is not zero; the elements stay. *)
Fixpoint iter_until (f : zconn_ptr -> M state Z) (l : list (zdtun_5tuple * zconn_ptr)) : M state Z :=
  match l with
  | [] => mret 0
  | e :: l' => rv ← f e.2; if negb (rv =? 0) then mret rv else iter_until f l'
  end.

Definition zdtun_handle_fd (rd_fds wr_fds : gset Z) : M state Z :=
  table ← tun_get conn_table;
  iter_until (handle_conn_fd rd_fds wr_fds) table.

Definition zdtun_iter_connections (iterator : zconn_ptr -> M state Z) : M state Z :=
  table ← tun_get conn_table;
  rv ← iter_until (fun p => c ← zderef p; if zc_status c <? CONN_STATUS_CLOSED then iterator p else mret 0) table;
  mret (if rv =? 0 then 0 else 1).

Definition zdtun_finalize : M state unit :=
  table ← tun_get conn_table;
  for_each (fun e => destroy_conn e.2) table.

(** *** The API of the connections and of the instance *)
Definition zdtun_conn_proxy p : M state unit :=
  c ← zderef p;
  when (ipproto (zc_tuple c) =? IPPROTO_TCP) (modify_zconn p (fun c => c <| zc_proxy_mode := PROXY_SOCKS5 |>)).

Definition zdtun_conn_dnat p (proxy : proxy_t) : M state unit :=
  modify_zconn p (fun c => c <| zc_dnat := Some proxy |> <| zc_proxy_mode := PROXY_DNAT |>).

Definition zdtun_conn_set_userdata p (data : option D) : M state unit :=
  modify_zconn p (fun c => c <| zc_user_data := data |>).

Definition zdtun_init : zdtun D :=
  mk_zdtun ∅ 1 [] [] ∅ ∅ 1500 zero_zstats 0 ∅ [] (mk_proxy 0 0 0) None None.

Definition zdtun_set_mtu (m : Z) : M state unit := on_tun (fun t => t <| mtu := Z.min m REPLY_BUF_SIZE |>).
Definition zdtun_set_socks5_proxy (proxy : proxy_t) : M state unit := on_tun (fun t => t <| socks5 := proxy |>).
Definition zdtun_set_socks5_userpass (username password : bytes) : M state unit :=
  on_tun (fun t => t <| socks5_user := Some username |> <| socks5_pass := Some password |>).
Definition zdtun_fds : M state (Z * gset Z * gset Z) :=
  tun_get (fun t => (all_max_fd (zt_stats t), all_fds t, write_fds t)).
Definition zdtun_get_num_connections : M state Z :=
  tun_get (fun t => num_tcp_conn (zt_stats t) + num_udp_conn (zt_stats t) + num_icmp_conn (zt_stats t)).
End handlers.
