(* ===== verification/ZdtunInv.v ===== *)
(** The invariant of the engine of zdtun: every open socket belongs to one
    connection, the sets given to select hold sockets that are open, the
    connections are those of the table; and the rules to carry it through the
    operations, which have no undefined behaviour from such a state. *)
From Stdlib Require Import ZArith Lia.
From stdpp Require Import base option gmap numbers list.
From S2P Require Import Prelude Packet Uthash PcapDump Blacklist NdpiProtos Conn Checksum Kernel Zdtun ZdtunFwd.

Open Scope Z_scope.

(** A packet of the engine, of at most [n] bytes in its buffer. *)
Definition reply_ok (n : Z) (pkt : zdtun_pkt) : Prop :=
  exists ids buf len ids', zdtun_parse_pkt ids buf len = Some (inr pkt, ids') /\
    wf_bytes buf /\ blen buf = sent_size len /\ 0 <= len <= Z.min n REPLY_BUF_SIZE.
(** What is around the data of a server: the headers and the options of a SYN. *)
Definition reply_headers : Z := 68.

(** What the engine and its user promise to each other. The user keeps an
    invariant of its state [u] about the data of the connections: those that
    are [open], and those that are [live]: the open ones, and those that were
    when the call of the engine began. No callback is about another connection;
    a connection is not open any more when its end is told. The servers send at
    most [reply_limit] bytes at a time. [may_park]: the user may drop the first
    packets of a connection, which stays without a socket. *)
Class SafeCallbacks U D `{Callbacks U D} := {
  user_inv : gmap zconn_ptr (option D) -> gmap zconn_ptr (option D) -> U -> Prop;
  may_park : bool;
  reply_limit : Z;
  reply_limit_nonneg : 0 <= reply_limit;
  user_inv_mono opn live opn' live' u :
    user_inv opn live u -> opn' ⊆ opn -> live' ⊆ live -> opn' ⊆ live' -> user_inv opn' live' u;
  send_client_safe opn live p pkt (c : zdtun_conn D) u :
    user_inv opn live u -> live !! p = Some (zc_user_data c) -> reply_ok (reply_limit + reply_headers) pkt ->
    wp (send_client pkt c) (fun _ => user_inv opn live) u;
  account_packet_safe opn live p pkt b (c : zdtun_conn D) u :
    user_inv opn live u -> live !! p = Some (zc_user_data c) ->
    (CONN_STATUS_CLOSED <= zc_status c -> opn !! p = None) ->
    wp (account_packet pkt b c) (fun _ => user_inv opn live) u;
  on_socket_open_safe opn live fd u :
    user_inv opn live u -> wp (on_socket_open fd) (fun _ => user_inv opn live) u;
  on_socket_close_safe opn live fd u :
    user_inv opn live u -> wp (on_socket_close fd) (fun _ => user_inv opn live) u;
  on_connection_open_safe opn live p (c : zdtun_conn D) u :
    user_inv opn live u -> live !! p = None -> opn !! p = None ->
    wp (on_connection_open c)
       (fun r u' => if r.1 =? 0 then user_inv (<[p := r.2]> opn) (<[p := r.2]> live) u' else user_inv opn live u') u;
  on_connection_close_safe opn live p (c : zdtun_conn D) u :
    user_inv opn live u -> live !! p = Some (zc_user_data c) -> opn !! p = None ->
    wp (on_connection_close c) (fun _ => user_inv opn live) u
}.

(** The largest MSS whose segments fit in the buffer of the replies, and the
    largest window scale of RFC 7323. *)
Definition max_mss : Z := 65475.
Definition max_scale : Z := 14.

Definition item_ok (d : tcp_data) : Prop :=
  0 <= td_sofar d <= blen (td_data d) /\ blen (td_data d) < 2 ^ 16.

Section inv.
Context {U D : Type} `{SafeCallbacks U D}.
Abbreviation state := (tun_state U D).
Abbreviation zconn := (zdtun_conn D).
Implicit Types (s : state) (p : zconn_ptr) (c : zconn) (N X Q : gset zconn_ptr).

Abbreviation heap s := (zt_heap (ts_tun s)).

Record conn_ok c : Prop := {
  co_proto : is_byte (ipproto (zc_tuple c));
  co_dnat : zc_proxy_mode c = PROXY_DNAT -> is_Some (zc_dnat c);
  co_queue : Forall item_ok (tx_queue c);
  co_window : 0 <= window_size c;
  co_mss : 0 <= zc_mss c <= max_mss;
  co_scale : 0 <= window_scale c <= max_scale
}.

(** No packet of the connection was forwarded. *)
Definition parked c : Prop := may_park = true /\ zc_sock c = INVALID_SOCKET.

(** [X]: the connections whose first packet is being handled; [N]: some that
    have no socket. *)
Definition conn_good X N p c : Prop :=
  conn_ok c /\
  (CONN_STATUS_CLOSED <= zc_status c -> zc_sock c = INVALID_SOCKET) /\
  (zc_status c = CONN_STATUS_NEW -> p ∈ X \/ parked c) /\
  (p ∈ N -> zc_sock c = INVALID_SOCKET).

Record tun_ok (t : zdtun D) : Prop := {
  to_buf : wf_bytes (reply_buf t);
  to_mtu : 60 <= mtu t <= 65515;
  to_auth : is_Some (socks5_user t) -> is_Some (socks5_pass t)
}.

(** The descriptors of the connections. *)
Definition owns (owner : gmap Z zconn_ptr) (h : gmap zconn_ptr zconn) : Prop :=
  forall fd p, owner !! fd = Some p <-> exists c, h !! p = Some c /\ zc_sock c = fd /\ fd <> INVALID_SOCKET.

(** [base]: the descriptors that are not of the engine. *)
Definition sockets_ok (base : gset Z) s : Prop :=
  exists owner : gmap Z zconn_ptr,
    owns owner (heap s) /\
    num_open_sockets (zt_stats (ts_tun s)) = Z.of_nat (size owner) /\
    Z.of_nat (size owner) <= MAX_NUM_SOCKETS /\
    all_fds (ts_tun s) ⊆ dom owner /\ write_fds (ts_tun s) ⊆ dom owner /\
    dom owner ## base /\ open_fds (ts_sys s) = base ∪ dom owner /\
    (forall fd, fd ∈ dom owner -> 0 <= fd < FD_SETSIZE /\ fd <= all_max_fd (zt_stats (ts_tun s))).

Definition table_ok (t : zdtun D) Q : Prop :=
  NoDup ((conn_table t).*2) /\ (forall p, p ∈ (conn_table t).*2 <-> p ∈ Q) /\
  dom (zt_heap t) = Q /\ (forall p, p ∈ Q -> p < zt_next_ptr t).

(** The data of the open connections. *)
Definition opens (h : gmap zconn_ptr zconn) : gmap zconn_ptr (option D) :=
  omap (fun c => if zc_status c <? CONN_STATUS_CLOSED then Some (zc_user_data c) else None) h.

Definition live_ok (h : gmap zconn_ptr zconn) (L : gmap zconn_ptr (option D)) : Prop :=
  (forall p d, L !! p = Some d -> exists c, h !! p = Some c /\ zc_user_data c = d) /\ opens h ⊆ L.

Definition kernel_ok (k : kernel) : Prop :=
  Forall (fun o => Z.min (blen (oc_data o)) REPLY_BUF_SIZE <= reply_limit) (outcomes k).

(** [L]: the live data; [Q]: the connections. *)
Record inv (base : gset Z) (L : gmap zconn_ptr (option D)) Q X N s : Prop := {
  inv_conns : forall p c, heap s !! p = Some c -> conn_good X N p c;
  inv_socks : sockets_ok base s;
  inv_table : table_ok (ts_tun s) Q;
  inv_tun : tun_ok (ts_tun s);
  inv_live : live_ok (heap s) L;
  inv_usr : user_inv (opens (heap s)) L (ts_user s);
  inv_kernel : kernel_ok (ts_sys s)
}.

Lemma opens_Some (h : gmap zconn_ptr zconn) p d :
  opens h !! p = Some d <-> exists c, h !! p = Some c /\ zc_status c < CONN_STATUS_CLOSED /\ zc_user_data c = d.
Proof.
  unfold opens. rewrite lookup_omap. destruct (h !! p) as [c|]; simpl; [|by split; [|intros (? & ? & _)]].
  destruct (Z.ltb_spec (zc_status c) CONN_STATUS_CLOSED); split.
  - intros [= <-]. eauto.
  - by intros (? & [= <-] & _ & <-).
  - done.
  - intros (? & [= <-] & ? & _). lia.
Qed.

(** A change of a connection that keeps its socket and its data, and does not
    open it again. *)
Definition linked c c' : Prop :=
  zc_sock c' = zc_sock c /\ zc_user_data c' = zc_user_data c /\
  (zc_status c' < CONN_STATUS_CLOSED -> zc_status c < CONN_STATUS_CLOSED).

Lemma opens_insert (h : gmap zconn_ptr zconn) p c c' :
  h !! p = Some c -> zc_user_data c' = zc_user_data c ->
  (zc_status c' < CONN_STATUS_CLOSED -> zc_status c < CONN_STATUS_CLOSED) -> opens (<[p := c']> h) ⊆ opens h.
Proof.
  intros Hp Hd Hst. apply map_subseteq_spec. intros q d (e & He & Hes & Hed)%opens_Some. apply opens_Some.
  apply lookup_insert_Some in He as [[<- <-]|[_ He]]; [|eauto]. exists c. split_and!; [done|auto|congruence].
Qed.

Lemma live_insert h L p c c' :
  live_ok h L -> h !! p = Some c -> zc_user_data c' = zc_user_data c ->
  (zc_status c' < CONN_STATUS_CLOSED -> zc_status c < CONN_STATUS_CLOSED) -> live_ok (<[p := c']> h) L.
Proof.
  intros [Hl Ho] Hp Hd Hst. split; [|etrans; [by eapply opens_insert|done]]. intros q d Hq.
  destruct (Hl q d Hq) as (e & He & Hed). destruct (decide (p = q)) as [<-|].
  - exists c'. rewrite lookup_insert_eq. split; [done|]. congruence.
  - exists e. by rewrite lookup_insert_ne.
Qed.

Context (base : gset Z) (L : gmap zconn_ptr (option D)).

Lemma inv_weaken Q X N X' N' s : inv base L Q X N s -> X ⊆ X' -> N' ⊆ N -> inv base L Q X' N' s.
Proof.
  intros [Hc ? ? ? ? ? ?] HX HN. split; try done. intros p c Hp.
  destruct (Hc p c Hp) as (? & ? & Hn & Hno). split; [done|]; split; [done|]; split; [|auto].
  intros E. destruct (Hn E); [left; auto|by right].
Qed.

Lemma inv_lookup Q X N s p : inv base L Q X N s -> p ∈ Q -> exists c, heap s !! p = Some c /\ conn_good X N p c.
Proof.
  intros [Hc _ (_ & _ & Hdom & _) _ _ _ _] Hp. rewrite <- Hdom in Hp. apply elem_of_dom in Hp as [c Hp]. eauto.
Qed.

Lemma in_dom Q X N s p c : inv base L Q X N s -> heap s !! p = Some c -> p ∈ Q.
Proof. intros Hs Hc. pose proof (inv_table _ _ _ _ _ _ Hs) as (_ & _ & <- & _). by eapply elem_of_dom_2. Qed.

Lemma inv_live_data Q X N s p c :
  inv base L Q X N s -> heap s !! p = Some c -> p ∈ dom L -> L !! p = Some (zc_user_data c).
Proof.
  intros Hi Hp [d Hd]%elem_of_dom. destruct (inv_live _ _ _ _ _ _ Hi) as [Hl _].
  destruct (Hl p d Hd) as (c' & Hc' & <-). by simplify_eq.
Qed.

Lemma inv_open_live Q X N s p c :
  inv base L Q X N s -> heap s !! p = Some c -> zc_status c < CONN_STATUS_CLOSED -> p ∈ dom L.
Proof.
  intros Hi Hp Hst. destruct (inv_live _ _ _ _ _ _ Hi) as [_ Ho]. apply elem_of_dom. exists (zc_user_data c).
  eapply lookup_weaken; [|exact Ho]. apply opens_Some. eauto.
Qed.

Lemma inv_closed_not_open (h : gmap zconn_ptr zconn) p c :
  h !! p = Some c -> CONN_STATUS_CLOSED <= zc_status c -> opens h !! p = None.
Proof.
  intros Hp Hst. destruct (opens h !! p) as [d|] eqn:E; [|done].
  apply opens_Some in E as (c' & ? & ? & _). simplify_eq. lia.
Qed.

(** What is known of one connection can be recorded in the index. *)
Lemma inv_not_handled Q X N s p c :
  inv base L Q X N s -> heap s !! p = Some c -> (zc_status c = CONN_STATUS_NEW -> parked c) ->
  inv base L Q (X ∖ {[p]}) N s.
Proof.
  intros [Hc ? ? ? ? ? ?] Hp Hne. split; try done. intros q d Hq.
  destruct (Hc q d Hq) as (? & ? & Hn & Hno). split; [done|]; split; [done|]; split; [|done].
  intros E. destruct (decide (q = p)) as [->|Hqp]; [assert (d = c) as -> by congruence; auto|].
  destruct (Hn E) as [Hq'|]; [left; set_solver|by right].
Qed.

Lemma inv_not_new Q X N s p c :
  inv base L Q X N s -> heap s !! p = Some c -> zc_status c <> CONN_STATUS_NEW -> inv base L Q (X ∖ {[p]}) N s.
Proof. intros. by eapply inv_not_handled. Qed.

Lemma inv_no_socket Q X N s p c :
  inv base L Q X N s -> heap s !! p = Some c -> zc_sock c = INVALID_SOCKET -> inv base L Q X ({[p]} ∪ N) s.
Proof.
  intros [Hc ? ? ? ? ? ?] Hp Hs. split; try done. intros q d Hq.
  destruct (Hc q d Hq) as (? & ? & Hn & Hno). split; [done|]; split; [done|]; split; [done|].
  intros [->%elem_of_singleton|?]%elem_of_union; [congruence|auto].
Qed.

Lemma inv_closed Q X N s p c :
  inv base L Q X N s -> heap s !! p = Some c -> CONN_STATUS_CLOSED <= zc_status c ->
  inv base L Q (X ∖ {[p]}) ({[p]} ∪ N) s.
Proof.
  intros Hi Hp Hc. pose proof (inv_conns _ _ _ _ _ _ Hi p c Hp) as (_ & Hs & _ & _).
  apply (inv_no_socket Q (X ∖ {[p]}) N s p c); [|done|auto].
  apply (inv_not_new Q X N s p c); [done..|]. intros E. rewrite E in Hc. by apply Hc.
Qed.

(** *** Changes that the invariant does not see *)
Definition set_tun (f : zdtun D -> zdtun D) s : state := s <| ts_tun ::= f |>.

Record tun_kept (t t' : zdtun D) : Prop := {
  tk_heap : zt_heap t' = zt_heap t;
  tk_table : conn_table t' = conn_table t;
  tk_next : zt_next_ptr t' = zt_next_ptr t;
  tk_open : num_open_sockets (zt_stats t') = num_open_sockets (zt_stats t);
  tk_max : all_max_fd (zt_stats t') = all_max_fd (zt_stats t);
  tk_all : all_fds t' ⊆ all_fds t;
  tk_write : write_fds t' ⊆ write_fds t;
  tk_ok : tun_ok t -> tun_ok t'
}.

(** A call that leaves the descriptors alone. *)
Definition same_fds (k k' : kernel) : Prop := open_fds k' = open_fds k /\ outcomes k' = tail (outcomes k).

Lemma kernel_ok_tail k k' : kernel_ok k -> outcomes k' = tail (outcomes k) -> kernel_ok k'.
Proof. unfold kernel_ok. intros Hk ->. destruct (outcomes k); [done|]. by apply Forall_cons in Hk as [_ ?]. Qed.

Lemma inv_kept Q X N s s' :
  inv base L Q X N s -> tun_kept (ts_tun s) (ts_tun s') -> ts_user s' = ts_user s ->
  open_fds (ts_sys s') = open_fds (ts_sys s) -> kernel_ok (ts_sys s') ->
  inv base L Q X N s'.
Proof.
  intros [Hc (owner & Ho & Hn & Hle & Hall & Hw & Hb & Hop & Hfd) (Hnd & Hin & Hdom & Hnx) Ht Hl Hu _]
         [Eh Et En Es Em Ea Ew Eok] Eu Ef Hk.
  split; [by rewrite Eh| | |auto|by rewrite Eh|by rewrite Eh, Eu|done].
  - exists owner. rewrite Eh, Es, Em, Ef. split_and!; [done..| | |done|done|done]; by etrans.
  - unfold table_ok. by rewrite Et, Eh, En.
Qed.

Lemma inv_modify Q X N X' N' s p c c' :
  inv base L Q X N s -> heap s !! p = Some c -> linked c c' ->
  conn_good X' N' p c' -> X ⊆ {[p]} ∪ X' -> N' ⊆ {[p]} ∪ N ->
  inv base L Q X' N' (set_tun (fun t => t <| zt_heap ::= <[p := c']> |>) s).
Proof.
  intros [Hc (owner & Ho & Hn & Hle & Hall & Hw & Hb & Hop & Hfd) (Hnd & Hin & Hdom & Hnx) Ht Hl Hu Hk] Hp (Hs & Hda & Hop0) Hg HX HN.
  split; simpl.
  - intros q d. rewrite lookup_insert_Some. intros [[<- <-]|[Hne Hq]]; [done|].
    destruct (Hc q d Hq) as (? & ? & Hnew & Hno). split; [done|]; split; [done|]; split; [|set_solver].
    intros Hs'. destruct (Hnew Hs'); [left; set_solver|by right].
  - exists owner. split_and!; try done. intros fd q. simpl. split.
    + intros Hfo. apply Ho in Hfo as (d & Hd & Hsd & Hne).
      destruct (decide (p = q)) as [<-|]; [|exists d; by rewrite lookup_insert_ne].
      exists c'. rewrite lookup_insert_eq. simplify_eq. by rewrite Hs.
    + intros (d & Hd & Hsd & Hne). apply Ho.
      destruct (decide (p = q)) as [<-|]; [|rewrite lookup_insert_ne in Hd by done; by exists d].
      rewrite lookup_insert_eq in Hd. injection Hd as <-. exists c. rewrite <- Hs. auto.
  - split; [done|]. split; [done|]. split; [|done]. cbn [set_tun]. simpl. rewrite dom_insert_L, Hdom.
    assert (p ∈ Q) by (rewrite <- Hdom; by eapply elem_of_dom_2). set_solver.
  - destruct Ht. by split.
  - by eapply live_insert.
  - eapply user_inv_mono; [exact Hu|by eapply opens_insert|done|]. etrans; [by eapply opens_insert|apply Hl].
  - done.
Qed.
End inv.

(** ** Rules *)
Section rules.
Context {U D : Type} `{SafeCallbacks U D} (base : gset Z) (L : gmap zconn_ptr (option D)).
Abbreviation state := (tun_state U D).
Abbreviation zconn := (zdtun_conn D).
Implicit Types (s : state) (p : zconn_ptr) (c : zconn) (N X Q : gset zconn_ptr).
Abbreviation heap s := (zt_heap (ts_tun s)).
Abbreviation inv := (ZdtunInv.inv base L).

Lemma wp_zderef p c (R : zconn -> state -> Prop) s :
  heap s !! p = Some c -> R c s -> wp (zderef p) R s.
Proof. intros Hp HR. unfold zderef. wp_step. apply wp_gets. by eapply wp_of_option. Qed.

Lemma wp_modify_zconn p c f (R : unit -> state -> Prop) s :
  heap s !! p = Some c -> R tt (set_tun (fun t => t <| zt_heap ::= <[p := f c]> |>) s) ->
  wp (modify_zconn p f) R s.
Proof. intros Hp HR. unfold modify_zconn. wp_step. by eapply wp_zderef. Qed.

Lemma wp_sys {A} (f : kernel -> A * kernel) (R : A -> state -> Prop) s :
  R (f (ts_sys s)).1 (s <| ts_sys := (f (ts_sys s)).2 |>) -> wp (sys f) R s.
Proof. intros HR. unfold wp, sys. by destruct (f (ts_sys s)). Qed.

Lemma inv_user Q X N s u :
  inv Q X N s -> user_inv (opens (heap s)) L u -> inv Q X N (s <| ts_user := u |>).
Proof. intros [] Hu. by split. Qed.

(** A callback that keeps the invariant of the user. *)
Lemma wp_callback {A} (m : M U A) Q X N (R : A -> state -> Prop) s :
  inv Q X N s -> wp m (fun _ => user_inv (opens (heap s)) L) (ts_user s) ->
  (forall a u, inv Q X N (s <| ts_user := u |>) -> R a (s <| ts_user := u |>)) -> wp (callback m) R s.
Proof.
  intros Hs Hm HR. unfold wp, callback in *. destruct (m (ts_user s)) as [[a u]|]; [|done].
  by apply HR, inv_user.
Qed.

Lemma inv_sys Q X N s k :
  inv Q X N s -> same_fds (ts_sys s) k -> inv Q X N (s <| ts_sys := k |>).
Proof.
  intros Hs [Hk Ho]. eapply inv_kept; [exact Hs|by split|done|done|]. eapply kernel_ok_tail; [apply Hs|done].
Qed.

(** The steps that do not change what the invariant is about. *)
Definition keeps Q X N {A} (m : M state A) : Prop :=
  forall s, inv Q X N s -> wp m (fun _ => inv Q X N) s.

Section keeps.
Context (Q X N : gset zconn_ptr).
Abbreviation keeps := (keeps Q X N).

Lemma tun_keeps_ret {A} (a : A) : keeps (mret a).
Proof. by intros s Hs. Qed.

Lemma tun_keeps_bind {A B} (m : M state A) (k : A -> M state B) :
  keeps m -> (forall a, keeps (k a)) -> keeps (m ≫= k).
Proof. intros Hm Hk s Hs. wp_step. eapply wp_mono; [by apply Hm|]. intros a s'. apply Hk. Qed.

Lemma tun_keeps_when (b : bool) (m : M state unit) : (b = true -> keeps m) -> keeps (when b m).
Proof. intros Hm. destruct b; [by apply Hm|apply tun_keeps_ret]. Qed.

Lemma keeps_get_bind {A B} (f : zdtun D -> A) (k : A -> M state B) :
  (forall t, tun_ok t -> keeps (k (f t))) -> keeps (tun_get f ≫= k).
Proof. intros Hk s Hs. wp_step. apply wp_gets. apply Hk; [apply Hs|done]. Qed.

Lemma keeps_get {A} (f : zdtun D -> A) : keeps (tun_get f).
Proof. by intros s Hs. Qed.

Lemma tun_keeps_gets_bind {A B} (f : state -> A) (k : A -> M state B) :
  (forall s, tun_ok (ts_tun s) -> keeps (k (f s))) -> keeps (gets f ≫= k).
Proof. intros Hk s Hs. wp_step. wp_step. apply Hk; [apply Hs|done]. Qed.

Lemma keeps_option_bind {A B} (o : option A) a (k : A -> M state B) :
  o = Some a -> keeps (k a) -> keeps (of_option o ≫= k).
Proof. intros -> Hk s Hs. wp_step. by apply Hk. Qed.

Lemma keeps_zderef_bind {B} p (k : zconn -> M state B) :
  p ∈ Q -> (forall c, conn_good X N p c -> keeps (k c)) -> keeps (zderef p ≫= k).
Proof.
  intros Hp Hk s Hs. destruct (inv_lookup _ _ _ _ _ _ _ Hs Hp) as (c & Hc & Hg).
  wp_step. eapply wp_zderef; [done|]. by apply Hk.
Qed.

Lemma keeps_modify p f :
  p ∈ Q -> (forall c, conn_good X N p c -> conn_good X N p (f c) /\ linked c (f c)) ->
  keeps (modify_zconn p f).
Proof.
  intros Hp Hf s Hs. destruct (inv_lookup _ _ _ _ _ _ _ Hs Hp) as (c & Hc & Hg).
  eapply wp_modify_zconn; [done|]. destruct (Hf c Hg) as [Hg' Hs'].
  eapply inv_modify; [exact Hs|exact Hc|done|done|set_solver..].
Qed.

Lemma keeps_on_tun g : (forall t, tun_kept t (g t)) -> keeps (on_tun g).
Proof. intros Hg s Hs. unfold on_tun. wp_step. eapply inv_kept; [exact Hs|apply Hg|done|done|apply Hs]. Qed.

Lemma keeps_sys {A} (f : kernel -> A * kernel) : (forall k, same_fds k (f k).2) -> keeps (sys f).
Proof.
  intros Hf s Hs. apply wp_sys. by apply inv_sys.
Qed.

(** The callbacks about a live connection. *)
Lemma wp_account {R : unit -> state -> Prop} p pkt b c s :
  inv Q X N s -> heap s !! p = Some c -> p ∈ dom L ->
  (forall a u, inv Q X N (s <| ts_user := u |>) -> R a (s <| ts_user := u |>)) ->
  wp (callback (account_packet pkt b c)) R s.
Proof.
  intros Hs Hp Hl HR. eapply wp_callback; [exact Hs| |exact HR].
  eapply account_packet_safe; [apply Hs|by eapply inv_live_data|]. by apply inv_closed_not_open.
Qed.

Lemma keeps_account p pkt b : p ∈ Q -> p ∈ dom L -> keeps (c ← zderef p; callback (account_packet pkt b c)).
Proof.
  intros Hp Hl s Hs. destruct (inv_lookup _ _ _ _ _ _ _ Hs Hp) as (c & Hc & Hg).
  wp_step. eapply wp_zderef; [done|]. by eapply wp_account.
Qed.

Lemma keeps_account_bind {B} p pkt b (k : zconn -> M state B) :
  p ∈ Q -> p ∈ dom L -> (forall c, conn_good X N p c -> keeps (k c)) ->
  keeps (c ← zderef p; callback (account_packet pkt b c);; k c).
Proof.
  intros Hp Hl Hk s Hs. destruct (inv_lookup _ _ _ _ _ _ _ Hs Hp) as (c & Hc & Hg).
  wp_step. eapply wp_zderef; [done|]. wp_step. eapply wp_account; [done..|]. intros [] u Hs'. by apply Hk.
Qed.
End keeps.
End rules.
