(* ===== verification/ZdtunSafe.v ===== *)
(** The operations of the engine of zdtun on the connections that exist: from a
    state of the invariant each one runs without undefined behaviour to another
    one. *)
From Stdlib Require Import ZArith Lia.
From stdpp Require Import base option gmap numbers list.
From S2P Require Import Prelude Packet Uthash PcapDump Blacklist NdpiProtos Conn Checksum Kernel Zdtun ZdtunFwd.
From S2P Require Import ZdtunInv.

Open Scope Z_scope.

Create HintDb keeps.
Create HintDb sysfds.

(** *** Calls that leave the descriptors alone *)
Lemma sys_get_fds k : same_fds k (sys_get k).2.
Proof. done. Qed.
Lemma sys_bind_fds fd port k : same_fds k (sys_bind fd port k).2.
Proof. done. Qed.
Lemma sys_connect_fds fd addr k : same_fds k (sys_connect fd addr k).2.
Proof. by destruct addr as [[? ?] ?]. Qed.
Lemma sys_send_fds fd data k : same_fds k (sys_send fd data k).2.
Proof. unfold sys_send, next_sys. by destruct (_ =? 0). Qed.
Lemma sys_recv_fds fd n k : same_fds k (sys_recv fd n k).2.
Proof. unfold sys_recv, next_sys. by destruct (_ =? 0). Qed.
Lemma sys_shutdown_fds fd k : same_fds k (sys_shutdown fd k).
Proof. done. Qed.
#[export] Hint Resolve sys_get_fds sys_bind_fds sys_connect_fds sys_send_fds sys_recv_fds sys_shutdown_fds : sysfds.

(** *** The buffer of the replies *)
Lemma wf_buf_get off n buf : wf_bytes buf -> wf_bytes (buf_get off n buf).
Proof.
  intros Hb. unfold buf_get. apply Forall_take, wf_bytes_app; [by apply Forall_drop|].
  apply Forall_replicate. unfold is_byte. lia.
Qed.

Lemma blen_buf_get off n buf : 0 <= n -> blen (buf_get off n buf) = n.
Proof.
  intros Hn. unfold buf_get, blen. rewrite length_take, length_app, length_replicate. lia.
Qed.

Lemma buf_put_ok off bs buf :
  wf_bytes buf -> wf_bytes bs -> 0 <= off -> off + blen bs <= REPLY_BUF_SIZE ->
  exists buf', buf_put off bs buf = Some buf' /\ wf_bytes buf'.
Proof.
  intros Hb Hbs Ho Hl. unfold buf_put.
  destruct (Z.ltb_spec off 0); [lia|]. destruct (Z.ltb_spec REPLY_BUF_SIZE (off + blen bs)); [lia|].
  eexists; split; [done|]. apply wf_bytes_app; [by apply wf_buf_get|].
  apply wf_bytes_app; [done|by apply Forall_drop].
Qed.

Lemma wf_iphdr ver tuple l3_len : is_byte (ipproto tuple) -> wf_bytes (zdtun_make_iphdr ver tuple l3_len).
Proof.
  intros Hp. unfold zdtun_make_iphdr, iphdr4. destruct (ver =? 4); wf.
  destruct (_ =? IPPROTO_ICMP); [unfold IPPROTO_ICMPV6, is_byte; lia|done].
Qed.

Lemma blen_iphdr ver tuple l3_len :
  blen (zdtun_make_iphdr ver tuple l3_len) = if ver =? 4 then 20 else 40.
Proof.
  unfold zdtun_make_iphdr, iphdr4, sizeof_in6. destruct (ver =? 4); by autorewrite with blen.
Qed.

Lemma u8_byte x : is_byte (u8 x).
Proof. apply u8_range. Qed.

(** *** The shifts of the windows *)
Lemma shl_u32_ok x n : 0 <= n <= max_scale -> exists v, shl_u32 x n = Some v.
Proof. intros Hn. unfold shl_u32, max_scale in *. destruct (Z.ltb_spec n 32); [eauto|lia]. Qed.

Lemma shl_s32_ok x n : 0 <= x < 2 ^ 16 -> 0 <= n <= max_scale -> exists v, shl_s32 x n = Some v /\ 0 <= v.
Proof.
  intros Hx Hn. unfold shl_s32, max_scale in *. rewrite Z.shiftl_mul_pow2 by lia.
  assert (2 ^ n <= 2 ^ 14) by (apply Z.pow_le_mono_r; lia).
  destruct (Z.ltb_spec n 32), (Z.ltb_spec (x * 2 ^ n) (2 ^ 31)); simpl; try nia. eexists; split; [done|nia].
Qed.

(** *** Automation *)

(** A change of the instance that is out of the invariant. *)
Ltac kept :=
  let t := fresh "t" in intros t; split; try done; simpl;
  first [by apply subseteq_difference_l | by intros []; split].

(** A change of a connection that keeps what is known of it. *)
Ltac good :=
  let c := fresh "c" in
  intros c ([] & ? & ? & ?); split; [|done]; split; [split; first [done|by constructor|apply u32_range]|done].

Ltac keeps_step :=
  lazymatch goal with
  | |- keeps _ _ _ _ _ (mret _) => apply tun_keeps_ret
  | |- keeps _ _ _ _ _ (zderef _ ≫= (fun _ => callback (account_packet _ _ _) ≫= _)) =>
      apply keeps_account_bind; [assumption..|let c := fresh "c" in let Hg := fresh "Hg" in intros c Hg]
  | |- keeps _ _ _ _ _ (zderef _ ≫= (fun _ => callback (account_packet _ _ _))) => apply keeps_account; assumption
  | |- keeps _ _ _ _ _ (zderef _ ≫= _) => apply keeps_zderef_bind; [assumption|let c := fresh "c" in let Hg := fresh "Hg" in intros c Hg]
  | |- keeps _ _ _ _ _ (tun_get _ ≫= _) => apply keeps_get_bind; let t := fresh "t" in let Ht := fresh "Ht" in intros t Ht
  | |- keeps _ _ _ _ _ (tun_get _) => apply keeps_get
  | |- keeps _ _ _ _ _ (gets _ ≫= _) => apply tun_keeps_gets_bind; let s := fresh "s" in let Ht := fresh "Ht" in intros s Ht
  | |- keeps _ _ _ _ _ (when _ _) => apply tun_keeps_when; intros ?
  | |- keeps _ _ _ _ _ (sys _) => apply keeps_sys; first [solve [auto with sysfds] | intros ?; cbn [snd]; solve [auto with sysfds]]
  | |- keeps _ _ _ _ _ (on_tun _) => apply keeps_on_tun; try kept
  | |- keeps _ _ _ _ _ (modify_zconn _ _) => apply keeps_modify; [assumption|try good]
  | |- keeps _ _ _ _ _ (of_option _ ≫= _) => fail
  | |- keeps _ _ _ _ _ (_ ≫= _) => apply tun_keeps_bind; [|intros ?]
  | |- keeps _ _ _ _ _ (match ?x with _ => _ end) => destruct x
  | |- keeps _ _ _ _ _ (let _ := _ in _) => cbv zeta
  end.
Ltac keeps_steps := repeat (keeps_step || solve [auto with keeps]).

Section safe.
Context {U D : Type} `{SafeCallbacks U D} (base : gset Z) (L : gmap zconn_ptr (option D)).
Abbreviation state := (tun_state U D).
Abbreviation zconn := (zdtun_conn D).
Implicit Types (s : state) (p : zconn_ptr) (c : zconn) (N X Q : gset zconn_ptr).
Abbreviation heap s := (zt_heap (ts_tun s)).
Abbreviation inv := (ZdtunInv.inv (U:=U) (D:=D) base L).

Section keeps.
Context (Q X N : gset zconn_ptr) (p : zconn_ptr) (Hp : p ∈ Q).
Abbreviation keeps := (ZdtunInv.keeps (U:=U) (D:=D) base L Q X N).

Lemma keeps_zderef : keeps (zderef p).
Proof.
  intros s Hs. destruct (inv_lookup _ _ _ _ _ _ _ Hs Hp) as (c & Hc & _). by eapply wp_zderef.
Qed.

Lemma keeps_sock_ipver : keeps (sock_ipver p).
Proof.
  unfold sock_ipver. keeps_step. destruct (zc_proxy_mode c) eqn:E; keeps_steps.
  destruct Hg as ([_ Hd _ _ _ _] & _). destruct (Hd E) as [px Hpx].
  eapply keeps_option_bind; [exact Hpx|apply tun_keeps_ret].
Qed.

Lemma keeps_iphdr_bind {A} (k : Z -> M state A) :
  (forall l, l = 20 \/ l = 40 -> keeps (k l)) -> keeps (zdtun_iphdr_len p ≫= k).
Proof.
  intros Hk s Hs. wp_step. unfold zdtun_iphdr_len. wp_step. eapply wp_mono; [by apply keeps_sock_ipver|].
  intros ver s' Hs'. cbv beta in Hs'. wp_step. apply Hk; [|done]. destruct (_ =? 4); auto.
Qed.

Lemma keeps_now : keeps zdtun_now.
Proof. unfold zdtun_now. keeps_steps. Qed.

Lemma keeps_put off bs :
  0 <= off -> off + blen bs <= REPLY_BUF_SIZE -> wf_bytes bs -> keeps (put off bs).
Proof.
  intros Ho Hl Hb. unfold put. keeps_step.
  destruct (buf_put_ok off bs (reply_buf t)) as (b & Eb & Hwf); [by apply to_buf|done..|].
  eapply keeps_option_bind; [exact Eb|]. apply keeps_on_tun.
  intros t'. split; try done. intros []. by split.
Qed.

Lemma keeps_sndbuf : keeps (get_available_sndbuf p).
Proof. unfold get_available_sndbuf. keeps_steps. Qed.
End keeps.
#[local] Hint Resolve keeps_zderef keeps_sock_ipver keeps_now keeps_sndbuf : keeps.

(** *** Packets to the client *)
Lemma wf_tcp_header c flags optsoff window check : wf_bytes (tcp_header c flags optsoff window check).
Proof. unfold tcp_header. wf; apply u8_byte. Qed.

Lemma blen_tcp_header c flags optsoff window check : blen (tcp_header c flags optsoff window check) = 20.
Proof. unfold tcp_header. by autorewrite with blen. Qed.

Lemma conn_good_proto X N p c : conn_good X N p c -> is_byte (ipproto (zc_tuple c)).
Proof. by intros ([] & _). Qed.

Lemma keeps_put_header Q X N off c flags optsoff window check :
  off = 20 \/ off = 40 -> keeps base L Q X N (put off (tcp_header c flags optsoff window check) : M state unit).
Proof.
  intros Ho. apply keeps_put; [lia| |apply wf_tcp_header]. rewrite blen_tcp_header. unfold REPLY_BUF_SIZE. lia.
Qed.

Lemma keeps_put_iphdr Q X N ver tuple l3_len :
  is_byte (ipproto tuple) -> keeps base L Q X N (put 0 (zdtun_make_iphdr ver tuple l3_len) : M state unit).
Proof.
  intros Hb. apply keeps_put; [lia| |by apply wf_iphdr]. rewrite blen_iphdr. unfold REPLY_BUF_SIZE.
  destruct (_ =? _); lia.
Qed.

Lemma keeps_build_reply_tcpip Q X N p flags l4_len optsoff :
  p ∈ Q -> keeps base L Q X N (build_reply_tcpip p flags l4_len optsoff : M state unit).
Proof.
  intros Hp. unfold build_reply_tcpip. keeps_step; [by apply keeps_sock_ipver|].
  apply keeps_iphdr_bind; [done|]. intros l Hl. keeps_step. pose proof (conn_good_proto _ _ _ _ Hg) as Hb.
  destruct Hg as ([? ? ? ? ? Hscale] & _). cbv zeta. destruct (shl_u32_ok 0xFFFF _ Hscale) as [w Ew].
  eapply keeps_option_bind; [exact Ew|]. keeps_step; [by apply keeps_sndbuf|].
  keeps_step; [destruct (_ <? _); [by apply keeps_sndbuf|apply tun_keeps_ret]|].
  keeps_step; [by apply keeps_put_header|]. keeps_step; [by apply keeps_put_iphdr|].
  keeps_step. by apply keeps_put_header.
Qed.

(** The size of a reply to a connection. *)
Definition sendable (l3_len : Z) : Prop := 0 <= l3_len <= reply_limit + 28.

Lemma sendable_header : sendable TCP_HEADER_LEN.
Proof. unfold sendable, TCP_HEADER_LEN. pose proof reply_limit_nonneg. lia. Qed.

Lemma sendable_syn : sendable (TCP_HEADER_LEN + 8).
Proof. unfold sendable, TCP_HEADER_LEN. pose proof reply_limit_nonneg. lia. Qed.

(** The data of a server, with a header. *)
Lemma sendable_data n hdr : 0 <= n <= reply_limit -> 0 <= hdr <= 28 -> sendable (n + hdr).
Proof. unfold sendable. lia. Qed.

Lemma reply_parsed ids buf l3_len l :
  wf_bytes buf -> l = 20 \/ l = 40 -> sendable l3_len ->
  exists r ids', zdtun_parse_pkt ids (sent_buf (u16 (l3_len + l)) buf) (u16 (l3_len + l)) = Some (r, ids') /\
    forall pkt, r = inr pkt -> reply_ok (reply_limit + reply_headers) pkt.
Proof.
  intros Hb Hl Hlen. pose proof (u16_range (l3_len + l)) as Hr.
  unfold sendable, reply_headers, sent_buf in *.
  assert (u16 (l3_len + l) <= l3_len + l) as Hle by (unfold u16; apply Z.mod_le; lia).
  set (size := u16 (l3_len + l)) in *.
  assert (size <= sent_size size <= REPLY_BUF_SIZE) as Hss by (unfold sent_size, reply_margin, REPLY_BUF_SIZE; lia).
  assert (wf_bytes (buf_get 0 (sent_size size) buf)) as Hwf by by apply wf_buf_get.
  assert (blen (buf_get 0 (sent_size size) buf) = sent_size size) as Hsz by (apply blen_buf_get; lia).
  destruct (zdtun_parse_pkt_total ids (buf_get 0 (sent_size size) buf) size) as (r & ids' & E & _); [done|lia..|].
  exists r, ids'. split; [done|]. intros pkt ->. exists ids, (buf_get 0 (sent_size size) buf), size, ids'.
  split_and!; [done..|lia|lia].
Qed.

Lemma keeps_send_with close Q X N p l3_len :
  p ∈ Q -> p ∈ dom L -> sendable l3_len ->
  (forall status s, inv Q X N s ->
     (forall c, heap s !! p = Some c -> ipproto (zc_tuple c) = IPPROTO_TCP -> fin_ack_sent c = true) ->
     wp (close p status) (fun _ => inv Q X N) s) ->
  keeps base L Q X N (send_to_client_with close p l3_len).
Proof.
  intros Hp Hlive Hlen Hclose. unfold send_to_client_with. apply keeps_iphdr_bind; [done|]. intros l Hl.
  keeps_step. cbv zeta. set (size := u16 (l3_len + l)).
  destruct (reply_parsed (id2ports (ts_tun s)) (reply_buf (ts_tun s)) l3_len l) as (r & ids & E & Hr); [by apply to_buf|done..|].
  fold size in E. eapply keeps_option_bind; [exact E|]. cbv beta iota. keeps_step; [keeps_steps|].
  destruct r as [rv|pkt]; [apply tun_keeps_ret|]. specialize (Hr pkt eq_refl). intros s' Hs.
  destruct (inv_lookup _ _ _ _ _ _ _ Hs Hp) as (c & Hc & Hg). wp_step. eapply wp_zderef; [done|].
  wp_step. eapply wp_callback; [exact Hs|eapply send_client_safe; [apply Hs|by eapply inv_live_data|done]|].
  intros rv u Hsu. wp_step.
  eapply wp_mono with (Q := fun _ => inv Q X N); [|by intros [] s'' Hs''].
  destruct (rv =? 0).
  { assert (keeps base L Q X N (c ← zderef p; callback (account_packet pkt false c) : M state unit)) as Hk by keeps_steps.
    by apply Hk. }
  wp_step. destruct (Z.eqb_spec (ipproto (zc_tuple c)) IPPROTO_TCP) as [Etcp|Etcp]; simpl.
  - eapply wp_modify_zconn; [done|]. apply Hclose.
    + eapply inv_modify; [exact Hsu|exact Hc|done| |set_solver..]. destruct Hg as ([] & ? & ? & ?).
      split; [|done]. by split.
    + simpl. rewrite lookup_insert_eq. by intros ? [= <-].
  - apply wp_ret. apply Hclose; [done|]. simpl. rewrite Hc. by intros ? [= <-].
Qed.

(** *** Sockets *)
Lemma owns_insert_eq owner (h : gmap zconn_ptr zconn) p c fd :
  owns owner h -> h !! p = Some c -> zc_sock c = INVALID_SOCKET -> fd <> INVALID_SOCKET ->
  owner !! fd = None -> forall c', zc_sock c' = fd -> owns (<[fd := p]> owner) (<[p := c']> h).
Proof.
  intros Ho Hp Hs Hfd Hnone c' Hs' fd' q. rewrite lookup_insert_Some. split.
  - intros [[<- <-]|[Hne Hq]]; [exists c'; by rewrite lookup_insert_eq|].
    apply Ho in Hq as (d & Hd & Hsd & Hnd). exists d. rewrite lookup_insert_ne; [done|]. intros ->. congruence.
  - intros (d & Hd & Hsd & Hnd). apply lookup_insert_Some in Hd as [[<- <-]|[Hne Hd]]; [left; split; congruence|].
    right. assert (owner !! fd' = Some q) as Hq by (apply Ho; eauto). split; [|done]. intros <-. congruence.
Qed.

Lemma owns_delete owner (h : gmap zconn_ptr zconn) p c :
  owns owner h -> h !! p = Some c -> zc_sock c <> INVALID_SOCKET ->
  owner !! zc_sock c = Some p /\
  forall c', zc_sock c' = INVALID_SOCKET -> owns (delete (zc_sock c) owner) (<[p := c']> h).
Proof.
  intros Ho Hp Hs. assert (owner !! zc_sock c = Some p) as Hown by (apply Ho; eauto). split; [done|].
  intros c' Hs' fd' q. rewrite lookup_delete_Some. split.
  - intros [Hne Hq]. pose proof Hq as (d & Hd & Hsd & Hnd)%Ho. exists d.
    rewrite lookup_insert_ne; [done|]. intros ->. congruence.
  - intros (d & Hd & Hsd & Hnd). apply lookup_insert_Some in Hd as [[<- <-]|[Hne Hd]]; [congruence|].
    assert (owner !! fd' = Some q) as Hq by (apply Ho; eauto). split; [|done]. intros <-. congruence.
Qed.

Lemma conn_good_shut X N N' p c : conn_good X N p c -> conn_good X N' p (c <| zc_sock := INVALID_SOCKET |>).
Proof.
  intros ([] & Hcl & Hnew & Hno). split; [by split|]. split_and!; [done| |done].
  intros E. destruct (Hnew E) as [|[? _]]; [by left|right; by split].
Qed.

Lemma inv_shut Q X N s s' p c c' :
  inv Q X N s -> heap s !! p = Some c -> zc_sock c <> INVALID_SOCKET ->
  c' = c <| zc_sock := INVALID_SOCKET |> -> heap s' = <[p := c']> (heap s) ->
  conn_table (ts_tun s') = conn_table (ts_tun s) -> zt_next_ptr (ts_tun s') = zt_next_ptr (ts_tun s) ->
  num_open_sockets (zt_stats (ts_tun s')) = Z.max (u32 (num_open_sockets (zt_stats (ts_tun s)) - 1)) 0 ->
  all_max_fd (zt_stats (ts_tun s')) = all_max_fd (zt_stats (ts_tun s)) ->
  all_fds (ts_tun s') = all_fds (ts_tun s) ∖ {[zc_sock c]} ->
  write_fds (ts_tun s') = write_fds (ts_tun s) ∖ {[zc_sock c]} ->
  open_fds (ts_sys s') = open_fds (ts_sys s) ∖ {[zc_sock c]} ->
  (tun_ok (ts_tun s) -> tun_ok (ts_tun s')) ->
  user_inv (opens (heap s')) L (ts_user s') -> kernel_ok (ts_sys s') ->
  inv Q X ({[p]} ∪ N) s'.
Proof.
  intros [Hc (owner & Ho & Hn & Hle & Hall & Hw & Hb & Hop & Hfd) (Hnd & Hin & Hdom & Hnx) Ht Hlv _ _] Hp Hs Ec'.
  intros Eh Et En Es Em Ea Ew Ef Eok Eu Ek. destruct (owns_delete _ _ _ _ Ho Hp Hs) as [Hown Hdel].
  split; [| | |auto|rewrite Eh; subst c'; by eapply live_insert|done|done].
  - intros q d. rewrite Eh, lookup_insert_Some. intros [[<- <-]|[Hne Hq]].
    + subst c'. eapply conn_good_shut. by apply Hc.
    + destruct (Hc q d Hq) as (? & ? & ? & Hno). split; [done|]; split; [done|]; split; [done|]. set_solver.
  - exists (delete (zc_sock c) owner). rewrite Eh, Es, Em, Ea, Ew, Ef, Hn, Hop.
    rewrite (map_size_delete_Some (A:=zconn_ptr) (zc_sock c) owner) by eauto.
    assert (size owner <> 0)%nat by (intros E0; apply map_size_empty_inv in E0; by rewrite E0 in Hown).
    rewrite u32_small by (unfold MAX_NUM_SOCKETS in Hle; lia). rewrite dom_delete_L.
    assert (zc_sock c ∈ dom owner) as Hin' by (by apply elem_of_dom).
    split_and!; [apply Hdel; by subst c'|lia|lia|set_solver..| |].
    + set_solver.
    + intros fd Hfd'. apply Hfd. set_solver.
  - unfold table_ok. rewrite Et, Eh, En, dom_insert_L, Hdom. split_and!; try done.
    assert (p ∈ Q) by (rewrite <- Hdom; by eapply elem_of_dom_2). set_solver.
Qed.

Lemma opens_shut (h : gmap zconn_ptr zconn) p c :
  h !! p = Some c -> opens (<[p := c <| zc_sock := INVALID_SOCKET |>]> h) ⊆ opens h.
Proof. intros Hp. by eapply opens_insert. Qed.

Lemma wp_shut {A} Q X N p c (k : M state A) R s :
  inv Q X N s -> heap s !! p = Some c ->
  (forall s', inv Q X ({[p]} ∪ N) s' -> heap s' !! p = Some (c <| zc_sock := INVALID_SOCKET |>) -> wp k R s') ->
  wp (close_socket (zc_sock c);; modify_zconn p (fun c => c <| zc_sock := INVALID_SOCKET |>);; k) R s.
Proof.
  intros Hs Hp Hk. unfold close_socket. wp_step. destruct (Z.eqb_spec (zc_sock c) INVALID_SOCKET) as [Ei|Ei].
  { wp_step. wp_step. eapply wp_modify_zconn; [done|]. pose proof (inv_conns _ _ _ _ _ _ Hs p c Hp) as Hg.
    apply Hk; [|simpl; by rewrite lookup_insert_eq].
    eapply inv_modify; [exact Hs|exact Hp|by split_and!|by eapply conn_good_shut|set_solver..]. }
  wp_step. apply wp_sys. wp_step.
  set (s1 := s <| ts_sys := _ |>).
  assert (forall u, user_inv (opens (heap s)) L u -> wp (modify_zconn p (fun c => c <| zc_sock := INVALID_SOCKET |>);; k) R
     (set_tun (fun t => t <| all_fds ::= fun fds => fds ∖ {[zc_sock c]} |>
                     <| write_fds ::= fun fds => fds ∖ {[zc_sock c]} |>
                     <| zt_stats ::= fun st => st <| num_open_sockets ::= fun n => Z.max (u32 (n - 1)) 0 |> |>)
       (s1 <| ts_user := u |>))) as Hrest.
  { intros u Hu. wp_step. eapply wp_modify_zconn; [done|]. apply Hk; [|simpl; by rewrite lookup_insert_eq].
    eapply inv_shut; [exact Hs|exact Hp|done|done|done..| | |].
    - intros []. by split.
    - eapply user_inv_mono; [exact Hu|by apply opens_shut|done|]. etrans; [by apply opens_shut|apply (inv_live _ _ _ _ _ _ Hs)].
    - eapply kernel_ok_tail; [apply Hs|done]. }
  eapply (wp_mono _ (fun _ s' => exists u, s' = s1 <| ts_user := u |> /\ user_inv (opens (heap s)) L u)).
  - destruct (sys_close _ _).1; [apply wp_ret; exists (ts_user s1); split; [by destruct s1|apply Hs]|].
    unfold wp, callback. pose proof (on_socket_close_safe _ _ (zc_sock c) _ (inv_usr _ _ _ _ _ _ Hs)) as Hw.
    unfold wp in Hw. change (ts_user s1) with (ts_user s). destruct (on_socket_close _ _) as [[a u']|]; [eauto|done].
  - intros [] s' (u & -> & Hu). unfold on_tun. wp_step. by apply Hrest.
Qed.

(** *** The end of a connection *)
Lemma keeps_release Q X N tuple : keeps base L Q X N (release_mapping tuple : M state unit).
Proof.
  unfold release_mapping. apply keeps_on_tun. intros t. destruct (HASH_FIND _ _) as [m|]; [|by split].
  cbv zeta. destruct (_ =? 0); split; try done; by intros []; split.
Qed.

Lemma wp_release Q X N s (b : bool) tuple :
  inv Q X N s -> wp (when b (release_mapping tuple)) (fun _ s' => inv Q X N s' /\ heap s' = heap s) s.
Proof.
  intros Hs. apply (wp_preserves (fun s => heap s)); [|by apply tun_keeps_when; [intros; apply keeps_release|]].
  apply preserves_when. unfold release_mapping, on_tun. apply preserves_modify. intros s'. simpl.
  destruct (HASH_FIND _ _) as [m|]; [cbv zeta; by destruct (_ =? 0)|done].
Qed.

Lemma subset_minus (p : zconn_ptr) X : X ⊆ {[p]} ∪ (X ∖ {[p]}).
Proof. intros x Hx. destruct (decide (x = p)); set_solver. Qed.

Lemma wp_close_tail Q X N s p (tcp : bool) status :
  inv Q X ({[p]} ∪ N) s -> p ∈ Q -> p ∈ dom L -> CONN_STATUS_CLOSED <= status ->
  wp (when tcp (modify_zconn p (fun c => c <| tx_queue := [] |>));;
      modify_zconn p (fun c => c <| zc_status := status |>);;
      c ← zderef p;
      callback (on_connection_close c)) (fun _ => inv Q (X ∖ {[p]}) ({[p]} ∪ N)) s.
Proof.
  intros Hs HpQ Hlive Hst. wp_step. eapply wp_mono with (Q := fun _ => inv Q X ({[p]} ∪ N)).
  - apply tun_keeps_when; [intros _; keeps_steps|done].
  - intros [] s' Hs'. destruct (inv_lookup _ _ _ _ _ _ _ Hs' HpQ) as (c & Hp & ([] & Hcl & Hnew & Hno)).
    wp_step. eapply wp_modify_zconn; [done|]. set (c' := c <| zc_status := status |>).
    assert (inv Q (X ∖ {[p]}) ({[p]} ∪ N) (set_tun (fun t => t <| zt_heap ::= <[p := c']> |>) s')) as Hs2.
    { eapply inv_modify; [exact Hs'|exact Hp| | |apply subset_minus|set_solver].
      - split_and!; [done|done|simpl; lia].
      - split; [by split|]. assert (zc_sock c = INVALID_SOCKET) by (apply Hno; set_solver).
        split; [done|]. split; [|done]. simpl. intros E. rewrite E in Hst. exfalso; by apply Hst. }
    set (s2 := set_tun _ s') in *. assert (heap s2 !! p = Some c') as Hp2 by (simpl; by rewrite lookup_insert_eq).
    clearbody s2. wp_step. eapply wp_zderef; [done|]. eapply wp_callback; [exact Hs2| |done].
    eapply on_connection_close_safe; [apply Hs2|by eapply inv_live_data|]. by eapply inv_closed_not_open.
Qed.

(** With [fuel = 0] the reset, which could close the connection again, must not
    be sent. *)
Lemma wp_close_rec fuel Q X N p status s :
  inv Q X N s -> p ∈ Q ->
  (fuel = O -> forall c, heap s !! p = Some c -> ipproto (zc_tuple c) = IPPROTO_TCP -> fin_ack_sent c = true) ->
  wp (zdtun_conn_close_rec fuel p status) (fun _ => inv Q (X ∖ {[p]}) ({[p]} ∪ N)) s.
Proof.
  revert X N s status. induction fuel as [|fuel IH]; intros X N s status Hs HpQ Hfin.
  all: destruct (inv_lookup _ _ _ _ _ _ _ Hs HpQ) as (c & Hp & Hg); simpl; wp_step; (eapply wp_zderef; [done|]).
  all: destruct (Z.geb_spec (zc_status c) CONN_STATUS_CLOSED) as [Hcl|Hcl]; [apply wp_ret; by eapply inv_closed|].
  all: assert (p ∈ dom L) as Hlive by (eapply inv_open_live; [exact Hs|exact Hp|lia]).
  all: assert (CONN_STATUS_CLOSED <= (if status >=? CONN_STATUS_CLOSED then status else CONN_STATUS_CLOSED))
    by (destruct (Z.geb_spec status CONN_STATUS_CLOSED); lia).
  all: wp_step; (eapply wp_mono; [by apply wp_release|]); intros [] s1 [Hs1 Hh1]; cbv beta.
  all: eapply wp_shut; [exact Hs1|by rewrite Hh1|]; intros s2 Hs2 Hp2; wp_step.
  all: eapply wp_mono with (Q := fun _ => inv Q X ({[p]} ∪ N)); [|intros [] s3 Hs3; by apply wp_close_tail].
  - destruct (Z.eqb_spec (ipproto (zc_tuple c)) IPPROTO_TCP) as [Et|Et]; [|by apply wp_ret].
    rewrite (Hfin eq_refl c Hp Et). by apply wp_ret.
  - revert s2 Hs2 Hp2. cut (keeps base L Q X ({[p]} ∪ N) (when ((ipproto (zc_tuple c) =? IPPROTO_TCP) && negb (fin_ack_sent c))
      (build_reply_tcpip p (Z.lor TH_RST TH_ACK) 0 0;;
       send_to_client_with (fun p status => zdtun_conn_close_rec fuel p status) p TCP_HEADER_LEN;; mret tt) : M state unit)).
    { intros Hk s2 Hs2 _. by apply Hk. }
    keeps_step. keeps_step; [by apply keeps_build_reply_tcpip|]. keeps_step; [|apply tun_keeps_ret].
    apply keeps_send_with; [done|done|apply sendable_header|].
    intros st s3 Hs3 Hf3. eapply wp_mono; [by apply IH|].
    intros [] s4 Hs4. eapply inv_weaken; [exact Hs4|set_solver..].
Qed.

Lemma wp_close Q X N p status s :
  inv Q X N s -> p ∈ Q ->
  wp (zdtun_conn_close p status) (fun _ => inv Q (X ∖ {[p]}) ({[p]} ∪ N)) s.
Proof. intros. by apply wp_close_rec. Qed.

Section closing.
Context (Q X N : gset zconn_ptr) (p : zconn_ptr) (Hp : p ∈ Q).
Abbreviation keeps := (ZdtunInv.keeps (U:=U) (D:=D) base L Q X N).

Lemma keeps_close status : keeps (zdtun_conn_close p status).
Proof.
  intros s Hs. eapply wp_mono; [by apply wp_close|]. intros [] s' Hs'.
  eapply inv_weaken; [exact Hs'|set_solver..].
Qed.

Lemma keeps_send l3_len : p ∈ dom L -> sendable l3_len -> keeps (send_to_client p l3_len).
Proof. intros Hl Hlen. apply keeps_send_with; [done..|]. intros status s Hs _. by apply keeps_close. Qed.

Lemma keeps_socket_error err : keeps (close_with_socket_error p err).
Proof. unfold close_with_socket_error. destruct (socket_error_status err). keeps_step; [apply keeps_close|apply tun_keeps_ret]. Qed.
End closing.

End safe.
#[export] Hint Resolve sendable_header sendable_syn : keeps.
