(* ===== verification/ZdtunTcpSafe.v ===== *)
(** The TCP, SOCKS5, UDP and ICMP handlers of the engine of zdtun keep its
    invariant: a connection whose first packet is handled gets its socket or is
    closed. *)
From Stdlib Require Import ZArith Lia.
From stdpp Require Import base option gmap numbers list.
From S2P Require Import Prelude Packet Uthash PcapDump Blacklist NdpiProtos Conn Checksum Kernel Zdtun ZdtunFwd.
From S2P Require Import ZdtunInv ZdtunSafe.

Open Scope Z_scope.

Section handlers.
Context {U D : Type} `{SafeCallbacks U D} (base : gset Z) (L : gmap zconn_ptr (option D)).
Abbreviation state := (tun_state U D).
Abbreviation zconn := (zdtun_conn D).
Implicit Types (s : state) (p : zconn_ptr) (c : zconn) (N X Q : gset zconn_ptr).
Abbreviation heap s := (zt_heap (ts_tun s)).
Abbreviation inv := (ZdtunInv.inv (U:=U) (D:=D) base L).

(** ** A new socket *)
Lemma count_opened_open protocol st : num_open_sockets (count_opened protocol st) = num_open_sockets st.
Proof. unfold count_opened. by repeat destruct (_ =? _). Qed.
Lemma count_opened_max protocol st : all_max_fd (count_opened protocol st) = all_max_fd st.
Proof. unfold count_opened. by repeat destruct (_ =? _). Qed.

Definition opened (protocol sock : Z) (t : zdtun D) : zdtun D :=
  t <| all_fds ::= fun fds => {[sock]} ∪ fds |>
    <| zt_stats ::= fun st => st <| num_open_sockets ::= fun n => u32 (n + 1) |>
                                <| all_max_fd ::= fun m => Z.max m sock |> |>
    <| zt_stats ::= count_opened protocol |>.

(** The new descriptor goes to a connection without one. *)
Lemma inv_open Q X s s' protocol fd p c c' :
  inv Q X ∅ s -> 0 <= fd < FD_SETSIZE -> fd ∉ open_fds (ts_sys s) ->
  num_open_sockets (zt_stats (ts_tun s)) < MAX_NUM_SOCKETS ->
  heap s !! p = Some c -> zc_sock c = INVALID_SOCKET -> zc_sock c' = fd -> conn_good X ∅ p c' ->
  zc_user_data c' = zc_user_data c -> (zc_status c' < CONN_STATUS_CLOSED -> zc_status c < CONN_STATUS_CLOSED) ->
  user_inv (opens (heap s')) L (ts_user s') -> kernel_ok (ts_sys s') ->
  ts_tun s' = (opened protocol fd (ts_tun s)) <| zt_heap ::= <[p := c']> |> ->
  open_fds (ts_sys s') = {[fd]} ∪ open_fds (ts_sys s) ->
  inv Q X ∅ s'.
Proof.
  intros [Hc (owner & Ho & Hn & Hle & Hall & Hw & Hb & Hop & Hfd) (Hnd & Hin & Hdom & Hnx) Ht Hl _ _].
  intros Hr Hfresh Hlt Hp Hs Hs' Hg Hd Hst Hu Hk Et Ek. split; rewrite ?Et; simpl.
  - intros q d. rewrite lookup_insert_Some. intros [[<- <-]|[Hne Hq]]; [done|by apply Hc].
  - assert (owner !! fd = None) as Hnone.
    { apply not_elem_of_dom. rewrite Hop in Hfresh. set_solver. }
    assert (fd <> INVALID_SOCKET) by (unfold INVALID_SOCKET; lia).
    exists (<[fd := p]> owner). rewrite Et, Ek. simpl. rewrite count_opened_open, count_opened_max. simpl.
    rewrite map_size_insert_None, Hn, dom_insert_L, Hop by done. unfold MAX_NUM_SOCKETS in *.
    split_and!; [by eapply owns_insert_eq|rewrite u32_small; lia|lia|set_solver..| |set_solver|].
    + rewrite Hop in Hfresh. set_solver.
    + intros fd' [->%elem_of_singleton|Hin']%elem_of_union; [lia|]. apply Hfd in Hin'. lia.
  - unfold table_ok. simpl. rewrite dom_insert_L, Hdom. split_and!; try done.
    assert (p ∈ Q) by (rewrite <- Hdom; by eapply elem_of_dom_2). set_solver.
  - destruct Ht. by split.
  - by eapply live_insert.
  - by rewrite Et in Hu.
  - done.
Qed.

Lemma wp_open {A} Q X protocol (k : Z -> M state A) R s :
  inv Q X ∅ s ->
  (forall s', inv Q X ∅ s' -> heap s' = heap s -> wp (k INVALID_SOCKET) R s') ->
  (forall fd s',
     fd <> INVALID_SOCKET -> heap s' = heap s ->
     (forall p c c', heap s !! p = Some c -> zc_sock c = INVALID_SOCKET -> zc_sock c' = fd -> conn_good X ∅ p c' ->
        zc_user_data c' = zc_user_data c -> (zc_status c' < CONN_STATUS_CLOSED -> zc_status c < CONN_STATUS_CLOSED) ->
        inv Q X ∅ (set_tun (fun t => t <| zt_heap ::= <[p := c']> |>) s')) ->
     wp (k fd) R s') ->
  wp (open_socket protocol ≫= k) R s.
Proof.
  intros Hs Hbad Hok. wp_step. unfold open_socket. wp_step. apply wp_gets.
  destruct (Z.geb_spec (num_open_sockets (zt_stats (ts_tun s))) MAX_NUM_SOCKETS); [apply wp_ret; by apply Hbad|].
  wp_step. apply wp_sys.
  assert (kernel_ok (sys_socket (ts_sys s)).2) as Hk.
  { eapply kernel_ok_tail; [apply Hs|]. unfold sys_socket, next_sys. by destruct (_ =? 0). }
  destruct (sys_socket (ts_sys s)) as [[err|fd] k1] eqn:Esock; simpl in *.
  { apply wp_ret. apply Hbad; [|done]. apply inv_sys; [done|].
    unfold sys_socket, next_sys in Esock. destruct (_ =? 0); [done|]. by injection Esock as _ <-. }
  destruct (sys_socket_fresh _ _ _ Esock) as (Hge & Hfresh & Efds).
  destruct (Z.geb_spec fd FD_SETSIZE).
  { wp_step. apply wp_sys. apply wp_ret. apply Hbad; [|done].
    eapply inv_kept; [exact Hs|by split|done| |by eapply kernel_ok_tail].
    simpl. rewrite Efds. set_solver. }
  wp_step. unfold wp at 1, callback. simpl.
  pose proof (on_socket_open_safe _ _ fd _ (inv_usr _ _ _ _ _ _ Hs)) as Hw. unfold wp in Hw.
  destruct (on_socket_open fd (ts_user s)) as [[a u]|]; [|done].
  wp_step. unfold on_tun. wp_step. apply wp_ret.
  apply Hok; [unfold INVALID_SOCKET; lia|done|]. intros p c c' Hp Hsk Hsk' Hg Hd Hst.
  eapply inv_open; [exact Hs| |exact Hfresh|done|exact Hp|done|exact Hsk'|done|exact Hd|exact Hst| |exact Hk|done|done]; [lia|].
  eapply user_inv_mono; [exact Hw|by eapply opens_insert|done|]. etrans; [by eapply opens_insert|apply (inv_live _ _ _ _ _ _ Hs)].
Qed.

(** ** Rules for the handlers *)
Lemma conn_good_status X N p c st :
  conn_good X N p c -> CONN_STATUS_NEW < st < CONN_STATUS_CLOSED -> conn_good X N p (c <| zc_status := st |>).
Proof.
  intros ([] & _ & _ & Hno) Hst. split; [by split|]. simpl. split; [lia|]. split; [lia|done].
Qed.

Section keeps.
Context (Q X N : gset zconn_ptr) (p : zconn_ptr) (Hlive : p ∈ dom L) (Hp : p ∈ Q).
Abbreviation keeps := (ZdtunInv.keeps (U:=U) (D:=D) base L Q X N).
#[local] Hint Resolve keeps_zderef keeps_sock_ipver keeps_now keeps_sndbuf keeps_build_reply_tcpip
  keeps_close keeps_send keeps_socket_error : keeps.

Lemma keeps_mss_bind {A} (k : Z -> M state A) :
  (forall m, 0 <= m <= max_mss -> keeps (k m)) -> keeps (default_mss p ≫= k).
Proof.
  intros Hk s Hs. wp_step. unfold default_mss. wp_step. apply wp_gets. wp_step.
  eapply wp_mono; [by apply keeps_sock_ipver|]. intros ver s' Hs'. cbv beta in Hs'. wp_step.
  apply Hk; [|done]. pose proof (to_mtu _ (inv_tun _ _ _ _ _ _ Hs)).
  unfold TCP_HEADER_LEN, IPV4_HEADER_LEN, IPV6_HEADER_LEN, max_mss. destruct (_ =? 4); rewrite u16_small; lia.
Qed.

Lemma keeps_send_syn_ack : keeps (send_syn_ack p).
Proof.
  unfold send_syn_ack. apply keeps_iphdr_bind; [done|]. intros l Hl. apply keeps_mss_bind. intros m Hm.
  keeps_step. keeps_step.
  { apply keeps_put; [unfold TCP_HEADER_LEN; lia| |].
    - autorewrite with blen. unfold TCP_HEADER_LEN, REPLY_BUF_SIZE. lia.
    - destruct Hg as ([] & _). unfold max_scale in *. wf. }
  keeps_steps.
Qed.

Lemma keeps_socks5_send msg next : keeps (socks5_send p msg next).
Proof. unfold socks5_send. keeps_steps. Qed.

Lemma keeps_socks5_connect : keeps (socks5_connect p).
Proof. unfold socks5_connect. keeps_step. apply keeps_socks5_send. Qed.

Lemma keeps_socks5_req : keeps (socks5_req p).
Proof. unfold socks5_req. keeps_step. apply keeps_socks5_send. Qed.

Lemma keeps_socks5_fail : keeps (socks5_fail p).
Proof. unfold socks5_fail. keeps_steps. Qed.

Lemma keeps_socks5_skip len : keeps (socks5_skip_bnd p len).
Proof. unfold socks5_skip_bnd. keeps_steps. apply keeps_socks5_fail. Qed.

Lemma keeps_rd8_bind {A} data off (k : Z -> M state A) :
  0 <= off < blen data -> (forall v, keeps (k v)) -> keeps (of_option (rd8 data off) ≫= k).
Proof. intros Ho Hk. destruct (rd8_Some data off Ho) as [v Ev]. by eapply keeps_option_bind. Qed.

Lemma keeps_socks5_connect_reply data : keeps (socks5_connect_reply p data).
Proof.
  unfold socks5_connect_reply. cbv zeta. destruct (Z.ltb_spec (blen data) 4); [apply keeps_socks5_fail|].
  apply keeps_rd8_bind; [lia|]. intros ver. destruct (negb _); [apply keeps_socks5_fail|].
  apply keeps_rd8_bind; [lia|]. intros st. destruct (negb (st =? 0)).
  { destruct (_ || _); [keeps_steps|]. destruct (st =? 5); keeps_steps. }
  apply keeps_rd8_bind; [lia|]. intros ty. destruct (negb _); [apply keeps_socks5_fail|].
  keeps_step; [keeps_steps|]. destruct (_ >? 4); [apply keeps_socks5_skip|apply tun_keeps_ret].
Qed.

Lemma wp_socks5_auth s :
  inv Q X N s -> is_Some (socks5_user (ts_tun s)) -> wp (socks5_auth p) (fun _ => inv Q X N) s.
Proof.
  intros Hs [user Eu]. destruct (to_auth _ (inv_tun _ _ _ _ _ _ Hs)) as [pass Ep]; [eauto|].
  unfold socks5_auth. wp_step. apply wp_gets. wp_step. eapply wp_of_option; [exact Eu|]. wp_step. apply wp_gets.
  wp_step. eapply wp_of_option; [exact Ep|]. by apply keeps_socks5_send.
Qed.

Lemma keeps_handle_socks5_reply data : keeps (handle_socks5_reply p data).
Proof.
  unfold handle_socks5_reply. keeps_step. destruct (zc_socks5_status c).
  - destruct (Z.eqb_spec (blen data) 2); simpl; [|apply keeps_socks5_fail].
    apply keeps_rd8_bind; [lia|]. intros ver. destruct (negb _); [apply keeps_socks5_fail|].
    apply keeps_rd8_bind; [lia|]. intros cauth s Hs. wp_step. apply wp_gets.
    destruct (cauth =? 0); [by apply keeps_socks5_req|].
    destruct (socks5_user (ts_tun s)) as [user|] eqn:Eu; [|rewrite andb_false_r; by apply keeps_socks5_fail].
    destruct (cauth =? 2); [|by apply keeps_socks5_fail]. apply wp_socks5_auth; eauto.
  - destruct (Z.ltb_spec (blen data) 2); [apply keeps_socks5_fail|].
    apply keeps_rd8_bind; [lia|]. intros ver. apply keeps_rd8_bind; [lia|]. intros st.
    destruct (_ || _); [apply keeps_socks5_fail|apply keeps_socks5_req].
  - apply keeps_socks5_connect_reply.
  - apply keeps_socks5_skip.
  - apply keeps_socks5_fail.
Qed.

Lemma keeps_fin_ack : keeps (tcp_socket_fin_ack p).
Proof. unfold tcp_socket_fin_ack. keeps_steps. Qed.

Lemma keeps_fill : keeps (fill_conn_sockaddr p).
Proof.
  unfold fill_conn_sockaddr. keeps_step; [keeps_steps|]. keeps_step. keeps_step; [|apply tun_keeps_ret].
  destruct (zc_proxy_mode c) eqn:E; keeps_steps. destruct Hg as ([_ Hd _ _ _ _] & _). destruct (Hd E) as [px Hpx].
  eapply keeps_option_bind; [exact Hpx|apply tun_keeps_ret].
Qed.

Lemma keeps_send_ack : keeps (send_ack p).
Proof. unfold send_ack. keeps_steps. Qed.
End keeps.

(** *** Steps that keep the socket of a connection *)
Definition sock_of p s : option Z := zc_sock <$> heap s !! p.

Lemma wp_same_bind {A B Y} (f : state -> Y) Q X N (m : M state A) (k : A -> M state B) R s :
  keeps base L Q X N m -> preserves f m -> inv Q X N s ->
  (forall a s', inv Q X N s' -> f s' = f s -> wp (k a) R s') -> wp (m ≫= k) R s.
Proof.
  intros Hk Hm Hs HR. wp_step. eapply wp_mono; [apply (wp_preserves f); [exact Hm|by apply Hk]|].
  intros a s' [Hs' E]. by apply HR.
Qed.

Lemma wp_kept_bind {A B} Q X N p (m : M state A) (k : A -> M state B) R s :
  keeps base L Q X N m -> preserves (sock_of p) m -> inv Q X N s ->
  (forall a s', inv Q X N s' -> sock_of p s' = sock_of p s -> wp (k a) R s') -> wp (m ≫= k) R s.
Proof.
  apply wp_same_bind.
Qed.

Lemma wp_keeps_bind {A B} Q X N (m : M state A) (k : A -> M state B) R s :
  keeps base L Q X N m -> inv Q X N s -> (forall a s', inv Q X N s' -> wp (k a) R s') -> wp (m ≫= k) R s.
Proof. intros Hk Hs HR. wp_step. eapply wp_mono; [by apply Hk|]. intros a s' Hs'. by apply HR. Qed.

Lemma sock_of_Some p s fd : sock_of p s = Some fd -> exists c, heap s !! p = Some c /\ zc_sock c = fd.
Proof. unfold sock_of. intros (c & Ec & ->)%fmap_Some. eauto. Qed.

Lemma pres_sys {A Y} (g : state -> Y) (f : kernel -> A * kernel) :
  (forall s k, g (s <| ts_sys := k |>) = g s) -> preserves g (sys f).
Proof. intros Hg s a s'. unfold sys. destruct (f _). intros [= _ <-]. apply Hg. Qed.

Lemma pres_callback {A Y} (g : state -> Y) (m : M U A) :
  (forall s u, g (s <| ts_user := u |>) = g s) -> preserves g (callback m).
Proof. intros Hg s a s'. unfold callback. destruct (m _) as [[? ?]|]; [|done]. intros [= _ <-]. apply Hg. Qed.

Lemma pres_sock_modify p q f : (forall c, zc_sock (f c) = zc_sock c) -> preserves (sock_of p) (modify_zconn q f).
Proof.
  intros Hf s a s' E. unfold modify_zconn, zderef, on_tun, tun_get, mbind, M_bind, gets, of_option, modify in E.
  destruct (heap s !! q) as [c|] eqn:Eq; [|done]. injection E as _ <-. unfold sock_of. simpl.
  destruct (decide (q = p)) as [->|]; [|by rewrite lookup_insert_ne].
  by rewrite lookup_insert_eq, Eq; simpl; rewrite Hf.
Qed.

Lemma inv_add_fd Q X N s p fd (all write : bool) :
  inv Q X N s -> sock_of p s = Some fd -> fd <> INVALID_SOCKET ->
  inv Q X N (set_tun (fun t => t <| all_fds ::= fun fds => if all then {[fd]} ∪ fds else fds |>
                                 <| write_fds ::= fun fds => if write then {[fd]} ∪ fds else fds |>) s).
Proof.
  intros [Hc (owner & Ho & Hn & Hle & Hall & Hw & Hb & Hop & Hfd) Ht Hok ? ? ?] Hp Hs.
  destruct (sock_of_Some _ _ _ Hp) as (c & Hpc & Hsk).
  assert (fd ∈ dom owner) by (apply elem_of_dom; exists p; apply Ho; eauto).
  split; [done| |done|by destruct Hok|done..]. exists owner. split_and!; try done; simpl.
  - destruct all; set_solver.
  - destruct write; set_solver.
Qed.
End handlers.
Ltac pres_sock :=
  repeat lazymatch goal with
  | |- preserves _ (sys _) => apply pres_sys; done
  | |- preserves _ (callback _) => apply pres_callback; done
  | |- preserves _ (modify_zconn _ _) => apply pres_sock_modify; done
  | |- preserves _ ?m =>
      first [progress preserves_step
            |progress unfold tcp_rd8, tcp_rd16, tcp_rd32, fill_conn_sockaddr, sock_ipver, zderef, tun_get, default_mss]
  end.

(** *** What the parser promises of the packets of the client *)
Record l4_ok (pkt : zdtun_pkt) : Prop := {
  lo_buf : wf_bytes (pkt_buf pkt);
  lo_ip : 0 <= ip_hdr_len pkt;
  lo_l4 : 0 <= l4_hdr_len pkt;
  lo_l7 : 0 <= l7_len pkt;
  lo_len : l7_off pkt + l7_len pkt <= blen (pkt_buf pkt);
  lo_u16 : l7_off pkt + l7_len pkt < 2 ^ 16
}.
Definition tcp_ok (pkt : zdtun_pkt) : Prop := ip_hdr_len pkt + TCP_HEADER_LEN <= blen (pkt_buf pkt).

(** The options of a SYN are inside of the buffer and give an MSS and a scale
    that the engine can use. *)
Definition syn_ok (pkt : zdtun_pkt) : Prop :=
  forall off mss0, rd8 (pkt_buf pkt) (ip_hdr_len pkt + 12) = Some off -> 0 <= mss0 <= max_mss ->
  exists mss scale,
    parse_tcp_opts (length (pkt_buf pkt)) (pkt_buf pkt) (ip_hdr_len pkt + TCP_HEADER_LEN)
      (u8 (Z.shiftr off 4 * 4 - TCP_HEADER_LEN)) mss0 0 = Some (mss, scale) /\
    0 <= mss <= max_mss /\ 0 <= scale <= max_scale.

Section tcp.
Context {U D : Type} `{SafeCallbacks U D} (base : gset Z) (L : gmap zconn_ptr (option D)).
Abbreviation state := (tun_state U D).
Abbreviation zconn := (zdtun_conn D).
Implicit Types (s : state) (p : zconn_ptr) (c : zconn) (N X Q : gset zconn_ptr).
Abbreviation heap s := (zt_heap (ts_tun s)).
Abbreviation inv := (ZdtunInv.inv (U:=U) (D:=D) base L).
#[local] Hint Resolve keeps_zderef keeps_sock_ipver keeps_now keeps_sndbuf keeps_build_reply_tcpip
  keeps_close keeps_send keeps_socket_error keeps_send_syn_ack keeps_socks5_connect keeps_socks5_fail
  keeps_handle_socks5_reply keeps_fin_ack keeps_fill keeps_send_ack : keeps.

(** *** The server accepts *)
Lemma wp_tcp_socket_syn Q X N p c s :
  inv Q X N s -> heap s !! p = Some c -> zc_status c < CONN_STATUS_CLOSED ->
  wp (tcp_socket_syn p) (fun _ => inv Q (X ∖ {[p]}) N) s.
Proof.
  intros Hs Hc Hst. pose proof (inv_open_live _ _ _ _ _ _ _ _ Hs Hc Hst) as Hlive. pose proof (in_dom _ _ _ _ _ _ _ _ Hs Hc) as Hp.
  unfold tcp_socket_syn. wp_step. eapply wp_zderef; [done|].
  eapply (wp_same_bind base L (fun s => heap s)); [apply keeps_on_tun; kept|unfold on_tun; by apply preserves_modify|exact Hs|].
  intros _ s1 Hs1 E1. cbv beta in E1. rewrite <- E1 in Hc. pose proof (inv_conns _ _ _ _ _ _ Hs1 p c Hc) as Hg1.
  wp_step. eapply wp_modify_zconn; [done|].
  assert (keeps base L Q (X ∖ {[p]}) N
    (if decide (zc_proxy_mode c = PROXY_SOCKS5) then socks5_connect p else send_syn_ack p : M state Z)) as Hk.
  { destruct (decide _); auto with keeps. }
  apply Hk. eapply inv_modify; [exact Hs1|exact Hc| | |apply subset_minus|set_solver].
  - by split_and!.
  - pose proof (conn_good_status X N p c CONN_STATUS_CONNECTED Hg1 ltac:(done)) as (? & ? & _ & ?). by split_and!.
Qed.

(** An open socket is that of an open connection. *)
Lemma sock_open Q X N s p fd :
  inv Q X N s -> sock_of p s = Some fd -> fd <> INVALID_SOCKET ->
  exists c, heap s !! p = Some c /\ zc_sock c = fd /\ zc_status c < CONN_STATUS_CLOSED.
Proof.
  intros Hs Hsk Hfd. destruct (sock_of_Some _ _ _ Hsk) as (c & Hc & Ec). exists c. split_and!; [done|done|].
  destruct (inv_conns _ _ _ _ _ _ Hs p c Hc) as (_ & Hcl & _). destruct (Z.lt_ge_cases (zc_status c) CONN_STATUS_CLOSED); [done|].
  exfalso. apply Hfd. rewrite <- Ec. auto.
Qed.

(** *** Data of the client *)
Lemma wp_enqueue Q X N p buf flags c s :
  inv Q X N s -> heap s !! p = Some c -> zc_sock c <> INVALID_SOCKET -> blen buf < 2 ^ 16 ->
  wp (enqueue_tcp_data p buf flags) (fun _ => inv Q X N) s.
Proof.
  intros Hs Hc Hsk Hl. assert (p ∈ Q) as Hp.
  { pose proof (inv_table _ _ _ _ _ _ Hs) as (_ & _ & <- & _). by eapply elem_of_dom_2. }
  unfold enqueue_tcp_data. wp_step. apply wp_sys. destruct (sys_get _).1.
  { assert (keeps base L Q X N (zdtun_conn_close p CONN_STATUS_ERROR;; mret (-1) : M state Z)) as Hk by keeps_steps.
    apply Hk. by apply inv_sys. }
  pose proof (inv_conns _ _ _ _ _ _ Hs p c Hc) as ([] & ? & ? & ?).
  wp_step. eapply wp_zderef; [done|]. wp_step. eapply wp_modify_zconn; [done|].
  wp_step. unfold on_tun. wp_step. apply wp_ret.
  eapply (inv_add_fd base L Q X N (set_tun _ _) p _ false true); [|by unfold sock_of; simpl; rewrite lookup_insert_eq|done].
  eapply inv_modify; [apply inv_sys; [exact Hs|done]|exact Hc|done| |set_solver..]. split; [|done]. split; try done.
  simpl. apply Forall_app. split; [done|]. constructor; [|done]. unfold item_ok. simpl. pose proof (blen_nonneg buf). lia.
Qed.

(** *** The SYN of the client *)
Lemma keeps_tcp_rd8 Q X N pkt off :
  0 <= ip_hdr_len pkt + off < blen (pkt_buf pkt) -> keeps base L Q X N (tcp_rd8 pkt off : M state Z).
Proof. intros Ho. unfold tcp_rd8. destruct (rd8_Some _ _ Ho) as [v ->]. apply tun_keeps_ret. Qed.

Lemma tcp_fields pkt :
  l4_ok pkt -> tcp_ok pkt ->
  (exists off, rd8 (pkt_buf pkt) (ip_hdr_len pkt + 12) = Some off) /\
  (exists flags, rd8 (pkt_buf pkt) (ip_hdr_len pkt + 13) = Some flags) /\
  (exists seq, rd32 (pkt_buf pkt) (ip_hdr_len pkt + 4) = Some seq) /\
  (exists ack, rd32 (pkt_buf pkt) (ip_hdr_len pkt + 8) = Some ack) /\
  (exists win, rd16 (pkt_buf pkt) (ip_hdr_len pkt + 14) = Some win /\ 0 <= win < 2 ^ 16).
Proof.
  unfold tcp_ok, TCP_HEADER_LEN. intros [] Ht. split_and!.
  - apply rd8_Some. lia.
  - apply rd8_Some. lia.
  - apply rd32_Some; lia.
  - apply rd32_Some; lia.
  - destruct (rd16_Some (pkt_buf pkt) (ip_hdr_len pkt + 14)) as [win Ew]; [lia..|]. exists win. split; [done|].
    by eapply rd16_range.
Qed.

Lemma wp_option_bind {A B} (o : option A) a (k : A -> M state B) R s :
  o = Some a -> wp (k a) R s -> wp (of_option o ≫= k) R s.
Proof. intros -> HR. by wp_step. Qed.

(** The part after the options: the connection to the server. *)
Lemma wp_tcp_fwd_connect Q X N p seq fd addr s :
  inv Q X N s -> p ∈ Q -> sock_of p s = Some fd -> fd <> INVALID_SOCKET ->
  wp (r ← sys (sys_connect fd addr);
      match r with
      | inl err =>
          if err =? EINPROGRESS then
            seq ← of_option (Some seq);
            modify_zconn p (fun c => c <| client_seq := u32 (ntohl seq + 1) |> <| zdtun_seq := 0x77EB77EB |>);;
            modify_zconn p (fun c => c <| zc_status := CONN_STATUS_CONNECTING |>);;
            on_tun (fun t => t <| write_fds ::= fun fds => {[fd]} ∪ fds |>);;
            mret 0
          else close_with_socket_error p err;; mret 0
      | inr _ =>
          seq ← of_option (Some seq);
          modify_zconn p (fun c => c <| client_seq := u32 (ntohl seq + 1) |> <| zdtun_seq := 0x77EB77EB |>);;
          tcp_socket_syn p
      end) (fun _ => inv Q (X ∖ {[p]}) N) s.
Proof.
  intros Hs Hp Hsk Hfd.
  eapply (wp_kept_bind base L _ _ _ p); [apply keeps_sys; auto with sysfds|pres_sock|exact Hs|].
  intros r s1 Hs1 E1. rewrite <- E1 in Hsk. clear E1 Hs s.
  assert (keeps base L Q X N (modify_zconn p (fun c => c <| client_seq := u32 (ntohl seq + 1) |> <| zdtun_seq := 0x77EB77EB |>) : M state unit)) as Hmod
    by (apply keeps_modify; [done|good]).
  destruct r as [err|[]].
  - destruct (err =? EINPROGRESS).
    + eapply wp_option_bind; [done|]. eapply (wp_kept_bind base L _ _ _ p); [exact Hmod|pres_sock|exact Hs1|].
      intros _ s2 Hs2 E2. rewrite <- E2 in Hsk. destruct (inv_lookup _ _ _ _ _ _ _ Hs2 Hp) as (c & Hc & Hg).
      destruct (sock_open _ _ _ _ _ _ Hs2 Hsk Hfd) as (c' & Hc' & _ & Hst). simplify_eq.
      wp_step. eapply wp_modify_zconn; [done|]. wp_step. unfold on_tun. wp_step. apply wp_ret.
      eapply (inv_add_fd base L Q _ N (set_tun _ _) p fd false true); [| |done].
      * eapply inv_modify; [exact Hs2|exact Hc|by split_and!| |apply subset_minus|set_solver].
        pose proof (conn_good_status X N p c CONN_STATUS_CONNECTING Hg ltac:(done)) as (? & ? & _ & ?).
        by split_and!.
      * unfold sock_of in *. simpl. rewrite lookup_insert_eq. simpl. by rewrite Hc in Hsk.
    + unfold close_with_socket_error. destruct (socket_error_status err).
      wp_step. wp_step. eapply wp_mono; [by apply wp_close|].
      intros [] s2 Hs2. wp_step. wp_step. apply wp_ret. eapply inv_weaken; [exact Hs2|set_solver..].
  - eapply wp_option_bind; [done|]. eapply (wp_kept_bind base L _ _ _ p); [exact Hmod|pres_sock|exact Hs1|].
    intros _ s2 Hs2 E2. rewrite <- E2 in Hsk. destruct (sock_open _ _ _ _ _ _ Hs2 Hsk Hfd) as (c & Hc & _ & Hst).
    by eapply wp_tcp_socket_syn.
Qed.

Lemma wp_tcp_fwd_new Q X pkt p c s :
  inv Q X ∅ s -> heap s !! p = Some c -> zc_status c = CONN_STATUS_NEW -> zc_sock c = INVALID_SOCKET ->
  p ∈ X -> l4_ok pkt -> tcp_ok pkt -> syn_ok pkt ->
  wp (tcp_fwd_new pkt p) (fun _ => inv Q (X ∖ {[p]}) ∅) s.
Proof.
  intros Hs Hc Hnew Hsk HpX Hl4 Htcp Hsyn.
  assert (p ∈ dom L) as Hlive by (eapply inv_open_live; [exact Hs|exact Hc|by rewrite Hnew]).
  pose proof (in_dom _ _ _ _ _ _ _ _ Hs Hc) as Hp.
  destruct (tcp_fields pkt Hl4 Htcp) as ([off Eoff] & _ & [seq Eseq] & _ & (win & Ewin & Hwin)).
  unfold tcp_fwd_new. pose proof (inv_conns _ _ _ _ _ _ Hs p c Hc) as ([] & _ & HX & _).
  eapply (wp_open base L); [exact Hs| |].
  { intros s1 Hs1 E1. rewrite Z.eqb_refl. wp_step. rewrite <- E1 in Hc. eapply wp_modify_zconn; [done|]. apply wp_ret.
    eapply inv_modify; [exact Hs1|exact Hc|done| |apply subset_minus|set_solver]. split; [by split|]. by split_and!. }
  intros fd s1 Hfd E1 Hopen. apply Z.eqb_neq in Hfd as Hfd'. rewrite Hfd'. clear Hfd'.
  pose proof Hc as Hc1. rewrite <- E1 in Hc1. wp_step. eapply wp_modify_zconn; [done|]. cbv beta.
  set (s2 := set_tun _ s1).
  assert (inv Q X ∅ s2) as Hs2.
  { eapply Hopen; [exact Hc|done|done| |done|done]. split; [by split|]. split_and!; [|by left|done].
    simpl. rewrite Hnew. intros E. exfalso. by apply E. }
  assert (sock_of p s2 = Some fd) as Hsk2 by (unfold sock_of; simpl; by rewrite lookup_insert_eq).
  clearbody s2. clear Hopen Hs Hc Hc1 E1 s s1.
  eapply (wp_kept_bind base L _ _ _ p); [by apply keeps_fill|pres_sock|exact Hs2|]. intros addr s3 Hs3 E3.
  rewrite <- E3 in Hsk2. clear E3 Hs2 s2. destruct (inv_lookup _ _ _ _ _ _ _ Hs3 Hp) as (d & Hd & Hgd).
  wp_step. eapply wp_zderef; [done|]. wp_step. eapply wp_account; [exact Hs3|exact Hd|done|]. intros _ u Hs4.
  set (s4 := s3 <| ts_user := u |>) in *. change (sock_of p s3) with (sock_of p s4) in Hsk2. clearbody s4. clear Hs3 Hd s3.
  unfold tcp_rd8, tcp_rd16, tcp_rd32. eapply wp_option_bind; [exact Eoff|].
  wp_step. unfold default_mss at 1. wp_step. apply wp_gets.
  pose proof (to_mtu _ (inv_tun _ _ _ _ _ _ Hs4)) as Hmtu.
  eapply (wp_kept_bind base L _ _ _ p); [by apply keeps_sock_ipver|pres_sock|exact Hs4|].
  intros ver s5 Hs5 E5. rewrite <- E5 in Hsk2. clear E5. wp_step.
  destruct (Hsyn off (u16 (mtu (ts_tun s4) - TCP_HEADER_LEN - (if ver =? 4 then IPV4_HEADER_LEN else IPV6_HEADER_LEN))))
    as (mss & scale & Eopts & Hmss & Hscale); [done| |].
  { unfold TCP_HEADER_LEN, IPV4_HEADER_LEN, IPV6_HEADER_LEN, max_mss. destruct (ver =? 4); rewrite u16_small; lia. }
  eapply wp_option_bind; [exact Eopts|]. cbv beta iota. eapply wp_option_bind; [exact Ewin|].
  pose proof (swap16_range win) as Hw. destruct (shl_s32_ok (ntohs win) scale Hw Hscale) as (w & Ew & Hw0).
  eapply wp_option_bind; [exact Ew|].
  eapply (wp_kept_bind base L _ _ _ p); [|pres_sock|exact Hs5|].
  { apply keeps_modify; [done|]. intros e ([] & ? & ? & ?). split; [|done]. by split. }
  intros _ s6 Hs6 E6. rewrite <- E6 in Hsk2. rewrite Eseq. by apply wp_tcp_fwd_connect.
Qed.

(** *** The packets of an established connection *)
(** The rule for the operations that need the socket of the connection. *)
Lemma wp_update_window Q X N pkt p c s :
  inv Q X N s -> heap s !! p = Some c -> zc_sock c <> INVALID_SOCKET -> l4_ok pkt -> tcp_ok pkt ->
  wp (update_window pkt p) (fun _ s' => inv Q X N s' /\ sock_of p s' = Some (zc_sock c)) s.
Proof.
  intros Hs Hc Hsk Hl4 Htcp. destruct (tcp_fields pkt Hl4 Htcp) as (_ & _ & _ & [ack Eack] & (win & Ewin & Hwin)).
  pose proof (inv_conns _ _ _ _ _ _ Hs p c Hc) as ([] & ? & ? & ?).
  unfold update_window, tcp_rd32, tcp_rd16. eapply wp_option_bind; [exact Eack|].
  wp_step. eapply wp_zderef; [done|]. eapply wp_option_bind; [exact Ewin|].
  destruct (shl_s32_ok (ntohs win) (window_scale c) (swap16_range win) co_scale) as (w & Ew & Hw0).
  eapply wp_option_bind; [exact Ew|]. cbv zeta. set (wsize := u32 _).
  wp_step. eapply wp_modify_zconn; [done|]. cbv beta. set (s1 := set_tun _ s).
  assert (inv Q X N s1) as Hs1.
  { eapply inv_modify; [exact Hs|exact Hc|done| |set_solver..]. split; [|done]. split; try done.
    simpl. subst wsize. apply u32_range. }
  assert (sock_of p s1 = Some (zc_sock c)) as Hsk1 by (unfold sock_of; simpl; by rewrite lookup_insert_eq).
  wp_step. apply wp_gets. wp_step; [|by split]. unfold on_tun. wp_step. split; [|done].
  by apply (inv_add_fd base L Q X N s1 p _ true false).
Qed.

Lemma keeps_fwd_fin Q X N pkt p : p ∈ dom L -> p ∈ Q -> keeps base L Q X N (tcp_fwd_fin pkt p : M state Z).
Proof. intros Hlive Hp. unfold tcp_fwd_fin. keeps_steps. Qed.

Lemma payload_ok pkt : l4_ok pkt -> exists payload, rdn (pkt_buf pkt) (l7_off pkt) (l7_len pkt) = Some payload /\ blen payload = l7_len pkt.
Proof.
  intros []. unfold rdn, l7_off in *.
  destruct (Z.ltb_spec (ip_hdr_len pkt + l4_hdr_len pkt) 0), (Z.ltb_spec (l7_len pkt) 0),
    (Z.ltb_spec (blen (pkt_buf pkt)) (ip_hdr_len pkt + l4_hdr_len pkt + l7_len pkt)); simpl; try lia.
  eexists; split; [done|]. apply blen_slice; lia.
Qed.

Lemma wp_tcp_fwd_data Q X N pkt p flags fd s :
  inv Q X N s -> p ∈ dom L -> sock_of p s = Some fd -> l4_ok pkt ->
  wp (if l7_len pkt >? 0 then
        c ← zderef p;
        if zc_sock c =? INVALID_SOCKET then
          modify_zconn p (fun c => c <| client_seq ::= fun n => u32 (n + l7_len pkt) |>);;
          send_ack p
        else payload ← pkt_payload pkt; enqueue_tcp_data p payload flags
      else mret 0) (fun _ => inv Q X N) s.
Proof.
  intros Hs Hlive Hsk Hl4. destruct (sock_of_Some _ _ _ Hsk) as (c & Hc & Ec). pose proof (in_dom _ _ _ _ _ _ _ _ Hs Hc) as Hp.
  destruct (_ >? 0); [|by apply wp_ret]. wp_step. eapply wp_zderef; [done|].
  destruct (Z.eqb_spec (zc_sock c) INVALID_SOCKET) as [Ei|Ei].
  - assert (keeps base L Q X N (modify_zconn p (fun c => c <| client_seq ::= fun n => u32 (n + l7_len pkt) |>);; send_ack p : M state Z))
      as Hk by keeps_steps. by apply Hk.
  - destruct (payload_ok pkt Hl4) as (payload & Epl & Hl). unfold pkt_payload. eapply wp_option_bind; [exact Epl|].
    eapply wp_enqueue; [done|exact Hc|done|]. destruct Hl4. unfold l7_off in *. lia.
Qed.

Lemma wp_tcp_fwd_active Q X N pkt p s :
  inv Q X N s -> p ∈ dom L -> p ∈ Q -> l4_ok pkt -> tcp_ok pkt -> wp (tcp_fwd_active pkt p) (fun _ => inv Q X N) s.
Proof.
  intros Hs Hlive Hp Hl4 Htcp. destruct (tcp_fields pkt Hl4 Htcp) as (_ & [flags Eflags] & [seq Eseq] & _).
  destruct (inv_lookup _ _ _ _ _ _ _ Hs Hp) as (c & Hc & Hg). unfold tcp_fwd_active.
  wp_step. eapply wp_zderef; [done|]. wp_step. eapply wp_account; [exact Hs|exact Hc|done|]. clear Hs. intros _ u Hs.
  set (s1 := s <| ts_user := u |>) in *. change (heap s !! p) with (heap s1 !! p) in Hc.
  clearbody s1. clear s. unfold tcp_rd8, tcp_rd32. eapply wp_option_bind; [exact Eflags|].
  eapply wp_option_bind; [exact Eseq|]. cbv zeta.
  set (ka := has_flag flags TH_ACK && _).
  assert (forall A (m : M state A), keeps base L Q X N m -> wp m (fun _ => inv Q X N) s1) as Hkeep by (intros A m Hm; by apply Hm).
  destruct (negb ka && _); [by apply wp_ret|].
  destruct (socks5_in_progress c); [apply Hkeep; keeps_steps|].
  destruct (has_flag flags TH_RST); [apply Hkeep; keeps_steps|].
  destruct (Z.land flags (Z.lor TH_FIN TH_ACK) =? Z.lor TH_FIN TH_ACK); [apply Hkeep; by apply keeps_fwd_fin|].
  wp_step. apply (wp_mono _ (fun rv s' => inv Q X N s' /\ (rv = 0 -> exists fd, sock_of p s' = Some fd))).
  - destruct (Z.eqb_spec (zc_sock c) INVALID_SOCKET) as [Ei|Ei]; simpl.
    { rewrite andb_false_r. apply wp_ret. split; [done|]. intros _. unfold sock_of. rewrite Hc. eauto. }
    destruct (has_flag flags TH_ACK); simpl; [|apply wp_ret; split; [done|]; unfold sock_of; rewrite Hc; eauto].
    destruct ka.
    + eapply wp_keeps_bind; [by apply keeps_send_ack|exact Hs|]. intros rv s2 Hs2. apply wp_ret. split; [done|]. intros _.
      destruct (inv_lookup _ _ _ _ _ _ _ Hs2 Hp) as (d & Hd & _). unfold sock_of. rewrite Hd. eauto.
    + wp_step. eapply wp_mono; [by eapply wp_update_window|]. intros [] s2 [Hs2 Hsk]. apply wp_ret. eauto.
  - intros rv s2 [Hs2 Hsk]. destruct (Z.eqb_spec rv 0) as [E|E]; simpl; [|by apply wp_ret].
    destruct (Hsk E) as [fd Hfd]. by eapply wp_tcp_fwd_data.
Qed.

Lemma wp_handle_tcp_fwd Q pkt p c s :
  inv Q {[p]} ∅ s -> heap s !! p = Some c -> zc_status c < CONN_STATUS_CLOSED ->
  (zc_status c = CONN_STATUS_NEW -> zc_sock c = INVALID_SOCKET) ->
  l4_ok pkt -> tcp_ok pkt -> (zc_status c = CONN_STATUS_NEW -> syn_ok pkt) ->
  wp (handle_tcp_fwd pkt p) (fun _ => inv Q ∅ ∅) s.
Proof.
  intros Hs Hc Hst Hsk Hl4 Htcp Hsyn. destruct (tcp_fields pkt Hl4 Htcp) as (_ & [flags Eflags] & _).
  pose proof (inv_open_live _ _ _ _ _ _ _ _ Hs Hc Hst) as Hlive. pose proof (in_dom _ _ _ _ _ _ _ _ Hs Hc) as Hp. unfold handle_tcp_fwd, tcp_rd8. eapply wp_option_bind; [exact Eflags|].
  destruct (has_flag flags TH_URG).
  { wp_step. eapply wp_mono; [by apply wp_close|]. intros [] s1 Hs1. apply wp_ret.
    eapply inv_weaken; [exact Hs1|set_solver..]. }
  wp_step. eapply wp_zderef; [done|].
  destruct (Z.eqb_spec (zc_status c) CONN_STATUS_NEW) as [En|En].
  - rewrite En. simpl. eapply wp_mono; [eapply wp_tcp_fwd_new; [exact Hs|exact Hc|auto|auto|set_solver|auto..]|].
    intros ? s1 Hs1. eapply inv_weaken; [exact Hs1|set_solver..].
  - assert (inv Q ∅ ∅ s) as Hs0 by (eapply inv_weaken; [by eapply inv_not_new|set_solver..]).
    destruct (_ =? CONN_STATUS_CONNECTING); [by apply wp_ret|]. by apply wp_tcp_fwd_active.
Qed.

(** *** The socket is ready *)
#[local] Hint Resolve keeps_fwd_fin : keeps.

Lemma recv_limit fd n data k k' :
  kernel_ok k -> n <= REPLY_BUF_SIZE -> sys_recv fd n k = (inr data, k') -> blen data <= reply_limit.
Proof.
  intros Hk Hn. unfold sys_recv, next_sys. destruct (oc_err _ =? 0); [|done]. intros [= <- _].
  assert (Z.min (blen (oc_data (default success (head (outcomes k))))) REPLY_BUF_SIZE <= reply_limit) as Hle.
  { unfold kernel_ok in Hk. destruct (outcomes k); [apply reply_limit_nonneg|]. by apply Forall_cons in Hk as [? _]. }
  pose proof reply_limit_nonneg. unfold blen in *. rewrite length_fmap, length_take. lia.
Qed.

(** What is received of a server. *)
Definition received (n : Z) (data : bytes) : Prop :=
  blen data <= n /\ blen data <= reply_limit /\ wf_bytes data.

Lemma keeps_recv_bind {A} Q X N fd n (k : Z + bytes -> M state A) :
  0 <= n <= REPLY_BUF_SIZE -> (forall r, (forall data, r = inr data -> received n data) -> keeps base L Q X N (k r)) ->
  keeps base L Q X N (sys (sys_recv fd n) ≫= k).
Proof.
  intros Hn Hk s Hs. wp_step. apply wp_sys. apply Hk; [|apply inv_sys; [done|apply sys_recv_fds]].
  intros data E. destruct (sys_recv fd n (ts_sys s)) as [r k'] eqn:Er. simpl in E. subst r.
  destruct (sys_recv_bounds _ _ _ _ _ (proj1 Hn) Er). split_and!; [done| |done].
  eapply recv_limit; [apply Hs|apply Hn|exact Er].
Qed.

Lemma keeps_server_closed Q X N p : p ∈ dom L -> p ∈ Q -> keeps base L Q X N (tcp_server_closed p : M state Z).
Proof.
  intros Hlive Hp. unfold tcp_server_closed. keeps_step. keeps_step; [keeps_steps|].
  intros s Hs. destruct (inv_lookup _ _ _ _ _ _ _ Hs Hp) as (d & Hd & _). wp_step. eapply wp_zderef; [done|].
  eapply wp_shut; [exact Hs|exact Hd|]. intros s1 Hs1 _.
  assert (keeps base L Q X ({[p]} ∪ N) (when (client_closed d) (zdtun_conn_close p CONN_STATUS_CLOSED);; mret 0 : M state Z)) as Hk
    by keeps_steps.
  eapply wp_mono; [by apply Hk|]. intros rv s2 Hs2. eapply inv_weaken; [exact Hs2|set_solver..].
Qed.

Lemma keeps_server_data Q X N p l4_len :
  p ∈ dom L -> p ∈ Q -> sendable (l4_len + TCP_HEADER_LEN) -> keeps base L Q X N (tcp_server_data p l4_len : M state Z).
Proof. intros Hlive Hp Hlen. unfold tcp_server_data. keeps_steps. Qed.

Lemma keeps_handle_tcp_reply Q X N p : p ∈ dom L -> p ∈ Q -> keeps base L Q X N (handle_tcp_reply p : M state Z).
Proof.
  intros Hlive Hp. unfold handle_tcp_reply. apply keeps_iphdr_bind; [done|]. intros l Hl. keeps_step. cbv zeta.
  destruct Hg as ([] & _). apply keeps_recv_bind; [unfold REPLY_BUF_SIZE, max_mss in *; lia|]. intros r Hr. keeps_step; [keeps_steps|]. keeps_step; [keeps_steps|].
  destruct r as [err|[|b data]]; [keeps_steps|by apply keeps_server_closed|].
  destruct (Hr _ eq_refl) as (Hlen & Hlim & Hwf). keeps_step.
  { apply keeps_put; [unfold TCP_HEADER_LEN; lia| |done]. unfold TCP_HEADER_LEN, REPLY_BUF_SIZE, max_mss in *. lia. }
  destruct (socks5_in_progress c); [keeps_steps|]. apply keeps_server_data; [done..|].
  apply sendable_data; [pose proof (blen_nonneg (b :: data)); lia|by unfold TCP_HEADER_LEN].
Qed.

Lemma wp_connect_async Q X N p c s :
  inv Q X N s -> heap s !! p = Some c -> zc_status c < CONN_STATUS_CLOSED ->
  wp (handle_tcp_connect_async p) (fun _ => inv Q X N) s.
Proof.
  intros Hs Hc Hst. pose proof (in_dom _ _ _ _ _ _ _ _ Hs Hc) as Hp. unfold handle_tcp_connect_async.
  wp_step. apply wp_sys. apply (inv_sys _ _ _ _ _ _ (sys_get (ts_sys s)).2) in Hs; [|apply sys_get_fds].
  set (s1 := s <| ts_sys := _ |>) in *. change (heap s !! p) with (heap s1 !! p) in Hc. destruct (sys_get _).1 as [err|optval].
  { assert (keeps base L Q X N (zdtun_conn_close p CONN_STATUS_SOCKET_ERROR;; mret (-1) : M state Z)) as Hk by keeps_steps.
    by apply Hk. }
  clearbody s1. clear s. destruct (optval =? 0).
  - wp_step. eapply wp_mono; [by eapply wp_tcp_socket_syn|]. intros rv s2 Hs2.
    assert (keeps base L Q X N (now ← zdtun_now; modify_zconn p (fun c => c <| zc_tstamp := now |>);; mret rv : M state Z)) as Hk
      by keeps_steps.
    apply Hk. eapply inv_weaken; [exact Hs2|set_solver..].
  - assert (keeps base L Q X N (close_with_socket_error p optval;; mret (-1) : M state Z)) as Hk by keeps_steps.
    by apply Hk.
Qed.

(** *** The queue *)
Lemma item_rest d : item_ok d ->
  exists data, rdn (td_data d) (td_sofar d) (td_len d - td_sofar d) = Some data /\ blen data = td_len d - td_sofar d /\
               td_len d = blen (td_data d).
Proof.
  intros [Hs Hl]. assert (td_len d = blen (td_data d)) as El by (unfold td_len; rewrite u16_small; lia). rewrite El.
  unfold rdn. destruct (Z.ltb_spec (td_sofar d) 0), (Z.ltb_spec (blen (td_data d) - td_sofar d) 0),
    (Z.ltb_spec (blen (td_data d)) (td_sofar d + (blen (td_data d) - td_sofar d))); simpl; try lia.
  eexists; split; [done|]. split; [apply blen_slice; lia|done].
Qed.

Lemma wp_send_queued Q X N fuel p sent c s :
  inv Q X N s -> heap s !! p = Some c -> (length (tx_queue c) <= fuel)%nat ->
  wp (send_queued fuel p sent) (fun _ => inv Q X N) s.
Proof.
  revert s c sent. induction fuel as [|fuel IH]; intros s c sent Hs Hc Hl; simpl; wp_step; (eapply wp_zderef; [done|]).
  { destruct (tx_queue c); [by apply wp_ret|simpl in Hl; lia]. }
  destruct (tx_queue c) as [|d queue] eqn:Eq; [by apply wp_ret|].
  pose proof (inv_conns _ _ _ _ _ _ Hs p c Hc) as ([] & ? & ? & ?). rewrite Eq in co_queue.
  apply Forall_cons in co_queue as [Hd Hqueue].
  destruct (item_rest d Hd) as (data & Edata & Hlen & El). eapply wp_option_bind; [exact Edata|].
  wp_step. apply wp_sys. destruct (sys_send _ _ _) as [[err|n] k'] eqn:Esend; simpl.
  { assert (inv Q X N (s <| ts_sys := k' |>)).
    { apply inv_sys; [done|]. pose proof (sys_send_fds (zc_sock c) data (ts_sys s)) as E. by rewrite Esend in E. }
    destruct (_ =? EAGAIN); by apply wp_ret. }
  assert (inv Q X N (s <| ts_sys := k' |>)) as Hs1.
  { apply inv_sys; [done|]. pose proof (sys_send_fds (zc_sock c) data (ts_sys s)) as E. by rewrite Esend in E. }
  pose proof (sys_send_bounds _ _ _ _ _ Esend) as Hn. set (s1 := s <| ts_sys := k' |>) in *.
  destruct (_ =? _).
  - wp_step. eapply wp_modify_zconn; [exact Hc|]. eapply IH; [|simpl; by rewrite lookup_insert_eq|simpl in *; lia].
    eapply inv_modify; [exact Hs1|exact Hc|done| |set_solver..]. split; [by split|done].
  - wp_step. eapply wp_modify_zconn; [exact Hc|]. apply wp_ret.
    eapply inv_modify; [exact Hs1|exact Hc|done| |set_solver..]. split; [|done]. split; try done.
    simpl. constructor; [|done]. destruct Hd as [Hd1 Hd2]. unfold item_ok. simpl.
    rewrite u16_small by (rewrite El in *; lia). rewrite El in *. lia.
Qed.

Lemma keeps_handle_queued Q X N p : p ∈ dom L -> p ∈ Q -> keeps base L Q X N (handle_queued_tcp_data p : M state Z).
Proof.
  intros Hlive Hp s Hs. destruct (inv_lookup _ _ _ _ _ _ _ Hs Hp) as (c & Hc & _). unfold handle_queued_tcp_data.
  wp_step. eapply wp_zderef; [done|]. wp_step. eapply wp_mono; [by eapply wp_send_queued|].
  intros r s1 Hs1. cbv beta in Hs1. revert s1 Hs1.
  lazymatch goal with |- forall s, _ -> wp ?m _ s => change (keeps base L Q X N m) end. destruct r as [err|sent]; [keeps_steps|].
  keeps_step. keeps_step; [keeps_steps|]. keeps_steps.
Qed.
End tcp.
