(* ===== verification/ZdtunRun.v ===== *)
(** Runs of the engine of zdtun: every packet of the client and every socket
    that is ready, in any order, keep its invariant, and the end of the engine
    releases every socket. *)
From Stdlib Require Import ZArith Lia.
From stdpp Require Import base option gmap numbers list.
From S2P Require Import Prelude Packet Uthash PcapDump Blacklist NdpiProtos Conn Checksum Kernel Zdtun ZdtunFwd.
From S2P Require Import ZdtunInv ZdtunSafe ZdtunTcpSafe.

Open Scope Z_scope.

Section udp_icmp.
Context {U D : Type} `{SafeCallbacks U D} (base : gset Z) (L : gmap zconn_ptr (option D)).
Abbreviation state := (tun_state U D).
Abbreviation zconn := (zdtun_conn D).
Implicit Types (s : state) (p : zconn_ptr) (c : zconn) (N X Q : gset zconn_ptr).
Abbreviation heap s := (zt_heap (ts_tun s)).
Abbreviation inv := (ZdtunInv.inv (U:=U) (D:=D) base L).
#[local] Hint Resolve keeps_zderef keeps_sock_ipver keeps_now keeps_close keeps_send keeps_socket_error keeps_fill : keeps.

Section keeps.
Context (Q X N : gset zconn_ptr) (p : zconn_ptr) (Hlive : p ∈ dom L) (Hp : p ∈ Q).
Abbreviation keeps := (ZdtunInv.keeps (U:=U) (D:=D) base L Q X N).

(** ** UDP *)
Lemma keeps_dns_request payload : keeps (check_dns_request p payload).
Proof. unfold check_dns_request. keeps_steps. Qed.

Lemma keeps_dns_purge payload : keeps (check_dns_purge p payload).
Proof. unfold check_dns_purge. keeps_steps. Qed.

Lemma keeps_try {A} (call : kernel -> (Z + A) * kernel) (k : A -> M state Z) :
  (forall k, same_fds k (call k).2) -> (forall a, keeps (k a)) -> keeps (try_udp p call k).
Proof.
  intros Hcall Hk. unfold try_udp. keeps_step; [by apply keeps_sys|]. destruct a; [|apply Hk].
  unfold close_udp. keeps_steps.
Qed.

Lemma keeps_bind_connect : keeps (bind_and_connect_udp p).
Proof.
  unfold bind_and_connect_udp. keeps_step; [keeps_steps|]. keeps_step; [unfold fill_ipv6_bind_addr; keeps_steps|].
  destruct (negb _); [keeps_steps|]. keeps_step. cbv zeta. keeps_step.
  apply keeps_try; [auto with sysfds|]. intros _. apply keeps_try; [auto with sysfds|]. intros _.
  keeps_step; [keeps_steps|]. apply keeps_try; [auto with sysfds|]. intros _.
  destruct (HASH_FIND _ _); [keeps_steps|]. apply keeps_try; [auto with sysfds|]. intros port. keeps_steps.
Qed.

Lemma keeps_broadcast : keeps (set_broadcast p).
Proof. unfold set_broadcast, sys_ignored. keeps_steps. Qed.

Lemma wf_udp_header (c : zconn) l3_len check : wf_bytes (udp_header c l3_len check).
Proof. unfold udp_header. wf. Qed.

Lemma keeps_put_udp_header off (c : zconn) l3_len check :
  off = 20 \/ off = 40 -> keeps (put off (udp_header c l3_len check)).
Proof.
  intros Ho. apply keeps_put; [lia| |apply wf_udp_header]. unfold udp_header. autorewrite with blen.
  unfold REPLY_BUF_SIZE. lia.
Qed.

Lemma keeps_build_reply_udpip l3_len : keeps (build_reply_udpip p l3_len).
Proof.
  unfold build_reply_udpip. keeps_step; [keeps_steps|]. apply keeps_iphdr_bind; [done|]. intros l Hl. keeps_step.
  cbv zeta. keeps_step; [apply keeps_put_iphdr; by eapply conn_good_proto|].
  keeps_step; [by apply keeps_put_udp_header|]. keeps_step. keeps_step. by apply keeps_put_udp_header.
Qed.
#[local] Hint Resolve keeps_dns_purge keeps_build_reply_udpip : keeps.

Lemma keeps_udp_reply : keeps (handle_udp_reply p).
Proof.
  unfold handle_udp_reply. apply keeps_iphdr_bind; [done|]. intros l Hl. keeps_step. cbv zeta.
  unfold REPLY_BUF_SIZE, UDP_HEADER_SIZE. apply keeps_recv_bind; [unfold REPLY_BUF_SIZE; lia|]. intros r Hr.
  destruct r as [err|data]; [keeps_steps|]. destruct (Hr _ eq_refl) as (Hlen & Hlim & Hwf).
  assert (sendable (blen data + 8)) by (apply sendable_data; [pose proof (blen_nonneg data)|]; lia).
  keeps_step; [apply keeps_put; [lia|unfold REPLY_BUF_SIZE; lia|done]|]. keeps_steps.
Qed.

(** ** ICMP *)
Lemma icmp_message_ok (c : zconn) check data :
  wf_bytes data -> 8 <= blen data -> wf_bytes (icmp_message c check data) /\ blen (icmp_message c check data) = blen data.
Proof.
  intros Hwf Hl. unfold icmp_message. split.
  - wf; [by apply Forall_take, Forall_drop|by apply Forall_drop].
  - autorewrite with blen. rewrite blen_slice by lia. unfold blen in *. rewrite length_drop. lia.
Qed.

Lemma keeps_icmp_reply : keeps (handle_icmp_reply p).
Proof.
  unfold handle_icmp_reply. apply keeps_iphdr_bind; [done|]. intros l Hl. keeps_step.
  apply keeps_recv_bind; [unfold REPLY_BUF_SIZE; lia|]. intros r Hr. destruct r as [err|data]; [keeps_steps|].
  destruct (Hr _ eq_refl) as (Hlen & Hlim & Hwf). unfold REPLY_BUF_SIZE in Hlen.
  assert (sendable (blen data)) by (unfold sendable; pose proof (blen_nonneg data); lia).
  keeps_step; [apply keeps_put; [lia|unfold REPLY_BUF_SIZE; lia|done]|].
  destruct (Z.ltb_spec (blen data) ICMP_HEADER_SIZE) as [Hs|Hs]; [keeps_steps|]. unfold ICMP_HEADER_SIZE in Hs.
  apply keeps_rd8_bind; [lia|]. intros type. destruct (_ && _); [keeps_steps|].
  keeps_step; [keeps_steps|]. keeps_step; [keeps_steps|]. keeps_step; [keeps_steps|]. cbv zeta.
  keeps_step; [apply keeps_put_iphdr; by eapply conn_good_proto|]. keeps_step; [|keeps_steps].
  edestruct (icmp_message_ok c) as [Hmw Hml]; [exact Hwf|exact Hs|].
  apply keeps_put; [lia|rewrite Hml; unfold REPLY_BUF_SIZE; lia|exact Hmw].
Qed.
End keeps.

(** *** The first packet *)
Definition handled Q p (rv : Z) s : Prop := inv Q {[p]} ∅ s /\ (rv = 0 -> inv Q ∅ ∅ s).

Lemma handled_done Q p rv s : inv Q ∅ ∅ s -> handled Q p rv s.
Proof. intros Hs. split; [|done]. eapply inv_weaken; [exact Hs|set_solver..]. Qed.

Lemma handled_failed Q p rv s : inv Q {[p]} ∅ s -> rv <> 0 -> handled Q p rv s.
Proof. by split. Qed.

(** The state of a connection becomes CONNECTED, with other changes. *)
Lemma inv_connected Q p c c' s :
  inv Q {[p]} ∅ s -> heap s !! p = Some c -> zc_status c < CONN_STATUS_CLOSED -> zc_user_data c' = zc_user_data c ->
  conn_ok c' -> zc_sock c' = zc_sock c ->
  zc_status c' = CONN_STATUS_CONNECTED ->
  inv Q ∅ ∅ (set_tun (fun t => t <| zt_heap ::= <[p := c']> |>) s).
Proof.
  intros Hs Hc Hop Hd Hok Hsk Hst. eapply inv_modify; [exact Hs|exact Hc|by split_and!| |set_solver..].
  split; [done|]. rewrite Hst. by split_and!.
Qed.

(** Without an error the socket stays. *)
Definition keeps_sock p (m : M state Z) : Prop :=
  forall s, wlp m (fun rv s' => 0 <= rv -> sock_of p s' = sock_of p s) s.

Lemma keeps_sock_bind {A} p (m : M state A) k :
  preserves (sock_of p) m -> (forall a, keeps_sock p (k a)) -> keeps_sock p (m ≫= k).
Proof.
  intros Hm Hk s. wlp_step. eapply wlp_mono; [by apply (wlp_preserves (sock_of p))|]. intros a s1 E. cbv beta in E.
  eapply wlp_mono; [apply Hk|]. intros rv s2 Hrv Hge. by rewrite Hrv.
Qed.

Lemma keeps_sock_pres p m : preserves (sock_of p) m -> keeps_sock p m.
Proof. intros Hm s. eapply wlp_mono; [by apply (wlp_preserves (sock_of p))|]. auto. Qed.

Lemma keeps_sock_fail {A} p (m : M state A) : keeps_sock p (m;; mret (-1)).
Proof. intros s. wlp_step. eapply wlp_mono; [apply wlp_true|]. intros a s' _. wlp_step. lia. Qed.

Lemma keeps_sock_try {A} p (call : kernel -> (Z + A) * kernel) k :
  (forall a, keeps_sock p (k a)) -> keeps_sock p (try_udp p call k).
Proof.
  intros Hk. apply keeps_sock_bind; [by apply pres_sys|]. intros [err|a]; [apply keeps_sock_fail|apply Hk].
Qed.

Lemma bind_connect_sock p : keeps_sock p (bind_and_connect_udp p).
Proof.
  unfold bind_and_connect_udp. apply keeps_sock_bind; [pres_sock|]. intros ver.
  apply keeps_sock_bind; [unfold fill_ipv6_bind_addr; pres_sock|]. intros ok. destruct (negb ok); [apply keeps_sock_fail|].
  apply keeps_sock_bind; [pres_sock|]. intros c. cbv zeta. apply keeps_sock_bind; [pres_sock|]. intros mappings.
  apply keeps_sock_try. intros _. apply keeps_sock_try. intros _. apply keeps_sock_bind; [pres_sock|]. intros addr.
  apply keeps_sock_try. intros _. destruct (HASH_FIND _ _); [|apply keeps_sock_try; intros port]; apply keeps_sock_pres; unfold on_tun; pres_sock.
Qed.

Lemma wp_udp_fwd_new Q p c s :
  inv Q {[p]} ∅ s -> heap s !! p = Some c -> zc_status c = CONN_STATUS_NEW -> zc_sock c = INVALID_SOCKET ->
  wp (udp_fwd_new p) (handled Q p) s.
Proof.
  intros Hs Hc Hnew Hsk. pose proof (in_dom _ _ _ _ _ _ _ _ Hs Hc) as Hp. unfold udp_fwd_new.
  eapply (wp_open base L); [exact Hs| |].
  { intros s1 Hs1 _. rewrite Z.eqb_refl. apply wp_ret. by apply handled_failed. }
  intros fd s1 Hfd E1 Hopen. apply Z.eqb_neq in Hfd as Hfd'. rewrite Hfd'. rewrite <- E1 in Hc. wp_step. eapply wp_modify_zconn; [done|].
  rewrite E1 in Hc. pose proof (inv_conns _ _ _ _ _ _ Hs p c Hc) as ([] & ? & ? & ?). set (s2 := set_tun _ s1).
  assert (sock_of p s2 = Some fd) as Hsk2 by (unfold sock_of; simpl; by rewrite lookup_insert_eq).
  eapply (wp_kept_bind base L) with (Q := Q) (X := {[p]}) (N := ∅) (p := p); [by apply keeps_broadcast| | |].
  { unfold set_broadcast, sys_ignored. pres_sock. }
  { eapply Hopen; [exact Hc|done|done| |done|done]. split; [by split|]. split_and!; [|set_solver|set_solver].
    simpl. rewrite Hnew. intros E. exfalso. by apply E. }
  clearbody s2. intros _ s3 Hs3 E3. rewrite <- E3 in Hsk2. wp_step.
  eapply wp_mono; [apply wp_wlp; [by apply (keeps_bind_connect Q {[p]} ∅ p Hp s3 Hs3)|apply bind_connect_sock]|].
  intros rv s4 [Hs4 Hrv]. cbv beta in Hs4.
  destruct (Z.ltb_spec rv 0) as [Hneg|Hge]; [apply wp_ret; by apply handled_failed|]. specialize (Hrv Hge).
  rewrite <- Hrv in Hsk2. destruct (sock_open base L _ _ _ _ _ _ Hs4 Hsk2 Hfd) as (d & Hd & _ & Hst).
  destruct (inv_conns _ _ _ _ _ _ Hs4 p d Hd) as ([] & _). wp_step. eapply wp_modify_zconn; [done|]. apply wp_ret.
  apply handled_done. by eapply inv_connected.
Qed.

(** Once a connection has its socket. *)
Lemma wp_udp_send Q pkt p s :
  inv Q ∅ ∅ s -> p ∈ dom L -> p ∈ Q -> l4_ok pkt ->
  wp (c ← zderef p;
      callback (account_packet pkt true c);;
      payload ← pkt_payload pkt;
      r ← sys (sys_send (zc_sock c) payload);
      match r with
      | inl err => close_with_socket_error p err;; mret 0
      | inr _ => check_dns_request p payload;; mret 0
      end) (handled Q p) s.
Proof.
  intros Hs Hlive Hp Hl4. eapply wp_mono; [|intros rv s' Hs'; apply handled_done; exact Hs'].
  revert s Hs. lazymatch goal with |- forall s, _ -> wp ?m _ s => change (keeps base L Q ∅ ∅ m) end.
  keeps_step. destruct (payload_ok pkt Hl4) as (payload & Epl & _).
  unfold pkt_payload. eapply keeps_option_bind; [exact Epl|]. keeps_steps. by apply keeps_dns_request.
Qed.

(** A handler with its part for the first packet. *)
Lemma wp_first {A} Q p (b : bool) (new : M state Z) (k : M state A) R s :
  (b = true -> wp new (handled Q p) s) -> (b = false -> inv Q ∅ ∅ s) ->
  (forall s', inv Q ∅ ∅ s' -> wp k R s') ->
  forall f : Z -> M state A, (forall rv s', rv <> 0 -> inv Q {[p]} ∅ s' -> wp (f rv) R s') ->
  wp (rv ← (if b then new else mret 0); if negb (rv =? 0) then f rv else k) R s.
Proof.
  intros Hnew Hold Hk f Hf. wp_step. destruct b.
  - eapply wp_mono; [by apply Hnew|]. intros rv s' [Hs' Hs0]. destruct (Z.eqb_spec rv 0); simpl; auto.
  - apply wp_ret. simpl. auto.
Qed.

Lemma wp_handle_udp_fwd Q pkt p c s :
  inv Q {[p]} ∅ s -> heap s !! p = Some c -> zc_status c < CONN_STATUS_CLOSED ->
  (zc_status c = CONN_STATUS_NEW -> zc_sock c = INVALID_SOCKET) ->
  l4_ok pkt -> wp (handle_udp_fwd pkt p) (handled Q p) s.
Proof.
  intros Hs Hc Hst Hsk Hl4. pose proof (in_dom _ _ _ _ _ _ _ _ Hs Hc) as Hp.
  pose proof (inv_open_live _ _ _ _ _ _ _ _ Hs Hc Hst) as Hlive. unfold handle_udp_fwd.
  wp_step. eapply wp_zderef; [done|]. apply (wp_first Q p); [| |intros s' Hs'; by apply wp_udp_send|].
  - intros En%Z.eqb_eq. eapply wp_udp_fwd_new; [exact Hs|exact Hc|auto..].
  - intros En%Z.eqb_neq. eapply inv_weaken; [by eapply inv_not_new|set_solver..].
  - intros rv s' Hrv Hs'. apply wp_ret. by apply handled_failed.
Qed.

Definition icmp_ok (pkt : zdtun_pkt) : Prop := ip_hdr_len pkt + ICMP_HEADER_SIZE <= blen (pkt_buf pkt).

Lemma wp_icmp_fwd_new Q pkt p c s :
  inv Q {[p]} ∅ s -> heap s !! p = Some c -> zc_status c < CONN_STATUS_CLOSED -> zc_sock c = INVALID_SOCKET ->
  l4_ok pkt -> icmp_ok pkt -> wp (icmp_fwd_new pkt p) (handled Q p) s.
Proof.
  intros Hs Hc Hst Hsk Hl4 Hicmp. pose proof (in_dom _ _ _ _ _ _ _ _ Hs Hc) as Hp. unfold icmp_fwd_new.
  pose proof (inv_conns _ _ _ _ _ _ Hs p c Hc) as ([] & _).
  eapply (wp_same_bind base L (fun s => heap s)); [by apply keeps_sock_ipver|pres_sock|exact Hs|].
  intros ver s1 Hs1 E1. cbv beta in E1. rewrite <- E1 in Hc.
  eapply (wp_open base L); [exact Hs1| |].
  { intros s2 Hs2 E2. rewrite Z.eqb_refl. rewrite <- E2 in Hc. wp_step. eapply wp_modify_zconn; [done|]. apply wp_ret.
    apply handled_done. eapply inv_modify; [exact Hs2|exact Hc|by split_and!| |set_solver..]. split; [by split|]. by split_and!. }
  intros fd s2 Hfd E2 Hopen. apply Z.eqb_neq in Hfd as ->. rewrite <- E2 in Hc. wp_step. eapply wp_modify_zconn; [done|].
  rewrite E2 in Hc. set (s3 := set_tun _ s2). assert (inv Q {[p]} ∅ s3) as Hs3.
  { eapply Hopen; [exact Hc|done|done| |done|done]. split; [by split|]. by split_and!. }
  destruct Hl4. destruct (rd16_Some (pkt_buf pkt) (ip_hdr_len pkt + 4)) as [id Eid].
  { lia. } { unfold icmp_ok, ICMP_HEADER_SIZE in Hicmp. lia. }
  eapply wp_option_bind; [exact Eid|]. wp_step.
  eapply wp_modify_zconn; [simpl; by rewrite lookup_insert_eq|]. apply wp_ret. apply handled_done.
  eapply inv_connected; [exact Hs3|simpl; by rewrite lookup_insert_eq|done|done| |done|done]. by split.
Qed.

Lemma wp_icmp_send Q pkt p s :
  inv Q ∅ ∅ s -> p ∈ dom L -> p ∈ Q -> l4_ok pkt ->
  wp (c ← zderef p;
      callback (account_packet pkt true c);;
      fill_conn_sockaddr p;;
      data ← of_option (rdn (pkt_buf pkt) (ip_hdr_len pkt) (u16 (l4_hdr_len pkt + l7_len pkt)));
      r ← sys (sys_send (zc_sock c) data);
      match r with
      | inl err => close_with_socket_error p err;; mret (-1)
      | inr _ => mret 0
      end) (handled Q p) s.
Proof.
  intros Hs Hlive Hp Hl4. eapply wp_mono; [|intros rv s' Hs'; apply handled_done; exact Hs'].
  revert s Hs. lazymatch goal with |- forall s, _ -> wp ?m _ s => change (keeps base L Q ∅ ∅ m) end.
  keeps_step. keeps_step; [keeps_steps|].
  assert (exists data, rdn (pkt_buf pkt) (ip_hdr_len pkt) (u16 (l4_hdr_len pkt + l7_len pkt)) = Some data) as [data Ed].
  { destruct Hl4. unfold l7_off in *. rewrite u16_small by lia. unfold rdn.
    destruct (Z.ltb_spec (ip_hdr_len pkt) 0), (Z.ltb_spec (l4_hdr_len pkt + l7_len pkt) 0),
      (Z.ltb_spec (blen (pkt_buf pkt)) (ip_hdr_len pkt + (l4_hdr_len pkt + l7_len pkt))); simpl; try lia. eauto. }
  eapply keeps_option_bind; [exact Ed|]. keeps_steps.
Qed.

Lemma wp_handle_icmp_fwd Q pkt p c s :
  inv Q {[p]} ∅ s -> heap s !! p = Some c -> zc_status c < CONN_STATUS_CLOSED ->
  (zc_status c = CONN_STATUS_NEW -> zc_sock c = INVALID_SOCKET) ->
  l4_ok pkt -> icmp_ok pkt -> wp (handle_icmp_fwd pkt p) (handled Q p) s.
Proof.
  intros Hs Hc Hst Hsk Hl4 Hicmp. pose proof (in_dom _ _ _ _ _ _ _ _ Hs Hc) as Hp.
  pose proof (inv_open_live _ _ _ _ _ _ _ _ Hs Hc Hst) as Hlive. unfold handle_icmp_fwd. cbv zeta.
  wp_step. eapply wp_zderef; [done|]. apply (wp_first Q p); [| |intros s' Hs'; by apply wp_icmp_send|].
  - intros En%Z.eqb_eq. eapply wp_icmp_fwd_new; [exact Hs|exact Hc|auto..].
  - intros En%Z.eqb_neq. eapply inv_weaken; [by eapply inv_not_new|set_solver..].
  - intros rv s' Hrv Hs'. apply wp_ret. by apply handled_failed.
Qed.

(** ** Entry points *)

(** What the parser gives, fragments aside. *)
Record pkt_ok (pkt : zdtun_pkt) : Prop := {
  po_l4 : l4_ok pkt;
  po_tcp : ipproto (pkt_tuple pkt) = IPPROTO_TCP -> tcp_ok pkt;
  po_icmp : ipproto (pkt_tuple pkt) = IPPROTO_ICMP -> icmp_ok pkt
}.

Lemma wp_zdtun_forward Q pkt p c s :
  inv Q {[p]} ∅ s -> heap s !! p = Some c -> (zc_status c = CONN_STATUS_NEW -> zc_sock c = INVALID_SOCKET) ->
  pkt_ok pkt -> (zc_status c = CONN_STATUS_NEW -> ipproto (pkt_tuple pkt) = IPPROTO_TCP -> syn_ok pkt) ->
  wp (zdtun_forward pkt p) (handled Q p) s.
Proof.
  intros Hs Hc Hsk [Hl4 Htcp Hicmp] Hsyn. pose proof (in_dom _ _ _ _ _ _ _ _ Hs Hc) as Hp. unfold zdtun_forward.
  wp_step. eapply wp_zderef; [done|].
  destruct (Z.geb_spec (zc_status c) CONN_STATUS_CLOSED) as [Hcl|Hcl].
  { apply wp_ret. apply handled_done. eapply inv_weaken; [by eapply inv_closed|set_solver..]. }
  cbv zeta. set (proto := ipproto (pkt_tuple pkt)) in *.
  destruct (negb _) eqn:Eproto; [apply wp_ret; by apply handled_failed|].
  wp_step. apply (wp_mono _ (handled Q p)).
  - destruct (Z.eqb_spec proto IPPROTO_TCP) as [Et|Et].
    { eapply wp_mono; [eapply wp_handle_tcp_fwd; [exact Hs|exact Hc|auto..]|]. intros rv s' Hs'. by apply handled_done. }
    destruct (Z.eqb_spec proto IPPROTO_UDP) as [Eu|Eu]; [by eapply wp_handle_udp_fwd|].
    destruct (Z.eqb_spec proto IPPROTO_ICMP) as [Ei|Ei]; [eapply wp_handle_icmp_fwd; eauto|done].
  - intros rv s1 [Hs1 Hs0]. wp_step. destruct (Z.eqb_spec rv 0) as [->|Hrv].
    + specialize (Hs0 eq_refl). clear Hs1.
      assert (keeps base L Q ∅ ∅ (now ← zdtun_now; modify_zconn p (fun c => c <| zc_tstamp := now |>) : M state unit)) as Hk
        by keeps_steps.
      eapply wp_mono; [by apply Hk|]. intros [] s2 Hs2. apply wp_ret. by apply handled_done.
    + apply wp_ret. apply wp_ret. by apply handled_failed.
Qed.
End udp_icmp.

(** ** The table *)
Section table.
Context {U D : Type} `{SafeCallbacks U D} (base : gset Z).
Abbreviation state := (tun_state U D).
Abbreviation zconn := (zdtun_conn D).
Implicit Types (L : gmap zconn_ptr (option D)) (s : state) (p : zconn_ptr) (c : zconn) (N X Q : gset zconn_ptr).
Abbreviation heap s := (zt_heap (ts_tun s)).
Abbreviation inv := (ZdtunInv.inv (U:=U) (D:=D) base).
Abbreviation entries := (list (zdtun_5tuple * zconn_ptr)).

Lemma count_conn_open proto d st : num_open_sockets (count_conn proto d st) = num_open_sockets st.
Proof. unfold count_conn. by repeat destruct (_ =? _). Qed.
Lemma count_conn_max proto d st : all_max_fd (count_conn proto d st) = all_max_fd st.
Proof. unfold count_conn. by repeat destruct (_ =? _). Qed.

Lemma owns_no_socket owner (h : gmap zconn_ptr zconn) p c :
  owns owner h -> h !! p = Some c -> zc_sock c = INVALID_SOCKET -> owns owner (delete p h).
Proof.
  intros Ho Hp Hs fd q. split.
  - intros (d & Hd & Hsd & Hnd)%Ho. exists d. rewrite lookup_delete_ne; [done|]. intros ->. congruence.
  - intros (d & Hd & Hsd & Hnd). apply lookup_delete_Some in Hd as [_ Hd]. apply Ho. eauto.
Qed.

Lemma filter_ptrs p (l : entries) : (filter (fun e => e.2 <> p) l).*2 = filter (fun q => q <> p) (l.*2).
Proof.
  induction l as [|e l IH]; [done|]. rewrite fmap_cons, !filter_cons.
  destruct (decide (e.2 <> p)); [by rewrite fmap_cons, IH|done].
Qed.

Lemma opens_delete (h : gmap zconn_ptr zconn) p : opens (delete p h) ⊆ opens h.
Proof.
  apply map_subseteq_spec. intros q d (e & He & Hes & Hed)%opens_Some. apply lookup_delete_Some in He as [_ He].
  apply opens_Some. eauto.
Qed.

Lemma live_delete (h : gmap zconn_ptr zconn) L p : live_ok h L -> live_ok (delete p h) (delete p L).
Proof.
  intros [Hl Ho]. split.
  - intros q d [Hne Hq]%lookup_delete_Some. destruct (Hl q d Hq) as (c & Hc & Hd). exists c.
    by rewrite lookup_delete_ne.
  - apply map_subseteq_spec. intros q d (e & He & Hes & Hed)%opens_Some. apply lookup_delete_Some in He as [Hne He].
    rewrite lookup_delete_ne by done. eapply lookup_weaken; [|exact Ho]. apply opens_Some. eauto.
Qed.

(** A new call of the engine: the live connections are the open ones. *)
Lemma inv_reset L Q X N s : inv L Q X N s -> inv (opens (heap s)) Q X N s.
Proof.
  intros [? ? ? ? [Hl Ho] Hu ?]. split; try done.
  - split; [|done]. intros p d (c & Hc & _ & Hd)%opens_Some. eauto.
  - by eapply user_inv_mono.
Qed.

Lemma inv_delete L Q X N s p c proto :
  inv L Q X N s -> heap s !! p = Some c -> zc_sock c = INVALID_SOCKET ->
  inv (delete p L) (Q ∖ {[p]}) X N
    (set_tun (fun t => t <| zt_stats ::= count_conn proto (-1) |>
                         <| conn_table ::= (fun l => filter (fun e => e.2 <> p) l) |>
                         <| zt_heap ::= delete p |>) s).
Proof.
  intros [Hc (owner & Ho & Hn & Hle & Hall & Hw & Hb & Hop & Hfd) (Hnd & Hin & Hdom & Hnx) Hok Hl Hu Hk] Hp Hs. split; simpl.
  - intros q d Hd. apply lookup_delete_Some in Hd as [_ Hd]. by apply Hc.
  - exists owner. simpl. rewrite count_conn_open, count_conn_max. split_and!; try done. by eapply owns_no_socket.
  - unfold table_ok. simpl. rewrite filter_ptrs, dom_delete_L, Hdom. split_and!; [by apply NoDup_filter| |done|].
    + intros q. rewrite list_elem_of_filter, Hin. set_solver.
    + intros q Hq. apply Hnx. set_solver.
  - destruct Hok. by split.
  - by apply live_delete.
  - eapply user_inv_mono; [exact Hu|apply opens_delete|apply delete_subseteq|]. by eapply live_delete.
  - done.
Qed.

Lemma wp_destroy L Q X N p s :
  inv L Q X N s -> p ∈ Q -> wp (destroy_conn p) (fun _ => inv (delete p L) (Q ∖ {[p]}) (X ∖ {[p]}) N) s.
Proof.
  intros Hs Hp. unfold destroy_conn. wp_step. eapply wp_mono; [by apply wp_close|]. intros [] s1 Hs1.
  destruct (inv_lookup _ _ _ _ _ _ _ Hs1 Hp) as (c & Hc & (_ & _ & _ & Hno)). wp_step. eapply wp_zderef; [done|].
  unfold on_tun. wp_step. eapply inv_weaken; [|reflexivity|].
  - eapply (inv_delete L Q (X ∖ {[p]}) ({[p]} ∪ N)); [exact Hs1|exact Hc|]. apply Hno. set_solver.
  - set_solver.
Qed.

(** A loop that destroys some of the connections of a list. *)
Lemma wp_destroy_each (f : zdtun_5tuple * zconn_ptr -> M state unit) (l : entries) L Q s :
  (forall e L Q s, inv L Q ∅ ∅ s -> e.2 ∈ Q ->
     wp (f e) (fun _ s' => exists L' Q', Q ∖ {[e.2]} ⊆ Q' /\ inv L' Q' ∅ ∅ s') s) ->
  inv L Q ∅ ∅ s -> NoDup (l.*2) -> (forall e, e ∈ l -> e.2 ∈ Q) ->
  wp (for_each f l) (fun _ s' => exists L' Q', inv L' Q' ∅ ∅ s') s.
Proof.
  intros Hf. revert L Q s. induction l as [|e l IH]; intros L Q s Hs Hnd Hl; simpl; [apply wp_ret; eauto|].
  apply NoDup_cons in Hnd as [Hne Hnd]. wp_step. eapply wp_mono; [eapply Hf; [exact Hs|apply Hl; left]|].
  intros [] s1 (L' & Q' & Hsub & Hs1). eapply IH; [exact Hs1|done|]. intros e' He'. apply Hsub.
  apply elem_of_difference. split; [apply Hl; by right|]. intros E%elem_of_singleton. apply Hne.
  apply list_elem_of_fmap. by exists e'.
Qed.

Lemma sort_perm (h : gmap zconn_ptr zconn) (l : entries) : sort_by_tstamp h l ≡ₚ l.
Proof.
  unfold sort_by_tstamp. induction l as [|e l IH]; simpl; [done|].
  assert (forall l', sort_insert h e l' ≡ₚ e :: l') as Hins.
  { induction l' as [|e' l' IH']; simpl; [done|]. destruct (tstamp_before h e e'); [done|].
    rewrite IH'. constructor. }
  by rewrite Hins, IH.
Qed.

Lemma inv_sorted L Q X N s :
  inv L Q X N s -> inv L Q X N (set_tun (fun t => t <| conn_table ::= sort_by_tstamp (zt_heap t) |>) s).
Proof.
  intros [Hc Hsk (Hnd & Hin & Hdom & Hnx) Hok ? ? ?]. split; [done|done| |by destruct Hok|done..].
  unfold table_ok. simpl. split_and!; [by rewrite sort_perm| |done|done].
  intros p. rewrite sort_perm. apply Hin.
Qed.

Lemma table_entries Q s : table_ok (ts_tun s) Q -> forall e, e ∈ conn_table (ts_tun s) -> e.2 ∈ Q.
Proof. intros (_ & Hin & _) e He. apply Hin. apply list_elem_of_fmap. eauto. Qed.

Lemma wp_purge_expired L Q s :
  inv L Q ∅ ∅ s -> wp zdtun_purge_expired (fun _ s' => exists L' Q', inv L' Q' ∅ ∅ s') s.
Proof.
  intros Hs. unfold zdtun_purge_expired. eapply wp_keeps_bind; [apply keeps_now|exact Hs|]. clear Hs.
  intros now s1 Hs1. wp_step. apply wp_gets. wp_step. eapply wp_mono; [eapply wp_destroy_each; [|exact Hs1|apply Hs1|]|].
  - intros e L1 Q1 s2 Hs2 He. unfold purge_idle. destruct (inv_lookup _ _ _ _ _ _ _ Hs2 He) as (c & Hc & _).
    wp_step. eapply wp_zderef; [done|]. wp_step; [|exists L1, Q1; split; [set_solver|done]].
    eapply wp_mono; [by apply wp_destroy|]. intros [] s3 Hs3. exists (delete e.2 L1), (Q1 ∖ {[e.2]}). split; [done|].
    eapply inv_weaken; [exact Hs3|set_solver..].
  - apply table_entries, Hs1.
  - intros [] s2 (L2 & Q2 & Hs2). wp_step. apply wp_gets. wp_step; [|eauto]. cbv zeta. unfold on_tun. wp_step. wp_step.
    wp_step. apply wp_gets. pose proof (inv_sorted _ _ _ _ _ Hs2) as Hs3. unfold set_tun in Hs3.
    set (s3 := s2 <| ts_tun ::= _ |>) in *.
    eapply wp_destroy_each; [|exact Hs3| |].
    + intros e L1 Q1 s4 Hs4 He. eapply wp_mono; [by apply wp_destroy|]. intros [] s5 Hs5.
      exists (delete e.2 L1), (Q1 ∖ {[e.2]}). split; [done|]. eapply inv_weaken; [exact Hs5|set_solver..].
    + eapply sublist_NoDup; [apply Hs3|apply fmap_sublist, sublist_take].
    + intros e He. eapply table_entries; [apply Hs3|]. eapply elem_of_sublist; [exact He|apply sublist_take].
Qed.
End table.

(** ** Packets of the client *)
Lemma parse_l4_proto buf il h sp dp :
  parse_l4 buf il = Some (inr (h, sp, dp)) ->
  (il_proto il = IPPROTO_TCP \/ il_proto il = IPPROTO_UDP \/ il_proto il = IPPROTO_ICMP) /\
  (il_proto il = IPPROTO_ICMP -> h = ICMP_HEADER_LEN).
Proof.
  unfold parse_l4. intros Hp. repeat (case_match; simplify_option_eq; try done).
  all: repeat match goal with E : (_ =? _) = true |- _ => apply Z.eqb_eq in E end.
  all: split; [tauto|]; intros E; try done; rewrite E in *; done.
Qed.

Lemma parse_proto ids buf n pkt ids' :
  zdtun_parse_pkt ids buf n = Some (inr pkt, ids') -> has_flag (pkt_flags pkt) ZDTUN_PKT_IS_FRAGMENT = false ->
  (ipproto (pkt_tuple pkt) = IPPROTO_TCP \/ ipproto (pkt_tuple pkt) = IPPROTO_UDP \/
   ipproto (pkt_tuple pkt) = IPPROTO_ICMP) /\
  (ipproto (pkt_tuple pkt) = IPPROTO_ICMP -> l4_hdr_len pkt = ICMP_HEADER_LEN).
Proof.
  intros Hp Hf. unfold zdtun_parse_pkt in Hp.
  repeat (case_match; simplify_option_eq; try done).
  all: unfold is_later_fragment in *; simpl in *.
  all: try (rewrite Hf in *; done).
  all: match goal with E : parse_l4 _ _ = Some (inr _) |- _ => by apply parse_l4_proto in E end.
Qed.

Lemma parsed_pkt_ok ids buf n pkt ids' :
  wf_bytes buf -> n <= blen buf -> 0 <= n < 2 ^ 16 ->
  zdtun_parse_pkt ids buf n = Some (inr pkt, ids') -> has_flag (pkt_flags pkt) ZDTUN_PKT_IS_FRAGMENT = false ->
  pkt_ok pkt /\ is_byte (ipproto (pkt_tuple pkt)).
Proof.
  intros Hb Hn Hn16 Hp Hf. destruct (parse_proto _ _ _ _ _ Hp Hf) as [Hproto Hicmp].
  destruct (zdtun_parse_pkt_total ids buf n Hb Hn Hn16) as (r & ids1 & E & Hr). rewrite Hp in E. injection E as <- <-.
  destruct Hr as [(Hbuf & ? & ? & ? & Hsum & Hle & _ & Htcp) _].
  split; [split|].
  - split; unfold l7_off; rewrite ?Hbuf; try done; lia.
  - unfold tcp_ok. rewrite Hbuf. intros Ht. pose proof (Htcp ltac:(unfold is_later_fragment; by rewrite Hf) Ht). lia.
  - unfold icmp_ok, ICMP_HEADER_SIZE. rewrite Hbuf. intros Hi. apply Hicmp in Hi. unfold ICMP_HEADER_LEN in Hi. lia.
  - destruct Hproto as [-> | [-> | ->]]; by unfold is_byte.
Qed.

Lemma established_flag pkt : pkt_ok pkt -> exists b, is_tcp_established pkt = Some b.
Proof.
  intros Hpkt. unfold is_tcp_established, th_flags. destruct (Z.eqb_spec (ipproto (pkt_tuple pkt)) IPPROTO_TCP) as [Et|]; [|eauto].
  destruct (tcp_fields pkt (po_l4 _ Hpkt) (po_tcp _ Hpkt Et)) as (_ & [flags ->] & _). simpl. eauto.
Qed.

Section run.
Context {U D : Type} `{SafeCallbacks U D} (base : gset Z).
Abbreviation state := (tun_state U D).
Abbreviation zconn := (zdtun_conn D).
Implicit Types (L : gmap zconn_ptr (option D)) (s : state) (p : zconn_ptr) (c : zconn) (N X Q : gset zconn_ptr).
Abbreviation heap s := (zt_heap (ts_tun s)).
Abbreviation inv := (ZdtunInv.inv (U:=U) (D:=D) base).

Lemma wp_find_conn L Q tuple s :
  inv L Q ∅ ∅ s ->
  wp (find_conn tuple) (fun r s' => s' = s /\ forall p, r = Some p -> p ∈ Q) s.
Proof.
  intros Hs. unfold find_conn. wp_step. apply wp_gets.
  destruct (HASH_FIND _ _) as [p|] eqn:Ef; [|by apply wp_ret].
  apply HASH_FIND_Some_elem in Ef. pose proof (table_entries _ _ (inv_table _ _ _ _ _ _ Hs) _ Ef) as Hp.
  destruct (inv_lookup _ _ _ _ _ _ _ Hs Hp) as (c & Hc & _). wp_step. eapply wp_zderef; [done|]. apply wp_ret.
  split; [done|]. intros q. destruct (decide _); [by intros [= <-]|done].
Qed.

(** What the lookup gives to the handlers. *)
Definition found (create : bool) (r : option zconn_ptr) s : Prop :=
  match r with
  | Some p => exists L Q c, inv L Q {[p]} ∅ s /\ heap s !! p = Some c /\ zc_status c < CONN_STATUS_CLOSED /\
                (zc_status c = CONN_STATUS_NEW -> (create = true \/ may_park = true) /\ zc_sock c = INVALID_SOCKET)
  | None => exists L Q, inv L Q ∅ ∅ s
  end.

Lemma opens_create (h : gmap zconn_ptr zconn) p c :
  zc_status c < CONN_STATUS_CLOSED -> opens (<[p := c]> h) = <[p := zc_user_data c]> (opens h).
Proof.
  intros Hst. apply map_eq. intros q. apply option_eq. intros d. rewrite opens_Some, lookup_insert_Some, opens_Some. split.
  - intros (e & [[<- <-]|[Hne He]]%lookup_insert_Some & Hes & Hed); [by left|right; eauto].
  - intros [[<- <-]|[Hne (e & He & Hes & Hed)]].
    + exists c. by rewrite lookup_insert_eq.
    + exists e. by rewrite lookup_insert_ne.
Qed.

Lemma inv_create L Q s tuple now data p t' :
  inv L Q ∅ ∅ s -> is_byte (ipproto tuple) -> p = zt_next_ptr (ts_tun s) ->
  t' = (ts_tun s) <| zt_heap ::= <[p := (zero_zconn tuple now) <| zc_user_data := data |>]> |> <| zt_next_ptr := p + 1 |>
                <| conn_table ::= (fun l => HASH_ADD l tuple p) |> <| zt_stats ::= count_conn (ipproto tuple) 1 |> ->
  forall u, user_inv (<[p := data]> (opens (heap s))) (<[p := data]> L) u ->
  inv (<[p := data]> L) ({[p]} ∪ Q) {[p]} ∅ (s <| ts_user := u |> <| ts_tun := t' |>).
Proof.
  intros [Hc (owner & Ho & Hn & Hle & Hall & Hw & Hb & Hop & Hfd) (Hnd & Hin & Hdom & Hnx) Hok [Hl Hol] _ Hk] Hproto Ep -> u Hu.
  assert (p ∉ Q) as Hp by (intros Hp; apply Hnx in Hp; lia).
  assert (heap s !! p = None) as Hnone by (by rewrite <- not_elem_of_dom, Hdom).
  split; simpl.
  - intros q d. rewrite lookup_insert_Some. intros [[<- <-]|[Hne Hd]].
    + split; [|split_and!; [done|left; set_solver|done]]. split; try done; simpl; unfold max_mss, max_scale; lia.
    + destruct (Hc q d Hd) as (? & ? & Hnew & ?). split_and!; try done. intros E. destruct (Hnew E); [done|by right].
  - exists owner. simpl. rewrite count_conn_open, count_conn_max. split_and!; try done. intros fd q. split.
    + intros (d & Hd & Hsd & Hnd')%Ho. exists d. rewrite lookup_insert_ne; [done|]. intros ->. congruence.
    + intros (d & Hd & Hsd & Hnd'). apply lookup_insert_Some in Hd as [[<- <-]|[Hne Hd]]; [done|]. apply Ho. eauto.
  - unfold table_ok. simpl. unfold HASH_ADD. rewrite fmap_app, dom_insert_L, Hdom. split_and!; try done.
    + apply NoDup_app. split_and!; [done| |apply NoDup_singleton]. intros q Hq ->%list_elem_of_singleton.
      by apply Hp, Hin.
    + intros q. rewrite elem_of_app, Hin. simpl. rewrite list_elem_of_singleton. set_solver.
    + intros q [->%elem_of_singleton|Hq]%elem_of_union; [lia|]. apply Hnx in Hq. lia.
  - destruct Hok. by split.
  - split.
    + intros q d [[<- <-]|[Hne Hq]]%lookup_insert_Some.
      * eexists. by rewrite lookup_insert_eq.
      * destruct (Hl q d Hq) as (e & He & Hed). exists e. by rewrite lookup_insert_ne.
    + rewrite opens_create by done. by apply insert_mono.
  - by rewrite opens_create.
  - done.
Qed.

Lemma inv_fresh_ptr L Q X N s :
  inv L Q X N s -> L !! zt_next_ptr (ts_tun s) = None /\ opens (heap s) !! zt_next_ptr (ts_tun s) = None.
Proof.
  intros [_ _ (_ & _ & Hdom & Hnx) _ [Hl Hol] _ _].
  assert (heap s !! zt_next_ptr (ts_tun s) = None) as Hnone.
  { apply not_elem_of_dom. rewrite Hdom. intros Hp. apply Hnx in Hp. lia. }
  assert (L !! zt_next_ptr (ts_tun s) = None) as HL.
  { destruct (L !! _) as [d|] eqn:E; [|done]. destruct (Hl _ _ E) as (c & Hc & _). congruence. }
  split; [done|]. by eapply lookup_weaken_None.
Qed.

Lemma wp_create_conn L Q tuple s :
  inv L Q ∅ ∅ s -> is_byte (ipproto tuple) -> wp (create_conn tuple) (found true) s.
Proof.
  intros Hs Hb. unfold create_conn. wp_step. apply wp_gets. wp_step.
  apply (wp_mono _ (fun _ s' => exists L' Q', inv L' Q' ∅ ∅ s')).
  { wp_step; [by eapply wp_purge_expired|by exists L, Q]. }
  intros [] s1 (L1 & Q1 & Hs1). eapply wp_keeps_bind; [apply keeps_now|exact Hs1|]. clear s Hs s1 Hs1. intros now s Hs.
  cbv zeta. wp_step. destruct (inv_fresh_ptr _ _ _ _ _ Hs) as [HL Hop].
  pose proof (on_connection_open_safe _ _ _ (zero_zconn tuple now) _ (inv_usr _ _ _ _ _ _ Hs) HL Hop) as Hw.
  unfold wp at 1, callback. unfold wp in Hw. destruct (on_connection_open _ _) as [[[rv data] u]|]; [|done]. simpl in Hw.
  destruct (rv =? 0); simpl; [|apply wp_ret; simpl; exists L1, Q1; by apply inv_user].
  wp_step. apply wp_gets. unfold on_tun. wp_step. wp_step. apply wp_ret. simpl.
  eexists _, ({[zt_next_ptr (ts_tun s)]} ∪ Q1), _. split_and!; [|by rewrite lookup_insert_eq|done|by auto].
  by eapply (inv_create L1 Q1 s tuple now data).
Qed.

Lemma wp_lookup L Q tuple create s :
  inv L Q ∅ ∅ s -> is_byte (ipproto tuple) -> wp (zdtun_lookup tuple create) (found create) s.
Proof.
  intros Hs Hb. unfold zdtun_lookup. wp_step. eapply wp_mono; [by eapply wp_find_conn|]. intros r s' [-> Hr]. wp_step.
  apply (wp_mono _ (fun r s' => exists L' Q', inv L' Q' ∅ ∅ s' /\
           forall p, r = Some p -> exists c, heap s' !! p = Some c /\ zc_status c < CONN_STATUS_CLOSED)).
  - destruct r as [p|]; [|apply wp_ret; by exists L, Q]. specialize (Hr p eq_refl).
    destruct (inv_lookup _ _ _ _ _ _ _ Hs Hr) as (c & Hc & _). wp_step. eapply wp_zderef; [done|].
    destruct (Z.geb_spec (zc_status c) CONN_STATUS_CLOSED) as [Hcl|Hcl].
    + wp_step. eapply wp_mono; [by apply wp_destroy|]. intros [] s1 Hs1. apply wp_ret. exists (delete p L), (Q ∖ {[p]}).
      split; [|done]. eapply inv_weaken; [exact Hs1|set_solver..].
    + apply wp_ret. exists L, Q. split; [done|]. intros q [= <-]. eauto.
  - intros r' s1 (L1 & Q1 & Hs1 & Hr'). destruct r' as [p|].
    + apply wp_ret. destruct (Hr' p eq_refl) as (c & Hc & Hst). destruct (inv_conns _ _ _ _ _ _ Hs1 p c Hc) as (_ & _ & Hnew & _).
      exists L1, Q1, c. split_and!; [eapply inv_weaken; [exact Hs1|set_solver..]|done|done|].
      intros E. destruct (Hnew E) as [|[]]; [done|auto].
    + destruct create; [by eapply wp_create_conn|apply wp_ret; simpl; eauto].
Qed.
End run.
