(* ===== verification/ZdtunEngine.v ===== *)
(** What the engine of zdtun guarantees to its user whatever the client, the
    servers and the kernel do: no undefined behaviour, sockets that are never
    lost nor used after they are closed, and their release at the end. *)
From Stdlib Require Import ZArith Lia.
From stdpp Require Import base option gmap numbers list.
From S2P Require Import Prelude Packet Uthash PcapDump Blacklist NdpiProtos Conn Checksum Kernel Zdtun ZdtunFwd.
From S2P Require Import ZdtunInv ZdtunSafe ZdtunTcpSafe ZdtunRun.

Open Scope Z_scope.

(** ** The calls of the user *)
Inductive tun_event :=
  | EvForward (buf : bytes) (len : Z)          (** a packet of the client *)
  | EvReady (rd_fds wr_fds : gset Z)           (** what select returned *)
  | EvPurge
  | EvDnat (tuple : zdtun_5tuple) (proxy : proxy_t)
  | EvProxy (tuple : zdtun_5tuple)
  | EvClose (tuple : zdtun_5tuple) (status : Z).

Section engine.
Context {U D : Type} `{SafeCallbacks U D}.
Abbreviation state := (tun_state U D).

Definition with_conn (tuple : zdtun_5tuple) (f : zconn_ptr -> M state unit) : M state unit :=
  conn ← zdtun_lookup tuple false;
  match conn with Some p => f p | None => mret tt end.

Definition tun_step (ev : tun_event) : M state unit :=
  match ev with
  | EvForward buf len => zdtun_easy_forward buf len;; mret tt
  | EvReady rd_fds wr_fds => zdtun_handle_fd rd_fds wr_fds;; mret tt
  | EvPurge => zdtun_purge_expired
  | EvDnat tuple proxy => with_conn tuple (fun p => zdtun_conn_dnat p proxy)
  | EvProxy tuple => with_conn tuple zdtun_conn_proxy
  | EvClose tuple status => with_conn tuple (fun p => zdtun_conn_close p status)
  end.

Definition engine_init (m : Z) (proxy : proxy_t) (auth : option (bytes * bytes)) : M state unit :=
  zdtun_set_mtu m;;
  zdtun_set_socks5_proxy proxy;;
  match auth with Some (username, password) => zdtun_set_socks5_userpass username password | None => mret tt end.

(** A packet is in its buffer, and the options of a SYN are well formed. *)
Definition forward_ok (buf : bytes) (len : Z) : Prop :=
  wf_bytes buf /\ 0 <= len <= blen buf /\ len < 2 ^ 16 /\
  forall ids pkt ids', zdtun_parse_pkt ids buf len = Some (inr pkt, ids') ->
    ipproto (pkt_tuple pkt) = IPPROTO_TCP -> is_tcp_established pkt = Some false \/ may_park = true -> syn_ok pkt.

Definition event_ok (ev : tun_event) : Prop :=
  match ev with
  | EvForward buf len => forward_ok buf len
  | EvDnat tuple _ | EvProxy tuple | EvClose tuple _ => is_byte (ipproto tuple)
  | _ => True
  end.

(** ** Every call keeps the invariant *)
Section steps.
Context (base : gset Z).
Abbreviation inv := (ZdtunInv.inv (U:=U) (D:=D) base).
Abbreviation heap s := (zt_heap (ts_tun s)).
Implicit Types L : gmap zconn_ptr (option D).
Definition engine_ok (s : state) : Prop := exists L Q, inv L Q ∅ ∅ s.

(** A packet of the client, parsed. *)
Lemma wp_forward_found s p pkt create :
  found base create (Some p) s -> pkt_ok pkt ->
  (create = true \/ may_park = true -> ipproto (pkt_tuple pkt) = IPPROTO_TCP -> syn_ok pkt) ->
  wp (zdtun_forward pkt p) (fun rv s' => exists L Q, p ∈ Q /\ handled base L Q p rv s') s.
Proof.
  intros (L & Q & c & Hs & Hc & _ & Hnew) Hpkt Hsyn. eapply wp_mono.
  - eapply wp_zdtun_forward; [exact Hs|exact Hc|tauto|done|]. intros En. destruct (Hnew En). auto.
  - intros rv s' Hs'. exists L, Q. split; [by eapply in_dom|done].
Qed.

Lemma wp_easy_forward s buf len :
  engine_ok s -> forward_ok buf len -> wp (zdtun_easy_forward buf len) (fun _ => engine_ok) s.
Proof.
  intros (L & Q & Hs) (Hb & Hlen & Hl16 & Hsyn). unfold zdtun_easy_forward. wp_step. apply wp_gets.
  rewrite (u16_small len) by lia.
  destruct (zdtun_parse_pkt_total (id2ports (ts_tun s)) buf len Hb) as (r & ids & E & _); [lia..|].
  eapply wp_option_bind; [exact E|]. cbv beta iota.
  eapply wp_keeps_bind with (Q := Q) (X := ∅) (N := ∅); [apply keeps_on_tun; kept|exact Hs|]. intros _ s1 Hs1.
  destruct r as [rv|pkt]; [apply wp_ret; by exists L, Q|].
  destruct (has_flag (pkt_flags pkt) ZDTUN_PKT_IS_FRAGMENT) eqn:Efrag; [apply wp_ret; by exists L, Q|].
  destruct (parsed_pkt_ok _ buf len _ _ Hb ltac:(lia) ltac:(lia) E Efrag) as [Hpkt Hproto].
  destruct (established_flag pkt Hpkt) as [established Eest].
  eapply wp_option_bind; [exact Eest|]. wp_step. eapply wp_mono; [by eapply wp_lookup|].
  intros [p|] s2 Hf; [|by apply wp_ret].
  wp_step. eapply wp_mono; [eapply wp_forward_found; [exact Hf|done|]|].
  - intros Hcr Et. eapply Hsyn; [exact E|done|]. destruct Hcr as [->%negb_true_iff|]; auto.
  - intros rv s3 (L3 & Q3 & Hp & Hs3 & Hs0). destruct (Z.eqb_spec rv 0); simpl; [apply wp_ret; exists L3, Q3; auto|].
    wp_step. eapply wp_mono; [by apply wp_close|]. intros [] s4 Hs4. apply wp_ret. exists L3, Q3.
    eapply inv_weaken; [exact Hs4|set_solver..].
Qed.

Lemma keeps_iter L Q (f : zconn_ptr -> M state Z) l :
  (forall e, e ∈ l -> keeps base L Q ∅ ∅ (f e.2)) -> keeps base L Q ∅ ∅ (iter_until f l).
Proof.
  induction l as [|e l IH]; intros Hf; simpl; [apply tun_keeps_ret|].
  keeps_step; [apply Hf; left|]. destruct (negb _); [apply tun_keeps_ret|]. apply IH. intros e' He'. apply Hf. by right.
Qed.

Lemma keeps_conn_fd L Q rd wr p : p ∈ Q -> keeps base L Q ∅ ∅ (handle_conn_fd rd wr p : M state Z).
Proof.
  intros Hp s Hs. destruct (inv_lookup _ _ _ _ _ _ _ Hs Hp) as (c & Hc & _ & Hcl & _). unfold handle_conn_fd.
  wp_step. eapply wp_zderef; [done|]. cbv zeta.
  destruct (Z.eqb_spec (zc_sock c) INVALID_SOCKET) as [E|E]; [by apply wp_ret|].
  assert (zc_status c < CONN_STATUS_CLOSED) as Hst.
  { destruct (Z.lt_ge_cases (zc_status c) CONN_STATUS_CLOSED); [done|]. exfalso. auto. }
  pose proof (inv_open_live _ _ _ _ _ _ _ _ Hs Hc Hst) as Hlive. destruct (bool_decide _).
  - destruct (_ =? IPPROTO_TCP); [by eapply keeps_handle_tcp_reply|].
    destruct (_ =? IPPROTO_UDP); [by eapply keeps_udp_reply|].
    destruct (_ =? IPPROTO_ICMP); [by eapply keeps_icmp_reply|by apply wp_ret].
  - destruct (_ && _); [|by apply wp_ret].
    destruct (tx_queue c); [by eapply wp_connect_async|by eapply keeps_handle_queued].
Qed.

Lemma wp_handle_fd s rd wr : engine_ok s -> wp (zdtun_handle_fd rd wr) (fun _ => engine_ok) s.
Proof.
  intros (L & Q & Hs). unfold zdtun_handle_fd. wp_step. apply wp_gets.
  eapply wp_mono; [eapply (keeps_iter L Q); [|exact Hs]|intros; by exists L, Q].
  intros e He. apply keeps_conn_fd. eapply table_entries; [apply Hs|exact He].
Qed.

Lemma wp_with_conn s tuple f :
  engine_ok s -> is_byte (ipproto tuple) -> (forall L Q X p, p ∈ Q -> keeps base L Q X ∅ (f p)) ->
  wp (with_conn tuple f) (fun _ => engine_ok) s.
Proof.
  intros (L & Q & Hs) Hb Hf. unfold with_conn. wp_step. eapply wp_mono; [by eapply wp_lookup|].
  intros [p|] s1 Hr; [|by apply wp_ret]. destruct Hr as (L1 & Q1 & c & Hs1 & Hc & _ & Hnew).
  assert (inv L1 Q1 ∅ ∅ s1) as Hs1'.
  { eapply inv_weaken; [eapply inv_not_handled; [exact Hs1|exact Hc|]|set_solver..]. intros E. destruct (Hnew E) as [[|] ?]; [done|by split]. }
  eapply wp_mono; [apply (Hf L1 Q1); [by eapply in_dom|exact Hs1']|]. intros; by exists L1, Q1.
Qed.

Lemma wp_tun_step s ev : engine_ok s -> event_ok ev -> wp (tun_step ev) (fun _ => engine_ok) s.
Proof.
  intros Hs Hev. destruct ev; simpl in *.
  - wp_step. eapply wp_mono; [by apply wp_easy_forward|]. intros r s' Hs'. by apply wp_ret.
  - wp_step. eapply wp_mono; [by apply wp_handle_fd|]. intros r s' Hs'. by apply wp_ret.
  - destruct Hs as (L & Q & Hs). by eapply wp_purge_expired.
  - apply wp_with_conn; [done|done|]. intros L Q X p Hp. unfold zdtun_conn_dnat. keeps_steps.
  - apply wp_with_conn; [done|done|]. intros L Q X p Hp. unfold zdtun_conn_proxy. keeps_steps.
  - apply wp_with_conn; [done|done|]. intros L Q X p Hp. by apply keeps_close.
Qed.

Lemma wp_tun_steps s evs : engine_ok s -> Forall event_ok evs -> wp (for_each tun_step evs) (fun _ => engine_ok) s.
Proof.
  intros Hs Hev. apply wp_for_each; [done|]. intros ev s' Hin Hs'. apply wp_tun_step; [done|].
  by eapply Forall_forall in Hev.
Qed.

Definition start (u : U) (k : kernel) : state := mk_tun_state zdtun_init u k.

(** The user can start, and the servers send no more than it takes at a time. *)
Record start_ok (u : U) (k : kernel) : Prop := {
  so_fds : open_fds k = base;
  so_user : user_inv ∅ ∅ u;
  so_kernel : kernel_ok (U:=U) (D:=D) k
}.

Lemma inv_start u k : start_ok u k -> inv ∅ ∅ ∅ ∅ (start u k).
Proof.
  intros [Hk Hu Hker]. split; simpl; [done| | | | | |done].
  - exists ∅. simpl. split_and!; try done; try set_solver. intros fd p. rewrite lookup_empty. split; [done|].
    by intros (c & Hc & _).
  - unfold table_ok; simpl; split_and!; [constructor|set_solver|done|set_solver].
  - split; simpl; [by apply Forall_nil_2|lia|by intros []].
  - split; [done|]. unfold opens. by rewrite omap_empty.
  - unfold opens. by rewrite omap_empty.
Qed.

Lemma wp_engine_init m proxy auth u k :
  60 <= m <= 65515 -> start_ok u k -> wp (engine_init m proxy auth) (fun _ => engine_ok) (start u k).
Proof.
  intros Hm Hk. pose proof (inv_start u k Hk) as Hs.
  assert (keeps base ∅ ∅ ∅ ∅ (engine_init m proxy auth : M state unit)) as Hkeep.
  { unfold engine_init, zdtun_set_mtu, zdtun_set_socks5_proxy, zdtun_set_socks5_userpass.
    rewrite Z.min_l by (unfold REPLY_BUF_SIZE; lia). keeps_step; [apply keeps_on_tun; intros t; split; try done; intros []; by split|].
    keeps_step; [keeps_steps|]. destruct auth as [[? ?]|]; [|apply tun_keeps_ret].
    apply keeps_on_tun; intros t; split; try done; intros []; split; try done. }
  eapply wp_mono; [by apply Hkeep|]. intros [] s' Hs'. by exists ∅, ∅.
Qed.

Lemma wp_destroy_all (l : list (zdtun_5tuple * zconn_ptr)) L Q s :
  inv L Q ∅ ∅ s -> NoDup (l.*2) -> (forall p, p ∈ Q <-> p ∈ l.*2) ->
  wp (for_each (fun e => destroy_conn e.2) l) (fun _ s' => exists L', inv L' ∅ ∅ ∅ s') s.
Proof.
  revert L Q s. induction l as [|e l IH]; intros L Q s Hs Hnd HQ; simpl.
  - apply wp_ret. exists L. replace ∅ with Q at 1; [done|]. apply set_eq. intros p. rewrite HQ. set_solver.
  - rewrite fmap_cons in Hnd. apply NoDup_cons in Hnd as [Hne Hnd]. wp_step.
    eapply wp_mono; [apply wp_destroy; [exact Hs|apply HQ; left]|]. intros [] s1 Hs1. eapply IH; [|done|].
    + eapply inv_weaken; [exact Hs1|set_solver..].
    + intros p. rewrite elem_of_difference, HQ, fmap_cons, elem_of_cons, elem_of_singleton. split; [tauto|].
      intros Hp. split; [by right|]. congruence.
Qed.

(** Nothing is left: no connection, no descriptor. *)
Record engine_ended (s' : state) : Prop := {
  ee_heap : heap s' = ∅;
  ee_table : conn_table (ts_tun s') = [];
  ee_fds : open_fds (ts_sys s') = base;
  ee_count : num_open_sockets (zt_stats (ts_tun s')) = 0;
  ee_all : all_fds (ts_tun s') = ∅;
  ee_write : write_fds (ts_tun s') = ∅
}.

Lemma inv_ended L s' : inv L ∅ ∅ ∅ s' -> engine_ended s'.
Proof.
  intros [_ (owner & Ho & Hn & _ & Ha & Hw & _ & Hop & _) (_ & Hin & Hdom & _) _ _ _ _].
  assert (heap s' = ∅) as Eh by (apply dom_empty_inv_L; by rewrite Hdom).
  assert (owner = ∅) as ->.
  { apply map_empty. intros fd. destruct (owner !! fd) as [p|] eqn:E; [|done].
    apply Ho in E as (c & Hc & _). by rewrite Eh in Hc. }
  split; [done| |rewrite Hop; set_solver|done|set_solver|set_solver].
  destruct (conn_table (ts_tun s')) as [|e l] eqn:El; [done|]. exfalso. assert (e.2 ∈ (∅ : gset Z)) as He by (apply Hin; left). set_solver.
Qed.

Lemma wp_finalize s :
  engine_ok s -> wp zdtun_finalize (fun _ s' => engine_ended s' /\ user_inv ∅ ∅ (ts_user s')) s.
Proof.
  intros (L & Q & Hs). unfold zdtun_finalize. wp_step. apply wp_gets.
  eapply wp_mono; [eapply wp_destroy_all; [exact Hs|apply Hs|intros p; symmetry; apply Hs]|].
  intros [] s' (L' & Hs'). split; [by eapply inv_ended|].
  eapply user_inv_mono; [apply Hs'|apply map_empty_subseteq..].
Qed.
End steps.

(** ** Properties *)

(** C7: the engine is memory safe and keeps its sockets straight, under
    conditions outside of which the code has undefined behaviours (see the
    findings): the MTU is between 60 and 65515, the packets of the client are in
    their buffer and the options of their SYN segments are well formed, with an
    MSS and a scale in range, and the servers send at most [reply_limit] bytes
    at a time. Then with any number of packets of the client, of answers of the
    kernel and calls of the API in any order, there is no undefined behaviour
    (no dangling or null pointer, no access out of the reply buffer or of a
    packet, no undefined shift), and at every point each open descriptor of the
    engine is the socket of exactly one connection, a descriptor that select can
    watch; there are at most 128; the counter counts them; the sets for select
    only hold open descriptors, all at most [all_max_fd]; the descriptors of the
    rest of the process are left alone. The callbacks get the data of
    connections that are open, or that end, and keep the invariant of the
    user. *)
Theorem engine_safe (base : gset Z) m proxy auth evs u k :
  60 <= m <= 65515 -> start_ok base u k -> Forall event_ok evs ->
  wp (engine_init m proxy auth;; for_each tun_step evs)
     (fun _ s' => sockets_ok base s' /\
        user_inv (opens (zt_heap (ts_tun s'))) (opens (zt_heap (ts_tun s'))) (ts_user s')) (start u k).
Proof.
  intros Hm Hk Hev. wp_step. eapply wp_mono; [by eapply wp_engine_init|]. intros [] s Hs.
  eapply wp_mono; [by apply wp_tun_steps|]. intros [] s' (L & Q & Hs'). split; [apply Hs'|].
  apply (inv_reset base L Q ∅ ∅ s' Hs').
Qed.

(** C8: the engine ends and releases what it opened: after any run
    [zdtun_finalize] terminates with no connection left, every socket closed
    exactly (the open descriptors are those of the start) and the counter at
    zero. *)
Theorem engine_releases (base : gset Z) m proxy auth evs u k :
  60 <= m <= 65515 -> start_ok base u k -> Forall event_ok evs ->
  wp (engine_init m proxy auth;; for_each tun_step evs;; zdtun_finalize)
     (fun _ s' => engine_ended base s' /\ user_inv ∅ ∅ (ts_user s')) (start u k).
Proof.
  intros Hm Hk Hev. wp_step. eapply wp_mono; [by eapply wp_engine_init|]. intros [] s Hs. wp_step.
  eapply wp_mono; [by apply wp_tun_steps|]. intros [] s' Hs'. by apply wp_finalize.
Qed.
End engine.

(** ** A run *)

(** A user that takes every packet and records it. *)
#[export] Instance ex_callbacks : Callbacks (list zdtun_pkt) unit := {
  send_client pkt _ u := Some (0, u ++ [pkt]);
  account_packet _ _ _ u := Some (tt, u);
  on_socket_open _ u := Some (tt, u);
  on_socket_close _ u := Some (tt, u);
  on_connection_open _ u := Some ((0, Some tt), u);
  on_connection_close _ u := Some (tt, u)
}.
#[export] Instance ex_callbacks_safe : SafeCallbacks (list zdtun_pkt) unit.
Proof.
  refine {| user_inv := fun _ _ _ => True; may_park := false; reply_limit := REPLY_BUF_SIZE |}; try done.
Defined.

(** A SYN 10.0.0.1:40000 -> 1.2.3.4:80 with an MSS of 1460. *)
Definition ex_syn : bytes :=
  [0x45; 0; 0; 44; 0; 1; 0x40; 0; 64; 6; 0; 0; 10; 0; 0; 1; 1; 2; 3; 4;
   0x9c; 0x40; 0; 80; 0; 0; 0x10; 0; 0; 0; 0; 0; 0x60; 0x02; 0xff; 0xff; 0; 0; 0; 0; 2; 4; 5; 0xb4].
Definition ex_tuple : zdtun_5tuple := mk_5tuple 16777226 67305985 16540 20480 4 6.
(** Descriptors 0 to 2 are open; connect does not end at once. *)
Definition ex_kernel : kernel :=
  mk_kernel [mk_outcome 0 5 []; success; mk_outcome EINPROGRESS 0 []] {[0; 1; 2]} [].
Definition ex_events : list tun_event :=
  [EvForward ex_syn 44; EvReady ∅ {[3]}; EvProxy ex_tuple; EvReady {[3]} ∅; EvPurge; EvClose ex_tuple 3].

Lemma ex_syn_ok : forward_ok ex_syn 44.
Proof.
  split_and!; [by repeat constructor|done|done|done|].
  intros ids pkt ids' E. assert (zdtun_parse_pkt ids ex_syn 44 = Some (inr (mk_pkt ex_tuple 0 44 20 24 0 ex_syn), ids)) as E'
    by reflexivity.
  rewrite E in E'. injection E' as -> ->. intros _ _ off mss0. simpl. intros [= <-] _.
  exists 1460, 0. split_and!; by vm_compute.
Qed.

Lemma ex_run_ok : Forall event_ok ex_events.
Proof. repeat constructor; simpl; try done; apply ex_syn_ok. Qed.

Lemma ex_start_ok : start_ok {[0; 1; 2]} [] ex_kernel.
Proof. split; [done|done|]. repeat constructor; done. Qed.

Lemma engine_safe_witness :
  wp (engine_init 1500 (mk_proxy 0 0 4) None;; for_each tun_step ex_events)
     (fun _ (s' : tun_state _ unit) => sockets_ok {[0; 1; 2]} s' /\
        user_inv (opens (zt_heap (ts_tun s'))) (opens (zt_heap (ts_tun s'))) (ts_user s')) (start [] ex_kernel).
Proof. apply engine_safe; [lia|exact ex_start_ok|exact ex_run_ok]. Defined.

Lemma engine_releases_witness :
  wp (engine_init 1500 (mk_proxy 0 0 4) None;; for_each tun_step ex_events;; zdtun_finalize)
     (fun _ (s' : tun_state _ unit) => engine_ended {[0; 1; 2]} s' /\ user_inv ∅ ∅ (ts_user s')) (start [] ex_kernel).
Proof. apply engine_releases; [lia|exact ex_start_ok|exact ex_run_ok]. Defined.
