(* ===== verification/ZdtunReply.v ===== *)
(** The TCP segments that the engine of zdtun builds for the client: they are
    parsed back, with valid checksums. *)
From Stdlib Require Import ZArith Lia.
From stdpp Require Import base option gmap numbers list.
From S2P Require Import Prelude Packet Uthash PcapDump Blacklist NdpiProtos Conn Checksum Kernel Zdtun ZdtunFwd.
From S2P Require Import ZdtunInv ZdtunSafe.

Open Scope Z_scope.

(** ** The buffer as a store of bytes *)
Lemma buf_get_nth off n buf :
  0 <= off -> buf_get off n buf = (fun i => nth (Z.to_nat off + i) buf 0) <$> seq 0 (Z.to_nat n).
Proof.
  intros Ho. unfold buf_get. apply list_eq. intros i. rewrite list_lookup_fmap.
  destruct (decide (i < Z.to_nat n)%nat) as [Hi|Hi].
  - rewrite lookup_take_lt, lookup_seq_lt by done. simpl.
    rewrite nth_lookup. destruct (decide (i < length (drop (Z.to_nat off) buf))%nat) as [Hl|Hl].
    + rewrite lookup_app_l, lookup_drop by done. rewrite length_drop in Hl.
      destruct (lookup_lt_is_Some_2 buf (Z.to_nat off + i)) as [x ->]; [lia|done].
    + rewrite lookup_app_r by lia. rewrite lookup_replicate_2 by lia. rewrite length_drop in Hl.
      rewrite (lookup_ge_None_2 buf) by lia. done.
  - rewrite lookup_take_ge, lookup_seq_ge by lia. done.
Qed.

Lemma nth_put off bs buf buf' i :
  buf_put off bs buf = Some buf' ->
  nth i buf' 0 = if (Z.to_nat off <=? i)%nat && (i <? Z.to_nat off + length bs)%nat
                 then nth (i - Z.to_nat off) bs 0 else nth i buf 0.
Proof.
  unfold buf_put. destruct (Z.ltb_spec off 0); [done|]. destruct (_ <? _); [done|]. simpl. intros [= <-].
  assert (length (buf_get 0 off buf) = Z.to_nat off) as Hlen.
  { pose proof (blen_buf_get 0 off buf ltac:(lia)). unfold blen in *. lia. }
  destruct (Nat.leb_spec (Z.to_nat off) i) as [Hi|Hi]; simpl.
  - rewrite app_nth2, Hlen by lia. destruct (Nat.ltb_spec i (Z.to_nat off + length bs)).
    + by rewrite app_nth1 by lia.
    + rewrite app_nth2 by lia. rewrite !nth_lookup, lookup_drop. f_equal. f_equal. unfold blen in *. lia.
  - rewrite app_nth1 by lia. rewrite buf_get_nth by lia. rewrite !nth_lookup, list_lookup_fmap, lookup_seq_lt by lia.
    simpl. by rewrite nth_lookup.
Qed.

Lemma buf_get_same off bs buf buf' : buf_put off bs buf = Some buf' -> buf_get off (blen bs) buf' = bs.
Proof.
  intros E. assert (0 <= off) by (unfold buf_put in E; destruct (Z.ltb_spec off 0); [done|lia]).
  rewrite buf_get_nth by done. apply list_eq. intros i. rewrite list_lookup_fmap. unfold blen. rewrite Nat2Z.id.
  destruct (decide (i < length bs)%nat) as [Hi|Hi].
  - rewrite lookup_seq_lt by done. simpl. rewrite (nth_put _ _ _ _ _ E).
    destruct (Nat.leb_spec (Z.to_nat off) (Z.to_nat off + i)), (Nat.ltb_spec (Z.to_nat off + i) (Z.to_nat off + length bs)); try lia.
    simpl. replace (Z.to_nat off + i - Z.to_nat off)%nat with i by lia.
    destruct (lookup_lt_is_Some_2 bs i Hi) as [x Hx]. by rewrite nth_lookup, Hx.
  - rewrite lookup_seq_ge by lia. rewrite lookup_ge_None_2 by lia. done.
Qed.

Lemma buf_get_other off bs buf buf' o n :
  buf_put off bs buf = Some buf' -> 0 <= o -> o + n <= off \/ off + blen bs <= o ->
  buf_get o n buf' = buf_get o n buf.
Proof.
  intros E Ho Hd. assert (0 <= off) by (unfold buf_put in E; destruct (Z.ltb_spec off 0); [done|lia]).
  rewrite !buf_get_nth by done. apply list_fmap_ext. intros i j Hi%lookup_seq. rewrite (nth_put _ _ _ _ _ E).
  unfold blen in Hd.
  destruct (Nat.leb_spec (Z.to_nat off) (Z.to_nat o + j)), (Nat.ltb_spec (Z.to_nat o + j) (Z.to_nat off + length bs)); simpl; try done; lia.
Qed.

Lemma buf_get_split off a b buf :
  0 <= off -> 0 <= a -> 0 <= b -> buf_get off (a + b) buf = buf_get off a buf ++ buf_get (off + a) b buf.
Proof.
  intros Ho Ha Hb. rewrite !buf_get_nth by lia. rewrite (Z2Nat.inj_add a b), seq_app, fmap_app by done. f_equal.
  simpl. rewrite <- (Nat.add_0_r (Z.to_nat a)) at 1. rewrite <- fmap_add_seq, <- list_fmap_compose.
  apply list_fmap_ext. intros i j _. simpl. f_equal. lia.
Qed.

(** ** The packet *)
Definition hdr_len (ver : Z) : Z := if ver =? 4 then 20 else 40.
Definition ip_max (ver : Z) : Z := if ver =? 4 then 2 ^ 32 else 2 ^ 128.

(** A connection of a transport protocol, whose packets are of the version [ver]. *)
Record tuple_ok (proto ver : Z) (tuple : zdtun_5tuple) : Prop := {
  tw_ver : ver = 4 \/ ver = 6;
  tw_ipver : ipver tuple = ver;
  tw_proto : ipproto tuple = proto;
  tw_src : 0 <= src_ip tuple < ip_max ver;
  tw_dst : 0 <= dst_ip tuple < ip_max ver;
  tw_sport : is_u16 (src_port tuple);
  tw_dport : is_u16 (dst_port tuple)
}.

Section packet.
Context {D : Type} (ver : Z) (c : zdtun_conn D) (flags optsoff window : Z) (rest : bytes).
Abbreviation tuple := (zc_tuple c).

(** [rest]: the options and the payload. *)
Definition l3_of (check : Z) : bytes := tcp_header c flags optsoff window check ++ rest.
Definition reply_iphdr : bytes := zdtun_make_iphdr ver tuple (20 + blen rest).
Definition tcp_packet : bytes :=
  reply_iphdr ++ l3_of (zdtun_l3_checksum ver (ipproto tuple) reply_iphdr (l3_of 0)).

Definition tuple_wf : Prop := tuple_ok IPPROTO_TCP ver tuple.

Hypothesis Hwf : tuple_wf.
Hypothesis Hopts : 0 <= optsoff <= 10.
Hypothesis Hrest : 4 * optsoff <= blen rest <= 65475.

Lemma hdr_blen : blen reply_iphdr = hdr_len ver.
Proof. apply blen_iphdr. Qed.

Lemma blen_l3 check : blen (l3_of check) = 20 + blen rest.
Proof. unfold l3_of. by rewrite blen_app, blen_tcp_header. Qed.

Lemma blen_packet : blen tcp_packet = hdr_len ver + 20 + blen rest.
Proof. unfold tcp_packet. rewrite blen_app, hdr_blen, blen_l3. lia. Qed.
End packet.

Lemma rd128_le p z s off : off = blen p -> 0 <= z < 2 ^ 128 -> rd128 (p ++ le_split 16 z ++ s) off = Some z.
Proof.
  intros -> Hz. unfold rd128. pose proof (blen_nonneg p). pose proof (blen_nonneg s).
  rewrite rdn_Some; [|lia..|autorewrite with blen; lia].
  rewrite slice_app_mid; [|done|by rewrite blen_le_split]. change (Some (le_combine (le_split 16 z)) = Some z).
  rewrite le_combine_split. by rewrite Z.mod_small.
Qed.

Lemma rd8_cons0 x l : rd8 (x :: l) 0 = Some x.
Proof. done. Qed.

(** The IP header read back. *)
Definition made_il (ver proto n : Z) tuple : ip_layer := mk_ip_layer (hdr_len ver) n (dst_ip tuple) (src_ip tuple) proto 0.

Lemma parse_ip_reply proto ver tuple l3 n :
  tuple_ok proto ver tuple -> proto = IPPROTO_TCP \/ proto = IPPROTO_UDP -> n = hdr_len ver + blen l3 -> blen l3 <= 65495 ->
  (if ver =? 4 then parse_ip4 else parse_ip6) (zdtun_make_iphdr ver tuple (blen l3) ++ l3) n =
    Some (inr (made_il ver proto n tuple)).
Proof.
  intros [Hver Hip Hproto Hsrc Hdst _ _] Hpr -> Hl. pose proof (blen_nonneg l3).
  unfold made_il, hdr_len, ip_max, zdtun_make_iphdr in *. destruct Hver as [-> | ->]; cbn [Z.eqb Pos.eqb] in *.
  - set (t := tuple) in *. set (check := not16 _). unfold iphdr4, IPV4_HEADER_LEN.
    rewrite (u16_small (blen l3 + 20)) by lia. set (tot := htons (blen l3 + 20)). set (buf := _ ++ l3).
    assert (rd16 buf 2 = Some tot) as E2 by (apply (rd16_le16 [0x45; 0] tot (drop 4 buf)); [done|apply swap16_range]).
    assert (rd32 buf 12 = Some (dst_ip t)) as E12 by (apply (rd32_field (take 12 buf) (dst_ip t) (drop 16 buf)); done).
    assert (rd32 buf 16 = Some (src_ip t)) as E16 by (apply (rd32_field (take 16 buf) (src_ip t) (drop 20 buf)); done).
    unfold parse_ip4. change (rd8 buf 0) with (Some 0x45). cbn [mbind option_bind].
    change (Z.land 69 15 * 4) with 20. destruct (Z.ltb_spec (20 + blen l3) 20); [lia|]. rewrite E2. cbn [mbind option_bind].
    assert (ntohs tot = blen l3 + 20) as -> by (apply swap16_involutive; lia).
    destruct (Z.ltb_spec (blen l3 + 20) 20); [lia|]. rewrite E12. cbn [mbind option_bind]. rewrite E16. cbn [mbind option_bind].
    change (rd8 buf 9) with (Some (ipproto t)). cbn [mbind option_bind]. change (rd16 buf 6) with (Some 64). cbn [mbind option_bind].
    rewrite Hproto. change (has_flag 64 (htons 8191)) with false. change (has_flag 64 (htons 8192)) with false.
    cbv iota. do 3 f_equal. lia.
  - set (t := tuple) in *. rewrite (u16_small (blen l3)) by lia. set (plen := htons (blen l3)). rewrite Hproto.
    assert ((if proto =? IPPROTO_ICMP then IPPROTO_ICMPV6 else proto) = proto) as -> by (by destruct Hpr as [-> | ->]).
    set (buf := _ ++ l3).
    assert (rd16 buf 4 = Some plen) as E4 by (apply (rd16_le16 [0x60; 0; 0; 0] plen (drop 6 buf)); [done|apply swap16_range]).
    assert (rd128 buf 8 = Some (dst_ip t)) as E8 by (apply (rd128_le (take 8 buf) (dst_ip t) (drop 24 buf)); done).
    assert (rd128 buf 24 = Some (src_ip t)) as E24 by (apply (rd128_le (take 24 buf) (src_ip t) (drop 40 buf)); done).
    unfold parse_ip6, IPV6_HEADER_LEN. destruct (Z.ltb_spec (40 + blen l3) 40); [lia|].
    change (rd8 buf 6) with (Some proto). cbn [mbind option_bind]. rewrite E4. cbn [mbind option_bind]. rewrite E8. cbn [mbind option_bind].
    rewrite E24. cbn [mbind option_bind]. assert (ntohs plen = blen l3) as -> by (apply swap16_involutive; lia).
    destruct Hpr as [-> | ->]; cbn; do 3 f_equal; lia.
Qed.

Lemma blen_made ver tuple l3 : blen (zdtun_make_iphdr ver tuple (blen l3) ++ l3) = hdr_len ver + blen l3.
Proof. by rewrite blen_app, blen_iphdr. Qed.

(** A packet with an IP header that the code made: the transport decides. *)
Lemma parse_made ids proto ver tuple l3 l4 sport dport :
  tuple_ok proto ver tuple -> proto = IPPROTO_TCP \/ proto = IPPROTO_UDP -> blen l3 <= 65495 ->
  let buf := zdtun_make_iphdr ver tuple (blen l3) ++ l3 in
  let il := made_il ver proto (blen buf) tuple in
  parse_l4 buf il = Some (inr (l4, sport, dport)) ->
  zdtun_parse_pkt ids buf (blen buf) = Some (inr (build_pkt buf ver il l4 sport dport), ids).
Proof.
  intros Ht Hpr Hl buf il Hl4. pose proof (blen_made ver tuple l3) as Hb. fold buf in Hb. pose proof (blen_nonneg l3).
  assert (20 <= hdr_len ver) by (unfold hdr_len; destruct (ver =? 4); lia).
  unfold zdtun_parse_pkt, IPV4_HEADER_LEN. destruct (Z.ltb_spec (blen buf) 20); [lia|].
  assert (exists b0, rd8 buf 0 = Some b0 /\ Z.shiftr b0 4 = ver) as (b0 & -> & Eb0).
  { unfold buf, zdtun_make_iphdr. destruct (tw_ver _ _ _ Ht) as [-> | ->]; eexists; by split. }
  cbn [mbind option_bind]. rewrite Eb0.
  assert (negb (ver =? 4) && negb (ver =? 6) = false) as -> by (by destruct (tw_ver _ _ _ Ht) as [-> | ->]).
  pose proof (parse_ip_reply proto ver tuple l3 (blen buf) Ht Hpr Hb Hl) as Hip. fold buf il in Hip.
  assert ((if ver =? 4 then parse_ip4 buf (blen buf) else parse_ip6 buf (blen buf)) = Some (inr il)) as -> by (by destruct (ver =? 4)).
  cbn [mbind option_bind]. change (is_later_fragment (il_flags il)) with false. cbv iota. rewrite Hl4. cbn [mbind option_bind].
  by change (has_flag (il_flags il) ZDTUN_PKT_IS_FIRST_FRAGMENT) with false.
Qed.

Lemma rd16_app_r a b off : blen a <= off -> rd16 (a ++ b) off = rd16 b (off - blen a).
Proof.
  intros Ho. unfold rd16. rewrite !rd8_app_r by lia. by replace (off + 1 - blen a) with (off - blen a + 1) by lia.
Qed.

Lemma rd32_app_r a b off : blen a <= off -> rd32 (a ++ b) off = rd32 b (off - blen a).
Proof.
  intros Ho. unfold rd32. rewrite !rd16_app_r by lia. by replace (off + 2 - blen a) with (off - blen a + 2) by lia.
Qed.

(** What a packet says. *)
Record reply_view {D} ver (c : zdtun_conn D) flags optsoff (rest buf : bytes) (pkt : zdtun_pkt) : Prop := {
  rv_tuple : pkt_tuple pkt = tupleSwapPeers (zc_tuple c);
  rv_flags : pkt_flags pkt = 0;
  rv_len : pkt_len pkt = blen buf;
  rv_buf : pkt_buf pkt = buf;
  rv_payload : rdn buf (l7_off pkt) (l7_len pkt) = Some (drop (Z.to_nat (4 * optsoff)) rest);
  rv_seq : ntohl <$> rd32 buf (ip_hdr_len pkt + 4) = Some (zdtun_seq c);
  rv_ack : has_flag flags TH_ACK = true -> ntohl <$> rd32 buf (ip_hdr_len pkt + 8) = Some (client_seq c);
  rv_th : th_flags pkt = Some (u8 flags);
  rv_ip_sum : ver = 4 -> internet_sum (slice buf 0 20) 0 = 0xFFFF;
  rv_sum : internet_sum (rfc_pseudo ver (dst_ip (zc_tuple c)) (src_ip (zc_tuple c)) IPPROTO_TCP (20 + blen rest) ++
                         drop (Z.to_nat (hdr_len ver)) buf) 0 = 0xFFFF
}.

Section parse_reply.
Context {D : Type} (ver : Z) (c : zdtun_conn D) (flags optsoff window : Z) (rest : bytes).
Hypothesis Hwf : tuple_wf ver c.
Hypothesis Hopts : 0 <= optsoff <= 10.
Hypothesis Hrest : 4 * optsoff <= blen rest <= 65475.
Abbreviation buf := (tcp_packet ver c flags optsoff window rest).
Abbreviation n := (hdr_len ver + 20 + blen rest).
Abbreviation tuple := (zc_tuple c).
Abbreviation check := (zdtun_l3_checksum ver (ipproto tuple) (reply_iphdr ver c rest) (l3_of c flags optsoff window rest 0)).

Lemma hdr_len_cases : hdr_len ver = 20 \/ hdr_len ver = 40.
Proof. unfold hdr_len. destruct (ver =? 4); auto. Qed.

(** The TCP header is at the end of the IP header. *)
Lemma tcp_hdr_rd8 k v : 0 <= k -> rd8 (l3_of c flags optsoff window rest check) k = Some v -> rd8 buf (hdr_len ver + k) = Some v.
Proof.
  intros Hk Hv. unfold tcp_packet. rewrite rd8_app_r by (rewrite hdr_blen; lia). rewrite hdr_blen.
  by replace (hdr_len ver + k - hdr_len ver) with k by lia.
Qed.

Lemma tcp_hdr_rd16 k : 0 <= k -> rd16 buf (hdr_len ver + k) = rd16 (l3_of c flags optsoff window rest check) k.
Proof.
  intros Hk. unfold tcp_packet. rewrite rd16_app_r by (rewrite hdr_blen; lia). rewrite hdr_blen. f_equal. lia.
Qed.

Lemma tcp_hdr_rd32 k : 0 <= k -> rd32 buf (hdr_len ver + k) = rd32 (l3_of c flags optsoff window rest check) k.
Proof.
  intros Hk. unfold tcp_packet. rewrite rd32_app_r by (rewrite hdr_blen; lia). rewrite hdr_blen. f_equal. lia.
Qed.

Definition reply_pkt : zdtun_pkt :=
  mk_pkt (tupleSwapPeers tuple) 0 n (hdr_len ver) (20 + 4 * optsoff) (blen rest - 4 * optsoff) buf.

Lemma parse_l4_reply :
  parse_l4 buf (mk_ip_layer (hdr_len ver) n (dst_ip tuple) (src_ip tuple) IPPROTO_TCP 0) =
  Some (inr (20 + 4 * optsoff, dst_port tuple, src_port tuple)).
Proof.
  destruct Hwf. pose proof hdr_len_cases. unfold parse_l4, TCP_HEADER_LEN. cbn [il_hdr_len il_len il_proto].
  change (IPPROTO_TCP =? IPPROTO_TCP) with true. cbv iota.
  destruct (Z.ltb_spec n (hdr_len ver + 20)); [lia|].
  rewrite (tcp_hdr_rd8 12 (u8 (16 * (5 + optsoff)))); [|lia|reflexivity]. cbn [mbind option_bind].
  assert (Z.shiftr (u8 (16 * (5 + optsoff))) 4 * 4 = 20 + 4 * optsoff) as ->.
  { unfold u8. rewrite Z.mod_small by lia. rewrite Z.shiftr_div_pow2 by lia. change (2 ^ 4) with 16.
    replace (16 * (5 + optsoff)) with ((5 + optsoff) * 16) by lia. rewrite Z.div_mul by lia. lia. }
  destruct (Z.ltb_spec n (hdr_len ver + (20 + 4 * optsoff))); [lia|].
  assert (rd16 (l3_of c flags optsoff window rest check) 0 = Some (dst_port tuple)) as E0.
  { unfold l3_of, tcp_header. rewrite <- !app_assoc. by apply (rd16_le16 []). }
  assert (rd16 (l3_of c flags optsoff window rest check) 2 = Some (src_port tuple)) as E2.
  { unfold l3_of, tcp_header. rewrite <- !app_assoc. by apply (rd16_le16 (le16 (dst_port tuple))). }
  rewrite <- (Z.add_0_r (hdr_len ver)) at 1. rewrite !tcp_hdr_rd16 by lia. by rewrite E0, E2.
Qed.

Lemma parse_reply ids : zdtun_parse_pkt ids buf n = Some (inr reply_pkt, ids).
Proof.
  pose proof hdr_len_cases. pose proof (blen_nonneg rest).
  assert (buf = zdtun_make_iphdr ver tuple (blen (l3_of c flags optsoff window rest check)) ++ l3_of c flags optsoff window rest check) as E
    by (by rewrite blen_l3).
  pose proof (parse_made ids IPPROTO_TCP ver tuple (l3_of c flags optsoff window rest check) (20 + 4 * optsoff) (dst_port tuple) (src_port tuple)
    Hwf ltac:(auto) ltac:(rewrite blen_l3; lia)) as Hp. cbv zeta in Hp. rewrite <- E, blen_packet in Hp.
  rewrite Hp by exact parse_l4_reply. unfold build_pkt, reply_pkt, tupleSwapPeers, made_il. cbn [il_src il_dst il_proto il_flags il_len il_hdr_len].
  destruct Hwf as [? Hipv Hpr ? ? ? ?]. rewrite Hipv, Hpr. rewrite u16_small by lia. do 4 f_equal. lia.
Qed.
End parse_reply.

Lemma drop_blen_app (a b : bytes) : drop (Z.to_nat (blen a)) (a ++ b) = b.
Proof. by apply drop_app_blen. Qed.

Lemma reply_viewed {D} ver (c : zdtun_conn D) flags optsoff window rest :
  tuple_wf ver c -> 0 <= optsoff <= 10 -> 4 * optsoff <= blen rest <= 65475 -> wf_bytes rest ->
  0 <= zdtun_seq c < 2 ^ 32 -> 0 <= client_seq c < 2 ^ 32 ->
  reply_view ver c flags optsoff rest (tcp_packet ver c flags optsoff window rest) (reply_pkt ver c flags optsoff window rest).
Proof.
  intros Hwf Ho Hr Hwr Hseq Hack. pose proof (hdr_len_cases ver) as Hh. pose proof (hdr_blen ver c rest) as Hhb.
  set (buf := tcp_packet ver c flags optsoff window rest).
  assert (blen buf = hdr_len ver + 20 + blen rest) as Hb by apply blen_packet.
  assert (drop (Z.to_nat (hdr_len ver)) buf =
          l3_of c flags optsoff window rest (zdtun_l3_checksum ver (ipproto (zc_tuple c)) (reply_iphdr ver c rest) (l3_of c flags optsoff window rest 0)))
    as Hdrop by (unfold buf, tcp_packet; rewrite <- Hhb; apply drop_blen_app).
  split; try done.
  - unfold l7_off. simpl. fold buf. rewrite rdn_Some by lia. f_equal. unfold slice.
    rewrite Z2Nat.inj_add, <- drop_drop by lia. rewrite Hdrop. unfold l3_of.
    rewrite Z2Nat.inj_add, <- drop_drop by lia. rewrite (drop_app_blen _ rest 20) by (by rewrite blen_tcp_header).
    apply take_ge. rewrite length_drop. unfold blen in *. lia.
  - simpl. unfold buf. rewrite tcp_hdr_rd32 by lia. unfold l3_of, tcp_header. rewrite <- !app_assoc.
    rewrite (app_assoc (le16 _)), rd32_field; [|apply swap32_range|done]. simpl. f_equal. by apply swap32_involutive.
  - intros Hf. simpl. unfold buf. rewrite tcp_hdr_rd32 by lia. unfold l3_of, tcp_header. rewrite Hf, <- !app_assoc.
    rewrite (app_assoc (le16 _)), (app_assoc (le16 _ ++ le16 _)), rd32_field; [|apply swap32_range|done].
    simpl. f_equal. by apply swap32_involutive.
  - unfold th_flags. simpl. apply tcp_hdr_rd8; [lia|reflexivity].
  - intros ->. unfold slice. rewrite drop_0. unfold buf, tcp_packet.
    assert (length (reply_iphdr 4 c rest) = 20%nat) as Hl by (unfold blen in Hhb; change (hdr_len 4) with 20 in Hhb; lia).
    change (Z.to_nat 20) with 20%nat. rewrite <- Hl, take_app_length. apply iphdr4_valid. rewrite (tw_proto _ _ _ Hwf). done.
  - rewrite Hdrop.
    set (before := le16 (dst_port (zc_tuple c)) ++ le16 (src_port (zc_tuple c)) ++ le32 (htonl (zdtun_seq c)) ++
      le32 (if has_flag flags TH_ACK then htonl (client_seq c) else 0) ++ [u8 (16 * (5 + optsoff)); u8 flags] ++ le16 window).
    assert (forall check, l3_of c flags optsoff window rest check = before ++ le16 check ++ (le16 0 ++ rest)) as El3
      by (intros check; unfold l3_of, tcp_header, before; by rewrite <- !app_assoc).
    pose proof (l3_checksum_valid ver (zc_tuple c) before (le16 0 ++ rest)) as Hv. cbv beta zeta in Hv.
    rewrite <- !El3, blen_l3, (tw_proto _ _ _ Hwf) in Hv. unfold reply_iphdr. rewrite (tw_proto _ _ _ Hwf).
    apply Hv; [done| |done|lia]. unfold l3_of. apply wf_bytes_app; [apply wf_tcp_header|done].
Qed.

(** ** From the state of the engine *)
Section build.
Context {U D : Type} `{Callbacks U D}.
Abbreviation state := (tun_state U D).
Abbreviation zconn := (zdtun_conn D).
Implicit Types (s : state) (p : zconn_ptr) (c : zconn).
Abbreviation heap s := (zt_heap (ts_tun s)).

(** The IP version towards the server. *)
Definition sock_ver (t : zdtun D) c : option Z :=
  match zc_proxy_mode c with
  | PROXY_DNAT => px_ipver <$> zc_dnat c
  | PROXY_SOCKS5 => Some (px_ipver (socks5 t))
  | PROXY_NONE => Some (ipver (zc_tuple c))
  end.

Lemma wp_sock_ipver p c v (R : Z -> state -> Prop) s :
  heap s !! p = Some c -> sock_ver (ts_tun s) c = Some v -> R v s -> wp (sock_ipver p) R s.
Proof.
  intros Hc Hv HR. unfold sock_ipver. wp_step. eapply wp_zderef; [done|]. unfold sock_ver in Hv.
  destruct (zc_proxy_mode c); [by injection Hv as ->| |].
  - destruct (zc_dnat c) as [px|]; [|done]. injection Hv as <-. wp_step. by apply wp_ret.
  - injection Hv as <-. wp_step. apply wp_gets. by apply wp_ret.
Qed.

Lemma wp_iphdr_len p c v (R : Z -> state -> Prop) s :
  heap s !! p = Some c -> sock_ver (ts_tun s) c = Some v -> R (hdr_len v) s -> wp (zdtun_iphdr_len p) R s.
Proof. intros Hc Hv HR. unfold zdtun_iphdr_len. wp_step. eapply wp_sock_ipver; [done..|]. by wp_step. Qed.

Lemma wp_put off bs (R : unit -> state -> Prop) s :
  0 <= off -> off + blen bs <= REPLY_BUF_SIZE ->
  (forall b, buf_put off bs (reply_buf (ts_tun s)) = Some b -> R tt (set_tun (fun t => t <| reply_buf := b |>) s)) ->
  wp (put off bs) R s.
Proof.
  intros Ho Hl HR. unfold put. wp_step. apply wp_gets.
  assert (exists b, buf_put off bs (reply_buf (ts_tun s)) = Some b) as [b Eb].
  { unfold buf_put. destruct (Z.ltb_spec off 0); [lia|]. destruct (Z.ltb_spec REPLY_BUF_SIZE (off + blen bs)); [lia|]. simpl. eauto. }
  wp_step. eapply wp_of_option; [done|]. unfold on_tun. wp_step. by apply HR.
Qed.

Lemma wp_sndbuf p c (R : Z -> state -> Prop) s :
  heap s !! p = Some c -> (forall v k, sys_log k = sys_log (ts_sys s) -> R v (s <| ts_sys := k |>)) ->
  wp (get_available_sndbuf p) R s.
Proof.
  intros Hc HR. unfold get_available_sndbuf. wp_step. eapply wp_zderef; [done|].
  wp_step. apply wp_sys. wp_step. apply wp_sys. wp_step. by apply HR.
Qed.

Lemma three_puts ver c flags optsoff window rest b b1 b2 b3 :
  0 <= blen rest -> buf_get (hdr_len ver + 20) (blen rest) b = rest ->
  buf_put (hdr_len ver) (tcp_header c flags optsoff window 0) b = Some b1 ->
  buf_put 0 (reply_iphdr ver c rest) b1 = Some b2 ->
  buf_put (hdr_len ver) (tcp_header c flags optsoff window
    (zdtun_l3_checksum ver (ipproto (zc_tuple c)) (reply_iphdr ver c rest)
       (buf_get (hdr_len ver) (20 + blen rest) b2))) b2 = Some b3 ->
  buf_get 0 (hdr_len ver + 20 + blen rest) b3 = tcp_packet ver c flags optsoff window rest.
Proof.
  intros Hr Hbuf E1 E2 E3. pose proof (hdr_len_cases ver) as Hh. pose proof (hdr_blen ver c rest) as Hih.
  assert (buf_get (hdr_len ver) (20 + blen rest) b2 = l3_of c flags optsoff window rest 0) as El3.
  { rewrite (buf_get_other _ _ _ _ _ _ E2) by (rewrite ?Hih; lia). rewrite buf_get_split by lia. unfold l3_of. f_equal.
    - rewrite <- (blen_tcp_header c flags optsoff window 0). by eapply buf_get_same.
    - rewrite <- Hbuf at 2. eapply buf_get_other; [exact E1|lia|rewrite blen_tcp_header; lia]. }
  rewrite El3 in E3. set (check := zdtun_l3_checksum _ _ _ _) in E3.
  rewrite <- Z.add_assoc, buf_get_split by lia. unfold tcp_packet. f_equal.
  - rewrite (buf_get_other _ _ _ _ _ _ E3) by lia. rewrite <- Hih. by eapply buf_get_same.
  - rewrite Z.add_0_l, buf_get_split by lia. unfold l3_of. f_equal.
    + rewrite <- (blen_tcp_header c flags optsoff window check). by eapply buf_get_same.
    + rewrite (buf_get_other _ _ _ _ _ _ E3) by (rewrite ?blen_tcp_header; lia).
      rewrite buf_get_split in El3 by lia. unfold l3_of in El3.
      apply app_inj_1 in El3 as [_ El3]; [done|].
      pose proof (blen_buf_get (hdr_len ver) 20 b2 ltac:(lia)) as Hl. pose proof (blen_tcp_header c flags optsoff window 0).
      unfold blen in *. lia.
Qed.

(** The segment over what the buffer has after the header. *)
Lemma wp_build_reply p c flags l4_len optsoff ver rest (R : unit -> state -> Prop) s :
  heap s !! p = Some c -> sock_ver (ts_tun s) c = Some ver -> ver = 4 \/ ver = 6 -> 0 <= window_scale c < 32 ->
  0 <= blen rest <= 65475 -> l4_len + optsoff * 4 = blen rest ->
  buf_get (hdr_len ver + 20) (blen rest) (reply_buf (ts_tun s)) = rest ->
  (forall window b k,
     buf_get 0 (hdr_len ver + 20 + blen rest) b = tcp_packet ver c flags optsoff window rest ->
     sys_log k = sys_log (ts_sys s) -> R tt ((set_tun (fun t => t <| reply_buf := b |>) s) <| ts_sys := k |>)) ->
  wp (build_reply_tcpip p flags l4_len optsoff) R s.
Proof.
  intros Hc Hv Hver Hscale Hrest Hlen Hbuf HR. unfold build_reply_tcpip. pose proof (hdr_len_cases ver) as Hh.
  wp_step. eapply wp_sock_ipver; [done..|]. wp_step. eapply wp_iphdr_len; [done..|].
  wp_step. eapply wp_zderef; [done|]. cbv zeta. unfold TCP_HEADER_LEN.
  replace (u16 (l4_len + 20 + optsoff * 4)) with (20 + blen rest) by (rewrite u16_small; lia).
  assert (exists w, shl_u32 0xFFFF (window_scale c) = Some w) as [w Ew].
  { unfold shl_u32. destruct (Z.ltb_spec (window_scale c) 32); [eauto|lia]. }
  wp_step. eapply wp_of_option; [exact Ew|]. wp_step. eapply wp_sndbuf; [done|]. intros avail k0 Hk0.
  wp_step. apply wp_mono with (Q := fun _ s' => exists k, sys_log k = sys_log (ts_sys s) /\ s' = s <| ts_sys := k |>).
  { destruct (_ <? _); [|by apply wp_ret; exists k0].
    eapply wp_sndbuf; [done|]. intros v k Hk. exists k. split; [by rewrite Hk|done]. }
  intros tcpwin ? (k & Hk & ->). set (window := htons _). unfold REPLY_BUF_SIZE in *.
  pose proof (blen_tcp_header c flags optsoff window) as Hth.
  pose proof (blen_iphdr ver (zc_tuple c) (20 + blen rest)) as Hih. change (if ver =? 4 then 20 else 40) with (hdr_len ver) in Hih.
  wp_step. apply wp_put; [lia|rewrite Hth; unfold REPLY_BUF_SIZE; lia|]. intros b1 Eb1. simpl in Eb1.
  wp_step. apply wp_put; [lia|rewrite Hih; unfold REPLY_BUF_SIZE; lia|]. intros b2 Eb2. simpl in Eb2.
  wp_step. apply wp_gets. simpl.
  apply wp_put; [lia|rewrite Hth; unfold REPLY_BUF_SIZE; lia|]. intros b3 Eb3. simpl in Eb3.
  set (check := zdtun_l3_checksum _ _ _ _) in Eb3.
  eapply (HR window b3 k); [|done]. eapply three_puts; [|exact Hbuf|exact Eb1|exact Eb2|exact Eb3]. lia.
Qed.

(** ** Properties *)

(** C18: a TCP segment for the client is what it has to be: the bytes that the
    engine leaves in its buffer for some data of the server are parsed back by
    the parser of the repository as one packet from the server to the client,
    not a fragment, with the data as its payload, the sequence and the
    acknowledgement numbers of the connection and the flags given; the IPv4
    header and the segment have valid RFC 1071 checksums. *)
Theorem tcp_reply_read_back p c ver flags data s :
  heap s !! p = Some c -> sock_ver (ts_tun s) c = Some ver -> tuple_wf ver c -> 0 <= window_scale c < 32 ->
  wf_bytes data -> blen data <= 65475 -> 0 <= zdtun_seq c < 2 ^ 32 -> 0 <= client_seq c < 2 ^ 32 ->
  wp (put (hdr_len ver + TCP_HEADER_LEN) data;; build_reply_tcpip p flags (blen data) 0)
     (fun _ s' =>
        let size := hdr_len ver + TCP_HEADER_LEN + blen data in
        let buf := buf_get 0 size (reply_buf (ts_tun s')) in
        exists pkt, (forall ids, zdtun_parse_pkt ids buf size = Some (inr pkt, ids)) /\
                    reply_view ver c flags 0 data buf pkt) s.
Proof.
  intros Hc Hv Hwf Hscale Hwd Hl Hseq Hack. pose proof (blen_nonneg data). pose proof (hdr_len_cases ver) as Hh.
  unfold TCP_HEADER_LEN. wp_step. apply wp_put; [lia|unfold REPLY_BUF_SIZE; lia|]. intros b Eb.
  eapply wp_build_reply; [exact Hc|exact Hv|apply Hwf|done|done|lia|by eapply buf_get_same|].
  intros window b' k Eb' _. cbv zeta. cbn [ts_tun reply_buf set_tun]. simpl. rewrite Eb'.
  exists (reply_pkt ver c flags 0 window data). split; [intros ids; apply parse_reply; [done|lia|lia]|].
  apply reply_viewed; try done; lia.
Qed.
End build.

(** *** "hi" from 1.2.3.4:80 *)
Definition ex_reply_conn : zdtun_conn unit :=
  mk_zconn (mk_5tuple 16777226 67305985 16540 20480 4 6) 0 3 CONN_STATUS_CONNECTED None PROXY_NONE SOCKS5_HELLO 0 [] 0
    4097 2011920364 65535 1460 0 false false 0 (Some tt).
Definition ex_reply_state : tun_state unit unit :=
  mk_tun_state (zdtun_init <| zt_heap := {[1 := ex_reply_conn]} |>) tt (mk_kernel [] {[3]} []).

Lemma ex_reply_wf : tuple_wf 4 ex_reply_conn.
Proof. split; unfold is_u16, ip_max; cbn; try lia; auto. Qed.

Lemma tcp_reply_read_back_witness :
  wp (put 40 [104; 105];; build_reply_tcpip 1 (Z.lor TH_ACK TH_PUSH) 2 0)
     (fun _ s' => exists pkt,
        (forall ids, zdtun_parse_pkt ids (buf_get 0 42 (reply_buf (ts_tun s'))) 42 = Some (inr pkt, ids)) /\
        reply_view 4 ex_reply_conn (Z.lor TH_ACK TH_PUSH) 0 [104; 105] (buf_get 0 42 (reply_buf (ts_tun s'))) pkt)
     ex_reply_state.
Proof.
  refine (tcp_reply_read_back 1 ex_reply_conn 4 _ [104; 105] ex_reply_state _ _ ex_reply_wf _ _ _ _ _);
    [reflexivity|reflexivity|cbn; lia|apply Forall_cons_2; [by unfold is_byte|apply Forall_cons_2; [by unfold is_byte|by apply Forall_nil_2]]|by vm_compute|cbn; lia|cbn; lia].
Defined.
