(* ===== verification/ZdtunFrame.v ===== *)
(** What the operations of the engine of zdtun leave alone in one connection:
    unless they end it, the data queued for its server, its place in the stream
    of the client and its socket; and they send nothing to the servers. *)
From Stdlib Require Import ZArith Lia.
From stdpp Require Import base option gmap numbers list.
From S2P Require Import Prelude Packet Uthash PcapDump Blacklist NdpiProtos Conn Checksum Kernel Zdtun ZdtunFwd.

Open Scope Z_scope.

(** What was given to the kernel for the servers. *)
Definition sends (l : list sys_event) : list (Z * bytes) :=
  omap (fun e => match e with SysSend fd data => Some (fd, data) | _ => None end) l.

Lemma sends_app a b : sends (a ++ b) = sends a ++ sends b.
Proof. apply omap_app. Qed.

Section frame.
Context {U D : Type} `{Callbacks U D}.
Abbreviation state := (tun_state U D).
Abbreviation zconn := (zdtun_conn D).
Implicit Types (s : state) (p : zconn_ptr) (c : zconn).
Abbreviation heap s := (zt_heap (ts_tun s)).

Definition ended c : Prop := zc_sock c = INVALID_SOCKET.

Definition up_same c c' : Prop :=
  tx_queue c' = tx_queue c /\ tx_queue_size c' = tx_queue_size c /\ client_seq c' = client_seq c /\
  zc_sock c' = zc_sock c.

Definition step_ok c c' : Prop :=
  (zc_proxy_mode c', zc_tuple c') = (zc_proxy_mode c, zc_tuple c) /\
  (CONN_STATUS_NEW < zc_status c -> CONN_STATUS_NEW < zc_status c') /\
  (up_same c c' \/ ended c').

Definition up_ext p s s' : Prop :=
  sends (sys_log (ts_sys s')) = sends (sys_log (ts_sys s)) /\
  forall c, heap s !! p = Some c -> exists c', heap s' !! p = Some c' /\ step_ok c c'.

Lemma step_ok_refl c : step_ok c c.
Proof. repeat split; auto. left. by repeat split. Qed.

Lemma step_ok_trans c1 c2 c3 : step_ok c1 c2 -> step_ok c2 c3 -> step_ok c1 c3.
Proof.
  intros (Hm1 & Hs1 & H1) (Hm2 & Hs2 & H2). split; [congruence|]. split; [auto|].
  destruct H2 as [H2|H2]; [|by right]. destruct H1 as [H1|H1].
  - left. destruct H1 as (? & ? & ? & ?), H2 as (? & ? & ? & ?). split_and!; congruence.
  - right. unfold ended in *. destruct H2 as (_ & _ & _ & ->). done.
Qed.

Lemma up_ext_refl p s : up_ext p s s.
Proof. split; [done|]. intros c Hc. exists c. split; [done|apply step_ok_refl]. Qed.

Lemma up_ext_trans p s1 s2 s3 : up_ext p s1 s2 -> up_ext p s2 s3 -> up_ext p s1 s3.
Proof.
  intros [E1 H1] [E2 H2]. split; [by rewrite E2|]. intros c Hc.
  destruct (H1 c Hc) as (c2 & Hc2 & Hs2). destruct (H2 c2 Hc2) as (c3 & Hc3 & Hs3).
  exists c3. split; [done|by eapply step_ok_trans].
Qed.

(** *** Triples: [E], [F] say something of the connection *)
Definition at_conn p (E : zconn -> Prop) s : Prop := forall c, heap s !! p = Some c -> E c.

Definition fr p (E : zconn -> Prop) {A} (m : M state A) (F : zconn -> Prop) : Prop :=
  forall s a s', at_conn p E s -> m s = Some (a, s') -> up_ext p s s' /\ at_conn p F s'.

Definition direct c : Prop := zc_proxy_mode c <> PROXY_SOCKS5.
Definition direct_ended c : Prop := direct c /\ ended c.

(** Conditions on the proxy and on the socket only. *)
Class Stable (E : zconn -> Prop) := stable c c' :
  zc_proxy_mode c' = zc_proxy_mode c -> zc_sock c' = zc_sock c -> E c -> E c'.
#[export] Instance stable_direct : Stable direct.
Proof. intros c c' Hm _. unfold direct. by rewrite Hm. Qed.
#[export] Instance stable_ended : Stable direct_ended.
Proof. intros c c' Hm Hs [Hd He]. split; [by eapply stable_direct|]. unfold ended in *. by rewrite Hs. Qed.

Section rules.
Context (p : zconn_ptr).

Lemma fr_ret E {A} (a : A) : fr p E (mret a) E.
Proof. intros s b s' HE [= _ <-]. split; [apply up_ext_refl|done]. Qed.

Lemma fr_bind E F G {A B} (m : M state A) (k : A -> M state B) :
  fr p E m F -> (forall a, fr p F (k a) G) -> fr p E (m ≫= k) G.
Proof.
  intros Hm Hk s b s' HE. unfold mbind, M_bind. destruct (m s) as [[a s1]|] eqn:Em; [|done]. intros Ek.
  destruct (Hm _ _ _ HE Em) as [H1 HF]. destruct (Hk _ _ _ _ HF Ek) as [H2 HG].
  split; [by eapply up_ext_trans|done].
Qed.

Lemma fr_weaken E F G {A} (m : M state A) : fr p E m F -> (forall c, F c -> G c) -> fr p E m G.
Proof. intros Hm HG s a s' HE Em. destruct (Hm _ _ _ HE Em) as [? HF]. split; [done|]. intros c Hc. by apply HG, HF. Qed.

Lemma fr_pre E E' F {A} (m : M state A) : fr p E m F -> (forall c, E' c -> E c) -> fr p E' m F.
Proof. intros Hm HE s a s' HE' Em. eapply Hm; [|exact Em]. intros c Hc. by apply HE, HE'. Qed.

Lemma fr_same E {A} (m : M state A) :
  (forall s a s', m s = Some (a, s') -> heap s' = heap s /\ sends (sys_log (ts_sys s')) = sends (sys_log (ts_sys s))) ->
  fr p E m E.
Proof.
  intros Hm s a s' HE Em. destruct (Hm _ _ _ Em) as [Hh Hs]. split; [split; [done|]|].
  - intros c Hc. exists c. rewrite Hh. split; [done|apply step_ok_refl].
  - intros c Hc. rewrite Hh in Hc. by apply HE.
Qed.

Lemma fr_gets E {A} (f : state -> A) : fr p E (gets f) E.
Proof. apply fr_same. by intros s a s' [= _ <-]. Qed.

Lemma fr_of_option E {A} (o : option A) : fr p E (of_option o) E.
Proof. apply fr_same. unfold of_option. intros s a s'. destruct o; [|done]. by intros [= _ <-]. Qed.

Lemma fr_on_tun E g : (forall t, zt_heap (g t) = zt_heap t) -> fr p E (on_tun g) E.
Proof. intros Hg. apply fr_same. intros s a s' [= _ <-]. by simpl. Qed.

Lemma fr_sys E {A} (f : kernel -> A * kernel) :
  (forall k, sends (sys_log (f k).2) = sends (sys_log k)) -> fr p E (sys f) E.
Proof.
  intros Hf. apply fr_same. intros s a s'. unfold sys. pose proof (Hf (ts_sys s)) as Hs.
  destruct (f (ts_sys s)) as [b k]. by intros [= _ <-].
Qed.

Lemma fr_callback E {A} (m : M U A) : fr p E (callback m) E.
Proof.
  apply fr_same. intros s a s'. unfold callback. destruct (m _) as [[b u]|]; [|done]. by intros [= _ <-].
Qed.

Lemma fr_zderef_bind E F {B} (k : zconn -> M state B) :
  (forall c, E c -> fr p E (k c) F) -> fr p E (zderef p ≫= k) F.
Proof.
  intros Hk s b s' HE. unfold zderef, tun_get, mbind, M_bind, gets, of_option.
  destruct (heap s !! p) as [c|] eqn:Ec; [|done]. intros Ek. by eapply Hk; [apply HE| |].
Qed.

Lemma fr_modify E F f :
  (forall c, E c -> step_ok c (f c) /\ F (f c)) -> fr p E (modify_zconn p f) F.
Proof.
  intros Hf s b s' HE. unfold modify_zconn, zderef, tun_get, mbind, M_bind, gets, of_option, on_tun, modify.
  destruct (heap s !! p) as [c|] eqn:Ec; [|done]. intros [= _ <-]. destruct (Hf c (HE c Ec)) as [Hs HF].
  split; [split; [done|]|].
  - intros d Hd. rewrite Ec in Hd. injection Hd as <-. exists (f c). simpl. by rewrite lookup_insert_eq.
  - intros d. simpl. rewrite lookup_insert_eq. by intros [= <-].
Qed.

Lemma fr_when E (b : bool) (m : M state unit) : (b = true -> fr p E m E) -> fr p E (when b m) E.
Proof. intros Hm. destruct b; [by apply Hm|apply fr_ret]. Qed.
End rules.

Lemma sends_log e k : (forall fd data, e <> SysSend fd data) -> sends (sys_log (log_sys e k)) = sends (sys_log k).
Proof. intros He. simpl. rewrite sends_app. destruct e; simpl; try apply app_nil_r. by destruct (He fd data). Qed.
End frame.

(** *** Calls that send nothing *)
Create HintDb nosend.
Lemma sys_get_nosend k : sends (sys_log (sys_get k).2) = sends (sys_log k).
Proof. done. Qed.
Lemma sys_close_nosend fd k : sends (sys_log (sys_close fd k).2) = sends (sys_log k).
Proof. simpl. by rewrite sends_app, app_nil_r. Qed.
Lemma sys_recv_nosend fd n k : sends (sys_log (sys_recv fd n k).2) = sends (sys_log k).
Proof. unfold sys_recv, next_sys. destruct (_ =? 0); [|done]. simpl. by rewrite sends_app, app_nil_r. Qed.
Lemma sys_shutdown_nosend fd k : sends (sys_log (sys_shutdown fd k)) = sends (sys_log k).
Proof. simpl. by rewrite sends_app, app_nil_r. Qed.
#[export] Hint Resolve sys_get_nosend sys_close_nosend sys_recv_nosend sys_shutdown_nosend : nosend.

Ltac fr_step :=
  lazymatch goal with
  | |- fr _ _ (mret _) _ => apply fr_ret
  | |- fr _ _ (zderef _ ≫= _) _ => apply fr_zderef_bind; let c := fresh "c" in let Hc := fresh "Hc" in intros c Hc
  | |- fr _ ?E (_ ≫= _) _ => eapply fr_bind with (F := E); [|intros ?]
  | |- fr _ _ (gets _) _ => apply fr_gets
  | |- fr _ _ (tun_get _) _ => apply fr_gets
  | |- fr _ _ (of_option _) _ => apply fr_of_option
  | |- fr _ _ (on_tun _) _ => apply fr_on_tun; intros ?; done
  | |- fr _ _ (sys _) _ => apply fr_sys; solve [auto with nosend]
  | |- fr _ _ (callback _) _ => apply fr_callback
  | |- fr _ _ (when _ _) _ => apply fr_when; intros ?
  | |- fr _ _ (modify_zconn _ _) _ =>
      apply fr_modify; intros ? ?; split; [split; [done|]; split; [done|]; first [left; done|right; done]|first [done|eapply stable; [| |eassumption]; done]]
  | |- fr _ _ (match ?x with _ => _ end) _ => destruct x
  | |- fr _ _ (let _ := _ in _) _ => cbv zeta
  end.
Create HintDb frdb.
Ltac fr_steps := repeat (fr_step || solve [auto with frdb]).

Section ops.
Context {U D : Type} `{Callbacks U D}.
Abbreviation state := (tun_state U D).
Abbreviation zconn := (zdtun_conn D).
Context (p : zconn_ptr).

Section any.
Context (E : zconn -> Prop).
Lemma fr_sock_ipver : fr p E (sock_ipver p : M state Z) E.
Proof. unfold sock_ipver. fr_steps. Qed.
Lemma fr_iphdr_len : fr p E (zdtun_iphdr_len p : M state Z) E.
Proof. unfold zdtun_iphdr_len. fr_step; [apply fr_sock_ipver|fr_steps]. Qed.
Lemma fr_now : fr p E (zdtun_now : M state Z) E.
Proof. unfold zdtun_now. fr_steps. Qed.
Lemma fr_put off bs : fr p E (put off bs : M state unit) E.
Proof. unfold put. fr_steps. Qed.
Lemma fr_sndbuf : fr p E (get_available_sndbuf p : M state Z) E.
Proof. unfold get_available_sndbuf. fr_steps. Qed.
Lemma fr_close_socket fd : fr p E (close_socket fd : M state unit) E.
Proof. unfold close_socket. fr_steps. Qed.
Lemma fr_release tuple : fr p E (release_mapping tuple : M state unit) E.
Proof.
  apply fr_on_tun. intros t. cbv zeta. destruct (HASH_FIND (udp_mappings t) (udp_mapping_key tuple)) as [m|]; [|done].
  by destruct (u16 (um_num_uses m - 1) =? 0).
Qed.
#[local] Hint Resolve fr_sock_ipver fr_iphdr_len fr_put fr_sndbuf : frdb.
Lemma fr_build_reply flags l4_len optsoff : fr p E (build_reply_tcpip p flags l4_len optsoff : M state unit) E.
Proof. unfold build_reply_tcpip. fr_steps. Qed.
End any.
End ops.
#[export] Hint Resolve fr_sock_ipver fr_iphdr_len fr_now fr_put fr_sndbuf fr_close_socket fr_release fr_build_reply : frdb.

Section close.
Context {U D : Type} `{Callbacks U D}.
Abbreviation state := (tun_state U D).
Abbreviation zconn := (zdtun_conn D).
Context (p : zconn_ptr).

Lemma fr_send_with (E : zconn -> Prop) `{Stable D E} close l3_len :
  (forall status, fr p E (close p status : M state unit) E) ->
  fr p E (send_to_client_with close p l3_len : M state Z) E.
Proof. intros Hclose. unfold send_to_client_with. fr_steps. Qed.

Lemma fr_ended_modify f :
  (forall c : zconn, (zc_proxy_mode (f c), zc_tuple (f c)) = (zc_proxy_mode c, zc_tuple c) /\ zc_sock (f c) = zc_sock c /\
     (CONN_STATUS_NEW < zc_status c -> CONN_STATUS_NEW < zc_status (f c))) ->
  fr p direct_ended (modify_zconn p f : M state unit) direct_ended.
Proof.
  intros Hf. apply fr_modify. intros c Hc. destruct (Hf c) as (Hm & Hs & Hst).
  assert (direct_ended (f c)) as Hfc by (apply (stable c); congruence || done). split; [|done]. split_and!; [done|done|right; apply Hfc].
Qed.

Lemma fr_close_tail (tcp : bool) status :
  fr p direct_ended
    (when tcp (modify_zconn p (fun c => c <| tx_queue := [] |>));;
     modify_zconn p (fun c => c <| zc_status := if status >=? CONN_STATUS_CLOSED then status else CONN_STATUS_CLOSED |>);;
     c ← zderef p;
     callback (on_connection_close c) : M state unit) direct_ended.
Proof.
  fr_step; [fr_step; by apply fr_ended_modify|]. fr_step; [|fr_steps]. apply fr_ended_modify. intros c.
  split_and!; [done|done|]. intros _. simpl. destruct (Z.geb_spec status CONN_STATUS_CLOSED); [|done].
  unfold CONN_STATUS_CLOSED, CONN_STATUS_NEW in *. lia.
Qed.

(** Closing an open connection ends it. *)
Definition open_direct (c : zconn) : Prop := direct c /\ zc_status c < CONN_STATUS_CLOSED.

Lemma fr_close_rec fuel (E F : zconn -> Prop) status :
  (forall c, E c -> direct c) -> (forall c, direct_ended c -> F c) ->
  (forall c, E c -> CONN_STATUS_CLOSED <= zc_status c -> forall c', E c' -> F c') ->
  fr p E (zdtun_conn_close_rec fuel p status : M state unit) F.
Proof.
  revert E F status. induction fuel as [|fuel IH]; intros E F status Hdir Hend Hclosed; simpl.
  all: fr_step; destruct (Z.geb_spec (zc_status c) CONN_STATUS_CLOSED) as [Hge|];
    [eapply fr_weaken; [apply fr_ret|by apply Hclosed with c]|cbv zeta].
  all: eapply fr_bind with (F := E); [fr_steps|intros _]; fr_step; [fr_steps|].
  all: eapply fr_bind with (F := direct_ended);
    [apply fr_modify; intros d Hd; split; [split; [done|]; split; [done|]; by right|split; [exact (Hdir d Hd)|done]]|intros _].
  all: eapply fr_weaken; [|exact Hend].
  all: fr_step; [|apply fr_close_tail]; fr_step; fr_step; [apply fr_build_reply|]; fr_step; [|apply fr_ret].
  all: apply fr_send_with; [apply _|]; intros st.
  - by intros ?s ?b ?s' _ ?E.
  - apply IH; [by intros c' []|done|auto].
Qed.

Lemma fr_close (E : zconn -> Prop) status :
  (forall c, E c -> direct c) -> (forall c, direct_ended c -> E c) ->
  fr p E (zdtun_conn_close p status : M state unit) E.
Proof. intros Hd He. apply fr_close_rec; auto. Qed.

Lemma fr_close_open status : fr p open_direct (zdtun_conn_close p status : M state unit) direct_ended.
Proof. apply fr_close_rec; [by intros c []|done|]. intros c [_ ?] ?. lia. Qed.

Lemma fr_error_open err : fr p open_direct (close_with_socket_error p err : M state Z) direct_ended.
Proof.
  unfold close_with_socket_error. destruct (socket_error_status err).
  eapply fr_bind; [apply fr_close_open|intros ?]. apply fr_ret.
Qed.

Lemma fr_send (E : zconn -> Prop) `{Stable D E} l3_len :
  (forall c, E c -> direct c) -> (forall c, direct_ended c -> E c) ->
  fr p E (send_to_client p l3_len : M state Z) E.
Proof. intros Hd He. apply fr_send_with; [done|]. intros status. apply fr_close_rec; auto. Qed.

Lemma fr_socket_error err : fr p direct (close_with_socket_error p err : M state Z) direct.
Proof.
  unfold close_with_socket_error. destruct (socket_error_status err). fr_step; [|apply fr_ret].
  apply fr_close; [done|by intros c []].
Qed.
End close.

(** *** The operations of TCP *)
Section tcp.
Context {U D : Type} `{Callbacks U D}.
Abbreviation state := (tun_state U D).
Abbreviation zconn := (zdtun_conn D).
Context (p : zconn_ptr).

Lemma fr_send_direct l3_len : fr p direct (send_to_client p l3_len : M state Z) direct.
Proof. apply fr_send; [apply _|done|by intros c []]. Qed.
Lemma fr_close_direct status : fr p direct (zdtun_conn_close p status : M state unit) direct.
Proof. apply fr_close; [done|by intros c []]. Qed.
#[local] Hint Resolve fr_send_direct fr_close_direct fr_socket_error : frdb.

Lemma fr_send_ack : fr p direct (send_ack p : M state Z) direct.
Proof. unfold send_ack. fr_steps. Qed.
Lemma fr_default_mss : fr p direct (default_mss p : M state Z) direct.
Proof. unfold default_mss. fr_steps. Qed.
#[local] Hint Resolve fr_send_ack fr_default_mss : frdb.
Lemma fr_send_syn_ack : fr p direct (send_syn_ack p : M state Z) direct.
Proof. unfold send_syn_ack. fr_steps. Qed.
Lemma fr_fin_ack : fr p direct (tcp_socket_fin_ack p : M state unit) direct.
Proof. unfold tcp_socket_fin_ack. fr_steps. Qed.
#[local] Hint Resolve fr_send_syn_ack fr_fin_ack : frdb.

Lemma fr_server_closed : fr p direct (tcp_server_closed p : M state Z) direct.
Proof. unfold tcp_server_closed. fr_steps. Qed.
Lemma fr_server_data l4_len : fr p direct (tcp_server_data p l4_len : M state Z) direct.
Proof. unfold tcp_server_data. fr_steps. Qed.
#[local] Hint Resolve fr_server_closed fr_server_data : frdb.

Lemma direct_no_socks (c : zconn) : direct c -> socks5_in_progress c = false.
Proof. intros Hc. unfold socks5_in_progress. by rewrite bool_decide_eq_false_2. Qed.

Lemma fr_handle_reply : fr p direct (handle_tcp_reply p : M state Z) direct.
Proof.
  unfold handle_tcp_reply. fr_step; [fr_steps|]. fr_step. cbv zeta. rewrite (direct_no_socks _ Hc). fr_steps.
Qed.

Lemma fr_socket_syn : fr p direct (tcp_socket_syn p : M state Z) direct.
Proof.
  unfold tcp_socket_syn. fr_step. fr_step; [fr_steps|].
  eapply fr_bind with (F := direct); [|intros ?; rewrite decide_False by done; fr_steps].
  apply fr_modify. intros d Hd. split; [|done]. split; [done|]. split; [done|by left].
Qed.
#[local] Hint Resolve fr_socket_syn : frdb.
Lemma fr_connect_async : fr p direct (handle_tcp_connect_async p : M state Z) direct.
Proof. unfold handle_tcp_connect_async. fr_steps. Qed.
Lemma fr_update_window pkt : fr p direct (update_window pkt p : M state unit) direct.
Proof. unfold update_window, tcp_rd32, tcp_rd16. fr_steps. Qed.
End tcp.
#[export] Hint Resolve fr_send_direct fr_close_direct fr_socket_error fr_send_ack fr_handle_reply fr_connect_async
  fr_update_window : frdb.
