(* ===== verification/ZdtunStream.v ===== *)
(** The stream of a client through the engine of zdtun: the bytes given to the
    socket of its connection are those the client sent, in order and once, and
    what the engine acknowledges is what the socket took. *)
From Stdlib Require Import ZArith Lia.
From stdpp Require Import base option gmap numbers list.
From S2P Require Import Prelude Packet Uthash PcapDump Blacklist NdpiProtos Conn Checksum Kernel Zdtun ZdtunFwd.
From S2P Require Import ZdtunInv ZdtunSafe ZdtunTcpSafe ZdtunRun ZdtunEngine ZdtunFrame.

Open Scope Z_scope.

(** Two offsets less than 2^32 apart, from the same sequence number. *)
Lemma u32_inj_near base a b : 0 <= a < 2 ^ 32 -> 0 <= b < 2 ^ 32 -> u32 (base + a) = u32 (base + b) -> a = b.
Proof.
  unfold u32. intros Ha Hb E. pose proof (Z.div_mod (base + a) (2 ^ 32)). pose proof (Z.div_mod (base + b) (2 ^ 32)). lia.
Qed.

(** What is left of an item of the queue. *)
Definition rest (d : tcp_data) : bytes := drop (Z.to_nat (td_sofar d)) (td_data d).
Definition rests (q : list tcp_data) : bytes := concat (rest <$> q).

Lemma item_data d : item_ok d -> rdn (td_data d) (td_sofar d) (td_len d - td_sofar d) = Some (rest d) /\
  blen (rest d) = td_len d - td_sofar d.
Proof.
  intros Hd. destruct (item_rest d Hd) as (data & E & Hl & El). rewrite E. destruct Hd as [Hs _].
  unfold rdn in E. destruct (_ || _); [done|]. injection E as E. subst data. rewrite El in *.
  assert (slice (td_data d) (td_sofar d) (blen (td_data d) - td_sofar d) = rest d) as Er; [|by rewrite Er in *].
  unfold slice, rest. apply take_ge. rewrite length_drop. unfold blen in *. lia.
Qed.

Section stream.
Context {U D : Type} `{Callbacks U D}.
Abbreviation state := (tun_state U D).
Abbreviation zconn := (zdtun_conn D).
Abbreviation heap s := (zt_heap (ts_tun s)).
Abbreviation sent_log s := (sends (sys_log (ts_sys s))).
Context (p : zconn_ptr).

(** *** What the user does with one connection *)
Inductive stream_event :=
  | StSegment (pkt : zdtun_pkt)              (** a packet of the client *)
  | StReady (rd_fds wr_fds : gset Z)         (** a turn of [zdtun_handle_fd] *)
  | StClose (status : Z).

Definition stream_step (ev : stream_event) : M state unit :=
  match ev with
  | StSegment pkt =>
      rv ← zdtun_forward pkt p;
      when (negb (rv =? 0)) (zdtun_conn_close p CONN_STATUS_ERROR)
  | StReady rd_fds wr_fds => handle_conn_fd rd_fds wr_fds p;; mret tt
  | StClose status => zdtun_conn_close p status
  end.

(** The client sends the bytes [S] from the sequence number [isn]. *)
Context (S : bytes) (isn : Z).

(** A segment that carries the bytes of [S] at some offset, without FIN. *)
Record client_segment (pkt : zdtun_pkt) : Prop := {
  cs_l4 : l4_ok pkt;
  cs_tcp : tcp_ok pkt;
  cs_proto : ipproto (pkt_tuple pkt) = IPPROTO_TCP;
  cs_fin : forall flags, rd8 (pkt_buf pkt) (ip_hdr_len pkt + 13) = Some flags ->
    Z.land flags (Z.lor TH_FIN TH_ACK) <> Z.lor TH_FIN TH_ACK;
  cs_data : exists off, 0 <= off /\ off + l7_len pkt <= blen S /\
    rdn (pkt_buf pkt) (l7_off pkt) (l7_len pkt) = Some (slice S off (l7_len pkt)) /\
    exists seq, rd32 (pkt_buf pkt) (ip_hdr_len pkt + 4) = Some seq /\ ntohl seq = u32 (isn + off)
}.

(** What the client may send in a state: a segment of its stream, without
    payload if it looks like a keep-alive probe. *)
Definition event_allowed (s : state) (ev : stream_event) : Prop :=
  match ev with
  | StSegment pkt => client_segment pkt /\
      forall c seq, heap s !! p = Some c -> rd32 (pkt_buf pkt) (ip_hdr_len pkt + 4) = Some seq ->
        u32 (ntohl seq + 1) = client_seq c -> l7_len pkt = 0
  | _ => True
  end.

Inductive stream_run (s : state) : state -> Prop :=
  | run_start : stream_run s s
  | run_step ev s1 s2 :
      stream_run s s1 -> event_allowed s1 ev -> stream_step ev s1 = Some (tt, s2) -> stream_run s s2.

(** *** The invariant *)
Context (fd : Z) (l0 : list (Z * bytes)).

(** The socket is open: what is queued follows what was sent. *)
Definition uploading (sent : bytes) (c : zconn) : Prop :=
  zc_sock c = fd /\ client_seq c = u32 (isn + blen sent) /\ Forall item_ok (tx_queue c) /\
  tx_queue_size c = blen (rests (tx_queue c)) /\ sent ++ rests (tx_queue c) `prefix_of` S.

Record upload_conn (chunks : list bytes) (c : zconn) (s : state) : Prop := {
  uc_conn : heap s !! p = Some c;
  uc_direct : direct c;
  uc_proto : ipproto (zc_tuple c) = IPPROTO_TCP;
  uc_status : CONN_STATUS_NEW < zc_status c;
  uc_log : sent_log s = l0 ++ ((fun b => (fd, b)) <$> chunks);
  uc_prefix : concat chunks `prefix_of` S
}.

Definition upload_ok (s : state) : Prop :=
  exists c chunks, upload_conn chunks c s /\ (ended c \/ uploading (concat chunks) c).

Lemma upload_conn_ext chunks c s s' : up_ext p s s' -> upload_conn chunks c s ->
  exists c', upload_conn chunks c' s' /\ step_ok c c'.
Proof.
  intros [El Hh] [Hc Hd Ht Hn Hl Hp]. destruct (Hh c Hc) as (c' & Hc' & Hs). exists c'. split; [|done].
  destruct Hs as (Hm & Hn' & _). injection Hm as Em Et.
  split; [done|unfold direct; by rewrite Em|by rewrite Et|auto|by rewrite El|done].
Qed.

Lemma upload_ext s s' : up_ext p s s' -> upload_ok s -> upload_ok s'.
Proof.
  intros Hx (c & chunks & Hc & Hu). destruct (upload_conn_ext _ _ _ _ Hx Hc) as (c' & Hc' & _ & _ & Hs).
  exists c', chunks. split; [done|]. destruct Hs as [(Eq & Es & Ecs & Ek)|Hs]; [|by left]. destruct Hu as [Hu|Hu].
  - left. unfold ended in *. congruence.
  - right. destruct Hu as (? & ? & ? & ? & ?). unfold uploading. by rewrite Eq, Es, Ecs, Ek.
Qed.

Lemma upload_direct s : upload_ok s -> at_conn p direct s.
Proof. intros (c & ? & [Hc Hd _ _ _ _] & _) c' Hc'. congruence. Qed.

(** A frame keeps the invariant. *)
Lemma wlp_fr {A} (m : M state A) F s : fr p direct m F -> upload_ok s -> wlp m (fun _ s' => upload_ok s') s.
Proof. intros Hm Hs a s' E. destruct (Hm s a s') as [Hx _]; [by apply upload_direct|done|]. by eapply upload_ext. Qed.

Lemma wlp_zderef (R : zconn -> state -> Prop) s :
  (forall c, heap s !! p = Some c -> R c s) -> wlp (zderef p) R s.
Proof. intros HR. unfold zderef. wlp_step. apply wlp_gets. apply wlp_of_option. auto. Qed.

Lemma wlp_modify_zconn c f (R : unit -> state -> Prop) s :
  heap s !! p = Some c -> R tt (set_tun (fun t => t <| zt_heap ::= <[p := f c]> |>) s) ->
  wlp (modify_zconn p f) R s.
Proof.
  intros Hc HR. unfold modify_zconn. wlp_step. apply wlp_zderef. intros c' Hc'.
  assert (c' = c) as -> by congruence. unfold on_tun. by wlp_step.
Qed.

Lemma wlp_sys {A} (f : kernel -> A * kernel) (R : A -> state -> Prop) s :
  R (f (ts_sys s)).1 (s <| ts_sys := (f (ts_sys s)).2 |>) -> wlp (sys f) R s.
Proof. intros HR a s'. unfold sys. destruct (f (ts_sys s)) as [b k]. by intros [= <- <-]. Qed.

(** A frame that ends the connection. *)
Lemma wlp_fr_ended {A} (m : M state A) (E : zconn -> Prop) chunks c s :
  fr p E m direct_ended -> upload_conn chunks c s -> E c -> wlp m (fun _ s' => upload_ok s') s.
Proof.
  intros Hm Hu HE a s' Em. destruct (Hm s a s') as [Hx Hend]; [|done|].
  { intros c' Hc'. assert (c' = c) as -> by (destruct Hu; congruence). done. }
  destruct (upload_conn_ext _ _ _ _ Hx Hu) as (c' & Hu' & _). exists c', chunks. split; [done|].
  left. apply Hend, Hu'.
Qed.

(** *** Sending *)
Lemma sys_send_log k data : forall r k', sys_send fd data k = (r, k') ->
  match r with
  | inl _ => sends (sys_log k') = sends (sys_log k)
  | inr n => 0 <= n <= blen data /\ sends (sys_log k') = sends (sys_log k) ++ [(fd, take (Z.to_nat n) data)]
  end.
Proof.
  intros r k' E. destruct r as [err|n].
  - revert E. unfold sys_send, next_sys. destruct (_ =? 0); [done|]. by intros [= _ <-].
  - split; [by eapply sys_send_bounds|]. revert E. unfold sys_send, next_sys. destruct (_ =? 0); [|done].
    intros [= <- <-]. simpl. by rewrite sends_app.
Qed.

(** The kernel takes the front of the queue, item by item. *)
Definition queue_sent (c : zconn) (s : state) (n0 : Z) (r : Z + Z) (s' : state) : Prop :=
  exists chunks q, heap s' !! p = Some (c <| tx_queue := q |>) /\ Forall item_ok q /\
    sent_log s' = sent_log s ++ ((fun b => (fd, b)) <$> chunks) /\ rests (tx_queue c) = concat chunks ++ rests q /\
    forall n, r = inr n -> n = n0 + blen (concat chunks).

Lemma queue_sent_none c s s' n0 r :
  heap s' !! p = Some c -> Forall item_ok (tx_queue c) -> sent_log s' = sent_log s ->
  (forall n, r = inr n -> n = n0) -> queue_sent c s n0 r s'.
Proof.
  intros Hc Hq El Hr. exists [], (tx_queue c). simpl. rewrite app_nil_r. split_and!; try done.
  - rewrite Hc. f_equal. by destruct c.
  - intros n En. rewrite (Hr n En). unfold blen. simpl. lia.
Qed.

Lemma wlp_send_queued fuel : forall s c n0,
  heap s !! p = Some c -> zc_sock c = fd -> Forall item_ok (tx_queue c) ->
  wlp (send_queued fuel p n0) (fun r s' => queue_sent c s n0 r s') s.
Proof.
  induction fuel as [|fuel IH]; intros s c n0 Hc Hfd Hq; simpl; wlp_step; apply wlp_zderef; intros c' Hc';
    assert (c' = c) as -> by congruence; clear Hc'.
  { destruct (tx_queue c) eqn:Eq; [|done]. wlp_step. apply queue_sent_none; [done|by rewrite Eq|done|by intros n [= <-]]. }
  destruct (tx_queue c) as [|d q] eqn:Eq.
  { wlp_step. apply queue_sent_none; [done|by rewrite Eq|done|by intros n [= <-]]. }
  pose proof Hq as Hq'. apply Forall_cons in Hq' as [Hd Hq'].
  destruct (item_data d Hd) as [Edata Hlen]. wlp_step. rewrite Edata. apply wlp_of_option. intros data [= <-].
  wlp_step. apply wlp_sys. destruct (sys_send _ _ _) as [r k] eqn:Es. rewrite Hfd in Es.
  pose proof (sys_send_log _ _ _ _ Es) as Hk. cbn [fst snd]. destruct r as [err|n].
  { destruct (err =? EAGAIN); wlp_step;
      (apply queue_sent_none; [done|by rewrite Eq|done|by intros m [= <-]]). }
  destruct Hk as [Hn Hk]. destruct (Z.eqb_spec n (td_len d - td_sofar d)) as [E|E].
  - wlp_step. eapply wlp_modify_zconn; [exact Hc|].
    eapply wlp_mono; [eapply (IH _ (c <| tx_queue := q |>)); [simpl; by rewrite lookup_insert_eq|done|done]|].
    intros r s' (chunks & q' & Hc' & Hq2 & El & Er & Hr). exists (rest d :: chunks), q'.
    split_and!; [done|done| | |].
    + rewrite El. cbn [set_tun]. simpl. rewrite Hk, take_ge by (unfold blen in *; lia). by rewrite <- app_assoc.
    + rewrite Eq. simpl. rewrite <- app_assoc, <- Er. done.
    + intros m Hm. rewrite (Hr m Hm). simpl. rewrite blen_app. lia.
  - wlp_step. eapply wlp_modify_zconn; [exact Hc|]. wlp_step.
    set (d' := d <| td_sofar ::= fun k => u16 (k + n) |>). exists [take (Z.to_nat n) (rest d)], (d' :: q).
    assert (td_sofar d' = td_sofar d + n /\ td_len d = blen (td_data d)) as [Ed El].
    { destruct (item_rest d Hd) as (? & ? & ? & El). destruct Hd. split; [|done].
      subst d'. simpl. apply u16_small. lia. }
    destruct Hd as [Hd1 Hd2]. split_and!.
    + simpl. by rewrite lookup_insert_eq.
    + constructor; [|done]. split; [rewrite Ed; simpl; lia|done].
    + exact Hk.
    + rewrite Eq. unfold rests. simpl. rewrite app_nil_r, app_assoc. f_equal. unfold rest at 3. rewrite Ed.
      simpl. rewrite Z2Nat.inj_add, <- drop_drop by lia. symmetry. apply take_drop.
    + intros m [= <-]. simpl. rewrite app_nil_r. unfold blen in *. rewrite length_take. lia.
Qed.

(** The sockets of the connections that are closed are closed. *)
Definition closed_ok (s : state) : Prop :=
  forall c, heap s !! p = Some c -> CONN_STATUS_CLOSED <= zc_status c -> ended c.

Context (Hsize : blen S < 2 ^ 32) (Hfd : fd <> INVALID_SOCKET).

Lemma upload_open s c : upload_ok s -> heap s !! p = Some c -> ~ ended c ->
  exists chunks, upload_conn chunks c s /\ uploading (concat chunks) c.
Proof.
  intros (c' & chunks & Hu & Hc') Hc Hne. assert (c' = c) as -> by (destruct Hu; congruence).
  destruct Hc' as [?|Hc']; [done|]. eauto.
Qed.

Lemma prefix_blen (a b : bytes) : a `prefix_of` b -> blen a <= blen b.
Proof. intros [k ->]. rewrite blen_app. pose proof (blen_nonneg k). lia. Qed.

Lemma u32_add_l a b : u32 (u32 a + b) = u32 (a + b).
Proof. unfold u32. by rewrite Zplus_mod_idemp_l. Qed.

Lemma wlp_handle_queued s c :
  upload_ok s -> closed_ok s -> heap s !! p = Some c -> ~ ended c ->
  wlp (handle_queued_tcp_data p) (fun _ s' => upload_ok s') s.
Proof.
  intros Hs Hcl Hc Hne. destruct (upload_open s c Hs Hc Hne) as (chunks & Hu & Hfdc & Hseq & Hq & Hsz & Hpre).
  unfold handle_queued_tcp_data. wlp_step. apply wlp_zderef. intros c' Hc'. assert (c' = c) as -> by congruence.
  wlp_step. eapply wlp_mono; [by eapply wlp_send_queued|].
  intros r s1 (chunks' & q & Hc1 & Hq1 & Hl1 & Er & Hr). set (c1 := c <| tx_queue := q |>) in *.
  destruct Hu as [_ Hd Ht Hn Hl Hpre0]. rewrite Er, app_assoc in Hpre.
  assert (concat (chunks ++ chunks') `prefix_of` S) as Hpre1.
  { rewrite concat_app. by eapply prefix_app_l. }
  assert (upload_conn (chunks ++ chunks') c1 s1) as Hu1.
  { split; [done..| |done]. by rewrite Hl1, Hl, fmap_app, app_assoc. }
  destruct r as [err|n].
  { eapply wlp_fr_ended; [apply fr_error_open|exact Hu1|]. split; [done|].
    destruct (Z.lt_ge_cases (zc_status c) CONN_STATUS_CLOSED); [done|]. destruct Hne. by apply Hcl. }
  specialize (Hr n eq_refl). wlp_step. apply wlp_zderef. intros c' Hc1'. assert (c' = c1) as -> by congruence. clear Hc1'.
  wlp_step. apply (wlp_mono _ (fun _ s2 => upload_conn (chunks ++ chunks') c1 s2)).
  { wlp_step; [|done]. unfold on_tun. wlp_step. by destruct Hu1. }
  intros [] s2 Hu2. apply prefix_blen in Hpre as Hlen. rewrite !blen_app in Hlen.
  pose proof (blen_nonneg (rests q)). pose proof (blen_nonneg (concat chunks)). pose proof (blen_nonneg (concat chunks')).
  rewrite Er, blen_app in Hsz.
  destruct (Z.gtb_spec n 0) as [Hn0|Hn0].
  - wlp_step. eapply wlp_modify_zconn; [by destruct Hu2|]. wlp_step.
    eapply wlp_mono; [eapply wlp_fr; [apply fr_send_ack|]|intros rv s3 Hs3; by wlp_step].
    eexists _, (chunks ++ chunks'). split; [destruct Hu2; split; [simpl; by rewrite lookup_insert_eq|done..]|]. right.
    unfold uploading. simpl. rewrite concat_app, blen_app, Hseq, u32_add_l, Hsz, Hr. split_and!; [done| |done| |].
    + f_equal. lia.
    + rewrite u32_small by lia. lia.
    + done.
  - wlp_step. exists c1, (chunks ++ chunks'). split; [done|]. right.
    assert (concat chunks' = []) as E0 by (apply length_zero_iff_nil; unfold blen in *; lia).
    unfold uploading. rewrite concat_app, E0, app_nil_r in *. simpl.
    split_and!; [done|done|done| |done]. rewrite Hsz. unfold blen. simpl. lia.
Qed.

(** *** A segment *)
Lemma prefix_slice (a b : bytes) n :
  a `prefix_of` b -> 0 <= n -> a ++ slice b (blen a) n `prefix_of` b.
Proof.
  intros [k ->] Hn. apply prefix_app. unfold slice, blen. rewrite Nat2Z.id, drop_app_length.
  exists (drop (Z.to_nat n) k). symmetry. apply take_drop.
Qed.

Lemma wlp_enqueue s c chunks off len flags :
  upload_conn chunks c s -> uploading (concat chunks) c -> 0 <= off -> 0 <= len -> off + len <= blen S -> len < 2 ^ 16 ->
  u32 (isn + off) = u32 (client_seq c + tx_queue_size c) ->
  wlp (enqueue_tcp_data p (slice S off len) flags) (fun _ s' => upload_ok s') s.
Proof.
  intros Hu (Hfdc & Hseq & Hq & Hsz & Hpre) Ho Hn Hlen Hl16 Eseq.
  assert (off = blen (concat chunks) + blen (rests (tx_queue c))) as Eoff.
  { apply prefix_blen in Hpre. rewrite blen_app in Hpre. rewrite Hseq, u32_add_l, Hsz in Eseq.
    pose proof (blen_nonneg (rests (tx_queue c))). pose proof (blen_nonneg (concat chunks)).
    apply (u32_inj_near isn); [lia..|]. rewrite Eseq. f_equal. lia. }
  unfold enqueue_tcp_data. wlp_step. apply wlp_sys. destruct (sys_get (ts_sys s)) as [r k] eqn:Eg. cbn [fst snd].
  assert (upload_conn chunks c (s <| ts_sys := k |>)) as Hu1.
  { destruct Hu. split; [done..| |done]. pose proof (sys_get_nosend (ts_sys s)) as E. rewrite Eg in E.
    etrans; [exact E|done]. }
  destruct r as [err|v].
  { eapply wlp_fr; [fr_steps|]. exists c, chunks. split; [done|]. by right. }
  wlp_step. apply wlp_zderef. intros c' Hc'. assert (c' = c) as -> by (destruct Hu1; congruence).
  wlp_step. eapply wlp_modify_zconn; [exact Hc'|]. wlp_step. unfold on_tun. wlp_step. wlp_step.
  set (item := mk_tcp_data flags 0 (slice S off len)).
  assert (blen (slice S off len) = len) as Esl by (apply blen_slice; lia).
  eexists _, chunks. split; [destruct Hu1; split; [simpl; by rewrite lookup_insert_eq|done..]|]. right.
  assert (rests (tx_queue c ++ [item]) = rests (tx_queue c) ++ slice S off len) as Er.
  { unfold rests. rewrite fmap_app, concat_app. f_equal. cbn. unfold rest. simpl. by rewrite app_nil_r. }
  unfold uploading. simpl. fold item. rewrite Er, app_assoc. split_and!; [done|done| | |].
  - apply Forall_app. split; [done|]. repeat constructor; simpl; lia.
  - rewrite blen_app, Hsz, Esl. apply u32_small. apply prefix_blen in Hpre. rewrite blen_app in Hpre.
    pose proof (blen_nonneg (rests (tx_queue c))). pose proof (blen_nonneg (concat chunks)). lia.
  - rewrite Eoff, <- blen_app. by apply prefix_slice.
Qed.

Lemma wlp_callback {A} (m : M U A) (R : A -> state -> Prop) s :
  (forall a u, R a (s <| ts_user := u |>)) -> wlp (callback m) R s.
Proof. intros HR a s'. unfold callback. destruct (m _) as [[b u]|]; [|done]. by intros [= <- <-]. Qed.

Lemma upload_user s u : upload_ok s -> upload_ok (s <| ts_user := u |>).
Proof. intros (c & chunks & [] & Hu). exists c, chunks. by repeat split. Qed.

(** The payload of a segment that is not refused. *)
Definition fwd_data (pkt : zdtun_pkt) (flags : Z) : M state Z :=
  if l7_len pkt >? 0 then
    c ← zderef p;
    if zc_sock c =? INVALID_SOCKET then
      modify_zconn p (fun c => c <| client_seq ::= fun n => u32 (n + l7_len pkt) |>);;
      send_ack p
    else payload ← pkt_payload pkt; enqueue_tcp_data p payload flags
  else mret 0.

Definition follows (off : Z) (s : state) : Prop :=
  forall c, heap s !! p = Some c -> ~ ended c -> u32 (isn + off) = u32 (client_seq c + tx_queue_size c).

Lemma follows_ext off s s' c :
  heap s !! p = Some c -> up_ext p s s' -> follows off s -> follows off s'.
Proof.
  intros Hc [_ Hx] Hf c' Hc' Hne. destruct (Hx c Hc) as (c2 & Hc2 & _ & _ & Hs).
  assert (c2 = c') as -> by congruence. destruct Hs as [(_ & -> & -> & Ek)|?]; [|done].
  apply Hf; [done|]. unfold ended in *. congruence.
Qed.

Lemma wlp_fwd_data s pkt flags off :
  upload_ok s -> l4_ok pkt -> 0 <= off -> off + l7_len pkt <= blen S ->
  rdn (pkt_buf pkt) (l7_off pkt) (l7_len pkt) = Some (slice S off (l7_len pkt)) -> follows off s ->
  wlp (fwd_data pkt flags) (fun _ s' => upload_ok s') s.
Proof.
  intros Hs [] Ho Hlen Hpl Hf. unfold fwd_data. destruct (Z.gtb_spec (l7_len pkt) 0); [|by wlp_step].
  wlp_step. apply wlp_zderef. intros c Hc. destruct (Z.eqb_spec (zc_sock c) INVALID_SOCKET) as [E|E].
  - intros rv s' Em. destruct Hs as (c' & chunks & Hu & _). assert (c' = c) as -> by (destruct Hu; congruence).
    assert (fr p direct_ended (modify_zconn p (fun c => c <| client_seq ::= fun n => u32 (n + l7_len pkt) |>);; send_ack p : M state Z) direct) as Hm.
    { eapply fr_bind; [by apply fr_ended_modify|intros ?]. eapply fr_pre; [apply fr_send_ack|by intros ? []]. }
    destruct (Hm s rv s') as [Hx _]; [|done|].
    { intros c' Hc'. assert (c' = c) as -> by congruence. split; [apply Hu|done]. }
    apply (upload_ext s); [done|]. exists c, chunks. split; [done|by left].
  - destruct (upload_open s c Hs Hc E) as (chunks & Hu & Hup). wlp_step. unfold pkt_payload. rewrite Hpl.
    apply wlp_of_option. intros ? [= <-]. eapply wlp_enqueue; [exact Hu|done|done|lia|done|unfold l7_off in *; lia|by apply Hf].
Qed.

Lemma wlp_update_follows s pkt off :
  upload_ok s -> follows off s ->
  wlp (update_window pkt p;; mret 0) (fun (rv : Z) s' => upload_ok s' /\ follows off s') s.
Proof.
  intros Hs Hf rv s' Em. destruct (fr_update_window p pkt s tt s') as [Hx _].
  - by apply upload_direct.
  - revert Em. unfold mbind, M_bind. destruct (update_window pkt p s) as [[[] s2]|]; [|done]. by intros [= _ <-].
  - split; [by eapply upload_ext|]. destruct Hs as (c & ? & [] & _). by eapply follows_ext.
Qed.

Lemma wlp_fwd_active s pkt :
  upload_ok s -> event_allowed s (StSegment pkt) -> wlp (tcp_fwd_active pkt p) (fun _ s' => upload_ok s') s.
Proof.
  intros Hs [[Hl4 Htcp Hproto Hfin (off & Ho & Hlen & Hpl & seq & Eseq & Enseq)] Hprobe].
  unfold tcp_fwd_active. wlp_step. apply wlp_zderef. intros c Hc. wlp_step. apply wlp_callback. intros ? u.
  apply (upload_user _ u) in Hs. set (s1 := s <| ts_user := u |>) in *. change (heap s !! p) with (heap s1 !! p) in *.
  clearbody s1. clear s. unfold tcp_rd8, tcp_rd32. wlp_step. apply wlp_of_option. intros flags Eflags.
  wlp_step. rewrite Eseq. apply wlp_of_option. intros ? [= <-]. rewrite Enseq. cbv zeta.
  specialize (Hprobe c seq Hc Eseq). rewrite Enseq in Hprobe. set (ka := has_flag flags TH_ACK && _) in *.
  destruct (negb ka && _) eqn:Enext; [by wlp_step|].
  assert (direct c) as Hd by (apply (upload_direct s1); done). rewrite (direct_no_socks _ Hd).
  destruct (has_flag flags TH_RST); [apply wlp_fr with direct; [fr_steps|done]|].
  destruct (Z.eqb_spec (Z.land flags (Z.lor TH_FIN TH_ACK)) (Z.lor TH_FIN TH_ACK)); [by destruct (Hfin flags)|].
  fold (fwd_data pkt flags).
  assert (ka = true -> l7_len pkt = 0) as Hka.
  { subst ka. intros [_ E%Z.eqb_eq]%andb_true_iff. by apply Hprobe. }
  assert (ka = false -> follows off s1) as Hf.
  { intros E. rewrite E in Enext. simpl in Enext. apply negb_false_iff, Z.eqb_eq in Enext.
    intros c' Hc' _. assert (c' = c) as -> by congruence. done. }
  clear Enext. wlp_step. destruct ka eqn:Eka.
  - assert (fwd_data pkt flags = mret 0) as -> by (unfold fwd_data; by rewrite Hka).
    destruct (_ && negb _); [|wlp_step; simpl; by wlp_step].
    eapply wlp_mono; [eapply wlp_fr with (F := direct); [fr_steps|done]|].
    intros rv s2 Hs2. destruct (negb _); by wlp_step.
  - apply (wlp_mono _ (fun _ s2 => upload_ok s2 /\ follows off s2)).
    + destruct (_ && negb _); [by apply wlp_update_follows; auto|wlp_step; auto].
    + intros rv s2 [Hs2 Hf2]. destruct (negb _); [by wlp_step|]. by eapply wlp_fwd_data.
Qed.

Lemma wlp_forward s pkt :
  upload_ok s -> event_allowed s (StSegment pkt) -> wlp (zdtun_forward pkt p) (fun _ s' => upload_ok s') s.
Proof.
  intros Hs Hev. unfold zdtun_forward. wlp_step. apply wlp_zderef. intros c Hc. destruct (_ >=? _); [by wlp_step|].
  cbv zeta. destruct Hev as [Hseg Hprobe]. rewrite (cs_proto _ Hseg). simpl. wlp_step.
  apply (wlp_mono _ (fun _ s2 => upload_ok s2)).
  - unfold handle_tcp_fwd, tcp_rd8. wlp_step. apply wlp_of_option. intros flags Eflags.
    destruct (has_flag flags TH_URG); [eapply wlp_fr; [fr_steps|done]|].
    wlp_step. apply wlp_zderef. intros c' Hc'. destruct (_ =? CONN_STATUS_CONNECTING); [by wlp_step|].
    destruct (Z.eqb_spec (zc_status c') CONN_STATUS_NEW) as [E|E]; [|by apply wlp_fwd_active].
    destruct Hs as (c2 & ? & [] & _). assert (c2 = c') as -> by congruence. lia.
  - intros rv s2 Hs2. eapply wlp_fr; [fr_steps|done].
Qed.

Lemma wlp_stream_step s ev :
  upload_ok s -> closed_ok s -> event_allowed s ev -> wlp (stream_step ev) (fun _ s' => upload_ok s') s.
Proof.
  intros Hs Hcl Hev. destruct ev; simpl.
  - wlp_step. eapply wlp_mono; [by apply wlp_forward|]. intros rv s2 Hs2. eapply wlp_fr; [fr_steps|done].
  - wlp_step. apply (wlp_mono _ (fun _ s2 => upload_ok s2)); [|intros; by wlp_step].
    unfold handle_conn_fd. wlp_step. apply wlp_zderef. intros c Hc. cbv zeta.
    destruct (Z.eqb_spec (zc_sock c) INVALID_SOCKET) as [E|E]; [by wlp_step|].
    destruct (upload_open s c Hs Hc E) as (? & Hu & _). rewrite (uc_proto _ _ _ Hu). simpl.
    destruct (bool_decide _); [eapply wlp_fr; [fr_steps|done]|]. destruct (_ && true); [|by wlp_step].
    destruct (tx_queue c); [eapply wlp_fr; [fr_steps|done]|]. by eapply wlp_handle_queued.
  - eapply wlp_fr; [fr_steps|done].
Qed.
End stream.

Section upload.
Context {U D : Type} `{SafeCallbacks U D}.
Abbreviation state := (tun_state U D).
Abbreviation heap s := (zt_heap (ts_tun s)).
Abbreviation sent_log s := (sends (sys_log (ts_sys s))).
Context (base : gset Z) (p : zconn_ptr) (S : bytes) (isn fd : Z).

(** A connection whose client was accepted and sent nothing yet. *)
Definition established (s : state) : Prop :=
  exists c, heap s !! p = Some c /\ direct c /\ ipproto (zc_tuple c) = IPPROTO_TCP /\
    CONN_STATUS_NEW < zc_status c /\ zc_sock c = fd /\ fd <> INVALID_SOCKET /\
    tx_queue c = [] /\ tx_queue_size c = 0 /\ client_seq c = u32 isn.

Lemma established_upload s : established s -> upload_ok p S isn fd (sent_log s) s.
Proof.
  intros (c & Hc & Hd & Ht & Hn & Hfd & _ & Hq & Hsz & Hseq). exists c, []. split.
  - split; [done..|by rewrite app_nil_r|by exists S].
  - right. unfold uploading. rewrite Hq. split_and!; [done| |done|done|by exists S].
    rewrite Hseq. unfold blen. simpl. by rewrite Z.add_0_r.
Qed.

Lemma wp_stream_step L Q s ev c :
  inv base L Q ∅ ∅ s -> heap s !! p = Some c -> CONN_STATUS_NEW < zc_status c -> event_allowed p S isn s ev ->
  wp (stream_step p ev) (fun _ => inv base L Q ∅ ∅) s.
Proof.
  intros Hs Hc Hst Hev. pose proof (in_dom _ _ _ _ _ _ _ _ Hs Hc) as Hp.
  assert (zc_status c <> CONN_STATUS_NEW) as Hne by lia.
  destruct ev as [pkt|rd wr|status]; simpl.
  - destruct Hev as [[Hl4 Htcp Hproto] _]. wp_step. eapply wp_mono; [eapply wp_zdtun_forward; [|exact Hc|done| |done]|].
    + eapply inv_weaken; [exact Hs|set_solver..].
    + split; [done|done|]. rewrite Hproto. done.
    + intros rv s1 [Hs1 Hs0]. destruct (Z.eqb_spec rv 0) as [->|]; simpl; [wp_step; by apply Hs0|].
      eapply wp_mono; [by apply wp_close|]. intros [] s2 Hs2. eapply inv_weaken; [exact Hs2|set_solver..].
  - wp_step. eapply wp_mono; [by apply keeps_conn_fd|]. intros rv s1 Hs1. by wp_step.
  - by apply keeps_close.
Qed.

Lemma stream_inv L Q s s' :
  blen S < 2 ^ 32 -> inv base L Q ∅ ∅ s -> established s -> stream_run p S isn s s' ->
  inv base L Q ∅ ∅ s' /\ upload_ok p S isn fd (sent_log s) s'.
Proof.
  intros Hsize Hs He. assert (fd <> INVALID_SOCKET) as Hfd by (by destruct He as (? & _ & _ & _ & _ & _ & ? & _)).
  induction 1 as [|ev s1 s2 Hrun [Hs1 Hu1] Hev E]; [split; [done|by apply established_upload]|].
  pose proof Hu1 as (c & chunks & [] & _).
  pose proof (wp_stream_step L Q s1 ev c Hs1 ltac:(done) ltac:(done) Hev) as Hw. unfold wp in Hw. rewrite E in Hw. split; [done|].
  eapply (wlp_stream_step p S isn fd (sent_log s)); [done|exact Hu1| |exact Hev|exact E].
  intros c' Hc' Hst. pose proof (inv_conns _ _ _ _ _ _ Hs1 p c' Hc') as (_ & Hcl & _). by apply Hcl.
Qed.

(** C9: the engine carries the stream of a client. On an established
    connection that is not proxied through SOCKS5, for segments of the client
    that carry pieces of its stream, without a FIN, and that carry nothing when
    they look like a keep-alive probe (a sequence number one below the expected
    one: such a segment with a byte, as a repeated segment of one byte, would be
    queued again, see the findings): whatever their order (lost, repeated,
    reordered), the readiness of the socket, the answers of the kernel (partial
    writes, errors) and the data of the server, every step has a result; the
    chunks the socket took are the only ones sent and their concatenation is a
    prefix of what the client sent; and as long as the socket is open,
    [client_seq], which is the ACK of every packet to the client, is the number
    of bytes the socket took, and what is queued is what follows them in the
    stream. *)
Theorem upload_in_order s s' :
  blen S < 2 ^ 32 -> engine_ok base s -> established s -> stream_run p S isn s s' ->
  (forall ev, event_allowed p S isn s' ev -> is_Some (stream_step p ev s')) /\
  exists c chunks, heap s' !! p = Some c /\
    sent_log s' = sent_log s ++ ((fun b => (fd, b)) <$> chunks) /\ concat chunks `prefix_of` S /\
    (zc_sock c <> INVALID_SOCKET -> zc_sock c = fd /\ client_seq c = u32 (isn + blen (concat chunks)) /\
       tx_queue_size c = blen (rests (tx_queue c)) /\ concat chunks ++ rests (tx_queue c) `prefix_of` S).
Proof.
  intros Hsize (L & Q & Hs) He Hrun. destruct (stream_inv L Q s s' Hsize Hs He Hrun) as [Hs' (c & chunks & [Hc _ _ Hst Hl Hp] & Hu)].
  split.
  - intros ev Hev. pose proof (wp_stream_step L Q s' ev c Hs' Hc ltac:(lia) Hev) as Hw. apply wp_exec in Hw as (? & ? & -> & _). done.
  - exists c, chunks. split_and!; [done..|]. intros Hne. destruct Hu as [Hu|(? & ? & _ & ? & ?)]; [done|]. auto.
Qed.
End upload.

(** ** A run *)
Section example.
Abbreviation ex_state := (tun_state (list zdtun_pkt) unit).

Definition run_or (m : M ex_state unit) (s : ex_state) : ex_state := match m s with Some (_, s') => s' | None => s end.

(** The SYN of [ex_syn] was answered. *)
Definition ex_opening : M ex_state unit :=
  engine_init 1500 (mk_proxy 0 0 4) None;; for_each tun_step [EvForward ex_syn 44; EvReady ∅ {[3]}].
Definition ex_open : ex_state := run_or ex_opening (start [] ex_kernel).

Definition ex_stream : bytes := [104; 101; 108; 108; 111].
(** A segment from the sequence number 0x1000 + [seq], with its ACK. *)
Definition ex_segment (seq : Z) (payload : bytes) : zdtun_pkt :=
  mk_pkt ex_tuple 0 (40 + blen payload) 20 20 (blen payload)
    ([0x45; 0; 0; 40 + blen payload; 0; 1; 0x40; 0; 64; 6; 0; 0; 10; 0; 0; 1; 1; 2; 3; 4;
      0x9c; 0x40; 0; 80; 0; 0; 0x10; seq; 0x77; 0xEB; 0x77; 0xEC; 0x50; 0x18; 0xff; 0xff; 0; 0; 0; 0] ++ payload).

(** The first bytes, the same again, a socket that takes two of the three. *)
Definition ex_upload : list stream_event :=
  [StSegment (ex_segment 1 [104; 101; 108]); StSegment (ex_segment 1 [104; 101; 108]); StReady ∅ {[3]};
   StSegment (ex_segment 4 [108; 111])].
Definition ex_answers (o : list outcome) (s : ex_state) : ex_state :=
  s <| ts_sys ::= fun k => k <| outcomes := o |> |>.
Definition ex_uploading : ex_state :=
  ex_answers [success; success; success; mk_outcome 0 1 []] ex_open.
Definition ex_after (n : nat) : ex_state := run_or (for_each (stream_step 1) (take n ex_upload)) ex_uploading.

Lemma ex_open_ok : engine_ok {[0; 1; 2]} ex_open.
Proof.
  assert (wp ex_opening (fun _ => engine_ok {[0; 1; 2]}) (start [] ex_kernel)) as Hw.
  { unfold ex_opening. apply wp_bind. eapply wp_mono; [apply wp_engine_init; [lia|exact ex_start_ok]|]. intros [] s Hs.
    apply wp_tun_steps; [done|]. repeat constructor; simpl; try done. apply ex_syn_ok. }
  apply wp_exec in Hw as ([] & s & E & Hs). unfold ex_open, run_or. by rewrite E.
Qed.

Lemma ex_answers_ok base o s :
  engine_ok base s -> Forall (fun o => blen (oc_data o) <= REPLY_BUF_SIZE) o -> engine_ok base (ex_answers o s).
Proof.
  intros (L & Q & Hs) Ho. exists L, Q. eapply inv_kept; [exact Hs|by split|done|done|].
  eapply Forall_impl; [exact Ho|]. intros x Hx. simpl in *. lia.
Qed.
Lemma ex_uploading_ok : engine_ok {[0; 1; 2]} ex_uploading.
Proof. apply ex_answers_ok; [apply ex_open_ok|]. by repeat constructor. Qed.

Lemma ex_established : established 1 0x1001 3 ex_uploading.
Proof.
  assert (exists c, zt_heap (ts_tun ex_uploading) !! 1 = Some c /\ zc_proxy_mode c = PROXY_NONE /\ ipproto (zc_tuple c) = 6 /\
    zc_status c = 2 /\ zc_sock c = 3 /\ tx_queue c = [] /\ tx_queue_size c = 0 /\ client_seq c = 0x1001)
    as (c & Hc & Hm & Ht & Hst & Hk & Hq & Hsz & Hseq) by (vm_compute; eexists; repeat split).
  exists c. unfold direct. rewrite Hm, Hst, Hk, Hseq. by repeat split.
Qed.

Ltac ex_segment_tac o :=
  split; [split; [by repeat constructor|done|done|done|by vm_compute|by vm_compute]|by vm_compute|done
         |by intros flags [= <-]
         |exists o; split_and!; [done|by vm_compute|by vm_compute|eexists; split; [reflexivity|by vm_compute]]].

Lemma ex_first_segment : client_segment ex_stream 0x1001 (ex_segment 1 [104; 101; 108]).
Proof. ex_segment_tac 0. Qed.
Lemma ex_second_segment : client_segment ex_stream 0x1001 (ex_segment 4 [108; 111]).
Proof. ex_segment_tac 3. Qed.

Lemma ex_stream_run : stream_run 1 ex_stream 0x1001 ex_uploading (ex_after 4).
Proof.
  assert (forall pkt s cs, client_segment ex_stream 0x1001 pkt ->
    (forall seq, rd32 (pkt_buf pkt) (ip_hdr_len pkt + 4) = Some seq -> u32 (ntohl seq + 1) <> cs) ->
    (client_seq <$> zt_heap (ts_tun s) !! 1) = Some cs -> event_allowed 1 ex_stream 0x1001 (s : ex_state) (StSegment pkt)) as Hev.
  { intros pkt s cs Hseg Hne Hcs. split; [done|]. intros c seq Hc Es E. rewrite Hc in Hcs. injection Hcs as Hcs.
    destruct (Hne seq Es). congruence. }
  eapply run_step with (ev := StSegment (ex_segment 4 [108; 111])) (s1 := ex_after 3); [..|by vm_compute].
  1: eapply run_step with (ev := StReady ∅ {[3]}) (s1 := ex_after 2); [|done|by vm_compute].
  1: eapply run_step with (ev := StSegment (ex_segment 1 [104; 101; 108])) (s1 := ex_after 1); [..|by vm_compute].
  1: eapply run_step with (ev := StSegment (ex_segment 1 [104; 101; 108])) (s1 := ex_uploading);
    [apply run_start| |by vm_compute].
  - eapply (Hev _ _ 0x1001); [apply ex_first_segment|by intros seq [= <-]|by vm_compute].
  - eapply (Hev _ _ 0x1001); [apply ex_first_segment|by intros seq [= <-]|by vm_compute].
  - eapply (Hev _ _ 0x1003); [apply ex_second_segment|by intros seq [= <-]|by vm_compute].
Qed.

Lemma upload_in_order_witness :
  (forall ev, event_allowed 1 ex_stream 0x1001 (ex_after 4) ev -> is_Some (stream_step 1 ev (ex_after 4))) /\
  exists c chunks, zt_heap (ts_tun (ex_after 4)) !! 1 = Some c /\
    sends (sys_log (ts_sys (ex_after 4))) = sends (sys_log (ts_sys ex_uploading)) ++ ((fun b => (3, b)) <$> chunks) /\
    concat chunks `prefix_of` ex_stream /\
    (zc_sock c <> INVALID_SOCKET -> zc_sock c = 3 /\ client_seq c = u32 (0x1001 + blen (concat chunks)) /\
       tx_queue_size c = blen (rests (tx_queue c)) /\ concat chunks ++ rests (tx_queue c) `prefix_of` ex_stream).
Proof.
  apply (upload_in_order {[0; 1; 2]}); [by vm_compute|exact ex_uploading_ok|exact ex_established|exact ex_stream_run].
Defined.

(** Two of the three bytes were taken, the rest is queued. *)
Example ex_after_sent :
  sends (sys_log (ts_sys (ex_after 4))) = [(3, [104; 101])] /\
  (rests ∘ tx_queue <$> zt_heap (ts_tun (ex_after 4)) !! 1) = Some [108; 108; 111].
Proof. split; by vm_compute. Qed.

(** Without the restriction on the probes the stream is not kept: a segment of
    one byte that is sent again, as its ACK was lost, is taken as a keep-alive
    and its byte goes to the server twice. *)
Example keep_alive_repeats :
  sends (sys_log (ts_sys (run_or (for_each (stream_step 1)
    [StSegment (ex_segment 1 [104]); StReady ∅ {[3]}; StSegment (ex_segment 1 [104]); StReady ∅ {[3]}]) ex_open)))
  = [(3, [104]); (3, [104])].
Proof. by vm_compute. Qed.
End example.
