(* ===== verification/CText.v ===== *)
(** The text functions of the C library that the program reads the files of
    /proc with: [fgets], [sscanf] for the conversions it uses, the hexadecimal
    and decimal conversions of [printf]; and that a number printed is scanned
    back. *)
From Stdlib Require Import ZArith Lia.
From stdpp Require Import base option numbers list.
From S2P Require Import Prelude Packet Uthash Blacklist.

Open Scope Z_scope.

(** *** Reading *)
Definition NEWLINE : Z := 10.

(** [fgets(buf, n, file)]: the bytes up to a newline, at most [n - 1], and what
    is left of the file; [None] at its end. *)
Fixpoint take_line (n : nat) (file : bytes) : bytes * bytes :=
  match n, file with
  | S n', c :: file' =>
      if c =? NEWLINE then ([c], file')
      else let '(line, rest) := take_line n' file' in (c :: line, rest)
  | _, _ => ([], file)
  end.
Definition fgets (n : Z) (file : bytes) : option (bytes * bytes) :=
  match file with [] => None | _ => Some (take_line (Z.to_nat (n - 1)) file) end.

(** The string of a buffer. *)
Definition cstring (buf : bytes) : bytes := until (fun c => c =? 0) buf.

Definition digit_val (base c : Z) : option Z :=
  let v := if (48 <=? c) && (c <=? 57) then c - 48
           else if (65 <=? c) && (c <=? 70) then c - 55
           else if (97 <=? c) && (c <=? 102) then c - 87
           else base in
  if v <? base then Some v else None.

(** At least one digit, or a matching failure. *)
Fixpoint scan_digits (base acc : Z) (some : bool) (s : bytes) : option (Z * bytes) :=
  match s with
  | c :: s' =>
      match digit_val base c with
      | Some d => scan_digits base (acc * base + d) true s'
      | None => if some then Some (acc, s) else None
      end
  | [] => if some then Some (acc, []) else None
  end.

(** [%d] and [%X]: spaces, a sign, the prefix of the base 16, digits; the value
    is stored in an [int]. *)
Definition scan_unsigned (base : Z) (s : bytes) : option (Z * bytes) :=
  match s with
  | 48 :: 120 :: s' | 48 :: 88 :: s' => if base =? 16 then scan_digits base 0 false s' else scan_digits base 0 false s
  | _ => scan_digits base 0 false s
  end.
Definition scan_int (base : Z) (s : bytes) : option (Z * bytes) :=
  match skip_spaces s with
  | 45 :: s' => prod_map (fun v => s32 (- v)) id <$> scan_unsigned base s'
  | 43 :: s' => prod_map s32 id <$> scan_unsigned base s'
  | s' => prod_map s32 id <$> scan_unsigned base s'
  end.

(** [%Ns]: at most [n] bytes that are not spaces. *)
Fixpoint take_word (n : nat) (s : bytes) : bytes * bytes :=
  match n, s with
  | S n', c :: s' => if is_space c then ([], s) else let '(w, rest) := take_word n' s' in (c :: w, rest)
  | _, _ => ([], s)
  end.

Inductive directive :=
  | DSpace                               (** white space *)
  | DChar (c : Z)
  | DInt (base : Z) (assign : bool)      (** [%d] [%X], or [%*d] [%*X] *)
  | DHex (n : nat)                       (** [%nX] *)
  | DWord (n : nat).                     (** [%ns] *)

Inductive scanned := SInt (v : Z) | SWord (w : bytes).

(** The values assigned before the end or the first failure. *)
Fixpoint sscanf (fmt : list directive) (s : bytes) : list scanned :=
  match fmt with
  | [] => []
  | DSpace :: fmt' => sscanf fmt' (skip_spaces s)
  | DChar c :: fmt' => match s with c' :: s' => if c' =? c then sscanf fmt' s' else [] | [] => [] end
  | DInt base assign :: fmt' =>
      match scan_int base s with
      | Some (v, s') => (if assign then [SInt v] else []) ++ sscanf fmt' s'
      | None => []
      end
  | DHex n :: fmt' =>
      let s := skip_spaces s in
      match scan_int 16 (take n s) with
      | Some (v, s') => SInt v :: sscanf fmt' (s' ++ drop n s)
      | None => []
      end
  | DWord n :: fmt' =>
      match take_word n (skip_spaces s) with
      | ([], _) => []
      | (w, s') => SWord w :: sscanf fmt' s'
      end
  end.

(** [strstr(s, w)], as a test. *)
Fixpoint is_prefix (w s : bytes) : bool :=
  match w, s with
  | [], _ => true
  | c :: w', c' :: s' => (c =? c') && is_prefix w' s'
  | _, _ => false
  end.
Fixpoint contains (w s : bytes) : bool :=
  is_prefix w s || match s with [] => false | _ :: s' => contains w s' end.

(** *** Printing *)
Definition digit_char (d : Z) : Z := if d <? 10 then 48 + d else 55 + d.

(** The digits of a number, most significant first, before [acc]. *)
Fixpoint digits_of (base : Z) (fuel : nat) (n : Z) (acc : bytes) : bytes :=
  match fuel with
  | O => acc
  | S fuel' =>
      let acc := digit_char (n mod base) :: acc in
      if n / base =? 0 then acc else digits_of base fuel' (n / base) acc
  end.
Definition pad_left (c : Z) (width : nat) (s : bytes) : bytes := replicate (width - length s) c ++ s.

(** [%0wX] of an unsigned and [%wd] of an [int] that is not negative. *)
Definition print_hex (width : nat) (n : Z) : bytes := pad_left 48 width (digits_of 16 32 n []).
Definition print_dec (width : nat) (n : Z) : bytes := pad_left 32 width (digits_of 10 32 n []).

(** ** Facts *)
Definition is_hex (c : Z) : Prop := exists d, 0 <= d < 16 /\ digit_val 16 c = Some d.
Definition value_of (base : Z) (acc : Z) (ds : bytes) : Z :=
  fold_left (fun v c => v * base + default 0 (digit_val base c)) ds acc.

Definition digits_in (base : Z) (ds : bytes) : Prop := Forall (fun c => is_Some (digit_val base c)) ds.
Definition no_digit (base : Z) (s : bytes) : Prop := match s with c :: _ => digit_val base c = None | [] => True end.

Lemma scan_digits_all base : forall ds acc some s,
  digits_in base ds -> no_digit base s -> (some = true \/ ds <> []) ->
  scan_digits base acc some (ds ++ s) = Some (value_of base acc ds, s).
Proof.
  induction ds as [|c ds IH]; intros acc some s Hd Hs Hn; simpl.
  - destruct Hn as [->|]; [|done]. destruct s as [|c s]; simpl; [done|]. by rewrite Hs.
  - apply Forall_cons in Hd as [[d Hd] Hds]. rewrite Hd. rewrite IH; auto.
Qed.

Lemma digit_char_val base d : 0 <= d < base -> base <= 16 -> digit_val base (digit_char d) = Some d.
Proof.
  intros Hd Hb. unfold digit_char, digit_val. destruct (Z.ltb_spec d 10).
  - destruct (Z.leb_spec 48 (48 + d)), (Z.leb_spec (48 + d) 57); simpl; try lia.
    replace (48 + d - 48) with d by lia. by destruct (Z.ltb_spec d base); [|lia].
  - destruct (Z.leb_spec 48 (55 + d)), (Z.leb_spec (55 + d) 57), (Z.leb_spec 65 (55 + d)), (Z.leb_spec (55 + d) 70);
      simpl; try lia. replace (55 + d - 55) with d by lia. by destruct (Z.ltb_spec d base); [|lia].
Qed.

Lemma digits_of_spec base fuel : forall n acc, 2 <= base <= 16 -> 0 <= n < base ^ Z.of_nat fuel -> digits_in base acc ->
  digits_in base (digits_of base fuel n acc) /\
  value_of base 0 (digits_of base fuel n acc) = value_of base n acc.
Proof.
  induction fuel as [|fuel IH]; intros n acc Hb Hn Hacc.
  { change (Z.of_nat 0) with 0 in Hn. split; [done|]. simpl. by replace n with 0 by lia. }
  cbn [digits_of]. set (c := digit_char (n mod base)).
  assert (digit_val base c = Some (n mod base)) as Hc by (apply digit_char_val; [apply Z.mod_pos_bound|]; lia).
  assert (digits_in base (c :: acc)) as Hacc' by (constructor; [rewrite Hc; eauto|done]).
  pose proof (Z.div_mod n base ltac:(lia)) as Hdm.
  destruct (Z.eqb_spec (n / base) 0) as [E|E].
  - split; [done|]. simpl. rewrite Hc. simpl. f_equal. lia.
  - assert (0 <= n / base < base ^ Z.of_nat fuel) as Hq.
    { rewrite Nat2Z.inj_succ, Z.pow_succ_r in Hn by lia. split; [apply Z.div_pos; lia|].
      apply Z.div_lt_upper_bound; lia. }
    destruct (IH (n / base) (c :: acc) Hb Hq Hacc') as [Hd Hv]. split; [done|]. rewrite Hv. simpl. rewrite Hc.
    simpl. f_equal. lia.
Qed.

Lemma digits_of_nil base fuel n : digits_of base (S fuel) n [] <> [].
Proof.
  assert (forall fuel n acc, acc <> [] -> digits_of base fuel n acc <> []) as Hne.
  { clear. induction fuel as [|fuel IH]; intros n acc Ha; simpl; [done|]. destruct (_ =? 0); [done|]. by apply IH. }
  simpl. destruct (_ =? 0); [done|]. by apply Hne.
Qed.

Lemma value_of_zeros base k ds : 0 < base -> value_of base 0 (replicate k 48 ++ ds) = value_of base 0 ds.
Proof.
  intros Hb. induction k as [|k IH]; [done|]. simpl. rewrite <- IH. f_equal. unfold digit_val. simpl.
  by destruct (Z.ltb_spec (48 - 48) base).
Qed.

Lemma digits_in_zeros base k ds : 0 < base -> digits_in base ds -> digits_in base (replicate k 48 ++ ds).
Proof.
  intros Hb Hd. apply Forall_app. split; [|done]. apply Forall_replicate. unfold digit_val. simpl.
  destruct (Z.ltb_spec (48 - 48) base); [eauto|lia].
Qed.

(** A hexadecimal number is scanned back; its value is that of an [int]. *)
Lemma print_hex_digits width n : 0 <= n < 2 ^ 32 ->
  digits_in 16 (print_hex width n) /\ print_hex width n <> [] /\ value_of 16 0 (print_hex width n) = n.
Proof.
  intros Hn. unfold print_hex, pad_left. destruct (digits_of_spec 16 32 n [] ltac:(lia)) as [Hd Hv]; [|constructor|].
  { change (16 ^ Z.of_nat 32) with (2 ^ 128). lia. }
  split; [by apply digits_in_zeros|]. split.
  - intros [_ E]%app_eq_nil. by apply digits_of_nil in E.
  - by rewrite value_of_zeros, Hv.
Qed.

Lemma digits_of_length base fuel : forall n acc k, 2 <= base -> 0 <= n < base ^ Z.of_nat (S k) ->
  (length (digits_of base fuel n acc) <= S k + length acc)%nat.
Proof.
  induction fuel as [|fuel IH]; intros n acc k Hb Hn; cbn [digits_of]; [lia|].
  destruct (Z.eqb_spec (n / base) 0); [cbn [length]; lia|]. destruct k as [|k].
  - rewrite Z.div_small in * by (change (Z.of_nat 1) with 1 in Hn; rewrite Z.pow_1_r in Hn; lia). done.
  - etrans; [apply (IH _ _ k Hb)|cbn [length]; lia]. rewrite Nat2Z.inj_succ, Z.pow_succ_r in Hn by lia.
    split; [apply Z.div_pos; lia|apply Z.div_lt_upper_bound; lia].
Qed.

Lemma skip_spaces_replicate k s : skip_spaces (replicate k 32 ++ s) = skip_spaces s.
Proof. induction k as [|k IH]; [done|]. exact IH. Qed.

Lemma digit_not_space base c : is_Some (digit_val base c) -> is_space c = false /\ c <> 45 /\ c <> 43.
Proof.
  intros [d Hd]. unfold digit_val in Hd. unfold is_space.
  destruct (Z.leb_spec 48 c), (Z.leb_spec c 57), (Z.leb_spec 65 c), (Z.leb_spec c 70), (Z.leb_spec 97 c), (Z.leb_spec c 102);
    simpl in Hd; try (rewrite Z.ltb_irrefl in Hd; done).
  all: destruct (Z.eqb_spec c 32), (Z.leb_spec 9 c), (Z.leb_spec c 13); simpl; lia || (split_and!; lia || done).
Qed.

(** What follows is neither a digit nor the x of a prefix. *)
Definition ends_number (base : Z) (s : bytes) : Prop :=
  match s with c :: _ => digit_val base c = None /\ c <> 120 /\ c <> 88 | [] => True end.

Lemma scan_unsigned_digits base ds s :
  digits_in base ds -> ds <> [] -> ends_number base s ->
  scan_unsigned base (ds ++ s) = Some (value_of base 0 ds, s).
Proof.
  intros Hd Hn Hs. assert (no_digit base s) as Hs' by (destruct s; [done|apply Hs]).
  assert (digit_val base 120 = None /\ digit_val base 88 = None) as [Hx HX].
  { unfold digit_val. simpl. by rewrite Z.ltb_irrefl. }
  rewrite <- (scan_digits_all base ds 0 false s) by auto. destruct ds as [|c ds]; [done|].
  apply Forall_cons in Hd as [Hc Hds]. unfold scan_unsigned. cbn [app].
  destruct (decide (c = 48)) as [->|]; [|repeat case_match; congruence || done].
  destruct ds as [|c' ds]; cbn [app].
  - destruct s as [|c' s]; [done|]. destruct Hs as (_ & H1 & H2). repeat case_match; congruence || done.
  - apply Forall_cons in Hds as [[d Hc'] _]. repeat case_match; congruence || done.
Qed.

Lemma scan_int_digits base k ds s :
  digits_in base ds -> ds <> [] -> ends_number base s ->
  scan_int base (replicate k 32 ++ ds ++ s) = Some (s32 (value_of base 0 ds), s).
Proof.
  intros Hd Hn Hs. unfold scan_int. rewrite skip_spaces_replicate.
  pose proof (scan_unsigned_digits base ds s Hd Hn Hs) as Hscan.
  destruct ds as [|c ds]; [done|]. apply Forall_cons in Hd as [Hc Hds].
  destruct (digit_not_space base c Hc) as (Hsp & H45 & H43). cbn [app skip_spaces] in *. rewrite Hsp.
  assert (prod_map s32 id <$> scan_unsigned base (c :: ds ++ s) = Some (s32 (value_of base 0 (c :: ds)), s)) as E.
  { by rewrite Hscan. }
  repeat case_match; congruence || done.
Qed.

(** As many hexadecimal digits as the width. *)
Lemma sscanf_hex_width k w s fmt :
  digits_in 16 w -> length w = S k -> sscanf (DHex (S k) :: fmt) (w ++ s) = SInt (s32 (value_of 16 0 w)) :: sscanf fmt s.
Proof.
  intros Hd Hl. cbn [sscanf].
  assert (Hsp : skip_spaces (w ++ s) = w ++ s).
  { destruct w as [|c w]; [done|]. apply Forall_cons in Hd as [Hc _]. destruct (digit_not_space 16 c Hc) as (Hsp & _). cbn [app skip_spaces]. by rewrite Hsp. }
  rewrite Hsp, take_app_length', drop_app_length' by done.
  pose proof (scan_int_digits 16 0 w [] Hd ltac:(by intros ->) I) as E. cbn [replicate app] in E. rewrite app_nil_r in E. by rewrite E.
Qed.
