(* ===== verification/UidResolver.v ===== *)
(** The owner of a connection (common/uid_resolver.c): the Java side answers on
    Android 10 and later; before, the tables of /proc/net are searched. *)
From Stdlib Require Import ZArith Lia Ascii String.
From stdpp Require Import base option gmap numbers list.
From S2P Require Import Prelude Packet Uthash Blacklist NdpiProtos Conn CText.

Open Scope Z_scope.

Definition STR (s : string) : bytes := (fun a => Z.of_nat (nat_of_ascii a)) <$> list_ascii_of_string s.

(** [sdk], and what the system answers: the content of a file, if it can be
    opened, and the method [getUidQ] ([None]: it is not found, or a string could
    not be created; the result is then the initial one). *)
Record uid_resolver := mk_resolver {
  sdk : Z;
  open_file : bytes -> option bytes;
  getUidQ : zdtun_5tuple -> option Z
}.

(** The file of a protocol. *)
Definition proc_file (ip_ver ip_proto : Z) : option bytes :=
  if ip_proto =? IPPROTO_TCP then Some (STR (if ip_ver =? 4 then "/proc/net/tcp" else "/proc/net/tcp6"))
  else if ip_proto =? IPPROTO_UDP then Some (STR (if ip_ver =? 4 then "/proc/net/udp" else "/proc/net/udp6"))
  else if (ip_proto =? IPPROTO_ICMP) || (ip_proto =? IPPROTO_ICMPV6)
  then Some (STR (if ip_ver =? 4 then "/proc/net/icmp" else "/proc/net/icmp6"))
  else None.

Definition addr_width (ip_ver : Z) : nat := if ip_ver =? 4 then 8 else 32.
Definition zero_addr (ip_ver : Z) : bytes := replicate (addr_width ip_ver) 48.

(** "%*d: %8s:%X %8s:%X %*X %*X:%*X %*X:%*X %*X %d" *)
Definition proc_format (ip_ver : Z) : list directive :=
  [DInt 10 false; DChar 58; DSpace; DWord (addr_width ip_ver); DChar 58; DInt 16 true; DSpace;
   DWord (addr_width ip_ver); DChar 58; DInt 16 true; DSpace; DInt 16 false; DSpace;
   DInt 16 false; DChar 58; DInt 16 false; DSpace; DInt 16 false; DChar 58; DInt 16 false; DSpace;
   DInt 16 false; DSpace; DInt 10 true].

(** The UID of a line, if it is a socket of the connection. *)
Definition line_uid (ip_ver : Z) (conn_shex conn_dhex : bytes) (src_port dst_port : Z) (line : bytes) : option Z :=
  match sscanf (proc_format ip_ver) (cstring line) with
  | [SWord shex; SInt sport; SWord dhex; SInt dport; SInt uid] =>
      if (sport =? src_port) && ((dport =? dst_port) || (dport =? 0)) &&
         (bool_decide (conn_dhex = dhex) || bool_decide (dhex = zero_addr ip_ver)) &&
         (bool_decide (conn_shex = shex) || bool_decide (shex = zero_addr ip_ver))
      then Some uid else None
  | _ => None
  end.

(** The lines after the header; every turn takes at least one byte. *)
Fixpoint search_lines (fuel : nat) (header : bool) (uid_of : bytes -> option Z) (file : bytes) : Z :=
  match fuel, fgets 256 file with
  | S fuel', Some (line, rest) =>
      if header then search_lines fuel' false uid_of rest
      else match uid_of line with
           | Some uid => uid
           | None => search_lines fuel' false uid_of rest
           end
  | _, _ => UID_UNKNOWN
  end.

Definition get_uid_proc (files : bytes -> option bytes) (ip_ver ip_proto : Z) (conn_shex conn_dhex : bytes)
    (src_port dst_port : Z) : Z :=
  match proc_file ip_ver ip_proto with
  | None => UID_UNKNOWN
  | Some proc =>
      match files proc with
      | None => UID_UNKNOWN
      | Some file =>
          search_lines (length file) true (line_uid ip_ver conn_shex conn_dhex src_port dst_port) file
      end
  end.

(** [sprintf] of an address, word by word as the host has them. *)
Definition hex_words (words : list Z) : bytes := concat (print_hex 8 <$> words).
Definition ip6_words (ip : Z) : list Z :=
  [u32 ip; u32 (Z.shiftr ip 32); u32 (Z.shiftr ip 64); u32 (Z.shiftr ip 96)].
(** "0000000000000000FFFF0000%08X" *)
Definition mapped_hex (ip : Z) : bytes := replicate 16 48 ++ replicate 4 70 ++ replicate 4 48 ++ print_hex 8 ip.

Definition get_uid_slow (files : bytes -> option bytes) (tuple : zdtun_5tuple) : Z :=
  let sport := ntohs (src_port tuple) in
  let dport := ntohs (dst_port tuple) in
  if ipver tuple =? 4 then
    let src := ip4 (src_ip tuple) in
    let dst := ip4 (dst_ip tuple) in
    let rv := get_uid_proc files 4 (ipproto tuple) (print_hex 8 src) (print_hex 8 dst) sport dport in
    if rv =? UID_UNKNOWN
    then get_uid_proc files 6 (ipproto tuple) (mapped_hex src) (mapped_hex dst) sport dport
    else rv
  else
    get_uid_proc files 6 (ipproto tuple) (hex_words (ip6_words (src_ip tuple)))
      (hex_words (ip6_words (dst_ip tuple))) sport dport.

Definition get_uid_q (resolver : uid_resolver) (tuple : zdtun_5tuple) : Z :=
  if negb (ipproto tuple =? IPPROTO_TCP) && negb (ipproto tuple =? IPPROTO_UDP) then UID_UNKNOWN
  else default UID_UNKNOWN (getUidQ resolver tuple).

Definition get_uid (resolver : uid_resolver) (tuple : zdtun_5tuple) : Z :=
  if sdk resolver >? 28 then get_uid_q resolver tuple
  else get_uid_slow (open_file resolver) tuple.

(** ** The tables of the kernel *)

(** A line of /proc/net/tcp, as Documentation/networking/proc_net_tcp.rst of the
    kernel shows it: the addresses and ports in hexadecimal, the state, the
    queues, the timer, the retransmissions, the UID and the rest. *)
Record socket_line := mk_line {
  sl_slot : Z;
  sl_src : bytes; sl_sport : Z;
  sl_dst : bytes; sl_dport : Z;
  sl_state : Z; sl_tx : Z; sl_rx : Z; sl_timer : Z; sl_when : Z; sl_retr : Z;
  sl_uid : Z;
  sl_rest : bytes
}.

Definition SP : bytes := [32].
Definition CO : bytes := [58].
Definition print_line (l : socket_line) : bytes :=
  print_dec 4 (sl_slot l) ++ CO ++ SP ++ sl_src l ++ CO ++ print_hex 4 (sl_sport l) ++ SP ++
  sl_dst l ++ CO ++ print_hex 4 (sl_dport l) ++ SP ++ print_hex 2 (sl_state l) ++ SP ++
  print_hex 8 (sl_tx l) ++ CO ++ print_hex 8 (sl_rx l) ++ SP ++ print_hex 2 (sl_timer l) ++ CO ++
  print_hex 8 (sl_when l) ++ SP ++ print_hex 8 (sl_retr l) ++ SP ++ print_dec 5 (sl_uid l) ++ SP ++ sl_rest l ++ [NEWLINE].

(** [w]: the width of an address. *)
Record line_ok (w : nat) (l : socket_line) : Prop := {
  lk_slot : 0 <= sl_slot l < 2 ^ 31;
  lk_src : length (sl_src l) = w /\ digits_in 16 (sl_src l);
  lk_dst : length (sl_dst l) = w /\ digits_in 16 (sl_dst l);
  lk_ports : 0 <= sl_sport l < 2 ^ 16 /\ 0 <= sl_dport l < 2 ^ 16;
  lk_words : Forall (fun v => 0 <= v < 2 ^ 32) [sl_state l; sl_tx l; sl_rx l; sl_timer l; sl_when l; sl_retr l];
  lk_uid : 0 <= sl_uid l < 2 ^ 31;
  lk_rest : Forall (fun c => c <> NEWLINE /\ c <> 0) (sl_rest l);
  lk_fits : (length (print_line l) < 256)%nat
}.

(** The socket of a connection: bound to its source, and connected to its
    destination or to none. *)
Definition owns_conn (zero conn_src conn_dst : bytes) (sport dport : Z) (l : socket_line) : bool :=
  (sl_sport l =? sport) && ((sl_dport l =? dport) || (sl_dport l =? 0)) &&
  (bool_decide (conn_dst = sl_dst l) || bool_decide (sl_dst l = zero)) &&
  (bool_decide (conn_src = sl_src l) || bool_decide (sl_src l = zero)).

(** ** Scanning a line *)
Lemma sscanf_word n w s fmt :
  length w = S n -> Forall (fun c => is_space c = false) w ->
  sscanf (DWord (S n) :: fmt) (w ++ s) = SWord w :: sscanf fmt s.
Proof.
  intros Hl Hw. assert (forall n w s, length w = n -> Forall (fun c => is_space c = false) w -> take_word n (w ++ s) = (w, s)) as Ht.
  { clear. induction n as [|n IH]; intros [|c w] s Hl Hw; simplify_eq/=; [done|].
    apply Forall_cons in Hw as [-> Hw]. by rewrite IH. }
  cbn [sscanf]. destruct w as [|c w]; [done|]. pose proof Hw as Hw'. apply Forall_cons in Hw' as [Hc _].
  assert (skip_spaces ((c :: w) ++ s) = (c :: w) ++ s) as -> by (simpl; by rewrite Hc).
  rewrite Ht by done. done.
Qed.

Lemma hex_not_space w : digits_in 16 w -> Forall (fun c => is_space c = false) w.
Proof. intros Hw. eapply Forall_impl; [exact Hw|]. intros c Hc. by apply digit_not_space in Hc as []. Qed.

Lemma sscanf_hex k n assign s fmt :
  0 <= n < 2 ^ 32 -> ends_number 16 s ->
  sscanf (DInt 16 assign :: fmt) (print_hex k n ++ s) = (if assign then [SInt (s32 n)] else []) ++ sscanf fmt s.
Proof.
  intros Hn Hs. destruct (print_hex_digits k n ltac:(lia)) as (Hd & Hne & Hv). cbn [sscanf].
  pose proof (scan_int_digits 16 0 (print_hex k n) s Hd Hne Hs) as E. rewrite Hv in E. cbn [replicate app] in E.
  by rewrite E.
Qed.

Lemma sscanf_dec k n assign s fmt :
  0 <= n < 2 ^ 31 -> ends_number 10 s ->
  sscanf (DInt 10 assign :: fmt) (print_dec k n ++ s) = (if assign then [SInt n] else []) ++ sscanf fmt s.
Proof.
  intros Hn Hs. destruct (digits_of_spec 10 32 n [] ltac:(lia)) as [Hd Hv]; [|constructor|].
  { change (10 ^ Z.of_nat 32) with 100000000000000000000000000000000. lia. }
  cbn [sscanf]. unfold print_dec, pad_left. rewrite <- app_assoc.
  rewrite (scan_int_digits 10 _ _ s Hd (digits_of_nil 10 31 n) Hs).
  rewrite Hv. cbn [value_of fold_left]. by rewrite s32_small by lia.
Qed.

Lemma sscanf_char c s fmt : sscanf (DChar c :: fmt) (c :: s) = sscanf fmt s.
Proof. cbn [sscanf]. by rewrite Z.eqb_refl. Qed.

Lemma skip_spaces_idem s : skip_spaces (skip_spaces s) = skip_spaces s.
Proof. induction s as [|c s IH]; simpl; [done|]. destruct (is_space c) eqn:E; [done|]. simpl. by rewrite E. Qed.

(** White space before a conversion that skips it. *)
Lemma sscanf_space d fmt s :
  (match d with DInt _ _ | DWord _ => True | _ => False end) ->
  sscanf (DSpace :: d :: fmt) (SP ++ s) = sscanf (d :: fmt) s.
Proof.
  intros Hd. assert (skip_spaces (SP ++ s) = skip_spaces s) as E by done.
  destruct d; try done; cbn [sscanf]; rewrite E; [unfold scan_int; by rewrite skip_spaces_idem|by rewrite skip_spaces_idem].
Qed.

(** A line of the kernel is scanned to the five values. *)
Lemma scan_print_line ip_ver l :
  line_ok (addr_width ip_ver) l ->
  sscanf (proc_format ip_ver) (print_line l) =
  [SWord (sl_src l); SInt (sl_sport l); SWord (sl_dst l); SInt (sl_dport l); SInt (sl_uid l)].
Proof.
  intros [Hslot [Hsl Hsd] [Hdl Hdd] [Hsp Hdp] Hw Huid _ _].
  rewrite !Forall_cons in Hw. destruct Hw as (Hst & Htx & Hrx & Htm & Hwh & Hre & _).
  unfold print_line, proc_format. rewrite sscanf_dec by done. cbn [app CO]. rewrite sscanf_char.
  assert (exists n, addr_width ip_ver = S n) as [n En] by (unfold addr_width; destruct (_ =? 4); eauto).
  rewrite En in *.
  repeat first
    [ rewrite sscanf_space by done
    | rewrite sscanf_char
    | rewrite sscanf_word by (done || by apply hex_not_space)
    | rewrite sscanf_hex by (done || lia || by split_and!)
    | rewrite sscanf_dec by (done || lia || by split_and!)
    | progress cbn [app] ].
  rewrite !s32_small by lia. done.
Qed.

(** *** Reading the table *)
Definition text (s : bytes) : Prop := Forall (fun c => c <> NEWLINE /\ c <> 0) s.

Lemma take_line_text n a rest : text a -> (length a < n)%nat -> take_line n (a ++ NEWLINE :: rest) = (a ++ [NEWLINE], rest).
Proof.
  revert n. induction a as [|c a IH]; intros [|n] Ha Hl; simpl in *; try lia; [done|].
  apply Forall_cons in Ha as [[Hc _] Ha]. destruct (Z.eqb_spec c NEWLINE); [done|]. by rewrite IH by (done || lia).
Qed.

Lemma fgets_line n a rest : text a -> Z.of_nat (length a) + 1 < n -> fgets n (a ++ NEWLINE :: rest) = Some (a ++ [NEWLINE], rest).
Proof.
  intros Ha Hn. unfold fgets. rewrite take_line_text by (done || lia). by destruct a.
Qed.

Lemma cstring_text s : Forall (fun c => c <> 0) s -> cstring s = s.
Proof.
  unfold cstring. induction 1 as [|c s Hc _ IH]; simpl; [done|]. destruct (Z.eqb_spec c 0); [done|]. by rewrite IH.
Qed.

Lemma digits_text base s : digits_in base s -> text s.
Proof.
  intros Hs. eapply Forall_impl; [exact Hs|]. intros c Hc. pose proof (digit_not_space base c Hc) as (Hsp & _).
  split; intros ->; [done|]. destruct Hc as [d Hd]. by unfold digit_val in Hd; simpl in Hd; rewrite Z.ltb_irrefl in Hd.
Qed.
Lemma hex_text k n : 0 <= n < 2 ^ 32 -> text (print_hex k n).
Proof. intros Hn. eapply digits_text. by apply print_hex_digits. Qed.
Lemma dec_text k n : 0 <= n < 2 ^ 31 -> text (print_dec k n).
Proof.
  intros Hn. unfold print_dec, pad_left. apply Forall_app. split; [by apply Forall_replicate|].
  eapply digits_text. apply digits_of_spec; [lia| |constructor]. change (10 ^ Z.of_nat 32) with 100000000000000000000000000000000. lia.
Qed.

(** The line without its newline. *)
Lemma print_line_text w l : line_ok w l -> exists a, print_line l = a ++ [NEWLINE] /\ text a.
Proof.
  intros [Hslot [_ Hsd] [_ Hdd] [Hsp Hdp] Hw Huid Hr _]. rewrite !Forall_cons in Hw.
  destruct Hw as (? & ? & ? & ? & ? & ? & _).
  unfold print_line. rewrite !app_assoc. eexists. split; [exact eq_refl|]. unfold text. rewrite !Forall_app.
  assert (text SP /\ text CO) as [HSP HCO] by (split; by repeat constructor).
  split_and!;
    lazymatch goal with
    | |- Forall _ SP => exact HSP
    | |- Forall _ CO => exact HCO
    | |- Forall _ (print_hex _ _) => apply hex_text; lia
    | |- Forall _ (print_dec _ _) => apply dec_text; lia
    | |- Forall _ (sl_rest _) => exact Hr
    | |- _ => eapply digits_text; eassumption
    end.
Qed.

Definition first_owner (zero conn_src conn_dst : bytes) (sport dport : Z) (ls : list socket_line) : Z :=
  match find (owns_conn zero conn_src conn_dst sport dport) ls with Some l => sl_uid l | None => UID_UNKNOWN end.

Lemma line_uid_print v cs cd sp dp l : line_ok (addr_width v) l ->
  line_uid v cs cd sp dp (print_line l) = if owns_conn (zero_addr v) cs cd sp dp l then Some (sl_uid l) else None.
Proof.
  intros Hl. unfold line_uid. rewrite cstring_text.
  - by rewrite scan_print_line.
  - destruct (print_line_text _ l Hl) as (a & -> & Ha). apply Forall_app. split; [|by repeat constructor].
    eapply Forall_impl; [exact Ha|]. by intros c [].
Qed.

Lemma search_lines_first v cs cd sp dp : forall ls fuel,
  Forall (line_ok (addr_width v)) ls -> (length ls <= fuel)%nat ->
  search_lines fuel false (line_uid v cs cd sp dp) (concat (print_line <$> ls)) =
  first_owner (zero_addr v) cs cd sp dp ls.
Proof.
  induction ls as [|l ls IH]; intros fuel Hls Hf; [by destruct fuel|].
  destruct fuel as [|fuel]; simpl in Hf; [lia|]. apply Forall_cons in Hls as [Hl Hls].
  destruct (print_line_text _ l Hl) as (a & Ea & Ha). pose proof (lk_fits _ _ Hl) as Hfit. rewrite Ea, length_app in Hfit. simpl in Hfit.
  cbn [fmap list_fmap concat search_lines]. rewrite Ea at 1. rewrite <- app_assoc.
  cbn [app]. rewrite fgets_line by (done || lia). rewrite <- Ea, line_uid_print by done. unfold first_owner. cbn [find].
  destruct (owns_conn _ _ _ _ _ l); [done|]. apply IH; [done|lia].
Qed.

(** The content of a file: the titles and the sockets. *)
Definition print_table (titles : bytes) (ls : list socket_line) : bytes :=
  titles ++ NEWLINE :: concat (print_line <$> ls).
Definition table_file (w : nat) (ls : list socket_line) (file : option bytes) : Prop :=
  Forall (line_ok w) ls /\ exists titles, text titles /\ (length titles < 255)%nat /\ file = Some (print_table titles ls).

Lemma get_uid_proc_first files v proto cs cd sp dp proc ls :
  proc_file v proto = Some proc -> table_file (addr_width v) ls (files proc) ->
  get_uid_proc files v proto cs cd sp dp = first_owner (zero_addr v) cs cd sp dp ls.
Proof.
  intros Hp (Hls & titles & Ht & Hl & Ef). unfold get_uid_proc. rewrite Hp, Ef. unfold print_table.
  assert (length (concat (print_line <$> ls)) >= length ls)%nat as Hlen.
  { clear -Hls. induction Hls as [|l ls Hl _ IH]; [simpl; lia|].
    rewrite fmap_cons. cbn [concat length]. rewrite length_app.
    destruct (print_line_text _ l Hl) as (a & -> & _). rewrite length_app. cbn [length]. lia. }
  rewrite length_app. cbn [length]. rewrite Nat.add_succ_r. cbn [search_lines]. rewrite fgets_line by (done || lia).
  apply search_lines_first; [done|lia].
Qed.

(** *** The property *)

(** How the host prints the two addresses of a connection. *)
Definition tuple_hex (v : Z) (ip : Z) : bytes := if v =? 4 then print_hex 8 (ip4 ip) else hex_words (ip6_words ip).

(** C33: before Android 10 the UID found for a TCP, UDP or ICMP connection is
    that of the first socket of the kernel's table with its source (or bound to
    any address) and its destination (or not connected); for an IPv4 connection
    with none, that of the first one of the IPv6 table, where its addresses are
    the mapped ones; and -1 when there is none. The lines are as the kernel
    prints them, at most 255 bytes. *)
Theorem get_uid_first_owner r tuple ls4 ls6 proc4 proc6 :
  sdk r <= 28 -> proc_file 4 (ipproto tuple) = Some proc4 -> proc_file 6 (ipproto tuple) = Some proc6 ->
  table_file 8 ls4 (open_file r proc4) -> table_file 32 ls6 (open_file r proc6) ->
  get_uid r tuple =
    let sport := ntohs (src_port tuple) in
    let dport := ntohs (dst_port tuple) in
    if ipver tuple =? 4 then
      match find (owns_conn (zero_addr 4) (tuple_hex 4 (src_ip tuple)) (tuple_hex 4 (dst_ip tuple)) sport dport) ls4 with
      | Some l => sl_uid l
      | None => first_owner (zero_addr 6) (mapped_hex (ip4 (src_ip tuple))) (mapped_hex (ip4 (dst_ip tuple))) sport dport ls6
      end
    else first_owner (zero_addr 6) (tuple_hex 6 (src_ip tuple)) (tuple_hex 6 (dst_ip tuple)) sport dport ls6.
Proof.
  intros Hsdk H4 H6 Ht4 Ht6. unfold get_uid. destruct (Z.gtb_spec (sdk r) 28); [lia|]. unfold get_uid_slow. cbv zeta.
  rewrite (get_uid_proc_first _ 6 _ _ _ _ _ _ _ H6 Ht6), (get_uid_proc_first _ 6 _ _ _ _ _ _ _ H6 Ht6).
  destruct (ipver tuple =? 4); [|done]. rewrite (get_uid_proc_first _ 4 _ _ _ _ _ _ _ H4 Ht4).
  unfold first_owner at 1 3. cbn [tuple_hex Z.eqb Pos.eqb].
  destruct (find _ ls4) as [l|] eqn:E; [|done].
  apply find_some in E as [Hin _]. destruct Ht4 as [Hls _].
  rewrite List.Forall_forall in Hls. apply Hls in Hin. destruct (Z.eqb_spec (sl_uid l) UID_UNKNOWN) as [E|]; [|done].
  destruct Hin. unfold UID_UNKNOWN in E. lia.
Qed.

(** *** Two sockets *)
Definition ex_owner (src : bytes) (sport : Z) (dst : bytes) (dport uid : Z) : socket_line :=
  mk_line 1 src sport dst dport 1 0 0 0 0 0 uid (STR "0 12345 1 0 20 4 30 10 -1").
Definition ex_any : bytes := replicate 8 48.
Definition ex_tcp4 : list socket_line :=
  [ex_owner ex_any 40001 ex_any 0 1000; ex_owner ex_any 40000 ex_any 0 10123;
   ex_owner (STR "0100000A") 40000 (STR "04030201") 80 10124].
Definition ex_titles : bytes := STR "  sl  local_address rem_address   st tx_queue rx_queue tr tm->when retrnsmt   uid  timeout inode".
Definition ex_files (path : bytes) : option bytes :=
  if bool_decide (path = STR "/proc/net/tcp") then Some (print_table ex_titles ex_tcp4)
  else if bool_decide (path = STR "/proc/net/tcp6") then Some (print_table ex_titles []) else None.
Definition ex_resolver : uid_resolver := mk_resolver 28 ex_files (fun _ => None).
(** 10.0.0.1:40000 to 1.2.3.4:80. *)
Definition ex_conn_tuple : zdtun_5tuple := mk_5tuple 0x0100000A 0x04030201 (htons 40000) (htons 80) 4 6.

Example get_uid_run : get_uid ex_resolver ex_conn_tuple = 10123.
Proof. by vm_compute. Qed.

Ltac by_computation := apply (bool_decide_unpack _); vm_compute; exact I.
Ltac ex_line_tac :=
  split; [simpl; lia|split; [done|by_computation]|split; [done|by_computation]|simpl; lia|by_computation|simpl; lia
         |by_computation|apply Nat.ltb_lt; by vm_compute].

Lemma get_uid_first_owner_witness :
  get_uid ex_resolver ex_conn_tuple =
    match find (owns_conn (zero_addr 4) (STR "0100000A") (STR "04030201") 40000 80) ex_tcp4 with
    | Some l => sl_uid l
    | None => first_owner (zero_addr 6) (mapped_hex 0x0100000A) (mapped_hex 0x04030201) 40000 80 []
    end.
Proof.
  refine (get_uid_first_owner ex_resolver ex_conn_tuple ex_tcp4 [] (STR "/proc/net/tcp") (STR "/proc/net/tcp6") _ _ _ _ _);
    [simpl; lia|by vm_compute|by vm_compute|split|split].
  - repeat (apply Forall_cons_2; [ex_line_tac|]). constructor.
  - exists ex_titles. split; [|split; [apply Nat.ltb_lt|]; by vm_compute]. by_computation.
  - constructor.
  - exists ex_titles. split; [|split; [apply Nat.ltb_lt|]; by vm_compute]. by_computation.
Defined.
