(* ===== verification/CaptureVpn.v ===== *)
(** The VPN capture (core/capture_vpn.c): the packets of the device come from
    the tun descriptor, go through the core and are carried by the engine of
    zdtun, whose callbacks bring the replies back through the core. *)
From Stdlib Require Import ZArith Lia String.
From stdpp Require Import base option gmap numbers list.
From S2P Require Import Prelude Packet Uthash PortMap PcapDump Blacklist NdpiProtos Conn JavaDump Dpi Housekeeping JavaRequests.
From S2P Require Import CaptureLibpcap PdRun Checksum Kernel Zdtun ZdtunFwd CText UidResolver.

Open Scope Z_scope.

Definition ENOBUFS : Z := 105.
Definition EIO : Z := 5.

(** What [write] on the tun descriptor answers: all, a part, an error. *)
Inductive write_result := WroteAll | WrotePart (n : Z) | WriteError (err : Z).

(** The core and what it gets from the system, each call taking the head of a
    list: the clocks of [pd_refresh_time] (ms, if the call succeeds) and of
    [get_pkt_timestamp], the tables of the sockets, the writes; [tun_out] are
    the packets written to the device. *)
Record vpn_world (P F : Type) := mk_world {
  w_pd : pcapdroid P F;
  w_ports : port_mappings;
  w_clock : list (option Z);
  w_times : list timeval;
  w_resolvers : list uid_resolver;
  w_writes : list write_result;
  tun_out : list bytes
}.
#[global] Arguments mk_world {P F}.
#[global] Arguments w_pd {P F}.
#[global] Arguments w_ports {P F}.
#[global] Arguments w_clock {P F}.
#[global] Arguments w_times {P F}.
#[global] Arguments w_resolvers {P F}.
#[global] Arguments w_writes {P F}.
#[global] Arguments tun_out {P F}.
#[export] Instance eta_vpn_world P F : Eta (vpn_world P F) := fun w =>
  mk_world (w_pd w) (w_ports w) (w_clock w) (w_times w) (w_resolvers w) (w_writes w) (tun_out w).

Definition no_resolver : uid_resolver := mk_resolver 0 (fun _ => None) (fun _ => None).

Section world_ops.
Context {P F : Type} `{Ndpi P} `{NdpiFlow F} (java_app_name : Z -> option bytes).
Abbreviation world := (vpn_world P F).
Abbreviation zconn := (zdtun_conn conn_ptr).
Abbreviation pd_state := (pcapdroid P F).

Definition on_pd {A} (m : M pd_state A) : M world A := fun w =>
  match m (w_pd w) with Some (a, s) => Some (a, w <| w_pd := s |>) | None => None end.
Definition modify_pd (f : pd_state -> pd_state) : M world unit := modify (fun w => w <| w_pd ::= f |>).

Definition refresh_time : M world unit :=
  w ← gets (fun w : world => w);
  modify (fun w => w <| w_clock ::= tail |>);;
  on_pd (pd_refresh_time (default None (head (w_clock w)))).

Definition get_pkt_timestamp : M world timeval :=
  w ← gets (fun w : world => w);
  modify (fun w => w <| w_times ::= tail |>);;
  mret (default (mk_tv 0 0) (head (w_times w))).

(** [write(tunfd, buf, len)] *)
Definition write_tun (buf : bytes) (len : Z) : M world write_result :=
  data ← of_option (rdn buf 0 len);
  w ← gets (fun w : world => w);
  let r := default WroteAll (head (w_writes w)) in
  modify (fun w => w <| w_writes ::= tail |>);;
  match r with WroteAll => modify (fun w => w <| tun_out ::= fun l => l ++ [data] |>) | _ => mret tt end;;
  mret r.

Definition resolve_uid (tuple : zdtun_5tuple) : M world Z :=
  w ← gets (fun w : world => w);
  modify (fun w => w <| w_resolvers ::= tail |>);;
  let uid := get_uid (default no_resolver (head (w_resolvers w))) tuple in
  if uid >=? 0 then on_pd (log_appname java_app_name uid);; mret uid
  else mret UID_UNKNOWN.

(** *** The callbacks *)
Definition protectSocketCallback (sock : Z) : M world unit :=
  w ← gets (fun w : world => w);
  when (vpn_capture (w_pd w)) (on_pd (jni_ok);; mret tt).

Definition blocked_packet (tuple : zdtun_5tuple) (d : conn_ptr) : M world unit :=
  on_pd (modify_conn d (fun c => set_update (c <| blocked_pkts ::= fun n => s32 (n + 1) |>) CONN_UPDATE_STATS));;
  on_pd (pd_notify_connection_update java_app_name tuple d);;
  mret tt.

(** The packet being forwarded is accounted before its answer; its context has
    a pointer to the tuple of the connection. *)
Definition at_tuple (tuple : zdtun_5tuple) (pctx : pkt_context) : pkt_context :=
  mk_pctx (pctx_pkt pctx) (pctx_tv pctx) (pctx_ms pctx) (pctx_is_tx pctx) tuple (pctx_data pctx).
Definition account_fw_pctx (tuple : zdtun_5tuple) (d : conn_ptr) : M world unit :=
  data ← on_pd (deref d);
  match vpn_fw_pctx data with
  | None => mret tt
  | Some pctx =>
      on_pd (pd_account_stats java_app_name (at_tuple tuple pctx));;
      on_pd (modify_conn d (fun c => c <| vpn_fw_pctx := None |>))
  end.

Definition stop_running : M world unit := modify_pd (fun s => s <| running := false |>).

Definition remote2vpn (pkt : zdtun_pkt) (conn_info : zconn) : M world Z :=
  w ← gets (fun w : world => w);
  if negb (running (w_pd w)) then mret 0 else
  let tuple := zc_tuple conn_info in
  d ← of_option (zc_user_data conn_info);
  account_fw_pctx tuple d;;
  refresh_time;;
  tv ← get_pkt_timestamp;
  pctx ← on_pd (pd_process_packet java_app_name pkt false tuple d tv);
  data ← on_pd (deref d);
  if to_block data then blocked_packet tuple d;; mret (-1) else
  rv ← write_tun (pkt_buf pkt) (pkt_len pkt);
  match rv with
  | WriteError err => when (negb (err =? ENOBUFS)) stop_running;; mret (-1)
  | WrotePart n => mret (-1)
  | WroteAll => on_pd (pd_account_stats java_app_name pctx);; mret 0
  end.

Definition handle_new_connection (conn_info : zconn) : M world (Z * option conn_ptr) :=
  let tuple := zc_tuple conn_info in
  uid ← resolve_uid tuple;
  data ← on_pd (pd_new_connection java_app_name tuple uid);
  match data with
  | None => mret (1, None)
  | Some d => mret (0, Some d)
  end.

Definition connection_closed (conn_info : zconn) : M world unit :=
  match zc_user_data conn_info with
  | None => mret tt
  | Some d =>
      let tuple := zc_tuple conn_info in
      on_pd (modify_conn d (fun c => set_update c CONN_UPDATE_STATS));;
      rv ← on_pd (pd_notify_connection_update java_app_name tuple d);
      if rv <? 0 then on_pd (pd_purge_connection d)
      else
        on_pd (pd_giveup_dpi java_app_name d tuple);;
        on_pd (modify_conn d (fun c => c <| status := zc_status conn_info |>));;
        on_pd (modify_conn d (fun c => c <| to_purge := true |>))
  end.

Definition update_conn_status (pkt : zdtun_pkt) (from_tun : bool) (conn_info : zconn) : M world unit :=
  d ← of_option (zc_user_data conn_info);
  on_pd (modify_conn d (fun c => c <| status := zc_status conn_info |>));;
  data ← on_pd (deref d);
  when (status data >=? CONN_STATUS_CLOSED) (on_pd (modify_conn d (fun c => c <| to_purge := true |>))).

#[export] Instance vpn_callbacks : Callbacks world conn_ptr := {
  send_client := remote2vpn;
  account_packet := update_conn_status;
  on_socket_open := protectSocketCallback;
  on_socket_close := fun _ => mret tt;
  on_connection_open := handle_new_connection;
  on_connection_close := connection_closed
}.
End world_ops.

(** ** The packets of the device *)

(** [dns_packet_t]: the offsets of what is read of a request. *)
Definition dns_transaction_id (pkt : zdtun_pkt) : option Z := rd16 (pkt_buf pkt) (l7_off pkt).
Definition dns_flags (pkt : zdtun_pkt) : option Z := rd16 (pkt_buf pkt) (l7_off pkt + 2).
Definition dns_questions (pkt : zdtun_pkt) : option Z := rd16 (pkt_buf pkt) (l7_off pkt + 4).
Definition dns_query (pkt : zdtun_pkt) (i : Z) : option Z := rd8 (pkt_buf pkt) (l7_off pkt + sizeof_dns_packet + i).

(** The length of the name of the query. *)
Fixpoint query_len (pkt : zdtun_pkt) (fuel : nat) (qlen : Z) : option Z :=
  match fuel with
  | O => Some qlen
  | S fuel' =>
      b ← dns_query pkt qlen;
      if b =? 0 then Some qlen else query_len pkt fuel' (qlen + 1)
  end.

Section vpn_ops.
Context {P F : Type} `{Ndpi P} `{NdpiFlow F} (java_app_name : Z -> option bytes).
Abbreviation world := (vpn_world P F).
Abbreviation zconn := (zdtun_conn conn_ptr).
Abbreviation pd_state := (pcapdroid P F).
#[local] Existing Instance vpn_callbacks.
#[local] Instance vpn_calls : Callbacks world conn_ptr := vpn_callbacks java_app_name.
Abbreviation state := (tun_state world conn_ptr).
Implicit Types (p : zconn_ptr) (d : conn_ptr) (tuple : zdtun_5tuple).

Definition on_world {A} (m : M world A) : M state A := callback m.
Definition core {A} (m : M pd_state A) : M state A := on_world (on_pd m).
Definition get_pd : M state pd_state := gets (fun s => w_pd (ts_user s)).
Definition set_pd (f : pd_state -> pd_state) : M state unit := on_world (modify_pd f).

Definition should_proxify tuple d : M state bool :=
  s ← get_pd;
  if negb (socks5_enabled (vpn s)) then mret false else
  data ← core (deref d);
  match tls_list (tls s) with
  | Some _ =>
      if matches_decryption_whitelist s tuple data then mret (ipproto tuple =? IPPROTO_TCP)
      else core (modify_conn d (fun c => c <| decryption_ignored := true |>));; mret false
  | None => mret (ipproto tuple =? IPPROTO_TCP)
  end.

Definition is_internal_dns (s : pd_state) tuple : bool :=
  ipv4_enabled (vpn s) && (ipver tuple =? 4) && (ip4 (dst_ip tuple) =? ipv4_internal_dns (vpn s)).

Definition check_dns_req_allowed p (pctx : pkt_context) : M state bool :=
  let tuple := pctx_tuple pctx in
  let pkt := pctx_pkt pctx in
  s ← get_pd;
  when (negb (new_dns_server s =? 0))
    (set_pd (fun s => s <| vpn ::= fun v => v <| ipv4_dns_server := new_dns_server s |> |>
                        <| new_dns_server := 0 |>));;
  if ipproto tuple =? IPPROTO_ICMP then mret true else
  s ← get_pd;
  let internal := is_internal_dns s tuple in
  let is_dns_server :=
    internal || (ipv6_enabled (vpn s) && (ipver tuple =? 6) && (dst_ip tuple =? ipv6_dns_server (vpn s))) ||
    blacklist_match_ip (known_dns_servers (vpn s)) (dst_ip tuple) (ipver tuple) in
  if negb is_dns_server then mret true else
  let otherwise : M state bool := mret (negb (block_private_dns s)) in
  if (ipproto tuple =? IPPROTO_UDP) && (ntohs (dst_port tuple) =? 53) && (l7_len pkt >=? sizeof_dns_packet) then
    flags ← of_option (dns_flags pkt);
    if negb (Z.land flags DNS_FLAGS_MASK =? DNS_TYPE_REQUEST) then mret true else
    set_pd (fun s => s <| num_dns_requests ::= fun n => u32 (n + 1) |>);;
    when internal (zdtun_conn_dnat p (mk_proxy (ipv4_dns_server (vpn s)) (htons 53) 4));;
    mret true
  else otherwise.

(** The reply to a query of the type [qtype]: its question, then an answer
    with a null address. *)
Definition spoofed_dns (id questions : Z) (query : bytes) (qtype alen : Z) : bytes :=
  le16 id ++ le16 (htons 0x8180) ++ le16 questions ++ le16 questions ++ le16 0 ++ le16 0 ++
  query ++ [0xc0; 0x0c; 0; qtype; 0; 1] ++ le32 (htonl 10) ++ [0; alen] ++ zeros alen.

(** The packet: the headers, with the checksum, around the message. *)
Definition spoofed_udp tuple (l3_len check : Z) : bytes :=
  le16 (dst_port tuple) ++ le16 (src_port tuple) ++ le16 (htons (u16 l3_len)) ++ le16 check.
Definition spoofed_packet (ver : Z) tuple (msg : bytes) : bytes :=
  let l3_len := 8 + blen msg in
  let iphdr := zdtun_make_iphdr ver tuple (u16 l3_len) in
  let check := zdtun_l3_checksum ver (ipproto tuple) iphdr (spoofed_udp tuple l3_len 0 ++ msg) in
  iphdr ++ spoofed_udp tuple l3_len check ++ msg.

Definition spoof_dns_reply p (pctx : pkt_context) : M state bool :=
  let pkt := pctx_pkt pctx in
  let tuple := pctx_tuple pctx in
  if l7_len pkt <? sizeof_dns_packet + 5 then mret false else
  questions ← of_option (dns_questions pkt);
  if negb (ntohs questions =? 1) then mret false else
  let remaining := l7_len pkt - sizeof_dns_packet in
  qlen ← of_option (query_len pkt (Z.to_nat (remaining - 4)) 0);
  q0 ← of_option (dns_query pkt qlen);
  if negb (q0 =? 0) then mret false else
  q1 ← of_option (dns_query pkt (qlen + 1));
  if negb (q1 =? 0) then mret false else
  q3 ← of_option (dns_query pkt (qlen + 3));
  if negb (q3 =? 0) then mret false else
  q4 ← of_option (dns_query pkt (qlen + 4));
  if negb (q4 =? 1) then mret false else
  qtype ← of_option (dns_query pkt (qlen + 2));
  if negb ((qtype =? 1) || (qtype =? 0x1c)) then mret false else
  let alen := if qtype =? 1 then 4 else 16 in
  ver ← sock_ipver p;
  id ← of_option (dns_transaction_id pkt);
  query ← of_option (rdn (pkt_buf pkt) (l7_off pkt + sizeof_dns_packet) (qlen + 5));
  c ← zderef p;
  let buf := spoofed_packet ver (zc_tuple c) (spoofed_dns id questions query qtype alen) in
  on_world (write_tun buf (blen buf));;
  mret true.

(** *** The first packet of a connection *)
Definition setup_new_conn p d : M state unit :=
  c ← zderef p;
  let tuple := zc_tuple c in
  w ← gets ts_user;
  match pd_check_port_map (w_ports w) tuple with
  | Some (ip, port, ver) =>
      zdtun_conn_dnat p (mk_proxy ip port ver);;
      core (modify_conn d (fun c => c <| port_mapping_applied := true |>))
  | None =>
      proxify ← should_proxify tuple d;
      when proxify
        (zdtun_conn_proxy p;;
         core (modify_conn d (fun c => c <| proxied := true |>)))
  end.

Definition check_new_conn p d (pctx : pkt_context) : M state unit :=
  data ← core (deref d);
  (if negb (port_mapping_applied data) then
     allowed ← check_dns_req_allowed p pctx;
     core (modify_conn d (fun c => c <| blacklisted_internal ::= fun b => b || negb allowed |>))
   else mret tt);;
  core (modify_conn d (fun c => c <| to_block := to_block c || blacklisted_internal c |>));;
  data ← core (deref d);
  when (to_block data && (l7proto data =? NDPI_PROTOCOL_DNS) && (ipproto (pctx_tuple pctx) =? IPPROTO_UDP))
    (spoof_dns_reply p pctx;;
     zdtun_conn_close p CONN_STATUS_CLOSED).

(** The local port, for the proxy of the decryption. *)
Definition learn_local_port p d : M state unit :=
  c ← zderef p;
  when (negb (zc_sock c =? INVALID_SOCKET) && (ipver (zc_tuple c) =? 4))
    (r ← sys sys_get;     (* getsockname *)
     match r with
     | inr port => core (modify_conn d (fun c => c <| vpn_local_port := u16 port |>))
     | inl _ => mret tt
     end).

(** [pctx]: the packet, already seen by the core. *)
Definition forward_packet (pkt : zdtun_pkt) p d (pctx : pkt_context) : M state unit :=
  core (modify_conn d (fun c => c <| vpn_fw_pctx := Some pctx |>));;
  rv ← zdtun_forward pkt p;
  if negb (rv =? 0) then
    c ← zderef p;
    when (negb (zc_status c =? CONN_STATUS_UNREACHABLE))
      (set_pd (fun s => s <| num_dropped_connections ::= fun n => u32 (n + 1) |>));;
    zdtun_conn_close p CONN_STATUS_ERROR
  else
    c ← zderef p;
    on_world (account_fw_pctx java_app_name (zc_tuple c) d);;
    data ← core (deref d);
    when (sent_pkts data =? 1) (learn_local_port p d).

Definition conn_packet (pkt : zdtun_pkt) p : M state unit :=
  c ← zderef p;
  d ← of_option (zc_user_data c);
  data ← core (deref d);
  when (sent_pkts data =? 0) (setup_new_conn p d);;
  tv ← on_world get_pkt_timestamp;
  c ← zderef p;
  pctx ← core (pd_process_packet java_app_name pkt true (zc_tuple c) d tv);
  data ← core (deref d);
  when (sent_pkts data =? 0) (check_new_conn p d pctx);;
  data ← core (deref d);
  if to_block data then on_world (blocked_packet java_app_name (zc_tuple c) d)
  else forward_packet pkt p d pctx.

(** A packet read from the device. *)
Definition vpn_packet (buffer : bytes) (size : Z) : M state unit :=
  on_world refresh_time;;
  ids ← tun_get id2ports;
  '(r, ids) ← of_option (zdtun_parse_pkt ids buffer (u16 size));
  on_tun (fun t => t <| id2ports := ids |>);;
  match r with
  | inl _ => mret tt
  | inr pkt =>
      let tuple := pkt_tuple pkt in
      if has_flag (pkt_flags pkt) ZDTUN_PKT_IS_FRAGMENT then
        set_pd (fun s => s <| num_discarded_fragments ::= fun n => n + 1 |>)
      else
      s ← get_pd;
      if is_internal_dns s tuple && (ntohs (dst_port tuple) =? 853) then mret tt else
      if ((ipver tuple =? 6) && negb (ipv6_enabled (vpn s))) || ((ipver tuple =? 4) && negb (ipv4_enabled (vpn s)))
      then mret tt else
      established ← of_option (is_tcp_established pkt);
      conn ← zdtun_lookup tuple (negb established);
      match conn with
      | None =>
          when (negb established)
            (set_pd (fun s => s <| num_dropped_connections ::= fun n => u32 (n + 1) |>))
      | Some p => conn_packet pkt p
      end
  end.

(** *** The loop *)

(** [zdtun_iter_connections] as the core sees it through [pd->zdt]: the open
    connections with their data. *)
Definition open_connections (t : zdtun conn_ptr) : list (zdtun_5tuple * conn_ptr) :=
  omap (fun e => c ← zt_heap t !! e.2;
                 if zc_status c <? CONN_STATUS_CLOSED then Some (zc_tuple c, default 0 (zc_user_data c)) else None)
    (conn_table t).
Definition show_engine : M state unit :=
  t ← gets ts_tun;
  set_pd (fun s => s <| zdt_connections := open_connections t |> <| zdt_stats := zt_stats t |>).

Definition vpn_housekeeping (next_purge_ms : Z) : M state Z :=
  show_engine;;
  core (pd_housekeeping java_app_name);;
  s ← get_pd;
  if pd_now_ms s >=? next_purge_ms then
    zdtun_purge_expired;;
    s ← get_pd;
    mret (u64 (pd_now_ms s + PERIODIC_PURGE_TIMEOUT_MS))
  else mret next_purge_ms.

(** What a turn gets from [select] and [read]; the reload worker and the
    requests of the Java side come between the turns. *)
Inductive vpn_event :=
  | VpnSelectFailed
  | VpnPacket (buffer : bytes) (size : Z)    (** the buffer after [read] and its result *)
  | VpnReady (rd_fds wr_fds : gset Z)
  | VpnReload (files : bytes -> option bytes) (allocs : nat -> nat -> bool)
  | VpnJava (r : java_request).

Fixpoint vpn_loop (events : list vpn_event) (next_purge_ms : Z) : M state unit :=
  s ← get_pd;
  if negb (running s) then mret tt else
  match events with
  | [] => mret tt
  | VpnSelectFailed :: _ => mret tt
  | VpnPacket buffer size :: events' =>
      (if size >? 0 then vpn_packet buffer size else on_world refresh_time);;
      next ← vpn_housekeeping next_purge_ms;
      vpn_loop events' next
  | VpnReady rd_fds wr_fds :: events' =>
      on_world refresh_time;;
      zdtun_handle_fd rd_fds wr_fds;;
      next ← vpn_housekeeping next_purge_ms;
      vpn_loop events' next
  | VpnReload files allocs :: events' =>
      s ← get_pd;
      when (reload_in_progress (malware s) && negb (reload_done (malware s)))
        (core (load_new_blacklists files allocs));;
      vpn_loop events' next_purge_ms
  | VpnJava r :: events' =>
      core (java_request_step r);;
      vpn_loop events' next_purge_ms
  end.

(** *** The run *)

(** The known DNS servers, by address and by name. *)
Definition dns_server_ips : list bytes :=
  STR <$> ["8.8.8.8"; "8.8.4.4"; "1.1.1.1"; "1.0.0.1"; "2001:4860:4860::8888"; "2001:4860:4860::8844";
           "2606:4700:4700::64"; "2606:4700:4700::6400"; "2606:4700:4700::1111"; "2606:4700:4700::1001"]%string.
Definition dns_server_names : list bytes :=
  STR <$> ["dns.google"; "chrome.cloudflare-dns.com"; "mozilla.cloudflare-dns.com"; "doh.cleanbrowsing.org";
           "chromium.dns.nextdns.io"; "firefox.dns.nextdns.io"; "dns.quad9.net"; "doh.opendns.com";
           "dns.adguard.com"; "dot.libredns.gr"; "dns.dnslify.com"; "dns-tls.qis.io"]%string.

Fixpoint add_names (names : list bytes) (allocs : list bool) (bl : blacklist P) : blacklist P :=
  match names with
  | [] => bl
  | name :: names' =>
      add_names names' (tail allocs) (blacklist_add_domain bl name (default true (head allocs))).2
  end.
Definition load_dns_servers (allocs : list bool) (bl : blacklist P) : blacklist P :=
  add_names dns_server_names allocs (foldl (fun bl ip => (blacklist_add_ipstr bl ip).2) bl dns_server_ips).

(** The preferences and what the system answers at the start. *)
Record vpn_env := mk_vpn_env {
  ve_fcntl : bool;
  ve_resolver : bool;                           (** [init_uid_resolver] does not return NULL *)
  ve_bl_alloc : bool;
  ve_name_allocs : list bool;
  ve_conf : vpn_conf P;                         (** the preferences *)
  ve_zdt : bool;                                (** [zdtun_init] succeeds *)
  ve_mtu : Z;
  ve_proxy : proxy_t;
  ve_auth : option (bytes * bytes);             (** none if one of them is empty *)
  ve_events : list vpn_event
}.

(** A NULL resolver is kept without a check, and read by [get_uid] for the first
    connection that is opened: from there on the behaviour is undefined. The
    model lets it be undefined at once, so that a run that is defined here has a
    resolver for all its connections. *)
Definition run_vpn (env : vpn_env) : M state Z :=
  if negb (ve_fcntl env) then mret (-1) else
  of_option (if ve_resolver env then Some tt else None);;
  bl ← of_option (blacklist_init (ve_bl_alloc env));
  let bl := load_dns_servers (ve_name_allocs env) bl in
  set_pd (fun s => s <| vpn := (ve_conf env) <| known_dns_servers := bl |> |>);;
  if negb (ve_zdt env) then mret (-2) else
  modify (fun s : state => s <| ts_tun := zdtun_init |>);;
  zdtun_set_mtu (ve_mtu env);;
  set_pd (fun s => s <| new_dns_server := 0 |>);;
  s ← get_pd;
  when (socks5_enabled (vpn s))
    (zdtun_set_socks5_proxy (ve_proxy env);;
     match ve_auth env with
     | Some (username, password) => zdtun_set_socks5_userpass username password
     | None => mret tt
     end);;
  on_world refresh_time;;
  s ← get_pd;
  when (running s) (core (notifyServiceStatus STR_started));;
  vpn_loop (ve_events env) (u64 (pd_now_ms s + PERIODIC_PURGE_TIMEOUT_MS));;
  on_world (modify (fun w => w <| w_ports := pd_reset_port_map |>));;
  zdtun_finalize;;
  mret 0.

(** The loop for [pd_run]: [w] is what the run gets apart from the core. *)
Definition run_vpn_pd (env : vpn_env) (w : pd_state -> world) (k : kernel) : M pd_state Z := fun s =>
  match run_vpn env (mk_tun_state zdtun_init (w s) k) with
  | Some (rv, s') => Some (rv, w_pd (ts_user s'))
  | None => None
  end.
End vpn_ops.
