(* ===== verification/VpnInv.v ===== *)
(** The VPN capture keeps the contract of the engine: the records of the core
    are the data of the connections, one each; its callbacks have no undefined
    behaviour, and the packet that a record points to is only followed while
    it is being forwarded. *)
From Stdlib Require Import ZArith Lia.
From stdpp Require Import base option gmap numbers list.
From S2P Require Import Prelude Packet Uthash PortMap PcapDump Blacklist NdpiProtos Conn ConnInv JavaDump Dpi Housekeeping JavaRequests.
From S2P Require Import CaptureLibpcap PdRun ConnStatus Policy Accounting Checksum Kernel Zdtun ZdtunFwd ZdtunInv UidResolver CaptureVpn.

Open Scope Z_scope.

(** ** The records that point to a packet *)
Section fw_pctx.
Context {P F : Type} `{Ndpi P} `{NdpiFlow F} (java_app_name : Z -> option bytes).
Abbreviation state := (pcapdroid P F).
Implicit Types (s : state) (d : conn_ptr) (c : pd_conn F).

Definition fw_pctxs : state -> gmap conn_ptr (option pkt_context) := fields vpn_fw_pctx.
Abbreviation fw_kept := (preserves fw_pctxs).

#[local] Ltac fw_fields := unfold deref, malloc_ok, fw_pctxs; same_fields.

Lemma ndpi_data_fw tuple d : fw_kept (process_ndpi_data java_app_name tuple d).
Proof. notify_steps. fw_fields. Qed.
Lemma giveup_fw tuple d : fw_kept (pd_giveup_dpi java_app_name d tuple).
Proof. notify_steps. fw_fields. Qed.
Lemma notify_fw tuple d : fw_kept (pd_notify_connection_update java_app_name tuple d).
Proof. notify_steps. fw_fields. Qed.

Lemma dns_answers_fw n buf query reply len : fw_kept (dns_answers n buf query reply len : M state unit).
Proof.
  revert reply len. induction n as [|n IH]; intros reply len; simpl; [preserves_step|].
  unfold lru_add. repeat first [apply IH | preserves_step | solve [fw_fields]].
Qed.

#[local] Hint Resolve ndpi_data_fw giveup_fw notify_fw dns_answers_fw : preserves.

Lemma account_fw pctx : fw_kept (pd_account_stats java_app_name pctx).
Proof.
  unfold pd_account_stats, pd_dump_packet, stop_pcap_dump, set_dumper, stopPcapDump, call_java. cbv zeta.
  preserves_step; [apply fields_modify_conn; intros c; unfold account_conn; by case_match|]. fw_fields.
Qed.

Lemma process_packet_fw pkt is_tx tuple d tv : fw_kept (pd_process_packet java_app_name pkt is_tx tuple d tv).
Proof.
  unfold pd_process_packet, perform_dpi, process_payload, dumpPayloadChunk, process_dns_reply, delay_netd_dump,
    finish_alpn, jni_ok. fw_fields.
Qed.

Lemma setup_fw tuple uid d : fw_kept (setup_connection java_app_name tuple uid d).
Proof.
  unfold setup_connection, check_whitelisted_app, resolve_from_lru, resolve_netd_conn, check_blacklisted_ip, check_firewall, check_whitelist_mode_block.
  notify_steps. fw_fields.
Qed.

Lemma enqueue_new_fw tuple d : fw_kept (notif_connection java_app_name NEW_CONNS tuple d).
Proof. notify_steps. fw_fields. Qed.

Lemma purge_fw d s : wlp (pd_purge_connection d) (fun _ s' => fw_pctxs s' = delete d (fw_pctxs s)) s.
Proof.
  unfold pd_purge_connection, free_conn, deref. wlp_step.
  assert (fw_kept (conn_free_ndpi d : M state unit)) as Hk by (unfold conn_free_ndpi; fw_fields).
  eapply wlp_mono; [exact (wlp_preserves _ _ _ Hk)|]. intros [] s1 E. cbv beta in E. rewrite <- E. wlp_steps.
  apply wlp_of_option. intros c Hc. wlp_steps. unfold fw_pctxs, fields. apply fmap_delete.
Qed.

(** A new record points to none. *)
Lemma new_connection_fw tuple uid s :
  heap s !! next_ptr s = None ->
  wlp (pd_new_connection java_app_name tuple uid) (fun r s' =>
    match r with Some d => heap s !! d = None /\ fw_pctxs s' = <[d := None]> (fw_pctxs s) | None => fw_pctxs s' = fw_pctxs s end) s.
Proof.
  intros Hf. unfold pd_new_connection, calloc_conn, malloc_ok. wlp_steps. destruct (next_outcome _); [|by wlp_steps].
  wlp_steps. set (d := next_ptr _) in *. change (next_ptr s) with d in Hf. match goal with |- wlp _ _ ?a => set (s1 := a) end.
  assert (fw_pctxs s1 = <[d := None]> (fw_pctxs s)) as E1 by (unfold s1, fw_pctxs, fields; exact (fmap_insert vpn_fw_pctx (heap s) d zero_conn)).
  assert (fw_pctxs s !! d = None) as Hn by (unfold fw_pctxs, fields; by rewrite lookup_fmap, Hf).
  assert (forall s2, fw_pctxs s2 = fw_pctxs s1 ->
    wlp (pd_purge_connection d;; mret None) (fun r s' =>
      match r with Some d => heap s !! d = None /\ fw_pctxs s' = <[d := None]> (fw_pctxs s) | None => fw_pctxs s' = fw_pctxs s end) s2)
    as Hpurge.
  { intros s2 E2. wlp_step. eapply wlp_mono; [apply purge_fw|]. intros [] s3 E3. cbv beta in E3. apply wlp_ret.
    by rewrite E3, E2, E1, delete_insert_id. }
  clearbody s1 d. destruct (negb _); [by apply Hpurge|]. wlp_step.
  eapply wlp_mono; [apply (wlp_preserves fw_pctxs); fw_fields|]. intros [] s2 E2. cbv beta in *. rewrite <- E2 in *. clear s1 E2.
  wlp_step. eapply wlp_mono; [exact (wlp_preserves _ _ _ (enqueue_new_fw tuple d))|]. intros rv s3 E3. cbv beta in *.
  destruct (rv <? 0); [by apply Hpurge|]. wlp_step.
  eapply wlp_mono; [exact (wlp_preserves _ _ _ (setup_fw tuple uid d))|]. intros [] s4 E4. cbv beta in *. apply wlp_ret. split; [done|congruence].
Qed.

Lemma refresh_fw clock : fw_kept (pd_refresh_time clock : M state unit).
Proof. unfold pd_refresh_time. fw_fields. Qed.
Lemma log_fw uid : fw_kept (log_appname java_app_name uid).
Proof. unfold log_appname. fw_fields. Qed.

(** *** The housekeeping frees records *)
Definition fw_shrinks {A} (m : M state A) : Prop := forall s, wlp m (fun _ s' => fw_pctxs s' ⊆ fw_pctxs s) s.

Lemma shrinks_kept {A} (m : M state A) : fw_kept m -> fw_shrinks m.
Proof. intros Hm s a s' E. by rewrite (Hm s a s' E). Qed.

Lemma shrinks_bind {A B} (m : M state A) (k : A -> M state B) :
  fw_shrinks m -> (forall a, fw_shrinks (k a)) -> fw_shrinks (m ≫= k).
Proof.
  intros Hm Hk s. apply wlp_bind. eapply wlp_mono; [apply Hm|]. intros a s1 H1. cbv beta in H1.
  eapply wlp_mono; [apply Hk|]. intros b s2 H2. cbv beta in H2. by etrans.
Qed.

Lemma shrinks_when (b : bool) (m : M state unit) : fw_shrinks m -> fw_shrinks (when b m).
Proof. intros Hm. destruct b; [done|]. by apply shrinks_kept, preserves_ret. Qed.

Lemma clear_shrinks a free_all : fw_shrinks (conns_clear a free_all).
Proof.
  unfold conns_clear. apply shrinks_bind; [apply shrinks_kept, preserves_gets|]. intros arr. apply shrinks_bind.
  - destruct (items arr); [|apply shrinks_kept, preserves_ret]. apply shrinks_bind; [apply shrinks_kept, preserves_of_option|].
    intros sls s. apply wlp_for_each; [done|]. intros sl s1 _ Hs1. unfold deref. wlp_steps.
    apply wlp_of_option. intros c Hc. wlp_step; [|done]. eapply wlp_mono; [apply purge_fw|]. intros [] s2 E. cbv beta in E. rewrite E.
    etrans; [apply delete_subseteq|done].
  - intros _. apply shrinks_kept. unfold set_arr. apply preserves_modify. intros s. by destruct a.
Qed.

Lemma slots_fw {X} (dump : conn_and_tuple -> M state (option X)) sls :
  (forall sl, fw_kept (dump sl)) -> fw_kept (dump_slots dump sls).
Proof.
  intros Hd. induction sls as [|sl sls IH]; simpl; [preserves_step|]. repeat first [apply Hd|apply IH|preserves_step|solve [fw_fields]].
Qed.

Lemma update_fw sl : fw_kept (getConnUpdate sl).
Proof. unfold getConnUpdate, jni_ok. fw_fields. Qed.
#[local] Hint Resolve update_fw : preserves.
Lemma descr_fw sl : fw_kept (dumpNewConnection sl).
Proof. unfold dumpNewConnection, jni_ok. fw_fields. Qed.
#[local] Hint Resolve descr_fw : preserves.

Lemma flush_shrinks : fw_shrinks flush_connections.
Proof.
  unfold flush_connections. apply shrinks_bind; [apply shrinks_kept|intros _; apply shrinks_bind; [|intros _]; apply clear_shrinks].
  unfold sendConnectionsDump, jni_ok, call_java. repeat first [apply slots_fw; intros | fw_fields].
Qed.

Lemma iter_fw cb : (forall tuple d, fw_kept (cb tuple d)) -> fw_kept (iter_active_connections cb).
Proof. intros Hcb. unfold iter_active_connections, libpcap_iter_connections. repeat first [apply Hcb | preserves_step]. Qed.

Lemma blocked_cb_fw tuple d : fw_kept (check_blocked_conn_cb java_app_name tuple d).
Proof. unfold check_blocked_conn_cb, check_whitelist_mode_block. fw_fields. Qed.
#[local] Hint Resolve blocked_cb_fw : preserves.
Lemma blacklisted_cb_fw tuple d : fw_kept (check_blacklisted_conn_cb java_app_name tuple d).
Proof. unfold check_blacklisted_conn_cb. fw_fields. Qed.
#[local] Hint Resolve blacklisted_cb_fw : preserves.

Lemma items_fw l : fw_kept (blacklist_status_items l : M state _).
Proof. induction l as [|st l IH]; simpl; unfold jni_ok; repeat first [apply IH|preserves_step]. Qed.

Lemma load_lists_fw : fw_kept (load_new_lists java_app_name).
Proof. unfold load_new_lists, set_malware. repeat first [apply iter_fw; intros; solve [auto with preserves] | preserves_step]. Qed.

Lemma housekeeping_shrinks : fw_shrinks (pd_housekeeping java_app_name).
Proof.
  unfold pd_housekeeping. apply shrinks_bind; [|intros _; apply shrinks_kept, load_lists_fw].
  unfold housekeeping_dumps. cbv zeta. apply shrinks_bind; [apply shrinks_kept, preserves_gets|]. intros s0. destruct (_ || _).
  { apply shrinks_kept. unfold sendStatsDump, call_java, jni_ok. fw_fields. }
  destruct (_ >=? _).
  { unfold flush_pending. apply shrinks_bind; [|intros _; apply shrinks_kept; preserves_step].
    apply shrinks_bind; [apply shrinks_kept, preserves_gets|]. intros s1. apply shrinks_when, flush_shrinks. }
  apply shrinks_kept. unfold pcap_export, malware_housekeeping, use_new_blacklists, set_malware, notifyBlacklistsLoaded,
    set_dumper, call_java, jni_ok. repeat first [apply items_fw | fw_fields].
Qed.
End fw_pctx.

(** ** The core during a call of the engine *)
Section core.
Context {P F : Type} `{Ndpi P} `{NdpiFlow F} (java_app_name : Z -> option bytes).
Abbreviation state := (pcapdroid P F).
Abbreviation data_map := (gmap zconn_ptr (option conn_ptr)).
Implicit Types (s : state) (d : conn_ptr) (c : pd_conn F) (opn live : data_map) (cur : option conn_ptr).

(** The records of the connections of the engine. *)
Definition datas (m : data_map) : list conn_ptr := omap snd (map_to_list m).
Definition one_each (m : data_map) : Prop := forall p q d, m !! p = Some (Some d) -> m !! q = Some (Some d) -> p = q.

Lemma elem_of_datas m d : d ∈ datas m <-> exists p, m !! p = Some (Some d).
Proof.
  unfold datas. rewrite list_elem_of_omap. split.
  - intros ([p o] & Hp & E). simpl in E. subst o. exists p. by apply elem_of_map_to_list.
  - intros [p Hp]. exists (p, Some d). split; [by apply elem_of_map_to_list|done].
Qed.

Lemma NoDup_datas m : one_each m -> NoDup (datas m).
Proof.
  intros Hm. unfold datas. pose proof (NoDup_map_to_list m) as Hnd.
  assert (forall p o, (p, o) ∈ map_to_list m -> m !! p = Some o) as Hin by (intros; by apply elem_of_map_to_list).
  revert Hnd Hin. generalize (map_to_list m). induction l as [|[p o] l IH]; intros Hnd Hin; simpl; [constructor|].
  apply NoDup_cons in Hnd as [Hp Hnd]. assert (NoDup (omap snd l)) as Hl by (apply IH; [done|]; intros; apply Hin; by right).
  destruct o as [d|]; [|done]. apply NoDup_cons. split; [|done]. intros ([q o'] & Hq & E)%list_elem_of_omap. simpl in E. subst o'.
  apply Hp. assert (q = p) as <-; [|done]. apply (Hm q p d); apply Hin; [by right|left].
Qed.

Definition core_inv (l : list conn_ptr) s : Prop := ConnInv.inv (cmode := vpn_capture_mode l) None false s.

Lemma core_retable l l' s :
  core_inv l s -> NoDup l' -> (forall d, d ∈ l' -> d ∈ l \/ exists c, heap s !! d = Some c /\ to_purge c = false) ->
  core_inv l' s.
Proof.
  intros Hi Hnd Hl. destruct Hi. split; try done. intros d Hd. destruct (Hl d Hd) as [Hd'|(c & Hc & Hp)]; [|by exists c].
  by apply inv_table_live.
Qed.

(** [cur]: the record whose packet is being forwarded, the only one that points
    to a packet. *)
Definition fw_ok cur d s : Prop :=
  forall pctx, fw_pctxs s !! d = Some (Some pctx) -> cur = Some d /\ Dpi.pkt_ok (pctx_pkt pctx) /\ pctx_data pctx = d.

Record core_ok cur opn live s : Prop := {
  cr_inv : core_inv (datas opn) s;
  cr_open : opn ⊆ live;
  cr_live : forall p o, live !! p = Some o -> exists d, o = Some d /\ is_Some (heap s !! d) /\ fw_ok cur d s;
  cr_each : one_each live
}.

Lemma core_ok_live cur opn live p d s :
  core_ok cur opn live s -> live !! p = Some (Some d) -> exists c, heap s !! d = Some c.
Proof. intros Hs Hp. destruct (cr_live _ _ _ _ Hs p _ Hp) as (d' & [= <-] & [c Hc] & _). by exists c. Qed.

Lemma one_each_sub m m' : m' ⊆ m -> one_each m -> one_each m'.
Proof. intros Hsub Hm p q d Hp Hq. apply (Hm p q d); by eapply lookup_weaken. Qed.

Lemma core_ok_mono cur opn live opn' live' s :
  core_ok cur opn live s -> opn' ⊆ opn -> live' ⊆ live -> opn' ⊆ live' -> core_ok cur opn' live' s.
Proof.
  intros [Hi Ho Hl He] Hopn Hlive Hsub. assert (one_each live') as He' by (by eapply one_each_sub).
  split; [|done| |done].
  - eapply core_retable; [exact Hi|apply NoDup_datas; by eapply one_each_sub|]. intros d (p & Hp)%elem_of_datas. left.
    apply elem_of_datas. exists p. by eapply lookup_weaken.
  - intros p o Hp. apply (Hl p). by eapply lookup_weaken.
Qed.

(** A step of the core. *)
Lemma core_ok_step cur opn live s s' :
  core_ok cur opn live s -> core_inv (datas opn) s' -> calm s s' -> fw_pctxs s' = fw_pctxs s -> core_ok cur opn live s'.
Proof.
  intros [Hi Ho Hl He] Hi' Hcm Hfw. split; [done..| |done]. intros p o Hp. destruct (Hl p o Hp) as (d & -> & [c Hc] & Hd).
  exists d. destruct (cm_heap _ _ Hcm d c Hc) as (c' & Hc' & _). split_and!; [done|by exists c'|]. unfold fw_ok. by rewrite Hfw.
Qed.

Lemma wp_core {A} cur opn live (m : M state A) (R : A -> Prop) s :
  core_ok cur opn live s -> wp m (fun a s' => R a /\ core_inv (datas opn) s' /\ calm s s') s -> preserves fw_pctxs m ->
  wp m (fun a s' => R a /\ core_ok cur opn live s') s.
Proof.
  intros Hs Hm Hfw. eapply wp_mono; [apply (wp_preserves _ _ _ _ Hfw Hm)|]. intros a s' ((Ha & Hi & Hcm) & E). cbv beta in *.
  split; [done|]. by eapply core_ok_step.
Qed.

Lemma wp_core_quiet {A} cur opn live (m : M state A) s :
  core_ok cur opn live s -> quietly m s -> preserves fw_pctxs m -> wp m (fun _ => core_ok cur opn live) s.
Proof.
  intros Hs Hm Hfw. eapply wp_mono; [apply (wp_core cur opn live m (fun _ => True)); [done| |done]|by intros a s' []].
  eapply wp_mono; [exact Hm|]. intros a s' Hq. cbv beta in Hq. split; [done|].
  split; [exact (quiet_inv _ _ _ _ Hq (cr_inv _ _ _ _ Hs))|exact (quiet_calm _ _ Hq)].
Qed.

Lemma core_ok_heap cur opn live s s' : core_ok cur opn live s -> core_inv (datas opn) s' -> heap s' = heap s -> core_ok cur opn live s'.
Proof.
  intros [Hi Ho Hl He] Hi' Eh. split; [done..| |done]. intros p o Hp. destruct (Hl p o Hp) as (d & -> & Hlive & Hfw).
  exists d. rewrite Eh. split_and!; [done..|]. unfold fw_ok, fw_pctxs, fields in *. by rewrite Eh.
Qed.

(** The records of the open connections stay; the others may be freed. *)
Lemma core_ok_shrink cur opn s s' :
  core_ok cur opn opn s -> core_inv (datas opn) s' -> fw_pctxs s' ⊆ fw_pctxs s -> core_ok cur opn opn s'.
Proof.
  intros [Hi Ho Hl He] Hi' Hfw. split; [done..| |done]. intros p o Hp. destruct (Hl p o Hp) as (d & -> & _ & Hd). exists d.
  split_and!; [done| |].
  - destruct (inv_table_live _ _ _ Hi' d) as (c & Hc & _); [|by exists c]. apply elem_of_datas. by exists p.
  - intros pctx Hpc. apply Hd. by eapply lookup_weaken.
Qed.

Lemma show_inv l s e z : core_inv l s -> core_inv l (s <| zdt_connections := e |> <| zdt_stats := z |>).
Proof. intros Hi. apply (inv_same (cmode := vpn_capture_mode l) _ _ s); [done..|]. apply (inv_malware _ _ _ Hi). Qed.

(** The steps that come from the Java side leave the records alone. *)
Lemma java_request_heap r : preserves heap (java_request_step r : M state unit).
Proof.
  destruct r; simpl; unfold stopPacketLoop, askStatsDump, reloadBlacklists, setDnsServer, setPrivateDnsBlocked, reloadBlocklist,
    reloadFirewallWhitelist, reloadMalwareWhitelist, reloadDecryptionList, nativeSetFirewallEnabled, setPayloadMode, dumpMasterSecret,
    load_list, set_dumper, malloc_ok; preserves_steps.
Qed.

Lemma load_all_heap files allocs infos st : preserves heap (load_all_blacklists files allocs infos st : M state _).
Proof.
  revert allocs st. induction infos as [|info infos IH]; intros allocs st; simpl; [preserves_step|].
  unfold load_one_blacklist, malloc_ok, realloc_ok. repeat first [apply IH | preserves_step].
Qed.

Lemma load_new_heap files allocs : preserves heap (load_new_blacklists files allocs : M state unit).
Proof. unfold load_new_blacklists, set_malware, malloc_ok. repeat first [apply load_all_heap | preserves_step]. Qed.

(** Changes of the core that the invariant is not about. *)
Definition core_part s :=
  (heap s, new_conns s, conns_updates s, connections s, zdt_connections s, next_ptr s, zstats s, pcap_dump s, vpn_capture s,
   malware s, reallocs s, strndups s, jni_calls s).

Lemma core_ok_part cur opn live s s' : core_part s' = core_part s -> core_ok cur opn live s -> core_ok cur opn live s'.
Proof.
  intros [= Eh En Eu Ec Ez Ep Ezs Ed Ev Em Er Es Ej] Hs. pose proof (cr_inv _ _ _ _ Hs) as Hi.
  eapply core_ok_step; [exact Hs| | |by unfold fw_pctxs, fields; rewrite Eh].
  - eapply (inv_same (cmode := vpn_capture_mode (datas opn))); [exact Hi|try done..]. rewrite Em. apply (inv_malware _ _ _ Hi).
  - split; [done..| |]; [unfold slot_ptrs, slots; by rewrite En, Eu|]. intros d c Hc. exists c. by rewrite Eh.
Qed.

(** The record of a connection that is not open any more. *)
Lemma not_open cur opn live p d s :
  core_ok cur opn live s -> live !! p = Some (Some d) -> opn !! p = None -> d ∉ datas opn.
Proof.
  intros Hs Hl Ho (q & Hq)%elem_of_datas. pose proof (lookup_weaken _ _ _ _ Hq (cr_open _ _ _ _ Hs)) as Hq'.
  assert (q = p) as -> by (by eapply (cr_each _ _ _ _ Hs)). congruence.
Qed.

Lemma core_purge l d c s :
  core_inv l s -> heap s !! d = Some c -> d ∉ l -> core_inv l (s <| heap ::= <[d := c <| to_purge := true |>]> |>).
Proof.
  intros Hi Hc Hd. assert (forall q, q <> d -> <[d := c <| to_purge := true |>]> (heap s) !! q = heap s !! q) as Hne.
  { intros q Hq. by rewrite lookup_insert_ne. }
  destruct Hi as [I1 I2 I3 I4 I5 I6 I7 I8 I9 I10 I11 I12 I13 I14 I15 I16 I17].
  split; try done; change (heap (upd _ _ s)) with (<[d := c <| to_purge := true |>]> (heap s)).
  - intros q Hq. destruct (I4 q Hq) as (e & He & Hpe & Hue). destruct (decide (q = d)) as [->|Hqd].
    + rewrite Hc in He. injection He as <-. eexists. by rewrite lookup_insert_eq.
    + rewrite Hne by done. by exists e.
  - intros q Hq. destruct (I7 q Hq) as (e & He & Hpe). rewrite Hne; [by exists e|]. intros ->. by apply Hd.
  - intros q e. destruct (decide (q = d)) as [->|Hqd]; [|rewrite Hne by done; by apply I8].
    rewrite lookup_insert_eq. intros [= <-]. by destruct (I8 d c Hc).
Qed.

Lemma wp_core_purge cur opn live p d s :
  core_ok cur opn live s -> live !! p = Some (Some d) -> opn !! p = None ->
  wp (modify_conn d (fun c => c <| to_purge := true |>)) (fun _ => core_ok cur opn live) s.
Proof.
  intros Hs Hl Ho. destruct (core_ok_live _ _ _ _ _ _ Hs Hl) as [c Hc]. eapply wp_modify_conn; [done|]. cbv beta.
  pose proof (not_open _ _ _ _ _ _ Hs Hl Ho) as Hd. destruct Hs as [Hi Hop Hli He].
  split; [by apply core_purge|done| |done]. intros q o Hq. destruct (Hli q o Hq) as (e & -> & [ce Hce] & Hfe). exists e.
  split_and!; [done| |].
  - change (heap (upd _ _ s)) with (<[d := c <| to_purge := true |>]> (heap s)). destruct (decide (d = e)) as [<-|].
    + by rewrite lookup_insert_eq.
    + rewrite lookup_insert_ne by done. by exists ce.
  - assert (fw_pctxs (s <| heap ::= <[d := c <| to_purge := true |>]> |>) = fw_pctxs s) as E; [|unfold fw_ok; by rewrite E].
    unfold fw_pctxs, fields. change (heap (upd _ _ s)) with (<[d := c <| to_purge := true |>]> (heap s)).
    rewrite fmap_insert, insert_id; [done|]. by rewrite lookup_fmap, Hc.
Qed.

(** Changes of a record that the invariant does not see. *)
Lemma wp_core_modify cur opn live p d (f : pd_conn F -> pd_conn F) s :
  core_ok cur opn live s -> live !! p = Some (Some d) ->
  (forall c, quiet_conn c (f c) /\ vpn_fw_pctx (f c) = vpn_fw_pctx c) ->
  wp (modify_conn d f) (fun _ => core_ok cur opn live) s.
Proof.
  intros Hs Hl Hf. destruct (core_ok_live _ _ _ _ _ _ Hs Hl) as [c Hc]. apply wp_core_quiet; [done| |].
  - eapply quietly_modify_conn; [done|apply Hf].
  - apply fields_modify_conn. intros; apply Hf.
Qed.
End core.

(** ** The callbacks *)
Section callbacks.
Context {P F : Type} `{Ndpi P} `{NdpiFlow F} (java_app_name : Z -> option bytes).
Abbreviation world := (vpn_world P F).
Abbreviation zconn := (zdtun_conn conn_ptr).
Abbreviation pd_state := (pcapdroid P F).
Abbreviation data_map := (gmap zconn_ptr (option conn_ptr)).

Definition user_ok (cur : option conn_ptr) (opn live : data_map) (w : world) : Prop := core_ok cur opn live (w_pd w).

Section steps.
Context (cur : option conn_ptr) (opn live : data_map).
Abbreviation ok := (user_ok cur opn live).

Abbreviation wkeeps := (maintains ok).

Lemma wp_on_pd {A} (m : M pd_state A) (R : A -> world -> Prop) w :
  wp m (fun a s => R a (w <| w_pd := s |>)) (w_pd w) -> wp (on_pd m) R w.
Proof. unfold wp, on_pd. by destruct (m (w_pd w)) as [[a s]|]. Qed.

Lemma wk_pd {A} (m : M pd_state A) :
  (forall s, core_ok cur opn live s -> wp m (fun _ => core_ok cur opn live) s) -> wkeeps (on_pd m).
Proof. intros Hm w Hw. apply wp_on_pd. by apply Hm. Qed.

Lemma wk_world (f : world -> world) : (forall w, w_pd (f w) = w_pd w) -> wkeeps (modify f).
Proof. intros Hf w Hw. wp_step. unfold user_ok. by rewrite Hf. Qed.

#[local] Hint Resolve wk_pd wk_world : maintains.

Lemma wk_refresh : wkeeps refresh_time.
Proof.
  unfold refresh_time. maintains_steps. apply wk_pd. intros s Hs.
  apply wp_core_quiet; [done|apply pd_refresh_time_quiet|apply refresh_fw].
Qed.

Lemma wk_timestamp : wkeeps get_pkt_timestamp.
Proof. unfold get_pkt_timestamp. maintains_steps. Qed.

Lemma wk_jni : wkeeps (on_pd jni_ok;; mret tt).
Proof.
  maintains_steps. apply wk_pd. intros s Hs. apply wp_core_quiet; [done| |].
  - eapply wp_jni_quiet. intros b s' Hq. apply Hq.
  - unfold jni_ok, fw_pctxs. same_fields.
Qed.

Lemma wk_modify_pd (f : pd_state -> pd_state) : (forall s, core_part (f s) = core_part s) -> wkeeps (modify_pd f).
Proof. intros Hf w Hw. unfold modify_pd. wp_step. exact (core_ok_part _ _ _ _ _ (Hf _) Hw). Qed.

(** *** One connection *)
Context (p : zconn_ptr) (d : conn_ptr) (Hlive : live !! p = Some (Some d)).

Lemma wk_modify (f : pd_conn F -> pd_conn F) :
  (forall c, quiet_conn c (f c) /\ vpn_fw_pctx (f c) = vpn_fw_pctx c) -> wkeeps (on_pd (modify_conn d f)).
Proof. intros Hf. apply wk_pd. intros s Hs. by eapply wp_core_modify. Qed.

Lemma wp_deref_data {B} (k : pd_conn F -> M world B) (R : B -> world -> Prop) w :
  ok w -> (forall c, heap (w_pd w) !! d = Some c -> wp (k c) R w) -> wp (on_pd (deref d) ≫= k) R w.
Proof.
  intros Hw Hk. destruct (core_ok_live _ _ _ _ _ _ Hw Hlive) as [c Hc]. wp_step. apply wp_on_pd. eapply wp_deref; [done|].
  replace (w <| w_pd := w_pd w |>) with w by (by destruct w). by apply Hk.
Qed.

(** A change of the record that is flagged, and its notification. *)
Lemma wp_flag_notify {B} (f : pd_conn F -> pd_conn F) tuple (k : Z -> M world B) (R : B -> world -> Prop) w :
  ok w -> (forall c, quiet_conn c (f c) /\ vpn_fw_pctx (f c) = vpn_fw_pctx c /\ update_type (f c) <> 0) ->
  (forall w', ok w' -> wp (k 0) R w') ->
  wp (on_pd (modify_conn d f);; rv ← on_pd (pd_notify_connection_update java_app_name tuple d); k rv) R w.
Proof.
  intros Hw Hf Hk. destruct (core_ok_live _ _ _ _ _ _ Hw Hlive) as [c Hc]. wp_step. apply wp_on_pd.
  assert (wp (modify_conn d f) (fun _ s => core_ok cur opn live s /\ heap s !! d = Some (f c)) (w_pd w)) as Hm.
  { eapply wp_mono; [apply wp_wlp; [eapply (wp_core_modify cur opn live p d f); [exact Hw|done|]|]|].
    - intros c'. by destruct (Hf c') as (? & ? & _).
    - instantiate (1 := fun _ s => heap s !! d = Some (f c)). intros a s' E. unfold modify_conn, deref, mbind, M_bind, gets, of_option in E.
      rewrite Hc in E. injection E as _ <-. apply lookup_insert_eq.
    - by intros. }
  eapply wp_mono; [exact Hm|]. intros [] s1 [Hs1 Hc1]. wp_step. apply wp_on_pd.
  eapply wp_mono; [apply (wp_core cur opn live _ (fun rv => rv = 0)); [exact Hs1| |apply notify_fw]|].
  - eapply wp_mono; [eapply (notif_connection_inv (cmode := vpn_capture_mode (datas opn)) java_app_name None false _ tuple d (f c));
      [apply Hs1|done|right; apply Hf]|]. intros rv s2 (-> & Hi & Hcm & _). done.
  - intros rv s2 [-> Hs2]. apply Hk. exact Hs2.
Qed.

Lemma wk_blocked tuple : wkeeps (blocked_packet java_app_name tuple d).
Proof.
  intros w Hw. unfold blocked_packet. apply wp_flag_notify; [done| |intros w' Hw'; by wp_step].
  intros c. split; [|split; [done|by apply lor_nonzero]]. etrans; [|by apply quiet_set_update]. by apply quiet_conn_same.
Qed.

Lemma wk_account pctx : Dpi.pkt_ok (pctx_pkt pctx) -> pctx_data pctx = d -> wkeeps (on_pd (pd_account_stats java_app_name pctx)).
Proof.
  intros Hpkt Hd. apply wk_pd. intros s Hs. pose proof (core_ok_live _ _ _ _ _ _ Hs Hlive) as Hc. rewrite <- Hd in Hc.
  eapply wp_mono; [apply (wp_core cur opn live _ (fun _ => True)); [done| |apply account_fw]|by intros a s' []].
  eapply wp_mono; [apply (pd_account_stats_inv (cmode := vpn_capture_mode (datas opn)) java_app_name None false); [done|apply Hs|done]|].
  by intros [] s' (? & ? & _).
Qed.

Lemma wp_process_packet {B} pkt is_tx tuple tv (k : pkt_context -> M world B) (R : B -> world -> Prop) w :
  ok w -> Dpi.pkt_ok pkt -> (forall w', ok w' -> wp (k (make_pctx pkt is_tx tuple d tv)) R w') ->
  wp (on_pd (pd_process_packet java_app_name pkt is_tx tuple d tv) ≫= k) R w.
Proof.
  intros Hw Hpkt Hk. wp_step. apply wp_on_pd.
  eapply wp_mono; [apply (wp_core cur opn live _ (fun r => r = make_pctx pkt is_tx tuple d tv)); [exact Hw| |apply process_packet_fw]|].
  - eapply wp_mono; [eapply (pd_process_packet_inv (cmode := vpn_capture_mode (datas opn)) java_app_name None false);
      [done|apply Hw|by eapply core_ok_live]|]. by intros.
  - intros r s' [-> Hs']. by apply Hk.
Qed.

(** *** The packet that is being forwarded *)
Lemma wp_set_fw cur' o (s : pd_state) :
  core_ok cur opn live s -> (forall e, e <> d -> cur = Some e -> cur' = Some e) ->
  (forall pctx, o = Some pctx -> cur' = Some d /\ Dpi.pkt_ok (pctx_pkt pctx) /\ pctx_data pctx = d) ->
  wp (modify_conn d (fun c => c <| vpn_fw_pctx := o |>)) (fun _ => core_ok cur' opn live) s.
Proof.
  intros Hs Hcur Ho. destruct (core_ok_live _ _ _ _ _ _ Hs Hlive) as [c Hc]. eapply wp_modify_conn; [done|]. cbv beta.
  assert (quiet s (s <| heap ::= <[d := c <| vpn_fw_pctx := o |>]> |>)) as Hq by (apply (quiet_insert s d c); [done|by apply quiet_conn_same]).
  destruct Hs as [Hi Hop Hli He]. split; [exact (quiet_inv _ _ _ _ Hq Hi)|done| |done].
  intros q oq Hqo. destruct (Hli q oq Hqo) as (e & -> & [ce Hce] & Hfe). exists e.
  destruct (quiet_live _ _ e ce Hq Hce) as (ce' & Hce' & _). split_and!; [done|by exists ce'|].
  intros pctx. unfold fw_ok, fw_pctxs, fields in *.
  change (heap (upd _ _ s)) with (<[d := c <| vpn_fw_pctx := o |>]> (heap s)). rewrite fmap_insert.
  destruct (decide (d = e)) as [<-|Hne]; [rewrite lookup_insert_eq; intros [= E]; by apply Ho|].
  rewrite lookup_insert_ne by done. intros Hpc. destruct (Hfe pctx Hpc) as (? & ? & ?). split_and!; [by apply Hcur|done|done].
Qed.

(** The record does not point to a packet any more. *)
Lemma wp_account_fw cur' tuple w :
  ok w -> (forall e, e <> d -> cur = Some e -> cur' = Some e) ->
  wp (account_fw_pctx java_app_name tuple d) (fun _ => user_ok cur' opn live) w.
Proof.
  intros Hw Hcur. unfold account_fw_pctx. apply wp_deref_data; [done|]. intros c Hc.
  destruct (cr_live _ _ _ _ Hw p _ Hlive) as (d' & [= <-] & _ & Hfw).
  assert (fw_pctxs (w_pd w) !! d = Some (vpn_fw_pctx c)) as E by (unfold fw_pctxs, fields; by rewrite lookup_fmap, Hc).
  destruct (vpn_fw_pctx c) as [pctx|] eqn:Ec.
  - destruct (Hfw pctx) as (_ & Hpkt & Hd); [by rewrite E|]. apply (wp_maintains ok); [done|by apply (wk_account (at_tuple tuple pctx))|].
    intros _ w' Hw'. apply wp_on_pd. by apply wp_set_fw.
  - apply wp_ret. destruct Hw as [Hi Hop Hli He]. split; [done..| |done].
    intros q oq Hqo. destruct (Hli q oq Hqo) as (e & -> & He' & Hfe). exists e. split_and!; [done..|].
    intros pctx Hpc. destruct (Hfe pctx Hpc) as (? & ? & ?). split_and!; [|done|done]. apply Hcur; [|done].
    intros ->. congruence.
Qed.

(** *** What the callbacks do *)
Lemma wk_write buf len : 0 <= len <= blen buf -> wkeeps (write_tun buf len).
Proof.
  intros Hlen. unfold write_tun. eapply maintains_option; [apply rdn_Some; lia|]. maintains_steps; by apply wk_world.
Qed.

Lemma wk_remote2vpn pkt (c : zconn) :
  zc_user_data c = Some d -> Dpi.pkt_ok pkt -> wkeeps (remote2vpn java_app_name pkt c).
Proof.
  intros Hd Hpkt w Hw. unfold remote2vpn. wp_step. apply wp_gets. destruct (negb (running _)); [by apply wp_ret|].
  rewrite Hd. cbv zeta. wp_step. eapply wp_of_option; [done|]. wp_step.
  eapply wp_mono; [by apply (wp_account_fw cur)|]. intros [] w1 Hw1.
  apply (wp_maintains ok); [done|apply wk_refresh|]. intros [] w2 Hw2.
  apply (wp_maintains ok); [done|apply wk_timestamp|]. intros tv w3 Hw3.
  apply wp_process_packet; [done|done|]. intros w4 Hw4. apply wp_deref_data; [done|]. intros data Hdata.
  destruct (to_block data).
  { apply (wp_maintains ok); [done|apply wk_blocked|]. intros [] w5 Hw5. by apply wp_ret. }
  destruct Hpkt as [? ? ? ?]. apply (wp_maintains ok); [done|apply wk_write; lia|]. intros r w5 Hw5. destruct r as [|n|err].
  - apply (wp_maintains ok); [done|by apply wk_account; [split|]|]. intros [] w6 Hw6. by apply wp_ret.
  - by apply wp_ret.
  - apply (wp_maintains ok); [done| |intros [] w6 Hw6; by apply wp_ret]. maintains_step.
    by apply wk_modify_pd.
Qed.

Lemma wk_closed (c : zconn) :
  zc_user_data c = Some d -> opn !! p = None -> wkeeps (connection_closed java_app_name c).
Proof.
  intros Hd Ho w Hw. unfold connection_closed. rewrite Hd. cbv zeta. apply wp_flag_notify; [done| |].
  { intros c'. split; [by apply quiet_set_update|]. split; [done|by apply lor_nonzero]. }
  intros w1 Hw1. change (0 <? 0) with false. cbv iota. apply (wp_maintains ok); [done| |intros [] w2 Hw2].
  { apply wk_pd. intros s Hs. destruct (core_ok_live _ _ _ _ _ _ Hs Hlive) as [c' Hc'].
    apply wp_core_quiet; [done| |apply giveup_fw]. eapply pd_giveup_dpi_quiet; [done|]. apply (inv_strndups _ _ _ (cr_inv _ _ _ _ Hs)). }
  apply (wp_maintains ok); [done|apply wk_modify; intros c'; split; [by apply quiet_conn_same|done]|]. intros [] w3 Hw3.
  apply wp_on_pd. by eapply wp_core_purge.
Qed.

Lemma wk_update_status pkt b (c : zconn) :
  zc_user_data c = Some d -> (CONN_STATUS_CLOSED <= zc_status c -> opn !! p = None) -> wkeeps (update_conn_status pkt b c).
Proof.
  intros Hd Ho w Hw. unfold update_conn_status. rewrite Hd. wp_step. eapply wp_of_option; [done|].
  destruct (core_ok_live _ _ _ _ _ _ Hw Hlive) as [data Hdata]. wp_step. apply wp_on_pd.
  eapply wp_mono; [apply wp_wlp; [eapply (wp_core_modify cur opn live p d); [exact Hw|done|]|]|].
  - intros c'. split; [by apply quiet_conn_same|done].
  - instantiate (1 := fun _ s => exists c', heap s !! d = Some c' /\ status c' = zc_status c). intros a s' E.
    unfold modify_conn, deref, mbind, M_bind, gets, of_option in E. rewrite Hdata in E. injection E as _ <-.
    eexists. split; [apply lookup_insert_eq|done].
  - intros [] s1 [Hs1 (c1 & Hc1 & Hst)]. apply wp_deref_data; [exact Hs1|]. intros c2 Hc2. simpl in Hc2.
    rewrite Hc1 in Hc2. injection Hc2 as <-. rewrite Hst.
    destruct (Z.geb_spec (zc_status c) CONN_STATUS_CLOSED); [|by apply wp_ret]. apply wp_on_pd. by eapply wp_core_purge; auto.
Qed.
End steps.

(** *** A new connection *)
Lemma wk_resolve cur opn live tuple : maintains (user_ok cur opn live) (resolve_uid java_app_name tuple).
Proof.
  unfold resolve_uid. repeat maintains_step; [by apply wk_world|]. apply wk_pd. intros s Hs.
  apply wp_core_quiet; [done|apply quietly_log_appname|apply log_fw].
Qed.

Lemma one_each_insert (m : data_map) p d :
  one_each m -> (forall q, m !! q <> Some (Some d)) -> one_each (<[p := Some d]> m).
Proof.
  intros Hm Hd q q' e Hq Hq'. apply lookup_insert_Some in Hq as [[<- [= <-]]|[Hne Hq]];
    apply lookup_insert_Some in Hq' as [[<- E]|[Hne' Hq']]; [done|by destruct (Hd q')| |by eapply Hm].
  injection E as <-. by destruct (Hd q).
Qed.

Lemma wp_new_connection cur opn live p (c : zconn) w :
  user_ok cur opn live w -> live !! p = None -> opn !! p = None ->
  wp (handle_new_connection java_app_name c)
     (fun r w' => if r.1 =? 0 then user_ok cur (<[p := r.2]> opn) (<[p := r.2]> live) w' else user_ok cur opn live w') w.
Proof.
  intros Hw Hl Ho. unfold handle_new_connection. apply (wp_maintains (user_ok cur opn live)); [done|apply wk_resolve|].
  clear w Hw. intros uid w Hw. wp_step. apply wp_on_pd. pose proof (cr_inv _ _ _ _ Hw) as Hi. unfold core_inv in Hi.
  eapply wp_mono; [apply wp_wlp; [eapply (pd_new_connection_inv (cmode := vpn_capture_mode (datas opn)) java_app_name false); exact Hi|
    apply new_connection_fw; by eapply (inv_fresh (cmode := vpn_capture_mode (datas opn)))]|].
  intros [d|] s [[Hcm Hr] Hfw]; apply wp_ret; simpl.
  - destruct Hr as (Hi' & Ht & Hsl & c' & Hc' & Hp'). destruct Hfw as [Hnone Hfw].
    destruct Hw as [_ Hop Hli He].
    assert (forall q, live !! q <> Some (Some d)) as Hfresh.
    { intros q Hq. destruct (Hli q _ Hq) as (d' & [= <-] & [e He'] & _). congruence. }
    assert (one_each (<[p := Some d]> live)) as He' by (by apply one_each_insert).
    change (core_ok cur (<[p := Some d]> opn) (<[p := Some d]> live) s). split.
    + eapply core_retable.
      * eapply (inv_settle (cmode := vpn_capture_mode (datas opn))); [exact Hi'|exact Hc'|done..].
      * apply NoDup_datas. eapply one_each_sub; [|exact He']. by apply insert_mono.
      * intros e (q & Hq)%elem_of_datas. apply lookup_insert_Some in Hq as [[<- [= <-]]|[_ Hq]]; [right; by exists c'|].
        left. apply elem_of_datas. by exists q.
    + by apply insert_mono.
    + intros q o [[<- <-]|[Hne Hq]]%lookup_insert_Some.
      * exists d. split_and!; [done|by exists c'|]. intros pctx. by rewrite Hfw, lookup_insert_eq.
      * destruct (Hli q o Hq) as (e & -> & [ce Hce] & Hfe). exists e. destruct (cm_heap _ _ Hcm e ce Hce) as (ce' & Hce' & _).
        split_and!; [done|by exists ce'|]. intros pctx. rewrite Hfw, lookup_insert_ne by congruence. apply Hfe.
    + done.
  - eapply core_ok_step; [exact Hw|exact Hr|exact Hcm|exact Hfw].
Qed.

Lemma wk_protect cur opn live fd : maintains (user_ok cur opn live) (protectSocketCallback fd).
Proof. unfold protectSocketCallback. repeat maintains_step; apply wk_jni. Qed.

(** *** The contract *)

(** The servers send at most [vpn_reply_limit] bytes at a time: the DNS parser
    of the core may read 16 bytes after the end of a message. *)
Definition vpn_reply_limit : Z := 65000.

Lemma reply_in_buffer pkt : reply_ok (vpn_reply_limit + reply_headers) pkt -> Dpi.pkt_ok pkt.
Proof.
  intros (ids & buf & len & ids' & Hp & Hb & Hlen & Hl & Hn). unfold sent_size, reply_margin, vpn_reply_limit, reply_headers, REPLY_BUF_SIZE in *.
  destruct (zdtun_parse_pkt_total ids buf len Hb) as (r & ids1 & E & Hr); [lia..|]. rewrite Hp in E. injection E as <- <-.
  destruct Hr as [(Hbuf & ? & ? & ? & Hsum & Hle & _ & _) _].
  split; unfold l7_off; rewrite ?Hbuf; try done; lia.
Qed.

Lemma user_ok_data cur opn live p o w :
  user_ok cur opn live w -> live !! p = Some o -> exists d, o = Some d /\ live !! p = Some (Some d).
Proof. intros Hw Hp. destruct (cr_live _ _ _ _ Hw p o Hp) as (d & -> & _). by exists d. Qed.

#[export] Instance vpn_callbacks_safe (cur : option conn_ptr) :
  SafeCallbacks world conn_ptr (H := vpn_callbacks java_app_name).
Proof.
  refine {| user_inv := user_ok cur; may_park := true; reply_limit := vpn_reply_limit |}; simpl.
  - done.
  - intros opn live opn' live' u. apply core_ok_mono.
  - intros opn live p pkt c u Hu (d & Hd & Hp)%(user_ok_data _ _ _ _ _ _ Hu) Hr.
    eapply wk_remote2vpn; [exact Hp|exact Hd|by apply reply_in_buffer|exact Hu].
  - intros opn live p pkt b c u Hu (d & Hd & Hp)%(user_ok_data _ _ _ _ _ _ Hu) Ho.
    eapply wk_update_status; [exact Hp|exact Hd|exact Ho|exact Hu].
  - intros opn live fd u. apply wk_protect.
  - intros opn live fd u Hu. by apply wp_ret.
  - intros opn live p c u. apply wp_new_connection.
  - intros opn live p c u Hu (d & Hd & Hp)%(user_ok_data _ _ _ _ _ _ Hu) Ho.
    eapply wk_closed; [exact Hp|exact Hd|exact Ho|exact Hu].
Defined.
End callbacks.
