(* ===== verification/VpnSafe.v ===== *)
(** The VPN capture has no undefined behaviour (core/capture_vpn.c): the packets
    of the device, the replies and the housekeeping, over a whole run. *)
From Stdlib Require Import ZArith Lia.
From stdpp Require Import base option gmap numbers list.
From S2P Require Import Prelude Packet Uthash PortMap PcapDump Blacklist NdpiProtos Conn ConnInv JavaDump Dpi Housekeeping JavaRequests.
From S2P Require Import Examples CaptureLibpcap PdRun ConnStatus Policy Accounting Checksum Kernel Zdtun ZdtunFwd ZdtunInv ZdtunSafe ZdtunTcpSafe.
From S2P Require Import ZdtunRun ZdtunEngine UidResolver CaptureVpn VpnInv.

Open Scope Z_scope.

(** ** Closing a connection closes it *)
Section closed.
Context {U D : Type} `{Callbacks U D}.
Abbreviation heap s := (zt_heap (ts_tun s)).
Definition closed_at (p : zconn_ptr) (s : tun_state U D) : Prop :=
  forall c, heap s !! p = Some c -> CONN_STATUS_CLOSED <= zc_status c.

Lemma close_closes p status s : wlp (zdtun_conn_close p status : M (tun_state U D) unit) (fun _ => closed_at p) s.
Proof.
  unfold zdtun_conn_close. cbn [zdtun_conn_close_rec]. unfold zderef, tun_get. wlp_steps. apply wlp_of_option. intros c Hc.
  destruct (Z.geb_spec (zc_status c) CONN_STATUS_CLOSED) as [Hcl|Hcl].
  { wlp_step. intros c'. congruence. }
  do 5 (wlp_step; eapply wlp_mono; [apply wlp_true|intros ? ? _]; cbv beta).
  unfold modify_zconn, zderef, on_tun, tun_get. wlp_steps. apply wlp_of_option. intros c1 Hc1.
  wlp_steps. apply wlp_of_option. intros c2 Hc2 [] s2 E. unfold callback in E.
  destruct (on_connection_close _ _) as [[? u]|]; [|done]. injection E as _ <-.
  intros c3. simpl in *. rewrite lookup_insert_eq in *. intros [= <-]. injection Hc2 as <-. simpl.
  destruct (Z.geb_spec status CONN_STATUS_CLOSED); lia.
Qed.
End closed.

(** ** Between the calls of the engine *)
Section vpn.
Context {P F : Type} `{Ndpi P} `{NdpiFlow F} (java_app_name : Z -> option bytes) (base : gset Z).
Abbreviation world := (vpn_world P F).
Abbreviation zconn := (zdtun_conn conn_ptr).
Abbreviation pd_state := (pcapdroid P F).
#[local] Instance calls : Callbacks world conn_ptr := vpn_callbacks java_app_name.
Abbreviation state := (tun_state world conn_ptr).
Abbreviation heap s := (zt_heap (ts_tun s)).
Implicit Types (s : state) (p : zconn_ptr) (d : conn_ptr) (cur : option conn_ptr) (L : gmap zconn_ptr (option conn_ptr)).
Implicit Types (Q X N : gset zconn_ptr).

(** The invariant, with the record whose packet is being forwarded. *)
Definition vinv cur L Q X N s : Prop :=
  ZdtunInv.inv (H0 := vpn_callbacks_safe java_app_name cur) base L Q X N s.

(** A call of the core that maintains its invariant. *)
Lemma wp_user {A} cur L Q X N (m : M world A) (R : A -> state -> Prop) s :
  vinv cur L Q X N s -> (forall opn, maintains (user_ok cur opn L) m) ->
  (forall a s', vinv cur L Q X N s' -> ts_tun s' = ts_tun s -> R a s') -> wp (on_world m) R s.
Proof.
  intros Hs Hm HR. eapply (wp_callback (H0 := vpn_callbacks_safe java_app_name cur)); [exact Hs|apply Hm, Hs|].
  intros a u Hu. by apply HR.
Qed.

(** One connection, open or that was open when the packet came. *)
Definition at_conn cur p d s : Prop := exists L Q c,
  vinv cur L Q {[p]} ∅ s /\ heap s !! p = Some c /\ L !! p = Some (Some d) /\
  (zc_status c = CONN_STATUS_NEW -> zc_sock c = INVALID_SOCKET).

Section at_conn.
Context (cur : option conn_ptr) (p : zconn_ptr) (d : conn_ptr).
Abbreviation here := (at_conn cur p d).

Lemma at_user {A} (m : M world A) :
  (forall opn live, live !! p = Some (Some d) -> maintains (user_ok cur opn live) m) -> maintains here (on_world m).
Proof.
  intros Hm s (L & Q & c & Hs & Hc & Hd & Hn). eapply wp_user; [exact Hs|intros opn; by apply Hm|].
  intros a s' Hs' E. exists L, Q, c. by rewrite E.
Qed.

Lemma at_deref {B} (k : pd_conn F -> M state B) (R : B -> state -> Prop) s :
  here s -> (forall c, Conn.heap (w_pd (ts_user s)) !! d = Some c -> wp (k c) R s) -> wp (core (deref d) ≫= k) R s.
Proof.
  intros (L & Q & c & Hs & Hc & Hd & Hn) Hk.
  destruct (core_ok_live _ _ _ _ _ _ (inv_usr _ _ _ _ _ _ Hs) Hd) as [data Hdata].
  wp_step. unfold core, on_world, wp, callback, on_pd, deref, mbind, M_bind, gets, of_option. rewrite Hdata.
  replace (s <| ts_user := _ |>) with s; [by apply Hk|]. destruct s as [? [] ?]. done.
Qed.

Lemma at_zderef {B} (k : zconn -> M state B) (R : B -> state -> Prop) s :
  here s -> (forall c, heap s !! p = Some c -> zc_user_data c = Some d -> wp (k c) R s) -> wp (zderef p ≫= k) R s.
Proof.
  intros (L & Q & c & Hs & Hc & Hd & Hn) Hk. wp_step. eapply wp_zderef; [done|]. apply Hk; [done|].
  pose proof (inv_live_data _ _ _ _ _ _ _ _ Hs Hc (elem_of_dom_2 _ _ _ Hd)). congruence.
Qed.

(** *** What the engine keeps *)
Definition stat_of s : option (Z * Z) := (fun c => (zc_status c, zc_sock c)) <$> heap s !! p.

Lemma at_keeps {A} (m : M state A) :
  (forall L Q, p ∈ Q -> keeps (H0 := vpn_callbacks_safe java_app_name cur) base L Q {[p]} ∅ m) -> preserves stat_of m ->
  maintains here m.
Proof.
  intros Hm Hp s (L & Q & c & Hs & Hc & Hd & Hn). pose proof (in_dom _ _ _ _ _ _ _ _ Hs Hc) as HpQ.
  eapply wp_mono; [exact (wp_preserves _ _ _ _ Hp (Hm L Q HpQ s Hs))|].
  intros a s' [Hs' E]. destruct (inv_lookup _ _ _ _ _ _ _ Hs' HpQ) as (c' & Hc' & _).
  exists L, Q, c'. split_and!; [exact Hs'|done|done|]. unfold stat_of in E. rewrite Hc, Hc' in E. injection E as -> ->. done.
Qed.

Lemma stat_modify f : (forall c, zc_status (f c) = zc_status c /\ zc_sock (f c) = zc_sock c) ->
  preserves stat_of (modify_zconn p f : M state unit).
Proof.
  intros Hf s a s' E. unfold modify_zconn, zderef, tun_get, on_tun, mbind, M_bind, gets, modify, of_option in E.
  destruct (heap s !! p) as [c|] eqn:Hc; [|done]. injection E as _ <-. unfold stat_of. simpl.
  rewrite lookup_insert_eq, Hc. simpl. destruct (Hf c) as [-> ->]. done.
Qed.

Lemma at_dnat proxy : maintains here (zdtun_conn_dnat p proxy).
Proof. apply at_keeps; [intros L Q Hp; unfold zdtun_conn_dnat; keeps_steps|]. unfold zdtun_conn_dnat. by apply stat_modify. Qed.

Lemma at_proxy : maintains here (zdtun_conn_proxy p).
Proof.
  apply at_keeps; [intros L Q Hp; unfold zdtun_conn_proxy; keeps_steps|].
  unfold zdtun_conn_proxy, zderef, tun_get. repeat preserves_step. by apply stat_modify.
Qed.

Lemma at_ipver : maintains here (sock_ipver p).
Proof.
  apply at_keeps; [intros L Q Hp; by apply keeps_sock_ipver|]. unfold sock_ipver, zderef, tun_get. preserves_steps.
Qed.

Lemma at_close status : maintains here (zdtun_conn_close p status).
Proof.
  intros s (L & Q & c & Hs & Hc & Hd & Hn). pose proof (in_dom _ _ _ _ _ _ _ _ Hs Hc) as HpQ.
  eapply wp_mono; [apply wp_wlp; [eapply (wp_close base L); [exact Hs|exact HpQ]|apply close_closes]|].
  intros [] s' [Hs' Hcl]. destruct (inv_lookup _ _ _ _ _ _ _ Hs' HpQ) as (c' & Hc' & _).
  exists L, Q, c'. split_and!; [|done|done|].
  - eapply inv_weaken; [exact Hs'|set_solver..].
  - intros E. specialize (Hcl c' Hc'). rewrite E in Hcl. by exfalso; apply Hcl.
Qed.

(** *** The steps of the core *)
Lemma at_modify f :
  (forall c, quiet_conn c (f c) /\ vpn_fw_pctx (f c) = vpn_fw_pctx c) -> maintains here (core (modify_conn d f)).
Proof. intros Hf. apply at_user. intros opn live Hl. by eapply wk_modify. Qed.

Lemma at_modify_same f :
  (forall c, pending_notification (f c) = pending_notification c /\ to_purge (f c) = to_purge c /\
     update_type (f c) = update_type c /\ blacklisted_domain (f c) = blacklisted_domain c /\ info (f c) = info c /\
     vpn_fw_pctx (f c) = vpn_fw_pctx c) -> maintains here (core (modify_conn d f)).
Proof. intros Hf. apply at_modify. intros c. destruct (Hf c) as (? & ? & ? & ? & ? & ?). split; [by apply quiet_conn_same|done]. Qed.

Lemma at_set_pd (f : pd_state -> pd_state) : (forall x, core_part (f x) = core_part x) -> maintains here (set_pd f).
Proof. intros Hf. apply at_user. intros opn live _. by apply wk_modify_pd. Qed.

Lemma at_data : maintains here (core (deref d)).
Proof.
  apply at_user. intros opn live Hl. apply wk_pd. intros s Hs. destruct (core_ok_live _ _ _ _ _ _ Hs Hl) as [c Hc].
  by eapply wp_deref.
Qed.

Lemma at_get_zconn : maintains here (zderef p).
Proof. intros s (L & Q & c & Hs & Hc & Hd & Hn). eapply wp_zderef; [done|]. by exists L, Q, c. Qed.

#[local] Hint Resolve at_dnat at_proxy at_ipver at_close at_data at_get_zconn : maintains.
#[local] Hint Extern 1 (maintains _ (set_pd _)) => by apply at_set_pd : maintains.
#[local] Hint Extern 1 (maintains _ (core (modify_conn _ _))) => by apply at_modify_same : maintains.

(** *** The handlers of the first packets *)
Lemma at_should_proxify tuple : maintains here (should_proxify tuple d).
Proof. unfold should_proxify, get_pd. maintains_steps. Qed.

Lemma dns_flags_ok pkt : Dpi.pkt_ok pkt -> sizeof_dns_packet <= l7_len pkt -> is_Some (dns_flags pkt).
Proof.
  intros [? ? ? ?] Hl. unfold dns_flags, sizeof_dns_packet in *. destruct (rd16_Some (pkt_buf pkt) (l7_off pkt + 2)) as [v ->]; [lia..|]. eauto.
Qed.

Lemma at_check_dns pctx : Dpi.pkt_ok (pctx_pkt pctx) -> maintains here (check_dns_req_allowed p pctx).
Proof.
  intros Hpkt. unfold check_dns_req_allowed, get_pd. cbv zeta. maintains_steps.
  match goal with E : _ && (_ >=? _) = true |- _ => apply andb_true_iff in E as [_ E%Z.geb_le] end.
  destruct (dns_flags_ok _ Hpkt ltac:(lia)) as [flags Ef]. eapply maintains_option; [exact Ef|]. maintains_steps.
Qed.

Lemma dns_query_ok pkt i :
  Dpi.pkt_ok pkt -> 0 <= i <= l7_len pkt - sizeof_dns_packet -> exists b, dns_query pkt i = Some b.
Proof.
  intros [? ? ? ?] Hi. unfold dns_query, sizeof_dns_packet in *. destruct (rd8_Some (pkt_buf pkt) (l7_off pkt + 12 + i)) as [v ->]; [lia|]. eauto.
Qed.

Lemma query_len_ok pkt fuel i :
  Dpi.pkt_ok pkt -> 0 <= i -> i + Z.of_nat fuel <= l7_len pkt - sizeof_dns_packet ->
  exists n, query_len pkt fuel i = Some n /\ i <= n <= i + Z.of_nat fuel.
Proof.
  intros Hpkt. revert i. induction fuel as [|fuel IH]; intros i Hi Hf; simpl.
  - exists i. split; [done|lia].
  - destruct (dns_query_ok pkt i Hpkt) as [b ->]; [lia|]. simpl. destruct (b =? 0); [exists i; split; [done|lia]|].
    destruct (IH (i + 1)) as (n & -> & Hn); [lia..|]. exists n. split; [done|lia].
Qed.

Lemma at_write buf : maintains here (on_world (write_tun buf (blen buf))).
Proof.
  apply at_user. intros opn live _. apply wk_write. unfold blen. lia.
Qed.
#[local] Hint Resolve at_should_proxify at_write : maintains.

Lemma at_spoof pctx : Dpi.pkt_ok (pctx_pkt pctx) -> maintains here (spoof_dns_reply p pctx).
Proof.
  intros Hpkt. unfold spoof_dns_reply. cbv zeta. set (pkt := pctx_pkt pctx) in *.
  destruct (Z.ltb_spec (l7_len pkt) (sizeof_dns_packet + 5)) as [|Hl]; [maintains_steps|].
  assert (forall off, 0 <= off <= 10 -> is_Some (rd16 (pkt_buf pkt) (l7_off pkt + off))) as Hrd.
  { intros off Hoff. destruct Hpkt. unfold sizeof_dns_packet in *. destruct (rd16_Some (pkt_buf pkt) (l7_off pkt + off)) as [v ->]; [lia..|]. eauto. }
  destruct (Hrd 4 ltac:(lia)) as [questions Eq]. eapply maintains_option; [exact Eq|]. maintains_step; [maintains_step|].
  destruct (query_len_ok pkt (Z.to_nat (l7_len pkt - sizeof_dns_packet - 4)) 0 Hpkt) as (n & En & Hn); [lia..|].
  eapply maintains_option; [exact En|].
  assert (forall i, 0 <= i <= 4 -> exists b, dns_query pkt (n + i) = Some b) as Hq by (intros i Hi; apply dns_query_ok; [done|lia]).
  destruct (Hq 0 ltac:(lia)) as [b0 Hb0]. rewrite Z.add_0_r in Hb0. eapply maintains_option; [exact Hb0|]. maintains_step; [maintains_step|].
  destruct (Hq 1 ltac:(lia)) as [b1 Hb1]. eapply maintains_option; [exact Hb1|]. maintains_step; [maintains_step|].
  destruct (Hq 3 ltac:(lia)) as [b3 Hb3]. eapply maintains_option; [exact Hb3|]. maintains_step; [maintains_step|].
  destruct (Hq 4 ltac:(lia)) as [b4 Hb4]. eapply maintains_option; [exact Hb4|]. maintains_step; [maintains_step|].
  destruct (Hq 2 ltac:(lia)) as [b2 Hb2]. eapply maintains_option; [exact Hb2|]. maintains_step; [maintains_step|].
  maintains_step; [apply at_ipver|].
  destruct (Hrd 0 ltac:(lia)) as [id Eid]. rewrite Z.add_0_r in Eid. eapply maintains_option; [exact Eid|].
  eapply maintains_option; [destruct Hpkt; unfold sizeof_dns_packet in *; apply rdn_Some; lia|]. maintains_steps.
Qed.

Lemma at_setup : maintains here (setup_new_conn p d).
Proof. unfold setup_new_conn. maintains_steps. Qed.

Lemma at_check_new pctx : Dpi.pkt_ok (pctx_pkt pctx) -> maintains here (check_new_conn java_app_name p d pctx).
Proof.
  intros Hpkt. pose proof (at_spoof pctx Hpkt). pose proof (at_check_dns pctx Hpkt). unfold check_new_conn. maintains_steps.
Qed.

Lemma at_local_port : maintains here (learn_local_port p d).
Proof.
  unfold learn_local_port. repeat (maintains_step || solve [auto with maintains]).
  intros s (L & Q & c & Hs & Hc & Hd & Hn). apply wp_sys. exists L, Q, c. split_and!; [|done..]. apply inv_sys; [exact Hs|auto with sysfds].
Qed.
End at_conn.

(** ** Forwarding *)
Definition loop_ok s : Prop := exists L Q, vinv None L Q ∅ ∅ s.

Lemma at_loop p d s : at_conn None p d s -> loop_ok s.
Proof.
  intros (L & Q & c & Hs & Hc & _ & Hn). exists L, Q. eapply inv_weaken; [eapply inv_not_handled; [exact Hs|exact Hc|]|set_solver..].
  intros E. split; [done|auto].
Qed.

Lemma vinv_cur cur cur' L Q X N s u :
  vinv cur L Q X N s -> user_ok cur' (opens (heap s)) L u -> vinv cur' L Q X N (s <| ts_user := u |>).
Proof. intros [] Hu. by split. Qed.

Lemma wp_core_user {A} (m : M pd_state A) (Q : A -> pd_state -> Prop) (R : A -> state -> Prop) s :
  wp m Q (w_pd (ts_user s)) -> (forall a x, Q a x -> R a (s <| ts_user := (ts_user s) <| w_pd := x |> |>)) -> wp (core m) R s.
Proof.
  intros Hm HR. unfold core, on_world, wp, callback, on_pd in *. destruct (m _) as [[a x]|]; [|done]. by apply HR.
Qed.

(** The record points to the packet until it is accounted. *)
Lemma at_set_fw p d pctx s :
  at_conn None p d s -> Dpi.pkt_ok (pctx_pkt pctx) -> pctx_data pctx = d ->
  wp (core (modify_conn d (fun c => c <| vpn_fw_pctx := Some pctx |>))) (fun _ => at_conn (Some d) p d) s.
Proof.
  intros (L & Q & c & Hs & Hc & Hd & Hn) Hpkt Hdata. eapply wp_core_user.
  - eapply (wp_set_fw None (opens (heap s)) L p d Hd (Some d) (Some pctx)); [apply (inv_usr _ _ _ _ _ _ Hs)|done|by intros ? [= <-]].
  - intros [] x Hx. exists L, Q, c. split_and!; [by eapply vinv_cur|done..].
Qed.

Lemma wp_account_loop L Q X N p d tuple s :
  vinv (Some d) L Q X N s -> L !! p = Some (Some d) ->
  wp (on_world (account_fw_pctx java_app_name tuple d)) (fun _ => vinv None L Q X N) s.
Proof.
  intros Hs Hd. pose proof (wp_account_fw java_app_name (Some d) (opens (heap s)) L p d Hd None tuple _ (inv_usr _ _ _ _ _ _ Hs)) as Hw.
  unfold on_world, wp, callback in *. destruct (account_fw_pctx _ _ _ _) as [[[] u]|]; [|apply Hw; congruence].
  eapply vinv_cur; [exact Hs|]. apply Hw. congruence.
Qed.

(** A closed connection is not open for the next call: its record may point to
    a packet, that nobody follows. *)
Lemma closed_loop L Q X N p d s :
  vinv (Some d) L Q X N s -> X = ∅ -> L !! p = Some (Some d) -> closed_at p s -> loop_ok s.
Proof.
  intros Hs -> Hd Hcl. assert (vinv (Some d) (opens (heap s)) Q ∅ ∅ s) as Hs1.
  { eapply inv_weaken; [eapply inv_reset; exact Hs|set_solver..]. }
  exists (opens (heap s)), Q. replace s with (s <| ts_user := ts_user s |>) by (by destruct s). eapply vinv_cur; [exact Hs1|].
  pose proof (inv_live _ _ _ _ _ _ Hs) as [_ Ho]. pose proof (inv_usr _ _ _ _ _ _ Hs1) as [Hi Hop Hli He]. split; [done..| |done].
  intros q o Hq. destruct (Hli q o Hq) as (e & -> & Hlive & Hfw). exists e. split_and!; [done..|].
  intros pctx Hp. destruct (Hfw pctx Hp) as ([= <-] & _). exfalso.
  assert (q = p) as -> by (eapply (cr_each _ _ _ _ (inv_usr _ _ _ _ _ _ Hs)); [by eapply lookup_weaken|done]).
  apply opens_Some in Hq as (c & Hc & Hst & _). specialize (Hcl c Hc). lia.
Qed.

Lemma wp_forward_packet pkt p d pctx s :
  at_conn None p d s -> Dpi.pkt_ok (pctx_pkt pctx) -> pctx_data pctx = d ->
  ZdtunRun.pkt_ok pkt -> (ipproto (pkt_tuple pkt) = IPPROTO_TCP -> syn_ok pkt) ->
  wp (forward_packet java_app_name pkt p d pctx) (fun _ => loop_ok) s.
Proof.
  intros Hs Hpkt Hdata Hz Hsyn. unfold forward_packet. wp_step. eapply wp_mono; [by apply at_set_fw|].
  clear s Hs. intros [] s (L & Q & c & Hs & Hc & Hd & Hn). pose proof (in_dom _ _ _ _ _ _ _ _ Hs Hc) as HpQ.
  wp_step. eapply wp_mono; [eapply (wp_zdtun_forward base L); [exact Hs|exact Hc|done|done|auto]|].
  intros rv s1 [Hs1 Hs0]. cbv beta. destruct (Z.eqb_spec rv 0) as [->|Hrv]; simpl.
  - specialize (Hs0 eq_refl). destruct (inv_lookup _ _ _ _ _ _ _ Hs0 HpQ) as (c1 & Hc1 & _).
    wp_step. eapply wp_zderef; [done|]. wp_step. eapply wp_mono; [by eapply wp_account_loop|].
    intros [] s2 Hs2. assert (at_conn None p d s2) as Hat.
    { destruct (inv_lookup _ _ _ _ _ _ _ Hs2 HpQ) as (c2 & Hc2 & _ & _ & Hn2 & _). exists L, Q, c2.
      split_and!; [eapply inv_weaken; [exact Hs2|set_solver..]|done|done|]. intros E. destruct (Hn2 E) as [|[]]; done. }
    eapply at_deref; [exact Hat|]. intros data _. wp_step; [|by eapply at_loop].
    eapply wp_mono; [by apply at_local_port|]. intros [] s3 Hs3. by eapply at_loop.
  - destruct (inv_lookup _ _ _ _ _ _ _ Hs1 HpQ) as (c1 & Hc1 & _). wp_step. eapply wp_zderef; [done|]. wp_step.
    eapply (wp_mono _ (fun _ => vinv (Some d) L Q {[p]} ∅)).
    + wp_step; [|exact Hs1]. eapply wp_user; [exact Hs1|intros opn; by apply wk_modify_pd|]. by intros.
    + intros [] s2 Hs2. eapply wp_mono; [apply wp_wlp; [eapply (wp_close base L); [exact Hs2|exact HpQ]|apply close_closes]|].
      intros [] s3 [Hs3 Hcl]. eapply closed_loop; [exact Hs3|set_solver|done|done].
Qed.

(** ** The packets of the device *)

(** The core is given what the engine gives to its own handlers. *)
Record seg_ok (pkt : zdtun_pkt) : Prop := {
  so_core : Dpi.pkt_ok pkt;
  so_engine : ZdtunRun.pkt_ok pkt;
  so_opts : ipproto (pkt_tuple pkt) = IPPROTO_TCP -> syn_ok pkt
}.

Lemma wp_conn_packet_at pkt p d s :
  at_conn None p d s -> seg_ok pkt -> wp (conn_packet java_app_name pkt p) (fun _ => loop_ok) s.
Proof.
  intros Hat [Hcore Hz Hopts]. unfold conn_packet. eapply at_zderef; [exact Hat|]. intros c0 _ Ed.
  wp_step. eapply wp_of_option; [exact Ed|]. clear c0 Ed.
  eapply at_deref; [exact Hat|]. intros data0 _.
  eapply (wp_maintains (at_conn None p d)); [exact Hat|apply maintains_when; intros _; apply at_setup|]. clear s Hat. intros [] s Hat.
  eapply (wp_maintains (at_conn None p d)); [exact Hat|apply at_user; intros opn live _; apply wk_timestamp|]. clear s Hat. intros tv s Hat.
  eapply at_zderef; [exact Hat|]. intros c Hc _.
  wp_step. apply (wp_mono _ (fun r s' => r = make_pctx pkt true (zc_tuple c) d tv /\ at_conn None p d s')).
  { destruct Hat as (L & Q & c' & Hs & Hc' & Hd & Hn).
    pose proof (wp_process_packet java_app_name None (opens (heap s)) L p d Hd pkt true (zc_tuple c) tv mret
      (fun r w => r = make_pctx pkt true (zc_tuple c) d tv /\ user_ok None (opens (heap s)) L w) _
      (inv_usr _ _ _ _ _ _ Hs) Hcore) as Hw.
    unfold core, on_world, wp, callback in *. unfold mbind, M_bind, mret, M_ret in Hw. 
    destruct (on_pd _ _) as [[r u]|]; [|by apply Hw]. destruct Hw as [-> Hu]; [done|]. split; [done|].
    exists L, Q, c'. split_and!; [by eapply vinv_cur|done..]. }
  clear s data0 Hat Hc. intros pctx s [-> Hat]. eapply at_deref; [exact Hat|]. intros data0 _.
  eapply (wp_maintains (at_conn None p d)); [exact Hat|apply maintains_when; intros _; by apply at_check_new|]. clear s Hat data0. intros [] s Hat.
  eapply at_deref; [exact Hat|]. intros data1 _. destruct (to_block data1).
  - eapply wp_mono; [apply (at_user None p d); [|exact Hat]|by intros [] s' Hs'; eapply at_loop].
    intros opn live Hl. by eapply wk_blocked.
  - by apply wp_forward_packet.
Qed.

Lemma found_at create p s :
  found (H0 := vpn_callbacks_safe java_app_name None) base create (Some p) s -> exists d, at_conn None p d s.
Proof.
  intros (L & Q & c & Hs & Hc & Hst & Hn). pose proof (inv_open_live _ _ _ _ _ _ _ _ Hs Hc Hst) as HpL.
  pose proof (inv_live_data _ _ _ _ _ _ _ _ Hs Hc HpL) as Hd.
  destruct (cr_live _ _ _ _ (inv_usr _ _ _ _ _ _ Hs) p _ Hd) as (d & Ed & _). rewrite Ed in Hd.
  exists d, L, Q, c. split_and!; [exact Hs|done|done|by intros E; apply Hn].
Qed.

Lemma wp_conn_packet create pkt p s :
  found (H0 := vpn_callbacks_safe java_app_name None) base create (Some p) s -> seg_ok pkt ->
  wp (conn_packet java_app_name pkt p) (fun _ => loop_ok) s.
Proof. intros [d Hat]%found_at Hpkt. by eapply wp_conn_packet_at. Qed.

(** A packet of the device, in the buffer of the capture. *)
Definition packet_ok (buffer : bytes) (size : Z) : Prop :=
  wf_bytes buffer /\ 0 <= size /\ size + 16 <= blen buffer /\ size < 2 ^ 16 /\
  forall ids pkt ids', zdtun_parse_pkt ids buffer size = Some (inr pkt, ids') ->
    has_flag (pkt_flags pkt) ZDTUN_PKT_IS_FRAGMENT = false -> ipproto (pkt_tuple pkt) = IPPROTO_TCP -> syn_ok pkt.

Lemma packet_core_ok ids buffer size pkt ids' :
  packet_ok buffer size -> zdtun_parse_pkt ids buffer size = Some (inr pkt, ids') -> Dpi.pkt_ok pkt.
Proof.
  intros (Hb & Hz & Hl & H16 & _) Hp. destruct (zdtun_parse_pkt_total ids buffer size Hb) as (r & ids1 & E & Hr); [lia..|].
  rewrite Hp in E. injection E as <- <-. destruct Hr as [(Hbuf & ? & ? & ? & Hsum & Hle & _ & _) _].
  split; unfold l7_off; rewrite ?Hbuf; try done; lia.
Qed.

Lemma wp_set_pd_loop (f : pd_state -> pd_state) s :
  loop_ok s -> (forall x, core_part (f x) = core_part x) -> wp (set_pd f) (fun _ => loop_ok) s.
Proof. intros (L & Q & Hs) Hf. eapply wp_user; [exact Hs|intros opn; by apply wk_modify_pd|]. intros _ s' Hs' _. by exists L, Q. Qed.

Lemma wp_refresh_loop s : loop_ok s -> wp (on_world refresh_time) (fun _ => loop_ok) s.
Proof. intros (L & Q & Hs). eapply wp_user; [exact Hs|intros opn; apply wk_refresh|]. intros _ s' Hs' _. by exists L, Q. Qed.

Lemma wp_vpn_packet buffer size s :
  loop_ok s -> packet_ok buffer size -> wp (vpn_packet java_app_name buffer size) (fun _ => loop_ok) s.
Proof.
  intros Hs Hpk. pose proof Hpk as (Hb & Hz & Hl & H16 & Hopts). unfold vpn_packet. wp_step.
  eapply wp_mono; [by apply wp_refresh_loop|]. clear s Hs. intros [] s (L & Q & Hs). wp_step. apply wp_gets.
  rewrite (u16_small size) by lia.
  destruct (zdtun_parse_pkt_total (id2ports (ts_tun s)) buffer size Hb) as (r & ids & E & _); [lia..|].
  eapply wp_option_bind; [exact E|]. cbv beta iota.
  eapply (wp_keeps_bind (H0 := vpn_callbacks_safe java_app_name None) base L) with (Q := Q) (X := ∅) (N := ∅); [apply keeps_on_tun; kept|exact Hs|].
  intros [] s1 Hs1. assert (loop_ok s1) as Hl1 by (by exists L, Q).
  destruct r as [rv|pkt]; [by apply wp_ret|]. cbv zeta.
  destruct (has_flag (pkt_flags pkt) ZDTUN_PKT_IS_FRAGMENT) eqn:Efrag; [by apply wp_set_pd_loop|].
  wp_step. apply wp_gets. destruct (_ && _); [by apply wp_ret|]. destruct (_ || _); [by apply wp_ret|].
  destruct (parsed_pkt_ok _ buffer size _ _ Hb ltac:(lia) ltac:(lia) E Efrag) as [Hpkt Hproto].
  destruct (established_flag pkt Hpkt) as [established Eest].
  eapply wp_option_bind; [exact Eest|]. wp_step. eapply wp_mono; [eapply (wp_lookup base L Q); [exact Hs1|done]|].
  intros [p|] s2 Hf.
  - eapply wp_conn_packet; [exact Hf|]. split; [by eapply packet_core_ok|done|by eapply Hopts].
  - destruct Hf as (L2 & Q2 & Hs2). wp_step; [|by exists L2, Q2]. apply wp_set_pd_loop; [by exists L2, Q2|done].
Qed.

(** ** The loop *)
Lemma loop_reset s : loop_ok s -> exists Q, vinv None (opens (heap s)) Q ∅ ∅ s.
Proof. intros (L & Q & Hs). exists Q. eapply inv_reset. exact Hs. Qed.

Lemma wp_core_loop {A} (m : M pd_state A) s :
  loop_ok s -> (forall opn x, core_ok None opn opn x -> wp m (fun _ => core_ok None opn opn) x) -> wp (core m) (fun _ => loop_ok) s.
Proof.
  intros [Q Hs]%loop_reset Hm. eapply wp_core_user; [apply (Hm (opens (heap s)))|].
  - apply (inv_usr _ _ _ _ _ _ Hs).
  - intros a x Hx. exists (opens (heap s)), Q. by eapply vinv_cur.
Qed.

Lemma wp_java r s : loop_ok s -> wp (core (java_request_step r)) (fun _ => loop_ok) s.
Proof.
  intros Hs. apply wp_core_loop; [done|]. intros opn x Hx.
  eapply wp_mono; [exact (wp_preserves _ _ _ _ (java_request_heap r)
    (java_request_step_inv (cmode := vpn_capture_mode (datas opn)) None false r x (cr_inv _ _ _ _ Hx)))|].
  intros [] x' [Hi E]. by eapply core_ok_heap.
Qed.

Lemma wp_reload files allocs s : loop_ok s -> wp (core (load_new_blacklists files allocs)) (fun _ => loop_ok) s.
Proof.
  intros Hs. apply wp_core_loop; [done|]. intros opn x Hx.
  eapply wp_mono; [exact (wp_preserves _ _ _ _ (load_new_heap files allocs)
    (load_new_blacklists_inv (cmode := vpn_capture_mode (datas opn)) None false files allocs x (cr_inv _ _ _ _ Hx)))|].
  intros [] x' [Hi E]. by eapply core_ok_heap.
Qed.

(** What the engine shows to the core. *)
Lemma open_connections_opens (t : zdtun conn_ptr) (e : zdtun_5tuple * conn_ptr) :
  e ∈ open_connections t -> exists p o, opens (zt_heap t) !! p = Some o /\ e.2 = default 0 o.
Proof.
  unfold open_connections. rewrite list_elem_of_omap. intros ([tuple p] & _ & E). simpl in E.
  destruct (zt_heap t !! p) as [c|] eqn:Hc; [|done]. simpl in E.
  destruct (Z.ltb_spec (zc_status c) CONN_STATUS_CLOSED); [|done]. injection E as <-.
  exists p, (zc_user_data c). split; [apply opens_Some; eauto|done].
Qed.

Lemma wp_set_pd (f : pd_state -> pd_state) (R : unit -> state -> Prop) s :
  R tt (s <| ts_user := (ts_user s) <| w_pd := f (w_pd (ts_user s)) |> |>) -> wp (set_pd f) R s.
Proof. done. Qed.

Lemma wp_shown_housekeeping s :
  loop_ok s -> wp (show_engine;; core (pd_housekeeping java_app_name)) (fun _ => loop_ok) s.
Proof.
  intros [Q Hs]%loop_reset. unfold show_engine. wp_step. wp_step. wp_step. apply wp_set_pd. set (O := opens (heap s)) in *.
  pose proof (inv_usr _ _ _ _ _ _ Hs) as Hu. unfold user_inv in Hu. simpl in Hu.
  match goal with |- wp _ _ ?x => set (s1 := x) end. set (x := w_pd (ts_user s1)).
  assert (core_inv (datas O) x) as Hi by (apply show_inv, Hu).
  assert (fw_pctxs x = fw_pctxs (w_pd (ts_user s))) as Efw by done.
  assert (core_ok None O O x) as Hx by (eapply core_ok_heap; [exact Hu|exact Hi|done]).
  assert (zdt_shown (cmode := vpn_capture_mode (datas O)) x) as Hz.
  { intros _ e He. apply open_connections_opens in He as (p & o & Ho & Ee). apply elem_of_datas.
    destruct (cr_live _ _ _ _ Hx p o Ho) as (d & -> & _). exists p. by rewrite Ee. }
  eapply wp_core_user.
  - eapply wp_wlp; [apply (pd_housekeeping_inv (cmode := vpn_capture_mode (datas O)) java_app_name false); [exact Hi|exact Hz]|apply housekeeping_shrinks].
  - intros [] x' [Hi' Hfw]. exists O, Q. assert (core_ok None O O x') as Hx' by (eapply core_ok_shrink; [exact Hx|exact Hi'|exact Hfw]).
    assert (vinv None O Q ∅ ∅ s1) as Hs1 by (by eapply (vinv_cur None None)). by eapply vinv_cur.
Qed.

Lemma wp_housekeeping next s : loop_ok s -> wp (vpn_housekeeping java_app_name next) (fun _ => loop_ok) s.
Proof.
  intros Hs. pose proof (wp_shown_housekeeping s Hs) as Hw. apply wp_exec in Hw as ([] & s1 & E & Hs1).
  assert (forall (k : M state Z), wp k (fun _ => loop_ok) s1 -> wp (show_engine;; core (pd_housekeeping java_app_name);; k) (fun _ => loop_ok) s) as Hseq.
  { intros k Hk. unfold wp, mbind, M_bind in *. destruct (show_engine s) as [[[] s']|]; [|done]. by rewrite E. }
  unfold vpn_housekeeping. apply Hseq. clear s Hs E Hseq. unfold get_pd. wp_step. wp_step.
  destruct (_ >=? _); [|by apply wp_ret]. destruct Hs1 as (L & Q & Hs1). wp_step.
  eapply wp_mono; [by apply (wp_purge_expired (H0 := vpn_callbacks_safe java_app_name None) base L Q)|]. intros [] s2 (L' & Q' & Hs2). wp_step. wp_step. apply wp_ret. by exists L', Q'.
Qed.

(** What the events bring. *)
Definition event_ok (ev : vpn_event) : Prop :=
  match ev with VpnPacket buffer size => 0 < size -> packet_ok buffer size | _ => True end.

Lemma wp_loop events next s : loop_ok s -> Forall event_ok events -> wp (vpn_loop java_app_name events next) (fun _ => loop_ok) s.
Proof.
  intros Hs Hev. revert next s Hs. induction Hev as [|ev events He _ IH]; intros next s Hs; simpl;
    unfold get_pd; (wp_step; wp_step; destruct (negb _); [by apply wp_ret|]); [by apply wp_ret|].
  assert (forall m : M state unit, wp m (fun _ => loop_ok) s ->
    wp (m;; next0 ← vpn_housekeeping java_app_name next; vpn_loop java_app_name events next0) (fun _ => loop_ok) s) as Hturn.
  { intros m Hm. wp_step. eapply wp_mono; [exact Hm|]. intros [] s1 Hs1. wp_step.
    eapply wp_mono; [by apply wp_housekeeping|]. intros n s2 Hs2. by apply IH. }
  destruct ev as [|buffer size|rd wr|files allocs|r].
  - by apply wp_ret.
  - apply Hturn. destruct (Z.gtb_spec size 0); [apply wp_vpn_packet; [done|by apply He]|by apply wp_refresh_loop].
  - wp_step. eapply wp_mono; [by apply wp_refresh_loop|]. intros [] s1 Hs1. wp_step.
    eapply wp_mono; [apply (wp_handle_fd base (H0 := vpn_callbacks_safe java_app_name None)); exact Hs1|]. intros rv s2 Hs2. wp_step.
    eapply wp_mono; [by apply wp_housekeeping|]. intros n s3 Hs3. by apply IH.
  - wp_step. wp_step. wp_step. eapply wp_mono with (Q := fun _ => loop_ok); [wp_step; [by apply wp_reload|done]|]. intros [] s1 Hs1. by apply IH.
  - wp_step. eapply wp_mono; [by apply wp_java|]. intros [] s1 Hs1. by apply IH.
Qed.

(** ** The run *)

(** The core can start, without connections, and the servers send at most
    [vpn_reply_limit] bytes at a time. *)
Record can_start (w : world) (k : kernel) : Prop := {
  cs_core : core_inv [] (w_pd w);
  cs_fds : open_fds k = base;
  cs_replies : Forall (fun o => Z.min (blen (oc_data o)) REPLY_BUF_SIZE <= vpn_reply_limit) (outcomes k)
}.

(** The resolver of the UIDs and the list of the known DNS servers are there. *)
Record env_ok (env : vpn_env (P:=P)) : Prop := {
  eo_resolver : ve_resolver env = true;
  eo_bl : ve_bl_alloc env = true;
  eo_mtu : 60 <= ve_mtu env <= 65515;
  eo_events : Forall event_ok (ve_events env)
}.

Lemma wp_set_core (f : pd_state -> pd_state) (R : unit -> state -> Prop) s :
  (forall x, core_part (f x) = core_part x) -> core_inv [] (w_pd (ts_user s)) ->
  (forall s', core_inv [] (w_pd (ts_user s')) -> ts_tun s' = ts_tun s -> ts_sys s' = ts_sys s -> R tt s') -> wp (set_pd f) R s.
Proof.
  intros Hf Hi HR. apply wp_set_pd, HR; [|done..]. simpl. pose proof (Hf (w_pd (ts_user s))) as Hp.
  injection Hp as Eh En Eu Ec Ez Ep Ezs Ed Ev Em Er Es Ej.
  eapply (inv_same (cmode := vpn_capture_mode [])); [exact Hi|done..|]. rewrite Em. apply (inv_malware _ _ _ Hi).
Qed.

Lemma loop_start s : core_inv [] (w_pd (ts_user s)) -> can_start (ts_user s) (ts_sys s) -> ts_tun s = zdtun_init -> loop_ok s.
Proof.
  intros Hi [_ Hfds Hrep] Et. exists ∅, ∅. destruct s as [t u k]. simpl in *. subst t.
  apply (inv_start (H0 := vpn_callbacks_safe java_app_name None) base u k). split; [done| |exact Hrep].
  split; [exact Hi|done|by intros p o|by intros p q d].
Qed.

Lemma loop_keeps {A} (m : M state A) s :
  loop_ok s -> (forall L Q, keeps (H0 := vpn_callbacks_safe java_app_name None) base L Q ∅ ∅ m) -> wp m (fun _ => loop_ok) s.
Proof. intros (L & Q & Hs) Hm. eapply wp_mono; [by apply (Hm L Q)|]. intros a s' Hs'. by exists L, Q. Qed.

(** The settings of the engine. *)
Lemma keeps_set_mtu m L Q : 60 <= m <= 65515 -> keeps (H0 := vpn_callbacks_safe java_app_name None) base L Q ∅ ∅ (zdtun_set_mtu m).
Proof. intros Hm. unfold zdtun_set_mtu. rewrite Z.min_l by (unfold REPLY_BUF_SIZE; lia). apply keeps_on_tun; intros t; split; try done; intros []; by split. Qed.

Lemma keeps_set_socks5 proxy auth L Q : keeps (H0 := vpn_callbacks_safe java_app_name None) base L Q ∅ ∅
  (zdtun_set_socks5_proxy proxy;;
   match auth with Some (username, password) => zdtun_set_socks5_userpass username password | None => mret tt end).
Proof.
  unfold zdtun_set_socks5_proxy, zdtun_set_socks5_userpass. keeps_step; [keeps_steps|].
  destruct auth as [[? ?]|]; [|apply tun_keeps_ret]. apply keeps_on_tun; intros t; split; try done; intros []; split; try done.
Qed.

Lemma wp_loop_bind {A B} (m : M state A) (k : A -> M state B) (R : B -> state -> Prop) s :
  wp m (fun _ => loop_ok) s -> (forall a s', loop_ok s' -> wp (k a) R s') -> wp (m ≫= k) R s.
Proof. intros Hm Hk. wp_step. eapply wp_mono; [exact Hm|]. intros a s' Hs'. by apply Hk. Qed.

Lemma wp_run_vpn env w k :
  can_start w k -> env_ok env ->
  wp (run_vpn java_app_name env) (fun rv s' => core_inv [] (w_pd (ts_user s')) /\ (rv = 0 -> engine_ended base s'))
    (mk_tun_state zdtun_init w k).
Proof.
  intros Hst [Hres Hbl Hmtu Hev]. pose proof Hst as [Hcore Hfds Hrep]. unfold run_vpn.
  destruct (ve_fcntl env); simpl negb; cbv iota; [|by apply wp_ret]. rewrite Hres. wp_step. eapply wp_of_option; [done|]. rewrite Hbl. wp_step. eapply wp_of_option; [done|]. cbv zeta.
  wp_step. apply wp_set_core; [done|exact Hcore|]. intros s1 Hc1 _ Es1. destruct (ve_zdt env); simpl negb; cbv iota; [|by apply wp_ret].
  wp_step. wp_step. set (s2 := s1 <| ts_tun := zdtun_init |>).
  assert (loop_ok s2) as Hs2.
  { apply loop_start; [exact Hc1| |done]. split; [exact Hc1|simpl; by rewrite Es1..]. }
  clearbody s2. clear s1 Hc1 Es1. apply wp_loop_bind; [apply loop_keeps; [done|intros; by apply keeps_set_mtu]|]. intros [] s3 Hs3.
  apply wp_loop_bind; [by apply wp_set_pd_loop|]. intros [] s4 Hs4. unfold get_pd. wp_step. wp_step.
  apply wp_loop_bind; [wp_step; [apply loop_keeps; [done|intros; apply keeps_set_socks5]|done]|]. intros [] s5 Hs5.
  apply wp_loop_bind; [by apply wp_refresh_loop|]. intros [] s6 Hs6. wp_step. wp_step. apply wp_loop_bind.
  { wp_step; [|done]. apply wp_core_loop; [done|]. intros opn x Hx. apply wp_core_quiet; [done|apply quietly_call_java|].
    unfold notifyServiceStatus, call_java. by apply preserves_modify. }
  intros [] s7 Hs7. apply wp_loop_bind; [by apply wp_loop|]. intros [] s8 Hs8.
  apply wp_loop_bind.
  { destruct Hs8 as (L & Q & Hs8). eapply wp_user; [exact Hs8|intros opn; by apply wk_world|]. intros [] s9 Hs9 _. by exists L, Q. }
  intros [] s9 Hs9. wp_step. eapply wp_mono; [apply (wp_finalize (H0 := vpn_callbacks_safe java_app_name None) base); exact Hs9|].
  intros [] s10 [He Hu]. apply wp_ret. split; [exact (cr_inv _ _ _ _ Hu)|done].
Qed.
End vpn.

(** ** Properties *)
Section vpn_properties.
Context {P F : Type} `{Ndpi P} `{NdpiFlow F} (java_app_name : Z -> option bytes).
Abbreviation world := (vpn_world P F).
Abbreviation pd_state := (pcapdroid P F).
#[local] Instance vcalls : Callbacks world conn_ptr := vpn_callbacks java_app_name.
Abbreviation state := (tun_state world conn_ptr).

Definition replies_ok (k : kernel) : Prop :=
  Forall (fun o => Z.min (blen (oc_data o)) REPLY_BUF_SIZE <= vpn_reply_limit) (outcomes k).

Lemma loop_safe_vpn venv env w k :
  (forall x, w_pd (w x) = x) -> env_ok venv -> replies_ok k ->
  loop_safe (cmode := vpn_capture_mode []) java_app_name false (run_vpn_pd java_app_name venv w k) env.
Proof.
  intros Hw Henv Hk x Hx _. rewrite (inv_mode _ _ _ Hx). simpl.
  assert (can_start (open_fds k) (w x) k) as Hst by (split; [by rewrite Hw|done|exact Hk]).
  pose proof (wp_run_vpn java_app_name (open_fds k) venv (w x) k Hst Henv) as Hrun.
  unfold run_vpn_pd. unfold wp in *. destruct (run_vpn _ _ _) as [[rv s']|]; [|done]. destruct Hrun as [Hi _].
  split; [exact Hi|]. by intros [].
Qed.

(** C2: a VPN capture has no undefined behaviour, from the start of the run to
    its end, under the conditions that follow, outside of which the code has
    undefined behaviours (see the findings): the packets of the device are in
    their buffer and the options of their SYN segments are well formed (MSS and
    scale in range), the servers send up to 65000 bytes at a time, the MTU is
    between 60 and 65515; every [realloc] and [strndup] succeeds, as the
    allocations of the LRU cache of the UIDs, of the records of the blacklists,
    of the resolver and of the list of the known DNS servers. The other
    allocations and JNI calls may fail; the payloads, the data of the servers,
    the answers of the kernel, the requests of the Java side and their
    interleaving with the turns of the loop are any. No record of a connection
    is used after it has been freed, by the core or by the callbacks of the
    engine, and nothing is read or written out of its bounds; the run ends with
    nothing queued and the dumper destroyed. *)
Theorem vpn_run_safe venv env (w : pd_state -> world) k s :
  allocs_ok env -> initial (cmode := vpn_capture_mode []) s -> all_ok (reallocs s) -> all_ok (strndups s) ->
  (forall x, w_pd (w x) = x) -> env_ok venv -> replies_ok k ->
  exists rv s', pd_run java_app_name (run_vpn_pd java_app_name venv w k) env s = Some (rv, s') /\
    new_conns s' = empty_array /\ conns_updates s' = empty_array /\ dumper (pcap_dump s') = None.
Proof.
  intros Ha Hini Hr Hs Hw Henv Hk.
  destruct (pd_run_ends (cmode := vpn_capture_mode []) java_app_name false (run_vpn_pd java_app_name venv w k) env s)
    as (rv & s' & E & ? & ? & _ & ? & _); [done|done|by apply loop_safe_vpn|exact Hini|done|done|done|by exists rv, s'].
Qed.

(** The records of the open connections of the engine. *)
Record records_ok (s : state) : Prop := {
  ro_record : forall p c, zt_heap (ts_tun s) !! p = Some c -> zc_status c < CONN_STATUS_CLOSED ->
    exists d data, zc_user_data c = Some d /\ heap (w_pd (ts_user s)) !! d = Some data /\ to_purge data = false /\ vpn_fw_pctx data = None;
  ro_each : forall p q c c', zt_heap (ts_tun s) !! p = Some c -> zt_heap (ts_tun s) !! q = Some c' ->
    zc_status c < CONN_STATUS_CLOSED -> zc_status c' < CONN_STATUS_CLOSED -> zc_user_data c = zc_user_data c' -> p = q
}.

Lemma loop_records base s : loop_ok java_app_name base s -> records_ok s.
Proof.
  intros [Q Hs]%loop_reset. pose proof (inv_usr _ _ _ _ _ _ Hs) as [Hi _ Hl He].
  assert (forall p c, zt_heap (ts_tun s) !! p = Some c -> zc_status c < CONN_STATUS_CLOSED ->
    opens (zt_heap (ts_tun s)) !! p = Some (zc_user_data c)) as Hop by (intros p c Hc Hst; apply opens_Some; eauto).
  split.
  - intros p c Hc Hst. specialize (Hop p c Hc Hst). destruct (Hl p _ Hop) as (d & Ed & _ & Hfw).
    destruct (inv_table_live _ _ _ Hi d) as (data & Hd & Hp); [apply elem_of_datas; exists p; congruence|].
    exists d, data. split_and!; [done|exact Hd|by apply Hp|]. destruct (vpn_fw_pctx data) as [pctx|] eqn:E; [|done].
    destruct (Hfw pctx) as [? _]; [|done]. unfold fw_pctxs, fields. rewrite lookup_fmap. setoid_rewrite Hd. simpl. by rewrite E.
  - intros p q c c' Hc Hc' Hst Hst' E. pose proof (Hop p c Hc Hst) as Hp. pose proof (Hop q c' Hc' Hst') as Hq.
    destruct (Hl p _ Hp) as (d & Ed & _). apply (He p q d); congruence.
Qed.

(** C10: the engine and the core agree on the connections at every turn of the
    loop: each connection that is not closed has a record of the core, its own,
    that is live and not about to be freed; and no such record points to the
    packet of an earlier call, which is gone from the stack. The sockets of the
    engine are straight as well. *)
Theorem vpn_loop_records base events next w k :
  can_start base w k -> Forall event_ok events ->
  wp (vpn_loop java_app_name events next) (fun _ s' => records_ok s' /\ sockets_ok base s') (mk_tun_state zdtun_init w k).
Proof.
  intros Hst Hev. assert (loop_ok java_app_name base (mk_tun_state zdtun_init w k)) as Hl.
  { apply loop_start; [apply Hst|exact Hst|done]. }
  eapply wp_mono; [by apply (wp_loop java_app_name base)|]. intros [] s' Hs'. split; [by eapply loop_records|].
  destruct Hs' as (L & Q & Hs'). apply Hs'.
Qed.

(** C11: a VPN capture that ran gives back its sockets: from a state in which
    the core has no connection and its [realloc]s and [strndup]s succeed, under
    the conditions of [env_ok] (packets in their buffer with well-formed SYN
    options, MTU between 60 and 65515, a resolver, the list of the known DNS
    servers allocated) and with servers that send up to 65000 bytes at a time,
    the run has no undefined behaviour, and
    when [run_vpn] returns 0 the engine has no connection left and the
    descriptors that are open are those of the start. *)
Theorem run_vpn_releases base env w k :
  can_start base w k -> env_ok env ->
  wp (run_vpn java_app_name env) (fun rv s' => rv = 0 -> engine_ended base s') (mk_tun_state zdtun_init w k).
Proof. intros Hst Henv. eapply wp_mono; [by apply (wp_run_vpn java_app_name base)|]. by intros rv s' [_ ?]. Qed.
End vpn_properties.

(** ** A run *)

(** A SYN, the socket that connects, a query to a DNS server and the end. *)
Definition ex_buffer (pkt : bytes) : bytes := pkt ++ replicate 40 0.
Definition ex_vpn_events : list vpn_event :=
  [VpnPacket (ex_buffer ex_syn) 44; VpnReady ∅ {[3]}; VpnPacket (ex_buffer ex_dns_query) 40; VpnReady {[4]} ∅;
   VpnJava StopPacketLoop].
Definition ex_vpn_env : vpn_env :=
  mk_vpn_env true true true [] (mk_vpn BLOCK_QUIC_MODE_NEVER ex_blacklist true 0 0 false 0 false) true 10000 (mk_proxy 0 0 4) None ex_vpn_events.
Definition ex_vpn_state : pcapdroid (list Z) Z := ex_state <| vpn_capture := true |>.
Definition ex_world (s : pcapdroid (list Z) Z) : vpn_world (list Z) Z :=
  mk_world s pd_reset_port_map [Some 1000; Some 2000] [] [] [] [].

Lemma wf_buffer pkt : wf_bytes pkt -> wf_bytes (ex_buffer pkt).
Proof. intros Hp. apply Forall_app. split; [done|by apply Forall_replicate]. Qed.

Lemma ex_packets_ok : Forall event_ok ex_vpn_events.
Proof.
  apply Forall_cons; split; [|apply Forall_cons; split; [done|apply Forall_cons; split; [|by repeat constructor]]].
  all: intros _; (split_and!; [apply wf_buffer; by repeat constructor|done|done|done|]); intros ids pkt ids' E _.
  - assert (zdtun_parse_pkt ids (ex_buffer ex_syn) 44 = Some (inr (mk_pkt ex_tuple 0 44 20 24 0 (ex_buffer ex_syn)), ids)) as E' by reflexivity.
    rewrite E in E'. injection E' as -> ->. intros _ off mss0. simpl. intros [= <-] _. exists 1460, 0. split_and!; by vm_compute.
  - assert (exists p, zdtun_parse_pkt ids (ex_buffer ex_dns_query) 40 = Some (inr p, ids) /\ ipproto (pkt_tuple p) = IPPROTO_UDP) as (p & E' & Hp).
    { eexists. split; [reflexivity|done]. }
    rewrite E in E'. injection E' as -> ->. by rewrite Hp.
Qed.

Lemma ex_vpn_env_ok : env_ok ex_vpn_env.
Proof. split; [done|done|done|exact ex_packets_ok]. Qed.

Lemma ex_vpn_initial : initial (cmode := vpn_capture_mode []) ex_vpn_state.
Proof. split; try reflexivity. by intros p c. Qed.

Lemma ex_can_start : can_start {[0; 1; 2]} (ex_world ex_vpn_state) ex_kernel.
Proof.
  split; [|done|by repeat constructor]. apply (inv_initial (cmode := vpn_capture_mode [])); [done|exact ex_vpn_initial|constructor|constructor|done].
Qed.

Lemma vpn_run_safe_witness :
  exists rv s', pd_run ex_app_name (run_vpn_pd ex_app_name ex_vpn_env ex_world ex_kernel) (ex_env []) ex_vpn_state = Some (rv, s') /\
    new_conns s' = empty_array /\ conns_updates s' = empty_array /\ dumper (pcap_dump s') = None.
Proof.
  apply vpn_run_safe; [apply ex_allocs_ok|exact ex_vpn_initial|constructor|constructor|done|exact ex_vpn_env_ok|exact (cs_replies _ _ _ ex_can_start)].
Defined.

Lemma vpn_loop_records_witness :
  wp (vpn_loop ex_app_name ex_vpn_events 6000) (fun _ s' => records_ok s' /\ sockets_ok {[0; 1; 2]} s')
    (mk_tun_state zdtun_init (ex_world ex_vpn_state) ex_kernel).
Proof. apply vpn_loop_records; [exact ex_can_start|exact ex_packets_ok]. Defined.

Lemma run_vpn_releases_witness :
  wp (run_vpn ex_app_name ex_vpn_env) (fun rv s' => rv = 0 -> engine_ended {[0; 1; 2]} s')
    (mk_tun_state zdtun_init (ex_world ex_vpn_state) ex_kernel).
Proof. apply run_vpn_releases; [exact ex_can_start|exact ex_vpn_env_ok]. Defined.
