(* ===== verification/VpnPolicy.v ===== *)
(** What the VPN capture does with the connections that are blocked
    (core/capture_vpn.c): nothing of them goes out to the servers or comes back
    to the device. *)
From Stdlib Require Import ZArith Lia.
From stdpp Require Import base option gmap numbers list.
From S2P Require Import Prelude Packet Uthash PortMap PcapDump Blacklist NdpiProtos Conn ConnInv JavaDump Dpi Housekeeping JavaRequests.
From S2P Require Import Examples CaptureLibpcap PdRun ConnStatus Policy Accounting Checksum Kernel Zdtun ZdtunFwd ZdtunInv ZdtunSafe ZdtunTcpSafe.
From S2P Require Import ZdtunRun ZdtunEngine UidResolver CaptureVpn VpnInv VpnSafe.

Open Scope Z_scope.

(** ** A blocked record stays blocked *)
Section blocked_core.
Context {P F : Type} `{Ndpi P} `{NdpiFlow F} (java_app_name : Z -> option bytes) (d : conn_ptr).
Abbreviation pd_state := (pcapdroid P F).
Implicit Types (s : pd_state) (c : pd_conn F).

(** The record is blocked, or it has been freed. *)
Definition blocked s : Prop := forall c, Conn.heap s !! d = Some c -> to_block c = true.
Abbreviation still := (steady blocked).

Lemma steady_heap {A} (m : M pd_state A) : preserves Conn.heap m -> still m.
Proof. apply steady_preserves. intros s s' E. unfold blocked. by rewrite E. Qed.

Lemma steady_same (g : pd_state -> pd_state) : (forall s, Conn.heap (g s) = Conn.heap s) -> still (modify g).
Proof. intros Hg. apply steady_modify. intros s. unfold blocked. by rewrite Hg. Qed.

Lemma steady_modify_conn p (f : pd_conn F -> pd_conn F) :
  (forall c, to_block c = true -> to_block (f c) = true) -> still (modify_conn p f).
Proof.
  intros Hf s Hs a s' E. unfold modify_conn, deref, mbind, M_bind, gets, of_option, modify in E.
  destruct (Conn.heap s !! p) as [c0|] eqn:Hc0; [|done]. injection E as _ <-. intros c. simpl.
  rewrite lookup_insert_Some. intros [[-> <-]|[_ Hc]]; [apply Hf|]; by apply Hs.
Qed.

Lemma steady_purge p : still (pd_purge_connection p).
Proof.
  unfold pd_purge_connection, conn_free_ndpi, free_conn, deref. repeat steady_step.
  - by apply steady_modify_conn.
  - apply steady_modify. intros s Hs c. simpl. intros [_ Hc]%lookup_delete_Some. by apply Hs.
Qed.

Lemma to_block_alpn c flow : to_block c = true -> to_block (process_alpn c flow) = true.
Proof. intros Hb. unfold process_alpn, set_update. by repeat case_match. Qed.

#[local] Ltac still_steps :=
  repeat first
    [ steady_step
    | apply steady_modify_conn; intros ? ?; first [done | by apply to_block_alpn | apply orb_true_iff; by left | by case_match]
    | apply steady_same; intros ?; repeat (case_match || done)
    | solve [auto with steady] ].
#[local] Ltac calls := unfold malloc_ok, realloc_ok, strndup_ok, jni_ok, deref.

Lemma steady_domain p : still (check_blacklisted_domain java_app_name p).
Proof. unfold check_blacklisted_domain, log_appname. calls. still_steps. Qed.
Lemma steady_vpn_ndpi tuple p : still (vpn_process_ndpi tuple p).
Proof. unfold vpn_process_ndpi. calls. still_steps. Qed.
#[local] Hint Resolve steady_domain steady_vpn_ndpi : steady.
Lemma steady_ndpi tuple p : still (process_ndpi_data java_app_name tuple p).
Proof. unfold process_ndpi_data, pd_strndup. calls. still_steps. Qed.
#[local] Hint Resolve steady_ndpi : steady.
Lemma steady_giveup p tuple : still (pd_giveup_dpi java_app_name p tuple).
Proof. unfold pd_giveup_dpi, conn_free_ndpi. calls. still_steps. Qed.
#[local] Hint Resolve steady_giveup : steady.
Lemma steady_notify tuple p : still (pd_notify_connection_update java_app_name tuple p).
Proof. unfold pd_notify_connection_update, notif_connection, enqueue, extend_array, set_arr. calls. still_steps. Qed.
#[local] Hint Resolve steady_notify : steady.

Lemma dns_answers_heap n buf query reply len : preserves Conn.heap (dns_answers n buf query reply len : M pd_state unit).
Proof.
  revert reply len. induction n as [|n IH]; intros reply len; simpl; [preserves_step|].
  unfold lru_add, malloc_ok. repeat first [apply IH | preserves_step | apply preserves_modify; done].
Qed.
Lemma steady_dns p pkt : still (process_dns_reply p pkt).
Proof.
  unfold process_dns_reply. calls. repeat first [steady_step | apply steady_heap, dns_answers_heap | still_steps].
Qed.
#[local] Hint Resolve steady_dns : steady.

Lemma steady_process_packet pkt is_tx tuple p tv : still (pd_process_packet java_app_name pkt is_tx tuple p tv).
Proof.
  unfold pd_process_packet, perform_dpi, process_payload, dumpPayloadChunk, delay_netd_dump, finish_alpn. calls. still_steps.
Qed.

Lemma steady_account pctx : still (pd_account_stats java_app_name pctx).
Proof.
  unfold pd_account_stats, pd_dump_packet, stop_pcap_dump, set_dumper, stopPcapDump, call_java. cbv zeta. calls.
  steady_step; [apply steady_modify_conn; intros c Hc; unfold account_conn; by case_match|]. still_steps.
Qed.
#[local] Hint Resolve steady_process_packet steady_account steady_purge : steady.

(** *** The callbacks *)
Context (out : option (list bytes)).
Abbreviation world := (vpn_world P F).

(** The record is blocked; what the device got is [out], if given. *)
Definition w_blocked (w : world) : Prop := blocked (w_pd w) /\ forall l, out = Some l -> tun_out w = l.
Abbreviation wstill := (steady w_blocked).

Lemma steady_on_pd {A} (m : M pd_state A) : still m -> wstill (on_pd m).
Proof.
  intros Hm w [Hb Ho] a w' E. unfold on_pd in E. destruct (m (w_pd w)) as [[b s]|] eqn:Em; [|done].
  injection E as <- <-. split; [exact (Hm _ Hb _ _ Em)|exact Ho].
Qed.
Lemma steady_world (g : world -> world) : (forall w, w_pd (g w) = w_pd w /\ tun_out (g w) = tun_out w) -> wstill (modify g).
Proof. intros Hg. apply steady_modify. intros w. unfold w_blocked. by destruct (Hg w) as [-> ->]. Qed.
Lemma steady_modify_pd (f : pd_state -> pd_state) : (forall s, Conn.heap (f s) = Conn.heap s) -> wstill (modify_pd f).
Proof. intros Hf. apply steady_modify. intros w. unfold w_blocked, blocked. simpl. by rewrite Hf. Qed.

#[local] Ltac wstill_steps :=
  repeat first
    [ steady_step
    | apply steady_on_pd; solve [still_steps]
    | apply steady_world; done
    | apply steady_modify_pd; done
    | solve [auto with steady] ].

Lemma steady_refresh : wstill refresh_time.
Proof. unfold refresh_time, pd_refresh_time. wstill_steps. Qed.
Lemma steady_timestamp : wstill get_pkt_timestamp.
Proof. unfold get_pkt_timestamp. wstill_steps. Qed.
Lemma steady_write buf len : out = None -> wstill (write_tun buf len).
Proof.
  intros Eo. unfold write_tun. repeat first [steady_step | solve [wstill_steps]].
  apply steady_modify. intros w [Hb _]. split; [exact Hb|]. by rewrite Eo.
Qed.
Lemma steady_blocked_packet tuple p : wstill (blocked_packet java_app_name tuple p).
Proof. unfold blocked_packet, set_update. wstill_steps. Qed.
#[local] Hint Resolve steady_refresh steady_timestamp steady_blocked_packet : steady.
Lemma steady_account_fw tuple p : wstill (account_fw_pctx java_app_name tuple p).
Proof. unfold account_fw_pctx, deref. wstill_steps. Qed.
#[local] Hint Resolve steady_account_fw : steady.

Lemma blocked_data {B} (k : pd_conn F -> M world B) (Q : B -> world -> Prop) w :
  w_blocked w -> (forall data, to_block data = true -> wlp (k data) Q w) -> wlp (on_pd (deref d) ≫= k) Q w.
Proof.
  intros [Hb Ho] Hk. wlp_step. intros data w1 E. unfold on_pd, deref, mbind, M_bind, gets, of_option in E.
  destruct (Conn.heap (w_pd w) !! d) as [x|] eqn:Hx; [|done]. injection E as <- <-.
  replace (w <| w_pd := w_pd w |>) with w by (by destruct w). exact (Hk x (Hb x Hx)).
Qed.

(** A reply is not written to the device. *)
Lemma blocked_reply pkt (c : zdtun_conn conn_ptr) w :
  w_blocked w -> zc_user_data c = Some d ->
  wlp (remote2vpn java_app_name pkt c) (fun rv w' => w_blocked w' /\ (running (w_pd w) = true -> rv = -1)) w.
Proof.
  intros Hw Hd. unfold remote2vpn. wlp_step. wlp_step. destruct (running (w_pd w)); simpl; [|by apply wlp_ret].
  wlp_step. apply wlp_of_option. rewrite Hd. intros ? [= <-].
  do 4 (apply (wlp_steady w_blocked); [done|wstill_steps|]; clear w Hw; intros ? w Hw).
  apply blocked_data; [done|]. intros data ->. apply (wlp_steady w_blocked); [done|auto with steady|].
  clear w Hw. intros [] w Hw. by apply wlp_ret.
Qed.

Lemma steady_remote2vpn pkt (c : zdtun_conn conn_ptr) : zc_user_data c = Some d -> wstill (remote2vpn java_app_name pkt c).
Proof. intros Hd w Hw. eapply wlp_mono; [by apply blocked_reply|]. by intros rv w' [? _]. Qed.

Lemma steady_closed (c : zdtun_conn conn_ptr) : wstill (connection_closed java_app_name c).
Proof. unfold connection_closed, set_update. wstill_steps. Qed.
Lemma steady_update_status pkt b (c : zdtun_conn conn_ptr) : wstill (update_conn_status pkt b c).
Proof. unfold update_conn_status, deref. wstill_steps. Qed.
End blocked_core.
#[export] Hint Resolve steady_closed steady_update_status steady_timestamp steady_blocked_packet steady_process_packet : steady.

(** ** The engine only closes sockets *)

(** What the kernel was asked to do, but for the sockets that were closed. *)
Definition is_close (e : sys_event) : bool := match e with SysClose _ => true | _ => false end.
Definition traffic (k : kernel) : list sys_event := filter (fun e => is_close e = false) (sys_log k).

Section isolated.
Context {P F : Type} `{Ndpi P} `{NdpiFlow F} (java_app_name : Z -> option bytes).
Context (p : zconn_ptr) (d : conn_ptr) (l : list sys_event) (out : option (list bytes)).
Abbreviation world := (vpn_world P F).
Abbreviation pd_state := (pcapdroid P F).
#[local] Instance pcalls : Callbacks world conn_ptr := vpn_callbacks java_app_name.
Abbreviation state := (tun_state world conn_ptr).
Abbreviation zconn := (zdtun_conn conn_ptr).

(** The record of the connection is blocked, and the kernel was only asked for [l]. *)
Record isolated (s : state) : Prop := {
  is_traffic : traffic (ts_sys s) = l;
  is_user : w_blocked d out (ts_user s);
  is_data : forall c : zconn, zt_heap (ts_tun s) !! p = Some c -> zc_user_data c = Some d
}.
Abbreviation still := (steady isolated).

Lemma isolated_on_tun f : (forall t, zt_heap (f t) = zt_heap t) -> still (on_tun f).
Proof. intros Hf. apply steady_modify. intros s []. split; [done..|]. simpl. by rewrite Hf. Qed.

Lemma isolated_callback {A} (m : M world A) : steady (w_blocked d out) m -> still (callback m).
Proof.
  intros Hm s [Hl Hb Hd] a s' E. unfold callback in E. destruct (m (ts_user s)) as [[b u]|] eqn:Em; [|done].
  injection E as <- <-. split; [done|exact (Hm _ Hb _ _ Em)|done].
Qed.

Lemma isolated_sys {A} (f : kernel -> A * kernel) : (forall k, traffic (f k).2 = traffic k) -> still (sys f).
Proof.
  intros Hf s [Hl Hb Hd] a s' E. unfold sys in E. pose proof (Hf (ts_sys s)) as Hk. destruct (f (ts_sys s)) as [b k].
  injection E as <- <-. split; [by rewrite <- Hl|done..].
Qed.

Lemma close_traffic fd k : traffic (sys_close fd k).2 = traffic k.
Proof. unfold traffic. simpl. by rewrite filter_app, app_nil_r. Qed.

Lemma isolated_modify_zconn f : (forall c : zconn, zc_user_data (f c) = zc_user_data c) -> still (modify_zconn p f).
Proof.
  intros Hf s [Hl Hb Hd] a s' E. unfold modify_zconn, zderef, tun_get, on_tun, mbind, M_bind, gets, modify, of_option in E.
  destruct (zt_heap (ts_tun s) !! p) as [c|] eqn:Hc; [|done]. injection E as _ <-. split; [done..|].
  intros c'. simpl. rewrite lookup_insert_eq. intros [= <-]. rewrite Hf. by apply Hd.
Qed.

Lemma isolated_release tuple : still (release_mapping tuple).
Proof.
  apply isolated_on_tun. intros t. cbv zeta. destruct (HASH_FIND (udp_mappings t) (udp_mapping_key tuple)) as [m|]; [|done].
  by destruct (u16 (um_num_uses m - 1) =? 0).
Qed.

(** The connection that is read is the one of the record. *)
Lemma wlp_zconn_read {B} (k : zconn -> M state B) (Q : B -> state -> Prop) s :
  isolated s -> (forall c, zc_user_data c = Some d -> wlp (k c) Q s) -> wlp (zderef p ≫= k) Q s.
Proof.
  intros Hs Hk. unfold zderef, tun_get. wlp_steps. apply wlp_of_option. intros c Hc. apply Hk. by apply (is_data _ Hs).
Qed.
Lemma isolated_zderef {B} (k : zconn -> M state B) : (forall c, zc_user_data c = Some d -> still (k c)) -> still (zderef p ≫= k).
Proof. intros Hk s Hs. apply wlp_zconn_read; [done|]. intros c Hc. by apply Hk. Qed.
Lemma isolated_read : still (zderef p).
Proof. unfold zderef, tun_get. repeat steady_step. Qed.

#[local] Ltac step :=
  first
    [ lazymatch goal with |- steady _ (zderef _ ≫= _) => apply isolated_zderef; intros ? ? end
    | steady_step
    | apply isolated_on_tun; done
    | apply isolated_modify_zconn; done
    | apply isolated_callback; solve [apply steady_on_pd; auto with steady | apply steady_ret | auto with steady]
    | apply isolated_sys; first [done | apply close_traffic]
    | solve [auto with steady] ].
#[local] Ltac steps := unfold tun_get; repeat step.
#[local] Hint Resolve isolated_release isolated_read : steady.

Lemma isolated_ipver : still (sock_ipver p).
Proof. unfold sock_ipver. steps. Qed.
Lemma isolated_put off bs : still (put off bs).
Proof. unfold put. steps. Qed.
Lemma isolated_sndbuf : still (get_available_sndbuf p).
Proof. unfold get_available_sndbuf. steps. Qed.
#[local] Hint Resolve isolated_ipver isolated_put isolated_sndbuf : steady.
Lemma isolated_build flags l4_len optsoff : still (build_reply_tcpip p flags l4_len optsoff).
Proof. unfold build_reply_tcpip, zdtun_iphdr_len. steps. Qed.
#[local] Hint Resolve isolated_build : steady.

(** A packet for the client does not come to the device. *)
Lemma blocked_send_with close l3_len s :
  isolated s -> (forall status, still (close p status)) ->
  wlp (send_to_client_with close p l3_len)
    (fun rv s' => isolated s' /\ (running (w_pd (ts_user s)) = true -> rv = -1)) s.
Proof.
  intros Hs Hc. unfold send_to_client_with, zdtun_iphdr_len. set (u := ts_user s) in *.
  set (J := fun s' => isolated s' /\ ts_user s' = u). assert (J s) as HJ by done. clearbody u. clear Hs.
  assert (forall {A} (m : M state A), still m -> preserves ts_user m -> steady J m) as Hand.
  { intros A m Hm Hp s' [Hs' <-] a s1 E. split; [by eapply Hm|by eapply Hp]. }
  apply (wlp_steady J); [done|apply Hand; [steps|unfold sock_ipver, zderef, tun_get; preserves_steps]|].
  clear s HJ. intros n s HJ. do 3 wlp_step. apply wlp_of_option. intros [r ids] _.
  apply (wlp_steady J); [done|apply Hand; [by apply isolated_on_tun|by apply preserves_modify]|].
  clear s HJ. intros [] s [Hs Hu]. destruct r as [e|pkt]; [by apply wlp_ret|].
  apply wlp_zconn_read; [done|]. intros c Hcd. wlp_step. unfold send_client. simpl.
  intros rv s1 E. assert (isolated s1 /\ (running (w_pd u) = true -> rv = -1)) as [Hs1 Hrv].
  { destruct Hs as [Hl Hb Hd]. unfold callback in E. destruct (remote2vpn _ _ _ _) as [[rv' u']|] eqn:Er; [|done].
    injection E as <- <-. destruct (blocked_reply java_app_name d out pkt c _ Hb Hcd _ _ Er) as [Hb' Hr]. rewrite Hu in Hr. by split. }
  clear E. wlp_step. eapply (wlp_mono _ (fun _ => isolated)).
  - assert (forall m : M state unit, still m -> wlp m (fun _ => isolated) s1) as Hm by auto. apply Hm. unfold account_packet. simpl.
    destruct (rv =? 0); repeat first [apply Hc|step].
  - intros [] s2 Hs2. by apply wlp_ret.
Qed.

Lemma isolated_send_with close l3_len : (forall status, still (close p status)) -> still (send_to_client_with close p l3_len).
Proof. intros Hc s Hs. eapply wlp_mono; [by apply blocked_send_with|]. by intros rv s' []. Qed.

Lemma isolated_close_rec fuel status : still (zdtun_conn_close_rec fuel p status).
Proof.
  revert status. induction fuel as [|fuel IH]; intros status; simpl; unfold close_socket;
    repeat first [apply isolated_send_with; intros ?; first [apply IH|by intros ? ?] | step]; steps.
Qed.
Lemma isolated_close status : still (zdtun_conn_close p status).
Proof. apply isolated_close_rec. Qed.

Lemma blocked_send l3_len s :
  isolated s ->
  wlp (send_to_client p l3_len) (fun rv s' => isolated s' /\ (running (w_pd (ts_user s)) = true -> rv = -1)) s.
Proof. intros Hs. apply blocked_send_with; [done|apply isolated_close]. Qed.

Context (Hout : out = None).
(** *** The handlers of the first packets *)
(** The spoofed replies are written to the device. *)
#[local] Ltac core_step :=
  unfold core, on_world, get_pd, set_pd, deref in *;
  first
    [ steady_step
    | apply isolated_callback; first [apply steady_on_pd; apply steady_modify_conn; intros ? ?; first [done | apply orb_true_iff; by left]
                                     |apply steady_on_pd; repeat steady_step | apply steady_modify_pd; done]
    | step ].
#[local] Ltac core_steps := repeat core_step.

Lemma isolated_dnat proxy : still (zdtun_conn_dnat p proxy).
Proof. unfold zdtun_conn_dnat. steps. Qed.
Lemma isolated_proxy : still (zdtun_conn_proxy p).
Proof. unfold zdtun_conn_proxy. steps. Qed.
#[local] Hint Resolve isolated_dnat isolated_proxy isolated_close : steady.

Lemma isolated_should_proxify tuple q : still (should_proxify tuple q).
Proof. unfold should_proxify. core_steps. Qed.
#[local] Hint Resolve isolated_should_proxify : steady.
Lemma isolated_setup q : still (setup_new_conn p q).
Proof. unfold setup_new_conn. core_steps. Qed.
Lemma isolated_check_dns pctx : still (check_dns_req_allowed p pctx).
Proof. unfold check_dns_req_allowed. core_steps. Qed.
Lemma isolated_spoof pctx : still (spoof_dns_reply p pctx).
Proof.
  unfold spoof_dns_reply, zderef, tun_get. core_steps. all: apply isolated_callback; by apply steady_write.
Qed.
#[local] Hint Resolve isolated_setup isolated_check_dns isolated_spoof : steady.
Lemma isolated_check_new q pctx : still (check_new_conn java_app_name p q pctx).
Proof. unfold check_new_conn. core_steps. Qed.
#[local] Hint Resolve isolated_check_new : steady.

(** The decision is read at the end. *)
Lemma isolated_packet pkt s :
  isolated s ->
  wlp (conn_packet java_app_name pkt p) (fun _ => isolated) s.
Proof.
  intros Hs. unfold conn_packet. apply wlp_zconn_read; [done|]. intros c Hc. wlp_step. rewrite Hc. apply wlp_of_option. intros ? [= <-].
  apply (wlp_steady isolated); [done|core_steps|]. clear s Hs. intros data0 s Hs.
  do 2 (apply (wlp_steady isolated); [done|core_steps|]; clear s Hs; intros ? s Hs).
  apply wlp_zconn_read; [done|]. intros c1 _.
  apply (wlp_steady isolated); [done|apply isolated_callback, steady_on_pd; auto with steady|]. clear s Hs. intros pctx s Hs.
  apply (wlp_steady isolated); [done|core_steps|]. clear s Hs. intros ? s Hs.
  apply (wlp_steady isolated); [done|core_steps|]. clear s Hs. intros [] s Hs. unfold core, on_world, deref. wlp_step.
  intros data s1 E. assert (to_block data = true /\ isolated s1) as [-> Hs1].
  { unfold callback, on_pd, mbind, M_bind, gets, of_option in E. destruct Hs as [Hl [Hb Ho] Hd].
    destruct (Conn.heap (w_pd (ts_user s)) !! d) as [x|] eqn:Hx; [|done]. injection E as <- <-. split; [exact (Hb x Hx)|by split]. }
  apply isolated_callback; [auto with steady|done].
Qed.
End isolated.

(** ** Properties *)
Section policy_properties.
Context {P F : Type} `{Ndpi P} `{NdpiFlow F} (java_app_name : Z -> option bytes) (base : gset Z).
Abbreviation world := (vpn_world P F).
#[local] Instance qcalls : Callbacks world conn_ptr := vpn_callbacks java_app_name.
Abbreviation state := (tun_state world conn_ptr).
Implicit Types (s : state) (p : zconn_ptr) (d : conn_ptr).

(** The record of the connection is blocked. *)
Definition record_blocked d s : Prop :=
  exists data, Conn.heap (w_pd (ts_user s)) !! d = Some data /\ to_block data = true.

Lemma record_isolated p d out s :
  at_conn java_app_name base None p d s -> record_blocked d s -> (forall l, out = Some l -> tun_out (ts_user s) = l) ->
  isolated p d (traffic (ts_sys s)) out s.
Proof.
  intros (L & Q & c & Hs & Hc & Hd & _) (data & Hdata & Hb) Hout. split; [done| |].
  - split; [|done]. intros x. rewrite Hdata. by intros [= <-].
  - intros c'. rewrite Hc. intros [= <-]. pose proof (inv_live_data _ _ _ _ _ _ _ _ Hs Hc (elem_of_dom_2 _ _ _ Hd)). congruence.
Qed.

(** C13: a connection that is blocked sends nothing to its server: a packet of
    the device for it is dropped before the engine forwards it, so that no
    socket is opened, bound, connected or written (sockets may be closed); the
    connection stays blocked. *)
Theorem blocked_packet_dropped p d pkt s :
  at_conn java_app_name base None p d s -> seg_ok pkt -> record_blocked d s ->
  wp (conn_packet java_app_name pkt p)
     (fun _ s' => loop_ok java_app_name base s' /\ traffic (ts_sys s') = traffic (ts_sys s) /\
                  forall data, Conn.heap (w_pd (ts_user s')) !! d = Some data -> to_block data = true) s.
Proof.
  intros Hs Hpkt Hb. pose proof (record_isolated p d None s Hs Hb ltac:(done)) as Hi.
  eapply wp_mono; [apply wp_wlp; [by eapply wp_conn_packet_at|by apply (isolated_packet java_app_name p d (traffic (ts_sys s)) None)]|].
  intros [] s' [Hl [Ht [Hu _] _]]. by split_and!.
Qed.

(** C14: nothing of a blocked connection reaches the device either: what the
    engine sends to the client for it is not written, neither the packet nor
    the reset of the closing that follows, and the engine is told that the
    client did not get it. *)
Theorem blocked_reply_dropped p d l3_len s :
  at_conn java_app_name base None p d s -> record_blocked d s -> sendable (H0 := vpn_callbacks_safe java_app_name None) l3_len ->
  wp (send_to_client p l3_len)
     (fun rv s' => tun_out (ts_user s') = tun_out (ts_user s) /\ traffic (ts_sys s') = traffic (ts_sys s) /\
        (running (w_pd (ts_user s)) = true -> rv = -1) /\
        forall data, Conn.heap (w_pd (ts_user s')) !! d = Some data -> to_block data = true) s.
Proof.
  intros Hs Hb Hlen. pose proof (record_isolated p d (Some (tun_out (ts_user s))) s Hs Hb ltac:(by intros ? [= <-])) as Hi.
  destruct Hs as (L & Q & c & Hs & Hc & Hd & Hn). pose proof (in_dom _ _ _ _ _ _ _ _ Hs Hc) as HpQ.
  eapply wp_mono; [apply wp_wlp; [eapply (keeps_send (H0 := vpn_callbacks_safe java_app_name None) base L Q {[p]} ∅ p);
    [exact HpQ|by eapply elem_of_dom_2|exact Hlen|exact Hs]|by apply (blocked_send java_app_name p d (traffic (ts_sys s)) (Some (tun_out (ts_user s))))]|].
  intros rv s' [_ [[Ht [Hu Ho] _] Hrv]]. split_and!; [by apply Ho|done|done|done].
Qed.
End policy_properties.

(** ** A blocked connection *)
Section block.
Context {P F : Type} `{Ndpi P} `{NdpiFlow F} (java_app_name : Z -> option bytes) (base : gset Z).
#[local] Instance bcalls : Callbacks (vpn_world P F) conn_ptr := vpn_callbacks java_app_name.
Abbreviation state := (tun_state (vpn_world P F) conn_ptr).

Definition block_record (d : conn_ptr) : M state unit := core (modify_conn d (fun c => c <| to_block := true |>)).

(** A new connection, whose record is then blocked. *)
Lemma lookup_blocked tuple p d s0 s1 s2 :
  loop_ok java_app_name base s0 -> is_byte (ipproto tuple) -> zdtun_lookup tuple true s0 = Some (Some p, s1) ->
  zc_user_data <$> zt_heap (ts_tun s1) !! p = Some (Some d) -> block_record d s1 = Some (tt, s2) ->
  at_conn java_app_name base None p d s2 /\ record_blocked d s2.
Proof.
  intros (L & Q & Hs) Hproto E1 Ed E2.
  pose proof (wp_lookup (H0 := vpn_callbacks_safe java_app_name None) base L Q tuple true s0 Hs Hproto) as Hw.
  unfold wp, bcalls in *. rewrite E1 in Hw. apply found_at in Hw as [e Hat].
  assert (e = d) as ->.
  { destruct Hat as (L' & Q' & c & Hs' & Hc & He & _).
    pose proof (inv_live_data _ _ _ _ _ _ _ _ Hs' Hc (elem_of_dom_2 _ _ _ He)). rewrite Hc in Ed. simpl in Ed. congruence. }
  assert (wp (block_record d) (fun _ => at_conn java_app_name base None p d) s1) as Hb by (by apply at_modify_same).
  unfold wp in Hb. rewrite E2 in Hb. split; [exact Hb|].
  unfold block_record, core, on_world, callback, on_pd, modify_conn, deref, mbind, M_bind, gets, of_option, modify in E2.
  destruct (Conn.heap (w_pd (ts_user s1)) !! d) as [data|]; [|done]. injection E2 as <-.
  exists (data <| to_block := true |>). simpl. by rewrite lookup_insert_eq.
Qed.
End block.

(** The connection of [ex_syn], found by the engine and blocked. *)
#[local] Instance ex_calls : Callbacks (vpn_world (list Z) Z) conn_ptr := vpn_callbacks ex_app_name.
Definition ex_start : tun_state (vpn_world (list Z) Z) conn_ptr := mk_tun_state zdtun_init (ex_world ex_vpn_state) ex_kernel.
Definition ex_opened : tun_state (vpn_world (list Z) Z) conn_ptr :=
  match zdtun_lookup ex_tuple true ex_start with Some (_, s) => s | None => ex_start end.
Definition ex_blocked : tun_state (vpn_world (list Z) Z) conn_ptr :=
  match block_record 1 ex_opened with Some (_, s) => s | None => ex_opened end.
Definition ex_pkt : zdtun_pkt := mk_pkt ex_tuple 0 44 20 24 0 (ex_buffer ex_syn).

Lemma ex_blocked_at : at_conn ex_app_name {[0; 1; 2]} None 1 1 ex_blocked /\ record_blocked 1 ex_blocked.
Proof.
  apply (lookup_blocked ex_app_name {[0; 1; 2]} ex_tuple 1 1 ex_start ex_opened ex_blocked).
  - apply loop_start; [apply ex_can_start|exact ex_can_start|reflexivity].
  - by vm_compute.
  - vm_compute. reflexivity.
  - vm_compute. reflexivity.
  - vm_compute. reflexivity.
Qed.

Lemma ex_pkt_ok : seg_ok ex_pkt.
Proof.
  pose proof (proj1 (proj1 (Forall_cons _ _ _) ex_packets_ok) ltac:(done)) as Hp.
  set (ids := id2ports (ts_tun ex_start)). assert (zdtun_parse_pkt ids (ex_buffer ex_syn) 44 = Some (inr ex_pkt, ids)) as E by reflexivity.
  destruct (parsed_pkt_ok ids _ 44 ex_pkt ids (proj1 Hp) ltac:(done) ltac:(done) E ltac:(done)) as [? _].
  split; [by eapply packet_core_ok|done|]. destruct Hp as (_ & _ & _ & _ & Ho). intros Ht. by eapply Ho.
Qed.

Lemma blocked_packet_dropped_witness :
  wp (conn_packet ex_app_name ex_pkt 1)
     (fun _ s' => loop_ok ex_app_name {[0; 1; 2]} s' /\ traffic (ts_sys s') = traffic (ts_sys ex_blocked) /\
                  forall data, Conn.heap (w_pd (ts_user s')) !! 1 = Some data -> to_block data = true) ex_blocked.
Proof. apply blocked_packet_dropped; [exact (proj1 ex_blocked_at)|exact ex_pkt_ok|exact (proj2 ex_blocked_at)]. Defined.

Lemma blocked_reply_dropped_witness :
  wp (send_to_client 1 20)
     (fun rv s' => tun_out (ts_user s') = tun_out (ts_user ex_blocked) /\ traffic (ts_sys s') = traffic (ts_sys ex_blocked) /\
        (running (w_pd (ts_user ex_blocked)) = true -> rv = -1) /\
        forall data, Conn.heap (w_pd (ts_user s')) !! 1 = Some data -> to_block data = true) ex_blocked.
Proof.
  apply (blocked_reply_dropped ex_app_name {[0; 1; 2]}); [exact (proj1 ex_blocked_at)|exact (proj2 ex_blocked_at)|by vm_compute].
Defined.
