(* ===== verification/DnsSpoof.v ===== *)
(** The reply that the VPN capture makes up for the DNS queries that it blocks
    (core/capture_vpn.c, [spoof_dns_reply]), read back as a packet and as a
    message. *)
From Stdlib Require Import ZArith Lia.
From stdpp Require Import base option gmap numbers list.
From S2P Require Import Prelude Packet Uthash Lru PortMap PcapDump Blacklist NdpiProtos Conn ConnInv JavaDump Dpi DnsReply Housekeeping JavaRequests.
From S2P Require Import Examples CaptureLibpcap PdRun Checksum Kernel Zdtun ZdtunFwd ZdtunInv ZdtunSafe ZdtunTcpSafe ZdtunRun ZdtunEngine ZdtunReply UidResolver CaptureVpn VpnInv VpnSafe.

Open Scope Z_scope.

(** ** UDP packets *)
Section udp.
Context (ver : Z) (tuple : zdtun_5tuple) (msg : bytes).
Hypothesis Hwf : tuple_ok IPPROTO_UDP ver tuple.
Hypothesis Hmsg : blen msg <= 65000.
Abbreviation buf := (spoofed_packet ver tuple msg).

Definition udp_l3 (check : Z) : bytes := spoofed_udp tuple (8 + blen msg) check ++ msg.
Definition udp_check : Z :=
  zdtun_l3_checksum ver (ipproto tuple) (zdtun_make_iphdr ver tuple (8 + blen msg)) (udp_l3 0).

Lemma blen_udp_l3 check : blen (udp_l3 check) = 8 + blen msg.
Proof. unfold udp_l3, spoofed_udp. by rewrite !blen_app, !blen_le16. Qed.

Lemma spoofed_made : buf = zdtun_make_iphdr ver tuple (blen (udp_l3 udp_check)) ++ udp_l3 udp_check.
Proof.
  rewrite blen_udp_l3. unfold spoofed_packet, udp_check. pose proof (blen_nonneg msg). cbv zeta. by rewrite (u16_small (8 + blen msg)) by lia.
Qed.

Lemma blen_spoofed : blen buf = hdr_len ver + 8 + blen msg.
Proof. rewrite spoofed_made, blen_made, blen_udp_l3. lia. Qed.

Definition udp_pkt : zdtun_pkt := mk_pkt (tupleSwapPeers tuple) 0 (blen buf) (hdr_len ver) 8 (blen msg) buf.

Lemma parse_udp ids : zdtun_parse_pkt ids buf (blen buf) = Some (inr udp_pkt, ids).
Proof.
  pose proof (blen_nonneg msg). pose proof blen_spoofed as Hb.
  pose proof (parse_made ids IPPROTO_UDP ver tuple (udp_l3 udp_check) 8 (dst_port tuple) (src_port tuple) Hwf ltac:(auto)
    ltac:(rewrite blen_udp_l3; lia)) as Hp. cbv zeta in Hp. rewrite <- spoofed_made in Hp. rewrite Hp.
  - unfold build_pkt, udp_pkt, tupleSwapPeers, made_il. cbn [il_src il_dst il_proto il_flags il_len il_hdr_len].
    destruct Hwf as [? -> -> ? ? ? ?]. rewrite u16_small by lia. do 4 f_equal. lia.
  - unfold parse_l4, made_il. cbn [il_hdr_len il_len il_proto]. change (IPPROTO_UDP =? IPPROTO_TCP) with false.
    change (IPPROTO_UDP =? IPPROTO_UDP) with true. cbv iota. unfold UDP_HEADER_LEN. destruct (Z.ltb_spec (blen buf) (hdr_len ver + 8)); [lia|].
    destruct Hwf. rewrite spoofed_made. pose proof (blen_iphdr ver tuple (blen (udp_l3 udp_check))) as Hh. fold (hdr_len ver) in Hh.
    rewrite !rd16_app_r by lia. rewrite !Hh. rewrite Z.sub_diag. replace (hdr_len ver + 2 - hdr_len ver) with 2 by lia.
    assert (rd16 (udp_l3 udp_check) 0 = Some (dst_port tuple)) as ->.
    { unfold udp_l3, spoofed_udp. rewrite <- !app_assoc. by apply (rd16_le16 []). }
    assert (rd16 (udp_l3 udp_check) 2 = Some (src_port tuple)) as ->; [|done].
    unfold udp_l3, spoofed_udp. rewrite <- !app_assoc. by apply (rd16_le16 (le16 (dst_port tuple))).
Qed.

(** What the client reads. *)
Record udp_view (pkt : zdtun_pkt) : Prop := {
  uv_parse : forall ids, zdtun_parse_pkt ids buf (blen buf) = Some (inr pkt, ids);
  uv_tuple : pkt_tuple pkt = tupleSwapPeers tuple;
  uv_flags : pkt_flags pkt = 0;
  uv_payload : rdn buf (l7_off pkt) (l7_len pkt) = Some msg;
  uv_ip_sum : ver = 4 -> internet_sum (slice buf 0 20) 0 = 0xFFFF;
  uv_sum : internet_sum (rfc_pseudo ver (dst_ip tuple) (src_ip tuple) IPPROTO_UDP (8 + blen msg) ++
                         drop (Z.to_nat (hdr_len ver)) buf) 0 = 0xFFFF
}.

Lemma udp_viewed : wf_bytes msg -> udp_view udp_pkt.
Proof.
  intros Hw. pose proof blen_spoofed as Hb. pose proof (blen_nonneg msg). pose proof (tw_proto _ _ _ Hwf) as Hp.
  pose proof (blen_iphdr ver tuple (blen (udp_l3 udp_check))) as Hh. fold (hdr_len ver) in Hh.
  assert (drop (Z.to_nat (hdr_len ver)) buf = udp_l3 udp_check) as Hdrop by (rewrite spoofed_made, <- Hh; apply drop_app_blen; done).
  split; [apply parse_udp|done|done|..].
  - unfold l7_off. simpl. pose proof (hdr_len_cases ver). rewrite rdn_Some by lia. f_equal. unfold slice.
    rewrite Z2Nat.inj_add, <- drop_drop by lia. rewrite Hdrop. unfold udp_l3. rewrite drop_app_blen by done.
    apply take_ge. unfold blen. lia.
  - intros Ev. unfold slice. rewrite drop_0, spoofed_made. rewrite Ev in Hh |- * at 1. change (hdr_len 4) with 20 in Hh.
    assert (length (zdtun_make_iphdr 4 tuple (blen (udp_l3 udp_check))) = Z.to_nat 20) as Hl by (unfold blen in *; lia).
    rewrite <- Hl, take_app_length. apply iphdr4_valid. by rewrite Hp.
  - rewrite Hdrop. set (before := le16 (dst_port tuple) ++ le16 (src_port tuple) ++ le16 (htons (u16 (8 + blen msg)))).
    assert (forall check, udp_l3 check = before ++ le16 check ++ msg) as El3
      by (intros check; unfold udp_l3, spoofed_udp, before; by rewrite <- !app_assoc).
    pose proof (l3_checksum_valid ver tuple before msg) as Hv. cbv beta zeta in Hv.
    rewrite <- !El3, blen_udp_l3, Hp in Hv. unfold udp_check. rewrite Hp. apply Hv; [done| |done|lia]. rewrite El3. unfold before. wf.
Qed.
End udp.

(** ** The message *)
Definition encode_query (id flags : Z) (counts : bytes) (q : bytes * bytes) : bytes :=
  be16 id ++ be16 flags ++ be16 1 ++ counts ++ encode_question q.

(** The answer: the name of the question, the null address. *)
Definition answer_len (qtype : Z) : Z := if qtype =? 1 then 4 else 16.
Definition null_answer (qtype : Z) : dns_rr := mk_rr (Pointer 12) qtype [0; 1; 0; 0; 0; 10] (zeros (answer_len qtype)).
Definition spoofed_reply (id : Z) (name : bytes) (qtype : Z) : bytes :=
  encode_reply id 0x8180 [(name, [0; qtype; 0; 1])] [null_answer qtype] [0; 0; 0; 0] [].

Lemma at_off_le16 buf off v bs :
  at_off buf off (be16 v ++ bs) -> 0 <= v < 2 ^ 16 -> exists w, rd16 buf off = Some w /\ ntohs w = v /\ le16 w = be16 v.
Proof.
  intros Ha Hv. destruct (at_off_be16 _ _ _ _ Ha Hv) as (w & Hw & Hn). exists w. split_and!; [done..|].
  pose proof (at_off_rd16 _ _ _ _ _ Ha) as Hw'. rewrite Hw in Hw'. injection Hw' as ->.
  pose proof (Z.mod_pos_bound v 256 eq_refl). assert (0 <= v / 256 < 256) by (split; [apply Z.div_pos|apply Z.div_lt_upper_bound]; lia).
  unfold le16, be16. cbn [le_split]. f_equal; [|f_equal].
  - rewrite (Z.mul_comm 256), Z.mod_add by lia. by apply Z.mod_small.
  - rewrite (Z.mul_comm 256), Z.div_add by lia. rewrite (Z.div_small (v / 256)) by lia. by rewrite Z.add_0_l, Z.mod_mod.
Qed.

Lemma spoofed_dns_encodes id wi wq name qtype :
  le16 wi = be16 id -> le16 wq = be16 1 -> qtype = 1 \/ qtype = 28 ->
  spoofed_dns wi wq (name ++ [0; 0; qtype; 0; 1]) qtype (answer_len qtype) = spoofed_reply id name qtype.
Proof.
  intros Hi Hq Ht. unfold spoofed_dns, spoofed_reply, encode_reply. rewrite Hi, Hq. cbn [fmap list_fmap concat length].
  unfold encode_question, encode_rr, null_answer. cbn [rr_name rr_type rr_class_ttl rr_data encode_name fst snd].
  rewrite !app_nil_r, <- !app_assoc. destruct Ht as [-> | ->]; reflexivity.
Qed.

Lemma blen_spoofed_reply id name qtype :
  qtype = 1 \/ qtype = 28 -> blen (spoofed_reply id name qtype) = blen name + answer_len qtype + 29.
Proof.
  intros Ht. unfold spoofed_reply, encode_reply, encode_question, encode_rr. cbn [fmap list_fmap concat]. rewrite !blen_app.
  destruct Ht as [-> | ->]; unfold blen, answer_len; simpl; lia.
Qed.

Lemma wf_spoofed_reply id name qtype :
  0 <= id < 2 ^ 16 -> wf_bytes name -> qtype = 1 \/ qtype = 28 -> wf_bytes (spoofed_reply id name qtype).
Proof.
  intros Hi Hn Ht. assert (wf_bytes (be16 id)) as Hid.
  { unfold be16. repeat constructor; unfold is_byte; [apply Z.div_pos|apply Z.div_lt_upper_bound|apply Z.mod_pos_bound|apply Z.mod_pos_bound]; lia. }
  unfold spoofed_reply, encode_reply, encode_question, encode_rr. cbn [fmap list_fmap concat fst snd]. rewrite !app_nil_r.
  repeat (apply wf_bytes_app; try done); destruct Ht as [-> | ->]; by repeat constructor.
Qed.

(** ** The query *)
Section query.
Context (pkt : zdtun_pkt) (name : bytes) (qtype : Z) (rest : bytes).
Hypothesis Hname : Forall (fun b => b <> 0) name.
Hypothesis Hat : at_off (pkt_buf pkt) (l7_off pkt + sizeof_dns_packet) (name ++ [0; 0; qtype; 0; 1] ++ rest).

Lemma query_at i x l : drop (Z.to_nat i) (name ++ [0; 0; qtype; 0; 1] ++ rest) = x :: l -> 0 <= i -> dns_query pkt i = Some x.
Proof.
  intros Hd Hi. unfold dns_query. destruct (decide (blen (name ++ [0; 0; qtype; 0; 1] ++ rest) < i)) as [Hlt|Hge].
  { rewrite drop_ge in Hd by (unfold blen in Hlt; lia). done. }
  rewrite <- (take_drop (Z.to_nat i) (name ++ _ ++ _)) in Hat. apply at_off_app in Hat as [_ Ha].
  rewrite Hd in Ha. unfold blen in Ha, Hge. rewrite length_take in Ha.
  replace (l7_off pkt + sizeof_dns_packet + i) with (l7_off pkt + sizeof_dns_packet +
    Z.of_nat (Z.to_nat i `min` length (name ++ [0; 0; qtype; 0; 1] ++ rest))) by lia.
  by eapply at_off_rd8.
Qed.

Lemma query_tail k x l : [0; 0; qtype; 0; 1] ++ rest = l -> drop k l = x :: drop (S k) l -> dns_query pkt (blen name + Z.of_nat k) = Some x.
Proof.
  intros <- Hd. eapply query_at; [|pose proof (blen_nonneg name); lia].
  unfold blen. replace (Z.to_nat (Z.of_nat (length name) + Z.of_nat k)) with (length name + k)%nat by lia.
  by rewrite <- drop_drop, drop_app_length.
Qed.

Lemma query_len_name fuel i :
  0 <= i <= blen name -> blen name - i <= Z.of_nat fuel -> query_len pkt fuel i = Some (blen name).
Proof.
  revert i. induction fuel as [|fuel IH]; intros i Hi Hf; simpl; [f_equal; lia|].
  destruct (decide (i = blen name)) as [->|Hne].
  - assert (dns_query pkt (blen name) = Some 0) as ->; [|done].
    rewrite <- (Z.add_0_r (blen name)). exact (query_tail 0 0 _ eq_refl eq_refl).
  - destruct (lookup_lt_is_Some_2 name (Z.to_nat i)) as [b Hb]; [unfold blen in *; lia|].
    rewrite (query_at i b (drop (S (Z.to_nat i)) (name ++ [0; 0; qtype; 0; 1] ++ rest)));
      [|apply drop_S; by apply lookup_app_l_Some|lia].
    simpl. pose proof (proj1 (Forall_lookup _ _) Hname _ _ Hb) as Hb0. destruct (Z.eqb_spec b 0); [done|]. apply IH; lia.
Qed.
End query.

(** ** [spoof_dns_reply] *)
Section spoof.
Context {P F : Type} `{Ndpi P} `{NdpiFlow F}.
Abbreviation world := (vpn_world P F).
Abbreviation state := (tun_state world conn_ptr).
Implicit Types (s : state) (p : zconn_ptr).

(** A query for the address of a name. *)
Record is_query (pkt : zdtun_pkt) (id : Z) (name : bytes) (qtype : Z) : Prop := {
  iq_id : 0 <= id < 2 ^ 16;
  iq_name : wf_bytes name /\ Forall (fun b => b <> 0) name /\ blen name <= 60000;
  iq_type : qtype = 1 \/ qtype = 28;
  iq_msg : exists flags counts rest, blen counts = 6 /\
    at_off (pkt_buf pkt) (l7_off pkt) (encode_query id flags counts (name, [0; qtype; 0; 1]) ++ rest);
  iq_len : sizeof_dns_packet + blen name + 5 <= l7_len pkt
}.

(** What the device gets, if its descriptor takes the packet. *)
Definition written (w : world) (buf : bytes) : list bytes :=
  match default WroteAll (head (w_writes w)) with WroteAll => tun_out w ++ [buf] | _ => tun_out w end.

Lemma wp_write_tun buf (R : write_result -> world -> Prop) w :
  (forall w', w_pd w' = w_pd w -> tun_out w' = written w buf -> R (default WroteAll (head (w_writes w))) w') ->
  wp (write_tun buf (blen buf)) R w.
Proof.
  intros HR. unfold write_tun. wp_step. pose proof (blen_nonneg buf). eapply wp_of_option; [apply rdn_Some; lia|].
  assert (slice buf 0 (blen buf) = buf) as -> by (unfold slice; rewrite drop_0; apply take_ge; unfold blen; lia).
  wp_step. apply wp_gets. wp_step. apply wp_modify. unfold written in HR. wp_step. destruct (default WroteAll (head (w_writes w))) as [|n|err].
  - apply wp_modify. apply wp_ret. by apply HR.
  - apply wp_ret. apply wp_ret. by apply HR.
  - apply wp_ret. apply wp_ret. by apply HR.
Qed.

(** C19: the reply that is made up for a blocked query of an address (A or
    AAAA) is one that the client accepts: the packet written to the device is
    parsed as a UDP packet from the server to the client with valid checksums,
    whose payload is the encoding of a response with the id and the question
    of the query and one answer, the null address for its name; nothing else of
    the capture changes. *)
Theorem spoofed_reply_read_back p c pctx ver id name qtype s :
  zt_heap (ts_tun s) !! p = Some c -> sock_ver (ts_tun s) c = Some ver -> tuple_ok IPPROTO_UDP ver (zc_tuple c) ->
  is_query (pctx_pkt pctx) id name qtype ->
  let buf := spoofed_packet ver (zc_tuple c) (spoofed_reply id name qtype) in
  (exists pkt, udp_view ver (zc_tuple c) (spoofed_reply id name qtype) pkt) /\
  wp (spoof_dns_reply p pctx)
     (fun rv s' => rv = true /\ tun_out (ts_user s') = written (ts_user s) buf /\
        w_pd (ts_user s') = w_pd (ts_user s) /\ ts_tun s' = ts_tun s /\ ts_sys s' = ts_sys s) s.
Proof.
  intros Hc Hv Ht [Hid (Hwn & Hn & Hnl) Hty (flags & counts & rest & Hcnt & Hat) Hlen] buf. split.
  { eexists. apply udp_viewed; [done| |by apply wf_spoofed_reply]. rewrite blen_spoofed_reply by done.
    unfold answer_len. destruct (qtype =? 1); lia. }
  set (pkt := pctx_pkt pctx) in *. unfold encode_query in Hat. rewrite <- !app_assoc in Hat.
  destruct (at_off_le16 _ _ _ _ Hat Hid) as (wi & Ewi & _ & Hwi).
  apply at_off_app in Hat as [_ Hat]. apply at_off_app in Hat as [_ Hat]. change (blen (be16 ?v)) with 2 in Hat.
  replace (l7_off pkt + 2 + 2) with (l7_off pkt + 4) in Hat by lia.
  destruct (at_off_le16 _ _ 1 _ Hat ltac:(lia)) as (wq & Ewq & Hwq & Hlq).
  apply at_off_app in Hat as [_ Hat]. apply at_off_app in Hat as [_ Hat]. change (blen (be16 1)) with 2 in Hat. rewrite Hcnt in Hat.
  replace (l7_off pkt + 4 + 2 + 6) with (l7_off pkt + sizeof_dns_packet) in Hat by (unfold sizeof_dns_packet; lia).
  unfold encode_question in Hat. cbn [fst snd] in Hat. rewrite <- !app_assoc in Hat.
  change (at_off (pkt_buf pkt) (l7_off pkt + sizeof_dns_packet) (name ++ [0; 0; qtype; 0; 1] ++ rest)) in Hat.
  assert (forall k x, drop k ([0; 0; qtype; 0; 1] ++ rest) = x :: drop (S k) ([0; 0; qtype; 0; 1] ++ rest) ->
    dns_query pkt (blen name + Z.of_nat k) = Some x) as Hq by (intros k x; by eapply query_tail).
  pose proof (blen_nonneg name). unfold spoof_dns_reply. cbv zeta. fold pkt. unfold sizeof_dns_packet in *.
  destruct (Z.ltb_spec (l7_len pkt) (12 + 5)); [lia|]. unfold dns_questions, dns_transaction_id.
  wp_step. eapply wp_of_option; [exact Ewq|]. rewrite Hwq. simpl negb. cbv iota. wp_step.
  eapply wp_of_option; [eapply (query_len_name pkt name qtype rest); [done|exact Hat|lia|lia]|].
  wp_step. eapply wp_of_option; [rewrite <- (Z.add_0_r (blen name)); by apply (Hq 0%nat)|]. simpl negb. cbv iota.
  wp_step. eapply wp_of_option; [by apply (Hq 1%nat)|]. simpl negb. cbv iota.
  wp_step. eapply wp_of_option; [by apply (Hq 3%nat)|]. simpl negb. cbv iota.
  wp_step. eapply wp_of_option; [by apply (Hq 4%nat)|]. simpl negb. cbv iota.
  wp_step. eapply wp_of_option; [by apply (Hq 2%nat)|].
  assert (negb ((qtype =? 1) || (qtype =? 28)) = false) as -> by (by destruct Hty as [-> | ->]). cbv iota.
  wp_step. eapply wp_sock_ipver; [done..|]. wp_step. eapply wp_of_option; [exact Ewi|]. wp_step.
  assert (rdn (pkt_buf pkt) (l7_off pkt + 12) (blen name + 5) = Some (name ++ [0; 0; qtype; 0; 1])) as Eq.
  { rewrite app_assoc in Hat. apply at_off_app in Hat as [Hat _]. apply at_off_rdn in Hat. by rewrite blen_app in Hat. }
  eapply wp_of_option; [exact Eq|]. wp_step. eapply wp_zderef; [done|].
  fold (answer_len qtype). rewrite (spoofed_dns_encodes id wi wq name qtype Hwi Hlq Hty). fold buf. wp_step. unfold on_world.
  pose proof (wp_write_tun buf (fun _ w' => tun_out w' = written (ts_user s) buf /\ w_pd w' = w_pd (ts_user s)) (ts_user s)) as Hw.
  unfold wp, callback in *. destruct (write_tun buf (blen buf) (ts_user s)) as [[r w']|]; [|apply Hw; auto].
  destruct Hw as [Ho Hp]; [auto|]. by split_and!.
Qed.
End spoof.

(** ** A query of the address of a.b *)
Definition ex_query_tuple : zdtun_5tuple := mk_5tuple 16777226 134744072 59395 13568 4 17.
Definition ex_name : bytes := [1; 97; 1; 98].
Definition ex_query_msg : bytes := encode_query 0xaabb 0x0100 [0; 0; 0; 0; 0; 0] (ex_name, [0; 1; 0; 1]).
Definition ex_query_buf : bytes :=
  [0x45; 0; 0; 49; 0; 0; 0; 0; 64; 17; 0; 0; 10; 0; 0; 1; 8; 8; 8; 8; 0x03; 0xe8; 0; 53; 0; 29; 0; 0] ++ ex_query_msg.
Definition ex_query_pkt : zdtun_pkt := mk_pkt ex_query_tuple 0 49 20 8 21 ex_query_buf.
Definition ex_query_ctx : pkt_context := make_pctx ex_query_pkt true ex_query_tuple 1 (mk_tv 0 0).
Definition ex_query_state : tun_state (vpn_world (list Z) Z) conn_ptr :=
  mk_tun_state (zdtun_init <| zt_heap := {[1 := zero_zconn ex_query_tuple 0]} |>) (ex_world ex_vpn_state) ex_kernel.

Lemma ex_is_query : is_query ex_query_pkt 0xaabb ex_name 1.
Proof.
  split; [done|split_and!; [by repeat constructor|by repeat constructor|done]|by left|exists 0x0100, [0; 0; 0; 0; 0; 0], []|done].
  split; [done|]. exists (take 28 ex_query_buf), []. done.
Qed.

Lemma spoofed_reply_read_back_witness :
  let buf := spoofed_packet 4 ex_query_tuple (spoofed_reply 0xaabb ex_name 1) in
  (exists pkt, udp_view 4 ex_query_tuple (spoofed_reply 0xaabb ex_name 1) pkt) /\
  wp (spoof_dns_reply 1 ex_query_ctx)
     (fun rv s' => rv = true /\ tun_out (ts_user s') = written (ts_user ex_query_state) buf /\
        w_pd (ts_user s') = w_pd (ts_user ex_query_state) /\ ts_tun s' = ts_tun ex_query_state /\ ts_sys s' = ts_sys ex_query_state) ex_query_state.
Proof.
  apply (spoofed_reply_read_back 1 (zero_zconn ex_query_tuple 0) ex_query_ctx 4 0xaabb ex_name 1 ex_query_state);
    [reflexivity|reflexivity|by repeat constructor|exact ex_is_query].
Defined.
