(* ===== verification/Framing.v ===== *)
(** The stream between the daemon and the root capture: the loops over [write]
    and [read] (common/utils.c), the header of the packets (pcapd/pcapd.h), the
    frames as the daemon writes them (pcapd/pcapd.c, [read_pkt]) and as the
    capture reads them (core/capture_libpcap.c, [run_libpcap]). *)
From Stdlib Require Import ZArith Lia.
From stdpp Require Import base option numbers list.
From S2P Require Import Prelude Packet Uthash Lru AppNames PcapDump Blacklist NdpiProtos Conn JavaDump Dpi Housekeeping JavaRequests CaptureLibpcap.

Open Scope Z_scope.

(** ** [xwrite] and [xread] *)

(** What a call of [write] or [read] answers: how many bytes it may move, a
    signal, an error. *)
Inductive io_result := IoDone (n : Z) | IoIntr | IoError.
Definition no_io_error (o : io_result) : Prop := match o with IoError => False | _ => True end.

(** The result, the bytes that the descriptor took, and the answers that are
    left; without one a call moves all that it can. [data]: what is not written. *)
Fixpoint xwrite (outs : list io_result) (data : bytes) : Z * bytes * list io_result :=
  match outs with
  | [] => (0, data, [])
  | IoError :: outs' => (-1, [], outs')
  | IoIntr :: outs' => if blen data =? 0 then (0, [], outs') else xwrite outs' data
  | IoDone n :: outs' =>
      let ret := Z.to_nat (Z.max 0 (Z.min n (blen data))) in
      let sent := take ret data in
      let data := drop ret data in
      if blen data =? 0 then (0, sent, outs')
      else if (ret =? 0)%nat then (-1, sent, outs')
      else let '(rv, more, outs'') := xwrite outs' data in (rv, sent ++ more, outs'')
  end.

(** The result, the bytes read, those that are still to come, the answers that
    are left. A stream at its end gives no byte. [todo]: the bytes to read. *)
Inductive xread_rv := ReadError | ReadClosed | ReadAll.
Fixpoint xread_loop (outs : list io_result) (stream : bytes) (todo : nat)
  : xread_rv * bytes * bytes * list io_result :=
  match outs with
  | [] => (if (length stream <? todo)%nat then ReadClosed else ReadAll, take todo stream, drop todo stream, [])
  | IoError :: outs' => (ReadError, [], stream, outs')
  | IoIntr :: outs' => if (todo =? 0)%nat then (ReadAll, [], stream, outs') else xread_loop outs' stream todo
  | IoDone n :: outs' =>
      let rv := ((Z.to_nat (Z.max 1 n) `min` todo) `min` length stream)%nat in
      let data := take rv stream in
      let stream := drop rv stream in
      if (rv =? todo)%nat then (ReadAll, data, stream, outs')
      else if (rv =? 0)%nat then (ReadClosed, data, stream, outs')
      else let '(r, more, stream', outs'') := xread_loop outs' stream (todo - rv) in (r, data ++ more, stream', outs'')
  end.

Definition xread (outs : list io_result) (stream : bytes) (count : Z) : Z * bytes * bytes * list io_result :=
  let '(r, data, stream', outs') := xread_loop outs stream (Z.to_nat count) in
  (match r with ReadError => -1 | ReadClosed => 0 | ReadAll => count end, data, stream', outs').

(** ** Frames *)
Definition sizeof_pcapd_hdr : Z := 32.
Definition le64 (z : Z) : bytes := le_split 8 z.

(** [pcapd_hdr_t]; the padding is not initialised. *)
Definition encode_hdr (h : pcapd_hdr) (pad : bytes) : bytes :=
  le64 (tv_sec (hdr_ts h)) ++ le64 (tv_usec (hdr_ts h)) ++ le32 (hdr_pkt_drops h) ++ le32 (hdr_uid h) ++
  le16 (hdr_len h) ++ le16 (hdr_linktype h) ++ [u8 (hdr_flags h); u8 (hdr_ifid h)] ++ pad.
Definition field (bs : bytes) (off len : Z) : Z := le_combine (slice bs off len).
Definition decode_hdr (bs : bytes) : pcapd_hdr :=
  mk_hdr (mk_tv (s64 (field bs 0 8)) (s64 (field bs 8 8))) (field bs 16 4) (field bs 20 4)
    (field bs 24 2) (field bs 26 2) (field bs 28 1) (field bs 29 1).

(** The daemon: the header, then [hdr_len] bytes of the packet. *)
Definition send_frame (outs : list io_result) (h : pcapd_hdr) (pad pkt : bytes) : Z * bytes * list io_result :=
  let '(rv, sent, outs) := xwrite outs (encode_hdr h pad) in
  if rv <? 0 then (-1, sent, outs) else
  let '(rv, sent', outs) := xwrite outs (take (Z.to_nat (hdr_len h)) pkt) in
  (rv, sent ++ sent', outs).

(** The capture: [inl]: the reading ends, with an error for the user or without. *)
Definition read_frame (outs : list io_result) (stream : bytes) (buffer : bytes)
  : (bool + pcapd_hdr * bytes) * bytes * list io_result :=
  let '(xrv, data, stream, outs) := xread outs stream sizeof_pcapd_hdr in
  if negb (xrv =? sizeof_pcapd_hdr) then (inl (xrv <? 0), stream, outs) else
  let hdr := decode_hdr data in
  if hdr_len hdr >? PCAPD_SNAPLEN then (inl true, stream, outs) else
  let '(xrv, data, stream, outs) := xread outs stream (hdr_len hdr) in
  if negb (xrv =? hdr_len hdr) then (inl true, stream, outs) else
  (inr (hdr, data ++ drop (length data) buffer), stream, outs).

(** All the frames of a stream: what was read, and how it ended. *)
Fixpoint read_frames (fuel : nat) (outs : list io_result) (stream buffer : bytes) : list (pcapd_hdr * bytes) * option bool :=
  match fuel with
  | O => ([], None)
  | S fuel' =>
      match read_frame outs stream buffer with
      | (inl fatal, _, _) => ([], Some fatal)
      | (inr (hdr, buffer), stream, outs) =>
          let '(frames, e) := read_frames fuel' outs stream buffer in ((hdr, buffer) :: frames, e)
      end
  end.

(** ** Facts *)
Lemma xwrite_spec outs data rv sent outs' :
  xwrite outs data = (rv, sent, outs') -> exists rest, data = sent ++ rest /\ (rv = 0 /\ rest = [] \/ rv = -1).
Proof.
  revert data rv sent outs'. induction outs as [|o outs IH]; intros data rv sent outs'; simpl.
  { intros [= <- <- <-]. exists []. rewrite app_nil_r. auto. }
  destruct o as [n| |].
  - set (k := Z.to_nat _). assert (forall l : bytes, blen l = 0 -> l = []) as Hnil by (intros [|? ?]; [done|unfold blen; simpl; lia]).
    destruct (Z.eqb_spec (blen (drop k data)) 0) as [Hd|Hd].
    { intros [= <- <- <-]. exists (drop k data). rewrite take_drop. split; [done|]. left. auto. }
    destruct (k =? 0)%nat; [intros [= <- <- <-]; exists (drop k data); rewrite take_drop; auto|].
    destruct (xwrite outs (drop k data)) as [[rv' more] outs''] eqn:E. intros [= <- <- <-].
    destruct (IH _ _ _ _ E) as (rest & Hr & Hrv). exists rest. split; [by rewrite <- app_assoc, <- Hr, take_drop|done].
  - destruct (Z.eqb_spec (blen data) 0) as [Hd|]; [|by apply IH]. intros [= <- <- <-]. exists []. destruct data; [auto|unfold blen in Hd; simpl in Hd; lia].
  - intros [= <- <- <-]. exists data. auto.
Qed.

(** Whatever the sizes of the reads and the signals, the bytes come in order;
    all of them if the stream has them. *)
Lemma xread_loop_spec outs stream todo :
  Forall no_io_error outs ->
  exists outs', Forall no_io_error outs' /\
    xread_loop outs stream todo =
      (if (length stream <? todo)%nat then ReadClosed else ReadAll, take todo stream, drop todo stream, outs').
Proof.
  intros Ho. revert stream todo. induction Ho as [|o outs Hno Ho IH]; intros stream todo; simpl; [by exists []|].
  destruct o as [n| |]; [|destruct (Nat.eqb_spec todo 0) as [->|]; [by exists outs|apply IH]|done].
  set (rv := (_ `min` _)%nat). destruct (Nat.eqb_spec rv todo) as [E|Hne].
  { exists outs. split; [done|]. rewrite E. destruct (Nat.ltb_spec (length stream) todo); [lia|done]. }
  destruct (Nat.eqb_spec rv 0) as [E|Hz].
  { exists outs. split; [done|]. assert (stream = []) as -> by (destruct stream; [done|simpl in *; lia]).
    rewrite E, !take_nil, !drop_nil. simpl. by destruct (Nat.ltb_spec 0 todo); [|lia]. }
  destruct (IH (drop rv stream) (todo - rv)%nat) as (outs' & Ho' & ->). exists outs'. split; [done|].
  rewrite length_drop, drop_drop. replace (rv + (todo - rv))%nat with todo by lia.
  assert (take rv stream ++ take (todo - rv) (drop rv stream) = take todo stream) as ->.
  { replace todo with (rv + (todo - rv))%nat at 2 by lia. by rewrite take_take_drop. }
  do 3 f_equal. destruct (Nat.ltb_spec (length stream - rv) (todo - rv)), (Nat.ltb_spec (length stream) todo); done || lia.
Qed.

(** *** The header *)
Record hdr_ok (h : pcapd_hdr) : Prop := {
  ho_sec : - 2 ^ 63 <= tv_sec (hdr_ts h) < 2 ^ 63;
  ho_usec : - 2 ^ 63 <= tv_usec (hdr_ts h) < 2 ^ 63;
  ho_drops : 0 <= hdr_pkt_drops h < 2 ^ 32;
  ho_uid : 0 <= hdr_uid h < 2 ^ 32;
  ho_len : 0 <= hdr_len h < 2 ^ 16;
  ho_linktype : 0 <= hdr_linktype h < 2 ^ 16;
  ho_flags : is_byte (hdr_flags h);
  ho_ifid : is_byte (hdr_ifid h)
}.

Lemma field_at pre n z post off len :
  blen pre = off -> len = Z.of_nat n -> 0 <= z < 256 ^ len -> field (pre ++ le_split n z ++ post) off len = z.
Proof.
  intros <- -> Hz. unfold field. rewrite slice_app_mid by (rewrite ?blen_le_split; lia || done).
  rewrite le_combine_split. by apply Z.mod_small.
Qed.

Lemma field64_at pre z post off :
  blen pre = off -> - 2 ^ 63 <= z < 2 ^ 63 -> s64 (field (pre ++ le64 z ++ post) off 8) = z.
Proof.
  intros <- Hz. unfold field, le64. rewrite slice_app_mid by (rewrite ?blen_le_split; lia || done).
  rewrite le_combine_split. change (256 ^ Z.of_nat 8) with (2 ^ 64). unfold s64.
  replace (z mod 2 ^ 64 + 2 ^ 63) with (z + 2 ^ 63 + (- (z / 2 ^ 64)) * 2 ^ 64) by (pose proof (Z.div_mod z (2 ^ 64)); lia).
  rewrite Z.mod_add, Z.mod_small; lia.
Qed.

Lemma field_skip n z b off len : Z.of_nat n <= off -> field (le_split n z ++ b) off len = field b (off - Z.of_nat n) len.
Proof.
  intros Ho. unfold field, slice. replace (Z.to_nat off) with (n + Z.to_nat (off - Z.of_nat n))%nat by lia.
  rewrite <- drop_drop. by rewrite (drop_app_length' _ _ n) by (by rewrite length_le_split).
Qed.

Lemma decode_encode h pad : hdr_ok h -> decode_hdr (encode_hdr h pad) = h.
Proof.
  intros []. destruct h as [[sec usec] drops uid len lt flags ifid]. simpl in *.
  assert (encode_hdr (mk_hdr (mk_tv sec usec) drops uid len lt flags ifid) pad =
    le_split 8 sec ++ le_split 8 usec ++ le_split 4 drops ++ le_split 4 uid ++ le_split 2 len ++ le_split 2 lt ++
    le_split 1 flags ++ le_split 1 ifid ++ pad) as E by done.
  unfold decode_hdr. f_equal; [f_equal|..]; rewrite E; clear E;
    repeat (rewrite field_skip by lia); by first [apply (field64_at []) | apply (field_at [])].
Qed.

Lemma blen_encode h pad : blen pad = 2 -> blen (encode_hdr h pad) = sizeof_pcapd_hdr.
Proof. intros Hp. unfold encode_hdr, le64. rewrite !blen_app, !blen_le_split, !blen_le32, !blen_le16, Hp. done. Qed.

(** ** Whole streams *)
#[local] Opaque encode_hdr.
Record packet := mk_packet { fp_hdr : pcapd_hdr; fp_pad : bytes; fp_data : bytes }.
Record frame_ok (f : packet) : Prop := {
  fo_hdr : hdr_ok (fp_hdr f);
  fo_pad : blen (fp_pad f) = 2;
  fo_data : blen (fp_data f) = hdr_len (fp_hdr f)
}.
Definition encode_frame (f : packet) : bytes := encode_hdr (fp_hdr f) (fp_pad f) ++ fp_data f.
Definition stream_of (fs : list packet) : bytes := concat (encode_frame <$> fs).

(** The daemon stops at the first failure. *)
Fixpoint send_frames (outs : list io_result) (fs : list packet) : Z * bytes :=
  match fs with
  | [] => (0, [])
  | f :: fs' =>
      let '(rv, sent, outs) := send_frame outs (fp_hdr f) (fp_pad f) (fp_data f) in
      if rv <? 0 then (-1, sent) else
      let '(rv, more) := send_frames outs fs' in (rv, sent ++ more)
  end.

Lemma send_frame_spec outs f rv sent outs' :
  frame_ok f -> send_frame outs (fp_hdr f) (fp_pad f) (fp_data f) = (rv, sent, outs') ->
  exists rest, encode_frame f = sent ++ rest /\ (rv = 0 /\ rest = [] \/ rv = -1).
Proof.
  intros [_ _ Hlen]. unfold send_frame, encode_frame. rewrite <- Hlen.
  assert (take (Z.to_nat (blen (fp_data f))) (fp_data f) = fp_data f) as -> by (apply take_ge; unfold blen; lia).
  destruct (xwrite outs _) as [[rv1 s1] o1] eqn:E1. destruct (xwrite_spec _ _ _ _ _ E1) as (r1 & H1 & Hrv1).
  destruct Hrv1 as [[-> ->]| ->]; simpl.
  - destruct (xwrite o1 _) as [[rv2 s2] o2] eqn:E2. destruct (xwrite_spec _ _ _ _ _ E2) as (r2 & H2 & Hrv2).
    intros [= <- <- <-]. exists r2. rewrite H1, app_nil_r. rewrite H2 at 1. by rewrite app_assoc.
  - intros [= <- <- <-]. exists (r1 ++ fp_data f). rewrite H1. rewrite <- app_assoc. auto.
Qed.

Lemma send_frames_spec outs fs :
  Forall frame_ok fs -> forall rv sent, send_frames outs fs = (rv, sent) ->
  exists rest, stream_of fs = sent ++ rest /\ (rv = 0 /\ rest = [] \/ rv = -1).
Proof.
  intros Hfs. revert outs. induction Hfs as [|f fs Hf Hfs IH]; intros outs rv sent; simpl.
  { intros [= <- <-]. exists []. auto. }
  destruct (send_frame _ _ _ _) as [[rv1 s1] o1] eqn:E1. destruct (send_frame_spec _ _ _ _ _ Hf E1) as (r1 & H1 & Hrv1).
  unfold stream_of in *. csimpl. rewrite H1. destruct Hrv1 as [[-> ->]| ->]; csimpl.
  - destruct (send_frames o1 fs) as [rv2 s2] eqn:E2. destruct (IH _ _ _ E2) as (r2 & H2 & Hrv2). intros [= <- <-].
    exists r2. rewrite H2, app_nil_r, app_assoc. auto.
  - intros [= <- <-]. exists (r1 ++ concat (encode_frame <$> fs)). rewrite <- app_assoc. auto.
Qed.

(** A frame is read whole, or the reading ends there. *)
Lemma read_frame_spec outs buffer f rest k :
  Forall no_io_error outs -> frame_ok f ->
  let stream := take k (encode_frame f ++ rest) in
  exists outs', Forall no_io_error outs' /\
    (if (length (encode_frame f) <=? k)%nat then
       exists b, read_frame outs stream buffer = (inr (fp_hdr f, b), take (k - length (encode_frame f)) rest, outs') /\
         take (Z.to_nat (hdr_len (fp_hdr f))) b = fp_data f
     else exists str, read_frame outs stream buffer = (inl (sizeof_pcapd_hdr <=? Z.of_nat k), str, outs')).
Proof.
  intros Ho [Hh Hp Hd] stream. pose proof (blen_encode (fp_hdr f) (fp_pad f) Hp) as Hlh. unfold sizeof_pcapd_hdr in *.
  assert (length (encode_hdr (fp_hdr f) (fp_pad f)) = 32%nat) as Hlh' by (unfold blen in Hlh; lia). clear Hlh.
  assert (length (encode_frame f) = 32 + length (fp_data f))%nat as Hlf by (unfold encode_frame; rewrite length_app; lia).
  unfold read_frame, xread, sizeof_pcapd_hdr. destruct (xread_loop_spec outs stream (Z.to_nat 32) Ho) as (o1 & Ho1 & ->).
  change (Z.to_nat 32) with 32%nat. assert (length stream = k `min` length (encode_frame f ++ rest))%nat as Hls by apply length_take.
  rewrite length_app in Hls. destruct (Nat.ltb_spec (length stream) 32) as [Hshort|Hlong].
  { exists o1. split; [done|]. destruct (Nat.leb_spec (length (encode_frame f)) k); [lia|]. eexists. simpl.
    destruct (Z.leb_spec 32 (Z.of_nat k)); [lia|done]. }
  change (negb (32 =? 32)) with false. cbv iota.
  assert (take 32 stream = encode_hdr (fp_hdr f) (fp_pad f)) as ->.
  { unfold stream, encode_frame. rewrite take_take, <- app_assoc. rewrite (Nat.min_l 32 k) by lia. by apply take_app_length'. }
  rewrite decode_encode by done. assert (drop 32 stream = take (k - 32) (fp_data f ++ rest)) as ->.
  { unfold stream, encode_frame. rewrite <- app_assoc, skipn_firstn_comm. f_equal. by apply drop_app_length'. }
  pose proof (ho_len _ Hh). destruct (Z.gtb_spec (hdr_len (fp_hdr f)) PCAPD_SNAPLEN); [unfold PCAPD_SNAPLEN in *; lia|].
  destruct (xread_loop_spec o1 (take (k - 32) (fp_data f ++ rest)) (Z.to_nat (hdr_len (fp_hdr f))) Ho1) as (o2 & Ho2 & ->).
  exists o2. split; [done|]. rewrite <- Hd. unfold blen. rewrite Nat2Z.id, length_take, length_app, Hlf.
  destruct (Nat.leb_spec (32 + length (fp_data f)) k).
  - destruct (Nat.ltb_spec ((k - 32) `min` (length (fp_data f) + length rest)) (length (fp_data f))); [lia|].
    rewrite Z.eqb_refl. simpl negb. cbv iota. rewrite take_take, (Nat.min_l (length (fp_data f)) (k - 32)) by lia.
    rewrite take_app_length. eexists. split; [|by apply take_app_length]. do 2 f_equal.
    rewrite skipn_firstn_comm, drop_app_length. f_equal. lia.
  - destruct (Nat.ltb_spec ((k - 32) `min` (length (fp_data f) + length rest)) (length (fp_data f))); [|lia].
    destruct (Z.eqb_spec 0 (Z.of_nat (length (fp_data f)))); [lia|]. simpl negb. cbv iota. eexists.
    destruct (Z.leb_spec 32 (Z.of_nat k)); [done|lia].
Qed.

(** The frames that are whole in the first [k] bytes, and the bytes that follow. *)
Fixpoint whole (fs : list packet) (k : nat) : nat * nat :=
  match fs with
  | [] => (0, 0)%nat
  | f :: fs' =>
      let n := length (encode_frame f) in
      if (n <=? k)%nat then let '(m, rem) := whole fs' (k - n) in (S m, rem) else (0%nat, k)
  end.

Definition is_frame (r : pcapd_hdr * bytes) (f : packet) : Prop :=
  r.1 = fp_hdr f /\ take (Z.to_nat (hdr_len (fp_hdr f))) r.2 = fp_data f.

Lemma read_frames_S fuel outs stream buffer :
  read_frames (S fuel) outs stream buffer =
  match read_frame outs stream buffer with
  | (inl fatal, _, _) => ([], Some fatal)
  | (inr (hdr, b), stream', outs') => let '(frames, e) := read_frames fuel outs' stream' b in ((hdr, b) :: frames, e)
  end.
Proof. reflexivity. Qed.

Lemma read_frames_spec fs : Forall frame_ok fs -> forall k outs buffer, Forall no_io_error outs ->
  exists frames, read_frames (S (length fs)) outs (take k (stream_of fs)) buffer =
      (frames, Some (sizeof_pcapd_hdr <=? Z.of_nat (whole fs k).2)) /\
    Forall2 is_frame frames (take (whole fs k).1 fs).
Proof.
  intros Hfs. induction Hfs as [|f fs Hf Hfs IH]; intros k outs buffer Ho.
  - exists []. change (stream_of []) with (@nil Z). rewrite take_nil. unfold read_frames, read_frame, xread.
    destruct (xread_loop_spec outs [] (Z.to_nat sizeof_pcapd_hdr) Ho) as (o' & _ & ->). by split.
  - change (stream_of (f :: fs)) with (encode_frame f ++ stream_of fs). change (length (f :: fs)) with (S (length fs)).
    rewrite read_frames_S. destruct (read_frame_spec outs buffer f (stream_of fs) k Ho Hf) as (o' & Ho' & Hr). cbn [whole].
    destruct (length (encode_frame f) <=? k)%nat.
    + destruct Hr as (b & -> & Hb). destruct (IH (k - length (encode_frame f))%nat o' b Ho') as (frames & E & Hfr). rewrite E.
      destruct (whole fs (k - length (encode_frame f))) as [m rem]. exists ((fp_hdr f, b) :: frames). split; [done|].
      constructor; [by split|exact Hfr].
    + destruct Hr as (str & ->). by exists [].
Qed.

Lemma whole_all fs k : (length (stream_of fs) <= k)%nat -> whole fs k = (length fs, 0%nat).
Proof.
  unfold stream_of. revert k. induction fs as [|f fs IH]; intros k; csimpl; [done|]. rewrite length_app. intros Hk.
  destruct (Nat.leb_spec (length (encode_frame f)) k); [|lia]. by rewrite IH by lia.
Qed.

(** C20: what the daemon sends is what the capture gets, in order and never
    altered: whatever the sizes and interruptions of the writes and of the
    reads, and wherever a failed write stops the daemon, the capture reads
    exactly the packets, with their headers, that were written whole. It then
    ends: in silence when the stream stops before the header of a packet is
    whole, as after the last one, and with an error for the user when it stops
    within the packet. *)
Theorem stream_read_back fs outs_w outs_r buffer :
  Forall frame_ok fs -> Forall no_io_error outs_r ->
  let '(rv, sent) := send_frames outs_w fs in
  let '(n, rem) := whole fs (length sent) in
  exists frames, read_frames (S (length fs)) outs_r sent buffer = (frames, Some (sizeof_pcapd_hdr <=? Z.of_nat rem)) /\
    Forall2 is_frame frames (take n fs) /\ (rv = 0 -> n = length fs /\ rem = 0%nat).
Proof.
  intros Hfs Ho. destruct (send_frames outs_w fs) as [rv sent] eqn:E.
  destruct (send_frames_spec outs_w fs Hfs _ _ E) as (rest & Hs & Hrv).
  destruct (read_frames_spec fs Hfs (length sent) outs_r buffer Ho) as (frames & Er & Hf).
  rewrite Hs in Er at 1. rewrite take_app_length in Er. destruct (whole fs (length sent)) as [n rem] eqn:Ew. exists frames.
  split_and!; [done|done|]. intros ->. destruct Hrv as [[_ ->]|]; [|done]. rewrite app_nil_r in Hs. subst sent.
  rewrite whole_all in Ew by done. by injection Ew as <- <-.
Qed.

(** Two packets written byte by byte and in parts, the second one cut. *)
Definition ex_frame (data : bytes) : packet :=
  mk_packet (mk_hdr (mk_tv 1 2) 0 1000 (blen data) PCAPD_DLT_RAW PCAPD_FLAG_TX 0) [0; 0] data.
Definition ex_frames : list packet := [ex_frame [1; 2; 3]; ex_frame [4; 5; 6; 7]].

Lemma ex_frames_ok : Forall frame_ok ex_frames.
Proof. apply Forall_cons; split; [|apply Forall_cons; split; [|done]]; (split; [split; done|done|done]). Qed.

Lemma stream_read_back_witness :
  let '(rv, sent) := send_frames [IoDone 30; IoIntr; IoDone 5; IoDone 100; IoDone 32; IoDone 2; IoError] ex_frames in
  let '(n, rem) := whole ex_frames (length sent) in
  exists frames, read_frames 3 [IoDone 1; IoIntr; IoDone 40] sent [] = (frames, Some (sizeof_pcapd_hdr <=? Z.of_nat rem)) /\
    Forall2 is_frame frames (take n ex_frames) /\ (rv = 0 -> n = length ex_frames /\ rem = 0%nat).
Proof. apply (stream_read_back ex_frames); [exact ex_frames_ok|by repeat constructor]. Defined.
