(* ===== verification/PcapdArgs.v ===== *)
(** The command line of the daemon: as the root capture makes it
    (core/capture_libpcap.c, [connectPcapd]; common/utils.c, [start_subprocess]),
    and as the daemon parses it (pcapd/pcapd.c, [parse_args]). *)
From Stdlib Require Import ZArith Lia String.
From stdpp Require Import base option numbers list.
From S2P Require Import Prelude Packet Uthash Blacklist CText UidResolver.

Open Scope Z_scope.

(** ** The side of the capture *)
Definition isalnum (c : Z) : bool :=
  ((48 <=? c) && (c <=? 57)) || ((65 <=? c) && (c <=? 90)) || ((97 <=? c) && (c <=? 122)).

Definition valid_ifname (name : bytes) : bool :=
  match name with
  | [] => false
  | _ => if blen name >=? 16 then false
         else forallb (fun c => (c =? 46) || (c =? 95) || (c =? 64) || isalnum c) name
  end.

(** The dollar, the quotes and the line ends. *)
Definition disallowed_chars : bytes := [36; 39; 34; 96; 10; 13].
Definition valid_bpf (bpf : bytes) : bool := forallb (fun c => negb (bool_decide (c ∈ disallowed_chars))) bpf.

(** [snprintf(buf, n, ...)] of a text: what the buffer has. *)
Definition snprintf (n : Z) (text : bytes) : bytes := take (Z.to_nat (n - 1)) text.
Definition print_int (n : Z) : bytes := if n <? 0 then 45 :: print_dec 0 (- n) else print_dec 0 n.

(** The loop; [off]: the length of the text so far, cut or not. *)
Fixpoint uids_text (uids : list Z) (first : bool) (size : Z) (buf : bytes) (off : Z) : bytes :=
  match uids with
  | [] => buf
  | uid :: uids' =>
      if off >=? size then buf else
      let text := (if first then [] else STR ",") ++ print_int uid in
      uids_text uids' false size (buf ++ snprintf (size - off) text) (off + blen text)
  end.
Definition get_uids_filter (tls : bool) (uids : list Z) (size : Z) : bytes :=
  if tls || (Z.of_nat (length uids) <=? 0) then STR "-1" else uids_text uids true size [] 0.

(** The configuration of the capture. *)
Record libpcap_conf := mk_lconf {
  lc_tls : bool;                   (** [tls_decryption.enabled] *)
  lc_pcap_file : bool;             (** [pcap_file_capture] *)
  lc_interface : bytes;
  lc_bpf : option bytes;
  lc_uids : list Z;
  lc_as_root : bool;
  lc_daemonize : bool;
  lc_pcapd_pid : Z
}.
#[export] Instance eta_libpcap_conf : Eta libpcap_conf := fun c =>
  mk_lconf (lc_tls c) (lc_pcap_file c) (lc_interface c) (lc_bpf c) (lc_uids c) (lc_as_root c) (lc_daemonize c) (lc_pcapd_pid c).

Definition bpf_of (c : libpcap_conf) : bytes := default [] (lc_bpf c).

(** The arguments; the buffer has 256 bytes. *)
Definition pcapd_args_text (uid : Z) (c : libpcap_conf) : bytes :=
  STR "-l pcapd.log -L " ++ print_dec 0 uid ++ STR " -i '" ++ lc_interface c ++ STR "' -u " ++
  get_uids_filter (lc_tls c) (lc_uids c) 128 ++ STR " -t -b '" ++ bpf_of c ++ STR "'" ++
  (if lc_daemonize c then STR " -d" else []).
Definition pcapd_args (uid : Z) (c : libpcap_conf) : bytes := snprintf 256 (pcapd_args_text uid c).

(** The line that the shell reads. *)
Definition command_line (prog args : bytes) : bytes := prog ++ [32] ++ args ++ [NEWLINE].

(** *** [connectPcapd] *)
Definition SIGTERM : Z := 15.
Definition SIGKILL : Z := 9.
Inductive pcapd_error := ErrBpf | ErrNoPcapFile | ErrInterface | ErrStart | ErrNotSpawned | ErrSystem.

(** What is asked to the system: the commands for the shell, the messages for
    the user, the waits. *)
Inductive connect_action :=
  | Spawn (prog args : bytes) (as_root : bool)
  | LogFatal (e : pcapd_error)
  | WaitPid (pid : Z).

(** What the system answers. [ce_polls]: the turns of the five seconds: whether
    the capture is still running, the socket ready, the child gone with a status. *)
Record poll := mk_poll { po_running : bool; po_ready : bool; po_exited : option Z }.
Record connect_env := mk_cenv {
  ce_path : bytes;
  ce_chdir : bool;
  ce_socket : option Z;
  ce_pidfile : option bytes;
  ce_bind : bool;
  ce_access : bool;
  ce_uid : Z;
  ce_spawn : Z;
  ce_wait : option Z;
  ce_polls : list poll;
  ce_accept : option Z
}.

(** [None]: the file is empty and the buffer was not initialised. *)
Definition get_pcapd_pid (pidfile : option bytes) : option Z :=
  match pidfile with
  | None => Some (-1)
  | Some content => '(line, _) ← fgets 8 content; Some (atoi (cstring line))
  end.

Definition kill_process (pid : Z) (as_root : bool) (signum : Z) : connect_action :=
  Spawn (STR "kill") (snprintf 16 (STR "-" ++ print_int signum ++ STR " " ++ print_int pid)) as_root.

(** The wait for the daemon: connected, or not with the message and the pid. *)
Fixpoint wait_connection (daemonize : bool) (pid : Z) (polls : list poll) : (option pcapd_error * Z) + unit :=
  match polls with
  | [] => inl (Some ErrNotSpawned, pid)
  | p :: polls' =>
      if negb (po_running p) then inl (None, pid)
      else if po_ready p then inr tt
      else match po_exited p with
           | Some _ => if daemonize then wait_connection daemonize pid polls' else inl (Some ErrStart, -1)
           | None => wait_connection daemonize pid polls'
           end
  end.

(** The cleanup of a failure. *)
Definition abandon (c : libpcap_conf) (pid : Z) (acts : list connect_action) : option Z * libpcap_conf * list connect_action :=
  (None, c, acts ++ (if pid >? 0 then
                       [kill_process pid (lc_as_root c) SIGKILL] ++ (if lc_daemonize c then [] else [WaitPid pid])
                     else [])).

(** From the start of the daemon. *)
Definition start_pcapd (e : connect_env) (c : libpcap_conf) (acts : list connect_action)
  : option Z * libpcap_conf * list connect_action :=
  let acts := acts ++ [Spawn (ce_path e) (pcapd_args (ce_uid e) c) (lc_as_root c)] in
  let pid := ce_spawn e in
  if pid <=? 0 then abandon c pid acts else
  let acts := acts ++ (if lc_daemonize c then [WaitPid pid] else []) in
  let failed := lc_daemonize c && match ce_wait e with Some rv => negb (rv =? 0) | None => false end in
  if failed then abandon c pid (acts ++ [LogFatal ErrStart]) else
  match wait_connection (lc_daemonize c) pid (ce_polls e) with
  | inl (err, pid) => abandon c pid (acts ++ match err with Some err => [LogFatal err] | None => [] end)
  | inr _ =>
      match ce_accept e with
      | None => abandon c pid (acts ++ [LogFatal ErrSystem])
      | Some client => (Some client, c <| lc_pcapd_pid := pid |>, acts)
      end
  end.

Definition connectPcapd (e : connect_env) (c : libpcap_conf) : option (option Z * libpcap_conf * list connect_action) :=
  match ce_path e with
  | [] => Some (None, c, [])
  | _ =>
      if negb (ce_chdir e) then Some (None, c, [LogFatal ErrSystem]) else
      match ce_socket e with
      | None => Some (None, c, [LogFatal ErrSystem])
      | Some _ =>
          pid ← get_pcapd_pid (ce_pidfile e);
          let acts := if pid >? 0 then [kill_process pid (lc_as_root c) SIGTERM] else [] in
          Some
            (if negb (ce_bind e) then abandon c (-1) (acts ++ [LogFatal ErrSystem])
             else if negb (match bpf_of c with [] => true | bpf => valid_bpf bpf end) then abandon c (-1) (acts ++ [LogFatal ErrBpf])
             else if lc_pcap_file c then
               if ce_access e then start_pcapd e c acts else abandon c (-1) (acts ++ [LogFatal ErrNoPcapFile])
             else if negb (valid_ifname (lc_interface c)) then abandon c (-1) (acts ++ [LogFatal ErrInterface])
             else start_pcapd e (c <| lc_daemonize := true |>) acts)
      end
  end.

(** ** The side of the daemon *)
Definition PCAPD_MAX_INTERFACES : Z := 16.

Record pcapd_conf_t := mk_pconf {
  pc_ifnames : list bytes;
  pc_bpf : option bytes;
  pc_log_file : option bytes;
  pc_uid_filter : option (list Z);     (** without its terminator *)
  pc_inet_ifid : Z;
  pc_dump_datalink : bool;
  pc_daemonize : bool;
  pc_no_client : bool;
  pc_quiet : bool;
  pc_log_uid : Z
}.
#[export] Instance eta_pcapd_conf : Eta pcapd_conf_t := fun c =>
  mk_pconf (pc_ifnames c) (pc_bpf c) (pc_log_file c) (pc_uid_filter c) (pc_inet_ifid c) (pc_dump_datalink c)
    (pc_daemonize c) (pc_no_client c) (pc_quiet c) (pc_log_uid c).
Definition init_conf : pcapd_conf_t := mk_pconf [] None None None (-1) false false false false 0.

(** [getopt]: the options with their arguments, then how it ended: [true] when
    no argument is left. An option that is not in [optstring], or without its
    argument, is a question mark. *)
Inductive optkind := OptNone | OptFlag | OptArg.
Definition optstring (c : Z) : optkind :=
  if bool_decide (c ∈ STR "hdtn") then OptFlag
  else if bool_decide (c ∈ STR "iubLl") then OptArg
  else OptNone.
Definition QUESTION : Z := 63.

Fixpoint getopt (argv : list bytes) : list (Z * option bytes) * bool :=
  match argv with
  | [] => ([], true)
  | arg :: rest =>
      match arg with
      | 45 :: 45 :: [] => ([], bool_decide (rest = []))
      | 45 :: ((_ :: _) as opts) =>
          (fix cluster (cs : bytes) : list (Z * option bytes) * bool :=
             match cs with
             | [] => getopt rest
             | c :: cs' =>
                 match optstring c with
                 | OptNone => ([(QUESTION, None)], false)
                 | OptFlag => prod_map (cons (c, None)) id (cluster cs')
                 | OptArg =>
                     match cs', rest with
                     | [], [] => ([(QUESTION, None)], false)
                     | [], a :: rest' => prod_map (cons (c, Some a)) id (getopt rest')
                     | _, _ => prod_map (cons (c, Some cs')) id (getopt rest)
                     end
                 end
             end) opts
      | _ => ([], false)
      end
  end.

(** [strtok_r(s, ",")]: the parts that are not empty. *)
Fixpoint tokens (s acc : bytes) : list bytes :=
  let emit := match acc with [] => [] | _ => [acc] end in
  match s with
  | [] => emit
  | c :: s' => if c =? 44 then emit ++ tokens s' [] else tokens s' (acc ++ [c])
  end.

(** [None]: the program exits. *)
Fixpoint filter_uids (toks : list bytes) : option (list Z) :=
  match toks with
  | [] => Some []
  | tok :: toks' =>
      let uid := atoi tok in
      if uid <? -1 then None
      else uids ← filter_uids toks'; Some (if uid =? -1 then uids else uid :: uids)
  end.
Definition parse_uid_filter (s : bytes) : option (list Z) := filter_uids (tokens s []).

(** One option; [None]: the program exits. *)
Definition apply_opt (conf : pcapd_conf_t) (opt : Z * option bytes) : option pcapd_conf_t :=
  let '(c, optarg) := opt in
  let arg := default [] optarg in
  if c =? 105 (* i *) then
    if Z.of_nat (length (pc_ifnames conf)) >=? PCAPD_MAX_INTERFACES then None
    else if bool_decide (arg = STR "@inet") then
      if negb (pc_inet_ifid conf =? -1) then None
      else Some (conf <| pc_inet_ifid := Z.of_nat (length (pc_ifnames conf)) |> <| pc_ifnames ::= fun l => l ++ [arg] |>)
    else Some (conf <| pc_ifnames ::= fun l => l ++ [arg] |>)
  else if c =? 100 (* d *) then Some (conf <| pc_daemonize := true |>)
  else if c =? 116 (* t *) then Some (conf <| pc_dump_datalink := true |>)
  else if c =? 110 (* n *) then Some (conf <| pc_no_client := true |>)
  else if c =? 117 (* u *) then uids ← parse_uid_filter arg; Some (conf <| pc_uid_filter := Some uids |>)
  else if c =? 98 (* b *) then Some (conf <| pc_bpf := Some arg |>)
  else if c =? 108 (* l *) then Some (conf <| pc_log_file := Some arg |>)
  else if c =? 76 (* L *) then Some (conf <| pc_log_uid := u32 (atoi arg) |>)
  else if c =? 113 (* q *) then Some (conf <| pc_quiet := true |>)
  else None.

Fixpoint apply_opts (conf : pcapd_conf_t) (opts : list (Z * option bytes)) : option pcapd_conf_t :=
  match opts with
  | [] => Some conf
  | opt :: opts' => conf ← apply_opt conf opt; apply_opts conf opts'
  end.

(** [None]: the program exits, with [usage] or an error. [argv] is without the name. *)
Definition parse_args (argv : list bytes) : option pcapd_conf_t :=
  let '(opts, all) := getopt argv in
  conf ← apply_opts init_conf opts;
  if negb all then None
  else Some (match pc_ifnames conf with
             | [] => conf <| pc_inet_ifid := 0 |> <| pc_ifnames := [STR "@inet"] |>
             | _ => conf
             end).

(** The loop over the filter does not move its pointer: it ends at the first
    UID or not at all. [None]: it has not ended after [fuel] turns. *)
Fixpoint first_uid_loop (fuel : nat) (first uid : Z) : option bool :=
  match fuel with
  | O => None
  | S fuel' => if first =? uid then Some true else first_uid_loop fuel' first uid
  end.
Definition matches_uid_filter (fuel : nat) (filter : option (list Z)) (uid : Z) : option bool :=
  match filter with
  | None | Some [] => Some true
  | Some (first :: _) => first_uid_loop fuel first uid
  end.

(** ** Facts *)
Definition join_uids (uids : list Z) : bytes :=
  match uids with [] => [] | uid :: uids' => print_int uid ++ concat ((fun u => STR "," ++ print_int u) <$> uids') end.

Lemma snprintf_fits n text : blen text < n -> snprintf n text = text.
Proof. intros Hn. apply take_ge. unfold blen in Hn. lia. Qed.

Lemma uids_text_rest uids size buf off :
  off + blen (concat ((fun u => STR "," ++ print_int u) <$> uids)) < size ->
  uids_text uids false size buf off = buf ++ concat ((fun u => STR "," ++ print_int u) <$> uids).
Proof.
  revert buf off. induction uids as [|uid uids IH]; intros buf off; [by rewrite app_nil_r|].
  rewrite fmap_cons. cbn [concat uids_text]. rewrite blen_app. intros Ho.
  pose proof (blen_nonneg (concat ((fun u => STR "," ++ print_int u) <$> uids))).
  pose proof (blen_nonneg (STR "," ++ print_int uid)). destruct (Z.geb_spec off size); [lia|].
  rewrite snprintf_fits by lia. rewrite IH by lia. by rewrite <- app_assoc.
Qed.

Lemma uids_text_fits uids size : blen (join_uids uids) < size -> uids_text uids true size [] 0 = join_uids uids.
Proof.
  destruct uids as [|uid uids]; [done|]. cbn [uids_text join_uids]. rewrite blen_app. intros Hs.
  pose proof (blen_nonneg (print_int uid)). pose proof (blen_nonneg (concat ((fun u => STR "," ++ print_int u) <$> uids))).
  destruct (Z.geb_spec 0 size); [lia|]. change ([] ++ print_int uid) with (print_int uid).
  rewrite snprintf_fits by lia. rewrite uids_text_rest by lia. done.
Qed.

(** *** Numbers *)
Definition is_dec (c : Z) : Prop := 48 <= c <= 57.

Lemma dec_digit c : is_Some (digit_val 10 c) <-> is_dec c.
Proof.
  unfold digit_val, is_dec. split.
  - intros [d Hd]. destruct (Z.leb_spec 48 c), (Z.leb_spec c 57), (Z.leb_spec 65 c), (Z.leb_spec c 70), (Z.leb_spec 97 c), (Z.leb_spec c 102); simpl in Hd;
      try lia; try done; destruct (Z.ltb_spec (c - 55) 10), (Z.ltb_spec (c - 87) 10); lia || done.
  - intros Hc. destruct (Z.leb_spec 48 c), (Z.leb_spec c 57); simpl; try lia. destruct (Z.ltb_spec (c - 48) 10); [eauto|lia].
Qed.

Lemma dec_digit_val c : is_dec c -> digit_val 10 c = Some (c - 48).
Proof.
  intros Hc. unfold digit_val, is_dec in *. destruct (Z.leb_spec 48 c), (Z.leb_spec c 57); simpl; try lia. by destruct (Z.ltb_spec (c - 48) 10); [|lia].
Qed.

Lemma print_dec_dec n : 0 <= n < 2 ^ 32 -> Forall is_dec (print_dec 0 n) /\ print_dec 0 n <> [] /\ value_of 10 0 (print_dec 0 n) = n.
Proof.
  intros Hn. change (print_dec 0 n) with (digits_of 10 32 n []).
  destruct (digits_of_spec 10 32 n []) as [Hd Hv]; [lia|split; [lia|]; change (10 ^ Z.of_nat 32) with (10 ^ 32); lia|constructor|].
  split_and!; [|apply digits_of_nil|by rewrite Hv]. eapply Forall_impl; [exact Hd|]. intros c Hc. by apply dec_digit.
Qed.

Lemma digits_value acc ds : Forall is_dec ds -> digits acc ds = value_of 10 acc ds.
Proof.
  intros Hd. revert acc. induction Hd as [|c ds Hc Hds IH]; intros acc; simpl; [done|].
  unfold is_digit. pose proof Hc as Hc'. unfold is_dec in Hc'. destruct (Z.leb_spec 48 c), (Z.leb_spec c 57); simpl; try lia.
  rewrite IH. unfold value_of. simpl. rewrite (dec_digit_val c Hc). simpl. f_equal. lia.
Qed.

Lemma atoi_print n : 0 <= n < 2 ^ 32 -> atoi (print_int n) = n.
Proof.
  intros Hn. destruct (print_dec_dec n Hn) as (Hd & Hne & Hv). unfold print_int. destruct (Z.ltb_spec n 0); [lia|].
  destruct (print_dec 0 n) as [|c ds] eqn:E; [done|]. unfold atoi. pose proof Hd as [Hc _]%Forall_cons.
  destruct (digit_not_space 10 c) as (Hsp & H45 & H43); [by apply dec_digit|]. cbn [skip_spaces]. rewrite Hsp.
  destruct (Z.eqb_spec c 45); [done|]. destruct (Z.eqb_spec c 43); [done|]. by rewrite digits_value.
Qed.

Definition is_uid (u : Z) : Prop := 0 <= u < 2 ^ 31.

Lemma print_int_dec u : is_uid u -> Forall is_dec (print_int u) /\ print_int u <> [].
Proof. intros Hu. unfold print_int, is_uid in *. destruct (Z.ltb_spec u 0); [lia|]. destruct (print_dec_dec u) as (? & ? & _); [lia|done]. Qed.

(** *** The filter read back *)
Lemma tokens_word w s acc : Forall is_dec w -> tokens (w ++ s) acc = tokens s (acc ++ w).
Proof.
  intros Hw. revert acc. induction Hw as [|c w Hc Hw IH]; intros acc; simpl; [by rewrite app_nil_r|].
  unfold is_dec in Hc. destruct (Z.eqb_spec c 44); [lia|]. rewrite IH. by rewrite <- app_assoc.
Qed.

Lemma tokens_rest uids w : w <> [] -> Forall is_uid uids ->
  tokens (concat ((fun u => STR "," ++ print_int u) <$> uids)) w = w :: (print_int <$> uids).
Proof.
  intros Hw Hu. revert w Hw. induction Hu as [|u uids Hu Hus IH]; intros w Hw; csimpl; [by destruct w|].
  destruct (print_int_dec u Hu) as [Hd Hne]. change (STR ",") with [44]. destruct w as [|c w]; [done|]. csimpl.
  f_equal. by rewrite tokens_word, IH.
Qed.

Lemma filter_uids_read uids : Forall is_uid uids -> filter_uids (print_int <$> uids) = Some uids.
Proof.
  induction 1 as [|u uids Hu Hus IH]; csimpl; [done|]. unfold is_uid in Hu. rewrite atoi_print by lia.
  destruct (Z.ltb_spec u (-1)); [lia|]. rewrite IH. simpl. by destruct (Z.eqb_spec u (-1)); [lia|].
Qed.

Lemma parse_uid_filter_read uids : uids <> [] -> Forall is_uid uids -> parse_uid_filter (join_uids uids) = Some uids.
Proof.
  intros Hne Hu. unfold parse_uid_filter. destruct uids as [|u uids]; [done|]. pose proof Hu as [Hu1 Hus]%Forall_cons.
  destruct (print_int_dec u Hu1) as [Hd Hn]. unfold join_uids. rewrite tokens_word by done. rewrite tokens_rest by done.
  by apply (filter_uids_read (u :: uids)).
Qed.

(** The search in a filter never ends for a UID that is not the first. *)
Lemma matches_uid_filter_hangs fuel first rest uid :
  first <> uid -> matches_uid_filter fuel (Some (first :: rest)) uid = None.
Proof. intros Hne. simpl. induction fuel as [|fuel IH]; simpl; [done|]. by destruct (Z.eqb_spec first uid). Qed.

(** ** The shell *)

(** Words of a command line: plain, or between single quotes. *)
Inductive sh_word := Plain (w : bytes) | Quoted (w : bytes).
Definition sh_text (w : sh_word) : bytes := match w with Plain w | Quoted w => w end.
Definition sh_render (w : sh_word) : bytes := match w with Plain w => w | Quoted w => [39] ++ w ++ [39] end.
Definition plain_char (c : Z) : bool := isalnum c || bool_decide (c ∈ STR "-_./,").
Definition quotable (w : bytes) : Prop := Forall (fun c => c <> 39 /\ c <> 10 /\ c <> 13) w.
Definition sh_word_ok (w : sh_word) : Prop :=
  match w with Plain w => w <> [] /\ Forall (fun c => plain_char c = true) w | Quoted w => quotable w end.
Definition path_char (c : Z) : bool := plain_char c || bool_decide (c ∈ STR "~=").
(** An absolute path. *)
Definition path_ok (prog : bytes) : Prop := exists p, prog = 47 :: p /\ Forall (fun c => path_char c = true) p.

Fixpoint sh_join (ws : list sh_word) : bytes :=
  match ws with [] => [] | [w] => sh_render w | w :: ws' => sh_render w ++ [32] ++ sh_join ws' end.

(** What the shell is documented to do with such a line: the command and its arguments. *)
Definition shell_ok (sh : bytes -> option (list bytes)) : Prop :=
  forall prog ws, path_ok prog -> Forall sh_word_ok ws -> ws <> [] -> sh (command_line prog (sh_join ws)) = Some (prog :: (sh_text <$> ws)).

(** The words of the daemon. *)
Definition pcapd_words (uid : Z) (c : libpcap_conf) : list sh_word :=
  [Plain (STR "-l"); Plain (STR "pcapd.log"); Plain (STR "-L"); Plain (print_dec 0 uid); Plain (STR "-i"); Quoted (lc_interface c);
   Plain (STR "-u"); Plain (get_uids_filter (lc_tls c) (lc_uids c) 128); Plain (STR "-t"); Plain (STR "-b"); Quoted (bpf_of c)] ++
  (if lc_daemonize c then [Plain (STR "-d")] else []).

Lemma pcapd_args_join uid c : pcapd_args_text uid c = sh_join (pcapd_words uid c).
Proof.
  unfold pcapd_args_text, pcapd_words. set (f := get_uids_filter _ _ _). set (u := print_dec 0 uid).
  destruct (lc_daemonize c); cbn [app sh_join sh_render]; rewrite <- ?app_assoc, ?app_nil_r; reflexivity.
Qed.

(** *** The words are safe *)
Lemma is_dec_plain ds : Forall is_dec ds -> Forall (fun c => plain_char c = true) ds.
Proof.
  intros Hd. eapply Forall_impl; [exact Hd|]. intros c Hc. unfold is_dec in Hc. unfold plain_char, isalnum.
  destruct (Z.leb_spec 48 c), (Z.leb_spec c 57); simpl; lia || done.
Qed.

Lemma filter_text_plain tls uids : Forall is_uid uids -> blen (join_uids uids) < 128 ->
  sh_word_ok (Plain (get_uids_filter tls uids 128)).
Proof.
  intros Hu Hb. unfold get_uids_filter. destruct (tls || _) eqn:E; [split; [done|by repeat constructor]|].
  rewrite uids_text_fits by done. destruct uids as [|u uids]; [by destruct tls|]. apply Forall_cons in Hu as [Hu Hus].
  destruct (print_int_dec u Hu) as [Hd Hne]. cbn [join_uids]. split; [by intros [? _]%app_eq_nil|].
  apply Forall_app. split; [by apply is_dec_plain|]. clear -Hus. induction Hus as [|v vs Hv _ IH]; [constructor|].
  rewrite fmap_cons. cbn [concat]. rewrite <- app_assoc. apply Forall_app. split; [by repeat constructor|].
  apply Forall_app. split; [|exact IH]. by apply is_dec_plain, (print_int_dec v Hv).
Qed.

Lemma valid_bpf_quotable bpf : valid_bpf bpf = true -> quotable bpf.
Proof.
  unfold valid_bpf, quotable. rewrite forallb_forall, Forall_forall. setoid_rewrite <- list_elem_of_In. intros Hb c Hc%Hb.
  apply negb_true_iff, bool_decide_eq_false in Hc. split_and!; intros ->; apply Hc; unfold disallowed_chars; by repeat constructor.
Qed.

Lemma valid_ifname_quotable name : valid_ifname name = true -> quotable name.
Proof.
  unfold valid_ifname. destruct name as [|c0 name]; [done|]. destruct (_ >=? 16); [done|]. intros Hn. apply Forall_forall.
  rewrite forallb_forall in Hn. setoid_rewrite <- list_elem_of_In in Hn. intros c Hc%Hn.
  split_and!; intros ->; discriminate Hc.
Qed.

Lemma pcapd_words_ok uid c : 0 <= uid < 2 ^ 32 -> Forall is_uid (lc_uids c) -> blen (join_uids (lc_uids c)) < 128 ->
  quotable (lc_interface c) -> quotable (bpf_of c) -> Forall sh_word_ok (pcapd_words uid c).
Proof.
  intros Hu Hus Hb Hi Hbpf. destruct (print_dec_dec uid Hu) as (Hd & Hne & _). unfold pcapd_words.
  apply Forall_app. split; [|destruct (lc_daemonize c); repeat constructor; done].
  repeat (apply Forall_cons; split); try exact Hi; try exact Hbpf; try (by apply filter_text_plain); try (split; [done|by repeat constructor]);
    [split; [exact Hne|by apply is_dec_plain]|constructor].
Qed.

(** *** The words parsed *)

(** The configuration that the capture means. *)
Definition meant (uid : Z) (c : libpcap_conf) : pcapd_conf_t :=
  mk_pconf [lc_interface c] (Some (bpf_of c)) (Some (STR "pcapd.log")) (Some (if lc_tls c then [] else lc_uids c))
    (if bool_decide (lc_interface c = STR "@inet") then 0 else -1) true (lc_daemonize c) false false uid.

Lemma filter_read_back tls uids : Forall is_uid uids -> blen (join_uids uids) < 128 ->
  parse_uid_filter (get_uids_filter tls uids 128) = Some (if tls then [] else uids).
Proof.
  intros Hu Hb. unfold get_uids_filter. destruct tls; [done|]. destruct uids as [|u uids]; [done|].
  rewrite uids_text_fits by done. cbn [orb]. destruct (Z.leb_spec (Z.of_nat (length (u :: uids))) 0); [cbn [length] in *; lia|].
  by apply parse_uid_filter_read.
Qed.

Lemma parse_pcapd_words uid c : 0 <= uid < 2 ^ 32 -> Forall is_uid (lc_uids c) -> blen (join_uids (lc_uids c)) < 128 ->
  parse_args (sh_text <$> pcapd_words uid c) = Some (meant uid c).
Proof.
  intros Hu Hus Hb. pose proof (filter_read_back (lc_tls c) _ Hus Hb) as Hf.
  assert (Ha : atoi (print_dec 0 uid) = uid). { pose proof (atoi_print uid Hu) as Ha. unfold print_int in Ha. by destruct (Z.ltb_spec uid 0); [lia|]. }
  assert (Hu32 : u32 (atoi (print_dec 0 uid)) = uid) by (rewrite Ha; by apply u32_small).
  unfold pcapd_words. rewrite fmap_app. replace (sh_text <$> (if lc_daemonize c then _ else _)) with (if lc_daemonize c then [STR "-d"] else [])
    by by destruct (lc_daemonize c).
  unfold parse_args, meant. csimpl. rewrite Hf, Hu32. destruct (lc_daemonize c); case_bool_decide; reflexivity.
Qed.

(** *** What is run *)

(** An action that does not run the daemon: it runs [kill], or nothing. *)
Definition no_daemon (a : connect_action) : Prop := match a with Spawn p _ _ => p = STR "kill" | _ => True end.

Lemma abandon_acts c pid acts : exists rest, abandon c pid acts = (None, c, acts ++ rest) /\ Forall no_daemon rest.
Proof. unfold abandon. eexists. split; [reflexivity|]. destruct (pid >? 0), (lc_daemonize c); repeat constructor. Qed.

Lemma start_pcapd_acts e c acts : exists r c' rest,
  start_pcapd e c acts = (r, c', acts ++ Spawn (ce_path e) (pcapd_args (ce_uid e) c) (lc_as_root c) :: rest) /\ Forall no_daemon rest.
Proof.
  set (spawn := Spawn _ _ _).
  assert (Hab : forall c pid rest, Forall no_daemon rest -> exists r c' rest',
    abandon c pid (acts ++ spawn :: rest) = (r, c', acts ++ spawn :: rest') /\ Forall no_daemon rest').
  { intros c0 pid rest Hr. destruct (abandon_acts c0 pid (acts ++ spawn :: rest)) as (rest' & -> & Hr').
    do 2 eexists. exists (rest ++ rest'). split; [by rewrite <- app_assoc|by apply Forall_app]. }
  unfold start_pcapd. fold spawn. cbv zeta. destruct (_ <=? 0); [by apply (Hab _ _ [])|]. rewrite <- !app_assoc. cbn [app].
  destruct (lc_daemonize c && _); [rewrite <- ?app_assoc; cbn [app]; apply Hab; destruct (lc_daemonize c); repeat constructor|].
  destruct (wait_connection _ _ _) as [[err pid]|]; [rewrite <- ?app_assoc; cbn [app]; apply Hab; destruct (lc_daemonize c), err; repeat constructor|].
  destruct (ce_accept e) as [client|]; [|rewrite <- ?app_assoc; cbn [app]; apply Hab; destruct (lc_daemonize c); repeat constructor].
  do 3 eexists. split; [reflexivity|]. destruct (lc_daemonize c); repeat constructor.
Qed.

(** The configuration that the daemon is started with. *)
Definition started (c : libpcap_conf) : libpcap_conf := if lc_pcap_file c then c else c <| lc_daemonize := true |>.

(** The daemon is run only on an interface and a filter that were validated. *)
Lemma connectPcapd_cases e c r c' acts :
  connectPcapd e c = Some (r, c', acts) ->
  r = None /\ c' = c /\ Forall no_daemon acts \/
  exists acts0, start_pcapd e (started c) acts0 = (r, c', acts) /\ Forall no_daemon acts0 /\
    quotable (bpf_of c) /\ (lc_pcap_file c = true \/ quotable (lc_interface c)).
Proof.
  unfold connectPcapd. destruct (ce_path e) as [|p0 path]; [intros [= <- <- <-]; by left|].
  destruct (negb (ce_chdir e)); [intros [= <- <- <-]; left; by repeat constructor|].
  destruct (ce_socket e); [|intros [= <- <- <-]; left; by repeat constructor].
  destruct (get_pcapd_pid _) as [pid|]; [|done]. cbn [mbind option_bind]. set (acts0 := if pid >? 0 then _ else _).
  assert (Ha0 : Forall no_daemon acts0) by (subst acts0; destruct (pid >? 0); repeat constructor).
  assert (Hab : forall err, Some (abandon c (-1) (acts0 ++ [LogFatal err])) = Some (r, c', acts) -> r = None /\ c' = c /\ Forall no_daemon acts).
  { intros err Heq. destruct (abandon_acts c (-1) (acts0 ++ [LogFatal err])) as (rest & Hrest & Hr). rewrite Hrest in Heq. injection Heq as <- <- <-.
    split_and!; [done|done|]. rewrite !Forall_app. split_and!; [exact Ha0|repeat constructor|exact Hr]. }
  destruct (negb (ce_bind e)); [left; by eapply Hab|]. destruct (negb _) eqn:Eb; [left; by eapply Hab|].
  assert (Hq : quotable (bpf_of c)).
  { apply negb_false_iff in Eb. destruct (bpf_of c) as [|b bpf]; [constructor|]. by apply valid_bpf_quotable. }
  unfold started. destruct (lc_pcap_file c).
  - destruct (ce_access e); [|left; by eapply Hab]. intros Hst. right. exists acts0. split_and!; auto. congruence.
  - destruct (negb (valid_ifname _)) eqn:Ei; [left; by eapply Hab|]. apply negb_false_iff in Ei. intros Hst. right. exists acts0.
    split_and!; auto using valid_ifname_quotable. congruence.
Qed.

Lemma no_daemon_spawn e args root acts :
  ce_path e <> STR "kill" -> Forall no_daemon acts -> Spawn (ce_path e) args root ∈ acts -> False.
Proof. intros Hk Ha Hi. by apply Hk, (proj1 (Forall_forall _ _) Ha _ Hi). Qed.

Lemma connectPcapd_spawn e c r c' acts args root :
  connectPcapd e c = Some (r, c', acts) -> ce_path e <> STR "kill" -> Spawn (ce_path e) args root ∈ acts ->
  args = pcapd_args (ce_uid e) (started c) /\ root = lc_as_root c /\ quotable (bpf_of c) /\
  (lc_pcap_file c = true \/ quotable (lc_interface c)).
Proof.
  intros Hc Hk Hin. destruct (connectPcapd_cases _ _ _ _ _ Hc) as [(_ & _ & Ha)|(acts0 & Hst & Ha & Hq & Hi)];
    [by destruct (no_daemon_spawn _ _ _ _ Hk Ha Hin)|].
  destruct (start_pcapd_acts e (started c) acts0) as (r1 & c1 & rest & Hst' & Hr). rewrite Hst in Hst'. injection Hst' as -> -> ->.
  apply elem_of_app in Hin as [Hin|Hin]; [by destruct (no_daemon_spawn _ _ _ _ Hk Ha Hin)|].
  apply elem_of_cons in Hin as [Heq|Hin]; [|by destruct (no_daemon_spawn _ _ _ _ Hk Hr Hin)].
  injection Heq as -> ->. split_and!; [done| |done|done]. unfold started. by destruct (lc_pcap_file c).
Qed.

Lemma pcapd_args_whole uid c : blen (pcapd_args uid c) < 255 -> pcapd_args uid c = sh_join (pcapd_words uid c).
Proof.
  rewrite <- pcapd_args_join. unfold pcapd_args, snprintf, blen. rewrite length_take. intros Hb. apply take_ge. lia.
Qed.

(** *** A shell *)

(** The words of a line without expansions: [None] when a quote is left open,
    or for a character with a meaning of its own. *)
Fixpoint sh_words (s : bytes) (cur : option bytes) (quoted : bool) : option (list bytes) :=
  let emit := match cur with Some w => [w] | None => [] end in
  let add c := Some (default [] cur ++ [c]) in
  match s with
  | [] => if quoted then None else Some emit
  | c :: s' =>
      if quoted then if c =? 39 then sh_words s' cur false else sh_words s' (add c) true
      else if c =? 39 then sh_words s' (Some (default [] cur)) true
      else if (c =? 32) || (c =? 10) then (fun ws => emit ++ ws) <$> sh_words s' None false
      else if plain_char c || (path_char c && match cur with Some (47 :: _) => true | _ => false end) then sh_words s' (add c) false
      else None
  end.

Lemma sh_words_plain w s cur : Forall (fun c => plain_char c = true) w ->
  sh_words (w ++ s) (Some cur) false = sh_words s (Some (cur ++ w)) false.
Proof.
  intros Hw. revert cur. induction Hw as [|c w Hc Hw IH]; intros cur; [by rewrite app_nil_r|]. cbn [app sh_words].
  destruct (Z.eqb_spec c 39) as [->|]; [discriminate Hc|]. destruct (Z.eqb_spec c 32) as [->|]; [discriminate Hc|].
  destruct (Z.eqb_spec c 10) as [->|]; [discriminate Hc|]. cbn [orb default]. rewrite Hc. cbn [orb]. rewrite IH. by rewrite <- app_assoc.
Qed.

Lemma sh_words_quoted w s cur : quotable w -> sh_words (w ++ s) (Some cur) true = sh_words s (Some (cur ++ w)) true.
Proof.
  intros Hw. revert cur. induction Hw as [|c w (Hc & _) Hw IH]; intros cur; [by rewrite app_nil_r|]. cbn [app sh_words default].
  destruct (Z.eqb_spec c 39); [done|]. rewrite IH. by rewrite <- app_assoc.
Qed.

Lemma sh_words_render w c s : sh_word_ok w -> c = 32 \/ c = 10 ->
  sh_words (sh_render w ++ c :: s) None false = (fun ws => sh_text w :: ws) <$> sh_words s None false.
Proof.
  intros Hw Hc. destruct w as [w|w]; cbn [sh_render sh_text sh_word_ok] in *.
  - destruct Hw as [Hne Hw]. destruct w as [|c0 w]; [done|]. apply Forall_cons in Hw as [Hc0 Hw]. cbn [app sh_words].
    destruct (Z.eqb_spec c0 39) as [->|]; [discriminate Hc0|]. destruct (Z.eqb_spec c0 32) as [->|]; [discriminate Hc0|].
    destruct (Z.eqb_spec c0 10) as [->|]; [discriminate Hc0|]. cbn [orb default]. rewrite Hc0. cbn [orb app]. rewrite sh_words_plain by done.
    cbn [sh_words]. by destruct Hc as [-> | ->].
  - cbn [app sh_words Z.eqb Pos.eqb default]. rewrite <- app_assoc, sh_words_quoted by done. cbn [app sh_words Z.eqb Pos.eqb].
    by destruct Hc as [-> | ->].
Qed.

Lemma sh_words_join ws : Forall sh_word_ok ws -> ws <> [] -> sh_words (sh_join ws ++ [NEWLINE]) None false = Some (sh_text <$> ws).
Proof.
  induction 1 as [|w ws Hw Hws IH]; [done|]. intros _. destruct ws as [|w' ws].
  - cbn [sh_join]. by rewrite sh_words_render by auto.
  - change (sh_join (w :: w' :: ws)) with (sh_render w ++ [32] ++ sh_join (w' :: ws)). rewrite <- !app_assoc. cbn [app].
    rewrite sh_words_render, IH by auto. done.
Qed.

Lemma sh_words_path p s cur : Forall (fun c => path_char c = true) p ->
  sh_words (p ++ s) (Some (47 :: cur)) false = sh_words s (Some (47 :: cur ++ p)) false.
Proof.
  intros Hp. revert cur. induction Hp as [|c p Hc Hp IH]; intros cur; [by rewrite app_nil_r|]. cbn [app sh_words].
  destruct (Z.eqb_spec c 39) as [->|]; [discriminate Hc|]. destruct (Z.eqb_spec c 32) as [->|]; [discriminate Hc|].
  destruct (Z.eqb_spec c 10) as [->|]; [discriminate Hc|]. cbn [orb default]. rewrite Hc, andb_true_r, orb_true_r. cbn [id app].
  rewrite IH. by rewrite <- app_assoc.
Qed.

Lemma sh_words_ok : shell_ok (fun line => sh_words line None false).
Proof.
  intros prog ws (p & -> & Hp) Hws Hne. unfold command_line. cbn [app sh_words]. change (plain_char 47) with true. cbn [Z.eqb Pos.eqb orb default app].
  rewrite (sh_words_path p _ []) by done. cbn [app sh_words Z.eqb Pos.eqb orb]. by rewrite sh_words_join.
Qed.

(** ** The daemon runs what was asked *)

(** C21: For a shell that splits words as documented, a program whose path has
    only plain characters and a list of UIDs that fits its buffer, whatever the
    network interface and the filter that the user gave - and, when a file is
    read, a path without quotes nor ends of lines, which nothing validates (see
    the findings): the line that runs the daemon, when it was not cut, has one
    command, and the daemon reads from it the very configuration of the capture
    - the interface as its only one, the filter, the UIDs (none with TLS
    decryption), the log owner - and nothing else: no option is added and no
    command is injected. *)
Theorem pcapd_runs_as_meant sh e c r c' acts args root :
  shell_ok sh -> path_ok (ce_path e) -> 0 <= ce_uid e < 2 ^ 32 -> Forall is_uid (lc_uids c) -> blen (join_uids (lc_uids c)) < 128 ->
  (lc_pcap_file c = true -> quotable (lc_interface c)) ->
  connectPcapd e c = Some (r, c', acts) -> Spawn (ce_path e) args root ∈ acts -> blen args < 255 ->
  root = lc_as_root c /\
  exists argv, sh (command_line (ce_path e) args) = Some (ce_path e :: argv) /\ parse_args argv = Some (meant (ce_uid e) (started c)).
Proof.
  intros Hsh Hp Hu Hus Hub Hf Hc Hin Hb.
  destruct (connectPcapd_spawn e c r c' acts args root Hc) as (-> & -> & Hq & Hi); [by destruct Hp as (p & -> & _)|exact Hin|].
  split; [done|]. assert (Hu' : lc_uids (started c) = lc_uids c) by (unfold started; by destruct (lc_pcap_file c)).
  exists (sh_text <$> pcapd_words (ce_uid e) (started c)). rewrite pcapd_args_whole by done. split; [|by apply parse_pcapd_words; rewrite ?Hu'].
  apply Hsh; [done| |done]. apply pcapd_words_ok; rewrite ?Hu'; try done; unfold started, bpf_of; destruct (lc_pcap_file c); naive_solver.
Qed.

Definition ex_cenv : connect_env :=
  mk_cenv (STR "/data/app/~~u4A==/lib/libpcapd.so") true (Some 7) (Some (STR "123
")) true true 10123 4242 (Some 0) [mk_poll true true None] (Some 8).
Definition ex_conf : libpcap_conf :=
  mk_lconf false false (STR "@inet") (Some (STR "tcp port 443 and (net 10.0.0.0/8); reboot")) [10200; 10317] true false 0.

(** The filter tries to end the command: it stays an argument. *)
Lemma pcapd_runs_as_meant_witness : exists argv,
  sh_words (command_line (ce_path ex_cenv) (pcapd_args 10123 (ex_conf <| lc_daemonize := true |>))) None false = Some (ce_path ex_cenv :: argv) /\
  parse_args argv = Some (meant 10123 (ex_conf <| lc_daemonize := true |>)) /\ pc_bpf (meant 10123 ex_conf) = Some (bpf_of ex_conf).
Proof.
  destruct (pcapd_runs_as_meant (fun line => sh_words line None false) ex_cenv ex_conf (Some 8)
    (ex_conf <| lc_daemonize := true |> <| lc_pcapd_pid := 4242 |>)
    [kill_process 123 true SIGTERM; Spawn (ce_path ex_cenv) (pcapd_args 10123 (ex_conf <| lc_daemonize := true |>)) true; WaitPid 4242]
    (pcapd_args 10123 (ex_conf <| lc_daemonize := true |>)) true) as [_ (argv & Hsh & Hargs)].
  - apply sh_words_ok.
  - eexists. split; [reflexivity|]. repeat constructor.
  - simpl. lia.
  - repeat constructor; unfold is_uid; lia.
  - vm_compute. reflexivity.
  - discriminate.
  - vm_compute. reflexivity.
  - right. by left.
  - vm_compute. reflexivity.
  - exists argv. split; [exact Hsh|]. split; [exact Hargs|reflexivity].
Defined.

(** A long filter is cut, and its quote stays open: the shell has no command to run. *)
Lemma long_filter_cut :
  sh_words (command_line (ce_path ex_cenv) (pcapd_args 10123 (ex_conf <| lc_bpf := Some (repeat 97 220) |>))) None false = None.
Proof. vm_compute. reflexivity. Qed.

(** A quote in the path of a capture file ends the word, and what follows is read by the shell. *)
Lemma file_path_escapes :
  sh_words (command_line (STR "pcapd") (pcapd_args 0 (ex_conf <| lc_pcap_file := true |> <| lc_interface := STR "a' -n '" |>))) None false =
  Some (STR "pcapd" :: [STR "-l"; STR "pcapd.log"; STR "-L"; STR "0"; STR "-i"; STR "a"; STR "-n"; []; STR "-u"; STR "10200,10317"; STR "-t"; STR "-b"; bpf_of ex_conf]).
Proof. vm_compute. reflexivity. Qed.
