(* ===== verification/RootRun.v ===== *)
(** What the root capture does around its packet loop (core/capture_libpcap.c,
    [run_libpcap]): the daemon, the redirections of the TLS decryption, and
    their removal. *)
From Stdlib Require Import ZArith Lia String.
From stdpp Require Import base option gmap numbers list.
From S2P Require Import Prelude Packet Uthash Lru AppNames PcapDump Blacklist NdpiProtos Conn ConnInv JavaDump Dpi Housekeeping JavaRequests CaptureLibpcap Examples PdRun CText UidResolver PcapdArgs.

Open Scope Z_scope.

(** ** Operations *)

(** The messages for the user. *)
Inductive root_message :=
  | MsgNotStarted
  | MsgWaitFailed
  | MsgInvocationFailed
  | MsgInvalidPcapFile
  | MsgInterfaceOpenError
  | MsgUnsupportedDatalink
  | MsgPcapRead
  | MsgDaemonExited (rv : Z).

(** How a command of the shell goes: it is not started (no pipe, no process); it
    ends with a status; it ends with a status that [waitpid] fails to give. *)
Inductive shell_end :=
  | NotStarted
  | Ended (status : Z)
  | Unreaped (status : Z).

Inductive root_action :=
  | Daemon (a : connect_action)
  | Iptables (args : bytes) (r : shell_end)
  | Tell (m : root_message)
  | CloseSocket (sock : Z)
  | WaitDaemon (pid : Z).

Definition get_mitm_redirection_args (mitm_addon_uid uid : Z) (add : bool) : bytes :=
  STR "-t nat -" ++ (if add then STR "I" else STR "D") ++ STR " OUTPUT -p tcp -m owner " ++
  (if uid >=? 0 then STR "--uid-owner " ++ print_int uid else STR "! --uid-owner " ++ print_int mitm_addon_uid) ++
  STR " -j REDIRECT --to 7780".

(** [pcapd_rv] (pcapd/pcapd.h) *)
Definition PCAPD_OK : Z := 0.
Definition PCAPD_ERROR : Z := 1.
Definition PCAPD_INTERFACE_OPEN_FAILED : Z := 2.
Definition PCAPD_NETLINK_ERROR : Z := 3.
Definition PCAPD_PCAP_READ_ERROR : Z := 4.
Definition PCAPD_SOCKET_WRITE_ERROR : Z := 5.
Definition PCAPD_UNSUPPORTED_DATALINK : Z := 6.
Definition PCAPD_EOF : Z := 7.

Definition process_pcapd_rv (pcap_file_capture : bool) (rv : Z) : list root_action :=
  if rv =? PCAPD_OK then []
  else if rv =? PCAPD_INTERFACE_OPEN_FAILED then [Tell (if pcap_file_capture then MsgInvalidPcapFile else MsgInterfaceOpenError)]
  else if rv =? PCAPD_UNSUPPORTED_DATALINK then [Tell MsgUnsupportedDatalink]
  else if rv =? PCAPD_PCAP_READ_ERROR then [Tell MsgPcapRead]
  else if rv =? PCAPD_SOCKET_WRITE_ERROR then []
  else [Tell (MsgDaemonExited rv)].

(** What [run_shell_cmd] returns. *)
Definition shell_rv (r : shell_end) : Z := match r with Ended status => status | _ => -1 end.

(** [run_shell_cmd("iptables", args, true, check_error)]. *)
Definition run_iptables (args : bytes) (r : shell_end) (check_error : bool) : list root_action :=
  Iptables args r ::
  match r with
  | NotStarted => [Tell MsgNotStarted]
  | Unreaped _ => [Tell MsgWaitFailed]
  | Ended rv => if check_error && negb (rv =? 0) then [Tell MsgInvocationFailed] else []
  end.

(** The loop over the UIDs of the filter: whether it ended without an error,
    whether redirections are to remove. [r]: how the n-th command goes. *)
Fixpoint add_redirections (mitm_addon_uid : Z) (r : nat -> shell_end) (uids : list Z) (cleanup : bool) : bool * bool * list root_action :=
  match uids with
  | [] => (true, cleanup, [])
  | uid :: uids' =>
      if uid <? 0 then add_redirections mitm_addon_uid r uids' cleanup else
      let acts := run_iptables (get_mitm_redirection_args mitm_addon_uid uid true) (r O) true in
      if negb (shell_rv (r O) =? 0) then (false, cleanup, acts) else
      let '(ok, cleanup, acts') := add_redirections mitm_addon_uid (fun n => r (S n)) uids' true in
      (ok, cleanup, acts ++ acts')
  end.

Definition start_redirections (mitm_addon_uid : Z) (r : nat -> shell_end) (c : libpcap_conf) : bool * bool * list root_action :=
  if negb (lc_tls c) then (true, false, []) else
  match lc_uids c with
  | [] =>
      let ok := shell_rv (r O) =? 0 in
      (ok, ok, run_iptables (get_mitm_redirection_args mitm_addon_uid (-1) true) (r O) true)
  | uids => add_redirections mitm_addon_uid r uids false
  end.

Fixpoint remove_redirections (mitm_addon_uid : Z) (r : nat -> shell_end) (uids : list Z) : list root_action :=
  match uids with
  | [] => []
  | uid :: uids' =>
      if uid >=? 0 then
        run_iptables (get_mitm_redirection_args mitm_addon_uid uid false) (r O) false ++
        remove_redirections mitm_addon_uid (fun n => r (S n)) uids'
      else remove_redirections mitm_addon_uid r uids'
  end.

Definition stop_redirections (mitm_addon_uid : Z) (r : nat -> shell_end) (c : libpcap_conf) (cleanup : bool) : list root_action :=
  if negb cleanup then [] else
  match lc_uids c with
  | [] => run_iptables (get_mitm_redirection_args mitm_addon_uid (-1) false) (r O) false
  | uids => remove_redirections mitm_addon_uid r uids
  end.

Definition WIFEXITED (status : Z) : bool := Z.land status 127 =? 0.
Definition WEXITSTATUS (status : Z) : Z := Z.land (Z.shiftr status 8) 255.

(** The end of the daemon; [status]: what [waitpid] gives. *)
Definition reap_daemon (c : libpcap_conf) (status : option Z) : list root_action :=
  if (lc_pcapd_pid c >? 0) && negb (lc_daemonize c) then
    let st := default PCAPD_ERROR status in
    WaitDaemon (lc_pcapd_pid c) :: (if WIFEXITED st then process_pcapd_rv (lc_pcap_file c) (WEXITSTATUS st) else [])
  else [].

(** What the system answers. *)
Record root_env := mk_renv {
  re_zdt : bool;
  re_connect : connect_env;
  re_add : nat -> shell_end;       (** how the commands that add redirections go *)
  re_remove : nat -> shell_end;    (** and those that remove them *)
  re_clock : option Z;
  re_events : list loop_event;
  re_status : option Z
}.

(** Before the loop: the socket, whether the redirections were made, whether
    some are to remove, the configuration, what was done. [None] is undefined. *)
Definition root_start (mitm_addon_uid : Z) (e : root_env) (c : libpcap_conf)
  : option (option Z * bool * bool * libpcap_conf * list root_action) :=
  '(sock, c, acts) ← connectPcapd (re_connect e) c;
  let acts := Daemon <$> acts in
  match sock with
  | None => Some (None, false, false, c, acts)
  | Some sock =>
      let '(ok, cleanup, acts') := start_redirections mitm_addon_uid (re_add e) c in
      Some (Some sock, ok, cleanup, c, acts ++ acts')
  end.

(** After the loop. *)
Definition root_end (mitm_addon_uid : Z) (e : root_env) (sock : option Z) (cleanup : bool) (c : libpcap_conf) : list root_action :=
  (match sock with Some fd => if fd >? 0 then [CloseSocket fd] else [] | None => [] end) ++
  stop_redirections mitm_addon_uid (re_remove e) c cleanup ++
  reap_daemon c (re_status e).

Section root.
Context {P F : Type} `{Ndpi P} `{NdpiFlow F} (java_app_name : Z -> option bytes).

(** The whole of [run_libpcap]: its result and what it asks to the system. *)
Definition run_libpcap_root (mitm_addon_uid : Z) (e : root_env) (c : libpcap_conf) : M (pcapdroid P F) (Z * list root_action) :=
  if negb (re_zdt e) then mret (-1, []) else
  '(sock, ok, cleanup, c, acts) ← of_option (root_start mitm_addon_uid e c);
  rv ← run_libpcap java_app_name true (bool_decide (is_Some sock)) ok (re_clock e) (re_events e);
  mret (rv, acts ++ root_end mitm_addon_uid e sock cleanup c).
End root.

(** ** The run and its cleanup *)

(** The redirections that are made - a command of [iptables] with the status 0
    does what it says, whether [waitpid] then gives the status or not - and those
    whose removal is asked. *)
Definition succeeds (r : shell_end) : bool := match r with NotStarted => false | Ended st | Unreaped st => st =? 0 end.
Definition made (acts : list root_action) : list bytes :=
  omap (fun a => match a with Iptables args r => if succeeds r then Some args else None | _ => None end) acts.
Definition removed (acts : list root_action) : list bytes :=
  omap (fun a => match a with Iptables args _ => Some args | _ => None end) acts.

Lemma omap_other {A} (f : root_action -> option A) acts : Forall (fun a => f a = None) acts -> omap f acts = [].
Proof. induction 1 as [|a acts Ha Hacts IH]; csimpl; [done|]. by rewrite Ha. Qed.

Lemma made_daemon acts : made (Daemon <$> acts) = [].
Proof. apply omap_other, Forall_fmap, Forall_true. done. Qed.
Lemma made_app a b : made (a ++ b) = made a ++ made b.
Proof. apply omap_app. Qed.
Lemma removed_app a b : removed (a ++ b) = removed a ++ removed b.
Proof. apply omap_app. Qed.

Section redirections.
Context (mitm : Z).
Abbreviation rule := (get_mitm_redirection_args mitm).
Definition applies (uid : Z) : Prop := 0 <= uid.
Definition filtered (uids : list Z) : list Z := base.filter applies uids.

Lemma filtered_cons uid uids : filtered (uid :: uids) = if uid <? 0 then filtered uids else uid :: filtered uids.
Proof. unfold filtered. rewrite filter_cons. unfold applies. by case_decide; destruct (Z.ltb_spec uid 0); try lia. Qed.

Lemma made_run args r check : made (run_iptables args r check) = if succeeds r then [args] else [].
Proof. unfold run_iptables, made. csimpl. destruct r as [|st|st]; csimpl; [done| |by destruct (st =? 0)]. by destruct check; destruct (st =? 0). Qed.
Lemma removed_run args r check : removed (run_iptables args r check) = [args].
Proof. unfold run_iptables, removed. csimpl. destruct r as [|st|st]; csimpl; [done| |done]. by destruct (check && _). Qed.

Lemma tri_inj {A B C} (a a' : A) (b b' : B) (c c' : C) : (a, b, c) = (a', b', c') -> a = a' /\ b = b' /\ c = c'.
Proof. by intros [= -> -> ->]. Qed.

(** A command that does not return 0 did nothing, unless its status was lost. *)
Lemma failed_made r : shell_rv r <> 0 -> succeeds r = false \/ r = Unreaped 0.
Proof. destruct r as [|st|st]; simpl; [by left|intros; left; by apply Z.eqb_neq|intros _]. destruct (Z.eqb_spec st 0) as [-> |]; [by right|by left]. Qed.

(** The first redirection whose status was lost. *)
Definition lost (r : nat -> shell_end) (uids : list Z) : Prop := r O = Unreaped 0 /\ exists uid, uids = [uid].

Lemma add_redirections_made r uids cleanup ok cleanup' acts :
  add_redirections mitm r uids cleanup = (ok, cleanup', acts) ->
  exists uids1 uids2, filtered uids = uids1 ++ uids2 /\ made acts = (fun u => rule u true) <$> uids1 /\
    (cleanup = true -> cleanup' = true) /\ (cleanup' = false -> uids1 = [] \/ lost r uids1).
Proof.
  revert r cleanup ok cleanup' acts. induction uids as [|uid uids IH]; intros r cleanup ok cleanup' acts; cbn [add_redirections].
  { intros [= <- <- <-]. exists [], []. split_and!; [done|done|done|by left]. }
  rewrite filtered_cons. destruct (Z.ltb_spec uid 0); [by apply IH|]. destruct (Z.eqb_spec (shell_rv (r O)) 0) as [E|E]; cbn [negb].
  - destruct (add_redirections _ _ uids true) as [[ok1 cl1] acts1] eqn:E1. intros Heq. apply tri_inj in Heq as (<- & <- & <-).
    destruct (IH _ _ _ _ _ E1) as (u1 & u2 & Hu & Hm & Hc & _). exists (uid :: u1), u2.
    rewrite Hu, made_app, made_run, Hm, Hc by done. split_and!; [done| |done|done].
    destruct (r O) as [|st|st]; simpl in E; [done|by subst st|done].
  - intros Heq. apply tri_inj in Heq as (<- & <- & <-). rewrite made_run. destruct (failed_made _ E) as [Hf|Hf].
    + exists [], (uid :: filtered uids). rewrite Hf. split_and!; [done|done|done|by left].
    + exists [uid], (filtered uids). rewrite Hf. split_and!; [done|done|done|]. right. split; [done|by exists uid].
Qed.

Lemma remove_redirections_removed r uids : removed (remove_redirections mitm r uids) = (fun u => rule u false) <$> filtered uids.
Proof.
  revert r. induction uids as [|uid uids IH]; intros r; [done|]. cbn [remove_redirections]. rewrite filtered_cons, Z.geb_leb.
  destruct (Z.leb_spec 0 uid), (Z.ltb_spec uid 0); try lia; [|by apply IH]. by rewrite removed_app, removed_run, IH.
Qed.

(** What was added, in order, begins what is removed, but for one redirection. *)
Definition undone (r : nat -> shell_end) (before after : list root_action) : Prop :=
  exists uids, made before = (fun u => rule u true) <$> uids /\
    ((exists rest, removed after = (fun u => rule u false) <$> (uids ++ rest)) \/ (lost r uids /\ removed after = [])).

Lemma redirections_undone r r' c ok cleanup acts :
  start_redirections mitm r c = (ok, cleanup, acts) -> undone r acts (stop_redirections mitm r' c cleanup).
Proof.
  unfold start_redirections, stop_redirections, undone. destruct (lc_tls c); cbn [negb]; [|intros [= <- <- <-]; exists []; split; [done|left; by exists []]].
  destruct (lc_uids c) as [|u us].
  - intros Heq. apply tri_inj in Heq as (<- & <- & <-). destruct (Z.eqb_spec (shell_rv (r O)) 0) as [E|E]; cbn [negb]; rewrite made_run.
    + exists [-1]. destruct (r O) as [|st|st]; simpl in E; [done|subst st|done]. split; [done|]. left. exists []. by rewrite removed_run.
    + destruct (failed_made _ E) as [Hf|Hf]; rewrite Hf; [exists []; split; [done|left; by exists []]|].
      exists [-1]. split; [done|]. right. split; [|done]. split; [done|by exists (-1)].
  - intros E. destruct (add_redirections_made _ _ _ _ _ _ E) as (u1 & u2 & Hu & Hm & _ & Hn). exists u1. split; [done|].
    destruct cleanup; cbn [negb]; [left; exists u2; by rewrite <- Hu, remove_redirections_removed|].
    destruct (Hn eq_refl) as [-> |Hl]; [left; by exists []|by right].
Qed.

Lemma start_redirections_no_daemon rv c ok cleanup acts :
  start_redirections mitm rv c = (ok, cleanup, acts) ->
  Forall (fun x => match x with Daemon _ => False | _ => True end) acts.
Proof.
  assert (Hrun : forall args r, Forall (fun x => match x with Daemon _ => False | _ => True end) (run_iptables args r true)).
  { intros args r. unfold run_iptables. constructor; [done|]. destruct r; [repeat constructor| |repeat constructor]. destruct (true && _); repeat constructor. }
  unfold start_redirections. destruct (negb _); [intros [= <- <- <-]; constructor|].
  destruct (lc_uids c) as [|u us]; [intros [= <- <- <-]; apply Hrun|]. generalize false. generalize (u :: us). clear u us.
  intros uids. revert rv ok cleanup acts. induction uids as [|uid uids IH]; intros rv ok cleanup acts cl; cbn [add_redirections]; [intros [= <- <- <-]; constructor|].
  destruct (uid <? 0); [by apply IH|]. destruct (negb _); [intros [= <- <- <-]; apply Hrun|].
  destruct (add_redirections _ _ uids true) as [[ok1 cl1] acts1] eqn:E1. intros [= <- <- <-]. apply (Forall_app _ (run_iptables _ _ true)). split; [apply Hrun|by eapply IH].
Qed.
End redirections.

(** ** The daemon *)

(** What became of the process [pid] that was started: connected, with the
    socket [r]; or given up. The process is the shell that starts the daemon
    when the daemon runs on its own: it was waited for. It is the daemon
    otherwise: it had ended, and the user is told, or it is killed and waited
    for. *)
Definition given_up (e : connect_env) (c : libpcap_conf) (acts : list connect_action) : Prop :=
  if lc_daemonize c then WaitPid (ce_spawn e) ∈ acts
  else LogFatal ErrStart ∈ acts \/ (kill_process (ce_spawn e) (lc_as_root c) SIGKILL ∈ acts /\ WaitPid (ce_spawn e) ∈ acts).

Definition daemon_fate (e : connect_env) (c : libpcap_conf) (r : option Z) (c' : libpcap_conf) (acts : list connect_action) : Prop :=
  match r with
  | Some client => ce_accept e = Some client /\ c' = c <| lc_pcapd_pid := ce_spawn e |> /\ (lc_daemonize c = true -> WaitPid (ce_spawn e) ∈ acts)
  | None => c' = c /\ given_up e c acts
  end.

Lemma wait_connection_pid daemonize pid polls err pid' :
  wait_connection daemonize pid polls = inl (err, pid') -> pid' = pid \/ (err = Some ErrStart /\ daemonize = false).
Proof.
  induction polls as [|p polls IH]; cbn [wait_connection]; [intros [= <- <-]; by left|].
  destruct (negb _); [intros [= <- <-]; by left|]. destruct (po_ready p); [done|]. destruct (po_exited p); [|done].
  destruct daemonize; [done|]. intros [= <- <-]. by right.
Qed.

Lemma abandon_fate e c acts : 0 < ce_spawn e -> (lc_daemonize c = true -> WaitPid (ce_spawn e) ∈ acts) ->
  daemon_fate e c None c (abandon c (ce_spawn e) acts).2.
Proof.
  intros Hs Hw. unfold abandon. cbn [snd daemon_fate]. split; [done|]. unfold given_up. destruct (Z.gtb_spec (ce_spawn e) 0); [|lia].
  destruct (lc_daemonize c); [apply elem_of_app; left; by apply Hw|]. right. rewrite !elem_of_app, !list_elem_of_singleton. tauto.
Qed.

Lemma start_pcapd_fate e c acts r c' acts' :
  0 < ce_spawn e -> start_pcapd e c acts = (r, c', acts') -> daemon_fate e c r c' acts'.
Proof.
  intros Hs. unfold start_pcapd. cbv zeta. destruct (Z.leb_spec (ce_spawn e) 0); [lia|].
  set (acts1 := (acts ++ [Spawn _ _ _]) ++ _). assert (Hw : lc_daemonize c = true -> WaitPid (ce_spawn e) ∈ acts1).
  { intros Hd. unfold acts1. rewrite Hd. rewrite !elem_of_app, !list_elem_of_singleton. tauto. }
  assert (Hab : forall l, daemon_fate e c None c (abandon c (ce_spawn e) (acts1 ++ l)).2).
  { intros l. apply abandon_fate; [done|]. intros Hd. rewrite elem_of_app. left. by apply Hw. }
  destruct (lc_daemonize c && _); [intros [= <- <- <-]; apply Hab|].
  destruct (wait_connection _ _ _) as [[err pid]|] eqn:E.
  - apply wait_connection_pid in E as [-> |[-> Hd]]; intros [= <- <- <-]; [apply Hab|]. split; [done|]. unfold given_up. rewrite Hd. left.
    rewrite !elem_of_app, !list_elem_of_singleton. tauto.
  - destruct (ce_accept e) as [client|] eqn:Ea; intros [= <- <- <-]; [done|apply Hab].
Qed.

Lemma connectPcapd_fate e c r c' acts args root :
  connectPcapd e c = Some (r, c', acts) -> ce_path e <> STR "kill" -> 0 < ce_spawn e -> Spawn (ce_path e) args root ∈ acts ->
  daemon_fate e (started c) r c' acts.
Proof.
  intros Hc Hk Hs Hin. destruct (connectPcapd_cases _ _ _ _ _ Hc) as [(_ & _ & Ha)|(acts0 & Hst & _)].
  - by destruct (no_daemon_spawn _ _ _ _ Hk Ha Hin).
  - by eapply start_pcapd_fate.
Qed.

Lemma connectPcapd_total e c : ce_pidfile e <> Some [] -> is_Some (connectPcapd e c).
Proof.
  intros Hp. unfold connectPcapd. destruct (ce_path e); [done|]. destruct (negb _); [done|]. destruct (ce_socket e); [|done].
  unfold get_pcapd_pid. destruct (ce_pidfile e) as [[|b f]|]; [done| |done]. unfold fgets. destruct (take_line _ _). done.
Qed.

(** ** A whole run *)

(** What is owed when the daemon was started: when it connected, its socket is
    closed at the end and the process that was started is waited for, before the
    loop if it is the shell of a daemon that runs on its own, at the end
    otherwise; when it did not, it was given up. *)
Definition daemon_over (e : connect_env) (c : libpcap_conf) (before after : list root_action) : Prop :=
  match connectPcapd e c with
  | Some (Some client, _, _) =>
      (0 < client -> CloseSocket client ∈ after) /\
      if lc_daemonize (started c) then Daemon (WaitPid (ce_spawn e)) ∈ before else WaitDaemon (ce_spawn e) ∈ after
  | Some (None, _, _) =>
      if lc_daemonize (started c) then Daemon (WaitPid (ce_spawn e)) ∈ before
      else Daemon (LogFatal ErrStart) ∈ before \/
        (Daemon (kill_process (ce_spawn e) (lc_as_root c) SIGKILL) ∈ before /\ Daemon (WaitPid (ce_spawn e)) ∈ before)
  | None => False
  end.

Lemma reap_no_redirection c st : removed (reap_daemon c st) = [].
Proof. apply omap_other. unfold reap_daemon, process_pcapd_rv. repeat (case_match; repeat constructor). Qed.

Lemma root_start_undone mitm e c sock ok cleanup c' before :
  root_start mitm e c = Some (sock, ok, cleanup, c', before) -> undone mitm (re_add e) before (root_end mitm e sock cleanup c').
Proof.
  unfold root_start, root_end. destruct (connectPcapd _ _) as [[[r c1] acts]|]; [|done]. cbn [mbind option_bind].
  destruct r as [client|].
  - destruct (start_redirections _ _ _) as [[ok1 cl1] acts1] eqn:Er. intros [= <- <- <- <- <-].
    destruct (redirections_undone mitm _ (re_remove e) _ _ _ _ Er) as (uids & Hm & Hr). exists uids.
    rewrite made_app, made_daemon, !removed_app, reap_no_redirection, app_nil_r. split; [exact Hm|]. by destruct (client >? 0).
  - intros [= <- <- <- <- <-]. exists []. rewrite made_daemon. split; [done|]. left. exists [].
    unfold stop_redirections. cbn [negb app]. by rewrite reap_no_redirection.
Qed.

Lemma root_start_daemon mitm e c sock ok cleanup c' before :
  root_start mitm e c = Some (sock, ok, cleanup, c', before) ->
  ce_path (re_connect e) <> STR "kill" -> 0 < ce_spawn (re_connect e) ->
  forall args root, Daemon (Spawn (ce_path (re_connect e)) args root) ∈ before ->
  daemon_over (re_connect e) c before (root_end mitm e sock cleanup c').
Proof.
  unfold root_start, daemon_over. destruct (connectPcapd _ _) as [[[r c1] acts]|] eqn:Ec; [|done]. cbn [mbind option_bind]. intros Hst Hk Hs args root.
  assert (Hnot : forall acts' a, Forall (fun x => match x with Daemon _ => False | _ => True end) acts' ->
    Daemon a ∈ (Daemon <$> acts) ++ acts' -> a ∈ acts).
  { intros acts' a Ha [Hin|Hin]%elem_of_app; [by apply list_elem_of_fmap in Hin as (a' & [= ->] & Hin)|].
    by apply (proj1 (Forall_forall _ _) Ha) in Hin. }
  assert (Hmap : forall a acts', a ∈ acts -> Daemon a ∈ (Daemon <$> acts) ++ acts').
  { intros a acts' Ha. apply elem_of_app. left. apply list_elem_of_fmap. by exists a. }
  destruct r as [client|].
  - destruct (start_redirections _ _ _) as [[ok1 cl1] acts1] eqn:Er. injection Hst as <- <- <- <- <-. intros Hin.
    apply Hnot in Hin; [|by eapply start_redirections_no_daemon].
    pose proof (connectPcapd_fate _ _ _ _ _ _ _ Ec Hk Hs Hin) as (_ & -> & Hd). unfold root_end, reap_daemon. split.
    + intros Hc. destruct (Z.gtb_spec client 0); [|lia]. by left.
    + change (lc_daemonize (_ <| lc_pcapd_pid := _ |>)) with (lc_daemonize (started c)).
      change (lc_pcapd_pid (_ <| lc_pcapd_pid := ?p |>)) with p.
      destruct (lc_daemonize (started c)); [by apply Hmap, Hd|]. rewrite !elem_of_app. right. right. destruct (Z.gtb_spec (ce_spawn (re_connect e)) 0); [|lia]. by left.
  - injection Hst as <- <- <- <- <-. rewrite <- (app_nil_r (Daemon <$> acts)). intros Hin. apply Hnot in Hin; [|constructor].
    destruct (connectPcapd_fate _ _ _ _ _ _ _ Ec Hk Hs Hin) as [_ Hg]. unfold given_up in Hg.
    assert (Hroot : lc_as_root (started c) = lc_as_root c) by (unfold started; by destruct (lc_pcap_file c)). rewrite Hroot in Hg.
    destruct (lc_daemonize (started c)); [by apply Hmap|]. destruct Hg as [Hg|[Hg Hg']]; [left|right; split]; by apply Hmap.
Qed.

Section root_theorem.
Context {P F : Type} `{Ndpi P} `{NdpiFlow F} (java_app_name : Z -> option bytes).
#[local] Existing Instance libpcap_mode.

(** C23: a root capture comes to its end and cleans up, when the PID file of the
    daemon is not empty, the process that starts the daemon could be made, the
    packets read from the socket are in their buffer (at most 65519 bytes) and
    every [realloc] and [strndup] of the core succeeds; the requests of the Java
    side, the other allocations, JNI calls and commands may fail. The
    redirections that it added to the firewall of the device, in order, are
    among those whose removal it asks - but for the very first, when [waitpid]
    failed to give the status of the command that had added it. A daemon that
    was started and connected sees its socket closed; the process that was
    started is waited for, be it the shell of a daemon that runs on its own or
    the daemon itself, which, when it did not connect, had ended (the user is
    told) or is killed. A daemon that runs on its own and did not connect is
    not killed: see the findings. *)
Theorem root_run_cleans_up mitm e c (s : pcapdroid P F) :
  initial s -> all_ok (reallocs s) -> all_ok (strndups s) -> Forall event_ok (re_events e) ->
  ce_pidfile (re_connect e) <> Some [] -> ce_path (re_connect e) <> STR "kill" -> 0 < ce_spawn (re_connect e) ->
  exists rv before after s', run_libpcap_root java_app_name mitm e c s = Some ((rv, before ++ after), s') /\
    connections s' = [] /\ undone mitm (re_add e) before after /\
    forall args root, Daemon (Spawn (ce_path (re_connect e)) args root) ∈ before -> daemon_over (re_connect e) c before after.
Proof.
  intros Hini Hr Hs Hev Hp Hk Hsp. pose proof (inv_initial false s libpcap_no_table Hini Hr Hs ltac:(done)) as Hi.
  unfold run_libpcap_root. destruct (re_zdt e); cbn [negb].
  - destruct (connectPcapd_total (re_connect e) c Hp) as [[[sock0 c0] acts0] Ec].
    destruct (root_start mitm e c) as [[[[[sock ok] cleanup] c'] before]|] eqn:Es; cycle 1.
    { unfold root_start in Es. rewrite Ec in Es. cbn [mbind option_bind] in Es. destruct sock0; [|done]. by destruct (start_redirections _ _ _) as [[? ?] ?]. }
    pose proof (run_libpcap_inv java_app_name false true (bool_decide (is_Some sock)) ok (re_clock e) (re_events e) s Hi (ini_connections _ Hini) Hev) as Hw.
    unfold wp in Hw. unfold mbind, M_bind, of_option, mret, M_ret.
    destruct (run_libpcap _ _ _ _ _ _ s) as [[rv s']|]; [|done]. destruct Hw as [_ Hcn].
    exists rv, before, (root_end mitm e sock cleanup c'), s'. split_and!; [done|done|by eapply root_start_undone|by eapply root_start_daemon].
  - exists (-1), [], [], s. split_and!; [done|apply (ini_connections _ Hini)|exists []; split; [done|left; by exists []]|].
    intros args root Hin. by apply not_elem_of_nil in Hin.
Qed.
End root_theorem.

(** The decryption for two apps, the second of which cannot be redirected: what
    was made is removed, and the daemon sees its socket closed. *)
Definition ex_renv : root_env :=
  mk_renv true ex_cenv (fun n => if (n =? 0)%nat then Ended 0 else Ended 256) (fun _ => Ended 0) (Some 1000) ex_events None.
Definition ex_rconf : libpcap_conf := ex_conf <| lc_tls := true |>.

Lemma root_run_cleans_up_witness :
  exists rv before after s', run_libpcap_root ex_app_name 10555 ex_renv ex_rconf (ex_state <| jni_calls := [] |>) = Some ((rv, before ++ after), s') /\
    connections s' = [] /\ undone 10555 (re_add ex_renv) before after /\
    forall args root, Daemon (Spawn (ce_path ex_cenv) args root) ∈ before -> daemon_over ex_cenv ex_rconf before after.
Proof.
  apply root_run_cleans_up; [apply ex_initial|constructor|constructor|exact ex_events_ok|discriminate|discriminate|reflexivity].
Defined.

Definition ex_connected : libpcap_conf := started ex_rconf <| lc_pcapd_pid := 4242 |>.
Example ex_root_start : root_start 10555 ex_renv ex_rconf = Some (Some 8, false, true, ex_connected,
  [Daemon (kill_process 123 true SIGTERM);
   Daemon (Spawn (ce_path ex_cenv) (pcapd_args 10123 (started ex_rconf)) true); Daemon (WaitPid 4242);
   Iptables (STR "-t nat -I OUTPUT -p tcp -m owner --uid-owner 10200 -j REDIRECT --to 7780") (Ended 0);
   Iptables (STR "-t nat -I OUTPUT -p tcp -m owner --uid-owner 10317 -j REDIRECT --to 7780") (Ended 256); Tell MsgInvocationFailed]) /\
  root_end 10555 ex_renv (Some 8) true ex_connected =
  [CloseSocket 8;
   Iptables (STR "-t nat -D OUTPUT -p tcp -m owner --uid-owner 10200 -j REDIRECT --to 7780") (Ended 0);
   Iptables (STR "-t nat -D OUTPUT -p tcp -m owner --uid-owner 10317 -j REDIRECT --to 7780") (Ended 0)].
Proof. split; vm_compute; reflexivity. Qed.

(** The buffers of 128 bytes hold the arguments. *)
Lemma print_int_short n : - 2 ^ 31 <= n < 2 ^ 31 -> blen (print_int n) <= 11.
Proof.
  intros Hn. assert (Hd : forall m, 0 <= m <= 2 ^ 31 -> blen (print_dec 0 m) <= 10).
  { intros m Hm. change (print_dec 0 m) with (digits_of 10 32 m []). pose proof (digits_of_length 10 32 m [] 9) as Hl. unfold blen. cbn [length] in Hl.
    specialize (Hl ltac:(lia) ltac:(change (10 ^ Z.of_nat 10) with 10000000000; lia)). lia. }
  unfold print_int. destruct (Z.ltb_spec n 0); [rewrite blen_cons; specialize (Hd (- n) ltac:(lia))|specialize (Hd n ltac:(lia))]; lia.
Qed.

Lemma redirection_args_fit mitm uid add : - 2 ^ 31 <= mitm < 2 ^ 31 -> - 2 ^ 31 <= uid < 2 ^ 31 ->
  blen (get_mitm_redirection_args mitm uid add) < 128.
Proof.
  intros Hm Hu. pose proof (print_int_short mitm Hm). pose proof (print_int_short uid Hu). unfold get_mitm_redirection_args.
  generalize dependent (print_int mitm). generalize dependent (print_int uid). intros u Hbu m Hbm.
  destruct add, (uid >=? 0); rewrite !blen_app; unfold blen in *; simpl; lia.
Qed.
