(* ===== verification/NlUtils.v ===== *)
(** The lookups of UIDs over netlink (pcapd/nl_utils.c): the requests as they
    are sent, the replies as they are read, and the order of the lookups. *)
From Stdlib Require Import ZArith Lia.
From stdpp Require Import base option numbers list.
From S2P Require Import Prelude Packet Uthash Lru AppNames PcapDump Blacklist NdpiProtos Conn UidResolver.

Open Scope Z_scope.

Definition AF_INET : Z := 2.
Definition AF_INET6 : Z := 10.
Definition NLM_F_REQUEST : Z := 1.
Definition NLM_F_DUMP : Z := 0x300.
Definition SOCK_DIAG_BY_FAMILY : Z := 20.
Definition NLMSG_ERROR : Z := 2.
Definition NLMSG_DONE : Z := 3.
Definition ENOENT : Z := 2.
Definition sizeof_nlmsghdr : Z := 16.
Definition sizeof_nlmsgerr : Z := 20.
Definition sizeof_inet_diag_msg : Z := 72.

Record pd_sockaddr := mk_sockaddr { sa_addr : Z; sa_port : Z }.
Definition wildcard : pd_sockaddr := mk_sockaddr 0 0.

(** ** Requests *)

(** The addresses of [inet_diag_sockid], of 16 bytes. *)
Definition diag_addr (family addr : Z) : bytes :=
  if family =? AF_INET then le32 (u32 addr) ++ zeros 12 else le_split 16 addr.

(** [inet_diag_req_v2] *)
Definition encode_req (family ipproto : Z) (local remote : pd_sockaddr) : bytes :=
  [u8 family; u8 ipproto; 0; 0] ++ le32 0xFFFFFFFF ++
  le16 (sa_port local) ++ le16 (sa_port remote) ++ diag_addr family (sa_addr local) ++ diag_addr family (sa_addr remote) ++
  le32 0 ++ le32 0xFFFFFFFF ++ le32 0xFFFFFFFF.

(** [nlmsghdr] *)
Definition nl_header (len type flags seq pid : Z) : bytes :=
  le32 len ++ le16 type ++ le16 flags ++ le32 seq ++ le32 pid.

(** The message: its header, then the request. *)
Definition encode_nlmsg (family ipproto : Z) (local remote : pd_sockaddr) (flags seq : Z) : bytes :=
  let req := encode_req family ipproto local remote in
  nl_header (sizeof_nlmsghdr + blen req) SOCK_DIAG_BY_FAMILY flags seq 0 ++ req.

(** ** Replies *)

(** The buffer after [recvmsg] of [msg]: the rest is what it was before. *)
Definition recv_into (buf msg : bytes) : bytes := take (length buf) msg ++ drop (length msg) buf.

(** The UID of a reply whose header was accepted; [None] is a read outside of
    the buffer. *)
Definition diag_reply_uid (buf : bytes) : option Z :=
  len ← rd32 buf 0;
  type ← rd16 buf 4;
  if type =? NLMSG_ERROR then
    if len >=? sizeof_nlmsghdr + sizeof_nlmsgerr then
      err ← rd32 buf 16;
      Some (if - s32 err =? ENOENT then UID_UNKNOWN else -6)
    else Some (-6)
  else if type =? NLMSG_DONE then Some UID_UNKNOWN
  else if len <? sizeof_nlmsghdr + sizeof_inet_diag_msg then Some (-7)
  else uid ← rd32 buf 80; Some (s32 uid).

(** What [recvmsg] gives, one message after the other, or a failure. *)
Fixpoint diag_recv (do_retry : bool) (seq : Z) (buf : bytes) (replies : list (option bytes)) : option (Z * list (option bytes)) :=
  match replies with
  | [] => Some (-3, [])
  | None :: replies' | Some [] :: replies' => Some (-3, replies')
  | Some msg :: replies' =>
      let rv := Z.of_nat (length msg `min` length buf) in
      let buf := recv_into buf msg in
      len ← rd32 buf 0;
      nlseq ← rd32 buf 8;
      if (len <? sizeof_nlmsghdr) || (len >? rv) then Some (-4, replies')
      else if negb (nlseq =? seq) then
        if do_retry && (nlseq =? u32 (seq - 1)) then diag_recv false seq buf replies'
        else Some (-5, replies')
      else uid ← diag_reply_uid buf; Some (uid, replies')
  end.

(** The static counter, the messages sent, what the kernel answers. *)
Record nl_state := mk_nl {
  nl_seq : Z;
  nl_sent : list bytes;
  nl_send_ok : list bool;
  nl_replies : list (option bytes);
  nl_junk : bytes               (** what the buffer has after the request *)
}.

Definition diag_uid_lookup (family ipproto : Z) (local remote : pd_sockaddr) (flags : Z) : M nl_state Z :=
  fun s =>
    let seq := u32 (nl_seq s + 1) in
    let msg := encode_nlmsg family ipproto local remote flags seq in
    let sent ok := mk_nl seq (if ok : bool then nl_sent s ++ [msg] else nl_sent s) (tail (nl_send_ok s)) (nl_replies s) (nl_junk s) in
    if negb (default true (head (nl_send_ok s))) then Some (-2, sent false) else
    '(uid, replies) ← diag_recv true seq (msg ++ nl_junk s) (nl_replies s);
    let s' := sent true in
    Some (uid, mk_nl (nl_seq s') (nl_sent s') (nl_send_ok s') replies (nl_junk s')).

(** Whether a result ends the search. *)
Definition answered (uid : Z) : bool := (uid >=? 0) || negb (uid =? UID_UNKNOWN).

Definition nl_is_diag_working : M nl_state bool :=
  rv ← diag_uid_lookup AF_INET IPPROTO_UDP wildcard wildcard (Z.lor NLM_F_REQUEST NLM_F_DUMP);
  mret (rv >=? 0).

Definition nl_get_uid (tuple : zdtun_5tuple) : M nl_state Z :=
  let family := if ipver tuple =? 4 then AF_INET else AF_INET6 in
  let proto := ipproto tuple in
  let src := mk_sockaddr (src_ip tuple) (src_port tuple) in
  let dst := mk_sockaddr (dst_ip tuple) (dst_port tuple) in
  let local := if proto =? IPPROTO_UDP then dst else src in
  let remote := if proto =? IPPROTO_UDP then src else dst in
  let dump := Z.lor NLM_F_REQUEST NLM_F_DUMP in
  uid ← diag_uid_lookup family proto local remote NLM_F_REQUEST;
  if answered uid then mret uid else
  uid ← (if family =? AF_INET then diag_uid_lookup AF_INET6 proto local remote NLM_F_REQUEST else mret UID_UNKNOWN);
  if answered uid then mret uid else
  if proto =? IPPROTO_UDP then
    uid ← diag_uid_lookup family proto src wildcard dump;
    if answered uid then mret uid else
    if family =? AF_INET then
      uid ← diag_uid_lookup AF_INET6 proto src wildcard dump;
      mret (if answered uid then uid else UID_UNKNOWN)
    else mret UID_UNKNOWN
  else mret UID_UNKNOWN.

(** ** The order of the lookups *)
Record diag_lookup := mk_lookup { lk_family : Z; lk_local : pd_sockaddr; lk_remote : pd_sockaddr; lk_flags : Z }.

Definition run_lookup (proto : Z) (l : diag_lookup) : M nl_state Z :=
  diag_uid_lookup (lk_family l) proto (lk_local l) (lk_remote l) (lk_flags l).

(** The socket of the connection - for UDP as the kernel sees its other end -
    then, for UDP, any socket bound to its source; each time first with the
    family of the connection, then with that of the IPv6 sockets. *)
Definition lookups (tuple : zdtun_5tuple) : list diag_lookup :=
  let src := mk_sockaddr (src_ip tuple) (src_port tuple) in
  let dst := mk_sockaddr (dst_ip tuple) (dst_port tuple) in
  let families := if ipver tuple =? 4 then [AF_INET; AF_INET6] else [AF_INET6] in
  if ipproto tuple =? IPPROTO_UDP then
    ((fun f => mk_lookup f dst src NLM_F_REQUEST) <$> families) ++
    ((fun f => mk_lookup f src wildcard (Z.lor NLM_F_REQUEST NLM_F_DUMP)) <$> families)
  else (fun f => mk_lookup f src dst NLM_F_REQUEST) <$> families.

Fixpoint first_answer (proto : Z) (ls : list diag_lookup) : M nl_state Z :=
  match ls with
  | [] => mret UID_UNKNOWN
  | l :: ls' =>
      uid ← run_lookup proto l;
      if answered uid then mret uid else first_answer proto ls'
  end.

Lemma first_answer_single proto l s :
  (uid ← run_lookup proto l; mret (if answered uid then uid else UID_UNKNOWN)) s = first_answer proto [l] s.
Proof. cbn [first_answer]. unfold mbind, M_bind. destruct (run_lookup proto l s) as [[uid s']|]; [|done]. by destruct (answered uid). Qed.

Lemma nl_get_uid_lookups tuple s : nl_get_uid tuple s = first_answer (ipproto tuple) (lookups tuple) s.
Proof.
  unfold nl_get_uid, lookups.
  destruct (ipver tuple =? 4); [change (AF_INET =? AF_INET) with true|change (AF_INET6 =? AF_INET) with false];
    destruct (ipproto tuple =? IPPROTO_UDP); cbv beta iota zeta; csimpl; cbn [first_answer]; unfold run_lookup; cbn [lk_family lk_local lk_remote lk_flags].
  all: unfold mbind, M_bind, mret, M_ret; repeat (case_match; simplify_eq; try done).
Qed.

(** ** The kernel *)

(** A reply of the kernel, documented in sock_diag(7) and netlink(7): the socket
    found, with its owner, or that there is none - as an error or, for a dump,
    as its end. *)
Inductive kernel_reply (seq : Z) : option Z -> bytes -> Prop :=
  | reply_socket flags pid body uid rest :
      blen body = 64 -> 0 <= uid < 2 ^ 31 -> 4 <= blen rest <= 424 ->
      kernel_reply seq (Some uid)
        (nl_header (84 + blen rest) SOCK_DIAG_BY_FAMILY flags seq pid ++ body ++ le32 uid ++ rest)
  | reply_error flags pid rest :
      16 <= blen rest <= 492 ->
      kernel_reply seq None (nl_header (20 + blen rest) NLMSG_ERROR flags seq pid ++ le32 (u32 (- ENOENT)) ++ rest)
  | reply_done flags pid rest :
      blen rest <= 496 ->
      kernel_reply seq None (nl_header (16 + blen rest) NLMSG_DONE flags seq pid ++ rest).

(** The header of a reply in the buffer. *)
Lemma recv_whole buf msg : (length msg <= length buf)%nat -> recv_into buf msg = msg ++ drop (length msg) buf.
Proof. intros Hl. unfold recv_into. by rewrite take_ge. Qed.

Lemma blen_nl_header len type flags seq pid : blen (nl_header len type flags seq pid) = 16.
Proof. unfold nl_header. by rewrite !blen_app, !blen_le32, !blen_le16. Qed.

Lemma nl_header_read len type flags seq pid tl :
  0 <= len < 2 ^ 32 -> 0 <= type < 2 ^ 16 -> 0 <= seq < 2 ^ 32 ->
  let buf := nl_header len type flags seq pid ++ tl in
  rd32 buf 0 = Some len /\ rd16 buf 4 = Some type /\ rd32 buf 8 = Some seq.
Proof.
  intros Hl Ht Hs buf. unfold buf, nl_header. rewrite <- !app_assoc.
  split_and!; [by apply (rd32_field [])|by apply (rd16_le16 (le32 len))|].
  rewrite (app_assoc (le16 type)), (app_assoc (le32 len)). by apply rd32_field; [|rewrite !blen_app, blen_le32, !blen_le16].
Qed.

(** What the code reads of a reply at the head of the buffer. *)
Lemma reply_read seq a msg tl : 0 <= seq < 2 ^ 32 -> kernel_reply seq a msg ->
  (16 <= blen msg <= 512 /\ rd32 (msg ++ tl) 0 = Some (blen msg) /\ rd32 (msg ++ tl) 8 = Some seq) /\
  diag_reply_uid (msg ++ tl) = Some (default UID_UNKNOWN a).
Proof.
  intros Hseq Hr. unfold diag_reply_uid, sizeof_nlmsghdr, sizeof_nlmsgerr, sizeof_inet_diag_msg.
  destruct Hr as [flags pid body uid rest Hb Hu Hrest|flags pid rest Hrest|flags pid rest Hrest];
    pose proof (blen_nonneg rest); rewrite !blen_app, blen_nl_header, <- !app_assoc.
  - destruct (nl_header_read (84 + blen rest) SOCK_DIAG_BY_FAMILY flags seq pid (body ++ le32 uid ++ rest ++ tl)) as (H0 & H4 & H8); [lia|done|done|].
    rewrite H0, H4, H8, blen_le32, Hb. split; [split_and!; try lia; f_equal; lia|]. cbn [mbind option_bind].
    change (SOCK_DIAG_BY_FAMILY =? NLMSG_ERROR) with false. change (SOCK_DIAG_BY_FAMILY =? NLMSG_DONE) with false. cbv iota.
    destruct (Z.ltb_spec (84 + blen rest) (16 + 72)); [lia|]. rewrite app_assoc.
    rewrite rd32_field by (rewrite ?blen_app, ?blen_nl_header, ?Hb; lia). cbn [mbind option_bind default]. by rewrite s32_small by lia.
  - destruct (nl_header_read (20 + blen rest) NLMSG_ERROR flags seq pid (le32 (u32 (- ENOENT)) ++ rest ++ tl)) as (H0 & H4 & H8); [lia|done|done|].
    rewrite H0, H4, H8, blen_le32. split; [split_and!; try lia; f_equal; lia|]. cbn [mbind option_bind].
    change (NLMSG_ERROR =? NLMSG_ERROR) with true. cbv iota. rewrite Z.geb_leb. destruct (Z.leb_spec (16 + 20) (20 + blen rest)); [|lia].
    rewrite rd32_field by (rewrite ?blen_nl_header; apply u32_range || lia). done.
  - destruct (nl_header_read (16 + blen rest) NLMSG_DONE flags seq pid (rest ++ tl)) as (H0 & H4 & H8); [lia|done|done|].
    rewrite H0, H4, H8. split; [split_and!; try lia; f_equal; lia|]. done.
Qed.

Lemma diag_recv_reply do_retry seq a msg buf replies :
  0 <= seq < 2 ^ 32 -> kernel_reply seq a msg -> blen buf = 512 ->
  diag_recv do_retry seq buf (Some msg :: replies) = Some (default UID_UNKNOWN a, replies).
Proof.
  intros Hseq Hr Hb. destruct (reply_read seq a msg (drop (length msg) buf) Hseq Hr) as ((Hm & H0 & H8) & Hu).
  destruct msg as [|b0 msg']; [unfold blen in Hm; simpl in Hm; lia|]. set (msg := b0 :: msg') in *. unfold blen in *.
  cbn [diag_recv]. fold msg. rewrite recv_whole by lia. rewrite H0, H8. cbn [mbind option_bind]. unfold sizeof_nlmsghdr.
  rewrite Nat.min_l by lia. destruct (Z.ltb_spec (Z.of_nat (length msg)) 16), (Z.gtb_spec (Z.of_nat (length msg)) (Z.of_nat (length msg))); try lia.
  cbn [orb]. rewrite Z.eqb_refl. cbn [negb]. by rewrite Hu.
Qed.

Lemma blen_recv_into buf msg : blen (recv_into buf msg) = blen buf.
Proof. unfold recv_into, blen. rewrite length_app, length_take, length_drop. lia. Qed.

(** With the rest of the previous answer before it. *)
Lemma diag_recv_replies seq stale a msg buf replies :
  0 <= seq < 2 ^ 32 -> (stale = [] \/ exists a' old, stale = [Some old] /\ kernel_reply (u32 (seq - 1)) a' old) ->
  kernel_reply seq a msg -> blen buf = 512 ->
  diag_recv true seq buf (stale ++ Some msg :: replies) = Some (default UID_UNKNOWN a, replies).
Proof.
  intros Hseq Hst Hr Hb. destruct Hst as [->|(a' & old & -> & Ho)]; [by apply diag_recv_reply|].
  destruct (reply_read _ a' old (drop (length old) buf) (u32_range (seq - 1)) Ho) as ((Hm & H0 & H8) & _).
  cbn [app]. destruct old as [|b0 old']; [unfold blen in Hm; simpl in Hm; lia|]. set (old := b0 :: old') in *.
  remember (Some msg :: replies) as replies0 eqn:E0. cbn [diag_recv]. fold old. pose proof (blen_recv_into buf old) as Hbl. unfold blen in Hb, Hm.
  rewrite recv_whole in * by lia. rewrite H0, H8. cbn [mbind option_bind]. unfold sizeof_nlmsghdr, blen.
  rewrite Nat.min_l by lia. destruct (Z.ltb_spec (Z.of_nat (length old)) 16), (Z.gtb_spec (Z.of_nat (length old)) (Z.of_nat (length old))); try lia.
  cbn [orb]. assert (u32 (seq - 1) <> seq).
  { unfold u32. intros E. pose proof (Z.div_mod (seq - 1) (2 ^ 32)). assert ((seq - 1) / 2 ^ 32 = 0 \/ (seq - 1) / 2 ^ 32 = -1); [|lia].
    destruct (Z.eq_dec seq 0) as [->|]; [by right|left]. apply Z.div_small. lia. }
  destruct (Z.eqb_spec (u32 (seq - 1)) seq); [done|]. cbn [negb]. rewrite Z.eqb_refl. cbn [andb].
  rewrite E0. apply diag_recv_reply; [done|done|]. rewrite Hbl. exact Hb.
Qed.

(** The replies to lookups numbered from [seq + 1], each one possibly after what
    was left of the answer to the one before. *)
Inductive lookup_replies (k : diag_lookup -> option Z) : Z -> list diag_lookup -> list (option bytes) -> Prop :=
  | lookups_nil seq replies : lookup_replies k seq [] replies
  | lookups_cons seq l ls stale msg replies :
      (stale = [] \/ exists a old, stale = [Some old] /\ kernel_reply seq a old) ->
      kernel_reply (u32 (seq + 1)) (k l) msg -> lookup_replies k (u32 (seq + 1)) ls replies ->
      lookup_replies k seq (l :: ls) (stale ++ Some msg :: replies).

(** The lookups that are made: up to the first that finds a socket. *)
Fixpoint asked (k : diag_lookup -> option Z) (ls : list diag_lookup) : list diag_lookup :=
  match ls with [] => [] | l :: ls' => l :: (if k l is Some _ then [] else asked k ls') end.

Definition lookup_msg (proto seq : Z) (l : diag_lookup) : bytes :=
  encode_nlmsg (lk_family l) proto (lk_local l) (lk_remote l) (lk_flags l) seq.
Fixpoint numbered (proto seq : Z) (ls : list diag_lookup) : list bytes :=
  match ls with [] => [] | l :: ls' => lookup_msg proto (u32 (seq + 1)) l :: numbered proto (u32 (seq + 1)) ls' end.

Lemma blen_lookup_msg proto seq l : blen (lookup_msg proto seq l) = 72.
Proof.
  assert (Ha : forall f a, blen (diag_addr f a) = 16).
  { intros f a. unfold diag_addr. destruct (f =? AF_INET); [by rewrite blen_app, blen_le32|by rewrite blen_le_split]. }
  unfold lookup_msg, encode_nlmsg, encode_req. rewrite blen_app, blen_nl_header, !blen_app, !Ha, !blen_le32, !blen_le16. reflexivity.
Qed.

Lemma kernel_reply_uid seq a msg : kernel_reply seq a msg -> forall uid, a = Some uid -> 0 <= uid.
Proof. intros Hr uid ->. inversion Hr; lia. Qed.

Lemma first_answer_spec k proto ls s :
  0 <= nl_seq s < 2 ^ 32 -> nl_send_ok s = [] -> blen (nl_junk s) = 440 -> lookup_replies k (nl_seq s) (asked k ls) (nl_replies s) ->
  exists s', first_answer proto ls s = Some (default UID_UNKNOWN (head (omap k ls)), s') /\
    nl_sent s' = nl_sent s ++ numbered proto (nl_seq s) (asked k ls).
Proof.
  revert s. induction ls as [|l ls IH]; intros s Hseq Hok Hj Hk; cbn [first_answer].
  { exists s. by rewrite app_nil_r. }
  cbn [asked] in Hk. inversion Hk as [|seq l' ls' stale msg replies Hst Hr Hk' E1 E2 E3]; subst.
  pose proof (u32_range (nl_seq s + 1)) as Hn.
  assert (Hprev : u32 (u32 (nl_seq s + 1) - 1) = nl_seq s).
  { unfold u32. rewrite Zminus_mod_idemp_l. replace (nl_seq s + 1 - 1) with (nl_seq s) by lia. by apply Z.mod_small. }
  set (s1 := mk_nl (u32 (nl_seq s + 1)) (nl_sent s ++ [lookup_msg proto (u32 (nl_seq s + 1)) l]) [] replies (nl_junk s)).
  assert (Hrun : run_lookup proto l s = Some (default UID_UNKNOWN (k l), s1)).
  { unfold run_lookup, diag_uid_lookup. rewrite Hok, <- E3. cbn [head default from_option id negb].
    fold (lookup_msg proto (u32 (nl_seq s + 1)) l). rewrite (diag_recv_replies _ stale (k l)); [done| | |done|]; [lia| |].
    - by rewrite Hprev.
    - rewrite blen_app, blen_lookup_msg. lia. }
  unfold mbind, M_bind. rewrite Hrun. cbn [omap list_omap asked numbered]. destruct (k l) as [uid|] eqn:Ek; cbn [default head].
  - pose proof (kernel_reply_uid _ _ _ Hr _ eq_refl) as Huid. assert (answered (id uid) = true) as -> by (unfold answered, id; destruct (Z.geb_spec uid 0); [done|lia]).
    by exists s1.
  - change (answered UID_UNKNOWN) with false. cbv iota. destruct (IH s1) as (s' & E & Hs); [done|done|done|exact Hk'|]. exists s'. split; [exact E|].
    rewrite Hs. subst s1. cbn [nl_sent nl_seq]. rewrite <- app_assoc. done.
Qed.

(** ** What the kernel reads *)

(** A request, as the kernel reads it: [inet_diag_req_v2] in its message. *)
Record diag_query := mk_query {
  q_family : Z; q_proto : Z; q_flags : Z;
  q_sport : Z; q_dport : Z;
  q_src : bytes; q_dst : bytes
}.

(** The number and the request of a message. *)
Definition read_req (msg : bytes) : option (Z * diag_query) :=
  len ← rd32 msg 0;
  type ← rd16 msg 4;
  flags ← rd16 msg 6;
  seq ← rd32 msg 8;
  family ← rd8 msg 16;
  proto ← rd8 msg 17;
  sport ← rd16 msg 24;
  dport ← rd16 msg 26;
  src ← rdn msg 28 16;
  dst ← rdn msg 44 16;
  if negb (len =? blen msg) || negb (type =? SOCK_DIAG_BY_FAMILY) then None
  else Some (seq, mk_query family proto flags sport dport src dst).

(** The owner that the kernel [k] finds for the request of a message. *)
Definition found (k : diag_query -> option Z) (msg : bytes) : option Z := '(_, q) ← read_req msg; k q.

(** The messages that are sent: up to the first that finds a socket. *)
Fixpoint sent_until (k : diag_query -> option Z) (msgs : list bytes) : list bytes :=
  match msgs with [] => [] | m :: msgs' => m :: (if found k m is Some _ then [] else sent_until k msgs') end.

(** The replies of the kernel to messages, from what it reads of them, each one
    possibly after what was left of the answer to the message before, whose
    number was [prev]. *)
Inductive kernel_replies (k : diag_query -> option Z) : Z -> list bytes -> list (option bytes) -> Prop :=
  | replies_nil prev replies : kernel_replies k prev [] replies
  | replies_cons prev m msgs stale msg replies seq q :
      read_req m = Some (seq, q) ->
      (stale = [] \/ exists a old, stale = [Some old] /\ kernel_reply prev a old) ->
      kernel_reply seq (k q) msg -> kernel_replies k seq msgs replies ->
      kernel_replies k prev (m :: msgs) (stale ++ Some msg :: replies).

(** What is to be asked for a connection: the socket of the connection - for UDP
    with its ends swapped, as the kernel wants them - then, for UDP, any socket
    bound to the source; each one first with the family of the connection, then
    for IPv4 among the IPv6 sockets. The address is in the first bytes: for
    IPv4 these are not the mapped addresses (::ffff:a.b.c.d). *)
Definition query_addr (ver ip : Z) : bytes := if ver =? 4 then le32 ip ++ zeros 12 else le_split 16 ip.
Definition queries (tuple : zdtun_5tuple) : list diag_query :=
  let src := query_addr (ipver tuple) (src_ip tuple) in
  let dst := query_addr (ipver tuple) (dst_ip tuple) in
  let families := if ipver tuple =? 4 then [AF_INET; AF_INET6] else [AF_INET6] in
  if ipproto tuple =? IPPROTO_UDP then
    ((fun f => mk_query f IPPROTO_UDP 1 (dst_port tuple) (src_port tuple) dst src) <$> families) ++
    ((fun f => mk_query f IPPROTO_UDP 0x301 (src_port tuple) 0 src (zeros 16)) <$> families)
  else (fun f => mk_query f (ipproto tuple) 1 (src_port tuple) (dst_port tuple) src dst) <$> families.

(** The fields of a connection are in their range. *)
Record tuple_ranges (tuple : zdtun_5tuple) : Prop := {
  tr_proto : is_byte (ipproto tuple);
  tr_sport : 0 <= src_port tuple < 2 ^ 16;
  tr_dport : 0 <= dst_port tuple < 2 ^ 16;
  tr_ips : ipver tuple = 4 -> 0 <= src_ip tuple < 2 ^ 32 /\ 0 <= dst_ip tuple < 2 ^ 32
}.

(** The lookup that the message of [l] has. *)
Definition query_of (proto : Z) (l : diag_lookup) : diag_query :=
  mk_query (lk_family l) proto (lk_flags l) (sa_port (lk_local l)) (sa_port (lk_remote l))
    (diag_addr (lk_family l) (sa_addr (lk_local l))) (diag_addr (lk_family l) (sa_addr (lk_remote l))).

Definition lookup_ok (l : diag_lookup) : Prop :=
  is_byte (lk_family l) /\ 0 <= lk_flags l < 2 ^ 16 /\ 0 <= sa_port (lk_local l) < 2 ^ 16 /\ 0 <= sa_port (lk_remote l) < 2 ^ 16.

Lemma blen_diag_addr f a : blen (diag_addr f a) = 16.
Proof. unfold diag_addr. destruct (f =? AF_INET); [by rewrite blen_app, blen_le32|by rewrite blen_le_split]. Qed.

Lemma rdn_mid p x s off len : off = blen p -> len = blen x -> rdn (p ++ x ++ s) off len = Some x.
Proof.
  intros -> ->. unfold rdn. rewrite !blen_app. pose proof (blen_nonneg p). pose proof (blen_nonneg x). pose proof (blen_nonneg s).
  destruct (Z.ltb_spec (blen p) 0), (Z.ltb_spec (blen x) 0), (Z.ltb_spec (blen p + (blen x + blen s)) (blen p + blen x)); try lia.
  cbn [orb]. f_equal. unfold slice, blen. by rewrite !Nat2Z.id, drop_app_length, take_app_length.
Qed.

Lemma blen_encode_req f p l r : blen (encode_req f p l r) = 56.
Proof. unfold encode_req. rewrite !blen_app, !blen_diag_addr, !blen_le32, !blen_le16. reflexivity. Qed.

Lemma read_lookup_msg proto seq l : lookup_ok l -> is_byte proto -> 0 <= seq < 2 ^ 32 ->
  read_req (lookup_msg proto seq l) = Some (seq, query_of proto l).
Proof.
  intros (Hf & Hfl & Hsp & Hdp) Hp Hs. unfold read_req, query_of. rewrite blen_lookup_msg.
  pose proof (blen_diag_addr (lk_family l) (sa_addr (lk_local l))) as Hx. pose proof (blen_diag_addr (lk_family l) (sa_addr (lk_remote l))) as Hy.
  unfold lookup_msg, encode_nlmsg. rewrite blen_encode_req. unfold encode_req, nl_header. rewrite !u8_small by (unfold is_byte in *; lia).
  set (x := diag_addr _ (sa_addr (lk_local l))) in *. set (y := diag_addr _ (sa_addr (lk_remote l))) in *. clearbody x y.
  set (tl := le32 0 ++ le32 0xFFFFFFFF ++ le32 0xFFFFFFFF). set (fam := lk_family l) in *. set (fl := lk_flags l) in *.
  set (sp := sa_port (lk_local l)) in *. set (dp := sa_port (lk_remote l)) in *. clearbody tl fam fl sp dp.
  set (msg := _ ++ _ ++ _). change (sizeof_nlmsghdr + 56) with 72 in msg.
  set (h3 := le32 72 ++ le16 SOCK_DIAG_BY_FAMILY). set (h4 := h3 ++ le16 fl). set (h5 := h4 ++ le32 seq ++ le32 0 ++ [fam; proto; 0; 0] ++ le32 0xFFFFFFFF).
  assert (rd32 msg 0 = Some 72) as -> by (by apply (rd32_field [] 72)).
  assert (rd16 msg 4 = Some SOCK_DIAG_BY_FAMILY) as -> by (by apply (rd16_le16 (le32 72))).
  assert (rd16 msg 6 = Some fl) as -> by (by apply (rd16_le16 h3)).
  assert (rd32 msg 8 = Some seq) as -> by (by apply (rd32_field h4)).
  assert (rd8 msg 16 = Some fam) as -> by done.
  assert (rd8 msg 17 = Some proto) as -> by done.
  assert (rd16 msg 24 = Some sp) as -> by (by apply (rd16_le16 h5)).
  assert (rd16 msg 26 = Some dp) as -> by (by apply (rd16_le16 (h5 ++ le16 sp))).
  assert (rdn msg 28 16 = Some x) as -> by (by apply (rdn_mid (h5 ++ le16 sp ++ le16 dp) x (y ++ tl))).
  assert (rdn msg 44 16 = Some y) as ->.
  { transitivity (rdn (((h5 ++ le16 sp ++ le16 dp) ++ x) ++ y ++ tl) 44 16); [by rewrite <- (app_assoc _ x)|].
    apply rdn_mid; [|done]. by rewrite blen_app, Hx. }
  done.
Qed.

Lemma le_split_app n m z : le_split (n + m) z = le_split n z ++ le_split m (z / 256 ^ Z.of_nat n).
Proof.
  revert z. induction n as [|n IH]; intros z; [by rewrite Z.div_1_r|].
  cbn [le_split Nat.add app]. rewrite IH. rewrite Z.div_div by lia. do 3 f_equal. rewrite Nat2Z.inj_succ, Z.pow_succ_r by lia. done.
Qed.

Lemma le_split_small z : 0 <= z < 2 ^ 32 -> le_split 16 z = le32 z ++ zeros 12.
Proof. intros Hz. change 16%nat with (4 + 12)%nat. rewrite le_split_app. change (256 ^ Z.of_nat 4) with (2 ^ 32). by rewrite Z.div_small. Qed.

(** The lookups of the code ask what is to be asked. *)
Lemma lookups_queries tuple : tuple_ranges tuple ->
  Forall lookup_ok (lookups tuple) /\ query_of (ipproto tuple) <$> lookups tuple = queries tuple.
Proof.
  intros [Hp Hs Hd Hip]. split.
  - unfold lookups. repeat case_match; repeat constructor; simpl; unfold is_byte, AF_INET, AF_INET6; try lia; done.
  - assert (Ha : forall ip, ipver tuple = 4 -> 0 <= ip < 2 ^ 32 -> le32 (u32 ip) ++ zeros 12 = query_addr 4 ip /\ le_split 16 ip = query_addr 4 ip).
    { intros ip _ Hr. unfold query_addr. rewrite u32_small by done. split; [done|]. by apply le_split_small. }
    unfold lookups, queries, query_of, diag_addr. destruct (Z.eqb_spec (ipver tuple) 4) as [E|E].
    + destruct (Hip E) as [H1 H2]. rewrite E. destruct (Ha _ E H1) as [A1 A2], (Ha _ E H2) as [B1 B2].
      destruct (Z.eqb_spec (ipproto tuple) IPPROTO_UDP) as [Eu|Eu]; cbn [fmap list_fmap app lk_family lk_local lk_remote lk_flags sa_addr sa_port];
        rewrite ?Eu; change (AF_INET =? AF_INET) with true; change (AF_INET6 =? AF_INET) with false; cbv iota; by rewrite ?A1, ?A2, ?B1, ?B2.
    + unfold query_addr. destruct (Z.eqb_spec (ipver tuple) 4); [done|].
      destruct (Z.eqb_spec (ipproto tuple) IPPROTO_UDP) as [Eu|Eu]; cbn [fmap list_fmap app lk_family lk_local lk_remote lk_flags sa_addr sa_port];
        rewrite ?Eu; change (AF_INET6 =? AF_INET) with false; cbv iota; done.
Qed.

Lemma asked_sent k proto seq ls : Forall lookup_ok ls -> is_byte proto ->
  sent_until k (numbered proto seq ls) = numbered proto seq (asked (fun l => k (query_of proto l)) ls).
Proof.
  intros Hl Hp. revert seq. induction Hl as [|l ls Hl _ IH]; intros seq; [done|]. cbn [numbered sent_until asked].
  unfold found. rewrite read_lookup_msg by (done || apply u32_range). cbn [mbind option_bind].
  destruct (k (query_of proto l)); cbn [numbered]; [done|]. by rewrite IH.
Qed.

Lemma replies_lookups k proto seq ls replies : Forall lookup_ok ls -> is_byte proto ->
  kernel_replies k seq (numbered proto seq ls) replies -> lookup_replies (fun l => k (query_of proto l)) seq ls replies.
Proof.
  intros Hl Hp. revert seq replies. induction Hl as [|l ls Hl _ IH]; intros seq replies; cbn [numbered]; [constructor|].
  intros Hk. inversion Hk as [|prev m ms stale msg reps seq' q Hr Hst Hrep Hk' E1 E2 E3]; subst.
  rewrite read_lookup_msg in Hr by (done || apply u32_range). injection Hr as <- <-. constructor; auto.
Qed.

Lemma asked_ok k ls : Forall lookup_ok ls -> Forall lookup_ok (asked k ls).
Proof. induction 1 as [|l ls Hl _ IH]; [constructor|]. cbn [asked]. constructor; [done|]. by destruct (k l). Qed.

Lemma omap_query (k : diag_query -> option Z) proto (ls : list diag_lookup) : omap (fun l => k (query_of proto l)) ls = omap k (query_of proto <$> ls).
Proof. induction ls as [|l ls IH]; [done|]. cbn [omap list_omap fmap list_fmap]. by rewrite IH. Qed.

(** C34: the owner of a connection that the daemon gets from the kernel. The
    kernel reads each message, as it was sent, and finds the owner [k] of what
    it asks; the result is that of the first socket found among: the socket of
    the connection itself - asked the other way round for UDP - then, for UDP,
    one bound to its source only, each with the family of the connection and
    then, for IPv4, with that of the IPv6 sockets; it is unknown when there is
    none. Only these questions are sent, up to the first that has an answer;
    what was left of the answer to the previous one does not count. The IPv6
    questions for an IPv4 connection do not have the mapped address that the
    comments of the source announce, but the IPv4 address in the first four
    bytes (see the findings): the theorem states what is asked. *)
Theorem nl_get_uid_first_owner k tuple s :
  tuple_ranges tuple -> 0 <= nl_seq s < 2 ^ 32 -> nl_send_ok s = [] -> blen (nl_junk s) = 440 ->
  let msgs := sent_until k (numbered (ipproto tuple) (nl_seq s) (lookups tuple)) in
  kernel_replies k (nl_seq s) msgs (nl_replies s) ->
  exists s', nl_get_uid tuple s = Some (default UID_UNKNOWN (head (omap k (queries tuple))), s') /\ nl_sent s' = nl_sent s ++ msgs.
Proof.
  intros Ht Hs Ho Hj msgs Hk. destruct (lookups_queries tuple Ht) as [Hl <-]. pose proof (tr_proto _ Ht) as Hp.
  unfold msgs in *. rewrite asked_sent in * by done. rewrite nl_get_uid_lookups.
  apply replies_lookups in Hk; [|by apply asked_ok|done].
  destruct (first_answer_spec _ (ipproto tuple) _ s Hs Ho Hj Hk) as (s' & E & Hsent). exists s'. split; [|done].
  by rewrite E, omap_query.
Qed.

(** A UDP socket bound to its port only, found by the third lookup; the answer
    to the second one comes after a rest of the first. *)
Definition ex_tuple : zdtun_5tuple := mk_5tuple 0x0100000A 0x08080808 (htons 4000) (htons 53) 4 IPPROTO_UDP.
Definition ex_kernel (q : diag_query) : option Z :=
  if (q_family q =? AF_INET) && (q_sport q =? htons 4000) && (q_dport q =? 0) && bool_decide (q_src q = [10; 0; 0; 1] ++ zeros 12) then Some 10200 else None.
Definition ex_error (seq : Z) : bytes := nl_header 36 NLMSG_ERROR 0 seq 0 ++ le32 (u32 (- ENOENT)) ++ zeros 16.
Definition ex_done (seq : Z) : bytes := nl_header 16 NLMSG_DONE 0 seq 0.
Definition ex_socket (seq uid : Z) : bytes := nl_header 88 SOCK_DIAG_BY_FAMILY 0 seq 0 ++ zeros 64 ++ le32 uid ++ zeros 4.
Definition ex_nl : nl_state :=
  mk_nl 7 [] [] [Some (ex_error 8); Some (ex_done 8); Some (ex_error 9); Some (ex_socket 10 10200)] (zeros 440).

Lemma nl_get_uid_first_owner_witness : exists s', nl_get_uid ex_tuple ex_nl = Some (10200, s') /\ length (nl_sent s') = 3%nat.
Proof.
  destruct (nl_get_uid_first_owner ex_kernel ex_tuple ex_nl) as (s' & E & Hs); [by split|done|done|reflexivity| |].
  - assert (He : forall seq, kernel_reply seq None (ex_error seq)) by (intros seq; apply (reply_error seq 0 0 (zeros 16)); done).
    assert (Hd : forall seq, kernel_reply seq None (ex_done seq)) by (intros seq; apply (reply_done seq 0 0 []); done).
    eapply (replies_cons _ 7 _ _ [] (ex_error 8)); [vm_compute; reflexivity|by left|apply He|].
    eapply (replies_cons _ 8 _ _ [Some (ex_done 8)] (ex_error 9)); [vm_compute; reflexivity|right; eexists _, _; split; [done|apply Hd]|apply He|].
    eapply (replies_cons _ 9 _ _ [] (ex_socket 10 10200)); [vm_compute; reflexivity|by left|apply (reply_socket 10 0 0 (zeros 64) 10200 (zeros 4)); done|].
    vm_compute. constructor.
  - exists s'. refine (conj E _). rewrite Hs. reflexivity.
Defined.

(** The lookup among the IPv6 sockets has the IPv4 address in the first bytes of
    the IPv6 one, and not as a mapped address (::ffff:a.b.c.d). *)
Definition mapped_addr (ip : Z) : bytes := zeros 10 ++ [255; 255] ++ le32 ip.
Lemma ipv4_lookup_not_mapped : diag_addr AF_INET6 0x0100000A = [10; 0; 0; 1] ++ zeros 12 /\ mapped_addr 0x0100000A = zeros 10 ++ [255; 255; 10; 0; 0; 1].
Proof. split; reflexivity. Qed.
