(* ===== verification/IfaceAddr.v ===== *)
(** What the daemon finds out of an interface (pcapd/pcapd.c): its MAC and IPv6
    addresses, from the files of the kernel; and of the route of the internet
    (pcapd/nl_utils.c), from a reply over netlink. *)
From Stdlib Require Import ZArith Lia String.
From stdpp Require Import base option numbers list.
From S2P Require Import Prelude Packet Uthash Lru AppNames PcapDump Blacklist NdpiProtos Conn CText UidResolver PcapdArgs NlUtils.

Open Scope Z_scope.

(** ** MAC address *)
Definition bytes2mac (buf : bytes) : Z := le_combine (take 6 buf).

(** "%02X:%02X:%02X:%02X:%02X:%02X" *)
Definition mac_format : list directive :=
  [DHex 2; DChar 58; DHex 2; DChar 58; DHex 2; DChar 58; DHex 2; DChar 58; DHex 2; DChar 58; DHex 2].
Definition str2mac (buf : bytes) : option Z :=
  match sscanf mac_format buf with
  | [SInt a; SInt b; SInt c; SInt d; SInt e; SInt f] => Some (bytes2mac (u8 <$> [a; b; c; d; e; f]))
  | _ => None
  end.

Definition get_iface_mac (files : bytes -> option bytes) (iface : bytes) : option Z :=
  match files (snprintf 128 (STR "/sys/class/net/" ++ iface ++ STR "/address")) with
  | None => None
  | Some file =>
      let buf := match fgets 24 file with Some (line, _) => line | None => [] end in
      str2mac (cstring buf)
  end.

(** ** IPv6 address *)

(** "%08x%08x%08x%08x"; the address is in the order of the memory. *)
Definition ip6_format : list directive := [DHex 8; DHex 8; DHex 8; DHex 8].
Definition line_ip6 (line : bytes) : option Z :=
  match sscanf ip6_format line with
  | [SInt a; SInt b; SInt c; SInt d] =>
      Some (le_combine (le32 (htonl (u32 a)) ++ le32 (htonl (u32 b)) ++ le32 (htonl (u32 c)) ++ le32 (htonl (u32 d))))
  | _ => None
  end.
Definition link_local (ip : Z) : bool := (u8 ip =? 0xfe) && (Z.land (u8 (Z.shiftr ip 8)) 0xC0 =? 0x80).

(** Every turn takes at least one byte of the file. *)
Fixpoint search_ip6 (fuel : nat) (iface file : bytes) : option Z :=
  match fuel, fgets 128 file with
  | S fuel', Some (line, rest) =>
      let line := cstring line in
      if contains iface line then
        match line_ip6 line with
        | Some ip => if link_local ip then search_ip6 fuel' iface rest else Some ip
        | None => search_ip6 fuel' iface rest
        end
      else search_ip6 fuel' iface rest
  | _, _ => None
  end.
Definition get_iface_ip6 (files : bytes -> option bytes) (iface : bytes) : option Z :=
  file ← files (STR "/proc/net/if_inet6"); search_ip6 (length file) iface file.

(** ** Route *)
Definition RTM_NEWROUTE : Z := 24.
Definition RTM_GETROUTE : Z := 26.
Definition RTA_DST : Z := 1.
Definition RTA_OIF : Z := 4.
Definition RTA_GATEWAY : Z := 5.
Definition sizeof_rtmsg : Z := 12.
Definition sizeof_rtattr : Z := 4.

(** [addr_t] as its first [alen] bytes. *)
Record route_info := mk_route { ri_gateway : bytes; ri_gw_len : Z; ri_ifidx : Z }.

(** [nlmsg_len] counts the size of [nlmsghdr] where that of [rtmsg], 4 bytes
    less, is meant: the message has 4 zeros more. *)
Definition encode_route_req (af : Z) (addr : bytes) (seq : Z) : bytes :=
  let alen := blen addr in
  nl_header (sizeof_nlmsghdr + sizeof_nlmsghdr + sizeof_rtattr + alen) RTM_GETROUTE NLM_F_REQUEST seq 0 ++
  [u8 af; u8 (alen * 8)] ++ zeros 10 ++ le16 (sizeof_rtattr + alen) ++ le16 RTA_DST ++ addr ++ zeros 4.

(** The attributes from [off] on, [i] bytes: what is known of the route, and
    whether its interface was found. [None] is a read outside of the buffer. *)
Fixpoint route_attrs (fuel : nat) (alen : Z) (buf : bytes) (off i : Z) (out : route_info) (found : bool) : option (route_info * bool) :=
  match fuel with
  | O => Some (out, found)
  | S fuel' =>
      if i <? sizeof_rtattr then Some (out, found) else
      len ← rd16 buf off;
      if (len <? sizeof_rtattr) || (i <? len) then Some (out, found) else
      type ← rd16 buf (off + 2);
      '(out, found) ← (if type =? RTA_GATEWAY then gw ← rdn buf (off + 4) alen; Some (mk_route gw alen (ri_ifidx out), found)
                       else if type =? RTA_OIF then ifidx ← rd32 buf (off + 4); Some (mk_route (ri_gateway out) (ri_gw_len out) (s32 ifidx), true)
                       else Some (out, found));
      let next := (len + 3) / 4 * 4 in
      route_attrs fuel' alen buf (off + next) (i - next) out found
  end.

(** The buffer after the reply: the outer [None] is undefined, the inner one is
    -1. Each attribute takes 4 bytes at least. *)
Definition read_route (alen seq : Z) (buf : bytes) (rv : Z) (out : route_info) : option (option route_info) :=
  len ← rd32 buf 0;
  type ← rd16 buf 4;
  nlseq ← rd32 buf 8;
  if (len <? sizeof_nlmsghdr) || (len >? rv) || negb (nlseq =? seq) then Some None
  else if type =? NLMSG_ERROR then Some None
  else
    let i := rv - (sizeof_nlmsghdr + sizeof_nlmsghdr) in
    '(out, found) ← route_attrs 128 alen buf (sizeof_nlmsghdr + sizeof_rtmsg) i (mk_route (ri_gateway out) 0 (ri_ifidx out)) false;
    Some (if found : bool then Some out else None).

(** The whole call for an IPv4 address: whether the socket is opened and the
    message sent; the reply, if one is received; [seq]: the static counter. *)
Definition nl_get_route (addr : bytes) (opened sent : bool) (reply : option bytes) (seq : Z) (out : route_info) : option (option route_info * Z) :=
  if negb opened then Some (None, seq) else
  let seq := u32 (seq + 1) in
  let req := encode_route_req AF_INET addr seq in
  let buf := req ++ zeros (512 - blen req) in
  if negb sent then Some (None, seq) else
  match reply with
  | None | Some [] => Some (None, seq)
  | Some msg =>
      route ← read_route 4 seq (recv_into buf msg) (Z.of_nat (length msg `min` 512)) out;
      Some (route, seq)
  end.

(** ** Facts *)

(** *** The address of the file of the kernel, two hexadecimal digits per byte *)
Definition hex_word (n : nat) (w : bytes) : Prop := length w = n /\ digits_in 16 w.
Definition colon_sep (ws : list bytes) : bytes :=
  match ws with [] => [] | w :: ws' => w ++ concat ((fun w => [58] ++ w) <$> ws') end.

Lemma word_value n w : hex_word n w -> 0 <= value_of 16 0 w < 16 ^ Z.of_nat n.
Proof.
  intros [<- Hd]. enough (H : forall acc, 0 <= acc -> acc * 16 ^ Z.of_nat (length w) <= value_of 16 acc w < (acc + 1) * 16 ^ Z.of_nat (length w)).
  { specialize (H 0 ltac:(lia)). lia. }
  induction Hd as [|c w [d Hc] Hw IH]; intros acc Ha; [cbn; lia|]. cbn [value_of fold_left length]. rewrite Hc. cbn [default].
  assert (Hr : 0 <= d < 16).
  { unfold digit_val in Hc.
    destruct (Z.leb_spec 48 c), (Z.leb_spec c 57), (Z.leb_spec 65 c), (Z.leb_spec c 70), (Z.leb_spec 97 c), (Z.leb_spec c 102); cbn [andb] in Hc;
      match type of Hc with (if ?v <? 16 then _ else _) = _ => destruct (Z.ltb_spec v 16); [injection Hc as <-; lia|done] end. }
  change (fold_left _ w _) with (value_of 16 (acc * 16 + d) w). specialize (IH (acc * 16 + d) ltac:(lia)). rewrite Nat2Z.inj_succ, Z.pow_succ_r by lia.
  set (p := 16 ^ Z.of_nat (length w)) in *. assert (0 < p) by (apply Z.pow_pos_nonneg; lia). assert (0 <= d * p /\ 0 <= (15 - d) * p) by nia. lia.
Qed.

(** The MAC address is read back from what the kernel prints. *)
Lemma str2mac_printed ws tl :
  length ws = 6%nat -> Forall (hex_word 2) ws -> str2mac (colon_sep ws ++ tl) = Some (le_combine (value_of 16 0 <$> ws)).
Proof.
  intros Hl Hws. do 7 (destruct ws as [|?w ws]; try done). clear Hl.
  repeat (apply Forall_cons in Hws as [? Hws]). unfold str2mac, mac_format, colon_sep. cbn [fmap list_fmap concat]. rewrite app_nil_r, <- !app_assoc.
  repeat match goal with H : hex_word 2 ?w |- _ =>
    let Hv := fresh in pose proof (word_value 2 w H) as Hv; change (16 ^ Z.of_nat 2) with 256 in Hv; destruct H end.
  repeat first [rewrite sscanf_hex_width by done | cbn [app]; rewrite sscanf_char]. cbn [sscanf].
  unfold bytes2mac. cbn [fmap list_fmap take]. rewrite !s32_small, !u8_small by lia. done.
Qed.

(** *** The file of the IPv6 addresses *)
Lemma u32_s32 v : u32 (s32 v) = u32 v.
Proof. unfold u32, s32. rewrite Zminus_mod_idemp_l. f_equal. lia. Qed.


(** A line of /proc/net/if_inet6: the address without colons, then (in the rest)
    the index, the length of the prefix, the scope, the flags and the name. *)
Record inet6_line := mk_inet6 { il_words : list bytes; il_rest : bytes }.
Definition print_inet6 (l : inet6_line) : bytes := concat (il_words l) ++ SP ++ il_rest l ++ [NEWLINE].
Record inet6_ok (l : inet6_line) : Prop := {
  il_four : length (il_words l) = 4%nat;
  il_hex : Forall (hex_word 8) (il_words l);
  il_text : text (il_rest l);
  il_fits : (length (print_inet6 l) < 128)%nat
}.
Definition il_ip (l : inet6_line) : Z := le_combine (concat ((fun w => le32 (htonl (value_of 16 0 w))) <$> il_words l)).

Lemma line_ip6_printed l : inet6_ok l -> line_ip6 (print_inet6 l) = Some (il_ip l).
Proof.
  intros [H4 Hws _ _]. unfold line_ip6, print_inet6, il_ip, ip6_format. destruct l as [ws rest]. cbn [il_words il_rest] in *.
  do 5 (destruct ws as [|?w ws]; try done). clear H4. repeat (apply Forall_cons in Hws as [? Hws]).
  cbn [fmap list_fmap concat]. rewrite app_nil_r, <- !app_assoc.
  repeat match goal with H : hex_word 8 ?w |- _ =>
    let Hv := fresh in pose proof (word_value 8 w H) as Hv; change (16 ^ Z.of_nat 8) with (2 ^ 32) in Hv; destruct H end.
  do 4 (rewrite sscanf_hex_width by done). cbn [sscanf]. rewrite !u32_s32, !u32_small by done. by rewrite ?app_nil_r.
Qed.

Lemma print_inet6_text l : inet6_ok l -> exists a, print_inet6 l = a ++ [NEWLINE] /\ text a.
Proof.
  intros [_ Hws Hr _]. exists (concat (il_words l) ++ SP ++ il_rest l). split; [unfold print_inet6; by rewrite <- !app_assoc|].
  apply Forall_app. split; [|apply Forall_app; split; [by repeat constructor|done]].
  induction Hws as [|w ws [_ Hw] _ IH]; [done|]. apply Forall_app. split; [by eapply digits_text|done].
Qed.

(** The address is that of the first line of the interface that is not of the
    link only; a line is taken for one of the interface when it holds its name
    anywhere. *)
Definition inet6_line_of (iface : bytes) (l : inet6_line) : bool := contains iface (print_inet6 l) && negb (link_local (il_ip l)).

Lemma get_iface_ip6_first files iface ls :
  Forall inet6_ok ls -> files (STR "/proc/net/if_inet6") = Some (concat (print_inet6 <$> ls)) ->
  get_iface_ip6 files iface = il_ip <$> find (inet6_line_of iface) ls.
Proof.
  intros Hls Hf. unfold get_iface_ip6. rewrite Hf. cbn [mbind option_bind].
  assert (Hlen : (length ls <= length (concat (print_inet6 <$> ls)))%nat).
  { clear. induction ls as [|l ls IH]; [done|]. csimpl. rewrite length_app. unfold print_inet6 at 1. rewrite !length_app. cbn [length]. lia. }
  revert Hlen. generalize (length (concat (print_inet6 <$> ls))). clear Hf. induction Hls as [|l ls Hl Hls IH]; intros fuel Hf.
  { by destruct fuel. }
  destruct fuel as [|fuel]; [cbn in Hf; lia|]. destruct (print_inet6_text l Hl) as (a & Ea & Ha). pose proof (il_fits _ Hl) as Hfit. rewrite Ea, length_app in Hfit. cbn in Hfit.
  cbn [fmap list_fmap concat search_ip6]. rewrite Ea at 1. rewrite <- app_assoc. cbn [app]. rewrite fgets_line by (done || lia). rewrite <- Ea.
  assert (cstring (print_inet6 l) = print_inet6 l) as ->.
  { apply cstring_text. rewrite Ea. apply Forall_app. split; [|by repeat constructor]. eapply Forall_impl; [exact Ha|]. by intros c []. }
  rewrite line_ip6_printed by done. cbn [find]. unfold inet6_line_of at 1.
  destruct (contains _ _); cbn [andb]; [|apply IH; cbn in Hf; lia]. destruct (link_local _); cbn [negb]; [|done]. apply IH. cbn in Hf. lia.
Qed.

(** An interface whose name is part of the name of another one. *)
Definition ex_inet6 : list inet6_line :=
  [mk_inet6 [STR "20010db8"; STR "00000000"; STR "00000000"; STR "00000001"] (STR "08 40 00 00 p2p-wlan0-0");
   mk_inet6 [STR "20010db8"; STR "00000000"; STR "00000000"; STR "00000002"] (STR "07 40 00 00    wlan0")].
Example ip6_of_another : forall files, files (STR "/proc/net/if_inet6") = Some (concat (print_inet6 <$> ex_inet6)) ->
  get_iface_ip6 files (STR "wlan0") = il_ip <$> head ex_inet6.
Proof. intros files Hf. unfold get_iface_ip6. rewrite Hf. vm_compute. reflexivity. Qed.

(** *** The route *)
Record rtattr := mk_rtattr { ra_type : Z; ra_data : bytes }.
Definition rtattr_pad (n : Z) : Z := (n + 3) / 4 * 4 - n.
Definition encode_rtattr (a : rtattr) : bytes :=
  let len := sizeof_rtattr + blen (ra_data a) in le16 len ++ le16 (ra_type a) ++ ra_data a ++ zeros (rtattr_pad len).
Definition rtattr_ok (a : rtattr) : Prop :=
  0 <= ra_type a < 2 ^ 16 /\ sizeof_rtattr + blen (ra_data a) < 2 ^ 16 /\
  wf_bytes (ra_data a) /\ ((ra_type a = RTA_GATEWAY \/ ra_type a = RTA_OIF) -> blen (ra_data a) = 4).

(** What one attribute tells. *)
Definition route_attr (res : route_info * bool) (a : rtattr) : route_info * bool :=
  let '(out, found) := res in
  if ra_type a =? RTA_GATEWAY then (mk_route (ra_data a) 4 (ri_ifidx out), found)
  else if ra_type a =? RTA_OIF then (mk_route (ri_gateway out) (ri_gw_len out) (s32 (le_combine (ra_data a))), true)
  else (out, found).

Lemma rtattr_pad_range n : 0 <= rtattr_pad n < 4 /\ (n + rtattr_pad n) mod 4 = 0.
Proof.
  unfold rtattr_pad. pose proof (Z.div_mod (n + 3) 4 ltac:(lia)). pose proof (Z.mod_pos_bound (n + 3) 4 eq_refl).
  split; [lia|]. replace (n + _) with ((n + 3) / 4 * 4) by lia. by apply Z.mod_mul.
Qed.

Lemma blen_zeros n : 0 <= n -> blen (zeros n) = n.
Proof. intros Hn. unfold zeros, blen. rewrite length_replicate. lia. Qed.

Lemma blen_encode_rtattr a : blen (encode_rtattr a) = sizeof_rtattr + blen (ra_data a) + rtattr_pad (sizeof_rtattr + blen (ra_data a)).
Proof.
  unfold encode_rtattr. cbv zeta. rewrite !blen_app, !blen_le16. pose proof (rtattr_pad_range (sizeof_rtattr + blen (ra_data a))) as [? _].
  rewrite blen_zeros by lia. unfold sizeof_rtattr. lia.
Qed.

(** An attribute in the buffer. *)
Lemma rtattr_read pre a tl : rtattr_ok a ->
  let buf := pre ++ encode_rtattr a ++ tl in let off := blen pre in
  rd16 buf off = Some (sizeof_rtattr + blen (ra_data a)) /\ rd16 buf (off + 2) = Some (ra_type a) /\
  (blen (ra_data a) = 4 -> rdn buf (off + 4) 4 = Some (ra_data a) /\ rd32 buf (off + 4) = Some (le_combine (ra_data a))).
Proof.
  intros (Ht & Hl & Hw & _). unfold encode_rtattr. cbv zeta. set (len := sizeof_rtattr + blen (ra_data a)) in *. rewrite <- !app_assoc.
  assert (0 <= len) by (unfold len, sizeof_rtattr; pose proof (blen_nonneg (ra_data a)); lia).
  split_and!; [by apply rd16_le16|rewrite (app_assoc pre); apply rd16_le16; [by rewrite blen_app, blen_le16|done]|].
  intros H4. rewrite (app_assoc pre), (app_assoc (pre ++ _)).
  replace (blen pre + 4) with (blen ((pre ++ le16 len) ++ le16 (ra_type a))) by (rewrite !blen_app, !blen_le16; lia).
  split.
  - rewrite rdn_Some; [|apply blen_nonneg|lia|rewrite !blen_app; pose proof (blen_nonneg tl); pose proof (blen_nonneg (zeros (rtattr_pad len))); lia].
    f_equal. by apply slice_app_mid.
  - pose proof (le_split_combine (ra_data a) Hw) as E. assert (Hlen : length (ra_data a) = 4%nat) by (unfold blen in H4; lia). rewrite Hlen in E. rewrite <- E at 1.
    apply rd32_field; [|done]. pose proof (le_combine_range (ra_data a) Hw) as Hr. by rewrite H4 in Hr.
Qed.

Lemma route_attrs_read attrs : forall pre tl out found fuel,
  Forall rtattr_ok attrs -> (length attrs <= fuel)%nat ->
  route_attrs fuel 4 (pre ++ concat (encode_rtattr <$> attrs) ++ tl) (blen pre) (blen (concat (encode_rtattr <$> attrs)) - 4) out found =
  Some (fold_left route_attr (removelast attrs) (out, found)).
Proof.
  induction attrs as [|a attrs IH]; intros pre tl out found fuel Ha Hf; [by destruct fuel|]. destruct fuel as [|fuel]; [cbn in Hf; lia|].
  apply Forall_cons in Ha as [Ha Has].
  change (concat (encode_rtattr <$> a :: attrs)) with (encode_rtattr a ++ concat (encode_rtattr <$> attrs)). rewrite <- app_assoc, blen_app, blen_encode_rtattr. set (tl' := concat _ ++ tl).
  destruct (rtattr_read pre a tl' Ha) as (Hlen & Htype & Hdata). pose proof Ha as (Ht & Hl & Hw & H4).
  set (len := sizeof_rtattr + blen (ra_data a)) in *. pose proof (rtattr_pad_range len) as [Hpad _]. set (rest := blen (concat _)) in *.
  assert (Hlp : 4 <= len) by (unfold len, sizeof_rtattr; pose proof (blen_nonneg (ra_data a)); lia).
  cbn [route_attrs]. unfold sizeof_rtattr at 1. destruct attrs as [|b attrs].
  - assert (rest = 0) as -> by done. cbn [removelast fold_left]. destruct (Z.ltb_spec (len + rtattr_pad len + 0 - 4) 4); [done|].
    rewrite Hlen. cbn [mbind option_bind]. destruct (Z.ltb_spec (len + rtattr_pad len + 0 - 4) len); [by rewrite orb_true_r|lia].
  - assert (Hrest : 4 <= rest).
    { unfold rest. change (concat (encode_rtattr <$> b :: attrs)) with (encode_rtattr b ++ concat (encode_rtattr <$> attrs)). rewrite blen_app, blen_encode_rtattr. pose proof (rtattr_pad_range (sizeof_rtattr + blen (ra_data b))) as [? _].
      assert (sizeof_rtattr = 4) by done. pose proof (blen_nonneg (ra_data b)). pose proof (blen_nonneg (concat (encode_rtattr <$> attrs))). lia. }
    destruct (Z.ltb_spec (len + rtattr_pad len + rest - 4) 4); [lia|]. rewrite Hlen. cbn [mbind option_bind]. unfold sizeof_rtattr at 1.
    destruct (Z.ltb_spec len 4); [lia|]. destruct (Z.ltb_spec (len + rtattr_pad len + rest - 4) len); [lia|]. cbn [orb]. rewrite Htype. cbn [mbind option_bind].
    assert (Hstep : (if ra_type a =? RTA_GATEWAY then gw ← rdn (pre ++ encode_rtattr a ++ tl') (blen pre + 4) 4; Some (mk_route gw 4 (ri_ifidx out), found)
                     else if ra_type a =? RTA_OIF then ifidx ← rd32 (pre ++ encode_rtattr a ++ tl') (blen pre + 4); Some (mk_route (ri_gateway out) (ri_gw_len out) (s32 ifidx), true)
                     else Some (out, found)) = Some (route_attr (out, found) a)).
    { unfold route_attr. destruct (Z.eqb_spec (ra_type a) RTA_GATEWAY) as [E|]; [by rewrite (proj1 (Hdata (H4 (or_introl E))))|].
      destruct (Z.eqb_spec (ra_type a) RTA_OIF) as [E|]; [by rewrite (proj2 (Hdata (H4 (or_intror E))))|done]. }
    rewrite Hstep. cbn [mbind option_bind]. change (removelast (a :: b :: attrs)) with (a :: removelast (b :: attrs)). cbn [fold_left].
    destruct (route_attr (out, found) a) as [out' found']. unfold tl'. rewrite (app_assoc pre).
    replace (blen pre + (len + 3) / 4 * 4) with (blen (pre ++ encode_rtattr a)) by (rewrite blen_app, blen_encode_rtattr; fold len; unfold rtattr_pad; lia).
    replace (len + rtattr_pad len + rest - 4 - (len + 3) / 4 * 4) with (rest - 4) by (unfold rtattr_pad; lia). apply IH; [done|cbn in *; lia].
Qed.

(** A reply of the kernel, as rtnetlink(7) documents it. *)
Definition route_reply (flags seq pid : Z) (rtm : bytes) (attrs : list rtattr) : bytes :=
  let body := concat (encode_rtattr <$> attrs) in
  nl_header (sizeof_nlmsghdr + sizeof_rtmsg + blen body) RTM_NEWROUTE flags seq pid ++ rtm ++ body.

(** The route is what the attributes tell, but for the last one, which is not
    looked at. *)
Lemma nl_get_route_reply addr flags seq pid rtm attrs out :
  Forall rtattr_ok attrs -> blen rtm = sizeof_rtmsg -> (length (route_reply flags (u32 (seq + 1)) pid rtm attrs) <= 512)%nat ->
  let '(out', found) := fold_left route_attr (removelast attrs) (mk_route (ri_gateway out) 0 (ri_ifidx out), false) in
  nl_get_route addr true true (Some (route_reply flags (u32 (seq + 1)) pid rtm attrs)) seq out =
  Some (if found then Some out' else None, u32 (seq + 1)).
Proof.
  intros Ha Hrtm Hfit. destruct (fold_left _ _ _) as [out' found] eqn:Eout. unfold nl_get_route. cbn [negb]. set (sq := u32 (seq + 1)) in *.
  set (msg := route_reply flags sq pid rtm attrs) in *. set (body := concat (encode_rtattr <$> attrs)).
  assert (Hmsg : msg = nl_header (28 + blen body) RTM_NEWROUTE flags sq pid ++ rtm ++ body) by done.
  assert (Hlen : blen msg = 28 + blen body). { rewrite Hmsg, !blen_app, blen_nl_header, Hrtm. unfold sizeof_rtmsg. lia. }
  pose proof (blen_nonneg body) as Hb0. assert (Hsq : 0 <= sq < 2 ^ 32) by apply u32_range.
  assert (Hm : exists b msg', msg = b :: msg'). { destruct msg as [|b msg']; [unfold blen in Hlen; cbn in Hlen; lia|by eauto]. }
  set (buf := encode_route_req AF_INET addr sq ++ _).
  assert (Hbuf : (length msg <= length buf)%nat).
  { unfold buf. rewrite length_app. unfold zeros. rewrite length_replicate. unfold blen. lia. }
  assert (Hread : read_route 4 sq (recv_into buf msg) (blen msg) out = Some (if found then Some out' else None)).
  { rewrite recv_whole by done. set (tl := drop _ buf). rewrite Hmsg, <- !app_assoc. unfold read_route.
    destruct (nl_header_read (28 + blen body) RTM_NEWROUTE flags sq pid (rtm ++ body ++ tl)) as (-> & -> & ->); [unfold blen in *; lia|done|done|].
    cbn [mbind option_bind]. rewrite <- Hmsg, Hlen, Z.eqb_refl.
    destruct (Z.ltb_spec (28 + blen body) sizeof_nlmsghdr); [unfold sizeof_nlmsghdr in *; lia|]. destruct (Z.gtb_spec (28 + blen body) (28 + blen body)); [lia|].
    cbn [orb negb]. change (RTM_NEWROUTE =? NLMSG_ERROR) with false. cbv iota. rewrite (app_assoc (nl_header _ _ _ _ _)).
    replace (sizeof_nlmsghdr + sizeof_rtmsg) with (blen (nl_header (28 + blen body) RTM_NEWROUTE flags sq pid ++ rtm)) by (by rewrite blen_app, blen_nl_header, Hrtm).
    replace (28 + blen body - (sizeof_nlmsghdr + sizeof_nlmsghdr)) with (blen body - 4) by (unfold sizeof_nlmsghdr; lia).
    unfold body. rewrite route_attrs_read; [by rewrite Eout|done|].
    assert (Hn : 4 * Z.of_nat (length attrs) <= blen (concat (encode_rtattr <$> attrs))).
    { clear. induction attrs as [|a attrs IH]; [done|]. change (concat (encode_rtattr <$> a :: attrs)) with (encode_rtattr a ++ concat (encode_rtattr <$> attrs)).
      rewrite blen_app, blen_encode_rtattr. pose proof (rtattr_pad_range (sizeof_rtattr + blen (ra_data a))) as [? _]. pose proof (blen_nonneg (ra_data a)).
      assert (sizeof_rtattr = 4) by done. cbn [length]. lia. }
    fold body in Hn. unfold blen in *. lia. }
  destruct Hm as (b & msg' & Em). rewrite Em in *. replace (length (b :: msg') `min` 512)%nat with (length (b :: msg')) by lia.
  unfold blen in Hread. rewrite Hread. done.
Qed.

(** The call never reads outside of its buffer. *)
Lemma route_attrs_total fuel : forall buf off i out found, 0 <= off -> off + i + 4 <= blen buf ->
  is_Some (route_attrs fuel 4 buf off i out found).
Proof.
  induction fuel as [|fuel IH]; intros buf off i out found Ho Hi; [done|]. cbn [route_attrs]. assert (sizeof_rtattr = 4) by done.
  destruct (Z.ltb_spec i sizeof_rtattr); [done|]. destruct (rd16_Some buf off) as [len Hl]; [lia..|]. rewrite Hl. cbn [mbind option_bind].
  destruct (Z.ltb_spec len sizeof_rtattr); [done|]. destruct (Z.ltb_spec i len); [done|]. cbn [orb].
  destruct (rd16_Some buf (off + 2)) as [type ->]; [lia..|]. rewrite (rdn_Some buf (off + 4) 4) by lia. destruct (rd32_Some buf (off + 4)) as [idx ->]; [lia..|].
  cbn [mbind option_bind]. assert (Hnext : len <= (len + 3) / 4 * 4) by (pose proof (Z.div_mod (len + 3) 4 ltac:(lia)); pose proof (Z.mod_pos_bound (len + 3) 4 eq_refl); lia).
  destruct (type =? RTA_GATEWAY); [|destruct (type =? RTA_OIF)]; apply IH; lia.
Qed.

Lemma nl_get_route_total addr opened sent reply seq out : blen addr <= 400 -> is_Some (nl_get_route addr opened sent reply seq out).
Proof.
  intros Ha. unfold nl_get_route. destruct (negb opened); [done|]. destruct (negb sent); [done|]. destruct reply as [[|b msg']|]; [done| |done].
  set (msg := b :: msg'). set (buf := encode_route_req _ _ _ ++ _).
  assert (Hb : blen buf = 512).
  { unfold buf. rewrite blen_app. set (req := encode_route_req _ _ _). assert (blen req <= 512).
    { unfold req, encode_route_req. rewrite !blen_app, blen_nl_header, !blen_le16, !blen_zeros by lia. change (blen [_; _]) with 2. lia. }
    rewrite blen_zeros; lia. }
  assert (Hr : is_Some (read_route 4 (u32 (seq + 1)) (recv_into buf msg) (Z.of_nat (length msg `min` 512)) out)).
  { unfold read_route. pose proof (blen_recv_into buf msg) as Hl. rewrite Hb in Hl.
    destruct (rd32_Some (recv_into buf msg) 0) as [? ->]; [lia..|]. destruct (rd16_Some (recv_into buf msg) 4) as [? ->]; [lia..|].
    destruct (rd32_Some (recv_into buf msg) 8) as [? ->]; [lia..|]. cbn [mbind option_bind]. destruct (_ || _); [done|]. destruct (_ =? NLMSG_ERROR); [done|].
    edestruct (route_attrs_total 128 (recv_into buf msg)) as [[? ?] ->]; [done| |done]. unfold sizeof_nlmsghdr, sizeof_rtmsg. lia. }
  destruct Hr as [r ->]. done.
Qed.

(** The interface of the route is found unless its attribute is the last one. *)
Lemma route_oif_last flags pid addr seq rtm idx out :
  blen rtm = sizeof_rtmsg -> 0 <= idx < 2 ^ 32 ->
  nl_get_route addr true true (Some (route_reply flags (u32 (seq + 1)) pid rtm [mk_rtattr RTA_OIF (le32 idx)])) seq out = Some (None, u32 (seq + 1)).
Proof.
  intros Hr Hi. apply (nl_get_route_reply addr flags seq pid rtm [mk_rtattr RTA_OIF (le32 idx)] out); [|done|].
  - apply Forall_singleton. split_and!; [done|done|done|apply wf_le32|]. intros _. apply blen_le32.
  - unfold route_reply. rewrite !length_app. change (length (concat _)) with 8%nat.
    assert (Hn : forall len, length (nl_header len RTM_NEWROUTE flags (u32 (seq + 1)) pid) = 16%nat) by done.
    rewrite Hn. unfold blen in Hr. unfold sizeof_rtmsg in Hr. lia.
Qed.
