(* ===== verification/Pcapd.v ===== *)
(** The capture daemon (pcapd/pcapd.c): its interfaces, the direction and the
    owner of the packets, what it sends to the capture, and its loop. *)
From Stdlib Require Import ZArith Lia String.
From stdpp Require Import base option gmap numbers list.
From S2P Require Import Prelude Packet Uthash Lru AppNames PcapDump Blacklist NdpiProtos Conn JavaDump Dpi Housekeeping JavaRequests CaptureLibpcap.
From S2P Require Import CText UidResolver Framing PcapdArgs RootRun NlUtils IfaceAddr.

Open Scope Z_scope.

(** ** Data *)
Definition DLT_EN10MB : Z := 1.
Definition DLT_RAW : Z := 12.
Definition DLT_LINUX_SLL : Z := 113.
Definition DLT_LINUX_SLL2 : Z := 276.
Definition SLL_HDR_LEN : Z := 16.
Definition SLL2_HDR_LEN : Z := 20.
Definition LINUX_SLL_HOST : Z := 0.
Definition LINUX_SLL_OUTGOING : Z := 4.
Definition RTM_DELLINK : Z := 17.
Definition RTM_NEWADDR : Z := 20.
Definition RTM_NEWRULE : Z := 32.

Record pcap_stat := mk_pstat { ps_recv : Z; ps_drop : Z; ps_ifdrop : Z }.
Definition zero_pstat : pcap_stat := mk_pstat 0 0 0.

(** [if_pd]: the handle of the library, if open. *)
Record pcapd_iface := mk_iface {
  if_name : bytes;
  if_ifidx : Z;
  if_ifid : Z;
  if_is_file : bool;
  if_pd : option Z;
  if_pf : Z;
  if_dlink : Z;
  if_ipoffset : Z;
  if_mac : Z;
  if_ip : Z;
  if_ip6 : Z;
  if_next_stats_update : Z;
  if_stats : pcap_stat
}.
#[export] Instance eta_iface : Eta pcapd_iface := fun i =>
  mk_iface (if_name i) (if_ifidx i) (if_ifid i) (if_is_file i) (if_pd i) (if_pf i) (if_dlink i) (if_ipoffset i)
    (if_mac i) (if_ip i) (if_ip6 i) (if_next_stats_update i) (if_stats i).
Definition init_interface : pcapd_iface := mk_iface [] (-1) 0 false None (-1) 0 0 0 0 0 0 zero_pstat.

(** What the library answers when an interface is opened: as a device, else as a
    file; its data link, and whether it can be upgraded; the filter; then the
    index of the interface, the files of the system and the IPv4 address. *)
Record pcap_answer := mk_pans {
  pa_live : bool;
  pa_file : bool;
  pa_dlink : Z;
  pa_sll2 : bool;
  pa_compile : bool;
  pa_setfilter : bool;
  pa_ifindex : Z;
  pa_files : bytes -> option bytes;
  pa_ip : option Z;
  pa_fd : Z
}.

(** [pcap_next_ex]: a packet with its captured bytes; nothing; an error; the end
    of a file. *)
Record cap_pkt := mk_cap { cp_ts : timeval; cp_data : bytes }.
Inductive next_ex := NextPkt (p : cap_pkt) | NextNone | NextError | NextBreak.

(** What the system answers to a search of the route of the internet: the steps
    that succeed, the reply, the name of its interface. *)
Record route_answer := mk_ranswer { rq_open : bool; rq_sent : bool; rq_reply : option bytes; rq_name : option bytes }.

(** The system: the open handles and descriptors, what was sent, and what it
    will answer. *)
Record pcapd_sys := mk_psys {
  sy_handles : gset Z;
  sy_next : Z;
  sy_fds : gset Z;
  sy_sent : list packet;
  sy_wire : bytes;
  sy_pad : bytes;
  sy_io : list io_result;
  sy_opens : list pcap_answer;
  sy_stats : list pcap_stat;
  sy_routes : list route_answer;
  sy_route_seq : Z;
  sy_msgs : list (option (list (Z * Z)));
  sy_addrs : list (option Z * (bytes -> option bytes));
  sy_pkts : list next_ex;
  sy_nl : nl_state;
  sy_allocs : list bool
}.
#[export] Instance eta_psys : Eta pcapd_sys := fun s =>
  mk_psys (sy_handles s) (sy_next s) (sy_fds s) (sy_sent s) (sy_wire s) (sy_pad s) (sy_io s) (sy_opens s) (sy_stats s)
    (sy_routes s) (sy_route_seq s) (sy_msgs s) (sy_addrs s) (sy_pkts s) (sy_nl s) (sy_allocs s).

(** [pcapd_runtime_t]; [rt_conf] is a null pointer before the initialisation. *)
Record pcapd_runtime := mk_rt {
  rt_conf : option pcapd_conf_t;
  rt_nlroute_sock : Z;
  rt_nldiag_sock : Z;
  rt_client : Z;
  rt_lru : option UidLru.uid_lru;
  rt_resolver : option uid_resolver;
  rt_inet_iface : option nat;
  rt_ifaces : list pcapd_iface;
  rt_stats : pcap_stat;
  rt_sel_fds : gset Z;
  rt_maxfd : Z;
  rt_ids : idports;               (** of the packet parser *)
  rt_sys : pcapd_sys
}.
#[export] Instance eta_rt : Eta pcapd_runtime := fun r =>
  mk_rt (rt_conf r) (rt_nlroute_sock r) (rt_nldiag_sock r) (rt_client r) (rt_lru r) (rt_resolver r) (rt_inet_iface r)
    (rt_ifaces r) (rt_stats r) (rt_sel_fds r) (rt_maxfd r) (rt_ids r) (rt_sys r).

Abbreviation Rt := (M pcapd_runtime).
Abbreviation get_rt := (gets (fun r : pcapd_runtime => r)).

(** ** The system *)
Definition on_sys (f : pcapd_sys -> pcapd_sys) : Rt unit := modify (fun r => r <| rt_sys ::= f |>).

(** The next answer of a list, or [d] when there is none left. *)
Definition next_answer {A} (get : pcapd_sys -> list A) (set : list A -> pcapd_sys -> pcapd_sys) (d : A) : Rt A :=
  r ← get_rt;
  match get (rt_sys r) with
  | [] => mret d
  | a :: rest => on_sys (set rest);; mret a
  end.

Definition no_answer : pcap_answer := mk_pans false false 0 false false false 0 (fun _ => None) None (-1).
Definition next_open : Rt pcap_answer := next_answer sy_opens (fun l s => s <| sy_opens := l |>) no_answer.
Definition next_route : Rt route_answer := next_answer sy_routes (fun l s => s <| sy_routes := l |>) (mk_ranswer false false None None).
Definition next_msgs : Rt (option (list (Z * Z))) := next_answer sy_msgs (fun l s => s <| sy_msgs := l |>) None.
Definition next_addrs : Rt (option Z * (bytes -> option bytes)) := next_answer sy_addrs (fun l s => s <| sy_addrs := l |>) (None, fun _ => None).
Definition next_pkt : Rt next_ex := next_answer sy_pkts (fun l s => s <| sy_pkts := l |>) NextNone.
Definition next_alloc : Rt bool := next_answer sy_allocs (fun l s => s <| sy_allocs := l |>) true.

(** A handle that is not open may not be used. *)
Definition pcap_open : Rt Z :=
  r ← get_rt;
  let h := sy_next (rt_sys r) in
  on_sys (fun s => s <| sy_handles ::= fun hs => {[h]} ∪ hs |> <| sy_next := h + 1 |>);; mret h.
Definition pcap_use (h : Z) : Rt unit :=
  r ← get_rt; of_option (if decide (h ∈ sy_handles (rt_sys r)) then Some tt else None).
Definition pcap_close (h : Z) : Rt unit := pcap_use h;; on_sys (fun s => s <| sy_handles ::= fun hs => hs ∖ {[h]} |>).
(** The library does not have statistics for a file: they stay as they are. *)
Definition pcap_stats (h : Z) (is_file : bool) (old : pcap_stat) : Rt pcap_stat :=
  pcap_use h;; if is_file then mret old else next_answer sy_stats (fun l s => s <| sy_stats := l |>) old.

Definition open_fd (fd : Z) : Rt unit := on_sys (fun s => s <| sy_fds ::= fun fds => {[fd]} ∪ fds |>).
Definition close_fd (fd : Z) : Rt unit :=
  r ← get_rt;
  of_option (if decide (fd ∈ sy_fds (rt_sys r)) then Some tt else None);;
  on_sys (fun s => s <| sy_fds ::= fun fds => fds ∖ {[fd]} |>).

(** ** Interfaces *)
Definition get_iface (i : nat) : Rt pcapd_iface := r ← get_rt; of_option (rt_ifaces r !! i).
Definition modify_iface (i : nat) (f : pcapd_iface -> pcapd_iface) : Rt unit :=
  iface ← get_iface i; modify (fun r => r <| rt_ifaces ::= fun l => <[i := f iface]> l |>).

Definition sum_stats (out to_sum : pcap_stat) : pcap_stat :=
  mk_pstat (u32 (ps_recv out + ps_recv to_sum)) (u32 (ps_drop out + ps_drop to_sum)) (u32 (ps_ifdrop out + ps_ifdrop to_sum)).
Definition account_pstat (st : pcap_stat) : Rt unit := modify (fun r => r <| rt_stats ::= fun out => sum_stats out st |>).

(** The data links that are supported, with the offset of the IP header. *)
Definition datalink_offset (dlink : Z) : option Z :=
  if dlink =? DLT_RAW then Some 0
  else if dlink =? DLT_EN10MB then Some 14
  else if dlink =? DLT_LINUX_SLL then Some SLL_HDR_LEN
  else if dlink =? DLT_LINUX_SLL2 then Some SLL2_HDR_LEN
  else None.

(** The path of a file without its directories. *)
Fixpoint base_name (path acc : bytes) : bytes :=
  match path with [] => acc | c :: path' => if c =? 47 then base_name path' path' else base_name path' acc end.

Definition opened_iface (a : pcap_answer) (pd dlink ipoffset : Z) (ifname : bytes) (ifid : Z) (iface : pcapd_iface) : pcapd_iface :=
  let is_file := negb (pa_live a) in
  mk_iface (take 4095 (if is_file then base_name ifname ifname else ifname)) (pa_ifindex a) (u8 ifid) is_file (Some pd) (pa_fd a) dlink ipoffset
    (if negb is_file && (dlink =? DLT_EN10MB) then default 0 (get_iface_mac (pa_files a) ifname) else 0)
    (if is_file then 0 else default 0 (pa_ip a))
    (if is_file then if_ip6 iface else default 0 (get_iface_ip6 (pa_files a) ifname))
    (if_next_stats_update iface) (if_stats iface).

Definition open_interface (i : nat) (ifname : bytes) (ifid : Z) : Rt Z :=
  a ← next_open;
  if negb (pa_live a) && negb (pa_file a) then mret PCAPD_INTERFACE_OPEN_FAILED else
  pd ← pcap_open;
  let dlink := if (pa_dlink a =? DLT_LINUX_SLL) && pa_sll2 a then DLT_LINUX_SLL2 else pa_dlink a in
  match datalink_offset dlink with
  | None => pcap_close pd;; mret PCAPD_UNSUPPORTED_DATALINK
  | Some ipoffset =>
      if negb (pa_compile a) || negb (pa_setfilter a) then pcap_close pd;; mret PCAPD_INTERFACE_OPEN_FAILED else
      modify_iface i (opened_iface a pd dlink ipoffset ifname ifid);;
      modify (fun r => r <| rt_maxfd ::= fun m => Z.max m (pa_fd a) |>);;
      mret PCAPD_OK
  end.

Definition close_interface (i : nat) : Rt unit :=
  iface ← get_iface i;
  match if_pd iface with
  | None => mret tt
  | Some pd =>
      st ← pcap_stats pd (if_is_file iface) (if_stats iface);
      modify_iface i (fun f => f <| if_stats := st |>);;
      account_pstat st;;
      of_option (if if_pf iface <? 0 then None else Some tt);;     (* FD_CLR *)
      modify (fun r => r <| rt_sel_fds ::= fun s => s ∖ {[if_pf iface]} |>);;
      pcap_close pd;;
      modify_iface i (fun f => f <| if_pd := None |> <| if_pf := -1 |> <| if_ifidx := -1 |> <| if_name := [] |>)
  end.

(** The route to an arbitrary public address. *)
Definition pubaddr : bytes := le32 0x60060606.
Definition inet_route (a : route_answer) : Rt (option route_info) :=
  r ← get_rt;
  '(route, seq) ← of_option (nl_get_route pubaddr (rq_open a) (rq_sent a) (rq_reply a) (sy_route_seq (rt_sys r)) (mk_route [] 0 (-1)));
  on_sys (fun s => s <| sy_route_seq := seq |>);;
  mret route.

Definition check_inet_interface : Rt unit :=
  r ← get_rt;
  match rt_inet_iface r with
  | None => mret tt
  | Some i =>
      a ← next_route;
      route ← inet_route a;
      iface ← get_iface i;
      match route with
      | None => mret tt
      | Some ri =>
          if ri_ifidx ri =? if_ifidx iface then mret tt else
          match rq_name a with
          | None => mret tt
          | Some ifname =>
              rv ← open_interface i ifname (default 0 (pc_inet_ifid <$> rt_conf r));
              if negb (rv =? PCAPD_OK) then mret tt else
              match if_pd iface with
              | None => mret tt
              | Some old_pd =>
                  cur ← get_iface i;
                  st ← pcap_stats old_pd (if_is_file iface) (if_stats cur);
                  modify_iface i (fun f => f <| if_stats := st |>);;
                  account_pstat st;;
                  pcap_close old_pd
              end
          end
      end
  end.

Definition iface_by_ifidx (ifaces : list pcapd_iface) (ifidx : Z) : option nat :=
  fst <$> list_find (fun f => if_ifidx f = ifidx) ifaces.

(** The messages of the kernel, as their type and their interface; the result:
    whether the route of the internet is to check. *)
Fixpoint nl_messages (msgs : list (Z * Z)) (recheck : bool) : Rt bool :=
  match msgs with
  | [] => mret recheck
  | (type, index) :: msgs' =>
      r ← get_rt;
      if type =? NLMSG_DONE then mret recheck
      else if (type =? RTM_NEWROUTE) || (type =? RTM_NEWRULE) then nl_messages msgs' true
      else if type =? RTM_NEWADDR then
        match iface_by_ifidx (rt_ifaces r) index with
        | None => nl_messages msgs' recheck
        | Some i =>
            '(ip, files) ← next_addrs;
            modify_iface i (fun f => f <| if_ip := default (if_ip f) ip |> <| if_ip6 := default 0 (get_iface_ip6 files (if_name f)) |>);;
            nl_messages msgs' recheck
        end
      else if type =? RTM_DELLINK then
        match iface_by_ifidx (rt_ifaces r) index with
        | None => nl_messages msgs' recheck
        | Some i =>
            iface ← get_iface i;
            inet ← match rt_inet_iface r with
                   | None => mret false
                   | Some j => f ← get_iface j; mret (if_ifidx iface =? if_ifidx f)
                   end;
            close_interface i;;
            nl_messages msgs' (recheck || inet)
        end
      else nl_messages msgs' recheck
  end.

Definition handle_nl_message : Rt Z :=
  msgs ← next_msgs;
  match msgs with
  | None => mret (-1)
  | Some msgs =>
      recheck ← nl_messages msgs false;
      when recheck check_inet_interface;;
      mret 0
  end.

(** ** Packets *)
(** By the addresses of the IP header; [true]: sent by the device. [None] is a
    read outside of the packet. *)
Definition is_tx_ip (iface : pcapd_iface) (pkt : bytes) (len : Z) : option bool :=
  if len <? 20 then Some false else
  b0 ← rd8 pkt 0;
  let version := Z.shiftr b0 4 in
  if version =? 4 then daddr ← rd32 pkt 16; Some (negb (daddr =? if_ip iface))
  else if (version =? 6) && (len >=? 40) then daddr ← rd128 pkt 24; Some (negb (daddr =? if_ip6 iface))
  else Some true.

(** The type of an SLL2 packet is one byte, but it is read as a big endian
    number of two. *)
Definition is_tx_packet (iface : pcapd_iface) (pkt : bytes) (len : Z) : option bool :=
  if (if_dlink iface =? DLT_EN10MB) && (len >=? 14) then
    dst ← rdn pkt 0 6;
    src ← rdn pkt 6 6;
    let smac := bytes2mac src in
    let dmac := bytes2mac dst in
    if negb (smac =? dmac) && (smac =? if_mac iface) then Some true
    else if negb (smac =? dmac) && (dmac =? if_mac iface) then Some false
    else is_tx_ip iface (drop 14 pkt) (len - 14)
  else if (if_dlink iface =? DLT_LINUX_SLL) && (len >=? SLL_HDR_LEN) then
    pkttype ← rd16 pkt 0;
    if ntohs pkttype =? LINUX_SLL_HOST then Some false
    else if ntohs pkttype =? LINUX_SLL_OUTGOING then Some true
    else is_tx_ip iface (drop (Z.to_nat SLL_HDR_LEN) pkt) (len - SLL_HDR_LEN)
  else if (if_dlink iface =? DLT_LINUX_SLL2) && (len >=? SLL2_HDR_LEN) then
    pkttype ← rd8 pkt 10;
    if ntohs pkttype =? LINUX_SLL_HOST then Some false
    else if ntohs pkttype =? LINUX_SLL_OUTGOING then Some true
    else is_tx_ip iface (drop (Z.to_nat SLL2_HDR_LEN) pkt) (len - SLL2_HDR_LEN)
  else is_tx_ip iface pkt len.

(** A call over netlink. *)
Definition on_nl {A} (m : M nl_state A) : Rt A := fun r =>
  match m (sy_nl (rt_sys r)) with
  | Some (a, nl) => Some (a, r <| rt_sys ::= fun s => s <| sy_nl := nl |> |>)
  | None => None
  end.

Definition get_uid_rt (tuple : zdtun_5tuple) : Rt Z :=
  r ← get_rt; resolver ← of_option (rt_resolver r); mret (get_uid resolver tuple).

Definition close_nldiag : Rt unit :=
  r ← get_rt; close_fd (rt_nldiag_sock r);; modify (fun r => r <| rt_nldiag_sock := -1 |>).

(** The UID of a packet of a device; [tuple] is from its side. *)
Definition pkt_uid (tuple : zdtun_5tuple) : Rt Z :=
  r ← get_rt;
  lru ← of_option (rt_lru r);
  let '(uid, lru) := UidLru.uid_lru_find lru tuple in
  modify (fun r => r <| rt_lru := Some lru |>);;
  if negb (uid =? -2) then mret uid else
  uid ← (if (rt_nldiag_sock r >? 0) && negb (ipproto tuple =? IPPROTO_ICMP) then
           uid ← on_nl (nl_get_uid tuple);
           if (uid <? 0) && negb (uid =? UID_UNKNOWN) then
             close_nldiag;; get_uid_rt tuple
           else mret uid
         else get_uid_rt tuple);
  ok ← next_alloc;
  modify (fun r => r <| rt_lru := Some (UidLru.uid_lru_add lru tuple uid ok) |>);;
  mret uid.

(** [xwrite] of the header and of the packet. *)
Definition send_packet (hdr : pcapd_hdr) (data : bytes) : Rt Z :=
  r ← get_rt;
  let sys := rt_sys r in
  let '(rv, sent, io) := send_frame (sy_io sys) hdr (sy_pad sys) data in
  on_sys (fun s => s <| sy_io := io |> <| sy_wire ::= fun w => w ++ sent |>
                     <| sy_sent ::= fun fs => fs ++ [mk_packet hdr (sy_pad sys) (take (Z.to_nat (hdr_len hdr)) data)] |>);;
  mret rv.

(** The part of [read_pkt] on a packet that has the whole data link header. A
    search in the filter that does not end is undefined. *)
Definition export_pkt (i : nat) (p : cap_pkt) : Rt Z :=
  r ← get_rt;
  conf ← of_option (rt_conf r);
  iface ← get_iface i;
  let caplen := blen (cp_data p) in
  let to_skip := if_ipoffset iface in
  is_tx ← of_option (is_tx_packet iface (cp_data p) (u16 caplen));
  let ip := drop (Z.to_nat to_skip) (cp_data p) in
  '(parsed, ids) ← of_option (zdtun_parse_pkt (rt_ids r) ip (u16 (caplen - to_skip)));
  modify (fun r => r <| rt_ids := ids |>);;
  uid ← match parsed with
        | inr zpkt =>
            if if_is_file iface then mret UID_UNKNOWN
            else pkt_uid (if is_tx then pkt_tuple zpkt else tupleSwapPeers (pkt_tuple zpkt))
        | inl _ => mret UID_UNKNOWN
        end;
  matches ← of_option (matches_uid_filter 1 (pc_uid_filter conf) uid);
  if negb (matches : bool) then mret PCAPD_OK else
  let '(data, len, linktype) := if pc_dump_datalink conf then (cp_data p, caplen, if_dlink iface) else (ip, caplen - to_skip, DLT_RAW) in
  let hdr := mk_hdr (cp_ts p) (ps_drop (if_stats iface)) (u32 uid) (u16 len) (u16 linktype) (if (is_tx : bool) then PCAPD_FLAG_TX else 0) (if_ifid iface) in
  rv ← (if pc_no_client conf then mret 0 else send_packet hdr data);
  if rv <? 0 then mret PCAPD_SOCKET_WRITE_ERROR else
  when (if_is_file iface) (modify_iface i (fun f => f <| if_stats ::= fun st => mk_pstat (u32 (ps_recv st + 1)) (ps_drop st) (ps_ifdrop st) |>));;
  mret PCAPD_OK.

Definition read_pkt (i : nat) (now : Z) : Rt Z :=
  r ← get_rt;
  iface ← get_iface i;
  pd ← of_option (if_pd iface);
  pcap_use pd;;
  answer ← next_pkt;
  match answer with
  | NextError =>
      close_interface i;;
      mret (if bool_decide (rt_inet_iface r = Some i) then PCAPD_OK else PCAPD_PCAP_READ_ERROR)
  | NextBreak => mret PCAPD_EOF
  | NextNone => mret PCAPD_OK
  | NextPkt p =>
      rv ← (if blen (cp_data p) >=? if_ipoffset iface then export_pkt i p else mret PCAPD_OK);
      if negb (rv =? PCAPD_OK) then mret rv else
      when (now >=? if_next_stats_update iface)
        (cur ← get_iface i;
         pd ← of_option (if_pd cur);
         st ← pcap_stats pd (if_is_file cur) (if_stats cur);
         modify_iface i (fun f => f <| if_stats := st |> <| if_next_stats_update := now + 3 |>));;
      mret PCAPD_OK
  end.

(** ** The run *)
Definition get_selectable_fds : Rt unit :=
  modify (fun r => r <| rt_sel_fds :=
    list_to_set ((if rt_client r >? 0 then [rt_client r] else []) ++ (if rt_nlroute_sock r >? 0 then [rt_nlroute_sock r] else []) ++
                 base.filter (fun pf => pf <> -1) (if_pf <$> rt_ifaces r)) |>).

(** What the initialisation gets from the system. *)
Record init_env := mk_ienv {
  ie_fork : bool;
  ie_lru : bool;
  ie_resolver : option uid_resolver;
  ie_pidfile : bool;
  ie_nlroute : option Z;
  ie_bound : bool;
  ie_root : bool;
  ie_diag : option Z;
  ie_nldiag : option Z;
  ie_client : option Z;
  ie_connect : bool
}.

(** The socket for the routes, if it is created, and whether it can be bound. *)
Definition nl_route_socket (sock : option Z) (bound : bool) : Rt (option Z) :=
  match sock with
  | None => mret None
  | Some fd => open_fd fd;; if bound then mret (Some fd) else close_fd fd;; mret None
  end.

(** [nl_is_diag_working], on a socket of its own. *)
Definition diag_working (sock : option Z) : Rt bool :=
  match sock with
  | None => mret false
  | Some fd => open_fd fd;; works ← on_nl nl_is_diag_working; close_fd fd;; mret works
  end.

(** The sockets; the result is whether it succeeded. *)
Definition init_sockets (conf : pcapd_conf_t) (e : init_env) : Rt bool :=
  ok ← (if negb (pc_inet_ifid conf =? -1) then
          fd ← nl_route_socket (ie_nlroute e) (ie_bound e);
          match fd with
          | None => mret false
          | Some fd => modify (fun r => r <| rt_nlroute_sock := fd |> <| rt_maxfd ::= fun m => Z.max m fd |>);; mret true
          end
        else mret true);
  if negb ok then mret false else
  works ← (if ie_root e then diag_working (ie_diag e) else mret false);
  when works
    (match ie_nldiag e with
     | None => mret tt
     | Some fd => open_fd fd;; modify (fun r => r <| rt_nldiag_sock := fd |>)
     end);;
  if pc_no_client conf then mret true else
  match ie_client e with
  | None => mret false
  | Some fd =>
      open_fd fd;; modify (fun r => r <| rt_client := fd |> <| rt_maxfd ::= fun m => Z.max m fd |>);;
      mret (ie_connect e)
  end.

Definition init_pcapd_capture (conf : pcapd_conf_t) (e : init_env) : Rt bool :=
  if pc_daemonize conf && negb (ie_fork e) then mret false else
  modify (fun r => r <| rt_nlroute_sock := -1 |> <| rt_nldiag_sock := -1 |> <| rt_client := -1 |> <| rt_conf := Some conf |>
                     <| rt_lru := UidLru.uid_lru_init 64 (ie_lru e) |>);;
  if negb (ie_lru e) then mret false else
  modify (fun r => r <| rt_resolver := ie_resolver e |>);;
  match ie_resolver e with
  | None => mret false
  | Some _ =>
      modify (fun r => r <| rt_ifaces := replicate (length (pc_ifnames conf)) init_interface |>);;
      when (negb (pc_inet_ifid conf =? -1)) (modify (fun r => r <| rt_inet_iface := Some (Z.to_nat (pc_inet_ifid conf)) |>));;
      if pc_daemonize conf && negb (ie_pidfile e) then mret false else init_sockets conf e
  end.

Definition close_if_open (fd : Z) : Rt unit := when (fd >? 0) (close_fd fd).
Definition finish_pcapd_capture : Rt unit :=
  r ← get_rt;
  close_if_open (rt_client r);;
  close_if_open (rt_nlroute_sock r);;
  close_if_open (rt_nldiag_sock r);;
  modify (fun r => r <| rt_lru := None |> <| rt_resolver := None |>);;
  of_option (rt_conf r);;
  for_each close_interface (seq 0 (length (rt_ifaces r))).

(** The filter given to the library. *)
Definition capture_bpf (bpf : option bytes) : bytes :=
  let text := snprintf 512 (STR "ip or ip6") in
  match bpf with
  | None | Some [] => text
  | Some bpf => text ++ snprintf (512 - blen text) (STR " and (" ++ bpf ++ STR ")")
  end.

(** The interfaces that are named, from the [i]-th. *)
Fixpoint open_all (ifnames : list bytes) (i : nat) : Rt Z :=
  match ifnames with
  | [] => mret PCAPD_OK
  | ifname :: ifnames' =>
      if decide (ifname = STR "@inet") then open_all ifnames' (S i) else
      rv ← open_interface i ifname (Z.of_nat i);
      if negb (rv =? PCAPD_OK) then mret rv else open_all ifnames' (S i)
  end.

(** One turn over the interfaces that are ready: the result, and whether the
    loop goes on. *)
Fixpoint read_ready (idxs : list nat) (fds : gset Z) (now : Z) (rv : Z) : Rt (Z * bool) :=
  match idxs with
  | [] => mret (rv, true)
  | i :: idxs' =>
      iface ← get_iface i;
      if negb (if_pf iface =? -1) && bool_decide (if_pf iface ∈ fds) then
        rv ← read_pkt i now;
        if negb (rv =? PCAPD_OK) then mret (if rv =? PCAPD_EOF then PCAPD_OK else rv, false)
        else read_ready idxs' fds now rv
      else read_ready idxs' fds now rv
  end.

(** [DSelect]: the descriptors that are ready. [DSignal]: a signal between two
    turns. *)
Inductive dump_event :=
  | DSignal
  | DSelectFailed (interrupted : bool)
  | DSelect (now : Z) (ready : gset Z).

(** The part of a turn after [select]: the result, and whether the loop goes on. *)
Definition dump_turn (now : Z) (ready : gset Z) (rv : Z) : Rt (Z * bool) :=
  r ← get_rt;
  let fds := ready ∩ rt_sel_fds r in
  if (rt_nlroute_sock r >? 0) && bool_decide (rt_nlroute_sock r ∈ fds) then
    res ← handle_nl_message;
    if res <? 0 then mret (PCAPD_NETLINK_ERROR, false) else get_selectable_fds;; mret (rv, true)
  else read_ready (seq 0 (length (rt_ifaces r))) fds now rv.

Definition recheck_inet (now next_recheck : Z) : Rt Z :=
  r ← get_rt;
  match rt_inet_iface r with
  | None => mret next_recheck
  | Some i =>
      iface ← get_iface i;
      if bool_decide (if_pd iface = None) && (now >=? next_recheck) then check_inet_interface;; mret (now + 2)
      else mret next_recheck
  end.

Fixpoint dump_loop (events : list dump_event) (next_recheck rv : Z) : Rt Z :=
  match events with
  | [] | DSignal :: _ => mret rv
  | DSelectFailed interrupted :: _ => mret (if interrupted then rv else PCAPD_ERROR)
  | DSelect now ready :: events' =>
      r ← get_rt;
      if (rt_client r >? 0) && bool_decide (rt_client r ∈ ready ∩ rt_sel_fds r) then mret rv else
      '(rv, go) ← dump_turn now ready rv;
      if (rv =? PCAPD_NETLINK_ERROR) && negb go then mret rv else
      next ← recheck_inet now next_recheck;
      if go : bool then dump_loop events' next rv else mret rv
  end.

(** The state is zeroed; the [zdtun] state is only used to parse the packets. *)
Definition run_pcap_dump (zdt_ok : bool) (conf : pcapd_conf_t) (e : init_env) (events : list dump_event) : Rt Z :=
  if negb zdt_ok then finish_pcapd_capture;; mret PCAPD_ERROR else
  ok ← init_pcapd_capture conf e;
  if negb (ok : bool) then finish_pcapd_capture;; mret PCAPD_ERROR else
  check_inet_interface;;
  rv ← open_all (pc_ifnames conf) 0;
  rv ← (if negb (rv =? PCAPD_OK) then mret rv else get_selectable_fds;; dump_loop events 0 PCAPD_OK);
  finish_pcapd_capture;;
  mret rv.

Definition zero_rt (sys : pcapd_sys) : pcapd_runtime :=
  mk_rt None 0 0 0 None None None [] zero_pstat ∅ 0 ∅ sys.
