(* ===== verification/PcapdInv.v ===== *)
(** The invariant of the daemon: the handles of the interfaces, the descriptors,
    and the packets sent; kept by every operation of its run. *)
From Stdlib Require Import ZArith Lia String.
From stdpp Require Import base option gmap numbers list.
From S2P Require Import Prelude Packet Uthash Lru AppNames PcapDump Blacklist NdpiProtos Conn JavaDump Dpi Housekeeping JavaRequests CaptureLibpcap.
From S2P Require Import CText UidResolver Framing PcapdArgs RootRun NlUtils IfaceAddr Pcapd.

Open Scope Z_scope.

(** ** What is assumed of the answers *)
(** The buffer of the netlink messages has 512 bytes. *)
Definition nl_ok (n : nl_state) : Prop := blen (nl_junk n) = 440.
Definition answer_ok (a : pcap_answer) : Prop := 0 <= pa_fd a.
Definition pstat_ok (st : pcap_stat) : Prop := 0 <= ps_drop st < 2 ^ 32.
Definition cap_ok (p : cap_pkt) : Prop :=
  wf_bytes (cp_data p) /\ blen (cp_data p) <= PCAPD_SNAPLEN /\
  - 2 ^ 63 <= tv_sec (cp_ts p) < 2 ^ 63 /\ - 2 ^ 63 <= tv_usec (cp_ts p) < 2 ^ 63.

Record sys_ok (s : pcapd_sys) : Prop := {
  so_opens : Forall answer_ok (sy_opens s);
  so_stats : Forall pstat_ok (sy_stats s);
  so_pkts : forall p, NextPkt p ∈ sy_pkts s -> cap_ok p;
  so_nl : nl_ok (sy_nl s);
  so_pad : blen (sy_pad s) = 2 /\ wf_bytes (sy_pad s)
}.

(** ** Reads within bounds *)
Lemma is_tx_ip_total iface pkt len : len <= blen pkt -> is_Some (is_tx_ip iface pkt len).
Proof.
  intros Hl. unfold is_tx_ip. destruct (Z.ltb_spec len 20); [done|]. destruct (rd8_Some pkt 0) as [b0 ->]; [lia|]. cbn [mbind option_bind].
  destruct (_ =? 4); [destruct (rd32_Some pkt 16) as [d ->]; [lia..|done]|].
  destruct (Z.geb_spec len 40); [rewrite andb_true_r|by rewrite andb_false_r]. destruct (_ =? 6); [|done].
  by destruct (rd128_Some pkt 24) as [d ->]; [lia..|].
Qed.

Lemma blen_drop_le n (pkt : bytes) len : 0 <= n -> len <= blen pkt -> len - n <= blen (drop (Z.to_nat n) pkt).
Proof. unfold blen. rewrite length_drop. lia. Qed.

Lemma is_tx_packet_total iface pkt len : len <= blen pkt -> is_Some (is_tx_packet iface pkt len).
Proof.
  intros Hl. unfold is_tx_packet, SLL_HDR_LEN, SLL2_HDR_LEN.
  assert (Hip : forall n, 0 <= n -> is_Some (is_tx_ip iface (drop (Z.to_nat n) pkt) (len - n))) by (intros n Hn; by apply is_tx_ip_total, blen_drop_le).
  destruct (Z.geb_spec len 14) as [H14|], (Z.geb_spec len 16), (Z.geb_spec len 20); rewrite ?andb_true_r, ?andb_false_r; try lia;
    repeat match goal with
  | |- is_Some (if ?b then _ else _) => destruct b
  | |- is_Some (rdn pkt ?o 6 ≫= _) => rewrite (rdn_Some pkt o 6) by lia; cbn [mbind option_bind]; cbv zeta
  | |- is_Some (rd16 pkt 0 ≫= _) => destruct (rd16_Some pkt 0) as [? ->]; [lia..|]; cbn [mbind option_bind]
  | |- is_Some (rd8 pkt 10 ≫= _) => destruct (rd8_Some pkt 10) as [? ->]; [lia..|]; cbn [mbind option_bind]
  | |- is_Some (Some _) => done
  | |- is_Some (is_tx_ip _ pkt len) => by apply is_tx_ip_total
  | |- is_Some (is_tx_ip _ (drop 14 pkt) _) => by apply (Hip 14)
  | |- is_Some (is_tx_ip _ (drop _ pkt) _) => by apply Hip
  end.
Qed.

Lemma diag_recv_total do_retry seq buf replies : blen buf = 512 -> is_Some (diag_recv do_retry seq buf replies).
Proof.
  revert do_retry buf. induction replies as [|[[|b0 msg']|] replies IH]; intros do_retry buf Hb; try done. set (msg := b0 :: msg').
  cbn [diag_recv]. fold msg. pose proof (blen_recv_into buf msg) as Hl. set (buf' := recv_into buf msg) in *.
  destruct (rd32_Some buf' 0) as [len Elen]; [lia..|]. destruct (rd32_Some buf' 8) as [nlseq ->]; [lia..|]. rewrite Elen. cbn [mbind option_bind].
  destruct (_ || _); [done|]. destruct (negb _); [destruct (_ && _); [apply IH; lia|done]|].
  assert (is_Some (diag_reply_uid buf')) as [uid ->]; [|done]. unfold diag_reply_uid. rewrite Elen.
  destruct (rd16_Some buf' 4) as [type ->]; [lia..|]. cbn [mbind option_bind]. destruct (type =? NLMSG_ERROR).
  - destruct (_ >=? _); [|done]. by destruct (rd32_Some buf' 16) as [err ->]; [lia..|].
  - destruct (_ =? NLMSG_DONE); [done|]. destruct (_ <? _); [done|]. by destruct (rd32_Some buf' 80) as [uid ->]; [lia..|].
Qed.

Lemma diag_uid_lookup_total family proto local remote flags s :
  nl_ok s -> wp (diag_uid_lookup family proto local remote flags) (fun _ s' => nl_ok s') s.
Proof.
  intros Hj. unfold diag_uid_lookup, wp. cbv zeta. destruct (negb _); [done|].
  destruct (diag_recv_total true (u32 (nl_seq s + 1)) (encode_nlmsg family proto local remote flags (u32 (nl_seq s + 1)) ++ nl_junk s) (nl_replies s)) as [[uid replies] E].
  { rewrite blen_app, Hj. pose proof (blen_lookup_msg proto (u32 (nl_seq s + 1)) (mk_lookup family local remote flags)) as Hb.
    unfold lookup_msg in Hb. cbn [lk_family lk_local lk_remote lk_flags] in Hb. lia. }
  rewrite E. done.
Qed.

Lemma nl_get_uid_total tuple s : nl_ok s -> wp (nl_get_uid tuple) (fun _ s' => nl_ok s') s.
Proof.
  intros Hs. enough (Hf : wp (first_answer (ipproto tuple) (lookups tuple)) (fun _ s' => nl_ok s') s).
  { unfold wp in *. by rewrite nl_get_uid_lookups. }
  revert s Hs. generalize (ipproto tuple) as proto. intros proto. induction (lookups tuple) as [|l ls IH]; intros s Hs; cbn [first_answer]; [by apply wp_ret|].
  apply wp_bind. unfold run_lookup. eapply wp_mono; [apply diag_uid_lookup_total; exact Hs|]. intros uid s' Hs'. destruct (answered uid); [by apply wp_ret|by apply IH].
Qed.

(** ** The invariant *)

(** A packet that the capture accepts: a header it can read, and enough bytes for
    the data link header that it announces. *)
Record accepted (f : packet) : Prop := {
  ac_frame : frame_ok f;
  ac_offset : 0 <= get_ip_offset (hdr_linktype (fp_hdr f)) <= hdr_len (fp_hdr f);
  ac_wf : wf_bytes (fp_data f) /\ wf_bytes (fp_pad f)
}.

Record iface_ok (f : pcapd_iface) : Prop := {
  io_link : if_pd f <> None -> datalink_offset (if_dlink f) = Some (if_ipoffset f) /\ 0 <= if_pf f;
  io_closed : if_pd f = None -> if_pf f = -1;
  io_ifid : is_byte (if_ifid f);
  io_stats : pstat_ok (if_stats f)
}.

Definition holds_pd (l : list pcapd_iface) (i : nat) (h : Z) : Prop := exists f, l !! i = Some f /\ if_pd f = Some h.

(** The open handles are those of the interfaces, one each, and [extra]. *)
Record handles_ok (extra : option Z) (l : list pcapd_iface) (hs : gset Z) (next : Z) : Prop := {
  ho_own : forall h, h ∈ hs <-> extra = Some h \/ exists i, holds_pd l i h;
  ho_uniq : forall i j h, holds_pd l i h -> holds_pd l j h -> i = j;
  ho_extra : forall i h, holds_pd l i h -> extra <> Some h;
  ho_next : forall h, h ∈ hs -> h < next
}.

(** The open descriptors are the sockets, one each. *)
Record fds_ok (client nlroute nldiag : Z) (fds : gset Z) : Prop := {
  fo_own : forall fd, fd ∈ fds <-> 0 < fd /\ (fd = client \/ fd = nlroute \/ fd = nldiag);
  fo_client : 0 < client -> client <> nlroute /\ client <> nldiag;
  fo_nlroute : 0 < nlroute -> nlroute <> nldiag
}.

(** [ok]: no write has failed. *)
Record wire_ok (ok : bool) (sent : list packet) (wire : bytes) : Prop := {
  wo_sent : Forall accepted sent;
  wo_wire : exists rest, stream_of sent = wire ++ rest /\ (ok = true -> rest = [])
}.

(** ** What becomes of the packets that were read *)

(** The frames made of a packet: none if it has not the whole data link header,
    or if there is no client; else one, with its time and its bytes. *)
Definition carried (conf : pcapd_conf_t) (p : cap_pkt) (fs : list packet) : Prop :=
  exists dlink off, datalink_offset dlink = Some off /\
  if (blen (cp_data p) <? off) || pc_no_client conf then fs = [] else
  exists f, fs = [f] /\ hdr_ts (fp_hdr f) = cp_ts p /\
    (hdr_linktype (fp_hdr f), fp_data f) =
      (if pc_dump_datalink conf then (dlink, cp_data p) else (DLT_RAW, drop (Z.to_nat off) (cp_data p))).

(** Each packet in its turn. *)
Inductive carries (conf : pcapd_conf_t) : list next_ex -> list packet -> Prop :=
  | carries_nil : carries conf [] []
  | carries_pkt p evs fs fs' : carried conf p fs -> carries conf evs fs' -> carries conf (NextPkt p :: evs) (fs ++ fs')
  | carries_other e evs fs : (forall p, e <> NextPkt p) -> carries conf evs fs -> carries conf (e :: evs) fs.

Lemma carries_app conf evs evs' fs fs' : carries conf evs fs -> carries conf evs' fs' -> carries conf (evs ++ evs') (fs ++ fs').
Proof. intros H. revert evs' fs'. induction H; intros; [done|cbn; rewrite <- app_assoc; constructor; auto|cbn; constructor; auto]. Qed.

(** The frames sent between two states are those of the packets read. *)
Definition progress (conf : pcapd_conf_t) (r r' : pcapd_runtime) : Prop := exists taken fs,
  sy_pkts (rt_sys r) = taken ++ sy_pkts (rt_sys r') /\ sy_sent (rt_sys r') = sy_sent (rt_sys r) ++ fs /\ carries conf taken fs.

#[export] Instance progress_preorder conf : PreOrder (progress conf).
Proof.
  split.
  - intros r. exists [], []. rewrite app_nil_r. split_and!; [done|done|constructor].
  - intros a b c (t & f & Ht & Hf & Hc) (t' & f' & Ht' & Hf' & Hc'). exists (t ++ t'), (f ++ f').
    rewrite Ht, Ht', Hf', Hf, !app_assoc. split_and!; [done|done|by apply carries_app].
Qed.

(** Neither packets read nor frames sent. *)
Definition log (r : pcapd_runtime) : list packet * list next_ex := (sy_sent (rt_sys r), sy_pkts (rt_sys r)).

Lemma progress_log conf r r' : log r' = log r -> progress conf r r'.
Proof. intros [= Hs Hp]. exists [], []. rewrite Hs, Hp, app_nil_r. split_and!; [done|done|constructor]. Qed.

Lemma modify_iface_log i g : preserves log (modify_iface i g).
Proof. unfold modify_iface, get_iface. preserves_steps. Qed.
#[export] Hint Resolve modify_iface_log : preserves.

Lemma pcap_stats_log h is_file old : preserves log (pcap_stats h is_file old).
Proof. unfold pcap_stats, pcap_use, next_answer, on_sys. preserves_steps. Qed.

Lemma pcap_close_log h : preserves log (pcap_close h).
Proof. unfold pcap_close, pcap_use, on_sys. preserves_steps. Qed.

Lemma open_interface_log i name ifid : preserves log (open_interface i name ifid).
Proof. unfold open_interface, next_open, next_answer, pcap_open, on_sys. preserves_steps; auto using pcap_close_log. Qed.
#[export] Hint Resolve pcap_stats_log pcap_close_log open_interface_log : preserves.

Lemma close_interface_log i : preserves log (close_interface i).
Proof. unfold close_interface, get_iface, account_pstat. preserves_steps. Qed.

Lemma check_inet_log : preserves log check_inet_interface.
Proof. unfold check_inet_interface, inet_route, next_route, next_answer, get_iface, account_pstat, on_sys. preserves_steps. Qed.
#[export] Hint Resolve close_interface_log check_inet_log : preserves.

Lemma handle_nl_message_log : preserves log handle_nl_message.
Proof.
  assert (Hm : forall msgs recheck, preserves log (nl_messages msgs recheck)).
  { induction msgs as [|[type index] msgs IH]; intros recheck; cbn [nl_messages]; unfold next_addrs, next_answer, get_iface, on_sys; preserves_steps. }
  unfold handle_nl_message, next_msgs, next_answer, on_sys. preserves_steps.
Qed.

Lemma recheck_inet_log now next : preserves log (recheck_inet now next).
Proof. unfold recheck_inet, get_iface. preserves_steps. Qed.

Lemma on_nl_log {A} (m : M nl_state A) : preserves log (on_nl m).
Proof. intros r a r'. unfold on_nl. destruct (m _) as [[? ?]|]; [|done]. by intros [= _ <-]. Qed.
#[export] Hint Resolve on_nl_log : preserves.

Lemma pkt_uid_log tuple : preserves log (pkt_uid tuple).
Proof. unfold pkt_uid, close_nldiag, close_fd, get_uid_rt, next_alloc, next_answer, on_sys. preserves_steps. Qed.

Section inv.
(** [alive]: the caches of the UIDs are there; [fds_open]: the descriptors were
    not closed. *)
Context (conf : pcapd_conf_t) (alive fds_open : bool).

Record inv (extra : option Z) (ok : bool) (r : pcapd_runtime) : Prop := {
  iv_conf : rt_conf r = Some conf;
  iv_lru : alive = true -> is_Some (rt_lru r);
  iv_resolver : alive = true -> is_Some (rt_resolver r);
  iv_inet : forall i, rt_inet_iface r = Some i -> (i < length (rt_ifaces r))%nat;
  iv_ids : ids_wf (rt_ids r);
  iv_ifaces : Forall iface_ok (rt_ifaces r);
  iv_handles : handles_ok extra (rt_ifaces r) (sy_handles (rt_sys r)) (sy_next (rt_sys r));
  iv_fds : if fds_open then fds_ok (rt_client r) (rt_nlroute_sock r) (rt_nldiag_sock r) (sy_fds (rt_sys r)) else sy_fds (rt_sys r) = ∅;
  iv_sys : sys_ok (rt_sys r);
  iv_wire : wire_ok ok (sy_sent (rt_sys r)) (sy_wire (rt_sys r))
}.

(** What the operations leave alone of the interfaces and of the run. *)
Record frame (r r' : pcapd_runtime) : Prop := {
  fr_len : length (rt_ifaces r') = length (rt_ifaces r);
  fr_inet : rt_inet_iface r' = rt_inet_iface r
}.

#[export] Instance frame_preorder : PreOrder frame.
Proof. split; [done|]. intros a b c [] []. split; congruence. Qed.

Lemma inv_iface_at extra ok r i : inv extra ok r -> (i < length (rt_ifaces r))%nat ->
  exists f, rt_ifaces r !! i = Some f /\ iface_ok f.
Proof.
  intros Hi Hl. destruct (lookup_lt_is_Some_2 _ _ Hl) as [f Hf]. exists f. split; [done|]. exact (proj1 (Forall_lookup _ _) (iv_ifaces _ _ _ Hi) _ _ Hf).
Qed.

(** *** Updates *)

(** Of the answers only. *)
Lemma inv_answers extra ok r f :
  inv extra ok r -> sys_ok (f (rt_sys r)) -> sy_handles (f (rt_sys r)) = sy_handles (rt_sys r) -> sy_next (f (rt_sys r)) = sy_next (rt_sys r) ->
  sy_fds (f (rt_sys r)) = sy_fds (rt_sys r) -> sy_sent (f (rt_sys r)) = sy_sent (rt_sys r) -> sy_wire (f (rt_sys r)) = sy_wire (rt_sys r) ->
  inv extra ok (r <| rt_sys ::= f |>).
Proof. intros [] Hs Hh Hn Hf Ht Hw. split; try done; change (rt_sys (r <| rt_sys ::= f |>)) with (f (rt_sys r)); rewrite ?Hh, ?Hn, ?Hf, ?Ht, ?Hw; done. Qed.

Lemma holds_insert l i f g j h : l !! i = Some f -> holds_pd (<[i := g]> l) j h <-> (j = i /\ if_pd g = Some h) \/ (j <> i /\ holds_pd l j h).
Proof.
  intros Hf. pose proof (lookup_lt_Some _ _ _ Hf) as Hl. unfold holds_pd. destruct (decide (j = i)) as [->|Hne].
  - rewrite list_lookup_insert_eq by done. split; [intros (x & [= <-] & Hx); auto|]. intros [[_ Hg]|[? _]]; [eauto|done].
  - rewrite list_lookup_insert_ne by done. naive_solver.
Qed.

(** Of an interface that keeps its handle. *)
Lemma handles_keep extra l i f g hs next :
  handles_ok extra l hs next -> l !! i = Some f -> if_pd g = if_pd f -> handles_ok extra (<[i := g]> l) hs next.
Proof.
  intros [Ho Hu He Hn] Hf Hg.
  assert (Hsame : forall j h, holds_pd (<[i := g]> l) j h <-> holds_pd l j h).
  { intros j h. rewrite (holds_insert _ _ _ _ _ _ Hf), Hg. split.
    - intros [[-> Hp]|[_ ?]]; [by exists f|done].
    - destruct (decide (j = i)) as [->|]; [|by right]. intros (x & Hx & Hp). left. split; [done|]. congruence. }
  split; try setoid_rewrite Hsame; done.
Qed.

Lemma inv_iface extra ok r i f g :
  inv extra ok r -> rt_ifaces r !! i = Some f -> if_pd g = if_pd f -> iface_ok g ->
  inv extra ok (r <| rt_ifaces ::= fun l => <[i := g]> l |>).
Proof.
  intros [] Hf Hg Hk. split; try done; change (rt_ifaces (r <| rt_ifaces ::= _ |>)) with (<[i := g]> (rt_ifaces r)).
  - intros j. rewrite length_insert. auto.
  - by apply Forall_insert.
  - by eapply handles_keep.
Qed.

Lemma wp_get_iface extra ok r i (Q : pcapd_iface -> pcapd_runtime -> Prop) :
  inv extra ok r -> (i < length (rt_ifaces r))%nat ->
  (forall f, rt_ifaces r !! i = Some f -> iface_ok f -> Q f r) -> wp (get_iface i) Q r.
Proof. intros Hi Hl HQ. destruct (inv_iface_at _ _ _ _ Hi Hl) as (f & Hf & Hk). unfold get_iface. wp_steps. eapply wp_of_option; [exact Hf|]. by apply HQ. Qed.

Lemma wp_modify_iface r i f g (Q : unit -> pcapd_runtime -> Prop) :
  rt_ifaces r !! i = Some f -> Q tt (r <| rt_ifaces ::= fun l => <[i := g f]> l |>) -> wp (modify_iface i g) Q r.
Proof. intros Hf HQ. unfold modify_iface, get_iface. wp_steps. eapply wp_of_option; [exact Hf|]. by wp_steps. Qed.

Lemma wp_next_answer {A} get set (d : A) (Q : A -> pcapd_runtime -> Prop) r :
  (get (rt_sys r) = [] -> Q d r) ->
  (forall a rest, get (rt_sys r) = a :: rest -> Q a (r <| rt_sys ::= set rest |>)) ->
  wp (next_answer get set d) Q r.
Proof. intros Hd Ha. unfold next_answer. wp_steps. destruct (get (rt_sys r)) as [|a rest] eqn:E; [by apply wp_ret, Hd|]. unfold on_sys. wp_steps. by apply Ha. Qed.

Lemma wp_pcap_use r h (Q : unit -> pcapd_runtime -> Prop) : h ∈ sy_handles (rt_sys r) -> Q tt r -> wp (pcap_use h) Q r.
Proof. intros Hh HQ. unfold pcap_use. wp_steps. rewrite decide_True by done. by eapply wp_of_option. Qed.

(** *** Handles *)
Lemma handles_open l hs next : handles_ok None l hs next -> handles_ok (Some next) l ({[next]} ∪ hs) (next + 1).
Proof.
  intros [Ho Hu He Hn].
  assert (Hnew : forall i, ~ holds_pd l i next). { intros i Hi. assert (next ∈ hs) by (apply Ho; right; eauto). apply Hn in H. lia. }
  split; [|done|intros i h Hi [= <-]; by destruct (Hnew i)|].
  - intros h. rewrite elem_of_union, elem_of_singleton, Ho. naive_solver.
  - intros h [->%elem_of_singleton|Hh%Hn]%elem_of_union; lia.
Qed.

Lemma handles_close_extra h l hs next : handles_ok (Some h) l hs next -> handles_ok None l (hs ∖ {[h]}) next.
Proof.
  intros [Ho Hu He Hn]. split; [|done|done|].
  - intros k. rewrite elem_of_difference, not_elem_of_singleton, Ho. split; [intros [[[= ->]|Hk] Hne]; [done|by right]|].
    intros [[=]|[i Hi]]. split; [by right; exists i|]. intros ->. by apply He in Hi.
  - intros k [Hk _]%elem_of_difference. by apply Hn.
Qed.

(** The handle that was of no interface becomes that of one, whose own is now of none. *)
Lemma handles_install extra l i f g hs next :
  handles_ok extra l hs next -> l !! i = Some f -> if_pd g = extra -> handles_ok (if_pd f) (<[i := g]> l) hs next.
Proof.
  intros [Ho Hu He Hn] Hf <-.
  assert (Hi : forall h, holds_pd l i h <-> if_pd f = Some h).
  { intros h. split; [intros (x & Hx & Hp); congruence|]. intros Hp. by exists f. }
  split; [| | |done].
  - intros h. rewrite Ho. split.
    + intros [Hg|[j Hj]]; [right; exists i; apply (holds_insert _ _ _ _ _ _ Hf); auto|].
      destruct (decide (j = i)) as [->|Hne]; [left; by apply Hi|right; exists j; apply (holds_insert _ _ _ _ _ _ Hf); auto].
    + intros [Hp|[j Hj]]; [right; exists i; by apply Hi|]. apply (holds_insert _ _ _ _ _ _ Hf) in Hj as [[-> Hg]|[_ Hj]]; eauto.
  - intros j k h Hj Hk. apply (holds_insert _ _ _ _ _ _ Hf) in Hj as [[-> Hg]|[Hnj Hj]], Hk as [[-> Hg']|[Hnk Hk]]; try done.
    + by apply He in Hk.
    + by apply He in Hj.
    + by eapply Hu.
  - intros j h Hj Hp. apply (holds_insert _ _ _ _ _ _ Hf) in Hj as [[-> Hg]|[Hnj Hj]].
    + apply Hi in Hp. by apply He in Hp.
    + apply Hnj. eapply Hu; [exact Hj|]. by apply Hi.
Qed.

Lemma wp_pcap_close ok r h (Q : unit -> pcapd_runtime -> Prop) :
  inv (Some h) ok r ->
  (forall r', inv None ok r' -> rt_ifaces r' = rt_ifaces r -> rt_inet_iface r' = rt_inet_iface r -> Q tt r') ->
  wp (pcap_close h) Q r.
Proof.
  intros Hi HQ. unfold pcap_close. wp_steps. apply wp_pcap_use; [apply (ho_own _ _ _ _ (iv_handles _ _ _ Hi)); by left|].
  unfold on_sys. wp_steps. apply HQ; [|done|done]. destruct Hi as [? ? ? ? ? ? Hh ? [] ?]. split; try done. by apply handles_close_extra.
Qed.

Lemma wp_pcap_open ok r (Q : Z -> pcapd_runtime -> Prop) :
  inv None ok r ->
  (forall h r', inv (Some h) ok r' -> rt_ifaces r' = rt_ifaces r -> rt_inet_iface r' = rt_inet_iface r -> Q h r') ->
  wp pcap_open Q r.
Proof.
  intros Hi HQ. unfold pcap_open, on_sys. wp_steps. apply HQ; [|done|done]. destruct Hi as [? ? ? ? ? ? Hh ? [] ?]. split; try done. by apply handles_open.
Qed.

Lemma wp_next_open ok r (Q : pcap_answer -> pcapd_runtime -> Prop) :
  inv None ok r ->
  (forall a r', answer_ok a \/ pa_live a = false /\ pa_file a = false -> inv None ok r' -> rt_ifaces r' = rt_ifaces r -> rt_inet_iface r' = rt_inet_iface r -> Q a r') ->
  wp next_open Q r.
Proof.
  intros Hi HQ. apply wp_next_answer; [intros _; apply HQ; auto|]. intros a rest E. pose proof (so_opens _ (iv_sys _ _ _ Hi)) as Ho. rewrite E in Ho.
  apply Forall_cons in Ho as [Ha Ho]. apply HQ; auto. apply inv_answers; try done. by destruct (iv_sys _ _ _ Hi).
Qed.

Lemma wp_pcap_stats extra ok r h is_file st (Q : pcap_stat -> pcapd_runtime -> Prop) :
  inv extra ok r -> h ∈ sy_handles (rt_sys r) -> pstat_ok st ->
  (forall st' r', pstat_ok st' -> inv extra ok r' -> rt_ifaces r' = rt_ifaces r -> rt_inet_iface r' = rt_inet_iface r -> Q st' r') ->
  wp (pcap_stats h is_file st) Q r.
Proof.
  intros Hi Hh Hst HQ. unfold pcap_stats. wp_steps. apply wp_pcap_use; [done|]. destruct is_file; [apply wp_ret; by apply HQ|].
  apply wp_next_answer; [intros _; by apply HQ|]. intros a rest E. pose proof (so_stats _ (iv_sys _ _ _ Hi)) as Ho. rewrite E in Ho.
  apply Forall_cons in Ho as [Ha Ho]. apply HQ; auto. apply inv_answers; try done. by destruct (iv_sys _ _ _ Hi).
Qed.

Lemma datalink_offset_range dlink off : datalink_offset dlink = Some off -> 0 <= off <= 20.
Proof. unfold datalink_offset, SLL_HDR_LEN, SLL2_HDR_LEN. intros. repeat case_match; simplify_eq; lia. Qed.

(** *** Opening *)

(** A success, with the handle that the interface had; or nothing changed. *)
Definition open_post (i : nat) (ok : bool) (r : pcapd_runtime) (rv : Z) (r' : pcapd_runtime) : Prop :=
  frame r r' /\
  ((rv = PCAPD_OK /\ exists f f', rt_ifaces r !! i = Some f /\ rt_ifaces r' = <[i := f']> (rt_ifaces r) /\ inv (if_pd f) ok r') \/
   (rv <> PCAPD_OK /\ rt_ifaces r' = rt_ifaces r /\ inv None ok r')).

Lemma open_interface_spec i name ifid ok r :
  inv None ok r -> (i < length (rt_ifaces r))%nat -> wp (open_interface i name ifid) (open_post i ok r) r.
Proof.
  intros Hi Hl. unfold open_interface. apply wp_bind, (wp_next_open ok); [done|]. intros a r1 Ha Hi1 Hf1 Hn1. cbv beta.
  destruct (negb (pa_live a) && _) eqn:Eopen.
  { apply wp_ret. split; [by split; [rewrite Hf1|]|]. by right. }
  assert (Hfd : 0 <= pa_fd a) by (destruct Ha as [Ha|[E1 E2]]; [exact Ha|by rewrite E1, E2 in Eopen]).
  apply wp_bind, (wp_pcap_open ok); [done|]. intros pd r2 Hi2 Hf2 Hn2. cbv beta zeta. set (dlink := if _ && _ then _ else _).
  assert (Hclose : forall rv, rv <> PCAPD_OK -> wp (pcap_close pd;; mret rv) (open_post i ok r) r2).
  { intros rv Hrv. apply wp_bind, (wp_pcap_close ok); [done|]. intros r3 Hi3 Hf3 Hn3. apply wp_ret.
    split; [by split; [rewrite Hf3, Hf2, Hf1|congruence]|]. right. split_and!; [done|congruence|done]. }
  destruct (datalink_offset dlink) as [off|] eqn:Ed; [|by apply Hclose]. destruct (_ || _); [by apply Hclose|].
  assert (Hl2 : (i < length (rt_ifaces r2))%nat) by congruence. destruct (inv_iface_at _ _ _ _ Hi2 Hl2) as (f & Hf & Hk).
  apply wp_bind, (wp_modify_iface _ _ f); [done|]. wp_steps.
  assert (Hfr : rt_ifaces r2 = rt_ifaces r) by congruence.
  split; [split; [cbn; by rewrite length_insert, Hfr|cbn; congruence]|]. left. split; [done|]. exists f, (opened_iface a pd dlink off name ifid f).
  rewrite Hfr in Hf. split_and!; [done|cbn; by rewrite Hfr|]. destruct Hi2 as [? ? ? ? ? ? Hh ? [] ?]. split; try done.
  - intros j Hj. cbn. rewrite length_insert. auto.
  - cbn. apply Forall_insert; [done|]. split; [intros _; split; [exact Ed|exact Hfd]|done|apply u8_range|exact (io_stats _ Hk)].
  - cbn. rewrite Hfr in *. by eapply handles_install.
Qed.

(** *** Closing *)
Lemma inv_handle extra ok r i f h : inv extra ok r -> rt_ifaces r !! i = Some f -> if_pd f = Some h -> h ∈ sy_handles (rt_sys r).
Proof. intros Hi Hf Hp. apply (ho_own _ _ _ _ (iv_handles _ _ _ Hi)). right. exists i, f. done. Qed.

Lemma inv_stats extra ok r g : inv extra ok r -> inv extra ok (r <| rt_stats ::= g |>).
Proof. intros []. by split. Qed.

Lemma inv_sel extra ok r g : inv extra ok r -> inv extra ok (r <| rt_sel_fds ::= g |>).
Proof. intros []. by split. Qed.

(** Every interface as before, but [i] without its handle. *)
Definition closed_post (i : nat) (ok : bool) (r : pcapd_runtime) (_ : unit) (r' : pcapd_runtime) : Prop :=
  frame r r' /\ inv None ok r' /\ forall j f', rt_ifaces r' !! j = Some f' ->
    exists f, rt_ifaces r !! j = Some f /\ (if j =? i then if_pd f' = None else f' = f)%nat.

Lemma close_interface_spec i ok r :
  inv None ok r -> (i < length (rt_ifaces r))%nat -> wp (close_interface i) (closed_post i ok r) r.
Proof.
  intros Hi Hl. unfold close_interface. apply wp_bind, (wp_get_iface None ok); [done..|]. intros f Hf Hk. cbv beta.
  destruct (if_pd f) as [h|] eqn:Ep.
  2: { apply wp_ret. split_and!; [done|done|]. intros j f' Hj. exists f'. split; [done|]. destruct (Nat.eqb_spec j i) as [->|]; [congruence|done]. }
  apply wp_bind, (wp_pcap_stats None ok); [done|by eapply inv_handle|apply (io_stats _ Hk)|]. intros st r1 Hst Hi1 Hf1 Hn1. cbv beta.
  assert (Hf' : rt_ifaces r1 !! i = Some f) by (by rewrite Hf1).
  apply wp_bind, (wp_modify_iface _ _ f); [done|]. set (f1 := f <| if_stats := st |>).
  assert (iface_ok f1) as Hk1 by (destruct Hk; by split).
  pose proof (inv_iface None ok r1 i f f1 Hi1 Hf' eq_refl Hk1) as Hi2. set (r2 := r1 <| rt_ifaces ::= _ |>) in *. unfold account_pstat. wp_steps.
  apply (inv_stats _ _ _ (fun out => sum_stats out st)) in Hi2. set (r3 := r2 <| rt_stats ::= _ |>) in *.
  eapply wp_of_option; [destruct (Z.ltb_spec (if_pf f) 0); [destruct (io_link _ Hk); [by rewrite Ep|lia]|done]|]. wp_steps.
  apply (inv_sel _ _ _ (fun s => s ∖ {[if_pf f]})) in Hi2. set (r4 := r3 <| rt_sel_fds ::= _ |>) in *.
  assert (Hf4 : rt_ifaces r4 !! i = Some f1) by (cbn; by apply list_lookup_insert_eq; rewrite Hf1).
  unfold pcap_close. wp_steps. apply wp_pcap_use; [by eapply (inv_handle _ _ _ _ f1)|]. unfold on_sys. wp_steps.
  apply (wp_modify_iface _ _ f1); [done|]. set (f5 := f1 <| if_pd := None |> <| if_pf := -1 |> <| if_ifidx := -1 |> <| if_name := [] |>).
  assert (Hif : rt_ifaces (r4 <| rt_ifaces ::= fun l => <[i := f5]> l |>) = <[i := f5]> (rt_ifaces r)).
  { cbn. by rewrite list_insert_insert_eq, Hf1. }
  split_and!.
  - split; [|exact Hn1]. cbn. by rewrite !length_insert, Hf1.
  - destruct Hi2 as [? ? ? ? ? ? Hh ? [] ?]. split; try done.
    + intros j Hj. cbn. rewrite length_insert. auto.
    + apply Forall_insert; [done|]. destruct Hk1. by split.
    + pose proof (handles_install None _ i f1 f5 _ _ Hh Hf4 eq_refl) as Hh'. change (if_pd f1) with (if_pd f) in Hh'. rewrite Ep in Hh'. by apply handles_close_extra.
  - intros j f' Hj. change (rt_ifaces r4) with (<[i := f1]> (rt_ifaces r1)) in Hj. cbn in Hj. rewrite list_insert_insert_eq, Hf1 in Hj.
    destruct (Nat.eqb_spec j i) as [->|Hne].
    + rewrite list_lookup_insert_eq in Hj by done. injection Hj as <-. by exists f.
    + rewrite list_lookup_insert_ne in Hj by done. by exists f'.
Qed.

(** *** The interface of the internet *)
Definition kept (ok : bool) (r : pcapd_runtime) {A} (_ : A) (r' : pcapd_runtime) : Prop := frame r r' /\ inv None ok r'.

Lemma wp_kept {A B} ok r (m : Rt A) (k : A -> Rt B) :
  wp m (kept ok r) r -> (forall a r', frame r r' -> inv None ok r' -> wp (k a) (kept ok r') r') -> wp (m ≫= k) (kept ok r) r.
Proof.
  intros Hm Hk. apply wp_bind. eapply wp_mono; [exact Hm|]. intros a r' [Hf Hi]. eapply wp_mono; [by apply Hk|].
  intros b r'' [Hf' Hi']. split; [by etrans|done].
Qed.

Lemma kept_ret {A} ok r (a : A) : inv None ok r -> wp (mret a) (kept ok r) r.
Proof. intros Hi. apply wp_ret. split; [done|exact Hi]. Qed.

Lemma check_inet_spec ok r : inv None ok r ->
  wp check_inet_interface (fun _ r' => kept ok r tt r' /\ forall j, rt_inet_iface r <> Some j -> rt_ifaces r' !! j = rt_ifaces r !! j) r.
Proof.
  intros Hi. unfold check_inet_interface. wp_steps. destruct (rt_inet_iface r) as [i|] eqn:Einet; [|by apply wp_ret].
  pose proof (iv_inet _ _ _ Hi _ Einet) as Hl.
  apply wp_bind. set (Q := fun (_ : route_answer) r' => inv None ok r' /\ rt_ifaces r' = rt_ifaces r /\ rt_inet_iface r' = rt_inet_iface r).
  eapply wp_mono with (Q := Q).
  { apply wp_next_answer; [by intros _|]. intros route rest _. split_and!; [|done|done]. apply inv_answers; try done. by destruct (iv_sys _ _ _ Hi). }
  intros a r0 (Hi0 & Hf0 & Hn0). cbv beta. apply wp_bind.
  eapply wp_mono with (Q := fun (_ : option route_info) r' => inv None ok r' /\ rt_ifaces r' = rt_ifaces r /\ rt_inet_iface r' = rt_inet_iface r).
  { unfold inet_route, on_sys. wp_steps. destruct (nl_get_route_total pubaddr (rq_open a) (rq_sent a) (rq_reply a) (sy_route_seq (rt_sys r0)) (mk_route [] 0 (-1)) ltac:(done)) as [[route seq] E].
    eapply wp_of_option; [exact E|]. wp_steps. split_and!; [|done|done]. apply inv_answers; try done. by destruct (iv_sys _ _ _ Hi0). }
  intros route r1 (Hi1 & Hf1 & Hn1). assert (Hl1 : (i < length (rt_ifaces r1))%nat) by (by rewrite Hf1).
  assert (Hsame : kept ok r tt r1 /\ forall j, Some i <> Some j -> rt_ifaces r1 !! j = rt_ifaces r !! j).
  { split; [|by rewrite Hf1]. split; [split; [by rewrite Hf1|done]|done]. }
  apply wp_bind, (wp_get_iface None ok); [done..|]. intros f Hf Hk. cbv beta. destruct route as [ri|]; [|by apply wp_ret].
  destruct (_ =? _); [by apply wp_ret|]. destruct (rq_name a) as [name|]; [|by apply wp_ret].
  apply wp_bind. eapply wp_mono; [by apply (open_interface_spec _ _ _ ok)|]. intros rv r2 [Hfr [(-> & f0 & f' & Hfi & Hif & Hi2)|(Hrv & Hif & Hi2)]]; cycle 1.
  { destruct (Z.eqb_spec rv PCAPD_OK); [done|]. apply wp_ret. destruct Hsame as [[Hfr1 _] _]. split; [split; [by etrans|done]|]. intros j _. by rewrite Hif, Hf1. }
  rewrite Hf in Hfi. injection Hfi as <-. change (negb (PCAPD_OK =? PCAPD_OK)) with false. cbv iota.
  assert (Hothers : forall j, Some i <> Some j -> rt_ifaces r2 !! j = rt_ifaces r !! j).
  { intros j Hj. rewrite Hif, list_lookup_insert_ne by congruence. by rewrite Hf1. }
  assert (Hfr2 : frame r r2) by (destruct Hsame as [[Hfr1 _] _]; by etrans).
  destruct (if_pd f) as [old|] eqn:Ep; [|by apply wp_ret].
  assert (Hl2 : (i < length (rt_ifaces r2))%nat) by (by rewrite (fr_len _ _ Hfr)).
  apply wp_bind, (wp_get_iface (Some old) ok); [done..|]. intros cur Hcur Hkc. cbv beta.
  apply wp_bind, (wp_pcap_stats (Some old) ok); [done|apply (ho_own _ _ _ _ (iv_handles _ _ _ Hi2)); by left|apply (io_stats _ Hkc)|].
  intros st r3 Hst Hi3 Hf3 Hn3. cbv beta. rewrite <- Hf3 in Hcur. apply wp_bind, (wp_modify_iface _ _ cur); [done|].
  set (cur' := cur <| if_stats := st |>). assert (iface_ok cur') as Hkc' by (destruct Hkc; by split).
  pose proof (inv_iface _ _ r3 i cur cur' Hi3 Hcur eq_refl Hkc') as Hi4. unfold account_pstat. wp_steps.
  apply (inv_stats _ _ _ (fun out => sum_stats out st)) in Hi4. eapply (wp_pcap_close ok); [exact Hi4|]. intros r5 Hi5 Hf5 Hn5. cbn in Hf5, Hn5. split.
  - split; [|done]. etrans; [exact Hfr2|]. split; [rewrite Hf5, length_insert; by rewrite Hf3|by rewrite Hn5].
  - intros j Hj. rewrite Hf5, list_lookup_insert_ne by congruence. rewrite Hf3. by apply Hothers.
Qed.

Lemma wp_check_inet ok r : inv None ok r -> wp check_inet_interface (kept ok r) r.
Proof. intros Hi. eapply wp_mono; [by apply check_inet_spec|]. by intros [] r' [Hk _]. Qed.

Lemma wp_close_interface i ok r : inv None ok r -> (i < length (rt_ifaces r))%nat -> wp (close_interface i) (kept ok r) r.
Proof. intros Hi Hl. eapply wp_mono; [by apply (close_interface_spec _ ok)|]. intros [] r' (Hf & Hi' & _). by split. Qed.

(** *** The messages of the kernel *)
Lemma iface_by_ifidx_lt l ifidx i : iface_by_ifidx l ifidx = Some i -> (i < length l)%nat.
Proof.
  unfold iface_by_ifidx. destruct (list_find _ l) as [[j f]|] eqn:E; [|done]. intros [= <-].
  apply list_find_Some in E as (Hf & _). by eapply lookup_lt_Some.
Qed.

Lemma nl_messages_spec msgs recheck ok r : inv None ok r -> wp (nl_messages msgs recheck) (kept ok r) r.
Proof.
  revert recheck r. induction msgs as [|[type index] msgs IH]; intros recheck r Hi; cbn [nl_messages]; [by apply kept_ret|]. wp_steps.
  destruct (type =? NLMSG_DONE); [by apply kept_ret|]. destruct (_ || _); [by apply IH|].
  destruct (type =? RTM_NEWADDR); [|destruct (type =? RTM_DELLINK); [|by apply IH]];
    (destruct (iface_by_ifidx _ index) as [i|] eqn:E; [apply iface_by_ifidx_lt in E|by apply IH]).
  - apply wp_kept.
    { apply wp_next_answer; [intros _; by split|]. intros a rest _. split; [by split|]. apply inv_answers; try done. by destruct (iv_sys _ _ _ Hi). }
    intros [ip ip6] r1 Hf1 Hi1. rewrite <- (fr_len _ _ Hf1) in E. destruct (inv_iface_at _ _ _ _ Hi1 E) as (f & Hf & Hk).
    apply wp_kept; [|intros [] r2 Hf2 Hi2; by apply IH]. apply (wp_modify_iface _ _ f); [done|].
    split; [split; [by apply length_insert|done]|]. eapply inv_iface; try done. destruct Hk. by split.
  - apply wp_bind, (wp_get_iface None ok); [done..|]. intros f Hf Hk. cbv beta.
    assert (Hcont : forall b : bool, wp (close_interface i;; nl_messages msgs (recheck || b)) (kept ok r) r).
    { intros b. apply wp_kept; [by apply wp_close_interface|]. intros [] r1 Hf1 Hi1. by apply IH. }
    apply wp_bind. destruct (rt_inet_iface r) as [j|] eqn:Ej; [|apply wp_ret, Hcont].
    apply wp_bind, (wp_get_iface None ok); [done|by apply (iv_inet _ _ _ Hi)|]. intros g Hg Hkg. apply wp_ret, Hcont.
Qed.

Lemma handle_nl_message_spec ok r : inv None ok r -> wp handle_nl_message (kept ok r) r.
Proof.
  intros Hi. apply wp_kept.
  { apply wp_next_answer; [intros _; by split|]. intros a rest _. split; [by split|]. apply inv_answers; try done. by destruct (iv_sys _ _ _ Hi). }
  intros [msgs|] r1 Hf1 Hi1; [|by apply kept_ret]. apply wp_kept; [by apply nl_messages_spec|]. intros recheck r2 Hf2 Hi2.
  apply wp_kept; [|intros; by apply kept_ret]. destruct recheck; [by apply wp_check_inet|by apply kept_ret].
Qed.

(** *** The owner of a packet *)
Hypothesis Halive : alive = true.
Hypothesis Hfds_open : fds_open = true.

Lemma fds_close_nldiag client nlroute nldiag fds :
  fds_ok client nlroute nldiag fds -> 0 < nldiag -> nldiag ∈ fds /\ fds_ok client nlroute (-1) (fds ∖ {[nldiag]}).
Proof.
  intros [Ho Hc Hn] Hd. split; [apply Ho; auto|]. split; [|intros H0; destruct (Hc H0); split; [done|lia]|lia].
  intros fd. rewrite elem_of_difference, not_elem_of_singleton, Ho. split.
  - intros [[Hp [->|[->| ->]]] Hne]; [auto..|done].
  - intros [Hp [->|[->| ->]]]; [| |lia]; (split; [auto|]); [by apply Hc|by apply Hn].
Qed.

Lemma get_uid_rt_spec tuple ok r : inv None ok r -> wp (get_uid_rt tuple) (kept ok r) r.
Proof.
  intros Hi. unfold get_uid_rt. wp_steps. destruct (iv_resolver _ _ _ Hi Halive) as [res Hr]. eapply wp_of_option; [exact Hr|]. by apply kept_ret.
Qed.

Lemma inv_lru ok r lru : inv None ok r -> inv None ok (r <| rt_lru := Some lru |>).
Proof. intros []. by split. Qed.

Lemma on_nl_spec tuple ok r : inv None ok r ->
  wp (on_nl (nl_get_uid tuple)) (fun a r' => kept ok r a r' /\ rt_nldiag_sock r' = rt_nldiag_sock r) r.
Proof.
  intros Hi. pose proof (nl_get_uid_total tuple _ (so_nl _ (iv_sys _ _ _ Hi))) as Hn. unfold wp, on_nl in *.
  destruct (nl_get_uid tuple _) as [[uid nl]|]; [|done]. split; [|done]. split; [by split|]. apply inv_answers; try done. by destruct (iv_sys _ _ _ Hi).
Qed.

Lemma close_nldiag_spec ok r : inv None ok r -> 0 < rt_nldiag_sock r -> wp close_nldiag (kept ok r) r.
Proof.
  intros Hi Hd. pose proof (iv_fds _ _ _ Hi) as Hfds. rewrite Hfds_open in Hfds. destruct (fds_close_nldiag _ _ _ _ Hfds Hd) as [Hin Hf].
  unfold close_nldiag, close_fd, on_sys. wp_steps.
  rewrite decide_True by done. eapply wp_of_option; [done|]. wp_steps. split; [by split|]. destruct Hi as [? ? ? ? ? ? ? ? [] ?]. split; try done. by rewrite Hfds_open.
Qed.

Lemma pkt_uid_spec tuple ok r : inv None ok r -> wp (pkt_uid tuple) (kept ok r) r.
Proof.
  intros Hi. unfold pkt_uid. wp_steps. destruct (iv_lru _ _ _ Hi Halive) as [lru Hlru]. eapply wp_of_option; [exact Hlru|].
  destruct (UidLru.uid_lru_find lru tuple) as [uid lru']. wp_steps. set (r1 := r <| rt_lru := _ |>).
  apply (inv_lru _ _ lru') in Hi. fold r1 in Hi. assert (Hf : frame r r1) by (by split).
  assert (Hk : forall m : Rt Z, wp m (kept ok r1) r1 -> wp m (kept ok r) r1).
  { intros m Hm. eapply wp_mono; [exact Hm|]. intros a r' [Hf' Hi']. split; [by etrans|done]. }
  apply Hk. destruct (negb _); [by apply kept_ret|]. apply wp_kept.
  - change (rt_nldiag_sock r) with (rt_nldiag_sock r1). destruct (Z.gtb_spec (rt_nldiag_sock r1) 0); [|by apply get_uid_rt_spec].
    destruct (negb _); [|by apply get_uid_rt_spec]. cbn [andb]. apply wp_bind. eapply wp_mono; [by apply on_nl_spec|].
    intros u r2 [[Hf2 Hi2] Hd2]. destruct (_ && _); [|by apply wp_ret].
    apply wp_bind. eapply wp_mono; [apply (close_nldiag_spec ok); [done|by rewrite Hd2]|]. intros [] r3 [Hf3 Hi3].
    eapply wp_mono; [by apply (get_uid_rt_spec _ ok)|]. intros u' r4 [Hf4 Hi4]. split; [|done]. etrans; [exact Hf2|]. by etrans.
  - intros u r2 Hf2 Hi2. apply wp_kept.
    { apply wp_next_answer; [intros _; by split|]. intros a rest _. split; [by split|]. apply inv_answers; try done. by destruct (iv_sys _ _ _ Hi2). }
    intros al r3 Hf3 Hi3. apply wp_kept; [apply wp_modify; split; [by split|by apply inv_lru]|]. intros [] r4 Hf4 Hi4. by apply kept_ret.
Qed.

(** *** A packet sent *)
Lemma stream_of_app fs gs : stream_of (fs ++ gs) = stream_of fs ++ stream_of gs.
Proof. unfold stream_of. by rewrite fmap_app, concat_app. Qed.

Lemma send_packet_spec hdr data r :
  inv None true r -> accepted (mk_packet hdr (sy_pad (rt_sys r)) data) ->
  wp (send_packet hdr data) (fun rv r' => frame r r' /\ log r' = ((log r).1 ++ [mk_packet hdr (sy_pad (rt_sys r)) data], (log r).2) /\ inv None (negb (rv <? 0)) r') r.
Proof.
  intros Hi Ha. unfold send_packet. wp_steps. pose proof (fo_data _ (ac_frame _ Ha)) as Hd. cbn [fp_data fp_hdr] in Hd.
  assert (Htake : take (Z.to_nat (hdr_len hdr)) data = data) by (apply take_ge; unfold blen in Hd; lia).
  destruct (send_frame _ hdr _ data) as [[rv sent] io] eqn:E. unfold on_sys. wp_steps. rewrite Htake.
  destruct (send_frame_spec (sy_io (rt_sys r)) (mk_packet hdr (sy_pad (rt_sys r)) data) rv sent io (ac_frame _ Ha) E) as (rest & Hr & Hrv).
  split; [by split|]. split; [done|].
  destruct (iv_wire _ _ _ Hi) as [Hs (rest0 & Hw & H0)]. rewrite (H0 eq_refl), app_nil_r in Hw.
  destruct Hi as [? ? ? ? ? ? ? ? [] ?]. split; try done. cbn. split; [by apply Forall_app; split; [|apply Forall_singleton]|].
  exists rest. rewrite stream_of_app, Hw. unfold stream_of at 1. cbn [fmap list_fmap concat]. rewrite app_nil_r, <- app_assoc, <- Hr. split; [done|].
  intros Hok. destruct Hrv as [[_ ->]| ->]; done.
Qed.

Lemma offset_of_link dlink off : datalink_offset dlink = Some off -> u16 dlink = dlink /\ get_ip_offset dlink = off.
Proof.
  unfold datalink_offset, get_ip_offset, DLT_RAW, DLT_EN10MB, DLT_LINUX_SLL, DLT_LINUX_SLL2, SLL_HDR_LEN, SLL2_HDR_LEN, PCAPD_DLT_RAW, PCAPD_DLT_ETHERNET, PCAPD_DLT_LINUX_SLL, PCAPD_DLT_LINUX_SLL2.
  intros H. destruct (Z.eqb_spec dlink 12) as [->|]; [by simplify_eq|]. destruct (Z.eqb_spec dlink 1) as [->|]; [by simplify_eq|].
  destruct (Z.eqb_spec dlink 113) as [->|]; [by simplify_eq|]. destruct (Z.eqb_spec dlink 276) as [->|]; [by simplify_eq|done].
Qed.

(** *** A packet read *)
Definition no_uid_filter : Prop := pc_uid_filter conf = None \/ pc_uid_filter conf = Some [].

Definition written_post (r : pcapd_runtime) (rv : Z) (r' : pcapd_runtime) : Prop :=
  frame r r' /\ inv None (negb (rv =? PCAPD_SOCKET_WRITE_ERROR)) r'.

Lemma inv_ids ok r ids : inv None ok r -> ids_wf ids -> inv None ok (r <| rt_ids := ids |>).
Proof. intros [] Hw. by split. Qed.

Lemma inv_ok ok r : inv None true r -> inv None ok r.
Proof. intros [? ? ? ? ? ? ? ? ? [? (rest & Hw & H0)]]. split; try done. split; [done|]. exists rest. auto. Qed.

(** The header made for a packet is one that the capture accepts. *)
Lemma export_accepted f p pad uid is_tx (dump : bool) :
  iface_ok f -> if_pd f <> None -> cap_ok p -> if_ipoffset f <= blen (cp_data p) -> blen pad = 2 /\ wf_bytes pad ->
  let '(data, len, linktype) := if dump then (cp_data p, blen (cp_data p), if_dlink f)
                                else (drop (Z.to_nat (if_ipoffset f)) (cp_data p), blen (cp_data p) - if_ipoffset f, DLT_RAW) in
  accepted (mk_packet (mk_hdr (cp_ts p) (ps_drop (if_stats f)) (u32 uid) (u16 len) (u16 linktype) (if is_tx : bool then PCAPD_FLAG_TX else 0) (if_ifid f)) pad data).
Proof.
  intros Hk Hpd (Hw & Hl & Hs & Hu) Ho [Hpad Hpw]. destruct (io_link _ Hk Hpd) as [Hlink _]. pose proof (datalink_offset_range _ _ Hlink).
  destruct (offset_of_link _ _ Hlink) as [Hu16 Hoff]. unfold PCAPD_SNAPLEN in Hl. pose proof (blen_nonneg (cp_data p)).
  assert (Hhdr : forall len linktype, 0 <= len <= 65535 -> 0 <= linktype < 2 ^ 16 ->
    hdr_ok (mk_hdr (cp_ts p) (ps_drop (if_stats f)) (u32 uid) (u16 len) (u16 linktype) (if is_tx then PCAPD_FLAG_TX else 0) (if_ifid f))).
  { intros len lt Hlen Hlt. split; cbn; try done; [apply (io_stats _ Hk)|apply u32_range|apply u16_range|apply u16_range|unfold is_byte; by destruct is_tx|apply (io_ifid _ Hk)]. }
  destruct dump; (split; [split; [apply Hhdr|done|]| |]; cbn [fp_data fp_hdr hdr_len hdr_linktype]).
  - lia.
  - rewrite <- Hu16. apply u16_range.
  - by rewrite u16_small by lia.
  - rewrite Hu16, Hoff, u16_small by lia. lia.
  - by split.
  - lia.
  - done.
  - rewrite u16_small by lia. unfold blen. rewrite length_drop. unfold blen in *. lia.
  - change (get_ip_offset (u16 DLT_RAW)) with 0. rewrite u16_small by lia. lia.
  - split; [by apply Forall_drop|done].
Qed.

Lemma no_filter_matches uid : no_uid_filter -> matches_uid_filter 1 (pc_uid_filter conf) uid = Some true.
Proof. by intros [-> | ->]. Qed.

Lemma export_pkt_spec i p r f :
  no_uid_filter -> inv None true r -> rt_ifaces r !! i = Some f -> iface_ok f -> if_pd f <> None -> cap_ok p -> if_ipoffset f <= blen (cp_data p) ->
  wp (export_pkt i p) (fun rv r' => (written_post r rv r' /\ (rv = PCAPD_OK \/ rv = PCAPD_SOCKET_WRITE_ERROR)) /\
    exists fs, carried conf p fs /\ log r' = ((log r).1 ++ fs, (log r).2)) r.
Proof.
  intros Hnf Hi Hf Hk Hpd Hp Ho. pose proof Hp as (Hw & Hl & _). unfold export_pkt. wp_steps. eapply wp_of_option; [apply (iv_conf _ _ _ Hi)|].
  unfold get_iface. wp_steps. eapply wp_of_option; [exact Hf|]. cbv zeta. unfold PCAPD_SNAPLEN in Hl. pose proof (blen_nonneg (cp_data p)).
  destruct (io_link _ Hk Hpd) as [Hlink _]. pose proof (datalink_offset_range _ _ Hlink) as Hr.
  rewrite (u16_small (blen (cp_data p))) by lia. destruct (is_tx_packet_total f (cp_data p) (blen (cp_data p)) ltac:(lia)) as [is_tx Htx].
  wp_steps. eapply wp_of_option; [exact Htx|]. wp_steps. rewrite (u16_small (blen (cp_data p) - if_ipoffset f)) by lia.
  set (ip := drop _ _). assert (Hip : blen ip = blen (cp_data p) - if_ipoffset f) by (unfold ip, blen in *; rewrite length_drop; lia).
  destruct (zdtun_parse_pkt_total (rt_ids r) ip (blen (cp_data p) - if_ipoffset f)) as (parsed & ids & Eparse & Hparsed); [by apply Forall_drop|lia|lia|].
  wp_steps. eapply wp_of_option; [exact Eparse|]. cbv beta iota. wp_steps.
  assert (Hids : ids_wf ids). { destruct parsed; [destruct Hparsed as [_ ->]; apply (iv_ids _ _ _ Hi)|]. destruct Hparsed as [_ Hx]. by apply Hx, (iv_ids _ _ _ Hi). }
  pose proof (inv_ids true r ids Hi Hids) as Hi1. set (r1 := r <| rt_ids := ids |>) in *.
  eapply wp_mono with (Q := fun a r' => kept true r1 a r' /\ log r' = log r1).
  { destruct parsed as [|zpkt]; [split; [by apply kept_ret|done]|]. destruct (if_is_file f); [split; [by apply kept_ret|done]|].
    apply wp_preserves; [apply pkt_uid_log|by apply pkt_uid_spec]. }
  intros uid r2 [[Hf2' Hi2] Hlog2]. change (log r1) with (log r) in Hlog2. assert (Hf2 : frame r r2) by (etrans; [|exact Hf2']; by split). clear Hf2'. wp_steps. eapply wp_of_option; [by apply no_filter_matches|]. change (negb true) with false. cbv iota.
  pose proof (export_accepted f p (sy_pad (rt_sys r2)) uid is_tx (pc_dump_datalink conf) Hk Hpd Hp Ho (so_pad _ (iv_sys _ _ _ Hi2))) as Hacc. fold ip in Hacc.
  destruct (if pc_dump_datalink conf then (cp_data p, blen (cp_data p), if_dlink f) else _) as [[data len] linktype] eqn:Edata. apply wp_bind.
  eapply wp_mono with (Q := fun rv r' => (frame r r' /\ exists fs, carried conf p fs /\ log r' = ((log r).1 ++ fs, (log r).2)) /\ inv None (negb (rv <? 0)) r').
  { assert (Hcar : forall fs, (if pc_no_client conf then fs = [] else exists h, fs = [h] /\ hdr_ts (fp_hdr h) = cp_ts p /\ (hdr_linktype (fp_hdr h), fp_data h) = (u16 linktype, data)) -> carried conf p fs).
    { intros fs Hfs. exists (if_dlink f), (if_ipoffset f). split; [done|]. destruct (Z.ltb_spec (blen (cp_data p)) (if_ipoffset f)); [lia|]. cbn [orb].
      destruct (pc_no_client conf); [done|]. destruct Hfs as (h & -> & Hts & Hlt). exists h. split_and!; [done|done|]. rewrite Hlt.
      destruct (pc_dump_datalink conf); injection Edata as <- <- <-; [by rewrite (proj1 (offset_of_link _ _ Hlink))|done]. }
    destruct (pc_no_client conf).
    - apply wp_ret. split; [|exact Hi2]. split; [exact Hf2|]. exists []. split; [by apply Hcar|]. rewrite app_nil_r, Hlog2. by destruct (log r).
    - eapply wp_mono; [by apply send_packet_spec|]. intros rv r3 (Hf3 & Hl3 & Hi3). split; [split; [etrans; [exact Hf2|exact Hf3]|]|done].
      rewrite Hl3, Hlog2. eexists. split; [|done]. apply Hcar. by eexists. }
  intros rv r3 [[Hf3 Hcar] Hi3]. cbv beta. destruct (Z.ltb_spec rv 0); [apply wp_ret; split; [split; [split; [done|exact Hi3]|auto]|done]|].
  apply wp_bind. eapply wp_mono with (Q := fun _ r' => (frame r r' /\ inv None true r') /\ log r' = log r3).
  { apply wp_preserves; [preserves_steps|]. apply wp_when; intros _; [|split; [done|exact Hi3]].
    assert (Hl3 : (i < length (rt_ifaces r3))%nat) by (rewrite (fr_len _ _ Hf3); by eapply lookup_lt_Some).
    destruct (inv_iface_at _ _ _ _ Hi3 Hl3) as (f3 & Hf3' & Hk3). apply (wp_modify_iface _ _ f3); [done|].
    split; [etrans; [exact Hf3|]; split; [by apply length_insert|done]|]. eapply inv_iface; try done. destruct Hk3. by split. }
  intros [] r4 [[Hf4 Hi4] Hl4]. apply wp_ret. split; [split; [split; [done|exact Hi4]|auto]|by rewrite Hl4].
Qed.

(** The handles of the interfaces, which a packet does not change. *)
Definition pds (r : pcapd_runtime) : list (option Z) := if_pd <$> rt_ifaces r.

Lemma modify_iface_pds i g : (forall f, if_pd (g f) = if_pd f) -> preserves pds (modify_iface i g).
Proof.
  intros Hg r a r'. unfold modify_iface, get_iface, mbind, M_bind, gets, modify, of_option.
  destruct (rt_ifaces r !! i) as [f|] eqn:Ef; [|done]. intros [= _ <-].
  change (if_pd <$> <[i := g f]> (rt_ifaces r) = pds r). unfold pds. rewrite list_fmap_insert, Hg.
  apply list_insert_id. by rewrite list_lookup_fmap, Ef.
Qed.

Lemma next_answer_pds {A} get set (d : A) : preserves pds (next_answer get set d).
Proof. unfold next_answer, on_sys. preserves_steps. Qed.

Lemma on_nl_pds {A} (m : M nl_state A) : preserves pds (on_nl m).
Proof. intros r a r'. unfold on_nl. destruct (m _) as [[? ?]|]; [|done]. by intros [= _ <-]. Qed.
#[local] Hint Resolve next_answer_pds on_nl_pds : preserves.

Lemma pkt_uid_pds tuple : preserves pds (pkt_uid tuple).
Proof. unfold pkt_uid, close_nldiag, close_fd, get_uid_rt, next_alloc, on_sys. preserves_steps. Qed.

Lemma send_packet_pds hdr data : preserves pds (send_packet hdr data).
Proof. unfold send_packet, on_sys. preserves_steps. Qed.
#[local] Hint Resolve pkt_uid_pds send_packet_pds : preserves.

Lemma export_pkt_pds i p : preserves pds (export_pkt i p).
Proof. unfold export_pkt, get_iface. preserves_steps. by apply modify_iface_pds. Qed.

Lemma pds_lookup r i : pds r !! i = if_pd <$> rt_ifaces r !! i.
Proof. apply list_lookup_fmap. Qed.

(** The answer of the library, which is taken from the list. *)
Definition taken_one (a : next_ex) (r r' : pcapd_runtime) : Prop :=
  (log r).1 = (log r').1 /\ ((log r).2 = a :: (log r').2 \/ a = NextNone /\ (log r).2 = (log r').2).

Lemma progress_other a r r1 r2 : taken_one a r r1 -> (forall p, a <> NextPkt p) -> log r2 = log r1 -> progress conf r r2.
Proof.
  intros [Hs Hp] Ha Hl. etrans; [|by apply progress_log]. cbn in Hs, Hp. destruct Hp as [Hp|[_ Hp]].
  - exists [a], []. rewrite Hp, Hs, app_nil_r. split_and!; [done|done|]. by repeat constructor.
  - apply progress_log. unfold log. by rewrite Hs, Hp.
Qed.

Lemma progress_pkt p r r1 r2 fs :
  taken_one (NextPkt p) r r1 -> carried conf p fs -> log r2 = ((log r1).1 ++ fs, (log r1).2) -> progress conf r r2.
Proof.
  intros [Hs Hp] Hc [= Hs2 Hp2]. cbn in Hs, Hp. destruct Hp as [Hp|[? _]]; [|done]. exists [NextPkt p], fs.
  rewrite Hp, Hs2, Hp2, Hs. split_and!; [done|done|]. rewrite <- (app_nil_r fs). by repeat constructor.
Qed.

Lemma read_pkt_spec i now r f :
  no_uid_filter -> inv None true r -> rt_ifaces r !! i = Some f -> if_pd f <> None ->
  wp (read_pkt i now) (fun rv r' => written_post r rv r' /\ progress conf r r') r.
Proof.
  intros Hnf Hi Hf Hpd. assert (Hl : (i < length (rt_ifaces r))%nat) by (by eapply lookup_lt_Some).
  unfold read_pkt. wp_steps. apply (wp_get_iface None true); [done..|]. intros f0 Hf0 Hk. rewrite Hf in Hf0. injection Hf0 as <-. cbv beta.
  destruct (if_pd f) as [pd|] eqn:Ep; [|done]. apply wp_bind. eapply wp_of_option; [done|]. apply wp_bind, wp_pcap_use; [by eapply inv_handle|]. cbv beta.
  apply wp_bind. eapply wp_mono with (Q := fun a r' => (forall p, a = NextPkt p -> cap_ok p) /\ inv None true r' /\ rt_ifaces r' = rt_ifaces r /\ frame r r' /\ taken_one a r r').
  { apply wp_next_answer; [intros _; split_and!; [by intros|done..|split; [done|by right]]|]. intros a rest E. split_and!; [|apply inv_answers; try done|done|by split|split; [done|by left]].
    - intros p ->. apply (so_pkts _ (iv_sys _ _ _ Hi)). rewrite E. by left.
    - destruct (iv_sys _ _ _ Hi) as [? ? Hp ? ?]. split; try done. intros p Hin. apply Hp. rewrite E. by right. }
  intros a r1 (Ha & Hi1 & Hf1 & Hfr1 & Hone). cbv beta. destruct a as [p| | |].
  - rewrite <- Hf1 in Hf. assert (Hl1 : (i < length (rt_ifaces r1))%nat) by (by rewrite Hf1). apply wp_bind.
    eapply wp_mono with (Q := fun rv r' => ((written_post r1 rv r' /\ (rv = PCAPD_OK \/ rv = PCAPD_SOCKET_WRITE_ERROR)) /\ exists fs, carried conf p fs /\ log r' = ((log r1).1 ++ fs, (log r1).2)) /\ pds r' = pds r1).
    { destruct (Z.geb_spec (blen (cp_data p)) (if_ipoffset f)).
      2: { apply wp_ret. split; [split; [split; [by split|by left]|]|done]. exists []. split; [|rewrite app_nil_r; by destruct (log r1)].
           exists (if_dlink f), (if_ipoffset f). split; [apply (io_link _ Hk); by rewrite Ep|]. destruct (Z.ltb_spec (blen (cp_data p)) (if_ipoffset f)); [done|lia]. }
      apply wp_preserves; [apply export_pkt_pds|]. apply (export_pkt_spec i p r1 f); try done; [by rewrite Ep|by apply Ha]. }
    intros rv r2 [[[[Hf2 Hi2] Hrv] (fs & Hcar & Hlog2)] Hpds]. cbv beta. assert (Hprog : progress conf r r2) by (by eapply progress_pkt). destruct (Z.eqb_spec rv PCAPD_OK) as [->|Hne]; cbn [negb].
    2: { apply wp_ret. split; [split; [by etrans|exact Hi2]|done]. }
    change (negb (PCAPD_OK =? PCAPD_SOCKET_WRITE_ERROR)) with true in Hi2. assert (Hl2 : (i < length (rt_ifaces r2))%nat) by (by rewrite (fr_len _ _ Hf2)).
    assert (Hfr2 : frame r r2) by (by etrans).
    eapply wp_mono with (Q := fun rv r' => (rv = PCAPD_OK /\ frame r r' /\ inv None true r') /\ log r' = log r2).
    2: { intros rv r' [(-> & ? & ?) Hl']. apply (progress_log conf) in Hl'. split; [by split|by etrans]. }
    apply wp_preserves; [unfold get_iface; preserves_steps|].
    apply wp_bind, wp_when; intros _; [|apply wp_ret; by split_and!].
    apply wp_bind, (wp_get_iface None true); [done..|]. intros cur Hcur Hkc. cbv beta.
    assert (Hpc : if_pd cur = Some pd).
    { apply (f_equal (fun l => l !! i)) in Hpds. rewrite !pds_lookup, Hcur, Hf in Hpds. cbn in Hpds. congruence. }
    apply wp_bind. eapply wp_of_option; [exact Hpc|]. apply wp_bind, (wp_pcap_stats None true); [done|by eapply inv_handle|apply (io_stats _ Hkc)|].
    intros st r3 Hst Hi3 Hf3 Hn3. cbv beta. rewrite <- Hf3 in Hcur. apply (wp_modify_iface _ _ cur); [done|]. apply wp_ret. split_and!; [done| |].
    + etrans; [exact Hfr2|]. split; [cbn; by rewrite length_insert, Hf3|exact Hn3].
    + eapply inv_iface; try done. destruct Hkc. by split.
  - apply wp_ret. split; [by split|by eapply progress_other].
  - apply wp_bind. eapply wp_mono; [apply (wp_preserves log); [apply close_interface_log|apply (wp_close_interface i true); [done|by rewrite Hf1]]|].
    intros [] r2 [[Hf2 Hi2] Hl2]. apply wp_ret. split; [split; [by etrans|by case_bool_decide]|by eapply progress_other].
  - apply wp_ret. split; [by split|by eapply progress_other].
Qed.

(** *** The loop *)
Hypothesis Hnf : no_uid_filter.

(** A turn: it goes on only with [PCAPD_OK]. *)
Definition turn_post (r : pcapd_runtime) (res : Z * bool) (r' : pcapd_runtime) : Prop :=
  (frame r r' /\ progress conf r r') /\ inv None (negb (res.1 =? PCAPD_SOCKET_WRITE_ERROR)) r' /\ (res.2 = true -> res.1 = PCAPD_OK).

Lemma read_ready_spec idxs fds now r :
  inv None true r -> Forall (fun i => (i < length (rt_ifaces r))%nat) idxs ->
  wp (read_ready idxs fds now PCAPD_OK) (turn_post r) r.
Proof.
  revert r. induction idxs as [|i idxs IH]; intros r Hi Hl; cbn [read_ready]; [apply wp_ret; by split_and!|].
  apply Forall_cons in Hl as [Hli Hl]. apply wp_bind, (wp_get_iface None true); [done..|]. intros f Hf Hk. cbv beta.
  destruct (Z.eqb_spec (if_pf f) (-1)) as [|Hpf]; cbn [negb andb]; [by apply IH|]. case_bool_decide; [|by apply IH].
  apply wp_bind. eapply wp_mono; [apply (read_pkt_spec i now r f); try done; intros Hp; by apply Hpf, (io_closed _ Hk)|].
  intros rv r1 [[Hf1 Hi1] Hp1]. destruct (Z.eqb_spec rv PCAPD_OK) as [->|Hne]; cbn [negb].
  - eapply wp_mono; [apply IH; [exact Hi1|]|].
    + by rewrite (fr_len _ _ Hf1).
    + intros res r2 ([Hf2 Hp2] & Hi2 & Hgo). split_and!; [by etrans|by etrans|done|done].
  - apply wp_ret. split_and!; [done|done| |done]. cbn [fst]. destruct (Z.eqb_spec rv PCAPD_EOF) as [->|]; exact Hi1.
Qed.

Lemma get_selectable_spec ok r : inv None ok r -> wp get_selectable_fds (kept ok r) r.
Proof. intros []. apply wp_modify. split; [by split|by split]. Qed.

Lemma dump_turn_spec now ready r : inv None true r -> wp (dump_turn now ready PCAPD_OK) (turn_post r) r.
Proof.
  intros Hi. unfold dump_turn. wp_steps. cbv zeta. destruct (_ && _).
  - apply wp_bind. eapply wp_mono; [apply (wp_preserves log); [exact handle_nl_message_log|by apply (handle_nl_message_spec true)]|].
    intros res r1 [[Hf1 Hi1] Hl1]. apply (progress_log conf) in Hl1.
    destruct (res <? 0); [apply wp_ret; by split_and!|]. apply wp_bind.
    eapply wp_mono; [apply (wp_preserves log); [|by apply (get_selectable_spec true)]|]; [unfold get_selectable_fds; preserves_steps|].
    intros [] r2 [[Hf2 Hi2] Hl2]. apply (progress_log conf) in Hl2. apply wp_ret. split_and!; [by etrans|by etrans|done|done].
  - apply read_ready_spec; [done|]. apply Forall_forall. intros i Hin%elem_of_seq. lia.
Qed.

Lemma recheck_inet_spec now next ok r : inv None ok r -> wp (recheck_inet now next) (kept ok r) r.
Proof.
  intros Hi. unfold recheck_inet. wp_steps. destruct (rt_inet_iface r) as [i|] eqn:E; [|by apply kept_ret].
  apply wp_bind, (wp_get_iface None ok); [done|by apply (iv_inet _ _ _ Hi)|]. intros f Hf Hk. cbv beta.
  destruct (_ && _); [|by apply kept_ret]. apply wp_kept; [by apply wp_check_inet|]. intros [] r1 Hf1 Hi1. by apply kept_ret.
Qed.

Lemma dump_loop_spec events next r : inv None true r -> wp (dump_loop events next PCAPD_OK) (fun rv r' => written_post r rv r' /\ progress conf r r') r.
Proof.
  revert next r. induction events as [|e events IH]; intros next r Hi; cbn [dump_loop]; [apply wp_ret; by split_and!|].
  destruct e as [|interrupted|now ready]; [apply wp_ret; by split_and!|apply wp_ret; by destruct interrupted|]. wp_steps.
  destruct (_ && _); [apply wp_ret; by split_and!|]. apply wp_bind. eapply wp_mono; [by apply dump_turn_spec|].
  intros [rv go] r1 ([Hf1 Hp1] & Hi1 & Hgo). cbn [fst snd] in *. cbv iota. destruct (_ && _); [apply wp_ret; by split_and!|].
  apply wp_bind. eapply wp_mono; [apply (wp_preserves log); [apply recheck_inet_log|by apply recheck_inet_spec]|]. intros next' r2 [[Hf2 Hi2] Hl2].
  apply (progress_log conf) in Hl2. destruct go; [|apply wp_ret; split; [split; [by etrans|done]|by etrans]].
  rewrite (Hgo eq_refl) in *. eapply wp_mono; [by apply IH|]. intros rv' r3 [[Hf3 Hi3] Hp3].
  split; [split; [|done]|]; (etrans; [|eassumption]; by etrans).
Qed.

Lemma open_all_spec ifnames i r :
  inv None true r -> (i + length ifnames <= length (rt_ifaces r))%nat ->
  (forall k, rt_inet_iface r = Some k -> ifnames !! (k - i)%nat = Some (STR "@inet") \/ (k < i)%nat) ->
  (forall j f, rt_ifaces r !! j = Some f -> (i <= j)%nat -> rt_inet_iface r <> Some j -> if_pd f = None) ->
  wp (open_all ifnames i) (kept true r) r.
Proof.
  revert i r. induction ifnames as [|name ifnames IH]; intros i r Hi Hl Hinet Hpd; cbn [open_all]; [apply wp_ret; by split|].
  cbn [length] in Hl.
  assert (Hinet' : forall k, rt_inet_iface r = Some k -> ifnames !! (k - S i)%nat = Some (STR "@inet") \/ (k < S i)%nat).
  { intros k Hk. destruct (decide (k < S i)%nat) as [|Hge]; [by right|]. left. destruct (Hinet k Hk) as [Hn|]; [|lia].
    replace (k - i)%nat with (S (k - S i)) in Hn by lia. done. }
  case_decide as Hname.
  - apply IH; try done; [lia|]. intros j f Hj Hij. apply Hpd; [done|lia].
  - apply wp_bind. eapply wp_mono; [apply (open_interface_spec i name (Z.of_nat i) true); [done|lia]|].
    intros rv r1 [Hf1 [(-> & f & f' & Hf & Hif & Hi1)|(Hrv & Hif & Hi1)]].
    + change (negb (PCAPD_OK =? PCAPD_OK)) with false. cbv iota.
      assert (Hni : rt_inet_iface r <> Some i).
      { intros Hk. destruct (Hinet i Hk) as [Hn|]; [|lia]. rewrite Nat.sub_diag in Hn. injection Hn as Hn. done. }
      rewrite (Hpd i f Hf ltac:(lia) Hni) in Hi1.
      eapply wp_mono; [apply (IH (S i) r1); [done|rewrite (fr_len _ _ Hf1); lia|by rewrite (fr_inet _ _ Hf1)|]|].
      * intros j g Hj Hij. rewrite (fr_inet _ _ Hf1). rewrite Hif, list_lookup_insert_ne in Hj by lia. apply Hpd; [done|lia].
      * intros rv r2 [Hf2 Hi2]. split; [by etrans|done].
    + destruct (Z.eqb_spec rv PCAPD_OK); [done|]. by apply wp_ret.
Qed.
End inv.
