(* ===== verification/PcapdRun.v ===== *)
(** A whole run of the daemon: it ends with nothing left open, and what it
    sends is what the capture gets. *)
From Stdlib Require Import ZArith Lia String.
From stdpp Require Import base option gmap numbers list.
From S2P Require Import Prelude Packet Uthash Lru AppNames PcapDump Blacklist NdpiProtos Conn JavaDump Dpi Housekeeping JavaRequests CaptureLibpcap.
From S2P Require Import CText UidResolver Framing PcapdArgs RootRun NlUtils IfaceAddr Pcapd PcapdInv.

Open Scope Z_scope.

(** ** The configuration *)

(** The interface of the internet, if any, is the one named so. *)
Definition inet_named (conf : pcapd_conf_t) : Prop :=
  pc_inet_ifid conf = -1 \/
  0 <= pc_inet_ifid conf /\ pc_ifnames conf !! Z.to_nat (pc_inet_ifid conf) = Some (STR "@inet").

Lemma apply_opt_inet conf opt conf' : inet_named conf -> apply_opt conf opt = Some conf' -> inet_named conf'.
Proof.
  intros Hc. unfold apply_opt. destruct opt as [c optarg].
  assert (Happ : forall name, inet_named (conf <| pc_ifnames ::= fun l => l ++ [name] |>)).
  { intros name. destruct Hc as [|[H0 Hl]]; [by left|]. right. split; [done|]. cbn. by apply lookup_app_l_Some. }
  destruct (c =? 105).
  - destruct (_ >=? _); [done|]. case_bool_decide as Hn; [|intros [= <-]; by apply Happ]. destruct (negb _); [done|]. intros [= <-].
    right. cbn. split; [lia|]. rewrite Nat2Z.id, Hn, lookup_app_r, Nat.sub_diag by done. done.
  - repeat match goal with |- (if ?b then _ else _) = _ -> _ => destruct b; [intros; by simplify_option_eq|] end. done.
Qed.

(** That is what the command line gives. *)
Lemma parse_args_inet argv conf : parse_args argv = Some conf -> inet_named conf.
Proof.
  unfold parse_args. destruct (getopt argv) as [opts all].
  assert (Hopts : forall opts c c', inet_named c -> apply_opts c opts = Some c' -> inet_named c').
  { clear. induction opts as [|o opts IH]; intros c c' Hc; cbn [apply_opts]; [by intros [= <-]|].
    destruct (apply_opt c o) as [c1|] eqn:E; [|done]. cbn [mbind option_bind]. apply IH. by eapply apply_opt_inet. }
  destruct (apply_opts init_conf opts) as [c|] eqn:E; [|done]. cbn [mbind option_bind].
  apply Hopts in E; [|by left]. destruct (negb all); [done|]. intros [= <-]. destruct (pc_ifnames c); [by right|done].
Qed.

(** ** What is assumed of the system *)

(** The sockets that are opened are new, and none is a standard descriptor. *)
Record start_ok (conf : pcapd_conf_t) (e : init_env) : Prop := {
  st_fork : pc_daemonize conf = true -> ie_fork e = true;
  st_fds : Forall (fun fd => 0 < fd) (omap id [ie_nlroute e; ie_nldiag e; ie_client e]);
  st_uniq : NoDup (omap id [ie_nlroute e; ie_nldiag e; ie_client e]);
  st_diag : forall fd, ie_diag e = Some fd -> 0 < fd /\ ie_nlroute e <> Some fd
}.

(** A system where the daemon has nothing open yet. *)
Record fresh_sys (s : pcapd_sys) : Prop := {
  fs_ok : sys_ok s;
  fs_handles : sy_handles s = ∅;
  fs_fds : sy_fds s = ∅;
  fs_sent : sy_sent s = [];
  fs_wire : sy_wire s = []
}.

(** ** The initialisation *)
Lemma inv_dead conf alive r ok : inv conf alive true None ok r -> inv conf false true None ok r.
Proof. intros []. by split. Qed.

Lemma handles_none l next : (forall f, f ∈ l -> if_pd f = None) -> handles_ok None l ∅ next.
Proof.
  intros Hl. assert (Hno : forall i h, ~ holds_pd l i h) by (intros i h (f & Hf%list_elem_of_lookup_2%Hl & Hp); congruence).
  split; [|by intros ??? ?%Hno|by intros ?? ?%Hno|set_solver]. intros h. split; [set_solver|]. intros [[=]|[i Hi]]. by apply Hno in Hi.
Qed.

Lemma elem_of_init f n : f ∈ replicate n init_interface -> f = init_interface.
Proof. by intros [-> _]%elem_of_replicate. Qed.

(** The state once the memory of the run is filled. *)
Lemma inv_started conf lru res ids sys n inet stats sel maxfd alive :
  fresh_sys sys -> ids_wf ids -> (forall i, inet = Some i -> (i < n)%nat) -> (alive = true -> is_Some lru /\ is_Some res) ->
  inv conf alive true None true (mk_rt (Some conf) (-1) (-1) (-1) lru res inet (replicate n init_interface) stats sel maxfd ids sys).
Proof.
  intros [Hok Hh Hf Hs Hw] Hids Hin Ha. split; cbn; rewrite ?Hh, ?Hf, ?Hs, ?Hw; try done; try (intros; by apply Ha).
  - intros i. rewrite length_replicate. apply Hin.
  - apply Forall_forall. by intros f ->%elem_of_init.
  - apply handles_none. by intros f ->%elem_of_init.
  - split; [|lia|lia]. intros fd. split; [set_solver|lia].
  - split; [done|]. by exists [].
Qed.

(** *** The sockets, as they are opened *)
Ltac fds_solver :=
  let Ho := fresh in let Hc := fresh in let Hn := fresh in
  match goal with H : fds_ok _ _ _ _ |- _ => destruct H as [Ho Hc Hn] end;
  split; [intros x; rewrite elem_of_union, elem_of_singleton, Ho; naive_solver lia|naive_solver lia|naive_solver lia].

Lemma fds_open_nlroute client nldiag fd fds :
  fds_ok client (-1) nldiag fds -> 0 < fd -> fd <> client -> fd <> nldiag -> fds_ok client fd nldiag ({[fd]} ∪ fds).
Proof. intros. fds_solver. Qed.

Lemma fds_open_nldiag client nlroute fd fds :
  fds_ok client nlroute (-1) fds -> 0 < fd -> fd <> client -> fd <> nlroute -> fds_ok client nlroute fd ({[fd]} ∪ fds).
Proof. intros. fds_solver. Qed.

Lemma fds_open_client nlroute nldiag fd fds :
  fds_ok (-1) nlroute nldiag fds -> 0 < fd -> fd <> nlroute -> fd <> nldiag -> fds_ok fd nlroute nldiag ({[fd]} ∪ fds).
Proof. intros. fds_solver. Qed.

(** A step that opens a socket keeps the rest of the invariant. *)
Lemma inv_fds conf alive ok r cl nlr nld fds maxfd :
  inv conf alive true None ok r -> fds_ok cl nlr nld fds ->
  inv conf alive true None ok (r <| rt_client := cl |> <| rt_nlroute_sock := nlr |> <| rt_nldiag_sock := nld |>
    <| rt_maxfd := maxfd |> <| rt_sys ::= fun s => s <| sy_fds := fds |> |>).
Proof. intros [? ? ? ? ? ? ? ? [] ?] Hf. by split. Qed.

(** What the sockets leave alone. *)
Definition same_ifaces (r r' : pcapd_runtime) : Prop :=
  rt_ifaces r' = rt_ifaces r /\ rt_inet_iface r' = rt_inet_iface r.

(** A socket that was opened, or not. *)
Definition sock_of (fd : option Z) (sock : Z) : Prop := sock = -1 \/ fd = Some sock.

Lemma start_fds conf e : start_ok conf e ->
  forall a b c, sock_of (ie_nlroute e) a -> sock_of (ie_nldiag e) b -> sock_of (ie_client e) c ->
  (ie_nlroute e = Some a -> 0 < a /\ a <> b /\ a <> c) /\ (ie_nldiag e = Some b -> 0 < b /\ b <> a /\ b <> c) /\
  (ie_client e = Some c -> 0 < c /\ c <> a /\ c <> b).
Proof.
  intros [_ Hpos Huniq _] a b c Ha Hb Hc. unfold sock_of in *.
  destruct (ie_nlroute e), (ie_nldiag e), (ie_client e); cbn in Hpos, Huniq; rewrite ?Forall_cons, ?NoDup_cons, ?elem_of_cons in *; naive_solver lia.
Qed.

(** A socket that is opened and closed again. *)
Lemma fds_open_close fd (fds : gset Z) : fd ∉ fds -> ({[fd]} ∪ fds) ∖ {[fd]} = fds.
Proof. intros Hn. apply set_eq. intros x. rewrite elem_of_difference, elem_of_union, elem_of_singleton. split; [tauto|]. intros Hx. split; [by right|by intros ->]. Qed.

Lemma inv_same_fds conf alive ok r nl fds :
  inv conf alive true None ok r -> nl_ok nl -> fds = sy_fds (rt_sys r) ->
  inv conf alive true None ok (r <| rt_sys ::= fun s => s <| sy_nl := nl |> <| sy_fds := fds |> |>).
Proof. intros Hi Hn ->. apply inv_answers; try done. by destruct (iv_sys _ _ _ _ _ _ Hi). Qed.

Definition same_socks (r r' : pcapd_runtime) : Prop :=
  rt_client r' = rt_client r /\ rt_nlroute_sock r' = rt_nlroute_sock r /\ rt_nldiag_sock r' = rt_nldiag_sock r.

Lemma nl_route_socket_spec conf sock bound r (Q : option Z -> pcapd_runtime -> Prop) :
  inv conf true true None true r -> (forall fd, sock = Some fd -> fd ∉ sy_fds (rt_sys r)) ->
  (forall r', inv conf true true None true r' -> same_ifaces r r' -> same_socks r r' -> Q None r') ->
  (forall fd, sock = Some fd -> Q (Some fd) (r <| rt_sys ::= fun s => s <| sy_fds ::= fun fds => {[fd]} ∪ fds |> |>)) ->
  wp (nl_route_socket sock bound) Q r.
Proof.
  intros Hi Hnew HN HS. unfold nl_route_socket, open_fd, close_fd, on_sys. destruct sock as [fd|]; [|by apply wp_ret, HN].
  wp_steps. destruct bound; [by apply wp_ret, HS|]. wp_steps. rewrite decide_True by (cbn; set_solver). eapply wp_of_option; [done|]. wp_steps.
  apply HN; [|done|done]. apply (inv_same_fds conf true true r (sy_nl (rt_sys r))); [done|apply (so_nl _ (iv_sys _ _ _ _ _ _ Hi))|by apply fds_open_close, Hnew].
Qed.

Lemma diag_working_spec conf sock r :
  inv conf true true None true r -> (forall fd, sock = Some fd -> fd ∉ sy_fds (rt_sys r)) ->
  wp (diag_working sock) (fun _ r' => inv conf true true None true r' /\ same_ifaces r r' /\ same_socks r r') r.
Proof.
  intros Hi Hnew. unfold diag_working, open_fd, close_fd, on_sys. destruct sock as [fd|]; [|by apply wp_ret]. wp_steps. set (r1 := r <| rt_sys ::= _ |>).
  assert (Hn : wp nl_is_diag_working (fun _ nl => nl_ok nl) (sy_nl (rt_sys r1))).
  { unfold nl_is_diag_working. apply wp_bind. eapply wp_mono; [apply diag_uid_lookup_total, (so_nl _ (iv_sys _ _ _ _ _ _ Hi))|]. intros; by apply wp_ret. }
  eapply wp_mono with (Q := fun _ r' => exists nl, nl_ok nl /\ r' = r1 <| rt_sys ::= fun s => s <| sy_nl := nl |> |>).
  { unfold wp, on_nl in *. destruct (nl_is_diag_working _) as [[w nl]|]; [by exists nl|done]. }
  intros works r2 (nl & Hnl & ->). wp_steps. rewrite decide_True by (cbn; set_solver). eapply wp_of_option; [done|]. wp_steps.
  split_and!; [|done|done]. apply (inv_same_fds conf true true r nl); [done|done|by apply fds_open_close, Hnew].
Qed.

Lemma init_sockets_spec conf e r :
  start_ok conf e -> inv conf true true None true r ->
  rt_client r = -1 -> rt_nlroute_sock r = -1 -> rt_nldiag_sock r = -1 ->
  wp (init_sockets conf e) (fun _ r' => inv conf true true None true r' /\ same_ifaces r r') r.
Proof.
  intros Hst Hi Hc Hr Hd. unfold init_sockets. pose proof (start_fds _ _ Hst) as Hfds.
  assert (Hno : forall fd, sock_of fd (-1)) by (by left).
  apply wp_bind. eapply wp_mono with (Q := fun _ r' => (inv conf true true None true r' /\ same_ifaces r r') /\ rt_client r' = -1 /\ rt_nldiag_sock r' = -1 /\
    sock_of (ie_nlroute e) (rt_nlroute_sock r')).
  { destruct (negb _); [|apply wp_ret; split_and!; solve [done|by left]]. pose proof (iv_fds _ _ _ _ _ _ Hi) as Hf. cbn in Hf. rewrite Hc, Hr, Hd in Hf.
    apply wp_bind, (nl_route_socket_spec conf); [done| | |].
    - intros fd Hfd [Hp Hin]%(fo_own _ _ _ _ Hf). lia.
    - intros r' Hi' Hs' (Hc' & Hr' & Hd'). apply wp_ret. rewrite Hc', Hr', Hd', Hc, Hr, Hd. split_and!; solve [done|by left].
    - intros fd E. wp_steps. split_and!; [|done..|by right].
      apply (inv_fds conf true true r (rt_client r) fd (rt_nldiag_sock r)); [done|]. rewrite Hc, Hd.
      destruct (proj1 (Hfds fd (-1) (-1) ltac:(by right) ltac:(done) ltac:(done)) E) as (? & ? & ?). by apply fds_open_nlroute. }
  intros ok r1 ([Hi1 Hs1] & Hc1 & Hd1 & Hr1). destruct ok; [|by apply wp_ret]. change (negb true) with false. cbv iota.
  apply wp_bind. eapply wp_mono with (Q := fun _ r' => (inv conf true true None true r' /\ same_ifaces r r') /\ rt_client r' = -1 /\ rt_nldiag_sock r' = -1 /\
    sock_of (ie_nlroute e) (rt_nlroute_sock r')).
  { destruct (ie_root e); [|by apply wp_ret]. eapply wp_mono; [apply (diag_working_spec conf); [exact Hi1|]|].
    - intros fd Hfd Hin. destruct (st_diag _ _ Hst fd Hfd) as [Hp Hn]. pose proof (iv_fds _ _ _ _ _ _ Hi1) as Hf. cbn in Hf.
      apply (fo_own _ _ _ _ Hf) in Hin as [_ Hin]. rewrite Hc1, Hd1 in Hin. destruct Hr1 as [Hr1|Hr1]; [rewrite Hr1 in Hin; lia|]. rewrite Hr1 in Hn. naive_solver lia.
    - intros works r' (Hi' & [Hs1' Hs2'] & (Hc' & Hr' & Hd')). rewrite Hc', Hr', Hd'. destruct Hs1 as [Hs1a Hs1b]. split_and!; try done. split; congruence. }
  intros works r2 ([Hi2 Hs2] & Hc2 & Hd2 & Hr2). cbv beta.
  apply wp_bind. eapply wp_mono with (Q := fun _ r' => (inv conf true true None true r' /\ same_ifaces r r') /\ rt_client r' = -1 /\
    sock_of (ie_nldiag e) (rt_nldiag_sock r') /\ sock_of (ie_nlroute e) (rt_nlroute_sock r')).
  { apply wp_when; intros _; [|rewrite Hd2; split_and!; solve [done|by left]].
    destruct (ie_nldiag e) as [fd|] eqn:E; [|apply wp_ret; rewrite Hd2; split_and!; solve [done|by left]]. unfold open_fd, on_sys. wp_steps.
    split_and!; try done; [|by right]. pose proof (iv_fds _ _ _ _ _ _ Hi2) as Hf. cbn in Hf. rewrite Hd2, Hc2 in Hf.
    apply (inv_fds conf true true r2 (rt_client r2) (rt_nlroute_sock r2) fd); [done|]. rewrite Hc2.
    destruct (proj1 (proj2 (Hfds _ fd (-1) Hr2 ltac:(by right) ltac:(done))) eq_refl) as (? & ? & ?). by apply fds_open_nldiag. }
  intros [] r3 ([Hi3 Hs3] & Hc3 & Hd3 & Hr3). destruct (pc_no_client conf); [by apply wp_ret|]. destruct (ie_client e) as [fd|] eqn:E; [|by apply wp_ret].
  unfold open_fd, on_sys. wp_steps. split; [|exact Hs3]. pose proof (iv_fds _ _ _ _ _ _ Hi3) as Hf. cbn in Hf. rewrite Hc3 in Hf.
  apply (inv_fds conf true true r3 fd (rt_nlroute_sock r3) (rt_nldiag_sock r3)); [done|].
  destruct (proj2 (proj2 (Hfds _ _ fd Hr3 Hd3 ltac:(by right))) eq_refl) as (? & ? & ?). by apply fds_open_client.
Qed.

(** The result of the initialisation. *)
Definition init_post (conf : pcapd_conf_t) (ok : bool) (r : pcapd_runtime) : Prop :=
  inv conf ok true None true r /\ (ok = true ->
  rt_ifaces r = replicate (length (pc_ifnames conf)) init_interface /\
  rt_inet_iface r = if pc_inet_ifid conf =? -1 then None else Some (Z.to_nat (pc_inet_ifid conf))).

Lemma init_pcapd_capture_spec conf e sys :
  inet_named conf -> start_ok conf e -> fresh_sys sys ->
  wp (init_pcapd_capture conf e) (init_post conf) (zero_rt sys).
Proof.
  intros Hinet Hst Hsys. unfold init_pcapd_capture, zero_rt.
  assert (pc_daemonize conf && negb (ie_fork e) = false) as ->.
  { destruct (pc_daemonize conf) eqn:E; [by rewrite (st_fork _ _ Hst E)|done]. }
  wp_steps. destruct (ie_lru e) eqn:Elru; cbn [negb].
  2: { apply wp_ret. split; [|done]. by apply (inv_started conf None None ∅ sys 0 None zero_pstat ∅ 0 false). }
  wp_steps. destruct (ie_resolver e) as [res|] eqn:Eres.
  2: { apply wp_ret. split; [|done]. by apply (inv_started conf (UidLru.uid_lru_init 64 true) None ∅ sys 0 None zero_pstat ∅ 0 false). }
  set (n := length (pc_ifnames conf)). set (inet := if pc_inet_ifid conf =? -1 then None else Some (Z.to_nat (pc_inet_ifid conf))).
  set (r := mk_rt (Some conf) (-1) (-1) (-1) (UidLru.uid_lru_init 64 true) (Some res) inet (replicate n init_interface) zero_pstat ∅ 0 ∅ sys).
  assert (Hi : forall alive, inv conf alive true None true r).
  { intros alive. apply inv_started; try done. intros i. unfold inet. destruct (Z.eqb_spec (pc_inet_ifid conf) (-1)); [done|]. intros [= <-].
    destruct Hinet as [|[_ Hl]]; [done|]. by eapply lookup_lt_Some. }
  assert (Hrest : wp (if pc_daemonize conf && negb (ie_pidfile e) then mret false else init_sockets conf e) (init_post conf) r).
  { destruct (_ && _); [by apply wp_ret|]. eapply wp_mono; [by apply (init_sockets_spec conf e)|]. intros ok r' [Hr [Hf Hin]].
    split; [|by rewrite Hf, Hin]. destruct ok; [done|by eapply inv_dead]. }
  unfold r, inet in Hrest. wp_steps; destruct (pc_inet_ifid conf =? -1); done.
Qed.

(** ** The end *)
Definition without_fd (fd : Z) (fds : gset Z) : gset Z := if fd >? 0 then fds ∖ {[fd]} else fds.

Lemma wp_close_if_open fd r (Q : unit -> pcapd_runtime -> Prop) :
  (0 < fd -> fd ∈ sy_fds (rt_sys r)) -> Q tt (r <| rt_sys ::= fun s => s <| sy_fds ::= without_fd fd |> |>) -> wp (close_if_open fd) Q r.
Proof.
  intros Hin HQ. unfold close_if_open, without_fd in *. destruct (Z.gtb_spec fd 0); [|by destruct r as [? ? ? ? ? ? ? ? ? ? ? ? []]].
  cbn [when]. unfold close_fd, on_sys. wp_steps. rewrite decide_True by auto. eapply wp_of_option; [done|]. by wp_steps.
Qed.

Lemma without_all client nlroute nldiag fds :
  fds_ok client nlroute nldiag fds -> without_fd nldiag (without_fd nlroute (without_fd client fds)) = ∅ /\
  (0 < client -> client ∈ fds) /\ (0 < nlroute -> nlroute ∈ without_fd client fds) /\ (0 < nldiag -> nldiag ∈ without_fd nlroute (without_fd client fds)).
Proof.
  intros [Ho Hc Hn]. unfold without_fd.
  assert (Hin : forall fd, fd ∈ fds <-> 0 < fd /\ (fd = client \/ fd = nlroute \/ fd = nldiag)) by done.
  destruct (Z.gtb_spec client 0), (Z.gtb_spec nlroute 0), (Z.gtb_spec nldiag 0); (split; [|split_and!; intros; rewrite ?elem_of_difference, ?elem_of_singleton, ?Ho; naive_solver lia]);
    apply elem_of_equiv_empty_L; intros fd; rewrite ?elem_of_difference, ?elem_of_singleton, Ho; intuition lia.
Qed.

(** Each interface is closed in its turn. *)
Lemma close_all_spec conf ok n i r :
  inv conf false false None ok r -> (i + n = length (rt_ifaces r))%nat ->
  (forall j f, rt_ifaces r !! j = Some f -> (j < i)%nat -> if_pd f = None) ->
  wp (for_each close_interface (seq i n)) (fun _ r' => inv conf false false None ok r' /\ forall f, f ∈ rt_ifaces r' -> if_pd f = None) r.
Proof.
  revert i r. induction n as [|n IH]; intros i r Hi Hn Hc; cbn [seq for_each].
  - apply wp_ret. split; [done|]. intros f [j Hj]%list_elem_of_lookup. apply (Hc j); [done|]. apply lookup_lt_Some in Hj. lia.
  - apply wp_bind. eapply wp_mono; [apply (close_interface_spec conf false false i ok); [done|lia]|]. intros [] r' (Hf & Hi' & Hpd).
    apply IH; [done|rewrite (fr_len _ _ Hf); lia|]. intros j f Hj Hlt. destruct (Hpd _ _ Hj) as (f0 & Hf0 & H).
    destruct (Nat.eqb_spec j i); [done|]. subst f. apply (Hc j); [done|lia].
Qed.

(** What a run ends with. *)
Record ended (ok : bool) (r : pcapd_runtime) : Prop := {
  en_handles : sy_handles (rt_sys r) = ∅;
  en_fds : sy_fds (rt_sys r) = ∅;
  en_wire : wire_ok ok (sy_sent (rt_sys r)) (sy_wire (rt_sys r))
}.

Lemma finish_pcapd_capture_spec conf alive ok r :
  inv conf alive true None ok r -> wp finish_pcapd_capture (fun _ => ended ok) r.
Proof.
  intros Hi%inv_dead. unfold finish_pcapd_capture. wp_steps. pose proof (iv_fds _ _ _ _ _ _ Hi) as Hf. cbn in Hf.
  destruct (without_all _ _ _ _ Hf) as (Hall & H1 & H2 & H3).
  apply wp_close_if_open; [exact H1|]. apply wp_bind, wp_close_if_open; [exact H2|]. apply wp_bind, wp_close_if_open; [exact H3|]. wp_steps.
  eapply wp_of_option; [exact (iv_conf _ _ _ _ _ _ Hi)|].
  eapply wp_mono; [apply (close_all_spec conf ok); [|done|by intros; lia]|].
  - destruct Hi as [? ? ? ? ? ? ? ? [] ?]. by split.
  - intros [] r' [Hi' Hpd]. split; [|exact (iv_fds _ _ _ _ _ _ Hi')|exact (iv_wire _ _ _ _ _ _ Hi')].
    apply elem_of_equiv_empty_L. intros h Hh. apply (ho_own _ _ _ _ (iv_handles _ _ _ _ _ _ Hi')) in Hh as [[=]|(i & f & Hf' & Hp)].
    rewrite (Hpd f) in Hp by (by eapply list_elem_of_lookup_2). done.
Qed.

(** ** The run *)
Lemma init_pcapd_capture_log conf e : preserves log (init_pcapd_capture conf e).
Proof. unfold init_pcapd_capture, init_sockets, nl_route_socket, diag_working, open_fd, close_fd, on_sys. preserves_steps. Qed.

Lemma open_all_log ifnames i : preserves log (open_all ifnames i).
Proof. revert i. induction ifnames as [|name ifnames IH]; intros i; cbn [open_all]; preserves_steps. Qed.

Lemma finish_pcapd_capture_log : preserves log finish_pcapd_capture.
Proof. unfold finish_pcapd_capture, close_if_open, close_fd, on_sys. preserves_steps. Qed.
#[local] Hint Resolve init_pcapd_capture_log open_all_log finish_pcapd_capture_log : preserves.

(** A step that touches neither the packets nor the frames. *)
Lemma wp_quiet {A B} conf r0 r (m : Rt A) (k : A -> Rt B) (P : A -> pcapd_runtime -> Prop) (Q : B -> pcapd_runtime -> Prop) :
  preserves log m -> progress conf r0 r -> wp m P r -> (forall a r', P a r' -> progress conf r0 r' -> wp (k a) Q r') -> wp (m ≫= k) Q r.
Proof.
  intros Hl Hp Hm Hk. apply wp_bind. eapply wp_mono; [by apply (wp_preserves log); [exact Hl|exact Hm]|]. intros a r' [HP Hr].
  apply Hk; [done|]. etrans; [exact Hp|by apply progress_log].
Qed.

Definition run_post (conf : pcapd_conf_t) (r : pcapd_runtime) (rv : Z) (r' : pcapd_runtime) : Prop :=
  ended (negb (rv =? PCAPD_SOCKET_WRITE_ERROR)) r' /\ progress conf r r'.

Lemma finish_run conf alive ok rv r0 r :
  inv conf alive true None ok r -> progress conf r0 r -> ok = negb (rv =? PCAPD_SOCKET_WRITE_ERROR) ->
  wp (finish_pcapd_capture;; mret rv) (run_post conf r0) r.
Proof.
  intros Hi Hp ->. eapply wp_quiet; [apply finish_pcapd_capture_log|exact Hp|by eapply finish_pcapd_capture_spec|]. intros [] r' Hr' Hp'. by apply wp_ret.
Qed.

Lemma run_pcap_dump_spec conf e events sys :
  inet_named conf -> start_ok conf e -> fresh_sys sys -> no_uid_filter conf ->
  wp (run_pcap_dump true conf e events) (run_post conf (zero_rt sys)) (zero_rt sys).
Proof.
  intros Hinet Hst Hsys Hnf. unfold run_pcap_dump. cbn [negb]. eapply (wp_quiet conf); [apply init_pcapd_capture_log|reflexivity|by apply init_pcapd_capture_spec|].
  intros ok r [Hi Hok] Hp. destruct ok; cbn [negb]; [|by eapply finish_run].
  destruct (Hok eq_refl) as [Hifs Hin]. clear Hok.
  eapply (wp_quiet conf); [apply check_inet_log|exact Hp|by apply (check_inet_spec conf true true true)|]. intros [] r1 [[Hf1 Hi1] Hsame] Hp1.
  assert (Hlen : length (rt_ifaces r1) = length (pc_ifnames conf)) by (by rewrite (fr_len _ _ Hf1), Hifs, length_replicate).
  eapply (wp_quiet conf); [apply open_all_log|exact Hp1|apply (open_all_spec conf true true); [exact Hi1|by rewrite Hlen| |]|].
  - intros k. rewrite (fr_inet _ _ Hf1), Hin, Nat.sub_0_r. destruct (Z.eqb_spec (pc_inet_ifid conf) (-1)); [done|]. intros [= <-].
    left. by destruct Hinet as [|[_ ?]].
  - intros j f Hj _ Hne. rewrite (fr_inet _ _ Hf1) in Hne. rewrite (Hsame j Hne), Hifs in Hj. apply list_elem_of_lookup_2, elem_of_init in Hj. by subst f.
  - intros rv r2 [Hf2 Hi2] Hp2. destruct (Z.eqb_spec rv PCAPD_OK); cbn [negb]; [|by eapply finish_run; [by apply inv_ok|..]].
    apply wp_bind. eapply (wp_quiet conf); [|exact Hp2|by apply (get_selectable_spec conf true true true)|]; [unfold get_selectable_fds; preserves_steps|].
    intros [] r3 [Hf3 Hi3] Hp3. eapply wp_mono; [by apply (dump_loop_spec conf true true)|].
    intros rv' r4 [[_ Hi4] Hp4]. eapply finish_run; [exact Hi4|by etrans|done].
Qed.

(** C4: The daemon, once it has made its engine ([zdtun_init]) and its process
    ([fork]; without them it dereferences NULL, see the findings), closes what
    it opens: with no filter on the UIDs (with one it can hang), sockets whose
    descriptors are positive and distinct, and a network whose packets have at
    most [PCAPD_SNAPLEN] bytes, its run has no undefined behaviour and comes to
    its end, wherever the rest of the initialisation stops and whatever the
    network, the kernel and the capture do - interfaces that appear, fail and
    come back, a client that closes, writes that fail. At the end every handle
    of the library and every socket is closed, none of them closed twice or used
    after; and every write that was announced as done was done. *)
Theorem pcapd_run_closes conf e events sys :
  inet_named conf -> start_ok conf e -> fresh_sys sys -> no_uid_filter conf ->
  exists rv r', run_pcap_dump true conf e events (zero_rt sys) = Some (rv, r') /\
    sy_handles (rt_sys r') = ∅ /\ sy_fds (rt_sys r') = ∅ /\
    exists rest, stream_of (sy_sent (rt_sys r')) = sy_wire (rt_sys r') ++ rest /\ (rv <> PCAPD_SOCKET_WRITE_ERROR -> rest = []).
Proof.
  intros Hinet Hst Hsys Hnf. destruct (wp_exec _ _ _ (run_pcap_dump_spec conf e events sys Hinet Hst Hsys Hnf)) as (rv & r' & E & [[Hh Hf [_ (rest & Hw & H0)]] _]).
  exists rv, r'. split_and!; [done..|]. exists rest. split; [done|]. intros Hne. apply H0. by destruct (Z.eqb_spec rv PCAPD_SOCKET_WRITE_ERROR).
Qed.

(** What the capture reads of a run. *)
Lemma run_read_back conf e events sys outs_r buffer :
  inet_named conf -> start_ok conf e -> fresh_sys sys -> no_uid_filter conf -> Forall no_io_error outs_r ->
  exists rv r' taken frames fatal n,
    run_pcap_dump true conf e events (zero_rt sys) = Some (rv, r') /\
    sy_pkts sys = taken ++ sy_pkts (rt_sys r') /\ carries conf taken (sy_sent (rt_sys r')) /\
    (Forall accepted (sy_sent (rt_sys r')) /\ exists rest, stream_of (sy_sent (rt_sys r')) = sy_wire (rt_sys r') ++ rest) /\
    read_frames (S (length (sy_sent (rt_sys r')))) outs_r (sy_wire (rt_sys r')) buffer = (frames, Some fatal) /\
    Forall2 is_frame frames (take n (sy_sent (rt_sys r'))) /\
    (rv <> PCAPD_SOCKET_WRITE_ERROR -> n = length (sy_sent (rt_sys r')) /\ fatal = false).
Proof.
  intros Hinet Hst Hsys Hnf Ho.
  destruct (wp_exec _ _ _ (run_pcap_dump_spec conf e events sys Hinet Hst Hsys Hnf)) as (rv & r' & E & [[_ _ [Hs (rest & Hw & H0)]] (taken & fs & Htaken & Hfs & Hcar)]).
  change (sy_sent (rt_sys (zero_rt sys))) with (sy_sent sys) in Hfs. rewrite (fs_sent _ Hsys) in Hfs. cbn [app] in Hfs. rewrite <- Hfs in Hcar.
  destruct (read_frames_spec (sy_sent (rt_sys r'))) with (k := length (sy_wire (rt_sys r'))) (outs := outs_r) (buffer := buffer) as (frames & Er & Hf);
    [by eapply Forall_impl; [exact Hs|intros ? []]|done|]. rewrite Hw, take_app_length in Er.
  destruct (whole (sy_sent (rt_sys r')) (length (sy_wire (rt_sys r')))) as [n rem] eqn:Ewh.
  exists rv, r', taken, frames, (sizeof_pcapd_hdr <=? Z.of_nat rem), n. split_and!; try done; [by exists rest|].
  intros Hne. rewrite whole_all in Ewh; [by injection Ewh as <- <-|]. rewrite Hw, H0, app_nil_r; [done|]. by destruct (Z.eqb_spec rv PCAPD_SOCKET_WRITE_ERROR).
Qed.

(** C22: End to end, for a daemon with no filter on the UIDs (with one it drops
    packets, or hangs), that has made its engine and its process and whose
    network has packets of at most [PCAPD_SNAPLEN] bytes (65535): the packets
    that the library gives to the daemon, each one once, in order, with its time
    and its bytes (without the data link header, unless it is to be kept), are
    the frames that the capture reads from the socket, whatever the sizes of the
    writes and of the reads; only a failed write can cut them, at some packet.
    The capture accepts all of them: it knows the data link of each and each has
    the whole of its header. Left out are the packets that are shorter than the
    data link header, and all of them when the daemon has no client. *)
Theorem pcapd_feeds_capture conf e events sys outs_r buffer :
  inet_named conf -> start_ok conf e -> fresh_sys sys -> no_uid_filter conf -> Forall no_io_error outs_r ->
  exists rv r' taken frames fatal n,
    run_pcap_dump true conf e events (zero_rt sys) = Some (rv, r') /\
    sy_pkts sys = taken ++ sy_pkts (rt_sys r') /\ carries conf taken (sy_sent (rt_sys r')) /\
    Forall (fun f => 0 <= get_ip_offset (hdr_linktype (fp_hdr f)) <= hdr_len (fp_hdr f)) (sy_sent (rt_sys r')) /\
    read_frames (S (length (sy_sent (rt_sys r')))) outs_r (sy_wire (rt_sys r')) buffer = (frames, Some fatal) /\
    Forall2 is_frame frames (take n (sy_sent (rt_sys r'))) /\
    (rv <> PCAPD_SOCKET_WRITE_ERROR -> n = length (sy_sent (rt_sys r')) /\ fatal = false).
Proof.
  intros Hinet Hst Hsys Hnf Ho.
  destruct (run_read_back conf e events sys outs_r buffer Hinet Hst Hsys Hnf Ho) as (rv & r' & taken & frames & fatal & n & E & Ht & Hc & [Hs _] & Er & Hf & Hn).
  exists rv, r', taken, frames, fatal, n. split_and!; try done. eapply Forall_impl; [exact Hs|]. by intros ? [].
Qed.

(** *** A run: the route of the internet appears, then a packet and a fragment
    of one are read, then the client closes. *)
Definition ex_dconf : pcapd_conf_t := default init_conf (parse_args [STR "-i"; STR "@inet"; STR "-d"]).
Definition ex_denv : init_env := mk_ienv true true (Some ex_resolver) true (Some 5) true true (Some 6) (Some 6) (Some 7) true.
Definition ex_sysfiles (path : bytes) : option bytes :=
  if bool_decide (path = STR "/sys/class/net/wlan0/address") then Some (STR "02:00:00:4a:5b:6c" ++ [NEWLINE])
  else if bool_decide (path = STR "/proc/net/if_inet6") then Some (concat (print_inet6 <$> ex_inet6)) else None.
Definition ex_route (seq : Z) : bytes :=
  route_reply 0 seq 0 (zeros 12) [mk_rtattr RTA_OIF (le32 3); mk_rtattr RTA_GATEWAY [10; 0; 0; 254]; mk_rtattr 12 (zeros 4)].
Definition ex_wlan : pcap_answer := mk_pans true false DLT_EN10MB false true true 3 ex_sysfiles (Some 0x0100000A) 9.
Definition ex_cap (data : bytes) : next_ex := NextPkt (mk_cap (mk_tv 10 20) data).
Definition ex_udp_pkt : bytes := zeros 12 ++ [8; 0; 0x45; 0; 0; 28; 0; 0; 0; 0; 64; 17; 0; 0; 10; 0; 0; 1; 8; 8; 8; 8; 0x0f; 0xa0; 0; 53; 0; 8; 0; 0].
Definition ex_dsys : pcapd_sys :=
  mk_psys ∅ 100 ∅ [] [] [0; 0] [IoDone 10; IoIntr] [ex_wlan] [] [mk_ranswer true true None None; mk_ranswer true true (Some (ex_route 2)) (Some (STR "wlan0"))] 0 [Some [(RTM_NEWROUTE, 0)]] []
    [ex_cap ex_udp_pkt; ex_cap (zeros 6)] ex_nl [].
Definition ex_devents : list dump_event := [DSelect 0 {[5]}; DSelect 0 {[9]}; DSelect 1 {[9]}; DSelect 1 {[7]}].

Lemma ex_dsys_fresh : fresh_sys ex_dsys.
Proof.
  split; [split|done..]; try done.
  - constructor; [done|done].
  - intros p. unfold ex_dsys, ex_cap. cbn [sy_pkts]. rewrite !elem_of_cons. intros [[= ->]|[[= ->]|[]%not_elem_of_nil]];
      (split; [apply Forall_forall; intros b; apply (Forall_forall is_byte); by apply (bool_decide_unpack _)|done]).
  - split; [done|]. by repeat constructor.
Qed.

Lemma ex_denv_ok : start_ok ex_dconf ex_denv.
Proof. split; [done|by repeat constructor|by apply (bool_decide_unpack _)|by intros fd [= <-]]. Qed.

Lemma ex_dconf_named : inet_named ex_dconf.
Proof. by apply (parse_args_inet [STR "-i"; STR "@inet"; STR "-d"]). Qed.

Definition ex_drun : option (Z * pcapd_runtime) := run_pcap_dump true ex_dconf ex_denv ex_devents (zero_rt ex_dsys).

(** One frame is sent, without its Ethernet header. *)
Example ex_drun_sent : prod_map id (fun r => fp_data <$> sy_sent (rt_sys r)) <$> ex_drun = Some (PCAPD_OK, [drop 14 ex_udp_pkt]).
Proof. by vm_compute. Qed.

Lemma pcapd_run_closes_witness : exists rv r', ex_drun = Some (rv, r') /\ sy_handles (rt_sys r') = ∅ /\ sy_fds (rt_sys r') = ∅.
Proof.
  destruct (pcapd_run_closes ex_dconf ex_denv ex_devents ex_dsys ex_dconf_named ex_denv_ok ex_dsys_fresh) as (rv & r' & E & Hh & Hf & _); [by left|].
  exists rv, r'. exact (conj E (conj Hh Hf)).
Defined.

Lemma pcapd_feeds_capture_witness : exists rv r' frames fatal, ex_drun = Some (rv, r') /\
  read_frames (S (length (sy_sent (rt_sys r')))) [IoDone 1; IoIntr; IoDone 40] (sy_wire (rt_sys r')) [] = (frames, Some fatal).
Proof.
  destruct (pcapd_feeds_capture ex_dconf ex_denv ex_devents ex_dsys [IoDone 1; IoIntr; IoDone 40] [] ex_dconf_named ex_denv_ok ex_dsys_fresh)
    as (rv & r' & taken & frames & fatal & n & E & _ & _ & _ & Er & _); [by left|by repeat constructor|].
  exists rv, r', frames, fatal. exact (conj E Er).
Defined.

(** ** What the run shows *)

(** Where the parser or the process cannot be created, the end reads the
    configuration, which is not set yet. *)
Lemma run_pcap_dump_no_parser conf e events sys : run_pcap_dump false conf e events (zero_rt sys) = None.
Proof. done. Qed.

Lemma run_pcap_dump_no_fork conf e events sys :
  pc_daemonize conf = true -> ie_fork e = false -> run_pcap_dump true conf e events (zero_rt sys) = None.
Proof. intros Hd Hf. unfold run_pcap_dump, init_pcapd_capture. rewrite Hd, Hf. done. Qed.

(** The type of a packet of the second version of the header of the cooked
    captures does not tell that it was sent. *)
Lemma sll2_outgoing_unseen iface pkt len b :
  if_dlink iface = DLT_LINUX_SLL2 -> 20 <= len -> rd8 pkt 10 = Some b -> is_byte b -> b <> 0 ->
  is_tx_packet iface pkt len = is_tx_ip iface (drop 20 pkt) (len - 20).
Proof.
  intros Hd Hl Hb Hr Hne. unfold is_byte in Hr.
  assert (Hn : ntohs b = b * 256) by (pose proof (swap16_parts b 0 Hr); rewrite Z.mul_0_r, Z.add_0_r in *; unfold ntohs; lia).
  unfold is_tx_packet. rewrite Hd, Hb. cbn [mbind option_bind]. rewrite Hn. unfold LINUX_SLL_HOST, LINUX_SLL_OUTGOING, SLL2_HDR_LEN.
  change (DLT_LINUX_SLL2 =? DLT_EN10MB) with false. change (DLT_LINUX_SLL2 =? DLT_LINUX_SLL) with false. rewrite Z.eqb_refl. cbn [andb].
  destruct (Z.geb_spec len 20), (Z.eqb_spec (b * 256) 0), (Z.eqb_spec (b * 256) 4); done || lia.
Qed.

(** The interface that the periodic check opens again is not among the
    descriptors to select, until the next message of the kernel. *)
Lemma recheck_inet_sel now next : preserves rt_sel_fds (recheck_inet now next).
Proof.
  unfold recheck_inet, check_inet_interface, inet_route, open_interface, next_open, next_route, pcap_close, pcap_stats, pcap_use, pcap_open, modify_iface, get_iface, account_pstat, next_answer, on_sys.
  preserves_steps.
Qed.

(** A filter that is not too long is the text between the parentheses. *)
Lemma capture_bpf_whole bpf : bpf <> [] -> blen bpf < 490 -> capture_bpf (Some bpf) = STR "ip or ip6 and (" ++ bpf ++ STR ")".
Proof.
  intros Hne Hb. unfold capture_bpf. destruct bpf as [|b bpf]; [done|]. set (f := b :: bpf) in *. rewrite (snprintf_fits 512) by done.
  rewrite snprintf_fits; [by rewrite (app_assoc (STR "ip or ip6"))|]. rewrite !blen_app. change (blen (STR " and (")) with 6. change (blen (STR ")")) with 1. change (blen (STR "ip or ip6")) with 9. lia.
Qed.
