(* ===== verification/RootSystem.v ===== *)
(** The daemon and the root capture together: what the daemon sends is safe for
    the capture, and is processed by it. *)
From Stdlib Require Import ZArith Lia String.
From stdpp Require Import base option gmap numbers list.
From S2P Require Import Prelude Packet Uthash Lru AppNames PcapDump Blacklist NdpiProtos Conn ConnInv JavaDump Dpi Housekeeping JavaRequests CaptureLibpcap Examples PdRun.
From S2P Require Import CText UidResolver Framing PcapdArgs RootRun NlUtils IfaceAddr Pcapd PcapdInv PcapdRun.

Open Scope Z_scope.

(** ** The bytes of the frames *)
Lemma xread_loop_wf outs : forall stream todo r data rest outs',
  wf_bytes stream -> xread_loop outs stream todo = (r, data, rest, outs') ->
  wf_bytes data /\ wf_bytes rest /\ (length data <= todo)%nat.
Proof.
  induction outs as [|o outs IH]; intros stream todo r data rest outs' Hw; cbn [xread_loop].
  { intros [= <- <- <- <-]. split_and!; [by apply Forall_take|by apply Forall_drop|rewrite length_take; lia]. }
  destruct o as [n| |]; [|destruct (todo =? 0)%nat; [intros [= <- <- <- <-]; split_and!; [constructor|done|cbn; lia]|by apply IH]|intros [= <- <- <- <-]; split_and!; [constructor|done|cbn; lia]].
  set (rv := (_ `min` _)%nat). assert (Htd : wf_bytes (take rv stream) /\ wf_bytes (drop rv stream)) by (by split; [apply Forall_take|apply Forall_drop]).
  assert (Hl : (length (take rv stream) <= todo)%nat) by (rewrite length_take; lia).
  destruct (rv =? todo)%nat; [intros [= <- <- <- <-]; by destruct Htd|]. destruct (rv =? 0)%nat; [intros [= <- <- <- <-]; by destruct Htd|].
  destruct (xread_loop outs (drop rv stream) (todo - rv)) as [[[r1 more] rest1] outs1] eqn:E. intros [= <- <- <- <-].
  destruct (IH _ _ _ _ _ _ (proj2 Htd) E) as (H1 & H2 & H3). split_and!; [by apply Forall_app; split; [apply Htd|]|done|]. rewrite length_app, length_take. lia.
Qed.

(** The buffer of the capture keeps its size. *)
Definition buffer_ok (buffer : bytes) : Prop := wf_bytes buffer /\ blen buffer = PCAPD_SNAPLEN.

Lemma read_frame_buffer outs stream buffer hdr buffer' stream' outs' :
  wf_bytes stream -> buffer_ok buffer -> read_frame outs stream buffer = (inr (hdr, buffer'), stream', outs') ->
  wf_bytes stream' /\ buffer_ok buffer'.
Proof.
  intros Hw [Hb Hl]. unfold read_frame, xread.
  destruct (xread_loop outs stream _) as [[[r data] rest] o1] eqn:E1. destruct (xread_loop_wf _ _ _ _ _ _ _ Hw E1) as (_ & Hrest & _).
  destruct (negb _); [done|]. destruct (hdr_len (decode_hdr data) >? PCAPD_SNAPLEN) eqn:Egt; [done|]. rewrite Z.gtb_ltb, Z.ltb_ge in Egt.
  destruct (xread_loop o1 rest _) as [[[r2 data2] rest2] o2] eqn:E2. destruct (xread_loop_wf _ _ _ _ _ _ _ Hrest E2) as (Hd & Hrest2 & Hlen).
  destruct (negb _); [done|]. intros [= <- <- <- <-]. split; [done|]. split; [by apply Forall_app; split; [|by apply Forall_drop]|].
  unfold blen, PCAPD_SNAPLEN in *. rewrite length_app, length_drop. lia.
Qed.

Lemma read_frames_buffers fuel : forall outs stream buffer frames e,
  wf_bytes stream -> buffer_ok buffer -> read_frames fuel outs stream buffer = (frames, e) -> Forall (fun f => buffer_ok f.2) frames.
Proof.
  induction fuel as [|fuel IH]; intros outs stream buffer frames e Hw Hb; cbn [read_frames]; [by intros [= <- <-]|].
  destruct (read_frame outs stream buffer) as [[[fatal|[hdr b]] stream'] outs'] eqn:E; [by intros [= <- <-]|].
  destruct (read_frame_buffer _ _ _ _ _ _ _ Hw Hb E) as [Hw' Hb']. destruct (read_frames fuel outs' stream' b) as [fs e'] eqn:E'.
  intros [= <- <-]. constructor; [done|]. by eapply IH.
Qed.

Lemma stream_of_wf fs : Forall accepted fs -> wf_bytes (stream_of fs).
Proof.
  induction 1 as [|f fs [Hf _ [Hd Hp]] _ IH]; [constructor|]. unfold stream_of in *. cbn [fmap list_fmap concat]. apply Forall_app. split; [|exact IH].
  apply Forall_app. split; [|done]. unfold encode_hdr, le64. rewrite !Forall_app. split_and!; try apply wf_le_split; [|done].
  constructor; [apply u8_range|constructor; [apply u8_range|constructor]].
Qed.

(** The frames are no longer than the packets. *)
Lemma carries_len conf evs fs f : carries conf evs fs -> f ∈ fs -> exists p, NextPkt p ∈ evs /\ blen (fp_data f) <= blen (cp_data p).
Proof.
  induction 1 as [|p evs fs1 fs2 Hc _ IH|e evs fs Hne _ IH]; [by intros ?%elem_of_nil| |].
  - intros [Hin|Hin]%elem_of_app; [|destruct (IH Hin) as (q & Hq & Hl); exists q; split; [by right|done]].
    exists p. split; [by left|]. destruct Hc as (dlink & off & _ & Hc). destruct (_ || _); [subst; by apply elem_of_nil in Hin|].
    destruct Hc as (g & -> & _ & Hg). apply list_elem_of_singleton in Hin as ->. destruct (pc_dump_datalink conf); injection Hg as _ ->; [done|].
    unfold blen. rewrite length_drop. lia.
  - intros Hin. destruct (IH Hin) as (q & Hq & Hl). exists q. split; [by right|done].
Qed.

(** ** The events of the capture *)
Definition packets_of (events : list loop_event) : list (pcapd_hdr * bytes) :=
  omap (fun e => match e with EvPacket _ hdr buffer => Some (hdr, buffer) | _ => None end) events.

Lemma packets_ok events :
  Forall (fun f => buffer_ok f.2 /\ 0 <= hdr_len f.1 <= PCAPD_SNAPLEN - 16) (packets_of events) -> Forall event_ok events.
Proof.
  induction events as [|e events IH]; [constructor|]. unfold packets_of in *. destruct e; csimpl; try (intros; constructor; [done|by apply IH]).
  intros [[[Hw Hl] Hh] Hf]%Forall_cons. constructor; [|by apply IH]. cbn [fst snd] in *. unfold PCAPD_SNAPLEN in *. split_and!; [done|lia|lia|rewrite Hl; done].
Qed.

(** What the capture does with the packets of the daemon. *)
Lemma frames_ok frames fs n :
  Forall2 is_frame frames (take n fs) -> Forall accepted fs -> Forall (fun f => blen (fp_data f) <= PCAPD_SNAPLEN - 16) fs ->
  Forall (fun f => buffer_ok f.2) frames ->
  Forall (fun f => (buffer_ok f.2 /\ 0 <= hdr_len f.1 <= PCAPD_SNAPLEN - 16) /\ 0 <= get_ip_offset (hdr_linktype f.1) <= hdr_len f.1) frames.
Proof.
  intros Hf Ha Hl Hb. apply Forall_forall. intros f Hin. apply list_elem_of_lookup in Hin as [i Hi].
  destruct (Forall2_lookup_l _ _ _ _ _ Hf Hi) as (g & Hg & [Eh _]). apply lookup_take_Some in Hg as [Hg _].
  pose proof (proj1 (Forall_lookup _ _) Ha _ _ Hg) as [Hfr Ho _]. pose proof (proj1 (Forall_lookup _ _) Hl _ _ Hg) as Hlen. cbn in Hlen.
  pose proof (fo_data _ Hfr) as Hd. pose proof (blen_nonneg (fp_data g)). rewrite Eh.
  split; [split; [exact (proj1 (Forall_lookup _ _) Hb _ _ Hi)|lia]|exact Ho].
Qed.

Section root_system.
Context {P F : Type} `{Ndpi P} `{NdpiFlow F} (java_app_name : Z -> option bytes).
#[local] Existing Instance libpcap_mode.

(** C3: The root capture with its daemon. The daemon has made its engine
    ([zdtun_init]) and its process ([fork]), could open its interfaces and its
    sockets, with descriptors that are positive and distinct, and has no filter
    on the UIDs (with one it can hang); its network has packets of at most 65519
    bytes; the capture reads from the socket in pieces of any size, without an
    error. Then none of the packets that the daemon sent is refused by the
    capture for its data link or its length, and when the capture processes them
    - with the timeouts, the requests of the Java side, the reloads and the
    failures of JNI calls and of most allocations in between (every [realloc]
    and [strndup], the LRU cache and the records of the blacklists of the start
    have to succeed) - its run has no undefined behaviour and ends with nothing
    left. *)
Theorem root_system_safe conf e events sys outs_r buffer :
  inet_named conf -> start_ok conf e -> fresh_sys sys -> no_uid_filter conf -> Forall no_io_error outs_r -> buffer_ok buffer ->
  (forall p, NextPkt p ∈ sy_pkts sys -> blen (cp_data p) <= PCAPD_SNAPLEN - 16) ->
  exists rv r' frames fatal, run_pcap_dump true conf e events (zero_rt sys) = Some (rv, r') /\
    read_frames (S (length (sy_sent (rt_sys r')))) outs_r (sy_wire (rt_sys r')) buffer = (frames, Some fatal) /\
    (rv <> PCAPD_SOCKET_WRITE_ERROR -> Forall2 is_frame frames (sy_sent (rt_sys r'))) /\
    Forall (fun f => 0 <= get_ip_offset (hdr_linktype f.1) <= hdr_len f.1) frames /\
    forall run_vpn env (s : pcapdroid P F), packets_of (env_events env) `prefix_of` frames ->
      allocs_ok env -> initial s -> all_ok (reallocs s) -> all_ok (strndups s) ->
      exists rv' s', pd_run java_app_name run_vpn env s = Some (rv', s') /\
        new_conns s' = empty_array /\ conns_updates s' = empty_array /\ connections s' = [] /\ dumper (pcap_dump s') = None.
Proof.
  intros Hinet Hst Hsys Hnf Ho Hb Hsmall.
  destruct (run_read_back conf e events sys outs_r buffer Hinet Hst Hsys Hnf Ho) as (rv & r' & taken & frames & fatal & n & E & Ht & Hc & [Hs [rest Hw]] & Er & Hf & Hn).
  assert (Hwire : wf_bytes (sy_wire (rt_sys r'))).
  { pose proof (stream_of_wf _ Hs) as Hsw. rewrite Hw in Hsw. by apply Forall_app in Hsw as [? _]. }
  assert (Hlen : Forall (fun f => blen (fp_data f) <= PCAPD_SNAPLEN - 16) (sy_sent (rt_sys r'))).
  { apply Forall_forall. intros f Hin. destruct (carries_len _ _ _ _ Hc Hin) as (p & Hp & Hl). etrans; [exact Hl|]. apply Hsmall. rewrite Ht. apply elem_of_app. by left. }
  pose proof (frames_ok _ _ _ Hf Hs Hlen (read_frames_buffers _ _ _ _ _ _ Hwire Hb Er)) as Hok.
  exists rv, r', frames, fatal. split_and!; [done|done|intros Hne; destruct (Hn Hne) as [-> _]; by rewrite firstn_all in Hf|by eapply Forall_impl; [exact Hok|intros ? []]|].
  intros run_vpn env s [more Hpre] Ha Hini Hr Hsd.
  assert (Hev : Forall event_ok (env_events env)).
  { apply packets_ok. rewrite Hpre in Hok. apply Forall_app in Hok as [Hok _]. eapply Forall_impl; [exact Hok|]. by intros ? []. }
  destruct (pd_run_ends java_app_name false run_vpn env s Ha libpcap_no_table (loop_safe_libpcap java_app_name false run_vpn env Hev) Hini Hr Hsd ltac:(done))
    as (rv' & s' & E' & Hn' & Hb' & Hcn & Hd & _). exists rv', s'. split_and!; auto.
Qed.
End root_system.

(** The run of the daemon whose packet is read in pieces, then a turn without
    one. *)
Lemma root_system_safe_witness : exists rv r' frames fatal, ex_drun = Some (rv, r') /\
  read_frames (S (length (sy_sent (rt_sys r')))) [IoDone 1; IoIntr; IoDone 40] (sy_wire (rt_sys r')) (zeros PCAPD_SNAPLEN) = (frames, Some fatal) /\
  exists rv' s', pd_run ex_app_name (mret 0) (ex_env (((fun f => EvPacket (Some 1100) f.1 f.2) <$> frames) ++ [EvTimeout (Some 2000)])) (ex_state <| jni_calls := [] |>) = Some (rv', s') /\
    connections s' = [].
Proof.
  destruct (root_system_safe ex_app_name ex_dconf ex_denv ex_devents ex_dsys [IoDone 1; IoIntr; IoDone 40] (zeros PCAPD_SNAPLEN) ex_dconf_named ex_denv_ok ex_dsys_fresh)
    as (rv & r' & frames & fatal & E & Er & _ & _ & Hrun).
  - by left.
  - by repeat constructor.
  - split; [by apply Forall_replicate|]. unfold zeros, blen. rewrite length_replicate. done.
  - intros p. unfold ex_dsys, ex_cap. cbn [sy_pkts]. rewrite !elem_of_cons. intros [[= ->]|[[= ->]|[]%not_elem_of_nil]]; done.
  - exists rv, r', frames, fatal. split; [exact E|]. split; [exact Er|].
    destruct (Hrun (mret 0) (ex_env (((fun f => EvPacket (Some 1100) f.1 f.2) <$> frames) ++ [EvTimeout (Some 2000)])) (ex_state <| jni_calls := [] |>)) as (rv' & s' & E' & _ & _ & Hc & _).
    + cbn [env_events ex_env]. unfold packets_of. rewrite omap_app. cbn [omap list_omap]. rewrite app_nil_r. clear. exists [].
      rewrite app_nil_r. induction frames as [|[h b] frames IH]; [done|]. cbn. f_equal. exact IH.
    + apply ex_allocs_ok.
    + apply ex_initial.
    + constructor.
    + constructor.
    + exists rv', s'. exact (conj E' Hc).
Defined.
