(* ===== verification/LogWriter.v ===== *)
(** The log of the core (core/log_writer.c, [log_android] of common/utils.c and
    the callback of core/jni_impl.c): the table of the log files, each opened by
    the first line written to it; and what the files hold after any sequence of
    operations, whatever fails. *)
From Stdlib Require Import ZArith Lia String.
From stdpp Require Import base option gmap numbers list.
From S2P Require Import Prelude AppNames Blacklist NdpiProtos Conn ConnInv UidResolver PcapdArgs NlUtils.

Open Scope Z_scope.

(** ** Levels *)
Definition ANDROID_LOG_DEBUG : Z := 3.
Definition ANDROID_LOG_INFO : Z := 4.
Definition ANDROID_LOG_WARN : Z := 5.
Definition ANDROID_LOG_ERROR : Z := 6.
Definition ANDROID_LOG_FATAL : Z := 7.
Definition PD_DEFAULT_LOGGER : Z := 0.
Definition PD_DEFAULT_LOGGER_LEVEL : Z := ANDROID_LOG_INFO.

Definition loglvl2char (lvl : Z) : bytes :=
  if lvl =? ANDROID_LOG_DEBUG then STR "D"
  else if lvl =? ANDROID_LOG_INFO then STR "I"
  else if lvl =? ANDROID_LOG_WARN then STR "W"
  else if lvl =? ANDROID_LOG_ERROR then STR "E"
  else if lvl =? ANDROID_LOG_FATAL then STR "F"
  else STR "?".

(** ** State *)

(** A stream: the lines that reached the file, and [ferror]. *)
Record FILE := mk_FILE { f_lines : list bytes; f_error : bool }.

Record log_writer := mk_log_writer {
  lw_f : option FILE;
  lw_path : bytes;
  lw_id : Z;
  lw_level : Z;
  lw_errored : bool
}.
#[export] Instance eta_log_writer : Eta log_writer := fun s =>
  mk_log_writer (lw_f s) (lw_path s) (lw_id s) (lw_level s) (lw_errored s).

(** What Android is told. *)
Inductive log_out :=
  | Logcat (lvl : Z) (line : bytes)
  | ReportError (line : bytes).

(** The globals of the module and of [log_android]; the outcomes of the calls to
    the system, [Some e] being a failure with the errno [e]; the blocks that are
    allocated; and the files closed, oldest first. *)
Record log_state := mk_log_state {
  loggers : option (list (option log_writer));  (** NULL, or the slots; [None] for one never written *)
  num_loggers : Z;
  loglevel : Z;
  logcallback : bool;         (** is set *)
  global_pd : bool;           (** is set *)
  lg_callocs : list bool;
  lg_strdups : list bool;
  lg_reallocs : list bool;
  lg_fopens : list (option Z);
  lg_prints : list (option Z);
  lg_flushes : list bool;
  lg_jstrings : list bool;    (** [NewStringUTF] *)
  lg_blocks : Z;
  lg_closed : list (bytes * list bytes);
  lg_out : list log_out
}.
#[export] Instance eta_log_state : Eta log_state := fun s =>
  mk_log_state (loggers s) (num_loggers s) (loglevel s) (logcallback s) (global_pd s) (lg_callocs s)
    (lg_strdups s) (lg_reallocs s) (lg_fopens s) (lg_prints s) (lg_flushes s) (lg_jstrings s)
    (lg_blocks s) (lg_closed s) (lg_out s).

Abbreviation LM := (M log_state).

Definition next_errno (l : list (option Z)) : option Z := default None (head l).

(** Each call takes its outcome; a block more on success. *)
Definition calloc_logger : LM bool :=
  l ← gets lg_callocs; let ok := next_outcome l in
  modify (fun s => s <| lg_callocs := tail l |> <| lg_blocks ::= Z.add (b2z ok) |>);; mret ok.
Definition strdup_path : LM bool :=
  l ← gets lg_strdups; let ok := next_outcome l in
  modify (fun s => s <| lg_strdups := tail l |> <| lg_blocks ::= Z.add (b2z ok) |>);; mret ok.
Definition free_blocks (n : Z) : LM unit := modify (fun s => s <| lg_blocks ::= fun b => b - n |>).
Definition fopen : LM (option Z) :=
  l ← gets lg_fopens; modify (fun s => s <| lg_fopens := tail l |>);; mret (next_errno l).
Definition fprintf : LM (option Z) :=
  l ← gets lg_prints; modify (fun s => s <| lg_prints := tail l |>);; mret (next_errno l).
Definition fflush : LM bool :=
  l ← gets lg_flushes; modify (fun s => s <| lg_flushes := tail l |>);; mret (next_outcome l).

(** [realloc] of the table: the slots are kept, the new one is not written. On
    failure the old block stays. *)
Definition realloc_loggers (n : Z) : LM (option (list (option log_writer))) :=
  s ← gets (fun s : log_state => s); let l := lg_reallocs s in
  modify (fun s => s <| lg_reallocs := tail l |>);;
  if next_outcome l then
    when (match loggers s with None => true | Some _ => false end)
      (modify (fun s => s <| lg_blocks ::= Z.add 1 |>));;
    mret (Some (resize (Z.to_nat n) None (default [] (loggers s))))
  else mret None.

(** [loggers[i]], and a store through it. *)
Definition logger_at (s : log_state) (i : Z) : option log_writer :=
  t ← loggers s; slot ← t !! Z.to_nat i; slot.
Definition set_logger (i : Z) (w : log_writer) : LM unit :=
  modify (fun s => s <| loggers ::= fmap (fun t => <[Z.to_nat i := Some w]> t) |>).

(** ** Operations *)
Definition pd_destroy_logger (w : log_writer) : LM unit :=
  match lw_f w with
  | Some f => modify (fun s => s <| lg_closed ::= fun c => c ++ [(lw_path w, f_lines f)] |>)
  | None => mret tt
  end;;
  free_blocks 2.

Definition pd_close_loggers : LM unit :=
  n ← gets num_loggers;
  for_each (fun i => s ← gets (fun s : log_state => s); w ← of_option (logger_at s i); pd_destroy_logger w)
    (Z.of_nat <$> seq 0 (Z.to_nat n));;
  t ← gets loggers;
  free_blocks (match t with Some _ => 1 | None => 0 end);;
  modify (fun s => s <| loggers := None |> <| num_loggers := 0 |>).

Definition pd_init_logger (path : bytes) (min_lvl : Z) : LM Z :=
  ok ← calloc_logger;
  if negb ok then mret (- ENOMEM) else
  ok ← strdup_path;
  if negb ok then free_blocks 1;; mret (- ENOMEM) else
  n ← gets num_loggers;
  t ← realloc_loggers (n + 1);
  modify (fun s => s <| loggers := t |>);;
  let w := mk_log_writer None path 0 min_lvl false in
  match t with
  | None => pd_destroy_logger w;; mret (-1)
  | Some _ =>
      set_logger n (w <| lw_id := n |>);;
      modify (fun s => s <| num_loggers := n + 1 |>);;
      mret n
  end.

(** "[%c] %s - %s\n" *)
Definition log_line (lvl : Z) (dtbuf msg : bytes) : bytes :=
  STR "[" ++ loglvl2char lvl ++ STR "] " ++ dtbuf ++ STR " - " ++ msg ++ [10].

(** The stream of the logger, opened when it never was; or the result of the
    function. *)
Definition open_logger (id : Z) (w : log_writer) : LM (Z + FILE) :=
  match lw_f w with
  | Some f => mret (if f_error f then inl (- EINVAL) else inr f)
  | None =>
      if lw_errored w then mret (inl (- EINVAL)) else
      r ← fopen;
      match r with
      | Some e => set_logger id (w <| lw_errored := true |>);; mret (inl (- e))
      | None =>
          let f := mk_FILE [] false in
          set_logger id (w <| lw_f := Some f |>);; mret (inr f)
      end
  end.

(** The stream after a flush, whose failure is only seen in [ferror]. *)
Definition flushed (f : FILE) (line : bytes) (ok : bool) : FILE :=
  if ok then mk_FILE (f_lines f ++ [line]) false else mk_FILE (f_lines f) true.

(** The line is written to the stream. *)
Definition write_line (id : Z) (w : log_writer) (f : FILE) (line : bytes) : LM Z :=
  r ← fprintf;
  match r with
  | Some e => set_logger id (w <| lw_f := Some (mk_FILE (f_lines f) true) |>);; mret (- e)
  | None => ok ← fflush; set_logger id (w <| lw_f := Some (flushed f line ok) |>);; mret 0
  end.

Definition pd_log_write (logger_id lvl : Z) (dtbuf msg : bytes) : LM Z :=
  n ← gets num_loggers;
  if (logger_id <? 0) || (logger_id >=? n) then mret (- ENOENT) else
  s ← gets (fun s : log_state => s);
  w ← of_option (logger_at s logger_id);
  if lw_level w >? lvl then mret 0 else
  r ← open_logger logger_id w;
  match r with
  | inl rv => mret rv
  | inr f => write_line logger_id w f (log_line lvl dtbuf msg)
  end.

(** The callback of the capture: the file, and the error that the user sees. *)
Definition log_callback (jni_thread : bool) (lvl : Z) (dtbuf line : bytes) : LM unit :=
  if lvl <? PD_DEFAULT_LOGGER_LEVEL then mret tt else
  pd_log_write PD_DEFAULT_LOGGER lvl dtbuf line;;
  pd ← gets global_pd;
  if negb pd || negb jni_thread then mret tt else
  when (lvl >=? ANDROID_LOG_FATAL)
    (l ← gets lg_jstrings;
     modify (fun s => s <| lg_jstrings := tail l |>);;
     when (next_outcome l) (modify (fun s => s <| lg_out ::= fun o => o ++ [ReportError line] |>))).

(** [text] is what the format and its arguments give. *)
Definition log_android (jni_thread : bool) (dtbuf : bytes) (lvl : Z) (text : bytes) : LM unit :=
  lmin ← gets loglevel;
  when (lvl >=? lmin)
    (let line := snprintf 1024 text in
     modify (fun s => s <| lg_out ::= fun o => o ++ [Logcat lvl line] |>);;
     cb ← gets logcallback;
     when cb (log_callback jni_thread lvl dtbuf line)).

(** ** What the files hold *)
Inductive log_op :=
  | Init (path : bytes) (min_lvl : Z)
  | Write (id lvl : Z) (dtbuf msg : bytes).

Definition log_step (op : log_op) : LM Z :=
  match op with
  | Init path min_lvl => pd_init_logger path min_lvl
  | Write id lvl dtbuf msg => pd_log_write id lvl dtbuf msg
  end.

(** The operations take the lock, so that those of the threads are a sequence. *)
Fixpoint log_run (ops : list log_op) : LM (list Z) :=
  match ops with
  | [] => mret []
  | op :: ops' => rv ← log_step op; rvs ← log_run ops'; mret (rv :: rvs)
  end.

(** A logger is the lines it was given, of its level and above. *)
Record sink := mk_sink { sk_path : bytes; sk_level : Z; sk_lines : list bytes }.

Definition sink_add (lvl : Z) (line : bytes) (k : sink) : sink :=
  if sk_level k <=? lvl then mk_sink (sk_path k) (sk_level k) (sk_lines k ++ [line]) else k.

Definition sink_step (a : list sink) (op : log_op) (rv : Z) : list sink :=
  match op with
  | Init path min_lvl => if rv <? 0 then a else a ++ [mk_sink path min_lvl []]
  | Write id lvl dtbuf msg =>
      if id <? 0 then a else alter (sink_add lvl (log_line lvl dtbuf msg)) (Z.to_nat id) a
  end.

Fixpoint sinks (a : list sink) (ops : list log_op) (rvs : list Z) : list sink :=
  match ops, rvs with
  | op :: ops', rv :: rvs' => sinks (sink_step a op rv) ops' rvs'
  | _, _ => a
  end.

(** Only a logger that was given a line has a file. *)
Definition sink_file (k : sink) : option (bytes * list bytes) :=
  match sk_lines k with [] => None | _ => Some (sk_path k, sk_lines k) end.

Definition io_ok (s : log_state) : Prop :=
  Forall (eq None) (lg_fopens s) /\ Forall (eq None) (lg_prints s) /\ all_ok (lg_flushes s).

Definition lw_lines (w : log_writer) : list bytes := default [] (f_lines <$> lw_f w).
Definition lw_healthy (w : log_writer) : bool :=
  match lw_f w with Some f => negb (f_error f) | None => negb (lw_errored w) end.

(** A slot of the table and its sink; [io]: no operation on a file fails. *)
Record represents (io : bool) (k : sink) (w : log_writer) : Prop := {
  rp_path : lw_path w = sk_path k;
  rp_level : lw_level w = sk_level k;
  rp_prefix : lw_lines w `prefix_of` sk_lines k;
  rp_all : lw_healthy w = true -> lw_lines w = sk_lines k;
  rp_lazy : is_Some (lw_f w) -> sk_lines k <> [];
  rp_io : io = true -> lw_healthy w = true
}.

(** The table: NULL before the first logger. *)
Definition slots (ws : list log_writer) : option (list (option log_writer)) :=
  match ws with [] => None | _ => Some (Some <$> ws) end.

Record log_inv (io : bool) (a : list sink) (s : log_state) : Prop := {
  li_num : num_loggers s = Z.of_nat (length a);
  li_slots : exists ws, loggers s = slots ws /\ Forall2 (represents io) a ws;
  li_blocks : lg_blocks s = 2 * Z.of_nat (length a) + b2z (match a with [] => false | _ => true end);
  li_closed : lg_closed s = [];
  li_reallocs : all_ok (lg_reallocs s);
  li_io : io = true -> io_ok s
}.

Lemma next_errno_none l : Forall (eq None) l -> next_errno l = None /\ Forall (eq None) (tail l).
Proof. destruct l as [|o l]; [done|]. by intros [<- ?]%Forall_cons. Qed.

Lemma slots_lookup ws i : (t ← slots ws; slot ← t !! i; slot) = ws !! i.
Proof.
  destruct ws as [|w0 ws]; [done|]. transitivity ((Some <$> w0 :: ws) !! i ≫= id); [done|].
  rewrite list_lookup_fmap. by destruct ((w0 :: ws) !! i).
Qed.

Lemma slots_insert ws i w : (fun t => <[i := Some w]> t) <$> slots ws = slots (<[i := w]> ws).
Proof.
  destruct ws as [|w0 ws]; [done|]. transitivity (Some (<[i := Some w]> (Some <$> w0 :: ws))); [done|].
  rewrite <- list_fmap_insert. by destruct i.
Qed.

Lemma slot_at io a s i :
  log_inv io a s -> (i < length a)%nat ->
  exists k w, a !! i = Some k /\ logger_at s (Z.of_nat i) = Some w /\ represents io k w.
Proof.
  intros Hi Hl. destruct (li_slots _ _ _ Hi) as (ws & E & Hws).
  destruct (lookup_lt_is_Some_2 a i Hl) as [k Hk]. destruct (Forall2_lookup_l _ _ _ _ _ Hws Hk) as (w & Hw & Hr).
  exists k, w. split; [done|]. split; [|done]. unfold logger_at. by rewrite E, Nat2Z.id, slots_lookup.
Qed.

(** A step that writes a slot of the table, and nothing else that the invariant
    is about. *)
Record edits (io : bool) (i : nat) (w : log_writer) (s s' : log_state) : Prop := {
  ed_loggers : loggers s' = (fun t => <[i := Some w]> t) <$> loggers s;
  ed_num : num_loggers s' = num_loggers s;
  ed_blocks : lg_blocks s' = lg_blocks s;
  ed_closed : lg_closed s' = lg_closed s;
  ed_reallocs : lg_reallocs s' = lg_reallocs s;
  ed_io : io = true -> io_ok s'
}.

Lemma edits_refl io s i w :
  (io = true -> io_ok s) -> logger_at s (Z.of_nat i) = Some w -> edits io i w s s.
Proof.
  intros Hio E. split; try done. unfold logger_at in E. rewrite Nat2Z.id in E. destruct (loggers s) as [t|]; [|done].
  simpl in *. f_equal. destruct (t !! i) as [o|] eqn:Et; [|done]. simpl in E. subst o. by rewrite list_insert_id.
Qed.

Lemma edits_step io i w s s1 s2 :
  edits io i w s s1 -> loggers s2 = loggers s1 -> num_loggers s2 = num_loggers s1 ->
  lg_blocks s2 = lg_blocks s1 -> lg_closed s2 = lg_closed s1 -> lg_reallocs s2 = lg_reallocs s1 ->
  (io_ok s1 -> io_ok s2) -> edits io i w s s2.
Proof. intros [] ? ? ? ? ? ?. split; [congruence..|auto]. Qed.

Lemma edits_set io i w w' id s s1 (Q : unit -> log_state -> Prop) :
  edits io i w s s1 -> i = Z.to_nat id -> (forall s2, edits io i w' s s2 -> Q tt s2) -> wp (set_logger id w') Q s1.
Proof.
  intros [E ? ? ? ? ?] -> HQ. apply wp_modify, HQ. split; try done. simpl. unfold upd. simpl. rewrite E.
  destruct (loggers s); [|done]. simpl. by rewrite list_insert_insert_eq.
Qed.

Lemma edits_fopen io i w s s1 (Q : option Z -> log_state -> Prop) :
  edits io i w s s1 -> (forall o s2, (io = true -> o = None) -> edits io i w s s2 -> Q o s2) -> wp fopen Q s1.
Proof.
  intros Hd HQ. unfold fopen. wp_steps. apply HQ.
  - intros E. by destruct (next_errno_none _ (proj1 (ed_io _ _ _ _ _ Hd E))).
  - apply (edits_step _ _ _ _ _ _ Hd); try done. intros (? & ? & ?). split; [by apply next_errno_none|done].
Qed.

Lemma edits_fprintf io i w s s1 (Q : option Z -> log_state -> Prop) :
  edits io i w s s1 -> (forall o s2, (io = true -> o = None) -> edits io i w s s2 -> Q o s2) -> wp fprintf Q s1.
Proof.
  intros Hd HQ. unfold fprintf. wp_steps. apply HQ.
  - intros E. by destruct (next_errno_none _ (proj1 (proj2 (ed_io _ _ _ _ _ Hd E)))).
  - apply (edits_step _ _ _ _ _ _ Hd); try done. intros (? & ? & ?). split; [done|]. split; [by apply next_errno_none|done].
Qed.

Lemma edits_fflush io i w s s1 (Q : bool -> log_state -> Prop) :
  edits io i w s s1 -> (forall o s2, (io = true -> o = true) -> edits io i w s s2 -> Q o s2) -> wp fflush Q s1.
Proof.
  intros Hd HQ. unfold fflush. wp_steps. apply HQ.
  - intros E. apply all_ok_next. by destruct (ed_io _ _ _ _ _ Hd E) as (_ & _ & ?).
  - apply (edits_step _ _ _ _ _ _ Hd); try done. intros (? & ? & ?). split; [done|]. split; [done|by apply all_ok_tail].
Qed.

(** The slot of a sink is written. *)
Lemma log_inv_edits io a s s' i k w g :
  log_inv io a s -> a !! i = Some k -> represents io (g k) w -> edits io i w s s' ->
  log_inv io (alter g i a) s'.
Proof.
  intros [Hn (ws & E & Hws) Hb Hc Hr Hio] Hk Hrep [E' En Eb Ec Er Hio'].
  split; rewrite ?length_alter, ?En, ?Eb, ?Ec, ?Er; try done.
  - exists (<[i := w]> ws). split.
    + by rewrite E', E, slots_insert.
    + apply Forall2_same_length_lookup. rewrite length_alter, length_insert.
      split; [exact (Forall2_length _ _ _ Hws)|]. intros j k' w' Hk' Hw'.
      destruct (decide (i = j)) as [<-|Hne].
      * rewrite list_lookup_alter_eq, Hk in Hk'. injection Hk' as <-.
        rewrite list_lookup_insert_eq in Hw'; [by injection Hw' as <-|].
        rewrite <- (Forall2_length _ _ _ Hws). by eapply lookup_lt_Some.
      * rewrite list_lookup_alter_ne in Hk' by done. rewrite list_lookup_insert_ne in Hw' by done.
        destruct (Forall2_lookup_l _ _ _ _ _ Hws Hk') as (w'' & Hw'' & ?). congruence.
  - rewrite Hb. f_equal. destruct a; [done|]. by destruct i.
Qed.

(** A line is written, or the logger is out of order for good. *)
Lemma represents_written io lvl line k w f :
  represents io k w -> sk_level k <= lvl -> lw_healthy w = true -> f_lines f = lw_lines w ->
  represents io (sink_add lvl line k) (w <| lw_f := Some (mk_FILE (f_lines f ++ [line]) false) |>).
Proof.
  intros [Hp Hl Hpre Hall _ Hio] Hlvl Hh Hf. unfold sink_add. destruct (Z.leb_spec (sk_level k) lvl); [|lia].
  assert (f_lines f = sk_lines k) as E by (rewrite Hf; by apply Hall).
  split; unfold lw_lines; simpl; rewrite ?E; try done.
  intros _ E'. by destruct (sk_lines k).
Qed.

Lemma represents_failed lvl line k w w' :
  represents false k w -> sk_level k <= lvl -> lw_healthy w' = false ->
  lw_path w' = lw_path w -> lw_level w' = lw_level w -> lw_lines w' = lw_lines w ->
  represents false (sink_add lvl line k) w'.
Proof.
  intros [Hp Hl Hpre _ _ _] Hlvl Hh E1 E2 E3. unfold sink_add. destruct (Z.leb_spec (sk_level k) lvl); [|lia].
  split; rewrite ?E1, ?E2, ?E3, ?Hh; try done.
  - by apply prefix_app_r.
  - intros _ E. simpl in E. by destruct (sk_lines k).
Qed.

(** A write that was not done leaves the logger out of order. *)
Definition broken (w w' : log_writer) : Prop :=
  lw_healthy w' = false /\ lw_path w' = lw_path w /\ lw_level w' = lw_level w /\ lw_lines w' = lw_lines w.

Lemma wp_open_logger io w s id :
  edits io (Z.to_nat id) w s s -> (io = true -> lw_healthy w = true) ->
  wp (open_logger id w) (fun r s' => exists w', edits io (Z.to_nat id) w' s s' /\
    match r with
    | inr f => lw_healthy w = true /\ f_lines f = lw_lines w
    | inl _ => io = false /\ broken w w'
    end) s.
Proof.
  intros Hd Hh. unfold open_logger. destruct (lw_f w) as [f|] eqn:Ef.
  - apply wp_ret. exists w. split; [done|]. unfold broken, lw_healthy, lw_lines in *. rewrite Ef in *. simpl in *.
    destruct (f_error f); [|done]. destruct io; [by discriminate (Hh eq_refl)|done].
  - destruct (lw_errored w) eqn:Ee.
    + apply wp_ret. exists w. split; [done|]. unfold broken, lw_healthy in *. rewrite Ef, Ee in *.
      destruct io; [by discriminate (Hh eq_refl)|done].
    + apply wp_bind, (edits_fopen _ _ _ _ _ _ Hd). intros [e|] s2 Ho Hd2; apply wp_bind.
      * apply (edits_set _ _ _ _ _ _ _ _ Hd2 eq_refl). intros s3 Hd3. apply wp_ret.
        eexists. split; [exact Hd3|]. split; [destruct io; [by discriminate (Ho eq_refl)|done]|].
        unfold broken, lw_healthy, lw_lines. simpl. unfold upd. simpl. by rewrite Ef.
      * apply (edits_set _ _ _ _ _ _ _ _ Hd2 eq_refl). intros s3 Hd3. apply wp_ret.
        eexists. split; [exact Hd3|]. unfold lw_healthy, lw_lines. by rewrite Ef, Ee.
Qed.

Lemma wp_write_line io w w1 f s s1 id line :
  edits io (Z.to_nat id) w1 s s1 -> f_lines f = lw_lines w ->
  wp (write_line id w f line) (fun _ s' => exists w', edits io (Z.to_nat id) w' s s' /\
    (w' = w <| lw_f := Some (mk_FILE (f_lines f ++ [line]) false) |> \/ io = false /\ broken w w')) s1.
Proof.
  intros Hd Hf. unfold write_line.
  assert (broken w (w <| lw_f := Some (mk_FILE (f_lines f) true) |>)) as Hb.
  { done. }
  apply wp_bind, (edits_fprintf _ _ _ _ _ _ Hd). intros [e|] s2 Ho Hd2; apply wp_bind.
  - apply (edits_set _ _ _ _ _ _ _ _ Hd2 eq_refl). intros s3 Hd3. apply wp_ret. eexists. split; [exact Hd3|].
    right. destruct io; [by discriminate (Ho eq_refl)|done].
  - apply (edits_fflush _ _ _ _ _ _ Hd2). intros ok s3 Hok Hd3. apply wp_bind.
    apply (edits_set _ _ _ _ _ _ _ _ Hd3 eq_refl). intros s4 Hd4. apply wp_ret. eexists. split; [exact Hd4|].
    destruct ok; [by left|]. right. destruct io; [by discriminate (Hok eq_refl)|done].
Qed.

Lemma pd_log_write_inv io a s id lvl dtbuf msg :
  log_inv io a s ->
  wp (pd_log_write id lvl dtbuf msg) (fun rv s' => log_inv io (sink_step a (Write id lvl dtbuf msg) rv) s') s.
Proof.
  intros Hi. pose proof (li_num _ _ _ Hi) as Hn. unfold pd_log_write. simpl sink_step. set (line := log_line lvl dtbuf msg).
  wp_steps. rewrite Hn. destruct (Z.ltb_spec id 0); [done|]. simpl orb. rewrite Z.geb_leb.
  destruct (Z.leb_spec (Z.of_nat (length a)) id).
  { apply wp_ret. rewrite (list_alter_ext _ (fun k => k) a a); [by rewrite list_alter_id| |done].
    intros k Hk%lookup_lt_Some. lia. }
  destruct (slot_at io a s (Z.to_nat id) Hi) as (k & w & Hk & Hw & Hr); [lia|].
  pose proof (edits_refl io _ _ _ (li_io _ _ _ Hi) Hw) as Hd. rewrite Z2Nat.id in Hw by lia.
  wp_steps. eapply wp_of_option; [exact Hw|]. rewrite (rp_level _ _ _ Hr), Z.gtb_ltb.
  destruct (Z.ltb_spec lvl (sk_level k)) as [Hlow|Hlvl].
  { apply wp_ret. apply (log_inv_edits io a s s _ k w); try done. unfold sink_add.
    destruct (Z.leb_spec (sk_level k) lvl); [lia|done]. }
  assert (forall w' s', io = false -> broken w w' -> edits io (Z.to_nat id) w' s s' ->
    log_inv io (alter (sink_add lvl line) (Z.to_nat id) a) s') as Hfail.
  { intros w' s' -> (? & ? & ? & ?) ?. apply (log_inv_edits false a s s' _ k w'); try done.
    by apply (represents_failed lvl line k w). }
  apply wp_bind. eapply wp_mono; [apply (wp_open_logger _ _ _ _ Hd (rp_io _ _ _ Hr))|].
  intros [rv|f] s1 (w1 & Hd1 & Hres).
  - apply wp_ret. destruct Hres as [E Hb]. by apply (Hfail w1).
  - destruct Hres as [Hh Hf]. eapply wp_mono; [apply (wp_write_line _ w _ _ _ _ _ _ Hd1 Hf)|].
    intros _ s2 (w2 & Hd2 & [->|[E Hb]]); [|by apply (Hfail w2)].
    apply (log_inv_edits _ _ _ _ _ _ _ _ Hi Hk (represents_written _ _ _ _ _ _ Hr Hlvl Hh Hf) Hd2).
Qed.

(** ** A new logger *)
Lemma slots_append ws w :
  (fun t => <[length ws := Some w]> t) <$> Some (resize (S (length ws)) None (default [] (slots ws))) = slots (ws ++ [w]).
Proof.
  assert (default [] (slots ws) = Some <$> ws) as -> by by destruct ws.
  assert (slots (ws ++ [w]) = Some (Some <$> (ws ++ [w]))) as -> by by destruct ws.
  simpl. f_equal. rewrite fmap_app. simpl. rewrite resize_ge by (rewrite length_fmap; lia).
  rewrite length_fmap, Nat.sub_succ_l, Nat.sub_diag by lia. simpl.
  rewrite <- (length_fmap Some ws) at 1. replace (length (Some <$> ws)) with (length (Some <$> ws) + 0)%nat by lia.
  by rewrite insert_app_r.
Qed.

Lemma log_inv_append io a ws s s' path min_lvl :
  log_inv io a s -> loggers s = slots ws -> Forall2 (represents io) a ws ->
  loggers s' = slots (ws ++ [mk_log_writer None path (num_loggers s) min_lvl false]) ->
  num_loggers s' = num_loggers s + 1 -> lg_blocks s' = lg_blocks s + 2 + match loggers s with Some _ => 0 | None => 1 end ->
  lg_closed s' = lg_closed s -> all_ok (lg_reallocs s') -> (io_ok s -> io_ok s') ->
  log_inv io (a ++ [mk_sink path min_lvl []]) s'.
Proof.
  intros [Hn _ Hb Hc _ Hio] E Hws E' En Eb Ec Hr Hio'. pose proof (Forall2_length _ _ _ Hws) as Hl.
  split; try done; [| |rewrite Eb, Hb|congruence|auto].
  - rewrite En, Hn, length_app. simpl. lia.
  - eexists. split; [exact E'|]. apply Forall2_app; [done|]. constructor; [|done].
    split; try done. by intros [? ?].
  - rewrite length_app, E. destruct a, ws; simpl in *; try lia.
Qed.

Lemma pd_init_logger_inv io a s path min_lvl :
  log_inv io a s ->
  wp (pd_init_logger path min_lvl) (fun rv s' => log_inv io (sink_step a (Init path min_lvl) rv) s' /\
                                                 (rv < 0 \/ rv = Z.of_nat (length a))) s.
Proof.
  intros Hi. pose proof Hi as [Hn (ws & E & Hws) Hb Hc Hr Hio]. pose proof (Forall2_length _ _ _ Hws) as Hl.
  unfold pd_init_logger, calloc_logger, strdup_path, free_blocks. wp_steps.
  destruct (next_outcome (lg_callocs s)); simpl negb; cbv iota.
  2: { apply wp_ret. split; [|left; done]. simpl. split; try done. exists ws. done. }
  wp_steps. match goal with |- context [next_outcome ?l] => destruct (next_outcome l) end; simpl negb; cbv iota; wp_steps.
  2: { split; [|left; done]. simpl. split; try done; [exists ws; done|]. rewrite <- Hb. simpl. unfold upd. simpl. lia. }
  unfold realloc_loggers. wp_steps.
  match goal with |- context [next_outcome ?l] => replace (next_outcome l) with true by (symmetry; by apply all_ok_next) end.
  cbv iota. unfold set_logger. wp_steps; (split; [|by right]); simpl sink_step;
    (replace (_ <? 0) with false by (symmetry; apply Z.ltb_ge; change (0 <= num_loggers s); lia));
    apply (log_inv_append io a ws s); try done; simpl; unfold upd; simpl; try by apply all_ok_tail.
  all: try (rewrite <- slots_append, E, Hn, Hl, Nat2Z.id; simpl; do 3 f_equal; lia).
  all: match goal with H : match _ with Some _ => _ | None => _ end = _ |- _ => simpl in H; unfold upd in H; simpl in H end;
    destruct (loggers s); try done; lia.
Qed.

Lemma log_run_inv io ops : forall a s, log_inv io a s ->
  wp (log_run ops) (fun rvs s' => log_inv io (sinks a ops rvs) s') s.
Proof.
  induction ops as [|op ops IH]; intros a s Hi; [done|]. simpl. apply wp_bind.
  eapply wp_mono with (Q := fun rv s' => log_inv io (sink_step a op rv) s').
  { destruct op as [path lvl|id lvl dtbuf msg]; simpl log_step.
    - eapply wp_mono; [by apply pd_init_logger_inv|]. by intros rv s' [? _].
    - by apply pd_log_write_inv. }
  intros rv s1 Hi1. apply wp_bind. eapply wp_mono; [by apply IH|]. done.
Qed.

(** ** The end of the log *)
Definition lw_file (w : log_writer) : option (bytes * list bytes) := f ← lw_f w; Some (lw_path w, f_lines f).

Lemma destroy_loggers : forall ps ws s, loggers s = slots (ps ++ ws) ->
  wp (for_each (fun i => s ← gets (fun s : log_state => s); w ← of_option (logger_at s i); pd_destroy_logger w)
      (Z.of_nat <$> seq (length ps) (length ws)))
    (fun _ s' => loggers s' = slots (ps ++ ws) /\ lg_closed s' = lg_closed s ++ omap lw_file ws /\
                 lg_blocks s' = lg_blocks s - 2 * Z.of_nat (length ws)) s.
Proof.
  intros ps ws. revert ps. induction ws as [|w ws IH]; intros ps s E.
  { apply wp_ret. split; [exact E|]. split; [simpl; by rewrite app_nil_r|simpl; lia]. }
  simpl. wp_steps. assert (logger_at s (Z.of_nat (length ps)) = Some w) as Hw.
  { unfold logger_at. by rewrite E, Nat2Z.id, slots_lookup, lookup_app_r, Nat.sub_diag by lia. }
  eapply wp_of_option; [exact Hw|]. unfold pd_destroy_logger, free_blocks. wp_steps.
  eapply wp_mono with (Q := fun _ s' => loggers s' = slots (ps ++ w :: ws) /\ 
    lg_closed s' = lg_closed s ++ option_list (lw_file w) /\ lg_blocks s' = lg_blocks s).
  { unfold lw_file. destruct (lw_f w); wp_steps; [done|]. by rewrite app_nil_r. }
  intros [] s1 (E1 & Ec & Eb). wp_steps.
  specialize (IH (ps ++ [w]) (s1 <| lg_blocks ::= fun b => b - 2 |>)).
  rewrite length_app, Nat.add_1_r, <- app_assoc in IH. eapply wp_mono; [apply IH, E1|].
  intros _ s2 (E2 & Ec2 & Eb2). split; [done|]. split.
  - rewrite Ec2. change (lg_closed s1 ++ omap lw_file ws = lg_closed s ++ omap lw_file (w :: ws)).
    rewrite Ec, <- app_assoc. f_equal. simpl. by destruct (lw_file w).
  - rewrite Eb2. simpl. unfold upd. simpl. lia.
Qed.

Lemma pd_close_loggers_files ws s :
  loggers s = slots ws -> num_loggers s = Z.of_nat (length ws) ->
  wp pd_close_loggers (fun _ s' => loggers s' = None /\ num_loggers s' = 0 /\ lg_closed s' = lg_closed s ++ omap lw_file ws /\
     lg_blocks s' = lg_blocks s - 2 * Z.of_nat (length ws) - match ws with [] => 0 | _ => 1 end) s.
Proof.
  intros E En. unfold pd_close_loggers. wp_steps. rewrite En, Nat2Z.id.
  eapply wp_mono; [exact (destroy_loggers [] ws s E)|]. intros _ s1 (E1 & Ec & Eb). unfold free_blocks. wp_steps.
  split; [done|]. split; [done|]. split; [exact Ec|]. rewrite E1. simpl. unfold upd. simpl. rewrite Eb. destruct ws; simpl; lia.
Qed.

(** ** The files of a run *)
Record log_start (s : log_state) : Prop := {
  ls_loggers : loggers s = None;
  ls_num : num_loggers s = 0;
  ls_blocks : lg_blocks s = 0;
  ls_closed : lg_closed s = []
}.

(** The lines of [k] that reached its file [o]: a prefix, and all of them when no
    operation on the files fails. *)
Definition kept (io : bool) (k : sink) (o : option (list bytes)) : Prop :=
  match o with
  | Some lines => lines `prefix_of` sk_lines k /\ (io = true -> lines = sk_lines k) /\ sk_lines k <> []
  | None => io = true -> sk_lines k = []
  end.

(** Whatever the operations on the loggers and wherever the other calls fail, as
    long as no realloc does, the functions have no undefined behaviour, each log
    file holds a prefix of the lines given to its logger of its level and above,
    in order and once each, only the loggers that were given one have a file, and
    the end of the log closes them all and frees every block; when no operation
    on a file fails, the files hold all the lines. *)
Lemma log_files io ops s :
  log_start s -> all_ok (lg_reallocs s) -> (io = true -> io_ok s) ->
  wp (rvs ← log_run ops; pd_close_loggers;; mret rvs)
    (fun rvs s' => loggers s' = None /\ lg_blocks s' = 0 /\
       let ks := sinks [] ops rvs in
       exists os, Forall2 (kept io) ks os /\ 
         lg_closed s' = omap (fun p => pair (sk_path p.1) <$> p.2) (zip ks os)) s.
Proof.
  intros [E1 E2 E3 E4] Hr Hio. assert (log_inv io [] s) as Hi.
  { split; try done. exists []. by split. }
  apply wp_bind. eapply wp_mono; [by apply log_run_inv|]. intros rvs s1 [Hn (ws & E & Hws) Hb Hc _ _]. cbv beta.
  pose proof (Forall2_length _ _ _ Hws) as Hl. apply wp_bind. 
  eapply wp_mono; [apply (pd_close_loggers_files ws _ E); congruence|]. intros [] s2 (F1 & F2 & F3 & F4). apply wp_ret.
  split; [done|]. split. { rewrite F4, Hb, Hl. destruct (sinks [] ops rvs), ws; simpl in *; try done; lia. }
  exists ((fun w => f_lines <$> lw_f w) <$> ws). rewrite F3, Hc. simpl. clear - Hws. induction Hws as [|k w ks ws Hr Hws IH]; [by split|].
  destruct IH as [IH1 IH2]. split.
  - constructor; [|done]. pose proof Hr as [Hp _ Hpre Hall Hlazy Hiow]. unfold kept, lw_lines in *. destruct (lw_f w) as [f|] eqn:Ef; simpl in *.
    + split; [done|]. split; [|by apply Hlazy]. intros Hio. by apply Hall, Hiow.
    + intros Hio. symmetry. by apply Hall, Hiow.
  - csimpl. rewrite <- IH2. unfold lw_file at 1. rewrite (rp_path _ _ _ Hr). by destruct (lw_f w).
Qed.

(** When no allocation fails the loggers are numbered in order. *)
Lemma pd_init_logger_id io a s path min_lvl :
  log_inv io a s -> next_outcome (lg_callocs s) = true -> next_outcome (lg_strdups s) = true ->
  wp (pd_init_logger path min_lvl) (fun rv _ => rv = Z.of_nat (length a)) s.
Proof.
  intros Hi Hc Hs. unfold pd_init_logger, calloc_logger, strdup_path, realloc_loggers, set_logger. wp_steps.
  rewrite Hc. simpl negb. cbv iota. wp_steps.
  match goal with |- context [next_outcome ?l] => change (next_outcome l) with (next_outcome (lg_strdups s)) end.
  rewrite Hs. simpl negb. cbv iota. wp_steps.
  match goal with |- context [next_outcome ?l] => 
    replace (next_outcome l) with true by (symmetry; apply all_ok_next, (li_reallocs _ _ _ Hi)) end.
  cbv iota. wp_steps; exact (li_num _ _ _ Hi).
Qed.

(** A fatal message goes to the log of the system, to the first log file and, on
    the thread of the capture, to the user, cut to 1023 bytes in the three. *)
Lemma log_android_fatal k ks s dtbuf lvl text :
  log_inv true (k :: ks) s -> logcallback s = true -> global_pd s = true -> loglevel s <= lvl ->
  ANDROID_LOG_FATAL <= lvl -> next_outcome (lg_jstrings s) = true ->
  wp (log_android true dtbuf lvl text)
    (fun _ s' => log_inv true (sink_add lvl (log_line lvl dtbuf (snprintf 1024 text)) k :: ks) s' /\
                 lg_out s' = lg_out s ++ [Logcat lvl (snprintf 1024 text); ReportError (snprintf 1024 text)]) s.
Proof.
  intros Hi Hcb Hpd Hlmin Hf Hj. set (line := snprintf 1024 text). unfold ANDROID_LOG_FATAL in Hf.
  unfold log_android, log_callback, PD_DEFAULT_LOGGER_LEVEL, ANDROID_LOG_INFO, ANDROID_LOG_FATAL. fold line.
  apply wp_bind, wp_gets, wp_when; intros Hc; rewrite Z.geb_leb in Hc; [|apply Z.leb_gt in Hc; lia].
  cbv zeta. wp_steps;
    [|match goal with H : _ = false |- _ => simpl in H; unfold upd in H; simpl in H; congruence end]. destruct (Z.ltb_spec lvl 4); [lia|]. apply wp_bind.
  eapply wp_mono; [apply (wp_preserves (fun s => (lg_out s, global_pd s, lg_jstrings s)))|].
  { unfold pd_log_write, open_logger, write_line, fopen, fprintf, fflush, set_logger. preserves_steps. }
  { apply (pd_log_write_inv true (k :: ks)). destruct Hi. by split. }
  intros rv s1 [Hi1 [= Eo Ep Ej]]. wp_steps. rewrite Ep.
  match goal with |- context [global_pd ?x] => change (global_pd x) with (global_pd s) end. rewrite Hpd. simpl negb. simpl orb. cbv iota.
  apply wp_when; intros Hl; rewrite Z.geb_leb in Hl; [|apply Z.leb_gt in Hl; lia]. wp_steps.
  - split; [|simpl; unfold upd; simpl; by rewrite Eo, <- app_assoc]. destruct Hi1. by split.
  - exfalso. match goal with H : next_outcome _ = false |- _ => rewrite Ej in H; simpl in H; unfold upd in H; simpl in H; congruence end.
Qed.

(** A failed realloc loses the table while the number of the loggers stays: the
    next line goes through a null pointer. *)
Definition no_log : log_state := mk_log_state None 0 3 true true [] [] [] [] [] [] [] 0 [] [].

Example realloc_failure_loses_table :
  log_run [Init (STR "a") 4; Init (STR "b") 4; Write 0 4 (STR "now") (STR "x")]
    (no_log <| lg_reallocs := [true; false] |>) = None.
Proof. reflexivity. Qed.

(** A line whose flush fails is reported as written. *)
Example failed_flush_unreported :
  match (rvs ← log_run [Init (STR "a") 4; Write 0 4 (STR "now") (STR "x")]; pd_close_loggers;; mret rvs)
          (no_log <| lg_flushes := [false] |>) with
  | Some (rvs, s) => rvs = [0; 0] /\ lg_closed s = [(STR "a", [])]
  | None => False
  end.
Proof. by vm_compute. Qed.

Lemma log_files_witness :
  wp (rvs ← log_run [Init (STR "a") 4; Init (STR "b") 6; Write 0 4 (STR "now") (STR "x"); Write 1 5 (STR "now") (STR "y")];
      pd_close_loggers;; mret rvs)
    (fun rvs s' => loggers s' = None /\ lg_blocks s' = 0 /\
       let ks := sinks [] [Init (STR "a") 4; Init (STR "b") 6; Write 0 4 (STR "now") (STR "x"); Write 1 5 (STR "now") (STR "y")] rvs in
       exists os, Forall2 (kept true) ks os /\ lg_closed s' = omap (fun p => pair (sk_path p.1) <$> p.2) (zip ks os)) no_log.
Proof. apply (log_files true); [by split|apply List.Forall_nil|intros _; split; [apply List.Forall_nil|split; apply List.Forall_nil]]. Defined.
