(* ===== verification/JavaStart.v ===== *)
(** The start of a capture (core/jni_impl.c): what the Java side answers, the
    state that [runPacketLoop] makes of it and the run that it starts, in either
    mode; and the functions that only report to Java. Any number of captures,
    one after the other, is safe. *)
From Stdlib Require Import ZArith Lia String.
From stdpp Require Import base option gmap numbers list.
From S2P Require Import Prelude Packet Uthash Lru AppNames PortMap PcapDump Blacklist NdpiProtos Conn ConnInv.
From S2P Require Import JavaDump Dpi Housekeeping JavaRequests CaptureLibpcap PdRun Kernel Zdtun ZdtunEngine CText UidResolver CaptureVpn VpnSafe PcapdArgs Examples.

Open Scope Z_scope.

Definition PATH_MAX : Z := 4096.
Definition COLON : Z := 58.

(** ** Answers *)

(** What a call of a Java method gives: an exception, which [jniCheckException]
    clears, or an object, perhaps null. *)
Inductive java_answer (A : Type) := Throws | Null | Value (a : A).
#[global] Arguments Throws {A}.
#[global] Arguments Null {A}.
#[global] Arguments Value {A} a.

(** The string that is copied to [buf], which has [bufsize] bytes; [None]: the
    result is NULL and the buffer is left. *)
Definition getStringPref (obj : java_answer bytes) (bufsize : Z) : option bytes :=
  match obj with
  | Value value => Some (take (Z.to_nat (bufsize - 1)) value)
  | _ => None
  end.

(** [GetStringUTFChars] and the like have no null object: the outer [None]. The
    result of the method is kept for what it does with the value. *)
Definition with_string {A} (obj : java_answer bytes) (default : A) (f : bytes -> A) : option A :=
  match obj with
  | Throws => Some default
  | Null => None
  | Value value => Some (f value)
  end.

Section addresses.
Context {P : Type} `{Ndpi P} (inet_aton : bytes -> option Z).

Definition getIPv4Pref (obj : java_answer bytes) : option Z :=
  with_string obj 0 (fun value => match value with [] => 0 | _ => default 0 (inet_aton value) end).

Definition getIPv6Pref (obj : java_answer bytes) : option Z :=
  with_string obj 0 (fun value => default 0 (inet_pton6 value)).

(** The version, which is left as it is for an empty string, and the address. *)
Definition getIPPref (obj : java_answer bytes) (ip_ver : Z) : option (Z * Z) :=
  with_string obj (ip_ver, 0) (fun value => match value with [] => (ip_ver, 0) | _ => zdtun_parse_ip value end).
End addresses.

(** [elements]: [GetIntArrayElements] succeeds; [alloc]: the malloc does. The
    number of elements, or -1, and the array. *)
Definition getIntArrayPref (jarr : java_answer (list Z)) (elements alloc : bool) : option (Z * option (list Z)) :=
  match jarr with
  | Throws => Some (-1, None)
  | Null => None
  | Value l =>
      let size := Z.of_nat (length l) in
      if size >? 0 then if elements && alloc then Some (size, Some l) else Some (-1, None)
      else Some (size, None)
  end.

(** [jstr]: the string of the argument could be made. *)
Definition getLibprogPath (jstr : bool) (obj : java_answer bytes) (bufsize : Z) : option bytes :=
  if negb jstr then Some []
  else with_string obj [] (fun value => take (Z.to_nat (bufsize - 1)) value).

(** ** Directories *)

(** The string with a slash, [strcat(dir, "/")] in an array of [PATH_MAX] bytes
    that is zeroed at first. *)
Definition dir_of (obj : java_answer bytes) : option bytes :=
  let dir := default [] (getStringPref obj PATH_MAX) in
  if blen dir + 2 <=? PATH_MAX then Some (dir ++ STR "/") else None.

(** [strncpy(buf + off, s, n)] *)
Definition strncpy (buf : bytes) (off : Z) (s : bytes) (n : Z) : bytes :=
  let src := take (Z.to_nat n) s in
  take (Z.to_nat off) buf ++ src ++ replicate (Z.to_nat n - length src) 0 ++ drop (Z.to_nat (off + n)) buf.

(** [get_cache_path] and [get_file_path]: the array after the call. *)
Definition get_path (dir : bytes) (dir_len : Z) (subpath : bytes) : bytes :=
  <[Z.to_nat (PATH_MAX - 1) := 0]> (strncpy dir dir_len subpath (PATH_MAX - dir_len - 1)).

(** ** SOCKS5 *)

(** The arrays of the user and the password, of 32 bytes each. *)
Definition no_auth : bytes * bytes := (replicate 32 0, replicate 32 0).

Definition getSocks5ProxyAuth (obj : java_answer bytes) : bytes * bytes :=
  let buf := default [] (getStringPref obj 64) in
  match after COLON buf with
  | None => no_auth
  | Some pass =>
      (strncpy (replicate 32 0) 0 (until (fun c => c =? COLON) buf) 32, strncpy (replicate 32 0) 0 pass 32)
  end.

(** The string of an array; [None]: it has no terminator, and what reads it
    goes past its end. *)
Definition array_string (arr : bytes) : option bytes :=
  if bool_decide (0 ∈ arr) then Some (cstring arr) else None.

(** ** What Java says of the capture to start *)
Record java_prefs := mk_prefs {
  getMitmAddonUid : Z;
  isVpnCapture : Z;
  isPcapFileCapture : Z;
  getPayloadMode : Z;
  pcapDumpEnabled : Z;
  addPcapdroidTrailer : Z;
  isPcapngEnabled : Z;
  getSnaplen : Z;
  getMaxPktsPerFlow : Z;
  getMaxDumpSize : Z;
  getSocks5Enabled : Z;
  getSocks5ProxyAddress : java_answer bytes;
  getSocks5ProxyPort : Z;
  socks5ProxyAuth : java_answer bytes;
  malwareDetectionEnabled : Z;
  firewallEnabled : Z;
  isTlsDecryptionEnabled : Z;
  getWorkingDir : java_answer bytes;
  getPersistentDir : java_answer bytes;
  (* of the VPN mode *)
  getBlockQuickMode : Z;
  getIPv4Enabled : Z;
  getDnsServer : java_answer bytes;
  getVpnDns : java_answer bytes;
  getIPv6Enabled : Z;
  getIpv6DnsServer : java_answer bytes;
  getVpnMTU : Z;
  (* of the root mode *)
  getAppFilterUids : java_answer (list Z);
  getPcapDumperBpf : java_answer bytes;
  getCaptureInterface : java_answer bytes
}.

(** [(bool) getIntPref(..)] *)
Definition to_bool (n : Z) : bool := negb (n =? 0).

(** The code only compares the modes with some of the enumerators, so that an
    integer that is none of them acts as the last one here. *)
Definition payload_mode_of (n : Z) : payload_mode_t :=
  if n =? 0 then PAYLOAD_MODE_NONE else if n =? 1 then PAYLOAD_MODE_MINIMAL else PAYLOAD_MODE_FULL.
Definition block_quic_mode_of (n : Z) : block_quic_mode_t :=
  if n =? 1 then BLOCK_QUIC_MODE_ALWAYS else if n =? 2 then BLOCK_QUIC_MODE_TO_DECRYPT else BLOCK_QUIC_MODE_NEVER.

(** The configuration of the root mode. The interface is used even when it is
    NULL: the default of the buffer is not. *)
Definition root_conf (prefs : java_prefs) (elements alloc : bool) : option libpcap_conf :=
  '(_, uids) ← getIntArrayPref (getAppFilterUids prefs) elements alloc;
  iface ← getStringPref (getCaptureInterface prefs) PATH_MAX;
  Some (mk_lconf (to_bool (isTlsDecryptionEnabled prefs)) (to_bool (isPcapFileCapture prefs)) iface
          (getStringPref (getPcapDumperBpf prefs) 256) (default [] uids) (negb (to_bool (isPcapFileCapture prefs)))
          false 0).

(** The fields of [pcapdroid_t] that the state of the core has not. *)
Record start_conf := mk_sconf {
  sc_mitm_addon_uid : Z;
  sc_proxy : proxy_t;
  sc_auth : bytes * bytes;
  sc_cachedir : bytes;
  sc_filesdir : bytes
}.

(** What the run gets from the system for its calls. *)
Record outcomes_t := mk_outcomes {
  oc_mallocs : list bool;
  oc_reallocs : list bool;
  oc_strndups : list bool;
  oc_jni_calls : list bool
}.

Section start.
Context {P F : Type} `{Ndpi P} `{NdpiFlow F} (java_app_name : Z -> option bytes) (inet_aton : bytes -> option Z).
Abbreviation state := (pcapdroid P F).

(** The version of the proxy is written into [pd] by an initializer of [pd]:
    [zeroed] when the compiler zeroes the member after that. *)
Definition start_conf_of (prefs : java_prefs) (zeroed : bool) : option start_conf :=
  '(ipver, ip) ← getIPPref (getSocks5ProxyAddress prefs) 0;
  cachedir ← dir_of (getWorkingDir prefs);
  filesdir ← dir_of (getPersistentDir prefs);
  Some (mk_sconf (getMitmAddonUid prefs)
          (mk_proxy ip (htons (u16 (getSocks5ProxyPort prefs))) (if zeroed then 0 else ipver))
          (if to_bool (getSocks5Enabled prefs) then getSocks5ProxyAuth (socks5ProxyAuth prefs) else no_auth)
          cachedir filesdir).

(** A pointer that is NULL until the run of the VPN sets it. *)
Definition no_blacklist : blacklist P := mk_blacklist [] [] ndpi_ptree_create (mk_stats 0 0 0 0 0).

(** [pd] is zeroed but for what Java says; the globals of the core, the store
    and what was sent stay. *)
Definition start_state (prefs : java_prefs) (o : outcomes_t) (s : state) : state :=
  mk_pd 0 0 (IpLru.mk_ip_lru 0 []) empty_array empty_array []
    (to_bool (isVpnCapture prefs)) (to_bool (isPcapFileCapture prefs)) (payload_mode_of (getPayloadMode prefs))
    0 0 0 0 zero_zstats zero_cstats []
    (mk_vpn BLOCK_QUIC_MODE_NEVER no_blacklist false 0 0 false 0 (to_bool (getSocks5Enabled prefs)))
    (mk_pcap_dump (to_bool (pcapDumpEnabled prefs)) (to_bool (addPcapdroidTrailer prefs)) (to_bool (isPcapngEnabled prefs))
       (getSnaplen prefs) (getMaxPktsPerFlow prefs) (getMaxDumpSize prefs) None)
    (mk_malware (to_bool (malwareDetectionEnabled prefs)) None None false false None None None [])
    (mk_firewall (to_bool (firewallEnabled prefs)) None None false None None)
    (mk_tls (to_bool (isTlsDecryptionEnabled prefs)) None None)
    ∅ zero_zstats [] (running s) (new_dns_server s) (block_private_dns s) (has_seen_pcapdroid_trailer s)
    (dump_capture_stats_now s) (reload_blacklists_now s) (bl_num_checked_connections s)
    (fw_num_checked_connections s) (netd_resolve_waiting s) (last_connections_dump s)
    (next_connections_dump s) (heap s) (next_ptr s)
    (oc_mallocs o) (oc_reallocs o) (oc_strndups o) (oc_jni_calls o) (java_out s) (pcap_out s).

(** The user and the password for the engine, if none is empty. *)
Definition start_auth (auth : bytes * bytes) : option (option (bytes * bytes)) :=
  let '(user, pass) := auth in
  if bool_decide (head user = Some 0) || bool_decide (head pass = Some 0) then Some None
  else user ← array_string user; pass ← array_string pass; Some (Some (user, pass)).

(** What [run_vpn] reads of the configuration; [base] is what it gets from the
    system. *)
Definition vpn_start (prefs : java_prefs) (conf : start_conf) (base : vpn_env (P:=P)) : option (vpn_env (P:=P)) :=
  dns_server ← getIPv4Pref inet_aton (getDnsServer prefs);
  internal_dns ← getIPv4Pref inet_aton (getVpnDns prefs);
  dns_server6 ← getIPv6Pref (getIpv6DnsServer prefs);
  auth ← (if to_bool (getSocks5Enabled prefs) then start_auth (sc_auth conf) else Some None);
  Some (mk_vpn_env (ve_fcntl base) (ve_resolver base) (ve_bl_alloc base) (ve_name_allocs base)
          (mk_vpn (block_quic_mode_of (getBlockQuickMode prefs)) no_blacklist
             (to_bool (getIPv4Enabled prefs)) dns_server internal_dns
             (to_bool (getIPv6Enabled prefs)) dns_server6 (to_bool (getSocks5Enabled prefs)))
          (ve_zdt base) (getVpnMTU prefs) (sc_proxy conf) auth (ve_events base)).

(** ** Captures *)

(** A capture and what comes before it. *)
Record session := mk_session {
  ss_requests : list java_request;   (** while no capture runs *)
  ss_prefs : java_prefs;
  ss_zeroed : bool;
  ss_outcomes : outcomes_t;
  ss_env : run_env;
  ss_vpn : vpn_env (P:=P);
  ss_world : state -> vpn_world P F;
  ss_kernel : kernel
}.

(** Without [global_pd] only the requests to the globals have an effect. *)
Definition idle_request (r : java_request) : M state unit :=
  match r with
  | StopPacketLoop | AskStatsDump | ReloadBlacklists | SetDnsServer _ | SetPrivateDnsBlocked _ => java_request_step r
  | _ => mret tt
  end.

Definition runPacketLoop (ss : session) : M state Z :=
  conf ← of_option (start_conf_of (ss_prefs ss) (ss_zeroed ss));
  modify (start_state (ss_prefs ss) (ss_outcomes ss));;
  s ← gets (fun s : state => s);
  if vpn_capture s then
    venv ← of_option (vpn_start (ss_prefs ss) conf (ss_vpn ss));
    pd_run java_app_name (run_vpn_pd java_app_name venv (ss_world ss) (ss_kernel ss)) (ss_env ss)
  else pd_run java_app_name (mret 0) (ss_env ss).

Fixpoint captures (l : list session) : M state (list Z) :=
  match l with
  | [] => mret []
  | ss :: l' =>
      for_each idle_request (ss_requests ss);;
      rv ← runPacketLoop ss; rvs ← captures l'; mret (rv :: rvs)
  end.
End start.
#[global] Arguments session P F : clear implicits.

(** ** What the code relies on *)
Definition not_null {A} (obj : java_answer A) : Prop := match obj with Null => False | _ => True end.

(** The directories fit with their slash. *)
Definition dir_fits (obj : java_answer bytes) : Prop :=
  match obj with Value v => blen v + 2 <= PATH_MAX | _ => True end.

(** The user and the password, of the string "user:password" cut to 63 bytes,
    have less than 32 bytes. *)
Definition auth_fits (obj : java_answer bytes) : Prop :=
  match obj with
  | Value v => match after COLON (take 63 v) with
               | Some pass => blen (until (fun c => c =? COLON) (take 63 v)) < 32 /\ blen pass < 32
               | None => True
               end
  | _ => True
  end.

Record prefs_ok (prefs : java_prefs) : Prop := {
  po_proxy : not_null (getSocks5ProxyAddress prefs);
  po_cachedir : dir_fits (getWorkingDir prefs);
  po_filesdir : dir_fits (getPersistentDir prefs);
  po_auth : auth_fits (socks5ProxyAuth prefs);
  po_dns : not_null (getDnsServer prefs);
  po_vpn_dns : not_null (getVpnDns prefs);
  po_dns6 : not_null (getIpv6DnsServer prefs);
  po_mtu : 60 <= getVpnMTU prefs <= 65515
}.

Section sessions.
Context {P F : Type} `{Ndpi P} `{NdpiFlow F} (java_app_name : Z -> option bytes) (inet_aton : bytes -> option Z).
Abbreviation state := (pcapdroid P F).
Implicit Types (s : state) (ss : session P F).

Record session_ok ss : Prop := {
  so_prefs : prefs_ok (ss_prefs ss);
  so_reallocs : all_ok (oc_reallocs (ss_outcomes ss));
  so_strndups : all_ok (oc_strndups (ss_outcomes ss));
  so_events : Forall CaptureLibpcap.event_ok (env_events (ss_env ss));
  so_allocs : allocs_ok (ss_env ss);
  so_resolver : ve_resolver (ss_vpn ss) = true;
  so_bl : ve_bl_alloc (ss_vpn ss) = true;
  so_vpn_events : Forall VpnSafe.event_ok (ve_events (ss_vpn ss));
  so_world : forall x, w_pd (ss_world ss x) = x;
  so_replies : replies_ok (ss_kernel ss)
}.

Lemma with_string_total {A} (obj : java_answer bytes) (d : A) f :
  not_null obj -> is_Some (with_string obj d f).
Proof. by destruct obj; [eexists| |eexists]. Qed.

Lemma dir_of_total obj : dir_fits obj -> exists dir, dir_of obj = Some dir.
Proof.
  intros Hd. unfold dir_of. destruct (Z.leb_spec (blen (default [] (getStringPref obj PATH_MAX)) + 2) PATH_MAX) as [|Hlt];
    [by eexists|]. exfalso. destruct obj as [| |v]; try done. simpl in *. unfold PATH_MAX in *.
  unfold blen in *. rewrite length_take in Hlt. lia.
Qed.

Lemma strncpy_terminated (str : bytes) : blen str < 32 -> 0 ∈ strncpy (replicate 32 0) 0 str 32.
Proof.
  intros Hs. unfold strncpy. simpl take at 1. rewrite app_nil_l. apply elem_of_app. right. apply elem_of_app. left.
  apply elem_of_replicate. split; [done|]. unfold blen in Hs. rewrite length_take. lia.
Qed.

Lemma auth_strings obj :
  auth_fits obj -> exists auth, start_auth (getSocks5ProxyAuth obj) = Some auth.
Proof.
  intros Ha. unfold getSocks5ProxyAuth.
  assert (exists auth, start_auth no_auth = Some auth) as Hno by by eexists.
  destruct obj as [| |v]; [done..|]. simpl getStringPref. simpl default. unfold auth_fits in Ha.
  change (Z.to_nat (64 - 1)) with 63%nat. destruct (after COLON (take 63 v)) as [pass|]; [|done]. destruct Ha as [Hu Hp].
  unfold start_auth. destruct (_ || _); [by eexists|]. unfold array_string.
  rewrite !bool_decide_eq_true_2 by by apply strncpy_terminated. by eexists.
Qed.

Lemma start_conf_total prefs zeroed : prefs_ok prefs -> exists conf, start_conf_of prefs zeroed = Some conf /\
  (to_bool (getSocks5Enabled prefs) = true -> exists auth, start_auth (sc_auth conf) = Some auth).
Proof.
  intros [Hp Hc Hf Ha _ _ _ _]. unfold start_conf_of, getIPPref.
  destruct (with_string_total _ (0, 0) (fun value => match value with [] => (0, 0) | _ => zdtun_parse_ip value end) Hp) as [[ver ip] ->].
  destruct (dir_of_total _ Hc) as [d1 E1], (dir_of_total _ Hf) as [d2 E2]. simpl. rewrite E1. simpl. rewrite E2. simpl.
  eexists. split; [done|]. simpl. intros ->. by apply auth_strings.
Qed.

Lemma vpn_start_total prefs conf base :
  prefs_ok prefs -> (to_bool (getSocks5Enabled prefs) = true -> exists auth, start_auth (sc_auth conf) = Some auth) ->
  ve_resolver base = true -> ve_bl_alloc base = true -> Forall VpnSafe.event_ok (ve_events base) ->
  exists venv, vpn_start inet_aton prefs conf base = Some venv /\ env_ok venv.
Proof.
  intros [_ _ _ _ Hd Hv H6 Hm] Ha Hr Hb He. unfold vpn_start, getIPv4Pref, getIPv6Pref.
  destruct (with_string_total _ 0 (fun value => match value with [] => 0 | _ => default 0 (inet_aton value) end) Hd) as [d1 ->].
  destruct (with_string_total _ 0 (fun value => match value with [] => 0 | _ => default 0 (inet_aton value) end) Hv) as [d2 ->].
  destruct (with_string_total _ 0 (fun value => default 0 (inet_pton6 value)) H6) as [d3 ->].
  assert (exists a, (if to_bool (getSocks5Enabled prefs) then start_auth (sc_auth conf) else Some None) = Some a) as [a Ea].
  { destruct (to_bool _); [by apply Ha|by eexists]. }
  simpl. rewrite Ea. simpl. eexists. split; [done|]. by split.
Qed.

(** The state of the start is one that a run may start with. *)
Lemma start_initial {cmode : CaptureMode} prefs o s :
  heap_ok s -> to_bool (isVpnCapture prefs) = vpn_mode -> initial (start_state prefs o s).
Proof. intros Hh Hm. by split. Qed.

(** A request between two captures does not touch the records. *)
Lemma idle_requests_heap rs s : heap_ok s -> wp (for_each idle_request rs) (fun _ => heap_ok) s.
Proof.
  revert s. induction rs as [|r rs IH]; intros s Hs; [by apply wp_ret|]. cbn [for_each]. wp_step.
  eapply wp_mono with (Q := fun _ => heap_ok); [|intros [] s' Hs'; by apply IH].
  unfold wp. destruct r as [| | |addr| | | | | | | |]; try exact Hs.
  - unfold idle_request, java_request_step, askStatsDump, mbind, M_bind, gets. by destruct (running s).
  - by destruct addr.
Qed.

(** What a capture leaves. *)
Definition at_rest s : Prop :=
  heap_ok s /\ new_conns s = empty_array /\ conns_updates s = empty_array /\ dumper (pcap_dump s) = None.

Lemma finished_at_rest {cmode : CaptureMode} s : finished false s -> at_rest s.
Proof. intros (H1 & H2 & _ & H3 & H4 & _). by split_and!. Qed.

Lemma runPacketLoop_safe ss s : heap_ok s -> session_ok ss ->
  wp (runPacketLoop java_app_name inet_aton ss) (fun _ => at_rest) s.
Proof.
  intros Hh [Hp Hr Hsd Hev Hal Hres Hbl Hvev Hw Hk]. unfold runPacketLoop.
  destruct (start_conf_total (ss_prefs ss) (ss_zeroed ss) Hp) as (conf & Ec & Ha).
  wp_step. eapply wp_of_option; [exact Ec|]. wp_step. apply wp_modify. wp_step. apply wp_gets.
  set (s1 := start_state _ _ s). change (vpn_capture s1) with (to_bool (isVpnCapture (ss_prefs ss))).
  destruct (to_bool (isVpnCapture (ss_prefs ss))) eqn:Em.
  - destruct (vpn_start_total (ss_prefs ss) conf (ss_vpn ss) Hp Ha Hres Hbl Hvev) as (venv & Ev & Henv).
    wp_step. eapply wp_of_option; [exact Ev|].
    destruct (pd_run_ends (cmode := vpn_capture_mode []) java_app_name false (run_vpn_pd java_app_name venv (ss_world ss) (ss_kernel ss)) (ss_env ss) s1)
      as (rv & s' & E & Hf); [done|done| |by apply start_initial|done|done|done|].
    + by apply loop_safe_vpn.
    + unfold wp. rewrite E. by apply finished_at_rest in Hf.
  - destruct (pd_run_ends (cmode := libpcap_mode) java_app_name false (mret 0) (ss_env ss) s1)
      as (rv & s' & E & Hf); [done|done|by apply loop_safe_libpcap|by apply start_initial|done|done|done|].
    unfold wp. rewrite E. by apply finished_at_rest in Hf.
Qed.

(** Any sequence of captures in either mode, one after the other on what the
    ones before left of the store and of the globals: no undefined behaviour,
    under the conditions of [session_ok]. *)
Lemma captures_safe l s : at_rest s -> Forall session_ok l -> wp (captures java_app_name inet_aton l) (fun _ => at_rest) s.
Proof.
  intros Hs Hl. revert s Hs. induction Hl as [|ss l Hss _ IH]; intros s Hs; cbn [captures]; [by apply wp_ret|].
  wp_step. eapply wp_mono; [by apply idle_requests_heap, Hs|]. intros [] s1 Hs1.
  wp_step. eapply wp_mono; [by apply runPacketLoop_safe|]. intros rv s2 Hs2.
  wp_step. eapply wp_mono; [by apply IH|]. intros rvs s3 Hs3. by apply wp_ret.
Qed.
End sessions.

(** ** Two captures, one in each mode *)
Definition ex_prefs (vpn : Z) : java_prefs :=
  mk_prefs 10555 vpn 0 1 1 0 0 0 0 0 0 (Value []) 0 Null 0 1 0
    (Value (STR "/data/user/0/pcapdroid/cache")) (Value (STR "/data/user/0/pcapdroid/files"))
    0 1 (Value (STR "8.8.8.8")) (Value (STR "10.215.173.2")) 0 (Value []) 10000
    (Value [10200]) (Value []) (Value (STR "@inet")).
Definition ex_session (vpn : Z) : session (list Z) Z :=
  mk_session [StopPacketLoop] (ex_prefs vpn) false (mk_outcomes [] [] [] []) (ex_env PdRun.ex_events) ex_vpn_env ex_world ex_kernel.

Lemma ex_session_ok vpn : session_ok (ex_session vpn).
Proof.
  split.
  - by split.
  - apply List.Forall_nil.
  - apply List.Forall_nil.
  - exact PdRun.ex_events_ok.
  - apply ex_allocs_ok.
  - done.
  - done.
  - exact ex_packets_ok.
  - done.
  - exact (cs_replies _ _ _ ex_can_start).
Qed.

Lemma two_captures_safe : wp (captures ex_app_name (fun _ => None) [ex_session 1; ex_session 0]) (fun _ => at_rest) ex_vpn_state.
Proof.
  apply captures_safe; [|apply List.Forall_cons; [apply ex_session_ok|apply List.Forall_cons; [apply ex_session_ok|apply List.Forall_nil]]]. split_and!; [by intros p c|done..].
Qed.
